(* ===== verification/_CoqProject ===== *)
-Q . S2P
Prelude.v
Crc.v
UtilsList.v
Slist.v
Dlist.v
StateMachine.v
WifiProfile.v
WifiMgmr.v
WifiReach.v
ScanItems.v
WifiApi.v
Hex.v
Base64.v
Memp.v
BitmapWindow.v
Bloop.v
BloopProofs.v
BlCmds.v
BlCmdsProofs.v
Bytes.v
BleTransfer.v
BleTransferProofs.v
BleSync.v
Romfs.v
RomfsProofs.v
Rbtree.v
RbtreeTree.v
RbtreeInsert.v
RbtreeProofs.v
RbtreeRemove.v
RbtreeIter.v
RbtreeTable.v
Vfs.v
VfsNames.v
VfsSpec.v
VfsProofs.v
VfsCalls.v
VfsRefine.v
VfsRomfs.v
BlTx.v
BlSta.v
BlTxProofs.v
BlTxReach.v
BlTxFlush.v
BlTxSystem.v
BlTxDrain.v
BlTxWitness.v
BlTxFindings.v
Dhcpd.v
DhcpdProofs.v
DhcpdServer.v
DhcpdReach.v
DhcpdWitness.v
Ringblk.v
RingblkProofs.v
RingblkQueue.v
RingblkReach.v
Rftlv.v
