(* ===== verification/Prelude.v ===== *)
(** * Verification of the Bouffalo Lab IoT SDK components

    The SDK is C code for WiFi and Bluetooth microcontrollers (BL602 and its
    relatives) on FreeRTOS.  This library models the parts of [src/] that are the
    SDK's own logic, and proves what makes them correct.  Each part is translated
    function by function, with the source's names, its guards, early returns and
    error codes, so that a definition can be read beside the C function it stands
    for; the theorems that carry a claim id ([C1], [C2], ...) state the properties
    of the parts, and the other lemmas support them or show behaviour the code
    probably does not mean to have.

    ** How the parts interact

    An application asks the WiFi manager for a connection ([wifi_mgmr_api.c]); the
    request is a message in the manager's queue.  The manager's task takes messages
    one by one and runs them through a hierarchical state machine
    ([stateMachine.c] with the tables of [wifi_mgmr.c]); its actions start and stop
    timers, look up connection profiles ([wifi_mgmr_profile.c]), and call the
    driver.  The driver turns a call into a command for the WiFi firmware and
    queues it ([bl_cmds.c]); beacons the firmware reports go to the manager's scan
    list.  Packets of the IP stack go through the driver's queues, one pair for each
    station, into the descriptors shared with the firmware, and back with a status
    ([bl_tx.c], [ipc_host.c]); messages about stations ([bl_rx.c]) say who is there, and
    the DHCP server gives them their addresses.
    A phone can give the device the network's name and key over Bluetooth
    ([blsync_ble]): packets are put together to messages ([transfer.c]), and the
    messages start scans and connections.  The event loop ([bloop]) runs tasks and
    timers on the intrusive lists of [utils]; applications open devices and files by
    path through the virtual file system ([vfs]), which keeps its inodes and open
    files in red-black trees, and read their files from a ROM image ([romfs]) under
    it.  The utilities (lists, trees, pools, checksums, encodings) stand below all
    of this.

    ** Files

    - [Prelude]: machine integers, outcomes, arrays with bounds, the heap of the
      pointer structures, loops with fuel, the tactic and rewrite database for
      bitwise arithmetic ([zbits]).  [Bytes]: copies between byte buffers.
    - [Crc] ([utils/src/utils_crc.c]): every checksum routine equals polynomial
      division; the errors it detects.
    - [UtilsList], [Slist], [Dlist] ([utils_list.c], [utils_list.h]): pointer lists
      over an explicit heap refine mathematical sequences, operation by operation
      and, for [UtilsList], for every sequence of operations.
    - [Hex], [Base64] ([utils_hex.c], [utils_base64.c]): what is parsed is the value
      of the numeral; encoding and decoding are inverse, within the buffers; the
      stream encoder is the block encoder.
    - [Memp] ([utils_memp.c]): a pool is a stack of free nodes that do not overlap.
    - [Ringblk] ([utils_ringblk.c]): blocks of a ring buffer, queues of blocks.
      [RingblkProofs]: the order of the blocks in the buffer, allocation;
      [RingblkQueue]: the other operations; [RingblkReach]: what holds of the blocks on
      the list after any calls, and where queues and sizes beyond the buffer go wrong.
    - [Rftlv] ([rftlv/phy_rftlv.c]): the records of RF parameters in flash.
    - [BitmapWindow] ([utils_bitmap_window.c]): the window is a set of sequence
      numbers, across the wrap-around.
    - [StateMachine] ([stateMachine.c]): which transition an event takes, against the
      rule [first_enabled] stated apart from the search; what is called in which
      order, where the machine rests.
    - [WifiProfile] ([wifi_mgmr_profile.c]): the profile slots.
    - [WifiMgmr] ([wifi_mgmr.c]): the state tables, guards, actions, timers, pending
      tasks and the event loop as programs of a state monad over the record [env]
      of the manager's globals.  [WifiReach]: an abstract connection machine that
      the loop refines (which events the pending-task word owes after a message, and
      what they do), the step relation of the manager with other tasks and
      timers, and the invariant of its reachable states.  [ScanItems]: the scan list.
      [WifiApi] ([wifi_mgmr_api.c], parts of [wifi_mgmr_ext.c]): the commands that post
      to the manager, which keep its invariant, and what a connection request leaves in
      the status record.
    - [Bloop], [BloopProofs] ([bloop_base.c]): registration, events, timers and the
      loop; timers fire when due and in order, the wait loses no event, and the
      highest task runs.
    - [BlCmds], [BlCmdsProofs] ([bl_cmds.c] with parts of [bl_msg_tx.c] and
      [ipc_host.c]): the command queue under every interleaving of its users, the
      acknowledge interrupt and the confirmations.  No interleaving faults, but for one:
      a confirmation that overtakes a sender which does not wait and has not come back
      from its push frees the command under that sender ([overtaken]).
    - [BlTx] ([bl_tx.c], the descriptor lists of [ipc_host.c], the pbuf functions they
      use): sending, flow control, repetition, release; [BlSta] ([bl_rx.c],
      [bl_main.c]): stations and interfaces.  [BlTxProofs]: the invariant [wf] of the
      driver's memory and what each operation does to it; [BlTxReach]: the callers, the
      firmware and the handlers; [BlTxFlush]: the flush against a plan of what it
      sends; [BlTxSystem]: the step relation of all tasks, and what holds in every
      reachable state (packets conserved, in order, no fault); [BlTxDrain]: the
      driver's packets are all released; [BlTxWitness]: a concrete run;
      [BlTxFindings]: packets and stations left behind.
    - [Dhcpd] ([lwip_dhcpd/dhcp_server_raw.c]): the DHCP server of an access point, from
      the bytes of a datagram to those of the reply.  [DhcpdProofs]: options, the search
      for a free address, releases, replies; [DhcpdServer]: the rules [served] that each
      message follows, and the invariant of the leases; [DhcpdReach]: the servers as a
      system, with datagrams of any contents; [DhcpdWitness]: an exchange, and the
      findings.
    - [BleTransfer], [BleTransferProofs] ([transfer.c], [encrypt_layer.c],
      [payload.c]) and [BleSync] ([blsync_ble.c]): the packet protocol, proved
      against the classes [Uplink], [Downlink] and [Allocates] that say what it
      asks of its transport, its peer and the allocator; and the service on top
      of it.
    - [Romfs], [RomfsProofs] ([fs/romfs/src/bl_romfs.c]): paths, files and
      directories of a ROM image against the tree the image represents; where a path
      has a name longer than the buffer of the search or goes on behind a file, what
      the search does there ([Overrun], [ThroughFile]).
    - [Rbtree] ([utils_rbtree.c]): the tree's operations over a heap of nodes.
      [RbtreeTree]: the trees a heap holds, rotations, positions, balance;
      [RbtreeInsert], [RbtreeProofs], [RbtreeRemove]: the passes down the tree and
      what they do to its values; [RbtreeIter]: iterators, self test and freeing;
      [RbtreeTable]: the class [Table] with its laws, the tree's instance, and the
      refinement of a sorted list.
    - [Vfs] ([fs/vfs/src/*.c]): inodes, descriptors and all calls, over any [Table].
      [VfsNames]: the order of inodes and the routing of paths; [VfsSpec]: what the
      calls promise (a registry, a descriptor table, the drivers); [VfsProofs]: how
      the tables represent it; [VfsCalls]: the simulation, call by call, against the
      drivers' contract [Drivers]; [VfsRefine]: the refinement, what holds in every
      state that calls with legal registrations lead to, that a call returns when the
      driver function it reaches does ([driver_returns]) and what [aos_statfs] does
      instead, and where names break the order; [VfsRomfs]: [romfs] mounted,
      and its files read through all layers.

    ** How C is modelled

    Integers are [Z]; a conversion to a width is written where the C code has it
    ([u8], [u16], [u32], [s32]).  Arrays and buffers are lists; a read or write
    outside them is the outcome [Fault], as are NULL dereferences, failed asserts
    and uses of freed memory, so a theorem that gives [Done] also shows memory
    safety of the path.  Pointer structures live in a heap ([gmap Z Z]); NULL is 0
    and never mapped.  Loops that are not structural take fuel, and [NoFuel] is an
    outcome of its own: the theorems that state a result give fuel that is enough
    (the length of the list, image, queue or chain that bounds the loop), so they
    include termination.  Code outside [src/] or of another component's hardware
    (allocator, clocks, semaphores, firmware, IP stack, cJSON, crypto) is a
    parameter of the definitions that call it; hypotheses on such a parameter are
    named, and a witness instantiates them.  Printing and logging are left out.

    ** Concurrency

    Where several tasks run in the same code, the functions are cut at the points
    where a lock is released or a task can block, and the steps of all tasks and
    interrupts interleave freely ([BlCmds], [BlTxSystem], [WifiReach], the posts of other
    tasks in [Bloop]).  A piece under a lock is one step.

    ** Not modelled

    The rest of the utilities (TLV, FEC, hashes), the allocation of a ring of blocks,
    flash partitions, the DNS server, yloop and the descriptor buffers of tpsync are the
    SDK's own and are not modelled.  The device drivers under [fs/vfs/device] only pass calls on to the
    hardware layer.  Register access, chip support and generated headers have no logic
    to state theorems about; EasyFlash, littlefs, cJSON, FastLZ, libfdt, lwIP,
    mbedTLS, wpa_supplicant, OpenThread, AWS IoT and the Zephyr Bluetooth stack are
    other projects kept in the tree. *)
From Stdlib Require Export ZArith Lia Sorted.
From stdpp Require Export base numbers gmap list.

#[global] Open Scope Z_scope.

(** ** Machine integers *)

Definition wrap (w z : Z) : Z := z mod 2 ^ w.
Definition u8 (z : Z) : Z := wrap 8 z.
Definition u16 (z : Z) : Z := wrap 16 z.
Definition u32 (z : Z) : Z := wrap 32 z.
Definition u64 (z : Z) : Z := wrap 64 z.
Definition s32 (z : Z) : Z := (z + 2 ^ 31) mod 2 ^ 32 - 2 ^ 31.
Definition s8 (z : Z) : Z := (z + 2 ^ 7) mod 2 ^ 8 - 2 ^ 7.

Definition byte_ok (b : Z) : Prop := 0 <= b < 256.

(** ** Outcomes: a result, undefined behaviour or a loop that ran out of fuel *)
Inductive outcome (A : Type) : Type :=
| Done (a : A)
| Fault
| NoFuel.
Arguments Done {A} a.
Arguments Fault {A}.
Arguments NoFuel {A}.

#[global] Instance outcome_ret : MRet outcome := fun A a => Done a.
#[global] Instance outcome_bind : MBind outcome := fun A B f m =>
  match m with Done a => f a | Fault => Fault | NoFuel => NoFuel end.

(** a sequence has a result when its first part has one and the rest has it *)
Lemma bind_done {A B} (m : outcome A) (k : A -> outcome B) r : (x ← m; k x) = Done r -> exists x, m = Done x /\ k x = Done r.
Proof. destruct m; [|discriminate..]. eauto. Qed.

(** reading and writing a C array held as a list; an index outside is a fault *)
Definition aget {A} (l : list A) (i : Z) : outcome A :=
  if decide (0 <= i) then
    match l !! Z.to_nat i with Some a => Done a | None => Fault end
  else Fault.
Definition aset {A} (l : list A) (i : Z) (a : A) : outcome (list A) :=
  if decide (0 <= i < Z.of_nat (length l)) then Done (<[Z.to_nat i := a]> l) else Fault.

Lemma aget_done {A} (l : list A) i x : 0 <= i -> l !! Z.to_nat i = Some x -> aget l i = Done x.
Proof. intros Hi H. unfold aget. rewrite decide_True by done. by rewrite H. Qed.
Lemma aset_done {A} (l : list A) i x : 0 <= i < Z.of_nat (length l) -> aset l i x = Done (<[Z.to_nat i := x]> l).
Proof. intros Hi. unfold aset. by rewrite decide_True. Qed.

(** ** Bit-level reasoning *)
Create Rewrite HintDb zbits.
#[export] Hint Rewrite Z.lxor_spec Z.land_spec Z.lor_spec Z.testbit_0_l
  Z.shiftr_spec Z.shiftl_spec Z.lnot_spec using lia : zbits.
#[export] Hint Rewrite xorb_false_r xorb_false_l andb_false_r andb_false_l
  andb_true_r andb_true_l orb_false_r orb_false_l : zbits.

(** two integers are equal when their bits agree; the bit index is named [n] *)
Ltac zbits n :=
  apply Z.bits_inj'; intros n ?; autorewrite with zbits.

Lemma testbit_high (w x n : Z) : 0 <= w -> 0 <= x < 2 ^ w -> w <= n -> Z.testbit x n = false.
Proof.
  intros Hw Hx Hn. rewrite <- (Z.mod_small x (2 ^ w)) by lia. by apply Z.mod_pow2_bits_high.
Qed.

Lemma lxor_bound (w x y : Z) :
  0 <= w -> 0 <= x < 2 ^ w -> 0 <= y < 2 ^ w -> 0 <= Z.lxor x y < 2 ^ w.
Proof.
  intros Hw Hx Hy.
  assert (Z.lxor x y = Z.lxor x y mod 2 ^ w) as ->; [|apply Z.mod_pos_bound; lia].
  rewrite <- Z.land_ones by lia. zbits n.
  destruct (decide (n < w)) as [Hn|Hn].
  - by rewrite Z.ones_spec_low, andb_true_r by lia.
  - rewrite !(testbit_high w) by lia. reflexivity.
Qed.

Lemma lor_bound w x y : 0 <= w -> 0 <= x < 2 ^ w -> 0 <= y < 2 ^ w -> 0 <= Z.lor x y < 2 ^ w.
Proof.
  intros Hw Hx Hy. assert (Z.lor x y = Z.lor x y mod 2 ^ w) as ->; [|apply Z.mod_pos_bound; lia].
  rewrite <- Z.land_ones by lia. zbits n. destruct (decide (n < w)).
  - by rewrite Z.ones_spec_low, andb_true_r by lia.
  - rewrite !(testbit_high w) by lia. reflexivity.
Qed.

Lemma land_ones_bound (w x : Z) : 0 <= w -> 0 <= Z.land x (Z.ones w) < 2 ^ w.
Proof. intros Hw. rewrite Z.land_ones by lia. apply Z.mod_pos_bound. lia. Qed.

(** ** One-word memory cells

    A C struct field that holds a word (a link pointer, a header) is a finite
    map from the address of the struct to the word.  Reading or writing an
    address that is not mapped is undefined behaviour, [Fault]. *)
Definition NULL : Z := 0.
Abbreviation heap := (gmap Z Z).

Definition load (m : heap) (p : Z) : outcome Z :=
  match m !! p with Some v => Done v | None => Fault end.
Definition store (m : heap) (p v : Z) : outcome heap :=
  match m !! p with Some _ => Done (<[p := v]> m) | None => Fault end.

Lemma load_done (m : heap) p v : m !! p = Some v -> load m p = Done v.
Proof. intros H. unfold load. by rewrite H. Qed.
Lemma store_done (m : heap) p v w : m !! p = Some w -> store m p v = Done (<[p := v]> m).
Proof. intros H. unfold store. by rewrite H. Qed.
Lemma store_done_is (m : heap) p v : is_Some (m !! p) -> store m p v = Done (<[p := v]> m).
Proof. intros [w H]. by eapply store_done. Qed.

(** a loop over the nodes of an acyclic structure visits each mapped address
    at most once: this much fuel always suffices *)
Definition loop_fuel (m : heap) : nat := S (size m).

Lemma NoDup_size (m : heap) (xs : list Z) :
  NoDup xs -> (forall x, x ∈ xs -> is_Some (m !! x)) -> (length xs <= size m)%nat.
Proof.
  intros Hn Hd. rewrite <- (size_list_to_set (C := gset Z) xs Hn), <- (size_dom m).
  apply subseteq_size. intros x Hx. rewrite elem_of_list_to_set in Hx.
  apply elem_of_dom. by apply Hd.
Qed.

Lemma insert_same_dom (m : heap) p v : is_Some (m !! p) -> dom (<[p := v]> m) = dom m.
Proof. intros H. by apply dom_insert_lookup_L. Qed.

(** run the next monadic step of the goal after rewriting with its result *)
Ltac step_with H := rewrite H; cbn [mbind outcome_bind].
