(* ===== verification/Crc.v ===== *)
(** * Cyclic redundancy checks: src/utils/src/utils_crc.c

    The table-driven CRC-16 and CRC-32 routines, the streaming CRC-32 and the
    bit-serial CRC-16/CCITT, with a polynomial-division reference ([crc_ref])
    they are all proved equal to, and the error-detection guarantee that
    follows from it.  Data is a list of bytes; the C argument [len] is its
    length. *)
From S2P Require Import Prelude.

(** ** Definitions *)

Definition chCRCHTalbe : list Z :=
  [0x00; 0xC1; 0x81; 0x40; 0x01; 0xC0; 0x80; 0x41; 0x01; 0xC0; 0x80; 0x41;
   0x00; 0xC1; 0x81; 0x40; 0x01; 0xC0; 0x80; 0x41; 0x00; 0xC1; 0x81; 0x40;
   0x00; 0xC1; 0x81; 0x40; 0x01; 0xC0; 0x80; 0x41; 0x01; 0xC0; 0x80; 0x41;
   0x00; 0xC1; 0x81; 0x40; 0x00; 0xC1; 0x81; 0x40; 0x01; 0xC0; 0x80; 0x41;
   0x00; 0xC1; 0x81; 0x40; 0x01; 0xC0; 0x80; 0x41; 0x01; 0xC0; 0x80; 0x41;
   0x00; 0xC1; 0x81; 0x40; 0x01; 0xC0; 0x80; 0x41; 0x00; 0xC1; 0x81; 0x40;
   0x00; 0xC1; 0x81; 0x40; 0x01; 0xC0; 0x80; 0x41; 0x00; 0xC1; 0x81; 0x40;
   0x01; 0xC0; 0x80; 0x41; 0x01; 0xC0; 0x80; 0x41; 0x00; 0xC1; 0x81; 0x40;
   0x00; 0xC1; 0x81; 0x40; 0x01; 0xC0; 0x80; 0x41; 0x01; 0xC0; 0x80; 0x41;
   0x00; 0xC1; 0x81; 0x40; 0x01; 0xC0; 0x80; 0x41; 0x00; 0xC1; 0x81; 0x40;
   0x00; 0xC1; 0x81; 0x40; 0x01; 0xC0; 0x80; 0x41; 0x01; 0xC0; 0x80; 0x41;
   0x00; 0xC1; 0x81; 0x40; 0x00; 0xC1; 0x81; 0x40; 0x01; 0xC0; 0x80; 0x41;
   0x00; 0xC1; 0x81; 0x40; 0x01; 0xC0; 0x80; 0x41; 0x01; 0xC0; 0x80; 0x41;
   0x00; 0xC1; 0x81; 0x40; 0x00; 0xC1; 0x81; 0x40; 0x01; 0xC0; 0x80; 0x41;
   0x01; 0xC0; 0x80; 0x41; 0x00; 0xC1; 0x81; 0x40; 0x01; 0xC0; 0x80; 0x41;
   0x00; 0xC1; 0x81; 0x40; 0x00; 0xC1; 0x81; 0x40; 0x01; 0xC0; 0x80; 0x41;
   0x00; 0xC1; 0x81; 0x40; 0x01; 0xC0; 0x80; 0x41; 0x01; 0xC0; 0x80; 0x41;
   0x00; 0xC1; 0x81; 0x40; 0x01; 0xC0; 0x80; 0x41; 0x00; 0xC1; 0x81; 0x40;
   0x00; 0xC1; 0x81; 0x40; 0x01; 0xC0; 0x80; 0x41; 0x01; 0xC0; 0x80; 0x41;
   0x00; 0xC1; 0x81; 0x40; 0x00; 0xC1; 0x81; 0x40; 0x01; 0xC0; 0x80; 0x41;
   0x00; 0xC1; 0x81; 0x40; 0x01; 0xC0; 0x80; 0x41; 0x01; 0xC0; 0x80; 0x41;
   0x00; 0xC1; 0x81; 0x40].

Definition chCRCLTalbe : list Z :=
  [0x00; 0xC0; 0xC1; 0x01; 0xC3; 0x03; 0x02; 0xC2; 0xC6; 0x06; 0x07; 0xC7;
   0x05; 0xC5; 0xC4; 0x04; 0xCC; 0x0C; 0x0D; 0xCD; 0x0F; 0xCF; 0xCE; 0x0E;
   0x0A; 0xCA; 0xCB; 0x0B; 0xC9; 0x09; 0x08; 0xC8; 0xD8; 0x18; 0x19; 0xD9;
   0x1B; 0xDB; 0xDA; 0x1A; 0x1E; 0xDE; 0xDF; 0x1F; 0xDD; 0x1D; 0x1C; 0xDC;
   0x14; 0xD4; 0xD5; 0x15; 0xD7; 0x17; 0x16; 0xD6; 0xD2; 0x12; 0x13; 0xD3;
   0x11; 0xD1; 0xD0; 0x10; 0xF0; 0x30; 0x31; 0xF1; 0x33; 0xF3; 0xF2; 0x32;
   0x36; 0xF6; 0xF7; 0x37; 0xF5; 0x35; 0x34; 0xF4; 0x3C; 0xFC; 0xFD; 0x3D;
   0xFF; 0x3F; 0x3E; 0xFE; 0xFA; 0x3A; 0x3B; 0xFB; 0x39; 0xF9; 0xF8; 0x38;
   0x28; 0xE8; 0xE9; 0x29; 0xEB; 0x2B; 0x2A; 0xEA; 0xEE; 0x2E; 0x2F; 0xEF;
   0x2D; 0xED; 0xEC; 0x2C; 0xE4; 0x24; 0x25; 0xE5; 0x27; 0xE7; 0xE6; 0x26;
   0x22; 0xE2; 0xE3; 0x23; 0xE1; 0x21; 0x20; 0xE0; 0xA0; 0x60; 0x61; 0xA1;
   0x63; 0xA3; 0xA2; 0x62; 0x66; 0xA6; 0xA7; 0x67; 0xA5; 0x65; 0x64; 0xA4;
   0x6C; 0xAC; 0xAD; 0x6D; 0xAF; 0x6F; 0x6E; 0xAE; 0xAA; 0x6A; 0x6B; 0xAB;
   0x69; 0xA9; 0xA8; 0x68; 0x78; 0xB8; 0xB9; 0x79; 0xBB; 0x7B; 0x7A; 0xBA;
   0xBE; 0x7E; 0x7F; 0xBF; 0x7D; 0xBD; 0xBC; 0x7C; 0xB4; 0x74; 0x75; 0xB5;
   0x77; 0xB7; 0xB6; 0x76; 0x72; 0xB2; 0xB3; 0x73; 0xB1; 0x71; 0x70; 0xB0;
   0x50; 0x90; 0x91; 0x51; 0x93; 0x53; 0x52; 0x92; 0x96; 0x56; 0x57; 0x97;
   0x55; 0x95; 0x94; 0x54; 0x9C; 0x5C; 0x5D; 0x9D; 0x5F; 0x9F; 0x9E; 0x5E;
   0x5A; 0x9A; 0x9B; 0x5B; 0x99; 0x59; 0x58; 0x98; 0x88; 0x48; 0x49; 0x89;
   0x4B; 0x8B; 0x8A; 0x4A; 0x4E; 0x8E; 0x8F; 0x4F; 0x8D; 0x4D; 0x4C; 0x8C;
   0x44; 0x84; 0x85; 0x45; 0x87; 0x47; 0x46; 0x86; 0x82; 0x42; 0x43; 0x83;
   0x41; 0x81; 0x80; 0x40].

Definition utils_crc_crc32_tab : list Z :=
  [0x00000000; 0x77073096; 0xee0e612c; 0x990951ba; 0x076dc419; 0x706af48f;
   0xe963a535; 0x9e6495a3; 0x0edb8832; 0x79dcb8a4; 0xe0d5e91e; 0x97d2d988;
   0x09b64c2b; 0x7eb17cbd; 0xe7b82d07; 0x90bf1d91; 0x1db71064; 0x6ab020f2;
   0xf3b97148; 0x84be41de; 0x1adad47d; 0x6ddde4eb; 0xf4d4b551; 0x83d385c7;
   0x136c9856; 0x646ba8c0; 0xfd62f97a; 0x8a65c9ec; 0x14015c4f; 0x63066cd9;
   0xfa0f3d63; 0x8d080df5; 0x3b6e20c8; 0x4c69105e; 0xd56041e4; 0xa2677172;
   0x3c03e4d1; 0x4b04d447; 0xd20d85fd; 0xa50ab56b; 0x35b5a8fa; 0x42b2986c;
   0xdbbbc9d6; 0xacbcf940; 0x32d86ce3; 0x45df5c75; 0xdcd60dcf; 0xabd13d59;
   0x26d930ac; 0x51de003a; 0xc8d75180; 0xbfd06116; 0x21b4f4b5; 0x56b3c423;
   0xcfba9599; 0xb8bda50f; 0x2802b89e; 0x5f058808; 0xc60cd9b2; 0xb10be924;
   0x2f6f7c87; 0x58684c11; 0xc1611dab; 0xb6662d3d; 0x76dc4190; 0x01db7106;
   0x98d220bc; 0xefd5102a; 0x71b18589; 0x06b6b51f; 0x9fbfe4a5; 0xe8b8d433;
   0x7807c9a2; 0x0f00f934; 0x9609a88e; 0xe10e9818; 0x7f6a0dbb; 0x086d3d2d;
   0x91646c97; 0xe6635c01; 0x6b6b51f4; 0x1c6c6162; 0x856530d8; 0xf262004e;
   0x6c0695ed; 0x1b01a57b; 0x8208f4c1; 0xf50fc457; 0x65b0d9c6; 0x12b7e950;
   0x8bbeb8ea; 0xfcb9887c; 0x62dd1ddf; 0x15da2d49; 0x8cd37cf3; 0xfbd44c65;
   0x4db26158; 0x3ab551ce; 0xa3bc0074; 0xd4bb30e2; 0x4adfa541; 0x3dd895d7;
   0xa4d1c46d; 0xd3d6f4fb; 0x4369e96a; 0x346ed9fc; 0xad678846; 0xda60b8d0;
   0x44042d73; 0x33031de5; 0xaa0a4c5f; 0xdd0d7cc9; 0x5005713c; 0x270241aa;
   0xbe0b1010; 0xc90c2086; 0x5768b525; 0x206f85b3; 0xb966d409; 0xce61e49f;
   0x5edef90e; 0x29d9c998; 0xb0d09822; 0xc7d7a8b4; 0x59b33d17; 0x2eb40d81;
   0xb7bd5c3b; 0xc0ba6cad; 0xedb88320; 0x9abfb3b6; 0x03b6e20c; 0x74b1d29a;
   0xead54739; 0x9dd277af; 0x04db2615; 0x73dc1683; 0xe3630b12; 0x94643b84;
   0x0d6d6a3e; 0x7a6a5aa8; 0xe40ecf0b; 0x9309ff9d; 0x0a00ae27; 0x7d079eb1;
   0xf00f9344; 0x8708a3d2; 0x1e01f268; 0x6906c2fe; 0xf762575d; 0x806567cb;
   0x196c3671; 0x6e6b06e7; 0xfed41b76; 0x89d32be0; 0x10da7a5a; 0x67dd4acc;
   0xf9b9df6f; 0x8ebeeff9; 0x17b7be43; 0x60b08ed5; 0xd6d6a3e8; 0xa1d1937e;
   0x38d8c2c4; 0x4fdff252; 0xd1bb67f1; 0xa6bc5767; 0x3fb506dd; 0x48b2364b;
   0xd80d2bda; 0xaf0a1b4c; 0x36034af6; 0x41047a60; 0xdf60efc3; 0xa867df55;
   0x316e8eef; 0x4669be79; 0xcb61b38c; 0xbc66831a; 0x256fd2a0; 0x5268e236;
   0xcc0c7795; 0xbb0b4703; 0x220216b9; 0x5505262f; 0xc5ba3bbe; 0xb2bd0b28;
   0x2bb45a92; 0x5cb36a04; 0xc2d7ffa7; 0xb5d0cf31; 0x2cd99e8b; 0x5bdeae1d;
   0x9b64c2b0; 0xec63f226; 0x756aa39c; 0x026d930a; 0x9c0906a9; 0xeb0e363f;
   0x72076785; 0x05005713; 0x95bf4a82; 0xe2b87a14; 0x7bb12bae; 0x0cb61b38;
   0x92d28e9b; 0xe5d5be0d; 0x7cdcefb7; 0x0bdbdf21; 0x86d3d2d4; 0xf1d4e242;
   0x68ddb3f8; 0x1fda836e; 0x81be16cd; 0xf6b9265b; 0x6fb077e1; 0x18b74777;
   0x88085ae6; 0xff0f6a70; 0x66063bca; 0x11010b5c; 0x8f659eff; 0xf862ae69;
   0x616bffd3; 0x166ccf45; 0xa00ae278; 0xd70dd2ee; 0x4e048354; 0x3903b3c2;
   0xa7672661; 0xd06016f7; 0x4969474d; 0x3e6e77db; 0xaed16a4a; 0xd9d65adc;
   0x40df0b66; 0x37d83bf0; 0xa9bcae53; 0xdebb9ec5; 0x47b2cf7f; 0x30b5ffe9;
   0xbdbdf21c; 0xcabac28a; 0x53b39330; 0x24b4a3a6; 0xbad03605; 0xcdd70693;
   0x54de5729; 0x23d967bf; 0xb3667a2e; 0xc4614ab8; 0x5d681b02; 0x2a6f2b94;
   0xb40bbe37; 0xc30c8ea1; 0x5a05df1b; 0x2d02ef8d].

(** a table read; every index used below is masked to or built from bytes *)
Definition tab_get (t : list Z) (i : Z) : Z := nth (Z.to_nat i) t 0.

(** the state of [utils_crc16]'s loop is the pair (chCRCHi, chCRCLo) *)
Definition utils_crc16_step (st : Z * Z) (d : Z) : Z * Z :=
  let '(chCRCHi, chCRCLo) := st in
  let wIndex := Z.lxor chCRCLo d in
  (tab_get chCRCLTalbe wIndex, Z.lxor chCRCHi (tab_get chCRCHTalbe wIndex)).

Definition utils_crc16 (data : list Z) : Z :=
  let '(chCRCHi, chCRCLo) := foldl utils_crc16_step (0xFF, 0xFF) data in
  Z.lor (Z.shiftl chCRCHi 8) chCRCLo.

Definition utils_crc32_step (crc d : Z) : Z :=
  Z.lxor (tab_get utils_crc_crc32_tab (Z.land (Z.lxor crc d) 0xFF)) (Z.shiftr crc 8).

Definition utils_crc32_accumulate (crc : Z) (data : list Z) : Z :=
  let crc := Z.lxor crc 0xffffffff in
  let crc := foldl utils_crc32_step crc data in
  Z.lxor crc 0xffffffff.

Definition utils_crc32 (data : list Z) : Z := utils_crc32_accumulate 0 data.

Record crc32_stream_ctx := { ctx_crc : Z }.

Definition utils_crc32_stream_init (ctx : crc32_stream_ctx) : crc32_stream_ctx :=
  {| ctx_crc := 0xffffffff |}.
Definition utils_crc32_stream_feed (ctx : crc32_stream_ctx) (data : Z) : crc32_stream_ctx :=
  {| ctx_crc := Z.lxor (tab_get utils_crc_crc32_tab (Z.land (Z.lxor (ctx_crc ctx) data) 0xFF))
                  (Z.shiftr (ctx_crc ctx) 8) |}.
Definition utils_crc32_stream_feed_block (ctx : crc32_stream_ctx) (data : list Z) : crc32_stream_ctx :=
  foldl utils_crc32_stream_feed ctx data.
Definition utils_crc32_stream_results (ctx : crc32_stream_ctx) : Z :=
  Z.lxor (ctx_crc ctx) 0xffffffff.

(** one iteration of the inner loop of [utils_crc16_ccitt], on (crc, data) *)
Definition POLY : Z := 0x8408.
Definition utils_crc16_ccitt_bit (st : Z * Z) : Z * Z :=
  let '(crc, data) := st in
  let crc' := if Z.eqb (Z.lxor (Z.land crc 1) (Z.land data 1)) 0
              then Z.shiftr crc 1 else Z.lxor (Z.shiftr crc 1) POLY in
  (crc', Z.shiftr data 1).
Definition utils_crc16_ccitt_byte (crc d : Z) : Z :=
  fst (Nat.iter 8 utils_crc16_ccitt_bit (crc, Z.land 0xff d)).
Definition utils_crc16_ccitt (data : list Z) : Z :=
  let crc := 0xFFFF in
  match data with
  | [] => u16 (Z.lnot crc)
  | _ => u16 (Z.lnot (foldl utils_crc16_ccitt_byte crc data))
  end.

(** ** Reference: bit-serial division by a reflected polynomial *)

Definition bitstep (P x : Z) : Z :=
  if Z.testbit x 0 then Z.lxor (Z.shiftr x 1) P else Z.shiftr x 1.
Definition bitsteps (P : Z) (n : nat) (x : Z) : Z := Nat.iter n (bitstep P) x.
Definition crc_ref (P c : Z) (data : list Z) : Z :=
  foldl (fun c d => bitsteps P 8 (Z.lxor c d)) c data.

(** little-endian value of a byte string *)
Definition le_val (l : list Z) : Z := foldr (fun b a => b + 256 * a) 0 l.

Definition poly16 : Z := 0xA001.
Definition poly32 : Z := 0xEDB88320.

(** ** The division step is linear and invertible *)

Lemma bitstep_lxor P x y : bitstep P (Z.lxor x y) = Z.lxor (bitstep P x) (bitstep P y).
Proof.
  unfold bitstep. rewrite Z.lxor_spec, Z.shiftr_lxor.
  destruct (Z.testbit x 0), (Z.testbit y 0); cbn [xorb]; zbits n;
    destruct (Z.testbit x (n + 1)), (Z.testbit y (n + 1)), (Z.testbit P n); reflexivity.
Qed.

Lemma bitsteps_S P n x : bitsteps P (S n) x = bitsteps P n (bitstep P x).
Proof. unfold bitsteps. by rewrite Nat.iter_succ_r. Qed.

Lemma bitsteps_add P n m x : bitsteps P (n + m) x = bitsteps P m (bitsteps P n x).
Proof. unfold bitsteps. rewrite Nat.add_comm. by rewrite Nat.iter_add. Qed.

Lemma bitsteps_lxor P n x y :
  bitsteps P n (Z.lxor x y) = Z.lxor (bitsteps P n x) (bitsteps P n y).
Proof.
  revert x y. induction n as [|n IH]; intros x y; [done|].
  by rewrite !bitsteps_S, bitstep_lxor, IH.
Qed.

Lemma bitstep_shiftl P x : bitstep P (Z.shiftl x 1) = x.
Proof.
  unfold bitstep. rewrite Z.shiftl_spec_low by lia.
  rewrite Z.shiftr_shiftl_l, Z.shiftl_0_r by lia. done.
Qed.

Lemma bitsteps_shiftl P n x : bitsteps P n (Z.shiftl x (Z.of_nat n)) = x.
Proof.
  induction n as [|n IH]; [by rewrite Z.shiftl_0_r|].
  rewrite bitsteps_S. replace (Z.of_nat (S n)) with (Z.of_nat n + 1) by lia.
  rewrite <- Z.shiftl_shiftl by lia. by rewrite bitstep_shiftl.
Qed.

(** eight steps consume the low byte and shift the rest down *)
Lemma bitsteps_low_byte P x :
  bitsteps P 8 x = Z.lxor (bitsteps P 8 (Z.land x 255)) (Z.shiftr x 8).
Proof.
  rewrite <- (bitsteps_shiftl P 8 (Z.shiftr x 8)) at 1.
  rewrite <- bitsteps_lxor. f_equal. change (Z.of_nat 8) with 8. change 255 with (Z.ones 8).
  zbits n. destruct (decide (n < 8)).
  - rewrite Z.ones_spec_low, (Z.testbit_neg_r _ (n - 8)) by lia. by rewrite andb_true_r, xorb_false_r.
  - rewrite Z.ones_spec_high, Z.shiftr_spec by lia. rewrite andb_false_r, xorb_false_l. f_equal. lia.
Qed.

Section InvertibleStep.
Context (P w : Z) (Hw : 0 < w) (HP : 0 <= P < 2 ^ w) (Htop : Z.testbit P (w - 1) = true).

Lemma shiftr1_bound x : 0 <= x < 2 ^ w -> 0 <= Z.shiftr x 1 < 2 ^ (w - 1).
Proof.
  intros Hx. rewrite Z.shiftr_div_pow2 by lia. change (2 ^ 1) with 2.
  assert (2 ^ w = 2 * 2 ^ (w - 1)) by (rewrite <- Z.pow_succ_r by lia; f_equal; lia).
  split; [apply Z.div_pos; lia | apply Z.div_lt_upper_bound; lia].
Qed.

Lemma bitstep_bound x : 0 <= x < 2 ^ w -> 0 <= bitstep P x < 2 ^ w.
Proof.
  intros Hx. pose proof (shiftr1_bound x Hx) as Hs.
  assert (2 ^ w = 2 * 2 ^ (w - 1)) by (rewrite <- Z.pow_succ_r by lia; f_equal; lia).
  unfold bitstep. destruct (Z.testbit x 0); [apply lxor_bound|]; lia.
Qed.

Lemma bitsteps_bound n x : 0 <= x < 2 ^ w -> 0 <= bitsteps P n x < 2 ^ w.
Proof.
  revert x. induction n as [|n IH]; intros x Hx; [done|].
  rewrite bitsteps_S. by apply IH, bitstep_bound.
Qed.

(** bit [w-1] of the result is the bit shifted out *)
Lemma bitstep_top x : 0 <= x < 2 ^ w -> Z.testbit (bitstep P x) (w - 1) = Z.testbit x 0.
Proof.
  intros Hx. pose proof (shiftr1_bound x Hx) as Hs. unfold bitstep.
  destruct (Z.testbit x 0) eqn:E.
  - rewrite Z.lxor_spec, Htop, (testbit_high (w - 1)) by lia. done.
  - apply (testbit_high (w - 1)); lia.
Qed.

Lemma bitstep_inj x y :
  0 <= x < 2 ^ w -> 0 <= y < 2 ^ w -> bitstep P x = bitstep P y -> x = y.
Proof.
  intros Hx Hy E.
  assert (E0 : Z.testbit x 0 = Z.testbit y 0) by (rewrite <- !bitstep_top by done; by rewrite E).
  assert (Es : Z.shiftr x 1 = Z.shiftr y 1).
  { unfold bitstep in E. rewrite E0 in E. destruct (Z.testbit y 0); [|done].
    apply (f_equal (fun z => Z.lxor z P)) in E.
    by rewrite !Z.lxor_assoc, Z.lxor_nilpotent, !Z.lxor_0_r in E. }
  apply Z.bits_inj'. intros n Hn. destruct (decide (n = 0)) as [->|]; [done|].
  apply (f_equal (fun z => Z.testbit z (n - 1))) in Es. rewrite !Z.shiftr_spec in Es by lia.
  by replace (n - 1 + 1) with n in Es by lia.
Qed.

Lemma bitsteps_inj n x y :
  0 <= x < 2 ^ w -> 0 <= y < 2 ^ w -> bitsteps P n x = bitsteps P n y -> x = y.
Proof.
  revert x y. induction n as [|n IH]; intros x y Hx Hy E; [done|].
  rewrite !bitsteps_S in E. apply IH in E; [|by apply bitstep_bound..].
  by apply bitstep_inj.
Qed.

Lemma crc_ref_bound c data :
  8 <= w -> 0 <= c < 2 ^ w -> Forall byte_ok data -> 0 <= crc_ref P c data < 2 ^ w.
Proof.
  intros H8 Hc Hd. revert c Hc. induction Hd as [|d data Hb _ IH]; intros c Hc; [done|].
  apply IH, bitsteps_bound, lxor_bound; [lia|done|]. unfold byte_ok in Hb.
  assert (2 ^ 8 <= 2 ^ w) by (apply Z.pow_le_mono_r; lia). lia.
Qed.

(** changing the register before a suffix changes it after *)
Lemma crc_ref_inj c c' data :
  8 <= w -> 0 <= c < 2 ^ w -> 0 <= c' < 2 ^ w -> Forall byte_ok data ->
  crc_ref P c data = crc_ref P c' data -> c = c'.
Proof.
  intros H8 Hc Hc' Hd. revert c c' Hc Hc'.
  assert (2 ^ 8 <= 2 ^ w) by (apply Z.pow_le_mono_r; lia).
  induction Hd as [|d data Hb _ IH]; intros c c' Hc Hc' E; [done|]. unfold byte_ok in Hb.
  assert (Hx : forall z, 0 <= z < 2 ^ w -> 0 <= Z.lxor z d < 2 ^ w)
    by (intros; apply lxor_bound; lia).
  apply IH in E; [|by apply bitsteps_bound, Hx..].
  apply bitsteps_inj in E; [|by apply Hx..].
  apply (f_equal (fun z => Z.lxor z d)) in E.
  by rewrite !Z.lxor_assoc, Z.lxor_nilpotent, !Z.lxor_0_r in E.
Qed.
End InvertibleStep.

(** ** The tables hold the reference's 256 one-byte remainders *)

Lemma table_check (t : list Z) (f : Z -> Z) :
  forallb (fun i => f (Z.of_nat i) =? tab_get t (Z.of_nat i)) (seq 0 256) = true ->
  forall i, byte_ok i -> tab_get t i = f i.
Proof.
  intros H i Hi. rewrite forallb_forall in H. specialize (H (Z.to_nat i)).
  unfold byte_ok in Hi. rewrite Z2Nat.id in H by lia.
  symmetry. apply Z.eqb_eq, H, in_seq. lia.
Qed.

Lemma crc32_tab_ref i : byte_ok i -> tab_get utils_crc_crc32_tab i = bitsteps poly32 8 i.
Proof. apply (table_check _ (bitsteps poly32 8)). vm_compute. reflexivity. Qed.

Lemma crc16_tab_ref i :
  byte_ok i -> tab_get chCRCHTalbe i = Z.land (bitsteps poly16 8 i) 255
               /\ tab_get chCRCLTalbe i = Z.shiftr (bitsteps poly16 8 i) 8.
Proof.
  intros Hi. split; revert i Hi;
    [apply (table_check _ (fun i => Z.land (bitsteps poly16 8 i) 255))
    |apply (table_check _ (fun i => Z.shiftr (bitsteps poly16 8 i) 8))];
    vm_compute; reflexivity.
Qed.

Lemma byte_high b n : byte_ok b -> 8 <= n -> Z.testbit b n = false.
Proof. intros Hb Hn. apply (testbit_high 8); unfold byte_ok in Hb; lia. Qed.

Lemma byte_shiftr8 b : byte_ok b -> Z.shiftr b 8 = 0.
Proof. intros Hb. zbits n. apply byte_high; [done|lia]. Qed.

Lemma lxor_byte_shiftr8 c b : byte_ok b -> Z.shiftr (Z.lxor c b) 8 = Z.shiftr c 8.
Proof. intros Hb. by rewrite Z.shiftr_lxor, (byte_shiftr8 b), Z.lxor_0_r. Qed.

Lemma land255_byte x : byte_ok (Z.land x 255).
Proof. change 255 with (Z.ones 8). apply (land_ones_bound 8). lia. Qed.

Lemma crc32_step_ref c b : byte_ok b -> utils_crc32_step c b = bitsteps poly32 8 (Z.lxor c b).
Proof.
  intros Hb. unfold utils_crc32_step.
  rewrite crc32_tab_ref by apply land255_byte.
  by rewrite (bitsteps_low_byte _ (Z.lxor c b)), lxor_byte_shiftr8.
Qed.

Lemma foldl_step_ext {A B} (f g : A -> B -> A) (Q : B -> Prop) l a :
  (forall a b, Q b -> f a b = g a b) -> Forall Q l -> foldl f a l = foldl g a l.
Proof.
  intros Hfg Hl. revert a. induction Hl as [|b l Hb _ IH]; intros a; cbn; [done|].
  by rewrite Hfg, IH.
Qed.

Lemma crc32_accumulate_ref c data :
  Forall byte_ok data ->
  utils_crc32_accumulate c data
  = Z.lxor (crc_ref poly32 (Z.lxor c 0xffffffff) data) 0xffffffff.
Proof.
  intros Hd. unfold utils_crc32_accumulate, crc_ref.
  f_equal. apply (foldl_step_ext _ _ byte_ok); [|done]. intros. by apply crc32_step_ref.
Qed.

(** ** CRC-16: the (Hi, Lo) pair is the 16-bit register *)

Definition pair16 (st : Z * Z) : Z := Z.lor (Z.shiftl (fst st) 8) (snd st).

Lemma pair16_low hi lo : byte_ok lo -> Z.land (pair16 (hi, lo)) 255 = lo.
Proof.
  intros Hlo. unfold pair16; cbn [fst snd]. change 255 with (Z.ones 8). zbits n.
  destruct (decide (n < 8)).
  - by rewrite Z.ones_spec_low, Z.testbit_neg_r, andb_true_r by lia.
  - rewrite Z.ones_spec_high, andb_false_r by lia. by rewrite byte_high by (done || lia).
Qed.

Lemma pair16_high hi lo : byte_ok lo -> Z.shiftr (pair16 (hi, lo)) 8 = hi.
Proof.
  intros Hlo. unfold pair16; cbn [fst snd]. zbits n.
  rewrite (byte_high lo), orb_false_r by (done || lia). f_equal. lia.
Qed.

Lemma pair16_split x : pair16 (Z.shiftr x 8, Z.land x 255) = x.
Proof.
  unfold pair16; cbn [fst snd]. change 255 with (Z.ones 8). zbits n.
  destruct (decide (n < 8)).
  - rewrite (Z.testbit_neg_r _ (n - 8)), Z.ones_spec_low by lia. by rewrite andb_true_r.
  - rewrite Z.shiftr_spec, Z.ones_spec_high, andb_false_r, orb_false_r by lia. f_equal. lia.
Qed.

Lemma pair16_lxor_low b h l :
  byte_ok b -> byte_ok l -> pair16 (h, Z.lxor b l) = Z.lxor (pair16 (h, l)) b.
Proof.
  intros Hb Hl. unfold pair16; cbn [fst snd]. zbits n. destruct (decide (n < 8)).
  - rewrite !(Z.testbit_neg_r _ (n - 8)) by lia. cbn. by rewrite xorb_comm.
  - rewrite (byte_high b), (byte_high l) by (done || lia). by rewrite !orb_false_r, xorb_false_r.
Qed.

Lemma bitsteps16_byte_bound i : byte_ok i -> 0 <= bitsteps poly16 8 i < 2 ^ 16.
Proof.
  intros Hi. apply bitsteps_bound; [lia|unfold poly16; lia|]. unfold byte_ok in Hi. lia.
Qed.

Lemma crc16_step_ref hi lo d :
  byte_ok hi -> byte_ok lo -> byte_ok d ->
  let st' := utils_crc16_step (hi, lo) d in
  byte_ok (fst st') /\ byte_ok (snd st')
  /\ pair16 st' = bitsteps poly16 8 (Z.lxor (pair16 (hi, lo)) d).
Proof.
  intros Hhi Hlo Hd. cbn [utils_crc16_step].
  assert (Hi : byte_ok (Z.lxor lo d)) by (apply (lxor_bound 8); unfold byte_ok in *; lia).
  destruct (crc16_tab_ref _ Hi) as [EH EL]. cbn [fst snd]. rewrite EH, EL.
  assert (Hr : byte_ok (Z.shiftr (bitsteps poly16 8 (Z.lxor lo d)) 8)).
  { pose proof (bitsteps16_byte_bound _ Hi). rewrite Z.shiftr_div_pow2 by lia. unfold byte_ok.
    split; [apply Z.div_pos; lia|apply Z.div_lt_upper_bound; lia]. }
  assert (Hl : byte_ok (Z.lxor hi (Z.land (bitsteps poly16 8 (Z.lxor lo d)) 255))).
  { apply (lxor_bound 8); [lia|exact Hhi|apply land255_byte]. }
  split; [done|]. split; [done|].
  rewrite (bitsteps_low_byte _ (Z.lxor (pair16 _) d)), lxor_byte_shiftr8, pair16_high by done.
  replace (Z.land (Z.lxor (pair16 (hi, lo)) d) 255) with (Z.lxor lo d).
  2:{ rewrite <- (pair16_low hi lo) at 1 by done.
      change 255 with (Z.ones 8). zbits n. destruct (decide (n < 8)).
      - by rewrite !Z.ones_spec_low, !andb_true_r by lia.
      - by rewrite !Z.ones_spec_high, !andb_false_r, (byte_high d) by (done || lia). }
  rewrite <- (pair16_split (bitsteps poly16 8 (Z.lxor lo d))) at 3.
  apply pair16_lxor_low; [done|apply land255_byte].
Qed.

Lemma crc16_fold_ref data hi lo :
  byte_ok hi -> byte_ok lo -> Forall byte_ok data ->
  pair16 (foldl utils_crc16_step (hi, lo) data) = crc_ref poly16 (pair16 (hi, lo)) data.
Proof.
  intros Hhi Hlo Hd. revert hi lo Hhi Hlo.
  induction Hd as [|d data Hb _ IH]; intros hi lo Hhi Hlo; [done|].
  destruct (crc16_step_ref hi lo d Hhi Hlo Hb) as (H1 & H2 & H3).
  cbn [foldl]. destruct (utils_crc16_step (hi, lo) d) as [hi' lo'].
  rewrite IH by done. cbn [crc_ref foldl]. unfold crc_ref. cbn [foldl]. by rewrite <- H3.
Qed.

Lemma crc16_ref data : Forall byte_ok data -> utils_crc16 data = crc_ref poly16 0xFFFF data.
Proof.
  intros Hd. unfold utils_crc16. pose proof (crc16_fold_ref data 255 255) as E.
  destruct (foldl utils_crc16_step (255, 255) data) as [hi lo].
  apply E; [unfold byte_ok; lia..|done].
Qed.

(** ** CRC-16/CCITT: the bit-serial loop consumes register and byte together *)

Lemma land1_testbit x : Z.land x 1 = Z.b2z (Z.testbit x 0).
Proof.
  change 1 with (Z.ones 1) at 1. rewrite Z.land_ones by lia.
  by rewrite Z.bit0_mod.
Qed.

Lemma lxor_b2z_eqb a b : (Z.lxor (Z.b2z a) (Z.b2z b) =? 0) = negb (xorb a b).
Proof. by destruct a, b. Qed.

Lemma ccitt_bit_ref crc data :
  let st := utils_crc16_ccitt_bit (crc, data) in
  Z.lxor (fst st) (snd st) = bitstep POLY (Z.lxor crc data) /\ snd st = Z.shiftr data 1.
Proof.
  cbn [utils_crc16_ccitt_bit fst snd]. split; [|done]. unfold bitstep.
  rewrite !land1_testbit, lxor_b2z_eqb, Z.lxor_spec, Z.shiftr_lxor.
  destruct (xorb _ _); cbn [negb]; [|done]. rewrite !Z.lxor_assoc. f_equal. apply Z.lxor_comm.
Qed.

Lemma ccitt_bits_ref n crc data :
  let st := Nat.iter n utils_crc16_ccitt_bit (crc, data) in
  Z.lxor (fst st) (snd st) = bitsteps POLY n (Z.lxor crc data)
  /\ snd st = Z.shiftr data (Z.of_nat n).
Proof.
  induction n as [|n [IH1 IH2]]; [by rewrite Z.shiftr_0_r|].
  cbn [Nat.iter nat_rect] in *. unfold Nat.iter in *. cbn [nat_rect].
  destruct (nat_rect _ _ _ n) as [c' d']. cbn [fst snd] in IH1, IH2.
  destruct (ccitt_bit_ref c' d') as [E1 E2]. rewrite E1, E2, IH1, IH2. split.
  - reflexivity.
  - rewrite Z.shiftr_shiftr by lia. f_equal. lia.
Qed.

Lemma ccitt_byte_ref crc d :
  byte_ok d -> utils_crc16_ccitt_byte crc d = bitsteps POLY 8 (Z.lxor crc d).
Proof.
  intros Hd. unfold utils_crc16_ccitt_byte.
  assert (Z.land 255 d = d) as ->.
  { rewrite Z.land_comm. change 255 with (Z.ones 8). rewrite Z.land_ones by lia.
    apply Z.mod_small. exact Hd. }
  destruct (ccitt_bits_ref 8 crc d) as [E1 E2]. change (Z.of_nat 8) with 8 in E2.
  rewrite byte_shiftr8 in E2 by done. by rewrite E2, Z.lxor_0_r in E1.
Qed.

(** ** A whole block enters the register as its little-endian value *)

Lemma le_val_cons b l : byte_ok b -> le_val (b :: l) = Z.lxor b (Z.shiftl (le_val l) 8).
Proof.
  intros Hb. cbn [le_val foldr]. fold (le_val l).
  rewrite <- Z.add_nocarry_lxor.
  - rewrite Z.shiftl_mul_pow2 by lia. change (2 ^ 8) with 256. ring.
  - zbits n. destruct (decide (n < 8)).
    + rewrite (Z.testbit_neg_r _ (n - 8)) by lia. by rewrite andb_false_r.
    + by rewrite byte_high by (done || lia).
Qed.

Lemma le_val_bound l : Forall byte_ok l -> 0 <= le_val l < 2 ^ (8 * Z.of_nat (length l)).
Proof.
  induction 1 as [|b l Hb _ IH]; cbn [le_val foldr length]; [done|].
  fold (le_val l). unfold byte_ok in Hb.
  replace (8 * Z.of_nat (S (length l))) with (8 + 8 * Z.of_nat (length l)) by lia.
  rewrite Z.pow_add_r by lia. change (2 ^ 8) with 256. nia.
Qed.

Lemma le_val_inj l l' :
  Forall byte_ok l -> Forall byte_ok l' -> length l = length l' -> le_val l = le_val l' -> l = l'.
Proof.
  intros Hl. revert l'. induction Hl as [|b l Hb _ IH]; intros [|b' l'] Hl' Hn E; try done.
  inversion_clear Hl' as [|? ? Hb' Hl'']. cbn [le_val foldr] in E.
  fold (le_val l) in E. fold (le_val l') in E. unfold byte_ok in *.
  cbn in Hn. f_equal; [lia|]. apply IH; [done|lia|lia].
Qed.

Lemma crc_ref_le_val P c l :
  Forall byte_ok l -> crc_ref P c l = bitsteps P (8 * length l) (Z.lxor c (le_val l)).
Proof.
  intros Hl. revert c. induction Hl as [|b l Hb _ IH]; intros c.
  { cbn. by rewrite Z.lxor_0_r. }
  unfold crc_ref in *. cbn [foldl]. rewrite IH, le_val_cons by done.
  replace (8 * length (b :: l))%nat with (8 + 8 * length l)%nat by (cbn; lia).
  rewrite bitsteps_add. f_equal. rewrite <- Z.lxor_assoc, (bitsteps_lxor P 8 (Z.lxor c b)).
  f_equal. symmetry. apply (bitsteps_shiftl P 8).
Qed.

(** two messages that differ inside one window of at most [w] bits *)
Lemma crc_ref_burst P w c pre mid mid' post :
  8 <= w -> 0 <= P < 2 ^ w -> Z.testbit P (w - 1) = true -> 0 <= c < 2 ^ w ->
  Forall byte_ok pre -> Forall byte_ok mid -> Forall byte_ok mid' -> Forall byte_ok post ->
  length mid = length mid' -> 8 * Z.of_nat (length mid) <= w ->
  crc_ref P c (pre ++ mid ++ post) = crc_ref P c (pre ++ mid' ++ post) -> mid = mid'.
Proof.
  intros H8 HP Htop Hc Hpre Hm Hm' Hpost Hlen Hk.
  unfold crc_ref. rewrite !foldl_app. fold (crc_ref P c pre).
  pose proof (crc_ref_bound P w ltac:(lia) HP c pre H8 Hc Hpre) as Hc'.
  set (c' := crc_ref P c pre) in *. fold (crc_ref P c' mid). fold (crc_ref P c' mid').
  fold (crc_ref P (crc_ref P c' mid) post). fold (crc_ref P (crc_ref P c' mid') post).
  intros E. apply (crc_ref_inj P w) in E; try (done || lia || (apply crc_ref_bound; done || lia)).
  rewrite !crc_ref_le_val, <- Hlen in E by done.
  assert (Hb : forall l, Forall byte_ok l -> length l = length mid -> 0 <= le_val l < 2 ^ w).
  { intros l Hl Hll. pose proof (le_val_bound l Hl) as Hlb. rewrite Hll in Hlb.
    assert (2 ^ (8 * Z.of_nat (length mid)) <= 2 ^ w) by (apply Z.pow_le_mono_r; lia). lia. }
  apply (bitsteps_inj P w) in E; try (done || lia || (apply lxor_bound; [lia|done|by apply Hb])).
  apply le_val_inj; [done..|].
  apply (f_equal (Z.lxor c')) in E. by rewrite <- !Z.lxor_assoc, !Z.lxor_nilpotent, !Z.lxor_0_l in E.
Qed.

(** ** Theorems *)

(** C32: the table-driven CRC-32 computes the remainder of the bit-serial
    division by the reflected IEEE polynomial, register preset and result
    complemented. *)
Theorem utils_crc32_is_division (data : list Z) (Hd : Forall byte_ok data) :
  utils_crc32 data = Z.lxor (crc_ref poly32 0xffffffff data) 0xffffffff.
Proof. unfold utils_crc32. by rewrite crc32_accumulate_ref. Qed.

Lemma utils_crc32_is_division_witness :
  Forall byte_ok [0x31; 0x32; 0x33; 0x34; 0x35; 0x36; 0x37; 0x38; 0x39]
  /\ utils_crc32 [0x31; 0x32; 0x33; 0x34; 0x35; 0x36; 0x37; 0x38; 0x39]
     = Z.lxor (crc_ref poly32 0xffffffff [0x31; 0x32; 0x33; 0x34; 0x35; 0x36; 0x37; 0x38; 0x39]) 0xffffffff.
Proof.
  assert (H : Forall byte_ok [0x31; 0x32; 0x33; 0x34; 0x35; 0x36; 0x37; 0x38; 0x39])
    by (repeat constructor; unfold byte_ok; lia).
  split; [exact H|exact (utils_crc32_is_division _ H)].
Defined.

(** C33: every corruption confined to four consecutive bytes (a burst of up to
    32 bits) changes the CRC-32, whatever surrounds it. *)
Theorem utils_crc32_detects_burst (pre mid mid' post : list Z)
  (Hpre : Forall byte_ok pre) (Hmid : Forall byte_ok mid) (Hmid' : Forall byte_ok mid')
  (Hpost : Forall byte_ok post) (Hlen : length mid = length mid') (Hk : (length mid <= 4)%nat)
  (Hne : mid <> mid') :
  utils_crc32 (pre ++ mid ++ post) <> utils_crc32 (pre ++ mid' ++ post).
Proof.
  intros E. apply Hne. unfold utils_crc32 in E.
  rewrite !crc32_accumulate_ref in E by (by repeat apply Forall_app_2).
  apply (f_equal (fun z => Z.lxor z 0xffffffff)) in E.
  rewrite !Z.lxor_assoc, Z.lxor_nilpotent, !Z.lxor_0_r in E.
  eapply (crc_ref_burst poly32 32 _ pre mid mid' post) in E; try done; unfold poly32; lia.
Qed.

Lemma utils_crc32_detects_burst_witness :
  utils_crc32 ([1] ++ [2; 3] ++ [4]) <> utils_crc32 ([1] ++ [2; 7] ++ [4]).
Proof.
  apply utils_crc32_detects_burst; try (repeat constructor; unfold byte_ok; lia); done.
Defined.

(** Feeding the stream context any sequence of blocks gives the one-shot
    CRC-32 of their concatenation, and [utils_crc32_accumulate] continues a
    finished CRC over the next buffer. *)
Theorem utils_crc32_incremental (ctx : crc32_stream_ctx) (blocks : list (list Z)) (c : Z) (a b : list Z) :
  utils_crc32_stream_results
    (foldl utils_crc32_stream_feed_block (utils_crc32_stream_init ctx) blocks)
  = utils_crc32 (concat blocks)
  /\ utils_crc32_accumulate (utils_crc32_accumulate c a) b = utils_crc32_accumulate c (a ++ b).
Proof.
  assert (Hf : forall l x, foldl utils_crc32_stream_feed {| ctx_crc := x |} l
                           = {| ctx_crc := foldl utils_crc32_step x l |}).
  { induction l as [|d l IH]; intros x; [done|]. cbn [foldl]. apply IH. }
  split.
  - unfold utils_crc32_stream_init, utils_crc32, utils_crc32_accumulate, utils_crc32_stream_results.
    rewrite Z.lxor_0_l. f_equal. generalize 0xffffffff as x.
    induction blocks as [|l blocks IH]; intros x; [done|]. cbn [foldl concat].
    unfold utils_crc32_stream_feed_block at 2. by rewrite Hf, IH, foldl_app.
  - unfold utils_crc32_accumulate.
    by rewrite Z.lxor_assoc, Z.lxor_nilpotent, Z.lxor_0_r, foldl_app.
Qed.

(** The two-table CRC-16 is the division by the reflected polynomial
    x^16+x^15+x^2+1 from the all-ones register, and a corruption of at most two
    consecutive bytes changes it. *)
Theorem utils_crc16_is_division (data : list Z) (pre mid mid' post : list Z)
  (Hd : Forall byte_ok data)
  (Hpre : Forall byte_ok pre) (Hmid : Forall byte_ok mid) (Hmid' : Forall byte_ok mid')
  (Hpost : Forall byte_ok post) (Hlen : length mid = length mid') (Hk : (length mid <= 2)%nat)
  (Hne : mid <> mid') :
  utils_crc16 data = crc_ref poly16 0xFFFF data
  /\ utils_crc16 (pre ++ mid ++ post) <> utils_crc16 (pre ++ mid' ++ post).
Proof.
  split; [by apply crc16_ref|]. intros E. apply Hne.
  rewrite !crc16_ref in E by (by repeat apply Forall_app_2).
  eapply (crc_ref_burst poly16 16 _ pre mid mid' post) in E; try done; unfold poly16; lia.
Qed.

Lemma utils_crc16_is_division_witness :
  utils_crc16 [1; 2; 3] = crc_ref poly16 0xFFFF [1; 2; 3]
  /\ utils_crc16 ([1] ++ [2] ++ [3]) <> utils_crc16 ([1] ++ [4] ++ [3]).
Proof.
  apply utils_crc16_is_division; try (repeat constructor; unfold byte_ok; lia); done.
Defined.

(** The bit-serial CRC-16/CCITT loop, which shifts register and data byte
    together, is the same division for the reflected polynomial 0x8408, from
    the all-ones register and complemented. *)
Theorem utils_crc16_ccitt_is_division (data : list Z) (Hd : Forall byte_ok data) :
  utils_crc16_ccitt data = u16 (Z.lnot (crc_ref POLY 0xFFFF data)).
Proof.
  unfold utils_crc16_ccitt. destruct data as [|d data]; [done|]. do 2 f_equal.
  apply (foldl_step_ext _ _ byte_ok); [|done]. intros. by apply ccitt_byte_ref.
Qed.

Lemma utils_crc16_ccitt_is_division_witness :
  utils_crc16_ccitt [0x31; 0x32] = u16 (Z.lnot (crc_ref POLY 0xFFFF [0x31; 0x32])).
Proof.
  apply utils_crc16_ccitt_is_division. repeat constructor; unfold byte_ok; lia.
Defined.
