(* ===== verification/UtilsList.v ===== *)
(** * Intrusive singly linked lists: src/utils/src/utils_list.c

    [struct utils_list] with its [first] and [last] pointers over nodes
    ([struct utils_list_hdr]) whose [next] field is a cell of the heap.
    [is_list m l xs] says that in heap [m] the list [l] holds the nodes [xs] in
    order; every operation is proved to implement its effect on [xs]. *)
From S2P Require Import Prelude.

(** ** Definitions *)

Record utils_list := { l_first : Z; l_last : Z }.

Definition utils_list_init (l : utils_list) : utils_list :=
  {| l_first := NULL; l_last := NULL |}.

Definition utils_list_is_empty (l : utils_list) : bool := NULL =? l_first l.

Definition utils_list_pick (l : utils_list) : Z := l_first l.
Definition utils_list_pick_last (l : utils_list) : Z := l_last l.
Definition utils_list_next (m : heap) (hdr : Z) : outcome Z := load m hdr.

Definition utils_list_push_back (l : utils_list) (hdr : Z) (m : heap)
  : outcome (utils_list * heap) :=
  '(l, m) ← (if utils_list_is_empty l
             then Done ({| l_first := hdr; l_last := l_last l |}, m)
             else m ← store m (l_last l) hdr; Done (l, m));
  let l := {| l_first := l_first l; l_last := hdr |} in
  m ← store m hdr NULL;
  Done (l, m).

Definition utils_list_push_front (l : utils_list) (hdr : Z) (m : heap)
  : outcome (utils_list * heap) :=
  let l := if utils_list_is_empty l
           then {| l_first := l_first l; l_last := hdr |} else l in
  m ← store m hdr (l_first l);
  Done ({| l_first := hdr; l_last := l_last l |}, m).

Definition utils_list_pop_front (l : utils_list) (m : heap)
  : outcome (Z * utils_list) :=
  let element := l_first l in
  if negb (element =? NULL) then
    n ← load m (l_first l);
    Done (element, {| l_first := n; l_last := l_last l |})
  else Done (element, l).

(** the loop [while (scan->next != NULL && scan->next != list_hdr)] *)
Fixpoint utils_list_extract_scan (fuel : nat) (m : heap) (scan hdr : Z) : outcome Z :=
  match fuel with
  | O => NoFuel
  | S fuel =>
    n ← load m scan;
    if negb (n =? NULL) && negb (n =? hdr)
    then utils_list_extract_scan fuel m n hdr else Done scan
  end.

Definition utils_list_extract (l : utils_list) (hdr : Z) (m : heap)
  : outcome (utils_list * heap) :=
  let scan := l_first l in
  if scan =? NULL then Done (l, m)
  else if scan =? hdr then
    n ← load m scan;
    Done ({| l_first := n; l_last := l_last l |}, m)
  else
    scan ← utils_list_extract_scan (loop_fuel m) m scan hdr;
    n ← load m scan;
    if negb (n =? NULL) then
      let l := if l_last l =? hdr then {| l_first := l_first l; l_last := scan |} else l in
      hn ← load m hdr;
      m ← store m scan hn;
      Done (l, m)
    else Done (l, m).

Fixpoint utils_list_find_scan (fuel : nat) (m : heap) (p hdr : Z) : outcome Z :=
  match fuel with
  | O => NoFuel
  | S fuel =>
    if negb (p =? hdr) && negb (p =? NULL)
    then n ← load m p; utils_list_find_scan fuel m n hdr
    else Done p
  end.

Definition utils_list_find (l : utils_list) (hdr : Z) (m : heap) : outcome bool :=
  p ← utils_list_find_scan (loop_fuel m) m (l_first l) hdr;
  Done (p =? hdr).

Fixpoint utils_list_cnt_loop (fuel : nat) (m : heap) (elt cnt : Z) : outcome Z :=
  match fuel with
  | O => NoFuel
  | S fuel =>
    if negb (elt =? NULL)
    then n ← utils_list_next m elt; utils_list_cnt_loop fuel m n (u32 (cnt + 1))
    else Done cnt
  end.

Definition utils_list_cnt (l : utils_list) (m : heap) : outcome Z :=
  utils_list_cnt_loop (loop_fuel m) m (utils_list_pick l) 0.

(** the scan of [utils_list_insert]: (prev, scan) where it stops *)
Fixpoint utils_list_insert_scan (fuel : nat) (cmp : Z -> Z -> bool) (m : heap)
    (element prev scan : Z) : outcome (Z * Z) :=
  match fuel with
  | O => NoFuel
  | S fuel =>
    if negb (scan =? NULL) then
      if cmp element scan then Done (prev, scan)
      else n ← load m scan; utils_list_insert_scan fuel cmp m element scan n
    else Done (prev, scan)
  end.

Definition utils_list_insert (l : utils_list) (element : Z) (cmp : Z -> Z -> bool) (m : heap)
  : outcome (utils_list * heap) :=
  '(prev, scan) ← utils_list_insert_scan (loop_fuel m) cmp m element NULL (l_first l);
  let l := if scan =? NULL then {| l_first := l_first l; l_last := element |} else l in
  m ← store m element scan;
  if negb (prev =? NULL)
  then m ← store m prev element; Done (l, m)
  else Done ({| l_first := element; l_last := l_last l |}, m).

(** the search loop of [utils_list_insert_after]; NULL when not found *)
Fixpoint utils_list_insert_after_scan (fuel : nat) (m : heap) (scan prev_element : Z) : outcome Z :=
  match fuel with
  | O => NoFuel
  | S fuel =>
    if negb (scan =? NULL) then
      if scan =? prev_element then Done scan
      else n ← load m scan; utils_list_insert_after_scan fuel m n prev_element
    else Done scan
  end.

Definition utils_list_insert_after (l : utils_list) (prev_element element : Z) (m : heap)
  : outcome (utils_list * heap) :=
  if prev_element =? NULL then utils_list_push_front l element m
  else
    scan ← utils_list_insert_after_scan (loop_fuel m) m (l_first l) prev_element;
    if negb (scan =? NULL) then
      pn ← load m prev_element;
      m ← store m element pn;
      m ← store m prev_element element;
      en ← load m element;
      let l := if en =? NULL then {| l_first := l_first l; l_last := element |} else l in
      Done (l, m)
    else Done (l, m).

(** the search loop of [utils_list_insert_before]: the node whose next is the target *)
Fixpoint utils_list_insert_before_scan (fuel : nat) (m : heap) (scan next_element : Z) : outcome Z :=
  match fuel with
  | O => NoFuel
  | S fuel =>
    if negb (scan =? NULL) then
      n ← load m scan;
      if n =? next_element then Done scan
      else utils_list_insert_before_scan fuel m n next_element
    else Done scan
  end.

Definition utils_list_insert_before (l : utils_list) (next_element element : Z) (m : heap)
  : outcome (utils_list * heap) :=
  if next_element =? NULL then utils_list_push_back l element m
  else if next_element =? l_first l then utils_list_push_front l element m
  else
    scan ← utils_list_insert_before_scan (loop_fuel m) m (l_first l) next_element;
    if negb (scan =? NULL) then
      m ← store m element next_element;
      m ← store m scan element;
      Done (l, m)
    else Done (l, m).

Definition utils_list_concat (l1 l2 : utils_list) (m : heap)
  : outcome (utils_list * utils_list * heap) :=
  if negb (l_first l2 =? NULL) then
    '(l1, m) ← (if l_first l1 =? NULL then Done (l2, m)
                else m ← store m (l_last l1) (l_first l2);
                     Done ({| l_first := l_first l1; l_last := l_last l2 |}, m));
    Done (l1, {| l_first := NULL; l_last := l_last l2 |}, m)
  else Done (l1, l2, m).

Definition utils_list_remove (l : utils_list) (prev_element element : Z) (m : heap)
  : outcome (utils_list * heap) :=
  '(l, m) ← (if prev_element =? NULL then
               n ← load m element;
               Done ({| l_first := n; l_last := l_last l |}, m)
             else
               n ← load m element;
               m ← store m prev_element n;
               Done (if l_last l =? element
                     then {| l_first := l_first l; l_last := prev_element |} else l, m));
  m ← store m element NULL;
  Done (l, m).

(** [memcpy] of the default value fills the element, header included, before
    the push overwrites the header: [default_hdr] is the first word of
    [default_value] when one is given *)
Fixpoint utils_list_pool_init_loop (cnt : nat) (l : utils_list) (pool elmt_size : Z)
    (default_hdr : option Z) (m : heap) : outcome (utils_list * heap) :=
  match cnt with
  | O => Done (l, m)
  | S cnt =>
    m ← match default_hdr with Some d => store m pool d | None => Done m end;
    '(l, m) ← utils_list_push_back l pool m;
    utils_list_pool_init_loop cnt l (pool + elmt_size) elmt_size default_hdr m
  end.

Definition utils_list_pool_init (l : utils_list) (pool elmt_size : Z) (elmt_cnt : nat)
    (default_hdr : option Z) (m : heap) : outcome (utils_list * heap) :=
  utils_list_pool_init_loop elmt_cnt (utils_list_init l) pool elmt_size default_hdr m.

(** ** Representation *)

(** the chain of [next] pointers from [p] through the nodes [xs] to [q] *)
Fixpoint lseg (m : heap) (p : Z) (xs : list Z) (q : Z) : Prop :=
  match xs with
  | [] => p = q
  | x :: xs => p = x /\ x <> NULL /\ exists n, m !! x = Some n /\ lseg m n xs q
  end.

Definition is_list (m : heap) (l : utils_list) (xs : list Z) : Prop :=
  lseg m (l_first l) xs NULL /\ NoDup xs /\ (forall x, last xs = Some x -> l_last l = x).

(** [m'] differs from [m] only in the cells of [xs], and maps the same addresses *)
Definition only_changes (m m' : heap) (xs : list Z) : Prop :=
  dom m' = dom m /\ forall y, y ∉ xs -> m' !! y = m !! y.

(** ** Segments *)

Lemma lseg_frame m m' p xs q :
  lseg m p xs q -> (forall x, x ∈ xs -> m' !! x = m !! x) -> lseg m' p xs q.
Proof.
  revert p. induction xs as [|x xs IH]; intros p; cbn; [done|].
  intros (-> & Hx & n & Hn & Hs) Hm. split; [done|]. split; [done|]. exists n.
  split; [rewrite Hm by left; done|]. apply IH; [done|]. intros y Hy. apply Hm. by right.
Qed.

Lemma lseg_insert_ne m p xs q y v : y ∉ xs -> lseg m p xs q -> lseg (<[y := v]> m) p xs q.
Proof.
  intros Hy Hs. eapply lseg_frame; [done|]. intros x Hx.
  apply lookup_insert_ne. by intros ->.
Qed.

Lemma lseg_app m p xs ys q :
  lseg m p (xs ++ ys) q <-> exists r, lseg m p xs r /\ lseg m r ys q.
Proof.
  revert p. induction xs as [|x xs IH]; intros p; cbn.
  - split; [by exists p|by intros (r & -> & ?)].
  - split.
    + intros (-> & Hx & n & Hn & Hs). apply IH in Hs as (r & H1 & H2). exists r.
      split; [|done]. split; [done|]. split; [done|]. by exists n.
    + intros (r & (-> & Hx & n & Hn & Hs) & Hr). split; [done|]. split; [done|].
      exists n. split; [done|]. apply IH. by exists r.
Qed.

Lemma lseg_nonnull m p xs q x : lseg m p xs q -> x ∈ xs -> x <> NULL.
Proof.
  revert p. induction xs as [|y xs IH]; intros p; [by intros _ ?%elem_of_nil|].
  intros (-> & Hy & n & Hn & Hs) [->|Hx]%elem_of_cons; [done|]. by eapply IH.
Qed.

Lemma lseg_dom m p xs q x : lseg m p xs q -> x ∈ xs -> is_Some (m !! x).
Proof.
  revert p. induction xs as [|y xs IH]; intros p; [by intros _ ?%elem_of_nil|].
  intros (-> & Hy & n & Hn & Hs) [->|Hx]%elem_of_cons; [by exists n|]. by eapply IH.
Qed.

Lemma lseg_fuel m p xs q : lseg m p xs q -> NoDup xs -> (length xs < loop_fuel m)%nat.
Proof.
  intros Hs Hn. unfold loop_fuel. pose proof (NoDup_size m xs Hn) as H.
  specialize (H (fun x => lseg_dom m p xs q x Hs)). lia.
Qed.

Lemma lseg_cons_eq m x xs q : lseg m x xs q -> lseg m x xs q.
Proof. done. Qed.

Lemma lseg_null m p xs : lseg m p xs NULL -> (p = NULL <-> xs = []).
Proof.
  destruct xs as [|x xs]; cbn; [by intros ->|]. intros (-> & Hx & _). split; [done|]. done.
Qed.

(** redirect the last node of a segment *)
Lemma lseg_snoc_store m p xs x q r :
  x ∉ xs -> lseg m p (xs ++ [x]) q -> lseg (<[x := r]> m) p (xs ++ [x]) r.
Proof.
  intros Hx (s & H1 & (-> & Hnz & n & Hn & ->))%lseg_app.
  apply lseg_app. exists x. split; [by apply lseg_insert_ne|].
  split; [done|]. split; [done|]. exists r. by rewrite lookup_insert_eq.
Qed.

Lemma snoc_cases {A} (xs : list A) : xs = [] \/ exists ys x, xs = ys ++ [x].
Proof. destruct xs as [|x ys _] using rev_ind; [by left|right; eauto]. Qed.

Lemma is_list_last m l xs x : is_list m l (xs ++ [x]) -> l_last l = x.
Proof. intros (_ & _ & H). apply H. by rewrite last_snoc. Qed.

Lemma is_list_empty m l xs : is_list m l xs -> utils_list_is_empty l = bool_decide (xs = []).
Proof.
  intros (Hs & _ & _). apply lseg_null in Hs. unfold utils_list_is_empty.
  rewrite Z.eqb_sym. destruct (Z.eqb_spec (l_first l) NULL) as [E|E].
  - symmetry. apply bool_decide_eq_true. tauto.
  - symmetry. apply bool_decide_eq_false. tauto.
Qed.

Lemma only_changes_refl m xs : only_changes m m xs.
Proof. by split. Qed.

Lemma only_changes_trans m1 m2 m3 xs :
  only_changes m1 m2 xs -> only_changes m2 m3 xs -> only_changes m1 m3 xs.
Proof.
  intros [D1 H1] [D2 H2]. split; [congruence|]. intros y Hy. by rewrite H2, H1.
Qed.

Lemma only_changes_insert m xs p v :
  p ∈ xs -> is_Some (m !! p) -> only_changes m (<[p := v]> m) xs.
Proof.
  intros Hp Hm. split; [by apply insert_same_dom|]. intros y Hy. apply lookup_insert_ne.
  by intros ->.
Qed.

Lemma only_changes_insert2 m xs p v p' v' :
  p ∈ xs -> p' ∈ xs -> is_Some (m !! p) -> is_Some (m !! p') ->
  only_changes m (<[p' := v']> (<[p := v]> m)) xs.
Proof.
  intros Hp Hp' Hm Hm'. eapply only_changes_trans; apply only_changes_insert; try done.
  rewrite lookup_insert. by case_decide.
Qed.

Lemma only_changes_weaken m m' xs ys :
  only_changes m m' xs -> (forall x, x ∈ xs -> x ∈ ys) -> only_changes m m' ys.
Proof. intros [D H] Hi. split; [done|]. intros y Hy. apply H. by intros ?%Hi. Qed.

(** a node that may be linked: mapped, not NULL and not on the list *)
Definition fresh_node (m : heap) (xs : list Z) (x : Z) : Prop :=
  x <> NULL /\ is_Some (m !! x) /\ x ∉ xs.

Create HintDb lists.
#[export] Hint Resolve only_changes_refl only_changes_insert lseg_insert_ne : lists.

(** ** Operations on the represented sequence *)

Lemma push_back_spec m l xs x :
  is_list m l xs -> fresh_node m xs x ->
  exists l' m', utils_list_push_back l x m = Done (l', m')
    /\ is_list m' l' (xs ++ [x]) /\ only_changes m m' (x :: xs).
Proof.
  intros Hl (Hnz & Hx & Hni). unfold utils_list_push_back.
  rewrite (is_list_empty _ _ _ Hl). destruct Hl as (Hs & Hn & Hlast).
  destruct (snoc_cases xs) as [->|(ys & y & ->)].
  - cbn [bool_decide decide mbind outcome_bind]. destruct (bool_decide_reflect ([] = @nil Z)); [|done].
    cbn [mbind outcome_bind]. rewrite store_done_is by done. cbn [mbind outcome_bind].
    do 2 eexists. split; [done|]. split.
    + split; cbn; [|split; [apply NoDup_singleton|intros ? [= ->]; done]].
      split; [done|]. split; [done|]. exists NULL. by rewrite lookup_insert_eq.
    + apply only_changes_insert; [left|done].
  - rewrite bool_decide_eq_false_2 by (by destruct ys).
    assert (Ey : l_last l = y) by (apply Hlast; by rewrite last_snoc). rewrite Ey.
    assert (Hy : is_Some (m !! y)) by (eapply lseg_dom; [done|]; set_solver).
    assert (Hxy : x <> y) by (intros ->; set_solver).
    rewrite store_done_is by done. cbn [mbind outcome_bind].
    rewrite store_done_is by (by rewrite lookup_insert_ne). cbn [mbind outcome_bind].
    do 2 eexists. split; [done|].
    assert (Hyy : y ∉ ys) by (apply NoDup_app in Hn; set_solver).
    split.
    + split; [|split].
      * cbn [l_first]. apply lseg_app. exists x. split.
        -- apply lseg_insert_ne; [set_solver|]. by eapply lseg_snoc_store.
        -- split; [done|]. split; [done|]. exists NULL. by rewrite lookup_insert_eq.
      * apply NoDup_app. split; [done|]. split; [set_solver|apply NoDup_singleton].
      * rewrite last_snoc. by intros ? [= ->].
    + apply only_changes_insert2; [right; apply elem_of_app; right; left|left|done|done].
Qed.

Lemma push_front_spec m l xs x :
  is_list m l xs -> fresh_node m xs x ->
  exists l' m', utils_list_push_front l x m = Done (l', m')
    /\ is_list m' l' (x :: xs) /\ only_changes m m' (x :: xs).
Proof.
  intros Hl (Hnz & Hx & Hni). unfold utils_list_push_front.
  rewrite (is_list_empty _ _ _ Hl). destruct Hl as (Hs & Hn & Hlast).
  case_bool_decide as Hxs; cbn [l_first l_last]; rewrite store_done_is by done;
    cbn [mbind outcome_bind]; do 2 eexists; (split; [done|]);
    (split; [split; [|split]|apply only_changes_insert; [left|done]]); cbn [l_first l_last].
  1,4: (split; [done|]; split; [done|]; eexists; rewrite lookup_insert_eq;
        split; [done|]; by apply lseg_insert_ne).
  1,3: by apply NoDup_cons.
  - subst. by intros ? [= ->].
  - destruct xs as [|y ys]; [done|]. intros z Hz. by apply Hlast.
Qed.

Lemma pop_front_spec m l xs :
  is_list m l xs ->
  match xs with
  | [] => utils_list_pop_front l m = Done (NULL, l)
  | x :: xs => exists l', utils_list_pop_front l m = Done (x, l') /\ is_list m l' xs
  end.
Proof.
  intros (Hs & Hn & Hlast). unfold utils_list_pop_front.
  destruct xs as [|x xs]; cbn in Hs.
  - by rewrite Hs.
  - destruct Hs as (-> & Hx & n & Hm & Hs). destruct (Z.eqb_spec x NULL); [done|]. cbn [negb].
    rewrite (load_done _ _ _ Hm). cbn [mbind outcome_bind]. eexists. split; [done|].
    apply NoDup_cons in Hn as [_ Hn]. split; [done|]. split; [done|].
    intros z Hz. cbn. apply Hlast. destruct xs; [done|]. by rewrite last_cons_cons.
Qed.

(** *** Splicing *)

Lemma lseg_relink m p l1 s r t l2 q :
  lseg m p (l1 ++ [s]) r -> s ∉ l1 -> s ∉ l2 -> lseg m t l2 q ->
  lseg (<[s := t]> m) p (l1 ++ s :: l2) q.
Proof.
  intros H1 Hs1 Hs2 H2. rewrite cons_middle, app_assoc. apply lseg_app. exists t.
  split; [by eapply lseg_snoc_store|by apply lseg_insert_ne].
Qed.

Lemma lseg_split_at m p l1 s l2 q :
  lseg m p (l1 ++ s :: l2) q ->
  exists n, lseg m p (l1 ++ [s]) n /\ m !! s = Some n /\ s <> NULL /\ lseg m n l2 q.
Proof.
  rewrite cons_middle, app_assoc. intros (n & H1 & H2)%lseg_app. exists n. split; [done|].
  apply lseg_app in H1 as (r & H1 & (-> & Hs & n' & Hn & ->)). done.
Qed.

Lemma NoDup_split (l1 l2 : list Z) s : NoDup (l1 ++ s :: l2) -> s ∉ l1 /\ s ∉ l2 /\ NoDup (l1 ++ l2).
Proof.
  rewrite <- Permutation_middle, NoDup_cons. set_solver.
Qed.

Lemma NoDup_join (l1 l2 : list Z) s : s ∉ l1 -> s ∉ l2 -> NoDup (l1 ++ l2) -> NoDup (l1 ++ s :: l2).
Proof. rewrite <- Permutation_middle, NoDup_cons. set_solver. Qed.

Lemma last_app_cons {A} (l1 l2 : list A) s : last (l1 ++ s :: l2) = last (s :: l2).
Proof. rewrite last_app. destruct (last (s :: l2)) eqn:E; [done|]. by apply last_None in E. Qed.

(** *** Searching loops *)

Lemma extract_scan_spec m hdr ys x fuel :
  hdr <> NULL -> lseg m x (x :: ys) NULL -> (length ys < fuel)%nat ->
  (exists l1 s l2, x :: ys = l1 ++ s :: hdr :: l2 /\ utils_list_extract_scan fuel m x hdr = Done s)
  \/ (hdr ∉ ys /\ exists l1 s, x :: ys = l1 ++ [s] /\ utils_list_extract_scan fuel m x hdr = Done s).
Proof.
  intros Hh. revert x fuel. induction ys as [|y ys IH]; intros x [|fuel] Hs Hf; cbn in Hf; try lia;
    destruct Hs as (_ & Hx & n & Hn & Hs); cbn [utils_list_extract_scan];
    rewrite (load_done _ _ _ Hn); cbn [mbind outcome_bind]; cbn in Hs.
  - subst n. rewrite Z.eqb_refl. cbn. right. split; [by intros ?%elem_of_nil|]. by exists [], x.
  - destruct Hs as (-> & Hy & n' & Hn' & Hs). rewrite (proj2 (Z.eqb_neq y NULL)) by done.
    destruct (Z.eqb_spec y hdr) as [->|Hne]; cbn [negb andb].
    + left. by exists [], x, ys.
    + destruct (IH y fuel) as [(l1 & s & l2 & E & Hr)|(Hni & l1 & s & E & Hr)]; [|lia| |].
      * split; [done|]. split; [done|]. by exists n'.
      * left. exists (x :: l1), s, l2. by rewrite E.
      * right. split; [set_solver|]. exists (x :: l1), s. by rewrite E.
Qed.

Lemma find_scan_spec m hdr xs p fuel :
  hdr <> NULL -> lseg m p xs NULL -> (length xs < fuel)%nat ->
  utils_list_find_scan fuel m p hdr = Done (if bool_decide (hdr ∈ xs) then hdr else NULL).
Proof.
  intros Hh. revert p fuel. induction xs as [|x xs IH]; intros p [|fuel] Hs Hf; cbn in Hf; try lia;
    cbn [utils_list_find_scan]; cbn in Hs.
  - subst p. rewrite (proj2 (Z.eqb_neq NULL hdr)) by done. cbn.
    by rewrite bool_decide_eq_false_2 by (by intros ?%elem_of_nil).
  - destruct Hs as (-> & Hx & n & Hn & Hs). destruct (Z.eqb_spec x hdr) as [->|Hne].
    + cbn. by rewrite bool_decide_eq_true_2 by left.
    + rewrite (proj2 (Z.eqb_neq x NULL)) by done. cbn [negb andb].
      rewrite (load_done _ _ _ Hn). cbn [mbind outcome_bind]. rewrite IH by (done || lia).
      rewrite (bool_decide_ext (hdr ∈ xs) (hdr ∈ x :: xs)); [done|]. set_solver.
Qed.

Lemma cnt_loop_spec m xs p c fuel :
  lseg m p xs NULL -> (length xs < fuel)%nat -> 0 <= c < 2 ^ 32 ->
  utils_list_cnt_loop fuel m p c = Done (u32 (c + Z.of_nat (length xs))).
Proof.
  revert p c fuel. induction xs as [|x xs IH]; intros p c [|fuel] Hs Hf Hc; cbn in Hf; try lia;
    cbn [utils_list_cnt_loop]; cbn in Hs.
  - subst p. cbn. rewrite Z.add_0_r. unfold u32, wrap. by rewrite Z.mod_small.
  - destruct Hs as (-> & Hx & n & Hn & Hs). rewrite (proj2 (Z.eqb_neq x NULL)) by done. cbn [negb].
    unfold utils_list_next. rewrite (load_done _ _ _ Hn). cbn [mbind outcome_bind].
    rewrite IH; [|done|lia|apply Z.mod_pos_bound; lia].
    f_equal. unfold u32, wrap. rewrite Z.add_mod_idemp_l by lia. f_equal. cbn [length]. lia.
Qed.

Lemma insert_after_scan_spec m pe xs p fuel :
  pe <> NULL -> lseg m p xs NULL -> (length xs < fuel)%nat ->
  utils_list_insert_after_scan fuel m p pe = Done (if bool_decide (pe ∈ xs) then pe else NULL).
Proof.
  intros Hh. revert p fuel. induction xs as [|x xs IH]; intros p [|fuel] Hs Hf; cbn in Hf; try lia;
    cbn [utils_list_insert_after_scan]; cbn in Hs.
  - subst p. cbn. by rewrite bool_decide_eq_false_2 by (by intros ?%elem_of_nil).
  - destruct Hs as (-> & Hx & n & Hn & Hs). rewrite (proj2 (Z.eqb_neq x NULL)) by done. cbn [negb].
    destruct (Z.eqb_spec x pe) as [->|Hne].
    + by rewrite bool_decide_eq_true_2 by left.
    + rewrite (load_done _ _ _ Hn). cbn [mbind outcome_bind]. rewrite IH by (done || lia).
      rewrite (bool_decide_ext (pe ∈ xs) (pe ∈ x :: xs)); [done|]. set_solver.
Qed.

Lemma insert_before_scan_spec m ne ys x fuel :
  ne <> NULL -> lseg m x (x :: ys) NULL -> (S (length ys) < fuel)%nat ->
  (exists l1 s l2, x :: ys = l1 ++ s :: ne :: l2
     /\ utils_list_insert_before_scan fuel m x ne = Done s)
  \/ (ne ∉ ys /\ utils_list_insert_before_scan fuel m x ne = Done NULL).
Proof.
  intros Hh. revert x fuel. induction ys as [|y ys IH]; intros x [|fuel] Hs Hf; cbn in Hf; try lia;
    destruct Hs as (_ & Hx & n & Hn & Hs); cbn [utils_list_insert_before_scan];
    rewrite (proj2 (Z.eqb_neq x NULL)) by done; cbn [negb];
    rewrite (load_done _ _ _ Hn); cbn [mbind outcome_bind]; cbn in Hs.
  - subst n. rewrite (proj2 (Z.eqb_neq NULL ne)) by done. right. split; [by intros ?%elem_of_nil|].
    destruct fuel; [lia|]. done.
  - destruct Hs as (-> & Hy & n' & Hn' & Hs). destruct (Z.eqb_spec y ne) as [->|Hne].
    + left. by exists [], x, ys.
    + destruct (IH y fuel) as [(l1 & s & l2 & E & Hr)|(Hni & Hr)]; [|lia| |].
      * split; [done|]. split; [done|]. by exists n'.
      * left. exists (x :: l1), s, l2. by rewrite E.
      * right. split; [set_solver|done].
Qed.

(** ** Abstract specification on sequences *)

Definition remove_node (x : Z) (xs : list Z) : list Z := filter (fun y => y <> x) xs.
Fixpoint insert_after_node (p x : Z) (xs : list Z) : list Z :=
  match xs with
  | [] => []
  | y :: ys => if decide (y = p) then y :: x :: ys else y :: insert_after_node p x ys
  end.
Fixpoint insert_before_node (n x : Z) (xs : list Z) : list Z :=
  match xs with
  | [] => []
  | y :: ys => if decide (y = n) then x :: y :: ys else y :: insert_before_node n x ys
  end.
Fixpoint insert_sorted (cmp : Z -> Z -> bool) (x : Z) (xs : list Z) : list Z :=
  match xs with
  | [] => [x]
  | y :: ys => if cmp x y then x :: y :: ys else y :: insert_sorted cmp x ys
  end.

Lemma remove_node_notin x xs : x ∉ xs -> remove_node x xs = xs.
Proof.
  induction xs as [|y xs IH]; intros Hx; [done|]. unfold remove_node. rewrite filter_cons_True by set_solver.
  f_equal. apply IH. set_solver.
Qed.

Lemma remove_node_split x l1 l2 : x ∉ l1 -> x ∉ l2 -> remove_node x (l1 ++ x :: l2) = l1 ++ l2.
Proof.
  intros H1 H2. unfold remove_node. rewrite filter_app, filter_cons.
  destruct (decide (x <> x)); [done|]. fold (remove_node x l1). fold (remove_node x l2).
  by rewrite !remove_node_notin.
Qed.

Lemma insert_after_split p x l1 l2 : p ∉ l1 -> insert_after_node p x (l1 ++ p :: l2) = l1 ++ p :: x :: l2.
Proof.
  induction l1 as [|y l1 IH]; intros Hp; cbn; [by rewrite decide_True|].
  rewrite decide_False by set_solver. rewrite IH; set_solver.
Qed.

Lemma insert_after_notin p x xs : p ∉ xs -> insert_after_node p x xs = xs.
Proof.
  induction xs as [|y xs IH]; intros Hp; cbn; [done|].
  rewrite decide_False by set_solver. rewrite IH; set_solver.
Qed.

Lemma insert_before_split n x l1 l2 : n ∉ l1 -> insert_before_node n x (l1 ++ n :: l2) = l1 ++ x :: n :: l2.
Proof.
  induction l1 as [|y l1 IH]; intros Hp; cbn; [by rewrite decide_True|].
  rewrite decide_False by set_solver. rewrite IH; set_solver.
Qed.

Lemma insert_before_notin n x xs : n ∉ xs -> insert_before_node n x xs = xs.
Proof.
  induction xs as [|y xs IH]; intros Hp; cbn; [done|].
  rewrite decide_False by set_solver. rewrite IH; set_solver.
Qed.

(** ** The remaining operations refine the specification *)

Lemma find_spec m l xs x :
  is_list m l xs -> x <> NULL -> utils_list_find l x m = Done (bool_decide (x ∈ xs)).
Proof.
  intros (Hs & Hn & _) Hx. unfold utils_list_find.
  rewrite (find_scan_spec m x xs) by (done || by eapply lseg_fuel).
  cbn. case_bool_decide; [by rewrite Z.eqb_refl|]. f_equal. by apply Z.eqb_neq.
Qed.

Lemma cnt_spec m l xs : is_list m l xs -> utils_list_cnt l m = Done (u32 (Z.of_nat (length xs))).
Proof.
  intros (Hs & Hn & _). unfold utils_list_cnt, utils_list_pick.
  rewrite (cnt_loop_spec m xs) by (done || by eapply lseg_fuel). done.
Qed.

(** splicing [l2] behind the node [s] after dropping or adding in the middle *)
Lemma is_list_remove_mid m l l1 s x l2 :
  is_list m l (l1 ++ s :: x :: l2) ->
  exists n, m !! x = Some n /\ m !! s = Some x /\ x <> NULL /\
  is_list (<[s := n]> m) {| l_first := l_first l; l_last := if l_last l =? x then s else l_last l |}
    (l1 ++ s :: l2).
Proof.
  intros (Hs & Hn & Hlast).
  apply lseg_split_at in Hs as (n & H1 & Hns & Hsnz & (-> & Hxnz & n' & Hn' & Hs2)).
  exists n'. split; [done|]. split; [done|]. split; [done|].
  apply NoDup_split in Hn as (Hs1 & Hsx & Hnd). apply not_elem_of_cons in Hsx as [Hne Hs2'].
  pose proof Hnd as (Hx1 & Hx2 & Hnd')%NoDup_split.
  split; [|split]; cbn [l_first l_last].
  - by eapply lseg_relink.
  - by apply NoDup_join.
  - intros z Hz. rewrite last_app_cons in Hz, Hlast. rewrite last_cons_cons in Hlast.
    destruct l2 as [|y l2].
    + rewrite (Hlast x) by done. rewrite Z.eqb_refl. by injection Hz.
    + rewrite last_cons_cons in Hz, Hlast. rewrite (Hlast z) by done.
      rewrite (proj2 (Z.eqb_neq z x)); [done|]. intros ->.
      apply last_Some in Hz as [l' Hz]. rewrite Hz in Hx2. set_solver.
Qed.

Lemma is_list_add_mid m l l1 s x l2 :
  is_list m l (l1 ++ s :: l2) -> fresh_node m (l1 ++ s :: l2) x ->
  exists n, m !! s = Some n /\ (n = NULL <-> l2 = []) /\
  is_list (<[s := x]> (<[x := n]> m))
    {| l_first := l_first l; l_last := if n =? NULL then x else l_last l |} (l1 ++ s :: x :: l2)
  /\ only_changes m (<[s := x]> (<[x := n]> m)) (x :: l1 ++ s :: l2).
Proof.
  intros (Hs & Hn & Hlast) (Hxnz & Hx & Hni).
  apply lseg_split_at in Hs as (n & H1 & Hns & Hsnz & Hs2).
  apply NoDup_split in Hn as (Hs1 & Hsl2 & Hnd).
  assert (Hxs : x <> s) by set_solver. assert (Hxl2 : x ∉ l2) by set_solver.
  assert (Hxl1 : x ∉ l1) by set_solver.
  exists n. split; [done|]. split; [by eapply lseg_null|]. split; [split; [|split]|].
  - cbn [l_first]. eapply lseg_relink; [|done|set_solver|].
    + apply lseg_insert_ne; [|done]. rewrite not_elem_of_app. split; [done|set_solver].
    + split; [done|]. split; [done|]. exists n. rewrite lookup_insert_eq.
      split; [done|]. by apply lseg_insert_ne.
  - apply NoDup_join; [done|set_solver|]. by apply NoDup_join.
  - cbn [l_last]. intros z. rewrite last_app_cons in *. apply lseg_null in Hs2.
    destruct l2 as [|y l2]; cbn.
    + rewrite (proj2 (Z.eqb_eq n NULL)) by tauto. by intros [= ->].
    + rewrite (proj2 (Z.eqb_neq n NULL)) by (intros ->; destruct Hs2; naive_solver).
      intros Hz. by apply Hlast.
  - apply only_changes_insert2; [left|right; apply elem_of_app; right; left|done|done].
Qed.

Lemma extract_spec m l xs x :
  is_list m l xs -> x <> NULL ->
  exists l' m', utils_list_extract l x m = Done (l', m')
    /\ is_list m' l' (remove_node x xs) /\ only_changes m m' (x :: xs).
Proof.
  intros Hl Hx. unfold utils_list_extract. destruct xs as [|y ys].
  { destruct Hl as (Hs & Hn & Hlast). cbn in Hs. rewrite Hs. cbn.
    exists l, m. split; [done|]. split; [by split|apply only_changes_refl]. }
  pose proof Hl as (Hs & Hn & Hlast). destruct Hs as (E & Hy & n & Hm & Hs). rewrite E.
  rewrite (proj2 (Z.eqb_neq y NULL)) by done. pose proof Hn as [Hyn Hn']%NoDup_cons.
  destruct (Z.eqb_spec y x) as [->|Hne].
  - rewrite (load_done _ _ _ Hm). cbn [mbind outcome_bind]. do 2 eexists. split; [done|].
    change (x :: ys) with ([] ++ x :: ys) at 1.
    rewrite remove_node_split by (done || by intros ?%elem_of_nil).
    split; [|apply only_changes_refl]. split; [done|]. split; [done|]. intros z Hz. apply Hlast.
    destruct ys; [done|]. by rewrite last_cons_cons.
  - destruct (extract_scan_spec m x ys y (loop_fuel m)) as
      [(l1 & s & l2 & El & Er)|(Hni & l1 & s & El & Er)]; try done.
    + split; [done|]. split; [done|]. by exists n.
    + pose proof (lseg_fuel m (l_first l) (y :: ys) NULL) as Hf. cbn in Hf.
      specialize (Hf (proj1 Hl) Hn). lia.
    + rewrite Er. cbn [mbind outcome_bind]. rewrite El in *.
      destruct (is_list_remove_mid _ _ _ _ _ _ Hl) as (n' & Hx' & Hs' & _ & Hl').
      rewrite (load_done _ _ _ Hs'). cbn [mbind outcome_bind].
      rewrite (proj2 (Z.eqb_neq x NULL)) by done. cbn [negb].
      rewrite (load_done _ _ _ Hx'). cbn [mbind outcome_bind].
      rewrite store_done_is by done. cbn [mbind outcome_bind].
      do 2 eexists. split; [done|]. split.
      * replace (l1 ++ s :: x :: l2) with ((l1 ++ [s]) ++ x :: l2) in * by (by rewrite <- app_assoc).
        apply NoDup_split in Hn as (H1 & H2 & _). rewrite remove_node_split by done.
        rewrite <- app_assoc. destruct l as [f la]; cbn in *; subst f. by destruct (la =? x).
      * apply only_changes_insert; [set_solver|done].
    + rewrite Er. cbn [mbind outcome_bind]. rewrite El in Hl. pose proof Hl as (Hs2 & _).
      apply lseg_app in Hs2 as (r & _ & (-> & _ & n' & Hn2 & ->)).
      rewrite (load_done _ _ _ Hn2). cbn [mbind outcome_bind negb Z.eqb NULL].
      do 2 eexists. split; [done|]. rewrite remove_node_notin by set_solver.
      split; [by rewrite El|apply only_changes_refl].
Qed.

Lemma insert_after_spec m l xs p x :
  is_list m l xs -> fresh_node m xs x ->
  exists l' m', utils_list_insert_after l p x m = Done (l', m')
    /\ is_list m' l' (if decide (p = NULL) then x :: xs else insert_after_node p x xs)
    /\ only_changes m m' (x :: xs).
Proof.
  intros Hl Hx. unfold utils_list_insert_after. destruct (Z.eqb_spec p NULL) as [->|Hp].
  { rewrite decide_True by done. by apply push_front_spec. }
  rewrite decide_False by done. pose proof Hl as (Hs & Hn & Hlast).
  rewrite (insert_after_scan_spec m p xs) by (done || by eapply lseg_fuel).
  cbn [mbind outcome_bind]. case_bool_decide as Hin.
  - rewrite (proj2 (Z.eqb_neq p NULL)) by done. cbn [negb].
    apply list_elem_of_split in Hin as (l1 & l2 & ->).
    destruct (is_list_add_mid _ _ _ _ _ _ Hl Hx) as (n & Hpn & _ & Hl' & Hch).
    destruct Hx as (Hxnz & Hxm & Hxn). apply NoDup_split in Hn as (Hp1 & _ & _).
    assert (Hxp : x <> p) by set_solver.
    rewrite (load_done _ _ _ Hpn). cbn [mbind outcome_bind].
    rewrite store_done_is by done. cbn [mbind outcome_bind].
    rewrite store_done_is by (by rewrite lookup_insert_ne). cbn [mbind outcome_bind].
    rewrite (load_done _ x n) by (by rewrite lookup_insert_ne, lookup_insert_eq by done).
    cbn [mbind outcome_bind]. do 2 eexists. split; [done|].
    rewrite insert_after_split by done. split; [|done].
    destruct (n =? NULL); [done|]. by destruct l.
  - cbn. do 2 eexists. split; [done|]. rewrite insert_after_notin by done.
    split; [done|apply only_changes_refl].
Qed.

Lemma insert_before_spec m l xs n x :
  is_list m l xs -> fresh_node m xs x ->
  exists l' m', utils_list_insert_before l n x m = Done (l', m')
    /\ is_list m' l' (if decide (n = NULL) then xs ++ [x] else insert_before_node n x xs)
    /\ only_changes m m' (x :: xs).
Proof.
  intros Hl Hx. unfold utils_list_insert_before. destruct (Z.eqb_spec n NULL) as [->|Hp].
  { rewrite decide_True by done. by apply push_back_spec. }
  rewrite decide_False by done. pose proof Hl as (Hs & Hn & Hlast).
  destruct xs as [|y ys].
  { cbn in Hs. rewrite Hs, (proj2 (Z.eqb_neq n NULL)) by done. cbn.
    exists l, m. split; [done|]. split; [done|apply only_changes_refl]. }
  pose proof Hs as (E & Hy & n' & Hm & Hs'). rewrite E. destruct (Z.eqb_spec n y) as [->|Hne].
  { cbn. rewrite decide_True by done. by apply push_front_spec. }
  assert (Hf : (S (length ys) < loop_fuel m)%nat) by (apply (lseg_fuel _ _ _ _ Hs Hn)).
  destruct (insert_before_scan_spec m n ys y (loop_fuel m)) as
    [(l1 & s & l2 & El & Er)|(Hni & Er)]; try done.
  - split; [done|]. split; [done|]. by exists n'.
  - rewrite Er. cbn [mbind outcome_bind]. rewrite El in *.
    destruct (is_list_add_mid _ _ _ _ _ _ Hl Hx) as (r & Hsr & Hrn & Hl' & Hch).
    destruct Hx as (Hxnz & Hxm & Hxn). pose proof Hl as (Hs2 & Hn2 & _).
    apply lseg_split_at in Hs2 as (r' & _ & Hsr' & Hsnz & (-> & _)).
    assert (r = n) as -> by congruence.
    rewrite (proj2 (Z.eqb_neq s NULL)) by done. cbn [negb].
    assert (Hxs : x <> s) by set_solver.
    rewrite store_done_is by done. cbn [mbind outcome_bind].
    rewrite store_done_is by (by rewrite lookup_insert_ne). cbn [mbind outcome_bind].
    do 2 eexists. split; [done|].
    replace (l1 ++ s :: n :: l2) with ((l1 ++ [s]) ++ n :: l2) in Hn2 |- * by (by rewrite <- app_assoc).
    apply NoDup_split in Hn2 as (H1 & H2 & _). rewrite insert_before_split by done.
    rewrite <- !app_assoc. split; [|done].
    rewrite (proj2 (Z.eqb_neq n NULL)) in Hl' by done. by destruct l.
  - rewrite Er. cbn. rewrite decide_False by done. do 2 eexists. split; [done|].
    rewrite insert_before_notin by done. split; [done|apply only_changes_refl].
Qed.

Lemma insert_scan_spec m cmp x xs prev p fuel :
  lseg m p xs NULL -> (length xs < fuel)%nat ->
  exists l1 l2, xs = l1 ++ l2 /\ insert_sorted cmp x xs = l1 ++ x :: l2
    /\ utils_list_insert_scan fuel cmp m x prev p
       = Done (default prev (last l1), default NULL (head l2)).
Proof.
  revert prev p fuel. induction xs as [|y ys IH]; intros prev p [|fuel] Hs Hf; cbn in Hf; try lia;
    cbn [utils_list_insert_scan]; cbn in Hs.
  - subst p. by exists [], [].
  - destruct Hs as (-> & Hy & n & Hn & Hs). rewrite (proj2 (Z.eqb_neq y NULL)) by done. cbn [negb].
    cbn [insert_sorted]. destruct (cmp x y).
    + by exists [], (y :: ys).
    + rewrite (load_done _ _ _ Hn). cbn [mbind outcome_bind].
      destruct (IH y n fuel Hs) as (l1 & l2 & -> & E2 & Er); [lia|].
      exists (y :: l1), l2. split; [done|]. split; [by rewrite E2|]. rewrite Er. do 2 f_equal.
      rewrite last_cons. by destruct (last l1).
Qed.

Lemma insert_spec m l xs cmp x :
  is_list m l xs -> fresh_node m xs x ->
  exists l' m', utils_list_insert l x cmp m = Done (l', m')
    /\ is_list m' l' (insert_sorted cmp x xs) /\ only_changes m m' (x :: xs).
Proof.
  intros Hl Hx. pose proof Hl as (Hs & Hn & Hlast). unfold utils_list_insert.
  destruct (insert_scan_spec m cmp x xs NULL _ _ Hs (lseg_fuel _ _ _ _ Hs Hn))
    as (l1 & l2 & -> & E2 & ->).
  rewrite E2. cbn [mbind outcome_bind]. pose proof Hx as (Hxnz & Hxm & Hxn).
  rewrite store_done_is by done. cbn [mbind outcome_bind].
  destruct (snoc_cases l1) as [->|(l1' & s & ->)]; cbn [last default from_option id].
  - cbn [negb Z.eqb NULL]. do 2 eexists. split; [done|]. cbn [app] in *.
    split; [|apply only_changes_insert; [left|done]].
    assert (Eh : default NULL (head l2) = l_first l).
    { destruct l2; cbn in Hs |- *; [by rewrite Hs|by destruct Hs as (-> & _)]. }
    rewrite Eh. split; [|split].
    + split; [done|]. split; [done|]. eexists. rewrite lookup_insert_eq. split; [done|].
      by apply lseg_insert_ne.
    + by apply NoDup_cons.
    + cbn. intros z. destruct l2 as [|y l2]; cbn [head] in *.
      * cbn in Hs. rewrite Hs. cbn. by intros [= ->].
      * rewrite last_cons_cons. destruct Hs as (-> & Hy & _).
        rewrite (proj2 (Z.eqb_neq y NULL)) by done. apply Hlast.
  - rewrite last_snoc. cbn [default from_option id]. rewrite <- ?app_assoc in *. cbn [app] in *.
    destruct (is_list_add_mid _ _ _ _ _ _ Hl Hx) as (n & Hsn & Hnz & Hl' & Hch).
    apply lseg_split_at in Hs as (n' & _ & Hsn' & Hsnz & Hl2).
    assert (n' = n) as -> by congruence.
    assert (Eh : default NULL (head l2) = n).
    { destruct l2; cbn in Hl2 |- *; [done|by destruct Hl2 as (-> & _)]. }
    rewrite Eh, (proj2 (Z.eqb_neq s NULL)) by done. cbn [negb].
    assert (Hxs : x <> s) by set_solver.
    rewrite store_done_is by (by rewrite lookup_insert_ne). cbn [mbind outcome_bind].
    do 2 eexists. split; [done|]. split; [|done]. destruct (n =? NULL); [done|]. by destruct l.
Qed.

Lemma concat_spec m l1 l2 xs ys :
  is_list m l1 xs -> is_list m l2 ys -> xs ## ys ->
  exists l1' l2' m', utils_list_concat l1 l2 m = Done (l1', l2', m')
    /\ is_list m' l1' (xs ++ ys) /\ is_list m' l2' [] /\ only_changes m m' xs.
Proof.
  intros H1 H2 Hd. unfold utils_list_concat. pose proof H2 as (Hs2 & Hn2 & Hl2).
  pose proof (lseg_null _ _ _ Hs2) as Hnull2.
  destruct (Z.eqb_spec (l_first l2) NULL) as [E2|E2]; cbn [negb].
  { assert (ys = []) as -> by tauto. exists l1, l2, m. rewrite app_nil_r.
    split; [done|]. split; [done|]. split; [done|]. apply only_changes_refl. }
  pose proof H1 as (Hs1 & Hn1 & Hl1). pose proof (lseg_null _ _ _ Hs1) as Hnull1.
  assert (Hempty : forall m', is_list m' {| l_first := NULL; l_last := l_last l2 |} [])
    by (by split; [|split; [apply NoDup_nil_2|]]).
  destruct (Z.eqb_spec (l_first l1) NULL) as [E1|E1]; cbn [mbind outcome_bind].
  { assert (xs = []) as -> by tauto. do 3 eexists. split; [done|].
    split; [done|]. split; [done|]. apply only_changes_refl. }
  destruct (snoc_cases xs) as [->|(xs' & x & ->)]; [tauto|].
  rewrite (is_list_last _ _ _ _ H1).
  assert (Hxm : is_Some (m !! x)) by (eapply lseg_dom; [done|]; apply elem_of_app; right; left).
  rewrite store_done_is by done. cbn [mbind outcome_bind]. do 3 eexists. split; [done|].
  split; [|split; [done|apply only_changes_insert; [apply elem_of_app; right; left|done]]].
  assert (Hx' : x ∉ xs') by (apply NoDup_app in Hn1; set_solver).
  split; [|split]; cbn [l_first l_last].
  - rewrite <- app_assoc. cbn. eapply lseg_relink; [done|done|set_solver|done].
  - apply NoDup_app. set_solver.
  - intros z. rewrite last_app. destruct (last ys) eqn:E; [by intros [= <-]; apply Hl2|].
    apply last_None in E. tauto.
Qed.

(** [utils_list_remove] with the right predecessor *)
Lemma remove_spec m l l1 x l2 :
  is_list m l (l1 ++ x :: l2) ->
  exists l' m', utils_list_remove l (default NULL (last l1)) x m = Done (l', m')
    /\ is_list m' l' (l1 ++ l2) /\ only_changes m m' (l1 ++ x :: l2).
Proof.
  intros Hl. unfold utils_list_remove. destruct (snoc_cases l1) as [->|(l1' & s & ->)].
  - cbn [last default from_option id Z.eqb NULL app] in *. destruct Hl as (Hs & Hn & Hlast).
    destruct Hs as (E & Hx & n & Hm & Hs). rewrite (load_done _ _ _ Hm). cbn [mbind outcome_bind].
    rewrite store_done_is by done. cbn [mbind outcome_bind]. do 2 eexists. split; [done|].
    apply NoDup_cons in Hn as [Hxn Hn]. split; [|apply only_changes_insert; [left|done]].
    split; [by apply lseg_insert_ne|]. split; [done|]. intros z Hz. apply Hlast.
    destruct l2; [done|]. by rewrite last_cons_cons.
  - rewrite last_snoc. cbn [default from_option id]. rewrite <- ?app_assoc in *. cbn [app] in *.
    destruct (is_list_remove_mid _ _ _ _ _ _ Hl) as (n & Hxn & Hsn & Hxnz & Hl').
    pose proof Hl as (Hs & Hn & _). apply lseg_split_at in Hs as (_ & _ & _ & Hsnz & _).
    rewrite (proj2 (Z.eqb_neq s NULL)) by done. rewrite (load_done _ _ _ Hxn). cbn [mbind outcome_bind].
    rewrite store_done_is by done. cbn [mbind outcome_bind].
    apply NoDup_split in Hn as (Hs1 & Hs2 & Hn). apply NoDup_split in Hn as (Hx1 & Hx2 & _).
    rewrite store_done_is by (by rewrite lookup_insert_ne by set_solver). cbn [mbind outcome_bind].
    do 2 eexists. split; [done|]. split.
    + assert (Hni : x ∉ l1' ++ s :: l2) by set_solver.
      destruct Hl' as (Hs' & Hn' & Hla').
      destruct (l_last l =? x); (split; [by apply lseg_insert_ne|split; [done|]]); done.
    + apply only_changes_insert2; try done; apply elem_of_app; right; [left|right; left].
Qed.

(** ** Sequences of operations *)

Inductive list_op :=
| OpPushBack (x : Z)
| OpPushFront (x : Z)
| OpPopFront
| OpExtract (x : Z)
| OpFind (x : Z)
| OpCnt
| OpInsert (x : Z)
| OpInsertAfter (p x : Z)
| OpInsertBefore (n x : Z).

Inductive list_res := RUnit | RNode (p : Z) | RFound (b : bool) | RCount (n : Z).

Section Ops.
Context (cmp : Z -> Z -> bool).

(** one call on the C data structure *)
Definition run_op (op : list_op) (st : utils_list * heap) : outcome (list_res * (utils_list * heap)) :=
  let '(l, m) := st in
  match op with
  | OpPushBack x => st ← utils_list_push_back l x m; Done (RUnit, st)
  | OpPushFront x => st ← utils_list_push_front l x m; Done (RUnit, st)
  | OpPopFront => '(p, l) ← utils_list_pop_front l m; Done (RNode p, (l, m))
  | OpExtract x => st ← utils_list_extract l x m; Done (RUnit, st)
  | OpFind x => b ← utils_list_find l x m; Done (RFound b, st)
  | OpCnt => n ← utils_list_cnt l m; Done (RCount n, st)
  | OpInsert x => st ← utils_list_insert l x cmp m; Done (RUnit, st)
  | OpInsertAfter p x => st ← utils_list_insert_after l p x m; Done (RUnit, st)
  | OpInsertBefore n x => st ← utils_list_insert_before l n x m; Done (RUnit, st)
  end.

(** the same call on the abstract sequence of nodes *)
Definition spec_op (op : list_op) (xs : list Z) : list_res * list Z :=
  match op with
  | OpPushBack x => (RUnit, xs ++ [x])
  | OpPushFront x => (RUnit, x :: xs)
  | OpPopFront => match xs with [] => (RNode NULL, []) | x :: xs => (RNode x, xs) end
  | OpExtract x => (RUnit, remove_node x xs)
  | OpFind x => (RFound (bool_decide (x ∈ xs)), xs)
  | OpCnt => (RCount (u32 (Z.of_nat (length xs))), xs)
  | OpInsert x => (RUnit, insert_sorted cmp x xs)
  | OpInsertAfter p x =>
    (RUnit, if decide (p = NULL) then x :: xs else insert_after_node p x xs)
  | OpInsertBefore n x =>
    (RUnit, if decide (n = NULL) then xs ++ [x] else insert_before_node n x xs)
  end.

(** what the caller owes: nodes it links are valid, non-NULL and unlinked *)
Definition op_ok (D : gset Z) (op : list_op) (xs : list Z) : Prop :=
  match op with
  | OpPushBack x | OpPushFront x | OpInsert x | OpInsertAfter _ x | OpInsertBefore _ x =>
    x <> NULL /\ x ∈ D /\ x ∉ xs
  | OpExtract x | OpFind x => x <> NULL
  | OpPopFront | OpCnt => True
  end.

Fixpoint run_ops (ops : list list_op) (st : utils_list * heap)
  : outcome (list list_res * (utils_list * heap)) :=
  match ops with
  | [] => Done ([], st)
  | op :: ops =>
    '(r, st) ← run_op op st;
    '(rs, st) ← run_ops ops st;
    Done (r :: rs, st)
  end.

Fixpoint spec_ops (ops : list list_op) (xs : list Z) : list list_res * list Z :=
  match ops with
  | [] => ([], xs)
  | op :: ops =>
    let '(r, xs) := spec_op op xs in
    let '(rs, xs) := spec_ops ops xs in (r :: rs, xs)
  end.

Fixpoint ops_ok (D : gset Z) (ops : list list_op) (xs : list Z) : Prop :=
  match ops with
  | [] => True
  | op :: ops => op_ok D op xs /\ ops_ok D ops (snd (spec_op op xs))
  end.

Lemma run_op_refines op m l xs :
  is_list m l xs -> op_ok (dom m) op xs ->
  exists l' m', run_op op (l, m) = Done (fst (spec_op op xs), (l', m'))
    /\ is_list m' l' (snd (spec_op op xs)) /\ dom m' = dom m.
Proof.
  intros Hl Hok.
  assert (Hfin : forall (r : outcome (utils_list * heap)) ys zs,
    (exists l' m', r = Done (l', m') /\ is_list m' l' ys /\ only_changes m m' zs) ->
    exists l' m', (st ← r; Done (RUnit, st)) = Done (RUnit, (l', m')) /\ is_list m' l' ys /\ dom m' = dom m).
  { intros r ys zs (l' & m' & -> & H1 & H2 & _). by exists l', m'. }
  destruct op; cbn [run_op spec_op fst snd op_ok] in *;
    try (destruct Hok as (Hnz & Hd%elem_of_dom & Hni); assert (Hfr : fresh_node m xs x) by done).
  - eapply Hfin, push_back_spec; done.
  - eapply Hfin, push_front_spec; done.
  - pose proof (pop_front_spec m l xs Hl) as Hp. destruct xs as [|x xs].
    + rewrite Hp. by exists l, m.
    + destruct Hp as (l' & -> & Hl'). by exists l', m.
  - eapply Hfin, extract_spec; done.
  - rewrite (find_spec m l xs) by done. by exists l, m.
  - rewrite (cnt_spec m l xs) by done. by exists l, m.
  - eapply Hfin, insert_spec; done.
  - eapply Hfin, insert_after_spec; done.
  - eapply Hfin, insert_before_spec; done.
Qed.

Lemma run_ops_refines ops m l xs :
  is_list m l xs -> ops_ok (dom m) ops xs ->
  exists l' m', run_ops ops (l, m) = Done (fst (spec_ops ops xs), (l', m'))
    /\ is_list m' l' (snd (spec_ops ops xs)) /\ dom m' = dom m.
Proof.
  revert m l xs. induction ops as [|op ops IH]; intros m l xs Hl Hok; [by exists l, m|].
  destruct Hok as [Hop Hok]. cbn [run_ops spec_ops].
  destruct (run_op_refines op m l xs Hl Hop) as (l1 & m1 & -> & Hl1 & Hd1).
  cbn [mbind outcome_bind]. rewrite <- Hd1 in Hok.
  destruct (IH m1 l1 _ Hl1 Hok) as (l2 & m2 & -> & Hl2 & Hd2).
  destruct (spec_op op xs) as [r xs1]; cbn [fst snd] in *. destruct (spec_ops ops xs1) as [rs xs2].
  exists l2, m2. cbn. split; [done|]. split; [done|congruence].
Qed.

End Ops.

(** ** Pools *)

(** the addresses of a pool's elements *)
Fixpoint pool_nodes (cnt : nat) (pool elmt_size : Z) : list Z :=
  match cnt with O => [] | S cnt => pool :: pool_nodes cnt (pool + elmt_size) elmt_size end.

Lemma pool_nodes_ge cnt pool sz x : 0 < sz -> x ∈ pool_nodes cnt pool sz -> pool <= x.
Proof.
  intros Hsz. revert pool. induction cnt as [|cnt IH]; intros pool; cbn.
  - by intros ?%elem_of_nil.
  - intros [->|H]%elem_of_cons; [lia|]. apply IH in H. lia.
Qed.

Lemma pool_init_loop_spec cnt l pool sz d m xs :
  0 < pool -> 0 < sz -> is_list m l xs -> (forall x, x ∈ xs -> x < pool) ->
  (forall x, x ∈ pool_nodes cnt pool sz -> x ∈ dom m) ->
  exists l' m', utils_list_pool_init_loop cnt l pool sz d m = Done (l', m')
    /\ is_list m' l' (xs ++ pool_nodes cnt pool sz) /\ dom m' = dom m.
Proof.
  intros Hp Hsz. revert l pool m xs Hp. induction cnt as [|cnt IH]; intros l pool m xs Hp Hl Hlt Hd.
  { exists l, m. by rewrite app_nil_r. }
  cbn [utils_list_pool_init_loop pool_nodes] in *.
  assert (Hpm : is_Some (m !! pool)) by (apply elem_of_dom, Hd; left).
  assert (Hni : pool ∉ xs) by (intros H%Hlt; lia).
  assert (exists m1, match d with Some v => store m pool v | None => Done m end = Done m1
            /\ is_list m1 l xs /\ dom m1 = dom m) as (m1 & -> & Hl1 & Hd1).
  { destruct d as [v|]; [|by exists m]. rewrite store_done_is by done. eexists. split; [done|].
    split; [|by apply insert_same_dom]. destruct Hl as (Hs & Hn & Hla).
    split; [by apply lseg_insert_ne|done]. }
  cbn [mbind outcome_bind]. destruct (push_back_spec m1 l xs pool) as (l2 & m2 & -> & Hl2 & Hd2 & _).
  { done. }
  { split; [unfold NULL; lia|]. split; [|done]. apply elem_of_dom. rewrite Hd1. apply Hd. left. }
  cbn [mbind outcome_bind]. destruct (IH l2 (pool + sz) m2 (xs ++ [pool])) as (l3 & m3 & -> & Hl3 & Hd3).
  - lia.
  - done.
  - intros x [Hx|Hx]%elem_of_app; [apply Hlt in Hx; lia|]. apply list_elem_of_singleton in Hx. lia.
  - intros x Hx. rewrite Hd2, Hd1. apply Hd. by right.
  - exists l3, m3. rewrite <- app_assoc in Hl3. split; [done|]. split; [done|congruence].
Qed.

(** ** Theorems *)

(** C31: starting from any well-formed list, every sequence of push_back,
    push_front, pop_front, extract, find, cnt, insert, insert_after and
    insert_before whose linked nodes are valid and unlinked runs without fault
    or endless loop and returns exactly the results of the same operations on
    the abstract sequence of nodes, which the final heap again represents. *)
Theorem utils_list_refines_sequence (cmp : Z -> Z -> bool) (ops : list list_op)
  (m : heap) (l : utils_list) (xs : list Z)
  (Hl : is_list m l xs) (Hok : ops_ok cmp (dom m) ops xs) :
  exists l' m', run_ops cmp ops (l, m) = Done (fst (spec_ops cmp ops xs), (l', m'))
    /\ is_list m' l' (snd (spec_ops cmp ops xs)) /\ dom m' = dom m.
Proof. by apply run_ops_refines. Qed.

Lemma utils_list_refines_sequence_witness :
  let m := <[1 := 0]> (<[2 := 0]> (<[3 := 0]> (∅ : heap))) in
  let l := utils_list_init {| l_first := 9; l_last := 9 |} in
  let ops := [OpPushBack 1; OpPushFront 2; OpInsertAfter 2 3; OpCnt; OpExtract 1; OpPopFront; OpFind 3] in
  exists l' m', run_ops Z.ltb ops (l, m)
      = Done ([RUnit; RUnit; RUnit; RCount 3; RUnit; RNode 2; RFound true], (l', m'))
    /\ is_list m' l' [3] /\ dom m' = dom m.
Proof.
  intros m l ops.
  apply (utils_list_refines_sequence Z.ltb ops m l []).
  - split; [reflexivity|]. split; [apply NoDup_nil_2|]. intros x [=].
  - cbn -[dom]. repeat split; try discriminate; try (apply elem_of_dom; eexists; reflexivity);
      rewrite ?not_elem_of_cons, ?not_elem_of_app; repeat split; try lia; by intros ?%elem_of_nil.
Defined.

(** Inserting with an asymmetric comparison keeps a list ordered and adds
    exactly the new node; all other cells of memory keep their value. *)
Theorem utils_list_insert_ordered (cmp : Z -> Z -> bool) (m : heap) (l : utils_list) (xs : list Z) (x : Z)
  (Hasym : forall a b, cmp a b = true -> cmp b a = false)
  (Hl : is_list m l xs) (Hx : fresh_node m xs x)
  (Hsorted : Sorted (fun a b => cmp b a = false) xs) :
  exists l' m' ys, utils_list_insert l x cmp m = Done (l', m')
    /\ is_list m' l' ys /\ ys ≡ₚ x :: xs /\ Sorted (fun a b => cmp b a = false) ys
    /\ forall y, y ∉ x :: xs -> m' !! y = m !! y.
Proof.
  destruct (insert_spec m l xs cmp x Hl Hx) as (l' & m' & E & Hl' & _ & Hch).
  exists l', m', (insert_sorted cmp x xs). split; [done|]. split; [done|]. split; [|split; [|done]].
  - clear. induction xs as [|y xs IH]; cbn; [done|]. destruct (cmp x y); [done|]. rewrite IH. constructor.
  - clear - Hasym Hsorted. induction Hsorted as [|y xs Hs IH Hhd]; cbn; [repeat constructor|].
    destruct (cmp x y) eqn:E.
    + constructor; [by constructor|]. constructor. by apply Hasym.
    + constructor; [done|]. destruct Hhd as [|z zs Hz]; cbn; [by constructor|].
      destruct (cmp x z); by constructor.
Qed.

Lemma utils_list_insert_ordered_witness :
  let m := <[2 := 4]> (<[4 := 0]> (<[3 := 7]> (∅ : heap))) in
  exists l' m' ys, utils_list_insert {| l_first := 2; l_last := 4 |} 3 Z.ltb m = Done (l', m')
    /\ is_list m' l' ys /\ ys ≡ₚ [3; 2; 4] /\ Sorted (fun a b => (b <? a) = false) ys
    /\ forall y, y ∉ [3; 2; 4] -> m' !! y = m !! y.
Proof.
  intros m. apply (utils_list_insert_ordered Z.ltb m {| l_first := 2; l_last := 4 |} [2; 4] 3).
  - intros a b H%Z.ltb_lt. apply Z.ltb_ge. lia.
  - split; [|split].
    + cbn. split; [done|]. split; [done|]. exists 4. split; [reflexivity|]. split; [done|].
      split; [done|]. by exists 0.
    + apply NoDup_cons. split; [rewrite list_elem_of_singleton; lia|apply NoDup_singleton].
    + by intros x [= <-].
  - split; [done|]. split; [by eexists|]. rewrite !not_elem_of_cons. repeat split; try lia.
    by intros ?%elem_of_nil.
  - repeat constructor.
Defined.

(** Concatenation moves every node of the second list, in order, behind the
    first and leaves the second empty; and removing a node next to its true
    predecessor unlinks exactly that node. *)
Theorem utils_list_concat_remove (m : heap) (l1 l2 l3 : utils_list) (xs ys us vs : list Z) (x : Z)
  (H1 : is_list m l1 xs) (H2 : is_list m l2 ys) (Hd : xs ## ys)
  (H3 : is_list m l3 (us ++ x :: vs)) :
  (exists l1' l2' m', utils_list_concat l1 l2 m = Done (l1', l2', m')
     /\ is_list m' l1' (xs ++ ys) /\ is_list m' l2' [] /\ only_changes m m' xs)
  /\ (exists l3' m', utils_list_remove l3 (default NULL (last us)) x m = Done (l3', m')
     /\ is_list m' l3' (us ++ vs) /\ only_changes m m' (us ++ x :: vs)).
Proof. split; [by apply concat_spec|by apply remove_spec]. Qed.

Lemma utils_list_concat_remove_witness :
  let m := <[2 := 0]> (<[4 := 0]> (∅ : heap)) in
  let l2 := {| l_first := 2; l_last := 2 |} in let l4 := {| l_first := 4; l_last := 4 |} in
  (exists l1' l2' m', utils_list_concat l2 l4 m = Done (l1', l2', m')
     /\ is_list m' l1' [2; 4] /\ is_list m' l2' [] /\ only_changes m m' [2])
  /\ (exists l3' m', utils_list_remove l4 NULL 4 m = Done (l3', m')
     /\ is_list m' l3' [] /\ only_changes m m' [4]).
Proof.
  intros m l2 l4.
  assert (H : forall a, a <> NULL -> m !! a = Some 0 -> is_list m {| l_first := a; l_last := a |} [a]).
  { intros a Ha Hm. split; [|split; [apply NoDup_singleton|by intros ? [= ->]]].
    split; [done|]. split; [done|]. by exists 0. }
  apply (utils_list_concat_remove m l2 l4 l4 [2] [4] [] [] 4); try (by apply H).
  intros a Ha Hb. apply list_elem_of_singleton in Ha, Hb. lia.
Defined.

(** Initialising a free list over a pool links every element of the pool
    once, in address order. *)
Theorem utils_list_pool_init_links (l : utils_list) (pool elmt_size : Z) (cnt : nat)
  (default_hdr : option Z) (m : heap)
  (Hpool : 0 < pool) (Hsz : 0 < elmt_size)
  (Hd : forall x, x ∈ pool_nodes cnt pool elmt_size -> x ∈ dom m) :
  exists l' m', utils_list_pool_init l pool elmt_size cnt default_hdr m = Done (l', m')
    /\ is_list m' l' (pool_nodes cnt pool elmt_size) /\ dom m' = dom m.
Proof.
  apply (pool_init_loop_spec cnt (utils_list_init l) pool elmt_size default_hdr m []); try done.
  - split; [done|]. split; [apply NoDup_nil_2|]. by intros ? [=].
  - by intros ? ?%elem_of_nil.
Qed.

Lemma utils_list_pool_init_links_witness :
  let m := <[8 := 0]> (<[24 := 0]> (∅ : heap)) in
  exists l' m', utils_list_pool_init {| l_first := 1; l_last := 1 |} 8 16 2 (Some 7) m = Done (l', m')
    /\ is_list m' l' [8; 24] /\ dom m' = dom m.
Proof.
  intros m. apply (utils_list_pool_init_links _ 8 16 2 (Some 7) m); [done|done|].
  cbn -[dom]. intros x [->|[->|H%elem_of_nil]%elem_of_cons]%elem_of_cons; [| |done];
    apply elem_of_dom; eexists; reflexivity.
Defined.
