(* ===== verification/Slist.v ===== *)
(** * Headed single lists: the [utils_slist_t] part of src/utils/include/utils_list.h

    The list head is itself a node; the list ends with a NULL link.
    [is_slist m h xs]: behind head [h] the nodes are [xs]. *)
From S2P Require Import Prelude UtilsList.

(** ** Definitions *)

Definition utils_slist_add (node head : Z) (m : heap) : outcome heap :=
  n ← load m head;
  m ← store m node n;
  store m head node.

(** [while (l->next) l = l->next;] *)
Fixpoint utils_slist_tail_loop (fuel : nat) (m : heap) (l : Z) : outcome Z :=
  match fuel with
  | O => NoFuel
  | S fuel => n ← load m l; if negb (n =? NULL) then utils_slist_tail_loop fuel m n else Done l
  end.

Definition utils_slist_add_tail (node head : Z) (m : heap) : outcome heap :=
  head ← utils_slist_tail_loop (loop_fuel m) m head;
  utils_slist_add node head m.

Definition utils_slist_append (l n : Z) (m : heap) : outcome heap :=
  node ← utils_slist_tail_loop (loop_fuel m) m l;
  m ← store m node n;
  store m n NULL.

Fixpoint utils_slist_del_loop (fuel : nat) (node head : Z) (m : heap) : outcome heap :=
  match fuel with
  | O => NoFuel
  | S fuel =>
    n ← load m head;
    if negb (n =? NULL) then
      if n =? node then nn ← load m node; store m head nn
      else utils_slist_del_loop fuel node n m
    else Done m
  end.

Definition utils_slist_del (node head : Z) (m : heap) : outcome heap :=
  utils_slist_del_loop (loop_fuel m) node head m.

Definition utils_slist_empty (head : Z) (m : heap) : outcome bool :=
  n ← load m head; Done (n =? NULL).

Definition utils_slist_init (head : Z) (m : heap) : outcome heap := store m head 0.

Definition utils_slist_first (l : Z) (m : heap) : outcome Z := load m l.

Definition utils_slist_tail (l : Z) (m : heap) : outcome Z :=
  utils_slist_tail_loop (loop_fuel m) m l.

Definition utils_slist_next (l : Z) (m : heap) : outcome Z := load m l.

Fixpoint utils_slist_entry_number_loop (fuel : nat) (cur num : Z) (m : heap) : outcome Z :=
  match fuel with
  | O => NoFuel
  | S fuel =>
    n ← load m cur;
    if negb (n =? NULL) then utils_slist_entry_number_loop fuel n (num + 1) m else Done num
  end.

Definition utils_slist_entry_number (queue : Z) (m : heap) : outcome Z :=
  utils_slist_entry_number_loop (loop_fuel m) queue 0 m.

(** ** Representation *)

Definition is_slist (m : heap) (h : Z) (xs : list Z) : Prop :=
  lseg m h (h :: xs) NULL /\ NoDup (h :: xs).

Lemma is_slist_fuel m h xs : is_slist m h xs -> (length xs < size m)%nat.
Proof.
  intros [Hs Hn]. pose proof (lseg_fuel _ _ _ _ Hs Hn) as H. unfold loop_fuel in H. cbn in H. lia.
Qed.

Lemma tail_loop_spec m xs h fuel :
  lseg m h (h :: xs) NULL -> (length xs < fuel)%nat ->
  exists l1 t, h :: xs = l1 ++ [t] /\ utils_slist_tail_loop fuel m h = Done t.
Proof.
  revert h fuel. induction xs as [|x xs IH]; intros h [|fuel] Hs Hf; cbn in Hf; try lia;
    destruct Hs as (_ & Hh & n & Hn & Hs); cbn [utils_slist_tail_loop];
    rewrite (load_done _ _ _ Hn); cbn [mbind outcome_bind]; cbn in Hs.
  - subst n. by exists [], h.
  - pose proof Hs as (-> & Hx & _). rewrite (proj2 (Z.eqb_neq x NULL)) by done. cbn [negb].
    destruct (IH x fuel) as (l1 & t & E & Hr); [done|lia|]. exists (h :: l1), t. by rewrite E.
Qed.

Lemma slist_tail_spec m h xs :
  is_slist m h xs -> exists l1 t, h :: xs = l1 ++ [t] /\ utils_slist_tail h m = Done t.
Proof.
  intros H. pose proof (is_slist_fuel _ _ _ H). destruct H as [Hs Hn].
  apply tail_loop_spec; [done|]. unfold loop_fuel. lia.
Qed.

(** linking [x] behind any node [t] of the ring of nodes *)
Lemma slist_link m h l1 t l2 x r :
  lseg m h (l1 ++ t :: l2) r -> NoDup (l1 ++ t :: l2) -> fresh_node m (l1 ++ t :: l2) x ->
  exists n, m !! t = Some n
    /\ lseg (<[t := x]> (<[x := n]> m)) h (l1 ++ t :: x :: l2) r
    /\ NoDup (l1 ++ t :: x :: l2)
    /\ only_changes m (<[t := x]> (<[x := n]> m)) (x :: l1 ++ t :: l2).
Proof.
  intros Hs Hn (Hxnz & Hx & Hni). apply lseg_split_at in Hs as (n & H1 & Ht & Htnz & H2).
  apply NoDup_split in Hn as (Ht1 & Ht2 & Hnd). assert (Hxt : x <> t) by set_solver.
  assert (Hx1 : x ∉ l1) by set_solver. assert (Hx2 : x ∉ l2) by set_solver.
  exists n. split; [done|]. split; [|split].
  - eapply lseg_relink; [|done|set_solver|].
    + apply lseg_insert_ne; [set_solver|done].
    + split; [done|]. split; [done|]. exists n. rewrite lookup_insert_eq. split; [done|].
      by apply lseg_insert_ne.
  - apply NoDup_join; [done|set_solver|]. by apply NoDup_join.
  - apply only_changes_insert2; [left|right; apply elem_of_app; right; left|done|done].
Qed.

Lemma slist_add_spec m h xs x :
  is_slist m h xs -> fresh_node m (h :: xs) x ->
  exists m', utils_slist_add x h m = Done m' /\ is_slist m' h (x :: xs)
    /\ only_changes m m' (x :: h :: xs).
Proof.
  intros [Hs Hn] Hx. destruct (slist_link m h [] h xs x NULL) as (n & Hh & Hs' & Hn' & Hch); try done.
  unfold utils_slist_add. rewrite (load_done _ _ _ Hh). cbn [mbind outcome_bind].
  destruct Hx as (Hxnz & Hxm & Hxn). rewrite store_done_is by done. cbn [mbind outcome_bind].
  rewrite store_done_is by (rewrite lookup_insert_ne by set_solver; done). by eexists.
Qed.

Lemma slist_append_spec m h xs x :
  is_slist m h xs -> fresh_node m (h :: xs) x ->
  exists m', utils_slist_append h x m = Done m' /\ is_slist m' h (xs ++ [x])
    /\ only_changes m m' (x :: h :: xs).
Proof.
  intros H Hx. destruct (slist_tail_spec _ _ _ H) as (l1 & t & E & Ht).
  unfold utils_slist_append. unfold utils_slist_tail in Ht. rewrite Ht. cbn [mbind outcome_bind].
  destruct H as [Hs Hn]. rewrite E in Hs, Hn, Hx.
  destruct (slist_link m h l1 t [] x NULL) as (n & Htn & Hs' & Hn' & Hch); try done.
  destruct Hx as (Hxnz & Hxm & Hxn). assert (Hxt : x <> t) by set_solver.
  rewrite store_done_is by done. cbn [mbind outcome_bind].
  rewrite store_done_is by (by rewrite lookup_insert_ne). eexists. split; [done|].
  apply lseg_split_at in Hs as (n' & _ & Hn2 & _ & Hnl). cbn in Hnl. subst n'.
  assert (n = NULL) as -> by congruence. rewrite insert_insert_ne by done.
  rewrite E. split; [|done]. unfold is_slist. rewrite app_comm_cons, E, <- app_assoc. done.
Qed.

Lemma slist_add_tail_append m h xs x :
  is_slist m h xs -> fresh_node m (h :: xs) x ->
  utils_slist_add_tail x h m = utils_slist_append h x m.
Proof.
  intros H Hx. destruct (slist_tail_spec _ _ _ H) as (l1 & t & E & Ht).
  unfold utils_slist_append, utils_slist_add_tail. unfold utils_slist_tail in Ht.
  rewrite Ht. cbn [mbind outcome_bind]. destruct H as [Hs Hn]. rewrite E in Hs, Hx.
  apply lseg_split_at in Hs as (n & _ & Hn2 & _ & Hnl). cbn in Hnl. subst n.
  destruct Hx as (Hxnz & Hxm & Hxn). assert (Hxt : x <> t) by set_solver.
  unfold utils_slist_add. rewrite (load_done _ _ _ Hn2). cbn [mbind outcome_bind].
  rewrite !store_done_is by done. cbn [mbind outcome_bind].
  rewrite !store_done_is by (by rewrite lookup_insert_ne). by rewrite insert_insert_ne.
Qed.

Lemma del_loop_spec m x ys h fuel r :
  x <> NULL -> lseg m h (h :: ys) NULL -> NoDup (h :: ys) -> h <> x -> (length ys < fuel)%nat ->
  r = remove_node x ys ->
  exists m', utils_slist_del_loop fuel x h m = Done m' /\ lseg m' h (h :: r) NULL
    /\ only_changes m m' (h :: ys).
Proof.
  intros Hx. revert h fuel r. induction ys as [|y ys IH]; intros h [|fuel] r Hs Hn Hhx Hf ->;
    cbn in Hf; try lia; pose proof Hs as (_ & Hh & n & Hnh & Hs'); cbn [utils_slist_del_loop];
    rewrite (load_done _ _ _ Hnh); cbn [mbind outcome_bind]; cbn in Hs'.
  - subst n. cbn. exists m. split; [done|]. split; [done|apply only_changes_refl].
  - destruct Hs' as (-> & Hy & n' & Hy' & Hs'). rewrite (proj2 (Z.eqb_neq y NULL)) by done. cbn [negb].
    apply NoDup_cons in Hn as [Hhn Hn]. destruct (Z.eqb_spec y x) as [->|Hyx].
    + rewrite (load_done _ _ _ Hy'). cbn [mbind outcome_bind]. rewrite store_done_is by done.
      eexists. split; [done|]. apply NoDup_cons in Hn as [Hxn Hn].
      change (remove_node x (x :: ys)) with (remove_node x ([] ++ x :: ys)).
      rewrite remove_node_split by (done || by intros ?%elem_of_nil). cbn [app].
      split; [|apply only_changes_insert; [left|done]].
      split; [done|]. split; [done|]. exists n'. rewrite lookup_insert_eq. split; [done|].
      apply lseg_insert_ne; [|done]. set_solver.
    + destruct (IH y fuel (remove_node x ys)) as (m' & -> & Hs2 & Hch); try done; [|lia|].
      { split; [done|]. split; [done|]. by exists n'. }
      exists m'. split; [done|]. unfold remove_node. rewrite filter_cons_True by done. split.
      * split; [done|]. split; [done|]. exists y. split; [|done].
        destruct Hch as [_ Hch]. by rewrite Hch.
      * eapply only_changes_weaken; [done|]. intros z Hz. by right.
Qed.

Lemma slist_del_spec m h xs x :
  is_slist m h xs -> x <> NULL -> x <> h ->
  exists m', utils_slist_del x h m = Done m' /\ is_slist m' h (remove_node x xs)
    /\ only_changes m m' (h :: xs).
Proof.
  intros H Hx Hxh. pose proof (is_slist_fuel _ _ _ H). destruct H as [Hs Hn].
  destruct (del_loop_spec m x xs h (loop_fuel m) (remove_node x xs)) as (m' & E & Hs' & Hch);
    try done; [unfold loop_fuel; lia|].
  exists m'. split; [done|]. split; [|done]. split; [done|].
  apply NoDup_cons in Hn as [Hh Hn]. apply NoDup_cons.
  split; [|by apply NoDup_filter]. unfold remove_node. rewrite list_elem_of_filter. tauto.
Qed.

Lemma entry_number_loop_spec m xs h c fuel :
  lseg m h (h :: xs) NULL -> (length xs < fuel)%nat ->
  utils_slist_entry_number_loop fuel h c m = Done (c + Z.of_nat (length xs)).
Proof.
  revert h c fuel. induction xs as [|x xs IH]; intros h c [|fuel] Hs Hf; cbn in Hf; try lia;
    destruct Hs as (_ & Hh & n & Hn & Hs); cbn [utils_slist_entry_number_loop];
    rewrite (load_done _ _ _ Hn); cbn [mbind outcome_bind]; cbn in Hs.
  - subst n. cbn. f_equal. lia.
  - pose proof Hs as (-> & Hx & _). rewrite (proj2 (Z.eqb_neq x NULL)) by done. cbn [negb].
    rewrite IH by (done || lia). f_equal. cbn [length]. lia.
Qed.

Lemma entry_number_spec m h xs :
  is_slist m h xs -> utils_slist_entry_number h m = Done (Z.of_nat (length xs)).
Proof.
  intros H. pose proof (is_slist_fuel _ _ _ H). destruct H as [Hs Hn].
  unfold utils_slist_entry_number. rewrite entry_number_loop_spec with (xs := xs); [done|done|].
  unfold loop_fuel. lia.
Qed.

Lemma slist_first_spec m h xs :
  is_slist m h xs -> utils_slist_first h m = Done (default NULL (head xs)).
Proof.
  intros [(_ & Hh & n & Hn & Hs) _]. unfold utils_slist_first. rewrite (load_done _ _ _ Hn).
  destruct xs as [|x xs]; cbn in Hs |- *; [by rewrite Hs|by destruct Hs as (-> & _)].
Qed.

Lemma slist_empty_spec m h xs :
  is_slist m h xs -> utils_slist_empty h m = Done (bool_decide (xs = [])).
Proof.
  intros [(_ & Hh & n & Hn & Hs) _]. unfold utils_slist_empty. rewrite (load_done _ _ _ Hn).
  cbn. f_equal. apply lseg_null in Hs. destruct (Z.eqb_spec n NULL); symmetry.
  - apply bool_decide_eq_true. tauto.
  - apply bool_decide_eq_false. tauto.
Qed.

Lemma slist_init_spec m h : h <> NULL -> is_Some (m !! h) ->
  utils_slist_init h m = Done (<[h := NULL]> m) /\ is_slist (<[h := NULL]> m) h [].
Proof.
  intros Hh Hm. unfold utils_slist_init. rewrite store_done_is by done. split; [done|].
  split; [|apply NoDup_singleton]. split; [done|]. split; [done|]. exists NULL.
  by rewrite lookup_insert_eq.
Qed.

(** ** Theorem *)

(** Behind a list head, adding, appending (both variants) and deleting
    change the represented sequence of nodes as named, traversals report its
    first and last node, its length and emptiness, every loop terminates, and
    no cell outside the list and the new node is written. *)
Theorem utils_slist_correct (m : heap) (h : Z) (xs : list Z) (x d : Z)
  (H : is_slist m h xs) (Hx : fresh_node m (h :: xs) x) (Hd : d <> NULL) (Hdh : d <> h) :
  (exists m', utils_slist_add x h m = Done m' /\ is_slist m' h (x :: xs)
     /\ only_changes m m' (x :: h :: xs))
  /\ (exists m', utils_slist_append h x m = Done m' /\ is_slist m' h (xs ++ [x])
     /\ only_changes m m' (x :: h :: xs))
  /\ utils_slist_add_tail x h m = utils_slist_append h x m
  /\ (exists m', utils_slist_del d h m = Done m' /\ is_slist m' h (remove_node d xs)
     /\ only_changes m m' (h :: xs))
  /\ utils_slist_first h m = Done (default NULL (head xs))
  /\ utils_slist_tail h m = Done (List.last (h :: xs) NULL)
  /\ utils_slist_entry_number h m = Done (Z.of_nat (length xs))
  /\ utils_slist_empty h m = Done (bool_decide (xs = [])).
Proof.
  split; [by apply slist_add_spec|]. split; [by apply slist_append_spec|].
  split; [by eapply slist_add_tail_append|]. split; [by apply slist_del_spec|].
  split; [by apply slist_first_spec|]. split; [|split; [by apply entry_number_spec|by apply slist_empty_spec]].
  destruct (slist_tail_spec _ _ _ H) as (l1 & t & -> & ->). by rewrite List.last_last.
Qed.

Lemma utils_slist_correct_witness :
  let m := <[1 := 5]> (<[5 := 0]> (<[7 := 0]> (∅ : heap))) in
  utils_slist_tail 1 m = Done 5 /\ utils_slist_entry_number 1 m = Done 1.
Proof.
  intros m. destruct (utils_slist_correct m 1 [5] 7 5) as (_ & _ & _ & _ & _ & Ht & Hn & _).
  - split.
    + cbn. split; [done|]. split; [done|]. exists 5. split; [reflexivity|].
      split; [done|]. split; [done|]. by exists 0.
    + apply NoDup_cons. split; [rewrite list_elem_of_singleton; lia|apply NoDup_singleton].
  - split; [done|]. split; [by eexists|]. rewrite !not_elem_of_cons. repeat split; try lia.
    by intros ?%elem_of_nil.
  - done.
  - done.
  - split; [exact Ht|exact Hn].
Defined.
