(* ===== verification/Dlist.v ===== *)
(** * Circular double lists: the [utils_dlist_t] part of src/utils/include/utils_list.h

    A list is a ring of nodes through a head node.  The two link fields are two
    maps of the memory.  [is_dlist m h xs]: the ring through [h] is [h :: xs]. *)
From S2P Require Import Prelude UtilsList.

(** ** Definitions *)

Record dmem := { d_next : heap; d_prev : heap }.

Definition next_of (m : dmem) (p : Z) : outcome Z := load (d_next m) p.
Definition prev_of (m : dmem) (p : Z) : outcome Z := load (d_prev m) p.
Definition set_next (m : dmem) (p v : Z) : outcome dmem :=
  h ← store (d_next m) p v; Done {| d_next := h; d_prev := d_prev m |}.
Definition set_prev (m : dmem) (p v : Z) : outcome dmem :=
  h ← store (d_prev m) p v; Done {| d_next := d_next m; d_prev := h |}.

Definition __utils_dlist_add (node prev next : Z) (m : dmem) : outcome dmem :=
  m ← set_next m node next;
  m ← set_prev m node prev;
  m ← set_next m prev node;
  set_prev m next node.

Definition utils_dlist_add (node queue : Z) (m : dmem) : outcome dmem :=
  n ← next_of m queue; __utils_dlist_add node queue n m.

Definition utils_dlist_add_tail (node queue : Z) (m : dmem) : outcome dmem :=
  p ← prev_of m queue; __utils_dlist_add node p queue m.

Definition utils_dlist_del (node : Z) (m : dmem) : outcome dmem :=
  prev ← prev_of m node;
  next ← next_of m node;
  m ← set_next m prev next;
  set_prev m next prev.

Definition utils_dlist_init (node : Z) (m : dmem) : outcome dmem :=
  m ← set_prev m node node; set_next m node node.

Definition INIT_UTILS_DLIST_HEAD (list : Z) (m : dmem) : outcome dmem :=
  m ← set_next m list list; set_prev m list list.

Definition utils_dlist_empty (head : Z) (m : dmem) : outcome bool :=
  n ← next_of m head; Done (n =? head).

Fixpoint utils_dlist_entry_number_loop (fuel : nat) (queue cur num : Z) (m : dmem) : outcome Z :=
  match fuel with
  | O => NoFuel
  | S fuel =>
    n ← next_of m cur;
    if negb (n =? queue) then utils_dlist_entry_number_loop fuel queue n (num + 1) m else Done num
  end.

Definition utils_dlist_entry_number (queue : Z) (m : dmem) : outcome Z :=
  utils_dlist_entry_number_loop (loop_fuel (d_next m)) queue queue 0 m.

(** the nodes visited by [utils_dlist_for_each_entry], in order *)
Fixpoint utils_dlist_for_each_entry_loop (fuel : nat) (queue node : Z) (m : dmem) : outcome (list Z) :=
  match fuel with
  | O => NoFuel
  | S fuel =>
    if negb (node =? queue) then
      n ← next_of m node;
      rest ← utils_dlist_for_each_entry_loop fuel queue n m;
      Done (node :: rest)
    else Done []
  end.

Definition utils_dlist_for_each_entry (queue : Z) (m : dmem) : outcome (list Z) :=
  n ← next_of m queue;
  utils_dlist_for_each_entry_loop (loop_fuel (d_next m)) queue n m.

(** ** Representation *)

Definition linked (m : dmem) (a b : Z) : Prop := d_next m !! a = Some b /\ d_prev m !! b = Some a.

(** links from [a] through [xs] to [b] in both directions *)
Fixpoint links (m : dmem) (a : Z) (xs : list Z) (b : Z) : Prop :=
  match xs with
  | [] => linked m a b
  | x :: xs => linked m a x /\ links m x xs b
  end.

Definition is_dlist (m : dmem) (h : Z) (xs : list Z) : Prop :=
  links m h xs h /\ NoDup (h :: xs).

(** make [a] and [b] neighbours *)
Definition join (m : dmem) (a b : Z) : dmem :=
  {| d_next := <[a := b]> (d_next m); d_prev := <[b := a]> (d_prev m) |}.

Definition node_ok (m : dmem) (x : Z) : Prop := is_Some (d_next m !! x) /\ is_Some (d_prev m !! x).

(** the same addresses are nodes before and after *)
Definition same_nodes (m m' : dmem) : Prop :=
  dom (d_next m') = dom (d_next m) /\ dom (d_prev m') = dom (d_prev m).

#[export] Instance same_nodes_equiv : Equivalence same_nodes.
Proof.
  split; [by split|by intros m m' [? ?]|]. intros m1 m2 m3 [? ?] [? ?]. split; congruence.
Qed.

Lemma node_ok_same m m' x : same_nodes m m' -> node_ok m' x <-> node_ok m x.
Proof. intros [E1 E2]. unfold node_ok. by rewrite <- !elem_of_dom, E1, E2. Qed.

Lemma join_same_nodes m a b :
  is_Some (d_next m !! a) -> is_Some (d_prev m !! b) -> same_nodes m (join m a b).
Proof. intros Ha Hb. split; by apply insert_same_dom. Qed.

Lemma links_app m a xs y ys b :
  links m a (xs ++ y :: ys) b <-> links m a xs y /\ links m y ys b.
Proof. revert a. induction xs as [|x xs IH]; intros a; cbn; [done|]. rewrite IH. tauto. Qed.

Lemma links_next m a xs b x : links m a xs b -> x ∈ a :: xs -> is_Some (d_next m !! x).
Proof.
  revert a. induction xs as [|y xs IH]; intros a; cbn.
  - intros [H _] ->%list_elem_of_singleton. by exists b.
  - intros [[H _] Hs] [->|Hx]%elem_of_cons; [by exists y|]. by eapply IH.
Qed.

Lemma links_prev m a xs b x : links m a xs b -> x ∈ xs ++ [b] -> is_Some (d_prev m !! x).
Proof.
  revert a. induction xs as [|y xs IH]; intros a; cbn.
  - intros [_ H] ->%list_elem_of_singleton. by exists a.
  - intros [[_ H] Hs] [->|Hx]%elem_of_cons; [by exists a|]. by eapply IH.
Qed.

Lemma is_dlist_node m h xs x : is_dlist m h xs -> x ∈ h :: xs -> node_ok m x.
Proof.
  intros [Hl Hn] Hx. split; [by eapply links_next|]. eapply links_prev; [done|].
  rewrite elem_of_app, list_elem_of_singleton. rewrite elem_of_cons in Hx. tauto.
Qed.

Lemma links_join_other m a xs b p q :
  links m a xs b -> p ∉ a :: xs -> q ∉ xs ++ [b] -> links (join m p q) a xs b.
Proof.
  revert a. induction xs as [|x xs IH]; intros a; cbn.
  - intros [H1 H2] Hp Hq. split; cbn; rewrite lookup_insert_ne; set_solver.
  - intros [[H1 H2] Hs] Hp Hq. split; [|apply IH; set_solver].
    split; cbn; rewrite lookup_insert_ne; set_solver.
Qed.

(** the last node before [b], [p], now points to [y] *)
Lemma links_join_end m a xs b l p y :
  links m a xs b -> a :: xs = l ++ [p] -> NoDup (a :: xs) -> y ∉ xs -> links (join m p y) a xs y.
Proof.
  revert a l. induction xs as [|x xs IH]; intros a l Hs El Hn Hy.
  - destruct l as [|? [|]]; simplify_eq/=. split; cbn; by rewrite lookup_insert_eq.
  - destruct Hs as [[H1 H2] Hs]. apply NoDup_cons in Hn as [Ha Hn].
    destruct l as [|a' l]; [by simplify_eq/=|]. injection El as <- El.
    split; [|eapply IH; [done|done|done|set_solver]].
    assert (Hp : p ∈ x :: xs) by (rewrite El; apply elem_of_app; right; left).
    split; cbn; (rewrite lookup_insert_ne; [done|]); set_solver.
Qed.

(** what follows [a] now follows [c] *)
Lemma links_join_start m a xs b c q r :
  links m a xs b -> xs ++ [b] = q :: r -> c ∉ xs -> NoDup (xs ++ [b]) ->
  links (join m c q) c xs b.
Proof.
  destruct xs as [|x xs]; cbn; intros Hs Eq Hc Hn; simplify_eq.
  - split; cbn; by rewrite lookup_insert_eq.
  - destruct Hs as [_ Hs]. split; [split; cbn; by rewrite lookup_insert_eq|].
    apply NoDup_cons in Hn as [Hq _]. by apply links_join_other.
Qed.

Lemma add_is_join node prev next m :
  node_ok m node -> is_Some (d_next m !! prev) -> is_Some (d_prev m !! next) ->
  node <> prev -> node <> next ->
  __utils_dlist_add node prev next m = Done (join (join m node next) prev node)
  /\ join (join m node next) prev node = join (join m prev node) node next.
Proof.
  intros [Hn Hp] Hpn Hnp Hne Hne'. unfold __utils_dlist_add, set_next, set_prev.
  rewrite store_done_is by done. cbn [mbind outcome_bind d_next d_prev].
  rewrite store_done_is by done. cbn [mbind outcome_bind d_next d_prev].
  rewrite store_done_is by (by rewrite lookup_insert_ne). cbn [mbind outcome_bind d_next d_prev].
  rewrite store_done_is by (by rewrite lookup_insert_ne). cbn [mbind outcome_bind d_next d_prev].
  unfold join; cbn. split; f_equal.
  - f_equal. by rewrite insert_insert_ne.
  - by rewrite insert_insert_ne.
  - by rewrite insert_insert_ne.
Qed.

(** insertion between two neighbours [p] and [q] of the ring *)
Lemma dlist_insert_spec m h l1 l2 x p q l r :
  is_dlist m h (l1 ++ l2) -> node_ok m x -> x ∉ h :: l1 ++ l2 ->
  h :: l1 = l ++ [p] -> l2 ++ [h] = q :: r ->
  exists m', __utils_dlist_add x p q m = Done m' /\ is_dlist m' h (l1 ++ x :: l2) /\ same_nodes m m'.
Proof.
  intros [Hl Hn] Hx Hni El Er.
  assert (H1 : links m h l1 q /\ links m p l2 h).
  { destruct l2 as [|q' l2]; cbn in Er; injection Er as Eq _; subst.
    - rewrite app_nil_r in Hl. split; [done|]. destruct (snoc_cases l1) as [->|(l1' & p' & ->)].
      + destruct l as [|? [|]]; by simplify_eq/=.
      + rewrite app_comm_cons in El. apply app_inj_tail in El as [_ ->]. by apply links_app in Hl as [_ Hl].
    - apply links_app in Hl as [Hl1 Hl2]. split; [done|].
      destruct (snoc_cases l1) as [->|(l1' & p' & ->)].
      + destruct l as [|? [|]]; simplify_eq/=. by split.
      + rewrite app_comm_cons in El. apply app_inj_tail in El as [_ ->].
        apply links_app in Hl1 as [_ Hl1]. by split. }
  destruct H1 as [H1 H2]. apply NoDup_cons in Hn as [Hh Hn].
  assert (Hn12 : NoDup (l1 ++ l2)) by done. apply NoDup_app in Hn as (Hn1 & Hdis & Hn2).
  assert (Hp : p ∈ h :: l1) by (rewrite El; apply elem_of_app; right; left).
  assert (Hq : q ∈ l2 ++ [h]) by (rewrite Er; left).
  destruct (add_is_join x p q m) as [-> Ej]; try done.
  { eapply links_next; [exact H1|done]. }
  { eapply links_prev; [exact H2|done]. }
  { set_solver. }
  { set_solver. }
  eexists. split; [done|]. split; [split|].
  - apply links_app. split.
    + rewrite Ej. apply links_join_other; [|set_solver|set_solver].
      eapply links_join_end; [exact H1|done|apply NoDup_cons; set_solver|set_solver].
    + apply links_join_other; [|set_solver|set_solver].
      eapply links_join_start; [exact H2|done|set_solver|]. apply NoDup_app. split; [done|].
      split; [set_solver|apply NoDup_singleton].
  - apply NoDup_cons. split; [set_solver|]. apply NoDup_join; set_solver.
  - transitivity (join m x q); apply join_same_nodes; cbn; rewrite ?lookup_insert; try case_decide;
      try (by apply Hx); try (eapply links_next; [exact H1|done]); try (eapply links_prev; [exact H2|done]);
      done.
Qed.

(** ** Operations *)

(** the neighbours of a ring node *)
Lemma ring_next m h l1 l2 l p q r :
  links m h (l1 ++ l2) h -> h :: l1 = l ++ [p] -> l2 ++ [h] = q :: r -> linked m p q.
Proof.
  intros Hl El Er. destruct (snoc_cases l1) as [->|(l1' & p' & ->)].
  - destruct l as [|? [|]]; simplify_eq/=. destruct l2; cbn in *; simplify_eq; [done|].
    by destruct Hl.
  - rewrite app_comm_cons in El. apply app_inj_tail in El as [_ ->].
    rewrite <- app_assoc in Hl. cbn in Hl. apply links_app in Hl as [_ Hl].
    destruct l2; cbn in *; simplify_eq; [done|]. by destruct Hl.
Qed.

(** add behind any node [p] of the ring (the head included) *)
Lemma dlist_add_spec m h l1 l2 x p l :
  is_dlist m h (l1 ++ l2) -> node_ok m x -> x ∉ h :: l1 ++ l2 -> h :: l1 = l ++ [p] ->
  exists m', utils_dlist_add x p m = Done m' /\ is_dlist m' h (l1 ++ x :: l2) /\ same_nodes m m'.
Proof.
  intros H Hx Hni El. destruct (l2 ++ [h]) as [|q r] eqn:Er; [by destruct l2|].
  pose proof (ring_next m h l1 l2 l p q r (proj1 H) El Er) as [Hpq _].
  unfold utils_dlist_add, next_of. rewrite (load_done _ _ _ Hpq). cbn [mbind outcome_bind].
  by eapply dlist_insert_spec.
Qed.

Lemma dlist_add_tail_spec m h xs x :
  is_dlist m h xs -> node_ok m x -> x ∉ h :: xs ->
  exists m', utils_dlist_add_tail x h m = Done m' /\ is_dlist m' h (xs ++ [x]) /\ same_nodes m m'.
Proof.
  intros H Hx Hni. destruct (snoc_cases (h :: xs)) as [|(l & p & El)]; [done|].
  rewrite <- (app_nil_r xs) in H.
  pose proof (ring_next m h xs [] l p h [] (proj1 H) El eq_refl) as [_ Hpq].
  unfold utils_dlist_add_tail, prev_of. rewrite (load_done _ _ _ Hpq). cbn [mbind outcome_bind].
  eapply dlist_insert_spec; [done|done|by rewrite app_nil_r|done|done].
Qed.

Lemma dlist_del_spec m h l1 x l2 :
  is_dlist m h (l1 ++ x :: l2) ->
  exists m', utils_dlist_del x m = Done m' /\ is_dlist m' h (l1 ++ l2) /\ same_nodes m m'.
Proof.
  intros [Hl Hn]. destruct (snoc_cases (h :: l1)) as [|(l & p & El)]; [done|].
  destruct (l2 ++ [h]) as [|q r] eqn:Er; [by destruct l2|].
  pose proof (ring_next m h l1 (x :: l2) l p x (l2 ++ [h]) Hl El eq_refl) as [Hpx Hxp].
  assert (Hl' : links m h ((l1 ++ [x]) ++ l2) h) by (by rewrite <- app_assoc).
  pose proof (ring_next m h (l1 ++ [x]) l2 (h :: l1) x q r Hl' eq_refl Er) as [Hxq Hqx].
  unfold utils_dlist_del, prev_of, next_of, set_next, set_prev.
  rewrite (load_done _ _ _ Hxp). cbn [mbind outcome_bind].
  rewrite (load_done _ _ _ Hxq). cbn [mbind outcome_bind].
  rewrite store_done_is by done. cbn [mbind outcome_bind d_next d_prev].
  rewrite store_done_is by done. cbn [mbind outcome_bind].
  change {| d_next := _; d_prev := _ |} with (join m p q). eexists. split; [done|].
  apply NoDup_cons in Hn as [Hh Hn]. pose proof Hn as (Hx1 & Hx2 & Hnd)%NoDup_split.
  pose proof Hnd as (Hn1 & Hdis & Hn2)%NoDup_app.
  assert (Hp : p ∈ h :: l1) by (rewrite El; apply elem_of_app; right; left).
  apply links_app in Hl as [H1 H2]. split; [split|].
  - destruct l2 as [|q' l2]; cbn in Er; injection Er as Eq _; subst.
    + rewrite app_nil_r. eapply links_join_end; [exact H1|done|apply NoDup_cons; set_solver|set_solver].
    + apply links_app. destruct H2 as [_ H2]. split.
      * eapply links_join_end; [exact H1|done|apply NoDup_cons; set_solver|set_solver].
      * apply NoDup_cons in Hn2 as [Hq2 Hn2]. apply links_join_other; [done|set_solver|set_solver].
  - apply NoDup_cons. split; [set_solver|done].
  - by apply join_same_nodes.
Qed.

(** ** Locality: what an operation leaves alone *)

(** the node [y] is linked the same way in both memories *)
Definition same_at (m m' : dmem) (y : Z) : Prop :=
  d_next m' !! y = d_next m !! y /\ d_prev m' !! y = d_prev m !! y.

Lemma join_same_at m a b y : y <> a -> y <> b -> same_at m (join m a b) y.
Proof. intros Ha Hb. split; cbn; by rewrite lookup_insert_ne. Qed.

Lemma same_at_trans m1 m2 m3 y : same_at m1 m2 y -> same_at m2 m3 y -> same_at m1 m3 y.
Proof. intros [? ?] [? ?]. split; congruence. Qed.

Lemma is_dlist_frame m m' h xs :
  is_dlist m h xs -> (forall y, y ∈ h :: xs -> same_at m m' y) -> is_dlist m' h xs.
Proof.
  intros [Hl Hn] Hs. split; [|done]. clear Hn.
  assert (H : forall a ys, links m a ys h -> (forall y, y ∈ a :: ys ++ [h] -> same_at m m' y) -> links m' a ys h).
  { clear Hl Hs. intros a ys. revert a. induction ys as [|y ys IH]; intros a; cbn.
    - intros [H1 H2] Hs. destruct (Hs a) as [Ea _]; [set_solver|]. destruct (Hs h) as [_ Eh]; [set_solver|].
      split; congruence.
    - intros [[H1 H2] Hl] Hs. destruct (Hs a) as [Ea _]; [set_solver|]. destruct (Hs y) as [_ Ey]; [set_solver|].
      split; [split; congruence|]. apply IH; [done|]. set_solver. }
  apply H; [done|]. intros y Hy. apply Hs. set_solver.
Qed.

Lemma dlist_add_local m h l1 l2 x p l m' y :
  is_dlist m h (l1 ++ l2) -> node_ok m x -> x ∉ h :: l1 ++ l2 -> h :: l1 = l ++ [p] ->
  utils_dlist_add x p m = Done m' -> y ∉ x :: h :: l1 ++ l2 -> same_at m m' y.
Proof.
  intros H Hx Hni El E Hy. destruct (l2 ++ [h]) as [|q r] eqn:Er; [by destruct l2|].
  pose proof (ring_next m h l1 l2 l p q r (proj1 H) El Er) as [Hpq Hqp].
  unfold utils_dlist_add, next_of in E. rewrite (load_done _ _ _ Hpq) in E. cbn [mbind outcome_bind] in E.
  assert (Hp : p ∈ h :: l1) by (rewrite El; apply elem_of_app; right; left).
  assert (Hq : q ∈ l2 ++ [h]) by (rewrite Er; left).
  destruct (add_is_join x p q m Hx) as [E' _]; [by exists q|by exists p|set_solver|set_solver|].
  rewrite E' in E. injection E as <-.
  apply same_at_trans with (join m x q); apply join_same_at; set_solver.
Qed.

Lemma dlist_del_local m h l1 x l2 m' y :
  is_dlist m h (l1 ++ x :: l2) -> utils_dlist_del x m = Done m' -> y ∉ h :: l1 ++ l2 -> same_at m m' y.
Proof.
  intros [Hl Hn] E Hy. destruct (snoc_cases (h :: l1)) as [|(l & p & El)]; [done|].
  destruct (l2 ++ [h]) as [|q r] eqn:Er; [by destruct l2|].
  pose proof (ring_next m h l1 (x :: l2) l p x (l2 ++ [h]) Hl El eq_refl) as [Hpx Hxp].
  assert (Hl' : links m h ((l1 ++ [x]) ++ l2) h) by (by rewrite <- app_assoc).
  pose proof (ring_next m h (l1 ++ [x]) l2 (h :: l1) x q r Hl' eq_refl Er) as [Hxq Hqx].
  unfold utils_dlist_del, prev_of, next_of, set_next, set_prev in E.
  rewrite (load_done _ _ _ Hxp) in E. cbn [mbind outcome_bind] in E.
  rewrite (load_done _ _ _ Hxq) in E. cbn [mbind outcome_bind] in E.
  rewrite store_done_is in E by done. cbn [mbind outcome_bind d_next d_prev] in E.
  rewrite store_done_is in E by done. cbn [mbind outcome_bind] in E. injection E as <-.
  assert (Hp : p ∈ h :: l1) by (rewrite El; apply elem_of_app; right; left).
  assert (Hq : q ∈ l2 ++ [h]) by (rewrite Er; left).
  apply (join_same_at m p q); set_solver.
Qed.

Lemma dlist_empty_spec m h xs :
  is_dlist m h xs -> utils_dlist_empty h m = Done (bool_decide (xs = [])).
Proof.
  intros [Hl Hn]. unfold utils_dlist_empty, next_of. destruct xs as [|x xs]; cbn in Hl.
  - destruct Hl as [H _]. rewrite (load_done _ _ _ H). cbn. by rewrite Z.eqb_refl.
  - destruct Hl as [[H _] _]. rewrite (load_done _ _ _ H). cbn. f_equal. apply Z.eqb_neq.
    intros ->. apply NoDup_cons in Hn as [Hh _]. apply Hh. left.
Qed.

Lemma dlist_size m h xs : is_dlist m h xs -> (S (length xs) <= size (d_next m))%nat.
Proof.
  intros [Hl Hn]. apply (NoDup_size (d_next m) (h :: xs) Hn). intros x Hx. by eapply links_next.
Qed.

Lemma dlist_number_loop m h xs c n fuel :
  links m c xs h -> h ∉ xs -> (length xs < fuel)%nat ->
  utils_dlist_entry_number_loop fuel h c n m = Done (n + Z.of_nat (length xs)).
Proof.
  revert c n fuel. induction xs as [|x xs IH]; intros c n [|fuel] Hl Hh Hf; cbn in Hf; try lia;
    cbn [utils_dlist_entry_number_loop]; unfold next_of; cbn in Hl.
  - destruct Hl as [H _]. rewrite (load_done _ _ _ H). cbn. rewrite Z.eqb_refl. cbn. f_equal. lia.
  - destruct Hl as [[H _] Hl]. rewrite (load_done _ _ _ H). cbn [mbind outcome_bind].
    rewrite (proj2 (Z.eqb_neq x h)) by set_solver. cbn [negb].
    rewrite IH by (done || lia || set_solver). f_equal. cbn [length]. lia.
Qed.

Lemma dlist_number_spec m h xs :
  is_dlist m h xs -> utils_dlist_entry_number h m = Done (Z.of_nat (length xs)).
Proof.
  intros H. pose proof (dlist_size _ _ _ H). destruct H as [Hl Hn]. apply NoDup_cons in Hn as [Hh _].
  unfold utils_dlist_entry_number. rewrite (dlist_number_loop m h xs); [done|done|done|].
  unfold loop_fuel. lia.
Qed.

Lemma for_each_loop m h xs c n fuel :
  links m c xs h -> h ∉ xs -> d_next m !! c = Some n -> (length xs < fuel)%nat ->
  utils_dlist_for_each_entry_loop fuel h n m = Done xs.
Proof.
  revert c n fuel. induction xs as [|x xs IH]; intros c n [|fuel] Hl Hh Hc Hf; cbn in Hf; try lia;
    cbn [utils_dlist_for_each_entry_loop]; unfold next_of; cbn in Hl.
  - destruct Hl as [H _]. assert (n = h) as -> by congruence. by rewrite Z.eqb_refl.
  - destruct Hl as [[H _] Hl]. assert (n = x) as -> by congruence.
    rewrite (proj2 (Z.eqb_neq x h)) by set_solver. cbn [negb].
    assert (exists n', d_next m !! x = Some n') as [n' Hn'] by (eapply links_next; [exact Hl|left]).
    rewrite (load_done _ _ _ Hn'). cbn [mbind outcome_bind].
    rewrite (IH x) by (done || lia || set_solver). done.
Qed.

Lemma dlist_for_each_spec m h xs :
  is_dlist m h xs -> utils_dlist_for_each_entry h m = Done xs.
Proof.
  intros H. pose proof (dlist_size _ _ _ H). destruct H as [Hl Hn]. apply NoDup_cons in Hn as [Hh _].
  unfold utils_dlist_for_each_entry, next_of.
  assert (exists n', d_next m !! h = Some n') as [n' Hn'] by (eapply links_next; [exact Hl|left]).
  rewrite (load_done _ _ _ Hn'). cbn [mbind outcome_bind].
  eapply for_each_loop; [done|done|done|]. unfold loop_fuel. lia.
Qed.

Lemma dlist_init_spec m h :
  node_ok m h -> exists m', utils_dlist_init h m = Done m' /\ INIT_UTILS_DLIST_HEAD h m = Done m'
    /\ is_dlist m' h [] /\ same_nodes m m'.
Proof.
  intros [H1 H2]. unfold utils_dlist_init, INIT_UTILS_DLIST_HEAD, set_next, set_prev.
  rewrite !store_done_is by done. cbn [mbind outcome_bind d_next d_prev].
  rewrite !store_done_is by done. cbn [mbind outcome_bind d_next d_prev].
  change {| d_next := _; d_prev := _ |} with (join m h h). eexists. split; [done|].
  split; [done|]. split; [|by apply join_same_nodes].
  split; [|apply NoDup_singleton]. split; cbn; by rewrite lookup_insert_eq.
Qed.

(** ** Theorem *)

(** The circular list operations implement the sequence behind the head:
    adding behind any node of the ring (in particular at the front) and at the
    tail, deleting any node, the emptiness test, the node count and the order
    in which the iteration macro visits the nodes; both directions of links
    stay consistent. *)
Theorem utils_dlist_correct (m : dmem) (h x p : Z) (l1 l2 l : list Z)
  (H : is_dlist m h (l1 ++ l2)) (Hx : node_ok m x) (Hni : x ∉ h :: l1 ++ l2)
  (Hp : h :: l1 = l ++ [p]) :
  (exists m', utils_dlist_add x p m = Done m' /\ is_dlist m' h (l1 ++ x :: l2)
     /\ exists m'', utils_dlist_del x m' = Done m'' /\ is_dlist m'' h (l1 ++ l2) /\ same_nodes m m'')
  /\ (exists m', utils_dlist_add_tail x h m = Done m' /\ is_dlist m' h ((l1 ++ l2) ++ [x]) /\ same_nodes m m')
  /\ utils_dlist_empty h m = Done (bool_decide (l1 ++ l2 = []))
  /\ utils_dlist_entry_number h m = Done (Z.of_nat (length (l1 ++ l2)))
  /\ utils_dlist_for_each_entry h m = Done (l1 ++ l2).
Proof.
  destruct (dlist_add_spec m h l1 l2 x p l H Hx Hni Hp) as (m' & E & H' & Hs).
  destruct (dlist_del_spec m' h l1 x l2 H') as (m'' & E' & H'' & Hs').
  split; [exists m'; split; [done|]; split; [done|]; exists m''; split; [done|]; split; [done|by transitivity m']|].
  split; [by apply dlist_add_tail_spec|]. split; [by apply dlist_empty_spec|].
  split; [by apply dlist_number_spec|by apply dlist_for_each_spec].
Qed.

Lemma utils_dlist_correct_witness :
  let m := {| d_next := <[1 := 5]> (<[5 := 1]> (<[7 := 0]> ∅));
              d_prev := <[1 := 5]> (<[5 := 1]> (<[7 := 0]> ∅)) |} in
  (exists m', utils_dlist_add 7 5 m = Done m' /\ is_dlist m' 1 [5; 7]
     /\ exists m'', utils_dlist_del 7 m' = Done m'' /\ is_dlist m'' 1 [5] /\ same_nodes m m'')
  /\ utils_dlist_for_each_entry 1 m = Done [5].
Proof.
  intros m. destruct (utils_dlist_correct m 1 7 5 [5] [] [1]) as (Ha & _ & _ & _ & He).
  - split.
    + cbn. by split; split.
    + cbn. apply NoDup_cons. split; [rewrite list_elem_of_singleton; lia|apply NoDup_singleton].
  - by split; eexists.
  - cbn. rewrite !not_elem_of_cons. repeat split; try lia. by intros ?%elem_of_nil.
  - done.
  - split; [exact Ha|exact He].
Defined.
