(* ===== verification/StateMachine.v ===== *)
(** * The hierarchical state machine engine: stateMachine.c / stateMachine.h of
    src/network/wifi_manager/bl60x_wifi_driver

    States are pointers of a type [St]; [table] gives the constant [struct state]
    each one points to.  Guards and actions may change the environment [Env]
    (the globals they reach); they may read, but not write, the state machine.
    Parent chains and entry chains are followed with fuel [depth], and a machine
    whose chains are shorter never runs out of it. *)
From S2P Require Import Prelude.

(** ** Definitions *)

Inductive stateM_handleEventRetVals :=
| stateM_errArg
| stateM_errorStateReached
| stateM_stateChanged
| stateM_stateLoopSelf
| stateM_noStateChange
| stateM_finalStateReached.

(** the [int] the C function returns *)
Definition stateM_retval (r : stateM_handleEventRetVals) : Z :=
  match r with
  | stateM_errArg => -2
  | stateM_errorStateReached => -1
  | stateM_stateChanged => 0
  | stateM_stateLoopSelf => 1
  | stateM_noStateChange => 2
  | stateM_finalStateReached => 3
  end.

Section Engine.
Context {St : Type} `{EqDecision St} {Payload Cond Data Env : Type}.

Record event := { ev_type : Z; ev_data : Payload }.

Record stateMachine :=
  { currentState : option St; previousState : option St; errorState : option St }.

Record transition := {
  t_eventType : Z;
  t_condition : Cond;
  t_guard : option (Cond -> event -> stateMachine -> Env -> bool * Env);
  t_action : option (Data -> event -> Data -> Env -> Env);
  t_nextState : option St
}.

Record state := {
  parentState : option St;
  entryState : option St;
  transitions : list transition;
  numTransitions : nat;
  data : Data;
  entryAction : option (Data -> event -> Env -> Env);
  exitAction : option (Data -> event -> Env -> Env)
}.

Context (table : St -> state) (depth : nat).

Definition stateM_init (fsm : option stateMachine) (initial error : option St) : option stateMachine :=
  match fsm with
  | None => None
  | Some _ => Some {| currentState := initial; previousState := None; errorState := error |}
  end.

(** a transition array read up to [numTransitions] *)
Fixpoint getTransition_from (ts : list transition) (fsm : stateMachine) (ev : event) (env : Env)
  : option transition * Env :=
  match ts with
  | [] => (None, env)
  | t :: ts =>
    if t_eventType t =? ev_type ev then
      match t_guard t with
      | None => (Some t, env)
      | Some g =>
        let '(b, env) := g (t_condition t) ev fsm env in
        if b then (Some t, env) else getTransition_from ts fsm ev env
      end
    else getTransition_from ts fsm ev env
  end.

Definition getTransition (fsm : stateMachine) (s : St) (ev : event) (env : Env)
  : option transition * Env :=
  getTransition_from (take (numTransitions (table s)) (transitions (table s))) fsm ev env.

Definition run_opt (f : option (Data -> event -> Env -> Env)) (d : Data) (ev : event) (env : Env) : Env :=
  match f with Some f => f d ev env | None => env end.

Definition goToErrorState (fsm : stateMachine) (ev : event) (env : Env) : stateMachine * Env :=
  let fsm := {| currentState := errorState fsm; previousState := currentState fsm;
                errorState := errorState fsm |} in
  match currentState fsm with
  | Some s => (fsm, run_opt (entryAction (table s)) (data (table s)) ev env)
  | None => (fsm, env)
  end.

(** [while (nextState->entryState) nextState = nextState->entryState;] *)
Fixpoint descend (fuel : nat) (s : St) : outcome St :=
  match entryState (table s) with
  | None => Done s
  | Some s' => match fuel with O => NoFuel | S fuel => descend fuel s' end
  end.

(** the rest of the loop body once a transition to [n] is found in state [cur] *)
Definition perform (fsm : stateMachine) (cur n : St) (t : transition) (ev : event) (env : Env)
  : stateM_handleEventRetVals * stateMachine * Env :=
  let env := if decide (n <> cur) then run_opt (exitAction (table cur)) (data (table cur)) ev env
             else env in
  let env := match t_action t with
             | Some a => a (data (table cur)) ev (data (table n)) env
             | None => env
             end in
  let env := if decide (n <> cur) then run_opt (entryAction (table n)) (data (table n)) ev env
             else env in
  let fsm := {| currentState := Some n; previousState := Some cur; errorState := errorState fsm |} in
  let ret := if decide (n = cur) then stateM_stateLoopSelf
             else if decide (Some n = errorState fsm) then stateM_errorStateReached
             else if decide (numTransitions (table n) = O) then stateM_finalStateReached
             else stateM_stateChanged in
  (ret, fsm, env).

(** the do-while loop, from [next] upwards through the parents *)
Fixpoint climb (fuel : nat) (fsm : stateMachine) (cur : St) (next : option St) (ev : event) (env : Env)
  : outcome (stateM_handleEventRetVals * stateMachine * Env) :=
  match next with
  | None => Done (stateM_noStateChange, fsm, env)
  | Some s =>
    match fuel with
    | O => NoFuel
    | S fuel =>
      let '(t, env) := getTransition fsm s ev env in
      match t with
      | None => climb fuel fsm cur (parentState (table s)) ev env
      | Some t =>
        match t_nextState t with
        | None =>
          let '(fsm, env) := goToErrorState fsm ev env in
          Done (stateM_errorStateReached, fsm, env)
        | Some n =>
          n ← descend depth n;
          Done (perform fsm cur n t ev env)
        end
      end
    end
  end.

Definition stateM_handleEvent (fsm : option stateMachine) (ev : option event) (env : Env)
  : outcome (stateM_handleEventRetVals * option stateMachine * Env) :=
  match fsm, ev with
  | Some fsm, Some ev =>
    match currentState fsm with
    | None =>
      let '(fsm, env) := goToErrorState fsm ev env in
      Done (stateM_errorStateReached, Some fsm, env)
    | Some cur =>
      if decide (numTransitions (table cur) = O) then Done (stateM_noStateChange, Some fsm, env)
      else
        '(r, fsm, env) ← climb (S depth) fsm cur (Some cur) ev env;
        Done (r, Some fsm, env)
    end
  | _, _ => Done (stateM_errArg, fsm, env)
  end.

Definition stateM_currentState (fsm : option stateMachine) : option St := fsm ≫= currentState.
Definition stateM_previousState (fsm : option stateMachine) : option St := fsm ≫= previousState.

(** [currentState] is dereferenced without a check *)
Definition stateM_stopped (fsm : option stateMachine) : outcome bool :=
  match fsm with
  | None => Done true
  | Some fsm =>
    match currentState fsm with
    | Some s => Done (bool_decide (numTransitions (table s) = O))
    | None => Fault
    end
  end.

(** ** Specification: which transition an event selects *)

(** [first_enabled ts env r env']: the first transition of [ts] for the event's type
    that has no guard or whose guard holds is [r] (there is none: [None]); the guards
    of the ones before it did not hold, and they and its own turned [env] into [env'] *)
Inductive first_enabled (fsm : stateMachine) (ev : event) : list transition -> Env -> option transition -> Env -> Prop :=
| fe_end env : first_enabled fsm ev [] env None env
| fe_other t ts env r env' : t_eventType t <> ev_type ev ->
    first_enabled fsm ev ts env r env' -> first_enabled fsm ev (t :: ts) env r env'
| fe_unguarded t ts env : t_eventType t = ev_type ev -> t_guard t = None ->
    first_enabled fsm ev (t :: ts) env (Some t) env
| fe_holds t ts g env env' : t_eventType t = ev_type ev -> t_guard t = Some g ->
    g (t_condition t) ev fsm env = (true, env') -> first_enabled fsm ev (t :: ts) env (Some t) env'
| fe_fails t ts g env env1 r env' : t_eventType t = ev_type ev -> t_guard t = Some g ->
    g (t_condition t) ev fsm env = (false, env1) ->
    first_enabled fsm ev ts env1 r env' -> first_enabled fsm ev (t :: ts) env r env'.
(** the transitions of a state *)
Definition transitions_of (s : St) : list transition := take (numTransitions (table s)) (transitions (table s)).

(** [selects fsm ev s env r env']: the first enabled transition of [s], or else of its
    parent, and so on up, is [r], and the guards tried turned [env] into [env'] *)
Inductive selects (fsm : stateMachine) (ev : event) : St -> Env -> option transition -> Env -> Prop :=
| sel_here s env t env' :
    first_enabled fsm ev (transitions_of s) env (Some t) env' -> selects fsm ev s env (Some t) env'
| sel_root s env env' :
    first_enabled fsm ev (transitions_of s) env None env' -> parentState (table s) = None ->
    selects fsm ev s env None env'
| sel_parent s p env env1 r env' :
    first_enabled fsm ev (transitions_of s) env None env1 -> parentState (table s) = Some p ->
    selects fsm ev p env1 r env' -> selects fsm ev s env r env'.

Lemma getTransition_first ts fsm ev env r env' :
  getTransition_from ts fsm ev env = (r, env') -> first_enabled fsm ev ts env r env'.
Proof.
  revert env. induction ts as [|t ts IH]; intros env; cbn; [intros [= <- <-]; constructor|].
  destruct (Z.eqb_spec (t_eventType t) (ev_type ev)) as [E|E]; [|intros H%IH; by apply fe_other].
  destruct (t_guard t) as [g|] eqn:Eg; [|intros [= <- <-]; by apply fe_unguarded].
  destruct (g (t_condition t) ev fsm env) as [[] env1] eqn:Er; [intros [= <- <-]; by eapply fe_holds|].
  intros H%IH. by eapply fe_fails.
Qed.
Lemma first_enabled_det fsm ev ts env r1 e1 r2 e2 :
  first_enabled fsm ev ts env r1 e1 -> first_enabled fsm ev ts env r2 e2 -> r1 = r2 /\ e1 = e2.
Proof.
  intros HA. revert r2 e2. induction HA; intros r2 e2 HB; inversion HB; subst; try congruence; simplify_eq;
    try (split; congruence).
  - by apply IHHA.
  - match goal with H1 : ?g _ _ _ _ = (_, ?a), H2 : _ = (_, ?b) |- _ => assert (a = b) as E by congruence end.
    apply IHHA. by rewrite E.
Qed.

(** the leaf a target state resolves to *)
Inductive leaf : St -> St -> Prop :=
| leaf_here s : entryState (table s) = None -> leaf s s
| leaf_entry s s' n : entryState (table s) = Some s' -> leaf s' n -> leaf s n.

(** height bounds of the two pointer chains *)
Inductive parents_within : nat -> St -> Prop :=
| pw_root n s : parentState (table s) = None -> parents_within n s
| pw_step n s p : parentState (table s) = Some p -> parents_within n p -> parents_within (S n) s.

Inductive entries_within : nat -> St -> Prop :=
| ew_leaf n s : entryState (table s) = None -> entries_within n s
| ew_step n s s' : entryState (table s) = Some s' -> entries_within n s' -> entries_within (S n) s.

Lemma descend_leaf k s : entries_within k s -> exists n, descend k s = Done n /\ leaf s n.
Proof.
  induction 1 as [k s E|k s s' E H (n & IH & Hl)].
  - exists s. split; [destruct k; cbn; by rewrite E|by constructor].
  - exists n. cbn. rewrite E. split; [done|by econstructor].
Qed.

Lemma descend_mono k k' s n : descend k s = Done n -> (k <= k')%nat -> descend k' s = Done n.
Proof.
  revert k' s. induction k as [|k IH]; intros [|k'] s; cbn; destruct (entryState (table s)); try done; try lia.
  intros H Hk. apply IH; [done|lia].
Qed.

Lemma leaf_is_leaf s n : leaf s n -> entryState (table n) = None.
Proof. by induction 1. Qed.

(** the loop finds exactly the selected transition *)
Lemma climb_selects k fsm cur s ev env :
  parents_within k s ->
  exists r env', selects fsm ev s env r env' /\
  climb (S k) fsm cur (Some s) ev env =
    match r with
    | None => Done (stateM_noStateChange, fsm, env')
    | Some t =>
      match t_nextState t with
      | None => let '(fsm', env'') := goToErrorState fsm ev env' in
                Done (stateM_errorStateReached, fsm', env'')
      | Some n => n ← descend depth n; Done (perform fsm cur n t ev env')
      end
    end.
Proof.
  revert s env. induction k as [|k IH]; intros s env Hp.
  - inversion Hp as [? ? E|]; subst. cbn. destruct (getTransition fsm s ev env) as [[t|] env'] eqn:G; apply getTransition_first in G.
    + exists (Some t), env'. split; [by constructor|done].
    + exists None, env'. rewrite E. split; [by constructor|done].
  - change (climb (S (S k)) fsm cur (Some s) ev env) with
      (let '(t, env) := getTransition fsm s ev env in
       match t with
       | None => climb (S k) fsm cur (parentState (table s)) ev env
       | Some t =>
         match t_nextState t with
         | None => let '(fsm, env) := goToErrorState fsm ev env in
                   Done (stateM_errorStateReached, fsm, env)
         | Some n => n ← descend depth n; Done (perform fsm cur n t ev env)
         end
       end).
    destruct (getTransition fsm s ev env) as [[t|] env'] eqn:G; apply getTransition_first in G.
    + exists (Some t), env'. split; [by constructor|done].
    + inversion Hp as [? ? E|? ? p E Hp']; subst; rewrite E.
      * exists None, env'. split; [by constructor|done].
      * destruct (IH p env' Hp') as (r & env'' & Hs & Hc). exists r, env''.
        split; [by econstructor|done].
Qed.

(** selection is deterministic *)
Lemma selects_det fsm ev s env r1 e1 r2 e2 :
  selects fsm ev s env r1 e1 -> selects fsm ev s env r2 e2 -> r1 = r2 /\ e1 = e2.
Proof.
  intros H1. revert r2 e2.
  induction H1 as [s env t e1 G|s env e1 G P|s p env e r1 e1 G P H1 IH];
    intros r2 e2 H2; inversion H2 as [? ? ? ? G'|? ? ? G' P'|? p' ? e' ? ? G' P' H2']; subst;
    destruct (first_enabled_det _ _ _ _ _ _ _ _ G G') as [? ?]; simplify_eq; try done.
  by apply IH.
Qed.

(** every transition of every state leads to a resolvable target *)
Definition targets_within (k : nat) : Prop :=
  forall s t n, t ∈ transitions (table s) -> t_nextState t = Some n -> entries_within k n.

Lemma first_enabled_in fsm ev ts env r env' t : first_enabled fsm ev ts env r env' -> r = Some t -> t ∈ ts.
Proof. induction 1; intros E; simplify_eq; try by left. all: right; auto. Qed.

Lemma selects_target fsm ev s env t env' :
  selects fsm ev s env (Some t) env' -> exists s', t ∈ transitions (table s').
Proof.
  intros H. remember (Some t) as r eqn:E.
  induction H as [s env t' e1 G|s env e1 G P|s p env e r1 e1 G P H1 IH]; simplify_eq.
  - exists s. apply (first_enabled_in _ _ _ _ _ _ t) in G; [|done].
    by eapply elem_of_take in G as (i & G%list_elem_of_lookup_2 & _).
  - by apply IH.
Qed.

(** total correctness of one event, in relational form *)
Lemma handleEvent_spec fsm cur ev env :
  currentState fsm = Some cur -> numTransitions (table cur) <> O ->
  parents_within depth cur -> targets_within depth ->
  exists r env', selects fsm ev cur env r env' /\
  match r with
  | None => stateM_handleEvent (Some fsm) (Some ev) env = Done (stateM_noStateChange, Some fsm, env')
  | Some t =>
    match t_nextState t with
    | None =>
      stateM_handleEvent (Some fsm) (Some ev) env
      = Done (stateM_errorStateReached, Some (fst (goToErrorState fsm ev env')),
              snd (goToErrorState fsm ev env'))
    | Some n => exists n', leaf n n' /\
      stateM_handleEvent (Some fsm) (Some ev) env
      = (let '(r, fsm', env'') := perform fsm cur n' t ev env' in Done (r, Some fsm', env''))
    end
  end.
Proof.
  intros Hc Hn Hp Ht. unfold stateM_handleEvent. rewrite Hc, decide_False by done.
  destruct (climb_selects depth fsm cur cur ev env Hp) as (r & env' & Hs & ->).
  exists r, env'. split; [done|]. destruct r as [t|]; [|done].
  destruct (t_nextState t) as [n|] eqn:En.
  - destruct (selects_target _ _ _ _ _ _ Hs) as [s' Hin].
    destruct (descend_leaf depth n) as (n' & Hd & Hl); [by eapply Ht|]. exists n'. split; [done|].
    rewrite Hd. cbn [mbind outcome_bind]. by destruct (perform fsm cur n' t ev env') as [[? ?] ?].
  - by destruct (goToErrorState fsm ev env') as [f e].
Qed.

(** a machine whose parent and entry chains fit in [depth] *)
Definition machine_ok : Prop := (forall s, parents_within depth s) /\ targets_within depth.

(** what running a transition [t] of [cur] into the leaf [n] does to the environment *)
Definition transition_effect (cur n : St) (t : transition) (ev : event) (env : Env) : Env :=
  let act := fun env => match t_action t with
                        | Some a => a (data (table cur)) ev (data (table n)) env
                        | None => env end in
  if decide (n = cur) then act env
  else run_opt (entryAction (table n)) (data (table n)) ev
         (act (run_opt (exitAction (table cur)) (data (table cur)) ev env)).

(** the meaning of the return code for a transition of [cur] into [n] *)
Definition code_for (fsm : stateMachine) (cur n : St) (rc : stateM_handleEventRetVals) : Prop :=
  match rc with
  | stateM_stateLoopSelf => n = cur
  | stateM_errorStateReached => n <> cur /\ errorState fsm = Some n
  | stateM_finalStateReached => n <> cur /\ errorState fsm <> Some n /\ numTransitions (table n) = O
  | stateM_stateChanged => n <> cur /\ errorState fsm <> Some n /\ numTransitions (table n) <> O
  | stateM_errArg | stateM_noStateChange => False
  end.

Lemma perform_spec fsm cur n t ev env :
  exists rc, code_for fsm cur n rc /\
  perform fsm cur n t ev env
  = (rc, {| currentState := Some n; previousState := Some cur; errorState := errorState fsm |},
     transition_effect cur n t ev env).
Proof.
  unfold perform, transition_effect.
  destruct (decide (n = cur)) as [->|Hne], (decide (_ <> _)) as [Hd|Hd]; try done; cbn.
  - by exists stateM_stateLoopSelf.
  - destruct (decide (Some n = errorState fsm)) as [He|He].
    + by exists stateM_errorStateReached.
    + assert (errorState fsm <> Some n) by congruence.
      destruct (decide (numTransitions (table n) = O)); [by exists stateM_finalStateReached|].
      by exists stateM_stateChanged.
Qed.

(** C7: one event, total correctness.  In a machine whose parent and entry chains
    are bounded, a running state [cur] and an event: the first enabled transition of
    [cur] or of the nearest ancestor that has one is the one taken, and no other; the
    machine moves to the leaf the target resolves to, remembers [cur] as the previous
    state, runs exit action, transition action, entry action in this order (only the
    transition action on a self loop), and the return code says which case it was; a
    transition without a target goes to the error state; with no enabled transition
    only the guards have run. *)
Theorem stateM_handleEvent_correct fsm cur ev env r env1 :
  machine_ok -> currentState fsm = Some cur -> numTransitions (table cur) <> O ->
  selects fsm ev cur env r env1 ->
  match r with
  | None => stateM_handleEvent (Some fsm) (Some ev) env = Done (stateM_noStateChange, Some fsm, env1)
  | Some t =>
    match t_nextState t with
    | None =>
      stateM_handleEvent (Some fsm) (Some ev) env
      = Done (stateM_errorStateReached,
              Some {| currentState := errorState fsm; previousState := Some cur;
                      errorState := errorState fsm |},
              match errorState fsm with
              | Some e => run_opt (entryAction (table e)) (data (table e)) ev env1
              | None => env1
              end)
    | Some n => exists n' rc, leaf n n' /\ code_for fsm cur n' rc /\
      stateM_handleEvent (Some fsm) (Some ev) env
      = Done (rc, Some {| currentState := Some n'; previousState := Some cur;
                          errorState := errorState fsm |},
              transition_effect cur n' t ev env1)
    end
  end.
Proof.
  intros [Hp Ht] Hc Hn Hs.
  destruct (handleEvent_spec fsm cur ev env Hc Hn (Hp cur) Ht) as (r' & env' & Hs' & H).
  destruct (selects_det _ _ _ _ _ _ _ _ Hs Hs') as [<- <-].
  destruct r as [t|]; [|done]. destruct (t_nextState t) as [n|].
  - destruct H as (n' & Hl & H). destruct (perform_spec fsm cur n' t ev env1) as (rc & Hrc & E).
    exists n', rc. split_and!; [done..|]. by rewrite H, E.
  - rewrite H. unfold goToErrorState. cbn. rewrite Hc. by destruct (errorState fsm).
Qed.

(** ** Runs *)

(** the events of a run, handled one after the other *)
Fixpoint handle_events (fsm : stateMachine) (evs : list event) (env : Env)
  : outcome (list stateM_handleEventRetVals * stateMachine * Env) :=
  match evs with
  | [] => Done ([], fsm, env)
  | ev :: evs =>
    '(rc, fsm', env) ← stateM_handleEvent (Some fsm) (Some ev) env;
    match fsm' with
    | None => Fault
    | Some fsm => '(rcs, fsm, env) ← handle_events fsm evs env; Done (rc :: rcs, fsm, env)
    end
  end.

(** the states a machine may rest in: the initial state, the error state, or a leaf *)
Definition resting (init : St) (fsm : stateMachine) : Prop :=
  match currentState fsm with
  | None => errorState fsm = None
  | Some s => s = init \/ errorState fsm = Some s \/ entryState (table s) = None
  end.

Lemma handleEvent_resting init fsm ev env :
  machine_ok -> resting init fsm ->
  exists rc fsm' env', stateM_handleEvent (Some fsm) (Some ev) env = Done (rc, Some fsm', env') /\
    resting init fsm' /\ errorState fsm' = errorState fsm /\ rc <> stateM_errArg /\
    (rc = stateM_noStateChange -> fsm' = fsm) /\
    (rc <> stateM_noStateChange -> previousState fsm' = currentState fsm).
Proof.
  intros [Hp Ht] HR. destruct (currentState fsm) as [cur|] eqn:Hc.
  - destruct (decide (numTransitions (table cur) = O)) as [H0|H0].
    { exists stateM_noStateChange, fsm, env. unfold stateM_handleEvent.
      rewrite Hc, decide_True by done. done. }
    destruct (handleEvent_spec fsm cur ev env Hc H0 (Hp cur) Ht) as (r & env' & Hs & H).
    destruct r as [t|]; [|by exists stateM_noStateChange, fsm, env'].
    destruct (t_nextState t) as [n|].
    + destruct H as (n' & Hl & H). destruct (perform_spec fsm cur n' t ev env') as (rc & Hrc & E).
      rewrite E in H. eexists rc, _, _. split; [exact H|]. cbn.
      pose proof (leaf_is_leaf _ _ Hl). split_and!; [by right; right|done|by intros ->| |done].
      by intros ->.
    + rewrite H. eexists _, _, _. split; [done|]. unfold goToErrorState, resting. cbn.
      destruct (errorState fsm); cbn; split_and!; try done; by right; left.
  - exists stateM_errorStateReached, (fst (goToErrorState fsm ev env)), (snd (goToErrorState fsm ev env)).
    unfold stateM_handleEvent. rewrite Hc. destruct (goToErrorState fsm ev env) as [f e] eqn:E.
    split; [done|]. revert E. unfold goToErrorState, resting. cbn. rewrite Hc.
    destruct (errorState fsm) as [s|]; cbn; intros [= <- <-]; cbn; split_and!; try done. by right; left.
Qed.

Lemma handle_events_rests init f0 evs env :
  machine_ok -> resting init f0 ->
  exists rcs fsm env', handle_events f0 evs env = Done (rcs, fsm, env') /\
    resting init fsm /\ errorState fsm = errorState f0 /\ length rcs = length evs /\ stateM_errArg ∉ rcs.
Proof.
  intros Hok. revert f0 env. induction evs as [|ev evs IH]; intros f0 env HR.
  - exists [], f0, env. cbn. split_and!; try done. by apply not_elem_of_nil.
  - destruct (handleEvent_resting init f0 ev env Hok HR) as (rc & f1 & e1 & H1 & HR1 & HE1 & Hrc & _).
    destruct (IH f1 e1 HR1) as (rcs & f2 & e2 & H2 & HR2 & HE2 & Hl & Hn).
    exists (rc :: rcs), f2, e2. cbn [handle_events]. step_with H1. step_with H2.
    split_and!; try done; [congruence|cbn; by rewrite Hl|]. by rewrite not_elem_of_cons.
Qed.

(** C36: every run is total and rests only where it should.  From [stateM_init], any
    sequence of events is processed without running out of the chains' depth and
    without a bad-argument code; the machine ends in its initial state, in its error
    state or in a leaf state (never in a composite state that has an entry state),
    and the error state never changes. *)
Theorem stateM_run_rests fsm0 init err fsm evs env :
  machine_ok -> stateM_init (Some fsm0) (Some init) err = Some fsm ->
  exists rcs fsm' env', handle_events fsm evs env = Done (rcs, fsm', env') /\
    resting init fsm' /\ errorState fsm' = err /\ length rcs = length evs /\ stateM_errArg ∉ rcs.
Proof.
  intros Hok [= <-].
  by apply (handle_events_rests init {| currentState := Some init; previousState := None;
    errorState := err |}); [|left].
Qed.

End Engine.

Arguments event : clear implicits.
Arguments stateMachine : clear implicits.
Arguments transition : clear implicits.
Arguments state : clear implicits.

(** ** A concrete machine: two children of a group, and an error state *)
Module Example_machine.

Inductive st := group | childA | childB | failed.
#[global] Instance st_eq : EqDecision st.
Proof. solve_decision. Defined.

Definition fsm_t : Type := @stateMachine st.
Definition ev_t : Type := @event Z.
Definition trans : Type := @transition st Z Z Z (list Z).

(** actions log their identity *)
Definition note (k : Z) : option (Z -> ev_t -> list Z -> list Z) := Some (fun d _ l => (l ++ [k + d])%list).
Definition arc (ty : Z) (g : option Z) (k : Z) (n : option st) : trans :=
  {| t_eventType := ty; t_condition := default 0 g;
     t_guard := match g with None => None | Some _ => Some (fun c e _ l => (c =? ev_data e, (l ++ [900])%list)) end;
     t_action := Some (fun _ _ d l => (l ++ [k + d])%list); t_nextState := n |}.

Definition tab (s : st) : @state st Z Z Z (list Z) :=
  match s with
  | group => {| parentState := None; entryState := Some childB;
      transitions := [arc 7 None 300 (Some group); arc 8 None 310 None]; numTransitions := 2;
      data := 0; entryAction := note 100; exitAction := note 200 |}
  | childA => {| parentState := Some group; entryState := None;
      transitions := [arc 1 (Some 5) 320 (Some childB); arc 1 None 330 (Some childA)]; numTransitions := 2;
      data := 1; entryAction := note 100; exitAction := note 200 |}
  | childB => {| parentState := Some group; entryState := None;
      transitions := [arc 1 None 340 (Some childA)]; numTransitions := 1;
      data := 2; entryAction := note 100; exitAction := note 200 |}
  | failed => {| parentState := None; entryState := None; transitions := []; numTransitions := 0;
      data := 3; entryAction := note 100; exitAction := note 200 |}
  end.

Definition at_A : fsm_t := {| currentState := Some childA; previousState := None; errorState := Some failed |}.

Lemma tab_ok : machine_ok tab 1.
Proof.
  split.
  - intros []; [by constructor|eapply pw_step; [done|by constructor]..|by constructor].
  - intros s t n Ht Hn. assert (n <> failed /\ (n = group \/ entryState (tab n) = None)) as [_ [->|E]].
    { destruct s; cbn in Ht; rewrite ?elem_of_cons, ?elem_of_nil in Ht; naive_solver. }
    + eapply ew_step; [done|by constructor].
    + by constructor.
Qed.

End Example_machine.

(** event 7 is found in the group, whose entry state is [childB]: exit 201, action 302, entry 102 *)
Lemma stateM_handleEvent_correct_witness :
  exists rc, code_for Example_machine.tab Example_machine.at_A Example_machine.childA Example_machine.childB rc /\
  stateM_handleEvent Example_machine.tab 1 (Some Example_machine.at_A)
    (Some {| ev_type := 7; ev_data := 0 |}) [] =
  Done (rc, Some {| currentState := Some Example_machine.childB;
                    previousState := Some Example_machine.childA;
                    errorState := Some Example_machine.failed |}, [201; 302; 102]).
Proof.
  destruct (stateM_handleEvent_correct Example_machine.tab 1 Example_machine.at_A
    Example_machine.childA {| ev_type := 7; ev_data := 0 |} []
    (Some (Example_machine.arc 7 None 300 (Some Example_machine.group))) [])
    as (n' & rc & Hl & Hc & H).
  - apply Example_machine.tab_ok.
  - reflexivity.
  - discriminate.
  - eapply sel_parent; [|reflexivity|].
    + apply fe_other; [done|]. apply fe_other; [done|]. apply fe_end.
    + apply sel_here. apply fe_unguarded; reflexivity.
  - exists rc. inversion Hl as [? E|? s' ? E Hl']; subst; [discriminate|]. injection E as <-.
    inversion Hl' as [? E|? s' ? E ?]; subst; [|discriminate].
    split; [exact Hc|]. etransitivity; [exact H|]. vm_compute. reflexivity.
Defined.

Lemma stateM_run_rests_witness :
  exists rcs fsm' env', handle_events Example_machine.tab 1 Example_machine.at_A
    [{| ev_type := 7; ev_data := 0 |}; {| ev_type := 1; ev_data := 0 |}; {| ev_type := 8; ev_data := 0 |}] []
    = Done (rcs, fsm', env') /\
    rcs = [stateM_stateChanged; stateM_stateChanged; stateM_errorStateReached].
Proof.
  destruct (stateM_run_rests Example_machine.tab 1 Example_machine.at_A Example_machine.childA
    (Some Example_machine.failed) Example_machine.at_A
    [{| ev_type := 7; ev_data := 0 |}; {| ev_type := 1; ev_data := 0 |}; {| ev_type := 8; ev_data := 0 |}] [])
    as (rcs & fsm' & env' & H & _).
  - apply Example_machine.tab_ok.
  - reflexivity.
  - exists rcs, fsm', env'. split; [exact H|]. vm_compute in H. congruence.
Defined.
