(* ===== verification/WifiProfile.v ===== *)
(** * The connection profiles of the WiFi manager: wifi_mgmr_profile.c

    The manager keeps [WIFI_MGMR_PROFILES_MAX] profiles, the index of the active
    one and the auto-reconnect switch.  The [char] arrays keep their sizes; the
    packed message struct puts each array's tail byte right after it, so that a
    copy of [sizeof(profile->ssid)] bytes from [profile_msg->ssid] also takes the
    tail.  An index outside the array is a fault. *)
From S2P Require Import Prelude.

(** ** Definitions *)

Definition WIFI_MGMR_PROFILES_MAX : Z := 2.

Record wifi_mgmr_profile_msg := {
  pm_ssid : list Z; pm_ssid_tail : Z; pm_ssid_len : Z;
  pm_passphr : list Z; pm_passphr_tail : Z;
  pm_psk : list Z; pm_psk_tail : Z;
  pm_passphr_len : Z; pm_psk_len : Z;
  pm_bssid : list Z; pm_band : Z; pm_freq : Z; pm_ap_info_ttl : Z;
  pm_dhcp_use : Z; pm_flags : Z
}.

Record wifi_mgmr_profile := {
  p_ssid_len : Z; p_passphr_len : Z; p_psk_len : Z;
  p_ssid : list Z; p_passphr : list Z; p_psk : list Z;
  p_bssid : list Z; p_band : Z; p_freq : Z; p_ap_info_ttl : Z;
  p_dhcp_use : Z; p_flags : Z;
  p_priority : Z; p_isActive : Z; p_isUsed : Z
}.

(** the fields of [wifi_mgmr_t] the profile code works on *)
Record profile_store := {
  profiles : list wifi_mgmr_profile;
  profile_active_index : Z;
  disable_autoreconnect : Z
}.

Definition zeros (n : nat) : list Z := replicate n 0.

(** [memset(profile, 0, sizeof( *profile))] *)
Definition profile_zero : wifi_mgmr_profile :=
  {| p_ssid_len := 0; p_passphr_len := 0; p_psk_len := 0;
     p_ssid := zeros 33; p_passphr := zeros 65; p_psk := zeros 65;
     p_bssid := zeros 6; p_band := 0; p_freq := 0; p_ap_info_ttl := 0;
     p_dhcp_use := 0; p_flags := 0; p_priority := 0; p_isActive := 0; p_isUsed := 0 |}.

Definition profile_msg_zero : wifi_mgmr_profile_msg :=
  {| pm_ssid := zeros 32; pm_ssid_tail := 0; pm_ssid_len := 0;
     pm_passphr := zeros 64; pm_passphr_tail := 0; pm_psk := zeros 64; pm_psk_tail := 0;
     pm_passphr_len := 0; pm_psk_len := 0; pm_bssid := zeros 6; pm_band := 0; pm_freq := 0;
     pm_ap_info_ttl := 0; pm_dhcp_use := 0; pm_flags := 0 |}.

(** the assignments that fill a zeroed profile from a message *)
Definition profile_fill (m : wifi_mgmr_profile_msg) (isActive : Z) : wifi_mgmr_profile :=
  {| p_ssid_len := u16 (pm_ssid_len m); p_passphr_len := u16 (pm_passphr_len m);
     p_psk_len := u16 (pm_psk_len m);
     p_ssid := take 33 (pm_ssid m ++ [pm_ssid_tail m]);
     p_passphr := take 65 (pm_passphr m ++ [pm_passphr_tail m]);
     p_psk := take 65 (pm_psk m ++ [pm_psk_tail m]);
     p_bssid := take 6 (pm_bssid m); p_band := pm_band m; p_freq := pm_freq m;
     p_ap_info_ttl := pm_ap_info_ttl m; p_dhcp_use := pm_dhcp_use m; p_flags := pm_flags m;
     p_priority := 255; p_isActive := isActive; p_isUsed := 1 |}.

(** the assignments that fill a zeroed message from a profile *)
Definition profile_read (p : wifi_mgmr_profile) : wifi_mgmr_profile_msg :=
  {| pm_ssid := take 32 (p_ssid p); pm_ssid_tail := default 0 (p_ssid p !! 32%nat);
     pm_ssid_len := p_ssid_len p;
     pm_passphr := take 64 (p_passphr p); pm_passphr_tail := default 0 (p_passphr p !! 64%nat);
     pm_psk := take 64 (p_psk p); pm_psk_tail := default 0 (p_psk p !! 64%nat);
     pm_passphr_len := p_passphr_len p; pm_psk_len := p_psk_len p;
     pm_bssid := p_bssid p; pm_band := p_band p; pm_freq := p_freq p;
     pm_ap_info_ttl := p_ap_info_ttl p; pm_dhcp_use := p_dhcp_use p; pm_flags := p_flags p |}.

Definition set_profiles (s : profile_store) (l : list wifi_mgmr_profile) : profile_store :=
  {| profiles := l; profile_active_index := profile_active_index s;
     disable_autoreconnect := disable_autoreconnect s |}.
Definition set_active_index (s : profile_store) (i : Z) : profile_store :=
  {| profiles := profiles s; profile_active_index := i;
     disable_autoreconnect := disable_autoreconnect s |}.
Definition set_disable_autoreconnect (s : profile_store) (b : Z) : profile_store :=
  {| profiles := profiles s; profile_active_index := profile_active_index s;
     disable_autoreconnect := b |}.

(** [profiles[i] = p] *)
Definition write_profile (s : profile_store) (i : Z) (p : wifi_mgmr_profile) : outcome profile_store :=
  l ← aset (profiles s) i p; Done (set_profiles s l).

(** the [for] loops over the profiles: the first index that satisfies [f] *)
Fixpoint profile_scan (f : wifi_mgmr_profile -> outcome bool) (l : list wifi_mgmr_profile) (i : Z)
  : outcome (option Z) :=
  match l with
  | [] => Done None
  | p :: l => b ← f p; if (b : bool) then Done (Some i) else profile_scan f l (i + 1)
  end.

Definition wifi_mgmr_profile_add (s : profile_store) (m : wifi_mgmr_profile_msg) (index isActive : Z)
  : outcome (Z * profile_store) :=
  if index =? -1 then
    s ← write_profile s 0 (profile_fill m isActive); Done (0, s)
  else
    found ← profile_scan (fun p => Done (p_isUsed p =? 0)) (profiles s) 0;
    match found with
    | None => Done (-1, s)
    | Some i =>
      let s := if isActive =? 0 then s else set_active_index s i in
      s ← write_profile s i (profile_fill m isActive); Done (0, s)
    end.

Definition wifi_mgmr_profile_add_by_idx (s : profile_store) (m : wifi_mgmr_profile_msg)
  (index isActive : Z) : outcome (Z * profile_store) :=
  if index =? -1 then
    s ← write_profile s 0 (profile_fill m isActive); Done (0, s)
  else if index <? WIFI_MGMR_PROFILES_MAX then
    let s := if isActive =? 0 then s else set_active_index s index in
    s ← write_profile s index (profile_fill m isActive); Done (0, s)
  else Done (-1, s).

(** [0 == memcmp(a, b, len)] *)
Definition memcmp_eq (a b : list Z) (len : Z) : outcome bool :=
  if decide (0 <= len <= Z.of_nat (length a) /\ len <= Z.of_nat (length b)) then
    Done (bool_decide (take (Z.to_nat len) a = take (Z.to_nat len) b))
  else Fault.

Definition wifi_mgmr_profile_del (s : profile_store) (ssid : list Z) (len : Z) : outcome (Z * profile_store) :=
  found ← profile_scan (fun p =>
    if (p_isUsed p =? 1) && (len =? p_ssid_len p) then memcmp_eq (p_ssid p) ssid len else Done false)
    (profiles s) 0;
  match found with
  | None => Done (-1, s)
  | Some i =>
    let s := if i =? profile_active_index s then set_active_index s (-1) else s in
    s ← write_profile s i profile_zero; Done (0, s)
  end.

(** [index] is a [uint8_t] *)
Definition wifi_mgmr_profile_set_active_by_idx (s : profile_store) (index isActive : Z)
  : outcome (Z * profile_store) :=
  if index <? WIFI_MGMR_PROFILES_MAX then
    p ← aget (profiles s) index;
    if p_isUsed p =? 1 then
      s ← write_profile s index
        {| p_ssid_len := p_ssid_len p; p_passphr_len := p_passphr_len p; p_psk_len := p_psk_len p;
           p_ssid := p_ssid p; p_passphr := p_passphr p; p_psk := p_psk p;
           p_bssid := p_bssid p; p_band := p_band p; p_freq := p_freq p;
           p_ap_info_ttl := p_ap_info_ttl p; p_dhcp_use := p_dhcp_use p; p_flags := p_flags p;
           p_priority := p_priority p; p_isActive := isActive; p_isUsed := p_isUsed p |};
      Done (0, set_active_index s index)
    else Done (-1, s)
  else Done (-1, s).

Definition wifi_mgmr_profile_del_by_idx (s : profile_store) (index : Z) : outcome (Z * profile_store) :=
  if index <? WIFI_MGMR_PROFILES_MAX then
    p ← aget (profiles s) index;
    if p_isUsed p =? 1 then
      let s := if index =? profile_active_index s then set_active_index s (-1) else s in
      s ← write_profile s index profile_zero; Done (0, s)
    else Done (-1, s)
  else Done (-1, s).

(** the message is written only on success *)
Definition wifi_mgmr_profile_get_by_idx (s : profile_store) (m : wifi_mgmr_profile_msg) (index : Z)
  : outcome (Z * wifi_mgmr_profile_msg) :=
  if index <? WIFI_MGMR_PROFILES_MAX then
    p ← aget (profiles s) index;
    if p_isUsed p =? 1 then Done (0, profile_read p) else Done (-1, m)
  else Done (-1, m).

Definition wifi_mgmr_profile_get (s : profile_store) (m : wifi_mgmr_profile_msg) (isActive : Z)
  : outcome (Z * wifi_mgmr_profile_msg) :=
  found ← profile_scan (fun p => Done ((p_isUsed p =? 1) && (isActive =? p_isActive p))) (profiles s) 0;
  match found with
  | None => Done (-1, m)
  | Some i => p ← aget (profiles s) i; Done (i, profile_read p)
  end.

Definition wifi_mgmr_profile_autoreconnect_is_enabled (s : profile_store) (index : Z) : Z :=
  if disable_autoreconnect s =? 0 then 1 else 0.
Definition wifi_mgmr_profile_autoreconnect_disable (s : profile_store) (index : Z) : Z * profile_store :=
  (0, set_disable_autoreconnect s 1).
Definition wifi_mgmr_profile_autoreconnect_enable (s : profile_store) (index : Z) : Z * profile_store :=
  (0, set_disable_autoreconnect s 0).

(** ** Invariant *)

Definition msg_ok (m : wifi_mgmr_profile_msg) : Prop :=
  length (pm_ssid m) = 32%nat /\ length (pm_passphr m) = 64%nat /\ length (pm_psk m) = 64%nat /\
  length (pm_bssid m) = 6%nat /\ 0 <= pm_ssid_len m <= 32.

Definition profile_ok (p : wifi_mgmr_profile) : Prop :=
  length (p_ssid p) = 33%nat /\ length (p_passphr p) = 65%nat /\ length (p_psk p) = 65%nat /\
  length (p_bssid p) = 6%nat /\ (p_isUsed p = 0 \/ p_isUsed p = 1) /\ 0 <= p_ssid_len p <= 32.

Definition store_ok (s : profile_store) : Prop :=
  length (profiles s) = 2%nat /\ Forall profile_ok (profiles s) /\
  (profile_active_index s = -1 \/ profile_active_index s = 0 \/ profile_active_index s = 1).

Lemma profile_zero_ok : profile_ok profile_zero.
Proof. split_and!; try done; by left. Qed.

Lemma profile_fill_ok m a : msg_ok m -> profile_ok (profile_fill m a).
Proof.
  intros (H1 & H2 & H3 & H4 & H5). unfold profile_ok, profile_fill, u16, wrap; cbn [p_ssid p_passphr
    p_psk p_bssid p_isUsed p_ssid_len]. rewrite (Z.mod_small (pm_ssid_len m)) by lia.
  rewrite !length_take, !length_app, H1, H2, H3, H4.
  split_and!; try done; [by right|lia..].
Qed.

Lemma profile_read_ok p : profile_ok p -> msg_ok (profile_read p).
Proof.
  intros (H1 & H2 & H3 & H4 & _ & H5). unfold msg_ok, profile_read; cbn.
  rewrite !length_take, H1, H2, H3, H4. split_and!; try done; lia.
Qed.

(** the normal form of a message after a trip through a profile *)
Definition msg_norm (m : wifi_mgmr_profile_msg) : wifi_mgmr_profile_msg :=
  {| pm_ssid := pm_ssid m; pm_ssid_tail := pm_ssid_tail m; pm_ssid_len := u16 (pm_ssid_len m);
     pm_passphr := pm_passphr m; pm_passphr_tail := pm_passphr_tail m;
     pm_psk := pm_psk m; pm_psk_tail := pm_psk_tail m;
     pm_passphr_len := u16 (pm_passphr_len m); pm_psk_len := u16 (pm_psk_len m);
     pm_bssid := pm_bssid m; pm_band := pm_band m; pm_freq := pm_freq m;
     pm_ap_info_ttl := pm_ap_info_ttl m; pm_dhcp_use := pm_dhcp_use m; pm_flags := pm_flags m |}.

Lemma take_tail (l : list Z) (x : Z) n :
  length l = n -> take n (take (S n) (l ++ [x])) = l /\ default 0 (take (S n) (l ++ [x]) !! n) = x.
Proof.
  intros <-. rewrite (take_ge (l ++ [x])) by (rewrite length_app; cbn; lia).
  by rewrite take_app_length, list_lookup_middle.
Qed.

Lemma profile_read_fill m a : msg_ok m -> profile_read (profile_fill m a) = msg_norm m.
Proof.
  intros (H1 & H2 & H3 & H4 & _). unfold profile_read, profile_fill, msg_norm. cbn [p_ssid p_passphr p_psk
    p_ssid_len p_passphr_len p_psk_len p_bssid p_band p_freq p_ap_info_ttl p_dhcp_use p_flags].
  destruct (take_tail (pm_ssid m) (pm_ssid_tail m) 32 H1) as [-> ->].
  destruct (take_tail (pm_passphr m) (pm_passphr_tail m) 64 H2) as [-> ->].
  destruct (take_tail (pm_psk m) (pm_psk_tail m) 64 H3) as [-> ->].
  by rewrite (take_ge (pm_bssid m)) by lia.
Qed.

Lemma msg_norm_id m :
  0 <= pm_ssid_len m < 65536 -> 0 <= pm_passphr_len m < 65536 -> 0 <= pm_psk_len m < 65536 ->
  msg_norm m = m.
Proof. intros. destruct m; unfold msg_norm, u16, wrap; cbn in *. by rewrite !Z.mod_small by lia. Qed.

(** ** The store *)

Lemma store_two s : store_ok s ->
  exists p0 p1, profiles s = [p0; p1] /\ profile_ok p0 /\ profile_ok p1 /\
  (profile_active_index s = -1 \/ profile_active_index s = 0 \/ profile_active_index s = 1).
Proof.
  intros (Hl & Hf & Ha). destruct (profiles s) as [|p0 [|p1 [|]]]; try done.
  rewrite !Forall_cons in Hf. exists p0, p1. naive_solver.
Qed.

Lemma store_ok_write s i p :
  store_ok s -> 0 <= i < 2 -> profile_ok p ->
  write_profile s i p = Done (set_profiles s (<[Z.to_nat i := p]> (profiles s))) /\
  store_ok (set_profiles s (<[Z.to_nat i := p]> (profiles s))).
Proof.
  intros (Hl & Hf & Ha) Hi Hp. unfold write_profile, aset. rewrite Hl, decide_True by lia.
  split; [done|]. split_and!; cbn; [by rewrite length_insert|by apply Forall_insert|done].
Qed.

Lemma store_ok_active s i : store_ok s -> i = -1 \/ i = 0 \/ i = 1 -> store_ok (set_active_index s i).
Proof. intros (Hl & Hf & _) Hi. by split_and!. Qed.

Lemma aget_profile s i : store_ok s -> 0 <= i < 2 ->
  exists p, aget (profiles s) i = Done p /\ profiles s !! Z.to_nat i = Some p /\ profile_ok p.
Proof.
  intros (Hl & Hf & _) Hi. unfold aget. rewrite decide_True by lia.
  destruct (lookup_lt_is_Some_2 (profiles s) (Z.to_nat i)) as [p Hp]; [lia|].
  exists p. rewrite Hp. split_and!; [done..|]. by eapply Forall_lookup_1 in Hf.
Qed.

(** what a scan finds: the first match *)
Definition first_match (f : wifi_mgmr_profile -> bool) (l : list wifi_mgmr_profile) (r : option Z) : Prop :=
  match r with
  | None => Forall (fun p => f p = false) l
  | Some i => 0 <= i /\ exists p, l !! Z.to_nat i = Some p /\ f p = true /\
      Forall (fun p => f p = false) (take (Z.to_nat i) l)
  end.

Lemma profile_scan_first g f l k :
  Forall (fun p => g p = Done (f p)) l ->
  exists r, profile_scan g l k = Done (option_map (Z.add k) r) /\ first_match f l r.
Proof.
  revert k. induction l as [|p l IH]; intros k Hg; [exists None; by split; [|constructor]|].
  rewrite Forall_cons in Hg. destruct Hg as [Hp Hl]. cbn [profile_scan].
  step_with Hp. destruct (f p) eqn:E.
  - exists (Some 0). cbn -[Z.le]. rewrite Z.add_0_r. split_and!; [done|lia|]. by exists p.
  - destruct (IH (k + 1) Hl) as (r & -> & Hr). exists (option_map (Z.add 1) r).
    destruct r as [i|]; cbn -[Z.le] in *; [|by split; [|constructor]].
    split; [do 2 f_equal; lia|]. destruct Hr as (Hi & q & Hq & Hfq & Hb). split; [lia|].
    exists q. rewrite Z.add_1_l, Z2Nat.inj_succ by lia. cbn. by rewrite Forall_cons.
Qed.

Lemma first_match_bound f s i : store_ok s -> first_match f (profiles s) (Some i) -> 0 <= i < 2.
Proof. intros (Hl & _) (Hi & p & Hp%lookup_lt_Some & _). lia. Qed.

(** ** Theorems *)

(** A profile written by index reads back.  For a stored message of legal sizes,
    writing it to slot 0 or 1 (or to the default slot, index -1) succeeds, reading
    that slot returns the message with its lengths reduced to 16 bits (the message
    itself when they fit), the other slot is untouched, and the active index moves
    exactly when the profile is added as active under an explicit index. *)
Theorem profile_add_get_roundtrip s m m0 index isActive :
  store_ok s -> msg_ok m -> -1 <= index < 2 ->
  let slot := if index =? -1 then 0 else index in
  exists s', wifi_mgmr_profile_add_by_idx s m index isActive = Done (0, s') /\ store_ok s' /\
    wifi_mgmr_profile_get_by_idx s' m0 slot = Done (0, msg_norm m) /\
    (0 <= pm_passphr_len m < 65536 -> 0 <= pm_psk_len m < 65536 -> msg_norm m = m) /\
    profiles s' !! Z.to_nat (1 - slot) = profiles s !! Z.to_nat (1 - slot) /\
    profile_active_index s' = (if (index =? -1) || (isActive =? 0) then profile_active_index s else index) /\
    disable_autoreconnect s' = disable_autoreconnect s.
Proof.
  intros Hs Hm Hi slot. assert (0 <= slot < 2) by (unfold slot; destruct (Z.eqb_spec index (-1)); lia).
  set (s1 := if (index =? -1) || (isActive =? 0) then s else set_active_index s index).
  assert (Hs1 : store_ok s1).
  { unfold s1. destruct (Z.eqb_spec index (-1)); [done|]. cbn. destruct (isActive =? 0); [done|].
    apply store_ok_active; [done|lia]. }
  destruct (store_ok_write s1 slot (profile_fill m isActive) Hs1) as [Hw Hok];
    [done|by apply profile_fill_ok|].
  assert (profiles s1 = profiles s /\ disable_autoreconnect s1 = disable_autoreconnect s) as [Hp1 Hd1]
    by (unfold s1; by destruct (_ || _)).
  eexists. split; [|split; [exact Hok|]].
  { unfold wifi_mgmr_profile_add_by_idx, WIFI_MGMR_PROFILES_MAX. unfold s1, slot in Hw |- *.
    destruct (index =? -1); cbn [orb] in *; [by step_with Hw|].
    rewrite (proj2 (Z.ltb_lt index 2)) by lia. destruct (isActive =? 0); by step_with Hw. }
  split_and!; cbn [profiles set_profiles profile_active_index disable_autoreconnect].
  - unfold wifi_mgmr_profile_get_by_idx, WIFI_MGMR_PROFILES_MAX.
    rewrite (proj2 (Z.ltb_lt slot 2)) by lia. unfold aget. rewrite decide_True by lia. cbn [profiles set_profiles].
    rewrite list_lookup_insert_eq by (destruct Hs1 as (-> & _); lia). cbn.
    by rewrite profile_read_fill.
  - intros. apply msg_norm_id; [destruct Hm as (_ & _ & _ & _ & ?); lia|done..].
  - rewrite list_lookup_insert_ne by lia. by rewrite Hp1.
  - unfold s1. by destruct (_ || _).
  - done.
Qed.

Lemma option_map_add_0 (r : option Z) : option_map (Z.add 0) r = r.
Proof. by destruct r. Qed.

Definition is_free (p : wifi_mgmr_profile) : bool := p_isUsed p =? 0.
Definition has_ssid (ssid : list Z) (len : Z) (p : wifi_mgmr_profile) : bool :=
  (p_isUsed p =? 1) && (len =? p_ssid_len p) &&
  bool_decide (take (Z.to_nat len) (p_ssid p) = take (Z.to_nat len) ssid).
Definition has_activity (a : Z) (p : wifi_mgmr_profile) : bool :=
  (p_isUsed p =? 1) && (a =? p_isActive p).

(** The searching operations act on the first matching slot.  Adding without the
    default index takes the lowest free slot, and fails with -1 and no change when
    both are used; deleting by SSID clears the lowest used slot with that SSID, drops
    the active index when it pointed there, and fails with -1 and no change when
    there is none; getting by activity returns the lowest slot number with its
    contents, or -1 with the message untouched.  All keep the store well formed. *)
Theorem profile_search_ops s m index isActive ssid len :
  store_ok s -> msg_ok m -> index <> -1 -> len <= Z.of_nat (length ssid) ->
  (exists r, first_match is_free (profiles s) r /\
     match r with
     | None => wifi_mgmr_profile_add s m index isActive = Done (-1, s)
     | Some i => exists s', wifi_mgmr_profile_add s m index isActive = Done (0, s') /\ store_ok s' /\
         profiles s' = <[Z.to_nat i := profile_fill m isActive]> (profiles s) /\
         profile_active_index s' = (if isActive =? 0 then profile_active_index s else i)
     end) /\
  (exists r, first_match (has_ssid ssid len) (profiles s) r /\
     match r with
     | None => wifi_mgmr_profile_del s ssid len = Done (-1, s)
     | Some i => exists s', wifi_mgmr_profile_del s ssid len = Done (0, s') /\ store_ok s' /\
         profiles s' = <[Z.to_nat i := profile_zero]> (profiles s) /\
         profile_active_index s' = (if i =? profile_active_index s then -1 else profile_active_index s)
     end) /\
  (exists r, first_match (has_activity isActive) (profiles s) r /\
     match r with
     | None => wifi_mgmr_profile_get s m isActive = Done (-1, m)
     | Some i => exists p, profiles s !! Z.to_nat i = Some p /\
         wifi_mgmr_profile_get s m isActive = Done (i, profile_read p) /\ msg_ok (profile_read p)
     end).
Proof.
  intros Hs Hm Hi Hlen. split_and!.
  - destruct (profile_scan_first (fun p => Done (p_isUsed p =? 0)) is_free (profiles s) 0)
      as (r & Hr & Hf); [by apply Forall_true|]. exists r. split; [done|].
    unfold wifi_mgmr_profile_add. rewrite (proj2 (Z.eqb_neq index (-1))) by done.
    step_with Hr. rewrite option_map_add_0. destruct r as [i|]; [|done].
    pose proof (first_match_bound _ _ _ Hs Hf) as Hb.
    set (s1 := if isActive =? 0 then s else set_active_index s i).
    assert (Hs1 : store_ok s1) by (unfold s1; destruct (isActive =? 0); [done|apply store_ok_active; [done|lia]]).
    destruct (store_ok_write s1 i (profile_fill m isActive) Hs1 Hb) as [-> Hok]; [by apply profile_fill_ok|].
    eexists. split_and!; [done|done|..]; cbn; unfold s1; by destruct (isActive =? 0).
  - destruct (profile_scan_first (fun p => if (p_isUsed p =? 1) && (len =? p_ssid_len p)
      then memcmp_eq (p_ssid p) ssid len else Done false) (has_ssid ssid len) (profiles s) 0)
      as (r & Hr & Hf).
    { destruct Hs as (_ & Hok & _). eapply Forall_impl; [exact Hok|]. intros p Hp. cbn. unfold has_ssid.
      destruct (_ && _) eqn:E; [|done]. apply andb_true_iff in E as [_ ->%Z.eqb_eq].
      unfold memcmp_eq. rewrite decide_True; [done|]. destruct Hp as (-> & _ & _ & _ & _ & ?). lia. }
    exists r. split; [done|]. unfold wifi_mgmr_profile_del. step_with Hr. rewrite option_map_add_0.
    destruct r as [i|]; [|done]. pose proof (first_match_bound _ _ _ Hs Hf) as Hb.
    set (s1 := if i =? profile_active_index s then set_active_index s (-1) else s).
    assert (Hs1 : store_ok s1) by (unfold s1; destruct (i =? _); [apply store_ok_active; [done|lia]|done]).
    destruct (store_ok_write s1 i profile_zero Hs1 Hb profile_zero_ok) as [-> Hok].
    eexists. split_and!; [done|done|..]; cbn; unfold s1; by destruct (i =? _).
  - destruct (profile_scan_first (fun p => Done ((p_isUsed p =? 1) && (isActive =? p_isActive p)))
      (has_activity isActive) (profiles s) 0) as (r & Hr & Hf); [by apply Forall_true|].
    exists r. split; [done|]. unfold wifi_mgmr_profile_get. step_with Hr. rewrite option_map_add_0.
    destruct r as [i|]; [|done].
    destruct (aget_profile s i Hs (first_match_bound _ _ _ Hs Hf)) as (p & Hg & Hp & Hok).
    exists p. step_with Hg. split_and!; [done..|by apply profile_read_ok].
Qed.

(** by-index operations on a well-formed store, for use by the state machine *)
Lemma get_by_idx_ok s m index :
  store_ok s -> msg_ok m -> 0 <= index ->
  exists ret m', wifi_mgmr_profile_get_by_idx s m index = Done (ret, m') /\ msg_ok m' /\ (ret = 0 \/ ret = -1).
Proof.
  intros Hs Hm Hi. unfold wifi_mgmr_profile_get_by_idx, WIFI_MGMR_PROFILES_MAX.
  destruct (Z.ltb_spec index 2); [|exists (-1), m; naive_solver].
  destruct (aget_profile s index Hs) as (p & Hg & _ & Hp); [lia|]. step_with Hg.
  destruct (p_isUsed p =? 1); [|exists (-1), m; naive_solver].
  exists 0, (profile_read p). split_and!; [done|by apply profile_read_ok|by left].
Qed.

Lemma del_by_idx_ok s index :
  store_ok s -> 0 <= index ->
  exists ret s', wifi_mgmr_profile_del_by_idx s index = Done (ret, s') /\ store_ok s' /\
    disable_autoreconnect s' = disable_autoreconnect s.
Proof.
  intros Hs Hi. unfold wifi_mgmr_profile_del_by_idx, WIFI_MGMR_PROFILES_MAX.
  destruct (Z.ltb_spec index 2); [|by exists (-1), s].
  destruct (aget_profile s index Hs) as (p & Hg & _ & Hp); [lia|]. step_with Hg.
  destruct (p_isUsed p =? 1); [|by exists (-1), s].
  set (s1 := if index =? profile_active_index s then set_active_index s (-1) else s).
  assert (Hs1 : store_ok s1) by (unfold s1; destruct (index =? _); [apply store_ok_active; [done|lia]|done]).
  destruct (store_ok_write s1 index profile_zero Hs1 ltac:(lia) profile_zero_ok) as [-> Hok].
  eexists 0, _. split_and!; [done..|]. cbn. unfold s1. by destruct (index =? _).
Qed.

Lemma set_active_by_idx_ok s index a :
  store_ok s -> 0 <= index ->
  exists ret s', wifi_mgmr_profile_set_active_by_idx s index a = Done (ret, s') /\ store_ok s' /\
    disable_autoreconnect s' = disable_autoreconnect s.
Proof.
  intros Hs Hi. unfold wifi_mgmr_profile_set_active_by_idx, WIFI_MGMR_PROFILES_MAX.
  destruct (Z.ltb_spec index 2); [|by exists (-1), s].
  destruct (aget_profile s index Hs) as (p & Hg & _ & Hp); [lia|]. step_with Hg.
  destruct (p_isUsed p =? 1) eqn:E; [|by exists (-1), s].
  match goal with |- context [write_profile s index ?q] =>
    destruct (store_ok_write s index q Hs ltac:(lia)) as [-> Hok] end.
  { exact Hp. }
  eexists 0, _. split_and!; [done|apply store_ok_active; [done|lia]|done].
Qed.

Lemma add_by_idx_ok s m index a :
  store_ok s -> msg_ok m -> -1 <= index < 2 ->
  exists s', wifi_mgmr_profile_add_by_idx s m index a = Done (0, s') /\ store_ok s' /\
    disable_autoreconnect s' = disable_autoreconnect s.
Proof.
  intros Hs Hm Hi. unfold wifi_mgmr_profile_add_by_idx, WIFI_MGMR_PROFILES_MAX.
  destruct (Z.eqb_spec index (-1)).
  { destruct (store_ok_write s 0 (profile_fill m a) Hs ltac:(lia)) as [-> Hok]; [by apply profile_fill_ok|].
    by eexists. }
  rewrite (proj2 (Z.ltb_lt index 2)) by lia.
  set (s1 := if a =? 0 then s else set_active_index s index).
  assert (Hs1 : store_ok s1) by (unfold s1; destruct (a =? _); [done|apply store_ok_active; [done|lia]]).
  destruct (store_ok_write s1 index (profile_fill m a) Hs1 ltac:(lia)) as [-> Hok]; [by apply profile_fill_ok|].
  eexists. split_and!; [done..|]. cbn. unfold s1. by destruct (a =? _).
Qed.

(** ** Witnesses *)

Definition sample_msg : wifi_mgmr_profile_msg :=
  {| pm_ssid := 104 :: 105 :: zeros 30; pm_ssid_tail := 0; pm_ssid_len := 2;
     pm_passphr := zeros 64; pm_passphr_tail := 0; pm_psk := zeros 64; pm_psk_tail := 0;
     pm_passphr_len := 0; pm_psk_len := 0; pm_bssid := zeros 6; pm_band := 0; pm_freq := 2412;
     pm_ap_info_ttl := 3; pm_dhcp_use := 1; pm_flags := 0 |}.
Definition store_init : profile_store :=
  {| profiles := [profile_zero; profile_zero]; profile_active_index := 0; disable_autoreconnect := 0 |}.

Lemma sample_msg_ok : msg_ok sample_msg.
Proof. split_and!; try done. Qed.
Lemma store_init_ok : store_ok store_init.
Proof.
  split_and!; [done| |by right; left]. repeat constructor; try apply profile_zero_ok; try done; by left.
Qed.

Lemma profile_add_get_roundtrip_witness :
  exists s', wifi_mgmr_profile_add_by_idx store_init sample_msg 1 1 = Done (0, s') /\
    wifi_mgmr_profile_get_by_idx s' profile_msg_zero 1 = Done (0, sample_msg) /\
    profile_active_index s' = 1.
Proof.
  destruct (profile_add_get_roundtrip store_init sample_msg profile_msg_zero 1 1)
    as (s' & Ha & _ & Hg & Hn & _ & Hi & _); [apply store_init_ok|apply sample_msg_ok|lia|].
  exists s'. rewrite <- Hn; [by split_and!|vm_compute; by split..].
Defined.

Lemma profile_search_ops_witness :
  exists s', wifi_mgmr_profile_add store_init sample_msg 0 1 = Done (0, s') /\ profile_active_index s' = 0.
Proof.
  destruct (profile_search_ops store_init sample_msg 0 1 [104; 105] 2) as ((r & Hf & H) & _);
    [apply store_init_ok|apply sample_msg_ok|lia|cbn; lia|].
  destruct r as [i|].
  - destruct H as (s' & Ha & _ & _ & Hi). exists s'. split; [done|]. rewrite Hi.
    destruct Hf as (Hp & p & Hl & _ & Hb). destruct (decide (i = 0)) as [->|Hn]; [done|].
    exfalso. destruct (Z.to_nat i) as [|k] eqn:E; [lia|]. inversion Hb as [|? ? Hx]. discriminate Hx.
  - inversion Hf as [|? ? Hx]. discriminate Hx.
Defined.
