(* ===== verification/WifiMgmr.v ===== *)
(** * The WiFi manager: the state tables, guards, actions and event loop of wifi_mgmr.c

    The globals the manager works on are the record [env]: the fields of
    [wifiMgmr], the data of the states ([stateConnectedIPNo_data],
    [stateDisconnect_data]), the static variables, the message queue, and a
    [trace] of everything the manager asks of the driver ([bl_main_*]), of the IP
    stack and of the event system, newest first.  The results of those calls are
    the sequence [answer], a parameter: the n-th question gets [answer n].

    Guards and actions are programs of the state monad [M].  A wrong cast of
    [msg->data], a NULL dereference or a fault of the profile code sets the sticky
    flag [fault].  The build configuration is the default one for the BL602:
    [CFG_CHIP_BL602] is defined, [CFG_NETBUS_WIFI_ENABLE], [BL602_MATTER_SUPPORT]
    and [CONF_ADC_ENABLE_TSEN] are not. *)
From S2P Require Import Prelude StateMachine WifiProfile.

(** ** Data *)

Inductive WIFI_MGMR_EVENT :=
| APP_IDLE | APP_CONNECT | APP_SNIFFER | APP_CONNECTED | APP_IP_GOT | APP_DISCONNECT | APP_RECONNECT
| APP_PHY_UP | APP_AP_START | APP_AP_STOP | APP_AP_CHAN_SWITCH | APP_CONF_MAX_STA | APP_RC_CONFIG
| APP_DENOISE | APP_RELOAD_TSEN | MAXAPP_MINIFW
| FW_DISCONNECT | FW_POWERSAVING | FW_CHANNEL_SET | FW_SCAN | FW_IND_DISCONNECT | FW_IND_CONNECTED
| FW_DATA_RAW_SEND | FW_CFG_REQ | MAXFW_MINI_GLOBAL
| GLB_SCAN_IND_BEACON | GLB_SCAN_IND_PROBE_RESP | GLB_AP_IND_STA_NEW | GLB_AP_IND_STA_DEL
| GLB_DISABLE_AUTORECONNECT | GLB_ENABLE_AUTORECONNECT | GLB_IP_UPDATE | GLB_MGMR_WAKEUP.

(** the value of the enumerator *)
Definition ev_num (e : WIFI_MGMR_EVENT) : Z :=
  match e with
  | APP_IDLE => 0 | APP_CONNECT => 1 | APP_SNIFFER => 2 | APP_CONNECTED => 3 | APP_IP_GOT => 4
  | APP_DISCONNECT => 5 | APP_RECONNECT => 6 | APP_PHY_UP => 7 | APP_AP_START => 8 | APP_AP_STOP => 9
  | APP_AP_CHAN_SWITCH => 10 | APP_CONF_MAX_STA => 11 | APP_RC_CONFIG => 12 | APP_DENOISE => 13
  | APP_RELOAD_TSEN => 14 | MAXAPP_MINIFW => 15 | FW_DISCONNECT => 16 | FW_POWERSAVING => 17
  | FW_CHANNEL_SET => 18 | FW_SCAN => 19 | FW_IND_DISCONNECT => 20 | FW_IND_CONNECTED => 21
  | FW_DATA_RAW_SEND => 22 | FW_CFG_REQ => 23 | MAXFW_MINI_GLOBAL => 24 | GLB_SCAN_IND_BEACON => 25
  | GLB_SCAN_IND_PROBE_RESP => 26 | GLB_AP_IND_STA_NEW => 27 | GLB_AP_IND_STA_DEL => 28
  | GLB_DISABLE_AUTORECONNECT => 29 | GLB_ENABLE_AUTORECONNECT => 30 | GLB_IP_UPDATE => 31
  | GLB_MGMR_WAKEUP => 32
  end.

(** comparison of two enumerators, as the C code compares their values *)
Definition ev_eqb (a b : WIFI_MGMR_EVENT) : bool := ev_num a =? ev_num b.

Definition EVENT_TYPE_FW : Z := 0.
Definition EVENT_TYPE_APP : Z := 1.
Definition EVENT_TYPE_GLB : Z := 2.

Definition SCAN_BIT : Z := 1.
Definition IP_UPDATE_BIT : Z := 2.
Definition IP_GOT_BIT : Z := 4.
Definition CONNECT_BIT : Z := 8.

Record wifi_mgmr_ap_msg := {
  ap_channel : Z; ap_ssid : list Z; ap_hidden_ssid : Z; ap_psk : list Z;
  ap_use_dhcp_server : Z; ap_max_sta_supported : Z
}.

Record wifi_mgmr_scan_params := {
  sp_bssid : list Z; sp_ssid : list Z; sp_scan_mode : Z; sp_duration_scan : Z;
  sp_channel_num : Z; sp_channels : list Z
}.

Record wifi_mgmr_cfg_element_msg := {
  cfg_ops : Z; cfg_task : Z; cfg_element : Z; cfg_type : Z; cfg_length : Z; cfg_buf : list Z
}.

(** what [msg->data] points to *)
Inductive heap_data :=
| H_profile (p : wifi_mgmr_profile_msg)
| H_ap (a : wifi_mgmr_ap_msg)
| H_scan (s : wifi_mgmr_scan_params)
| H_cfg (c : wifi_mgmr_cfg_element_msg).

Record wifi_mgmr_msg := {
  m_ev : WIFI_MGMR_EVENT; m_data1 : Z; m_data2 : Z; m_data : option heap_data
}.

Record ipv4_conf := { ip4_ip : Z; ip4_mask : Z; ip4_gw : Z; ip4_dns1 : Z; ip4_dns2 : Z }.

(** [wifi_mgmr_connect_ind_stat_info_t] without its locks and its diagnose list *)
Record wifi_mgmr_connect_ind_stat_info := {
  status_code : Z; reason_code : Z; chan_freq : Z; stat_ssid : list Z; stat_passphr : list Z; stat_bssid : list Z; type_ind : Z; chan_band : Z
}.

(** [struct wifi_event_sm_connect_ind], the fields the manager reads *)
Record wifi_event_sm_connect_ind := {
  ind_status_code : Z; ind_reason_code : Z; ind_bssid : list Z; ind_center_freq : Z; ind_band : Z
}.

(** the calls that leave the manager *)
Inductive call :=
| K_if_add_ap (ret : Z) | K_if_add_sta (ret : Z) | K_if_remove_ap | K_if_remove_sta
| K_disconnect | K_connect_abort
| K_connect (ssid : list Z) (ssid_len : Z) (passphr : list Z) (passphr_len : Z) (psk : list Z) (psk_len : Z)
    (bssid : option (list Z)) (band freq flags : Z)
| K_powersaving (mode ret : Z)
| K_scan (channels : list Z) (params : option wifi_mgmr_scan_params)
| K_monitor | K_monitor_disable | K_monitor_channel_set (channel use40 : Z)
| K_raw_send (pkt len : Z) | K_cfg_task_req (c : wifi_mgmr_cfg_element_msg)
| K_dhcpd_start | K_dhcp_server_stop | K_conf_max_sta (n : Z)
| K_apm_start (ssid psk : list Z) (channel hidden bcn_int : Z) | K_apm_remove_all_sta | K_apm_stop
| K_apm_chan_switch (channel count : Z) | K_denoise (mode : Z) | K_phy_up (ret : Z)
| K_rate_config (cfg : Z) | K_dns_setserver (n ip : Z) | K_dhcp_start | K_dhcp_stop
| K_set_addr (addr : option (Z * Z * Z))
| K_timer_start (s ns : Z) | K_timer_delete | K_post_event (code value : Z)
| K_delayed_action (ms : Z) | K_tcal (temp : Z) | K_record_dump | K_alloc | K_free.

Definition CODE_WIFI_CMD_RECONNECT : Z := 3.
Definition CODE_WIFI_ON_CONNECTED : Z := 4.
Definition CODE_WIFI_ON_DISCONNECT : Z := 5.
Definition CODE_WIFI_ON_GOT_IP : Z := 7.
Definition CODE_WIFI_ON_CONNECTING : Z := 8.
Definition CODE_WIFI_ON_SCAN_DONE : Z := 9.
Definition CODE_WIFI_ON_AP_STARTED : Z := 11.
Definition CODE_WIFI_ON_AP_STOPPED : Z := 12.
Definition CODE_WIFI_ON_MGMR_DENOISE : Z := 20.
Definition CODE_WIFI_ON_EMERGENCY_MAC : Z := 23.
Definition CODE_WIFI_ON_SET_PS_DONE : Z := 26.
Definition WIFI_SCAN_DONE_EVENT_BUSY : Z := 1.
Definition WIFI_PS_SET_DONE_EVENT_OK : Z := 0.
Definition WIFI_PS_SET_DONE_EVENT_FAIL : Z := 1.
Definition PS_MODE_OFF : Z := 0.
Definition PS_MODE_ON_DYN : Z := 2.

(** the globals of the manager; [ipno_timer] is non-zero when [stateConnectedIPNo_data.timer] is set *)
Record env := {
  inf_ap_enabled : Z;
  pstore : profile_store;
  ap_info_ttl_curr : Z;
  pending_task : Z;
  auto_repeat : Z;
  ipno_timer : Z;
  disc_timer_started : Z;
  disc_profile_msg : wifi_mgmr_profile_msg;
  sta_rssi : Z;
  sta_ipv4 : ipv4_conf;
  stat_info : wifi_mgmr_connect_ind_stat_info;
  channel : Z;
  ap_bcn_int : Z;
  call_tcal_once : Z;
  ready : Z;
  mq : list wifi_mgmr_msg;
  trace : list call;
  ticks : nat;
  fault : bool
}.

Definition set_inf_ap_enabled (v : Z) (e : env) : env :=
    {| inf_ap_enabled := v; pstore := pstore e; ap_info_ttl_curr := ap_info_ttl_curr e; pending_task :=
     pending_task e; auto_repeat := auto_repeat e; ipno_timer := ipno_timer e; disc_timer_started :=
     disc_timer_started e; disc_profile_msg := disc_profile_msg e; sta_rssi := sta_rssi e; sta_ipv4 :=
     sta_ipv4 e; stat_info := stat_info e; channel := channel e; ap_bcn_int := ap_bcn_int e; call_tcal_once := call_tcal_once
     e; ready := ready e; mq := mq e; trace := trace e; ticks := ticks e; fault := fault e |}.
Definition set_pstore (v : profile_store) (e : env) : env :=
    {| inf_ap_enabled := inf_ap_enabled e; pstore := v; ap_info_ttl_curr := ap_info_ttl_curr e; pending_task
     := pending_task e; auto_repeat := auto_repeat e; ipno_timer := ipno_timer e; disc_timer_started :=
     disc_timer_started e; disc_profile_msg := disc_profile_msg e; sta_rssi := sta_rssi e; sta_ipv4 :=
     sta_ipv4 e; stat_info := stat_info e; channel := channel e; ap_bcn_int := ap_bcn_int e; call_tcal_once := call_tcal_once
     e; ready := ready e; mq := mq e; trace := trace e; ticks := ticks e; fault := fault e |}.
Definition set_ap_info_ttl_curr (v : Z) (e : env) : env :=
    {| inf_ap_enabled := inf_ap_enabled e; pstore := pstore e; ap_info_ttl_curr := v; pending_task :=
     pending_task e; auto_repeat := auto_repeat e; ipno_timer := ipno_timer e; disc_timer_started :=
     disc_timer_started e; disc_profile_msg := disc_profile_msg e; sta_rssi := sta_rssi e; sta_ipv4 :=
     sta_ipv4 e; stat_info := stat_info e; channel := channel e; ap_bcn_int := ap_bcn_int e; call_tcal_once := call_tcal_once
     e; ready := ready e; mq := mq e; trace := trace e; ticks := ticks e; fault := fault e |}.
Definition set_pending_task (v : Z) (e : env) : env :=
    {| inf_ap_enabled := inf_ap_enabled e; pstore := pstore e; ap_info_ttl_curr := ap_info_ttl_curr e;
     pending_task := v; auto_repeat := auto_repeat e; ipno_timer := ipno_timer e; disc_timer_started :=
     disc_timer_started e; disc_profile_msg := disc_profile_msg e; sta_rssi := sta_rssi e; sta_ipv4 :=
     sta_ipv4 e; stat_info := stat_info e; channel := channel e; ap_bcn_int := ap_bcn_int e; call_tcal_once := call_tcal_once
     e; ready := ready e; mq := mq e; trace := trace e; ticks := ticks e; fault := fault e |}.
Definition set_auto_repeat (v : Z) (e : env) : env :=
    {| inf_ap_enabled := inf_ap_enabled e; pstore := pstore e; ap_info_ttl_curr := ap_info_ttl_curr e;
     pending_task := pending_task e; auto_repeat := v; ipno_timer := ipno_timer e; disc_timer_started :=
     disc_timer_started e; disc_profile_msg := disc_profile_msg e; sta_rssi := sta_rssi e; sta_ipv4 :=
     sta_ipv4 e; stat_info := stat_info e; channel := channel e; ap_bcn_int := ap_bcn_int e; call_tcal_once := call_tcal_once
     e; ready := ready e; mq := mq e; trace := trace e; ticks := ticks e; fault := fault e |}.
Definition set_ipno_timer (v : Z) (e : env) : env :=
    {| inf_ap_enabled := inf_ap_enabled e; pstore := pstore e; ap_info_ttl_curr := ap_info_ttl_curr e;
     pending_task := pending_task e; auto_repeat := auto_repeat e; ipno_timer := v; disc_timer_started :=
     disc_timer_started e; disc_profile_msg := disc_profile_msg e; sta_rssi := sta_rssi e; sta_ipv4 :=
     sta_ipv4 e; stat_info := stat_info e; channel := channel e; ap_bcn_int := ap_bcn_int e; call_tcal_once := call_tcal_once
     e; ready := ready e; mq := mq e; trace := trace e; ticks := ticks e; fault := fault e |}.
Definition set_disc_timer_started (v : Z) (e : env) : env :=
    {| inf_ap_enabled := inf_ap_enabled e; pstore := pstore e; ap_info_ttl_curr := ap_info_ttl_curr e;
     pending_task := pending_task e; auto_repeat := auto_repeat e; ipno_timer := ipno_timer e;
     disc_timer_started := v; disc_profile_msg := disc_profile_msg e; sta_rssi := sta_rssi e; sta_ipv4 :=
     sta_ipv4 e; stat_info := stat_info e; channel := channel e; ap_bcn_int := ap_bcn_int e; call_tcal_once := call_tcal_once
     e; ready := ready e; mq := mq e; trace := trace e; ticks := ticks e; fault := fault e |}.
Definition set_disc_profile_msg (v : wifi_mgmr_profile_msg) (e : env) : env :=
    {| inf_ap_enabled := inf_ap_enabled e; pstore := pstore e; ap_info_ttl_curr := ap_info_ttl_curr e;
     pending_task := pending_task e; auto_repeat := auto_repeat e; ipno_timer := ipno_timer e;
     disc_timer_started := disc_timer_started e; disc_profile_msg := v; sta_rssi := sta_rssi e; sta_ipv4 :=
     sta_ipv4 e; stat_info := stat_info e; channel := channel e; ap_bcn_int := ap_bcn_int e; call_tcal_once := call_tcal_once
     e; ready := ready e; mq := mq e; trace := trace e; ticks := ticks e; fault := fault e |}.
Definition set_sta_rssi (v : Z) (e : env) : env :=
    {| inf_ap_enabled := inf_ap_enabled e; pstore := pstore e; ap_info_ttl_curr := ap_info_ttl_curr e;
     pending_task := pending_task e; auto_repeat := auto_repeat e; ipno_timer := ipno_timer e;
     disc_timer_started := disc_timer_started e; disc_profile_msg := disc_profile_msg e; sta_rssi := v;
     sta_ipv4 := sta_ipv4 e; stat_info := stat_info e; channel := channel e; ap_bcn_int := ap_bcn_int e; call_tcal_once :=
     call_tcal_once e; ready := ready e; mq := mq e; trace := trace e; ticks := ticks e; fault := fault e
     |}.
Definition set_stat_info (v : wifi_mgmr_connect_ind_stat_info) (e : env) : env :=
    {| inf_ap_enabled := inf_ap_enabled e; pstore := pstore e; ap_info_ttl_curr := ap_info_ttl_curr e;
     pending_task := pending_task e; auto_repeat := auto_repeat e; ipno_timer := ipno_timer e;
     disc_timer_started := disc_timer_started e; disc_profile_msg := disc_profile_msg e; sta_rssi := sta_rssi e;
     sta_ipv4 := sta_ipv4 e; stat_info := v; channel := channel e; ap_bcn_int := ap_bcn_int e; call_tcal_once :=
     call_tcal_once e; ready := ready e; mq := mq e; trace := trace e; ticks := ticks e; fault := fault e
     |}.
Definition set_channel (v : Z) (e : env) : env :=
    {| inf_ap_enabled := inf_ap_enabled e; pstore := pstore e; ap_info_ttl_curr := ap_info_ttl_curr e;
     pending_task := pending_task e; auto_repeat := auto_repeat e; ipno_timer := ipno_timer e;
     disc_timer_started := disc_timer_started e; disc_profile_msg := disc_profile_msg e; sta_rssi := sta_rssi e;
     sta_ipv4 := sta_ipv4 e; stat_info := stat_info e; channel := v; ap_bcn_int := ap_bcn_int e; call_tcal_once :=
     call_tcal_once e; ready := ready e; mq := mq e; trace := trace e; ticks := ticks e; fault := fault e
     |}.
Definition set_sta_ipv4 (v : ipv4_conf) (e : env) : env :=
    {| inf_ap_enabled := inf_ap_enabled e; pstore := pstore e; ap_info_ttl_curr := ap_info_ttl_curr e;
     pending_task := pending_task e; auto_repeat := auto_repeat e; ipno_timer := ipno_timer e;
     disc_timer_started := disc_timer_started e; disc_profile_msg := disc_profile_msg e; sta_rssi :=
     sta_rssi e; sta_ipv4 := v; stat_info := stat_info e; channel := channel e; ap_bcn_int := ap_bcn_int e; call_tcal_once :=
     call_tcal_once e; ready := ready e; mq := mq e; trace := trace e; ticks := ticks e; fault := fault e
     |}.
Definition set_ap_bcn_int (v : Z) (e : env) : env :=
    {| inf_ap_enabled := inf_ap_enabled e; pstore := pstore e; ap_info_ttl_curr := ap_info_ttl_curr e;
     pending_task := pending_task e; auto_repeat := auto_repeat e; ipno_timer := ipno_timer e;
     disc_timer_started := disc_timer_started e; disc_profile_msg := disc_profile_msg e; sta_rssi :=
     sta_rssi e; sta_ipv4 := sta_ipv4 e; stat_info := stat_info e; channel := channel e; ap_bcn_int := v; call_tcal_once :=
     call_tcal_once e; ready := ready e; mq := mq e; trace := trace e; ticks := ticks e; fault := fault e
     |}.
Definition set_call_tcal_once (v : Z) (e : env) : env :=
    {| inf_ap_enabled := inf_ap_enabled e; pstore := pstore e; ap_info_ttl_curr := ap_info_ttl_curr e;
     pending_task := pending_task e; auto_repeat := auto_repeat e; ipno_timer := ipno_timer e;
     disc_timer_started := disc_timer_started e; disc_profile_msg := disc_profile_msg e; sta_rssi :=
     sta_rssi e; sta_ipv4 := sta_ipv4 e; stat_info := stat_info e; channel := channel e; ap_bcn_int := ap_bcn_int e;
     call_tcal_once := v; ready := ready e; mq := mq e; trace := trace e; ticks := ticks e; fault := fault e
     |}.
Definition set_ready (v : Z) (e : env) : env :=
    {| inf_ap_enabled := inf_ap_enabled e; pstore := pstore e; ap_info_ttl_curr := ap_info_ttl_curr e;
     pending_task := pending_task e; auto_repeat := auto_repeat e; ipno_timer := ipno_timer e;
     disc_timer_started := disc_timer_started e; disc_profile_msg := disc_profile_msg e; sta_rssi :=
     sta_rssi e; sta_ipv4 := sta_ipv4 e; stat_info := stat_info e; channel := channel e; ap_bcn_int := ap_bcn_int e;
     call_tcal_once := call_tcal_once e; ready := v; mq := mq e; trace := trace e; ticks := ticks e; fault
     := fault e |}.
Definition set_mq (v : list wifi_mgmr_msg) (e : env) : env :=
    {| inf_ap_enabled := inf_ap_enabled e; pstore := pstore e; ap_info_ttl_curr := ap_info_ttl_curr e;
     pending_task := pending_task e; auto_repeat := auto_repeat e; ipno_timer := ipno_timer e;
     disc_timer_started := disc_timer_started e; disc_profile_msg := disc_profile_msg e; sta_rssi :=
     sta_rssi e; sta_ipv4 := sta_ipv4 e; stat_info := stat_info e; channel := channel e; ap_bcn_int := ap_bcn_int e;
     call_tcal_once := call_tcal_once e; ready := ready e; mq := v; trace := trace e; ticks := ticks e;
     fault := fault e |}.
Definition set_trace (v : list call) (e : env) : env :=
    {| inf_ap_enabled := inf_ap_enabled e; pstore := pstore e; ap_info_ttl_curr := ap_info_ttl_curr e;
     pending_task := pending_task e; auto_repeat := auto_repeat e; ipno_timer := ipno_timer e;
     disc_timer_started := disc_timer_started e; disc_profile_msg := disc_profile_msg e; sta_rssi :=
     sta_rssi e; sta_ipv4 := sta_ipv4 e; stat_info := stat_info e; channel := channel e; ap_bcn_int := ap_bcn_int e;
     call_tcal_once := call_tcal_once e; ready := ready e; mq := mq e; trace := v; ticks := ticks e; fault
     := fault e |}.
Definition set_ticks (v : nat) (e : env) : env :=
    {| inf_ap_enabled := inf_ap_enabled e; pstore := pstore e; ap_info_ttl_curr := ap_info_ttl_curr e;
     pending_task := pending_task e; auto_repeat := auto_repeat e; ipno_timer := ipno_timer e;
     disc_timer_started := disc_timer_started e; disc_profile_msg := disc_profile_msg e; sta_rssi :=
     sta_rssi e; sta_ipv4 := sta_ipv4 e; stat_info := stat_info e; channel := channel e; ap_bcn_int := ap_bcn_int e;
     call_tcal_once := call_tcal_once e; ready := ready e; mq := mq e; trace := trace e; ticks := v; fault
     := fault e |}.
Definition set_fault (v : bool) (e : env) : env :=
    {| inf_ap_enabled := inf_ap_enabled e; pstore := pstore e; ap_info_ttl_curr := ap_info_ttl_curr e;
     pending_task := pending_task e; auto_repeat := auto_repeat e; ipno_timer := ipno_timer e;
     disc_timer_started := disc_timer_started e; disc_profile_msg := disc_profile_msg e; sta_rssi :=
     sta_rssi e; sta_ipv4 := sta_ipv4 e; stat_info := stat_info e; channel := channel e; ap_bcn_int := ap_bcn_int e;
     call_tcal_once := call_tcal_once e; ready := ready e; mq := mq e; trace := trace e; ticks := ticks e;
     fault := v |}.

(** ** The state monad of the handlers *)

Definition M (A : Type) : Type := env -> A * env.
#[global] Instance M_ret : MRet M := fun A a e => (a, e).
#[global] Instance M_bind : MBind M := fun A B f m e => let '(a, e) := m e in f a e.

Definition gets {A} (f : env -> A) : M A := fun e => (f e, e).
Definition modify (f : env -> env) : M unit := fun e => (tt, f e).
Definition emit (c : call) : M unit := modify (fun e => set_trace (c :: trace e) e).
Definition crash : M unit := modify (set_fault true).
Definition when (b : bool) (m : M unit) : M unit := if b then m else mret tt.

(** run a program of the profile code on the store *)
Definition on_store {A} (dflt : A) (f : profile_store -> outcome (A * profile_store)) : M A := fun e =>
  match f (pstore e) with
  | Done (a, s) => (a, set_pstore s e)
  | _ => (dflt, set_fault true e)
  end.

(** ** States and their data objects *)

Inductive wstate :=
| stateGlobal | stateIdle | stateConnecting | stateConnectedIPNo | stateConnectedIPYes
| stateDisconnect | stateIfaceDown | stateSniffer | stateError.
#[global] Instance wstate_eq : EqDecision wstate.
Proof. solve_decision. Defined.

(** the object [state.data] points to *)
Inductive state_data :=
| D_name (s : wstate)
| stateConnectedIPNo_data
| stateDisconnect_data.

Abbreviation wevent := (@event wifi_mgmr_msg).
Abbreviation wfsm := (@stateMachine wstate).
Abbreviation guard := (WIFI_MGMR_EVENT -> wevent -> wfsm -> M bool).
Abbreviation action := (state_data -> wevent -> state_data -> M unit).
Abbreviation hook := (state_data -> wevent -> M unit).

Definition in_state (s : wstate) (m : wfsm) : bool := bool_decide (currentState m = Some s).

Section Handlers.
Context (answer : nat -> Z).

(** the next answer of the world outside *)
Definition ask : M Z := fun e => (answer (ticks e), set_ticks (S (ticks e)) e).

Definition platform_post_event (code value : Z) : M unit := emit (K_post_event code value).

(** *** Pending tasks *)

Definition _pending_task_set_safely (bit : Z) : M unit :=
  modify (fun e => set_pending_task (u32 (Z.lor (pending_task e) bit)) e).
Definition _pending_task_clr_safely (bit : Z) : M unit :=
  modify (fun e => set_pending_task (Z.land (pending_task e) (u32 (Z.lnot bit))) e).
Definition _pending_task_is_set (bit : Z) : M bool :=
  gets (fun e => negb (Z.land (pending_task e) bit =? 0)).

(** *** The message queue *)

(** poll [ready]; the handlers run in one task, so it does not change meanwhile *)
Fixpoint wait_ready (limit : nat) (e : env) : bool :=
  if ready e =? 0 then match limit with O => false | S limit => wait_ready limit e end else true.

Definition wifi_mgmr_event_notify (msg : wifi_mgmr_msg) : M Z :=
  ok ← gets (wait_ready 50);
  if (ok : bool) then
    ret ← ask;
    if ret =? 0 then modify (fun e => set_mq (mq e ++ [msg]) e);; mret 0 else mret (-1)
  else mret (-1).

Definition wifi_mgmr_api_common (ev : WIFI_MGMR_EVENT) (data1 data2 : Z) (data : option heap_data) : M Z :=
  ret ← wifi_mgmr_event_notify {| m_ev := ev; m_data1 := data1; m_data2 := data2; m_data := data |};
  if ret =? 0 then mret 0
  else match data with Some _ => emit K_free | None => mret tt end;; mret (-1).

Definition wifi_mgmr_api_common_msg (ev : WIFI_MGMR_EVENT) (data1 data2 : Z) : M Z :=
  wifi_mgmr_api_common ev data1 data2 None.

Definition wifi_mgmr_api_disconnect : M Z := wifi_mgmr_api_common_msg APP_DISCONNECT 1 2.
Definition wifi_mgmr_sta_disconnect : M Z := wifi_mgmr_api_disconnect.
Definition wifi_mgmr_api_reconnect : M Z := wifi_mgmr_api_common_msg APP_RECONNECT 1 2.
Definition wifi_mgmr_api_fw_disconnect : M Z := wifi_mgmr_api_common_msg FW_DISCONNECT 1 2.
Definition wifi_mgmr_api_fw_tsen_reload : M Z := wifi_mgmr_api_common_msg APP_RELOAD_TSEN 1 2.
Definition wifi_mgmr_api_denoise_enable : M Z := wifi_mgmr_api_common_msg APP_DENOISE 1 2.
Definition wifi_mgmr_pending_task_set (bits : Z) : M Z := _pending_task_set_safely bits;; mret 0.
Definition wifi_mgmr_api_ip_got : M Z :=
  _ ← wifi_mgmr_pending_task_set IP_GOT_BIT; wifi_mgmr_api_common_msg GLB_MGMR_WAKEUP 1 2.
Definition wifi_mgmr_api_ip_update : M Z :=
  _ ← wifi_mgmr_pending_task_set IP_UPDATE_BIT; wifi_mgmr_api_common_msg GLB_MGMR_WAKEUP 1 2.

(** *** Guards of the global state *)

Definition stateGlobalGuard_disable_autoreconnect : guard := fun ch event m =>
  if negb (ev_eqb ch (m_ev (ev_data event))) then mret false
  else if in_state stateDisconnect m then emit K_if_remove_sta;; mret true
  else _ ← on_store 0 (fun s => Done (wifi_mgmr_profile_autoreconnect_disable s (-1))); mret false.

Definition stateGlobalGuard_enable_autoreconnect : guard := fun ch event m =>
  if negb (ev_eqb ch (m_ev (ev_data event))) then mret false
  else _ ← on_store 0 (fun s => Done (wifi_mgmr_profile_autoreconnect_enable s (-1))); mret false.

Definition stateGlobalGuard_fw_disconnect : guard := fun ch event m =>
  when (ev_eqb FW_DISCONNECT (m_ev (ev_data event))) (emit K_disconnect);; mret false.

Definition stateGlobalGuard_fw_powersaving : guard := fun ch event m =>
  let msg := ev_data event in
  ret ← (if ev_eqb FW_POWERSAVING (m_ev msg) then
           let mode := s32 (m_data1 msg) in
           if (PS_MODE_OFF <=? mode) && (mode <=? PS_MODE_ON_DYN) then
             go ← (if mode =? PS_MODE_OFF then mret true else c ← ask; mret (negb (c =? 0)));
             if (go : bool) then
               r ← ask; emit (K_powersaving mode r);; mret (if r =? 0 then 0 else -1)
             else mret (-1)
           else mret (-1)
         else mret (-1));
  platform_post_event CODE_WIFI_ON_SET_PS_DONE
    (if ret =? 0 then WIFI_PS_SET_DONE_EVENT_OK else WIFI_PS_SET_DONE_EVENT_FAIL);;
  mret false.

Definition stateGlobalGuard_fw_scan : guard := fun ch event m =>
  let msg := ev_data event in
  if negb (ev_eqb FW_SCAN (m_ev msg)) then mret false
  else if in_state stateConnecting m || in_state stateConnectedIPNo m || in_state stateDisconnect m then
    _pending_task_set_safely SCAN_BIT;; mret false
  else match m_data msg with
  | Some (H_scan ch_req) =>
    if negb (in_state stateIdle m) && negb (in_state stateConnectedIPYes m) && negb (in_state stateSniffer m) then
      platform_post_event CODE_WIFI_ON_SCAN_DONE WIFI_SCAN_DONE_EVENT_BUSY;; mret false
    else if negb (sp_channel_num ch_req =? 0) then
      emit (K_scan (take (Z.to_nat (sp_channel_num ch_req)) (sp_channels ch_req)) (Some ch_req));; mret false
    else emit (K_scan [] (Some ch_req));; mret false
  | _ => crash;; mret false
  end.

Definition stateGuard : guard := fun ch event m => mret (ev_eqb ch (m_ev (ev_data event))).

Definition stateSnifferGuard_idle : guard := fun ev event m =>
  if negb (ev_eqb ev (m_ev (ev_data event))) then mret false
  else emit K_monitor_disable;; mret true.

Definition stateSnifferGuard_ChannelSet : guard := fun ch event m =>
  let msg := ev_data event in
  if negb (ev_eqb ch (m_ev msg)) then mret false
  else emit (K_monitor_channel_set (s32 (m_data1 msg)) (s32 (m_data2 msg)));; mret false.

Definition stateSnifferGuard_raw_send : guard := fun ch event m =>
  let msg := ev_data event in
  if in_state stateIdle m || in_state stateIfaceDown m then mret false
  else when (ev_eqb FW_DATA_RAW_SEND (m_ev msg)) (emit (K_raw_send (m_data1 msg) (s32 (m_data2 msg))));; mret false.

Definition stateGlobal_cfg_req : guard := fun ch event m =>
  let msg := ev_data event in
  if ev_eqb FW_CFG_REQ (m_ev msg) then
    match m_data msg with
    | Some (H_cfg c) => emit (K_cfg_task_req c);; mret false
    | _ => crash;; mret false
    end
  else mret false.

Definition stateGlobalGuard_AP : guard := fun ev event m =>
  let msg := ev_data event in
  on ← gets inf_ap_enabled;
  if negb (on =? 0) then mret false
  else if negb (ev_eqb APP_AP_START (m_ev msg)) then mret false
  else
    r ← ask; emit (K_if_add_ap r);;
    if negb (r =? 0) then mret false
    else match m_data msg with
    | Some (H_ap ap) =>
      when (negb (ap_use_dhcp_server ap =? 0)) (emit K_dhcpd_start);;
      when (0 <=? ap_max_sta_supported ap) (emit (K_conf_max_sta (ap_max_sta_supported ap)));;
      bcn ← gets ap_bcn_int;
      emit (K_apm_start (ap_ssid ap) (ap_psk ap) (ap_channel ap) (ap_hidden_ssid ap) bcn);;
      modify (set_inf_ap_enabled 1);;
      platform_post_event CODE_WIFI_ON_AP_STARTED 0;;
      mret false
    | _ => crash;; mret false
    end.

Definition stateGlobalGuard_stop : guard := fun ev event m =>
  if negb (ev_eqb APP_AP_STOP (m_ev (ev_data event))) then mret false
  else
    emit K_apm_remove_all_sta;; emit K_apm_stop;; emit K_if_remove_ap;; emit K_dhcp_server_stop;;
    modify (set_inf_ap_enabled 0);;
    platform_post_event CODE_WIFI_ON_AP_STOPPED 0;;
    mret false.

Definition stateGlobalGuard_ap_chan_switch : guard := fun ev event m =>
  let msg := ev_data event in
  if negb (ev_eqb ev (m_ev msg)) then mret false
  else
    on ← gets inf_ap_enabled;
    if on =? 0 then mret false
    else emit (K_apm_chan_switch (s32 (m_data1 msg)) (u8 (m_data2 msg)));; mret false.

Definition stateGlobalGuard_conf_max_sta : guard := fun ev event m =>
  let msg := ev_data event in
  if negb (ev_eqb APP_CONF_MAX_STA (m_ev msg)) then mret false
  else emit (K_conf_max_sta (u32 (m_data1 msg)));; mret false.

(** the delayed action that repeats the denoise request *)
Definition trigger_auto_denoise : M unit :=
  r ← gets auto_repeat;
  if r =? 0 then mret tt
  else _ ← wifi_mgmr_api_denoise_enable; emit (K_delayed_action 85).

(** the callback registered for WiFi events *)
Definition event_cb_wifi_event_mgmr (code : Z) : M unit :=
  when (code =? CODE_WIFI_ON_MGMR_DENOISE) (emit (K_delayed_action 85)).

Definition stateGlobalGuard_denoise : guard := fun ev event m =>
  let msg := ev_data event in
  if negb (ev_eqb APP_DENOISE (m_ev msg)) then mret false
  else if negb (m_data1 msg =? 0) then
    if in_state stateConnectedIPYes m then
      r ← gets auto_repeat;
      if negb (r =? 0) then emit (K_denoise 3);; mret false
      else modify (set_auto_repeat 1);; emit (K_denoise 1);;
           platform_post_event CODE_WIFI_ON_MGMR_DENOISE 0;; mret false
    else mret false
  else modify (set_auto_repeat 0);; emit (K_denoise 0);; mret false.

(** [ssid_tail] and [psk_tail] of the message are cleared before it is used *)
Definition clear_tails (p : wifi_mgmr_profile_msg) : wifi_mgmr_profile_msg :=
  {| pm_ssid := pm_ssid p; pm_ssid_tail := 0; pm_ssid_len := pm_ssid_len p;
     pm_passphr := pm_passphr p; pm_passphr_tail := pm_passphr_tail p;
     pm_psk := pm_psk p; pm_psk_tail := 0; pm_passphr_len := pm_passphr_len p; pm_psk_len := pm_psk_len p;
     pm_bssid := pm_bssid p; pm_band := pm_band p; pm_freq := pm_freq p;
     pm_ap_info_ttl := pm_ap_info_ttl p; pm_dhcp_use := pm_dhcp_use p; pm_flags := pm_flags p |}.

Definition stateGlobalGuard_connect : guard := fun ev event m =>
  let msg := ev_data event in
  if negb (ev_eqb ev (m_ev msg)) then mret false
  else if in_state stateConnecting m || in_state stateConnectedIPNo m || in_state stateConnectedIPYes m then
    (if in_state stateConnectedIPNo m || in_state stateConnectedIPYes m
     then _ ← wifi_mgmr_sta_disconnect; mret tt
     else emit K_connect_abort);;
    match m_data msg with
    | Some (H_profile p) =>
      _ ← on_store 0 (fun s => wifi_mgmr_profile_add_by_idx s (clear_tails p) 1 0);
      _pending_task_set_safely CONNECT_BIT;; mret false
    | _ => crash;; mret false
    end
  else if in_state stateDisconnect m then mret true
  else if negb (in_state stateIdle m) then mret false
  else
    r ← ask; emit (K_if_add_sta r);;
    if negb (r =? 0) then mret false else mret true.

(** *** Actions *)

Definition stateGlobalAction : action := fun _ _ _ => mret tt.
Definition stateAction : action := fun _ _ _ => mret tt.

Definition bl_main_connect (p : wifi_mgmr_profile_msg) (bssid : option (list Z)) (band freq : Z) : M unit :=
  emit (K_connect (pm_ssid p) (pm_ssid_len p) (pm_passphr p) (pm_passphr_len p) (pm_psk p) (pm_psk_len p)
          bssid (u8 band) (u16 freq) (u32 (pm_flags p))).

Definition stateGlobalAction_connect : action := fun _ event _ =>
  match m_data (ev_data event) with
  | Some (H_profile p) =>
    let profile_msg := clear_tails p in
    _ ← on_store 0 (fun s => wifi_mgmr_profile_add_by_idx s profile_msg 0 1);
    _ ← on_store 0 (fun s => wifi_mgmr_profile_set_active_by_idx s 1 0);
    modify (set_ap_info_ttl_curr (-1));;
    bl_main_connect profile_msg (Some (pm_bssid profile_msg)) (pm_band profile_msg) (pm_freq profile_msg)
  | _ => crash
  end.

(** send the scan that was held back *)
Definition pending_scan_send : M unit :=
  p ← _pending_task_is_set SCAN_BIT;
  if (p : bool) then emit (K_scan [] None);; _pending_task_clr_safely SCAN_BIT else mret tt.

Definition stateExit : hook := fun _ _ => pending_scan_send.
Definition stateEnter : hook := fun _ _ => mret tt.
Definition stateConnectingEnter : hook := fun _ _ => platform_post_event CODE_WIFI_ON_CONNECTING 0.
Definition printErrMsg : hook := fun _ _ => mret tt.

Definition stateConnectingGuard_disconnect : guard := fun ev event m =>
  if negb (ev_eqb ev (m_ev (ev_data event))) then mret false
  else emit K_connect_abort;; mret false.

Definition stateIdleGuard_sniffer : guard := fun ev event m =>
  if negb (ev_eqb ev (m_ev (ev_data event))) then mret false
  else emit K_monitor;; mret true.

Definition stateIfaceDownGuard_phyup : guard := fun ev event m =>
  if negb (ev_eqb ev (m_ev (ev_data event))) then mret false
  else error ← ask; emit (K_phy_up error);; if negb (error =? 0) then mret false else mret true.

(** *** Connected, no IP address yet *)

Definition stateConnectedIPNoGuard_disconnect : guard := fun ch event m =>
  if negb (ev_eqb ch (m_ev (ev_data event))) then mret false
  else emit K_disconnect;; mret false.
Definition stateConnectedIPNoAction_ipgot : action := fun _ _ _ => mret tt.

Definition ip_obtaining_timeout : M unit := _ ← wifi_mgmr_api_fw_disconnect; mret tt.
Definition __reload_tsen : M unit := _ ← wifi_mgmr_api_fw_tsen_reload; mret tt.

(** [tcal_param->en_tcal] belongs to the PHY *)
Definition __run_reload_tsen (m : wfsm) : M unit :=
  if in_state stateConnecting m || in_state stateDisconnect m || in_state stateConnectedIPYes m ||
     in_state stateSniffer m || in_state stateConnectedIPNo m then
    en_tcal ← ask;
    if negb (en_tcal =? 0) then emit (K_tcal 0)
    else
      once ← gets call_tcal_once;
      if once =? 0 then emit (K_tcal 35);; modify (set_call_tcal_once 1) else mret tt
  else mret tt.

Definition __sta_setup_ip (use_dhcp : bool) : M unit :=
  c ← gets sta_ipv4;
  if negb (ip4_ip c =? 0) then
    emit (K_dns_setserver 0 (ip4_dns1 c));; emit (K_dns_setserver 1 (ip4_dns2 c));;
    emit K_dhcp_stop;; emit (K_set_addr (Some (ip4_ip c, ip4_mask c, ip4_gw c)))
  else when use_dhcp (emit K_dhcp_start).

Definition stateConnectedIPNoEnter : hook := fun _ _ =>
  pending ← _pending_task_is_set CONNECT_BIT;
  if (pending : bool) then _ ← wifi_mgmr_sta_disconnect; mret tt
  else
    active ← gets (fun e => profile_active_index (pstore e));
    r ← on_store (-1, profile_msg_zero) (fun s =>
          r ← wifi_mgmr_profile_get_by_idx s profile_msg_zero (u8 active); Done (r, s));
    let use_dhcp := if fst r =? 0 then negb (pm_dhcp_use (snd r) =? 0) else true in
    (if use_dhcp then emit (K_timer_start 15 0);; modify (set_ipno_timer 1)
     else modify (set_ipno_timer 0));;
    __sta_setup_ip use_dhcp;;
    platform_post_event CODE_WIFI_ON_CONNECTED 0.

Definition stateConnectedIPNoExit : hook := fun _ _ =>
  t ← gets ipno_timer;
  if negb (t =? 0) then emit K_timer_delete;; modify (set_ipno_timer 0) else mret tt.

Definition stateConnectedIPNoAction_disconn : action := fun _ _ _ =>
  modify (set_sta_rssi 0);; emit K_dhcp_stop;; emit (K_set_addr None).

(** *** Connected with an IP address *)

Definition stateConnectedIPYesGuard_ip_update : guard := fun ch event m =>
  if negb (ev_eqb ch (m_ev (ev_data event))) then mret false else mret true.
Definition stateConnectedIPYesGuard_disconnect : guard := fun ch event m =>
  if negb (ev_eqb ch (m_ev (ev_data event))) then mret false
  else emit K_disconnect;; mret false.
Definition stateConnectedIPYesGuard_rcconfig : guard := fun ch event m =>
  if negb (ev_eqb ch (m_ev (ev_data event))) then mret false
  else emit (K_rate_config (u32 (m_data1 (ev_data event))));; mret false.
Definition stateConnectedIPYes_action : action := fun _ _ _ =>
  modify (set_sta_rssi 0);; emit K_dhcp_stop;; emit (K_set_addr None).

Definition stateConnectedIPYes_enter : hook := fun _ _ =>
  pending ← _pending_task_is_set CONNECT_BIT;
  if (pending : bool) then _ ← wifi_mgmr_sta_disconnect; mret tt
  else platform_post_event CODE_WIFI_ON_GOT_IP 0;; pending_scan_send.

Definition stateConnectedIPYes_exit : hook := fun _ _ =>
  r ← gets auto_repeat;
  if negb (r =? 0) then modify (set_auto_repeat 0);; emit (K_denoise 0) else mret tt.

(** *** Disconnected *)

(** which AP information a reconnect uses: the pinned one while it lives, none after *)
Definition stateDisconnect_action_reconnect : action := fun oldStateData _ _ =>
  match oldStateData with
  | stateDisconnect_data =>
    p ← gets disc_profile_msg;
    pinned ← (if negb (pm_ap_info_ttl p =? -1) then
                 c ← gets ap_info_ttl_curr;
                 when (c =? -1) (modify (set_ap_info_ttl_curr (pm_ap_info_ttl p)));;
                 c ← gets ap_info_ttl_curr;
                 if c =? 0 then mret false
                 else modify (set_ap_info_ttl_curr (c - 1));; mret true
               else mret true);
    (if (pinned : bool) then bl_main_connect p (Some (pm_bssid p)) (pm_band p) (pm_freq p)
     else bl_main_connect p None 0 0);;
    platform_post_event CODE_WIFI_CMD_RECONNECT 0
  | _ => crash
  end.

Definition stateDisconnect_action_idle : action := fun _ _ _ => emit K_if_remove_sta.

(** the retry timer's callback *)
Definition disconnect_retry : M unit :=
  pending ← _pending_task_is_set CONNECT_BIT;
  ret ← (if (pending : bool) then
           _pending_task_clr_safely CONNECT_BIT;;
           m0 ← gets disc_profile_msg;
           r ← on_store (-1, m0) (fun s => r ← wifi_mgmr_profile_get_by_idx s m0 1; Done (r, s));
           modify (set_disc_profile_msg (snd r));;
           (if 0 <=? fst r then
              _ ← on_store 0 (fun s => wifi_mgmr_profile_del_by_idx s 0);
              _ ← on_store 0 (fun s => wifi_mgmr_profile_add_by_idx s (snd r) 0 0);
              _ ← on_store 0 (fun s => wifi_mgmr_profile_set_active_by_idx s 1 1);
              modify (set_ap_info_ttl_curr (-1))
            else mret tt);;
           mret (fst r)
         else
           m0 ← gets disc_profile_msg;
           r ← on_store (-1, m0) (fun s => r ← wifi_mgmr_profile_get_by_idx s m0 0; Done (r, s));
           modify (set_disc_profile_msg (snd r));; mret (fst r));
  if ret <? 0 then mret tt else _ ← wifi_mgmr_api_reconnect; mret tt.

Definition stateDisconnect_enter : hook := fun _ _ =>
  auto ← gets (fun e => wifi_mgmr_profile_autoreconnect_is_enabled (pstore e) (-1));
  pending ← _pending_task_is_set CONNECT_BIT;
  (if negb (auto =? 0) || pending then
     (if pending : bool then emit (K_timer_start 0 1000001) else emit (K_timer_start 2 0));;
     modify (set_disc_timer_started 1)
   else _ ← wifi_mgmr_api_common_msg APP_IDLE 1 2; mret tt);;
  code ← gets (fun e => status_code (stat_info e));
  platform_post_event CODE_WIFI_ON_DISCONNECT code;;
  r ← ask; is_ok ← ask;
  when ((r =? 0) && (is_ok =? 0))
    (platform_post_event CODE_WIFI_ON_EMERGENCY_MAC 0;; emit K_record_dump);;
  pending_scan_send.

Definition stateDisconnect_exit : hook := fun _ _ =>
  t ← gets disc_timer_started;
  if negb (t =? 0) then emit K_timer_delete;; modify (set_disc_timer_started 0) else mret tt.

(** ** The state tables *)

Abbreviation wtransition := (@transition wstate wifi_mgmr_msg WIFI_MGMR_EVENT state_data env).
Abbreviation wstate_rec := (@state wstate wifi_mgmr_msg WIFI_MGMR_EVENT state_data env).

Definition row (ty : Z) (ev : WIFI_MGMR_EVENT) (g : guard) (a : action) (n : wstate) : wtransition :=
  {| t_eventType := ty; t_condition := ev; t_guard := Some g;
     t_action := Some (fun d event d' e => snd (a d event d' e)); t_nextState := Some n |}.
Definition run_hook (h : hook) : option (state_data -> wevent -> env -> env) :=
  Some (fun d event e => snd (h d event e)).

Definition stateGlobal_transitions : list wtransition :=
  [ row EVENT_TYPE_GLB GLB_DISABLE_AUTORECONNECT stateGlobalGuard_disable_autoreconnect stateGlobalAction stateIdle;
    row EVENT_TYPE_GLB GLB_ENABLE_AUTORECONNECT stateGlobalGuard_enable_autoreconnect stateGlobalAction stateIdle;
    row EVENT_TYPE_APP APP_AP_START stateGlobalGuard_AP stateGlobalAction stateIdle;
    row EVENT_TYPE_APP APP_AP_STOP stateGlobalGuard_stop stateGlobalAction stateIdle;
    row EVENT_TYPE_APP APP_AP_CHAN_SWITCH stateGlobalGuard_ap_chan_switch stateGlobalAction stateIdle;
    row EVENT_TYPE_APP APP_CONF_MAX_STA stateGlobalGuard_conf_max_sta stateGlobalAction stateIdle;
    row EVENT_TYPE_APP APP_DENOISE stateGlobalGuard_denoise stateGlobalAction stateIdle;
    row EVENT_TYPE_APP APP_CONNECT stateGlobalGuard_connect stateGlobalAction_connect stateConnecting;
    row EVENT_TYPE_FW FW_DISCONNECT stateGlobalGuard_fw_disconnect stateGlobalAction stateIdle;
    row EVENT_TYPE_FW FW_POWERSAVING stateGlobalGuard_fw_powersaving stateGlobalAction stateIdle;
    row EVENT_TYPE_FW FW_SCAN stateGlobalGuard_fw_scan stateGlobalAction stateIdle;
    row EVENT_TYPE_FW FW_DATA_RAW_SEND stateSnifferGuard_raw_send stateGlobalAction stateIdle;
    row EVENT_TYPE_FW FW_CFG_REQ stateGlobal_cfg_req stateGlobalAction stateIdle ].

Definition stateSniffer_transitions : list wtransition :=
  [ row EVENT_TYPE_APP APP_IDLE stateSnifferGuard_idle stateAction stateIdle;
    row EVENT_TYPE_FW FW_CHANNEL_SET stateSnifferGuard_ChannelSet stateAction stateIdle ].

Definition stateConnecting_transitions : list wtransition :=
  [ row EVENT_TYPE_FW FW_IND_CONNECTED stateGuard stateAction stateConnectedIPNo;
    row EVENT_TYPE_FW FW_IND_DISCONNECT stateGuard stateAction stateDisconnect;
    row EVENT_TYPE_APP APP_DISCONNECT stateConnectingGuard_disconnect stateAction stateDisconnect ].

Definition stateIdle_transitions : list wtransition :=
  [ row EVENT_TYPE_APP APP_SNIFFER stateIdleGuard_sniffer stateAction stateSniffer ].

Definition stateIfaceDown_transitions : list wtransition :=
  [ row EVENT_TYPE_APP APP_PHY_UP stateIfaceDownGuard_phyup stateAction stateIdle ].

Definition stateConnectedIPNo_transitions : list wtransition :=
  [ row EVENT_TYPE_APP APP_IP_GOT stateGuard stateConnectedIPNoAction_ipgot stateConnectedIPYes;
    row EVENT_TYPE_APP APP_DISCONNECT stateConnectedIPNoGuard_disconnect stateAction stateDisconnect;
    row EVENT_TYPE_FW FW_IND_DISCONNECT stateGuard stateConnectedIPNoAction_disconn stateDisconnect ].

Definition stateConnectedIPYes_transitions : list wtransition :=
  [ row EVENT_TYPE_GLB GLB_IP_UPDATE stateConnectedIPYesGuard_ip_update stateAction stateConnectedIPNo;
    row EVENT_TYPE_APP APP_DISCONNECT stateConnectedIPYesGuard_disconnect stateConnectedIPYes_action stateDisconnect;
    row EVENT_TYPE_APP APP_RC_CONFIG stateConnectedIPYesGuard_rcconfig stateConnectedIPYes_action stateDisconnect;
    row EVENT_TYPE_FW FW_IND_DISCONNECT stateGuard stateConnectedIPYes_action stateDisconnect ].

Definition stateDisconnect_transitions : list wtransition :=
  [ row EVENT_TYPE_APP APP_RECONNECT stateGuard stateDisconnect_action_reconnect stateConnecting;
    row EVENT_TYPE_APP APP_IDLE stateGuard stateDisconnect_action_idle stateIdle ].

Definition wtable (s : wstate) : wstate_rec :=
  let mk parent ts n d en ex :=
    {| parentState := parent; entryState := None; transitions := ts; numTransitions := n; data := d;
       entryAction := en; exitAction := ex |} in
  match s with
  | stateGlobal => mk None stateGlobal_transitions 13%nat (D_name s) (run_hook stateEnter) (run_hook stateExit)
  | stateSniffer => mk (Some stateGlobal) stateSniffer_transitions 2%nat (D_name s)
                      (run_hook stateEnter) (run_hook stateExit)
  | stateConnecting => mk (Some stateGlobal) stateConnecting_transitions 3%nat (D_name s)
                         (run_hook stateConnectingEnter) (run_hook stateExit)
  | stateIdle => mk (Some stateGlobal) stateIdle_transitions 1%nat (D_name s)
                   (run_hook stateEnter) (run_hook stateExit)
  | stateIfaceDown => mk (Some stateGlobal) stateIfaceDown_transitions 1%nat (D_name s)
                        (run_hook stateEnter) (run_hook stateExit)
  | stateConnectedIPNo => mk (Some stateGlobal) stateConnectedIPNo_transitions 3%nat stateConnectedIPNo_data
                            (run_hook stateConnectedIPNoEnter) (run_hook stateConnectedIPNoExit)
  | stateConnectedIPYes => mk (Some stateGlobal) stateConnectedIPYes_transitions 4%nat (D_name s)
                             (run_hook stateConnectedIPYes_enter) (run_hook stateConnectedIPYes_exit)
  | stateDisconnect => mk (Some stateGlobal) stateDisconnect_transitions 2%nat stateDisconnect_data
                         (run_hook stateDisconnect_enter) (run_hook stateDisconnect_exit)
  | stateError => mk None [] 0%nat (D_name s) (run_hook printErrMsg) None
  end.

(** the parent chains have length one, there are no entry states *)
Definition wdepth : nat := 1.

(** ** The event loop *)

(** the result and the message as it is left *)
Definition handle_pending_task (msg : wifi_mgmr_msg) : M (Z * wifi_mgmr_msg) :=
  c ← _pending_task_is_set CONNECT_BIT;
  if (c : bool) then
    _pending_task_clr_safely IP_UPDATE_BIT;; _pending_task_clr_safely IP_GOT_BIT;; mret (0, msg)
  else
    u ← _pending_task_is_set IP_UPDATE_BIT;
    if (u : bool) then
      _pending_task_clr_safely IP_UPDATE_BIT;;
      mret (IP_UPDATE_BIT, {| m_ev := GLB_IP_UPDATE; m_data1 := 1; m_data2 := 2; m_data := m_data msg |})
    else
      g ← _pending_task_is_set IP_GOT_BIT;
      if (g : bool) then
        _pending_task_clr_safely IP_GOT_BIT;;
        mret (IP_GOT_BIT, {| m_ev := APP_IP_GOT; m_data1 := 1; m_data2 := 2; m_data := m_data msg |})
      else mret (0, msg).

Definition event_type (ev : WIFI_MGMR_EVENT) : Z :=
  if ev_num ev <? ev_num MAXAPP_MINIFW then EVENT_TYPE_APP
  else if ev_num ev <? ev_num MAXFW_MINI_GLOBAL then EVENT_TYPE_FW else EVENT_TYPE_GLB.

(** one message, up to the test of the pending tasks *)
Definition dispatch (m : wfsm) (msg : wifi_mgmr_msg) (e : env) : outcome (wfsm * env) :=
  if ev_eqb (m_ev msg) APP_RELOAD_TSEN then Done (m, snd (__run_reload_tsen m e))
  else
    '(_, m', e) ← stateM_handleEvent wtable wdepth (Some m)
                    (Some {| ev_type := event_type (m_ev msg); ev_data := msg |}) e;
    match m' with Some m => Done (m, e) | None => Fault end.

(** from the label [handle_msg] to the end of the loop body *)
Fixpoint handle_msg (fuel : nat) (m : wfsm) (msg : wifi_mgmr_msg) (e : env) : outcome (wfsm * env) :=
  match fuel with
  | O => NoFuel
  | S fuel =>
    '(m, e) ← dispatch m msg e;
    let '(r, msg, e) := handle_pending_task msg e in
    if negb (r =? 0) then handle_msg fuel m msg e
    else Done (m, match m_data msg with Some _ => snd (emit K_free e) | None => e end)
  end.

(** one turn of the loop of [wifi_mgmr_start]: receive a message and handle it.
    At most two pending tasks can follow the message. *)
Definition wifi_mgmr_start_turn (m : wfsm) (e : env) : outcome (wfsm * env) :=
  match mq e with
  | [] => Done (m, e)
  | msg :: q => handle_msg 3 m msg (set_mq q e)
  end.

(** ** What the manager reports *)

Definition WIFI_STATE_UNKNOWN : Z := 0.
Definition WIFI_STATE_IDLE : Z := 1.
Definition WIFI_STATE_CONNECTING : Z := 2.
Definition WIFI_STATE_CONNECTED_IP_GETTING : Z := 3.
Definition WIFI_STATE_CONNECTED_IP_GOT : Z := 4.
Definition WIFI_STATE_DISCONNECT : Z := 5.
Definition WIFI_STATE_WITH_AP_IDLE : Z := 17.
Definition WIFI_STATE_WITH_AP_CONNECTING : Z := 18.
Definition WIFI_STATE_WITH_AP_CONNECTED_IP_GETTING : Z := 19.
Definition WIFI_STATE_WITH_AP_CONNECTED_IP_GOT : Z := 20.
Definition WIFI_STATE_WITH_AP_DISCONNECT : Z := 21.
Definition WIFI_STATE_IFDOWN : Z := 6.
Definition WIFI_STATE_SNIFFER : Z := 7.
Definition WIFI_STATE_PSK_ERROR : Z := 8.
Definition WIFI_STATE_NO_AP_FOUND : Z := 9.
Definition WLAN_FW_SUCCESSFUL : Z := 0.
Definition WLAN_FW_4WAY_HANDSHAKE_ERROR_PSK_TIMEOUT_FAILURE : Z := 8.
Definition WLAN_FW_SCAN_NO_BSSID_AND_CHANNEL : Z := 12.

(** the value written to [*state], then the one written to [*state_detailed], if any *)
Definition wifi_mgmr_detailed_state_get_internal (m : wfsm) (e : env) : Z * option Z :=
  let s_code := status_code (stat_info e) in
  let ap := negb (inf_ap_enabled e =? 0) in
  let detail :=
    if s_code =? WLAN_FW_4WAY_HANDSHAKE_ERROR_PSK_TIMEOUT_FAILURE then Some WIFI_STATE_PSK_ERROR
    else if s_code =? WLAN_FW_SCAN_NO_BSSID_AND_CHANNEL then Some WIFI_STATE_NO_AP_FOUND else None in
  if in_state stateIdle m then
    if ap then (WIFI_STATE_WITH_AP_IDLE, None) else (WIFI_STATE_IDLE, detail)
  else if in_state stateConnecting m then
    if ap then (WIFI_STATE_WITH_AP_CONNECTING, None) else (WIFI_STATE_CONNECTING, detail)
  else if in_state stateConnectedIPNo m then
    if ap then (WIFI_STATE_WITH_AP_CONNECTED_IP_GETTING, None) else (WIFI_STATE_CONNECTED_IP_GETTING, None)
  else if in_state stateConnectedIPYes m then
    if ap then (WIFI_STATE_WITH_AP_CONNECTED_IP_GOT, None) else (WIFI_STATE_CONNECTED_IP_GOT, None)
  else if in_state stateDisconnect m then
    if ap then (WIFI_STATE_WITH_AP_DISCONNECT, None) else (WIFI_STATE_DISCONNECT, detail)
  else if in_state stateIfaceDown m then (WIFI_STATE_IFDOWN, None)
  else if in_state stateSniffer m then (WIFI_STATE_SNIFFER, None)
  else (WIFI_STATE_UNKNOWN, None).

(** both pointers are the same: the second write wins *)
Definition wifi_mgmr_state_get_internal (m : wfsm) (e : env) : Z :=
  let '(s, d) := wifi_mgmr_detailed_state_get_internal m e in default s d.

Definition wifi_mgmr_status_code_clean_internal (e : env) : env :=
  let i := stat_info e in
  set_stat_info {| status_code := WLAN_FW_SUCCESSFUL; reason_code := reason_code i; chan_freq := chan_freq i;
                   stat_ssid := stat_ssid i; stat_passphr := stat_passphr i; stat_bssid := stat_bssid i; type_ind := type_ind i; chan_band := chan_band i |} e.

Definition PHY_BAND_2G4 : Z := 0.

Definition wifi_mgmr_set_connect_stat_info (ind : wifi_event_sm_connect_ind) (ty : Z) (e : env) : env :=
  let e := set_stat_info
    {| status_code := ind_status_code ind; reason_code := ind_reason_code ind;
       chan_freq := ind_center_freq ind; stat_ssid := stat_ssid (stat_info e);
       stat_passphr := stat_passphr (stat_info e); stat_bssid := take 6 (ind_bssid ind);
       type_ind := ty; chan_band := ind_band ind |} e in
  if ind_band ind =? PHY_BAND_2G4 then
    let f := ind_center_freq ind in
    if f =? 2484 then set_channel 14 e
    else if (2412 <=? f) && (f <=? 2472) then set_channel ((f - 2412) / 5 + 1) e
    else set_channel 0 e
  else e.

(** the zero-initialised globals *)
Definition env_zero : env :=
  {| inf_ap_enabled := 0;
     pstore := {| profiles := [profile_zero; profile_zero]; profile_active_index := 0;
                  disable_autoreconnect := 0 |};
     ap_info_ttl_curr := 0; pending_task := 0; auto_repeat := 0; ipno_timer := 0; disc_timer_started := 0;
     disc_profile_msg := profile_msg_zero; sta_rssi := 0;
     sta_ipv4 := {| ip4_ip := 0; ip4_mask := 0; ip4_gw := 0; ip4_dns1 := 0; ip4_dns2 := 0 |};
     stat_info := {| status_code := 0; reason_code := 0; chan_freq := 0; stat_ssid := zeros 32; stat_passphr := zeros 65; stat_bssid := zeros 6;
                     type_ind := 0; chan_band := 0 |};
     channel := 0; ap_bcn_int := 0; call_tcal_once := 0; ready := 0; mq := []; trace := []; ticks := O;
     fault := false |}.

(** [wifi_mgmr_internel_init], the queue created *)
Definition wifi_mgmr_internel_init (e : env) : env :=
  set_ap_info_ttl_curr (-1) (set_ap_bcn_int 100 (set_ready 1 e)).

(** the state machine [wifi_mgmr_start] starts from *)
Definition wifi_mgmr_start_fsm : wfsm :=
  {| currentState := Some stateIfaceDown; previousState := None; errorState := Some stateError |}.

(** ** At most one row of the tables answers a message *)

Lemma ev_eqb_true a b : ev_eqb a b = true <-> a = b.
Proof. split; [|intros ->; unfold ev_eqb; apply Z.eqb_refl]. destruct a, b; by vm_compute. Qed.
Lemma ev_eqb_false a b : ev_eqb a b = false <-> a <> b.
Proof. rewrite <- ev_eqb_true. by destruct (ev_eqb a b). Qed.

(** the only trace a row leaves for a message that is not its own: a report that a
    power-save request failed *)
Definition noise (e e' : env) : Prop :=
  exists k, e' = set_trace (replicate k (K_post_event CODE_WIFI_ON_SET_PS_DONE WIFI_PS_SET_DONE_EVENT_FAIL)
                            ++ trace e) e.

Lemma noise_refl e : noise e e.
Proof. exists O. by destruct e. Qed.
Lemma noise_trans e1 e2 e3 : noise e1 e2 -> noise e2 e3 -> noise e1 e3.
Proof. intros [k ->] [j ->]. exists (j + k)%nat. by rewrite replicate_add, <- app_assoc. Qed.
Lemma noise_ticks e e' : noise e e' -> ticks e' = ticks e.
Proof. by intros [k ->]. Qed.

Definition row_event (msg : wifi_mgmr_msg) : wevent := {| ev_type := event_type (m_ev msg); ev_data := msg |}.

Definition row_ok (t : wtransition) : Prop :=
  t_eventType t = event_type (t_condition t) /\ is_Some (t_nextState t) /\
  exists g, t_guard t = Some g /\ forall msg m e, m_ev msg <> t_condition t ->
    exists e', g (t_condition t) (row_event msg) m e = (false, e') /\ noise e e'.

Lemma row_ok_intro ty c (g : guard) a n :
  ty = event_type c ->
  (forall msg m e, ev_eqb c (m_ev msg) = false ->
     exists e', g c (row_event msg) m e = (false, e') /\ noise e e') ->
  row_ok (row ty c g a n).
Proof.
  intros -> H. split_and!; [done|by eexists|]. exists g. split; [done|]. intros msg m e Hne.
  apply H. apply ev_eqb_false. cbn in Hne. congruence.
Qed.

(** a guard that looks at nothing but the event when it is not its own *)
Ltac quiet_row :=
  apply row_ok_intro; [reflexivity|]; intros msg m e E; exists e; split; [|apply noise_refl];
  match goal with |- ?g _ _ _ _ = _ => unfold g end; cbn [row_event ev_data]; rewrite E; reflexivity.

Lemma stateGlobal_rows : Forall row_ok stateGlobal_transitions.
Proof.
  unfold stateGlobal_transitions. repeat (apply Forall_cons; split); [..|constructor]; try quiet_row.
  - apply row_ok_intro; [done|]. intros msg m e E. exists e. split; [|apply noise_refl].
    unfold stateGlobalGuard_AP, mbind, M_bind, gets. cbn [row_event ev_data]. rewrite E.
    by destruct (negb _).
  - apply row_ok_intro; [done|]. intros msg m e E. eexists. split.
    + unfold stateGlobalGuard_fw_powersaving. cbn [row_event ev_data]. rewrite E. reflexivity.
    + by exists 1%nat.
  - apply row_ok_intro; [done|]. intros msg m e E. exists e. split; [|apply noise_refl].
    unfold stateSnifferGuard_raw_send. cbn [row_event ev_data]. rewrite E. by destruct (_ || _).
Qed.

Lemma own_rows s : Forall row_ok (transitions (wtable s)).
Proof.
  destruct s; cbn [wtable transitions]; [apply stateGlobal_rows|..]; try constructor;
    repeat (apply Forall_cons; split); try constructor; quiet_row.
Qed.

(** the row of a table for an event *)
Fixpoint find_row (ts : list wtransition) (ev : WIFI_MGMR_EVENT) : option wtransition :=
  match ts with
  | [] => None
  | t :: ts => if ev_eqb (t_condition t) ev then Some t else find_row ts ev
  end.

Lemma getTransition_none ts m msg e :
  Forall row_ok ts -> Forall (fun t => m_ev msg <> t_condition t) ts ->
  exists e', getTransition_from ts m (row_event msg) e = (None, e') /\ noise e e'.
Proof.
  revert e. induction ts as [|t ts IH]; intros e Hr Hn; cbn [getTransition_from].
  { exists e. split; [done|apply noise_refl]. }
  rewrite Forall_cons in Hr, Hn. destruct Hr as [(_ & _ & g & Hg & Hm) Hr], Hn as [Hn Hns].
  destruct (t_eventType t =? _); [|by apply IH]. rewrite Hg.
  destruct (Hm msg m e Hn) as (e1 & -> & N1). destruct (IH e1 Hr Hns) as (e2 & -> & N2).
  exists e2. split; [done|by eapply noise_trans].
Qed.

(** scanning a table runs the guard of the one row for the event, if there is one *)
Lemma getTransition_find ts m msg e :
  Forall row_ok ts -> NoDup (map t_condition ts) ->
  exists e0, noise e e0 /\
  match find_row ts (m_ev msg) with
  | None => getTransition_from ts m (row_event msg) e = (None, e0)
  | Some t => t_condition t = m_ev msg /\ exists g b e1, t_guard t = Some g /\
      g (t_condition t) (row_event msg) m e0 = (b, e1) /\
      if b : bool then getTransition_from ts m (row_event msg) e = (Some t, e1)
      else exists e2, noise e1 e2 /\ getTransition_from ts m (row_event msg) e = (None, e2)
  end.
Proof.
  revert e. induction ts as [|t ts IH]; intros e Hr Hn; cbn [getTransition_from find_row].
  { exists e. split; [apply noise_refl|done]. }
  rewrite Forall_cons in Hr. destruct Hr as [(Hty & _ & g & Hg & Hm) Hr].
  cbn in Hn. apply NoDup_cons in Hn as [Hnin Hn]. destruct (ev_eqb (t_condition t) (m_ev msg)) eqn:E.
  - apply ev_eqb_true in E. exists e. split; [apply noise_refl|]. split; [done|].
    destruct (g (t_condition t) (row_event msg) m e) as [b e1] eqn:Eg.
    exists g, b, e1. split_and!; [done..|]. rewrite Hty, E. cbn [row_event ev_type].
    rewrite Z.eqb_refl, Hg, <- E. change {| ev_type := _; ev_data := msg |} with (row_event msg).
    rewrite Eg. destruct b; [done|].
    destruct (getTransition_none ts m msg e1) as (e2 & -> & N); [done| |by exists e2].
    apply Forall_forall. intros t' Ht' Heq. apply Hnin. rewrite E, Heq.
    apply (list_elem_of_fmap_2 t_condition). done.
  - apply ev_eqb_false in E. destruct (t_eventType t =? _); [|by apply IH].
    rewrite Hg. destruct (Hm msg m e) as (e1 & -> & N1); [congruence|].
    destruct (IH e1 Hr Hn) as (e0 & N0 & H). exists e0. split; [by eapply noise_trans|done].
Qed.

Definition live (s : wstate) : bool :=
  match s with stateGlobal | stateError => false | _ => true end.

Lemma find_row_app a b ev :
  find_row (a ++ b) ev = match find_row a ev with Some t => Some t | None => find_row b ev end.
Proof. induction a as [|t a IH]; cbn; [done|]. by destruct (ev_eqb _ _). Qed.

Lemma rows_disjoint cur ev :
  live cur = true -> is_Some (find_row (transitions (wtable cur)) ev) ->
  find_row stateGlobal_transitions ev = None.
Proof. intros Hl [t Ht]. destruct cur; try discriminate Hl; destruct ev; try discriminate Ht; reflexivity. Qed.

Lemma conditions_NoDup s : NoDup (map t_condition (transitions (wtable s))).
Proof.
  destruct s; cbn; repeat (apply NoDup_cons; split); try apply NoDup_nil_2;
    rewrite ?elem_of_cons, ?elem_of_nil; try (intros H; repeat destruct H as [H|H]; discriminate H || done).
Qed.

Lemma live_parent cur : live cur = true ->
  parentState (wtable cur) = Some stateGlobal /\ entryState (wtable cur) = None /\
  numTransitions (wtable cur) <> O /\
  take (numTransitions (wtable cur)) (transitions (wtable cur)) = transitions (wtable cur).
Proof. destruct cur; try discriminate; intros _; split_and!; done. Qed.

Lemma wtable_ok : machine_ok wtable wdepth.
Proof.
  split.
  - intros s. destruct (live s) eqn:E; [|destruct s; try discriminate E; by constructor].
    destruct (live_parent s E) as [Hp _]. eapply pw_step; [exact Hp|by constructor].
  - intros s t n _ _. apply ew_leaf. by destruct n.
Qed.

Lemma wleaf n n' : leaf wtable n n' -> n' = n.
Proof. intros H. inversion H as [|s s' ? E]; [done|]. by destruct n. Qed.

Lemma getTransition_global m ev e :
  getTransition wtable m stateGlobal ev e = getTransition_from stateGlobal_transitions m ev e.
Proof. done. Qed.

(** the row for a message: the current state's, else the global state's *)
Definition row_for (cur : wstate) (ev : WIFI_MGMR_EVENT) : option wtransition :=
  find_row (transitions (wtable cur) ++ stateGlobal_transitions) ev.

(** what looking for a transition finds *)
Lemma selects_row m cur msg e :
  live cur = true ->
  exists e0, noise e e0 /\
  match row_for cur (m_ev msg) with
  | None => selects wtable m (row_event msg) cur e None e0
  | Some t => t_condition t = m_ev msg /\ exists g b e1, t_guard t = Some g /\
      g (t_condition t) (row_event msg) m e0 = (b, e1) /\
      if b : bool then selects wtable m (row_event msg) cur e (Some t) e1
      else exists e2, noise e1 e2 /\ selects wtable m (row_event msg) cur e None e2
  end.
Proof.
  intros Hl. destruct (live_parent cur Hl) as (Hp & _ & _ & Ht).
  assert (HG : forall e, getTransition wtable m cur (row_event msg) e
               = getTransition_from (transitions (wtable cur)) m (row_event msg) e)
    by (intros; unfold getTransition; by rewrite Ht).
  unfold row_for. rewrite find_row_app.
  destruct (getTransition_find (transitions (wtable cur)) m msg e (own_rows cur) (conditions_NoDup cur))
    as (e0 & N0 & H0). rewrite <- HG in H0.
  pose proof (fun e r e' => getTransition_first (transitions_of wtable cur) m (row_event msg) e r e') as FC.
  pose proof (fun e r e' => getTransition_first (transitions_of wtable stateGlobal) m (row_event msg) e r e') as FG.
  destruct (find_row (transitions (wtable cur)) (m_ev msg)) as [t|] eqn:F.
  - exists e0. split; [done|]. destruct H0 as (Hc & g & b & e1 & Hg & Hr & H). split; [done|].
    exists g, b, e1. split_and!; [done..|]. destruct b; [by apply sel_here, FC|].
    destruct H as (e2 & N & H).
    destruct (getTransition_find stateGlobal_transitions m msg e2 stateGlobal_rows
      (conditions_NoDup stateGlobal)) as (e3 & N3 & H3).
    rewrite (rows_disjoint cur (m_ev msg) Hl) in H3 by (rewrite F; by eexists).
    exists e3. split; [by eapply noise_trans|]. eapply sel_parent; [by apply FC|exact Hp|].
    apply sel_root; [by apply FG|done].
  - destruct (getTransition_find stateGlobal_transitions m msg e0 stateGlobal_rows
      (conditions_NoDup stateGlobal)) as (e3 & N3 & H3).
    exists e3. split; [by eapply noise_trans|].
    destruct (find_row stateGlobal_transitions (m_ev msg)) as [t|].
    + destruct H3 as (Hc & g & b & e1 & Hg & Hr & H). split; [done|]. exists g, b, e1. split_and!; [done..|].
      destruct b; [|destruct H as (e2 & N & H); exists e2; split; [done|]];
        (eapply sel_parent; [by apply FC|exact Hp|]); [by apply sel_here, FG|apply sel_root; [by apply FG|done]].
    + eapply sel_parent; [by apply FC|exact Hp|]. apply sel_root; [by apply FG|done].
Qed.

(** dispatching a message, row by row *)
Lemma dispatch_row m cur msg e :
  currentState m = Some cur -> live cur = true -> m_ev msg <> APP_RELOAD_TSEN ->
  exists e0, noise e e0 /\
  match row_for cur (m_ev msg) with
  | None => dispatch m msg e = Done (m, e0)
  | Some t => t_condition t = m_ev msg /\ exists g n b e1, t_guard t = Some g /\ t_nextState t = Some n /\
      g (t_condition t) (row_event msg) m e0 = (b, e1) /\
      if b : bool then dispatch m msg e
        = Done ({| currentState := Some n; previousState := Some cur; errorState := errorState m |},
                transition_effect wtable cur n t (row_event msg) e1)
      else exists e2, noise e1 e2 /\ dispatch m msg e = Done (m, e2)
  end.
Proof.
  intros Hc Hl Hne. destruct (live_parent cur Hl) as (_ & _ & Hn & _).
  destruct wtable_ok as [Hpw Htw].
  destruct (handleEvent_spec wtable wdepth m cur (row_event msg) e Hc Hn (Hpw cur) Htw) as (r & e' & Hs & HE).
  assert (HD : forall r m' e', stateM_handleEvent wtable wdepth (Some m) (Some (row_event msg)) e
     = Done (r, Some m', e') -> dispatch m msg e = Done (m', e')).
  { intros r' m' e'' H. unfold dispatch. rewrite (proj2 (ev_eqb_false _ _) Hne). unfold row_event in H. by step_with H. }
  destruct (selects_row m cur msg e Hl) as (e0 & N0 & H). exists e0. split; [done|].
  destruct (row_for cur (m_ev msg)) as [t|] eqn:Er.
  - destruct H as (Hcond & g & b & e1 & Hg & Hr & H). split; [done|].
    assert (exists n, t_nextState t = Some n) as [n En].
    { assert (Forall row_ok (transitions (wtable cur) ++ stateGlobal_transitions)) as HF
        by (apply Forall_app; split; [apply own_rows|apply stateGlobal_rows]).
      revert Er HF. unfold row_for. generalize (transitions (wtable cur) ++ stateGlobal_transitions).
      intros l. induction l as [|t' l IH]; cbn; [done|]. rewrite Forall_cons.
      destruct (ev_eqb _ _); [intros [= ->] [(_ & ? & _) _]; done|intros ? [_ ?]; by apply IH]. }
    exists g, n, b, e1. split_and!; [done..|]. destruct b.
    + destruct (selects_det _ _ _ _ _ _ _ _ _ Hs H) as [-> ->]. rewrite En in HE.
      destruct HE as (n' & Hlf%wleaf & HE). subst n'.
      destruct (perform_spec wtable m cur n t (row_event msg) e1) as (rc & _ & HP).
      rewrite HP in HE. by eapply HD.
    + destruct H as (e2 & N2 & H). exists e2. split; [done|].
      destruct (selects_det _ _ _ _ _ _ _ _ _ Hs H) as [-> ->]. by eapply HD.
  - destruct (selects_det _ _ _ _ _ _ _ _ _ Hs H) as [-> ->]. by eapply HD.
Qed.
End Handlers.
