(* ===== verification/WifiReach.v ===== *)
(** * Reachable states of the WiFi manager

    An abstract connection state machine ([spec_next]) that the event loop refines,
    the step relation of the whole manager (the event loop's turns interleaved with
    posts from other tasks, the pending-task setters and the timers), and the
    invariant of its reachable states: which timers run in which state, and that
    the driver's interfaces are added, used and removed in a sound order. *)
From S2P Require Import Prelude StateMachine WifiProfile WifiMgmr.

(** ** Specification *)

(** where the manager goes on an event; [ok] is the driver's answer to the request
    the event makes, when it makes one *)
Definition spec_next (cur : wstate) (ev : WIFI_MGMR_EVENT) (ok : bool) : wstate :=
  match cur, ev with
  | stateIfaceDown, APP_PHY_UP => if ok then stateIdle else stateIfaceDown
  | stateIdle, APP_SNIFFER => stateSniffer
  | stateSniffer, APP_IDLE => stateIdle
  | stateIdle, APP_CONNECT => if ok then stateConnecting else stateIdle
  | stateConnecting, FW_IND_CONNECTED => stateConnectedIPNo
  | stateConnecting, FW_IND_DISCONNECT => stateDisconnect
  | stateConnectedIPNo, APP_IP_GOT => stateConnectedIPYes
  | stateConnectedIPNo, FW_IND_DISCONNECT => stateDisconnect
  | stateConnectedIPYes, GLB_IP_UPDATE => stateConnectedIPNo
  | stateConnectedIPYes, FW_IND_DISCONNECT => stateDisconnect
  | stateDisconnect, APP_RECONNECT => stateConnecting
  | stateDisconnect, APP_CONNECT => stateConnecting
  | stateDisconnect, APP_IDLE => stateIdle
  | stateDisconnect, GLB_DISABLE_AUTORECONNECT => stateIdle
  | _, _ => cur
  end.

(** the messages the rest of the system posts: each payload of the type its event needs *)
Definition msg_typed (m : wifi_mgmr_msg) : Prop :=
  match m_ev m with
  | APP_CONNECT => exists p, m_data m = Some (H_profile p) /\ msg_ok p
  | APP_AP_START => exists a, m_data m = Some (H_ap a)
  | FW_SCAN => exists s, m_data m = Some (H_scan s)
  | FW_CFG_REQ => exists c, m_data m = Some (H_cfg c)
  | _ => True
  end.

(** the station interface as the driver sees it, oldest call last: added only when it
    is absent, removed only when present, and a connection only on a present one;
    [None] when this order is violated *)
Fixpoint sta_if (t : list call) : option bool :=
  match t with
  | [] => Some false
  | c :: t =>
    match sta_if t with
    | None => None
    | Some up =>
      match c with
      | K_if_add_sta r => if up then None else Some (r =? 0)
      | K_if_remove_sta => if up then Some false else None
      | K_connect _ _ _ _ _ _ _ _ _ _ => if up then Some true else None
      | _ => Some up
      end
    end
  end.

(** the AP interface: added only when it is absent; it may be removed when absent *)
Fixpoint ap_if (t : list call) : option bool :=
  match t with
  | [] => Some false
  | c :: t =>
    match ap_if t with
    | None => None
    | Some up =>
      match c with
      | K_if_add_ap r => if up then None else Some (r =? 0)
      | K_if_remove_ap => Some false
      | _ => Some up
      end
    end
  end.

(** the calls that leave both interfaces alone *)
Definition neutral (c : call) : bool :=
  match c with
  | K_if_add_sta _ | K_if_remove_sta | K_if_add_ap _ | K_if_remove_ap
  | K_connect _ _ _ _ _ _ _ _ _ _ => false
  | _ => true
  end.

Definition has_sta (s : wstate) : bool :=
  match s with
  | stateConnecting | stateConnectedIPNo | stateConnectedIPYes | stateDisconnect => true
  | _ => false
  end.

(** *** Pending tasks *)

(** the states in which a new connection request has to wait until the link is down *)
Definition linked (cur : wstate) : bool :=
  match cur with stateConnecting | stateConnectedIPNo | stateConnectedIPYes => true | _ => false end.

(** the pending-task word after a message: a connection request that has to wait sets
    bit 3, no other message changes what is pending for the connection *)
Definition spec_pend (cur : wstate) (ev : WIFI_MGMR_EVENT) (pend : Z) : Z :=
  match ev with
  | APP_CONNECT => if linked cur then Z.lor pend 8 else pend
  | _ => pend
  end.

(** the events the event loop owes for a pending-task word: none while a connection
    request waits (bit 3), else an IP update (bit 1), then an IP acquisition (bit 2) *)
Definition owed (pend : Z) : list WIFI_MGMR_EVENT :=
  if Z.testbit pend 3 then []
  else (if Z.testbit pend 1 then [GLB_IP_UPDATE] else []) ++ (if Z.testbit pend 2 then [APP_IP_GOT] else []).

(** one turn of the event loop: the message, then the events owed, which ask nothing of
    the driver *)
Definition spec_turn (cur : wstate) (ev : WIFI_MGMR_EVENT) (ok : bool) (pend : Z) : wstate :=
  foldl (fun s ev => spec_next s ev true) (spec_next cur ev ok) (owed (spec_pend cur ev pend)).

(** bits 1, 2 and 3 *)
Definition PEND_BITS : Z := 14.

Lemma land_u32 x : Z.land (u32 x) PEND_BITS = Z.land x PEND_BITS.
Proof. unfold u32, wrap. rewrite <- Z.land_ones, <- Z.land_assoc by lia. reflexivity. Qed.
Lemma pend_set p b : Z.land b PEND_BITS = 0 -> Z.land (u32 (Z.lor p b)) PEND_BITS = Z.land p PEND_BITS.
Proof. intros H. by rewrite land_u32, Z.land_lor_distr_l, H, Z.lor_0_r. Qed.
Lemma pend_clr p b : Z.land (u32 (Z.lnot b)) PEND_BITS = PEND_BITS ->
  Z.land (Z.land p (u32 (Z.lnot b))) PEND_BITS = Z.land p PEND_BITS.
Proof. intros H. by rewrite <- Z.land_assoc, H. Qed.

Section Pending.
Context (pb : Z).

(** the invariant while the denoise loop, the IP timer and the retry timer may run
    ([ar], [ip], [dt]), the station interface is [up] and the pending bits are [pb] *)
Record J (ar ip dt up : bool) (e : env) : Prop := {
  J_fault : fault e = false;
  J_store : store_ok (pstore e);
  J_msg : msg_ok (disc_profile_msg e);
  J_pend : Z.land (pending_task e) PEND_BITS = pb;
  J_mq : Forall msg_typed (mq e);
  J_ar : auto_repeat e <> 0 -> ar = true;
  J_ip : ipno_timer e <> 0 -> ip = true;
  J_dt : disc_timer_started e <> 0 -> dt = true;
  J_sta : sta_if (trace e) = Some up;
  J_ap : ap_if (trace e) = Some (negb (inf_ap_enabled e =? 0))
}.

Definition Inv (cur : wstate) : env -> Prop :=
  J (bool_decide (cur = stateConnectedIPYes)) (bool_decide (cur = stateConnectedIPNo))
    (bool_decide (cur = stateDisconnect)) (has_sta cur).

(** ** Triples of the handlers' monad *)

Definition triple {A} (P : env -> Prop) (m : M A) (Q : A -> env -> Prop) : Prop :=
  forall e, P e -> Q (fst (m e)) (snd (m e)).
Definition keeps {A} (P : env -> Prop) (m : M A) : Prop := triple P m (fun _ => P).

Lemma triple_bind {A B} P (m : M A) (f : A -> M B) R Q :
  triple P m R -> (forall a, triple (R a) (f a) Q) -> triple P (m ≫= f) Q.
Proof.
  intros H1 H2 e He. specialize (H1 e He). unfold mbind, M_bind.
  destruct (m e) as [a e1]. cbn in H1. by apply H2.
Qed.
Lemma triple_ret {A} (a : A) (P : env -> Prop) (Q : A -> env -> Prop) :
  (forall e, P e -> Q a e) -> triple P (mret a) Q.
Proof. intros H e. apply H. Qed.
Lemma triple_conseq {A} (P P' : env -> Prop) (m : M A) (Q Q' : A -> env -> Prop) :
  triple P m Q -> (forall e, P' e -> P e) -> (forall a e, Q a e -> Q' a e) -> triple P' m Q'.
Proof. intros H HP HQ e He. by apply HQ, H, HP. Qed.
Lemma keeps_bind {A B} P (m : M A) (f : A -> M B) Q :
  keeps P m -> (forall a, triple P (f a) Q) -> triple P (m ≫= f) Q.
Proof. intros. by eapply triple_bind. Qed.
Lemma keeps_ret {A} P (a : A) : keeps P (mret a).
Proof. by apply triple_ret. Qed.
Lemma keeps_gets {A} P (f : env -> A) : keeps P (gets f).
Proof. by intros e He. Qed.
Lemma keeps_when P b (m : M unit) : keeps P m -> keeps P (when b m).
Proof. intros H. destruct b; [done|apply keeps_ret]. Qed.

Lemma J_emit ar ip dt up c e : neutral c = true -> J ar ip dt up e -> J ar ip dt up (set_trace (c :: trace e) e).
Proof.
  intros Hc []. constructor; cbn; try done; [rewrite J_sta0|rewrite J_ap0]; by destruct c.
Qed.
Lemma keeps_emit ar ip dt up c : neutral c = true -> keeps (J ar ip dt up) (emit c).
Proof. intros Hc e He. by apply J_emit. Qed.

Lemma J_frame ar ip dt up (f : env -> env) :
  (forall e, fault (f e) = fault e /\ pstore (f e) = pstore e /\ disc_profile_msg (f e) = disc_profile_msg e /\
     mq (f e) = mq e /\ auto_repeat (f e) = auto_repeat e /\ ipno_timer (f e) = ipno_timer e /\
     disc_timer_started (f e) = disc_timer_started e /\ trace (f e) = trace e /\
     inf_ap_enabled (f e) = inf_ap_enabled e /\ pending_task (f e) = pending_task e) ->
  forall e, J ar ip dt up e -> J ar ip dt up (f e).
Proof.
  intros Hf e []. destruct (Hf e) as (E1&E2&E3&E4&E5&E6&E7&E8&E9&E0).
  constructor; by rewrite ?E1, ?E2, ?E3, ?E4, ?E5, ?E6, ?E7, ?E8, ?E9, ?E0.
Qed.

Lemma keeps_modify ar ip dt up (f : env -> env) :
  (forall e, fault (f e) = fault e /\ pstore (f e) = pstore e /\ disc_profile_msg (f e) = disc_profile_msg e /\
     mq (f e) = mq e /\ auto_repeat (f e) = auto_repeat e /\ ipno_timer (f e) = ipno_timer e /\
     disc_timer_started (f e) = disc_timer_started e /\ trace (f e) = trace e /\
     inf_ap_enabled (f e) = inf_ap_enabled e /\ pending_task (f e) = pending_task e) ->
  keeps (J ar ip dt up) (modify f).
Proof. intros Hf e He. by apply J_frame. Qed.

Lemma J_noise ar ip dt up e e' : noise e e' -> J ar ip dt up e -> J ar ip dt up e'.
Proof.
  intros [k ->] H. induction k as [|k IH]; [by destruct e|].
  by apply (J_emit _ _ _ _ (K_post_event CODE_WIFI_ON_SET_PS_DONE WIFI_PS_SET_DONE_EVENT_FAIL)) in IH.
Qed.

Section Reach.
Context (answer : nat -> Z).

Lemma keeps_ask ar ip dt up : keeps (J ar ip dt up) (ask answer).
Proof. intros e He. by apply (J_frame _ _ _ _ (fun e => set_ticks (S (ticks e)) e)). Qed.

(** sending a message leaves a well-formed queue *)
Lemma keeps_common ar ip dt up ev d1 d2 dat :
  msg_typed {| m_ev := ev; m_data1 := d1; m_data2 := d2; m_data := dat |} ->
  keeps (J ar ip dt up) (wifi_mgmr_api_common answer ev d1 d2 dat).
Proof.
  intros Hm. unfold wifi_mgmr_api_common, wifi_mgmr_event_notify.
  apply keeps_bind.
  - apply keeps_bind; [apply keeps_gets|]. intros [|]; [|apply keeps_ret].
    apply keeps_bind; [apply keeps_ask|]. intros r. destruct (r =? 0); [|apply keeps_ret].
    apply keeps_bind; [|intros; apply keeps_ret]. intros e []. constructor; try done. cbn.
    apply Forall_app. by split; [|constructor; [|constructor]].
  - intros r. destruct (r =? 0); [apply keeps_ret|].
    apply keeps_bind; [|intros; apply keeps_ret]. destruct dat; [by apply keeps_emit|apply keeps_ret].
Qed.

Lemma keeps_store {A} ar ip dt up (d : A) f :
  (forall s, store_ok s -> exists a s', f s = Done (a, s') /\ store_ok s') ->
  keeps (J ar ip dt up) (on_store d f).
Proof.
  intros Hf e He. unfold on_store. destruct (Hf (pstore e) (J_store _ _ _ _ _ He)) as (a & s' & -> & Hs).
  destruct He. by constructor.
Qed.

Lemma triple_store_get ar ip dt up i m0 (d : Z * wifi_mgmr_profile_msg) :
  0 <= i -> msg_ok m0 ->
  triple (J ar ip dt up)
    (on_store d (fun s => r ← wifi_mgmr_profile_get_by_idx s m0 i; Done (r, s)))
    (fun r e => msg_ok (snd r) /\ J ar ip dt up e).
Proof.
  intros Hi Hm e He. unfold on_store.
  destruct (get_by_idx_ok (pstore e) m0 i (J_store _ _ _ _ _ He) Hm Hi) as (ret & m' & -> & Hok & _).
  cbn. split; [done|]. by destruct e.
Qed.

Lemma keeps_pending_set ar ip dt up b :
  Z.land b PEND_BITS = 0 -> keeps (J ar ip dt up) (_pending_task_set_safely b).
Proof. intros Hb e []. constructor; try done. cbn. by rewrite pend_set. Qed.
Lemma keeps_pending_clr ar ip dt up b :
  Z.land (u32 (Z.lnot b)) PEND_BITS = PEND_BITS -> keeps (J ar ip dt up) (_pending_task_clr_safely b).
Proof. intros Hb e []. constructor; try done. cbn. by rewrite pend_clr. Qed.
Lemma keeps_pending_scan ar ip dt up : keeps (J ar ip dt up) pending_scan_send.
Proof. unfold pending_scan_send, _pending_task_is_set. 
  apply keeps_bind; [apply keeps_gets|intros [|]]; [|apply keeps_ret].
  apply keeps_bind; [by apply keeps_emit|intros _]. by apply keeps_pending_clr. Qed.

(** the frame of a program is found by its structure *)
Ltac keep :=
  repeat first
    [ apply keeps_pending_scan | by apply keeps_pending_set | by apply keeps_pending_clr
    | apply keeps_ret | apply keeps_gets | apply keeps_ask | by apply keeps_emit
    | by apply keeps_common | apply keeps_when
    | apply keeps_bind; [|intros ?]
    | match goal with
      | |- keeps _ (modify _) => by apply keeps_modify
      | |- keeps _ (if ?b then _ else _) => destruct b
      | |- triple ?P ?m (fun _ => ?P) => change (keeps P m)
      end ].

(** ** The guards *)

(** a guard that never fires and leaves the invariant *)
Definition quiet ar ip dt up (m : M bool) : Prop :=
  triple (J ar ip dt up) m (fun b e => b = false /\ J ar ip dt up e).

Ltac quiet :=
  repeat first
    [ by apply triple_ret | apply keeps_bind; [solve [keep]|intros ?]
    | match goal with
      | |- quiet _ _ _ _ (if ?b then _ else _) => destruct b
      | |- triple _ (if ?b then _ else _) _ => destruct b
      end ].

Lemma guard_enable ar ip dt up c ev m : quiet ar ip dt up (stateGlobalGuard_enable_autoreconnect c ev m).
Proof.
  unfold stateGlobalGuard_enable_autoreconnect. destruct (negb _); [by apply triple_ret|].
  apply keeps_bind; [|intros; by apply triple_ret]. apply keeps_store.
  intros s (?&?&?). by eexists _, _.
Qed.

Lemma guard_AP ar ip dt up c msg m :
  msg_typed msg -> quiet ar ip dt up (stateGlobalGuard_AP answer c (row_event msg) m).
Proof.
  intros Hm. unfold stateGlobalGuard_AP. cbn [row_event ev_data]. intros e He.
  unfold mbind, M_bind, gets. destruct (inf_ap_enabled e =? 0) eqn:E; [cbn [negb]|by split].
  destruct (ev_eqb APP_AP_START (m_ev msg)) eqn:Eev; [|by split]. cbn [negb].
  apply ev_eqb_true in Eev. unfold msg_typed in Hm. rewrite <- Eev in Hm. destruct Hm as [a ->].
  unfold ask. destruct (answer (ticks e) =? 0) eqn:Er; cbn [negb].
  2: { cbn. split; [done|]. destruct He. rewrite E in J_ap0.
       constructor; cbn; try done; [by rewrite J_sta0|by rewrite J_ap0, Er, E]. }
  set (e1 := set_trace (K_if_add_ap (answer (ticks e)) :: trace e) (set_inf_ap_enabled 1
                (set_ticks (S (ticks e)) e))).
  assert (J1 : J ar ip dt up e1).
  { unfold e1. destruct He. rewrite E in J_ap0. constructor; cbn; try done; [by rewrite J_sta0|by rewrite J_ap0, Er]. }
  destruct (negb (ap_use_dhcp_server a =? 0)) eqn:E1, (0 <=? ap_max_sta_supported a) eqn:E2;
    cbn; (split; [done|]);
    destruct J1; constructor; try done; cbn; cbn in J_sta0, J_ap0; by rewrite ?J_sta0, ?J_ap0.
Qed.

Lemma guard_stop ar ip dt up c ev m : quiet ar ip dt up (stateGlobalGuard_stop c ev m).
Proof.
  unfold stateGlobalGuard_stop. destruct (negb _); [by apply triple_ret|].
  intros e []. unfold mbind, M_bind. cbn. split; [done|].
  constructor; cbn; try done; by rewrite ?J_sta0, ?J_ap0.
Qed.

Lemma guard_denoise ar ip dt up c ev m :
  (in_state stateConnectedIPYes m = true -> ar = true) ->
  quiet ar ip dt up (stateGlobalGuard_denoise c ev m).
Proof.
  intros Har. unfold stateGlobalGuard_denoise. destruct (negb _); [by apply triple_ret|].
  destruct (negb _).
  - destruct (in_state stateConnectedIPYes m); [|by apply triple_ret]. rewrite Har by done.
    apply keeps_bind; [keep|]. intros r. destruct (negb _); [quiet|].
    apply keeps_bind; [|intros _; quiet]. intros e []. by constructor.
  - apply keeps_bind; [|intros _; quiet]. intros e []. by constructor.
Qed.

Lemma guard_connect_down ar ip dt up c ev m :
  in_state stateConnecting m = false -> in_state stateConnectedIPNo m = false ->
  in_state stateConnectedIPYes m = false -> in_state stateDisconnect m = false ->
  in_state stateIdle m = false -> quiet ar ip dt up (stateGlobalGuard_connect answer c ev m).
Proof.
  intros H1 H2 H3 H4 H5. unfold stateGlobalGuard_connect. rewrite H1, H2, H3, H4, H5. cbn. quiet.
Qed.

Lemma guard_scan ar ip dt up c msg m :
  msg_typed msg -> quiet ar ip dt up (stateGlobalGuard_fw_scan c (row_event msg) m).
Proof.
  intros Hm. unfold stateGlobalGuard_fw_scan. cbn [row_event ev_data].
  destruct (ev_eqb FW_SCAN (m_ev msg)) eqn:Eev; [|by apply triple_ret]. cbn [negb].
  apply ev_eqb_true in Eev. unfold msg_typed in Hm. rewrite <- Eev in Hm. destruct Hm as (sp & ->).
  destruct (_ || _ || _); [apply keeps_bind; [by apply keeps_pending_set|intros _; by apply triple_ret]|].
  quiet.
Qed.

Lemma guard_cfg ar ip dt up c msg m :
  msg_typed msg -> quiet ar ip dt up (stateGlobal_cfg_req c (row_event msg) m).
Proof.
  intros Hm. unfold stateGlobal_cfg_req. cbn [row_event ev_data].
  destruct (ev_eqb FW_CFG_REQ (m_ev msg)) eqn:Eev; [|by apply triple_ret].
  apply ev_eqb_true in Eev. unfold msg_typed in Hm. rewrite <- Eev in Hm. destruct Hm as (sp & ->). quiet.
Qed.

Lemma guard_disable_busy ar ip dt up c ev m :
  in_state stateDisconnect m = false ->
  quiet ar ip dt up (stateGlobalGuard_disable_autoreconnect c ev m).
Proof.
  intros Hd. unfold stateGlobalGuard_disable_autoreconnect. rewrite Hd.
  destruct (negb _); [by apply triple_ret|].
  apply keeps_bind; [|intros; by apply triple_ret]. apply keeps_store. intros s (?&?&?). by eexists _, _.
Qed.

(** the rows of the global state that can fire or set the connection aside *)
Definition may_fire (cur : wstate) (ev : WIFI_MGMR_EVENT) : bool :=
  match ev with
  | GLB_DISABLE_AUTORECONNECT => bool_decide (cur = stateDisconnect)
  | APP_CONNECT => linked cur || bool_decide (cur = stateDisconnect) || bool_decide (cur = stateIdle)
  | _ => false
  end.

(** the guards of all other rows of the global state are quiet *)
Lemma global_quiet m cur t g msg :
  currentState m = Some cur -> msg_typed msg -> t ∈ stateGlobal_transitions answer ->
  t_condition t = m_ev msg -> t_guard t = Some g -> may_fire cur (m_ev msg) = false ->
  quiet (bool_decide (cur = stateConnectedIPYes)) (bool_decide (cur = stateConnectedIPNo))
    (bool_decide (cur = stateDisconnect)) (has_sta cur) (g (t_condition t) (row_event msg) m).
Proof.
  intros Hc Hm Ht Hcond Hg Hf. unfold stateGlobal_transitions in Ht.
  assert (Hin : forall s, in_state s m = bool_decide (cur = s)).
  { intros s. unfold in_state. rewrite Hc. apply bool_decide_ext. split; congruence. }
  repeat (apply elem_of_cons in Ht as [->|Ht]); [..|by apply elem_of_nil in Ht];
    cbn in Hcond, Hg; injection Hg as <-; cbn [row t_condition].
  - apply guard_disable_busy. rewrite Hin. by rewrite <- Hcond in Hf.
  - apply guard_enable.
  - by apply guard_AP.
  - apply guard_stop.
  - unfold stateGlobalGuard_ap_chan_switch. quiet.
  - unfold stateGlobalGuard_conf_max_sta. quiet.
  - apply guard_denoise. by rewrite Hin.
  - rewrite <- Hcond in Hf. cbn in Hf. apply orb_false_iff in Hf as [[H0 H1]%orb_false_iff H2].
    apply guard_connect_down; rewrite ?Hin; try done; apply bool_decide_eq_false_2; by intros ->.
  - unfold stateGlobalGuard_fw_disconnect. quiet.
  - unfold stateGlobalGuard_fw_powersaving. quiet.
  - by apply guard_scan.
  - unfold stateSnifferGuard_raw_send. quiet.
  - by apply guard_cfg.
Qed.

(** ** Leaving and entering states *)

Lemma J_weaken ar ip dt up e : J false false false up e -> J ar ip dt up e.
Proof. intros []. constructor; try done; intros H; [discriminate (J_ar0 H)|discriminate (J_ip0 H)|discriminate (J_dt0 H)]. Qed.

(** [stateM] runs the exit hook of the state it leaves: its timer or loop is stopped *)
Lemma exit_ok cur ev up e :
  live cur = true ->
  J (bool_decide (cur = stateConnectedIPYes)) (bool_decide (cur = stateConnectedIPNo))
    (bool_decide (cur = stateDisconnect)) up e ->
  J false false false up (run_opt (exitAction (wtable answer cur)) (data (wtable answer cur)) ev e).
Proof.
  intros Hl He. destruct cur; try discriminate Hl; cbn [wtable exitAction run_opt run_hook data];
    try (by apply keeps_pending_scan); cbn in He |- *;
    unfold stateConnectedIPNoExit, stateConnectedIPYes_exit, stateDisconnect_exit, mbind, M_bind, gets.
  - destruct (ipno_timer e =? 0) eqn:E; cbn; destruct He; constructor; cbn;
      rewrite ?J_sta0, ?J_ap0; try done; intros ?; by apply Z.eqb_eq in E.
  - destruct (auto_repeat e =? 0) eqn:E; cbn; destruct He; constructor; cbn;
      rewrite ?J_sta0, ?J_ap0; try done; intros ?; by apply Z.eqb_eq in E.
  - destruct (disc_timer_started e =? 0) eqn:E; cbn; destruct He; constructor; cbn;
      rewrite ?J_sta0, ?J_ap0; try done; intros ?; by apply Z.eqb_eq in E.
Qed.

Lemma ipno_enter_ok ar dt up d ev :
  triple (J ar true dt up) (stateConnectedIPNoEnter answer d ev) (fun _ => J ar true dt up).
Proof.
  unfold stateConnectedIPNoEnter, _pending_task_is_set.
  apply keeps_bind; [keep|intros [|]]; [keep|].
  apply keeps_bind; [keep|intros act].
  eapply triple_bind; [apply triple_store_get; [apply Z.mod_pos_bound; lia|by split_and!]|].
  intros r. apply (triple_conseq (J ar true dt up) _ _ (fun _ => J ar true dt up)); [|naive_solver|by intros].
  apply keeps_bind.
  - match goal with |- keeps _ (if ?b then _ else _) => destruct b end;
      [apply keeps_bind; [keep|intros _]|]; intros e []; by constructor.
  - intros _. unfold __sta_setup_ip. keep.
Qed.

Lemma disconnect_enter_ok ar ip up d ev :
  triple (J ar ip true up) (stateDisconnect_enter answer d ev) (fun _ => J ar ip true up).
Proof.
  unfold stateDisconnect_enter, _pending_task_is_set.
  apply keeps_bind; [keep|intros auto]. apply keeps_bind; [keep|intros pend].
  apply keeps_bind; [|intros _; keep].
  destruct (_ || pend); [|keep]. apply keeps_bind; [keep|intros _]. intros e []. by constructor.
Qed.

Lemma entry_ok n ev up e :
  live n = true -> J false false false up e ->
  J (bool_decide (n = stateConnectedIPYes)) (bool_decide (n = stateConnectedIPNo))
    (bool_decide (n = stateDisconnect)) up (run_opt (entryAction (wtable answer n)) (data (wtable answer n)) ev e).
Proof.
  intros Hl He. destruct n; try discriminate Hl; cbn [wtable entryAction run_opt run_hook data];
    try exact He.
  - unfold stateConnectingEnter, platform_post_event. by apply keeps_emit.
  - apply (ipno_enter_ok false false up). by apply J_weaken.
  - apply (J_weaken true false false) in He. revert e He.
    change (keeps (J true false false up) (stateConnectedIPYes_enter answer (D_name stateConnectedIPYes) ev)).
    unfold stateConnectedIPYes_enter, _pending_task_is_set. keep.
  - apply (disconnect_enter_ok false false up). by apply J_weaken.
Qed.

(** a row that fires from [cur] into [n] *)
Lemma fire cur n ty c g (a : action) ev up1 e :
  live cur = true -> live n = true -> n <> cur ->
  J (bool_decide (cur = stateConnectedIPYes)) (bool_decide (cur = stateConnectedIPNo))
    (bool_decide (cur = stateDisconnect)) up1 e ->
  triple (J false false false up1) (a (data (wtable answer cur)) ev (data (wtable answer n)))
    (fun _ => J false false false (has_sta n)) ->
  Inv n (transition_effect (wtable answer) cur n (row ty c g a n) ev e).
Proof.
  intros Hl Hn Hne He Ha. unfold transition_effect, Inv. rewrite decide_False by done.
  apply entry_ok; [done|]. apply Ha. by apply exit_ok.
Qed.

(** ** One row *)

(** what a row does to the invariant and to the state *)
Definition row_result (m : wfsm) (cur : wstate) (msg : wifi_mgmr_msg) (t : @transition wstate wifi_mgmr_msg
  WIFI_MGMR_EVENT state_data env) (e : env) : Prop :=
  forall g n b e1, t_guard t = Some g -> t_nextState t = Some n ->
  g (t_condition t) (row_event msg) m e = (b, e1) ->
  if b : bool then n = spec_next cur (m_ev msg) (answer (ticks e) =? 0) /\ live n = true /\
    Inv n (transition_effect (wtable answer) cur n t (row_event msg) e1)
  else spec_next cur (m_ev msg) (answer (ticks e) =? 0) = cur /\ Inv cur e1.

Lemma quiet_result m cur msg ty c (g : guard) a n e :
  spec_next cur (m_ev msg) (answer (ticks e) =? 0) = cur ->
  Inv cur e -> quiet (bool_decide (cur = stateConnectedIPYes)) (bool_decide (cur = stateConnectedIPNo))
    (bool_decide (cur = stateDisconnect)) (has_sta cur) (g c (row_event msg) m) ->
  row_result m cur msg (row ty c g a n) e.
Proof.
  intros Hs He Hq g' n' b e1 [= <-] _ Hr. specialize (Hq e He). cbn in Hr. rewrite Hr in Hq.
  destruct Hq as [[= ->] Hq]. done.
Qed.

(** a row whose guard fires without touching the interfaces *)
Lemma fire_result m cur msg ty c (g : guard) (a : action) n e e1 :
  live cur = true -> live n = true -> n <> cur ->
  n = spec_next cur (m_ev msg) (answer (ticks e) =? 0) ->
  g c (row_event msg) m e = (true, e1) -> Inv cur e1 ->
  triple (J false false false (has_sta cur)) (a (data (wtable answer cur)) (row_event msg) (data (wtable answer n)))
    (fun _ => J false false false (has_sta n)) ->
  row_result m cur msg (row ty c g a n) e.
Proof.
  intros Hl Hn Hne Hs Hg He Ha g' n' b e' [= <-] [= <-] Hr. cbn in Hr. rewrite Hg in Hr.
  injection Hr as <- <-. split_and!; [done..|]. by eapply fire.
Qed.

Lemma action_disc_ok up ev d d' :
  triple (J false false false up) (stateConnectedIPNoAction_disconn d ev d') (fun _ => J false false false up) /\
  triple (J false false false up) (stateConnectedIPYes_action d ev d') (fun _ => J false false false up).
Proof. split; [unfold stateConnectedIPNoAction_disconn|unfold stateConnectedIPYes_action]; keep. Qed.

(** a connection request needs the interface *)
Lemma keeps_connect ar ip dt p b band freq :
  keeps (J ar ip dt true) (bl_main_connect p b band freq).
Proof. intros e []. constructor; try done; cbn; by rewrite ?J_sta0, ?J_ap0. Qed.

Lemma action_reconnect_ok ev d' :
  triple (J false false false true) (stateDisconnect_action_reconnect stateDisconnect_data ev d')
    (fun _ => J false false false true).
Proof.
  unfold stateDisconnect_action_reconnect. apply keeps_bind; [keep|intros p].
  apply keeps_bind; [keep|intros pin]. apply keeps_bind; [destruct pin; apply keeps_connect|intros _]. keep.
Qed.

Lemma action_idle_ok d ev d' :
  triple (J false false false true) (stateDisconnect_action_idle d ev d') (fun _ => J false false false false).
Proof. intros e []. constructor; try done; cbn; by rewrite ?J_sta0, ?J_ap0. Qed.

Lemma action_connect_ok d msg d' :
  (exists p, m_data msg = Some (H_profile p) /\ msg_ok p) ->
  triple (J false false false true) (stateGlobalAction_connect d (row_event msg) d')
    (fun _ => J false false false true).
Proof.
  intros (p & Hd & Hp). unfold stateGlobalAction_connect. cbn [row_event ev_data]. rewrite Hd.
  apply keeps_bind; [|intros _].
  { apply keeps_store. intros s Hs. destruct (add_by_idx_ok s (clear_tails p) 0 1 Hs) as (s' & -> & ? & _);
      [done|lia|]. by eexists _, _. }
  apply keeps_bind; [|intros _].
  { apply keeps_store. intros s Hs. destruct (set_active_by_idx_ok s 1 0 Hs) as (r & s' & -> & ? & _);
      [lia|]. by eexists _, _. }
  apply keeps_bind; [keep|intros _]. apply keeps_connect.
Qed.

(** decide the tests of the current state in [H], the state being known by [Hc] *)
Ltac states Hc H :=
  repeat match type of H with context [in_state ?s ?m] =>
    let E := fresh in
    first [ assert (E : in_state s m = true) by (unfold in_state; rewrite Hc; reflexivity)
          | assert (E : in_state s m = false) by (unfold in_state; rewrite Hc; reflexivity) ];
    rewrite E in H; clear E
  end.

(** the two global rows that can fire *)
Lemma disable_result m msg e :
  currentState m = Some stateDisconnect -> m_ev msg = GLB_DISABLE_AUTORECONNECT -> Inv stateDisconnect e ->
  row_result m stateDisconnect msg
    (row EVENT_TYPE_GLB GLB_DISABLE_AUTORECONNECT stateGlobalGuard_disable_autoreconnect stateGlobalAction stateIdle) e.
Proof.
  intros Hc Hev He g n b e1 [= <-] [= <-] Hr. cbn [row t_condition] in Hr.
  unfold stateGlobalGuard_disable_autoreconnect in Hr. cbn [row_event ev_data] in Hr.
  states Hc Hr. rewrite Hev in Hr. cbn in Hr. injection Hr as <- <-. rewrite Hev.
  split_and!; [done..|]. apply (fire _ _ _ _ _ _ _ false); [done..| |keep].
  destruct He. constructor; cbn; try done; by rewrite ?J_sta0, ?J_ap0.
Qed.

Lemma connect_result m cur msg e :
  currentState m = Some cur -> m_ev msg = APP_CONNECT -> msg_typed msg -> Inv cur e ->
  cur = stateIdle \/ cur = stateDisconnect ->
  row_result m cur msg
    (row EVENT_TYPE_APP APP_CONNECT (stateGlobalGuard_connect answer) stateGlobalAction_connect stateConnecting) e.
Proof.
  intros Hc Hev Hm He Hcur g n b e1 [= <-] [= <-] Hr. cbn [row t_condition] in Hr.
  unfold stateGlobalGuard_connect in Hr. cbn [row_event ev_data] in Hr.
  unfold msg_typed in Hm. rewrite Hev in Hm, Hr. rewrite Hev.
  destruct Hcur as [-> | ->]; states Hc Hr; cbn in Hr.
  - unfold mbind, M_bind, ask in Hr. cbn in Hr. cbn [spec_next].
    destruct (answer (ticks e) =? 0) eqn:Er; cbn in Hr; injection Hr as <- <-.
    + split_and!; [done..|]. apply (fire _ _ _ _ _ _ _ true); [done..| |by apply action_connect_ok].
      destruct He. constructor; cbn; try done; rewrite ?J_sta0, ?J_ap0; cbn; by rewrite ?Er.
    + split; [done|]. destruct He. constructor; cbn; try done; rewrite ?J_sta0, ?J_ap0; cbn; by rewrite ?Er.
  - injection Hr as <- <-. split_and!; [done..|].
    apply (fire _ _ _ _ _ _ _ true); [done..|exact He|by apply action_connect_ok].
Qed.

(** a row of the current state *)
Lemma own_result m cur msg t e :
  live cur = true -> t ∈ transitions (wtable answer cur) -> t_condition t = m_ev msg -> Inv cur e ->
  row_result m cur msg t e.
Proof.
  intros Hl Ht Hc He.
  destruct cur; try discriminate Hl; cbn [wtable transitions] in Ht;
    repeat (apply elem_of_cons in Ht as [->|Ht]); try (by apply elem_of_nil in Ht);
    cbn [row t_condition] in Hc.
  all: try (apply quiet_result; [by rewrite <- Hc|done|];
    unfold stateSnifferGuard_ChannelSet, stateConnectingGuard_disconnect, stateConnectedIPNoGuard_disconnect,
      stateConnectedIPYesGuard_disconnect, stateConnectedIPYesGuard_rcconfig; solve [quiet]).
  all: try (eapply fire_result; [done|done|discriminate|by rewrite <- Hc| | |];
    [unfold stateSnifferGuard_idle, stateIdleGuard_sniffer, stateConnectedIPYesGuard_ip_update, stateGuard;
     cbn [row_event ev_data]; rewrite <- Hc; reflexivity
    |first [exact He|by apply J_emit]
    |first [apply action_disc_ok|apply action_reconnect_ok|apply action_idle_ok|keep]]).
  intros g n b e1 [= <-] [= <-] Hr. cbn [row t_condition] in Hr.
  unfold stateIfaceDownGuard_phyup in Hr. cbn [row_event ev_data] in Hr. rewrite <- Hc in Hr |- *.
  unfold mbind, M_bind, ask in Hr. cbn in Hr. cbn [spec_next].
  assert (HJ : Inv stateIfaceDown (set_trace (K_phy_up (answer (ticks e)) :: trace e)
                                     (set_ticks (S (ticks e)) e))).
  { apply (J_emit _ _ _ _ (K_phy_up (answer (ticks e))) (set_ticks (S (ticks e)) e)); [done|].
    by apply (J_frame _ _ _ _ (set_ticks (S (ticks e)))). }
  destruct (answer (ticks e) =? 0) eqn:Er; cbn in Hr; injection Hr as <- <-; [|done].
  split_and!; [done..|]. apply (fire _ _ _ _ _ _ _ false); [done..|exact HJ|keep].
Qed.

Lemma find_row_in ts ev t : find_row ts ev = Some t -> t ∈ ts.
Proof.
  induction ts as [|t' ts IH]; cbn; [done|]. destruct (ev_eqb _ _); [intros [= ->]; left|right; by apply IH].
Qed.

(** every row, from every state, but for a connection request that has to wait *)
Lemma any_result m cur msg t e :
  currentState m = Some cur -> live cur = true -> msg_typed msg -> Inv cur e ->
  (m_ev msg = APP_CONNECT -> linked cur = false) ->
  row_for answer cur (m_ev msg) = Some t -> t_condition t = m_ev msg -> row_result m cur msg t e.
Proof.
  intros Hc Hl Hm He Hw Hr Hcond. unfold row_for in Hr. rewrite find_row_app in Hr.
  destruct (find_row (transitions (wtable answer cur)) (m_ev msg)) as [t'|] eqn:F.
  { injection Hr as ->. apply own_result; [done| |done..]. by eapply find_row_in. }
  destruct (may_fire cur (m_ev msg)) eqn:Hf.
  - assert ((m_ev msg = GLB_DISABLE_AUTORECONNECT /\ cur = stateDisconnect) \/
            (m_ev msg = APP_CONNECT /\ (cur = stateIdle \/ cur = stateDisconnect))) as [[E ->]|[E Hcur]].
    { unfold may_fire in Hf. destruct (m_ev msg); try discriminate Hf;
        [right|left]; [rewrite Hw in Hf by done;
                       apply orb_true_iff in Hf as [?%bool_decide_eq_true|?%bool_decide_eq_true]|
                       apply bool_decide_eq_true in Hf]; naive_solver. }
    + rewrite E in Hr. cbn in Hr. injection Hr as <-. by apply disable_result.
    + rewrite E in Hr. cbn in Hr. injection Hr as <-. by apply connect_result.
  - intros g n b e1 Hg Hn Hrun.
    destruct (global_quiet m cur t g msg Hc Hm (find_row_in _ _ _ Hr) Hcond Hg Hf e He) as [Hb HI].
    rewrite Hrun in Hb, HI. cbn in Hb. subst b. split; [|done].
    destruct cur; try discriminate Hl; destruct (m_ev msg); try discriminate Hf; try discriminate F; done.
Qed.
End Reach.
End Pending.

(** ** The event loop *)

Section System.
Context (answer : nat -> Z).

Lemma tsen_keeps pb ar ip dt up m : keeps (J pb ar ip dt up) (__run_reload_tsen answer m).
Proof.
  unfold __run_reload_tsen. destruct (_ || _ || _ || _ || _); [|apply keeps_ret].
  apply keeps_bind; [apply keeps_ask|intros en]. destruct (negb _); [by apply keeps_emit|].
  apply keeps_bind; [apply keeps_gets|intros o]. destruct (o =? 0); [|apply keeps_ret].
  apply keeps_bind; [by apply keeps_emit|intros _]. by apply keeps_modify.
Qed.

(** a connection request that has to wait is kept in the second profile and set aside *)
Lemma waits_ok pb ar ip dt up m cur msg :
  currentState m = Some cur -> linked cur = true -> m_ev msg = APP_CONNECT -> msg_typed msg ->
  triple (J pb ar ip dt up) (stateGlobalGuard_connect answer APP_CONNECT (row_event msg) m)
    (fun b e => b = false /\ J (Z.lor pb 8) ar ip dt up e).
Proof.
  intros Hc Hl Hev Hm. unfold stateGlobalGuard_connect. cbn [row_event ev_data].
  unfold msg_typed in Hm. rewrite Hev in Hm |- *. destruct Hm as (p & -> & Hp). cbn [negb ev_eqb].
  assert (in_state stateConnecting m || in_state stateConnectedIPNo m || in_state stateConnectedIPYes m = true) as ->.
  { unfold in_state. rewrite Hc. by destruct cur. }
  apply keeps_bind; [destruct (_ || _); [apply keeps_bind; [by apply keeps_common|intros; apply keeps_ret]|by apply keeps_emit]|intros _].
  apply keeps_bind; [|intros _].
  - apply keeps_store. intros s Hs. destruct (add_by_idx_ok s (clear_tails p) 1 0 Hs) as (s' & -> & ? & _);
      [done|lia|]. by eexists _, _.
  - intros e []. split; [done|]. constructor; try done.
    change (Z.land (u32 (Z.lor (pending_task e) CONNECT_BIT)) PEND_BITS = Z.lor pb 8).
    by rewrite land_u32, Z.land_lor_distr_l, J_pend0.
Qed.

Lemma waits_dispatch pb m cur msg e :
  currentState m = Some cur -> live cur = true -> linked cur = true -> m_ev msg = APP_CONNECT -> msg_typed msg ->
  Inv pb cur e -> exists e', dispatch answer m msg e = Done (m, e') /\ Inv (Z.lor pb 8) cur e'.
Proof.
  intros Hc Hl Hk Hev Hm He. destruct (dispatch_row answer m cur msg e Hc Hl) as (e0 & N0 & H); [by rewrite Hev|].
  assert (He0 : Inv pb cur e0) by (by eapply J_noise).
  assert (row_for answer cur (m_ev msg) = Some (row EVENT_TYPE_APP APP_CONNECT (stateGlobalGuard_connect answer)
    stateGlobalAction_connect stateConnecting)) as Er by (rewrite Hev; by destruct cur).
  rewrite Er in H. destruct H as (_ & g & n & b & e1 & [= <-] & _ & Hrun & H). cbn [row t_condition] in Hrun.
  pose proof (waits_ok pb _ _ _ _ m cur msg Hc Hk Hev Hm e0 He0) as Hw. rewrite Hrun in Hw. cbn in Hw.
  destruct Hw as [-> Hw]. destruct H as (e2 & N2 & Hd). exists e2. split; [done|]. by eapply J_noise.
Qed.

(** one message moves the machine as specified and keeps the invariant *)
Lemma dispatch_ok pb m cur msg e :
  currentState m = Some cur -> live cur = true -> msg_typed msg -> Inv pb cur e ->
  exists m' e', dispatch answer m msg e = Done (m', e') /\
    currentState m' = Some (spec_next cur (m_ev msg) (answer (ticks e) =? 0)) /\
    live (spec_next cur (m_ev msg) (answer (ticks e) =? 0)) = true /\ errorState m' = errorState m /\
    Inv (spec_pend cur (m_ev msg) pb) (spec_next cur (m_ev msg) (answer (ticks e) =? 0)) e'.
Proof.
  intros Hc Hl Hm He.
  assert ((m_ev msg = APP_CONNECT /\ linked cur = true) \/ ~ (m_ev msg = APP_CONNECT /\ linked cur = true)) as [[Ew Hk]|Hw]
    by (destruct (m_ev msg), (linked cur); naive_solver).
  { destruct (waits_dispatch pb m cur msg e Hc Hl Hk Ew Hm He) as (e' & Hd & HI). exists m, e'.
    rewrite Ew. assert (spec_next cur APP_CONNECT (answer (ticks e) =? 0) = cur) as -> by (by destruct cur).
    cbn [spec_pend]. by rewrite Hk. }
  assert (spec_pend cur (m_ev msg) pb = pb) as ->.
  { unfold spec_pend. destruct (m_ev msg); try done. destruct (linked cur); [|done]. by destruct Hw. }
  destruct (ev_eqb (m_ev msg) APP_RELOAD_TSEN) eqn:Et.
  { exists m, (snd (__run_reload_tsen answer m e)). unfold dispatch. rewrite Et. apply ev_eqb_true in Et.
    assert (spec_next cur (m_ev msg) (answer (ticks e) =? 0) = cur) as -> by (rewrite Et; by destruct cur).
    split_and!; [done..|]. by apply tsen_keeps. }
  apply ev_eqb_false in Et. destruct (dispatch_row answer m cur msg e Hc Hl Et) as (e0 & N0 & H).
  assert (He0 : Inv pb cur e0) by (by eapply J_noise). rewrite <- (noise_ticks _ _ N0).
  destruct (row_for answer cur (m_ev msg)) as [t|] eqn:Er.
  - destruct H as (Hcond & g & n & b & e1 & Hg & Hn & Hrun & H).
    assert (Hw' : m_ev msg = APP_CONNECT -> linked cur = false).
    { intros E. apply not_true_is_false. intros Hk. by apply Hw. }
    pose proof (any_result pb answer m cur msg t e0 Hc Hl Hm He0 Hw' Er Hcond g n b e1 Hg Hn Hrun) as Hres.
    destruct b.
    + destruct Hres as (<- & Hln & HI). by eexists _, _.
    + destruct Hres as (-> & HI). destruct H as (e2 & N2 & ->). eexists _, _. split_and!; [done..|].
      by eapply J_noise.
  - assert (spec_next cur (m_ev msg) (answer (ticks e0) =? 0) = cur) as ->.
    { destruct cur; try discriminate Hl; destruct (m_ev msg); try discriminate Er; reflexivity. }
    exists m, e0. by split_and!.
Qed.

Lemma J_clear pb ar ip dt up b e :
  J pb ar ip dt up e ->
  J (Z.land pb (u32 (Z.lnot b))) ar ip dt up (set_pending_task (Z.land (pending_task e) (u32 (Z.lnot b))) e).
Proof.
  intros []. constructor; try done. cbn. rewrite <- J_pend0, <- !Z.land_assoc. f_equal. apply Z.land_comm.
Qed.

(** the pending bits can only be these *)
Definition PENDS : list Z := [0; 2; 4; 6; 8; 10; 12; 14].

Lemma pend_in x : Z.land x PEND_BITS ∈ PENDS.
Proof.
  rewrite <- (Z.land_ones_low PEND_BITS 4), (Z.land_comm PEND_BITS), Z.land_assoc by done.
  rewrite Z.land_ones by lia. pose proof (Z.mod_pos_bound x (2 ^ 4)) as Hx. generalize dependent (x mod 2 ^ 4).
  intros y Hy. assert (y ∈ seqZ 0 16) as Hin by (apply elem_of_seqZ; lia). clear Hy. revert y Hin.
  apply Forall_forall. by vm_compute; repeat constructor; set_solver.
Qed.

Lemma J_pends pb ar ip dt up e : J pb ar ip dt up e -> pb ∈ PENDS.
Proof. intros []. rewrite <- J_pend0. apply pend_in. Qed.

Lemma pend_bit pb ar ip dt up e b :
  J pb ar ip dt up e -> Z.land PEND_BITS b = b -> Z.land (pending_task e) b = Z.land pb b.
Proof. intros [] Hb. by rewrite <- J_pend0, <- Z.land_assoc, Hb. Qed.

Lemma handle_pending_eq msg e :
  handle_pending_task msg e =
  let p := pending_task e in
  let clr b e := set_pending_task (Z.land (pending_task e) (u32 (Z.lnot b))) e in
  let event b ev := (b, {| m_ev := ev; m_data1 := 1; m_data2 := 2; m_data := m_data msg |}, clr b e) in
  if negb (Z.land p CONNECT_BIT =? 0) then (0, msg, clr IP_GOT_BIT (clr IP_UPDATE_BIT e))
  else if negb (Z.land p IP_UPDATE_BIT =? 0) then event IP_UPDATE_BIT GLB_IP_UPDATE
  else if negb (Z.land p IP_GOT_BIT =? 0) then event IP_GOT_BIT APP_IP_GOT
  else (0, msg, e).
Proof.
  unfold handle_pending_task, _pending_task_is_set, mbind, M_bind, gets.
  destruct (negb (Z.land (pending_task e) CONNECT_BIT =? 0)); [done|].
  destruct (negb (Z.land (pending_task e) IP_UPDATE_BIT =? 0)); [done|].
  by destruct (negb (Z.land (pending_task e) IP_GOT_BIT =? 0)).
Qed.

(** the next event owed is taken from the pending bits and becomes the message; when
    none is owed, the bits of the IP tasks are clear *)
Lemma handle_pending_ok pb ar ip dt up msg e :
  J pb ar ip dt up e ->
  exists r msg' e' pb', handle_pending_task msg e = (r, msg', e') /\ J pb' ar ip dt up e' /\
    Z.land pb' 8 = Z.land pb 8 /\
    match owed pb with
    | [] => r = 0 /\ msg' = msg /\ pb' = Z.land pb 8
    | ev :: evs => r <> 0 /\ m_ev msg' = ev /\ m_data msg' = m_data msg /\ owed pb' = evs
    end.
Proof.
  intros HJ. pose proof (J_pends _ _ _ _ _ _ HJ) as Hin.
  rewrite handle_pending_eq. cbn zeta.
  rewrite (pend_bit _ _ _ _ _ _ CONNECT_BIT HJ), (pend_bit _ _ _ _ _ _ IP_UPDATE_BIT HJ),
    (pend_bit _ _ _ _ _ _ IP_GOT_BIT HJ) by done.
  pose proof (J_clear _ _ _ _ _ IP_UPDATE_BIT e HJ) as HU. pose proof (J_clear _ _ _ _ _ IP_GOT_BIT e HJ) as HG.
  pose proof (J_clear _ _ _ _ _ IP_GOT_BIT _ HU) as HB.
  unfold PENDS in Hin. rewrite !elem_of_cons in Hin.
  repeat (destruct Hin as [->|Hin]); [..|by apply elem_of_nil in Hin]; cbn [Z.land negb Z.eqb];
    (eexists _, _, _, _; split; [reflexivity|]); (split; [first [exact HB|exact HU|exact HG|exact HJ]|]);
    vm_compute; by split_and!.
Qed.

Lemma owed_in pend ev : ev ∈ owed pend -> ev = GLB_IP_UPDATE \/ ev = APP_IP_GOT.
Proof. unfold owed. destruct (Z.testbit pend 3), (Z.testbit pend 1), (Z.testbit pend 2); set_solver. Qed.

(** the message and the events owed behind it *)
Lemma handle_msg_ok fuel pb m cur msg e :
  currentState m = Some cur -> live cur = true -> msg_typed msg -> Inv pb cur e ->
  (length (owed (spec_pend cur (m_ev msg) pb)) < fuel)%nat ->
  let cur' := spec_turn cur (m_ev msg) (answer (ticks e) =? 0) pb in
  exists m' e', handle_msg answer fuel m msg e = Done (m', e') /\
    currentState m' = Some cur' /\ live cur' = true /\ errorState m' = errorState m /\
    Inv (Z.land (spec_pend cur (m_ev msg) pb) 8) cur' e'.
Proof.
  revert pb m cur msg e. induction fuel as [|fuel IH]; intros pb m cur msg e Hc Hl Hm He Hw; [lia|].
  cbn [handle_msg]. unfold spec_turn.
  destruct (dispatch_ok pb m cur msg e Hc Hl Hm He) as (m1 & e1 & Hd & Hc1 & Hl1 & He1 & HI1). step_with Hd.
  destruct (handle_pending_ok _ _ _ _ _ msg e1 HI1) as (r & msg' & e2 & pb' & -> & HI2 & H8 & Hr).
  set (P := spec_pend cur (m_ev msg) pb) in *. set (c1 := spec_next cur (m_ev msg) _) in *.
  pose proof (owed_in P) as Hin. destruct (owed P) as [|ev evs] eqn:Ep.
  - destruct Hr as (-> & -> & ->). cbn [Z.eqb negb foldl]. eexists m1, _. split; [reflexivity|]. split_and!; try done.
    destruct (m_data msg); [|exact HI2]. by apply (J_emit _ _ _ _ _ K_free).
  - destruct Hr as (Hr & Hev & _ & Ho). rewrite (proj2 (Z.eqb_neq _ _) Hr). cbn [negb].
    assert (He' : ev = GLB_IP_UPDATE \/ ev = APP_IP_GOT) by (apply Hin; by left). clear Hin.
    assert (Hm' : msg_typed msg') by (unfold msg_typed; by destruct He' as [E|E]; rewrite Hev, E).
    assert (Hsp : spec_pend c1 (m_ev msg') pb' = pb') by (by destruct He' as [E|E]; rewrite Hev, E).
    assert (Hsn : forall ok, spec_next c1 (m_ev msg') ok = spec_next c1 ev true)
      by (intros; rewrite Hev; destruct He' as [-> | ->]; by destruct c1).
    destruct (IH pb' m1 c1 msg' e2 Hc1 Hl1 Hm' HI2) as (m3 & e3 & H3 & Hc3 & Hl3 & He3 & HI3).
    { rewrite Hsp, Ho. cbn in Hw. lia. }
    unfold spec_turn in Hc3, Hl3, HI3. rewrite Hsp, Hsn, Ho in Hc3, Hl3, HI3. rewrite H8 in HI3.
    exists m3, e3. split_and!; [exact H3|exact Hc3|exact Hl3|congruence|exact HI3].
Qed.

(** ** The whole manager *)

(** the invariant whatever is pending *)
Definition anyJ ar ip dt up (e : env) : Prop := exists pb, J pb ar ip dt up e.

Lemma keeps_any {A} ar ip dt up (p : M A) :
  (forall pb, keeps (J pb ar ip dt up) p) -> keeps (anyJ ar ip dt up) p.
Proof. intros Hp e [pb He]. exists pb. by apply Hp. Qed.

(** reading a profile into the profile message, in front of [k] *)
Lemma keeps_get_profile ar ip dt up i (k : Z * wifi_mgmr_profile_msg -> M Z) : 0 <= i ->
  (forall pb r, msg_ok (snd r) -> keeps (J pb ar ip dt up) (k r)) ->
  keeps (anyJ ar ip dt up) (m0 ← gets disc_profile_msg;
    r ← on_store (-1, m0) (fun s => r ← wifi_mgmr_profile_get_by_idx s m0 i; Done (r, s));
    modify (set_disc_profile_msg (snd r));; k r).
Proof.
  intros Hi Hk. apply keeps_any. intros pb e He. unfold mbind at 1, M_bind, gets.
  refine (triple_bind (J pb ar ip dt up) _ _ _ (fun _ => J pb ar ip dt up)
    (triple_store_get pb ar ip dt up i (disc_profile_msg e) _ Hi (J_msg _ _ _ _ _ _ He)) _ e He).
  intros r e' [Hr HJ]. apply (Hk pb r Hr). destruct HJ. by constructor.
Qed.

Lemma retry_ok ar ip dt up : keeps (anyJ ar ip dt up) (disconnect_retry answer).
Proof.
  unfold disconnect_retry, _pending_task_is_set.
  apply keeps_bind; [apply keeps_gets|intros pend].
  apply keeps_bind; [|intros r; destruct (r <? 0); [apply keeps_ret|]].
  2: { apply keeps_any. intros pb. apply keeps_bind; [by apply keeps_common|intros; apply keeps_ret]. }
  destruct pend; [|apply keeps_get_profile; [lia|]; intros pb r Hr; apply keeps_ret].
  apply keeps_bind; [intros e [pb He]; by eexists; apply (J_clear pb _ _ _ _ CONNECT_BIT)|intros _].
  apply keeps_get_profile; [lia|]. intros pb r Hr.
  apply keeps_bind; [|intros _; apply keeps_ret]. destruct (0 <=? fst r); [|apply keeps_ret].
  apply keeps_bind; [|intros _].
  { apply keeps_store. intros s Hs. destruct (del_by_idx_ok s 0 Hs) as (a & s' & -> & ? & _); [lia|].
    by eexists _, _. }
  apply keeps_bind; [|intros _].
  { apply keeps_store. intros s Hs. destruct (add_by_idx_ok s (snd r) 0 0 Hs Hr) as (s' & -> & ? & _); [lia|].
    by eexists _, _. }
  apply keeps_bind; [|intros _; by apply keeps_modify].
  apply keeps_store. intros s Hs. destruct (set_active_by_idx_ok s 1 1 Hs) as (a & s' & -> & ? & _); [lia|].
  by eexists _, _.
Qed.

(** the steps of the manager: turns of its event loop, and between them the calls of
    other tasks, the timers and the firmware's indications *)
Inductive wstep : wfsm * env -> wfsm * env -> Prop :=
| step_turn m e m' e' : wifi_mgmr_start_turn answer m e = Done (m', e') -> wstep (m, e) (m', e')
| step_post m e ev d1 d2 dat :
    msg_typed {| m_ev := ev; m_data1 := d1; m_data2 := d2; m_data := dat |} ->
    wstep (m, e) (m, snd (wifi_mgmr_api_common answer ev d1 d2 dat e))
| step_ip_got m e : wstep (m, e) (m, snd (wifi_mgmr_api_ip_got answer e))
| step_ip_update m e : wstep (m, e) (m, snd (wifi_mgmr_api_ip_update answer e))
| step_retry_timer m e : disc_timer_started e <> 0 -> wstep (m, e) (m, snd (disconnect_retry answer e))
| step_ip_timer m e : ipno_timer e <> 0 -> wstep (m, e) (m, snd (ip_obtaining_timeout answer e))
| step_denoise_timer m e : wstep (m, e) (m, snd (trigger_auto_denoise answer e))
| step_event_cb m e code : wstep (m, e) (m, snd (event_cb_wifi_event_mgmr code e))
| step_tsen_timer m e : wstep (m, e) (m, snd (__reload_tsen answer e))
| step_stat_info m e ind ty : wstep (m, e) (m, wifi_mgmr_set_connect_stat_info ind ty e)
| step_status_clean m e : wstep (m, e) (m, wifi_mgmr_status_code_clean_internal e)
| step_static_ip m e c : wstep (m, e) (m, set_sta_ipv4 c e).

Inductive reachable : wfsm * env -> Prop :=
| reach_init : reachable (wifi_mgmr_start_fsm, wifi_mgmr_internel_init env_zero)
| reach_step s s' : reachable s -> wstep s s' -> reachable s'.

Definition sys_inv (s : wfsm * env) : Prop :=
  exists cur pb, currentState (fst s) = Some cur /\ live cur = true /\
    errorState (fst s) = Some stateError /\ Inv pb cur (snd s).

Lemma owed_short pend : (length (owed pend) < 3)%nat.
Proof. unfold owed. destruct (Z.testbit pend 3), (Z.testbit pend 1), (Z.testbit pend 2); cbn; lia. Qed.

(** what is owed depends on the three bits only *)
Lemma owed_bits cur ev p : owed (spec_pend cur ev (Z.land p PEND_BITS)) = owed (spec_pend cur ev p).
Proof.
  unfold owed, spec_pend. destruct ev, (linked cur); rewrite ?Z.lor_spec, ?Z.land_spec; cbn;
    by rewrite ?andb_true_r.
Qed.

(** a turn on a non-empty queue, from a state of the invariant *)
Lemma turn_ok m e msg q :
  sys_inv (m, e) -> mq e = msg :: q ->
  exists m' e' cur, wifi_mgmr_start_turn answer m e = Done (m', e') /\ currentState m = Some cur /\
    currentState m' = Some (spec_turn cur (m_ev msg) (answer (ticks e) =? 0) (pending_task e)) /\
    Z.land (pending_task e') PEND_BITS = Z.land (spec_pend cur (m_ev msg) (pending_task e)) 8 /\ sys_inv (m', e').
Proof.
  intros (cur & pb & Hc & Hl & Her & HI) Hq. cbn in *. unfold wifi_mgmr_start_turn. rewrite Hq.
  pose proof (J_mq _ _ _ _ _ _ HI) as Hmq. rewrite Hq, Forall_cons in Hmq. destruct Hmq as [Hm Hms].
  assert (HI' : Inv pb cur (set_mq q e)) by (destruct HI; by constructor).
  destruct (handle_msg_ok 3 pb m cur msg (set_mq q e) Hc Hl Hm HI' (owed_short _)) as
    (m' & e' & -> & Hc' & Hl' & He' & HI2).
  assert (Z.land (pending_task e) PEND_BITS = pb) as Hpb by (by destruct HI).
  exists m', e', cur. split_and!; try done.
  - unfold spec_turn in Hc' |- *. by rewrite Hc', <- Hpb, owed_bits.
  - destruct HI2 as [_ _ _ -> _ _ _ _ _ _]. rewrite <- Hpb. unfold spec_pend. destruct (m_ev msg), (linked cur);
      by rewrite ?Z.land_lor_distr_l, <- ?Z.land_assoc.
  - eexists _, _. split_and!; [done..|cbn; congruence|done].
Qed.

Lemma keep_sys {A} m e (p : M A) :
  (forall pb ar ip dt up, keeps (J pb ar ip dt up) p) -> sys_inv (m, e) -> sys_inv (m, snd (p e)).
Proof. intros Hp (cur & pb & ? & ? & ? & HI). exists cur, pb. split_and!; [done..|]. by apply Hp. Qed.

Lemma frame_sys m e e' :
  fault e' = fault e /\ pstore e' = pstore e /\ disc_profile_msg e' = disc_profile_msg e /\
  mq e' = mq e /\ auto_repeat e' = auto_repeat e /\ ipno_timer e' = ipno_timer e /\
  disc_timer_started e' = disc_timer_started e /\ trace e' = trace e /\
  inf_ap_enabled e' = inf_ap_enabled e /\ pending_task e' = pending_task e ->
  sys_inv (m, e) -> sys_inv (m, e').
Proof.
  intros (E1&E2&E3&E4&E5&E6&E7&E8&E9&E0) (cur & pb & ? & ? & ? & []). exists cur, pb. split_and!; [done..|].
  constructor; cbn; by rewrite ?E1, ?E2, ?E3, ?E4, ?E5, ?E6, ?E7, ?E8, ?E9, ?E0.
Qed.

(** setting a pending task from another task *)
Lemma pend_sys m e bits : sys_inv (m, e) -> sys_inv (m, snd (wifi_mgmr_pending_task_set bits e)).
Proof.
  intros (cur & pb & ? & ? & ? & []). eexists cur, _. split_and!; [done..|]. by constructor.
Qed.

Lemma wstep_inv s s' : sys_inv s -> wstep s s' -> sys_inv s'.
Proof.
  intros HI Hs. destruct Hs as [m e m' e' Ht|m e ev d1 d2 dat Hm|m e|m e|m e _|m e _|m e|m e c|m e|m e ind ty|m e|m e c].
  - destruct (mq e) as [|msg q] eqn:Hq.
    + unfold wifi_mgmr_start_turn in Ht. rewrite Hq in Ht. by injection Ht as <- <-.
    + destruct (turn_ok m e msg q HI Hq) as (m1 & e1 & _ & Ht1 & _ & _ & _ & HI1). congruence.
  - apply keep_sys; [|done]. intros. by apply keeps_common.
  - apply (pend_sys m e IP_GOT_BIT) in HI.
    apply (keep_sys m _ (wifi_mgmr_api_common_msg answer GLB_MGMR_WAKEUP 1 2)) in HI; [done|].
    intros. by apply keeps_common.
  - apply (pend_sys m e IP_UPDATE_BIT) in HI.
    apply (keep_sys m _ (wifi_mgmr_api_common_msg answer GLB_MGMR_WAKEUP 1 2)) in HI; [done|].
    intros. by apply keeps_common.
  - destruct HI as (cur & pb & ? & ? & ? & HI).
    destruct (retry_ok _ _ _ _ e (ex_intro _ pb HI)) as [pb' HI']. by exists cur, pb'.
  - apply keep_sys; [|done]. intros. apply keeps_bind; [by apply keeps_common|intros; apply keeps_ret].
  - apply keep_sys; [|done]. intros. unfold trigger_auto_denoise.
    apply keeps_bind; [apply keeps_gets|intros r]. destruct (r =? 0); [apply keeps_ret|].
    apply keeps_bind; [by apply keeps_common|intros]. by apply keeps_emit.
  - apply keep_sys; [|done]. intros. by apply keeps_when, keeps_emit.
  - apply keep_sys; [|done]. intros. apply keeps_bind; [by apply keeps_common|intros; apply keeps_ret].
  - eapply frame_sys; [|exact HI]. unfold wifi_mgmr_set_connect_stat_info.
    destruct (ind_band ind =? PHY_BAND_2G4); [|done].
    destruct (ind_center_freq ind =? 2484); [done|]. by destruct (_ && _).
  - eapply frame_sys; [|exact HI]. done.
  - eapply frame_sys; [|exact HI]. done.
Qed.

Lemma reachable_inv s : reachable s -> sys_inv s.
Proof.
  induction 1 as [|s s' _ IH Hs]; [|by eapply wstep_inv].
  exists stateIfaceDown, 0. split_and!; try done. constructor; try done; cbn.
  apply store_init_ok.
Qed.

(** ** Theorems *)

(** C1: the invariant of the running manager.  In every state reachable by turns of the
    event loop interleaved with messages from other tasks, timers and indications: the
    machine is in one of its seven states (never in the group or the error state), no
    NULL or mistyped payload is dereferenced and no profile index is out of range; the
    retry timer runs only in Disconnect, the IP timer only while obtaining an address,
    the denoise loop only with an address; the driver's station interface has been
    added, used for connecting and removed in a sound order and is up exactly in the
    connecting, connected and disconnect states; and the AP interface is up exactly
    when the manager says so. *)
Theorem wifi_reachable_invariant m e :
  reachable (m, e) ->
  exists cur, currentState m = Some cur /\
    cur ∈ [stateIdle; stateConnecting; stateConnectedIPNo; stateConnectedIPYes; stateDisconnect;
           stateIfaceDown; stateSniffer] /\
    fault e = false /\ store_ok (pstore e) /\
    (disc_timer_started e <> 0 -> cur = stateDisconnect) /\
    (ipno_timer e <> 0 -> cur = stateConnectedIPNo) /\
    (auto_repeat e <> 0 -> cur = stateConnectedIPYes) /\
    sta_if (trace e) = Some (bool_decide (cur ∈ [stateConnecting; stateConnectedIPNo; stateConnectedIPYes;
                                                 stateDisconnect])) /\
    ap_if (trace e) = Some (negb (inf_ap_enabled e =? 0)).
Proof.
  intros (cur & pb & Hc & Hl & _ & [])%reachable_inv. cbn in *. exists cur.
  split_and!; try done.
  - rewrite !elem_of_cons. destruct cur; try discriminate Hl; naive_solver.
  - intros H. by apply J_dt0, bool_decide_eq_true in H.
  - intros H. by apply J_ip0, bool_decide_eq_true in H.
  - intros H. by apply J_ar0, bool_decide_eq_true in H.
  - rewrite J_sta0. by destruct cur.
Qed.

(** C2: the event loop refines the abstract connection machine, and always comes back.
    In every reachable state with a message queued, one turn of the loop terminates, and
    the manager goes where the abstract machine [spec_turn] goes: [spec_next] on the
    message, where the request it makes (bringing the interface up, adding the station
    interface) is accepted exactly when the driver's next answer is 0; then [spec_next]
    on exactly the events the pending-task word owes: none while a connection request
    waits (bit 3, which the message itself sets when it is a connection request and the
    link is up), else an IP update for bit 1, then an IP acquisition for bit 2.
    Afterwards neither of the two is pending, and the connection is as it was left. *)
Theorem wifi_turn_refines m e msg q :
  reachable (m, e) -> mq e = msg :: q ->
  exists m' e' cur, wifi_mgmr_start_turn answer m e = Done (m', e') /\ currentState m = Some cur /\
    currentState m' = Some (spec_turn cur (m_ev msg) (answer (ticks e) =? 0) (pending_task e)) /\
    Z.testbit (pending_task e') 1 = false /\ Z.testbit (pending_task e') 2 = false /\
    Z.testbit (pending_task e') 3 = Z.testbit (spec_pend cur (m_ev msg) (pending_task e)) 3.
Proof.
  intros Hr Hq. destruct (turn_ok m e msg q (reachable_inv _ Hr) Hq) as (m' & e' & cur & H1 & H2 & H3 & H4 & _).
  assert (Hb : forall i, Z.testbit PEND_BITS i = true -> Z.testbit (pending_task e') i
    = Z.testbit (spec_pend cur (m_ev msg) (pending_task e)) i && Z.testbit 8 i).
  { intros i Hi. by rewrite <- Z.land_spec, <- H4, Z.land_spec, Hi, andb_true_r. }
  exists m', e', cur. split_and!; try done; rewrite Hb by done; cbn; by rewrite ?andb_false_r, ?andb_true_r.
Qed.

End System.

(** *** Reconnecting *)

(** [k] reconnects in a row: the action of the reconnect row *)
Fixpoint reconnects (k : nat) (e : env) : env :=
  match k with
  | O => e
  | S k => snd (stateDisconnect_action_reconnect stateDisconnect_data
             (row_event {| m_ev := APP_RECONNECT; m_data1 := 1; m_data2 := 2; m_data := None |})
             (D_name stateConnecting) (reconnects k e))
  end.

(** the driver's view of one reconnect *)
Definition reconnect_calls (p : wifi_mgmr_profile_msg) (pinned : bool) : list call :=
  [ K_post_event CODE_WIFI_CMD_RECONNECT 0;
    K_connect (pm_ssid p) (pm_ssid_len p) (pm_passphr p) (pm_passphr_len p) (pm_psk p) (pm_psk_len p)
      (if pinned then Some (pm_bssid p) else None) (if pinned then u8 (pm_band p) else 0)
      (if pinned then u16 (pm_freq p) else 0) (u32 (pm_flags p)) ].

(** the remaining life of the pinned AP after [k] reconnects *)
Definition ttl_left (n : Z) (k : nat) : Z := Z.max 0 (n - Z.of_nat k).

Lemma reconnect_once e :
  let p := disc_profile_msg e in
  let c := if ap_info_ttl_curr e =? -1 then pm_ap_info_ttl p else ap_info_ttl_curr e in
  let pinned := (pm_ap_info_ttl p =? -1) || negb (c =? 0) in
  let e' := reconnects 1 e in
  trace e' = reconnect_calls p pinned ++ trace e /\ disc_profile_msg e' = p /\
  ap_info_ttl_curr e' = (if pm_ap_info_ttl p =? -1 then ap_info_ttl_curr e
                         else if c =? 0 then c else c - 1).
Proof.
  cbn [reconnects]. unfold stateDisconnect_action_reconnect, mbind, M_bind, gets.
  destruct (pm_ap_info_ttl (disc_profile_msg e) =? -1); cbn; [done|].
  destruct (ap_info_ttl_curr e =? -1); cbn.
  - by destruct (pm_ap_info_ttl (disc_profile_msg e) =? 0).
  - by destruct (ap_info_ttl_curr e =? 0).
Qed.

Lemma reconnects_S k e : reconnects (S k) e = reconnects 1 (reconnects k e).
Proof. done. Qed.

(** The pinned access point is tried exactly as long as it lives.  After a fresh
    connection request (the countdown reset to -1) with a time to live [n], reconnect
    number [k] (from 0) asks the driver for the pinned BSSID, band and frequency if and
    only if [k < n], and for any access point of that SSID afterwards; with the
    persistent setting -1 it asks for the pinned one every time. *)
Theorem reconnect_ttl e k :
  ap_info_ttl_curr e = -1 ->
  (0 <= pm_ap_info_ttl (disc_profile_msg e) ->
   trace (reconnects (S k) e)
   = reconnect_calls (disc_profile_msg e) (Z.of_nat k <? pm_ap_info_ttl (disc_profile_msg e))
     ++ trace (reconnects k e)) /\
  (pm_ap_info_ttl (disc_profile_msg e) = -1 ->
   trace (reconnects (S k) e) = reconnect_calls (disc_profile_msg e) true ++ trace (reconnects k e)).
Proof.
  intros Hc. set (n := pm_ap_info_ttl (disc_profile_msg e)). split; intros Hn.
  - assert (HI : disc_profile_msg (reconnects k e) = disc_profile_msg e /\
      (if ap_info_ttl_curr (reconnects k e) =? -1 then n else ap_info_ttl_curr (reconnects k e)) = ttl_left n k).
    { induction k as [|k [IH1 IH2]]; [split; [done|]; cbn; rewrite Hc; cbn; unfold ttl_left; lia|].
      rewrite reconnects_S. destruct (reconnect_once (reconnects k e)) as (_ & E2 & E3).
      rewrite IH1 in E2, E3. fold n in E3. split; [done|]. rewrite E3, IH2.
      rewrite (proj2 (Z.eqb_neq n (-1))) by lia. unfold ttl_left in *.
      destruct (Z.eqb_spec (Z.max 0 (n - Z.of_nat k)) 0) as [E|E]; rewrite (proj2 (Z.eqb_neq _ (-1))) by lia; lia. }
    destruct HI as [H1 H2]. rewrite reconnects_S.
    destruct (reconnect_once (reconnects k e)) as (-> & _ & _). rewrite H1. fold n. rewrite H2.
    rewrite (proj2 (Z.eqb_neq n (-1))) by lia. cbn [orb]. do 2 f_equal. unfold ttl_left.
    destruct (Z.ltb_spec (Z.of_nat k) n), (Z.eqb_spec (Z.max 0 (n - Z.of_nat k)) 0); cbn; (lia || done).
  - assert (HI : disc_profile_msg (reconnects k e) = disc_profile_msg e).
    { induction k as [|k IH]; [done|]. rewrite reconnects_S.
      by destruct (reconnect_once (reconnects k e)) as (_ & -> & _). }
    rewrite reconnects_S. destruct (reconnect_once (reconnects k e)) as (-> & _ & _).
    rewrite HI. fold n. by rewrite Hn.
Qed.

(** *** Reports *)

(** the state a report stands for *)
Definition report_state (r : Z) : option wstate :=
  match Z.land r 15 with
  | 1 => Some stateIdle | 2 => Some stateConnecting | 3 => Some stateConnectedIPNo
  | 4 => Some stateConnectedIPYes | 5 => Some stateDisconnect | 6 => Some stateIfaceDown
  | 7 => Some stateSniffer | _ => None
  end.

(** What the manager reports is what it is.  The detailed query's main code
    identifies the state of the machine, its AP bit (0x10) is set exactly when the AP is
    on and the state has a with-AP code, and the detail is given only without AP, in
    Idle, Connecting and Disconnect, for the two failure codes; the plain query, which
    passes one variable for both results, returns the failure instead of the state
    exactly in those cases. *)
Theorem state_report_correct m e cur :
  currentState m = Some cur -> live cur = true ->
  let r := wifi_mgmr_detailed_state_get_internal m e in
  report_state (fst r) = Some cur /\
  (Z.land (fst r) 16 <> 0 <-> inf_ap_enabled e <> 0 /\ cur <> stateIfaceDown /\ cur <> stateSniffer) /\
  (forall d, snd r = Some d <->
     inf_ap_enabled e = 0 /\ (cur = stateIdle \/ cur = stateConnecting \/ cur = stateDisconnect) /\
     (status_code (stat_info e) = WLAN_FW_4WAY_HANDSHAKE_ERROR_PSK_TIMEOUT_FAILURE /\ d = WIFI_STATE_PSK_ERROR \/
      status_code (stat_info e) = WLAN_FW_SCAN_NO_BSSID_AND_CHANNEL /\ d = WIFI_STATE_NO_AP_FOUND)) /\
  wifi_mgmr_state_get_internal m e = default (fst r) (snd r).
Proof.
  intros Hc Hl r.
  assert (Hin : forall s, in_state s m = bool_decide (cur = s)).
  { intros s. unfold in_state. rewrite Hc. apply bool_decide_ext. split; congruence. }
  assert (E : wifi_mgmr_state_get_internal m e = default (fst r) (snd r))
    by (unfold wifi_mgmr_state_get_internal; fold r; by destruct r).
  split_and!; [..|exact E]; unfold r, wifi_mgmr_detailed_state_get_internal; rewrite !Hin; clear E r Hin Hc.
  - destruct cur; try discriminate Hl; cbn; by destruct (inf_ap_enabled e =? 0).
  - destruct cur; try discriminate Hl; cbn; destruct (Z.eqb_spec (inf_ap_enabled e) 0); cbn; naive_solver.
  - intros d. destruct (Z.eqb_spec (inf_ap_enabled e) 0) as [Ha|Ha];
      [|destruct cur; try discriminate Hl; cbn; naive_solver].
    destruct (Z.eqb_spec (status_code (stat_info e)) WLAN_FW_4WAY_HANDSHAKE_ERROR_PSK_TIMEOUT_FAILURE) as [H8|H8],
      (Z.eqb_spec (status_code (stat_info e)) WLAN_FW_SCAN_NO_BSSID_AND_CHANNEL) as [H12|H12];
      try (rewrite H8 in H12; discriminate H12);
      destruct cur; try discriminate Hl; cbn; naive_solver.
Qed.

(** *** Two behaviours the code does not mean *)

(** every firmware-class message that reaches the group's table is followed by a
    power-save report.  [stateGlobalGuard_fw_powersaving] posts its result outside the
    test of the event, so that a disconnect command, in every state, also reports a
    failed power-save request that nobody made. *)
Theorem disconnect_reports_power_save answer m cur e d1 d2 :
  currentState m = Some cur -> live cur = true ->
  let msg := {| m_ev := FW_DISCONNECT; m_data1 := d1; m_data2 := d2; m_data := None |} in
  exists e', dispatch answer m msg e = Done (m, e') /\
    trace e' = K_post_event CODE_WIFI_ON_SET_PS_DONE WIFI_PS_SET_DONE_EVENT_FAIL :: K_disconnect :: trace e.
Proof.
  intros Hc Hl msg. destruct m as [c pv er]. cbn in Hc. subst c.
  eexists. split; [|]; [destruct cur; try discriminate Hl; reflexivity|]. reflexivity.
Qed.

Lemma set_active1 q p1 da :
  wifi_mgmr_profile_set_active_by_idx
    {| profiles := [q; p1]; profile_active_index := 0; disable_autoreconnect := da |} 1 0 =
  (if p_isUsed p1 =? 1 then
     Done (0, {| profiles := [q;
       {| p_ssid_len := p_ssid_len p1; p_passphr_len := p_passphr_len p1; p_psk_len := p_psk_len p1;
          p_ssid := p_ssid p1; p_passphr := p_passphr p1; p_psk := p_psk p1;
          p_bssid := p_bssid p1; p_band := p_band p1; p_freq := p_freq p1;
          p_ap_info_ttl := p_ap_info_ttl p1; p_dhcp_use := p_dhcp_use p1; p_flags := p_flags p1;
          p_priority := p_priority p1; p_isActive := 0; p_isUsed := p_isUsed p1 |}];
       profile_active_index := 1; disable_autoreconnect := da |})
   else Done (-1, {| profiles := [q; p1]; profile_active_index := 0; disable_autoreconnect := da |})).
Proof. unfold wifi_mgmr_profile_set_active_by_idx. by destruct (p_isUsed p1 =? 1) eqn:E; vm_compute in E |- *; rewrite E. Qed.

Lemma add0 p0 p1 ai da m :
  wifi_mgmr_profile_add_by_idx
    {| profiles := [p0; p1]; profile_active_index := ai; disable_autoreconnect := da |} m 0 1 =
  Done (0, {| profiles := [profile_fill m 1; p1]; profile_active_index := 0; disable_autoreconnect := da |}).
Proof. reflexivity. Qed.

Lemma get1 q p1 da m :
  wifi_mgmr_profile_get_by_idx
    {| profiles := [q; p1]; profile_active_index := 1; disable_autoreconnect := da |} m
    (u8 (profile_active_index {| profiles := [q; p1]; profile_active_index := 1; disable_autoreconnect := da |})) =
  if p_isUsed p1 =? 1 then Done (0, profile_read p1) else Done (-1, m).
Proof. reflexivity. Qed.

Lemma ipno_enter_dhcp answer d ev m0 e :
  Z.land (pending_task e) CONNECT_BIT = 0 -> ip4_ip (sta_ipv4 e) = 0 -> ipno_timer e = 0 ->
  wifi_mgmr_profile_get_by_idx (pstore e) profile_msg_zero (u8 (profile_active_index (pstore e))) = Done (0, m0) ->
  let e2 := snd (stateConnectedIPNoEnter answer d ev e) in
  (ipno_timer e2 <> 0 <-> pm_dhcp_use m0 <> 0) /\
  trace e2 = K_post_event CODE_WIFI_ON_CONNECTED 0 ::
    (if pm_dhcp_use m0 =? 0 then [] else [K_dhcp_start; K_timer_start 15 0]) ++ trace e.
Proof.
  intros Hp Hip Ht Hg. unfold stateConnectedIPNoEnter, _pending_task_is_set, mbind, M_bind, gets, on_store.
  rewrite Hp. cbn [negb Z.eqb]. rewrite Hg. cbn [mbind outcome_bind fst snd Z.eqb].
  destruct (Z.eqb_spec (pm_dhcp_use m0) 0) as [Hd|Hd]; cbn [negb];
    unfold __sta_setup_ip, mbind, M_bind, gets; cbn; rewrite Hip; cbn; by split.
Qed.

(** the profile whose DHCP setting a new connection uses.  A connection request is
    stored in slot 0 as the active profile, but "set profiles[1] inactive" also makes
    slot 1 the active index whenever that slot is in use: on association (no static
    address, no pending request) the manager then starts DHCP and its timer according
    to the old profile in slot 1, not according to the request. *)
Theorem connect_uses_slot1_dhcp answer e p p0 p1 d1 d2 dat ev n1 :
  profiles (pstore e) = [p0; p1] ->
  Z.land (pending_task e) CONNECT_BIT = 0 -> ip4_ip (sta_ipv4 e) = 0 -> ipno_timer e = 0 ->
  let msg := {| m_ev := APP_CONNECT; m_data1 := d1; m_data2 := d2; m_data := Some (H_profile p) |} in
  let e1 := snd (stateGlobalAction_connect dat (row_event msg) n1 e) in
  let e2 := snd (stateConnectedIPNoEnter answer stateConnectedIPNo_data ev e1) in
  let dhcp := if p_isUsed p1 =? 1 then p_dhcp_use p1 else pm_dhcp_use p in
  profiles (pstore e1) !! 0%nat = Some (profile_fill (clear_tails p) 1) /\
  profile_active_index (pstore e1) = (if p_isUsed p1 =? 1 then 1 else 0) /\
  (ipno_timer e2 <> 0 <-> dhcp <> 0) /\
  trace e2 = K_post_event CODE_WIFI_ON_CONNECTED 0 ::
    (if dhcp =? 0 then [] else [K_dhcp_start; K_timer_start 15 0]) ++ trace e1.
Proof.
  intros Hpr Hpend Hip Ht msg e1 e2 dhcp. destruct (pstore e) as [l ai da] eqn:Es. cbn in Hpr. subst l.
  set (S1 := {| profiles := [profile_fill (clear_tails p) 1; p1]; profile_active_index := 0;
                disable_autoreconnect := da |}).
  assert (He1 : exists S2 c, wifi_mgmr_profile_set_active_by_idx S1 1 0 = Done (c, S2) /\
    pstore e1 = S2 /\ pending_task e1 = pending_task e /\ sta_ipv4 e1 = sta_ipv4 e /\ ipno_timer e1 = ipno_timer e).
  { unfold e1, stateGlobalAction_connect. cbn [row_event ev_data msg m_data].
    unfold mbind, M_bind, on_store. rewrite Es.
    rewrite add0. fold S1. cbn [pstore set_pstore]. unfold S1. rewrite set_active1.
    destruct (p_isUsed p1 =? 1); eexists _, _; split_and!; reflexivity. }
  destruct He1 as (S2 & c & HS & Hst & H1 & H2 & H3). unfold S1 in HS. rewrite set_active1 in HS.
  assert (HG : exists m0, wifi_mgmr_profile_get_by_idx (pstore e1) profile_msg_zero
    (u8 (profile_active_index (pstore e1))) = Done (0, m0) /\ pm_dhcp_use m0 = dhcp).
  { rewrite Hst. unfold dhcp. destruct (p_isUsed p1 =? 1) eqn:Eu; injection HS as <- <-.
    - eexists. rewrite get1. cbn [p_isUsed]. rewrite Eu. split; reflexivity.
    - eexists. split; reflexivity. }
  destruct HG as (m0 & HG & Hd). rewrite <- Hd.
  destruct (ipno_enter_dhcp answer stateConnectedIPNo_data ev m0 e1) as [H5 H6]; [congruence..|exact HG|].
  rewrite Hst. destruct (p_isUsed p1 =? 1) eqn:Eu; injection HS as <- <-; by split_and!.
Qed.

(** ** Witnesses *)

Definition all_ok (n : nat) : Z := 0.

(** the manager after the PHY-up command was posted *)
Definition posted : env :=
  snd (wifi_mgmr_api_common all_ok APP_PHY_UP 1 2 None (wifi_mgmr_internel_init env_zero)).

Lemma posted_reachable : reachable all_ok (wifi_mgmr_start_fsm, posted).
Proof. eapply reach_step; [apply reach_init|]. by apply step_post. Qed.

Lemma wifi_reachable_invariant_witness :
  exists cur, currentState wifi_mgmr_start_fsm = Some cur /\ fault posted = false /\
    sta_if (trace posted) = Some false.
Proof.
  destruct (wifi_reachable_invariant all_ok wifi_mgmr_start_fsm posted posted_reachable)
    as (cur & Hc & _ & Hf & _ & _ & _ & _ & Hs & _).
  exists cur. split_and!; [exact Hc|exact Hf|]. rewrite Hs.
  assert (cur = stateIfaceDown) as -> by (cbn in Hc; congruence). reflexivity.
Defined.

(** a turn of the loop, and a message posted by another task *)
Definition turned (s : wfsm * env) : wfsm * env :=
  match wifi_mgmr_start_turn all_ok (fst s) (snd s) with Done s => s | _ => s end.
Definition then_posted (ev : WIFI_MGMR_EVENT) (dat : option heap_data) (s : wfsm * env) : wfsm * env :=
  (fst s, snd (wifi_mgmr_api_common all_ok ev 1 2 dat (snd s))).

Lemma turned_reachable s : reachable all_ok s -> reachable all_ok (turned s).
Proof.
  intros Hs. unfold turned. destruct s as [m e]. cbn [fst snd].
  destruct (wifi_mgmr_start_turn all_ok m e) as [[m' e']| |] eqn:E; [|done..]. by eapply reach_step, step_turn.
Qed.
Lemma then_posted_reachable ev dat s :
  msg_typed {| m_ev := ev; m_data1 := 1; m_data2 := 2; m_data := dat |} ->
  reachable all_ok s -> reachable all_ok (then_posted ev dat s).
Proof. intros Ht Hs. destruct s as [m e]. by eapply reach_step, step_post. Qed.

(** the manager obtaining an address, with the address reported and a message to wake it *)
Definition connected : wfsm * env :=
  turned (then_posted FW_IND_CONNECTED None (turned (then_posted APP_CONNECT (Some (H_profile sample_msg))
    (turned (wifi_mgmr_start_fsm, posted))))).
Definition ip_pending : wfsm * env := (fst connected, snd (wifi_mgmr_api_ip_got all_ok (snd connected))).

Lemma ip_pending_reachable : reachable all_ok ip_pending.
Proof.
  unfold ip_pending. eapply reach_step; [|by apply step_ip_got]. rewrite <- surjective_pairing. unfold connected.
  apply turned_reachable, then_posted_reachable; [done|].
  apply turned_reachable, then_posted_reachable; [|by apply turned_reachable, posted_reachable].
  exists sample_msg. split; [done|]. by vm_compute; split_and!.
Qed.

(** the address is taken over in the turn of the message that wakes the manager *)
Lemma wifi_turn_refines_witness :
  exists m' e', wifi_mgmr_start_turn all_ok (fst ip_pending) (snd ip_pending) = Done (m', e') /\
    currentState (fst ip_pending) = Some stateConnectedIPNo /\ currentState m' = Some stateConnectedIPYes.
Proof.
  assert (Hr : reachable all_ok (fst ip_pending, snd ip_pending))
    by (rewrite <- surjective_pairing; apply ip_pending_reachable).
  assert (Hq : mq (snd ip_pending) = [{| m_ev := GLB_MGMR_WAKEUP; m_data1 := 1; m_data2 := 2; m_data := None |}])
    by (vm_compute; reflexivity).
  assert (Hp : currentState (fst ip_pending) = Some stateConnectedIPNo) by (vm_compute; reflexivity).
  destruct (wifi_turn_refines all_ok (fst ip_pending) (snd ip_pending) _ [] Hr Hq) as (m' & e' & cur & Ht & Hc & Hs & _).
  rewrite Hp in Hc. injection Hc as <-. exists m', e'. split_and!; [exact Ht|exact Hp|]. rewrite Hs.
  vm_compute. reflexivity.
Defined.

Lemma reconnect_ttl_witness :
  trace (reconnects 4 (set_ap_info_ttl_curr (-1) (set_disc_profile_msg sample_msg env_zero)))
  = reconnect_calls sample_msg false ++
    trace (reconnects 3 (set_ap_info_ttl_curr (-1) (set_disc_profile_msg sample_msg env_zero))).
Proof.
  apply (proj1 (reconnect_ttl (set_ap_info_ttl_curr (-1) (set_disc_profile_msg sample_msg env_zero)) 3 eq_refl)).
  cbn. lia.
Defined.

Lemma state_report_correct_witness :
  report_state (fst (wifi_mgmr_detailed_state_get_internal wifi_mgmr_start_fsm env_zero)) = Some stateIfaceDown.
Proof. exact (proj1 (state_report_correct wifi_mgmr_start_fsm env_zero stateIfaceDown eq_refl eq_refl)). Defined.

Lemma disconnect_reports_power_save_witness :
  exists e', dispatch all_ok wifi_mgmr_start_fsm
      {| m_ev := FW_DISCONNECT; m_data1 := 1; m_data2 := 2; m_data := None |} env_zero
      = Done (wifi_mgmr_start_fsm, e') /\
    trace e' = [K_post_event CODE_WIFI_ON_SET_PS_DONE WIFI_PS_SET_DONE_EVENT_FAIL; K_disconnect].
Proof. exact (disconnect_reports_power_save all_ok wifi_mgmr_start_fsm stateIfaceDown env_zero 1 2 eq_refl eq_refl). Defined.

(** slot 1 holds a used profile with DHCP, the request asks for none *)
Definition no_dhcp_msg : wifi_mgmr_profile_msg :=
  {| pm_ssid := pm_ssid sample_msg; pm_ssid_tail := 0; pm_ssid_len := 2;
     pm_passphr := zeros 64; pm_passphr_tail := 0; pm_psk := zeros 64; pm_psk_tail := 0;
     pm_passphr_len := 0; pm_psk_len := 0; pm_bssid := zeros 6; pm_band := 0; pm_freq := 0;
     pm_ap_info_ttl := 0; pm_dhcp_use := 0; pm_flags := 0 |}.
Definition slot1_used : env :=
  set_pstore {| profiles := [profile_zero; profile_fill sample_msg 1]; profile_active_index := 0;
                disable_autoreconnect := 0 |} env_zero.

Lemma connect_uses_slot1_dhcp_witness :
  let msg := {| m_ev := APP_CONNECT; m_data1 := 1; m_data2 := 2; m_data := Some (H_profile no_dhcp_msg) |} in
  ipno_timer (snd (stateConnectedIPNoEnter all_ok stateConnectedIPNo_data (row_event msg)
    (snd (stateGlobalAction_connect (D_name stateIdle) (row_event msg) (D_name stateConnecting) slot1_used)))) <> 0.
Proof.
  intros msg.
  apply (proj1 (proj2 (proj2 (connect_uses_slot1_dhcp all_ok slot1_used no_dhcp_msg profile_zero
    (profile_fill sample_msg 1) 1 2 (D_name stateIdle) (row_event msg) (D_name stateConnecting)
    eq_refl eq_refl eq_refl eq_refl)))).
  vm_compute. discriminate.
Defined.
