(* ===== verification/ScanItems.v ===== *)
(** * The scan list of the WiFi manager: wifi_mgmr_scan_beacon_save of wifi_mgmr.c

    The array [wifiMgmr.scan_items] is a list of [WIFI_MGMR_SCAN_ITEMS_MAX] items.
    [counter] is the value [bflb_os_get_time_ms()] returns; the mutex is held for the
    whole function.  The position variables start at -1 as in the source; an index
    outside the array would be a fault, and the theorems show there is none. *)
From S2P Require Import Prelude.
From Stdlib Require Import Permutation.

(** ** Definitions *)

Definition WIFI_MGMR_SCAN_ITEMS_MAX : Z := 50.
Definition WIFI_MGMR_FEATURES_SCAN_SAVE_HIDDEN_SSID : Z := 1.
Definition SCAN_UPDATE_LIMIT_TIME_MS : Z := 3000.

Record wifi_mgmr_scan_item := {
  mode : Z; timestamp_lastseen : Z; ssid_len : Z; chan : Z; rssi : Z;
  ssid : list Z; ssid_tail : Z; bssid : list Z; ppm_abs : Z; ppm_rel : Z;
  auth : Z; cipher : Z; is_used : Z; wps : Z; group_cipher : Z
}.

Definition item_zero : wifi_mgmr_scan_item :=
  {| mode := 0; timestamp_lastseen := 0; ssid_len := 0; chan := 0; rssi := 0;
     ssid := replicate 32 0; ssid_tail := 0; bssid := replicate 6 0; ppm_abs := 0; ppm_rel := 0;
     auth := 0; cipher := 0; is_used := 0; wps := 0; group_cipher := 0 |}.

(** the string that starts at [ssid]: the tail byte follows the array *)
Fixpoint cstr (l : list Z) : list Z :=
  match l with [] => [] | c :: l => if c =? 0 then [] else c :: cstr l end.
Definition ssid_str (x : wifi_mgmr_scan_item) : list Z := cstr (ssid x ++ [ssid_tail x]).

(** [strncpy(dst, src, 32)] *)
Definition strncpy32 (s : list Z) : list Z := take 32 (s ++ replicate 32 0).

(** [0 == memcmp(bssid) && 0 == strcmp(ssid)] *)
Definition same_ap (scan x : wifi_mgmr_scan_item) : bool :=
  bool_decide (bssid x = bssid scan) && bool_decide (ssid_str scan = ssid_str x).

(** the update of an item already listed *)
Definition update_item (counter : Z) (scan x : wifi_mgmr_scan_item) : wifi_mgmr_scan_item :=
  {| mode := mode scan; timestamp_lastseen := counter; ssid_len := ssid_len x; chan := chan scan;
     rssi := rssi scan; ssid := ssid x; ssid_tail := ssid_tail x; bssid := bssid x;
     ppm_abs := ppm_abs scan; ppm_rel := ppm_rel scan; auth := auth scan; cipher := cipher scan;
     is_used := is_used x; wps := wps scan; group_cipher := group_cipher x |}.

(** the item written to a cleared slot *)
Definition new_item (counter : Z) (scan : wifi_mgmr_scan_item) : wifi_mgmr_scan_item :=
  let s := strncpy32 (ssid_str scan) in
  {| mode := mode scan; timestamp_lastseen := counter; ssid_len := Z.of_nat (length (cstr (s ++ [0])));
     chan := chan scan; rssi := rssi scan; ssid := s; ssid_tail := 0; bssid := take 6 (bssid scan);
     ppm_abs := 0; ppm_rel := 0; auth := auth scan; cipher := cipher scan; is_used := 1;
     wps := wps scan; group_cipher := 0 |}.

(** the variables of the search loop *)
Record search := {
  items : list wifi_mgmr_scan_item; pos_empty : Z; flag : Z; lowest_rssi : Z; pos_rssi : Z; pos_same_ssid : Z
}.

Definition with_items (v : search) (l : list wifi_mgmr_scan_item) : search :=
  {| items := l; pos_empty := pos_empty v; flag := flag v; lowest_rssi := lowest_rssi v;
     pos_rssi := pos_rssi v; pos_same_ssid := pos_same_ssid v |}.
Definition with_empty (v : search) (i : Z) : search :=
  {| items := items v; pos_empty := i; flag := flag v; lowest_rssi := lowest_rssi v;
     pos_rssi := pos_rssi v; pos_same_ssid := pos_same_ssid v |}.
Definition with_lowest (v : search) (f r i : Z) : search :=
  {| items := items v; pos_empty := pos_empty v; flag := f; lowest_rssi := r;
     pos_rssi := i; pos_same_ssid := pos_same_ssid v |}.
Definition with_same (v : search) (i : Z) : search :=
  {| items := items v; pos_empty := pos_empty v; flag := flag v; lowest_rssi := lowest_rssi v;
     pos_rssi := pos_rssi v; pos_same_ssid := i |}.

(** the body of the search loop at index [i] *)
Definition search_body (cn counter : Z) (scan : wifi_mgmr_scan_item) (v : search) (i : Z) : outcome search :=
  x ← aget (items v) i;
  v ← (if cn <? chan x then l ← aset (items v) i item_zero; Done (with_items v l) else Done v);
  x ← aget (items v) i;
  if is_used x =? 0 then Done (with_empty v i)
  else if SCAN_UPDATE_LIMIT_TIME_MS <? u32 (counter - timestamp_lastseen x) then
    l ← aset (items v) i item_zero; Done (with_empty (with_items v l) i)
  else
    let v := if flag v =? 0 then with_lowest v 1 (rssi x) i else v in
    v ← (if rssi x <? lowest_rssi v then Done (with_lowest v (flag v) (rssi x) i)
         else if lowest_rssi v =? rssi x then
           y ← aget (items v) (pos_rssi v);
           Done (if timestamp_lastseen x <? timestamp_lastseen y then with_lowest v (flag v) (lowest_rssi v) i else v)
         else Done v);
    Done (if same_ap scan x then with_same v i else v).

Fixpoint search_loop (cn counter : Z) (scan : wifi_mgmr_scan_item) (n : nat) (i : Z) (v : search) : outcome search :=
  match n with
  | O => Done v
  | S n => v ← search_body cn counter scan v i; search_loop cn counter scan n (i + 1) v
  end.

(** the test of the sort's inner loop *)
Definition out_of_order (a b : wifi_mgmr_scan_item) : bool :=
  ((rssi a <? rssi b) && negb (is_used b =? 0)) || ((is_used a =? 0) && negb (is_used b =? 0)).

(** the inner loop: [k] comparisons of neighbours from the front *)
Fixpoint bubble_pass (k : nat) (l : list wifi_mgmr_scan_item) : list wifi_mgmr_scan_item :=
  match k, l with
  | S k, a :: b :: l => if out_of_order a b then b :: bubble_pass k (a :: l) else a :: bubble_pass k (b :: l)
  | _, _ => l
  end.

(** the outer loop: passes of [k], [k-1], ..., 1 comparisons *)
Fixpoint bubble_sort (k : nat) (l : list wifi_mgmr_scan_item) : list wifi_mgmr_scan_item :=
  match k with O => l | S k' => bubble_sort k' (bubble_pass k l) end.

(** the write of the new beacon, after the search *)
Definition store_beacon (counter : Z) (scan : wifi_mgmr_scan_item) (v : search) : outcome (list wifi_mgmr_scan_item) :=
  if negb (pos_same_ssid v =? -1) then
    x ← aget (items v) (pos_same_ssid v);
    if rssi x <=? rssi scan then aset (items v) (pos_same_ssid v) (update_item counter scan x) else Done (items v)
  else if negb (pos_empty v =? -1) then aset (items v) (pos_empty v) (new_item counter scan)
  else if lowest_rssi v <? rssi scan then aset (items v) (pos_rssi v) (new_item counter scan)
  else Done (items v).

Definition wifi_mgmr_scan_beacon_save (channel_nums features counter : Z) (l : list wifi_mgmr_scan_item)
  (scan : wifi_mgmr_scan_item) : outcome (Z * list wifi_mgmr_scan_item) :=
  if (channel_nums <? chan scan) || (chan scan =? 0) then Done (-1, l)
  else if (default 0 (ssid scan !! 0%nat) =? 0) &&
          (Z.land features WIFI_MGMR_FEATURES_SCAN_SAVE_HIDDEN_SSID =? 0) then Done (-1, l)
  else
    v ← search_loop channel_nums counter scan (Z.to_nat WIFI_MGMR_SCAN_ITEMS_MAX) 0
      {| items := l; pos_empty := -1; flag := 0; lowest_rssi := 0; pos_rssi := -1; pos_same_ssid := -1 |};
    l ← store_beacon counter scan v;
    Done (0, bubble_sort (Z.to_nat (WIFI_MGMR_SCAN_ITEMS_MAX - 1)) l).

(** the beacon as the firmware reports it, put into a cleared item of the stack: [s] is
    what can be read at [ssid]; [len] is compared with neither array *)
Definition wifi_mgmr_api_scan_item_beacon (channel_nums features counter : Z) (l : list wifi_mgmr_scan_item)
  (ch rs au : Z) (mac s : list Z) (len pa pr ci wp mo gc : Z) : outcome (Z * list wifi_mgmr_scan_item) :=
  if (len <? 0) || (32 <? len) || (Z.of_nat (length s) <? len) || (length mac <? 6)%nat then Fault
  else wifi_mgmr_scan_beacon_save channel_nums features counter l
    {| mode := mo; timestamp_lastseen := 0; ssid_len := len; chan := ch; rssi := rs;
       ssid := take (Z.to_nat len) s ++ replicate (32 - Z.to_nat len) 0; ssid_tail := 0; bssid := take 6 mac;
       ppm_abs := pa; ppm_rel := pr; auth := au; cipher := ci; is_used := 0; wps := wp; group_cipher := gc |}.

(** ** The sort *)

(** the order of the list: stronger first, unused items last *)
Definition strength (x : wifi_mgmr_scan_item) : Z := if is_used x =? 0 then -129 else rssi x.
Definition rssi_ok (x : wifi_mgmr_scan_item) : Prop := -128 <= rssi x < 128.
Definition stronger (a b : wifi_mgmr_scan_item) : Prop := strength b <= strength a.

Lemma out_of_order_strength a b : rssi_ok a -> rssi_ok b -> out_of_order a b = (strength a <? strength b).
Proof.
  unfold out_of_order, strength, rssi_ok. intros Ha Hb.
  destruct (is_used a =? 0), (is_used b =? 0); cbn; rewrite ?andb_true_r, ?andb_false_r, ?orb_false_r, ?orb_true_r; try done;
    symmetry; first [apply Z.ltb_lt; lia|apply Z.ltb_ge; lia].
Qed.

(** one pass carries the weakest item to the end *)
Lemma bubble_pass_spec k l1 l2 :
  length l1 = S k -> Forall rssi_ok l1 ->
  exists l1' m, bubble_pass k (l1 ++ l2) = l1' ++ m :: l2 /\ length l1' = k /\
    Permutation l1 (l1' ++ [m]) /\ Forall (fun x => stronger x m) l1'.
Proof.
  revert l1. induction k as [|k IH]; intros l1 Hl Hok.
  - destruct l1 as [|a [|]]; try done. exists [], a. by split_and!.
  - destruct l1 as [|a [|b l]]; try (cbn in Hl; lia). cbn [app bubble_pass].
    rewrite !Forall_cons in Hok. destruct Hok as (Ha & Hb & Hr). rewrite out_of_order_strength by done.
    destruct (Z.ltb_spec (strength a) (strength b)) as [Hlt|Hge].
    + destruct (IH (a :: l)) as (l' & m & E & Hl' & Hp & Hf); [cbn in *; lia|by constructor|].
      exists (b :: l'), m. cbn [app] in E |- *. rewrite E. split_and!; [done|cbn; lia| |].
      * rewrite perm_swap. by rewrite Hp.
      * constructor; [|done]. assert (Hin : a ∈ l' ++ [m]) by (rewrite <- Hp; left).
        unfold stronger in *. apply elem_of_app in Hin as [Hin| ->%list_elem_of_singleton]; [|lia].
        rewrite Forall_forall in Hf. specialize (Hf _ Hin). lia.
    + destruct (IH (b :: l)) as (l' & m & E & Hl' & Hp & Hf); [cbn in *; lia|by constructor|].
      exists (a :: l'), m. cbn [app] in E |- *. rewrite E. split_and!; [done|cbn; lia| |].
      * by rewrite Hp.
      * constructor; [|done]. assert (Hin : b ∈ l' ++ [m]) by (rewrite <- Hp; left).
        unfold stronger in *. apply elem_of_app in Hin as [Hin| ->%list_elem_of_singleton]; [|lia].
        rewrite Forall_forall in Hf. specialize (Hf _ Hin). lia.
Qed.

Lemma bubble_sort_spec k l1 l2 :
  length l1 = S k -> Forall rssi_ok l1 -> StronglySorted stronger l2 ->
  Forall (fun x => Forall (stronger x) l2) l1 ->
  Permutation (l1 ++ l2) (bubble_sort k (l1 ++ l2)) /\ StronglySorted stronger (bubble_sort k (l1 ++ l2)).
Proof.
  revert l1 l2. induction k as [|k IH]; intros l1 l2 Hl Hok Hs Hf.
  - destruct l1 as [|a [|]]; try done. rewrite Forall_singleton in Hf. split; [done|]. by constructor.
  - cbn [bubble_sort]. destruct (bubble_pass_spec (S k) l1 l2 Hl Hok) as (l1' & m & -> & Hl' & Hp & Hm).
    rewrite Hp in Hok, Hf. rewrite Forall_app, Forall_singleton in Hok, Hf.
    destruct (IH l1' (m :: l2)) as [Hp2 Hs2]; [done|tauto|constructor; tauto| |].
    + rewrite Forall_forall in Hm |- *. destruct Hf as [Hf _]. rewrite Forall_forall in Hf.
      intros x Hx. constructor; [by apply Hm|by apply Hf].
    + split; [|done]. by rewrite <- Hp2, Hp, <- app_assoc.
Qed.

(** ** The search *)

(** what the loop leaves of an item: stale and out-of-band items are cleared *)
Definition purge (cn counter : Z) (x : wifi_mgmr_scan_item) : wifi_mgmr_scan_item :=
  if cn <? chan x then item_zero
  else if is_used x =? 0 then x
  else if SCAN_UPDATE_LIMIT_TIME_MS <? u32 (counter - timestamp_lastseen x) then item_zero else x.

Section Search.
Context (cn counter : Z) (scan : wifi_mgmr_scan_item) (l : list wifi_mgmr_scan_item).

Definition P : list wifi_mgmr_scan_item := map (purge cn counter) l.

(** the items before [i] are purged and the variables describe them *)
Record searched (i : nat) (v : search) : Prop := {
  S_items : items v = take i P ++ drop i l;
  S_empty : pos_empty v = -1 /\ (forall j x, (j < i)%nat -> P !! j = Some x -> is_used x <> 0) \/
    exists k x, pos_empty v = Z.of_nat k /\ (k < i)%nat /\ P !! k = Some x /\ is_used x = 0;
  S_same : pos_same_ssid v = -1 /\
      (forall j x, (j < i)%nat -> P !! j = Some x -> is_used x <> 0 -> same_ap scan x = false) \/
    exists k x, pos_same_ssid v = Z.of_nat k /\ (k < i)%nat /\ P !! k = Some x /\ is_used x <> 0 /\ same_ap scan x = true;
  S_low : flag v = 0 /\ (forall j x, (j < i)%nat -> P !! j = Some x -> is_used x = 0) \/
    flag v = 1 /\ exists k x, pos_rssi v = Z.of_nat k /\ (k < i)%nat /\ P !! k = Some x /\ is_used x <> 0 /\
      rssi x = lowest_rssi v /\
      (forall j y, (j < i)%nat -> P !! j = Some y -> is_used y <> 0 -> lowest_rssi v <= rssi y)
}.

Lemma aget_nat {A} (k : list A) i x : k !! i = Some x -> aget k (Z.of_nat i) = Done x.
Proof. intros H. unfold aget. rewrite decide_True by lia. by rewrite Nat2Z.id, H. Qed.
Lemma aset_nat {A} (k : list A) i x y : k !! i = Some y -> aset k (Z.of_nat i) x = Done (<[i := x]> k).
Proof.
  intros H%lookup_lt_Some. unfold aset. rewrite decide_True by lia. by rewrite Nat2Z.id.
Qed.

Lemma P_lookup i x : l !! i = Some x -> P !! i = Some (purge cn counter x).
Proof. intros H. unfold P. change (map ?f l) with (f <$> l). by rewrite list_lookup_fmap, H. Qed.

Lemma purged_step i x :
  l !! i = Some x ->
  (take i P ++ drop i l) !! i = Some x /\
  <[i := purge cn counter x]> (take i P ++ drop i l) = take (S i) P ++ drop (S i) l.
Proof.
  intros Hx. assert (Hlen : length (take i P) = i).
  { rewrite length_take. unfold P. rewrite length_map. apply lookup_lt_Some in Hx. lia. }
  rewrite (drop_S l x i Hx). split.
  - rewrite lookup_app_r by lia. by rewrite Hlen, Nat.sub_diag.
  - rewrite (take_S_r P i _ (P_lookup i x Hx)), <- app_assoc. cbn.
    rewrite insert_app_r_alt by lia. by rewrite Hlen, Nat.sub_diag.
Qed.

(** extending a fact about the items before [i] by the item at [i] *)
Lemma before_S (Q : wifi_mgmr_scan_item -> Prop) i x :
  P !! i = Some x -> (forall j y, (j < i)%nat -> P !! j = Some y -> Q y) -> Q x ->
  forall j y, (j < S i)%nat -> P !! j = Some y -> Q y.
Proof.
  intros Hx H HQ j y Hj Hy. destruct (decide (j = i)) as [->|]; [congruence|]. apply (H j); [lia|done].
Qed.

(** the item at [i] is cleared or unused *)
Lemma searched_empty i v x l' :
  searched i v -> P !! i = Some x -> is_used x = 0 -> l' = take (S i) P ++ drop (S i) l ->
  searched (S i) (with_empty (with_items v l') (Z.of_nat i)).
Proof.
  intros [Hi He Hs Hl] Hx Hu ->. constructor; cbn; [done|..].
  - right. exists i, x. split_and!; [done|lia|done..].
  - destruct Hs as [[Hs1 Hs2]|(k & y & ? & ? & ? & ? & ?)]; [left|right; exists k, y; split_and!; (done || lia)].
    split; [done|]. by apply (before_S (fun z => is_used z <> 0 -> same_ap scan z = false) i x).
  - destruct Hl as [[Hl1 Hl2]|(Hl1 & k & y & ? & ? & ? & ? & ? & Hl2)]; [left|right].
    + split; [done|]. by apply (before_S (fun z => is_used z = 0) i x).
    + split; [done|]. exists k, y. split_and!; try done; [lia|].
      by apply (before_S (fun y => is_used y <> 0 -> lowest_rssi v <= rssi y) i x).
Qed.

(** the body at an item that stays *)
Definition visit (v : search) (i : nat) (x : wifi_mgmr_scan_item) : outcome search :=
  let v := if flag v =? 0 then with_lowest v 1 (rssi x) (Z.of_nat i) else v in
  v ← (if rssi x <? lowest_rssi v then Done (with_lowest v (flag v) (rssi x) (Z.of_nat i))
       else if lowest_rssi v =? rssi x then
         y ← aget (items v) (pos_rssi v);
         Done (if timestamp_lastseen x <? timestamp_lastseen y
               then with_lowest v (flag v) (lowest_rssi v) (Z.of_nat i) else v)
       else Done v);
  Done (if same_ap scan x then with_same v (Z.of_nat i) else v).

Lemma searched_low i v x :
  searched i v -> P !! i = Some x -> is_used x <> 0 -> items v !! i = Some x ->
  let v0 := if flag v =? 0 then with_lowest v 1 (rssi x) (Z.of_nat i) else v in
  exists v1, (if rssi x <? lowest_rssi v0 then Done (with_lowest v0 (flag v0) (rssi x) (Z.of_nat i))
       else if lowest_rssi v0 =? rssi x then
         y ← aget (items v0) (pos_rssi v0);
         Done (if timestamp_lastseen x <? timestamp_lastseen y
               then with_lowest v0 (flag v0) (lowest_rssi v0) (Z.of_nat i) else v0)
       else Done v0) = Done v1 /\
    items v1 = items v /\ pos_empty v1 = pos_empty v /\ pos_same_ssid v1 = pos_same_ssid v /\ flag v1 = 1 /\
    exists k y, pos_rssi v1 = Z.of_nat k /\ (k < S i)%nat /\ P !! k = Some y /\ is_used y <> 0 /\
      rssi y = lowest_rssi v1 /\
      (forall j z, (j < S i)%nat -> P !! j = Some z -> is_used z <> 0 -> lowest_rssi v1 <= rssi z).
Proof.
  intros [Hi He Hs Hl] Hx Hu Hix.
  assert (Hxi : forall v1, pos_rssi v1 = Z.of_nat i -> lowest_rssi v1 = rssi x ->
    (forall j z, (j < i)%nat -> P !! j = Some z -> is_used z <> 0 -> rssi x <= rssi z) ->
    exists k y, pos_rssi v1 = Z.of_nat k /\ (k < S i)%nat /\ P !! k = Some y /\ is_used y <> 0 /\
      rssi y = lowest_rssi v1 /\
      (forall j z, (j < S i)%nat -> P !! j = Some z -> is_used z <> 0 -> lowest_rssi v1 <= rssi z)).
  { intros v1 Hp Hr Hb. exists i, x. rewrite Hr. split_and!; try done; [lia|].
    apply (before_S (fun z => is_used z <> 0 -> rssi x <= rssi z) i x); [done|done|lia]. }
  destruct Hl as [[Hfl Hl]|(Hfl & k & y & Hk & Hki & Hy & Hyu & Hyr & Hl)]; rewrite Hfl; cbn [Z.eqb].
  - cbn. rewrite Z.ltb_irrefl, Z.eqb_refl.
    rewrite (aget_nat (items v) i x Hix). cbn. rewrite Z.ltb_irrefl. eexists. split; [done|].
    split_and!; try done. apply Hxi; [done..|]. intros j z Hj Hz Hzu. by specialize (Hl j z Hj Hz).
  - change (1 =? 0) with false. cbv iota zeta.
    destruct (Z.ltb_spec (rssi x) (lowest_rssi v)) as [Hlt|Hge].
    { eexists. split; [done|]. split_and!; try done. apply Hxi; [done..|].
      intros j z Hj Hz Hzu. specialize (Hl j z Hj Hz Hzu). lia. }
    assert (Hold : exists k y, pos_rssi v = Z.of_nat k /\ (k < S i)%nat /\ P !! k = Some y /\ is_used y <> 0 /\
      rssi y = lowest_rssi v /\
      (forall j z, (j < S i)%nat -> P !! j = Some z -> is_used z <> 0 -> lowest_rssi v <= rssi z)).
    { exists k, y. split_and!; try done; [lia|].
      by apply (before_S (fun z => is_used z <> 0 -> lowest_rssi v <= rssi z) i x). }
    destruct (Z.eqb_spec (lowest_rssi v) (rssi x)) as [Heq|Hne]; [|by exists v].
    assert (Hik : items v !! k = Some y).
    { rewrite Hi, lookup_app_l; [by rewrite lookup_take_lt|].
      rewrite length_take. apply lookup_lt_Some in Hy. lia. }
    rewrite Hk, (aget_nat _ _ _ Hik). cbn.
    destruct (_ <? _); [|by exists v]. eexists. split; [done|]. split_and!; try done.
    apply Hxi; [done..|]. intros j z Hj Hz Hzu. specialize (Hl j z Hj Hz Hzu). lia.
Qed.

Lemma searched_visit i v x :
  searched i v -> P !! i = Some x -> is_used x <> 0 -> items v !! i = Some x ->
  items v = take (S i) P ++ drop (S i) l ->
  exists v', visit v i x = Done v' /\ searched (S i) v'.
Proof.
  intros Hv Hx Hu Hix Hi'. unfold visit.
  destruct (searched_low i v x Hv Hx Hu Hix) as (v1 & E & H1 & H2 & H3 & H4 & H5).
  cbv zeta in E |- *. rewrite E. cbn [mbind outcome_bind]. eexists. split; [done|].
  destruct Hv as [_ He Hs _].
  assert (He' : pos_empty v1 = -1 /\ (forall j x, (j < S i)%nat -> P !! j = Some x -> is_used x <> 0) \/
    exists k x, pos_empty v1 = Z.of_nat k /\ (k < S i)%nat /\ P !! k = Some x /\ is_used x = 0).
  { rewrite H2. destruct He as [[? He]|(k & y & ? & ? & ? & ?)]; [left|right; exists k, y; split_and!; (done || lia)].
    split; [done|]. by apply (before_S (fun z => is_used z <> 0) i x). }
  destruct (same_ap scan x) eqn:Es; constructor; cbn; try congruence; try done; try (by right).
  - right. exists i, x. split_and!; (done || lia).
  - rewrite H3. destruct Hs as [[? Hs]|(k & y & ? & ? & ? & ? & ?)];
      [left|right; exists k, y; split_and!; (done || lia)].
    split; [done|]. by apply (before_S (fun z => is_used z <> 0 -> same_ap scan z = false) i x).
Qed.

Lemma with_items_id v : with_items v (items v) = v.
Proof. by destruct v. Qed.

Lemma search_body_ok i v x :
  searched i v -> l !! i = Some x ->
  exists v', search_body cn counter scan v (Z.of_nat i) = Done v' /\ searched (S i) v'.
Proof.
  intros Hv Hx. pose proof (P_lookup i x Hx) as HPx. destruct (purged_step i x Hx) as [Hix Hins].
  pose proof (S_items _ _ Hv) as HI. rewrite <- HI in Hix, Hins.
  unfold search_body. step_with (aget_nat _ _ _ Hix). unfold purge in HPx, Hins.
  destruct (cn <? chan x).
  - step_with (aset_nat _ _ item_zero _ Hix).
    assert (Hz : <[i := item_zero]> (items v) !! i = Some item_zero)
      by (apply list_lookup_insert_eq; by eapply lookup_lt_Some).
    cbn [items with_items]. step_with (aget_nat _ _ _ Hz). cbn [is_used item_zero Z.eqb].
    eexists. split; [done|]. by eapply searched_empty.
  - cbn [mbind outcome_bind]. step_with (aget_nat _ _ _ Hix).
    destruct (is_used x =? 0) eqn:Eu.
    + eexists. split; [done|]. rewrite <- (with_items_id v) at 1.
      eapply searched_empty; [done|done|by apply Z.eqb_eq|]. by rewrite <- Hins, list_insert_id.
    + destruct (_ <? u32 _).
      * step_with (aset_nat _ _ item_zero _ Hix). eexists. split; [done|]. by eapply searched_empty.
      * apply Z.eqb_neq in Eu. apply (searched_visit i v x); try done. by rewrite <- Hins, list_insert_id.
Qed.

Lemma search_loop_ok n i v :
  searched i v -> (i + n = length l)%nat ->
  exists v', search_loop cn counter scan n (Z.of_nat i) v = Done v' /\ searched (length l) v'.
Proof.
  revert i v. induction n as [|n IH]; intros i v Hv Hn.
  - exists v. split; [done|]. by replace (length l) with i by lia.
  - destruct (lookup_lt_is_Some_2 l i) as [x Hx]; [lia|].
    destruct (search_body_ok i v x Hv Hx) as (v1 & E & Hv1). cbn [search_loop]. step_with E.
    replace (Z.of_nat i + 1) with (Z.of_nat (S i)) by lia. apply IH; [done|lia].
Qed.

Lemma searched_init :
  searched 0 {| items := l; pos_empty := -1; flag := 0; lowest_rssi := 0; pos_rssi := -1; pos_same_ssid := -1 |}.
Proof. constructor; [done|..]; left; (split; [done|]); intros; lia. Qed.

End Search.

(** ** Functional behaviour *)

(** the scan list after a beacon, before sorting: an item already listed is refreshed
    unless the new reading is weaker; else a free slot is taken; else the weakest item
    gives way to a stronger one *)
Definition stored (counter : Z) (scan : wifi_mgmr_scan_item) (p l1 : list wifi_mgmr_scan_item) : Prop :=
  (exists k x, p !! k = Some x /\ is_used x <> 0 /\ same_ap scan x = true /\
     l1 = if rssi x <=? rssi scan then <[k := update_item counter scan x]> p else p) \/
  (forall j x, p !! j = Some x -> is_used x <> 0 -> same_ap scan x = false) /\
  ((exists k x, p !! k = Some x /\ is_used x = 0 /\ l1 = <[k := new_item counter scan]> p) \/
   (forall j x, p !! j = Some x -> is_used x <> 0) /\
   exists k x, p !! k = Some x /\ (forall j y, p !! j = Some y -> rssi x <= rssi y) /\
     l1 = if rssi x <? rssi scan then <[k := new_item counter scan]> p else p).

Lemma store_beacon_ok cn counter scan l v :
  l <> [] -> searched cn counter scan l (length l) v ->
  exists l1, store_beacon counter scan v = Done l1 /\ stored counter scan (P cn counter l) l1.
Proof.
  intros Hne [Hi He Hs Hl]. set (p := P cn counter l) in *.
  assert (Hlen : length p = length l) by apply length_map.
  rewrite <- Hlen, firstn_all, Hlen, drop_all, app_nil_r in Hi.
  assert (Hlt : forall j x, p !! j = Some x -> (j < length l)%nat)
    by (intros j x H%lookup_lt_Some; by rewrite Hlen in H).
  unfold store_beacon. rewrite Hi.
  destruct Hs as [[-> Hs]|(k & x & -> & _ & Hx & Hu & Hsame)]; cbn [Z.eqb negb].
  2: { rewrite (proj2 (Z.eqb_neq (Z.of_nat k) (-1))) by lia. cbn [negb]. step_with (aget_nat _ _ _ Hx).
       exists (if rssi x <=? rssi scan then <[k := update_item counter scan x]> p else p).
       split; [destruct (_ <=? _); [by eapply aset_nat|done]|]. left. by exists k, x. }
  destruct He as [[-> He]|(k & x & -> & _ & Hx & Hu)]; cbn [Z.eqb negb].
  2: { rewrite (proj2 (Z.eqb_neq (Z.of_nat k) (-1))) by lia. cbn [negb].
       eexists. split; [by eapply aset_nat|]. right. split; [by intros; eapply Hs; eauto|].
       left. by exists k, x. }
  destruct Hl as [[_ Hl]|(_ & k & x & -> & _ & Hx & Hu & Hr & Hl)].
  { destruct l as [|y l]; [done|]. destruct (lookup_lt_is_Some_2 p 0) as [z Hz]; [rewrite Hlen; cbn; lia|].
    exfalso. apply (He 0%nat z); [cbn; lia|done|]. apply (Hl 0%nat); [cbn; lia|done]. }
  rewrite <- Hr. exists (if rssi x <? rssi scan then <[k := new_item counter scan]> p else p).
  split; [destruct (_ <? _); [by eapply aset_nat|done]|].
  right. split; [by intros; eapply Hs; eauto|]. right. split; [by intros; eapply He; eauto|].
  exists k, x. split_and!; try done. intros j y Hy. rewrite Hr. eapply Hl; [|done|]; by eauto.
Qed.

Lemma purge_rssi cn counter x : rssi_ok x -> rssi_ok (purge cn counter x).
Proof. intros H. unfold purge. by repeat case_match. Qed.

Lemma stored_Forall (Q : wifi_mgmr_scan_item -> Prop) counter scan p l1 :
  stored counter scan p l1 -> Forall Q p -> Q (new_item counter scan) ->
  (forall x, Q x -> same_ap scan x = true -> is_used x <> 0 -> Q (update_item counter scan x)) -> Forall Q l1.
Proof.
  intros Hst Hp Hn Hu.
  destruct Hst as [(k & x & Hx & Hux & Hs & ->)|[_ [(k & x & Hx & _ & ->)|[_ (k & x & Hx & _ & ->)]]]].
  - destruct (_ <=? _); [|done]. apply Forall_insert; [done|]. apply Hu; try done. by eapply Forall_lookup_1 in Hp.
  - by apply Forall_insert.
  - destruct (_ <? _); [by apply Forall_insert|done].
Qed.

Lemma stored_length counter scan p l1 : stored counter scan p l1 -> length l1 = length p.
Proof.
  intros [(k & x & _ & _ & _ & ->)|[_ [(k & x & _ & _ & ->)|[_ (k & x & _ & _ & ->)]]]];
    try destruct (_ <=? _); try destruct (_ <? _); by rewrite ?length_insert.
Qed.

(** the condition under which a beacon is taken *)
Definition accepted (cn features : Z) (scan : wifi_mgmr_scan_item) : bool :=
  (chan scan <=? cn) && negb (chan scan =? 0) &&
  (negb (default 0 (ssid scan !! 0%nat) =? 0) ||
   negb (Z.land features WIFI_MGMR_FEATURES_SCAN_SAVE_HIDDEN_SSID =? 0)).

Lemma save_body cn counter l scan :
  length l = 50%nat -> Forall rssi_ok l -> rssi_ok scan ->
  exists l1 l', (v ← search_loop cn counter scan (Z.to_nat WIFI_MGMR_SCAN_ITEMS_MAX) 0
      {| items := l; pos_empty := -1; flag := 0; lowest_rssi := 0; pos_rssi := -1; pos_same_ssid := -1 |};
    l ← store_beacon counter scan v;
    Done (0, bubble_sort (Z.to_nat (WIFI_MGMR_SCAN_ITEMS_MAX - 1)) l)) = Done (0, l') /\
    stored counter scan (P cn counter l) l1 /\ Permutation l1 l' /\ StronglySorted stronger l'.
Proof.
  intros Hlen Hok Hsc.
  destruct (search_loop_ok cn counter scan l 50 0 _ (searched_init cn counter scan l) ltac:(by rewrite Hlen))
    as (v & E & Hv). change (Z.of_nat 0) with 0 in E.
  change (Z.to_nat WIFI_MGMR_SCAN_ITEMS_MAX) with 50%nat. step_with E.
  destruct (store_beacon_ok cn counter scan l v) as (l1 & E1 & Hst); [by destruct l|done|]. step_with E1.
  assert (Hf : Forall rssi_ok l1).
  { eapply stored_Forall; [exact Hst| |done|done].
    apply Forall_forall. intros y (x & -> & Hx)%list_elem_of_fmap. apply purge_rssi.
    rewrite Forall_forall in Hok. by apply Hok. }
  destruct (bubble_sort_spec 49 l1 []) as [Hp Hs].
  - rewrite (stored_length _ _ _ _ Hst). unfold P. by rewrite length_map, Hlen.
  - done.
  - constructor.
  - apply Forall_forall. intros. constructor.
  - rewrite app_nil_r in Hp, Hs. exists l1, (bubble_sort 49 l1). by split_and!.
Qed.

Lemma save_spec cn features counter l scan :
  length l = 50%nat -> Forall rssi_ok l -> rssi_ok scan ->
  if accepted cn features scan then
    exists l1 l', wifi_mgmr_scan_beacon_save cn features counter l scan = Done (0, l') /\
      stored counter scan (P cn counter l) l1 /\ Permutation l1 l' /\ StronglySorted stronger l'
  else wifi_mgmr_scan_beacon_save cn features counter l scan = Done (-1, l).
Proof.
  intros Hlen Hok Hsc. pose proof (save_body cn counter l scan Hlen Hok Hsc) as HB.
  unfold accepted, wifi_mgmr_scan_beacon_save.
  destruct (Z.leb_spec (chan scan) cn) as [Hc|Hc];
    [rewrite (proj2 (Z.ltb_ge _ _)) by lia|by rewrite (proj2 (Z.ltb_lt _ _)) by lia].
  destruct (chan scan =? 0); [done|]. cbn [orb andb negb].
  by destruct (default 0 (ssid scan !! 0%nat) =? 0), (Z.land features _ =? 0).
Qed.

(** ** Well-formed scan lists *)

Definition ap (x : wifi_mgmr_scan_item) : list Z * list Z := (bssid x, ssid_str x).
Definition used (x : wifi_mgmr_scan_item) : bool := negb (is_used x =? 0).
(** the access points listed *)
Definition aps (l : list wifi_mgmr_scan_item) : list (list Z * list Z) := map ap (List.filter used l).

Record item_ok (cn : Z) (x : wifi_mgmr_scan_item) : Prop := {
  ok_rssi : rssi_ok x;
  ok_ssid : length (ssid x) = 32%nat /\ ssid_tail x = 0;
  ok_bssid : length (bssid x) = 6%nat;
  ok_chan : used x = true -> 1 <= chan x <= cn
}.

(** what the driver hands over *)
Record scan_ok (scan : wifi_mgmr_scan_item) : Prop := {
  sc_rssi : rssi_ok scan;
  sc_ssid : length (ssid scan) = 32%nat /\ ssid_tail scan = 0;
  sc_bssid : length (bssid scan) = 6%nat;
  sc_chan : 0 <= chan scan < 256
}.

Definition fresh (counter : Z) (x : wifi_mgmr_scan_item) : Prop :=
  used x = true -> u32 (counter - timestamp_lastseen x) <= SCAN_UPDATE_LIMIT_TIME_MS.

Definition list_ok (cn : Z) (l : list wifi_mgmr_scan_item) : Prop :=
  length l = 50%nat /\ Forall (item_ok cn) l /\ NoDup (aps l).

Lemma cstr_app_zero s t : Forall (fun c => c <> 0) s -> cstr (s ++ 0 :: t) = s.
Proof.
  induction s as [|c s IH]; cbn; [done|]. rewrite Forall_cons. intros [Hc Hs].
  rewrite (proj2 (Z.eqb_neq c 0)) by done. by rewrite IH.
Qed.
Lemma cstr_nonzero l : Forall (fun c => c <> 0) (cstr l).
Proof. induction l as [|c l IH]; cbn; [constructor|]. destruct (Z.eqb_spec c 0); by constructor. Qed.
Lemma cstr_length (l t : list Z) : (length (cstr (l ++ 0%Z :: t)) <= length l)%nat.
Proof. induction l as [|c l IH]; cbn; [done|]. destruct (c =? 0); cbn; lia. Qed.

(** copying the SSID keeps the access point *)
Lemma new_item_ap counter scan : scan_ok scan -> ap (new_item counter scan) = ap scan.
Proof.
  intros [_ [Hl Ht] Hb _]. unfold ap, ssid_str at 1, new_item. cbn [bssid ssid ssid_tail].
  rewrite take_ge by lia. f_equal. unfold ssid_str. rewrite Ht. set (s := cstr (ssid scan ++ [0])).
  assert (Hs : (length s <= 32)%nat) by (unfold s; rewrite <- Hl; apply cstr_length).
  unfold strncpy32. rewrite take_app_ge by lia. rewrite take_replicate.
  replace ((s ++ replicate ((32 - length s) `min` 32) 0) ++ [0]) with (s ++ 0 :: replicate (32 - length s) 0).
  - apply cstr_app_zero, cstr_nonzero.
  - rewrite <- app_assoc. f_equal. rewrite Nat.min_l by lia. apply (replicate_S_end (32 - length s) 0).
Qed.

Lemma same_ap_true scan x : same_ap scan x = true <-> ap x = ap scan.
Proof.
  unfold same_ap, ap. rewrite andb_true_iff, !bool_decide_eq_true. split; [intros [-> ->]; done|].
  intros [= -> ->]. done.
Qed.

Lemma aps_app a b : aps (a ++ b) = aps a ++ aps b.
Proof. unfold aps. by rewrite List.filter_app, List.map_app. Qed.
Lemma aps_cons x l : aps (x :: l) = (if used x then [ap x] else []) ++ aps l.
Proof. unfold aps. cbn. by destruct (used x). Qed.

Lemma aps_perm l l' : Permutation l l' -> Permutation (aps l) (aps l').
Proof.
  induction 1 as [|x l l' _ IH|x y l|l1 l2 l3 _ IH1 _ IH2]; [done|..].
  - rewrite !aps_cons. by rewrite IH.
  - rewrite !aps_cons, !app_assoc. apply Permutation_app_tail, Permutation_app_comm.
  - by rewrite IH1.
Qed.

Lemma aps_purge cn counter l : NoDup (aps l) -> NoDup (aps (P cn counter l)).
Proof.
  intros H. eapply sublist_NoDup; [exact H|]. clear H. induction l as [|x l IH]; [constructor|].
  unfold P. cbn [map]. rewrite !aps_cons. apply sublist_app; [|done].
  unfold purge. destruct (cn <? chan x); [apply sublist_nil_l|]. destruct (is_used x =? 0) eqn:E; [done|].
  destruct (_ <? _); [apply sublist_nil_l|done].
Qed.

Lemma elem_of_aps l y : y ∈ aps l <-> exists x, x ∈ l /\ used x = true /\ y = ap x.
Proof.
  induction l as [|x l IH]; [split; [by intros ?%elem_of_nil|by intros (x & ?%elem_of_nil & _)]|].
  rewrite aps_cons, elem_of_app, IH. split.
  - intros [Hy|(z & Hz & ?)]; [|exists z; split; [by right|done]].
    destruct (used x) eqn:E; [|by apply elem_of_nil in Hy]. apply list_elem_of_singleton in Hy.
    exists x. split; [left|done].
  - intros (z & Hz & Hu & ->). apply elem_of_cons in Hz as [->|Hz]; [left|right; by exists z].
    rewrite Hu. by apply list_elem_of_singleton.
Qed.

(** replacing the item [x] by [y] *)
Lemma insert_middle k x y (l : list wifi_mgmr_scan_item) :
  l !! k = Some x -> exists a b, l = a ++ x :: b /\ <[k := y]> l = a ++ y :: b.
Proof.
  intros H. exists (take k l), (drop (S k) l). split.
  - by rewrite take_drop_middle.
  - apply insert_take_drop. by eapply lookup_lt_Some.
Qed.

Lemma aps_new counter scan k x l :
  scan_ok scan -> l !! k = Some x -> NoDup (aps l) ->
  (forall j z, l !! j = Some z -> is_used z <> 0 -> same_ap scan z = false) ->
  NoDup (aps (<[k := new_item counter scan]> l)).
Proof.
  intros Hsc Hx Hn Hs. destruct (insert_middle k x (new_item counter scan) l Hx) as (a & b & -> & ->).
  rewrite aps_app, aps_cons. change (used (new_item counter scan)) with true. cbn [app].
  rewrite <- Permutation_middle. apply NoDup_cons. split.
  - rewrite new_item_ap, <- aps_app, elem_of_aps by done. intros (z & Hz & Hu & E).
    assert (Hz' : z ∈ a ++ x :: b) by (rewrite elem_of_app, elem_of_cons in *; tauto).
    apply list_elem_of_lookup in Hz' as [j Hj]. unfold used in Hu. apply negb_true_iff, Z.eqb_neq in Hu.
    assert (same_ap scan z = true) as E' by (by apply same_ap_true). by rewrite (Hs j z Hj Hu) in E'.
  - eapply sublist_NoDup; [exact Hn|]. rewrite !aps_app, aps_cons. apply sublist_app; [done|].
    by apply sublist_inserts_l.
Qed.

Lemma stored_aps counter scan p l1 :
  scan_ok scan -> stored counter scan p l1 -> NoDup (aps p) -> NoDup (aps l1).
Proof.
  intros Hsc Hst Hn.
  destruct Hst as [(k & x & Hx & Hux & Hs & ->)|[Hs [(k & x & Hx & _ & ->)|[_ (k & x & Hx & _ & ->)]]]].
  - destruct (_ <=? _); [|done].
    destruct (insert_middle k x (update_item counter scan x) p Hx) as (a & b & -> & ->).
    rewrite aps_app, aps_cons in Hn |- *. exact Hn.
  - by eapply aps_new.
  - destruct (_ <? _); [by eapply aps_new|done].
Qed.

Lemma item_ok_purge cn counter x : 0 <= cn -> item_ok cn x -> item_ok cn (purge cn counter x) /\ fresh counter (purge cn counter x).
Proof.
  intros Hcn Hx. assert (Hz : item_ok cn item_zero /\ fresh counter item_zero) by (by split; [constructor|]).
  unfold purge. destruct (cn <? chan x); [done|]. destruct (is_used x =? 0) eqn:Eu.
  { split; [done|]. unfold fresh, used. by rewrite Eu. }
  destruct (Z.ltb_spec SCAN_UPDATE_LIMIT_TIME_MS (u32 (counter - timestamp_lastseen x))); [done|].
  split; [done|]. intros _. done.
Qed.

Lemma fresh_now counter : u32 (counter - counter) <= SCAN_UPDATE_LIMIT_TIME_MS.
Proof. rewrite Z.sub_diag. by vm_compute. Qed.

(** ** Beacons from the firmware *)

(** a name that fits gives a well-formed item; a longer one runs over the item *)
Lemma scan_item_beacon_correct cn features counter l ch rs au mac s len pa pr ci wp mo gc :
  -128 <= rs < 128 -> 0 <= ch < 256 -> length mac = 6%nat -> 0 <= len <= Z.of_nat (length s) ->
  let r := wifi_mgmr_api_scan_item_beacon cn features counter l ch rs au mac s len pa pr ci wp mo gc in
  (len <= 32 -> exists scan, scan_ok scan /\ bssid scan = mac /\ chan scan = ch /\ rssi scan = rs /\
     take (Z.to_nat len) (ssid scan) = take (Z.to_nat len) s /\
     r = wifi_mgmr_scan_beacon_save cn features counter l scan) /\
  (32 < len -> r = Fault).
Proof.
  intros Hr Hc Hm Hl r. unfold r, wifi_mgmr_api_scan_item_beacon.
  rewrite (proj2 (Z.ltb_ge len 0)), (proj2 (Z.ltb_ge (Z.of_nat (length s)) len)), (proj2 (Nat.ltb_ge (length mac) 6)) by lia.
  split; intros H32; [|by rewrite (proj2 (Z.ltb_lt 32 len)) by lia].
  rewrite (proj2 (Z.ltb_ge 32 len)) by lia. cbn [orb]. eexists. split; [|split_and!; [..|reflexivity]].
  - constructor; cbn; try done; [|by rewrite length_take, Hm].
    split; [|done]. rewrite length_app, length_take, length_replicate. lia.
  - cbn. rewrite take_ge; [done|lia].
  - done.
  - done.
  - cbn. rewrite take_app_le, take_take by (rewrite length_take; lia). by rewrite Nat.min_id.
Qed.

(** ** Theorems *)

(** C30: what saving a beacon does.  A beacon on a channel outside the country's range,
    or without an SSID when hidden networks are not kept, is rejected with -1 and
    changes nothing.  Any other is saved with result 0: after clearing every item out
    of band or not seen for three seconds, an item for the same BSSID and SSID is
    refreshed unless the new reading is weaker, else a free slot is filled, else the
    weakest item is replaced if the new one is stronger; the list ends up a permutation
    of that, sorted by decreasing signal strength with the unused items last. *)
Theorem scan_beacon_save_correct cn features counter l scan :
  length l = Z.to_nat WIFI_MGMR_SCAN_ITEMS_MAX -> Forall rssi_ok l -> rssi_ok scan ->
  if accepted cn features scan then
    exists l1 l', wifi_mgmr_scan_beacon_save cn features counter l scan = Done (0, l') /\
      stored counter scan (map (purge cn counter) l) l1 /\ Permutation l1 l' /\ StronglySorted stronger l'
  else wifi_mgmr_scan_beacon_save cn features counter l scan = Done (-1, l).
Proof. exact (save_spec cn features counter l scan). Qed.

(** C38: the scan list stays a set of access points.  Saving a beacon never faults, and
    keeps the array at its fixed size with well-formed items, at most one per pair of
    BSSID and SSID, all used ones on a legal channel; after a successful save no used
    item is older than three seconds. *)
Theorem scan_list_invariant cn features counter l scan :
  0 <= cn -> list_ok cn l -> scan_ok scan ->
  exists ret l', wifi_mgmr_scan_beacon_save cn features counter l scan = Done (ret, l') /\
    list_ok cn l' /\ (ret = 0 -> Forall (fresh counter) l').
Proof.
  intros Hcn (Hlen & Hok & Hn) Hsc.
  assert (Hr : Forall rssi_ok l) by (eapply Forall_impl; [exact Hok|]; by intros x []).
  pose proof (save_spec cn features counter l scan Hlen Hr (sc_rssi _ Hsc)) as HS.
  destruct (accepted cn features scan) eqn:Ha; [|exists (-1), l; by split_and!].
  destruct HS as (l1 & l' & E & Hst & Hp & _). exists 0, l'. split; [done|].
  unfold accepted in Ha. apply andb_true_iff in Ha as [[H1%Z.leb_le H2%negb_true_iff%Z.eqb_neq]%andb_true_iff _].
  assert (HP : Forall (fun x => item_ok cn x /\ fresh counter x) (P cn counter l)).
  { apply Forall_forall. intros y (x & -> & Hx)%list_elem_of_fmap. apply item_ok_purge; [done|].
    rewrite Forall_forall in Hok. by apply Hok. }
  assert (H1' : Forall (fun x => item_ok cn x /\ fresh counter x) l1).
  { eapply stored_Forall; [exact Hst|exact HP|..].
    - destruct Hsc as [Hsr [Hsl Hst'] Hsb Hsch]. split; [|intros _; apply fresh_now].
      constructor; cbn; [done| |by rewrite length_take, Hsb|lia].
      unfold strncpy32. rewrite length_take, length_app, length_replicate. split; [lia|done].
    - intros x [[] _] _ _. destruct Hsc as [Hsr _ _ Hsch].
      split; [constructor; cbn; try done; lia|intros _; apply fresh_now]. }
  split.
  - split_and!.
    + rewrite <- Hp, (stored_length _ _ _ _ Hst). unfold P. by rewrite length_map.
    + rewrite <- Hp. eapply Forall_impl; [exact H1'|]. by intros x [].
    + rewrite <- (aps_perm _ _ Hp). eapply stored_aps; [done|exact Hst|]. by apply aps_purge.
  - intros _. rewrite <- Hp. eapply Forall_impl; [exact H1'|]. by intros x [].
Qed.

(** ** Witnesses *)

Definition sample_scan : wifi_mgmr_scan_item :=
  {| mode := 7; timestamp_lastseen := 0; ssid_len := 2; chan := 6; rssi := -40;
     ssid := 104 :: 105 :: replicate 30 0; ssid_tail := 0; bssid := [1; 2; 3; 4; 5; 6]; ppm_abs := 0; ppm_rel := 0;
     auth := 3; cipher := 2; is_used := 0; wps := 0; group_cipher := 0 |}.

Lemma scan_beacon_save_correct_witness :
  exists l', wifi_mgmr_scan_beacon_save 13 0 5000 (replicate 50 item_zero) sample_scan = Done (0, l') /\
    StronglySorted stronger l'.
Proof.
  destruct (scan_beacon_save_correct 13 0 5000 (replicate 50 item_zero) sample_scan) as (l1 & l' & E & _ & _ & Hs).
  - reflexivity.
  - apply Forall_replicate. unfold rssi_ok. cbn. lia.
  - unfold rssi_ok. cbn. lia.
  - exists l'. by split.
Defined.

Lemma scan_list_invariant_witness :
  exists ret l', wifi_mgmr_scan_beacon_save 13 0 5000 (replicate 50 item_zero) sample_scan = Done (ret, l') /\
    list_ok 13 l'.
Proof.
  destruct (scan_list_invariant 13 0 5000 (replicate 50 item_zero) sample_scan) as (ret & l' & E & Hl & _).
  - lia.
  - split_and!; [reflexivity|apply Forall_replicate; constructor; unfold rssi_ok; cbn; (lia || done)|apply NoDup_nil_2].
  - constructor; unfold rssi_ok; cbn; (lia || done).
  - by exists ret, l'.
Defined.
