(* ===== verification/WifiApi.v ===== *)
(** * The WiFi manager's application interface: wifi_mgmr_api.c

    Each call builds a message (with a heap payload for connect, AP start, scan and
    configuration) and posts it to the manager's queue.  C strings are lists of
    non-zero bytes, NULL is [None].  [zalloc] answers 0 for NULL.  The passphrase
    hash [wifi_mgmr_psk_cal] (PBKDF2 of the crypto library, then hex) is the
    parameter [psk_cal]; writing more than an array holds sets the fault flag. *)
From S2P Require Import Prelude StateMachine WifiProfile WifiMgmr WifiReach.

(** ** Definitions *)

Definition MAX_SSID_LEN_CHECK : Z := 32.
Definition MAX_PSK_LEN_CHECK : Z := 64.
Definition MAX_LENGTH_LIMIT : Z := 32.
Definition WIFI_MGMR_AP_CHAN_SWITCH_COUNT_DEFAULT : Z := 10.

Inductive ap_info_type := AP_INFO_TYPE_SUGGEST | AP_INFO_TYPE_PRESIST.

(** [struct ap_connect_adv] with its [ap_info] *)
Record ap_connect_adv := {
  adv_psk : option (list Z); adv_type : ap_info_type; adv_time_to_live : Z;
  adv_bssid : option (list Z); adv_band : Z; adv_freq : Z; adv_use_dhcp : Z; adv_flags : Z
}.

Definition zlen (s : list Z) : Z := Z.of_nat (length s).
Definition opt_len (s : option (list Z)) : Z := match s with Some s => zlen s | None => 0 end.

(** a zeroed array of [n] bytes with [s] copied to its front *)
Definition into (n : nat) (s : list Z) : list Z := take n (s ++ zeros n).

Section Api.
Context (answer : nat -> Z) (psk_cal : list Z -> list Z -> option (list Z)).

Definition bflb_os_zalloc : M bool :=
  r ← ask answer; if r =? 0 then mret false else emit K_alloc;; mret true.

(** the PSK of the profile: given, computed from the passphrase, or none; [None]: the
    computation failed *)
Definition connect_psk (ssid : list Z) (passphr psk : option (list Z)) : option (list Z * Z) :=
  match psk with
  | Some k => if zlen k =? 64 then Some (k, 64) else
      if (zlen k =? 0) && (8 <=? opt_len passphr) then
        match psk_cal (default [] passphr) ssid with Some k => Some (k, 64) | None => None end
      else Some (zeros 64, zlen k)
  | None =>
      if 8 <=? opt_len passphr then
        match psk_cal (default [] passphr) ssid with Some k => Some (k, 64) | None => None end
      else Some (zeros 64, 0)
  end.

Definition connect_ttl (ext : ap_connect_adv) : Z :=
  match adv_type ext with
  | AP_INFO_TYPE_PRESIST => -1
  | AP_INFO_TYPE_SUGGEST => if 0 <=? adv_time_to_live ext then adv_time_to_live ext else -1
  end.

(** the profile the call fills in *)
Definition connect_profile (ssid : list Z) (passphr : option (list Z)) (ext : ap_connect_adv)
  (psk : list Z) (psk_len : Z) : wifi_mgmr_profile_msg :=
  {| pm_ssid := into 32 ssid; pm_ssid_tail := 0; pm_ssid_len := zlen ssid;
       pm_passphr := into 64 (default [] passphr); pm_passphr_tail := 0;
       pm_psk := psk; pm_psk_tail := 0;
       pm_passphr_len := opt_len passphr; pm_psk_len := psk_len;
       pm_bssid := match adv_bssid ext with Some b => take 6 b | None => zeros 6 end;
       pm_band := if 0 <? adv_freq ext then adv_band ext else 0;
       pm_freq := if 0 <? adv_freq ext then adv_freq ext else 0;
       pm_ap_info_ttl := connect_ttl ext;
       pm_dhcp_use := adv_use_dhcp ext; pm_flags := adv_flags ext |}.

Definition wifi_mgmr_api_connect (ssid : list Z) (passphr : option (list Z)) (ext : ap_connect_adv) : M Z :=
  ok ← bflb_os_zalloc;
  if negb ok then mret (-1)
  else if 32 <? zlen ssid then crash;; mret (-1)
  else if 64 <? opt_len passphr then emit K_free;; mret (-1)
  else if negb (opt_len (adv_psk ext) =? 0) && negb (opt_len (adv_psk ext) =? 64) then emit K_free;; mret (-1)
  else match connect_psk ssid passphr (adv_psk ext) with
  | None => mret (-1)
  | Some (psk, psk_len) =>
    wifi_mgmr_api_common answer APP_CONNECT 1 2 (Some (H_profile
      (connect_profile ssid passphr ext psk psk_len)))
  end.

Definition wifi_mgmr_api_cfg_req (ops task element type len : Z) (buf : list Z) : M Z :=
  if MAX_LENGTH_LIMIT <? len then mret (-1)
  else
    ok ← bflb_os_zalloc;
    if negb ok then mret (-1)
    else wifi_mgmr_api_common answer FW_CFG_REQ 1 2 (Some (H_cfg
      {| cfg_ops := ops; cfg_task := task; cfg_element := element; cfg_type := type; cfg_length := len;
         cfg_buf := if len =? 0 then [] else take (Z.to_nat len) buf |})).

Definition wifi_mgmr_api_ap_start (ssid passwd : option (list Z)) (channel hidden_ssid max_sta_supported
  use_dhcp_server : Z) : M Z :=
  let psk_len := opt_len passwd in
  match ssid with
  | None => mret (-1)
  | Some ssid =>
    if (MAX_SSID_LEN_CHECK <? zlen ssid) ||
       (match passwd with Some _ => (psk_len <? 8) || (MAX_PSK_LEN_CHECK <=? psk_len) | None => false end)
    then mret (-1)
    else
      ok ← bflb_os_zalloc;
      if negb ok then mret (-1)
      else
        let psk := if psk_len =? 0 then Some (zeros 64) else psk_cal (default [] passwd) ssid in
        match psk with
        | None => emit K_free;; mret (-1)
        | Some k => wifi_mgmr_api_common answer APP_AP_START 1 2 (Some (H_ap
            {| ap_channel := channel; ap_ssid := into 32 ssid; ap_hidden_ssid := if hidden_ssid =? 0 then 0 else 1;
               ap_psk := k; ap_use_dhcp_server := if use_dhcp_server =? 0 then 0 else 1;
               ap_max_sta_supported := max_sta_supported |}))
        end
  end.

Definition wifi_mgmr_api_fw_scan (ch_req : wifi_mgmr_scan_params) : M Z :=
  wifi_mgmr_api_common answer FW_SCAN 1 2 (Some (H_scan ch_req)).
Definition wifi_mgmr_api_disable_autoreconnect : M Z := wifi_mgmr_api_common_msg answer GLB_DISABLE_AUTORECONNECT 1 2.
Definition wifi_mgmr_api_enable_autoreconnect : M Z := wifi_mgmr_api_common_msg answer GLB_ENABLE_AUTORECONNECT 1 2.
Definition wifi_mgmr_api_rate_config (config : Z) : M Z := wifi_mgmr_api_common_msg answer APP_RC_CONFIG config 2.
Definition wifi_mgmr_api_conf_max_sta (n : Z) : M Z := wifi_mgmr_api_common_msg answer APP_CONF_MAX_STA n 2.
Definition wifi_mgmr_api_ifaceup : M Z := wifi_mgmr_api_common_msg answer APP_PHY_UP 1 2.
Definition wifi_mgmr_api_sniffer_enable : M Z := wifi_mgmr_api_common_msg answer APP_SNIFFER 1 2.
Definition wifi_mgmr_api_fw_powersaving (mode : Z) : M Z := wifi_mgmr_api_common_msg answer FW_POWERSAVING mode 2.
Definition wifi_mgmr_api_ap_stop : M Z := wifi_mgmr_api_common_msg answer APP_AP_STOP 1 2.
Definition wifi_mgmr_api_chan_switch (channel cs_count : Z) : M Z :=
  let cs_count := if cs_count =? 0 then WIFI_MGMR_AP_CHAN_SWITCH_COUNT_DEFAULT else cs_count in
  wifi_mgmr_api_common_msg answer APP_AP_CHAN_SWITCH channel cs_count.
Definition wifi_mgmr_api_idle : M Z := wifi_mgmr_api_common_msg answer APP_IDLE 1 2.
Definition wifi_mgmr_api_denoise_disable : M Z := wifi_mgmr_api_common_msg answer APP_DENOISE 0 2.
Definition wifi_mgmr_api_channel_set (channel use_40Mhz : Z) : M Z :=
  wifi_mgmr_api_common_msg answer FW_CHANNEL_SET channel use_40Mhz.
Definition wifi_mgmr_api_raw_send (pkt len : Z) : M Z := wifi_mgmr_api_common_msg answer FW_DATA_RAW_SEND pkt len.

(** [memcpy(old, s, len); old[len] = 0] *)
Definition store_cstr (s old : list Z) : list Z := s ++ 0 :: drop (S (length s)) old.

Definition set_stat_names (ssid passphr : list Z) (e : env) : env :=
  let i := stat_info e in
  set_stat_info {| status_code := status_code i; reason_code := reason_code i; chan_freq := chan_freq i;
    stat_ssid := ssid; stat_passphr := passphr; stat_bssid := stat_bssid i; type_ind := type_ind i;
    chan_band := chan_band i |} e.

(** the name shown with the connection's status: at most one byte less than its array *)
Definition wifi_mgmr_sta_ssid_set (ssid : list Z) : M unit := modify (fun e =>
  let old := stat_ssid (stat_info e) in
  let len := Z.min (zlen ssid) (zlen old - 1) in
  if 0 <? zlen ssid then set_stat_names (store_cstr (take (Z.to_nat len) ssid) old) (stat_passphr (stat_info e)) e
  else e).

Definition wifi_mgmr_sta_passphr_set (passphr : option (list Z)) : M unit := modify (fun e =>
  let old := stat_passphr (stat_info e) in
  let len := Z.min (opt_len passphr) (zlen old - 1) in
  set_stat_names (stat_ssid (stat_info e)) (store_cstr (take (Z.to_nat len) (default [] passphr)) old) e).

(** the public connect call of wifi_mgmr_ext.c: its argument checks *)
Definition wifi_mgmr_sta_connect_ext (ssid passphr : option (list Z)) (ext : option ap_connect_adv) : M Z :=
  match ext, ssid with
  | None, _ | _, None => mret (-1)
  | Some ext, Some ssid =>
    if 32 <? zlen ssid then mret (-1)
    else if (match passphr with
             | Some p => ((zlen p <? 8) && negb (zlen p =? 5)) || (63 <? zlen p)
             | None => false end) ||
            (match adv_psk ext with Some k => negb (zlen k =? 64) | None => false end)
    then mret (-1)
    else
      wifi_mgmr_sta_ssid_set ssid;; wifi_mgmr_sta_passphr_set passphr;;
      wifi_mgmr_api_connect ssid passphr ext
  end.

(** every call of the interface *)
Inductive api_call :=
| A_connect (ssid passphr : option (list Z)) (ext : option ap_connect_adv)
| A_cfg_req (ops task element type len : Z) (buf : list Z)
| A_ap_start (ssid passwd : option (list Z)) (channel hidden max_sta dhcp : Z)
| A_scan (p : wifi_mgmr_scan_params) | A_ip_got | A_ip_update | A_reconnect
| A_disable_autoreconnect | A_enable_autoreconnect | A_disconnect | A_rate_config (c : Z) | A_conf_max_sta (n : Z)
| A_ifaceup | A_sniffer_enable | A_fw_disconnect | A_tsen_reload | A_powersaving (mode : Z) | A_ap_stop
| A_chan_switch (channel count : Z) | A_idle | A_denoise_enable | A_denoise_disable
| A_channel_set (channel use40 : Z) | A_raw_send (pkt len : Z).

Definition run_api (c : api_call) : M Z :=
  match c with
  | A_connect s p x => wifi_mgmr_sta_connect_ext s p x
  | A_cfg_req o t el ty l b => wifi_mgmr_api_cfg_req o t el ty l b
  | A_ap_start s p c h m d => wifi_mgmr_api_ap_start s p c h m d
  | A_scan p => wifi_mgmr_api_fw_scan p
  | A_ip_got => wifi_mgmr_api_ip_got answer
  | A_ip_update => wifi_mgmr_api_ip_update answer
  | A_reconnect => wifi_mgmr_api_reconnect answer
  | A_disable_autoreconnect => wifi_mgmr_api_disable_autoreconnect
  | A_enable_autoreconnect => wifi_mgmr_api_enable_autoreconnect
  | A_disconnect => wifi_mgmr_sta_disconnect answer
  | A_rate_config c => wifi_mgmr_api_rate_config c
  | A_conf_max_sta n => wifi_mgmr_api_conf_max_sta n
  | A_ifaceup => wifi_mgmr_api_ifaceup
  | A_sniffer_enable => wifi_mgmr_api_sniffer_enable
  | A_fw_disconnect => wifi_mgmr_api_fw_disconnect answer
  | A_tsen_reload => wifi_mgmr_api_fw_tsen_reload answer
  | A_powersaving m => wifi_mgmr_api_fw_powersaving m
  | A_ap_stop => wifi_mgmr_api_ap_stop
  | A_chan_switch c n => wifi_mgmr_api_chan_switch c n
  | A_idle => wifi_mgmr_api_idle
  | A_denoise_enable => wifi_mgmr_api_denoise_enable answer
  | A_denoise_disable => wifi_mgmr_api_denoise_disable
  | A_channel_set c u => wifi_mgmr_api_channel_set c u
  | A_raw_send p l => wifi_mgmr_api_raw_send p l
  end.

(** ** Lemmas *)

(** the hash writes 64 hexadecimal digits *)
Hypothesis psk_cal_64 : forall p s k, psk_cal p s = Some k -> length k = 64%nat.

Lemma into_length n s : length (into n s) = n.
Proof. unfold into, zeros. rewrite length_take, length_app, length_replicate. lia. Qed.

Lemma connect_psk_length ssid passphr psk k n :
  connect_psk ssid passphr psk = Some (k, n) -> length k = 64%nat.
Proof.
  unfold connect_psk, zlen. destruct psk as [q|].
  - destruct (Z.eqb_spec (Z.of_nat (length q)) 64); [intros [= <- _]; lia|].
    destruct (_ && _); [|by intros [= <- _]].
    destruct (psk_cal _ _) eqn:E; [intros [= <- _]; by eapply psk_cal_64|done].
  - destruct (8 <=? _); [|by intros [= <- _]].
    destruct (psk_cal _ _) eqn:E; [intros [= <- _]; by eapply psk_cal_64|done].
Qed.

Lemma keeps_zalloc pb ar ip dt up : keeps (J pb ar ip dt up) bflb_os_zalloc.
Proof.
  unfold bflb_os_zalloc. apply keeps_bind; [apply keeps_ask|intros r]. destruct (r =? 0); [apply keeps_ret|].
  apply keeps_bind; [by apply keeps_emit|intros; apply keeps_ret].
Qed.

Lemma keeps_free pb ar ip dt up (r : Z) : keeps (J pb ar ip dt up) (emit K_free;; mret r).
Proof. apply keeps_bind; [by apply keeps_emit|intros; apply keeps_ret]. Qed.

Definition ext_ok (x : ap_connect_adv) : Prop :=
  match adv_bssid x with Some b => (6 <= length b)%nat | None => True end.

Lemma connect_profile_ok ssid passphr ext k n :
  zlen ssid <= 32 -> ext_ok ext -> length k = 64%nat -> msg_ok (connect_profile ssid passphr ext k n).
Proof.
  intros Hs Hx Hk. unfold msg_ok, connect_profile.
  cbn [pm_ssid pm_passphr pm_psk pm_bssid pm_ssid_len]. rewrite !into_length.
  split_and!; try done; [|unfold zlen; lia]. unfold ext_ok in Hx.
  destruct (adv_bssid ext); [rewrite length_take; lia|done].
Qed.

Lemma keeps_connect_api pb ar ip dt up ssid passphr ext :
  zlen ssid <= 32 -> ext_ok ext -> keeps (J pb ar ip dt up) (wifi_mgmr_api_connect ssid passphr ext).
Proof.
  intros Hs Hx. unfold wifi_mgmr_api_connect. apply keeps_bind; [apply keeps_zalloc|intros ok].
  destruct (negb ok); [apply keeps_ret|]. rewrite (proj2 (Z.ltb_ge 32 (zlen ssid))) by lia.
  destruct (64 <? _); [apply keeps_free|]. destruct (_ && _); [apply keeps_free|].
  destruct (connect_psk ssid passphr (adv_psk ext)) as [[k n]|] eqn:Ek; [|apply keeps_ret].
  apply keeps_common. eexists. split; [done|]. apply connect_profile_ok; [done..|]. by eapply connect_psk_length.
Qed.

(** the arrays of the names keep their sizes, and hold what fits of the arguments *)
Lemma store_cstr_length s old : (length s < length old)%nat -> length (store_cstr s old) = length old.
Proof. intros H. unfold store_cstr. rewrite length_app. cbn [length]. rewrite length_drop. lia. Qed.

Lemma sta_names_set ssid passphr e :
  length (stat_ssid (stat_info e)) = 32%nat -> length (stat_passphr (stat_info e)) = 65%nat -> ssid <> [] ->
  let i := stat_info (snd ((wifi_mgmr_sta_ssid_set ssid;; wifi_mgmr_sta_passphr_set passphr) e)) in
  length (stat_ssid i) = 32%nat /\ length (stat_passphr i) = 65%nat /\
  (exists t, stat_ssid i = take 31 ssid ++ 0 :: t) /\
  (exists t, stat_passphr i = take 64 (default [] passphr) ++ 0 :: t).
Proof.
  intros H1 H2 Hne. unfold wifi_mgmr_sta_ssid_set, wifi_mgmr_sta_passphr_set, modify, mbind, M_bind. cbn [snd].
  assert (0 <? zlen ssid = true) as -> by (destruct ssid; [done|by apply Z.ltb_lt; unfold zlen; cbn; lia]).
  cbn [stat_info set_stat_names set_stat_info stat_ssid stat_passphr]. unfold zlen. rewrite H1, H2.
  assert (take (Z.to_nat (Z.min (Z.of_nat (length ssid)) (Z.of_nat 32 - 1))) ssid = take 31 ssid) as ->.
  { destruct (Nat.le_gt_cases (length ssid) 31); [rewrite !take_ge by lia; done|]. f_equal. lia. }
  assert (take (Z.to_nat (Z.min (opt_len passphr) (Z.of_nat 65 - 1))) (default [] passphr)
    = take 64 (default [] passphr)) as ->.
  { unfold opt_len, zlen. destruct passphr as [p|]; [|done]. cbn [default id].
    destruct (Nat.le_gt_cases (length p) 64); [rewrite !take_ge by lia; done|]. f_equal. lia. }
  split_and!; try (rewrite store_cstr_length; [done|rewrite length_take; lia]); by eexists.
Qed.

(** ** Theorems *)

Definition call_ok (c : api_call) : Prop :=
  match c with A_connect _ _ (Some x) => ext_ok x | _ => True end.

Lemma keeps_sta_connect pb ar ip dt up ssid passphr ext :
  match ext with Some x => ext_ok x | None => True end ->
  keeps (J pb ar ip dt up) (wifi_mgmr_sta_connect_ext ssid passphr ext).
Proof.
  intros Hx. unfold wifi_mgmr_sta_connect_ext. destruct ext as [x|]; [|apply keeps_ret].
  destruct ssid as [s|]; [|apply keeps_ret].
  destruct (Z.ltb_spec 32 (zlen s)); [apply keeps_ret|]. destruct (_ || _); [apply keeps_ret|].
  apply keeps_bind; [|intros _].
  { apply keeps_modify. intros e. by destruct (0 <? zlen s). }
  apply keeps_bind; [by apply keeps_modify|intros _]. by apply keeps_connect_api.
Qed.

(** C34: the interface keeps the manager's invariant.  Every call of [api_call], that is
    every call that posts to the manager's queue, connecting through the public call
    and its argument checks, with any arguments (a BSSID, when given, having its six
    bytes) and any outcome of allocation, hashing and queueing, leaves the manager in a
    state of the reachable invariant: the messages it posts carry the payload type
    their event needs, and their arrays are not written beyond their ends.  The one
    call that does not post, wifi_mgmr_api_scan_item_beacon, is not among them: it
    writes the scan list, and overruns its array for a long name
    ([ScanItems.scan_item_beacon_correct]). *)
Theorem api_keeps_invariant c m e :
  call_ok c -> sys_inv (m, e) -> sys_inv (m, snd (run_api c e)).
Proof.
  intros Hc HI. destruct c; cbn [run_api];
    try (apply keep_sys; [intros; by apply keeps_common|done]).
  - apply keep_sys; [|done]. intros. by apply keeps_sta_connect.
  - apply keep_sys; [|done]. intros. unfold wifi_mgmr_api_cfg_req. destruct (_ <? _); [apply keeps_ret|].
    apply keeps_bind; [apply keeps_zalloc|intros ok]. destruct (negb ok); [apply keeps_ret|].
    apply keeps_common. by eexists.
  - apply keep_sys; [|done]. intros. unfold wifi_mgmr_api_ap_start. destruct ssid as [s|]; [|apply keeps_ret].
    destruct (_ || _); [apply keeps_ret|]. apply keeps_bind; [apply keeps_zalloc|intros ok].
    destruct (negb ok); [apply keeps_ret|]. cbv zeta.
    destruct (if opt_len passwd =? 0 then _ else _); [|apply keeps_free].
    apply keeps_common. by eexists.
  - apply keep_sys; [|done]. intros. apply keeps_common. by eexists.
  - apply (pend_sys m e IP_GOT_BIT) in HI.
    apply (keep_sys m _ (wifi_mgmr_api_common_msg answer GLB_MGMR_WAKEUP 1 2)) in HI; [done|].
    intros. by apply keeps_common.
  - apply (pend_sys m e IP_UPDATE_BIT) in HI.
    apply (keep_sys m _ (wifi_mgmr_api_common_msg answer GLB_MGMR_WAKEUP 1 2)) in HI; [done|].
    intros. by apply keeps_common.
Qed.

(** payloads allocated and not freed *)
Fixpoint balance (t : list call) : Z :=
  match t with
  | [] => 0
  | K_alloc :: t => balance t + 1
  | K_free :: t => balance t - 1
  | _ :: t => balance t
  end.

(** the argument checks of the public connect call *)
Definition args_ok (ssid : list Z) (passphr : option (list Z)) (ext : ap_connect_adv) : bool :=
  (zlen ssid <=? 32) &&
  (match passphr with Some p => ((8 <=? zlen p) || (zlen p =? 5)) && (zlen p <=? 63) | None => true end) &&
  (match adv_psk ext with Some k => zlen k =? 64 | None => true end).

Lemma common_result ev d1 d2 d e :
  ready e <> 0 ->
  let r := wifi_mgmr_api_common answer ev d1 d2 (Some d) e in
  fault (snd r) = fault e /\
  if answer (ticks e) =? 0 then
    fst r = 0 /\ mq (snd r) = mq e ++ [{| m_ev := ev; m_data1 := d1; m_data2 := d2; m_data := Some d |}] /\
    trace (snd r) = trace e
  else fst r = -1 /\ mq (snd r) = mq e /\ trace (snd r) = K_free :: trace e.
Proof.
  intros Hr. unfold wifi_mgmr_api_common, wifi_mgmr_event_notify, mbind, M_bind, gets, ask.
  assert (wait_ready 50 e = true) as -> by (cbn; by rewrite (proj2 (Z.eqb_neq _ _) Hr)).
  by destruct (answer (ticks e) =? 0).
Qed.

(** What the public connect call posts.  With a started manager it returns 0 or -1;
    on 0 exactly one connect message was queued, whose profile holds the SSID zero
    padded, its length at most 32, the passphrase and a 64-digit key or none; on -1
    nothing was queued.  The payload it allocated is owned by the queued message or
    freed, with one exception: when hashing the passphrase fails it is leaked. *)
Theorem sta_connect_ext_correct ssid passphr ext e :
  ext_ok ext -> ready e <> 0 -> fault e = false ->
  let r := wifi_mgmr_sta_connect_ext (Some ssid) passphr (Some ext) e in
  fault (snd r) = false /\ (fst r = 0 \/ fst r = -1) /\
  (fst r = 0 -> args_ok ssid passphr ext = true /\ exists p,
     mq (snd r) = mq e ++ [{| m_ev := APP_CONNECT; m_data1 := 1; m_data2 := 2; m_data := Some (H_profile p) |}] /\
     msg_ok p /\ pm_ssid p = into 32 ssid /\ pm_ssid_len p = zlen ssid /\
     pm_passphr p = into 64 (default [] passphr) /\ pm_passphr_len p = opt_len passphr /\
     connect_psk ssid passphr (adv_psk ext) = Some (pm_psk p, pm_psk_len p) /\
     (pm_psk_len p = 0 \/ pm_psk_len p = 64) /\ -1 <= pm_ap_info_ttl p) /\
  (fst r = -1 -> mq (snd r) = mq e) /\
  balance (trace (snd r)) - balance (trace e)
  = (if fst r =? 0 then 1 else 0) +
    (if args_ok ssid passphr ext && negb (answer (ticks e) =? 0) &&
        bool_decide (connect_psk ssid passphr (adv_psk ext) = None) then 1 else 0).
Proof.
  intros Hx Hr Hf. unfold wifi_mgmr_sta_connect_ext, args_ok.
  destruct (Z.ltb_spec 32 (zlen ssid)) as [Hs|Hs].
  { rewrite (proj2 (Z.leb_gt _ _)) by lia. cbn. split_and!; try done; [by right|lia]. }
  rewrite (proj2 (Z.leb_le (zlen ssid) 32)) by lia. cbn [andb].
  assert (Hp : match passphr with Some p => ((zlen p <? 8) && negb (zlen p =? 5)) || (63 <? zlen p) | None => false end
    = negb (match passphr with Some p => ((8 <=? zlen p) || (zlen p =? 5)) && (zlen p <=? 63) | None => true end)).
  { destruct passphr as [p|]; [|done]. rewrite Z.leb_antisym, (Z.leb_antisym 63), negb_andb, negb_orb, !negb_involutive. done. }
  rewrite Hp. clear Hp.
  destruct (match passphr with Some _ => _ | None => true end) eqn:Ep; cbn [negb orb andb].
  2: { cbn. split_and!; try done; [by right|lia]. }
  assert (Hk : (match adv_psk ext with Some k => negb (zlen k =? 64) | None => false end)
    = negb (match adv_psk ext with Some k => zlen k =? 64 | None => true end)) by (by destruct (adv_psk ext)).
  rewrite Hk. clear Hk. destruct (match adv_psk ext with Some _ => _ | None => true end) eqn:Ek; cbn [negb orb andb].
  2: { cbn. split_and!; try done; [by right|lia]. }
  set (e0 := snd (wifi_mgmr_sta_passphr_set passphr (snd (wifi_mgmr_sta_ssid_set ssid e)))).
  assert (He0 : ready e0 = ready e /\ fault e0 = fault e /\ mq e0 = mq e /\ trace e0 = trace e /\ ticks e0 = ticks e).
  { unfold e0, wifi_mgmr_sta_ssid_set, modify. cbn [snd]. by destruct (0 <? zlen ssid). }
  change ((wifi_mgmr_sta_ssid_set ssid;; wifi_mgmr_sta_passphr_set passphr;; wifi_mgmr_api_connect ssid passphr ext) e)
    with (wifi_mgmr_api_connect ssid passphr ext e0).
  clearbody e0. destruct He0 as (E1 & E2 & E3 & E4 & E5).
  rewrite <- E1 in Hr. rewrite <- E2 in Hf. rewrite <- E3, <- E4, <- E5. clear E1 E2 E3 E4 E5 e.
  unfold wifi_mgmr_api_connect, bflb_os_zalloc, mbind, M_bind, ask. cbv beta iota.
  destruct (answer (ticks e0) =? 0); cbn [negb andb].
  { cbn. split_and!; try done; [by right|lia]. }
  rewrite (proj2 (Z.ltb_ge 32 (zlen ssid))) by lia.
  assert (opt_len passphr <= 64) as Hpl.
  { destruct passphr as [p|]; cbn in *; [|lia]. apply andb_true_iff in Ep as [_ Ep%Z.leb_le]. lia. }
  rewrite (proj2 (Z.ltb_ge 64 (opt_len passphr))) by lia.
  assert (negb (opt_len (adv_psk ext) =? 0) && negb (opt_len (adv_psk ext) =? 64) = false) as ->.
  { destruct (adv_psk ext); cbn [opt_len]; [rewrite Ek; by rewrite andb_false_r|done]. }
  unfold emit, modify, mbind, M_bind, mret, M_ret.
  destruct (connect_psk ssid passphr (adv_psk ext)) as [[k n]|] eqn:Eq; cbn [negb].
  2: { cbn. split_and!; try done; [by right|lia]. }
  rewrite bool_decide_false by done.
  match goal with |- context [wifi_mgmr_api_common _ _ _ _ (Some ?d) ?e1] =>
    pose proof (common_result APP_CONNECT 1 2 d e1 Hr) as HC end.
  cbv zeta in HC. destruct (answer (ticks _) =? 0) in HC;
    destruct HC as (HC1 & HC2 & HC3 & HC4); rewrite HC1, HC2, HC3, HC4; cbn [Z.eqb].
  - split_and!; try done; [by left|intros _; split; [done|]|cbn; lia]. eexists. split; [reflexivity|].
    split; [by apply connect_profile_ok; [..|eapply connect_psk_length]|].
    split_and!; try done; cbn [connect_profile pm_psk_len pm_ap_info_ttl].
    + revert Eq. unfold connect_psk. destruct (adv_psk ext); cbn in *.
      * rewrite Ek. intros [= _ <-]. by right.
      * destruct (8 <=? _); [destruct (psk_cal _ _); [|done]|]; intros [= _ <-]; [by right|by left].
    + unfold connect_ttl. destruct (adv_type ext); [|lia]. destruct (Z.leb_spec 0 (adv_time_to_live ext)); lia.
  - split_and!; try done; [by right|cbn; lia].
Qed.
End Api.

(** ** Witnesses *)

Definition fake_psk (p s : list Z) : option (list Z) := Some (replicate 64 97).
Lemma fake_psk_64 p s k : fake_psk p s = Some k -> length k = 64%nat.
Proof. by intros [= <-]. Qed.

(** allocation succeeds, then the queue takes the message *)
Definition answers (n : nat) : Z := match n with O => 1 | _ => 0 end.
Definition sample_adv : ap_connect_adv :=
  {| adv_psk := None; adv_type := AP_INFO_TYPE_SUGGEST; adv_time_to_live := 5; adv_bssid := None;
     adv_band := 0; adv_freq := 2412; adv_use_dhcp := 1; adv_flags := 0 |}.
Definition started : env := wifi_mgmr_internel_init env_zero.

Lemma api_keeps_invariant_witness :
  sys_inv (wifi_mgmr_start_fsm, snd (run_api answers fake_psk
    (A_connect (Some [104; 105]) (Some [49; 50; 51; 52; 53; 54; 55; 56]) (Some sample_adv)) started)).
Proof.
  apply (api_keeps_invariant answers fake_psk fake_psk_64
    (A_connect (Some [104; 105]) (Some [49; 50; 51; 52; 53; 54; 55; 56]) (Some sample_adv))).
  - exact I.
  - apply (reachable_inv answers). apply reach_init.
Defined.

Lemma sta_connect_ext_correct_witness :
  let r := wifi_mgmr_sta_connect_ext answers fake_psk (Some [104; 105])
    (Some [49; 50; 51; 52; 53; 54; 55; 56]) (Some sample_adv) started in
  fst r = 0 /\ balance (trace (snd r)) = 1 /\ fault (snd r) = false.
Proof.
  destruct (sta_connect_ext_correct answers fake_psk fake_psk_64 [104; 105]
    (Some [49; 50; 51; 52; 53; 54; 55; 56]) sample_adv started) as (Hf & _);
    [exact I|discriminate|reflexivity|].
  split_and!; [reflexivity|reflexivity|exact Hf].
Defined.
