(* ===== verification/Hex.v ===== *)
(** * Hexadecimal conversion: utils_hex.c

    Characters and bytes are integers.  [utils_bin2hex] is the characters it
    appends; [utils_hex2bin] fills a buffer of [buflen] bytes and returns the number
    of bytes written, 0 on error (the bytes before the error stay written). *)
From S2P Require Import Prelude.

(** ** Definitions *)

Definition hex_asc_upper : list Z := [48; 49; 50; 51; 52; 53; 54; 55; 56; 57; 65; 66; 67; 68; 69; 70].
Definition hex_asc_lo (x : Z) : Z := nth (Z.to_nat (Z.land x 15)) hex_asc_upper 0.
Definition hex_asc_hi (x : Z) : Z := nth (Z.to_nat (Z.shiftr (Z.land x 240) 4)) hex_asc_upper 0.
Definition hex_byte_pack (byte : Z) : list Z := [hex_asc_hi byte; hex_asc_lo byte].

Definition char2hex (c : Z) : option Z :=
  if (48 <=? c) && (c <=? 57) then Some (c - 48)
  else if (97 <=? c) && (c <=? 102) then Some (c - 97 + 10)
  else if (65 <=? c) && (c <=? 70) then Some (c - 65 + 10)
  else None.

Fixpoint utils_bin2hex (src : list Z) : list Z :=
  match src with [] => [] | b :: src => hex_byte_pack b ++ utils_bin2hex src end.

(** the [for] loop at pair [i]; [hex] is what is left of the string *)
Fixpoint hex2bin_loop (hex : list Z) (i : Z) (buf : list Z) : outcome (bool * list Z) :=
  match hex with
  | c1 :: c2 :: hex =>
    match char2hex c1 with
    | None => Done (false, buf)
    | Some d =>
      buf ← aset buf i (u8 (Z.shiftl d 4));
      match char2hex c2 with
      | None => Done (false, buf)
      | Some d => x ← aget buf i; buf ← aset buf i (u8 (x + d)); hex2bin_loop hex (i + 1) buf
      end
    end
  | _ => Done (true, buf)
  end.

Definition utils_hex2bin (hex buf : list Z) : outcome (Z * list Z) :=
  let hexlen := Z.of_nat (length hex) in
  if Z.of_nat (length buf) <? hexlen / 2 + hexlen mod 2 then Done (0, buf)
  else if negb (hexlen mod 2 =? 0) then
    match hex with
    | [] => Done (0, buf)
    | c :: hex' =>
      match char2hex c with
      | None => Done (0, buf)
      | Some d =>
        buf ← aset buf 0 d;
        '(ok, buf) ← hex2bin_loop hex' 1 buf;
        Done (if (ok : bool) then hexlen / 2 + hexlen mod 2 else 0, buf)
      end
    end
  else
    '(ok, buf) ← hex2bin_loop hex 0 buf;
    Done (if (ok : bool) then hexlen / 2 + hexlen mod 2 else 0, buf).

(** ** Specification: numbers *)

Definition digits (hex : list Z) : option (list Z) := mapM char2hex hex.

(** the value of a big-endian numeral *)
Definition numeral (base : Z) (ds : list Z) : Z := fold_left (fun a d => a * base + d) ds 0.

(** the bytes of an even number of digits *)
Fixpoint pairs (ds : list Z) : list Z :=
  match ds with d1 :: d2 :: ds => (16 * d1 + d2) :: pairs ds | _ => [] end.

Lemma char2hex_bound c d : char2hex c = Some d -> 0 <= d < 16.
Proof.
  unfold char2hex.
  destruct (Z.leb_spec 48 c), (Z.leb_spec c 57), (Z.leb_spec 97 c), (Z.leb_spec c 102), (Z.leb_spec 65 c), (Z.leb_spec c 70);
    cbn; intros [= <-]; lia.
Qed.

Lemma digits_bound hex ds : digits hex = Some ds -> Forall (fun d => 0 <= d < 16) ds /\ length ds = length hex.
Proof.
  intros H. split; [|by apply length_mapM in H]. unfold digits in H. apply mapM_Some_1 in H.
  induction H as [|c d hex ds Hc _ IH]; constructor; [by apply (char2hex_bound c)|done].
Qed.

Lemma nibbles d1 d2 : 0 <= d1 < 16 -> 0 <= d2 < 16 -> u8 (u8 (Z.shiftl d1 4) + d2) = 16 * d1 + d2.
Proof.
  intros H1 H2. rewrite Z.shiftl_mul_pow2 by lia. unfold u8, wrap. change (2 ^ 4) with 16. change (2 ^ 8) with 256.
  rewrite (Z.mod_small (d1 * 16)) by lia. rewrite Z.mod_small; lia.
Qed.

(** the loop writes the bytes of the digits, and fails exactly on a bad character *)
Lemma hex2bin_loop_spec (n : nat) hex pre buf :
  length hex = (2 * n)%nat -> length buf = n ->
  forall rest, exists ok out, hex2bin_loop hex (Z.of_nat (length pre)) (pre ++ buf ++ rest) = Done (ok, pre ++ out ++ rest) /\
    length out = n /\ ok = bool_decide (is_Some (digits hex)) /\
    (forall ds, digits hex = Some ds -> out = pairs ds).
Proof.
  revert hex pre buf. induction n as [|n IH]; intros hex pre buf Hl Hb rest.
  - destruct hex; [|cbn in Hl; lia]. destruct buf; [|done]. exists true, []. by split_and!; [..|intros ds [= <-]].
  - destruct hex as [|c1 [|c2 hex]]; try (cbn in Hl; lia). destruct buf as [|b buf]; [done|].
    cbn [hex2bin_loop]. unfold digits. cbn [mapM].
    destruct (char2hex c1) as [d1|] eqn:E1; [|exists false, (b :: buf); split_and!; try done; intros ds; discriminate].
    assert (Hset : forall v w, aset (pre ++ (w :: buf) ++ rest) (Z.of_nat (length pre)) v = Done (pre ++ (v :: buf) ++ rest)).
    { intros v w. unfold aset. rewrite decide_True by (rewrite !length_app; cbn; lia).
      rewrite Nat2Z.id. cbn [app]. by rewrite insert_app_r_alt, Nat.sub_diag by lia. }
    step_with (Hset (u8 (Z.shiftl d1 4)) b).
    destruct (char2hex c2) as [d2|] eqn:E2.
    2: { exists false, (u8 (Z.shiftl d1 4) :: buf). cbn. by split_and!. }
    assert (Hget : aget (pre ++ (u8 (Z.shiftl d1 4) :: buf) ++ rest) (Z.of_nat (length pre)) = Done (u8 (Z.shiftl d1 4))).
    { unfold aget. rewrite decide_True by lia. rewrite Nat2Z.id. cbn [app]. by rewrite list_lookup_middle. }
    step_with Hget. step_with (Hset (u8 (u8 (Z.shiftl d1 4) + d2)) (u8 (Z.shiftl d1 4))).
    rewrite nibbles by (by eapply char2hex_bound).
    destruct (IH hex (pre ++ [16 * d1 + d2]) buf ltac:(cbn in Hl; lia) ltac:(cbn in Hb; lia) rest) as (ok & out & E & Ho & Hok & Hp).
    exists ok, ((16 * d1 + d2) :: out).
    rewrite length_app, <- !app_assoc in E. cbn [length app] in E |- *.
    replace (Z.of_nat (length pre) + 1) with (Z.of_nat (length pre + 1)) by lia. rewrite E.
    split_and!; [done|by rewrite Ho| |].
    + rewrite Hok. unfold digits. cbn. destruct (mapM char2hex hex); done.
    + intros ds. cbn. destruct (mapM char2hex hex) as [ds'|] eqn:Ed; [|done]. intros [= <-]. cbn. f_equal. by apply Hp.
Qed.

Lemma numeral_app base a b : numeral base (a ++ b) = numeral base a * base ^ Z.of_nat (length b) + numeral base b.
Proof.
  unfold numeral. rewrite fold_left_app. generalize (fold_left (fun a d => a * base + d) a 0). intros x.
  revert x. induction b as [|d b IH] using rev_ind; intros x; [cbn; lia|].
  rewrite !fold_left_app. cbn [fold_left]. rewrite IH, length_app. cbn [length].
  replace (Z.of_nat (length b + 1)) with (Z.of_nat (length b) + 1) by lia. rewrite Z.pow_add_r by lia. lia.
Qed.

(** bytes made of digit pairs denote the same number *)
Lemma numeral_pairs n ds : length ds = (2 * n)%nat -> numeral 256 (pairs ds) = numeral 16 ds /\ length (pairs ds) = n.
Proof.
  revert ds. induction n as [|n IH]; intros ds Hl; [destruct ds; [done|cbn in Hl; lia]|].
  destruct ds as [|d1 [|d2 ds]]; try (cbn in Hl; lia). destruct (IH ds) as [IHv IHl]; [cbn in Hl; lia|].
  cbn [pairs]. split; [|cbn; lia].
  change (16 * d1 + d2 :: pairs ds) with ([16 * d1 + d2] ++ pairs ds). change (d1 :: d2 :: ds) with ([d1; d2] ++ ds).
  rewrite !numeral_app, IHv, IHl. cbn in Hl. replace (length ds) with (2 * n)%nat by lia.
  rewrite Nat2Z.inj_mul. change (Z.of_nat 2) with 2. rewrite Z.pow_mul_r by lia. change (16 ^ 2) with 256.
  unfold numeral at 1 3. cbn [fold_left]. lia.
Qed.

(** [utils_hex2bin] computes the number the string denotes.  With room for the
    result, it returns the number of bytes if all characters are hexadecimal digits of
    either case, and 0 otherwise; on success the bytes written are the big-endian
    value of the string, an odd string having an implicit leading zero digit, and the
    rest of the buffer is untouched.  Without room it returns 0 and writes nothing. *)
Theorem utils_hex2bin_correct hex buf :
  let n := ((length hex + 1) / 2)%nat in
  exists ret buf', utils_hex2bin hex buf = Done (ret, buf') /\ length buf' = length buf /\
    ((length buf < n)%nat -> ret = 0 /\ buf' = buf) /\
    ((n <= length buf)%nat -> drop n buf' = drop n buf /\
       match digits hex with
       | None => ret = 0
       | Some ds => ret = Z.of_nat n /\ numeral 256 (take n buf') = numeral 16 ds
       end).
Proof.
  intros n. unfold utils_hex2bin.
  assert (Hn : Z.of_nat (length hex) / 2 + Z.of_nat (length hex) mod 2 = Z.of_nat n)
    by (unfold n; rewrite Nat2Z.inj_div, Nat2Z.inj_add; Z.to_euclidean_division_equations; lia).
  clearbody n. rewrite Hn. destruct (Z.ltb_spec (Z.of_nat (length buf)) (Z.of_nat n)) as [Hlt|Hge].
  { exists 0, buf. split_and!; try done. lia. }
  destruct (Nat.Even_or_Odd (length hex)) as [[k Hk]|[k Hk]].
  - assert (n = k) as En by (rewrite Hk in Hn; Z.to_euclidean_division_equations; lia).
    rewrite (proj2 (Z.eqb_eq (Z.of_nat (length hex) mod 2) 0)) by (rewrite Hk; Z.to_euclidean_division_equations; lia).
    cbn [negb].
    destruct (hex2bin_loop_spec k hex [] (take k buf) Hk ltac:(rewrite length_take; lia) (drop k buf))
      as (ok & out & E & Ho & Hok & Hp).
    rewrite take_drop in E. cbn [app length] in E. change (Z.of_nat 0) with 0 in E. step_with E.
    eexists _, _. split; [reflexivity|]. split; [rewrite length_app, length_drop; lia|]. split; [lia|].
    intros _. rewrite En. split; [by rewrite drop_app_length' by done|].
    subst ok. destruct (digits hex) as [ds|] eqn:Ed; cbn; [|done]. split; [done|].
    rewrite take_app_length' by done. rewrite (Hp ds eq_refl). apply digits_bound in Ed as [_ Ed].
    apply (numeral_pairs k). lia.
  - assert (n = S k) as En by (rewrite Hk in Hn; Z.to_euclidean_division_equations; lia).
    assert (Z.of_nat (length hex) mod 2 =? 0 = false) as -> by
      (apply Z.eqb_neq; rewrite Hk; Z.to_euclidean_division_equations; lia).
    cbn [negb]. destruct hex as [|c hex]; [cbn in Hk; lia|]. unfold digits. cbn [mapM].
    destruct (char2hex c) as [d|] eqn:Ec; [|exists 0, buf; split_and!; try done; lia].
    destruct buf as [|b buf]; [cbn in Hge; lia|].
    change (aset (b :: buf) 0 d) with (Done (d :: buf)). cbn [mbind outcome_bind].
    destruct (hex2bin_loop_spec k hex [d] (take k buf) ltac:(cbn in Hk; lia) ltac:(rewrite length_take; cbn in Hge; lia) (drop k buf))
      as (ok & out & E & Ho & Hok & Hp).
    rewrite take_drop in E. cbn [app length] in E. change (Z.of_nat 1) with 1 in E. step_with E.
    eexists _, _. split; [reflexivity|]. cbn [app].
    split; [cbn; rewrite length_app, length_drop; cbn in Hge; lia|]. split; [lia|].
    intros _. rewrite En. cbn [drop take]. split; [by rewrite drop_app_length' by done|].
    subst ok. unfold digits in *. destruct (mapM char2hex hex) as [ds|] eqn:Ed; cbn -[numeral]; [|done]. split; [done|].
    rewrite take_app_length' by done. rewrite (Hp ds eq_refl).
    destruct (digits_bound hex ds Ed) as [_ Ed']. destruct (numeral_pairs k ds) as [Hv Hl2]; [cbn in Hk; lia|].
    pose proof (numeral_app 256 [d] (pairs ds)) as N1. pose proof (numeral_app 16 [d] ds) as N2.
    cbn [app] in N1, N2. rewrite N1, N2, Hv, Hl2, Ed'. cbn in Hk. replace (length hex) with (2 * k)%nat by lia.
    rewrite Nat2Z.inj_mul. change (Z.of_nat 2) with 2. rewrite Z.pow_mul_r by lia. change (16 ^ 2) with 256.
    done.
Qed.

Lemma hex_byte_roundtrip b :
  byte_ok b -> char2hex (hex_asc_hi b) = Some (b / 16) /\ char2hex (hex_asc_lo b) = Some (b mod 16).
Proof.
  intros Hb. unfold byte_ok in Hb.
  assert (Hall : forallb (fun b => bool_decide (char2hex (hex_asc_hi b) = Some (b / 16) /\
            char2hex (hex_asc_lo b) = Some (b mod 16))) (map Z.of_nat (seq 0 256)) = true)
    by (vm_compute; reflexivity).
  rewrite forallb_forall in Hall. apply (proj1 (bool_decide_eq_true _)), Hall.
  apply in_map_iff. exists (Z.to_nat b). split; [lia|]. apply in_seq. lia.
Qed.

Lemma digits_bin2hex xs : Forall byte_ok xs -> exists ds, digits (utils_bin2hex xs) = Some ds /\ pairs ds = xs.
Proof.
  induction 1 as [|b xs Hb _ (ds & Hd & Hp)]; [by exists []|].
  exists (b / 16 :: b mod 16 :: ds). cbn [utils_bin2hex]. unfold digits in *.
  destruct (hex_byte_roundtrip b Hb) as [H1 H2]. unfold hex_byte_pack. cbn [app mapM].
  rewrite H1, H2. cbn [mbind option_bind]. rewrite Hd. split; [done|]. cbn [pairs]. f_equal; [|done].
  pose proof (Z.div_mod b 16). lia.
Qed.

Lemma bin2hex_length xs : length (utils_bin2hex xs) = (2 * length xs)%nat.
Proof. induction xs as [|b xs IH]; [done|]. cbn [utils_bin2hex]. rewrite length_app, IH. cbn. lia. Qed.

(** Hexadecimal round trip: printing bytes with [utils_bin2hex] and reading them
    back with [utils_hex2bin] into a buffer with room returns the number of bytes and
    the bytes themselves. *)
Theorem utils_hex_roundtrip xs buf :
  Forall byte_ok xs -> (length xs <= length buf)%nat ->
  utils_hex2bin (utils_bin2hex xs) buf = Done (Z.of_nat (length xs), xs ++ drop (length xs) buf).
Proof.
  intros Hx Hb. destruct (digits_bin2hex xs Hx) as (ds & Hd & Hp). pose proof (bin2hex_length xs) as Hl.
  unfold utils_hex2bin. rewrite Hl, Nat2Z.inj_mul.
  replace (Z.of_nat 2 * Z.of_nat (length xs) / 2 + (Z.of_nat 2 * Z.of_nat (length xs)) mod 2)
    with (Z.of_nat (length xs)) by (Z.to_euclidean_division_equations; lia).
  replace ((Z.of_nat 2 * Z.of_nat (length xs)) mod 2) with 0 by (Z.to_euclidean_division_equations; lia).
  rewrite (proj2 (Z.ltb_ge _ _)) by lia. cbn [Z.eqb negb].
  destruct (hex2bin_loop_spec (length xs) (utils_bin2hex xs) [] (take (length xs) buf) Hl
    ltac:(rewrite length_take; lia) (drop (length xs) buf)) as (ok & out & E & _ & Hok & Ho).
  rewrite take_drop in E. cbn [app length] in E. change (Z.of_nat 0) with 0 in E. step_with E.
  rewrite (Ho ds Hd), Hp, Hok, Hd. done.
Qed.

(** ** Witness *)
Lemma utils_hex_roundtrip_witness :
  utils_hex2bin (utils_bin2hex [222; 173; 190; 239]) [0; 0; 0; 0; 7] = Done (4, [222; 173; 190; 239; 7]).
Proof.
  apply (utils_hex_roundtrip [222; 173; 190; 239] [0; 0; 0; 0; 7]); [|cbn; lia].
  repeat constructor; unfold byte_ok; lia.
Defined.
