(* ===== verification/Base64.v ===== *)
(** * Base64: utils_base64.c

    Bytes are integers.  A caller's output buffer is the list of its bytes; writing
    past it is a fault.  The decoding table is the one [build_decoding_table] fills
    once (entries it does not set stay 0).  The stream encoder's read callback
    delivers the bytes of a list and then reports the end, again on every later
    call; what its write callback receives is collected in order. *)
From S2P Require Import Prelude.

(** ** Definitions *)

Definition FAIL_RETURN : Z := 0.
Definition SUCCESS_RETURN : Z := 1.

Definition g_encodingTable : list Z :=
  [65; 66; 67; 68; 69; 70; 71; 72; 73; 74; 75; 76; 77; 78; 79; 80;
   81; 82; 83; 84; 85; 86; 87; 88; 89; 90; 97; 98; 99; 100; 101; 102;
   103; 104; 105; 106; 107; 108; 109; 110; 111; 112; 113; 114; 115; 116; 117; 118;
   119; 120; 121; 122; 48; 49; 50; 51; 52; 53; 54; 55; 56; 57; 43; 47].
Definition g_modTable : list Z := [0; 2; 1].
Definition EQ : Z := 61.

Definition build_decoding_table : list Z :=
  fold_left (fun t i => <[Z.to_nat (nth i g_encodingTable 0) := Z.of_nat i]> t) (seq 0 64) (replicate 256 0).

Definition enc6 (x : Z) : Z := nth (Z.to_nat (Z.land x 63)) g_encodingTable 0.

(** the four characters of three octets *)
Definition encode_triple (a b c : Z) : list Z :=
  let triple := u32 (Z.shiftl a 16 + Z.shiftl b 8 + c) in
  [enc6 (Z.shiftr triple 18); enc6 (Z.shiftr triple 12); enc6 (Z.shiftr triple 6); enc6 (Z.shiftr triple 0)].

(** the loop: octets past the end are 0 *)
Fixpoint encode_loop (data : list Z) : list Z :=
  match data with
  | a :: b :: c :: data => encode_triple a b c ++ encode_loop data
  | [a; b] => encode_triple a b 0
  | [a] => encode_triple a 0 0
  | [] => []
  end.

(** [for (i = 0; i < k; i++) out[n - 1 - i] = '=';] *)
Fixpoint pad_loop (k : nat) (n : Z) (out : list Z) : outcome (list Z) :=
  match k with
  | O => Done out
  | S k => out ← pad_loop k n out; aset out (n - 1 - Z.of_nat k) EQ
  end.

(** write [out] at the front of the buffer *)
Definition write_front (buf out : list Z) : outcome (list Z) :=
  if decide (length out <= length buf)%nat then Done (out ++ drop (length out) buf) else Fault.

(** the result, [*outputLength] when it is set, and the buffer *)
Definition utils_base64encode (data : list Z) (outputLenMax : Z) (encodedData : option (list Z))
  : outcome (Z * option Z * option (list Z)) :=
  match encodedData with
  | None => Done (FAIL_RETURN, None, None)
  | Some buf =>
    let inputLength := Z.of_nat (length data) in
    let outputLength := u32 (4 * (u32 (inputLength + 2) / 3)) in
    if outputLenMax <? outputLength then Done (FAIL_RETURN, Some outputLength, Some buf)
    else
      buf ← write_front buf (encode_loop data);
      buf ← pad_loop (Z.to_nat (nth (Z.to_nat (inputLength mod 3)) g_modTable 0)) outputLength buf;
      Done (SUCCESS_RETURN, Some outputLength, Some buf)
  end.

(** one call of the read callback: the end flag, the byte, and what is left *)
Definition read_data (l : list Z) : Z * Z * list Z :=
  match l with [] => (1, 0, []) | c :: l => (0, c, l) end.

(** one octet of the stream: [(end = read_data(&c)) ? (remainder = ..., 0) : c] *)
Definition stream_octet (k : Z) (l : list Z) (remainder : Z) : Z * Z * Z * list Z :=
  let '(e, c, l) := read_data l in
  if negb (e =? 0) then (e, 0, (if 0 <=? remainder then remainder else k), l) else (e, c, remainder, l).

Fixpoint stream_loop (fuel : nat) (l : list Z) (remainder : Z) (out : list (list Z)) : outcome (list (list Z)) :=
  match fuel with
  | O => NoFuel
  | S fuel =>
    let '(_, octet_a, remainder, l) := stream_octet 0 l remainder in
    let '(_, octet_b, remainder, l) := stream_octet 1 l remainder in
    let '(e, octet_c, remainder, l) := stream_octet 2 l remainder in
    if negb (e =? 0) && (remainder =? 0) then Done out
    else
      let encodedData := encode_triple octet_a octet_b octet_c in
      if e =? 0 then stream_loop fuel l remainder (out ++ [encodedData])
      else
        encodedData ← pad_loop (Z.to_nat (nth (Z.to_nat remainder) g_modTable 0)) 4 encodedData;
        Done (out ++ [encodedData])
  end.

Definition utils_base64_encode_stream (l : list Z) : outcome (list (list Z)) :=
  stream_loop (S (length l)) l (-1) [].

(** the value of one character *)
Definition sextet (c : Z) : outcome Z := if c =? EQ then Done 0 else aget build_decoding_table c.

(** [if (j < outputLength) decodedData[j++] = b;] *)
Definition emit_byte (outputLength : Z) (out : list Z) (b : Z) : list Z :=
  if Z.of_nat (length out) <? outputLength then out ++ [b] else out.

Fixpoint decode_loop (data : list Z) (outputLength : Z) (out : list Z) : outcome (list Z) :=
  match data with
  | c1 :: c2 :: c3 :: c4 :: data =>
    sextet_a ← sextet c1; sextet_b ← sextet c2; sextet_c ← sextet c3; sextet_d ← sextet c4;
    let triple := u32 (Z.shiftl sextet_a 18 + Z.shiftl sextet_b 12 + Z.shiftl sextet_c 6 + Z.shiftl sextet_d 0) in
    let out := emit_byte outputLength out (Z.land (Z.shiftr triple 16) 255) in
    let out := emit_byte outputLength out (Z.land (Z.shiftr triple 8) 255) in
    let out := emit_byte outputLength out (Z.land (Z.shiftr triple 0) 255) in
    decode_loop data outputLength out
  | _ => Done out
  end.

Definition utils_base64decode (data : list Z) (outputLenMax : Z) (decodedData : list Z)
  : outcome (Z * option Z * list Z) :=
  let inputLength := Z.of_nat (length data) in
  if negb (inputLength mod 4 =? 0) then Done (FAIL_RETURN, None, decodedData)
  else
    let outputLength := u32 (inputLength / 4 * 3) in
    c ← aget data (u32 (inputLength - 1));
    let outputLength := if c =? EQ then u32 (outputLength - 1) else outputLength in
    c ← aget data (u32 (inputLength - 2));
    let outputLength := if c =? EQ then u32 (outputLength - 1) else outputLength in
    if outputLenMax <? outputLength then Done (FAIL_RETURN, Some outputLength, decodedData)
    else
      out ← decode_loop data outputLength [];
      buf ← write_front decodedData out;
      Done (SUCCESS_RETURN, Some outputLength, buf).

(** ** Sextets *)

Lemma enc6_dec x : 0 <= x < 64 -> sextet (enc6 x) = Done x /\ enc6 x <> EQ.
Proof.
  intros Hx.
  assert (H : forallb (fun x => match sextet (enc6 x) with Done y => y =? x | _ => false end
              && negb (enc6 x =? EQ)) (map Z.of_nat (seq 0 64)) = true) by (vm_compute; reflexivity).
  rewrite forallb_forall in H. specialize (H x). rewrite andb_true_iff, negb_true_iff in H.
  destruct H as [H1 H2%Z.eqb_neq].
  - apply in_map_iff. exists (Z.to_nat x). split; [lia|]. apply in_seq. lia.
  - split; [|done]. destruct (sextet (enc6 x)); try done. apply Z.eqb_eq in H1. congruence.
Qed.

Lemma enc6_eq x y : x mod 64 = y mod 64 -> enc6 x = enc6 y.
Proof.
  intros H. unfold enc6. change 63 with (Z.ones 6). rewrite !Z.land_ones by lia.
  change (2 ^ 6) with 64. by rewrite H.
Qed.

(** the four sextets of three octets *)
Lemma encode_triple_sextets a b c :
  byte_ok a -> byte_ok b -> byte_ok c ->
  encode_triple a b c = [enc6 (a / 4); enc6 (a mod 4 * 16 + b / 16); enc6 (b mod 16 * 4 + c / 64); enc6 (c mod 64)].
Proof.
  unfold byte_ok. intros Ha Hb Hc. unfold encode_triple. rewrite !Z.shiftl_mul_pow2, !Z.shiftr_div_pow2 by lia.
  unfold u32, wrap. rewrite (Z.mod_small (_ + _ + _)) by lia.
  change (2 ^ 16) with 65536. change (2 ^ 8) with 256. change (2 ^ 18) with 262144. change (2 ^ 12) with 4096.
  change (2 ^ 6) with 64. change (2 ^ 0) with 1.
  f_equal; [|f_equal; [|f_equal; [|f_equal]]]; apply enc6_eq; Z.to_euclidean_division_equations; lia.
Qed.

Lemma emit_byte_lt n out b : Z.of_nat (length out) < n -> emit_byte n out b = out ++ [b].
Proof. intros H. unfold emit_byte. by rewrite (proj2 (Z.ltb_lt _ _)) by lia. Qed.
Lemma emit_byte_ge n out b : n <= Z.of_nat (length out) -> emit_byte n out b = out.
Proof. intros H. unfold emit_byte. by rewrite (proj2 (Z.ltb_ge _ _)) by lia. Qed.

Lemma decode_quad a b c data n out :
  byte_ok a -> byte_ok b -> byte_ok c ->
  decode_loop (encode_triple a b c ++ data) n out
  = decode_loop data n (emit_byte n (emit_byte n (emit_byte n out a) b) c).
Proof.
  intros Ha Hb Hc. rewrite encode_triple_sextets by done. unfold byte_ok in *. cbn [app decode_loop].
  rewrite !(fun x H => proj1 (enc6_dec x H)) by (Z.to_euclidean_division_equations; lia).
  cbn [mbind outcome_bind]. rewrite !Z.shiftl_mul_pow2, !Z.shiftr_div_pow2 by lia.
  change 255 with (Z.ones 8). rewrite !Z.land_ones by lia.
  change (2 ^ 18) with 262144. change (2 ^ 12) with 4096. change (2 ^ 6) with 64. change (2 ^ 0) with 1.
  change (2 ^ 16) with 65536. change (2 ^ 8) with 256.
  assert (Ht : u32 (a / 4 * 262144 + (a mod 4 * 16 + b / 16) * 4096 + (b mod 16 * 4 + c / 64) * 64 + c mod 64 * 1)
    = a * 65536 + b * 256 + c).
  { unfold u32, wrap. rewrite Z.mod_small; Z.to_euclidean_division_equations; lia. }
  rewrite Ht. f_equal. f_equal; [f_equal; [f_equal|]|]; Z.to_euclidean_division_equations; lia.
Qed.

(** with one or two characters of padding *)
Lemma decode_pad1 a b n out :
  byte_ok a -> byte_ok b -> Z.of_nat (length out) + 2 = n ->
  decode_loop (take 3 (encode_triple a b 0) ++ [EQ]) n out = Done (out ++ [a; b]).
Proof.
  intros Ha Hb Hn. rewrite encode_triple_sextets by done. unfold byte_ok in *. cbn [app take decode_loop].
  rewrite !(fun x H => proj1 (enc6_dec x H)) by (Z.to_euclidean_division_equations; lia).
  unfold sextet. rewrite Z.eqb_refl. cbn [mbind outcome_bind].
  rewrite !Z.shiftl_mul_pow2, !Z.shiftr_div_pow2 by lia.
  change 255 with (Z.ones 8). rewrite !Z.land_ones by lia.
  change (2 ^ 18) with 262144. change (2 ^ 12) with 4096. change (2 ^ 6) with 64. change (2 ^ 0) with 1.
  change (2 ^ 16) with 65536. change (2 ^ 8) with 256.
  assert (Ht : u32 (a / 4 * 262144 + (a mod 4 * 16 + b / 16) * 4096 + (b mod 16 * 4 + 0 / 64) * 64 + 0 * 1)
    = a * 65536 + b * 256).
  { unfold u32, wrap. rewrite Z.mod_small; Z.to_euclidean_division_equations; lia. }
  rewrite Ht, (emit_byte_lt n out) by lia.
  rewrite (emit_byte_lt n (out ++ _)) by (rewrite length_app; cbn; lia).
  rewrite emit_byte_ge by (rewrite !length_app; cbn; lia).
  rewrite <- app_assoc. cbn [app]. do 2 f_equal. f_equal; [|f_equal]; Z.to_euclidean_division_equations; lia.
Qed.

Lemma decode_pad2 a n out :
  byte_ok a -> Z.of_nat (length out) + 1 = n ->
  decode_loop (take 2 (encode_triple a 0 0) ++ [EQ; EQ]) n out = Done (out ++ [a]).
Proof.
  intros Ha Hn. rewrite encode_triple_sextets by done. unfold byte_ok in *. cbn [app take decode_loop].
  rewrite !(fun x H => proj1 (enc6_dec x H)) by (Z.to_euclidean_division_equations; lia).
  unfold sextet. rewrite Z.eqb_refl. cbn [mbind outcome_bind].
  rewrite !Z.shiftl_mul_pow2, !Z.shiftr_div_pow2 by lia.
  change 255 with (Z.ones 8). rewrite !Z.land_ones by lia.
  change (2 ^ 18) with 262144. change (2 ^ 12) with 4096. change (2 ^ 6) with 64. change (2 ^ 0) with 1.
  change (2 ^ 16) with 65536. change (2 ^ 8) with 256.
  assert (Ht : u32 (a / 4 * 262144 + (a mod 4 * 16 + 0 / 16) * 4096 + 0 * 64 + 0 * 1) = a * 65536).
  { unfold u32, wrap. rewrite Z.mod_small; Z.to_euclidean_division_equations; lia. }
  rewrite Ht, (emit_byte_lt n out) by lia.
  rewrite !(emit_byte_ge n (out ++ _)) by (rewrite length_app; cbn; lia).
  do 2 f_equal. f_equal. Z.to_euclidean_division_equations; lia.
Qed.

(** ** The encoding as a function *)

Fixpoint base64 (data : list Z) : list Z :=
  match data with
  | a :: b :: c :: data => encode_triple a b c ++ base64 data
  | [a; b] => take 3 (encode_triple a b 0) ++ [EQ]
  | [a] => take 2 (encode_triple a 0 0) ++ [EQ; EQ]
  | [] => []
  end.

(** induction three elements at a time *)
Lemma list_ind3 {A} (Q : list A -> Prop) :
  Q [] -> (forall a, Q [a]) -> (forall a b, Q [a; b]) ->
  (forall a b c l, Q l -> Q (a :: b :: c :: l)) -> forall l, Q l.
Proof.
  intros H0 H1 H2 H3. fix IH 1. intros [|a [|b [|c l]]]; [done|apply H1|apply H2|apply H3, IH].
Qed.

Definition quads (data : list Z) : Z := (Z.of_nat (length data) + 2) / 3.

Lemma quads_3 a b c data : quads (a :: b :: c :: data) = quads data + 1.
Proof. unfold quads. cbn [length]. Z.to_euclidean_division_equations; lia. Qed.

Lemma mod_3 {A} (a b c : A) data :
  Z.of_nat (length (a :: b :: c :: data)) mod 3 = Z.of_nat (length data) mod 3.
Proof. cbn [length]. Z.to_euclidean_division_equations; lia. Qed.

Lemma lengths data :
  Z.of_nat (length (encode_loop data)) = 4 * quads data /\ Z.of_nat (length (base64 data)) = 4 * quads data.
Proof.
  induction data as [|a|a b|a b c data IH] using list_ind3; [done..|].
  rewrite quads_3. cbn [encode_loop base64]. rewrite !length_app. cbn [length encode_triple]. lia.
Qed.

(** the padding replaces the last characters of the loop's output *)
Lemma encode_cases data :
  Z.of_nat (length data) mod 3 = 0 /\ encode_loop data = base64 data \/
  Z.of_nat (length data) mod 3 = 2 /\ (exists init z, encode_loop data = init ++ [z] /\ base64 data = init ++ [EQ]) \/
  Z.of_nat (length data) mod 3 = 1 /\
    (exists init y z, encode_loop data = init ++ [y; z] /\ base64 data = init ++ [EQ; EQ]).
Proof.
  induction data as [|a|a b|a b c data IH] using list_ind3.
  - by left.
  - right; right. split; [done|]. by eexists [_; _], _, _.
  - right; left. split; [done|]. by eexists [_; _; _], _.
  - rewrite mod_3. cbn [encode_loop base64].
    destruct IH as [[? ->]|[(? & init & z & -> & ->)|(? & init & y & z & -> & ->)]].
    + by left.
    + right; left. split; [done|]. exists (encode_triple a b c ++ init), z. by rewrite <- !app_assoc.
    + right; right. split; [done|]. exists (encode_triple a b c ++ init), y, z. by rewrite <- !app_assoc.
Qed.

Lemma aset_at (init rest : list Z) x y n :
  Z.of_nat (length init) = n -> aset (init ++ x :: rest) n y = Done (init ++ y :: rest).
Proof.
  intros <-. unfold aset. rewrite decide_True by (rewrite length_app; cbn; lia).
  by rewrite Nat2Z.id, insert_app_r_alt, Nat.sub_diag by lia.
Qed.

Lemma pad_base64 data rest :
  pad_loop (Z.to_nat (nth (Z.to_nat (Z.of_nat (length data) mod 3)) g_modTable 0)) (4 * quads data)
    (encode_loop data ++ rest) = Done (base64 data ++ rest).
Proof.
  destruct (lengths data) as [Hl _].
  destruct (encode_cases data) as [[-> ->]|[(-> & init & z & E & ->)|(-> & init & y & z & E & ->)]]; [done|..];
    rewrite E in Hl |- *; rewrite length_app in Hl; cbn [length] in Hl.
  - change (Z.to_nat (nth (Z.to_nat 2) g_modTable 0)) with 1%nat. cbn [pad_loop mbind outcome_bind].
    rewrite <- !app_assoc. apply aset_at. lia.
  - change (Z.to_nat (nth (Z.to_nat 1) g_modTable 0)) with 2%nat. cbn [pad_loop mbind outcome_bind].
    rewrite <- !app_assoc. cbn [app].
    assert (E1 : aset (init ++ y :: z :: rest) (4 * quads data - 1 - Z.of_nat 0) EQ = Done ((init ++ [y]) ++ EQ :: rest)).
    { change (init ++ y :: z :: rest) with (init ++ [y] ++ z :: rest). rewrite app_assoc. apply aset_at.
      rewrite length_app. cbn. lia. }
    step_with E1. rewrite <- app_assoc. cbn [app]. apply aset_at. lia.
Qed.

(** the last two characters tell the length *)
Lemma base64_tail data :
  Forall byte_ok data -> data <> [] ->
  exists init x y, base64 data = init ++ [x; y] /\
    (y = EQ <-> Z.of_nat (length data) mod 3 <> 0) /\ (x = EQ <-> Z.of_nat (length data) mod 3 = 1).
Proof.
  induction data as [|a|a b|a b c data IH] using list_ind3; intros Hb Hne; [done|..].
  - by eexists _, EQ, EQ.
  - rewrite !Forall_cons in Hb. destruct Hb as (Ha & Hb & _). cbn [base64].
    rewrite encode_triple_sextets by (done || (unfold byte_ok; lia)). eexists [_; _], _, EQ. split; [reflexivity|].
    split; [done|]. unfold byte_ok in *. split; [|done].
    intros H. exfalso. revert H. apply enc6_dec. Z.to_euclidean_division_equations; lia.
  - rewrite !Forall_cons in Hb. destruct Hb as (Ha & Hb & Hc & Hd). rewrite mod_3. cbn [base64].
    destruct data as [|d data].
    + rewrite encode_triple_sextets by done. eexists [_; _], _, _. split; [by rewrite app_nil_r|].
      change (Z.of_nat (length (@nil Z)) mod 3) with 0.
      unfold byte_ok in *. split; (split; [|intros; lia]); intros H; exfalso; revert H; apply enc6_dec;
        Z.to_euclidean_division_equations; lia.
    + destruct IH as (init & x & y & -> & Hx & Hy); [done..|].
      exists (encode_triple a b c ++ init), x, y. by rewrite <- app_assoc.
Qed.

Lemma decode_base64 data n out :
  Forall byte_ok data -> Z.of_nat (length out + length data) = n ->
  decode_loop (base64 data) n out = Done (out ++ data).
Proof.
  revert out. induction data as [|a|a b|a b c data IH] using list_ind3; intros out Hb Hn;
    rewrite ?Forall_cons in Hb; cbn [length] in Hn; cbn [base64].
  - cbn. by rewrite app_nil_r.
  - apply decode_pad2; [tauto|lia].
  - apply decode_pad1; [tauto..|lia].
  - destruct Hb as (Ha & Hb & Hc & Hd). rewrite decode_quad by done.
    rewrite (emit_byte_lt n out) by lia. rewrite (emit_byte_lt n (out ++ [a])) by (rewrite length_app; cbn; lia).
    rewrite (emit_byte_lt n ((out ++ [a]) ++ [b])) by (rewrite !length_app; cbn; lia).
    rewrite IH; [by rewrite <- !app_assoc|done|]. rewrite !length_app. cbn. lia.
Qed.

(** ** Theorems *)

Lemma aget_at (init rest : list Z) x n : Z.of_nat (length init) = n -> aget (init ++ x :: rest) n = Done x.
Proof. intros <-. unfold aget. rewrite decide_True by lia. by rewrite Nat2Z.id, list_lookup_middle. Qed.

(** Base64 round trip.  For every non-empty byte string whose encoding is shorter
    than 2^32 and fits the output buffer, [utils_base64encode] succeeds, reports four
    characters per started group of three bytes and writes the padded encoding without
    touching the rest of the buffer; [utils_base64decode] of that encoding, with room
    for the bytes, succeeds, reports the original length and writes the original bytes,
    again leaving the rest of its buffer. *)
Theorem base64_roundtrip data encmax enc decmax dec :
  data <> [] -> Forall byte_ok data -> 4 * quads data < 2 ^ 32 ->
  4 * quads data <= encmax -> 4 * quads data <= Z.of_nat (length enc) ->
  Z.of_nat (length data) <= decmax -> (length data <= length dec)%nat ->
  utils_base64encode data encmax (Some enc)
  = Done (SUCCESS_RETURN, Some (4 * quads data),
          Some (base64 data ++ drop (Z.to_nat (4 * quads data)) enc)) /\
  utils_base64decode (base64 data) decmax dec
  = Done (SUCCESS_RETURN, Some (Z.of_nat (length data)), data ++ drop (length data) dec).
Proof.
  intros Hne Hb H32 He1 He2 Hd1 Hd2. destruct (lengths data) as [HL1 HL2].
  assert (Hlen : 0 < Z.of_nat (length data)) by (destruct data; [done|cbn; lia]).
  assert (Hq : 3 * quads data <= Z.of_nat (length data) + 2 < 3 * quads data + 3)
    by (unfold quads; Z.to_euclidean_division_equations; lia).
  split.
  - unfold utils_base64encode. unfold u32, wrap. rewrite (Z.mod_small (_ + 2)) by lia.
    fold (quads data). rewrite Z.mod_small by lia. rewrite (proj2 (Z.ltb_ge _ _)) by lia.
    unfold write_front. rewrite decide_True by lia. cbn [mbind outcome_bind].
    step_with (pad_base64 data (drop (length (encode_loop data)) enc)). do 4 f_equal. f_equal. lia.
  - unfold utils_base64decode. rewrite HL2.
    replace (4 * quads data mod 4) with 0 by (Z.to_euclidean_division_equations; lia). cbn [Z.eqb negb].
    replace (4 * quads data / 4 * 3) with (3 * quads data) by (Z.to_euclidean_division_equations; lia).
    destruct (base64_tail data Hb Hne) as (init & x & y & E & Hy & Hx).
    assert (Hi : Z.of_nat (length init) + 2 = 4 * quads data) by (rewrite <- HL2, E, length_app; cbn; lia).
    unfold u32, wrap. rewrite !(Z.mod_small (4 * quads data - _)), (Z.mod_small (3 * quads data)) by lia.
    assert (Hg1 : aget (base64 data) (4 * quads data - 1) = Done y).
    { rewrite E. change (init ++ [x; y]) with (init ++ [x] ++ [y]). rewrite app_assoc. apply aget_at.
      rewrite length_app. cbn. lia. }
    assert (Hg2 : aget (base64 data) (4 * quads data - 2) = Done x) by (rewrite E; apply aget_at; lia).
    step_with Hg1. step_with Hg2.
    assert (Hout : (if x =? EQ then (if y =? EQ then (3 * quads data - 1) mod 2 ^ 32 else 3 * quads data) - 1
      else 0) = (if x =? EQ then Z.of_nat (length data) else 0) /\
      (x =? EQ = false -> (if y =? EQ then (3 * quads data - 1) mod 2 ^ 32 else 3 * quads data) = Z.of_nat (length data))).
    { rewrite (Z.mod_small (3 * quads data - 1)) by lia.
      destruct (Z.eqb_spec x EQ) as [Ex|Ex], (Z.eqb_spec y EQ) as [Ey|Ey];
        split; intros; try done; unfold quads in *; Z.to_euclidean_division_equations; lia. }
    destruct Hout as [Ho1 Ho2]. destruct (x =? EQ) eqn:Exq.
    + rewrite Ho1, Z.mod_small by lia. rewrite (proj2 (Z.ltb_ge _ _)) by lia.
      rewrite decode_base64 by done. cbn [mbind outcome_bind]. unfold write_front. by rewrite decide_True by done.
    + rewrite Ho2 by done. rewrite (proj2 (Z.ltb_ge _ _)) by lia.
      rewrite decode_base64 by done. cbn [mbind outcome_bind]. unfold write_front. by rewrite decide_True by done.
Qed.

Lemma stream_loop_ok l fuel out :
  (length l < fuel)%nat ->
  exists chunks, stream_loop fuel l (-1) out = Done (out ++ chunks) /\ concat chunks = base64 l /\
    Forall (fun c => length c = 4%nat) chunks.
Proof.
  revert fuel out. induction l as [|a|a b|a b c l IH] using list_ind3; intros [|fuel] out Hf; cbn [length] in Hf; try lia.
  - exists []. cbn. by rewrite app_nil_r.
  - cbn [stream_loop stream_octet read_data].
    exists [take 2 (encode_triple a 0 0) ++ [EQ; EQ]]. by split_and!; [..|repeat constructor].
  - cbn [stream_loop stream_octet read_data].
    exists [take 3 (encode_triple a b 0) ++ [EQ]]. by split_and!; [..|repeat constructor].
  - cbn [stream_loop]. unfold stream_octet. cbn [read_data Z.eqb negb andb].
    destruct (IH fuel (out ++ [encode_triple a b c])) as (chunks & -> & Hc & Hl); [lia|].
    exists (encode_triple a b c :: chunks). rewrite <- app_assoc. split_and!; [done|cbn; by rewrite Hc|by constructor].
Qed.

(** The streaming encoder is the block encoder.  For every input delivered byte by
    byte, [utils_base64_encode_stream] terminates and the groups of four characters it
    hands out concatenate to the padded encoding of the whole input. *)
Theorem base64_stream_is_encode l :
  exists chunks, utils_base64_encode_stream l = Done chunks /\ concat chunks = base64 l /\
    Forall (fun c => length c = 4%nat) chunks.
Proof. unfold utils_base64_encode_stream. destruct (stream_loop_ok l (S (length l)) []) as (c & H & ?); [lia|]. by exists c. Qed.

(** decoding an empty string reads the bytes before the buffer *)
Lemma base64_decode_empty_faults decmax dec : utils_base64decode [] decmax dec = Fault.
Proof. reflexivity. Qed.

(** ** Witness *)
Lemma base64_roundtrip_witness :
  utils_base64encode [102; 111; 111; 98] 8 (Some (replicate 9 0))
  = Done (SUCCESS_RETURN, Some 8, Some [90; 109; 57; 118; 89; 103; 61; 61; 0]) /\
  utils_base64decode [90; 109; 57; 118; 89; 103; 61; 61] 4 [0; 0; 0; 0; 5]
  = Done (SUCCESS_RETURN, Some 4, [102; 111; 111; 98; 5]).
Proof.
  apply (base64_roundtrip [102; 111; 111; 98] 8 (replicate 9 0) 4 [0; 0; 0; 0; 5]).
  - discriminate.
  - repeat constructor; unfold byte_ok; lia.
  - reflexivity.
  - vm_compute; discriminate.
  - vm_compute; discriminate.
  - vm_compute; discriminate.
  - cbn; lia.
Defined.
