(* ===== verification/Memp.v ===== *)
(** * Fixed-size memory pools: src/utils/src/utils_memp.c

    A pool is a struct followed by [pool_cap] nodes of [padded_node_size] bytes
    in one block.  The first word of a node is its header: the link of the free
    list while the node is free and a mark while it is handed out.  The words of
    the block are cells of the heap; the pool struct is the record
    [utils_memp_pool_t].  Pointers are integers; a pointer is 4 bytes wide. *)
From S2P Require Import Prelude UtilsList.

(** ** Definitions *)

Definition UTILS_MEMP_ALLOCED_NODE_PATTERN : Z := 165.
Definition sizeof_ptr : Z := 4.
Definition sizeof_node : Z := 4.
Definition sizeof_pool : Z := 32.

Definition MEM_ALIGN (addr align : Z) : Z :=
  Z.land (u32 (addr + align - 1)) (u32 (Z.lnot (align - 1))).

Record utils_memp_pool_t := {
  node_size : Z; pool_cap : Z; pool_size : Z; align_req : Z;
  padded_node_size : Z; first_node : Z; last_node : Z; mem : Z }.

Definition set_mem (p : utils_memp_pool_t) (size next : Z) : utils_memp_pool_t :=
  {| node_size := node_size p; pool_cap := pool_cap p; pool_size := size; align_req := align_req p;
     padded_node_size := padded_node_size p; first_node := first_node p; last_node := last_node p;
     mem := next |}.

(** the [for] loop: [k] nodes to go; the result is the last node linked *)
Fixpoint link_nodes (k : nat) (node pool_mem padded : Z) (m : heap) : outcome (Z * heap) :=
  match k with
  | O => Done (pool_mem, m)
  | S k => m ← store m node pool_mem; link_nodes k (node + padded) node padded m
  end.

(** the alignment, the padded node size and the size of the block; the product
    of two [uint16_t] is computed in [int] *)
Definition layout (size cap align : Z) : outcome (Z * Z * Z) :=
  let align := u8 (MEM_ALIGN align sizeof_ptr) in
  let padded := u16 (MEM_ALIGN (u32 (size + sizeof_node)) align) in
  if bool_decide (padded * cap < 2 ^ 31)
  then Done (align, padded, u32 (MEM_ALIGN sizeof_pool align + padded * cap))
  else Fault.

Definition utils_memp_init_alloced (npool size cap align : Z) (m : heap)
  : outcome (utils_memp_pool_t * heap) :=
  '(align, padded, bytes) ← layout size cap align;
  let node := npool + (bytes - padded * cap) in
  '(last, m) ← link_nodes (Z.to_nat cap) node NULL padded m;
  Done ({| node_size := size; pool_cap := cap; pool_size := 0; align_req := align;
           padded_node_size := padded; first_node := node; last_node := last; mem := last |}, m).

(** the result is the return code, [*pool] with its address on success, and the heap *)
Definition utils_memp_init (pvPortMalloc : Z -> heap -> option (Z * heap)) (size cap align : Z)
  (m : heap) : outcome (Z * option (Z * utils_memp_pool_t) * heap) :=
  '(align', padded, bytes) ← layout size cap align;
  match pvPortMalloc bytes m with
  | None => Done (-1, None, m)
  | Some (npool, m) =>
    let node := npool + (bytes - padded * cap) in
    '(last, m) ← link_nodes (Z.to_nat cap) node NULL padded m;
    Done (0, Some (npool, {| node_size := size; pool_cap := cap; pool_size := 0; align_req := align';
           padded_node_size := padded; first_node := node; last_node := last; mem := last |}), m)
  end.

(** a [NULL] pool is [None] *)
Definition utils_memp_malloc (pool : option utils_memp_pool_t) (m : heap)
  : outcome (Z * option utils_memp_pool_t * heap) :=
  match pool with
  | None => Done (NULL, None, m)
  | Some p =>
    if pool_size p =? pool_cap p then Done (NULL, Some p, m) else
    let node := mem p in
    if negb (node =? NULL) then
      next ← load m node;
      m ← store m node UTILS_MEMP_ALLOCED_NODE_PATTERN;
      Done (node + sizeof_node, Some (set_mem p (u32 (pool_size p + 1)) next), m)
    else Done (NULL, Some p, m)
  end.

Definition utils_memp_free (pool : option utils_memp_pool_t) (node : Z) (m : heap)
  : outcome (Z * option utils_memp_pool_t * heap) :=
  let node := node - sizeof_node in
  match pool with
  | None => Done (-1, None, m)
  | Some p =>
    if node =? NULL then Done (-1, Some p, m) else
    if pool_size p =? 0 then Done (-1, Some p, m) else
    if negb ((first_node p <=? node) && (node <=? last_node p)) then Done (-1, Some p, m) else
    let diff := node - first_node p in
    if padded_node_size p =? 0 then Fault else
    if negb (diff mod padded_node_size p =? 0) then Done (-1, Some p, m) else
    pat ← load m node;
    if negb (pat =? UTILS_MEMP_ALLOCED_NODE_PATTERN) then Done (-1, Some p, m) else
    m ← store m node (mem p);
    Done (0, Some (set_mem p (u32 (pool_size p - 1)) node), m)
  end.

Definition utils_memp_deinit (vPortFree : Z -> heap -> heap) (pool : Z) (m : heap) : Z * heap :=
  if pool =? NULL then (-1, m) else (0, vPortFree pool m).

(** ** Representation *)

(** the header addresses of the nodes *)
Definition node_at (p : utils_memp_pool_t) (i : nat) : Z :=
  first_node p + Z.of_nat i * padded_node_size p.
Definition nodes (p : utils_memp_pool_t) : list Z := node_at p <$> seq 0 (Z.to_nat (pool_cap p)).

(** the geometry set up by the initialisation *)
Record geometry (p : utils_memp_pool_t) : Prop := {
  geo_size : 0 <= node_size p;
  geo_padded : node_size p + sizeof_node <= padded_node_size p;
  geo_padded4 : (4 | padded_node_size p);
  geo_first4 : (4 | first_node p);
  geo_first : 0 < first_node p;
  geo_cap : 0 <= pool_cap p < 2 ^ 16;
  geo_last : 0 < pool_cap p -> last_node p = first_node p + (pool_cap p - 1) * padded_node_size p }.

(** the nodes of [free] are chained from [mem], all other nodes carry the mark *)
Record pool_rep (p : utils_memp_pool_t) (m : heap) (free : list Z) : Prop := {
  rep_geo : geometry p;
  rep_chain : lseg m (mem p) free NULL;
  rep_nodup : NoDup free;
  rep_sub : forall x, x ∈ free -> x ∈ nodes p;
  rep_mark : forall x, x ∈ nodes p -> x ∉ free -> m !! x = Some UTILS_MEMP_ALLOCED_NODE_PATTERN;
  rep_size : pool_size p = pool_cap p - Z.of_nat (length free) }.

(** ** Specification: a stack of free nodes *)

Definition spec_malloc (free : list Z) : Z * list Z :=
  match free with [] => (NULL, []) | x :: free => (x + sizeof_node, free) end.

Definition spec_free (all free : list Z) (ptr : Z) : Z * list Z :=
  let x := ptr - sizeof_node in
  if bool_decide (x ∈ all /\ x ∉ free) then (0, x :: free) else (-1, free).

(** ** Arithmetic *)

Lemma MEM_ALIGN_eq a n : 0 <= a -> 1 <= n -> a + n <= 2 ^ 32 ->
  MEM_ALIGN a n = Z.ldiff (a + n - 1) (n - 1).
Proof.
  intros Ha Hn Hb. unfold MEM_ALIGN, u32, wrap. rewrite (Z.mod_small (a + n - 1)) by lia.
  apply Z.bits_inj'. intros k Hk. rewrite Z.land_spec, Z.ldiff_spec.
  destruct (decide (k < 32)) as [?|?].
  - rewrite Z.mod_pow2_bits_low, Z.lnot_spec by lia. done.
  - rewrite (testbit_high 32 (a + n - 1)) by lia. done.
Qed.

Lemma ldiff_land x k : x = Z.ldiff x k + Z.land x k.
Proof.
  rewrite Z.add_nocarry_lxor.
  - zbits n. rewrite Z.ldiff_spec. by destruct (Z.testbit x n), (Z.testbit k n).
  - zbits n. rewrite Z.ldiff_spec. by destruct (Z.testbit x n), (Z.testbit k n).
Qed.

Lemma ldiff_bounds x k : 0 <= x -> 0 <= k -> x - k <= Z.ldiff x k <= x.
Proof.
  intros Hx Hk. pose proof (ldiff_land x k). pose proof (ldiff_land k x) as H'. rewrite Z.land_comm in H'.
  assert (0 <= Z.land x k) by (apply Z.land_nonneg; by left).
  assert (0 <= Z.ldiff k x) by (apply Z.ldiff_nonneg; by left). lia.
Qed.

Lemma div4_bits x : 0 <= x -> (4 | x) <-> Z.testbit x 0 = false /\ Z.testbit x 1 = false.
Proof.
  intros Hx. rewrite <- Z.mod_divide by lia. change 4 with (2 ^ 2). rewrite <- Z.land_ones by lia.
  split.
  - intros E. split.
    + assert (H := Z.land_spec x (Z.ones 2) 0). by rewrite E, andb_true_r in H.
    + assert (H := Z.land_spec x (Z.ones 2) 1). by rewrite E, andb_true_r in H.
  - intros [E0 E1]. apply Z.bits_inj'. intros n Hn. rewrite Z.land_spec, Z.testbit_0_l.
    destruct (decide (n = 0)) as [->|]; [by rewrite E0|].
    destruct (decide (n = 1)) as [->|]; [by rewrite E1|].
    rewrite Z.ones_spec_high by lia. by rewrite andb_false_r.
Qed.

Lemma pred4_bits n : 1 <= n -> (4 | n) -> Z.testbit (n - 1) 0 = true /\ Z.testbit (n - 1) 1 = true.
Proof.
  intros Hn [k ->]. replace (k * 4 - 1) with (2 * (2 * (k - 1) + 1) + 1) by lia. split.
  - apply Z.testbit_odd_0.
  - pose proof (Z.testbit_odd_succ (2 * (k - 1) + 1) 0 ltac:(lia)) as E. change (Z.succ 0) with 1 in E.
    rewrite E. apply Z.testbit_odd_0.
Qed.

Lemma ldiff_div4 x n : 0 <= x -> 1 <= n -> (4 | n) -> (4 | Z.ldiff x (n - 1)).
Proof.
  intros Hx Hn H4. destruct (pred4_bits n Hn H4) as [E0 E1].
  apply div4_bits; [apply Z.ldiff_nonneg; by left|]. rewrite !Z.ldiff_spec, E0, E1.
  by rewrite !andb_false_r.
Qed.

Lemma MEM_ALIGN_spec a n : 0 <= a -> 1 <= n -> (4 | n) -> a + n <= 2 ^ 32 ->
  a <= MEM_ALIGN a n < a + n /\ (4 | MEM_ALIGN a n).
Proof.
  intros Ha Hn H4 Hb. rewrite MEM_ALIGN_eq by lia. split; [|apply ldiff_div4; lia || done].
  pose proof (ldiff_bounds (a + n - 1) (n - 1)). lia.
Qed.

(** a power of two gives the alignment asked for *)
Lemma MEM_ALIGN_pow2 a k : 0 <= a -> 0 <= k -> a + 2 ^ k <= 2 ^ 32 -> (2 ^ k | MEM_ALIGN a (2 ^ k)).
Proof.
  intros Ha Hk Hb. assert (1 <= 2 ^ k) by (pose proof (Z.pow_pos_nonneg 2 k); lia).
  rewrite MEM_ALIGN_eq by lia.
  replace (2 ^ k - 1) with (Z.ones k) by (rewrite Z.ones_equiv; lia).
  rewrite Z.ldiff_ones_r by lia. rewrite Z.shiftl_mul_pow2 by lia. apply Z.divide_factor_r.
Qed.

(** ** Nodes *)

Section pool.
Context (p : utils_memp_pool_t).

Lemma elem_of_nodes x :
  x ∈ nodes p <-> exists i : nat, x = node_at p i /\ Z.of_nat i < pool_cap p.
Proof.
  unfold nodes. rewrite list_elem_of_fmap. split; intros (i & Hx & Hi); exists i; split; try done;
    [apply elem_of_seq in Hi|apply elem_of_seq]; lia.
Qed.

Lemma length_nodes : length (nodes p) = Z.to_nat (pool_cap p).
Proof. unfold nodes. by rewrite length_fmap, length_seq. Qed.

Lemma NoDup_nodes : 0 < padded_node_size p -> NoDup (nodes p).
Proof.
  intros H. apply NoDup_fmap_2_strong; [|apply NoDup_seq].
  intros i j _ _ E. unfold node_at in E. nia.
Qed.

Context (G : geometry p).

Lemma padded_pos : 4 <= padded_node_size p.
Proof. destruct G. unfold sizeof_node in *. lia. Qed.

Lemma nodes_div4 x : x ∈ nodes p -> 0 < x /\ (4 | x).
Proof.
  intros (i & -> & _)%elem_of_nodes. pose proof padded_pos. unfold node_at. split.
  - pose proof (geo_first p G). nia.
  - apply Z.divide_add_r; [by apply geo_first4|]. apply Z.divide_mul_r. by apply geo_padded4.
Qed.

(** the tests of [utils_memp_free] accept exactly the addresses of nodes *)
Lemma node_tests x :
  0 < pool_cap p ->
  x ∈ nodes p <-> first_node p <= x <= last_node p /\ (x - first_node p) mod padded_node_size p = 0.
Proof.
  intros Hc. pose proof padded_pos. rewrite (geo_last p G Hc), elem_of_nodes. unfold node_at. split.
  - intros (i & -> & Hi). split; [nia|].
    replace (first_node p + _ - _) with (Z.of_nat i * padded_node_size p) by lia. by apply Z.mod_mul; lia.
  - intros [Hr [k Hk]%Z.mod_divide]; [|lia]. exists (Z.to_nat k).
    rewrite Z2Nat.id by nia. split; [lia|]. nia.
Qed.

(** payloads of distinct nodes do not overlap, nor do they touch any header *)
Lemma payload_disjoint x y a :
  x ∈ nodes p -> y ∈ nodes p -> x + sizeof_node <= a < x + sizeof_node + node_size p ->
  y <= a < y + padded_node_size p -> y = x /\ y + sizeof_node <= a.
Proof.
  intros (i & -> & _)%elem_of_nodes (j & -> & _)%elem_of_nodes. unfold node_at, sizeof_node.
  pose proof (geo_padded p G). unfold sizeof_node in *. intros H1 H2.
  assert (i = j) as -> by nia. lia.
Qed.

Lemma pattern_not_node x : x ∈ nodes p \/ x = NULL -> x <> UTILS_MEMP_ALLOCED_NODE_PATTERN.
Proof.
  unfold UTILS_MEMP_ALLOCED_NODE_PATTERN, NULL. intros [[_ [k ->]]%nodes_div4| ->]; lia.
Qed.

End pool.

(** ** Operations *)

(** what a free-list node holds is never the mark *)
Lemma free_not_marked p m free x :
  pool_rep p m free -> x ∈ free ->
  exists v, m !! x = Some v /\ v <> UTILS_MEMP_ALLOCED_NODE_PATTERN.
Proof.
  intros R Hx. apply list_elem_of_split in Hx as (l1 & l2 & ->).
  pose proof (rep_chain _ _ _ R) as (r & _ & Hl)%lseg_app. cbn in Hl.
  destruct Hl as (-> & _ & n & Hn & Hl). exists n. split; [done|].
  apply (pattern_not_node p (rep_geo _ _ _ R)). destruct l2 as [|y l2]; cbn in Hl; [by right|].
  destruct Hl as (-> & _). left. apply (rep_sub _ _ _ R). set_solver.
Qed.

Lemma free_length p m free : pool_rep p m free -> Z.of_nat (length free) <= pool_cap p.
Proof.
  intros R. pose proof (geo_cap _ (rep_geo _ _ _ R)). rewrite <- (Z2Nat.id (pool_cap p)) by lia.
  rewrite <- length_nodes. apply inj_le. apply submseteq_length, NoDup_submseteq; apply R.
Qed.

Lemma malloc_spec p m free :
  pool_rep p m free ->
  exists p' m', utils_memp_malloc (Some p) m = Done (fst (spec_malloc free), Some p', m')
    /\ pool_rep p' m' (snd (spec_malloc free)) /\ nodes p' = nodes p /\ node_size p' = node_size p
    /\ dom m' = dom m /\ (forall a, a ∉ nodes p -> m' !! a = m !! a).
Proof.
  intros R. pose proof (free_length _ _ _ R) as Hlen. unfold utils_memp_malloc.
  rewrite (rep_size _ _ _ R). destruct free as [|x free]; cbn [length].
  - rewrite (proj2 (Z.eqb_eq _ _)) by lia. by exists p, m.
  - rewrite (proj2 (Z.eqb_neq _ _)) by lia.
    destruct (rep_chain _ _ _ R) as (Em & Hx & n & Hn & Hl). rewrite Em.
    rewrite (proj2 (Z.eqb_neq _ _)) by done. cbn [negb].
    step_with (load_done _ _ _ Hn). step_with (store_done m x UTILS_MEMP_ALLOCED_NODE_PATTERN _ Hn).
    pose proof (rep_nodup _ _ _ R) as [Hxf Hnf]%NoDup_cons.
    eexists _, _. split; [done|]. split; [|split; [done|split; [done|split]]].
    + constructor; cbn.
      * destruct (rep_geo _ _ _ R). by constructor.
      * by apply lseg_insert_ne.
      * done.
      * intros y Hy. apply (rep_sub _ _ _ R). by right.
      * intros y Hy Hny. destruct (decide (y = x)) as [->|]; [by rewrite lookup_insert_eq|].
        rewrite lookup_insert_ne by done. apply (rep_mark _ _ _ R); [done|]. set_solver.
      * unfold u32, wrap. pose proof (geo_cap _ (rep_geo _ _ _ R)). cbn [length] in Hlen.
        rewrite Z.mod_small by lia. lia.
    + by apply insert_same_dom.
    + intros a Ha. rewrite lookup_insert_ne; [done|]. intros <-. apply Ha, (rep_sub _ _ _ R). left.
Qed.

Lemma free_rejects p m free ptr :
  pool_rep p m free -> ~ (ptr - sizeof_node ∈ nodes p /\ ptr - sizeof_node ∉ free) ->
  utils_memp_free (Some p) ptr m = Done (-1, Some p, m).
Proof.
  intros R Hn. pose proof (rep_geo _ _ _ R) as G. pose proof (padded_pos p G) as Hp. unfold utils_memp_free.
  set (x := ptr - sizeof_node) in *. case_match; [done|]. case_match eqn:E0; [done|].
  apply Z.eqb_neq in E0. rewrite (rep_size _ _ _ R) in E0.
  pose proof (free_length _ _ _ R). pose proof (geo_cap p G).
  case_match eqn:E1; [done|]. apply negb_false_iff, andb_true_iff in E1 as [?%Z.leb_le ?%Z.leb_le].
  rewrite (proj2 (Z.eqb_neq (padded_node_size p) 0)) by lia.
  case_match eqn:E2; [done|]. apply negb_false_iff, Z.eqb_eq in E2.
  assert (Hx : x ∈ nodes p) by (apply node_tests; [done|lia|by split]).
  destruct (decide (x ∈ free)) as [Hf|Hf]; [|by destruct Hn].
  destruct (free_not_marked _ _ _ _ R Hf) as (v & Hv & Hne). step_with (load_done _ _ _ Hv).
  by rewrite (proj2 (Z.eqb_neq _ _)).
Qed.

Lemma free_accepts p m free ptr :
  pool_rep p m free -> ptr - sizeof_node ∈ nodes p -> ptr - sizeof_node ∉ free ->
  exists p' m', utils_memp_free (Some p) ptr m = Done (0, Some p', m')
    /\ pool_rep p' m' ((ptr - sizeof_node) :: free) /\ nodes p' = nodes p /\ node_size p' = node_size p
    /\ dom m' = dom m /\ (forall a, a ∉ nodes p -> m' !! a = m !! a).
Proof.
  intros R Hx Hf. pose proof (rep_geo _ _ _ R) as G. pose proof (padded_pos p G) as Hp. unfold utils_memp_free.
  set (x := ptr - sizeof_node) in *. destruct (nodes_div4 p G x Hx) as [Hpos H4].
  pose proof (geo_cap p G) as Hcap.
  assert (Hc : 0 < pool_cap p) by (apply elem_of_nodes in Hx as (i & _ & ?); lia).
  assert (Hlt : Z.of_nat (S (length free)) <= pool_cap p).
  { rewrite <- (Z2Nat.id (pool_cap p)) by lia. rewrite <- length_nodes. apply inj_le.
    apply (submseteq_length (x :: free)), NoDup_submseteq; [apply NoDup_cons; by split; [|apply R]|].
    intros y [->|Hy]%elem_of_cons; [done|by apply R]. }
  rewrite (proj2 (Z.eqb_neq x NULL)) by (unfold NULL; lia).
  rewrite (rep_size _ _ _ R), (proj2 (Z.eqb_neq (_ - _) 0)) by lia.
  destruct (proj1 (node_tests p G x Hc) Hx) as [Hr Hm].
  rewrite !(proj2 (Z.leb_le _ _)) by lia. cbn [negb andb].
  rewrite (proj2 (Z.eqb_neq (padded_node_size p) 0)) by lia. rewrite (proj2 (Z.eqb_eq _ _)) by done. cbn [negb].
  pose proof (rep_mark _ _ _ R x Hx Hf) as Hmark. step_with (load_done _ _ _ Hmark). rewrite Z.eqb_refl. cbn [negb].
  step_with (store_done m x (mem p) _ Hmark). eexists _, _. split; [done|].
  split; [|split; [done|split; [done|split]]].
  - constructor; cbn.
    + destruct G. by constructor.
    + split; [done|]. split; [unfold NULL; lia|]. exists (mem p). split; [by rewrite lookup_insert_eq|].
      apply lseg_insert_ne; [done|apply R].
    + apply NoDup_cons. split; [done|apply R].
    + intros y [->|Hy]%elem_of_cons; [done|by apply R].
    + intros y Hy [Hne Hny]%not_elem_of_cons. rewrite lookup_insert_ne by done. by apply R.
    + unfold u32, wrap. rewrite Z.mod_small by lia. lia.
  - by apply insert_same_dom.
  - intros a Ha. rewrite lookup_insert_ne; [done|]. by intros <-.
Qed.

(** ** Initialisation *)

Definition row (node padded : Z) (k : nat) : list Z := (fun i : nat => node + Z.of_nat i * padded) <$> seq 0 k.

Lemma row_S node padded k : row node padded (S k) = node :: row (node + padded) padded k.
Proof.
  unfold row. cbn [seq fmap list_fmap]. f_equal; [lia|]. rewrite <- fmap_S_seq, <- list_fmap_compose.
  apply list_fmap_ext. intros i x _. cbn. lia.
Qed.

Lemma nodes_row p : nodes p = row (first_node p) (padded_node_size p) (Z.to_nat (pool_cap p)).
Proof. reflexivity. Qed.

Lemma elem_of_row node padded k x :
  x ∈ row node padded k <-> exists i : nat, x = node + Z.of_nat i * padded /\ (i < k)%nat.
Proof.
  unfold row. rewrite list_elem_of_fmap. split; intros (i & Hx & Hi); exists i; split; try done;
    [apply elem_of_seq in Hi|apply elem_of_seq]; lia.
Qed.

Lemma link_nodes_spec k node pm padded m xs :
  0 < padded -> 0 < node -> (forall x, x ∈ xs -> x < node) ->
  (forall x, x ∈ row node padded k -> is_Some (m !! x)) -> lseg m pm xs NULL ->
  exists last m', link_nodes k node pm padded m = Done (last, m')
    /\ lseg m' last (reverse (row node padded k) ++ xs) NULL /\ dom m' = dom m
    /\ (k <> 0%nat -> last = node + (Z.of_nat k - 1) * padded)
    /\ (k = 0%nat -> last = pm)
    /\ (forall a, a ∉ row node padded k -> m' !! a = m !! a).
Proof.
  intros Hp. revert node pm m xs. induction k as [|k IH]; intros node pm m xs Hn Hxs Hd Hl.
  - exists pm, m. cbn. repeat split; try done. 
  - cbn [link_nodes]. assert (Hs : is_Some (m !! node)) by (apply Hd; rewrite row_S; left).
    step_with (store_done_is m node pm Hs).
    destruct (IH (node + padded) node (<[node := pm]> m) (node :: xs)) as (last & m' & -> & Hl' & Hdom & Hlast & Hl0 & Hrest).
    + lia.
    + intros x [->|Hx]%elem_of_cons; [lia|]. specialize (Hxs x Hx). lia.
    + intros x Hx. assert (is_Some (m !! x)) by (apply Hd; rewrite row_S; by right).
      apply lookup_insert_is_Some'. by right.
    + cbn. split; [done|]. split; [unfold NULL; lia|]. exists pm. split; [by rewrite lookup_insert_eq|].
      apply lseg_insert_ne; [|done]. intros Hx. specialize (Hxs _ Hx). lia.
    + exists last, m'. split; [done|]. split; [|split; [|split; [|split]]].
      * by rewrite row_S, reverse_cons, <- app_assoc.
      * rewrite Hdom. by apply insert_same_dom.
      * intros _. destruct k as [|k]; [rewrite Hl0 by done; lia|]. rewrite Hlast by done. lia.
      * done.
      * intros a Ha. rewrite row_S in Ha. apply not_elem_of_cons in Ha as [? ?]. rewrite Hrest by done.
        by rewrite lookup_insert_ne.
Qed.

(** the words of a block *)
Definition block_mapped (m : heap) (base bytes : Z) : Prop :=
  forall a, (4 | a) -> base <= a -> a + 4 <= base + bytes -> is_Some (m !! a).

(** sizes for which no intermediate result is truncated *)
Record sizes_ok (size cap align : Z) : Prop := {
  so_size : 0 <= size; so_cap : 0 <= cap < 2 ^ 16; so_align : 0 < align <= 252;
  so_fit : size + align + 7 < 2 ^ 16; so_total : (size + align + 7) * cap < 2 ^ 31 - 512 }.

(** what [layout] computes *)
Lemma layout_spec size cap align :
  sizes_ok size cap align ->
  exists al padded bytes, layout size cap align = Done (al, padded, bytes)
    /\ align <= al < align + 4 /\ (4 | al)
    /\ size + sizeof_node <= padded < size + sizeof_node + al /\ (4 | padded)
    /\ sizeof_pool <= bytes - padded * cap < sizeof_pool + al /\ (4 | bytes - padded * cap)
    /\ (forall k, 2 <= k -> align = 2 ^ k -> al = align /\ (align | padded) /\ (align | bytes - padded * cap)).
Proof.
  intros [Hs Hc Ha Hf Ht]. unfold layout, sizeof_node, sizeof_pool, sizeof_ptr.
  destruct (MEM_ALIGN_spec align 4) as [Hal Hal4]; [lia|lia|by exists 1|lia|].
  assert (E8 : u8 (MEM_ALIGN align 4) = MEM_ALIGN align 4).
  { unfold u8, wrap. apply Z.mod_small. change (2 ^ 8) with 256. destruct Hal4 as [c Hc4]. lia. }
  rewrite E8. set (al := MEM_ALIGN align 4) in *.
  assert (u32 (size + 4) = size + 4) as -> by (unfold u32, wrap; apply Z.mod_small; lia).
  destruct (MEM_ALIGN_spec (size + 4) al) as [Hpd Hpd4]; [lia|lia|done|lia|].
  assert (E16 : u16 (MEM_ALIGN (size + 4) al) = MEM_ALIGN (size + 4) al)
    by (unfold u16, wrap; apply Z.mod_small; lia).
  rewrite E16. set (padded := MEM_ALIGN (size + 4) al) in *.
  destruct (MEM_ALIGN_spec 32 al) as [Hst Hst4]; [lia|lia|done|lia|].
  assert (Htot : 0 <= padded * cap < 2 ^ 31 - 512) by nia.
  assert (E32 : u32 (MEM_ALIGN 32 al + padded * cap) = MEM_ALIGN 32 al + padded * cap)
    by (unfold u32, wrap; apply Z.mod_small; lia).
  rewrite E32, bool_decide_true by lia. eexists _, _, _. split; [done|].
  replace (MEM_ALIGN 32 al + padded * cap - padded * cap) with (MEM_ALIGN 32 al) by lia.
  do 6 (split; [done|]). intros k Hk ->.
  assert (al = 2 ^ k) as Eal.
  { destruct Hal4 as [c Hc4]. replace k with (2 + (k - 2)) in * by lia.
    rewrite Z.pow_add_r in * by lia. change (2 ^ 2) with 4 in *. lia. }
  split; [done|]. unfold padded. rewrite Eal. split; apply MEM_ALIGN_pow2; lia.
Qed.

(** the block that [layout] asks for, linked, is a pool whose nodes are all free *)
Lemma init_rep size cap align base m :
  sizes_ok size cap align -> 0 < base -> (4 | base) ->
  (forall al padded bytes, layout size cap align = Done (al, padded, bytes) -> block_mapped m base bytes) ->
  exists p m', utils_memp_init_alloced base size cap align m = Done (p, m')
    /\ pool_rep p m' (reverse (nodes p)) /\ node_size p = size /\ pool_cap p = cap
    /\ base + sizeof_pool <= first_node p
    /\ (forall al padded bytes, layout size cap align = Done (al, padded, bytes) ->
        first_node p + cap * padded_node_size p = base + bytes)
    /\ (forall k, 2 <= k -> align = 2 ^ k -> (align | padded_node_size p) /\ (align | first_node p - base))
    /\ dom m' = dom m /\ (forall a, a ∉ nodes p -> m' !! a = m !! a).
Proof.
  intros Hso Hb H4 Hm. destruct (layout_spec size cap align Hso) as
    (al & padded & bytes & EL & Hal & Hal4 & Hpd & Hpd4 & Hst & Hst4 & Hpow).
  unfold utils_memp_init_alloced. step_with EL. specialize (Hm _ _ _ EL).
  destruct Hso as [Hs Hc Ha Hf Ht]. unfold sizeof_node, sizeof_pool in *.
  destruct (link_nodes_spec (Z.to_nat cap) (base + (bytes - padded * cap)) NULL padded m [])
    as (last & m' & -> & Hl & Hdom & Hlast & Hl0 & Hrest).
  - lia.
  - lia.
  - by intros x ?%elem_of_nil.
  - intros x (i & -> & Hi)%elem_of_row. apply Hm.
    + apply Z.divide_add_r; [by apply Z.divide_add_r|]. by apply Z.divide_mul_r.
    + nia.
    + assert (Z.of_nat i + 1 <= cap) by lia. nia.
  - done.
  - rewrite app_nil_r in Hl. cbn [mbind outcome_bind]. eexists _, _. split; [done|]. unfold nodes.
    split; [|repeat split; cbn [node_size pool_cap first_node padded_node_size]].
    + constructor; cbn.
      * constructor; cbn; unfold sizeof_node; try lia; try done. by apply Z.divide_add_r.
      * exact Hl.
      * rewrite reverse_Permutation. apply NoDup_nodes. cbn. lia.
      * intros x. by rewrite elem_of_reverse.
      * intros x. by rewrite elem_of_reverse.
      * rewrite length_reverse, length_fmap, length_seq. lia.
    + lia.
    + intros al' padded' bytes' E. simplify_eq. lia.
    + by apply Hpow with k.
    + replace (base + (bytes - padded * cap) - base) with (bytes - padded * cap) by lia. by apply Hpow with k.
    + exact Hdom.
    + exact Hrest.
Qed.

(** ** Theorems *)

(** what the pool relies on of the FreeRTOS allocator: a block of the size asked
    for, on a word boundary, inside the address space, the rest of memory kept *)
Definition allocator_ok (pvPortMalloc : Z -> heap -> option (Z * heap)) : Prop :=
  forall bytes m base m', pvPortMalloc bytes m = Some (base, m') ->
    0 < base /\ (4 | base) /\ block_mapped m' base bytes
    /\ (forall a v, m !! a = Some v -> m' !! a = Some v).

(** An initialised pool has all its nodes free, placed one after the other
    behind the pool struct and ending exactly at the end of the block asked
    for; payloads of distinct nodes neither overlap each other nor touch a
    header; with a power-of-two alignment the node size and the offset of the
    first node are multiples of it.  When the allocator fails the result is -1
    and nothing changes. *)
Theorem utils_memp_init_correct (pvPortMalloc : Z -> heap -> option (Z * heap)) (size cap align : Z) (m : heap)
  (Hm : allocator_ok pvPortMalloc) (Hs : sizes_ok size cap align) :
  exists al padded bytes, layout size cap align = Done (al, padded, bytes) /\
  match pvPortMalloc bytes m with
  | None => utils_memp_init pvPortMalloc size cap align m = Done (-1, None, m)
  | Some (base, m1) =>
    exists p m', utils_memp_init pvPortMalloc size cap align m = Done (0, Some (base, p), m')
      /\ utils_memp_init_alloced base size cap align m1 = Done (p, m')
      /\ pool_rep p m' (reverse (nodes p)) /\ node_size p = size /\ pool_cap p = cap
      /\ base + sizeof_pool <= first_node p /\ first_node p + cap * padded_node_size p = base + bytes
      /\ (forall x y a, x ∈ nodes p -> y ∈ nodes p -> x + sizeof_node <= a < x + sizeof_node + size ->
          y <= a < y + padded_node_size p -> y = x /\ y + sizeof_node <= a)
      /\ (forall k, 2 <= k -> align = 2 ^ k -> (align | padded_node_size p) /\ (align | first_node p - base))
  end.
Proof.
  destruct (layout_spec size cap align Hs) as (al & padded & bytes & EL & _).
  exists al, padded, bytes. split; [done|]. destruct (pvPortMalloc bytes m) as [[base m1]|] eqn:EM.
  - destruct (Hm _ _ _ _ EM) as (Hb & H4 & Hmap & _).
    destruct (init_rep size cap align base m1 Hs Hb H4) as (p & m' & E & R & Hsz & Hcap & Hf & Hend & Hal & _).
    { intros ??? E. rewrite EL in E. by simplify_eq. }
    exists p, m'. split.
    + unfold utils_memp_init. unfold utils_memp_init_alloced in E. rewrite EL in E |- *. cbn [mbind outcome_bind] in E |- *.
      rewrite EM. destruct (link_nodes _ _ _ _ _) as [[last m2]| |]; [|done|done].
      cbn [mbind outcome_bind] in E |- *. by injection E as <- <-.
    + do 5 (split; [done|]). split; [exact (Hend _ _ _ EL)|]. split; [|done].
      intros x y a Hx Hy. rewrite <- Hsz. apply payload_disjoint; [apply R|done|done].
  - unfold utils_memp_init. step_with EL. by rewrite EM.
Qed.

(** the pointers handed out lie one header behind an aligned node: with an
    alignment above the word size none of them has the alignment asked for *)
Lemma payload_misaligned size cap k base m p m' x :
  sizes_ok size cap (2 ^ k) -> 3 <= k -> 0 < base -> (2 ^ k | base) ->
  (forall al padded bytes, layout size cap (2 ^ k) = Done (al, padded, bytes) -> block_mapped m base bytes) ->
  utils_memp_init_alloced base size cap (2 ^ k) m = Done (p, m') -> x ∈ nodes p ->
  ~ (2 ^ k | x + sizeof_node).
Proof.
  intros Hs Hk Hb Hbk Hm E Hx Hdiv. assert (H8 : (8 | 2 ^ k)).
  { exists (2 ^ (k - 3)). change 8 with (2 ^ 3). rewrite <- Z.pow_add_r by lia. f_equal. lia. }
  destruct (init_rep size cap (2 ^ k) base m Hs Hb) as (p1 & m1 & E1 & _ & _ & _ & _ & _ & Hal & _); [|done|].
  { etransitivity; [|exact Hbk]. etransitivity; [|exact H8]. by exists 2. }
  rewrite E in E1. injection E1 as <- <-. destruct (Hal k ltac:(lia) eq_refl) as [Hp Hf].
  apply elem_of_nodes in Hx as (i & -> & _). unfold node_at, sizeof_node in Hdiv.
  assert (H : (2 ^ k | 4)).
  { replace 4 with (first_node p + Z.of_nat i * padded_node_size p + 4 - ((first_node p - base) + base
      + Z.of_nat i * padded_node_size p)) by lia.
    apply Z.divide_sub_r; [done|]. apply Z.divide_add_r; [by apply Z.divide_add_r|by apply Z.divide_mul_r]. }
  assert ((8 | 4)) as [c Hc] by (by etransitivity). lia.
Qed.

(** what a client does: allocate, free any pointer, write a word of a payload *)
Inductive pool_op := Malloc | Free (ptr : Z) | Write (a v : Z).

Definition run_op (p : utils_memp_pool_t) (m : heap) (o : pool_op) : outcome (Z * utils_memp_pool_t * heap) :=
  match o with
  | Malloc => '(r, p', m) ← utils_memp_malloc (Some p) m; Done (r, default p p', m)
  | Free ptr => '(r, p', m) ← utils_memp_free (Some p) ptr m; Done (r, default p p', m)
  | Write a v => m ← store m a v; Done (0, p, m)
  end.

Fixpoint run_ops (p : utils_memp_pool_t) (m : heap) (os : list pool_op)
  : outcome (list Z * utils_memp_pool_t * heap) :=
  match os with
  | [] => Done ([], p, m)
  | o :: os => '(r, p, m) ← run_op p m o; '(rs, p, m) ← run_ops p m os; Done (r :: rs, p, m)
  end.

Definition spec_op (all free : list Z) (o : pool_op) : Z * list Z :=
  match o with
  | Malloc => spec_malloc free
  | Free ptr => spec_free all free ptr
  | Write _ _ => (0, free)
  end.

Fixpoint spec_ops (all free : list Z) (os : list pool_op) : list Z * list Z :=
  match os with
  | [] => ([], free)
  | o :: os => let '(r, free) := spec_op all free o in
               let '(rs, free) := spec_ops all free os in (r :: rs, free)
  end.

(** a write stays inside the payload of some node *)
Definition op_ok (p : utils_memp_pool_t) (m : heap) (o : pool_op) : Prop :=
  match o with
  | Write a v => is_Some (m !! a) /\ exists x, x ∈ nodes p /\ x + sizeof_node <= a < x + sizeof_node + node_size p
  | _ => True
  end.

Lemma write_spec p m free a v :
  pool_rep p m free -> op_ok p m (Write a v) ->
  store m a v = Done (<[a := v]> m) /\ pool_rep p (<[a := v]> m) free.
Proof.
  intros R [Hs (x & Hx & Ha)]. split; [by apply store_done_is|].
  assert (Hno : forall y, y ∈ nodes p -> a <> y).
  { intros y Hy ->. pose proof (padded_pos p (rep_geo _ _ _ R)).
    destruct (payload_disjoint p (rep_geo _ _ _ R) x y y); try done; unfold sizeof_node in *; lia. }
  destruct R as [G Hc Hn Hsub Hmark Hsz]. constructor; try done.
  - apply lseg_insert_ne; [|done]. intros Hf. by apply (Hno a (Hsub a Hf)).
  - intros y Hy Hf. rewrite lookup_insert_ne by (by apply Hno). by apply Hmark.
Qed.

Lemma run_op_spec p m free o :
  pool_rep p m free -> op_ok p m o ->
  exists p' m', run_op p m o = Done (fst (spec_op (nodes p) free o), p', m')
    /\ pool_rep p' m' (snd (spec_op (nodes p) free o)) /\ nodes p' = nodes p /\ node_size p' = node_size p
    /\ dom m' = dom m.
Proof.
  intros R Hok. destruct o as [|ptr|a v]; cbn [run_op spec_op].
  - destruct (malloc_spec p m free R) as (p' & m' & -> & R' & Hn & Hsz & Hd & _).
    exists p', m'. split_and!; done.
  - unfold spec_free. case_bool_decide as Hp.
    + destruct Hp as [Hin Hf]. destruct (free_accepts p m free ptr R Hin Hf) as (p' & m' & -> & R' & Hn & Hsz & Hd & _).
      exists p', m'. split_and!; done.
    + rewrite (free_rejects p m free ptr R Hp). exists p, m. split_and!; done.
  - destruct (write_spec p m free a v R Hok) as [-> R']. exists p, (<[a := v]> m). split_and!; try done.
    apply insert_same_dom. apply Hok.
Qed.

(** C29: a pool implements a stack of free nodes: for every sequence of
    allocations, frees of arbitrary pointers and writes into payloads, each
    allocation returns the payload of a free node or NULL exactly when none is
    left, and a free succeeds exactly when the pointer is the payload of a node
    handed out and not yet returned; double frees, foreign pointers and
    pointers into the middle of a node are refused and change nothing. *)
Theorem utils_memp_refines_stack (p : utils_memp_pool_t) (m : heap) (free : list Z) (os : list pool_op)
  (R : pool_rep p m free) (Hok : Forall (op_ok p m) os) :
  exists p' m', run_ops p m os = Done (fst (spec_ops (nodes p) free os), p', m')
    /\ pool_rep p' m' (snd (spec_ops (nodes p) free os)) /\ nodes p' = nodes p.
Proof.
  revert p m free R Hok. induction os as [|o os IH]; intros p m free R Hok; [by exists p, m|].
  apply Forall_cons in Hok as [Ho Hos]. cbn [run_ops spec_ops].
  destruct (run_op_spec p m free o R Ho) as (p1 & m1 & -> & R1 & Hn1 & Hsz1 & Hd1). cbn [mbind outcome_bind].
  destruct (spec_op (nodes p) free o) as [r free1] eqn:Es. cbn [fst snd] in *.
  destruct (IH p1 m1 free1 R1) as (p2 & m2 & -> & R2 & Hn2).
  { eapply Forall_impl; [exact Hos|]. intros [| |a v]; cbn; try done. rewrite Hn1, Hsz1, <- !elem_of_dom, Hd1. done. }
  rewrite Hn1 in *. cbn [mbind outcome_bind]. destruct (spec_ops (nodes p) free1 os) as [rs free2]. cbn [fst snd] in *.
  by exists p2, m2.
Qed.

(** a pool of two nodes of 8 payload bytes in a block at 4096 *)
Definition sample_heap : heap := list_to_map ((fun i : nat => (4096 + 4 * Z.of_nat i, 0)) <$> seq 0 16).
Definition sample_malloc (bytes : Z) (m : heap) : option (Z * heap) :=
  if bytes =? 56 then Some (4096, m ∪ sample_heap) else None.
Definition sample_pool : utils_memp_pool_t :=
  {| node_size := 8; pool_cap := 2; pool_size := 0; align_req := 4; padded_node_size := 12;
     first_node := 4128; last_node := 4140; mem := 4140 |}.
Definition sample_mem : heap := <[4140 := 4128]> sample_heap.

Lemma sample_rep : pool_rep sample_pool sample_mem [4140; 4128].
Proof.
  constructor.
  - constructor; cbn; unfold sizeof_node; first [lia|by exists 3|by exists 1032].
  - cbn [lseg]. split_and!; [done|done|]. exists 4128. split_and!; [done|done|done|]. by exists 0.
  - apply NoDup_cons. split; [set_solver|apply NoDup_singleton].
  - intros x Hx. assert (nodes sample_pool = [4128; 4140]) as -> by reflexivity. set_solver.
  - intros x Hx. assert (nodes sample_pool = [4128; 4140]) as E by reflexivity. rewrite E in Hx. set_solver.
  - done.
Qed.

Lemma utils_memp_init_correct_witness :
  exists p m', utils_memp_init sample_malloc 8 2 4 ∅ = Done (0, Some (4096, p), m')
    /\ pool_rep p m' (reverse (nodes p)).
Proof.
  destruct (utils_memp_init_correct sample_malloc 8 2 4 ∅) as (al & padded & bytes & EL & H).
  - intros bytes m base m'. unfold sample_malloc. case_match eqn:Eb; [|done]. apply Z.eqb_eq in Eb as ->.
    intros [= <- <-]. split_and!; [lia|by exists 1024| |].
    + intros a [k ->] H1 H2. apply lookup_union_is_Some. right.
      assert (k = 1024 \/ k = 1025 \/ k = 1026 \/ k = 1027 \/ k = 1028 \/ k = 1029 \/ k = 1030 \/ k = 1031
        \/ k = 1032 \/ k = 1033 \/ k = 1034 \/ k = 1035 \/ k = 1036 \/ k = 1037) as Hk by lia.
      by repeat destruct Hk as [->|Hk]; [eexists..|subst; eexists].
    + intros a v Ha. by apply lookup_union_Some_l.
  - by constructor.
  - assert (bytes = 56) as -> by (vm_compute in EL; congruence). cbn [sample_malloc] in H.
    destruct H as (p & m' & E & _ & R & _). by exists p, m'.
Defined.

Lemma utils_memp_refines_stack_witness :
  exists p' m', run_ops sample_pool sample_mem [Malloc; Malloc; Malloc; Write 4144 7; Free 4144; Free 4144; Malloc]
    = Done ([4144; 4132; 0; 0; 0; -1; 4144], p', m') /\ nodes p' = nodes sample_pool.
Proof.
  destruct (utils_memp_refines_stack sample_pool sample_mem [4140; 4128]
    [Malloc; Malloc; Malloc; Write 4144 7; Free 4144; Free 4144; Malloc] sample_rep) as (p' & m' & E & _ & Hn).
  - repeat constructor; cbn; try done. exists 4140. assert (nodes sample_pool = [4128; 4140]) as -> by reflexivity.
    split; [set_solver|]. unfold sizeof_node. lia.
  - exists p', m'. by split.
Defined.
