(* ===== verification/BitmapWindow.v ===== *)
(** * Receive window bitmap: src/utils/src/utils_bitmap_window.c

    The window remembers which of the sequence numbers from [ssn] on have been
    seen; sequence numbers run from 0 to [ssn_duration - 1] and wrap around.
    The specification is a set of unwrapped sequence numbers. *)
From S2P Require Import Prelude.

(** ** Definitions *)

Record utils_bitmap_ctx := { ssn : Z; ssn_duration : Z; map64 : Z }.

Definition utils_bitmap_window_init (ssn0 ssn_max : Z) : utils_bitmap_ctx :=
  {| ssn := ssn0; ssn_duration := ssn_max + 1; map64 := 0 |}.

Definition INT_MAX : Z := 2 ^ 31 - 1.

(** [1 << n] in [int], converted to [uint64_t]; shifting into the sign bit gives
    the most negative [int], as gcc defines it; other counts are undefined *)
Definition shl1 (n : Z) : outcome Z :=
  if bool_decide (0 <= n < 31) then Done (2 ^ n)
  else if n =? 31 then Done (u64 (- 2 ^ 31)) else Fault.

(** the [for] loop with [k] iterations to go *)
Fixpoint advance (k : nat) (c : utils_bitmap_ctx) : utils_bitmap_ctx :=
  match k with
  | O => c
  | S k =>
    advance k
      (if negb (Z.land (map64 c) 1 =? 0) then
         let s := ssn c + 1 in
         {| ssn := if s =? ssn_duration c then 0 else s; ssn_duration := ssn_duration c;
            map64 := Z.shiftr (map64 c) 1 |}
       else c)
  end.

Definition utils_bitmap_window_bit_set (c : utils_bitmap_ctx) (bit_pos : Z) : outcome (Z * utils_bitmap_ctx) :=
  if (bit_pos <? ssn c) && (64 <? u32 (ssn_duration c - ssn c + bit_pos + 1)) then Done (- INT_MAX, c) else
  let pos_offset := bit_pos + ssn_duration c - ssn c in
  let pos_offset := if ssn_duration c <=? pos_offset then pos_offset - ssn_duration c else pos_offset in
  b ← shl1 pos_offset;
  if negb (Z.land (map64 c) b =? 0) then Done (- bit_pos, c) else
  let c := {| ssn := ssn c; ssn_duration := ssn_duration c; map64 := Z.lor (map64 c) b |} in
  Done (pos_offset, advance 64 c).

Definition utils_bitmap_window_map_get (c : utils_bitmap_ctx) : Z := map64 c.
Definition utils_bitmap_window_ssn_get (c : utils_bitmap_ctx) : Z := ssn c.

(** ** Representation: the numbers seen, unwrapped, and the first one missing *)

Record window (c : utils_bitmap_ctx) (seen : gset Z) (base : Z) : Prop := {
  win_dur : 64 <= ssn_duration c < 2 ^ 30;
  win_ssn : ssn c = base mod ssn_duration c;
  win_map : 0 <= map64 c < 2 ^ 31;
  win_bits : forall j, 0 <= j -> Z.testbit (map64 c) j = true <-> base + j ∈ seen }.

(** ** The loop *)

Lemma land_one x : negb (Z.land x 1 =? 0) = Z.testbit x 0.
Proof.
  change 1 with (Z.ones 1) at 1. rewrite Z.land_ones by lia. change (2 ^ 1) with 2. rewrite Zmod_odd, Z.bit0_odd.
  by destruct (Z.odd x).
Qed.

Lemma advance_step c seen base :
  window c seen base -> Z.testbit (map64 c) 0 = true ->
  window {| ssn := if ssn c + 1 =? ssn_duration c then 0 else ssn c + 1; ssn_duration := ssn_duration c;
            map64 := Z.shiftr (map64 c) 1 |} seen (base + 1).
Proof.
  intros [Hd Hs Hm Hb] H0. constructor; cbn.
  - done.
  - pose proof (Z.mod_pos_bound base (ssn_duration c)). rewrite <- Zplus_mod_idemp_l, <- Hs.
    destruct (Z.eqb_spec (ssn c + 1) (ssn_duration c)) as [->|]; [by rewrite Z.mod_same by lia|].
    rewrite Z.mod_small; lia.
  - rewrite Z.shiftr_div_pow2 by lia. change (2 ^ 1) with 2. split; [apply Z.div_pos; lia|].
    apply Z.div_lt_upper_bound; lia.
  - intros j Hj. rewrite Z.shiftr_spec by lia. rewrite Hb by lia. by replace (base + 1 + j) with (base + (j + 1)) by lia.
Qed.

(** the loop stops at the first missing number *)
Lemma advance_spec k c seen base :
  window c seen base -> map64 c < 2 ^ Z.of_nat k ->
  exists base', base <= base' <= base + Z.of_nat k /\ window (advance k c) seen base' /\ base' ∉ seen
    /\ (forall n, base <= n < base' -> n ∈ seen) /\ ssn_duration (advance k c) = ssn_duration c.
Proof.
  revert c base. induction k as [|k IH]; intros c base W Hlt.
  - exists base. split; [lia|]. split; [done|]. split; [|split; [lia|done]].
    rewrite <- (Z.add_0_r base), <- (win_bits _ _ _ W) by lia.
    assert (map64 c = 0) as -> by (pose proof (win_map _ _ _ W); change (2 ^ Z.of_nat 0) with 1 in Hlt; lia).
    by rewrite Z.testbit_0_l.
  - cbn [advance]. rewrite land_one. destruct (Z.testbit (map64 c) 0) eqn:E0.
    + destruct (IH _ _ (advance_step _ _ _ W E0)) as (b & Hb & Wb & Hnb & Hall & Hdur); cbn.
      { rewrite Z.shiftr_div_pow2 by lia. apply Z.div_lt_upper_bound; [lia|].
        rewrite <- Z.pow_add_r by lia. by replace (1 + Z.of_nat k) with (Z.of_nat (S k)) by lia. }
      exists b. split; [lia|]. split; [done|]. split; [done|]. split; [|done].
      intros n Hn. destruct (decide (n = base)) as [->|]; [|apply Hall; lia].
      by rewrite <- (Z.add_0_r base), <- (win_bits _ _ _ W) by lia.
    + clear IH. exists base. split; [lia|].
      assert (forall j, advance j c = c) as Ej.
      { induction j as [|j IHj]; [done|]. cbn [advance]. by rewrite land_one, E0. }
      rewrite Ej. split; [done|]. split; [|split; [lia|done]].
      rewrite <- (Z.add_0_r base), <- (win_bits _ _ _ W) by lia. by rewrite E0.
Qed.

(** the bit position computed for a number inside the window *)
Lemma window_offset c seen base n :
  window c seen base -> base <= n < base + 31 ->
  let bit_pos := n mod ssn_duration c in
  (bit_pos <? ssn c) && (64 <? u32 (ssn_duration c - ssn c + bit_pos + 1)) = false
  /\ (let off := bit_pos + ssn_duration c - ssn c in
      if ssn_duration c <=? off then off - ssn_duration c else off) = n - base.
Proof.
  intros [Hd Hs _ _] Hn. cbn zeta. set (d := ssn_duration c) in *. rewrite Hs.
  pose proof (Z.mod_pos_bound base d). pose proof (Z.mod_pos_bound n d).
  assert (Hq : n mod d = base mod d + (n - base) \/ n mod d = base mod d + (n - base) - d).
  { replace (n mod d) with ((base mod d + (n - base)) mod d)
      by (rewrite Zplus_mod_idemp_l; f_equal; lia).
    destruct (decide (base mod d + (n - base) < d)); [left; apply Z.mod_small; lia|right].
    symmetry. apply Z.mod_unique with 1; lia. }
  split.
  - apply andb_false_iff. destruct Hq as [->| ->]; [left; apply Z.ltb_ge; lia|right].
    apply Z.ltb_ge. unfold u32, wrap. rewrite Z.mod_small; lia.
  - destruct (Z.leb_spec d (n mod d + d - base mod d)); destruct Hq; lia.
Qed.

Lemma land_bit x n : 0 <= n -> negb (Z.land x (2 ^ n) =? 0) = Z.testbit x n.
Proof.
  intros Hn. destruct (Z.testbit x n) eqn:E.
  - apply negb_true_iff, Z.eqb_neq. intros H. assert (Z.testbit (Z.land x (2 ^ n)) n = true) as H'.
    { by rewrite Z.land_spec, E, Z.pow2_bits_true by lia. }
    by rewrite H, Z.testbit_0_l in H'.
  - apply negb_false_iff, Z.eqb_eq. apply Z.bits_inj'. intros j Hj. rewrite Z.land_spec, Z.testbit_0_l.
    destruct (decide (j = n)) as [->|]; [by rewrite E|]. rewrite Z.pow2_bits_false by lia. apply andb_false_r.
Qed.

Lemma window_add c seen base n :
  window c seen base -> base <= n < base + 31 ->
  window {| ssn := ssn c; ssn_duration := ssn_duration c; map64 := Z.lor (map64 c) (2 ^ (n - base)) |}
    ({[n]} ∪ seen) base.
Proof.
  intros [Hd Hs Hm Hb] Hn. constructor; cbn; try done.
  - apply lor_bound; [lia|lia|]. split; [lia|]. apply Z.pow_lt_mono_r; lia.
  - intros j Hj. rewrite Z.lor_spec, orb_true_iff, Hb, elem_of_union, elem_of_singleton by lia.
    rewrite Z.pow2_bits_eqb, Z.eqb_eq by lia. intuition lia.
Qed.

(** ** Theorem *)

(** the calls for the unwrapped numbers [ns]: for each, whether it was new *)
Fixpoint receive (c : utils_bitmap_ctx) (ns : list Z) : outcome (list Z * utils_bitmap_ctx) :=
  match ns with
  | [] => Done ([], c)
  | n :: ns =>
    '(r, c) ← utils_bitmap_window_bit_set c (n mod ssn_duration c);
    '(rs, c) ← receive c ns;
    Done (r :: rs, c)
  end.

(** the first number from [base] on that is not in [seen], looking at most [k] ahead *)
Fixpoint next_missing (k : nat) (seen : gset Z) (base : Z) : Z :=
  match k with
  | O => base
  | S k => if bool_decide (base ∈ seen) then next_missing k seen (base + 1) else base
  end.

(** the specification: the results, the set seen and the first number missing;
    [None] when a number is not within 31 of the first one missing *)
Fixpoint spec_receive (dur : Z) (seen : gset Z) (base : Z) (ns : list Z) : option (list Z * gset Z * Z) :=
  match ns with
  | [] => Some ([], seen, base)
  | n :: ns =>
    if bool_decide (base <= n < base + 31) then
      if bool_decide (n ∈ seen) then
        '(rs, seen, base) ← spec_receive dur seen base ns; Some (- (n mod dur) :: rs, seen, base)
      else
        '(rs, seen, base') ← spec_receive dur ({[n]} ∪ seen) (next_missing 64 ({[n]} ∪ seen) base) ns;
        Some (n - base :: rs, seen, base')
    else None
  end.

Lemma next_missing_eq k seen base f :
  base <= f <= base + Z.of_nat k -> f ∉ seen -> (forall n, base <= n < f -> n ∈ seen) ->
  next_missing k seen base = f.
Proof.
  revert base. induction k as [|k IH]; intros base Hf Hn Hall; cbn [next_missing]; [lia|].
  case_bool_decide as Hs.
  - apply IH; [|done|intros; apply Hall; lia]. assert (f <> base) by (by intros ->). lia.
  - destruct (decide (f = base)); [done|]. exfalso. apply Hs, Hall. lia.
Qed.

Lemma bit_set_spec c seen base n :
  window c seen base -> base <= n < base + 31 ->
  utils_bitmap_window_bit_set c (n mod ssn_duration c) =
    (if bool_decide (n ∈ seen) then Done (- (n mod ssn_duration c), c)
     else Done (n - base, advance 64 {| ssn := ssn c; ssn_duration := ssn_duration c;
                                        map64 := Z.lor (map64 c) (2 ^ (n - base)) |})).
Proof.
  intros W Hn. destruct (window_offset c seen base n W Hn) as [E1 E2]. unfold utils_bitmap_window_bit_set.
  rewrite E1. cbn zeta in E2. rewrite E2. unfold shl1. rewrite (bool_decide_true (0 <= n - base < 31)) by lia.
  cbn [mbind outcome_bind]. rewrite land_bit by lia.
  pose proof (win_bits _ _ _ W (n - base) ltac:(lia)) as Hb. replace (base + (n - base)) with n in Hb by lia.
  case_bool_decide as Hs; destruct (Z.testbit (map64 c) (n - base)); try done; exfalso.
  - by apply Hb in Hs.
  - by apply Hs, Hb.
Qed.

(** C40: the window records exactly the numbers that arrived: fed any sequence of
    sequence numbers that each lie fewer than 31 ahead of the first missing one,
    with any wrap-around, a number seen before is reported as a duplicate and
    changes nothing, a new one returns its distance from the window start, and
    the window start is always the first number still missing. *)
Theorem utils_bitmap_window_correct (c : utils_bitmap_ctx) (seen seen' : gset Z) (base base' : Z) (ns rs : list Z)
  (W : window c seen base) (E : spec_receive (ssn_duration c) seen base ns = Some (rs, seen', base')) :
  exists c', receive c ns = Done (rs, c') /\ window c' seen' base'
    /\ utils_bitmap_window_ssn_get c' = base' mod ssn_duration c.
Proof.
  revert c seen base rs W E. induction ns as [|n ns IH]; intros c seen base rs W E; cbn [spec_receive] in E.
  - simplify_eq. exists c. split; [done|]. split; [done|apply W].
  - case_bool_decide as Hn; [|done]. cbn [receive]. rewrite (bit_set_spec c seen base n W Hn).
    case_bool_decide as Hs; cbn [mbind outcome_bind].
    + destruct (spec_receive _ _ _ _) as [[[rs1 seen1] base1]|] eqn:E1; cbn [mbind option_bind] in E; [|discriminate E].
      injection E as <- <- <-.
      destruct (IH _ _ _ _ W E1) as (c' & -> & W' & Hg). by exists c'.
    + destruct (advance_spec 64 _ _ _ (window_add c seen base n W Hn)) as (f & Hf & Wf & Hnf & Hall & Hd).
      { cbn. pose proof (win_map _ _ _ (window_add c seen base n W Hn)) as Hm. cbn in Hm. lia. }
      rewrite (next_missing_eq 64 _ base f) in E by done. cbn [ssn_duration] in Hd.
      remember (advance 64 _) as c1 eqn:Ec1. clear Ec1.
      destruct (spec_receive _ _ _ _) as [[[rs1 seen1] base1]|] eqn:E1; cbn [mbind option_bind] in E; [|discriminate E].
      injection E as <- <- <-.
      rewrite <- Hd in E1. destruct (IH _ _ _ _ Wf E1) as (c' & -> & W' & Hg).
      exists c'. rewrite Hd in Hg. by cbn.
Qed.

Lemma utils_bitmap_window_correct_witness :
  exists c', receive (utils_bitmap_window_init 4094 4095) [4095; 4097; 4095; 4094; 4096]
    = Done ([1; 3; -4095; 0; 0], c') /\ utils_bitmap_window_ssn_get c' = 2.
Proof.
  destruct (utils_bitmap_window_correct (utils_bitmap_window_init 4094 4095) ∅ {[4094; 4095; 4096; 4097]} 4094 4098
    [4095; 4097; 4095; 4094; 4096] [1; 3; -4095; 0; 0]) as (c' & E & _ & Hs).
  - constructor; cbn; [lia|done|lia|]. intros j Hj. rewrite Z.testbit_0_l. set_solver.
  - vm_compute. reflexivity.
  - exists c'. split; [exact E|exact Hs].
Defined.

(** a number 31 ahead sets all higher bits of the map, one 32 ahead is undefined
    although the map has 64 bits, and an old number that is numerically above
    the window start is not rejected *)
Lemma bitmap_window_limits :
  utils_bitmap_window_bit_set (utils_bitmap_window_init 0 4095) 31
    = Done (31, {| ssn := 0; ssn_duration := 4096; map64 := 2 ^ 64 - 2 ^ 31 |})
  /\ utils_bitmap_window_bit_set (utils_bitmap_window_init 0 4095) 32 = Fault
  /\ utils_bitmap_window_bit_set (utils_bitmap_window_init 1 4095) 4095 = Fault
  /\ fst <$> (match utils_bitmap_window_bit_set (utils_bitmap_window_init 100 4095) 5 with
              | Done r => Some r | _ => None end) = Some (- INT_MAX).
Proof. split_and!; vm_compute; reflexivity. Qed.
