(* ===== verification/Bloop.v ===== *)
(** * The event loop: src/sys/bloop/bloop/src/bloop_base.c

    A loop owns 32 tasks.  Events are bits set for a task, synchronously from
    the loop or asynchronously from other tasks; timers set events when due.
    One pass of [bloop_run] waits until an event is pending, fires the due
    timers and calls the handler of the highest task with an event.

    [world] is the loop struct, the memory of the timer rings and timers, and
    counters for the readings of the clocks.  The tick counter, the microsecond
    timer and what other tasks do while the loop is blocked are parameters, as
    are the callbacks of timers and the event handlers.  The difference of two
    [int] times wraps around, as on the target.  A failed [BL_ASSERT_ERROR]
    stops the system: [Fault]. *)
From S2P Require Import Prelude UtilsList Dlist.

(** ** Data *)

Definition LOOP_TASK_MAX : Z := 32.
Definition LOOP_TIMER_FLAG_NONE : Z := 0.
Definition LOOP_TIMER_FLAG_AUTO_REPEAT : Z := 1.
Definition LOOP_TIMER_FLAG_AUTO_FREE : Z := 2.

Record loop_evt_handler_statistic := {
  time_max : Z; time_consumed : Z; time_accumulated : Z; count_triggered : Z }.

(** [dlist_item] is the first field of a timer: the address of a timer is the
    address of its ring node *)
Record loop_timer := {
  flags : Z; time_added : Z; time_target : Z; idx_task : Z; evt_type_map : Z; t_cb : Z; t_arg : Z }.

Record loop_ctx := {
  looper : Z; bitmap_evt_async : Z; bitmap_evt_sync : Z; bitmap_msg : Z;
  evt_type_map_async : list Z; evt_type_map_sync : list Z; msg_list : list utils_list;
  statistic : list loop_evt_handler_statistic; handlers : list Z }.

Record world := {
  loop : loop_ctx;
  dl : dmem;                    (* ring nodes: the two heads and the timers *)
  timers : gmap Z loop_timer;
  msgs : heap;                  (* message list nodes *)
  tick_reads : nat; us_reads : nat; waits : nat;
  called : list (Z * Z) }.      (* timer callbacks called: function, timer *)

Definition with_loop (f : loop_ctx -> loop_ctx) (w : world) : world :=
  {| loop := f (loop w); dl := dl w; timers := timers w; msgs := msgs w; tick_reads := tick_reads w;
     us_reads := us_reads w; waits := waits w; called := called w |}.
Definition with_dl (d : dmem) (w : world) : world :=
  {| loop := loop w; dl := d; timers := timers w; msgs := msgs w; tick_reads := tick_reads w;
     us_reads := us_reads w; waits := waits w; called := called w |}.
Definition with_timers (t : gmap Z loop_timer) (w : world) : world :=
  {| loop := loop w; dl := dl w; timers := t; msgs := msgs w; tick_reads := tick_reads w;
     us_reads := us_reads w; waits := waits w; called := called w |}.
Definition set_events (a s : Z) (ma ms : list Z) (l : loop_ctx) : loop_ctx :=
  {| looper := looper l; bitmap_evt_async := a; bitmap_evt_sync := s; bitmap_msg := bitmap_msg l;
     evt_type_map_async := ma; evt_type_map_sync := ms; msg_list := msg_list l; statistic := statistic l;
     handlers := handlers l |}.
Definition set_handlers (h : list Z) (l : loop_ctx) : loop_ctx :=
  {| looper := looper l; bitmap_evt_async := bitmap_evt_async l; bitmap_evt_sync := bitmap_evt_sync l;
     bitmap_msg := bitmap_msg l; evt_type_map_async := evt_type_map_async l;
     evt_type_map_sync := evt_type_map_sync l; msg_list := msg_list l; statistic := statistic l; handlers := h |}.

(** ** Events *)

Definition bit (n : Z) : Z := Z.shiftl 1 n.

Definition bloop_evt_set_async (evt evt_map : Z) (l : loop_ctx) : outcome loop_ctx :=
  if evt <? LOOP_TASK_MAX then
    m ← aget (evt_type_map_async l) evt;
    ma ← aset (evt_type_map_async l) evt (Z.lor m evt_map);
    Done (set_events (Z.lor (bitmap_evt_async l) (bit evt)) (bitmap_evt_sync l) ma (evt_type_map_sync l) l)
  else Fault.

(** the same without the critical section; waking the looper is not modelled *)
Definition bloop_evt_set_async_fromISR (evt evt_map : Z) (l : loop_ctx) : outcome loop_ctx :=
  if evt <? LOOP_TASK_MAX then
    m ← aget (evt_type_map_async l) evt;
    ma ← aset (evt_type_map_async l) evt (Z.lor m evt_map);
    Done (set_events (Z.lor (bitmap_evt_async l) (bit evt)) (bitmap_evt_sync l) ma (evt_type_map_sync l) l)
  else Fault.

Definition bloop_evt_set_sync (evt evt_map : Z) (l : loop_ctx) : outcome loop_ctx :=
  if evt <? LOOP_TASK_MAX then
    m ← aget (evt_type_map_async l) evt;
    ma ← aset (evt_type_map_async l) evt (Z.lor m evt_map);
    Done (set_events (bitmap_evt_async l) (Z.lor (bitmap_evt_sync l) (bit evt)) ma (evt_type_map_sync l) l)
  else Fault.

Definition bloop_evt_unset_sync (evt : Z) (l : loop_ctx) : outcome loop_ctx :=
  if evt <? LOOP_TASK_MAX then
    Done (set_events (bitmap_evt_async l) (Z.land (bitmap_evt_sync l) (u32 (Z.lnot (bit evt))))
            (evt_type_map_async l) (evt_type_map_sync l) l)
  else Fault.

(** ** Handlers *)

(** the [for] loop of the search; it tests [handlers[priority]] whatever [i] is *)
Fixpoint slot_search (k : nat) (hs : list Z) (priority i : Z) : outcome Z :=
  match k with
  | O => Done i
  | S k => h ← aget hs priority; if h =? NULL then Done i else slot_search k hs priority (i + 1)
  end.

Definition bloop_handler_register (handler priority : Z) (l : loop_ctx) : outcome (Z * loop_ctx) :=
  if (priority <? 0) || (LOOP_TASK_MAX <=? priority) then Done (-1, l) else
  h ← aget (handlers l) priority;
  i ← (if h =? NULL then Done priority
       else slot_search (Z.to_nat (LOOP_TASK_MAX - priority)) (handlers l) priority priority);
  if LOOP_TASK_MAX =? i then Done (-1, l) else
  hs ← aset (handlers l) i handler;
  Done (0, set_handlers hs l).

Definition bloop_handler_unregister (handler priority : Z) (l : loop_ctx) : outcome (Z * loop_ctx) :=
  if (priority <? 0) || (LOOP_TASK_MAX <=? priority) then Done (-1, l) else
  h ← aget (handlers l) priority;
  if h =? NULL then Done (-2, l) else
  if negb (handler =? h) then Done (-3, l) else
  hs ← aset (handlers l) priority NULL;
  Done (0, set_handlers hs l).

(** ** Timers *)

Section bloop.
(** the addresses of [loop->timer_dlist] and [loop->timer_dued] *)
Context (timer_dlist timer_dued : Z).
(** readings of [xTaskGetTickCount] and [bl_timer_now_us] *)
Context (tick now_us : nat -> Z).
(** what other tasks post while the loop is blocked for the n-th time *)
Context (posted : nat -> list (Z * Z)).
(** timer callbacks (function, timer, argument) and event handlers (handler, task) *)
Context (cb_run : Z -> Z -> Z -> world -> outcome world).
Context (evt_run : Z -> Z -> world -> outcome world).
(** the result of [__builtin_clz(0)], which gcc leaves open *)
Context (clz0 : Z).

Definition statistic0 : loop_evt_handler_statistic :=
  {| time_max := 0; time_consumed := 0; time_accumulated := 0; count_triggered := 0 |}.
Definition list0 : utils_list := {| l_first := NULL; l_last := NULL |}.
Definition loop0 : loop_ctx :=
  {| looper := NULL; bitmap_evt_async := 0; bitmap_evt_sync := 0; bitmap_msg := 0;
     evt_type_map_async := replicate 32 0; evt_type_map_sync := replicate 32 0;
     msg_list := replicate 32 list0; statistic := replicate 32 statistic0; handlers := replicate 32 NULL |}.

Definition bloop_init (w : world) : outcome world :=
  let l := {| looper := looper loop0; bitmap_evt_async := bitmap_evt_async loop0;
              bitmap_evt_sync := bitmap_evt_sync loop0; bitmap_msg := bitmap_msg loop0;
              evt_type_map_async := evt_type_map_async loop0; evt_type_map_sync := evt_type_map_sync loop0;
              msg_list := utils_list_init <$> msg_list loop0; statistic := statistic loop0;
              handlers := handlers loop0 |} in
  d ← INIT_UTILS_DLIST_HEAD timer_dlist (dl w);
  d ← INIT_UTILS_DLIST_HEAD timer_dued d;
  Done (with_dl d (with_loop (fun _ => l) w)).

Definition get_timer (w : world) (t : Z) : outcome loop_timer :=
  match timers w !! t with Some x => Done x | None => Fault end.
Definition put_timer (w : world) (t : Z) (x : loop_timer) : world := with_timers (<[t := x]> (timers w)) w.

(** one reading of the tick counter *)
Definition xTaskGetTickCount (w : world) : Z * world :=
  (tick (tick_reads w),
   {| loop := loop w; dl := dl w; timers := timers w; msgs := msgs w; tick_reads := S (tick_reads w);
      us_reads := us_reads w; waits := waits w; called := called w |}).
Definition bl_timer_now_us (w : world) : Z * world :=
  (now_us (us_reads w),
   {| loop := loop w; dl := dl w; timers := timers w; msgs := msgs w; tick_reads := tick_reads w;
      us_reads := S (us_reads w); waits := waits w; called := called w |}).

Definition bloop_timer_init (timer use_auto_free : Z) (w : world) : outcome world :=
  _ ← get_timer w timer;
  d ← utils_dlist_init timer (dl w);
  Done (put_timer (with_dl d w) timer
    {| flags := if negb (use_auto_free =? 0) then LOOP_TIMER_FLAG_AUTO_FREE else LOOP_TIMER_FLAG_NONE;
       time_added := 0; time_target := 0; idx_task := 0; evt_type_map := 0; t_cb := NULL; t_arg := NULL |}).

Definition bloop_timer_configure (timer delay_ms cb arg idx map : Z) (w : world) : outcome world :=
  x ← get_timer w timer;
  let '(now, w) := xTaskGetTickCount w in
  Done (put_timer w timer
    {| flags := flags x; time_added := now; time_target := u32 (now + delay_ms); idx_task := idx;
       evt_type_map := map; t_cb := cb; t_arg := arg |}).

Definition bloop_timer_repeat_enable (timer : Z) (w : world) : outcome world :=
  x ← get_timer w timer;
  Done (put_timer w timer
    {| flags := Z.lor (flags x) LOOP_TIMER_FLAG_AUTO_REPEAT; time_added := time_added x;
       time_target := time_target x; idx_task := idx_task x; evt_type_map := evt_type_map x;
       t_cb := t_cb x; t_arg := t_arg x |}).

Definition reconfigured (x : loop_timer) (now : Z) : loop_timer :=
  let delay_ms := s32 (time_target x - time_added x) in
  {| flags := flags x; time_added := now; time_target := u32 (now + delay_ms); idx_task := idx_task x;
     evt_type_map := evt_type_map x; t_cb := t_cb x; t_arg := t_arg x |}.

Definition bloop_timer_repeat_reconfigure (timer : Z) (w : world) : outcome world :=
  x ← get_timer w timer;
  let '(now, w) := xTaskGetTickCount w in
  Done (put_timer w timer (reconfigured x now)).

(** the loop over the ring: [node] against [timer]; [node_pre] is the node before *)
Fixpoint register_loop (fuel : nat) (timer target node node_pre : Z) (w : world) : outcome world :=
  match fuel with
  | O => NoFuel
  | S fuel =>
    if negb (node =? timer_dlist) then
      x ← get_timer w node;
      if s32 (target - time_target x) <=? 0 then
        d ← (if node_pre =? NULL then utils_dlist_add timer timer_dlist (dl w)
             else utils_dlist_add timer node_pre (dl w));
        Done (with_dl d w)
      else n ← next_of (dl w) node; register_loop fuel timer target n node w
    else d ← utils_dlist_add timer node_pre (dl w); Done (with_dl d w)
  end.

Definition bloop_timer_register (timer : Z) (w : world) : outcome world :=
  e ← utils_dlist_empty timer_dlist (dl w);
  if (e : bool) then d ← utils_dlist_add timer timer_dlist (dl w); Done (with_dl d w)
  else
    x ← get_timer w timer;
    n ← next_of (dl w) timer_dlist;
    register_loop (loop_fuel (d_next (dl w))) timer (time_target x) n NULL w.

Definition _timer_is_up_handle (timer : Z) (w : world) : outcome world :=
  x ← get_timer w timer;
  l ← bloop_evt_set_sync (u32 (idx_task x)) (evt_type_map x) (loop w);
  let w := with_loop (fun _ => l) w in
  w ← (if negb (t_cb x =? NULL) then
         cb_run (t_cb x) timer (t_arg x)
           {| loop := loop w; dl := dl w; timers := timers w; msgs := msgs w; tick_reads := tick_reads w;
              us_reads := us_reads w; waits := waits w; called := called w ++ [(t_cb x, timer)] |}
       else Done w);
  d ← utils_dlist_del timer (dl w);
  d ← utils_dlist_add timer timer_dued d;
  Done (with_dl d w).

(** [vPortFree]: the timer and its node are gone *)
Definition free_timer (timer : Z) (w : world) : world :=
  with_timers (delete timer (timers w))
    (with_dl {| d_next := delete timer (d_next (dl w)); d_prev := delete timer (d_prev (dl w)) |} w).

(** the body of the loop of [_timer_dued_clean] *)
Definition dued_body (timer : Z) (w : world) : outcome world :=
  d ← utils_dlist_del timer (dl w);
  let w := with_dl d w in
  x ← get_timer w timer;
  if negb (Z.land (flags x) LOOP_TIMER_FLAG_AUTO_FREE =? 0) then Done (free_timer timer w)
  else if negb (Z.land (flags x) LOOP_TIMER_FLAG_AUTO_REPEAT =? 0) then
    w ← bloop_timer_repeat_reconfigure timer w;
    bloop_timer_register timer w
  else Done w.

(** the loop; [n] was read before the body runs *)
Fixpoint dued_loop (fuel : nat) (timer n : Z) (w : world) : outcome world :=
  match fuel with
  | O => NoFuel
  | S fuel =>
    if negb (timer =? timer_dued) then
      w ← dued_body timer w;
      n' ← (if negb (n =? NULL) then next_of (dl w) n else Done NULL);
      dued_loop fuel n n' w
    else Done w
  end.

Definition _timer_dued_clean (w : world) : outcome world :=
  t ← next_of (dl w) timer_dued;
  n ← (if negb (t =? NULL) then next_of (dl w) t else Done NULL);
  dued_loop (loop_fuel (d_next (dl w))) t n w.

(** the loop that fires the timers due at [time_now] *)
Fixpoint due_loop (fuel : nat) (time_now timer n : Z) (w : world) : outcome world :=
  match fuel with
  | O => NoFuel
  | S fuel =>
    if negb (timer =? timer_dlist) then
      x ← get_timer w timer;
      if 0 <=? s32 (time_now - time_target x) then
        w ← _timer_is_up_handle timer w;
        n' ← (if negb (n =? NULL) then next_of (dl w) n else Done NULL);
        due_loop fuel time_now n n' w
      else Done w
    else Done w
  end.

(** the part of [_bloop_wait] behind the label [handle_timer] *)
Definition handle_timer (w : world) : outcome world :=
  e ← utils_dlist_empty timer_dlist (dl w);
  if (e : bool) then Done w else
  let '(time_now, w) := xTaskGetTickCount w in
  t ← next_of (dl w) timer_dlist;
  n ← (if negb (t =? NULL) then next_of (dl w) t else Done NULL);
  w ← due_loop (loop_fuel (d_next (dl w))) time_now t n w;
  _timer_dued_clean w.

(** ** The loop *)

Fixpoint post_all (ps : list (Z * Z)) (l : loop_ctx) : outcome loop_ctx :=
  match ps with
  | [] => Done l
  | (evt, map) :: ps => l ← bloop_evt_set_async evt map l; post_all ps l
  end.

(** [ulTaskNotifyTake]: the other tasks run *)
Definition ulTaskNotifyTake (w : world) : outcome world :=
  l ← post_all (posted (waits w)) (loop w);
  Done {| loop := l; dl := dl w; timers := timers w; msgs := msgs w; tick_reads := tick_reads w;
          us_reads := us_reads w; waits := S (waits w); called := called w |}.

Definition copy_evt (l : loop_ctx) : loop_ctx :=
  set_events 0 (Z.lor (bitmap_evt_sync l) (bitmap_evt_async l)) (evt_type_map_async l) (evt_type_map_sync l) l.

(** [fuel] bounds the number of times the loop goes back to [copy_evt] *)
Fixpoint _bloop_wait (fuel : nat) (w : world) : outcome world :=
  match fuel with
  | O => NoFuel
  | S fuel =>
    let w := with_loop copy_evt w in
    if bitmap_evt_sync (loop w) =? 0 then
      e ← utils_dlist_empty timer_dlist (dl w);
      if (e : bool) then w ← ulTaskNotifyTake w; _bloop_wait fuel w
      else
        t ← next_of (dl w) timer_dlist;
        x ← get_timer w t;
        let '(now, w) := xTaskGetTickCount w in
        let time2wait := s32 (time_target x - now) in
        if 0 <? time2wait then w ← ulTaskNotifyTake w; _bloop_wait fuel w
        else handle_timer w
    else handle_timer w
  end.

(** 31 minus the number of leading zeros *)
Definition highest (bitmap : Z) : Z := if bitmap =? 0 then 31 - clz0 else Z.log2 bitmap.
Definition _evt_highest (l : loop_ctx) : Z := highest (bitmap_evt_sync l).
Definition _msg_highest (l : loop_ctx) : Z := highest (bitmap_msg l).

Definition set_statistic (s : list loop_evt_handler_statistic) (l : loop_ctx) : loop_ctx :=
  {| looper := looper l; bitmap_evt_async := bitmap_evt_async l; bitmap_evt_sync := bitmap_evt_sync l;
     bitmap_msg := bitmap_msg l; evt_type_map_async := evt_type_map_async l;
     evt_type_map_sync := evt_type_map_sync l; msg_list := msg_list l; statistic := s; handlers := handlers l |}.

Definition merge_maps (task : Z) (l : loop_ctx) : outcome loop_ctx :=
  s ← aget (evt_type_map_sync l) task;
  a ← aget (evt_type_map_async l) task;
  ms ← aset (evt_type_map_sync l) task (Z.lor s a);
  ma ← aset (evt_type_map_async l) task 0;
  Done (set_events (bitmap_evt_async l) (bitmap_evt_sync l) ma ms l).

Definition count_evt (consumed : Z) (s : loop_evt_handler_statistic) : loop_evt_handler_statistic :=
  {| time_max := if time_max s <? consumed then consumed else time_max s; time_consumed := consumed;
     time_accumulated := u32 (time_accumulated s + consumed); count_triggered := u32 (count_triggered s + 1) |}.

Definition _evt_handle (highest_evt : Z) (w : world) : outcome world :=
  handler ← aget (handlers (loop w)) highest_evt;
  if handler =? NULL then Fault else
  l ← merge_maps highest_evt (loop w);
  let w := with_loop (fun _ => l) w in
  let '(time_start, w) := bl_timer_now_us w in
  w ← evt_run handler highest_evt w;
  let '(time_end, w) := bl_timer_now_us w in
  s ← aget (statistic (loop w)) highest_evt;
  ss ← aset (statistic (loop w)) highest_evt (count_evt (u32 (time_end - time_start)) s);
  l ← bloop_evt_unset_sync highest_evt (set_statistic ss (loop w));
  Done (with_loop (fun _ => l) w).

Definition set_msg_list (ls : list utils_list) (l : loop_ctx) : loop_ctx :=
  {| looper := looper l; bitmap_evt_async := bitmap_evt_async l; bitmap_evt_sync := bitmap_evt_sync l;
     bitmap_msg := bitmap_msg l; evt_type_map_async := evt_type_map_async l;
     evt_type_map_sync := evt_type_map_sync l; msg_list := ls; statistic := statistic l; handlers := handlers l |}.

Definition _msg_handle (highest_msg : Z) (w : world) : outcome world :=
  q ← aget (msg_list (loop w)) highest_msg;
  '(msg, q) ← utils_list_pop_front q (msgs w);
  ls ← aset (msg_list (loop w)) highest_msg q;
  if msg =? NULL then Fault else Done (with_loop (set_msg_list ls) w).

Definition _bloop_handle_set (task : Z) (l : loop_ctx) : loop_ctx :=
  {| looper := task; bitmap_evt_async := bitmap_evt_async l; bitmap_evt_sync := bitmap_evt_sync l;
     bitmap_msg := bitmap_msg l; evt_type_map_async := evt_type_map_async l;
     evt_type_map_sync := evt_type_map_sync l; msg_list := msg_list l; statistic := statistic l;
     handlers := handlers l |}.

(** the body of the [while] loop of [bloop_run] *)
Definition bloop_dispatch (w : world) : outcome world :=
  let highest_evt := _evt_highest (loop w) in
  let highest_msg := _msg_highest (loop w) in
  if (highest_msg <=? highest_evt) && (0 <=? highest_evt) then _evt_handle highest_evt w
  else if 0 <=? highest_msg then _msg_handle highest_msg w
  else Done w.

(** one pass of that loop *)
Definition bloop_run_pass (fuel : nat) (w : world) : outcome world :=
  w ← _bloop_wait fuel w;
  bloop_dispatch w.

(** [passes] passes of [bloop_run] started by [task] *)
Fixpoint bloop_run_passes (passes fuel : nat) (w : world) : outcome world :=
  match passes with
  | O => Done w
  | S passes => w ← bloop_run_pass fuel w; bloop_run_passes passes fuel w
  end.
Definition bloop_run (task : Z) (passes fuel : nat) (w : world) : outcome world :=
  bloop_run_passes passes fuel (with_loop (_bloop_handle_set task) w).
End bloop.
