(* ===== verification/BloopProofs.v ===== *)
(** * Correctness of the event loop (Bloop.v) *)
From S2P Require Import Prelude UtilsList Dlist Bloop.

(** ** Times

    Tick values wrap around.  [since B t] is the distance of [t] behind a base
    [B]; two times less than [2 ^ 31] behind the same base compare by it. *)
Definition since (B t : Z) : Z := u32 (t - B).

Lemma since_range B t : 0 <= since B t < 2 ^ 32.
Proof. unfold since, u32, wrap. apply Z.mod_pos_bound. lia. Qed.

Lemma s32_since B a b :
  since B a < 2 ^ 31 -> since B b < 2 ^ 31 -> s32 (a - b) = since B a - since B b.
Proof.
  unfold since, s32, u32, wrap. intros Ha Hb.
  pose proof (Z.mod_pos_bound (a - B) (2 ^ 32)). pose proof (Z.mod_pos_bound (b - B) (2 ^ 32)).
  assert (E : (a - b + 2 ^ 31) mod 2 ^ 32 = (a - B) mod 2 ^ 32 - (b - B) mod 2 ^ 32 + 2 ^ 31).
  { symmetry. apply Z.mod_unique with ((a - B) / 2 ^ 32 - (b - B) / 2 ^ 32); [lia|].
    pose proof (Z.div_mod (a - B) (2 ^ 32)). pose proof (Z.div_mod (b - B) (2 ^ 32)). lia. }
  rewrite E. lia.
Qed.

(** ** Bits of events *)

Lemma bit_testbit n k : 0 <= n -> 0 <= k -> Z.testbit (bit n) k = (n =? k).
Proof.
  intros Hn Hk. unfold bit. rewrite Z.shiftl_1_l. by rewrite Z.pow2_bits_eqb by lia.
Qed.

Record events_ok (l : loop_ctx) : Prop := {
  eo_sync : 0 <= bitmap_evt_sync l < 2 ^ 32;
  eo_async : 0 <= bitmap_evt_async l < 2 ^ 32;
  eo_map_sync : length (evt_type_map_sync l) = 32%nat;
  eo_map_async : length (evt_type_map_async l) = 32%nat }.

(** the task has its event pending and the bits of [map] set in its type map *)
Definition pending (l : loop_ctx) (task map : Z) : Prop :=
  Z.testbit (bitmap_evt_sync l) task = true
  /\ exists m, evt_type_map_async l !! Z.to_nat task = Some m /\ Z.land m map = map.

(** no pending event is lost between [l] and [l'] *)
Record gains (l l' : loop_ctx) : Prop := {
  ga_ok : events_ok l -> events_ok l';
  ga_sync : forall k, Z.testbit (bitmap_evt_sync l) k = true -> Z.testbit (bitmap_evt_sync l') k = true;
  ga_pending : forall task map, pending l task map -> pending l' task map }.

#[export] Instance gains_preorder : PreOrder gains.
Proof.
  split; [by constructor|]. intros l1 l2 l3 [] []. constructor; auto.
Qed.

Lemma land_range w x y : 0 <= w -> 0 <= x < 2 ^ w -> 0 <= Z.land x y < 2 ^ w.
Proof.
  intros Hw Hx. assert (Z.land x y = Z.land x y mod 2 ^ w) as ->; [|apply Z.mod_pos_bound; lia].
  rewrite <- Z.land_ones by lia. zbits n. destruct (decide (n < w)).
  - by rewrite Z.ones_spec_low, andb_true_r by lia.
  - by rewrite (testbit_high w x) by lia.
Qed.

Lemma bit_range n : 0 <= n < 32 -> 0 <= bit n < 2 ^ 32.
Proof. intros H. unfold bit. rewrite Z.shiftl_1_l. split; [lia|]. apply Z.pow_lt_mono_r; lia. Qed.

Lemma land_lor_l m n map : Z.land m map = map -> Z.land (Z.lor m n) map = map.
Proof. intros H. rewrite <- H at 2. apply Z.bits_inj'. intros k Hk. rewrite !Z.land_spec, Z.lor_spec.
  assert (Hb := f_equal (fun z => Z.testbit z k) H). cbn in Hb. rewrite Z.land_spec in Hb.
  destruct (Z.testbit m k), (Z.testbit n k), (Z.testbit map k); done. Qed.
Lemma land_lor_r m map : Z.land (Z.lor m map) map = map.
Proof. apply Z.bits_inj'. intros k Hk. rewrite Z.land_spec, Z.lor_spec. by destruct (Z.testbit m k), (Z.testbit map k). Qed.

(** a synchronous event: pending afterwards, nothing lost *)
Lemma set_sync_spec l evt map :
  events_ok l -> 0 <= evt < 32 ->
  exists l', bloop_evt_set_sync evt map l = Done l' /\ gains l l' /\ pending l' evt map
    /\ events_ok l' /\ handlers l' = handlers l /\ bitmap_msg l' = bitmap_msg l.
Proof.
  intros [Hs Ha Lms Lma] He. unfold bloop_evt_set_sync. rewrite (proj2 (Z.ltb_lt _ _)) by (unfold LOOP_TASK_MAX; lia).
  destruct (lookup_lt_is_Some_2 (evt_type_map_async l) (Z.to_nat evt)) as [m Hm]; [lia|].
  step_with (aget_done _ _ _ (proj1 He) Hm). rewrite aset_done by lia. cbn [mbind outcome_bind].
  eexists. split; [done|].
  assert (Hok : events_ok (set_events (bitmap_evt_async l) (Z.lor (bitmap_evt_sync l) (bit evt))
    (<[Z.to_nat evt:=Z.lor m map]> (evt_type_map_async l)) (evt_type_map_sync l) l)).
  { constructor; cbn; [by apply lor_bound; [| |apply bit_range]|done|done|by rewrite length_insert]. }
  split; [|split; [|done]].
  - constructor; cbn; [done| |].
    + intros k Hk. rewrite Z.lor_spec, Hk. done.
    + intros task map' [H1 (m' & H2 & H3)]. split; cbn.
      * by rewrite Z.lor_spec, H1.
      * destruct (decide (Z.to_nat task = Z.to_nat evt)) as [E|E].
        -- rewrite E in H2 |- *. assert (m' = m) as -> by congruence. exists (Z.lor m map). split; [apply list_lookup_insert_eq; lia|by apply land_lor_l].
        -- exists m'. rewrite list_lookup_insert_ne by done. done.
  - split; cbn.
    + rewrite Z.lor_spec, bit_testbit, Z.eqb_refl by lia. apply orb_true_r.
    + exists (Z.lor m map). split; [apply list_lookup_insert_eq; lia|apply land_lor_r].
Qed.

(** ** The timer rings *)

Section timers.
Context (TL TD B : Z).

(** the list of running timers [xs] and of fired timers [ys] *)
Record rings (w : world) (xs ys : list Z) : Prop := {
  r_main : is_dlist (dl w) TL xs;
  r_due : is_dlist (dl w) TD ys;
  r_disj : forall x, x ∈ TL :: xs -> x ∉ TD :: ys;
  r_timers : forall t, t ∈ xs ++ ys -> is_Some (timers w !! t);
  r_null : NULL ∉ TL :: TD :: xs ++ ys }.

Definition deadline (w : world) (t : Z) : Z :=
  match timers w !! t with Some x => since B (time_target x) | None => 0 end.
Definition earlier (w : world) (a b : Z) : Prop := deadline w a <= deadline w b.
(** in order of their deadlines, all of them in the half of the clock behind [B] *)
Definition ordered (w : world) (xs : list Z) : Prop :=
  StronglySorted (earlier w) xs /\ forall t, t ∈ xs -> deadline w t < 2 ^ 31.

Lemma get_timer_done w t x : timers w !! t = Some x -> get_timer w t = Done x.
Proof. intros H. unfold get_timer. by rewrite H. Qed.

Lemma ring_nonnull w xs ys x : rings w xs ys -> x ∈ TL :: TD :: xs ++ ys -> x <> NULL.
Proof. intros R Hx ->. by apply (r_null _ _ _ R). Qed.

(** the node behind a node of the ring *)
Lemma ring_step m h l1 x l2 :
  is_dlist m h (l1 ++ x :: l2) -> d_next m !! x = Some (default h (head l2)).
Proof.
  intros [Hl _]. apply links_app in Hl as [_ Hl]. destruct l2; cbn in Hl; [apply Hl|]. by destruct Hl as [[? _] _].
Qed.
Lemma ring_first m h xs : is_dlist m h xs -> d_next m !! h = Some (default h (head xs)).
Proof. intros [Hl _]. destruct xs; cbn in Hl; [apply Hl|]. by destruct Hl as [[? _] _]. Qed.

(** adding a detached timer behind the node [p] of the ring *)
Lemma ring_insert w l1 l2 ys t p l :
  rings w (l1 ++ l2) ys -> node_ok (dl w) t -> t ∉ TL :: TD :: (l1 ++ l2) ++ ys -> t <> NULL ->
  is_Some (timers w !! t) -> TL :: l1 = l ++ [p] ->
  exists d, utils_dlist_add t p (dl w) = Done d /\ rings (with_dl d w) (l1 ++ t :: l2) ys
    /\ same_nodes (dl w) d.
Proof.
  intros R Ht Hni Hnull Htm El.
  assert (Hni' : t ∉ TL :: l1 ++ l2) by set_solver.
  destruct (dlist_add_spec (dl w) TL l1 l2 t p l (r_main _ _ _ R) Ht Hni' El) as (d & E & H & Hs).
  exists d. split; [done|]. split; [|done]. destruct R as [H1 H2 H3 H4 H5]. constructor; cbn.
  - done.
  - eapply is_dlist_frame; [exact H2|]. intros y Hy.
    eapply (dlist_add_local (dl w) TL l1 l2 t p l); [done|done|done|done|done|].
    intros [->|Hy']%elem_of_cons; [|by apply (H3 y)]. set_solver.
  - intros x Hx. rewrite elem_of_cons, elem_of_app, elem_of_cons in Hx.
    destruct (decide (x = t)) as [->|]; [set_solver|]. apply H3. set_solver.
  - intros x Hx. destruct (decide (x = t)) as [->|]; [done|]. apply H4. set_solver.
  - set_solver.
Qed.

Lemma sorted_app_r {A} (R : A -> A -> Prop) l1 l2 : StronglySorted R (l1 ++ l2) -> StronglySorted R l2.
Proof. induction l1 as [|x l1 IH]; [done|]. cbn. intros [H _]%StronglySorted_inv. by apply IH. Qed.

Lemma register_loop_spec fuel w l1 l2 ys t x :
  rings w (l1 ++ l2) ys -> ordered w (l1 ++ l2) -> node_ok (dl w) t -> t ∉ TL :: TD :: (l1 ++ l2) ++ ys ->
  t <> NULL -> timers w !! t = Some x -> deadline w t < 2 ^ 31 ->
  (forall y, y ∈ l1 -> deadline w y < deadline w t) -> l1 ++ l2 <> [] -> (length l2 < fuel)%nat ->
  exists d k1 k2, register_loop TL fuel t (time_target x) (default TL (head l2)) (default NULL (last l1)) w
      = Done (with_dl d w)
    /\ l1 ++ l2 = k1 ++ k2 /\ rings (with_dl d w) (k1 ++ t :: k2) ys /\ same_nodes (dl w) d
    /\ (forall y, y ∈ k1 -> deadline w y < deadline w t) /\ (forall y, y ∈ k2 -> deadline w t <= deadline w y).
Proof.
  intros R O Hok Hni Hnull Hx Hd Hlt Hne. revert l1 R O Hni Hlt Hne fuel.
  induction l2 as [|z l2 IH]; intros l1 R O Hni Hlt Hne [|fuel] Hf; cbn in Hf; try lia; cbn [register_loop head from_option id].
  - rewrite Z.eqb_refl. cbn [negb]. destruct (snoc_cases l1) as [->|(l1' & p & ->)]; [done|].
    rewrite last_snoc. cbn [from_option id]. destruct (ring_insert w (l1' ++ [p]) [] ys t p (TL :: l1')) as (d & -> & R' & Hs);
      try done. cbn [mbind outcome_bind]. exists d, (l1' ++ [p]), []. split_and!; try done. by intros y ?%elem_of_nil.
  - assert (Hz : z <> TL). { intros ->. destruct (r_main _ _ _ R) as [_ Hn]. apply NoDup_cons in Hn. set_solver. }
    rewrite (proj2 (Z.eqb_neq z TL)) by done. cbn [negb].
    destruct (r_timers _ _ _ R z) as [xz Hxz]; [set_solver|]. step_with (get_timer_done _ _ _ Hxz).
    assert (Hdz : deadline w z < 2 ^ 31) by (apply O; set_solver).
    assert (Ez : s32 (time_target x - time_target xz) = deadline w t - deadline w z).
    { unfold deadline in *. rewrite Hx in Hd |- *. rewrite Hxz in Hdz |- *. by apply s32_since. }
    rewrite Ez. destruct (Z.leb_spec (deadline w t - deadline w z) 0) as [Hle|Hgt].
    + assert (Hafter : forall y, y ∈ z :: l2 -> deadline w t <= deadline w y).
      { destruct O as [Hs _]. apply sorted_app_r in Hs.
        intros y [->|Hy]%elem_of_cons; [lia|].
        assert (Hzy : earlier w z y). { apply StronglySorted_inv in Hs as [_ Hs]. rewrite Forall_forall in Hs. by apply Hs. }
        unfold earlier in Hzy. lia. }
      destruct (snoc_cases (TL :: l1)) as [|(l & p & El)]; [done|].
      destruct (ring_insert w l1 (z :: l2) ys t p l) as (d & Ed & R' & Hs); try done.
      exists d, l1, (z :: l2). split_and!; try done.
      destruct (snoc_cases l1) as [->|(l1' & p' & ->)].
      * destruct l as [|? [|]]; simplify_eq/=. by rewrite Ed.
      * rewrite app_comm_cons in El. apply app_inj_tail in El as [_ ->]. rewrite last_snoc. cbn [from_option id].
        assert (p <> NULL) by (eapply ring_nonnull; [exact R|set_solver]).
        rewrite (proj2 (Z.eqb_neq p NULL)) by done. by rewrite Ed.
    + unfold next_of. rewrite (load_done _ _ _ (ring_step _ _ _ _ _ (r_main _ _ _ R))). cbn [mbind outcome_bind].
      assert (Ea : l1 ++ z :: l2 = (l1 ++ [z]) ++ l2) by (by rewrite <- app_assoc). rewrite Ea in R, O, Hni |- *.
      destruct (IH (l1 ++ [z])) with (fuel := fuel) as (d & k1 & k2 & E & Ek & Hrest); try done.
      * intros y [Hy| ->%list_elem_of_singleton]%elem_of_app; [by apply Hlt|lia].
      * by destruct l1.
      * lia.
      * rewrite last_snoc in E. by exists d, k1, k2.
Qed.

(** registration inserts before the first timer that is not earlier *)
Lemma register_spec w xs ys t :
  rings w xs ys -> ordered w xs -> node_ok (dl w) t -> t ∉ TL :: TD :: xs ++ ys -> t <> NULL ->
  is_Some (timers w !! t) -> deadline w t < 2 ^ 31 ->
  exists d l1 l2, bloop_timer_register TL t w = Done (with_dl d w) /\ xs = l1 ++ l2
    /\ rings (with_dl d w) (l1 ++ t :: l2) ys /\ same_nodes (dl w) d
    /\ (forall y, y ∈ l1 -> deadline w y < deadline w t) /\ (forall y, y ∈ l2 -> deadline w t <= deadline w y).
Proof.
  intros R O Hok Hni Hnull [x Hx] Hd. unfold bloop_timer_register.
  step_with (dlist_empty_spec _ _ _ (r_main _ _ _ R)). case_bool_decide as He.
  - subst xs. destruct (ring_insert w [] [] ys t TL []) as (d & -> & R' & Hs); try done.
    exists d, [], []. split_and!; try done; by intros y ?%elem_of_nil.
  - step_with (get_timer_done _ _ _ Hx). unfold next_of.
    rewrite (load_done _ _ _ (ring_first _ _ _ (r_main _ _ _ R))). cbn [mbind outcome_bind].
    destruct (register_loop_spec (loop_fuel (d_next (dl w))) w [] xs ys t x) as (d & k1 & k2 & E & Ek & Hrest); try done.
    + by intros y ?%elem_of_nil.
    + pose proof (dlist_size _ _ _ (r_main _ _ _ R)). unfold loop_fuel. lia.
    + by exists d, k1, k2.
Qed.

Lemma sorted_insert w l1 t l2 :
  ordered w (l1 ++ l2) -> deadline w t < 2 ^ 31 ->
  (forall y, y ∈ l1 -> deadline w y < deadline w t) -> (forall y, y ∈ l2 -> deadline w t <= deadline w y) ->
  ordered w (l1 ++ t :: l2).
Proof.
  intros [Hs Hw] Hd H1 H2. split; [|intros y Hy; destruct (decide (y = t)) as [->|]; [done|apply Hw; set_solver]].
  clear Hw. induction l1 as [|z l1 IH]; cbn in *.
  - constructor; [done|]. apply Forall_forall. intros y Hy. by apply H2.
  - apply StronglySorted_inv in Hs as [Hs Hz]. constructor.
    + apply IH; [done|]. intros y Hy. apply H1. set_solver.
    + rewrite Forall_forall in Hz |- *. intros y Hy. destruct (decide (y = t)) as [->|]; [|apply Hz; set_solver].
      unfold earlier. specialize (H1 z). set_solver by lia.
Qed.

(** rings and order depend on the nodes and timers only *)
Lemma rings_same w w' xs ys : dl w' = dl w -> timers w' = timers w -> rings w xs ys -> rings w' xs ys.
Proof. intros E1 E2 []. constructor; by rewrite ?E1, ?E2. Qed.
Lemma deadline_same w w' t : timers w' !! t = timers w !! t -> deadline w' t = deadline w t.
Proof. intros E. unfold deadline. by rewrite E. Qed.
Lemma ordered_same w w' xs : (forall t, t ∈ xs -> timers w' !! t = timers w !! t) -> ordered w xs -> ordered w' xs.
Proof.
  intros E [Hs Hw]. split.
  - clear Hw. induction xs as [|x xs IH]; [constructor|]. apply StronglySorted_inv in Hs as [Hs Hx].
    constructor; [apply IH; [intros; apply E; by right|done]|]. rewrite Forall_forall in Hx |- *.
    intros y Hy. unfold earlier. rewrite !(deadline_same w w') by (apply E; set_solver). by apply Hx.
  - intros t Ht. rewrite (deadline_same w w') by (by apply E). by apply Hw.
Qed.

(** ** Firing *)

Context (cb_run : Z -> Z -> Z -> world -> outcome world).

(** what the loop relies on of a timer callback: it returns, it does not touch
    timers, and it does not withdraw events *)
Definition callbacks_ok : Prop := forall cb t arg w,
  exists w', cb_run cb t arg w = Done w' /\ dl w' = dl w /\ timers w' = timers w /\ gains (loop w) (loop w')
    /\ tick_reads w' = tick_reads w /\ handlers (loop w') = handlers (loop w)
    /\ bitmap_msg (loop w') = bitmap_msg (loop w) /\ called w' = called w /\ waits w' = waits w.

Definition timer_ok (x : loop_timer) : Prop := 0 <= idx_task x < 32 /\ 0 <= time_target x < 2 ^ 32.
Definition timers_ok (w : world) : Prop := forall t x, timers w !! t = Some x -> timer_ok x.

(** the fields of [w'] that firing leaves alone *)
Record fires (w w' : world) : Prop := {
  f_timers : timers w' = timers w;
  f_gains : gains (loop w) (loop w');
  f_ticks : tick_reads w' = tick_reads w;
  f_waits : waits w' = waits w;
  f_handlers : handlers (loop w') = handlers (loop w);
  f_msg : bitmap_msg (loop w') = bitmap_msg (loop w) }.

#[local] Instance fires_preorder : PreOrder fires.
Proof.
  split; [by constructor|]. intros w1 w2 w3 [] []. constructor; try congruence. by etransitivity.
Qed.

Definition callback_of (w : world) (t : Z) : list (Z * Z) :=
  match timers w !! t with Some x => if t_cb x =? NULL then [] else [(t_cb x, t)] | None => [] end.

(** the event of timer [t] is pending *)
Definition fired (w : world) (l : loop_ctx) (t : Z) : Prop :=
  match timers w !! t with Some x => pending l (idx_task x) (evt_type_map x) | None => False end.

Lemma is_up_spec (Hcb : callbacks_ok) w x xs ys :
  rings w (x :: xs) ys -> timers_ok w -> events_ok (loop w) ->
  exists w', _timer_is_up_handle TD cb_run x w = Done w' /\ rings w' xs (x :: ys) /\ fires w w'
    /\ fired w (loop w') x /\ called w' = called w ++ callback_of w x.
Proof.
  intros R Htm Hev. destruct (r_timers _ _ _ R x) as [tx Hx]; [set_solver|]. unfold _timer_is_up_handle.
  step_with (get_timer_done _ _ _ Hx). destruct (Htm _ _ Hx) as [Hidx _].
  assert (u32 (idx_task tx) = idx_task tx) as -> by (unfold u32, wrap; apply Z.mod_small; lia).
  destruct (set_sync_spec (loop w) (idx_task tx) (evt_type_map tx) Hev Hidx) as (l & -> & Hg & Hp & Hok & Hh & Hm).
  cbn [mbind outcome_bind].
  assert (exists w1, (if negb (t_cb tx =? NULL) then cb_run (t_cb tx) x (t_arg tx)
      {| loop := l; dl := dl w; timers := timers w; msgs := msgs w; tick_reads := tick_reads w;
         us_reads := us_reads w; waits := waits w; called := called w ++ [(t_cb tx, x)] |}
      else Done (with_loop (fun _ => l) w)) = Done w1
    /\ dl w1 = dl w /\ fires w w1 /\ fired w (loop w1) x /\ called w1 = called w ++ callback_of w x)
    as (w1 & E1 & Ed & Hf & Hfx & Hc).
  { unfold fired, callback_of. rewrite Hx. destruct (Z.eqb_spec (t_cb tx) NULL) as [_|_]; cbn [negb].
    - eexists. split; [done|]. cbn. rewrite app_nil_r. split_and!; done.
    - edestruct Hcb as (w1 & -> & E1 & E2 & E3 & E4 & E5 & E6 & E7 & E8). cbn in *. exists w1. split; [done|]. split; [done|].
      split; [constructor; try congruence; by etransitivity|]. split; [|done]. by apply (ga_pending _ _ E3). }
  cbn [with_loop loop dl timers msgs tick_reads us_reads waits called] in E1 |- *. rewrite E1. cbn [mbind outcome_bind]. rewrite Ed.
  destruct (dlist_del_spec (dl w) TL [] x xs (r_main _ _ _ R)) as (d & Edel & Hd & Hsn). step_with Edel.
  assert (Hsame : forall y, y ∈ TD :: ys -> same_at (dl w) d y).
  { intros y Hy. eapply (dlist_del_local (dl w) TL [] x xs); [apply R|done|]. cbn.
    intros Hy'. apply (r_disj _ _ _ R y); [set_solver|done]. }
  assert (Hdd : is_dlist d TD ys) by (eapply is_dlist_frame; [apply R|done]).
  assert (Hnx : node_ok d x). { apply (node_ok_same (dl w) d x Hsn). eapply is_dlist_node; [apply R|set_solver]. }
  assert (HxD : x ∉ TD :: ys) by (apply R; set_solver).
  assert (HxM : x ∉ TL :: xs) by (destruct (r_main _ _ _ R) as [_ Hn]; rewrite !NoDup_cons in Hn; set_solver).
  destruct (dlist_add_spec d TD [] ys x TD [] Hdd Hnx HxD eq_refl) as (d' & Eadd & Hd' & Hsn'). step_with Eadd.
  exists (with_dl d' w1). split; [done|]. split; [|split; [|by split]].
  - constructor; cbn.
    + eapply is_dlist_frame; [exact Hd|]. intros y Hy.
      eapply (dlist_add_local d TD [] ys x TD []); [done|done|done|done|done|].
      intros [->|Hy']%elem_of_cons; [done|]. apply (r_disj _ _ _ R y); [set_solver|done].
    + done.
    + intros y Hy. pose proof (r_disj _ _ _ R y). set_solver.
    + intros y Hy. rewrite (f_timers _ _ Hf). apply R. set_solver.
    + pose proof (r_null _ _ _ R). set_solver.
  - destruct Hf. by constructor.
Qed.

(** the loop variable [n] holds the node behind the current one *)
Definition behind (h : Z) (xs : list Z) (n : Z) : Prop :=
  match xs with [] => True | _ :: xs => n = default h (head xs) end.

Lemma behind_step m h xs :
  is_dlist m h xs -> (NULL ∉ h :: xs) ->
  exists n', (if negb (default h (head xs) =? NULL) then next_of m (default h (head xs)) else Done NULL) = Done n'
    /\ behind h xs n'.
Proof.
  intros H Hnull. destruct xs as [|x xs]; cbn [head from_option id].
  - exists h. rewrite (proj2 (Z.eqb_neq h NULL)) by set_solver. split; [|done].
    apply load_done. exact (ring_first _ _ _ H).
  - exists (default h (head xs)). rewrite (proj2 (Z.eqb_neq x NULL)) by set_solver. split; [|done].
    apply load_done. exact (ring_step m h [] x xs H).
Qed.

Lemma ring_head_ne w xs ys x : rings w (x :: xs) ys -> x <> TL.
Proof. intros R ->. destruct (r_main _ _ _ R) as [_ Hn]. apply NoDup_cons in Hn. set_solver. Qed.

Lemma null_main w xs ys : rings w xs ys -> NULL ∉ TL :: xs.
Proof. intros R. pose proof (r_null _ _ _ R). set_solver. Qed.
Lemma null_due w xs ys : rings w xs ys -> NULL ∉ TD :: ys.
Proof. intros R. pose proof (r_null _ _ _ R). set_solver. Qed.

(** exactly the timers due at [now] fire, in order *)
Lemma due_loop_spec (Hcb : callbacks_ok) now fuel w xs ys n :
  rings w xs ys -> ordered w xs -> timers_ok w -> events_ok (loop w) -> since B now < 2 ^ 31 ->
  behind TL xs n -> (length xs < fuel)%nat ->
  exists w' l1 l2, due_loop TL TD cb_run fuel now (default TL (head xs)) n w = Done w'
    /\ xs = l1 ++ l2 /\ rings w' l2 (reverse l1 ++ ys) /\ fires w w'
    /\ (forall t, t ∈ l1 -> deadline w t <= since B now /\ fired w (loop w') t)
    /\ (forall t, t ∈ l2 -> since B now < deadline w t)
    /\ called w' = called w ++ concat (callback_of w <$> l1).
Proof.
  intros R O Htm Hev Hnow Hn Hf. revert w xs ys n R O Htm Hev Hn Hf.
  induction fuel as [|fuel IH]; intros w [|x xs] ys n R O Htm Hev Hn Hf; cbn in Hf; try lia; cbn [due_loop head from_option id].
  - rewrite Z.eqb_refl. exists w, [], []. cbn. rewrite app_nil_r.
    split_and!; try done; by intros t ?%elem_of_nil.
  - rewrite (proj2 (Z.eqb_neq x TL)) by (by eapply ring_head_ne). cbn [negb].
    destruct (r_timers _ _ _ R x) as [tx Hx]; [set_solver|]. step_with (get_timer_done _ _ _ Hx).
    assert (Hdx : deadline w x < 2 ^ 31) by (apply O; set_solver).
    assert (Ex : s32 (now - time_target tx) = since B now - deadline w x).
    { unfold deadline in *. rewrite Hx in Hdx |- *. by apply s32_since. }
    rewrite Ex. destruct (Z.leb_spec 0 (since B now - deadline w x)) as [Hle|Hgt].
    + destruct (is_up_spec Hcb w x xs ys R Htm Hev) as (w1 & -> & R1 & F1 & Hfx & Hc1). cbn [mbind outcome_bind].
      cbn in Hn. subst n. destruct (behind_step _ _ _ (r_main _ _ _ R1) (null_main _ _ _ R1)) as (n' & -> & Hn').
      cbn [mbind outcome_bind].
      assert (Et : forall t, timers w1 !! t = timers w !! t) by (intros t; by rewrite (f_timers _ _ F1)).
      assert (O1 : ordered w1 xs).
      { apply (ordered_same w w1); [by intros; apply Et|]. destruct O as [Hs Hw].
        split; [by apply StronglySorted_inv in Hs as [? _]|]. intros. apply Hw. by right. }
      destruct (IH w1 xs (x :: ys) n' R1 O1) as (w2 & l1 & l2 & E2 & -> & R2 & F2 & Hdue & Hnot & Hc2); try done.
      { intros t y. rewrite Et. apply Htm. }
      { by apply (ga_ok _ _ (f_gains _ _ F1)). }
      { lia. }
      rewrite E2. exists w2, (x :: l1), l2. split; [done|]. split; [done|]. split; [by rewrite reverse_cons, <- app_assoc|].
      split; [by etransitivity|]. split; [|split].
      * intros t [->|Ht]%elem_of_cons.
        -- split; [lia|]. unfold fired in *. rewrite Hx in *. by apply (ga_pending _ _ (f_gains _ _ F2)).
        -- destruct (Hdue t Ht) as [H1 H2]. rewrite (deadline_same w w1) in H1 by apply Et. split; [done|].
           unfold fired in *. by rewrite Et in H2.
      * intros t Ht. rewrite <- (deadline_same w w1) by apply Et. by apply Hnot.
      * rewrite Hc2, Hc1, <- app_assoc. cbn. f_equal. f_equal. f_equal. apply list_fmap_ext.
        intros i t _. unfold callback_of. by rewrite Et.
    + exists w, [], (x :: xs). cbn. rewrite app_nil_r. split_and!; try done; [by intros t ?%elem_of_nil|].
      destruct O as [Hs _]. apply StronglySorted_inv in Hs as [_ Hs]. rewrite Forall_forall in Hs.
      intros t [->|Ht]%elem_of_cons; [lia|]. specialize (Hs t Ht). unfold earlier in Hs. lia.
Qed.

(** ** Cleaning up fired timers *)

Context (tick : nat -> Z).

Definition auto_free (x : loop_timer) : bool := negb (Z.land (flags x) LOOP_TIMER_FLAG_AUTO_FREE =? 0).
Definition auto_repeat (x : loop_timer) : bool := negb (Z.land (flags x) LOOP_TIMER_FLAG_AUTO_REPEAT =? 0).
Definition period (x : loop_timer) : Z := s32 (time_target x - time_added x).

(** timer [t] is registered again after it has fired *)
Definition rearmed (w : world) (t : Z) : bool :=
  match timers w !! t with Some x => negb (auto_free x) && auto_repeat x | None => false end.

(** the next deadlines of the re-armed timers of [ys] stay in the half of the
    clock behind [B], for the readings of the clock up to number [K] *)
Definition periods_ok (w : world) (ys : list Z) (K : nat) : Prop :=
  forall t x k, t ∈ ys -> timers w !! t = Some x -> rearmed w t = true -> (tick_reads w <= k < K)%nat ->
    0 <= period x /\ since B (tick k) + period x < 2 ^ 31.

(** what happens to the record of a fired timer *)
Definition cleaned (x : loop_timer) (K : nat) (r : option loop_timer) : Prop :=
  if auto_free x then r = None
  else if auto_repeat x then exists k, (k < K)%nat /\ r = Some (reconfigured x (tick k))
  else r = Some x.

Lemma since_add now p : 0 <= p -> since B now + p < 2 ^ 31 -> since B (u32 (now + p)) = since B now + p.
Proof.
  unfold since, u32, wrap. intros Hp H. rewrite <- Zminus_mod_idemp_l, Z.mod_mod, Zminus_mod_idemp_l by lia.
  replace (now + p - B) with (now - B + p) by lia. rewrite <- Zplus_mod_idemp_l. apply Z.mod_small.
  pose proof (Z.mod_pos_bound (now - B) (2 ^ 32)). lia.
Qed.

(** taking the first fired timer off its ring *)
Lemma due_remove w xs t ys :
  rings w xs (t :: ys) ->
  exists d, utils_dlist_del t (dl w) = Done d /\ rings (with_dl d w) xs ys /\ node_ok d t
    /\ t ∉ TL :: TD :: xs ++ ys.
Proof.
  intros R. destruct (dlist_del_spec (dl w) TD [] t ys (r_due _ _ _ R)) as (d & E & H & Hs).
  assert (HtD : t ∉ TD :: ys) by (destruct (r_due _ _ _ R) as [_ Hn]; rewrite !NoDup_cons in Hn; set_solver).
  assert (HtL : t ∉ TL :: xs) by (intros Ht; apply (r_disj _ _ _ R t Ht); set_solver).
  exists d. split; [done|]. split; [|split; [|set_solver]].
  - constructor; cbn.
    + eapply is_dlist_frame; [apply R|]. intros y Hy.
      eapply (dlist_del_local (dl w) TD [] t ys); [apply R|done|]. cbn.
      intros Hy'. apply (r_disj _ _ _ R y Hy). set_solver.
    + done.
    + intros y Hy Hy'. apply (r_disj _ _ _ R y Hy). set_solver.
    + intros y Hy. apply R. set_solver.
    + pose proof (r_null _ _ _ R). set_solver.
  - apply (node_ok_same (dl w) d t Hs). eapply is_dlist_node; [exact (r_due _ _ _ R)|set_solver].
Qed.

Lemma rings_put w xs ys t x : rings w xs ys -> rings (put_timer w t x) xs ys.
Proof.
  intros []. constructor; cbn; try done. intros y Hy. apply lookup_insert_is_Some'. right. auto.
Qed.

Lemma rings_free w xs ys t : rings w xs ys -> t ∉ TL :: TD :: xs ++ ys -> rings (free_timer t w) xs ys.
Proof.
  intros R Ht. assert (Hs : forall y, y <> t -> same_at (dl w)
    {| d_next := delete t (d_next (dl w)); d_prev := delete t (d_prev (dl w)) |} y).
  { intros y Hy. split; cbn; by rewrite lookup_delete_ne. }
  constructor; cbn.
  - eapply is_dlist_frame; [apply R|]. intros y Hy. apply Hs. set_solver.
  - eapply is_dlist_frame; [apply R|]. intros y Hy. apply Hs. set_solver.
  - apply R.
  - intros y Hy. rewrite lookup_delete_ne by set_solver. by apply R.
  - apply R.
Qed.

(** one fired timer is freed, registered again in order, or dropped *)
Lemma dued_body_spec w xs t ys x K :
  rings w xs (t :: ys) -> ordered w xs -> timers w !! t = Some x -> periods_ok w (t :: ys) K ->
  (tick_reads w < K)%nat ->
  exists w' xs', dued_body TL tick t w = Done w' /\ rings w' xs' ys /\ ordered w' xs'
    /\ xs' ≡ₚ (if rearmed w t then t :: xs else xs) /\ loop w' = loop w /\ called w' = called w /\ waits w' = waits w
    /\ (forall y, y <> t -> timers w' !! y = timers w !! y) /\ cleaned x K (timers w' !! t)
    /\ (tick_reads w <= tick_reads w' <= S (tick_reads w))%nat.
Proof.
  intros R O Hx Hp HK. destruct (due_remove w xs t ys R) as (d & E & R1 & Hok & Hni). unfold dued_body. step_with E.
  rewrite (get_timer_done (with_dl d w) t x Hx). cbn [mbind outcome_bind].
  unfold rearmed, cleaned. rewrite Hx. fold (auto_free x). fold (auto_repeat x).
  destruct (auto_free x) eqn:Ef; cbn [andb negb]; [|destruct (auto_repeat x) eqn:Er].
  - eexists _, xs. split; [done|]. split; [by apply rings_free|]. split.
    { eapply ordered_same; [|exact O]. intros y Hy. cbn. rewrite lookup_delete_ne; [done|set_solver]. }
    split; [done|]. split; [done|]. split; [done|]. split; [done|]. split; [intros y Hy; cbn; by rewrite lookup_delete_ne|].
    split; [cbn; apply lookup_delete_eq|cbn; lia].
  - unfold bloop_timer_repeat_reconfigure. rewrite (get_timer_done (with_dl d w) t x Hx). cbn [mbind outcome_bind xTaskGetTickCount].
    set (w1 := put_timer _ t _).
    assert (Hr : rearmed w t = true) by (unfold rearmed; by rewrite Hx, Ef, Er).
    destruct (Hp t x (tick_reads w)) as [Hp0 Hp1]; [set_solver|done|done|lia|].
    assert (Hd : deadline w1 t = since B (tick (tick_reads w)) + period x).
    { unfold deadline, w1, put_timer. cbn. rewrite lookup_insert_eq. cbn. by apply since_add. }
    assert (R2 : rings w1 xs ys).
    { apply rings_put. eapply rings_same; [| |exact R1]; done. }
    assert (O1 : ordered w1 xs).
    { eapply ordered_same; [|exact O]. intros y Hy. cbn. rewrite lookup_insert_ne; [done|set_solver]. }
    destruct (register_spec w1 xs ys t R2 O1 Hok Hni) as (d2 & l1 & l2 & E2 & -> & R3 & _ & H1 & H2).
    { intros ->. apply (r_null _ _ _ R). set_solver. }
    { cbn. by rewrite lookup_insert_eq. }
    { lia. }
    rewrite E2. eexists _, (l1 ++ t :: l2). split; [done|]. split; [done|]. split.
    { apply (ordered_same w1); [done|]. apply sorted_insert; [done|lia|done|done]. }
    split; [by rewrite <- Permutation_middle|]. split; [done|]. split; [done|]. split; [done|].
    split; [intros y Hy; cbn; by rewrite lookup_insert_ne|]. split; [|cbn; lia].
    exists (tick_reads w). split; [lia|]. cbn. by rewrite lookup_insert_eq.
  - eexists _, xs. split; [done|]. split; [done|]. split; [by eapply ordered_same|]. by repeat split; cbn; try lia.
Qed.

Lemma rearmed_same w w' t : timers w' !! t = timers w !! t -> rearmed w' t = rearmed w t.
Proof. intros E. unfold rearmed. by rewrite E. Qed.

Lemma filter_rearmed w w' (ys : list Z) :
  (forall y, y ∈ ys -> timers w' !! y = timers w !! y) ->
  filter (fun y => rearmed w' y = true) ys = filter (fun y => rearmed w y = true) ys.
Proof.
  induction ys as [|y ys IH]; [done|]. intros E. rewrite !filter_cons, (rearmed_same w w') by (apply E; left).
  rewrite IH; [done|]. intros z Hz. apply E. by right.
Qed.

Lemma periods_step w w' t ys K :
  periods_ok w (t :: ys) K -> (forall y, y ∈ ys -> timers w' !! y = timers w !! y) ->
  (tick_reads w <= tick_reads w')%nat -> periods_ok w' ys K.
Proof.
  intros Hp Et Ht y x k Hy Hx Hr Hk. apply (Hp y x k); [by right| | |lia].
  - by rewrite <- Et.
  - by rewrite <- (rearmed_same w w') by (by apply Et).
Qed.

Lemma dued_loop_spec fuel w xs ys n K :
  rings w xs ys -> ordered w xs -> periods_ok w ys K -> (tick_reads w + length ys <= K)%nat ->
  behind TD ys n -> (length ys < fuel)%nat ->
  exists w' xs', dued_loop TL TD tick fuel (default TD (head ys)) n w = Done w' /\ rings w' xs' [] /\ ordered w' xs'
    /\ xs' ≡ₚ xs ++ filter (fun t => rearmed w t = true) ys /\ loop w' = loop w /\ called w' = called w /\ waits w' = waits w
    /\ (forall y, y ∉ ys -> timers w' !! y = timers w !! y)
    /\ (forall y x, y ∈ ys -> timers w !! y = Some x -> cleaned x K (timers w' !! y)).
Proof.
  intros R O Hp HK Hn Hf. revert w xs ys n R O Hp HK Hn Hf.
  induction fuel as [|fuel IH]; intros w xs [|t ys] n R O Hp HK Hn Hf; cbn in Hf; try lia;
    cbn [dued_loop head from_option id].
  - rewrite Z.eqb_refl. exists w, xs. cbn. rewrite app_nil_r. split_and!; try done. by intros y x ?%elem_of_nil.
  - assert (Ht : t <> TD). { intros ->. destruct (r_due _ _ _ R) as [_ Hd]. apply NoDup_cons in Hd. set_solver. }
    rewrite (proj2 (Z.eqb_neq t TD)) by done. cbn [negb]. cbn [length] in HK.
    destruct (r_timers _ _ _ R t) as [x Hx]; [set_solver|].
    destruct (dued_body_spec w xs t ys x K R O Hx Hp ltac:(lia)) as
      (w1 & xs1 & -> & R1 & O1 & P1 & El & Ec & Ew & Et & Hcl & Htick). cbn [mbind outcome_bind].
    cbn in Hn. subst n. destruct (behind_step _ _ _ (r_due _ _ _ R1) (null_due _ _ _ R1)) as (n' & -> & Hn').
    cbn [mbind outcome_bind].
    assert (Hty : t ∉ ys) by (destruct (r_due _ _ _ R) as [_ Hd]; rewrite !NoDup_cons in Hd; tauto).
    assert (Et' : forall y, y ∈ ys -> timers w1 !! y = timers w !! y) by (intros y Hy; apply Et; by intros ->).
    destruct (IH w1 xs1 ys n' R1 O1) as (w2 & xs2 & -> & R2 & O2 & P2 & El2 & Ec2 & Ew2 & Et2 & Hcl2); try done.
    { eapply periods_step; [done|done|lia]. }
    { lia. }
    { lia. }
    exists w2, xs2. split; [done|]. split; [done|]. split; [done|]. split; [|split; [congruence|split; [congruence|split; [congruence|split]]]].
    + rewrite P2, P1, (filter_rearmed w w1) by done. rewrite filter_cons. destruct (rearmed w t) eqn:Er.
      * rewrite decide_True by done. cbn. by rewrite Permutation_middle.
      * by rewrite decide_False by done.
    + intros y Hy. rewrite Et2 by set_solver. apply Et. set_solver.
    + intros y z [->|Hy]%elem_of_cons Hz.
      * assert (z = x) as -> by congruence. by rewrite Et2.
      * apply Hcl2; [done|]. by rewrite Et'.
Qed.

(** ** One timer pass *)

Lemma handle_timer_spec (Hcb : callbacks_ok) w xs :
  rings w xs [] -> ordered w xs -> timers_ok w -> events_ok (loop w) ->
  since B (tick (tick_reads w)) < 2 ^ 31 -> periods_ok w xs (S (tick_reads w + length xs)) ->
  exists w' xs' l1 l2, handle_timer TL TD tick cb_run w = Done w' /\ xs = l1 ++ l2
    /\ (forall t, t ∈ l1 -> deadline w t <= since B (tick (tick_reads w)) /\ fired w (loop w') t)
    /\ (forall t, t ∈ l2 -> since B (tick (tick_reads w)) < deadline w t)
    /\ called w' = called w ++ concat (callback_of w <$> l1)
    /\ rings w' xs' [] /\ ordered w' xs' /\ xs' ≡ₚ l2 ++ filter (fun t => rearmed w t = true) l1
    /\ gains (loop w) (loop w') /\ handlers (loop w') = handlers (loop w) /\ bitmap_msg (loop w') = bitmap_msg (loop w)
    /\ waits w' = waits w /\ (forall y, y ∉ l1 -> timers w' !! y = timers w !! y)
    /\ (forall y x, y ∈ l1 -> timers w !! y = Some x ->
        cleaned x (S (tick_reads w + length xs)) (timers w' !! y)).
Proof.
  intros R O Htm Hev Hnow Hp. unfold handle_timer.
  step_with (dlist_empty_spec _ _ _ (r_main _ _ _ R)). case_bool_decide as He.
  { subst xs. exists w, [], [], []. cbn. rewrite app_nil_r. split_and!; try done; intros y; set_solver. }
  cbn [xTaskGetTickCount]. set (w1 := {| loop := loop w; dl := _ |}).
  assert (R1 : rings w1 xs []) by (eapply rings_same; [| |exact R]; done).
  unfold next_of. rewrite (load_done _ _ _ (ring_first _ _ _ (r_main _ _ _ R1))). cbn [mbind outcome_bind].
  destruct (behind_step _ _ _ (r_main _ _ _ R1) (null_main _ _ _ R1)) as (n & En & Hn). unfold next_of in En. rewrite En.
  cbn [mbind outcome_bind].
  destruct (due_loop_spec Hcb (tick (tick_reads w)) (loop_fuel (d_next (dl w1))) w1 xs [] n R1)
    as (w2 & l1 & l2 & -> & -> & R2 & F2 & Hdue & Hnot & Hc); try done.
  { pose proof (dlist_size _ _ _ (r_main _ _ _ R1)). unfold loop_fuel. lia. }
  cbn [mbind outcome_bind]. unfold _timer_dued_clean, next_of. rewrite app_nil_r in R2.
  rewrite (load_done _ _ _ (ring_first _ _ _ (r_due _ _ _ R2))). cbn [mbind outcome_bind].
  destruct (behind_step _ _ _ (r_due _ _ _ R2) (null_due _ _ _ R2)) as (n2 & En2 & Hn2). unfold next_of in En2. rewrite En2.
  cbn [mbind outcome_bind].
  assert (Et : forall y, timers w2 !! y = timers w !! y) by (intros y; by rewrite (f_timers _ _ F2)).
  assert (Etr : tick_reads w2 = S (tick_reads w)) by (by rewrite (f_ticks _ _ F2)).
  assert (Hin : forall y, y ∈ reverse l1 <-> y ∈ l1) by (intros; apply elem_of_reverse).
  destruct (dued_loop_spec (loop_fuel (d_next (dl w2))) w2 l2 (reverse l1) n2 (S (tick_reads w + length (l1 ++ l2))) R2)
    as (w3 & xs3 & -> & R3 & O3 & P3 & El3 & Ec3 & Ew3 & Et3 & Hcl3); try done.
  { eapply ordered_same; [intros; apply Et|]. destruct O as [Hs Hw]. split; [by eapply sorted_app_r|]. set_solver. }
  { intros y x k Hy Hx Hr Hk. apply (Hp y x k); [set_solver|by rewrite <- Et| |lia].
    by rewrite <- (rearmed_same w w2) by apply Et. }
  { rewrite Etr, length_reverse, length_app. lia. }
  { pose proof (dlist_size _ _ _ (r_due _ _ _ R2)). unfold loop_fuel. lia. }
  exists w3, xs3, l1, l2. rewrite El3, Ec3. split; [done|]. split; [done|].
  split; [intros t Ht; by apply Hdue|]. split; [done|]. split; [done|]. split; [done|]. split; [done|].
  split; [|split; [apply F2|split; [apply F2|split; [apply F2|split; [rewrite Ew3; apply F2|split]]]]].
  - rewrite P3, reverse_Permutation. by rewrite (filter_rearmed w w2).
  - intros y Hy. rewrite Et3 by (by rewrite Hin). apply Et.
  - intros y x Hy Hx. apply Hcl3; [by apply Hin|by rewrite Et].
Qed.

(** ** Waiting *)

Context (posted : nat -> list (Z * Z)).

(** the task is signalled, synchronously or not, with the bits of [map] *)
Definition signalled (l : loop_ctx) (task map : Z) : Prop :=
  (Z.testbit (bitmap_evt_sync l) task = true \/ Z.testbit (bitmap_evt_async l) task = true)
  /\ exists m, evt_type_map_async l !! Z.to_nat task = Some m /\ Z.land m map = map.

(** other tasks signal tasks that exist *)
Definition posts_ok : Prop := forall i evt map, (evt, map) ∈ posted i -> 0 <= evt < 32.

Lemma set_async_spec l evt map :
  events_ok l -> 0 <= evt < 32 ->
  exists l', bloop_evt_set_async evt map l = Done l' /\ events_ok l' /\ signalled l' evt map
    /\ (forall t m, signalled l t m -> signalled l' t m) /\ bitmap_evt_async l' <> 0
    /\ bitmap_evt_sync l' = bitmap_evt_sync l /\ handlers l' = handlers l /\ bitmap_msg l' = bitmap_msg l.
Proof.
  intros [Hs Ha Lms Lma] He. unfold bloop_evt_set_async. rewrite (proj2 (Z.ltb_lt _ _)) by (unfold LOOP_TASK_MAX; lia).
  destruct (lookup_lt_is_Some_2 (evt_type_map_async l) (Z.to_nat evt)) as [m Hm]; [lia|].
  step_with (aget_done _ _ _ (proj1 He) Hm). rewrite aset_done by lia. cbn [mbind outcome_bind].
  assert (Hb : Z.testbit (Z.lor (bitmap_evt_async l) (bit evt)) evt = true).
  { rewrite Z.lor_spec, bit_testbit, Z.eqb_refl by lia. apply orb_true_r. }
  eexists. split; [done|]. split; [|split; [|split; [|split; [|done]]]].
  - constructor; cbn; [done|by apply lor_bound; [| |apply bit_range]|done|by rewrite length_insert].
  - split; cbn; [by right|]. exists (Z.lor m map). split; [apply list_lookup_insert_eq; lia|apply land_lor_r].
  - intros t m' [H1 (m2 & H2 & H3)]. split; cbn.
    + rewrite Z.lor_spec. destruct H1 as [->| ->]; [by left|by right].
    + destruct (decide (Z.to_nat t = Z.to_nat evt)) as [E|E].
      * rewrite E in H2 |- *. assert (m2 = m) as -> by congruence. exists (Z.lor m map).
        split; [apply list_lookup_insert_eq; lia|by apply land_lor_l].
      * exists m2. by rewrite list_lookup_insert_ne.
  - cbn. intros E. by rewrite E, Z.testbit_0_l in Hb.
Qed.

(** what posting keeps *)
Record posts (l l' : loop_ctx) : Prop := {
  po_ok : events_ok l';
  po_kept : forall t m, signalled l t m -> signalled l' t m;
  po_sync : bitmap_evt_sync l' = bitmap_evt_sync l;
  po_async : bitmap_evt_async l <> 0 -> bitmap_evt_async l' <> 0;
  po_handlers : handlers l' = handlers l;
  po_msg : bitmap_msg l' = bitmap_msg l }.

Lemma post_all_spec ps l :
  events_ok l -> (forall evt map, (evt, map) ∈ ps -> 0 <= evt < 32) ->
  exists l', post_all ps l = Done l' /\ posts l l' /\ (forall t m, (t, m) ∈ ps -> signalled l' t m)
    /\ (ps <> [] -> bitmap_evt_async l' <> 0).
Proof.
  revert l. induction ps as [|[evt map] ps IH]; intros l Hok Hps; cbn [post_all].
  - exists l. split_and!; try done. by intros t m ?%elem_of_nil.
  - destruct (set_async_spec l evt map Hok) as (l1 & -> & Hok1 & Hsig & Hkeep & Hne & Es & Eh & Em); [by eapply Hps; left|].
    cbn [mbind outcome_bind]. destruct (IH l1 Hok1) as (l2 & -> & P & Hall & _); [by intros; eapply Hps; right|].
    exists l2. split; [done|]. destruct P as [P1 P2 P3 P4 P5 P6]. split; [constructor; try congruence; auto|]. split.
    + intros t m [[= -> ->]|H]%elem_of_cons; auto.
    + auto.
Qed.

Lemma copy_evt_spec l :
  events_ok l -> events_ok (copy_evt l) /\ (forall t m, signalled l t m -> pending (copy_evt l) t m)
  /\ (bitmap_evt_sync l <> 0 \/ bitmap_evt_async l <> 0 -> bitmap_evt_sync (copy_evt l) <> 0).
Proof.
  intros [Hs Ha H1 H2]. split; [constructor; cbn; [by apply lor_bound|lia|done|done]|]. split.
  - intros t m [Hb Hm]. split; [|exact Hm]. cbn. rewrite Z.lor_spec. destruct Hb as [->| ->]; [done|apply orb_true_r].
  - cbn. intros Hn E. apply Z.lor_eq_0_iff in E. lia.
Qed.

Lemma pending_signalled l t m : pending l t m -> signalled l t m.
Proof. intros [H1 H2]. split; [by left|done]. Qed.

(** when the wait ends: something is signalled at once, posted during one of the
    next waits, or the first timer is due at one of the next readings *)
Definition wakes (w : world) (xs : list Z) (fuel : nat) : Prop :=
  ((0 < fuel)%nat /\ (bitmap_evt_sync (loop w) <> 0 \/ bitmap_evt_async (loop w) <> 0))
  \/ (exists j, (S j < fuel)%nat /\ posted (waits w + j) <> [])
  \/ (exists j x, (j < fuel)%nat /\ head xs = Some x /\ deadline w x <= since B (tick (tick_reads w + j))).

(** the clock runs forward within the half behind [B] *)
Definition clock_ok : Prop :=
  forall k, since B (tick k) < 2 ^ 31 /\ since B (tick k) <= since B (tick (S k)).

(** the state in which the wait leaves for the timers *)
Record waited (w w0 : world) (xs : list Z) : Prop := {
  wd_dl : dl w0 = dl w; wd_timers : timers w0 = timers w; wd_called : called w0 = called w;
  wd_ok : events_ok (loop w0);
  wd_kept : forall t m, signalled (loop w) t m -> pending (loop w0) t m;
  wd_posted : forall i t m, (waits w <= i < waits w0)%nat -> (t, m) ∈ posted i -> pending (loop w0) t m;
  wd_handlers : handlers (loop w0) = handlers (loop w);
  wd_msg : bitmap_msg (loop w0) = bitmap_msg (loop w);
  wd_why : bitmap_evt_sync (loop w0) <> 0
           \/ exists x, head xs = Some x /\ deadline w x <= since B (tick (tick_reads w0)) }.

(** blocking once and going on *)
Lemma block_spec w :
  events_ok (loop w) -> posts_ok ->
  exists w1, ulTaskNotifyTake posted w = Done w1 /\ dl w1 = dl w /\ timers w1 = timers w /\ called w1 = called w
    /\ posts (loop w) (loop w1) /\ (forall t m, (t, m) ∈ posted (waits w) -> signalled (loop w1) t m)
    /\ (posted (waits w) <> [] -> bitmap_evt_async (loop w1) <> 0) /\ tick_reads w1 = tick_reads w
    /\ waits w1 = S (waits w).
Proof.
  intros Hok Hp. unfold ulTaskNotifyTake.
  destruct (post_all_spec (posted (waits w)) (loop w) Hok) as (l' & -> & P & Hall & Hne); [by intros; eapply Hp|].
  cbn [mbind outcome_bind]. eexists. split; [done|]. by split_and!.
Qed.

Lemma waited_step w w1 w0 xs :
  waited w1 w0 xs -> dl w1 = dl w -> timers w1 = timers w -> called w1 = called w -> events_ok (loop w) ->
  posts (copy_evt (loop w)) (loop w1) -> waits w1 = S (waits w) ->
  (forall t m, (t, m) ∈ posted (waits w) -> signalled (loop w1) t m) -> waited w w0 xs.
Proof.
  intros [H1 H2 H3 H4 H5 H6 H7 H8 H9] E1 E2 E3 Hok P Ew Hp. destruct (copy_evt_spec _ Hok) as (_ & Hc & _).
  constructor; try congruence.
  - intros t m Hs. apply H5, (po_kept _ _ P), pending_signalled, Hc, Hs.
  - intros i t m Hi Hin. destruct (decide (i = waits w)) as [->|]; [by apply H5, Hp|]. apply (H6 i); [lia|done].
  - by rewrite H7, (po_handlers _ _ P).
  - by rewrite H8, (po_msg _ _ P).
  - destruct H9 as [H|(x & Hx & Hd)]; [by left|right]. exists x. split; [done|].
    by rewrite <- (deadline_same w w1) by (by rewrite E2).
Qed.

Lemma wait_spec (Hck : clock_ok) (Hpo : posts_ok) fuel w xs :
  rings w xs [] -> ordered w xs -> events_ok (loop w) -> wakes w xs fuel ->
  exists w0, _bloop_wait TL TD tick posted cb_run fuel w = handle_timer TL TD tick cb_run w0 /\ waited w w0 xs.
Proof.
  revert w. induction fuel as [|fuel IH]; intros w R O Hok Hw.
  { exfalso. destruct Hw as [[? _]|[(j & ? & _)|(j & x & ? & _)]]; lia. }
  cbn [_bloop_wait]. destruct (copy_evt_spec _ Hok) as (Hok1 & Hkeep & Hne). cbn [with_loop loop].
  set (w1 := with_loop copy_evt w).
  assert (Hhere : forall w2, dl w2 = dl w -> timers w2 = timers w -> called w2 = called w -> loop w2 = copy_evt (loop w) ->
    waits w2 = waits w -> (bitmap_evt_sync (loop w2) <> 0
           \/ exists x, head xs = Some x /\ deadline w x <= since B (tick (tick_reads w2))) -> waited w w2 xs).
  { intros w2 E1 E2 E3 El E5 Hy. constructor; rewrite ?El; try done; [lia|by rewrite <- El]. }
  destruct (Z.eqb_spec (bitmap_evt_sync (copy_evt (loop w))) 0) as [E0|E0].
  2: { exists w1. split; [done|]. apply Hhere; try done. by left. }
  assert (Hno : ~ (bitmap_evt_sync (loop w) <> 0 \/ bitmap_evt_async (loop w) <> 0)) by tauto.
  change (dl w1) with (dl w). step_with (dlist_empty_spec _ _ _ (r_main _ _ _ R)).
  case_bool_decide as He.
  - subst xs. destruct (block_spec w1 Hok1 Hpo) as (w2 & -> & E1 & E2 & E3 & P & Hsig & Has & Et & Ew). cbn [mbind outcome_bind].
    destruct (IH w2) as (w0 & -> & Wd).
    + by eapply rings_same; [| |exact R].
    + eapply ordered_same; [|exact O]. intros. by rewrite E2.
    + apply P.
    + destruct Hw as [[_ ?]|[(j & Hj & Hpj)|(j & x & Hj & Hx & _)]]; [done| |done].
      destruct j as [|j]; [left; split; [lia|]; right; apply Has; by rewrite Nat.add_0_r in Hpj|].
      right; left. exists j. split; [lia|]. rewrite Ew. cbn. by rewrite Nat.add_succ_r in Hpj.
    + exists w0. split; [done|]. by eapply waited_step.
  - unfold next_of. change (dl w1) with (dl w). rewrite (load_done _ _ _ (ring_first _ _ _ (r_main _ _ _ R))). cbn [mbind outcome_bind].
    destruct xs as [|x xs]; [done|]. cbn [head from_option id].
    destruct (r_timers _ _ _ R x) as [tx Hx]; [set_solver|]. rewrite (get_timer_done w1 x tx Hx).
    cbn [mbind outcome_bind xTaskGetTickCount]. set (w1' := {| loop := loop w1; dl := _ |}).
    change (tick_reads w1) with (tick_reads w).
    assert (Hdx : deadline w x < 2 ^ 31) by (apply O; set_solver).
    assert (Ex : s32 (time_target tx - tick (tick_reads w)) = deadline w x - since B (tick (tick_reads w))).
    { unfold deadline in *. rewrite Hx in Hdx |- *. apply s32_since; [done|apply Hck]. }
    rewrite Ex. destruct (Z.ltb_spec 0 (deadline w x - since B (tick (tick_reads w)))) as [Hlt|Hge].
    + destruct (block_spec w1' Hok1 Hpo) as (w2 & -> & E1 & E2 & E3 & P & Hsig & Has & Et & Ew). cbn [mbind outcome_bind].
      destruct (IH w2) as (w0 & -> & Wd).
      * by eapply rings_same; [| |exact R].
      * eapply ordered_same; [|exact O]. intros. by rewrite E2.
      * apply P.
      * destruct Hw as [[_ ?]|[(j & Hj & Hpj)|(j & y & Hj & Hy & Hdy)]]; [done| |].
        -- destruct j as [|j]; [left; split; [lia|]; right; apply Has; by rewrite Nat.add_0_r in Hpj|].
           right; left. exists j. split; [lia|]. rewrite Ew. cbn. by rewrite Nat.add_succ_r in Hpj.
        -- cbn in Hy. injection Hy as <-. destruct j as [|j]; [rewrite Nat.add_0_r in Hdy; lia|].
           right; right. exists j, x. split; [lia|]. split; [done|]. rewrite (deadline_same w w2) by (by rewrite E2).
           rewrite Et. cbn. by rewrite Nat.add_succ_r in Hdy.
      * exists w0. split; [done|]. by eapply waited_step.
    + exists w1'. split; [done|]. apply Hhere; try done. right. exists x. split; [done|]. cbn.
      pose proof (proj2 (Hck (tick_reads w))). lia.
Qed.
End timers.

(** ** Theorems *)

Section theorems.
Context (TL TD B : Z) (tick : nat -> Z) (cb_run : Z -> Z -> Z -> world -> outcome world).

(** C9: one timer pass fires exactly the timers whose deadline has been reached,
    in the order of their deadlines: each has its task's event and type bits
    pending and its callback called.  Afterwards the list of fired timers is
    empty again, one-shot timers are gone (freed when they asked for it), and
    periodic ones are back in the list with their period counted from a new
    reading of the clock; the list is still ordered by deadline.  The pass
    terminates and touches no freed memory. *)
Theorem bloop_timer_pass_correct (w : world) (xs : list Z)
  (Hcb : callbacks_ok cb_run) (R : rings TL TD w xs []) (O : ordered B w xs) (Htm : timers_ok w)
  (Hev : events_ok (loop w)) (Hnow : since B (tick (tick_reads w)) < 2 ^ 31)
  (Hp : periods_ok B tick w xs (S (tick_reads w + length xs))) :
  exists w' xs' l1 l2, handle_timer TL TD tick cb_run w = Done w' /\ xs = l1 ++ l2
    /\ (forall t, t ∈ l1 -> deadline B w t <= since B (tick (tick_reads w)) /\ fired w (loop w') t)
    /\ (forall t, t ∈ l2 -> since B (tick (tick_reads w)) < deadline B w t)
    /\ called w' = called w ++ concat (callback_of w <$> l1)
    /\ rings TL TD w' xs' [] /\ ordered B w' xs'
    /\ xs' ≡ₚ l2 ++ filter (fun t => rearmed w t = true) l1
    /\ (forall y, y ∉ l1 -> timers w' !! y = timers w !! y)
    /\ (forall y x, y ∈ l1 -> timers w !! y = Some x ->
        cleaned tick x (S (tick_reads w + length xs)) (timers w' !! y)).
Proof.
  destruct (handle_timer_spec TL TD B cb_run tick Hcb w xs R O Htm Hev Hnow Hp)
    as (w' & xs' & l1 & l2 & H1 & H2 & H3 & H4 & H5 & H6 & H7 & H8 & _ & _ & _ & _ & H9 & H10).
  exists w', xs', l1, l2. by split_and!.
Qed.

Context (posted : nat -> list (Z * Z)).

(** C8: the wait of the loop returns as soon as there is something to do, and
    only then: if an event is signalled, or another task posts one during one
    of the next waits, or the first timer becomes due, the wait ends with at
    least one task marked, the timer list in order and no event lost, neither
    one signalled before nor one posted while the loop was blocked. *)
Theorem bloop_wait_correct (fuel : nat) (w : world) (xs : list Z)
  (Hcb : callbacks_ok cb_run) (Hck : clock_ok B tick) (Hpo : posts_ok posted)
  (R : rings TL TD w xs []) (O : ordered B w xs) (Htm : timers_ok w) (Hev : events_ok (loop w))
  (Hp : forall t x k, t ∈ xs -> timers w !! t = Some x -> rearmed w t = true ->
        0 <= period x /\ since B (tick k) + period x < 2 ^ 31)
  (Hw : wakes B tick posted w xs fuel) :
  exists w' xs', _bloop_wait TL TD tick posted cb_run fuel w = Done w'
    /\ bitmap_evt_sync (loop w') <> 0 /\ events_ok (loop w')
    /\ rings TL TD w' xs' [] /\ ordered B w' xs'
    /\ (forall t m, signalled (loop w) t m -> pending (loop w') t m)
    /\ (forall i t m, (waits w <= i < waits w')%nat -> (t, m) ∈ posted i -> pending (loop w') t m)
    /\ handlers (loop w') = handlers (loop w) /\ bitmap_msg (loop w') = bitmap_msg (loop w).
Proof.
  destruct (wait_spec TL TD B cb_run tick posted Hck Hpo fuel w xs R O Hev Hw) as (w0 & -> & [H1 H2 H3 H4 H5 H6 H7 H8 H9]).
  assert (Et : forall t, timers w0 !! t = timers w !! t) by (intros; by rewrite H2).
  destruct (handle_timer_spec TL TD B cb_run tick Hcb w0 xs) as
    (w' & xs' & l1 & l2 & -> & E & Hl1 & Hl2 & _ & R' & O' & _ & G & Hh & Hm & Hwt & _ & _).
  - by eapply rings_same; [| |exact R].
  - eapply ordered_same; [by intros; apply Et|exact O].
  - intros t x. rewrite Et. apply Htm.
  - done.
  - apply Hck.
  - intros t x k Ht Hx Hr Hk. apply (Hp t x k Ht); [by rewrite <- Et|].
    unfold rearmed in *. by rewrite Et in Hr.
  - exists w', xs'. split; [done|]. split.
    { destruct H9 as [Hne|(x & Hx & Hd)].
      - intros E0. pose proof (eo_sync _ H4). pose proof (ga_sync _ _ G (Z.log2 (bitmap_evt_sync (loop w0)))) as Hb.
        rewrite E0, Z.testbit_0_l in Hb. discriminate Hb. apply Z.bit_log2. lia.
      - destruct xs as [|y xs]; [done|]. cbn in Hx. injection Hx as ->.
        destruct l1 as [|z l1]; cbn in E.
        + subst l2. specialize (Hl2 x). rewrite (deadline_same B w w0) in Hl2 by apply Et. set_solver by lia.
        + injection E as <- _. destruct (Hl1 x) as [_ Hf]; [set_solver|]. unfold fired in Hf.
          destruct (timers w0 !! x); [|done]. destruct Hf as [Hb _]. intros E0. by rewrite E0, Z.testbit_0_l in Hb. }
    split; [by apply (ga_ok _ _ G)|]. split; [done|]. split; [done|].
    split; [intros t m Hs; by apply (ga_pending _ _ G), H5|].
    split; [intros i t m Hi Hin; apply (ga_pending _ _ G), (H6 i); [lia|done]|].
    split; congruence.
Qed.

(** the state the event handler of [task] is called in: its type bits collected in the
    synchronous map, the clock read once, nothing else changed *)
Definition handler_called (task : Z) (w : world) : world :=
  let bits m := default 0 (m !! Z.to_nat task) in
  {| loop := set_events (bitmap_evt_async (loop w)) (bitmap_evt_sync (loop w))
       (<[Z.to_nat task := 0]> (evt_type_map_async (loop w)))
       (<[Z.to_nat task := Z.lor (bits (evt_type_map_sync (loop w))) (bits (evt_type_map_async (loop w)))]>
          (evt_type_map_sync (loop w))) (loop w);
     dl := dl w; timers := timers w; msgs := msgs w; tick_reads := tick_reads w; us_reads := S (us_reads w);
     waits := waits w; called := called w |}.

Context (now_us : nat -> Z) (evt_run : Z -> Z -> world -> outcome world) (clz0 : Z).

(** C35: with an event pending, a pass of the loop calls the handler of the
    highest marked task, and of no other, in the state [handler_called]: the
    handler finds all type bits collected for its task in the synchronous map,
    and its entry of the asynchronous map is empty again.  Whatever the handler
    does ([w2] is what it makes of that state, a well-formed event state), only
    the mark of this task is cleared after it: the marks of the other tasks and
    everything signalled asynchronously meanwhile are as the handler left
    them. *)
Theorem bloop_dispatch_correct (w w2 : world) (task h : Z)
  (Hev : events_ok (loop w)) (Hs : bitmap_evt_sync (loop w) <> 0) (Hm : bitmap_msg (loop w) = 0) (Hclz : clz0 = 32)
  (Htask : task = _evt_highest clz0 (loop w)) (Hh : handlers (loop w) !! Z.to_nat task = Some h) (Hn : h <> NULL)
  (Hrun : evt_run h task (handler_called task w) = Done w2)
  (Hev2 : events_ok (loop w2)) (Hst : length (statistic (loop w2)) = 32%nat) :
  (0 <= task < 32 /\ Z.testbit (bitmap_evt_sync (loop w)) task = true
   /\ forall k, task < k -> Z.testbit (bitmap_evt_sync (loop w)) k = false)
  /\ exists w', bloop_dispatch now_us evt_run clz0 w = Done w'
    /\ (forall k, 0 <= k -> Z.testbit (bitmap_evt_sync (loop w')) k
                   = Z.testbit (bitmap_evt_sync (loop w2)) k && negb (k =? task))
    /\ bitmap_evt_async (loop w') = bitmap_evt_async (loop w2)
    /\ evt_type_map_async (loop w') = evt_type_map_async (loop w2)
    /\ evt_type_map_sync (loop w') = evt_type_map_sync (loop w2)
    /\ dl w' = dl w2 /\ timers w' = timers w2 /\ events_ok (loop w').
Proof.
  pose proof (eo_sync _ Hev) as Hrg.
  assert (Et : task = Z.log2 (bitmap_evt_sync (loop w))).
  { rewrite Htask. unfold _evt_highest, highest. by rewrite (proj2 (Z.eqb_neq _ _)). }
  assert (Hr : 0 <= task < 32).
  { rewrite Et. split; [apply Z.log2_nonneg|]. apply Z.log2_lt_pow2; lia. }
  split.
  { split; [done|]. split; [rewrite Et; apply Z.bit_log2; lia|]. intros k Hk. apply Z.bits_above_log2; lia. }
  unfold bloop_dispatch. rewrite <- Htask. unfold _msg_highest, highest. rewrite Hm, Hclz. cbn [Z.eqb Z.sub Z.opp Z.add Z.pos_sub].
  rewrite !(proj2 (Z.leb_le _ _)) by lia. cbn [andb]. unfold _evt_handle.
  step_with (aget_done _ _ _ (proj1 Hr) Hh). rewrite (proj2 (Z.eqb_neq h NULL)) by done.
  destruct (lookup_lt_is_Some_2 (evt_type_map_sync (loop w)) (Z.to_nat task)) as [s Es]; [rewrite (eo_map_sync _ Hev); lia|].
  destruct (lookup_lt_is_Some_2 (evt_type_map_async (loop w)) (Z.to_nat task)) as [a Ea]; [rewrite (eo_map_async _ Hev); lia|].
  unfold merge_maps. step_with (aget_done _ _ _ (proj1 Hr) Es). step_with (aget_done _ _ _ (proj1 Hr) Ea).
  rewrite (aset_done (evt_type_map_sync (loop w))) by (rewrite (eo_map_sync _ Hev); lia). cbn [mbind outcome_bind].
  rewrite (aset_done (evt_type_map_async (loop w))) by (rewrite (eo_map_async _ Hev); lia). cbn [mbind outcome_bind bl_timer_now_us].
  unfold handler_called in Hrun. rewrite Es, Ea in Hrun. cbn [default id] in Hrun.
  unfold with_loop. cbn [loop dl timers msgs tick_reads us_reads waits called]. step_with Hrun.
  cbn [loop]. destruct (lookup_lt_is_Some_2 (statistic (loop w2)) (Z.to_nat task)) as [st Est]; [lia|].
  step_with (aget_done _ _ _ (proj1 Hr) Est). rewrite aset_done by lia. cbn [mbind outcome_bind].
  unfold bloop_evt_unset_sync. rewrite (proj2 (Z.ltb_lt _ _)) by (unfold LOOP_TASK_MAX; lia). cbn [mbind outcome_bind].
  eexists. split; [done|]. cbn.
  assert (Hbits : forall k, 0 <= k -> Z.testbit (Z.land (bitmap_evt_sync (loop w2)) (u32 (Z.lnot (bit task)))) k
                   = Z.testbit (bitmap_evt_sync (loop w2)) k && negb (k =? task)).
  { intros k Hk. rewrite Z.land_spec. destruct (decide (k < 32)) as [?|?].
    - unfold u32, wrap. rewrite Z.mod_pow2_bits_low, Z.lnot_spec, bit_testbit by lia. by rewrite Z.eqb_sym.
    - rewrite (testbit_high 32 (bitmap_evt_sync (loop w2))) by (pose proof (eo_sync _ Hev2); lia). done. }
  split_and!; try done. destruct Hev2 as [H1 H2 H3 H4]. constructor; cbn; try done.
  by apply land_range.
Qed.
End theorems.

(** Registering a timer that is in no list puts it into the running list at
    the place its deadline demands, before timers with the same deadline: the
    list stays ordered across the wrap-around of the tick counter, and the
    other list is untouched. *)
Theorem bloop_timer_register_correct (TL TD B : Z) (w : world) (xs ys : list Z) (t : Z)
  (R : rings TL TD w xs ys) (O : ordered B w xs) (Hok : node_ok (dl w) t) (Hni : t ∉ TL :: TD :: xs ++ ys)
  (Hnull : t <> NULL) (Hx : is_Some (timers w !! t)) (Hd : deadline B w t < 2 ^ 31) :
  exists d l1 l2, bloop_timer_register TL t w = Done (with_dl d w) /\ xs = l1 ++ l2
    /\ rings TL TD (with_dl d w) (l1 ++ t :: l2) ys /\ ordered B (with_dl d w) (l1 ++ t :: l2)
    /\ (forall y, y ∈ l1 -> deadline B w y < deadline B w t)
    /\ (forall y, y ∈ l2 -> deadline B w t <= deadline B w y).
Proof.
  destruct (register_spec TL TD B w xs ys t R O Hok Hni Hnull Hx Hd) as (d & l1 & l2 & E & -> & R' & _ & H1 & H2).
  exists d, l1, l2. split_and!; try done. apply (ordered_same B w); [done|]. by apply sorted_insert.
Qed.

Lemma slot_search_taken k hs p h i : aget hs p = Done h -> h <> NULL -> slot_search k hs p i = Done (i + Z.of_nat k).
Proof.
  intros E Hh. revert i. induction k as [|k IH]; intros i; cbn [slot_search]; [f_equal; lia|].
  step_with E. rewrite (proj2 (Z.eqb_neq h NULL)) by done. rewrite IH. f_equal. lia.
Qed.

(** the loop with slot [p] of the handler table holding [h] *)
Definition in_slot (p h : Z) (l : loop_ctx) : loop_ctx := set_handlers (<[Z.to_nat p := h]> (handlers l)) l.

(** A handler is registered exactly in the slot of its priority: the call
    fails, changing nothing, when the priority is out of range or the slot is
    taken (no other slot is ever used), and unregistering requires the
    registered handler; the two are inverse to each other. *)
Theorem bloop_handler_slots (l : loop_ctx) (handler p : Z)
  (Hl : length (handlers l) = 32%nat) (Hh : handler <> NULL) :
  match handlers l !! Z.to_nat p with
  | Some h =>
    if decide (0 <= p < 32) then
      (if h =? NULL then
         exists l', bloop_handler_register handler p l = Done (0, l')
           /\ l' = in_slot p handler l
           /\ bloop_handler_unregister handler p l' = Done (0, l)
           /\ bloop_handler_unregister handler p l = Done (-2, l)
       else bloop_handler_register handler p l = Done (-1, l)
         /\ bloop_handler_unregister handler p l =
              if handler =? h then Done (0, in_slot p NULL l)
              else Done (-3, l))
    else bloop_handler_register handler p l = Done (-1, l) /\ bloop_handler_unregister handler p l = Done (-1, l)
  | None => bloop_handler_register handler p l = Done (-1, l) /\ bloop_handler_unregister handler p l = Done (-1, l)
  end.
Proof.
  assert (Hout : ~ (0 <= p < 32) -> bloop_handler_register handler p l = Done (-1, l)
    /\ bloop_handler_unregister handler p l = Done (-1, l)).
  { intros Hp. unfold bloop_handler_register, bloop_handler_unregister, LOOP_TASK_MAX.
    destruct (Z.ltb_spec p 0); [done|]. destruct (Z.leb_spec 32 p); [done|lia]. }
  destruct (handlers l !! Z.to_nat p) as [h|] eqn:E.
  2: { apply Hout. apply lookup_ge_None in E. lia. }
  case_decide as Hp; [|by apply Hout].
  pose proof (aget_done _ _ _ (proj1 Hp) E) as Eg.
  unfold bloop_handler_register, bloop_handler_unregister, LOOP_TASK_MAX, in_slot.
  rewrite (proj2 (Z.ltb_ge p 0)), (proj2 (Z.leb_gt 32 p)) by lia. cbn [orb]. rewrite Eg. cbn [mbind outcome_bind].
  destruct (Z.eqb_spec h NULL) as [->|Hne]; cbn [mbind outcome_bind].
  - rewrite (proj2 (Z.eqb_neq 32 p)) by lia. rewrite aset_done by lia. cbn [mbind outcome_bind].
    eexists. split; [done|]. split; [done|]. split; [|done].
    rewrite (aget_done _ p handler) by (try apply list_lookup_insert_eq; cbn; lia). cbn [mbind outcome_bind].
    rewrite (proj2 (Z.eqb_neq handler NULL)) by done. rewrite Z.eqb_refl. cbn [negb].
    rewrite aset_done by (cbn; rewrite length_insert; lia). cbn [mbind outcome_bind handlers set_handlers].
    rewrite list_insert_insert_eq, (list_insert_id (handlers l)) by done. by destruct l.
  - rewrite (slot_search_taken _ _ _ h) by done. cbn [mbind outcome_bind]. rewrite Z2Nat.id by lia.
    rewrite (proj2 (Z.eqb_eq 32 _)) by lia. split; [done|].
    destruct (Z.eqb_spec handler h); cbn [negb]; [|done]. by rewrite aset_done by lia.
Qed.

(** ** Witnesses: three timers, two of them due *)

Definition mk_timer (f added target idx map cb : Z) : loop_timer :=
  {| flags := f; time_added := added; time_target := target; idx_task := idx; evt_type_map := map;
     t_cb := cb; t_arg := 0 |}.
Definition sample_dl : dmem :=
  {| d_next := list_to_map [(100, 300); (300, 310); (310, 320); (320, 100); (200, 200); (330, 0)];
     d_prev := list_to_map [(300, 100); (310, 300); (320, 310); (100, 320); (200, 200); (330, 0)] |}.
Definition sample_world : world :=
  {| loop := loop0; dl := sample_dl;
     timers := list_to_map [(300, mk_timer 1 0 40 3 1 77); (310, mk_timer 2 0 50 7 4 0); (320, mk_timer 0 0 90 9 1 0);
                            (330, mk_timer 0 0 60 1 1 0)];
     msgs := ∅; tick_reads := 0; us_reads := 0; waits := 0; called := [] |}.
Definition sample_cb (cb t arg : Z) (w : world) : outcome world := Done w.
Definition sample_tick (n : nat) : Z := 50.
Definition sample_posted (n : nat) : list (Z * Z) := [(5, 8)].

Lemma sample_rings : rings 100 200 sample_world [300; 310; 320] [].
Proof.
  constructor.
  - split; [vm_compute; by repeat split|]. by repeat (apply NoDup_cons; split; [set_solver|]); apply NoDup_nil.
  - split; [vm_compute; by repeat split|]. apply NoDup_singleton.
  - set_solver.
  - cbn. intros t Ht. repeat (apply elem_of_cons in Ht as [->|Ht]; [by eexists|]). by apply elem_of_nil in Ht.
  - unfold NULL. set_solver.
Qed.

Lemma sample_ordered : ordered 0 sample_world [300; 310; 320].
Proof.
  split.
  - repeat (constructor; [|repeat constructor; vm_compute; congruence]). constructor.
  - intros t Ht. repeat (apply elem_of_cons in Ht as [->|Ht]; [by vm_compute|]). by apply elem_of_nil in Ht.
Qed.

Lemma sample_callbacks : callbacks_ok sample_cb.
Proof. intros cb t arg w. by exists w. Qed.

Lemma sample_timers_ok : timers_ok sample_world.
Proof.
  intros t x Hx. apply elem_of_map_to_list in Hx.
  assert (map_to_list (timers sample_world) ≡ₚ [(300, mk_timer 1 0 40 3 1 77); (310, mk_timer 2 0 50 7 4 0);
    (320, mk_timer 0 0 90 9 1 0); (330, mk_timer 0 0 60 1 1 0)]) as Ep.
  { apply map_to_list_to_map. cbn. by repeat (apply NoDup_cons; split; [set_solver|]); apply NoDup_nil. }
  rewrite Ep in Hx. unfold timer_ok.
  repeat (apply elem_of_cons in Hx as [[= -> ->]|Hx]; [cbn; lia|]). by apply elem_of_nil in Hx.
Qed.

Lemma sample_events_ok : events_ok (loop sample_world).
Proof. by constructor. Qed.

Lemma sample_periods t x k : t ∈ [300; 310; 320] -> timers sample_world !! t = Some x -> rearmed sample_world t = true ->
  0 <= period x /\ since 0 (sample_tick k) + period x < 2 ^ 31.
Proof.
  intros Ht Hx Hr. repeat (apply elem_of_cons in Ht as [->|Ht]; [vm_compute in Hx; injection Hx as <-; by vm_compute|]).
  by apply elem_of_nil in Ht.
Qed.

Lemma bloop_timer_pass_correct_witness :
  exists w' xs' l1 l2, handle_timer 100 200 sample_tick sample_cb sample_world = Done w'
    /\ [300; 310; 320] = l1 ++ l2 /\ rings 100 200 w' xs' [] /\ ordered 0 w' xs'.
Proof.
  destruct (bloop_timer_pass_correct 100 200 0 sample_tick sample_cb sample_world [300; 310; 320]) as
    (w' & xs' & l1 & l2 & H1 & H2 & _ & _ & _ & H3 & H4 & _).
  - exact sample_callbacks.
  - exact sample_rings.
  - exact sample_ordered.
  - exact sample_timers_ok.
  - exact sample_events_ok.
  - by vm_compute.
  - intros t x k Ht Hx Hr _. by apply (sample_periods t x k).
  - exists w', xs', l1, l2. exact (conj H1 (conj H2 (conj H3 H4))).
Defined.

Lemma bloop_wait_correct_witness :
  exists w', _bloop_wait 100 200 sample_tick sample_posted sample_cb 5 sample_world = Done w'
    /\ bitmap_evt_sync (loop w') <> 0.
Proof.
  destruct (bloop_wait_correct 100 200 0 sample_tick sample_cb sample_posted 5 sample_world [300; 310; 320]) as
    (w' & xs' & H1 & H2 & _).
  - exact sample_callbacks.
  - intros k. by vm_compute.
  - intros i evt map Hin. apply list_elem_of_singleton in Hin as [= -> ->]. lia.
  - exact sample_rings.
  - exact sample_ordered.
  - exact sample_timers_ok.
  - exact sample_events_ok.
  - exact sample_periods.
  - right; right. exists 0%nat, 300. split; [lia|]. split; [done|]. by vm_compute.
  - exists w'. exact (conj H1 H2).
Defined.

Lemma bloop_timer_register_correct_witness :
  exists d l1 l2, bloop_timer_register 100 330 sample_world = Done (with_dl d sample_world)
    /\ [300; 310; 320] = l1 ++ l2 /\ ordered 0 (with_dl d sample_world) (l1 ++ 330 :: l2).
Proof.
  destruct (bloop_timer_register_correct 100 200 0 sample_world [300; 310; 320] [] 330) as
    (d & l1 & l2 & H1 & H2 & _ & H3 & _).
  - exact sample_rings.
  - exact sample_ordered.
  - by split; eexists.
  - set_solver.
  - done.
  - by eexists.
  - by vm_compute.
  - exists d, l1, l2. exact (conj H1 (conj H2 H3)).
Defined.

Lemma bloop_handler_slots_witness :
  exists l', bloop_handler_register 9 4 loop0 = Done (0, l') /\ bloop_handler_unregister 9 4 l' = Done (0, loop0).
Proof.
  pose proof (bloop_handler_slots loop0 9 4 eq_refl ltac:(done)) as H. cbn in H.
  destruct H as (l' & H1 & _ & H2 & _). by exists l'.
Defined.

(** tasks 5 and 2 are marked; task 5 has a handler and type bits *)
Definition sample_handled : loop_ctx :=
  set_handlers (<[5%nat := 9]> (replicate 32 NULL))
    (set_events 0 36 (<[5%nat := 8]> (replicate 32 0)) (replicate 32 0) loop0).
Definition sample_marked : world := with_loop (fun _ => sample_handled) sample_world.
(** it takes its type bits and marks task 3 *)
Definition sample_evt (h task : Z) (w : world) : outcome world :=
  Done (with_loop (fun l => set_events (bitmap_evt_async l) (Z.lor (bitmap_evt_sync l) (bit 3)) (evt_type_map_async l)
          (<[Z.to_nat task := 0]> (evt_type_map_sync l)) l) w).

Lemma bloop_dispatch_correct_witness :
  exists w', bloop_dispatch (fun n => Z.of_nat n) sample_evt 32 sample_marked = Done w'
    /\ bitmap_evt_async (loop w') = 0 /\ Z.testbit (bitmap_evt_sync (loop w')) 5 = false
    /\ Z.testbit (bitmap_evt_sync (loop w')) 3 = true /\ Z.testbit (bitmap_evt_sync (loop w')) 2 = true.
Proof.
  destruct (bloop_dispatch_correct (fun n => Z.of_nat n) sample_evt 32 sample_marked
    (with_loop (fun l => set_events (bitmap_evt_async l) (Z.lor (bitmap_evt_sync l) (bit 3)) (evt_type_map_async l)
       (<[5%nat := 0]> (evt_type_map_sync l)) l) (handler_called 5 sample_marked)) 5 9)
    as (_ & w' & H1 & H2 & H3 & _).
  - by constructor.
  - done.
  - done.
  - done.
  - done.
  - done.
  - done.
  - done.
  - by constructor.
  - done.
  - exists w'. split; [exact H1|]. split; [exact H3|]. split_and!; rewrite H2 by lia; reflexivity.
Defined.
