(* ===== verification/BlCmds.v ===== *)
(** * The firmware command queue: bl_cmds.c, with bl_send_msg (bl_msg_tx.c),
    ipc_host_msg_push and ipc_host_msgack_handler (ipc_host.c)

    Commands to the WiFi firmware are queued and pushed one at a time through a
    single mailbox; the firmware acknowledges each push and may confirm the
    command later with a message.  The list of queued commands ([list.h]) is a
    list of command addresses; [store] holds the allocated commands, [msgs] the
    allocated request messages.

    Several tasks are in [cmd_mgr_queue] at a time: the function is cut where it
    releases its mutex ([cmd_mgr_queue_locked], [cmd_mgr_queue_push],
    [cmd_mgr_queue_return]), and [pc] says where the task of a command is. *)
From S2P Require Import Prelude.

(** ** Definitions *)

Definition RWNX_CMD_FLAG_NONBLOCK : Z := 1.
Definition RWNX_CMD_FLAG_REQ_CFM : Z := 2.
Definition RWNX_CMD_FLAG_WAIT_PUSH : Z := 4.
Definition RWNX_CMD_FLAG_WAIT_ACK : Z := 8.
Definition RWNX_CMD_FLAG_WAIT_CFM : Z := 16.
Definition RWNX_CMD_FLAG_DONE : Z := 32.
Definition RWNX_CMD_MAX_QUEUED : Z := 8.

Definition EINTR : Z := 4.
Definition ENOMEM : Z := 12.
Definition EBUSY : Z := 16.
Definition EPIPE : Z := 32.
Definition ETIMEDOUT : Z := 110.

Definition has (flags f : Z) : bool := negb (Z.land flags f =? 0).
Definition RWNX_CMD_WAIT_COMPLETE (flags : Z) : bool :=
  negb (has flags (Z.lor RWNX_CMD_FLAG_WAIT_ACK RWNX_CMD_FLAG_WAIT_CFM)).
(** [flags &= ~f] on [u16] *)
Definition clr (flags f : Z) : Z := Z.land flags (u16 (Z.lnot f)).

(** [complete]: no event group, or one with its bit clear or set *)
Record bl_cmd := {
  reqid : Z; a2e_msg : Z; e2a_msg : Z; tkn : Z; flags : Z; complete : option bool; result : Z }.

Inductive bl_cmd_mgr_state := RWNX_CMD_MGR_STATE_DEINIT | RWNX_CMD_MGR_STATE_INITED | RWNX_CMD_MGR_STATE_CRASHED.

(** where the task that queued a command is: before the push, before the test of
    [NONBLOCK], waiting on the event *)
Inductive task_pc := AtPush | AtReturn.
#[export] Instance task_pc_eq_dec : EqDecision task_pc.
Proof. solve_decision. Defined.

Record hw := {
  cmds : list Z; store_ : gmap Z bl_cmd;
  msgs : gmap Z (list Z);          (* the request messages: their words *)
  state : bl_cmd_mgr_state; next_tkn : Z; queue_sz : Z; max_queue_sz : Z;
  msga2e_hostid : Z;
  pc : gmap Z task_pc;
  mailbox : list Z;                (* the words of [msg_a2e_buf.msg] *)
  pushed : list Z;                 (* tokens of the commands pushed, in order *)
  copied : list (Z * Z) }.         (* confirmations copied back: buffer, message *)

Definition set_flags (f : Z) (c : bl_cmd) : bl_cmd :=
  {| reqid := reqid c; a2e_msg := a2e_msg c; e2a_msg := e2a_msg c; tkn := tkn c; flags := f;
     complete := complete c; result := result c |}.
Definition set_result (r : Z) (c : bl_cmd) : bl_cmd :=
  {| reqid := reqid c; a2e_msg := a2e_msg c; e2a_msg := e2a_msg c; tkn := tkn c; flags := flags c;
     complete := complete c; result := r |}.
Definition set_complete (e : option bool) (c : bl_cmd) : bl_cmd :=
  {| reqid := reqid c; a2e_msg := a2e_msg c; e2a_msg := e2a_msg c; tkn := tkn c; flags := flags c;
     complete := e; result := result c |}.

Definition with_queue (q : list Z) (sz : Z) (w : hw) : hw :=
  {| cmds := q; store_ := store_ w; msgs := msgs w; state := state w; next_tkn := next_tkn w; queue_sz := sz;
     max_queue_sz := max_queue_sz w; msga2e_hostid := msga2e_hostid w; pc := pc w; mailbox := mailbox w; pushed := pushed w;
     copied := copied w |}.
Definition with_store (s : gmap Z bl_cmd) (w : hw) : hw :=
  {| cmds := cmds w; store_ := s; msgs := msgs w; state := state w; next_tkn := next_tkn w; queue_sz := queue_sz w;
     max_queue_sz := max_queue_sz w; msga2e_hostid := msga2e_hostid w; pc := pc w; mailbox := mailbox w; pushed := pushed w;
     copied := copied w |}.
Definition with_pc (p : gmap Z task_pc) (w : hw) : hw :=
  {| cmds := cmds w; store_ := store_ w; msgs := msgs w; state := state w; next_tkn := next_tkn w;
     queue_sz := queue_sz w; max_queue_sz := max_queue_sz w; msga2e_hostid := msga2e_hostid w; pc := p;
     mailbox := mailbox w; pushed := pushed w; copied := copied w |}.
Definition with_msgs (m : gmap Z (list Z)) (w : hw) : hw :=
  {| cmds := cmds w; store_ := store_ w; msgs := m; state := state w; next_tkn := next_tkn w;
     queue_sz := queue_sz w; max_queue_sz := max_queue_sz w; msga2e_hostid := msga2e_hostid w; pc := pc w;
     mailbox := mailbox w; pushed := pushed w; copied := copied w |}.

Definition get_cmd (w : hw) (c : Z) : outcome bl_cmd :=
  match store_ w !! c with Some x => Done x | None => Fault end.
Definition put_cmd (w : hw) (c : Z) (x : bl_cmd) : hw := with_store (<[c := x]> (store_ w)) w.
(** [bflb_os_free] of a command and of a message; freeing twice is a fault *)
Definition free_cmd (w : hw) (c : Z) : outcome hw :=
  match store_ w !! c with Some _ => Done (with_store (delete c (store_ w)) w) | None => Fault end.
Definition free_msg (w : hw) (m : Z) : outcome hw :=
  match msgs w !! m with Some _ => Done (with_msgs (delete m (msgs w)) w) | None => Fault end.

(** the first occurrence of [c] is unlinked *)
Fixpoint list_del (c : Z) (q : list Z) : list Z :=
  match q with [] => [] | x :: q => if x =? c then q else x :: list_del c q end.

Definition bl_cmd_mgr_init (w : hw) : hw :=
  {| cmds := []; store_ := store_ w; msgs := msgs w; state := state w; next_tkn := next_tkn w;
     queue_sz := queue_sz w; max_queue_sz := RWNX_CMD_MAX_QUEUED; msga2e_hostid := msga2e_hostid w; pc := pc w;
     mailbox := mailbox w; pushed := pushed w; copied := copied w |}.

Definition cmd_complete (c : Z) (w : hw) : outcome hw :=
  x ← get_cmd w c;
  let w := with_queue (list_del c (cmds w)) (u32 (queue_sz w - 1)) w in
  let x := set_flags (Z.lor (flags x) RWNX_CMD_FLAG_DONE) x in
  let w := put_cmd w c x in
  if has (flags x) RWNX_CMD_FLAG_NONBLOCK then free_cmd w c
  else if RWNX_CMD_WAIT_COMPLETE (flags x) then
    Done (put_cmd w c (set_complete (Some true) (set_result 0 x)))
  else Done w.

(** the mailbox holds one command: the request, of [length] words, is copied into it
    and the command becomes the host id of the pending acknowledge *)
Definition IPC_A2E_MSG_BUF_SIZE : Z := 127.
Definition ipc_host_msg_push (c : Z) (w : hw) : outcome hw :=
  if msga2e_hostid w =? NULL then
    x ← get_cmd w c;
    match msgs w !! a2e_msg x with
    | Some src =>
      if Z.of_nat (length src) <=? IPC_A2E_MSG_BUF_SIZE then
        Done {| cmds := cmds w; store_ := store_ w; msgs := msgs w; state := state w; next_tkn := next_tkn w;
                queue_sz := queue_sz w; max_queue_sz := max_queue_sz w; msga2e_hostid := c; pc := pc w;
                mailbox := src ++ drop (length src) (mailbox w); pushed := pushed w ++ [tkn x]; copied := copied w |}
      else Fault
    | None => Fault
    end
  else Fault.

(** from the start to the unlocking of the mutex; the result is the return value
    of an early return, or whether the push is deferred *)
Definition cmd_mgr_queue_locked (c : Z) (w : hw) : outcome (Z + bool) * hw :=
  match store_ w !! c with
  | None => (Fault, w)
  | Some x =>
    match state w with
    | RWNX_CMD_MGR_STATE_CRASHED => (Done (inl (- EPIPE)), put_cmd w c (set_result EPIPE x))
    | _ =>
      if negb (bool_decide (cmds w = [])) && (queue_sz w =? max_queue_sz w) then
        (Done (inl (- ENOMEM)), put_cmd w c (set_result ENOMEM x))
      else
        match (match last (cmds w) with
               | None => Done false
               | Some l => y ← get_cmd w l;
                           Done (has (flags y) (Z.lor RWNX_CMD_FLAG_WAIT_ACK RWNX_CMD_FLAG_WAIT_PUSH))
               end) with
        | Done defer =>
          let f := if (defer : bool) then Z.lor (flags x) RWNX_CMD_FLAG_WAIT_PUSH else flags x in
          let f := Z.lor f RWNX_CMD_FLAG_WAIT_ACK in
          let f := if has f RWNX_CMD_FLAG_REQ_CFM then Z.lor f RWNX_CMD_FLAG_WAIT_CFM else f in
          let x := {| reqid := reqid x; a2e_msg := a2e_msg x; e2a_msg := e2a_msg x; tkn := next_tkn w; flags := f;
                      complete := if has f RWNX_CMD_FLAG_NONBLOCK then complete x else Some false;
                      result := EINTR |} in
          let w := put_cmd w c x in
          (Done (inr defer),
           {| cmds := cmds w ++ [c]; store_ := store_ w; msgs := msgs w; state := state w;
              next_tkn := u32 (next_tkn w + 1); queue_sz := u32 (queue_sz w + 1); max_queue_sz := max_queue_sz w;
              msga2e_hostid := msga2e_hostid w; pc := pc w; mailbox := mailbox w; pushed := pushed w; copied := copied w |})
        | Fault => (Fault, w)
        | NoFuel => (NoFuel, w)
        end
    end
  end.

Definition cmd_mgr_queue_push (c : Z) (w : hw) : outcome hw :=
  w ← ipc_host_msg_push c w;
  x ← get_cmd w c;
  free_msg w (a2e_msg x).

(** the rest, [e] being the bits the wait on the event returned *)
Definition cmd_mgr_queue_return (c e : Z) (w : hw) : outcome hw :=
  x ← get_cmd w c;
  if negb (has (flags x) RWNX_CMD_FLAG_NONBLOCK) then
    w ← (if negb (Z.land e 1 =? 0) then Done w
         else
           let w := {| cmds := cmds w; store_ := store_ w; msgs := msgs w; state := RWNX_CMD_MGR_STATE_CRASHED;
                       next_tkn := next_tkn w; queue_sz := queue_sz w; max_queue_sz := max_queue_sz w;
                       msga2e_hostid := msga2e_hostid w; pc := pc w; mailbox := mailbox w; pushed := pushed w; copied := copied w |} in
           if negb (has (flags x) RWNX_CMD_FLAG_DONE)
           then cmd_complete c (put_cmd w c (set_result ETIMEDOUT x)) else Done w);
    x ← get_cmd w c;
    Done (put_cmd w c (set_complete None x))
  else Done (put_cmd w c (set_result 0 x)).

Fixpoint drain_loop (q : list Z) (w : hw) : outcome hw :=
  match q with
  | [] => Done w
  | c :: q =>
    let w := with_queue (list_del c (cmds w)) (u32 (queue_sz w - 1)) w in
    x ← get_cmd w c;
    drain_loop q (if negb (has (flags x) RWNX_CMD_FLAG_NONBLOCK) then put_cmd w c (set_complete (Some true) x) else w)
  end.
Definition cmd_mgr_drain (w : hw) : outcome hw := drain_loop (cmds w) w.

(** the loop of [cmd_mgr_llind]: the acknowledged command and the next to push *)
Fixpoint llind_loop (q : list Z) (t : Z) (acked : option Z) (w : hw) : outcome (option Z * option Z) :=
  match q with
  | [] => Done (acked, None)
  | cur :: q =>
    x ← get_cmd w cur;
    if match acked with None => tkn x =? t | Some _ => false end then llind_loop q t (Some cur) w
    else if has (flags x) RWNX_CMD_FLAG_WAIT_PUSH then Done (acked, Some cur)
    else llind_loop q t acked w
  end.

Definition cmd_mgr_llind (c : Z) (w : hw) : outcome hw :=
  x ← get_cmd w c;
  '(acked, next) ← llind_loop (cmds w) (tkn x) None w;
  w ← match acked with
      | None => Done w
      | Some _ =>
        let x := set_flags (clr (flags x) RWNX_CMD_FLAG_WAIT_ACK) x in
        let w := put_cmd w c x in
        if RWNX_CMD_WAIT_COMPLETE (flags x) then cmd_complete c w else Done w
      end;
  match next with
  | None => Done w
  | Some n =>
    y ← get_cmd w n;
    let w := put_cmd w n (set_flags (clr (flags y) RWNX_CMD_FLAG_WAIT_PUSH) y) in
    w ← ipc_host_msg_push n w;
    free_msg w (a2e_msg y)
  end.

(** the message handler of a confirmation; [None] is no handler, otherwise
    whether it accepts the message for a command (returns 0) *)
Fixpoint msgind_loop (q : list Z) (id param_len : Z) (cb : option (Z -> bool)) (w : hw) : outcome hw :=
  match q with
  | [] => Done w
  | c :: q =>
    x ← get_cmd w c;
    if (reqid x =? id) && has (flags x) RWNX_CMD_FLAG_WAIT_CFM then
      if match cb with None => true | Some f => f c end then
        let x := set_flags (clr (flags x) RWNX_CMD_FLAG_WAIT_CFM) x in
        let w := put_cmd w c x in
        let w := if negb (e2a_msg x =? NULL) && negb (param_len =? 0) then
                   {| cmds := cmds w; store_ := store_ w; msgs := msgs w; state := state w; next_tkn := next_tkn w;
                      queue_sz := queue_sz w; max_queue_sz := max_queue_sz w; msga2e_hostid := msga2e_hostid w;
                      pc := pc w; mailbox := mailbox w; pushed := pushed w; copied := copied w ++ [(e2a_msg x, id)] |}
                 else w in
        if RWNX_CMD_WAIT_COMPLETE (flags x) then cmd_complete c w else Done w
      else msgind_loop q id param_len cb w
    else msgind_loop q id param_len cb w
  end.
Definition cmd_mgr_msgind (id param_len : Z) (cb : option (Z -> bool)) (w : hw) : outcome hw :=
  msgind_loop (cmds w) id param_len cb w.

(** the acknowledge interrupt; the check of the message counter kept in shared
    memory is not modelled *)
Definition ipc_host_msgack_handler (w : hw) : outcome hw :=
  let hostid := msga2e_hostid w in
  if hostid =? NULL then Fault else
  cmd_mgr_llind hostid
    {| cmds := cmds w; store_ := store_ w; msgs := msgs w; state := state w; next_tkn := next_tkn w;
       queue_sz := queue_sz w; max_queue_sz := max_queue_sz w; msga2e_hostid := NULL; pc := pc w;
       mailbox := mailbox w; pushed := pushed w; copied := copied w |}.

(** [bl_send_msg] up to the first point where other tasks run: the command is
    allocated at [cmd], if there is memory, and queued; [Some] is the result of a
    call that ends here *)
Definition bl_send_msg (ipc_env : bool) (cmd : option Z) (msg id_req : Z) (nonblock reqcfm : bool) (cfm : Z) (w : hw)
  : outcome (option Z * hw) :=
  if negb ipc_env then w ← free_msg w msg; Done (Some (- EBUSY), w)
  else
    match cmd with
    | None => w ← free_msg w msg; Done (Some (- ENOMEM), w)
    | Some c =>
      let f := Z.lor (if nonblock then RWNX_CMD_FLAG_NONBLOCK else 0) (if reqcfm then RWNX_CMD_FLAG_REQ_CFM else 0) in
      let w := put_cmd w c {| reqid := id_req; a2e_msg := msg; e2a_msg := cfm; tkn := 0; flags := f; complete := None;
                              result := EINTR |} in
      match cmd_mgr_queue_locked c w with
      | (Done (inl ret), w) =>
        if nonblock then x ← get_cmd w c; Done (Some (result x), w) else w ← free_cmd w c; Done (Some ret, w)
      | (Done (inr defer), w) => Done (None, with_pc (<[c := if (defer : bool) then AtReturn else AtPush]> (pc w)) w)
      | (Fault, _) => Fault
      | (NoFuel, _) => NoFuel
      end
    end.

(** its last part, behind the call of [cmd_mgr_queue]: the result is read for a
    non-blocking command, a blocking one is freed *)
Definition bl_send_msg_return (c e : Z) (w : hw) : outcome (Z * hw) :=
  w ← cmd_mgr_queue_return c e w;
  x ← get_cmd w c;
  let w := with_pc (delete c (pc w)) w in
  if has (flags x) RWNX_CMD_FLAG_NONBLOCK then Done (result x, w)
  else w ← free_cmd w c; Done (0, w).
