(* ===== verification/BlCmdsProofs.v ===== *)
(** * Correctness of the firmware command queue (BlCmds.v) *)
From S2P Require Import Prelude BlCmds.

(** ** Flags *)

Definition nonblock (x : bl_cmd) : bool := has (flags x) RWNX_CMD_FLAG_NONBLOCK.
Definition wait_push (x : bl_cmd) : bool := has (flags x) RWNX_CMD_FLAG_WAIT_PUSH.
Definition wait_ack (x : bl_cmd) : bool := has (flags x) RWNX_CMD_FLAG_WAIT_ACK.
Definition wait_cfm (x : bl_cmd) : bool := has (flags x) RWNX_CMD_FLAG_WAIT_CFM.
Definition flags_ok (x : bl_cmd) : Prop := 0 <= flags x < 64.

(** a decidable fact about all flag words *)
Lemma all_flags (P : Z -> bool) : forallb P (seqZ 0 64) = true -> forall f, 0 <= f < 64 -> P f = true.
Proof.
  intros H f Hf. rewrite forallb_forall in H. apply H. apply list_elem_of_In, elem_of_seqZ. lia.
Qed.

Definition flag_list : list Z := [1; 2; 4; 8; 16; 32].

(** a decidable fact about all flag words and pairs of flags *)
Lemma all_pairs (P : Z -> Z -> Z -> bool) :
  forallb (fun g => forallb (fun h => forallb (P g h) (seqZ 0 64)) flag_list) flag_list = true ->
  forall g h f, g ∈ flag_list -> h ∈ flag_list -> 0 <= f < 64 -> P g h f = true.
Proof.
  intros H g h f Hg%list_elem_of_In Hh%list_elem_of_In Hf. rewrite forallb_forall in H. specialize (H g Hg).
  rewrite forallb_forall in H. exact (all_flags (P g h) (H h Hh) f Hf).
Qed.

(** clearing and setting one flag leaves the others *)
Lemma clr_flags g f : g ∈ flag_list -> 0 <= f < 64 ->
  0 <= clr f g < 64 /\ has (clr f g) g = false /\ forall h, h ∈ flag_list -> h <> g -> has (clr f g) h = has f h.
Proof.
  intros Hg Hf. pose (P := fun g h f => (0 <=? clr f g) && (clr f g <? 64) && negb (has (clr f g) g)
    && ((h =? g) || Bool.eqb (has (clr f g) h) (has f h))).
  assert (HP : forall h, h ∈ flag_list -> P g h f = true).
  { intros h Hh. apply (all_pairs P); [vm_compute; reflexivity|done|done|done]. }
  assert (H : forall h, h ∈ flag_list -> (0 <= clr f g < 64 /\ has (clr f g) g = false) /\ (h = g \/ has (clr f g) h = has f h)).
  { intros h Hh. specialize (HP h Hh). unfold P in HP.
    rewrite !andb_true_iff, orb_true_iff, Z.leb_le, Z.ltb_lt, negb_true_iff, Z.eqb_eq, Bool.eqb_true_iff in HP. tauto. }
  split; [apply (H g Hg)|]. split; [apply (H g Hg)|]. intros h Hh Hne. by destruct (proj2 (H h Hh)).
Qed.

Lemma lor_flags g f : g ∈ flag_list -> 0 <= f < 64 ->
  0 <= Z.lor f g < 64 /\ has (Z.lor f g) g = true /\ forall h, h ∈ flag_list -> h <> g -> has (Z.lor f g) h = has f h.
Proof.
  intros Hg Hf. pose (P := fun g h f => (0 <=? Z.lor f g) && (Z.lor f g <? 64) && has (Z.lor f g) g
    && ((h =? g) || Bool.eqb (has (Z.lor f g) h) (has f h))).
  assert (HP : forall h, h ∈ flag_list -> P g h f = true).
  { intros h Hh. apply (all_pairs P); [vm_compute; reflexivity|done|done|done]. }
  assert (H : forall h, h ∈ flag_list -> (0 <= Z.lor f g < 64 /\ has (Z.lor f g) g = true) /\ (h = g \/ has (Z.lor f g) h = has f h)).
  { intros h Hh. specialize (HP h Hh). unfold P in HP.
    rewrite !andb_true_iff, orb_true_iff, Z.leb_le, Z.ltb_lt, Z.eqb_eq, Bool.eqb_true_iff in HP. tauto. }
  split; [apply (H g Hg)|]. split; [apply (H g Hg)|]. intros h Hh Hne. by destruct (proj2 (H h Hh)).
Qed.

Lemma complete_flags f : 0 <= f < 64 ->
  RWNX_CMD_WAIT_COMPLETE f = negb (has f RWNX_CMD_FLAG_WAIT_ACK || has f RWNX_CMD_FLAG_WAIT_CFM).
Proof.
  intros Hf. apply Bool.eqb_true_iff. revert f Hf.
  apply (all_flags (fun f => Bool.eqb (RWNX_CMD_WAIT_COMPLETE f)
    (negb (has f RWNX_CMD_FLAG_WAIT_ACK || has f RWNX_CMD_FLAG_WAIT_CFM)))). vm_compute. reflexivity.
Qed.

Lemma busy_flags f : 0 <= f < 64 ->
  has f (Z.lor RWNX_CMD_FLAG_WAIT_ACK RWNX_CMD_FLAG_WAIT_PUSH)
  = has f RWNX_CMD_FLAG_WAIT_ACK || has f RWNX_CMD_FLAG_WAIT_PUSH.
Proof.
  intros Hf. apply Bool.eqb_true_iff. revert f Hf.
  apply (all_flags (fun f => Bool.eqb (has f (Z.lor RWNX_CMD_FLAG_WAIT_ACK RWNX_CMD_FLAG_WAIT_PUSH))
    (has f RWNX_CMD_FLAG_WAIT_ACK || has f RWNX_CMD_FLAG_WAIT_PUSH))). vm_compute. reflexivity.
Qed.

(** ** The shape of the queue

    The queue is a run [A] of acknowledged commands waiting for a confirmation,
    at most one command [I] in the mailbox or on its way there, and the
    commands [D] waiting for their turn. *)

Definition tok (w : hw) (c : Z) : Z := match store_ w !! c with Some x => tkn x | None => 0 end.
Definition opt (I : option Z) : list Z := match I with Some c => [c] | None => [] end.

(** the commands not pushed yet *)
Definition unpushed (w : hw) (I : option Z) (D : list Z) : list Z :=
  match I with Some c => if bool_decide (pc w !! c = Some AtPush) then c :: D else D | None => D end.

Record shape (w : hw) (A : list Z) (I : option Z) (D : list Z) : Prop := {
  sh_cmds : cmds w = A ++ opt I ++ D;
  sh_nodup : NoDup (cmds w);
  sh_null : NULL ∉ cmds w;
  sh_cell : forall c, c ∈ cmds w -> exists x, store_ w !! c = Some x /\ flags_ok x
    /\ (nonblock x = false -> complete x = Some false /\ is_Some (pc w !! c));
  sh_A : forall c x, c ∈ A -> store_ w !! c = Some x -> wait_ack x = false /\ wait_push x = false;
  sh_I : forall c x, I = Some c -> store_ w !! c = Some x -> wait_ack x = true /\ wait_push x = false;
  sh_D : forall c x, c ∈ D -> store_ w !! c = Some x -> wait_ack x = true /\ wait_push x = true;
  sh_host : msga2e_hostid w = match I with
      | Some c => if bool_decide (pc w !! c = Some AtPush) then NULL else c | None => NULL end;
  sh_atpush : forall c, pc w !! c = Some AtPush -> I = Some c;
  sh_size : queue_sz w = Z.of_nat (length (cmds w)) /\ (length (cmds w) <= 8)%nat /\ max_queue_sz w = 8;
  sh_done : forall c, is_Some (pc w !! c) -> c ∉ cmds w ->
    store_ w !! c = None
    \/ exists x, store_ w !! c = Some x /\ flags_ok x /\ nonblock x = false /\ complete x = Some true;
  sh_msgs : forall c x, c ∈ unpushed w I D -> store_ w !! c = Some x ->
    exists ws, msgs w !! a2e_msg x = Some ws /\ Z.of_nat (length ws) <= IPC_A2E_MSG_BUF_SIZE;
  sh_msgs_inj : forall c c' x x', c ∈ unpushed w I D -> c' ∈ unpushed w I D -> store_ w !! c = Some x ->
    store_ w !! c' = Some x' -> a2e_msg x = a2e_msg x' -> c = c';
  sh_order : exists n, pushed w ++ (tok w <$> unpushed w I D) = Z.of_nat <$> seq 0 n /\ next_tkn w = Z.of_nat n;
  sh_tkn : forall c, c ∈ cmds w -> tok w c < next_tkn w;
  sh_tkn_inj : forall c c', c ∈ cmds w -> c' ∈ cmds w -> tok w c = tok w c' -> c = c';
  sh_state : state w <> RWNX_CMD_MGR_STATE_CRASHED }.

Lemma get_cmd_done w c x : store_ w !! c = Some x -> get_cmd w c = Done x.
Proof. intros H. unfold get_cmd. by rewrite H. Qed.

Lemma list_del_app c l1 l2 : c ∉ l1 -> list_del c (l1 ++ c :: l2) = l1 ++ l2.
Proof.
  induction l1 as [|x l1 IH]; cbn; intros H.
  - by rewrite Z.eqb_refl.
  - rewrite (proj2 (Z.eqb_neq x c)) by set_solver. rewrite IH; [done|set_solver].
Qed.

(** ** Taking a command off the queue *)

(** a command stays blocking or not, and only a non-blocking one is freed *)
Definition evolves (w w' : hw) : Prop :=
  forall c, match store_ w !! c, store_ w' !! c with
            | Some x, Some y => nonblock y = nonblock x
            | Some x, None => nonblock x = true
            | None, None => True
            | None, Some _ => False
            end.
Lemma evolves_same w w' : store_ w' = store_ w -> evolves w w'.
Proof. intros E c. rewrite E. by destruct (store_ w !! c). Qed.
Lemma evolves_trans w1 w2 w3 : evolves w1 w2 -> evolves w2 w3 -> evolves w1 w3.
Proof.
  intros H1 H2 c. specialize (H1 c). specialize (H2 c).
  destruct (store_ w1 !! c), (store_ w2 !! c), (store_ w3 !! c); congruence || done.
Qed.
Lemma evolves_put w w' c x y : store_ w !! c = Some x -> store_ w' = <[c := y]> (store_ w) -> nonblock y = nonblock x -> evolves w w'.
Proof.
  intros Hx E Hn d. rewrite E. destruct (decide (d = c)) as [->|Hne].
  - by rewrite lookup_insert_eq, Hx.
  - rewrite lookup_insert_ne by done. by destruct (store_ w !! d).
Qed.

(** [w'] is [w] with the record of [c] changed to [r] and nothing else but the
    queue and the event history of [c] *)
Record finished (w w' : hw) (c : Z) : Prop := {
  fi_cmds : cmds w' = list_del c (cmds w);
  fi_size : queue_sz w' = u32 (queue_sz w - 1);
  fi_store : forall y, y <> c -> store_ w' !! y = store_ w !! y;
  fi_cell : match store_ w' !! c with
            | Some x => flags_ok x /\ nonblock x = false /\ complete x = Some true
            | None => exists x, store_ w !! c = Some x /\ nonblock x = true end;
  fi_kind : evolves w w';
  fi_msgs : msgs w' = msgs w; fi_state : state w' = state w; fi_next : next_tkn w' = next_tkn w;
  fi_max : max_queue_sz w' = max_queue_sz w; fi_host : msga2e_hostid w' = msga2e_hostid w;
  fi_pc : pc w' = pc w; fi_pushed : pushed w' = pushed w }.

Lemma flag_in g : g ∈ [1; 2; 4; 8; 16; 32] -> g ∈ flag_list.
Proof. done. Qed.

Lemma cmd_complete_spec w c x :
  store_ w !! c = Some x -> flags_ok x -> wait_ack x = false -> wait_cfm x = false ->
  exists w', cmd_complete c w = Done w' /\ finished w w' c /\ copied w' = copied w.
Proof.
  intros Hx Hok Ha Hc. unfold cmd_complete. step_with (get_cmd_done _ _ _ Hx).
  destruct (lor_flags RWNX_CMD_FLAG_DONE (flags x)) as (Hr & _ & Hh); [apply flag_in; set_solver|done|].
  assert (Hnb : has (Z.lor (flags x) RWNX_CMD_FLAG_DONE) RWNX_CMD_FLAG_NONBLOCK = nonblock x)
    by (apply Hh; [apply flag_in; set_solver|done]).
  cbn [flags set_flags]. rewrite Hnb. destruct (nonblock x) eqn:En.
  - unfold free_cmd. cbn. rewrite lookup_insert_eq. eexists. split; [done|]. split; [|done]. constructor; cbn; try done.
    + intros y Hy. by rewrite lookup_delete_ne, lookup_insert_ne.
    + rewrite lookup_delete_eq. by exists x.
    + intros y. cbn. destruct (decide (y = c)) as [->|Hne]; [by rewrite lookup_delete_eq, Hx|].
      rewrite lookup_delete_ne, lookup_insert_ne by done. by destruct (store_ w !! y).
  - rewrite complete_flags by done. rewrite !Hh by (first [apply flag_in; set_solver|done]).
    unfold wait_ack, wait_cfm in *. rewrite Ha, Hc. cbn [orb negb].
    eexists. split; [done|]. split; [|done]. constructor; cbn; try done.
    + intros y Hy. by rewrite !lookup_insert_ne.
    + rewrite lookup_insert_eq. split_and!; try done.
    + eapply (evolves_put w _ c x); [done|cbn; by rewrite insert_insert_eq|change (has (Z.lor (flags x) RWNX_CMD_FLAG_DONE) RWNX_CMD_FLAG_NONBLOCK = nonblock x); congruence].
Qed.

(** the queue without [c], which is acknowledged or in the mailbox *)
Lemma shape_finish w w' A1 A2 I D c :
  shape w (A1 ++ c :: A2) I D -> finished w w' c -> shape w' (A1 ++ A2) I D.
Proof.
  intros Sh F. destruct F as [F1 F2 F3 F4 F4' F5 F6 F7 F8 F9 F10 F11].
  pose proof (sh_cmds _ _ _ _ Sh) as Ec. rewrite <- app_assoc in Ec. cbn in Ec.
  assert (Hnd := sh_nodup _ _ _ _ Sh). rewrite Ec in Hnd.
  assert (Hc1 : c ∉ A1 /\ c ∉ A2 ++ opt I ++ D).
  { apply NoDup_app in Hnd as (_ & H1 & H2). apply NoDup_cons in H2. split; [|tauto]. intros H. apply (H1 c H). left. }
  assert (Ec' : cmds w' = (A1 ++ A2) ++ opt I ++ D).
  { rewrite F1, Ec, list_del_app by tauto. by rewrite <- app_assoc. }
  assert (Hsub : forall y, y ∈ cmds w' -> y ∈ cmds w /\ y <> c).
  { intros y Hy. rewrite Ec' in Hy. rewrite Ec. split; [set_solver|]. intros ->. set_solver. }
  assert (Hun : unpushed w' I D = unpushed w I D) by (unfold unpushed; by rewrite F10).
  assert (Htok : forall y, y <> c -> tok w' y = tok w y) by (intros y Hy; unfold tok; by rewrite F3).
  assert (Hunc : forall y, y ∈ unpushed w I D -> y <> c).
  { intros y Hy ->. unfold unpushed in Hy. destruct I as [i|]; cbn in *; [|set_solver]. case_bool_decide; set_solver. }
  assert (Hlen : length (cmds w) = S (length (cmds w'))).
  { rewrite Ec, Ec', !length_app. cbn. rewrite !length_app. lia. }
  destruct Sh. constructor.
  - done.
  - rewrite Ec', <- app_assoc. apply NoDup_app in Hnd as (N1 & N2 & N3). apply NoDup_cons in N3 as [N3 N4].
    apply NoDup_app. split; [done|]. split; [|done]. intros y Hy. specialize (N2 y Hy). set_solver.
  - intros H. by apply sh_null0, Hsub.
  - intros y Hy. destruct (Hsub y Hy) as [Hy1 Hy2]. rewrite F3, F10 by done. by apply sh_cell0.
  - intros y x Hy Hx. rewrite F3 in Hx by set_solver. apply (sh_A0 y x); [set_solver|done].
  - intros y x -> Hx. rewrite F3 in Hx by set_solver. by apply (sh_I0 y x).
  - intros y x Hy Hx. rewrite F3 in Hx by set_solver. by apply (sh_D0 y x).
  - by rewrite F9, sh_host0, F10.
  - intros y. rewrite F10. apply sh_atpush0.
  - rewrite F2, F8. destruct sh_size0 as (H1 & H2 & H3). split; [|split; [lia|done]].
    rewrite H1, Hlen. unfold u32, wrap. rewrite Z.mod_small; lia.
  - intros y Hy Hny. rewrite F10 in Hy. destruct (decide (y = c)) as [->|Hne].
    + destruct (store_ w' !! c) as [x|]; [right; by exists x|by left].
    + rewrite F3 by done. apply sh_done0; [done|]. rewrite Ec. intros Hin. apply Hny. rewrite Ec'. set_solver.
  - intros y x Hy Hx. rewrite Hun in Hy. rewrite F3 in Hx by (by apply Hunc). rewrite F5. by apply (sh_msgs0 y x).
  - intros y y' x x' Hy Hy' Hx Hx'. rewrite Hun in Hy, Hy'. rewrite F3 in Hx by (by apply Hunc).
    rewrite F3 in Hx' by (by apply Hunc). by apply sh_msgs_inj0.
  - destruct sh_order0 as (n & Hn & Hn'). exists n. rewrite F11, F7, Hun. split; [|done]. rewrite <- Hn. f_equal.
    apply list_fmap_ext. intros i y Hy. apply Htok, Hunc. by eapply list_elem_of_lookup_2.
  - intros y Hy. destruct (Hsub y Hy). rewrite F7, Htok by done. by apply sh_tkn0.
  - intros y y' Hy Hy'. destruct (Hsub y Hy), (Hsub y' Hy'). rewrite !Htok by done. by apply sh_tkn_inj0.
  - by rewrite F6.
Qed.

(** ** Changing the record of one command *)

(** [w'] is [w] with the record of [c] replaced *)
Record touched (w w' : hw) (c : Z) (x x' : bl_cmd) : Prop := {
  to_old : store_ w !! c = Some x;
  to_store : store_ w' = <[c := x']> (store_ w);
  to_cmds : cmds w' = cmds w; to_size : queue_sz w' = queue_sz w; to_max : max_queue_sz w' = max_queue_sz w;
  to_msgs : msgs w' = msgs w; to_state : state w' = state w; to_next : next_tkn w' = next_tkn w;
  to_pc : pc w' = pc w; to_pushed : pushed w' = pushed w;
  to_tkn : tkn x' = tkn x; to_msg : a2e_msg x' = a2e_msg x; to_flags : flags_ok x -> flags_ok x';
  to_nonblock : nonblock x' = nonblock x; to_complete : complete x' = complete x }.

(** one queued command changes its place: the acknowledged ones, the mailbox and
    the waiting ones of the new state are given with what that demands *)
Lemma shape_touch w w' A I D A' I' D' c x x' :
  shape w A I D -> touched w w' c x x' -> c ∈ cmds w ->
  A ++ opt I ++ D = A' ++ opt I' ++ D' ->
  (forall a, a ∈ A' -> a = c /\ wait_ack x' = false /\ wait_push x' = false \/ a <> c /\ a ∈ A) ->
  (forall a, I' = Some a -> a = c /\ wait_ack x' = true /\ wait_push x' = false \/ a <> c /\ I = Some a) ->
  (forall a, a ∈ D' -> a = c /\ wait_ack x' = true /\ wait_push x' = true \/ a <> c /\ a ∈ D) ->
  msga2e_hostid w' = match I' with
    | Some a => if bool_decide (pc w !! a = Some AtPush) then NULL else a | None => NULL end ->
  (forall a, pc w !! a = Some AtPush -> I' = Some a) ->
  unpushed w I' D' = unpushed w I D ->
  shape w' A' I' D'.
Proof.
  intros Sh T Hc Eq HA HI HD Hhost Hat Hun. destruct T as [T1 T2 T3 T4 T5 T6 T7 T8 T9 T10 T11 T12 T13 T14 T15].
  assert (Hne : forall y, y <> c -> store_ w' !! y = store_ w !! y) by (intros y Hy; by rewrite T2, lookup_insert_ne).
  assert (He : store_ w' !! c = Some x') by (by rewrite T2, lookup_insert_eq).
  assert (Htok : forall y, tok w' y = tok w y).
  { intros y. unfold tok. destruct (decide (y = c)) as [->|]; [by rewrite He, T1|by rewrite Hne]. }
  assert (Hun' : unpushed w' I' D' = unpushed w I D) by (rewrite <- Hun; unfold unpushed; by rewrite T9).
  assert (Hmsg : forall y z, store_ w' !! y = Some z -> exists z0, store_ w !! y = Some z0 /\ a2e_msg z = a2e_msg z0).
  { intros y z Hz. destruct (decide (y = c)) as [->|]; [exists x; split; [done|congruence]|].
    rewrite Hne in Hz by done. by exists z. }
  destruct Sh. constructor.
  - by rewrite T3, <- Eq.
  - by rewrite T3.
  - by rewrite T3.
  - intros y Hy. rewrite T3 in Hy. rewrite T9. destruct (sh_cell0 y Hy) as (z & Hz & Hf & Hb).
    destruct (decide (y = c)) as [->|]; [|by rewrite Hne by done; exists z]. exists x'. assert (z = x) as -> by congruence.
    split; [done|]. split; [by apply T13|]. by rewrite T14, T15.
  - intros y z Hy Hz. destruct (HA y Hy) as [(-> & H1 & H2)|[H1 H2]]; [|rewrite Hne in Hz by done; by apply (sh_A0 y)].
    assert (z = x') as -> by congruence. done.
  - intros y z Hy Hz. destruct (HI y Hy) as [(-> & H1 & H2)|[H1 H2]]; [|rewrite Hne in Hz by done; by apply (sh_I0 y)].
    assert (z = x') as -> by congruence. done.
  - intros y z Hy Hz. destruct (HD y Hy) as [(-> & H1 & H2)|[H1 H2]]; [|rewrite Hne in Hz by done; by apply (sh_D0 y)].
    assert (z = x') as -> by congruence. done.
  - by rewrite T9.
  - by rewrite T9.
  - by rewrite T3, T4, T5.
  - intros y Hy Hny. rewrite T9 in Hy. rewrite T3 in Hny. rewrite Hne by (by intros ->). by apply sh_done0.
  - intros y z Hy Hz. rewrite Hun' in Hy. destruct (Hmsg y z Hz) as (z0 & H1 & ->). rewrite T6. by apply (sh_msgs0 y).
  - intros y y' z z' Hy Hy' Hz Hz'. rewrite Hun' in Hy, Hy'. destruct (Hmsg y z Hz) as (z0 & H1 & ->).
    destruct (Hmsg y' z' Hz') as (z0' & H1' & ->). by apply sh_msgs_inj0.
  - destruct sh_order0 as (n & Hn & Hn'). exists n. rewrite T10, T8, Hun'. split; [|done]. rewrite <- Hn. f_equal.
    apply list_fmap_ext. intros i y _. apply Htok.
  - intros y Hy. rewrite T3 in Hy. rewrite T8, Htok. by apply sh_tkn0.
  - intros y y' Hy Hy'. rewrite T3 in Hy, Hy'. rewrite !Htok. by apply sh_tkn_inj0.
  - by rewrite T7.
Qed.

(** the mailbox is filled with the command whose turn it is; [p] are the places
    of the tasks afterwards *)
Lemma push_spec w A D c x p :
  shape w A (Some c) D -> pc w !! c = Some AtPush -> store_ w !! c = Some x ->
  p !! c <> Some AtPush -> (forall y, y <> c -> p !! y = pc w !! y) ->
  (nonblock x = false -> is_Some (p !! c)) ->
  exists w', (w' ← ipc_host_msg_push c w; free_msg w' (a2e_msg x)) = Done w'
    /\ shape (with_pc p w') A (Some c) D
    /\ cmds w' = cmds w /\ store_ w' = store_ w /\ pc w' = pc w /\ next_tkn w' = next_tkn w
    /\ pushed w' = pushed w ++ [tkn x].
Proof.
  intros Sh Hpc Hx Hp Hpo Hpb. unfold ipc_host_msg_push.
  assert (Eu : unpushed w (Some c) D = c :: D) by (cbn; by rewrite bool_decide_true).
  rewrite (sh_host _ _ _ _ Sh), bool_decide_true by done. cbn [Z.eqb NULL].
  rewrite (get_cmd_done _ _ _ Hx). cbn [mbind outcome_bind].
  destruct (sh_msgs _ _ _ _ Sh c x) as (ws & Hm & Hws); [rewrite Eu; left|done|].
  rewrite Hm, (proj2 (Z.leb_le _ _)) by done. cbn [mbind outcome_bind]. unfold free_msg. cbn [msgs]. rewrite Hm.
  eexists. split; [done|]. split; [|done].
  assert (Hcc : c ∈ cmds w) by (rewrite (sh_cmds _ _ _ _ Sh); set_solver).
  assert (HcD : c ∉ D).
  { pose proof (sh_nodup _ _ _ _ Sh) as Hn. rewrite (sh_cmds _ _ _ _ Sh) in Hn. apply NoDup_app in Hn as (_ & _ & Hn).
    by apply NoDup_cons in Hn as [Hn _]. }
  assert (Eu' : forall w', pc w' = p -> unpushed w' (Some c) D = D).
  { intros w' E. cbn. rewrite E. by rewrite bool_decide_false. }
  destruct Sh. constructor; cbn [cmds store_ msgs state next_tkn queue_sz max_queue_sz msga2e_hostid pc pushed with_pc with_msgs];
    try done.
  - intros y Hy. destruct (sh_cell0 y Hy) as (z & Hz & Hf & Hb). exists z. split; [done|]. split; [done|].
    intros Hn. split; [by apply Hb|]. destruct (decide (y = c)) as [->|]; [apply Hpb; congruence|].
    rewrite Hpo by done. by apply Hb.
  - by rewrite bool_decide_false.
  - intros y Hy. destruct (decide (y = c)) as [->|]; [done|]. rewrite Hpo in Hy by done. by apply sh_atpush0.
  - intros y Hy Hny. rewrite Hpo in Hy by (by intros ->). by apply sh_done0.
  - intros y z Hy Hz. rewrite Eu' in Hy by done. rewrite lookup_delete_ne.
    + apply (sh_msgs0 y); [rewrite Eu; by right|done].
    + intros E. assert (c = y) as ->; [|done].
      eapply sh_msgs_inj0; [rewrite Eu; left|rewrite Eu; by right|done|done|done].
  - intros y y' z z' Hy Hy' Hz Hz'. rewrite Eu' in Hy, Hy' by done. apply sh_msgs_inj0; try done; rewrite Eu; by right.
  - destruct sh_order0 as (n & Hn & Hn'). exists n. split; [|done]. rewrite Eu' by done. rewrite <- Hn, Eu.
    rewrite <- app_assoc. f_equal. cbn. f_equal. unfold tok at 1. by rewrite Hx.
Qed.

(** the first waiting command, its flag cleared, seen as about to be pushed *)
Lemma shape_next w A D d y :
  shape w A None (d :: D) -> store_ w !! d = Some y ->
  let y' := set_flags (clr (flags y) RWNX_CMD_FLAG_WAIT_PUSH) y in
  shape (with_pc (<[d := AtPush]> (pc w)) (put_cmd w d y')) A (Some d) D
  /\ pc w !! d <> Some AtPush /\ nonblock y' = nonblock y.
Proof.
  intros Sh Hy y'. assert (Hd : d ∈ cmds w) by (rewrite (sh_cmds _ _ _ _ Sh); set_solver).
  destruct (sh_cell _ _ _ _ Sh d Hd) as (z & Hz & Hok & Hb). assert (z = y) as -> by congruence.
  destruct (clr_flags RWNX_CMD_FLAG_WAIT_PUSH (flags y)) as (Hr & Hpu & Hh); [apply flag_in; set_solver|done|].
  destruct (sh_D _ _ _ _ Sh d y ltac:(left) Hy) as [Hack _].
  assert (Hnb : nonblock y' = nonblock y) by (apply Hh; [apply flag_in; set_solver|done]).
  assert (Hack' : wait_ack y' = true). { rewrite <- Hack. apply Hh; [apply flag_in; set_solver|done]. }
  assert (Hat : pc w !! d <> Some AtPush). { intros H. by apply (sh_atpush _ _ _ _ Sh) in H. }
  split; [|done].
  assert (Hne : forall c, c <> d -> store_ (put_cmd w d y') !! c = store_ w !! c)
    by (intros c Hc; cbn; by rewrite lookup_insert_ne).
  assert (He : store_ (put_cmd w d y') !! d = Some y') by (cbn; by rewrite lookup_insert_eq).
  assert (Htok : forall c, tok (with_pc (<[d := AtPush]> (pc w)) (put_cmd w d y')) c = tok w c).
  { intros c. unfold tok. destruct (decide (c = d)) as [->|].
    - cbn. by rewrite lookup_insert_eq, Hy.
    - cbn. by rewrite lookup_insert_ne. }
  assert (Hun : unpushed (with_pc (<[d := AtPush]> (pc w)) (put_cmd w d y')) (Some d) D = d :: D).
  { cbn. rewrite lookup_insert_eq. by rewrite bool_decide_true. }
  assert (HdA : d ∉ A /\ d ∉ D).
  { pose proof (sh_nodup _ _ _ _ Sh) as Hn. rewrite (sh_cmds _ _ _ _ Sh) in Hn. cbn in Hn.
    apply NoDup_app in Hn as (_ & H1 & H2). apply NoDup_cons in H2 as [H2 _]. split; [|done]. intros H. apply (H1 d H). left. }
  assert (Hmsg : forall c z, store_ (put_cmd w d y') !! c = Some z -> exists z0, store_ w !! c = Some z0 /\ a2e_msg z = a2e_msg z0).
  { intros c z0 Hz0. destruct (decide (c = d)) as [->|]; [exists y; split; [done|]; rewrite He in Hz0; by injection Hz0 as <-|].
    rewrite Hne in Hz0 by done. by exists z0. }
  destruct Sh. constructor; cbn [cmds msgs state next_tkn queue_sz max_queue_sz msga2e_hostid pc pushed with_pc put_cmd with_store opt app];
    try done.
  - intros c Hc. destruct (sh_cell0 c Hc) as (z & Hz' & Hf & Hbb). destruct (decide (c = d)) as [->|].
    + exists y'. split; [exact He|]. split; [exact Hr|]. rewrite Hnb. intros Hn. split; [by apply Hb|]. by rewrite lookup_insert_eq.
    + exists z. split; [by rewrite <- Hz'; apply Hne|]. split; [done|]. by rewrite lookup_insert_ne.
  - intros c z Hc Hz'. apply (sh_A0 c z Hc). rewrite <- Hz'. symmetry. apply Hne. by intros ->; apply (proj1 HdA).
  - intros c z [= <-] Hz'. assert (z = y') as -> by (cbn in He, Hz'; congruence). done.
  - intros c z Hc Hz'. apply (sh_D0 c z ltac:(by right)). rewrite <- Hz'. symmetry. apply Hne. by intros ->; apply (proj2 HdA).
  - rewrite lookup_insert_eq. by rewrite bool_decide_true.
  - intros c Hc. destruct (decide (c = d)) as [->|]; [done|]. rewrite lookup_insert_ne in Hc by done. by apply sh_atpush0 in Hc.
  - intros c Hc Hnc. assert (c <> d) by (by intros ->). rewrite lookup_insert_ne in Hc by done.
    destruct (sh_done0 c Hc Hnc) as [Hz'|(z & Hz' & Hrest)]; [left|right; exists z; split; [|done]]; rewrite <- Hz'; by apply Hne.
  - intros c z Hc Hz'. rewrite Hun in Hc. destruct (Hmsg c z Hz') as (z0 & H1 & ->). by apply (sh_msgs0 c).
  - intros c c' z z' Hc Hc' Hz1 Hz2. rewrite Hun in Hc, Hc'. destruct (Hmsg c z Hz1) as (z0 & H1 & ->).
    destruct (Hmsg c' z' Hz2) as (z0' & H1' & ->). by apply sh_msgs_inj0.
  - destruct sh_order0 as (n & Hn & Hn'). exists n. rewrite Hun. split; [|done]. rewrite <- Hn. f_equal.
    apply list_fmap_ext. intros i c _. apply Htok.
  - intros c Hc. rewrite Htok. by apply sh_tkn0.
  - intros c c' Hc Hc'. rewrite !Htok. by apply sh_tkn_inj0.
Qed.

(** pushing does not look at the places of tasks *)
Lemma push_pc w p c m wg :
  (w' ← ipc_host_msg_push c (with_pc p w); free_msg w' m) = Done wg ->
  (w' ← ipc_host_msg_push c w; free_msg w' m) = Done (with_pc (pc w) wg).
Proof.
  unfold ipc_host_msg_push, free_msg, get_cmd. cbn. destruct (msga2e_hostid w =? NULL); [|done].
  destruct (store_ w !! c) as [x|]; cbn; [|done]. destruct (msgs w !! a2e_msg x); cbn; [|done].
  destruct (_ <=? _); cbn; [|done]. destruct (msgs w !! m); [|done]. intros [= <-]. done.
Qed.

(** ** The invariant *)

Definition inv (w : hw) : Prop :=
  exists A I D, shape w A I D /\ (I = None -> D = [])
    /\ (forall c x, c ∈ A -> store_ w !! c = Some x -> wait_cfm x = true).

(** *** Acknowledge *)

Lemma llind_loop_A w t A q :
  (forall a, a ∈ A -> exists x, store_ w !! a = Some x /\ tkn x <> t /\ wait_push x = false) ->
  llind_loop (A ++ q) t None w = llind_loop q t None w.
Proof.
  induction A as [|a A IH]; [done|]. intros H. cbn [app llind_loop].
  destruct (H a ltac:(left)) as (x & Hx & Ht & Hp). step_with (get_cmd_done _ _ _ Hx).
  rewrite (proj2 (Z.eqb_neq _ _)) by done. unfold wait_push in Hp. rewrite Hp. apply IH. intros b Hb. apply H. by right.
Qed.

Lemma tok_cell w c x : store_ w !! c = Some x -> tok w c = tkn x.
Proof. intros H. unfold tok. by rewrite H. Qed.

Lemma llind_loop_spec w A c D x :
  shape w A (Some c) D -> store_ w !! c = Some x -> forall w0, store_ w0 = store_ w ->
  llind_loop (A ++ c :: D) (tkn x) None w0 = Done (Some c, head D).
Proof.
  intros Sh Hx w0 Es. pose proof (sh_cmds _ _ _ _ Sh) as Ec. cbn in Ec.
  assert (Hc : c ∈ cmds w) by (rewrite Ec; set_solver).
  rewrite llind_loop_A.
  - cbn [llind_loop]. rewrite (get_cmd_done w0 c x) by (by rewrite Es). cbn [mbind outcome_bind]. rewrite Z.eqb_refl.
    destruct D as [|d D]; [done|]. cbn [llind_loop]. destruct (sh_cell _ _ _ _ Sh d) as (y & Hy & _); [rewrite Ec; set_solver|].
    rewrite (get_cmd_done w0 d y) by (by rewrite Es). cbn [mbind outcome_bind].
    destruct (sh_D _ _ _ _ Sh d y ltac:(left) Hy) as [_ Hp]. unfold wait_push in Hp. by rewrite Hp.
  - intros a Ha. assert (Hac : a ∈ cmds w) by (rewrite Ec; set_solver).
    destruct (sh_cell _ _ _ _ Sh a Hac) as (y & Hy & _). exists y. rewrite Es. split; [done|].
    split; [|by apply (sh_A _ _ _ _ Sh a)]. intros E.
    assert (a = c) as ->. { apply (sh_tkn_inj _ _ _ _ Sh); [done|done|]. by rewrite (tok_cell _ _ _ Hx), (tok_cell _ _ _ Hy). }
    pose proof (sh_nodup _ _ _ _ Sh) as Hn. rewrite Ec in Hn. apply NoDup_app in Hn as (_ & Hn & _). apply (Hn c Ha). left.
Qed.

(** the next waiting command is pushed by the acknowledge *)
Lemma push_next w A D :
  shape w A None D -> (forall c x, c ∈ A -> store_ w !! c = Some x -> wait_cfm x = true) ->
  exists w', (match head D with
      | None => Done w
      | Some n =>
        y ← get_cmd w n;
        let w := put_cmd w n (set_flags (clr (flags y) RWNX_CMD_FLAG_WAIT_PUSH) y) in
        w ← ipc_host_msg_push n w;
        free_msg w (a2e_msg y)
      end) = Done w' /\ inv w' /\ evolves w w' /\ pc w' = pc w /\ next_tkn w' = next_tkn w
    /\ length (pushed w') = (length (pushed w) + length (take 1 D))%nat.
Proof.
  intros Sh Hcf. destruct D as [|d D]; cbn [head].
  { exists w. split; [done|]. split; [by exists A, None, []|]. split; [by apply evolves_same|]. cbn. rewrite Nat.add_0_r. done. }
  destruct (sh_cell _ _ _ _ Sh d) as (y & Hy & _); [rewrite (sh_cmds _ _ _ _ Sh); set_solver|].
  step_with (get_cmd_done _ _ _ Hy). destruct (shape_next w A D d y Sh Hy) as (Shg & Hat & Hnb).
  set (y' := set_flags (clr (flags y) RWNX_CMD_FLAG_WAIT_PUSH) y) in *.
  assert (HdA : d ∉ A).
  { pose proof (sh_nodup _ _ _ _ Sh) as Hn. rewrite (sh_cmds _ _ _ _ Sh) in Hn. cbn in Hn.
    apply NoDup_app in Hn as (_ & H1 & _). intros H. apply (H1 d H). left. }
  destruct (push_spec _ A D d y' (pc w) Shg) as (wg & Eg & Sg & E1 & E2 & E3 & E4 & E5).
  - cbn. apply lookup_insert_eq.
  - cbn. apply lookup_insert_eq.
  - done.
  - intros z Hz. cbn. by rewrite lookup_insert_ne.
  - intros Hn. destruct (sh_cell _ _ _ _ Sh d) as (z & Hz & _ & Hb); [rewrite (sh_cmds _ _ _ _ Sh); set_solver|].
    assert (z = y) as -> by congruence. rewrite Hnb in Hn. by apply Hb.
  - change (a2e_msg y') with (a2e_msg y) in Eg.
    pose proof (push_pc (put_cmd w d y') _ _ _ _ Eg) as Eg'. cbn [put_cmd with_store pc] in Eg'.
    exists (with_pc (pc w) wg). split; [exact Eg'|]. split.
    + exists A, (Some d), D. split; [done|]. split; [done|]. intros c x Hc. cbn. rewrite E2. cbn.
      rewrite lookup_insert_ne by (by intros ->). by apply Hcf.
    + cbn. rewrite E4, E5. cbn. rewrite length_app. split; [|done]. by apply (evolves_put _ _ d y y').
Qed.

Lemma ack_spec w A I D :
  shape w A I D -> (forall c x, c ∈ A -> store_ w !! c = Some x -> wait_cfm x = true) ->
  msga2e_hostid w <> NULL ->
  exists w', ipc_host_msgack_handler w = Done w' /\ inv w' /\ evolves w w' /\ pc w' = pc w /\ next_tkn w' = next_tkn w
    /\ length (pushed w') = (length (pushed w) + length (take 1 D))%nat.
Proof.
  intros Sh Hcf Hh. pose proof (sh_host _ _ _ _ Sh) as Ehost.
  destruct I as [c|]; [|congruence]. case_bool_decide as Hp; [congruence|].
  pose proof (sh_cmds _ _ _ _ Sh) as Ec. cbn in Ec. assert (Hc : c ∈ cmds w) by (rewrite Ec; set_solver).
  destruct (sh_cell _ _ _ _ Sh c Hc) as (x & Hx & Hok & _).
  unfold ipc_host_msgack_handler. rewrite (proj2 (Z.eqb_neq _ _)) by done. rewrite Ehost.
  set (w0 := {| cmds := cmds w; store_ := _ |}). unfold cmd_mgr_llind. rewrite (get_cmd_done w0 c x Hx). cbn [mbind outcome_bind].
  change (cmds w0) with (cmds w). rewrite Ec, (llind_loop_spec w A c D x Sh Hx w0 eq_refl). cbn [mbind outcome_bind].
  destruct (clr_flags RWNX_CMD_FLAG_WAIT_ACK (flags x)) as (Hr & Hack & Hkeep); [apply flag_in; set_solver|done|].
  set (x1 := set_flags _ x). assert (Hcfm : wait_cfm x1 = wait_cfm x) by (apply Hkeep; [apply flag_in; set_solver|done]).
  destruct (sh_I _ _ _ _ Sh c x eq_refl Hx) as [_ Hpush].
  assert (Hpush1 : wait_push x1 = false). { rewrite <- Hpush. apply Hkeep; [apply flag_in; set_solver|done]. }
  assert (Hnb : nonblock x1 = nonblock x) by (apply Hkeep; [apply flag_in; set_solver|done]).
  assert (Hnd := sh_nodup _ _ _ _ Sh). rewrite Ec in Hnd. apply NoDup_app in Hnd as (_ & HA & HD). apply NoDup_cons in HD as [HD _].
  assert (Sh1 : shape (put_cmd w0 c x1) (A ++ [c]) None D).
  { eapply (shape_touch w _ A (Some c) D (A ++ [c]) None D c x x1); try done.
    - cbn. by rewrite <- app_assoc.
    - intros a [Ha| ->%list_elem_of_singleton]%elem_of_app; [|by left]. right. split; [|done]. intros ->. apply (HA c Ha). left.
    - intros a Ha. right. split; [|done]. by intros ->.
    - intros a Ha. apply (sh_atpush _ _ _ _ Sh) in Ha as Hac. injection Hac as <-. done.
    - cbn. by rewrite bool_decide_false. }
  assert (Hev1 : evolves w (put_cmd w0 c x1)) by (by apply (evolves_put _ _ c x x1)).
  assert (exists w2 A2, (if RWNX_CMD_WAIT_COMPLETE (flags x1) then cmd_complete c (put_cmd w0 c x1)
      else Done (put_cmd w0 c x1)) = Done w2 /\ shape w2 A2 None D
    /\ (forall a y, a ∈ A2 -> store_ w2 !! a = Some y -> wait_cfm y = true)
    /\ evolves w w2 /\ pc w2 = pc w /\ next_tkn w2 = next_tkn w /\ pushed w2 = pushed w)
    as (w2 & A2 & E2 & Sh2 & Hcf2 & Hev2 & Ep2 & En2 & Epu2).
  { change (flags x1) with (clr (flags x) RWNX_CMD_FLAG_WAIT_ACK) at 1. rewrite complete_flags by done. rewrite Hack. cbn [orb].
    change (has (clr (flags x) RWNX_CMD_FLAG_WAIT_ACK) RWNX_CMD_FLAG_WAIT_CFM) with (wait_cfm x1).
    assert (Hne : forall a, a ∈ A -> a <> c) by (intros a Ha ->; apply (HA c Ha); left).
    destruct (wait_cfm x1) eqn:Ecf; cbn [negb].
    - exists (put_cmd w0 c x1), (A ++ [c]). split; [done|]. split; [done|]. split; [|split; [exact Hev1|done]].
      intros a y [Ha| ->%list_elem_of_singleton]%elem_of_app; cbn.
      + rewrite lookup_insert_ne by (symmetry; by apply Hne). by apply Hcf.
      + rewrite lookup_insert_eq. by intros [= <-].
    - destruct (cmd_complete_spec (put_cmd w0 c x1) c x1) as (w2 & -> & F & _); try done; [cbn; apply lookup_insert_eq|].
      exists w2, (A ++ []). split; [done|]. split; [|split; [|split; [by eapply evolves_trans, (fi_kind _ _ _ F)|]]].
      + apply (shape_finish _ _ A [] None D c Sh1 F).
      + intros a y Ha. rewrite app_nil_r in Ha. rewrite (fi_store _ _ _ F) by (by apply Hne). cbn.
        rewrite lookup_insert_ne by (symmetry; by apply Hne). by apply Hcf.
      + split; [apply (fi_pc _ _ _ F)|]. split; [apply (fi_next _ _ _ F)|apply (fi_pushed _ _ _ F)]. }
  rewrite E2. cbn [mbind outcome_bind]. destruct (push_next w2 A2 D Sh2 Hcf2) as (w3 & E3 & Hinv & Hev3 & Ep & En & Epu).
  exists w3. rewrite Ep, En, Epu, Epu2. split; [done|]. split; [done|]. split; [by eapply evolves_trans|done].
Qed.

(** *** Confirmation *)

(** what the loop does with the command the message is for *)
Definition msgind_hit (c id param_len : Z) (x : bl_cmd) (w : hw) : outcome hw :=
  let x := set_flags (clr (flags x) RWNX_CMD_FLAG_WAIT_CFM) x in
  let w := put_cmd w c x in
  let w := if negb (e2a_msg x =? NULL) && negb (param_len =? 0) then
             {| cmds := cmds w; store_ := store_ w; msgs := msgs w; state := state w; next_tkn := next_tkn w;
                queue_sz := queue_sz w; max_queue_sz := max_queue_sz w; msga2e_hostid := msga2e_hostid w;
                pc := pc w; mailbox := mailbox w; pushed := pushed w; copied := copied w ++ [(e2a_msg x, id)] |}
           else w in
  if RWNX_CMD_WAIT_COMPLETE (flags x) then cmd_complete c w else Done w.

(** the message goes to the first command that waits for it and whose handler takes it *)
Lemma msgind_loop_spec q id len cb w :
  (forall c, c ∈ q -> is_Some (store_ w !! c)) ->
  msgind_loop q id len cb w = Done w
  \/ exists c x, c ∈ q /\ store_ w !! c = Some x /\ wait_cfm x = true /\ reqid x = id
     /\ msgind_loop q id len cb w = msgind_hit c id len x w.
Proof.
  induction q as [|c q IH]; intros H; cbn [msgind_loop]; [by left|].
  destruct (H c ltac:(left)) as [x Hx]. step_with (get_cmd_done _ _ _ Hx).
  assert (Hrec : msgind_loop q id len cb w = Done w
    \/ exists c0 x0, c0 ∈ c :: q /\ store_ w !! c0 = Some x0 /\ wait_cfm x0 = true /\ reqid x0 = id
       /\ msgind_loop q id len cb w = msgind_hit c0 id len x0 w).
  { destruct IH as [IH|(c0 & x0 & Hc0 & Hrest)]; [by intros; apply H; right|by left|right].
    exists c0, x0. split; [by right|done]. }
  destruct ((reqid x =? id) && has (flags x) RWNX_CMD_FLAG_WAIT_CFM) eqn:E; [|done].
  destruct (match cb with None => true | Some f => f c end); [|done]. right. apply andb_true_iff in E as [Er%Z.eqb_eq Ec].
  exists c, x. by split; [left|].
Qed.

Lemma msg_spec w id len cb :
  inv w -> exists w', cmd_mgr_msgind id len cb w = Done w' /\ inv w' /\ evolves w w'.
Proof.
  intros (A & I & D & Sh & Hst & Hcf). unfold cmd_mgr_msgind. pose proof (sh_cmds _ _ _ _ Sh) as Ec.
  destruct (msgind_loop_spec (cmds w) id len cb w) as [E|(c & x & Hc & Hx & Hwc & _ & E)]; rewrite ?E.
  { intros c Hc. destruct (sh_cell _ _ _ _ Sh c Hc) as (x & Hx & _). by exists x. }
  { exists w. split; [done|]. split; [by exists A, I, D|by apply evolves_same]. }
  clear E. unfold msgind_hit. destruct (sh_cell _ _ _ _ Sh c Hc) as (z & Hz & Hok & _). assert (z = x) as -> by congruence.
  destruct (clr_flags RWNX_CMD_FLAG_WAIT_CFM (flags x)) as (Hr & Hcfm & Hkeep); [apply flag_in; set_solver|done|].
  set (x1 := set_flags _ x).
  match goal with |- context [cmd_complete c ?w'] => set (w1 := w') end.
  assert (Hk : wait_ack x1 = wait_ack x /\ wait_push x1 = wait_push x /\ nonblock x1 = nonblock x).
  { split_and!; apply Hkeep; (apply flag_in; set_solver) || done. }
  destruct Hk as (Hack & Hpush & Hnb).
  assert (Es : store_ w1 = <[c := x1]> (store_ w)) by (unfold w1; by case_match).
  assert (Ep : pc w1 = pc w) by (unfold w1; by case_match).
  assert (Hev : evolves w w1) by (by apply (evolves_put _ _ c x x1)).
  assert (T : touched w w1 c x x1) by (unfold w1; case_match; by constructor).
  assert (Sh1 : shape w1 A I D).
  { assert (Hdec : forall (a : Z) (P Q : Prop), (a = c -> P) -> Q -> a = c /\ P \/ a <> c /\ Q) by (intros a P Q ??; destruct (decide (a = c)); tauto).
    eapply (shape_touch w w1 A I D A I D c x x1); try done.
    - intros a Ha. apply Hdec; [intros ->|done]. rewrite Hack, Hpush. by apply (sh_A _ _ _ _ Sh c).
    - intros a Ha. apply Hdec; [intros ->|done]. rewrite Hack, Hpush. by apply (sh_I _ _ _ _ Sh c).
    - intros a Ha. apply Hdec; [intros ->|done]. rewrite Hack, Hpush. by apply (sh_D _ _ _ _ Sh c).
    - rewrite <- (sh_host _ _ _ _ Sh). unfold w1. by case_match.
    - apply (sh_atpush _ _ _ _ Sh). }
  change (flags x1) with (clr (flags x) RWNX_CMD_FLAG_WAIT_CFM) at 1. rewrite complete_flags by done. rewrite Hcfm, orb_false_r.
  change (has (clr (flags x) RWNX_CMD_FLAG_WAIT_CFM) RWNX_CMD_FLAG_WAIT_ACK) with (wait_ack x1). rewrite Hack.
  assert (HcA : wait_ack x = false <-> c ∈ A).
  { split; [|intros; by apply (sh_A _ _ _ _ Sh c)]. intros Ha. rewrite Ec, !elem_of_app in Hc. destruct Hc as [|[Hi|Hd]]; [done| |].
    - destruct I as [i|]; [|set_solver]. apply list_elem_of_singleton in Hi as ->. destruct (sh_I _ _ _ _ Sh i x eq_refl Hx). congruence.
    - destruct (sh_D _ _ _ _ Sh c x Hd Hx). congruence. }
  destruct (wait_ack x) eqn:Ea; cbn [negb].
  - exists w1. split; [done|]. split; [|done]. exists A, I, D. split; [done|]. split; [done|]. intros a y Ha. rewrite Es.
    rewrite lookup_insert_ne; [by apply Hcf|]. intros <-. by apply HcA in Ha.
  - assert (HcA' : c ∈ A) by tauto. apply list_elem_of_split in HcA' as (A1 & A2 & ->).
    destruct (cmd_complete_spec w1 c x1) as (w2 & -> & F & _); [by rewrite Es, lookup_insert_eq|done|done|done|].
    exists w2. split; [done|]. split; [|by eapply evolves_trans, (fi_kind _ _ _ F)]. exists (A1 ++ A2), I, D. split; [|split; [done|]].
    + apply (shape_finish w1 w2 A1 A2 I D c Sh1 F).
    + intros a y Ha. pose proof (sh_nodup _ _ _ _ Sh) as Hnd. rewrite Ec, <- app_assoc in Hnd. cbn in Hnd.
      apply NoDup_app in Hnd as (_ & N1 & N2). apply NoDup_cons in N2 as [N2 _].
      assert (a <> c). { intros ->. apply elem_of_app in Ha as [Ha|Ha]; [apply (N1 c Ha); left|set_solver]. }
      rewrite (fi_store _ _ _ F), Es, lookup_insert_ne by done. apply Hcf. set_solver.
Qed.

(** *** Return of the queueing task *)

Lemma clear_pc w A I D c p :
  shape w A I D -> p = delete c (pc w) -> pc w !! c <> Some AtPush ->
  (forall x, store_ w !! c = Some x -> c ∈ cmds w -> nonblock x = true) -> shape (with_pc p w) A I D.
Proof.
  intros Sh -> Hp Hn.
  assert (Hpc : forall y, delete c (pc w) !! y = Some AtPush <-> pc w !! y = Some AtPush).
  { intros y. destruct (decide (y = c)) as [->|]; [by rewrite lookup_delete_eq|by rewrite lookup_delete_ne]. }
  assert (Hun : unpushed (with_pc (delete c (pc w)) w) I D = unpushed w I D).
  { unfold unpushed. destruct I; [|done]. cbn. by rewrite (bool_decide_ext _ _ (Hpc _)). }
  destruct Sh. constructor; cbn [cmds store_ msgs state next_tkn queue_sz max_queue_sz msga2e_hostid pc pushed with_pc]; rewrite ?Hun; try done.
  - intros y Hy. destruct (sh_cell0 y Hy) as (x & Hx & Hf & Hb). exists x. split; [done|]. split; [done|]. intros Hnb.
    split; [by apply Hb|]. destruct (decide (y = c)) as [->|]; [|rewrite lookup_delete_ne by done; by apply Hb].
    rewrite (Hn x Hx Hy) in Hnb. done.
  - rewrite sh_host0. destruct I; [|done]. by rewrite (bool_decide_ext _ _ (Hpc _)).
  - intros y Hy. by apply sh_atpush0, Hpc.
  - intros y Hy Hny. apply sh_done0; [|done]. destruct (decide (y = c)) as [->|]; [by rewrite lookup_delete_eq in Hy; destruct Hy|].
    by rewrite lookup_delete_ne in Hy.
Qed.

(** a record outside the queue may change or go once its task has left *)
Lemma shape_outside w w' A I D c :
  shape w A I D -> c ∉ cmds w -> pc w !! c = None ->
  (forall y, y <> c -> store_ w' !! y = store_ w !! y) ->
  cmds w' = cmds w -> msgs w' = msgs w -> state w' = state w -> next_tkn w' = next_tkn w -> queue_sz w' = queue_sz w ->
  max_queue_sz w' = max_queue_sz w -> msga2e_hostid w' = msga2e_hostid w -> pc w' = pc w -> pushed w' = pushed w ->
  shape w' A I D.
Proof.
  intros Sh Hc Hp Es E1 E2 E3 E4 E5 E6 E7 E8 E9.
  assert (Hun : unpushed w' I D = unpushed w I D) by (unfold unpushed; by rewrite E8).
  assert (Hq : forall y, y ∈ cmds w -> store_ w' !! y = store_ w !! y) by (intros y Hy; apply Es; by intros ->).
  pose proof (sh_cmds _ _ _ _ Sh) as Ec.
  assert (Hu : forall y, y ∈ unpushed w I D -> store_ w' !! y = store_ w !! y).
  { intros y Hy. apply Hq. rewrite Ec. unfold unpushed in Hy. destruct I as [i|]; cbn; [case_bool_decide|]; set_solver. }
  assert (HA : forall y, y ∈ A -> store_ w' !! y = store_ w !! y) by (intros; apply Hq; rewrite Ec; set_solver).
  assert (HI : forall y, I = Some y -> store_ w' !! y = store_ w !! y) by (intros y ->; apply Hq; rewrite Ec; set_solver).
  assert (HD : forall y, y ∈ D -> store_ w' !! y = store_ w !! y) by (intros; apply Hq; rewrite Ec; set_solver).
  assert (Htok : forall y, store_ w' !! y = store_ w !! y -> tok w' y = tok w y) by (intros y E; unfold tok; by rewrite E).
  destruct Sh. constructor; rewrite ?E1, ?E2, ?E3, ?E4, ?E5, ?E6, ?E7, ?E8, ?E9, ?Hun; try done.
  - intros y Hy. rewrite Hq by done. by apply sh_cell0.
  - intros y x Hy. rewrite HA by done. by apply sh_A0.
  - intros y x Hy. rewrite HI by done. by apply sh_I0.
  - intros y x Hy. rewrite HD by done. by apply sh_D0.
  - intros y Hy Hny. rewrite Es; [by apply sh_done0|]. intros ->. rewrite Hp in Hy. by destruct Hy.
  - intros y x Hy. rewrite Hu by done. by apply sh_msgs0.
  - intros y y' x x' Hy Hy'. rewrite !Hu by done. by apply sh_msgs_inj0.
  - destruct sh_order0 as (n & Hn & Hn'). exists n. split; [|done]. rewrite <- Hn. f_equal. apply list_fmap_ext.
    intros i y Hy. apply Htok, Hu. by eapply list_elem_of_lookup_2.
  - intros y Hy. rewrite Htok by (by apply Hq). by apply sh_tkn0.
  - intros y y' Hy Hy'. rewrite !Htok by (by apply Hq). by apply sh_tkn_inj0.
Qed.

Lemma return_spec w c :
  inv w -> pc w !! c = Some AtReturn ->
  (forall x, store_ w !! c = Some x -> nonblock x = false -> complete x = Some true) ->
  if bool_decide (store_ w !! c = None) then bl_send_msg_return c 1 w = Fault
  else exists r w', bl_send_msg_return c 1 w = Done (r, w') /\ inv w' /\ pc w' !! c = None
    /\ forall y, y <> c -> is_Some (store_ w !! y) -> is_Some (store_ w' !! y).
Proof.
  intros (A & I & D & Sh & Hst & Hcf) Hpc Hdone. case_bool_decide as Hgone.
  { unfold bl_send_msg_return, cmd_mgr_queue_return, get_cmd. by rewrite Hgone. } unfold bl_send_msg_return, cmd_mgr_queue_return.
  assert (Hcell : exists x, store_ w !! c = Some x /\ (nonblock x = false <-> c ∉ cmds w)).
  { destruct (decide (c ∈ cmds w)) as [Hc|Hc].
    - destruct (sh_cell _ _ _ _ Sh c Hc) as (x & Hx & _ & Hb). exists x. split; [done|]. split; [|done].
      intros Hn. destruct (Hb Hn) as [E _]. rewrite (Hdone x Hx Hn) in E. done.
    - destruct (sh_done _ _ _ _ Sh c) as [?|(x & Hx & _ & Hn & _)]; [by rewrite Hpc|done|done|]. by exists x. }
  destruct Hcell as (x & Hx & Hiff). rewrite (get_cmd_done _ _ _ Hx). cbn [mbind outcome_bind]. fold (nonblock x).
  assert (Hat : pc w !! c <> Some AtPush) by congruence.
  destruct (nonblock x) eqn:En; cbn [negb].
  - assert (Hc : c ∈ cmds w) by (destruct (decide (c ∈ cmds w)); [done|]; by apply Hiff in n).
    unfold get_cmd. cbn. rewrite lookup_insert_eq. cbn. fold (nonblock x). rewrite En. eexists _, _. split; [done|].
    split; [|split; [apply lookup_delete_eq|intros y Hy; cbn; by rewrite lookup_insert_ne]].
    exists A, I, D. split; [|split; [done|]].
    + eapply clear_pc; [|reflexivity|done|].
      * eapply (shape_touch w _ A I D A I D c x (set_result 0 x)); try done.
        -- intros a Ha. destruct (decide (a = c)) as [->|]; [left|by right]. split; [done|]. exact (sh_A _ _ _ _ Sh c x Ha Hx).
        -- intros a Ha. destruct (decide (a = c)) as [->|]; [left|by right]. split; [done|]. exact (sh_I _ _ _ _ Sh c x Ha Hx).
        -- intros a Ha. destruct (decide (a = c)) as [->|]; [left|by right]. split; [done|]. exact (sh_D _ _ _ _ Sh c x Ha Hx).
        -- apply (sh_host _ _ _ _ Sh).
        -- apply (sh_atpush _ _ _ _ Sh).
      * intros y Hy _. cbn in Hy. rewrite lookup_insert_eq in Hy. by injection Hy as <-.
    + intros a y Ha. cbn. destruct (decide (a = c)) as [->|]; [|rewrite lookup_insert_ne by done; by apply Hcf].
      rewrite lookup_insert_eq. intros [= <-]. by apply (Hcf c x).
  - change (Z.land 1 1 =? 0) with false. cbn [negb mbind outcome_bind]. rewrite (get_cmd_done _ _ _ Hx). cbn [mbind outcome_bind].
    assert (Hc : c ∉ cmds w) by tauto. unfold get_cmd, free_cmd. cbn. rewrite lookup_insert_eq. cbn. fold (nonblock x). rewrite En.
    cbn. eexists _, _. split; [done|].
    split; [|split; [apply lookup_delete_eq|intros y Hy; cbn; by rewrite lookup_delete_ne, lookup_insert_ne]].
    assert (HcA : c ∉ A) by (intros H; apply Hc; rewrite (sh_cmds _ _ _ _ Sh); set_solver).
    exists A, I, D. split; [|split; [done|]].
    + eapply (shape_outside (with_pc (delete c (pc w)) w)); try done.
      * eapply clear_pc; [done|reflexivity|done|]. intros y Hy Hin. done.
      * cbn. apply lookup_delete_eq.
      * intros y Hy. cbn. by rewrite lookup_delete_ne, lookup_insert_ne.
    + intros a y Ha. cbn. rewrite lookup_delete_ne, lookup_insert_ne by (by intros ->). by apply Hcf.
Qed.

(** *** Push by the queueing task *)

Lemma push_step w c :
  inv w -> pc w !! c = Some AtPush ->
  exists w', cmd_mgr_queue_push c w = Done w' /\ inv (with_pc (<[c := AtReturn]> (pc w')) w') /\ store_ w' = store_ w
    /\ pc w' = pc w /\ next_tkn w' = next_tkn w.
Proof.
  intros (A & I & D & Sh & Hst & Hcf) Hpc. pose proof (sh_atpush _ _ _ _ Sh c Hpc) as ->.
  destruct (sh_cell _ _ _ _ Sh c) as (x & Hx & _); [rewrite (sh_cmds _ _ _ _ Sh); set_solver|].
  destruct (push_spec w A D c x (<[c := AtReturn]> (pc w)) Sh Hpc Hx) as (w' & E & S' & _ & E2 & E3 & E4 & _).
  - by rewrite lookup_insert_eq.
  - intros y Hy. by rewrite lookup_insert_ne.
  - by rewrite lookup_insert_eq.
  - exists w'. split.
    + unfold cmd_mgr_queue_push. destruct (ipc_host_msg_push c w) as [w1| |] eqn:E1; try done. cbn [mbind outcome_bind] in *.
      assert (store_ w1 = store_ w) as Es.
      { unfold ipc_host_msg_push in E1. destruct (msga2e_hostid w =? NULL); [|done]. rewrite (get_cmd_done _ _ _ Hx) in E1.
        cbn [mbind outcome_bind] in E1. destruct (msgs w !! _); [|done]. destruct (_ <=? _); [|done]. by injection E1 as <-. }
      rewrite (get_cmd_done w1 c x) by (by rewrite Es). done.
    + split; [|done]. rewrite E3. exists A, (Some c), D. split; [done|]. split; [done|]. intros a y Ha. cbn. rewrite E2. by apply Hcf.
Qed.

(** *** Sending *)

Lemma shape_msgs w A I D m ws :
  shape w A I D -> msgs w !! m = None -> shape (with_msgs (<[m := ws]> (msgs w)) w) A I D.
Proof.
  intros [] Hm. constructor; cbn [cmds store_ msgs state next_tkn queue_sz max_queue_sz msga2e_hostid pc pushed with_msgs]; try done.
  intros c x Hc Hx. destruct (sh_msgs0 c x Hc Hx) as (vs & Hv & Hl). exists vs. split; [|done].
  rewrite lookup_insert_ne; [done|congruence].
Qed.

Record enqueued (w w1 : hw) (c m : Z) (ws : list Z) (x : bl_cmd) (p : task_pc) : Prop := {
  en_cmds : cmds w1 = cmds w ++ [c];
  en_store : store_ w1 = <[c := x]> (store_ w);
  en_msgs : msgs w1 = <[m := ws]> (msgs w); en_words : Z.of_nat (length ws) <= IPC_A2E_MSG_BUF_SIZE; en_msg : a2e_msg x = m; en_flags : flags_ok x;
  en_complete : nonblock x = false -> complete x = Some false;
  en_tkn : tkn x = next_tkn w; en_next : next_tkn w1 = next_tkn w + 1;
  en_size : queue_sz w1 = queue_sz w + 1; en_max : max_queue_sz w1 = max_queue_sz w;
  en_pc : pc w1 = <[c := p]> (pc w); en_host : msga2e_hostid w1 = msga2e_hostid w;
  en_pushed : pushed w1 = pushed w; en_state : state w1 = state w }.

Lemma shape_enqueue w w1 A I D I' D' c m ws x p :
  shape w A I D -> enqueued w w1 c m ws x p -> c <> NULL -> store_ w !! c = None -> pc w !! c = None -> msgs w !! m = None ->
  (length (cmds w) < 8)%nat -> wait_ack x = true ->
  (I = None /\ D = [] /\ I' = Some c /\ D' = [] /\ p = AtPush /\ wait_push x = false
   \/ (exists i, I = Some i) /\ I' = I /\ D' = D ++ [c] /\ p = AtReturn /\ wait_push x = true) ->
  shape w1 A I' D'.
Proof.
  intros Sh E Hnull Hfresh Hpc Hm Hlen Hack Hcase. destruct E as [E1 E2 E3 Ews E4 E5 E6 E7 E8 E9 E10 E11 E12 E13 E14].
  pose proof (sh_cmds _ _ _ _ Sh) as Ec.
  assert (Hout : c ∉ cmds w).
  { intros Hin. destruct (sh_cell _ _ _ _ Sh c Hin) as (y & Hy & _). congruence. }
  assert (Hne : forall y, y ∈ cmds w -> store_ w1 !! y = store_ w !! y) by (intros y Hy; rewrite E2, lookup_insert_ne; [done|by intros ->]).
  assert (He : store_ w1 !! c = Some x) by (by rewrite E2, lookup_insert_eq).
  assert (Hpne : forall y, y <> c -> pc w1 !! y = pc w !! y) by (intros y Hy; by rewrite E11, lookup_insert_ne).
  assert (Hpe : pc w1 !! c = Some p) by (by rewrite E11, lookup_insert_eq).
  assert (Hq : A ++ opt I' ++ D' = cmds w ++ [c]).
  { rewrite Ec. destruct Hcase as [(-> & -> & -> & -> & _)|(_ & -> & -> & _)]; cbn; [by rewrite !app_nil_r|by rewrite <- !app_assoc]. }
  assert (Hun : unpushed w1 I' D' = unpushed w I D ++ [c]).
  { unfold unpushed. destruct Hcase as [(-> & -> & -> & -> & -> & _)|([i ->] & -> & -> & _)].
    - by rewrite Hpe, bool_decide_true.
    - assert (i <> c) by (intros ->; apply Hout; rewrite Ec; set_solver). rewrite Hpne by done. by case_bool_decide. }
  assert (Husub : forall y, y ∈ unpushed w I D -> y ∈ cmds w).
  { intros y Hy. rewrite Ec. unfold unpushed in Hy. destruct I as [i|]; cbn; [case_bool_decide|]; set_solver. }
  assert (Htok : forall y, y ∈ cmds w -> tok w1 y = tok w y) by (intros y Hy; unfold tok; by rewrite Hne).
  assert (Htc : tok w1 c = next_tkn w) by (unfold tok; by rewrite He).
  assert (HiA : forall y, y ∈ A -> y ∈ cmds w) by (intros; rewrite Ec; set_solver).
  destruct Sh. constructor.
  - by rewrite E1.
  - rewrite E1. apply NoDup_app. split; [done|]. split; [|apply NoDup_singleton]. intros y Hy ->%list_elem_of_singleton. done.
  - rewrite E1. set_solver.
  - intros y Hy. rewrite E1 in Hy. apply elem_of_app in Hy as [Hy| ->%list_elem_of_singleton].
    + rewrite Hne, Hpne by (done || by intros ->). by apply sh_cell0.
    + exists x. split; [done|]. split; [done|]. intros Hn. rewrite Hpe. split; [by apply E6|done].
  - intros y z Hy Hz. rewrite Hne in Hz by (by apply HiA). by apply (sh_A0 y).
  - intros y z Hy Hz. destruct Hcase as [(-> & -> & -> & -> & _ & Hp)|([i ->] & -> & -> & _)].
    + injection Hy as <-. assert (z = x) as -> by congruence. done.
    + injection Hy as <-. rewrite Hne in Hz by (rewrite Ec; set_solver). by apply (sh_I0 i).
  - intros y z Hy Hz. destruct Hcase as [(-> & -> & -> & -> & _ & Hp)|([i ->] & -> & -> & _ & Hp)]; [set_solver|].
    apply elem_of_app in Hy as [Hy| ->%list_elem_of_singleton]; [|by assert (z = x) as -> by congruence].
    rewrite Hne in Hz by (rewrite Ec; set_solver). by apply (sh_D0 y).
  - rewrite E12, sh_host0. destruct Hcase as [(-> & -> & -> & -> & -> & _)|([i ->] & -> & -> & _)].
    + by rewrite Hpe, bool_decide_true.
    + rewrite Hpne; [done|]. intros ->. apply Hout. rewrite Ec. set_solver.
  - intros y Hy. destruct (decide (y = c)) as [->|Hyc].
    + destruct Hcase as [(-> & -> & -> & _)|(_ & _ & _ & -> & _)]; [done|congruence].
    + rewrite Hpne in Hy by done. apply sh_atpush0 in Hy. destruct Hcase as [(-> & _)|(_ & -> & _)]; done.
  - rewrite E1, E9, E10, length_app. cbn. destruct sh_size0 as (-> & _ & ->). split; [lia|]. split; [lia|done].
  - intros y Hy Hny. rewrite E1 in Hny. rewrite Hpne in Hy by set_solver.
    rewrite E2, lookup_insert_ne by set_solver. apply sh_done0; [done|set_solver].
  - intros y z Hy Hz. rewrite Hun in Hy. rewrite E3. apply elem_of_app in Hy as [Hy| ->%list_elem_of_singleton].
    + rewrite Hne in Hz by (by apply Husub). destruct (sh_msgs0 y z Hy Hz) as (vs & Hv & Hl). exists vs. split; [|done].
      rewrite lookup_insert_ne; [done|congruence].
    + assert (z = x) as -> by congruence. exists ws. by rewrite E4, lookup_insert_eq.
  - intros y y' z z' Hy Hy' Hz Hz' Eq. rewrite Hun in Hy, Hy'.
    assert (Hold : forall a b, a ∈ unpushed w I D -> store_ w1 !! a = Some b -> a2e_msg b <> m).
    { intros a b Ha Hb E0. rewrite Hne in Hb by (by apply Husub). destruct (sh_msgs0 a b Ha Hb) as (vs & Hv & _). congruence. }
    apply elem_of_app in Hy as [Hy| ->%list_elem_of_singleton]; apply elem_of_app in Hy' as [Hy'| ->%list_elem_of_singleton].
    + rewrite Hne in Hz, Hz' by (by apply Husub). by apply (sh_msgs_inj0 y y' z z').
    + exfalso. assert (z' = x) as -> by congruence. apply (Hold y z Hy Hz). by rewrite Eq.
    + exfalso. assert (z = x) as -> by congruence. apply (Hold y' z' Hy' Hz'). by rewrite <- Eq.
    + done.
  - destruct sh_order0 as (n & Hn & Hn'). exists (S n). rewrite E13, E8, Hun, Hn'. split; [|lia].
    rewrite seq_S, !fmap_app, <- Hn, app_assoc. f_equal; [|cbn; rewrite Htc; by rewrite Hn'].
    f_equal. apply list_fmap_ext. intros i y Hy. apply Htok, Husub. by eapply list_elem_of_lookup_2.
  - intros y Hy. rewrite E1 in Hy. rewrite E8. apply elem_of_app in Hy as [Hy| ->%list_elem_of_singleton]; [|lia].
    rewrite Htok by done. specialize (sh_tkn0 y Hy). lia.
  - intros y y' Hy Hy'. rewrite E1 in Hy, Hy'.
    apply elem_of_app in Hy as [Hy| ->%list_elem_of_singleton]; apply elem_of_app in Hy' as [Hy'| ->%list_elem_of_singleton].
    + rewrite !Htok by done. by apply sh_tkn_inj0.
    + rewrite Htok, Htc by done. specialize (sh_tkn0 y Hy). lia.
    + rewrite (Htok y'), Htc by done. specialize (sh_tkn0 y' Hy'). lia.
    + done.
  - by rewrite E14.
Qed.

(** the flags of a new command *)
Definition new_flags (nb rc defer : bool) : Z :=
  (if nb then 1 else 0) + (if rc then 18 else 0) + (if defer then 4 else 0) + 8.

Lemma last_queue w A I D :
  shape w A I D -> (I = None -> D = []) ->
  match last (cmds w) with
  | None => Done false
  | Some l => y ← get_cmd w l; Done (has (flags y) (Z.lor RWNX_CMD_FLAG_WAIT_ACK RWNX_CMD_FLAG_WAIT_PUSH))
  end = Done (bool_decide (I <> None)).
Proof.
  intros Sh Hst. pose proof (sh_cmds _ _ _ _ Sh) as Ec. destruct (last (cmds w)) as [l|] eqn:El.
  - assert (Hl : l ∈ cmds w) by (by apply last_Some_elem_of). destruct (sh_cell _ _ _ _ Sh l Hl) as (y & Hy & Hok & _).
    step_with (get_cmd_done _ _ _ Hy). rewrite busy_flags by done. f_equal. fold (wait_ack y). fold (wait_push y).
    rewrite Ec in El. destruct I as [i|].
    + rewrite bool_decide_true by done. destruct (decide (D = [])) as [->|Hd].
      * cbn in El. rewrite last_snoc in El. injection El as ->. by destruct (sh_I _ _ _ _ Sh l y eq_refl Hy) as [-> _].
      * assert (Hld : l ∈ D).
        { rewrite app_assoc, last_app in El. destruct (last D) as [d|] eqn:Ed; [|by apply last_None in Ed].
          injection El as <-. by apply last_Some_elem_of. }
        by destruct (sh_D _ _ _ _ Sh l y Hld Hy) as [-> _].
    + rewrite bool_decide_false by (by intros H; apply H). rewrite (Hst eq_refl) in El. cbn in El. rewrite app_nil_r in El.
      apply last_Some_elem_of in El. by destruct (sh_A _ _ _ _ Sh l y El Hy) as [-> ->].
  - apply last_None in El. rewrite El in Ec. symmetry in Ec. apply app_nil in Ec as [_ Ec]. destruct I; [done|].
    by rewrite bool_decide_false by (by intros H; apply H).
Qed.

(** the record of a command once queued *)
Definition queued (msg rid cfm t : Z) (nb rc defer : bool) : bl_cmd :=
  {| reqid := rid; a2e_msg := msg; e2a_msg := cfm; tkn := t; flags := new_flags nb rc defer;
     complete := if nb then None else Some false; result := EINTR |}.

Lemma queued_flags msg rid cfm t nb rc defer :
  let x := queued msg rid cfm t nb rc defer in
  flags_ok x /\ nonblock x = nb /\ wait_ack x = true /\ wait_push x = defer /\ wait_cfm x = rc.
Proof. destruct nb, rc, defer; vm_compute; repeat split; congruence. Qed.

(** [bl_send_msg] hands in a command with these flags *)
Definition fresh_cmd (msg rid cfm : Z) (nb rc : bool) : bl_cmd :=
  {| reqid := rid; a2e_msg := msg; e2a_msg := cfm; tkn := 0;
     flags := Z.lor (if nb then RWNX_CMD_FLAG_NONBLOCK else 0) (if rc then RWNX_CMD_FLAG_REQ_CFM else 0);
     complete := None; result := EINTR |}.

Definition appended (w : hw) (c : Z) (x : bl_cmd) : hw :=
  {| cmds := cmds w ++ [c]; store_ := <[c := x]> (store_ w); msgs := msgs w; state := state w;
     next_tkn := u32 (next_tkn w + 1); queue_sz := u32 (queue_sz w + 1); max_queue_sz := max_queue_sz w;
     msga2e_hostid := msga2e_hostid w; pc := pc w; mailbox := mailbox w; pushed := pushed w; copied := copied w |}.

Definition full (w : hw) : bool := negb (bool_decide (cmds w = [])) && (queue_sz w =? max_queue_sz w).

Lemma locked_full w c x :
  store_ w !! c = Some x -> state w <> RWNX_CMD_MGR_STATE_CRASHED -> full w = true ->
  cmd_mgr_queue_locked c w = (Done (inl (- ENOMEM)), put_cmd w c (set_result ENOMEM x)).
Proof.
  intros Hx Hs Hf. unfold cmd_mgr_queue_locked. rewrite Hx. unfold full in Hf. rewrite Hf. by destruct (state w).
Qed.

Lemma locked_append w c msg rid cfm nb rc defer :
  store_ w !! c = Some (fresh_cmd msg rid cfm nb rc) -> state w <> RWNX_CMD_MGR_STATE_CRASHED -> full w = false ->
  match last (cmds w) with
  | None => Done false
  | Some l => y ← get_cmd w l; Done (has (flags y) (Z.lor RWNX_CMD_FLAG_WAIT_ACK RWNX_CMD_FLAG_WAIT_PUSH))
  end = Done defer ->
  cmd_mgr_queue_locked c w = (Done (inr defer), appended w c (queued msg rid cfm (next_tkn w) nb rc defer)).
Proof.
  intros Hx Hs Hf Hl. unfold cmd_mgr_queue_locked. rewrite Hx. unfold full in Hf. rewrite Hf, Hl.
  destruct (state w); [| |done]; destruct nb, rc, defer; reflexivity.
Qed.

Section send.
Context (w : hw) (A : list Z) (I : option Z) (D : list Z) (c msg : Z) (ws : list Z).
Context (Sh : shape w A I D) (Hst : I = None -> D = []) (Hnull : c <> NULL) (Hfresh : store_ w !! c = None).
Context (Hpc : pc w !! c = None) (Hm : msgs w !! msg = None) (Hws : Z.of_nat (length ws) <= IPC_A2E_MSG_BUF_SIZE).
Context (Ht : next_tkn w + 1 < 2 ^ 32).

Lemma fresh_out : c ∉ cmds w.
Proof. intros Hin. destruct (sh_cell _ _ _ _ Sh c Hin) as (y & Hy & _). congruence. Qed.

(** the state in which [cmd_mgr_queue] is called *)
Definition called (x : bl_cmd) : hw := put_cmd (with_msgs (<[msg := ws]> (msgs w)) w) c x.

Lemma send_full x w' :
  (forall y, y <> c -> store_ w' !! y = store_ w !! y) ->
  w' = with_store (store_ w') (called x) -> shape w' A I D.
Proof.
  intros Es E. pose proof fresh_out as Hout. pose proof (shape_msgs w A I D msg ws Sh Hm) as Sh0.
  eapply (shape_outside _ w' A I D c Sh0); try done; rewrite E; done.
Qed.

Lemma send_append x p I' D' :
  flags_ok x -> a2e_msg x = msg -> tkn x = next_tkn w -> (nonblock x = false -> complete x = Some false) ->
  wait_ack x = true -> full w = false ->
  (I = None /\ D = [] /\ I' = Some c /\ D' = [] /\ p = AtPush /\ wait_push x = false
   \/ (exists i, I = Some i) /\ I' = I /\ D' = D ++ [c] /\ p = AtReturn /\ wait_push x = true) ->
  forall x0, shape (with_pc (<[c := p]> (pc w)) (appended (called x0) c x)) A I' D'.
Proof.
  intros Hf Hmsg Htk Hco Hack Hfull Hcase x0. destruct (sh_size _ _ _ _ Sh) as (Hsz & Hlen & Hmax).
  assert (Hlt : (length (cmds w) < 8)%nat).
  { apply andb_false_iff in Hfull as [E|E]; [apply negb_false_iff, bool_decide_eq_true in E; rewrite E; cbn; lia|].
    apply Z.eqb_neq in E. lia. }
  eapply (shape_enqueue w _ A I D I' D' c msg ws x p Sh); try done. destruct (sh_order _ _ _ _ Sh) as (n & _ & Hn).
  constructor; cbn; try done.
  - by rewrite insert_insert_eq.
  - unfold u32, wrap. rewrite Z.mod_small; lia.
  - unfold u32, wrap. rewrite Z.mod_small; lia.
Qed.
End send.

Lemma send_queues w c msg ws rid nb rc cfm :
  inv w -> c <> NULL -> store_ w !! c = None -> pc w !! c = None -> msgs w !! msg = None ->
  Z.of_nat (length ws) <= IPC_A2E_MSG_BUF_SIZE -> next_tkn w + 1 < 2 ^ 32 ->
  exists r w', bl_send_msg true (Some c) msg rid nb rc cfm (with_msgs (<[msg := ws]> (msgs w)) w) = Done (r, w') /\ inv w'
    /\ forall y, y <> c -> store_ w' !! y = store_ w !! y.
Proof.
  intros (A & I & D & Sh & Hst & Hcf) Hnull Hfresh Hpc Hm Hws Ht. unfold bl_send_msg. cbn [negb].
  fold (fresh_cmd msg rid cfm nb rc). fold (called w c msg ws (fresh_cmd msg rid cfm nb rc)). set (w0 := called w c msg ws _).
  pose proof (fresh_out w A I D c Sh Hfresh) as Hout.
  assert (HcA : c ∉ A) by (intros H; apply Hout; rewrite (sh_cmds _ _ _ _ Sh); set_solver).
  assert (Hx0 : store_ w0 !! c = Some (fresh_cmd msg rid cfm nb rc)) by (cbn; apply lookup_insert_eq).
  assert (Hcf' : forall w', (forall y, y <> c -> store_ w' !! y = store_ w !! y) ->
    forall a x, a ∈ A -> store_ w' !! a = Some x -> wait_cfm x = true).
  { intros w' Es a x Ha. rewrite Es by (by intros ->). by apply Hcf. }
  destruct (full w) eqn:Efull.
  - rewrite (locked_full w0 c _ Hx0 (sh_state _ _ _ _ Sh) Efull).
    set (wf := put_cmd w0 c (set_result ENOMEM (fresh_cmd msg rid cfm nb rc))).
    assert (exists r w', (if nb then x ← get_cmd wf c; Done (Some (result x), wf)
        else w ← free_cmd wf c; Done (Some (- ENOMEM), w)) = Done (r, w')
      /\ (forall y, y <> c -> store_ w' !! y = store_ w !! y)
      /\ w' = with_store (store_ w') (called w c msg ws (fresh_cmd msg rid cfm nb rc))) as (r & w' & E & Es & Ew).
    { destruct nb; [unfold get_cmd|unfold free_cmd]; cbn; rewrite lookup_insert_eq; cbn; eexists _, _; (split; [done|]); (split; [|done]);
        intros y Hy; cbn; rewrite ?lookup_delete_ne by done; by rewrite !lookup_insert_ne. }
    exists r, w'. split; [exact E|]. split; [|done]. exists A, I, D. split; [by eapply send_full|]. split; [done|by apply Hcf'].
  - assert (Hl : match last (cmds w0) with None => Done false | Some l => y ← get_cmd w0 l;
        Done (has (flags y) (Z.lor RWNX_CMD_FLAG_WAIT_ACK RWNX_CMD_FLAG_WAIT_PUSH)) end = Done (bool_decide (I <> None))).
    { rewrite <- (last_queue w A I D Sh Hst). change (cmds w0) with (cmds w). destruct (last (cmds w)) as [l|] eqn:El; [|done].
      unfold get_cmd. cbn. rewrite lookup_insert_ne; [done|]. intros ->. apply Hout. by apply last_Some_elem_of. }
    rewrite (locked_append w0 c msg rid cfm nb rc _ Hx0 (sh_state _ _ _ _ Sh) Efull Hl).
    eexists _, _. split; [done|]. split; [|intros y Hy; cbn; by rewrite !lookup_insert_ne].
    destruct (queued_flags msg rid cfm (next_tkn w0) nb rc (bool_decide (I <> None))) as (Hf & Hnb & Hack & Hpush & _).
    exists A, (match I with None => Some c | Some i => Some i end), (match I with None => [] | Some _ => D ++ [c] end).
    split; [|split; [by destruct I|apply Hcf'; intros y Hy; cbn; by rewrite !lookup_insert_ne]].
    eapply (send_append w A I D c msg ws Sh Hnull Hfresh Hpc Hm Hws Ht); try done.
    + rewrite Hnb. by intros ->.
    + rewrite Hpush. destruct I as [i|]; [right|left]; rewrite ?bool_decide_true, ?bool_decide_false by (done || tauto).
      * split; [by exists i|]. done.
      * by rewrite Hst.
Qed.

Lemma insert_free w msg ws : msgs w !! msg = None -> free_msg (with_msgs (<[msg := ws]> (msgs w)) w) msg = Done w.
Proof. intros Hm. unfold free_msg. cbn. rewrite lookup_insert_eq, delete_insert_id by done. by destruct w. Qed.

(** where the command is allocated; the address is fresh, and no task that was
    overtaken still has it *)
Definition fresh_addr (w : hw) (cmd : option Z) : Prop :=
  match cmd with Some c => c <> NULL /\ store_ w !! c = None /\ pc w !! c = None | None => True end.

Lemma send_spec w env cmd msg ws rid nb rc cfm :
  inv w -> fresh_addr w cmd -> msgs w !! msg = None -> Z.of_nat (length ws) <= IPC_A2E_MSG_BUF_SIZE -> next_tkn w + 1 < 2 ^ 32 ->
  exists r w', bl_send_msg env cmd msg rid nb rc cfm (with_msgs (<[msg := ws]> (msgs w)) w) = Done (r, w') /\ inv w'
    /\ forall y, is_Some (store_ w !! y) -> store_ w' !! y = store_ w !! y.
Proof.
  intros Hi Hc Hm Hws Ht. destruct env; [destruct cmd as [c|]|].
  - destruct Hc as (H1 & H2 & H3). destruct (send_queues w c msg ws rid nb rc cfm Hi H1 H2 H3 Hm Hws Ht) as (r & w' & E & Hi' & Hs).
    exists r, w'. split; [done|]. split; [done|]. intros y Hy. apply Hs. intros ->. rewrite H2 in Hy. by destruct Hy.
  - unfold bl_send_msg. cbn [negb]. rewrite insert_free by done. cbn. by eexists _, w.
  - unfold bl_send_msg. cbn [negb]. rewrite insert_free by done. cbn. by eexists _, w.
Qed.

(** ** Interleavings *)

(** what can happen: a task sends a command (record at [cmd] if there is memory,
    request message [msg] with the words [ws]), pushes it, returns; the firmware
    acknowledges; a message arrives *)
Inductive hw_event :=
| Send (env : bool) (cmd : option Z) (msg : Z) (ws : list Z) (rid : Z) (nb rc : bool) (cfm : Z)
| Push (c : Z)
| Return (c : Z)
| Ack
| Msg (id len : Z) (cb : option (Z -> bool)).

Definition run_event (e : hw_event) (w : hw) : outcome hw :=
  match e with
  | Send env cmd msg ws rid nb rc cfm =>
    '(_, w) ← bl_send_msg env cmd msg rid nb rc cfm (with_msgs (<[msg := ws]> (msgs w)) w); Done w
  | Push c => w ← cmd_mgr_queue_push c w; Done (with_pc (<[c := AtReturn]> (pc w)) w)
  | Return c => '(_, w) ← bl_send_msg_return c 1 w; Done w
  | Ack => ipc_host_msgack_handler w
  | Msg id len cb => cmd_mgr_msgind id len cb w
  end.

(** when it can: memory is fresh, the request fits the mailbox and the token counter
    has not wrapped around; a task goes on from where it is, a blocking one once its
    event is set; the firmware acknowledges what is in the mailbox; a message can
    come at any time *)
Definition enabled (e : hw_event) (w : hw) : Prop :=
  match e with
  | Send _ cmd msg ws _ _ _ _ => fresh_addr w cmd /\ msgs w !! msg = None /\ Z.of_nat (length ws) <= IPC_A2E_MSG_BUF_SIZE
      /\ next_tkn w + 1 < 2 ^ 32
  | Push c => pc w !! c = Some AtPush
  | Return c => pc w !! c = Some AtReturn
      /\ forall x, store_ w !! c = Some x -> nonblock x = false -> complete x = Some true
  | Ack => msga2e_hostid w <> NULL
  | Msg _ _ _ => True
  end.
(** the task of [c] is about to return to a command that is freed already *)
Definition overtaken (w : hw) (c : Z) : Prop := pc w !! c = Some AtReturn /\ store_ w !! c = None.

Definition hw0 : hw :=
  bl_cmd_mgr_init {| cmds := []; store_ := ∅; msgs := ∅; state := RWNX_CMD_MGR_STATE_DEINIT; next_tkn := 0; queue_sz := 0;
     max_queue_sz := 0; msga2e_hostid := NULL; pc := ∅; mailbox := replicate 127 0; pushed := []; copied := [] |}.

Inductive reachable : hw -> Prop :=
| reach_init : reachable hw0
| reach_step w e w' : reachable w -> enabled e w -> run_event e w = Done w' -> reachable w'.

Lemma inv_init : inv hw0.
Proof.
  exists [], None, []. split; [|split; [done|]]; [|by intros c x ?%elem_of_nil].
  constructor; cbn; try done; try (by intros; set_solver).
  - apply NoDup_nil_2.
  - split; [done|]. split; [lia|done].
  - by exists 0%nat.
Qed.

(** every event that can happen goes through, unless it is the return of an overtaken
    task; a command freed under its task is a non-blocking one *)
Lemma event_spec e w : inv w -> enabled e w ->
  (exists c, e = Return c /\ overtaken w c /\ run_event e w = Fault)
  \/ (forall c, e = Return c -> ~ overtaken w c) /\ exists w', run_event e w = Done w' /\ inv w'
     /\ forall c x, store_ w !! c = Some x -> store_ w' !! c = None -> is_Some (pc w' !! c) -> nonblock x = true.
Proof.
  assert (Hev : forall w w', evolves w w' -> forall c x, store_ w !! c = Some x -> store_ w' !! c = None -> is_Some (pc w' !! c) -> nonblock x = true).
  { intros w1 w2 H c x Hx Hn _. specialize (H c). by rewrite Hx, Hn in H. }
  intros H He. destruct e as [env cmd msg ws rid nb rc cfm|c|c| |id len cb]; cbn in *.
  - right. split; [done|]. destruct He as (H1 & H2 & H3 & H4). destruct (send_spec w env cmd msg ws rid nb rc cfm H H1 H2 H3 H4) as (r & w' & -> & Hi & Hs).
    cbn [mbind outcome_bind]. exists w'. split; [done|]. split; [done|]. intros c x Hx Hn. rewrite Hs in Hn by (by rewrite Hx). congruence.
  - right. split; [done|]. destruct (push_step w c H He) as (w' & -> & Hi & Es & _). cbn [mbind outcome_bind]. eexists. split; [done|].
    split; [exact Hi|]. intros y x Hx Hn. cbn in Hn. rewrite Es in Hn. congruence.
  - destruct He as [H1 H2]. pose proof (return_spec w c H H1 H2) as Hr. case_bool_decide as Hg.
    + left. exists c. split; [done|]. split; [done|]. by rewrite Hr.
    + right. split; [intros c' [= <-] [_ ?]; done|]. destruct Hr as (r & w' & -> & Hi & Hp & Hs). cbn [mbind outcome_bind]. exists w'.
      split; [done|]. split; [done|]. intros y x Hx Hn Hy. destruct (decide (y = c)) as [->|Hne]; [rewrite Hp in Hy; by destruct Hy|].
      destruct (Hs y Hne) as [z Hz]; [by rewrite Hx|congruence].
  - right. split; [done|]. destruct H as (A & I & D & Sh & _ & Hcf). destruct (ack_spec w A I D Sh Hcf He) as (w' & -> & Hi & Hv & _).
    exists w'. split; [done|]. split; [done|]. by apply Hev.
  - right. split; [done|]. destruct (msg_spec w id len cb H) as (w' & -> & Hi & Hv). exists w'. split; [done|]. split; [done|]. by apply Hev.
Qed.

Lemma cmd_reachable_inv w : reachable w -> inv w.
Proof.
  induction 1 as [|w e w' _ IH He E]; [apply inv_init|].
  destruct (event_spec e w IH He) as [(c & _ & _ & E2)|(_ & w2 & E2 & Hi & _)]; congruence.
Qed.

(** ** Theorems *)

(** C6: the command queue, in every interleaving of sends, pushes, acknowledges,
    messages and returning tasks.  No step goes wrong (the mailbox is never
    overwritten, no message and no command is used after it was freed or freed
    twice), except one: the task of a non-blocking command whose acknowledge or
    confirmation is handled before that task has returned reads the command that was
    freed by it.  A blocking command is never freed under its task.  The queue always
    consists of acknowledged commands that wait for their confirmation, then at most
    one command that is in the mailbox or about to be, then the commands waiting for
    their turn, of which there are none without the middle one; it never holds more
    than eight.  (Requests fit the mailbox, and the token counter does not wrap; a push
    and the freeing of its message are one step.) *)
Theorem cmd_queue_safe (w : hw) (H : reachable w) :
  (forall e, enabled e w -> (forall c, e = Return c -> ~ overtaken w c) ->
     exists w', run_event e w = Done w' /\ reachable w'
       /\ forall c x, store_ w !! c = Some x -> store_ w' !! c = None -> is_Some (pc w' !! c) -> nonblock x = true)
  /\ (exists A I D, cmds w = A ++ opt I ++ D /\ (I = None -> D = []) /\ (length (cmds w) <= 8)%nat
      /\ NoDup (cmds w) /\ queue_sz w = Z.of_nat (length (cmds w))
      /\ (forall c x, c ∈ A -> store_ w !! c = Some x -> wait_ack x = false /\ wait_push x = false /\ wait_cfm x = true)
      /\ (forall c x, I = Some c -> store_ w !! c = Some x -> wait_ack x = true /\ wait_push x = false)
      /\ (forall c x, c ∈ D -> store_ w !! c = Some x -> wait_ack x = true /\ wait_push x = true)
      /\ (msga2e_hostid w <> NULL -> I = Some (msga2e_hostid w)))
  /\ (forall c, c ∈ cmds w -> is_Some (store_ w !! c)).
Proof.
  pose proof (cmd_reachable_inv w H) as Hi. split; [|split].
  - intros e He Hno. destruct (event_spec e w Hi He) as [(c & E & Ho & _)|(_ & w' & E & _ & Hf)]; [by destruct (Hno c E)|].
    exists w'. split; [done|]. split; [by eapply reach_step|done].
  - destruct Hi as (A & I & D & Sh & Hst & Hcf). exists A, I, D. split; [apply Sh|]. split; [done|]. split; [apply Sh|].
    split; [apply Sh|]. split; [apply Sh|]. split; [|split; [apply Sh|split; [apply Sh|]]].
    + intros c x Hc Hx. destruct (sh_A _ _ _ _ Sh c x Hc Hx). split_and!; try done. by eapply Hcf.
    + intros Hn. rewrite (sh_host _ _ _ _ Sh) in Hn |- *. destruct I; [|done]. by case_bool_decide.
  - destruct Hi as (A & I & D & Sh & _ & _). intros c Hc. destruct (sh_cell _ _ _ _ Sh c Hc) as (x & Hx & _). by exists x.
Qed.

(** [n] acknowledges in a row *)
Fixpoint acks (n : nat) (w : hw) : outcome hw :=
  match n with O => Done w | S n => w ← ipc_host_msgack_handler w; acks n w end.

(** the commands pushed so far are the first ones queued, in their order *)
Lemma pushed_prefix w A I D : shape w A I D ->
  pushed w = Z.of_nat <$> seq 0 (length (pushed w)) /\ (Z.to_nat (next_tkn w) = length (pushed w) + length (unpushed w I D))%nat.
Proof.
  intros Sh. destruct (sh_order _ _ _ _ Sh) as (n & Hn & Hn').
  assert (Hl : n = (length (pushed w) + length (unpushed w I D))%nat).
  { apply (f_equal length) in Hn. rewrite length_app, !length_fmap, length_seq in Hn. lia. }
  split; [|rewrite Hn'; lia]. apply (f_equal (take (length (pushed w)))) in Hn.
  rewrite take_app_length in Hn. etransitivity; [exact Hn|]. rewrite <- fmap_take, take_seq. f_equal. f_equal. lia.
Qed.

(** with no push under way, one acknowledge for each waiting command is enough *)
Lemma acks_deliver n w : inv w -> (forall c, pc w !! c <> Some AtPush) -> (Z.to_nat (next_tkn w) - length (pushed w) = n)%nat ->
  exists w', acks n w = Done w' /\ pushed w' = Z.of_nat <$> seq 0 (Z.to_nat (next_tkn w)).
Proof.
  revert w. induction n as [|n IH]; intros w (A & I & D & Sh & Hst & Hcf) Hp Hlen; destruct (pushed_prefix w A I D Sh) as (Hk & Hn).
  - exists w. split; [done|]. rewrite Hk. f_equal. f_equal. lia.
  - assert (Eu : unpushed w I D = D) by (destruct I; cbn; [by rewrite bool_decide_false|done]). rewrite Eu in Hn.
    cbn [acks]. destruct D as [|d D]; [cbn in Hn; lia|]. destruct I as [i|]; [|by discriminate Hst].
    assert (Hh : msga2e_hostid w <> NULL).
    { rewrite (sh_host _ _ _ _ Sh), bool_decide_false by done. intros ->. apply (sh_null _ _ _ _ Sh). rewrite (sh_cmds _ _ _ _ Sh). set_solver. }
    destruct (ack_spec w A (Some i) (d :: D) Sh Hcf Hh) as (w1 & -> & Hi1 & _ & Ep1 & En1 & El1). cbn [mbind outcome_bind].
    cbn [take length] in El1. rewrite take_0 in El1. cbn [length] in El1.
    destruct (IH w1 Hi1) as (w' & -> & E'); [by rewrite Ep1|rewrite En1, El1; lia|]. exists w'. by rewrite En1 in E'.
Qed.

(** C12: commands reach the firmware in the order they were queued, each exactly
    once, and none is left behind.  In every reachable state the commands pushed are
    the first [k] of those queued; and when the task that is about to push, if there
    is one, has done so, one acknowledge for each command still waiting delivers all
    of them. *)
Theorem cmd_queue_delivers (w : hw) (H : reachable w) :
  exists k w1 w', pushed w = Z.of_nat <$> seq 0 k /\ (k <= Z.to_nat (next_tkn w))%nat
    /\ ((forall c, pc w !! c <> Some AtPush) /\ w1 = w \/ exists c, pc w !! c = Some AtPush /\ run_event (Push c) w = Done w1)
    /\ acks (Z.to_nat (next_tkn w) - length (pushed w1)) w1 = Done w'
    /\ pushed w' = Z.of_nat <$> seq 0 (Z.to_nat (next_tkn w)).
Proof.
  pose proof (cmd_reachable_inv w H) as Hi. destruct Hi as (A & I & D & Sh & Hst & Hcf). pose proof (pushed_prefix w A I D Sh) as [Hk Hn].
  assert (Hi : inv w) by (by exists A, I, D). exists (length (pushed w)).
  assert ((exists c, I = Some c /\ pc w !! c = Some AtPush) \/ (forall c, pc w !! c <> Some AtPush)) as [(c & -> & Hc)|Hp].
  { destruct I as [c|]; [destruct (decide (pc w !! c = Some AtPush)) as [Hc|Hc]; [left; by exists c|]|]; right; intros d Hd;
      apply (sh_atpush _ _ _ _ Sh) in Hd as E; [congruence|done]. }
  - destruct (push_step w c Hi Hc) as (w0 & E & Hi0 & _ & Ep & En).
    destruct (acks_deliver (Z.to_nat (next_tkn w0) - length (pushed w0)) (with_pc (<[c := AtReturn]> (pc w0)) w0) Hi0) as (w' & E' & Hp'); [|reflexivity|].
    + intros d. cbn. rewrite Ep. destruct (decide (d = c)) as [->|Hne]; [by rewrite lookup_insert_eq|]. rewrite lookup_insert_ne by done.
      intros Hd. apply (sh_atpush _ _ _ _ Sh) in Hd. congruence.
    + cbn [next_tkn with_pc] in E', Hp'. rewrite En in E', Hp'. exists (with_pc (<[c := AtReturn]> (pc w0)) w0), w'. split; [exact Hk|]. split; [lia|]. split; [right; exists c; split; [done|]|by split].
      cbn [run_event]. by rewrite E.
  - destruct (acks_deliver (Z.to_nat (next_tkn w) - length (pushed w)) w Hi Hp eq_refl) as (w' & E' & Hp'). exists w, w'. split; [exact Hk|]. split; [lia|]. split; [by left|by split].
Qed.

(** three commands: the second waits for a confirmation, the third for its turn *)
Definition after (e : hw_event) (w : hw) : hw := match run_event e w with Done w => w | _ => w end.
Definition hw1 : hw := after (Send true (Some 100) 500 [11; 12] 7 false true 0) hw0.
Definition hw2 : hw := after (Push 100) hw1.
Definition hw3 : hw := after (Send true (Some 200) 510 [13] 8 true false 0) hw2.
Definition hw4 : hw := after Ack hw3.
Definition sample_hw : hw := after (Send true (Some 300) 520 [14] 9 false false 0) hw4.

Lemma reach_after w e : reachable w -> enabled e w -> (forall c, e = Return c -> ~ overtaken w c) -> reachable (after e w).
Proof.
  intros R He Hno. destruct (event_spec e w (cmd_reachable_inv w R) He) as [(c & E & Ho & _)|(_ & w' & E & _)]; [by destruct (Hno c E)|].
  unfold after. rewrite E. by eapply reach_step.
Qed.

Lemma enabled_send env c msg ws rid nb rc cfm w :
  bool_decide (c <> NULL /\ store_ w !! c = None /\ pc w !! c = None) && bool_decide (msgs w !! msg = None)
    && (Z.of_nat (length ws) <=? IPC_A2E_MSG_BUF_SIZE) && (next_tkn w + 1 <? 2 ^ 32) = true ->
  enabled (Send env (Some c) msg ws rid nb rc cfm) w.
Proof. rewrite !andb_true_iff, !bool_decide_eq_true, Z.ltb_lt, Z.leb_le. cbn. tauto. Qed.

Lemma hw1_reachable : reachable hw1.
Proof. apply reach_after; [apply reach_init|apply enabled_send; vm_compute; reflexivity|done]. Qed.
Lemma sample_reachable : reachable sample_hw.
Proof.
  apply reach_after; [apply reach_after; [apply reach_after; [apply reach_after; [apply hw1_reachable| |done]| |done]| |done]| |done].
  - vm_compute. reflexivity.
  - apply enabled_send. vm_compute. reflexivity.
  - vm_compute. discriminate.
  - apply enabled_send. vm_compute. reflexivity.
Qed.

Lemma cmd_queue_safe_witness :
  (exists w', run_event Ack sample_hw = Done w' /\ reachable w') /\ pushed sample_hw = [0; 1].
Proof.
  split; [|by vm_compute].
  destruct (proj1 (cmd_queue_safe sample_hw sample_reachable) Ack) as (w' & H1 & H2 & _); [vm_compute; discriminate|done|].
  exists w'. split; [exact H1|exact H2].
Defined.

(** a command that is about to be pushed: the push delivers it *)
Lemma cmd_queue_delivers_witness :
  exists w1 w', run_event (Push 100) hw1 = Done w1 /\ acks (1 - length (pushed w1)) w1 = Done w' /\ pushed w' = [0].
Proof.
  destruct (cmd_queue_delivers hw1 hw1_reachable) as (k & w1 & w' & _ & _ & [[H _]|(c & Hc & E)] & H2 & H3).
  - exfalso. apply (H 100). by vm_compute.
  - exists w1, w'. assert (c = 100) as ->.
    { destruct (decide (c = 100)) as [|Hne]; [done|]. exfalso.
      assert (En : pc hw1 = {[100 := AtPush]}) by by vm_compute. rewrite En, lookup_singleton_ne in Hc; [done|]. exact (not_eq_sym Hne). }
    split; [exact E|]. split; [exact H2|exact H3].
Defined.

(** the race of a non-blocking command: acknowledged before its task has gone on,
    the command is freed and the task then uses it *)
Lemma nonblocking_race :
  let w := after Ack (after (Push 100) (after (Send true (Some 100) 500 [11] 7 true false 0) hw0)) in
  overtaken w 100 /\ bl_send_msg_return 100 0 w = Fault.
Proof. vm_compute. repeat split. Qed.

(** a command refused because the queue is full leaves its request message allocated,
    and a non-blocking one itself *)
Lemma full_queue_leaks w c msg ws rid nb rc cfm :
  state w <> RWNX_CMD_MGR_STATE_CRASHED -> full w = true ->
  exists r w', bl_send_msg true (Some c) msg rid nb rc cfm (with_msgs (<[msg := ws]> (msgs w)) w) = Done (Some r, w')
    /\ is_Some (msgs w' !! msg) /\ (if nb then r = ENOMEM /\ is_Some (store_ w' !! c) else r = - ENOMEM /\ store_ w' !! c = None).
Proof.
  intros Hs Hf. unfold bl_send_msg. cbn [negb]. fold (fresh_cmd msg rid cfm nb rc).
  rewrite (locked_full _ c (fresh_cmd msg rid cfm nb rc)); [|cbn; apply lookup_insert_eq|done|done].
  destruct nb; [unfold get_cmd|unfold free_cmd]; cbn; rewrite lookup_insert_eq; cbn; eexists _, _; (split; [done|]); cbn;
    rewrite !lookup_insert_eq; (split; [by eexists|]); (split; [done|]); [by eexists|apply lookup_delete_eq].
Qed.

(** the request is in the mailbox after a push *)
Lemma push_copies c w w' x ws : ipc_host_msg_push c w = Done w' -> store_ w !! c = Some x -> msgs w !! a2e_msg x = Some ws ->
  take (length ws) (mailbox w') = ws /\ msga2e_hostid w' = c.
Proof.
  unfold ipc_host_msg_push. destruct (_ =? _); [|done]. intros H Hx Hw. rewrite (get_cmd_done _ _ _ Hx) in H. cbn in H. rewrite Hw in H.
  destruct (_ <=? _); [|done]. injection H as <-. split; [apply take_app_length|done].
Qed.
