(* ===== verification/Bytes.v ===== *)
(** * Byte buffers

    Copying between buffers with the bounds of both checked, and the lemmas on
    lists of bytes that the protocol and file-system components share. *)
From S2P Require Import Prelude.

Definition zlen {A} (l : list A) : Z := Z.of_nat (length l).

Definition s16 (z : Z) : Z := (z + 2 ^ 15) mod 2 ^ 16 - 2 ^ 15.

(** [memcpy] of [n] bytes from [src + soff] to [dst + off]; a read or write
    outside its buffer is a fault *)
Definition memcpy (dst : list Z) (off : Z) (src : list Z) (soff n : Z) : outcome (list Z) :=
  if decide (0 <= off /\ 0 <= soff /\ 0 <= n /\ off + n <= Z.of_nat (length dst)
             /\ soff + n <= Z.of_nat (length src)) then
    Done (take (Z.to_nat off) dst ++ take (Z.to_nat n) (drop (Z.to_nat soff) src)
          ++ drop (Z.to_nat (off + n)) dst)
  else Fault.

Lemma memcpy_done dst off src soff n :
  0 <= off -> 0 <= soff -> 0 <= n -> off + n <= Z.of_nat (length dst) -> soff + n <= Z.of_nat (length src) ->
  memcpy dst off src soff n =
    Done (take (Z.to_nat off) dst ++ take (Z.to_nat n) (drop (Z.to_nat soff) src) ++ drop (Z.to_nat (off + n)) dst).
Proof. intros. unfold memcpy. by rewrite decide_True. Qed.

Lemma memcpy_length dst off src soff n d : memcpy dst off src soff n = Done d -> length d = length dst.
Proof.
  unfold memcpy. case_decide as H; [|done]. intros [= <-]. rewrite !length_app, !length_take, !length_drop. lia.
Qed.

(** a byte of a value, and a 16-bit value from its two bytes *)
Lemma u8_range z : 0 <= u8 z < 256.
Proof. apply Z.mod_pos_bound. lia. Qed.
Lemma u16_range z : 0 <= u16 z < 65536.
Proof. apply Z.mod_pos_bound. lia. Qed.
Lemma u8_small z : 0 <= z < 256 -> u8 z = z.
Proof. intros H. by apply Z.mod_small. Qed.
Lemma u16_small z : 0 <= z < 65536 -> u16 z = z.
Proof. intros H. by apply Z.mod_small. Qed.
Lemma s16_small z : -32768 <= z < 32768 -> s16 z = z.
Proof. intros H. unfold s16. rewrite Z.mod_small by lia. lia. Qed.

Lemma le16_bytes x : 0 <= x < 65536 -> Z.lor (u8 x) (u16 (Z.shiftl (u8 (Z.shiftr x 8)) 8)) = x.
Proof.
  intros Hx. assert (Hs : 0 <= Z.shiftr x 8 < 256).
  { rewrite Z.shiftr_div_pow2 by lia. change (2 ^ 8) with 256.
    split; [apply Z.div_pos; lia|apply Z.div_lt_upper_bound; lia]. }
  rewrite (u8_small (Z.shiftr x 8)) by lia. rewrite (u16_small (Z.shiftl _ 8)).
  2: { rewrite Z.shiftl_mul_pow2 by lia. lia. }
  unfold u8, wrap. rewrite <- Z.land_ones by lia. zbits n.
  destruct (decide (n < 8)) as [Hn|Hn].
  - by rewrite (Z.testbit_neg_r _ (n - 8)), Z.ones_spec_low, andb_true_r, orb_false_r by lia.
  - rewrite Z.shiftr_spec, Z.ones_spec_high, andb_false_r by lia. cbn [orb]. f_equal. lia.
Qed.

(** the first and the remaining bytes of a copy *)
Lemma take_add {A} (l : list A) n m : take (n + m) l = take n l ++ take m (drop n l).
Proof. by rewrite take_take_drop. Qed.
