(* ===== verification/BleTransfer.v ===== *)
(** * The packet protocol of BLE provisioning

    [stage/blsync_ble/src/transfer.c] with the two layers under it,
    [encrypt_layer.c] and [payload.c], and the headers [bitops.h] and
    [endian.h]: messages are cut into packets of at most the MTU, each packet
    is acknowledged, and the receiver puts the message together again and hands
    it to the application.  This file holds the definitions; the theorems are in
    [BleTransferProofs]. *)
From S2P Require Import Prelude Bytes.

(** ** bitops.h and endian.h *)

Definition BIT_GET (data bit : Z) : Z := if Z.land data (Z.shiftl 1 bit) =? 0 then 0 else 1.
Definition BIT_MODIFY (data bit value : Z) : Z :=
  u8 (if value =? 0 then Z.land data (Z.lnot (Z.shiftl 1 bit)) else Z.lor data (Z.shiftl 1 bit)).
Definition BITS_GET (data start len : Z) : Z := Z.land (Z.shiftr data start) (Z.ones len).
Definition BITS_SET (data start len value : Z) : Z :=
  u8 (Z.lor (Z.land data (Z.lnot (Z.shiftl (Z.ones len) start))) (Z.shiftl (Z.land value (Z.ones len)) start)).

Definition put_cpu_le16 (buf : list Z) (off x : Z) : outcome (list Z) :=
  buf ← aset buf off (u8 x);
  aset buf (off + 1) (u8 (Z.shiftr x 8)).
Definition put_cpu_le32 (buf : list Z) (off x : Z) : outcome (list Z) :=
  buf ← aset buf off (u8 x);
  buf ← aset buf (off + 1) (u8 (Z.shiftr x 8));
  buf ← aset buf (off + 2) (u8 (Z.shiftr x 16));
  aset buf (off + 3) (u8 (Z.shiftr x 24)).
Definition get_cpu_le16 (buf : list Z) (off : Z) : outcome Z :=
  a ← aget buf off; b ← aget buf (off + 1);
  Done (Z.lor a (u16 (Z.shiftl b 8))).
Definition get_cpu_le32 (buf : list Z) (off : Z) : outcome Z :=
  a ← aget buf off; b ← aget buf (off + 1); c ← aget buf (off + 2); d ← aget buf (off + 3);
  Done (Z.lor (Z.lor (Z.lor a (u32 (Z.shiftl b 8))) (u32 (Z.shiftl c 16))) (u32 (Z.shiftl d 24))).

(** ** Constants *)

Definition PRO_OK := 0.
Definition PRO_NOT_READY := 1.
Definition PRO_ERROR := 2.
Definition PRO_NO_MEM := 3.
Definition PRO_TIMEOUT := 4.
Definition PRO_CTRL_RETRY_BIT := 0.
Definition PRO_CTRL_FRAG_BIT := 1.
Definition PRO_CTRL_PORTE_BIT := 2.
Definition PRO_CTRL_ACK_BIT := 3.
Definition PRO_CTRL_TYPE_BIT := 4.
Definition PRO_CTRL_VERSION_BIT := 6.
Definition PACK_FRAG_END_BIT := 15.
Definition PRO_NOT_RETRY := 0.
Definition PRO_VERSION00 := 0.
Definition PRO_TYPE_CMD := 0.
Definition PRO_TYPE_DATA := 1.
Definition PRO_ACK_PACK := 1.
Definition PRO_NOT_ACK_PACK := 0.
Definition PRO_NOT_PORTECTE := 0.
Definition PRO_CONFIG_TIMEOUT := 10000.
Definition PRO_CONFIG_BUF_SIZE := 256.
Definition PYLD_TYPE_CMD := 0.
Definition PYLD_TYPE_DATA := 1.

(** ** Data *)

Record pro_event := { ev_type : Z; event_id : Z; p_buf : option (list Z); ev_length : Z }.

(** [struct pro_dev] with the flag [is_head] and the type [pyld_type] of the
    layers it contains; an allocated buffer is its contents, NULL is [None] *)
Record pro_dev := {
  is_head : Z; pyld_type : Z; old_seq : Z; pyld_buf : option (list Z); tol_len_now : Z; total_length : Z;
  mtu : Z; ack_len : Z; ack_buf : option (list Z); seq_start_ms : Z }.

Record general_head := { ctrl : Z; seq : Z; frag_ctrl : Z }.

Definition set_enc (h t : Z) (d : pro_dev) : pro_dev :=
  {| is_head := h; pyld_type := t; old_seq := old_seq d; pyld_buf := pyld_buf d; tol_len_now := tol_len_now d;
     total_length := total_length d; mtu := mtu d; ack_len := ack_len d; ack_buf := ack_buf d;
     seq_start_ms := seq_start_ms d |}.
Definition set_rx (b : option (list Z)) (now total : Z) (d : pro_dev) : pro_dev :=
  {| is_head := is_head d; pyld_type := pyld_type d; old_seq := old_seq d; pyld_buf := b; tol_len_now := now;
     total_length := total; mtu := mtu d; ack_len := ack_len d; ack_buf := ack_buf d;
     seq_start_ms := seq_start_ms d |}.
Definition set_ack (n : Z) (b : option (list Z)) (d : pro_dev) : pro_dev :=
  {| is_head := is_head d; pyld_type := pyld_type d; old_seq := old_seq d; pyld_buf := pyld_buf d;
     tol_len_now := tol_len_now d; total_length := total_length d; mtu := mtu d; ack_len := n; ack_buf := b;
     seq_start_ms := seq_start_ms d |}.
Definition set_mtu (m : Z) (d : pro_dev) : pro_dev :=
  {| is_head := is_head d; pyld_type := pyld_type d; old_seq := old_seq d; pyld_buf := pyld_buf d;
     tol_len_now := tol_len_now d; total_length := total_length d; mtu := m; ack_len := ack_len d;
     ack_buf := ack_buf d; seq_start_ms := seq_start_ms d |}.
Definition set_seq (s ms : Z) (d : pro_dev) : pro_dev :=
  {| is_head := is_head d; pyld_type := pyld_type d; old_seq := s; pyld_buf := pyld_buf d;
     tol_len_now := tol_len_now d; total_length := total_length d; mtu := mtu d; ack_len := ack_len d;
     ack_buf := ack_buf d; seq_start_ms := ms |}.
Definition encrypt_layer_is_head (v : Z) (d : pro_dev) : pro_dev := set_enc v (pyld_type d) d.

Definition __clear_dev (d : pro_dev) : pro_dev := set_rx None 0 0 d.

(** ** payload.c *)

(** write [n] bytes at [dst + off]; NULL takes only an empty copy *)
Definition fill (dst : option (list Z)) (off : Z) (src : list Z) (soff n : Z) : outcome (option (list Z)) :=
  match dst with
  | None => if n =? 0 then Done None else Fault
  | Some d => d ← memcpy d off src soff n; Done (Some d)
  end.

(** the result, the type byte, the length and the destination *)
Definition __payload_read (pt : Z) (dst : option (list Z)) (off : Z) (src : list Z) (soff src_len : Z)
  : outcome (Z + Z * Z * option (list Z)) :=
  if pt =? PYLD_TYPE_CMD then
    if negb (src_len =? 5) then Done (inl (- PRO_ERROR))
    else
      ty ← aget src soff;
      dst ← fill dst off src (soff + 1) 4;
      Done (inr (ty, 4, dst))
  else
    n ← aget src soff;
    if negb (src_len - 2 =? n) then Done (inl (- PRO_ERROR))
    else
      ty ← aget src (soff + 1);
      dst ← fill dst off src (soff + 2) n;
      Done (inr (ty, n, dst)).

(** the result, [*dst_len] and the destination; [remain_len] is an [int16_t] *)
Definition __payload_write (pt : Z) (dst : list Z) (off dst_len src_id : Z) (src : list Z) (soff src_len remain_len : Z)
  : outcome (Z * Z * list Z) :=
  if remain_len <? 0 then Done (- PRO_ERROR, dst_len, dst)
  else if pt =? PYLD_TYPE_CMD then
    let remain_len := s16 (remain_len - 1) in
    let payload_size := u8 (if src_len <? remain_len then src_len else remain_len) in
    if negb (payload_size =? 4) then Done (- PRO_ERROR, dst_len, dst)
    else
      dst ← aset dst off src_id;
      dst ← memcpy dst (off + 1) src soff 4;
      Done (payload_size, u8 (dst_len + 5), dst)
  else
    let remain_len := s16 (remain_len - 2) in
    let payload_size := u8 (if src_len <? remain_len then src_len else remain_len) in
    dst ← aset dst off payload_size;
    dst ← aset dst (off + 1) src_id;
    dst ← memcpy dst (off + 2) src soff payload_size;
    Done (payload_size, u8 (dst_len + (2 + payload_size)), dst).

(** ** encrypt_layer.c *)

(** [src_len] is a [size_t] and becomes the [uint8_t] of the payload layer *)
Definition __pack_encrypt_read (pack_type : Z) (dst : option (list Z)) (off : Z) (src : list Z) (soff src_len : Z)
  (d : pro_dev) : outcome ((Z + Z * Z * option (list Z)) * pro_dev) :=
  enc_ctrl ← aget src soff;
  '(soff, src_len) ← (if negb (is_head d =? 0) then
      ctr ← get_cpu_le32 src (soff + 1);
      mac ← get_cpu_le32 src (soff + 5);
      Done (soff + 9, u32 (src_len - 9))
    else Done (soff + 1, u32 (src_len - 1)));
  let pt := if pack_type =? PRO_TYPE_CMD then PYLD_TYPE_CMD else PYLD_TYPE_DATA in
  r ← __payload_read pt dst off src soff (u8 src_len);
  Done (r, set_enc (is_head d) pt d).

Definition __pack_encrypt_write (src_id : Z) (dst : list Z) (off dst_len : Z) (src : list Z)
  (soff src_len remain_len : Z) (d : pro_dev) : outcome (Z * Z * list Z * pro_dev) :=
  dst ← aset dst off 0;
  '(dst, off, dst_len, remain_len) ← (if negb (is_head d =? 0) then
      dst ← put_cpu_le32 dst (off + 1) 0;
      dst ← put_cpu_le32 dst (off + 5) 0;
      Done (dst, off + 9, u8 (dst_len + 9), s16 (remain_len - 9))
    else Done (dst, off + 1, u8 (dst_len + 1), s16 (remain_len - 1)));
  '(ret, dst_len, dst) ← __payload_write PYLD_TYPE_DATA dst off dst_len src_id src soff src_len remain_len;
  Done (ret, dst_len, dst, set_enc (is_head d) PYLD_TYPE_DATA d).

(** ** transfer.c

    The protocol over an application of state [App].  Each call of the
    environment (an allocation, the semaphore that a read of the packet gives,
    the tick counter) is answered by a function of the number of such calls so
    far. *)

Record world (App : Type) := { dev : pro_dev; calls : nat; appst : App }.
Arguments dev {App} w. Arguments calls {App} w. Arguments appst {App} w.
Arguments Build_world {App} dev calls appst.

Section Transfer.
Context {App : Type}.
Abbreviation W := (world App).

(** [malloc n size] is the block the call gives, with its contents, or NULL *)
Context (malloc : nat -> Z -> option (list Z)).
(** does the semaphore arrive before the timeout *)
Context (sem_take : nat -> bool).
Context (xTaskGetTickCount : nat -> Z).
(** the two functions of [struct pro_func]; the result of the first is not used *)
Context (pfu_bytes_send : list Z -> App -> App).
Context (pfn_recv_event : option (pro_event -> W -> outcome (Z * W))).
(** the number of turns of the send loop *)
Context (fuel : nat).

Definition with_dev (f : pro_dev -> pro_dev) (w : W) : W := {| dev := f (dev w); calls := calls w; appst := appst w |}.
Definition tick (w : W) : W := {| dev := dev w; calls := S (calls w); appst := appst w |}.
Definition with_app (f : App -> App) (w : W) : W := {| dev := dev w; calls := calls w; appst := f (appst w) |}.

Definition __pack_trans_end (h : general_head) : bool :=
  (BIT_GET (ctrl h) PRO_CTRL_FRAG_BIT =? 0) || negb (BIT_GET (frag_ctrl h) PACK_FRAG_END_BIT =? 0).

(** *** Sending *)

(** the local variables of the send loop that live across its turns *)
Record sending := { s_buf : list Z; s_head : general_head; s_tol : Z }.
Variant turn := Stop (ret : Z) (w : W) | More (s : sending) (w : W).

(** the first half of a turn of the loop of [__protocol_send]: the lengths and
    the payload go into the buffer.  The result of the payload layer, the
    positions of the payload and of the end, the header's length *)
Definition send_fill (type : Z) (data : list Z) (length : Z) (s : sending) (w : W)
  : outcome (Z * Z * Z * Z * list Z * W) :=
  let mtu_remain := s16 (s16 (mtu (dev w)) - 4) in
  '(buf, dst, dst_len, mtu_remain, head_len, w) ← (if s_tol s =? 0 then
      buf ← put_cpu_le16 (s_buf s) 4 length;
      Done (buf, 6, 6, s16 (mtu_remain - 2), 6, with_dev (encrypt_layer_is_head 1) w)
    else Done (s_buf s, 4, 4, mtu_remain, 4, w));
  let '(dst, dst_len, mtu_remain, head_len) := (dst + 1, u8 (dst_len + 1), s16 (mtu_remain - 1), u8 (head_len + 1)) in
  '(ret, dst_len, buf, d) ← __pack_encrypt_write type buf dst dst_len data (s_tol s)
                              (u8 (length - s_tol s)) mtu_remain (dev w);
  Done (ret, dst, dst_len, head_len, buf, with_dev (fun _ => encrypt_layer_is_head 0 d) w).

(** the second half: the header, the packet, the semaphore *)
Definition send_emit (length : Z) (s : sending) (ret dst dst_len head_len : Z) (buf : list Z) (w : W) : outcome turn :=
  let payload_size := ret in
  let tol := u16 (s_tol s + payload_size) in
  if length <? tol then Done (Stop (- PRO_ERROR) w)
  else
    let frag_end := tol =? length in
    let frag := if frag_end then Z.lor (frag_ctrl (s_head s)) (Z.shiftl 1 PACK_FRAG_END_BIT)
                else frag_ctrl (s_head s) in
    let c := if payload_size <? length then u8 (Z.lor (ctrl (s_head s)) (Z.shiftl 1 PRO_CTRL_FRAG_BIT))
             else ctrl (s_head s) in
    buf ← aset buf 0 c;
    buf ← aset buf 1 (seq (s_head s));
    buf ← put_cpu_le16 buf 2 frag;
    buf ← aset buf (dst - 1) (u8 (dst_len - head_len));
    packet ← memcpy (replicate (Z.to_nat dst_len) 0) 0 buf 0 dst_len;
    let w := with_app (pfu_bytes_send packet) w in
    let head := {| ctrl := c; seq := u8 (seq (s_head s) + 1); frag_ctrl := u16 (frag + 1) |} in
    let taken := sem_take (calls w) in
    let w := tick w in
    if negb taken then Done (Stop (- PRO_TIMEOUT) w)
    else if frag_end then Done (Stop ret w)
    else Done (More {| s_buf := buf; s_head := head; s_tol := tol |} w).

Definition send_turn (type : Z) (data : list Z) (length : Z) (s : sending) (w : W) : outcome turn :=
  '(ret, dst, dst_len, head_len, buf, w) ← send_fill type data length s w;
  if ret <? PRO_OK then Done (Stop ret w)
  else send_emit length s ret dst dst_len head_len buf w.

Fixpoint send_loop (n : nat) (type : Z) (data : list Z) (length : Z) (s : sending) (w : W) : outcome (Z * W) :=
  match n with
  | O => NoFuel
  | S n =>
    t ← send_turn type data length s w;
    match t with
    | Stop ret w => Done (ret, w)
    | More s w => send_loop n type data length s w
    end
  end.

(** [data] is what can be read at [p_data] *)
Definition __protocol_send (sq ack type : Z) (data : list Z) (length : Z) (w : W) : outcome (Z * W) :=
  let c := BIT_MODIFY 0 PRO_CTRL_RETRY_BIT PRO_NOT_RETRY in
  let c := BIT_MODIFY c PRO_CTRL_PORTE_BIT PRO_NOT_PORTECTE in
  let c := BIT_MODIFY c PRO_CTRL_ACK_BIT ack in
  let c := BITS_SET c PRO_CTRL_TYPE_BIT 2 PRO_TYPE_DATA in
  let c := BITS_SET c PRO_CTRL_VERSION_BIT 2 PRO_VERSION00 in
  let b := malloc (calls w) (mtu (dev w)) in
  let w := tick w in
  match b with
  | None => Done (- PRO_NO_MEM, w)
  | Some b => send_loop fuel type data length
                {| s_buf := b; s_head := {| ctrl := c; seq := sq; frag_ctrl := 0 |}; s_tol := 0 |} w
  end.

Definition pro_trans_write (data : list Z) (length : Z) (w : W) : outcome (Z * W) :=
  __protocol_send 0 PRO_NOT_ACK_PACK 0 data length w.

Definition __protocol_ack (h : general_head) (ack_code : Z) (ack_data : option (list Z)) (len : Z) (w : W)
  : outcome (Z * W) :=
  __protocol_send (seq h) PRO_ACK_PACK ack_code (default [] ack_data) len w.

(** *** Receiving *)

(** the header of a packet: the position and length of the encrypted part, or
    the error *)
Definition pack_open (h : general_head) (buf : list Z) (off bytes : Z) (w : W) : outcome ((Z + Z * Z) * W) :=
  if BITS_GET (frag_ctrl h) 0 PACK_FRAG_END_BIT =? 0 then
    total ← get_cpu_le16 buf off;
    let w := with_dev (fun d => set_rx (pyld_buf d) (tol_len_now d) total d) w in
    src_len ← aget buf (off + 2);
    if negb (bytes =? src_len + 3) then Done (inl (- PRO_ERROR), w)
    else
      let w := match pyld_buf (dev w) with Some _ => with_dev __clear_dev w | None => w end in
      let '(ok, w) := if total_length (dev w) =? 0 then (true, w) else
        let b := malloc (calls w) (total_length (dev w)) in
        let w := with_dev (fun d => set_rx b (tol_len_now d) (total_length d) d) (tick w) in
        (match b with Some _ => true | None => false end, w) in
      if ok then Done (inr (off + 3, src_len), with_dev (encrypt_layer_is_head 1) w)
      else Done (inl (- PRO_NO_MEM), w)
  else
    src_len ← aget buf off;
    if negb (bytes =? src_len + 1) then Done (inl (- PRO_ERROR), w)
    else Done (inr (off + 1, src_len), with_dev (encrypt_layer_is_head 0) w).

(** the end of a message: hand it to the application *)
Definition pack_deliver (pack_type ev_id ret : Z) (w : W) : outcome (Z * W) :=
  if negb (tol_len_now (dev w) =? total_length (dev w)) then Done (- PRO_ERROR, with_dev __clear_dev w)
  else
    let ev := {| ev_type := pack_type; event_id := ev_id; p_buf := pyld_buf (dev w);
                 ev_length := tol_len_now (dev w) |} in
    match pfn_recv_event with
    | None => Done (ret, with_dev __clear_dev w)
    | Some recv =>
      let b := malloc (calls w) PRO_CONFIG_BUF_SIZE in
      let w := with_dev (fun d => set_ack (ack_len d) b d) (tick w) in
      match b with
      | None => Done (- PRO_NO_MEM, w)
      | Some _ =>
        '(ret, w) ← recv ev w;
        Done (ret, with_dev __clear_dev w)
      end
    end.

(** behind the label [__end]: answer, and drop the answer's buffer *)
Definition pack_reply (h : general_head) (ret : Z) (w : W) : outcome (Z * W) :=
  w ← (if BIT_GET (ctrl h) PRO_CTRL_ACK_BIT =? 0 then
         '(_, w) ← __protocol_ack h (u8 ret) (ack_buf (dev w)) (u8 (ack_len (dev w))) w; Done w
       else Done w);
  Done (ret, with_dev (set_ack 0 None) w).

Definition __pack_trans (h : general_head) (buf : list Z) (off bytes : Z) (w : W) : outcome (Z * W) :=
  let pack_type := BITS_GET (ctrl h) PRO_CTRL_TYPE_BIT 2 in
  '(o, w) ← pack_open h buf off bytes w;
  '(ret, w) ← (match o with
    | inl ret => Done (ret, w)
    | inr (soff, src_len) =>
      '(r, d) ← __pack_encrypt_read pack_type (pyld_buf (dev w)) (tol_len_now (dev w)) buf soff src_len (dev w);
      let w := with_dev (fun _ => d) w in
      match r with
      | inl ret => Done (ret, with_dev __clear_dev w)
      | inr (ev_id, dst_len, b) =>
        let w := with_dev (fun d => set_rx b (u16 (tol_len_now d + dst_len)) (total_length d) d) w in
        if __pack_trans_end h then pack_deliver pack_type ev_id PRO_OK w else Done (PRO_OK, w)
      end
    end);
  pack_reply h ret w.

Definition __frag_section (h : general_head) (buf : list Z) (off bytes : Z) (w : W) : outcome (Z * W) :=
  f ← get_cpu_le16 buf off;
  __pack_trans {| ctrl := ctrl h; seq := seq h; frag_ctrl := f |} buf (off + 2) (u32 (bytes - 2)) w.

Definition __seq_timeout (timeout_ms : Z) (w : W) : bool * W :=
  if seq_start_ms (dev w) =? 0 then (false, w)
  else (timeout_ms <? xTaskGetTickCount (calls w) - seq_start_ms (dev w), tick w).
Definition __seq_update (new_seq : Z) (w : W) : W :=
  with_dev (set_seq new_seq (xTaskGetTickCount (calls w))) (tick w).

(** [buf] is what can be read at the pointer, [bytes] the length passed *)
Definition pro_trans_read (buf : option (list Z)) (bytes m : Z) (w : W) : outcome (Z * W) :=
  match buf with
  | None => Done (- PRO_ERROR, w)
  | Some buf =>
    let w := with_dev (set_mtu m) w in
    c ← aget buf 0; sq ← aget buf 1;
    let '(late, w) := if negb (BIT_GET c PRO_CTRL_RETRY_BIT =? 0) then
        let w := if negb (sq =? old_seq (dev w)) then __seq_update sq w else w in
        __seq_timeout PRO_CONFIG_TIMEOUT w
      else (false, w) in
    if late : bool then Done (- PRO_TIMEOUT, with_dev __clear_dev w)
    else __frag_section {| ctrl := c; seq := sq; frag_ctrl := 0 |} buf 2 (u32 (bytes - 2)) w
  end.

(** copy the application's answer into the acknowledge *)
Definition pro_trans_layer_ack_read (buf : option (list Z)) (bytes : Z) (w : W) : outcome (Z * W) :=
  match buf with
  | None => Done (- PRO_ERROR, w)
  | Some buf =>
    if PRO_CONFIG_BUF_SIZE <? bytes then Done (- PRO_ERROR, w)
    else match ack_buf (dev w) with
    | None => Done (- PRO_NO_MEM, w)
    | Some a =>
      a ← memcpy a 0 buf 0 bytes;
      Done (PRO_OK, with_dev (set_ack (u16 bytes) (Some a)) w)
    end
  end.

Definition pro_trans_reset (w : W) : W := with_dev __clear_dev w.

End Transfer.

Definition pro_trans_init : pro_dev :=
  {| is_head := 0; pyld_type := 0; old_seq := 0; pyld_buf := None; tol_len_now := 0; total_length := 0; mtu := 0;
     ack_len := 0; ack_buf := None; seq_start_ms := 0 |}.
