(* ===== verification/BleTransferProofs.v ===== *)
(** * Proofs about the packet protocol of BLE provisioning *)
From S2P Require Import Prelude Bytes BleTransfer.

(** ** The packets of a message *)

(** the first packet carries the length of the message and the fields of the
    encryption layer, the others only their own length *)
Definition frame (head : bool) (c sq f len type : Z) (chunk : list Z) : list Z :=
  [c; sq; u8 f; u8 (Z.shiftr f 8)] ++
  (if head then [u8 len; u8 (Z.shiftr len 8); zlen chunk + 11; 0; 0; 0; 0; 0; 0; 0; 0; 0]
   else [zlen chunk + 3; 0]) ++
  [zlen chunk; type] ++ chunk.

(** what is left of the message after a packet takes as much as the MTU [m] allows *)
Definition overhead (head : bool) : Z := if head then 18 else 8.
Definition frag_bit (n len c : Z) : Z := if n <? len then Z.lor c 2 else c.

(** the packets for [rest], the end of a message of length [len]; [k] bounds their number *)
Fixpoint frames (k : nat) (m : Z) (head : bool) (c sq f len type : Z) (rest : list Z) : list (list Z) :=
  match k with
  | O => []
  | S k =>
    let n := Z.min (zlen rest) (m - overhead head) in
    let c := frag_bit n len c in
    let chunk := take (Z.to_nat n) rest in
    if n =? zlen rest then [frame head c sq (Z.lor f 32768) len type chunk]
    else frame head c sq f len type chunk
         :: frames k m false c (u8 (sq + 1)) (f + 1) len type (drop (Z.to_nat n) rest)
  end.

Definition base_ctrl (ack : Z) : Z := if ack =? 0 then 16 else 24.
Definition packets (m sq ack type : Z) (msg : list Z) : list (list Z) :=
  frames (S (length msg)) m true (base_ctrl ack) sq 0 (zlen msg) type msg.

(** the packets that go out when the [k]-th take of the semaphore is the first
    of them: sending stops at the first that times out *)
Fixpoint cut (sem : nat -> bool) (k : nat) (ps : list (list Z)) : list (list Z) * bool :=
  match ps with
  | [] => ([], true)
  | p :: ps => if sem k then let '(qs, ok) := cut sem (S k) ps in (p :: qs, ok) else ([p], false)
  end.

Lemma frame_len head c sq f len type chunk : zlen (frame head c sq f len type chunk) = overhead head + zlen chunk.
Proof. unfold frame, zlen. rewrite !length_app. destruct head; cbn [length overhead]; lia. Qed.

(** ** Sending *)

Lemma memcpy_packet buf n : 0 <= n <= zlen buf -> memcpy (replicate (Z.to_nat n) 0) 0 buf 0 n = Done (take (Z.to_nat n) buf).
Proof.
  intros H. unfold zlen in H. rewrite memcpy_done by (rewrite ?length_replicate; lia).
  rewrite Z2Nat.inj_0, drop_0, take_0. cbn [app]. rewrite drop_ge by (rewrite length_replicate; lia). by rewrite app_nil_r.
Qed.

Lemma split_18 (l : list Z) : 18 <= zlen l -> exists x0 x1 x2 x3 x4 x5 x6 x7 x8 x9 x10 x11 x12 x13 x14 x15 x16 x17 r,
  l = x0 :: x1 :: x2 :: x3 :: x4 :: x5 :: x6 :: x7 :: x8 :: x9 :: x10 :: x11 :: x12 :: x13 :: x14 :: x15 :: x16 :: x17 :: r.
Proof.
  intros H. unfold zlen in H.
  do 18 (destruct l as [|? l]; [cbn [length] in H; lia|]). repeat eexists.
Qed.

Lemma split_8 (l : list Z) : 8 <= zlen l -> exists x0 x1 x2 x3 x4 x5 x6 x7 r,
  l = x0 :: x1 :: x2 :: x3 :: x4 :: x5 :: x6 :: x7 :: r.
Proof.
  intros H. unfold zlen in H.
  do 8 (destruct l as [|? l]; [cbn [length] in H; lia|]). repeat eexists.
Qed.

(** run the writes at constant positions of a buffer with a known beginning *)
Ltac writes := unfold put_cpu_le16, put_cpu_le32;
  repeat (rewrite aset_done by (rewrite ?length_insert; cbn [length app]; lia); cbn [mbind outcome_bind]).

(** the encryption and payload layers: what they write behind the header *)
Lemma encrypt_write_head type buf data tol sl m d :
  zlen buf = m -> 18 <= m <= 255 -> is_head d <> 0 -> 0 <= sl <= 255 -> 0 <= tol -> tol + sl <= zlen data ->
  let n := Z.min sl (m - 18) in
  __pack_encrypt_write type buf 7 7 data tol sl (m - 7) d =
    Done (n, 18 + n, take 7 buf ++ [0; 0; 0; 0; 0; 0; 0; 0; 0; n; type] ++ take (Z.to_nat n) (drop (Z.to_nat tol) data)
             ++ drop (Z.to_nat (18 + n)) buf, set_enc (is_head d) PYLD_TYPE_DATA d).
Proof.
  intros Hb Hm Hh Hs Ht Hd n. unfold __pack_encrypt_write.
  destruct (split_18 buf) as (x0&x1&x2&x3&x4&x5&x6&x7&x8&x9&x10&x11&x12&x13&x14&x15&x16&x17&r&->); [lia|].
  unfold zlen in *. cbn [length] in Hb. rewrite (proj2 (Z.eqb_neq _ 0)) by done. cbn [negb]. writes.
  unfold __payload_write. rewrite !s16_small by lia.
  rewrite (proj2 (Z.ltb_ge (m - 7 - 9) 0)) by lia. change (PYLD_TYPE_DATA =? PYLD_TYPE_CMD) with false. cbv iota.
  assert (En : u8 (if sl <? m - 7 - 9 - 2 then sl else m - 7 - 9 - 2) = n).
  { unfold n. destruct (Z.ltb_spec sl (m - 7 - 9 - 2)); rewrite u8_small by lia; lia. }
  rewrite En. writes. rewrite memcpy_done; [|lia..| |unfold n; lia].
  2: { rewrite !length_insert. cbn [length]. unfold n. lia. }
  cbn [mbind outcome_bind]. rewrite !Z2Nat.inj_add by lia. rewrite (u8_small (7 + 9)) by lia. rewrite u8_small by lia.
  replace (7 + 9 + (2 + n)) with (18 + n) by lia. reflexivity.
Qed.

Lemma encrypt_write_tail type buf data tol sl m d :
  zlen buf = m -> 8 <= m <= 255 -> is_head d = 0 -> 0 <= sl <= 255 -> 0 <= tol -> tol + sl <= zlen data ->
  let n := Z.min sl (m - 8) in
  __pack_encrypt_write type buf 5 5 data tol sl (m - 5) d =
    Done (n, 8 + n, take 5 buf ++ [0; n; type] ++ take (Z.to_nat n) (drop (Z.to_nat tol) data)
             ++ drop (Z.to_nat (8 + n)) buf, set_enc (is_head d) PYLD_TYPE_DATA d).
Proof.
  intros Hb Hm Hh Hs Ht Hd n. unfold __pack_encrypt_write.
  destruct (split_8 buf) as (x0&x1&x2&x3&x4&x5&x6&x7&r&->); [lia|].
  unfold zlen in *. cbn [length] in Hb. rewrite Hh. cbn [negb Z.eqb]. writes.
  unfold __payload_write. rewrite !s16_small by lia.
  rewrite (proj2 (Z.ltb_ge (m - 5 - 1) 0)) by lia. change (PYLD_TYPE_DATA =? PYLD_TYPE_CMD) with false. cbv iota.
  assert (En : u8 (if sl <? m - 5 - 1 - 2 then sl else m - 5 - 1 - 2) = n).
  { unfold n. destruct (Z.ltb_spec sl (m - 5 - 1 - 2)); rewrite u8_small by lia; lia. }
  rewrite En. writes. rewrite memcpy_done; [|lia..| |unfold n; lia].
  2: { rewrite !length_insert. cbn [length]. unfold n. lia. }
  cbn [mbind outcome_bind]. rewrite !Z2Nat.inj_add by lia. rewrite (u8_small (5 + 1)) by lia. rewrite u8_small by lia.
  replace (5 + 1 + (2 + n)) with (8 + n) by lia. reflexivity.
Qed.

Section Send.
Context {App : Type} (malloc : nat -> Z -> option (list Z)) (sem_take : nat -> bool).
Context (pfu_bytes_send : list Z -> App -> App).
Abbreviation W := (world App).

(** the world after a packet went out *)
Definition sent (p : list Z) (w : W) : W :=
  {| dev := set_enc 0 PYLD_TYPE_DATA (dev w); calls := S (calls w); appst := pfu_bytes_send p (appst w) |}.

(** what is left to send, and how much of it the next packet takes *)
Definition left_over (data : list Z) (len tol : Z) : list Z := drop (Z.to_nat tol) (take (Z.to_nat len) data).

Lemma left_over_len data len tol : 0 <= tol <= len -> len <= zlen data -> zlen (left_over data len tol) = len - tol.
Proof. intros Ht Hd. unfold zlen, left_over in *. rewrite length_drop, length_take. lia. Qed.

Lemma left_over_take data len tol n :
  0 <= tol -> 0 <= n <= len - tol ->
  take (Z.to_nat n) (drop (Z.to_nat tol) data) = take (Z.to_nat n) (left_over data len tol).
Proof. intros Ht Hn. unfold left_over. rewrite !take_drop_commute, take_take. do 2 f_equal. lia. Qed.

Lemma fill_spec type data len s (w : W) m :
  m = mtu (dev w) -> 19 <= m <= 255 -> zlen (s_buf s) = m -> 0 <= len <= 255 -> len <= zlen data ->
  0 <= s_tol s <= len -> (s_tol s <> 0 -> is_head (dev w) = 0) ->
  let head := s_tol s =? 0 in
  let n := Z.min (len - s_tol s) (m - overhead head) in
  let chunk := take (Z.to_nat n) (left_over data len (s_tol s)) in
  exists x0 x1 x2 x3 x4 r, zlen r + overhead head + n = m /\
  send_fill type data len s w =
    Done (n, if head then 7 else 5, overhead head + n, if head then 7 else 5,
          [x0; x1; x2; x3] ++ (if head then [u8 len; u8 (Z.shiftr len 8); x4; 0; 0; 0; 0; 0; 0; 0; 0; 0] else [x4; 0])
            ++ [n; type] ++ chunk ++ r,
          {| dev := set_enc 0 PYLD_TYPE_DATA (dev w); calls := calls w; appst := appst w |}).
Proof.
  intros Hm Hr Hb Hl Hd Ht Hh head n chunk.
  assert (Hn : 0 <= n <= len - s_tol s /\ n <= m - overhead head).
  { unfold n, overhead. destruct head; lia. }
  unfold send_fill. rewrite (s16_small (mtu (dev w))) by lia. rewrite <- Hm. rewrite (s16_small (m - 4)) by lia.
  fold head. unfold chunk. rewrite <- left_over_take by lia. clear chunk.
  destruct head eqn:Eh; unfold head in Eh; unfold overhead in *; cbv iota in n, Hn |- *.
  - apply Z.eqb_eq in Eh. rewrite Eh in *.
    destruct (split_18 (s_buf s)) as (x0&x1&x2&x3&x4&x5&x6&x7&x8&x9&x10&x11&x12&x13&x14&x15&x16&x17&r&Eb); [lia|].
    rewrite Eb. rewrite Eb in Hb. unfold zlen in Hb. cbn [length] in Hb. writes.
    change (u8 (6 + 1)) with 7. change (6 + 1) with 7. rewrite (s16_small (m - 4 - 2)) by lia.
    rewrite (s16_small (m - 4 - 2 - 1)) by lia. rewrite (u8_small (len - 0)) by lia.
    replace (m - 4 - 2 - 1) with (m - 7) by lia.
    rewrite encrypt_write_head; [|unfold zlen; rewrite ?length_insert; cbn [length]; lia|lia|done|lia..].
    replace (Z.min (len - 0) (m - 18)) with n by (unfold n; by rewrite Eh).
    cbn [mbind outcome_bind]. exists x0, x1, x2, x3, x6, (drop (Z.to_nat n) r).
    split; [unfold zlen; rewrite length_drop; lia|].
    rewrite (Z2Nat.inj_add 18 n) by lia. by destruct w as [[]].
  - apply Z.eqb_neq in Eh. specialize (Hh Eh).
    destruct (split_8 (s_buf s)) as (x0&x1&x2&x3&x4&x5&x6&x7&r&Eb); [lia|].
    rewrite Eb. rewrite Eb in Hb. unfold zlen in Hb. cbn [length] in Hb. cbn [mbind outcome_bind].
    change (u8 (4 + 1)) with 5. change (4 + 1) with 5.
    rewrite (s16_small (m - 4 - 1)) by lia. rewrite (u8_small (len - s_tol s)) by lia.
    replace (m - 4 - 1) with (m - 5) by lia.
    rewrite encrypt_write_tail; [|unfold zlen; cbn [length]; lia|lia|done|lia..].
    cbn [mbind outcome_bind]. fold n. exists x0, x1, x2, x3, x4, (drop (Z.to_nat n) r).
    split; [unfold zlen; rewrite length_drop; lia|].
    rewrite (Z2Nat.inj_add 8 n) by lia. destruct w as [[]]. cbn in Hh. by subst.
Qed.

Lemma emit_spec type data len s (w : W) m x0 x1 x2 x3 x4 r :
  19 <= m <= 255 -> 0 <= len <= 255 -> len <= zlen data -> 0 <= s_tol s <= len ->
  0 <= ctrl (s_head s) < 256 ->
  let head := s_tol s =? 0 in
  let rest := left_over data len (s_tol s) in
  let n := Z.min (len - s_tol s) (m - overhead head) in
  let chunk := take (Z.to_nat n) rest in
  let c := frag_bit n len (ctrl (s_head s)) in
  let last := n =? zlen rest in
  let f := if last then Z.lor (frag_ctrl (s_head s)) 32768 else frag_ctrl (s_head s) in
  let w' := {| dev := dev w; calls := S (calls w);
               appst := pfu_bytes_send (frame head c (seq (s_head s)) f len type chunk) (appst w) |} in
  zlen r + overhead head + n = m ->
  exists b, zlen b = m /\
  send_emit sem_take pfu_bytes_send len s n (if head then 7 else 5) (overhead head + n) (if head then 7 else 5)
    ([x0; x1; x2; x3] ++ (if head then [u8 len; u8 (Z.shiftr len 8); x4; 0; 0; 0; 0; 0; 0; 0; 0; 0] else [x4; 0])
            ++ [n; type] ++ chunk ++ r) w =
    Done (if sem_take (calls w) then
            if last then Stop n w'
            else More {| s_buf := b; s_head := {| ctrl := c; seq := u8 (seq (s_head s) + 1);
                                                  frag_ctrl := u16 (f + 1) |};
                         s_tol := s_tol s + n |} w'
          else Stop (- PRO_TIMEOUT) w').
Proof.
  intros Hm Hl Hd Ht Hc head rest n chunk c last f w' Hr.
  assert (Hn : 0 <= n <= len - s_tol s) by (unfold n, overhead; destruct head; lia).
  assert (Elc : zlen chunk = n).
  { unfold chunk. pose proof (left_over_len data len (s_tol s) Ht Hd) as E. unfold zlen in *. rewrite length_take.
    unfold rest. lia. }
  assert (El : (s_tol s + n =? len) = last).
  { unfold last, rest. rewrite left_over_len by lia. destruct (Z.eqb_spec (s_tol s + n) len); [|symmetry].
    - symmetry. apply Z.eqb_eq. lia.
    - apply Z.eqb_neq. lia. }
  unfold send_emit. rewrite (u16_small (s_tol s + n)) by lia. rewrite (proj2 (Z.ltb_ge _ _)) by lia. rewrite El.
  change (Z.shiftl 1 PACK_FRAG_END_BIT) with 32768. fold f.
  replace (if n <? len then u8 _ else _) with c.
  2: { unfold c, frag_bit. destruct (n <? len); [|done]. symmetry. apply u8_small.
       apply (lor_bound 8); [lia|lia|cbn; lia]. }
  destruct head eqn:Eh; cbn [app overhead] in *; cbv iota; writes.
  all: rewrite (u8_small (_ - _)) by lia; rewrite memcpy_packet by
    (unfold zlen; rewrite ?length_insert; cbn [length app]; rewrite length_app; unfold zlen in Elc; lia).
  all: cbn [mbind outcome_bind calls with_app]; rewrite Z2Nat.inj_add by lia.
  all: assert (Ec : take (Z.to_nat n) (chunk ++ r) = chunk) by (apply take_app_length'; unfold zlen in Elc; lia).
  all: match goal with |- context [pfu_bytes_send ?P] =>
         assert (P = frame head c (seq (s_head s)) f len type chunk) as ->;
           [rewrite Eh; unfold frame; rewrite Elc; cbn [app]; rewrite <- Ec at 2 |] end.
  1: replace (n + 11) with (18 + n - 7) by lia; reflexivity.
  2: replace (n + 3) with (8 + n - 5) by lia; reflexivity.
  all: match goal with |- context [More {| s_buf := ?B; s_head := _; s_tol := _ |}] => exists B end.
  all: split; [|by unfold w'; rewrite Eh; destruct (sem_take (calls w)), last].
  all: unfold zlen; rewrite ?length_insert; cbn [length app]; rewrite length_app; unfold zlen in Elc, Hr; lia.
Qed.

Lemma send_turn_spec type data len s (w : W) m :
  m = mtu (dev w) -> 19 <= m <= 255 -> zlen (s_buf s) = m -> 0 <= len <= 255 -> len <= zlen data ->
  0 <= s_tol s <= len -> (s_tol s <> 0 -> is_head (dev w) = 0) -> 0 <= ctrl (s_head s) < 256 ->
  let head := s_tol s =? 0 in
  let rest := left_over data len (s_tol s) in
  let n := Z.min (zlen rest) (m - overhead head) in
  let c := frag_bit n len (ctrl (s_head s)) in
  let last := n =? zlen rest in
  let f := if last then Z.lor (frag_ctrl (s_head s)) 32768 else frag_ctrl (s_head s) in
  let w' := sent (frame head c (seq (s_head s)) f len type (take (Z.to_nat n) rest)) w in
  exists b, zlen b = m /\
  send_turn sem_take pfu_bytes_send type data len s w =
    Done (if sem_take (calls w) then
            if last then Stop n w'
            else More {| s_buf := b; s_head := {| ctrl := c; seq := u8 (seq (s_head s) + 1);
                                                  frag_ctrl := u16 (f + 1) |};
                         s_tol := s_tol s + n |} w'
          else Stop (- PRO_TIMEOUT) w').
Proof.
  intros Hm Hr Hb Hl Hd Ht Hh Hc head rest. unfold send_turn.
  destruct (fill_spec type data len s w m Hm Hr Hb Hl Hd Ht Hh) as (x0 & x1 & x2 & x3 & x4 & r & Er & ->).
  cbn [mbind outcome_bind]. rewrite (proj2 (Z.ltb_ge _ PRO_OK)) by (unfold PRO_OK, overhead; destruct (s_tol s =? 0); lia).
  unfold rest. rewrite left_over_len by done.
  destruct (emit_spec type data len s {| dev := set_enc 0 PYLD_TYPE_DATA (dev w); calls := calls w; appst := appst w |}
              m x0 x1 x2 x3 x4 r Hr Hl Hd Ht Hc Er) as (b & Hb' & E).
  rewrite left_over_len in E by done. exists b. by split.
Qed.

Definition sent_all (ps : list (list Z)) (w : W) : W := foldl (fun w p => sent p w) w ps.

Lemma frag_bit_range n len c : 0 <= c < 256 -> 0 <= frag_bit n len c < 256.
Proof. intros H. unfold frag_bit. destruct (n <? len); [|done]. apply (lor_bound 8); [lia|lia|cbn; lia]. Qed.

Lemma left_over_drop data len tol n : 0 <= tol -> 0 <= n ->
  drop (Z.to_nat n) (left_over data len tol) = left_over data len (tol + n).
Proof. intros. unfold left_over. rewrite drop_drop, Z2Nat.inj_add by lia. done. Qed.

Lemma send_loop_spec fuel type data len m : forall k s (w : W),
  (k <= fuel)%nat ->
  m = mtu (dev w) -> 19 <= m <= 255 -> zlen (s_buf s) = m -> 0 <= len <= 255 -> len <= zlen data ->
  0 <= s_tol s <= len -> (s_tol s <> 0 -> is_head (dev w) = 0) -> 0 <= ctrl (s_head s) < 256 ->
  len - s_tol s < Z.of_nat k -> 0 <= frag_ctrl (s_head s) -> frag_ctrl (s_head s) + Z.of_nat k < 32768 ->
  let '(qs, ok) := cut sem_take (calls w)
    (frames k m (s_tol s =? 0) (ctrl (s_head s)) (seq (s_head s)) (frag_ctrl (s_head s)) len type
       (left_over data len (s_tol s))) in
  exists ret, send_loop sem_take pfu_bytes_send fuel type data len s w = Done (ret, sent_all qs w)
    /\ if ok then 0 <= ret <= len else ret = - PRO_TIMEOUT.
Proof.
  induction fuel as [|fuel IH]; intros k s w Hk Hm Hr Hb Hl Hd Ht Hh Hc Hlt Hf0 Hf; [lia|].
  destruct k as [|k]; [lia|]. cbn [send_loop frames].
  destruct (send_turn_spec type data len s w m Hm Hr Hb Hl Hd Ht Hh Hc) as (b & Hb' & ->).
  cbn [mbind outcome_bind]. rewrite !left_over_len by done.
  set (n := Z.min _ _). destruct (Z.eqb_spec n (len - s_tol s)) as [El|El]; cbn [cut].
  { destruct (sem_take (calls w)); eexists; (split; [reflexivity|]); [unfold n in *; lia|done]. }
  assert (Hn : 1 <= n < len - s_tol s) by (unfold n, overhead in *; destruct (s_tol s =? 0); lia).
  destruct (sem_take (calls w)); [|eexists; split; [reflexivity|done]].
  rewrite (u16_small (frag_ctrl _ + 1)) by lia.
  match goal with |- context [send_loop _ _ _ _ _ _ ?s1 ?w1] => specialize (IH k s1 w1) end.
  cbn [s_buf s_head s_tol ctrl seq frag_ctrl calls sent] in IH.
  rewrite (proj2 (Z.eqb_neq (s_tol s + n) 0)) in IH by lia. rewrite left_over_drop by lia.
  destruct (cut _ _ _) as [qs ok]. cbv beta iota. apply IH; try lia; try done.
  by apply frag_bit_range.
Qed.

Lemma left_over_0 data len : left_over data len 0 = take (Z.to_nat len) data.
Proof. done. Qed.

Lemma take_zlen (data : list Z) len : 0 <= len <= zlen data -> zlen (take (Z.to_nat len) data) = len.
Proof. intros H. unfold zlen in *. rewrite length_take. lia. Qed.

Lemma protocol_send_spec fuel sq ack type data len (w : W) :
  (256 <= fuel)%nat -> 19 <= mtu (dev w) <= 255 -> 0 <= len <= 255 -> len <= zlen data ->
  match malloc (calls w) (mtu (dev w)) with
  | None => __protocol_send malloc sem_take pfu_bytes_send fuel sq ack type data len w = Done (- PRO_NO_MEM, tick w)
  | Some b =>
    zlen b = mtu (dev w) ->
    let '(qs, ok) := cut sem_take (S (calls w)) (packets (mtu (dev w)) sq ack type (take (Z.to_nat len) data)) in
    exists ret, __protocol_send malloc sem_take pfu_bytes_send fuel sq ack type data len w =
        Done (ret, sent_all qs (tick w))
      /\ if ok then 0 <= ret <= len else ret = - PRO_TIMEOUT
  end.
Proof.
  intros Hf Hm Hl Hd. unfold __protocol_send.
  destruct (malloc (calls w) (mtu (dev w))) as [b|]; [|done]. intros Hb.
  replace (BITS_SET _ _ _ PRO_VERSION00) with (base_ctrl ack)
    by (unfold base_ctrl, BIT_MODIFY; by destruct (ack =? 0)).
  pose proof (send_loop_spec fuel type data len (mtu (dev w)) (S (Z.to_nat len))
    {| s_buf := b; s_head := {| ctrl := base_ctrl ack; seq := sq; frag_ctrl := 0 |}; s_tol := 0 |} (tick w)) as H.
  cbn [s_buf s_head s_tol ctrl seq frag_ctrl calls tick dev] in H. rewrite left_over_0 in H.
  unfold packets. rewrite take_zlen by lia.
  replace (length (take (Z.to_nat len) data)) with (Z.to_nat len) by (rewrite length_take; unfold zlen in Hd; lia).
  apply H; try lia; try done. unfold base_ctrl. destruct (ack =? 0); lia.
Qed.

End Send.

(** ** Receiving *)

(** read at constant positions of a packet *)
Ltac nth_of l k :=
  match k with
  | O => match l with ?x :: _ => x end
  | S ?k => match l with _ :: ?l => nth_of l k end
  end.
Ltac reads := unfold get_cpu_le16, get_cpu_le32;
  repeat (match goal with |- context [aget ?l ?i] =>
            let k := eval vm_compute in (Z.to_nat i) in
            let v := nth_of l k in rewrite (aget_done l i v) by (try lia; reflexivity)
          end; cbn [mbind outcome_bind]).

(** the receiver's buffer holds the first [t] bytes of the message *)
Definition holds (ob : option (list Z)) (t : Z) (msg : list Z) : Prop :=
  match ob with
  | Some b => zlen b = zlen msg /\ take (Z.to_nat t) b = take (Z.to_nat t) msg
  | None => msg = []
  end.

Lemma fill_chunk ob t pre chunk junk msg :
  holds ob t msg -> 0 <= t -> chunk = take (length chunk) (drop (Z.to_nat t) msg) -> t + zlen chunk <= zlen msg ->
  exists ob', fill ob t (pre ++ chunk ++ junk) (zlen pre) (zlen chunk) = Done ob' /\ holds ob' (t + zlen chunk) msg.
Proof.
  intros Hh Ht Hc Hle. destruct ob as [b|]; cbn [fill holds] in *.
  - destruct Hh as [Hb Ht']. unfold zlen in *. rewrite memcpy_done by (rewrite ?length_app; lia).
    cbn [mbind outcome_bind]. eexists. split; [reflexivity|]. cbn [holds]. split.
    + unfold zlen. rewrite !length_app, !length_take, !length_drop, !length_app. lia.
    + rewrite Nat2Z.id, Nat2Z.id, (drop_app_length' pre) by done. rewrite take_app_length, app_assoc.
      rewrite take_app_length' by (rewrite length_app, length_take; lia).
      rewrite Z2Nat.inj_add, Nat2Z.id by lia. rewrite (take_add msg), Ht'. by f_equal.
  - subst msg. unfold zlen in *. cbn [length] in Hle. replace (Z.of_nat (length chunk)) with 0 by lia.
    by exists None.
Qed.

(** the encryption layer takes its fields off and the payload layer copies *)
Lemma encrypt_read_head x0 x1 x2 x3 x4 x5 x6 type chunk junk ob t d :
  is_head d = 1 -> zlen chunk <= 244 ->
  let src := x0 :: x1 :: x2 :: x3 :: x4 :: x5 :: x6 :: 0 :: 0 :: 0 :: 0 :: 0 :: 0 :: 0 :: 0 :: 0 :: zlen chunk :: type
             :: chunk ++ junk in
  __pack_encrypt_read PRO_TYPE_DATA ob t src 7 (zlen chunk + 11) d =
    (ob' ← fill ob t src 18 (zlen chunk); Done (inr (type, zlen chunk, ob'), set_enc 1 PYLD_TYPE_DATA d)).
Proof.
  intros Hh Hn src. assert (0 <= zlen chunk) by (unfold zlen; lia). unfold __pack_encrypt_read.
  rewrite Hh. cbn [Z.eqb negb]. unfold src at 1 2 3. reads. unfold __payload_read.
  change (if PRO_TYPE_DATA =? PRO_TYPE_CMD then PYLD_TYPE_CMD else PYLD_TYPE_DATA) with PYLD_TYPE_DATA.
  change (PYLD_TYPE_DATA =? PYLD_TYPE_CMD) with false. cbv iota. change (7 + 9) with 16. change (16 + 2) with 18.
  unfold src at 1 2. reads. unfold u32, wrap. rewrite Z.mod_small by lia. rewrite u8_small by lia.
  rewrite (proj2 (Z.eqb_eq _ _)) by lia. cbn [negb]. by destruct (fill _ _ _ _ _).
Qed.

Lemma encrypt_read_tail x0 x1 x2 x3 x4 type chunk junk ob t d :
  is_head d = 0 -> zlen chunk <= 247 ->
  let src := x0 :: x1 :: x2 :: x3 :: x4 :: 0 :: zlen chunk :: type :: chunk ++ junk in
  __pack_encrypt_read PRO_TYPE_DATA ob t src 5 (zlen chunk + 3) d =
    (ob' ← fill ob t src 8 (zlen chunk); Done (inr (type, zlen chunk, ob'), set_enc 0 PYLD_TYPE_DATA d)).
Proof.
  intros Hh Hn src. assert (0 <= zlen chunk) by (unfold zlen; lia). unfold __pack_encrypt_read.
  rewrite Hh. cbn [Z.eqb negb]. unfold src at 1. reads. unfold __payload_read.
  change (if PRO_TYPE_DATA =? PRO_TYPE_CMD then PYLD_TYPE_CMD else PYLD_TYPE_DATA) with PYLD_TYPE_DATA.
  change (PYLD_TYPE_DATA =? PYLD_TYPE_CMD) with false. cbv iota. change (5 + 1) with 6. change (6 + 2) with 8.
  unfold src at 1 2. reads. unfold u32, wrap. rewrite Z.mod_small by lia. rewrite u8_small by lia.
  rewrite (proj2 (Z.eqb_eq _ _)) by lia. cbn [negb]. by destruct (fill _ _ _ _ _).
Qed.

(** ** What carries the packets

    The protocol asks two things of the layer below it.  [Uplink]: handing out a
    packet keeps an invariant of the application and moves its state along a
    preorder.  [Downlink]: a packet that is fed in reaches the reader
    [pro_trans_read], possibly with other bytes of the buffer behind it. *)
Class Uplink {App : Type} (send : list Z -> App -> App) := {
  up_inv : App -> Prop;
  up_rel : relation App;
  up_pre : PreOrder up_rel;
  up_send p a : up_inv a -> up_inv (send p a) /\ up_rel a (send p a) }.
#[export] Existing Instance up_pre.

Class Downlink {App : Type} (send : list Z -> App -> App) `{!Uplink send}
  (reader : option (list Z) -> Z -> Z -> world App -> outcome (Z * world App))
  (feed : list Z -> world App -> outcome (Z * world App)) (m : Z) : Prop :=
  down_feed p (w : world App) : zlen p <= 255 -> up_inv (appst w) -> exists junk a, up_inv a /\ up_rel (appst w) a /\
    feed p w = reader (Some (p ++ junk)) (zlen p) m {| dev := dev w; calls := calls w; appst := a |}.

(** the allocator has memory *)
Class Allocates (malloc : nat -> Z -> option (list Z)) : Prop :=
  allocates k n : 0 <= n -> exists b, malloc k n = Some b /\ zlen b = n.

Section Receive.
Context {App : Type} (malloc : nat -> Z -> option (list Z)) (sem_take : nat -> bool).
Context (xTaskGetTickCount : nat -> Z) (pfu_bytes_send : list Z -> App -> App).
Abbreviation W := (world App).
Context (pfn_recv_event : option (pro_event -> W -> outcome (Z * W))) (fuel : nat).
Context `{Hmalloc : !Allocates malloc} (Hfuel : (256 <= fuel)%nat).

Abbreviation read := (pro_trans_read malloc sem_take xTaskGetTickCount pfu_bytes_send pfn_recv_event fuel).
Abbreviation deliver := (pack_deliver malloc pfn_recv_event).
Abbreviation reply := (pack_reply malloc sem_take pfu_bytes_send fuel).

(** the device when the first [t] bytes of [msg] have arrived *)
Definition rx_at (msg : list Z) (t : Z) (d : pro_dev) : Prop :=
  ack_len d = 0 /\ ack_buf d = None /\ tol_len_now d = t /\
  if t =? 0 then pyld_buf d = None else holds (pyld_buf d) t msg /\ total_length d = zlen msg.

(** a packet that carries the bytes of [msg] from [t] on *)
Definition good_frame (msg : list Z) (t c f : Z) (chunk : list Z) : Prop :=
  0 <= t /\ zlen msg <= 255 /\ chunk = take (length chunk) (drop (Z.to_nat t) msg) /\
  t + zlen chunk <= zlen msg /\ zlen chunk + overhead (t =? 0) <= 255 /\
  0 <= f < 65536 /\ (BITS_GET f 0 PACK_FRAG_END_BIT =? 0) = (t =? 0) /\
  BIT_GET c PRO_CTRL_RETRY_BIT = 0 /\ BITS_GET c PRO_CTRL_TYPE_BIT 2 = PRO_TYPE_DATA.

(** it is stored behind those that have arrived; the application sees the
    message at its end *)
Definition stores (msg : list Z) (t c sq f type : Z) (chunk junk : list Z) (m : Z) (w : W) : Prop :=
  let p := frame (t =? 0) c sq f (zlen msg) type chunk in
  let h := {| ctrl := c; seq := sq; frag_ctrl := f |} in
  exists ob k, holds ob (t + zlen chunk) msg /\
  let w1 := {| dev := set_rx ob (t + zlen chunk) (zlen msg)
                 (set_enc (if t =? 0 then 1 else 0) PYLD_TYPE_DATA (set_mtu m (dev w)));
               calls := k; appst := appst w |} in
  read (Some (p ++ junk)) (zlen p) m w =
    ('(ret, w2) ← (if __pack_trans_end h then deliver PRO_TYPE_DATA type PRO_OK w1 else Done (PRO_OK, w1));
     reply h ret w2).

Lemma read_first msg c sq f type chunk junk m (w : W) :
  rx_at msg 0 (dev w) -> good_frame msg 0 c f chunk -> stores msg 0 c sq f type chunk junk m w.
Proof.
  intros (Hal & Hab & Htol & Hrx) (Ht & Hl & Hc & Hle & Hcl & Hf & Hfc & Hretry & Htype).
  assert (Hn : 0 <= zlen chunk) by (unfold zlen; lia). unfold stores. set (p := frame _ _ _ _ _ _ _).
  set (h := Build_general_head _ _ _). change (0 =? 0) with true in *. unfold overhead in Hcl.
  assert (Eb : p ++ junk = c :: sq :: u8 f :: u8 (Z.shiftr f 8) :: u8 (zlen msg) :: u8 (Z.shiftr (zlen msg) 8)
    :: zlen chunk + 11 :: 0 :: 0 :: 0 :: 0 :: 0 :: 0 :: 0 :: 0 :: 0 :: zlen chunk :: type :: chunk ++ junk) by done.
  assert (Ez : zlen p = 18 + zlen chunk) by (unfold p, frame, zlen; rewrite !length_app; cbn [length]; lia).
  unfold pro_trans_read. rewrite Eb, Ez. clearbody p. clear Eb Ez.
  reads. rewrite Hretry. cbn [Z.eqb negb].
  unfold __frag_section. reads. rewrite le16_bytes by done. cbn [mbind outcome_bind].
  unfold __pack_trans, pack_open. cbn [ctrl frag_ctrl]. rewrite Hfc, Htype. reads.
  destruct w as [[ih pt os pb tl tt mt al ab ss] k a]. cbn in Hal, Hab, Htol, Hrx. subst al ab tl pb.
  cbn [with_dev dev set_rx set_mtu pyld_buf tol_len_now total_length calls tick].
  rewrite le16_bytes by lia. change (2 + 2 + 3) with 7.
  unfold u32, wrap. rewrite !Z.mod_small by (rewrite ?Z.mod_small; lia).
  rewrite (proj2 (Z.eqb_eq _ (zlen chunk + 11 + 3))) by lia. cbn [negb].
  match goal with |- context [if zlen msg =? 0 then ?A else ?B] =>
    assert (exists ob k', (if zlen msg =? 0 then A else B) = (true,
      {| dev := {| is_head := ih; pyld_type := pt; old_seq := os; pyld_buf := ob; tol_len_now := 0;
                   total_length := zlen msg; mtu := m; ack_len := 0; ack_buf := None; seq_start_ms := ss |};
         calls := k'; appst := a |}) /\ holds ob 0 msg) as (ob & k' & -> & Hob) end.
  { destruct (Z.eqb_spec (zlen msg) 0) as [E0|E0].
    - exists None, k. split; [done|]. unfold zlen in E0. by destruct msg.
    - destruct (allocates (malloc := malloc) k (zlen msg)) as (b & -> & Hb); [lia|]. exists (Some b), (S k). by split. }
  cbn [mbind outcome_bind with_dev dev encrypt_layer_is_head set_enc pyld_buf tol_len_now pyld_type].
  rewrite encrypt_read_head by (done || lia).
  destruct (fill_chunk ob 0 [c; sq; u8 f; u8 (Z.shiftr f 8); u8 (zlen msg); u8 (Z.shiftr (zlen msg) 8);
    zlen chunk + 11; 0; 0; 0; 0; 0; 0; 0; 0; 0; zlen chunk; type] chunk junk msg Hob Ht Hc Hle) as (ob' & Ef & Hh').
  match type of Ef with fill _ _ _ (zlen ?q) _ = _ => change (zlen q) with 18 in Ef end. cbn [app] in Ef. rewrite Ef. cbn [mbind outcome_bind].
  exists ob', k'. split; [done|]. unfold with_dev, encrypt_layer_is_head.
  cbn [dev set_enc set_mtu tol_len_now total_length]. rewrite u16_small by lia. done.
Qed.

Lemma read_later msg t c sq f type chunk junk m (w : W) : t <> 0 ->
  rx_at msg t (dev w) -> good_frame msg t c f chunk -> stores msg t c sq f type chunk junk m w.
Proof.
  intros Et (Hal & Hab & Htol & Hrx) (Ht & Hl & Hc & Hle & Hcl & Hf & Hfc & Hretry & Htype).
  assert (Hn : 0 <= zlen chunk) by (unfold zlen; lia). unfold stores. rewrite (proj2 (Z.eqb_neq t 0) Et) in *.
  set (p := frame _ _ _ _ _ _ _). set (h := Build_general_head _ _ _). unfold overhead in Hcl.
  destruct Hrx as [Hob Hto].
  assert (Eb : p ++ junk = c :: sq :: u8 f :: u8 (Z.shiftr f 8) :: zlen chunk + 3 :: 0 :: zlen chunk :: type
    :: chunk ++ junk) by done.
  assert (Ez : zlen p = 8 + zlen chunk) by (unfold p, frame, zlen; rewrite !length_app; cbn [length]; lia).
  unfold pro_trans_read. rewrite Eb, Ez. clearbody p. clear Eb Ez.
  reads. rewrite Hretry. cbn [Z.eqb negb].
  unfold __frag_section. reads. rewrite le16_bytes by done. cbn [mbind outcome_bind].
  unfold __pack_trans, pack_open. cbn [ctrl frag_ctrl]. rewrite Hfc, Htype. reads.
  destruct w as [[ih pt os pb tl tt mt al ab ss] k a]. cbn in Hal, Hab, Htol, Hob, Hto. subst al ab tl tt.
  change (2 + 2 + 1) with 5. unfold u32, wrap. rewrite !Z.mod_small by (rewrite ?Z.mod_small; lia).
  rewrite (proj2 (Z.eqb_eq _ (zlen chunk + 3 + 1))) by lia.
  cbn [negb mbind outcome_bind with_dev dev encrypt_layer_is_head set_mtu set_enc pyld_buf tol_len_now pyld_type].
  rewrite encrypt_read_tail by (done || lia).
  destruct (fill_chunk pb t [c; sq; u8 f; u8 (Z.shiftr f 8); zlen chunk + 3; 0; zlen chunk; type]
    chunk junk msg Hob Ht Hc Hle) as (ob' & Ef & Hh').
  match type of Ef with fill _ _ _ (zlen ?q) _ = _ => change (zlen q) with 8 in Ef end. cbn [app] in Ef.
  rewrite Ef. cbn [mbind outcome_bind].
  exists ob', k. split; [done|]. unfold with_dev, encrypt_layer_is_head.
  cbn [dev set_enc set_mtu tol_len_now total_length]. rewrite u16_small by lia. done.
Qed.

Lemma read_frame msg t c sq f type chunk junk m (w : W) :
  rx_at msg t (dev w) -> good_frame msg t c f chunk -> stores msg t c sq f type chunk junk m w.
Proof. destruct (Z.eq_dec t 0) as [->|Ht]; [apply read_first|by apply read_later]. Qed.

(** the answer to a packet that is not itself an answer *)
Definition answer (h : general_head) (ret : Z) (w : W) : list (list Z) :=
  if BIT_GET (ctrl h) PRO_CTRL_ACK_BIT =? 0 then
    fst (cut sem_take (S (calls w))
          (packets (mtu (dev w)) (seq h) PRO_ACK_PACK (u8 ret)
             (take (Z.to_nat (u8 (ack_len (dev w)))) (default [] (ack_buf (dev w))))))
  else [].
Definition outgoing (qs : list (list Z)) (a : App) : App := foldl (fun a p => pfu_bytes_send p a) a qs.

(** the buffer for the answer, allocated or not *)
Definition ack_ok (d : pro_dev) : Prop :=
  match ack_buf d with Some a => zlen a = PRO_CONFIG_BUF_SIZE /\ 0 <= ack_len d <= 256 | None => ack_len d = 0 end.

Lemma sent_all_spec qs (w : W) : exists e t, sent_all pfu_bytes_send qs w =
  {| dev := set_enc e t (dev w); calls := calls w + length qs; appst := outgoing qs (appst w) |}.
Proof.
  revert w. induction qs as [|q qs IH]; intros w.
  - exists (is_head (dev w)), (pyld_type (dev w)). destruct w as [[] ? ?]. cbn. by rewrite Nat.add_0_r.
  - destruct (IH (sent pfu_bytes_send q w)) as (e & t & E). exists e, t. cbn [sent_all foldl] in *. unfold sent_all in E.
    rewrite E. destruct w as [[] ? ?]. cbn. by rewrite <- plus_n_Sm.
Qed.

Lemma reply_spec h ret (w : W) : 19 <= mtu (dev w) <= 255 -> ack_ok (dev w) ->
  exists e t k, reply h ret w = Done (ret, {| dev := set_ack 0 None (set_enc e t (dev w)); calls := k;
                                              appst := outgoing (answer h ret w) (appst w) |}).
Proof.
  intros Hm Ha. unfold pack_reply, answer. destruct (_ =? 0).
  2: { exists (is_head (dev w)), (pyld_type (dev w)), (calls w). by destruct w as [[] ? ?]. }
  unfold __protocol_ack.
  assert (Hlen : 0 <= u8 (ack_len (dev w)) <= 255 /\ u8 (ack_len (dev w)) <= zlen (default [] (ack_buf (dev w)))).
  { pose proof (u8_range (ack_len (dev w))). unfold ack_ok, PRO_CONFIG_BUF_SIZE in Ha.
    destruct (ack_buf (dev w)); cbv iota in Ha; [cbn [from_option id]; lia|]. by rewrite Ha. }
  pose proof (protocol_send_spec malloc sem_take pfu_bytes_send fuel (seq h) PRO_ACK_PACK (u8 ret) (default [] (ack_buf (dev w)))
    (u8 (ack_len (dev w))) w Hfuel Hm) as H.
  specialize (H (proj1 Hlen) (proj2 Hlen)).
  destruct (allocates (malloc := malloc) (calls w) (mtu (dev w))) as (b & Eb & Hb); [lia|]. rewrite Eb in H. specialize (H Hb).
  destruct (cut _ _ _) as [qs ok]. destruct H as (r & -> & _). cbn [mbind outcome_bind fst].
  destruct (sent_all_spec qs (tick w)) as (e & t & ->). exists e, t. eexists. by destruct w as [[] ? ?].
Qed.

(** the control bytes of the packets of a message *)
Definition ctrl_ok (c : Z) : Prop := c ∈ [16; 18; 24; 26].

Lemma ctrl_facts c : ctrl_ok c ->
  BIT_GET c PRO_CTRL_RETRY_BIT = 0 /\ BITS_GET c PRO_CTRL_TYPE_BIT 2 = PRO_TYPE_DATA /\
  ctrl_ok (Z.lor c 2) /\ BIT_GET (Z.lor c 2) PRO_CTRL_FRAG_BIT = 1.
Proof.
  unfold ctrl_ok. rewrite !elem_of_cons, elem_of_nil. intros [->|[->|[->|[->|[]]]]];
    (split_and!; [done|done|by apply (bool_decide_unpack _)|done]).
Qed.

Lemma frag_bit_ok n len c : ctrl_ok c -> ctrl_ok (frag_bit n len c).
Proof. intros H. destruct (ctrl_facts c H) as (_ & _ & ? & _). unfold frag_bit. by destruct (n <? len). Qed.

Lemma frag_count f : 0 <= f < 32768 -> BITS_GET f 0 PACK_FRAG_END_BIT = f /\ BIT_GET f PACK_FRAG_END_BIT = 0 /\
  BITS_GET (Z.lor f 32768) 0 PACK_FRAG_END_BIT = f /\ BIT_GET (Z.lor f 32768) PACK_FRAG_END_BIT = 1 /\
  0 <= Z.lor f 32768 < 65536.
Proof.
  intros Hf. unfold BITS_GET, BIT_GET, PACK_FRAG_END_BIT. rewrite !Z.shiftr_0_r. change (Z.shiftl 1 15) with (2 ^ 15).
  assert (Hlow : Z.land f (2 ^ 15) = 0).
  { zbits n. rewrite Z.pow2_bits_eqb by lia. destruct (Z.eqb_spec 15 n) as [<-|]; [|by rewrite andb_false_r].
    by rewrite (testbit_high 15 f 15) by lia. }
  assert (Hmod : Z.land f (Z.ones 15) = f) by (rewrite Z.land_ones by lia; apply Z.mod_small; lia).
  rewrite !Z.land_lor_distr_l, Hlow, Hmod. split_and!; try done.
  - change (Z.land 32768 (Z.ones 15)) with 0. apply Z.lor_0_r.
  - apply (lor_bound 16); [lia|lia|cbn; lia].
  - apply (lor_bound 16); [lia|lia|cbn; lia].
Qed.

Context `{U : !Uplink pfu_bytes_send}.

Lemma outgoing_R qs a : up_inv a -> up_inv (outgoing qs a) /\ up_rel a (outgoing qs a).
Proof.
  unfold outgoing. revert a. induction qs as [|q qs IH]; intros a Ha; cbn [foldl]; [done|].
  destruct (up_send q a Ha) as [Hq HR]. destruct (IH _ Hq) as [? ?]. split; [done|]. by etrans.
Qed.

Context (feed : list Z -> W -> outcome (Z * W)) (m : Z) (Hm : 19 <= m <= 255).
Context `{D : !Downlink pfu_bytes_send read feed m}.

Fixpoint feed_all (ps : list (list Z)) (w : W) : outcome (list Z * W) :=
  match ps with
  | [] => Done ([], w)
  | p :: ps => '(r, w) ← feed p w; '(rs, w) ← feed_all ps w; Done (r :: rs, w)
  end.

Lemma feed_all_app ps qs w : feed_all (ps ++ qs) w =
  ('(r1, w) ← feed_all ps w; '(r2, w) ← feed_all qs w; Done (r1 ++ r2, w)).
Proof.
  revert w. induction ps as [|p ps IH]; intros w; cbn [feed_all app mbind outcome_bind].
  - by destruct (feed_all qs w) as [[]| |].
  - destruct (feed p w) as [[r w1]| |]; cbn [mbind outcome_bind]; try done. rewrite IH.
    destruct (feed_all ps w1) as [[r1 w2]| |]; cbn [mbind outcome_bind]; try done.
    by destruct (feed_all qs w2) as [[]| |].
Qed.

(** a packet before the last: stored and answered *)
Lemma feed_middle msg t c sq f type chunk (w : W) :
  up_inv (appst w) -> rx_at msg t (dev w) -> good_frame msg t c f chunk ->
  __pack_trans_end {| ctrl := c; seq := sq; frag_ctrl := f |} = false ->
  exists ob e ty w', holds ob (t + zlen chunk) msg /\ up_inv (appst w') /\ up_rel (appst w) (appst w') /\
  dev w' = set_ack 0 None (set_enc e ty (set_rx ob (t + zlen chunk) (zlen msg) (set_mtu m (dev w)))) /\
  feed (frame (t =? 0) c sq f (zlen msg) type chunk) w = Done (PRO_OK, w').
Proof.
  intros HI Hrx Hg He.
  destruct (down_feed (frame (t =? 0) c sq f (zlen msg) type chunk) w) as (junk & a & HIa & HR & Ef); [|done|].
  { rewrite frame_len. destruct Hg as (_ & _ & _ & _ & ? & _). lia. }
  destruct (read_frame msg t c sq f type chunk junk m {| dev := dev w; calls := calls w; appst := a |} Hrx Hg)
    as (ob & k' & Hob & E). rewrite He in E. cbn [mbind outcome_bind] in E.
  match type of E with _ = reply ?h ?r ?v => destruct (reply_spec h r v) as (e & ty & k2 & E2) end; [done| |].
  { destruct Hrx as (Hal & Hab & _). unfold ack_ok. cbn [dev set_rx set_enc set_mtu ack_buf ack_len]. by rewrite Hab. }
  rewrite E2 in E. rewrite E in Ef. match type of E2 with context [outgoing ?qs _] => destruct (outgoing_R qs a HIa) end.
  exists ob, e, ty. eexists. split; [done|]. split; [|split; [|split; [|exact Ef]]]; [done|by etrans|by destruct w as [[] ? ?]].
Qed.

Lemma feed_frames msg type ms : 19 <= ms <= 255 -> zlen msg <= 255 ->
  forall k t c sq f (w : W),
  up_inv (appst w) -> rx_at msg t (dev w) -> 0 <= t <= zlen msg -> zlen msg - t < Z.of_nat k -> 0 <= f ->
  f + Z.of_nat k < 32768 -> (f =? 0) = (t =? 0) -> ctrl_ok c ->
  exists ob e k' a j hl, holds ob (zlen msg) msg /\ up_inv a /\ up_rel (appst w) a /\
  let w1 := {| dev := set_rx ob (zlen msg) (zlen msg) (set_enc e PYLD_TYPE_DATA (set_mtu m (dev w)));
               calls := k'; appst := a |} in
  feed_all (frames k ms (t =? 0) c sq f (zlen msg) type (drop (Z.to_nat t) msg)) w =
    ('(ret, w2) ← deliver PRO_TYPE_DATA type PRO_OK w1;
     '(ret, w3) ← reply hl ret w2;
     Done (replicate j PRO_OK ++ [ret], w3)).
Proof.
  intros Hms Hlen. induction k as [|k IH]; intros t c sq f w HI Hrx Ht Hk Hf0 Hf Hft Hc; [lia|]. cbn [frames].
  assert (Er : zlen (drop (Z.to_nat t) msg) = zlen msg - t) by (unfold zlen in *; rewrite length_drop; lia).
  rewrite Er. set (n := Z.min _ _).
  assert (Hn : 0 <= n <= zlen msg - t /\ n + overhead (t =? 0) <= 255) by (unfold n, overhead; destruct (t =? 0); lia).
  set (chunk := take (Z.to_nat n) (drop (Z.to_nat t) msg)).
  assert (Ec : length chunk = Z.to_nat n) by (unfold chunk; rewrite length_take; unfold zlen at 1 in Er; lia).
  assert (Ez : zlen chunk = n) by (unfold zlen; lia).
  pose proof (frag_bit_ok n (zlen msg) c Hc) as Hc'. destruct (ctrl_facts _ Hc') as (Hr & Hty & _).
  destruct (frag_count f) as (F1 & F2 & F3 & F4 & F5); [lia|].
  destruct (Z.eqb_spec n (zlen msg - t)) as [El|El].
  - assert (Hg : good_frame msg t (frag_bit n (zlen msg) c) (Z.lor f 32768) chunk).
    { unfold good_frame. rewrite Ec, Ez, F3. split_and!; try done; lia. }
    destruct (down_feed (frame (t =? 0) (frag_bit n (zlen msg) c) sq (Z.lor f 32768) (zlen msg) type chunk) w)
      as (junk & a & HIa & HR & Ef); [rewrite frame_len; lia|done|].
    destruct (read_frame msg t (frag_bit n (zlen msg) c) sq (Z.lor f 32768) type chunk junk m
      {| dev := dev w; calls := calls w; appst := a |} Hrx Hg) as (ob & k' & Hob & E).
    exists ob, (if t =? 0 then 1 else 0), k', a, 0%nat. eexists. replace (t + zlen chunk) with (zlen msg) in * by lia.
    split; [done|]. split; [done|]. split; [done|]. cbn [feed_all]. rewrite Ef, E. unfold __pack_trans_end. cbn [ctrl frag_ctrl]. rewrite F4.
    cbn [Z.eqb negb]. rewrite orb_true_r.
    destruct (deliver _ _ _ _) as [[ret w2]| |]; cbn [mbind outcome_bind]; try done.
  - assert (Hn1 : 1 <= n) by (unfold n, overhead in *; destruct (t =? 0); lia).
    destruct (feed_middle msg t (frag_bit n (zlen msg) c) sq f type chunk w HI Hrx) as (ob & e & ty & w2 & Hob & HI2 & HR & Hd & E).
    { unfold good_frame. rewrite Ec, Ez, F1. split_and!; try done; lia. }
    { unfold __pack_trans_end. cbn [ctrl frag_ctrl]. rewrite F2. unfold frag_bit. rewrite (proj2 (Z.ltb_lt _ _)) by lia.
      by destruct (ctrl_facts c Hc) as (_ & _ & _ & ->). }
    destruct (IH (t + n) (frag_bit n (zlen msg) c) (u8 (sq + 1)) (f + 1) w2)
      as (ob2 & e2 & k3 & a & j & hl & Hob2 & HIa & HR2 & E3); try lia; try done.
    { unfold rx_at. rewrite Hd. cbn [set_ack set_enc set_rx ack_len ack_buf tol_len_now pyld_buf total_length].
      rewrite (proj2 (Z.eqb_neq (t + n) 0)) by lia. rewrite Ez in *. by split_and!. }
    rewrite (proj2 (Z.eqb_neq (t + n) 0)) in E3 by lia.
    exists ob2, e2, k3, a, (S j), hl. split; [done|]. split; [done|]. split; [by etrans|].
    cbn [feed_all]. rewrite E. cbn [mbind outcome_bind]. rewrite drop_drop, <- Z2Nat.inj_add by lia. rewrite E3, Hd.
    destruct Hrx as (Hal & Hab & _). destruct w as [[ih pt os pb tl tt mt al ab ss] k0 a0]. cbn in Hal, Hab. subst.
    cbn [dev set_mtu set_ack set_rx set_enc].
    destruct (deliver _ _ _ _) as [[ret w4]| |]; cbn [mbind outcome_bind]; try done.
    by destruct (reply _ _ _) as [[ret' w5]| |].
Qed.

(** a command packet, as the phone sends it: the identifier and four bytes *)
Definition cmd_packet (sq id a b c d : Z) : list Z :=
  [0; sq; 0; 0; 4; 0; 14; 0; 0; 0; 0; 0; 0; 0; 0; 0; id; a; b; c; d].

Lemma read_cmd sq id a b c d junk (w : W) : rx_at [] 0 (dev w) ->
  read (Some (cmd_packet sq id a b c d ++ junk)) 21 m w =
    ('(ret, w2) ← deliver PRO_TYPE_CMD id PRO_OK
        {| dev := set_rx (Some [a; b; c; d]) 4 4 (set_enc 1 PYLD_TYPE_CMD (set_mtu m (dev w)));
           calls := S (calls w); appst := appst w |};
     reply {| ctrl := 0; seq := sq; frag_ctrl := 0 |} ret w2).
Proof.
  intros (Hal & Hab & Htol & Hrx). change (0 =? 0) with true in Hrx. cbv iota in Hrx.
  destruct w as [[ih pt os pb tl tt mt al ab ss] k ap]. cbn in Hal, Hab, Htol, Hrx. subst.
  destruct (allocates (malloc := malloc) k 4) as (bf & Eb & Hbf); [lia|]. unfold zlen in Hbf.
  destruct bf as [|y0 [|y1 [|y2 [|y3 [|]]]]]; cbn [length] in Hbf; try lia.
  unfold pro_trans_read, cmd_packet. cbn [app]. reads. change (BIT_GET 0 PRO_CTRL_RETRY_BIT) with 0. cbn [Z.eqb negb].
  unfold __frag_section. reads. unfold __pack_trans, pack_open. reads.
  change (BITS_GET _ 0 PACK_FRAG_END_BIT =? 0) with true. change (negb (_ =? 14 + 3)) with false.
  change (Z.lor 4 _) with 4. unfold with_dev.
  cbn [dev set_rx set_mtu pyld_buf total_length tol_len_now calls tick appst]. rewrite Eb.
  cbn [Z.eqb mbind outcome_bind dev set_rx set_mtu pyld_buf total_length tol_len_now encrypt_layer_is_head set_enc pyld_type].
  unfold __pack_encrypt_read. cbn [is_head Z.eqb negb]. reads.
  change (BITS_GET _ PRO_CTRL_TYPE_BIT 2) with PRO_TYPE_CMD. cbn [Z.eqb PRO_TYPE_CMD]. unfold __payload_read.
  change (PYLD_TYPE_CMD =? PYLD_TYPE_CMD) with true. cbv iota. reads.
  change (is_head _ =? 0) with false. cbn [negb mbind outcome_bind].
  change (u8 (u32 (14 - 9)) =? 5) with true. cbn [negb]. reads.
  unfold fill. rewrite memcpy_done by (cbn [length]; lia). cbn [mbind outcome_bind]. reflexivity.
Qed.

(** a complete message goes to the application with an empty answer buffer *)
Lemma deliver_spec recv pt id ob len d k (a : App) : pfn_recv_event = Some recv ->
  exists ab, zlen ab = PRO_CONFIG_BUF_SIZE /\
  deliver pt id PRO_OK {| dev := set_rx ob len len d; calls := k; appst := a |} =
    ('(r, w) ← recv {| ev_type := pt; event_id := id; p_buf := ob; ev_length := len |}
                 {| dev := set_ack (ack_len d) (Some ab) (set_rx ob len len d); calls := S k; appst := a |};
     Done (r, with_dev __clear_dev w)).
Proof.
  intros Hr. unfold pack_deliver. cbn [dev set_rx tol_len_now total_length pyld_buf calls]. rewrite Z.eqb_refl. cbn [negb].
  destruct (allocates (malloc := malloc) k PRO_CONFIG_BUF_SIZE) as (ab & -> & Hab); [done|]. exists ab. rewrite Hr. by split.
Qed.

End Receive.

(** ** Theorems *)

Lemma frames_fit k m head c sq f len type rest : 19 <= m ->
  Forall (fun p => zlen p <= m) (frames k m head c sq f len type rest) /\
  zlen (frames k m head c sq f len type rest) <= Z.max 1 (zlen rest).
Proof.
  intros Hm. revert head c sq f rest. induction k as [|k IH]; intros head c sq f rest; cbn [frames].
  { split; [done|]. unfold zlen. cbn. lia. }
  set (n := Z.min _ _).
  assert (Hn : 0 <= n /\ n <= zlen rest /\ n <= m - overhead head)
    by (unfold n, zlen, overhead; destruct head; lia).
  assert (Ez : zlen (take (Z.to_nat n) rest) = n) by (unfold zlen in *; rewrite length_take; lia).
  destruct (Z.eqb_spec n (zlen rest)) as [E|E].
  - split; [|unfold zlen; cbn; lia]. apply Forall_singleton. rewrite frame_len. lia.
  - assert (Hd : zlen (drop (Z.to_nat n) rest) = zlen rest - n) by (unfold zlen in *; rewrite length_drop; lia).
    destruct (IH false (frag_bit n len c) (u8 (sq + 1)) (f + 1) (drop (Z.to_nat n) rest)) as [H1 H2].
    split; [constructor; [rewrite frame_len; lia|done]|]. rewrite Hd in H2. unfold zlen at 1. cbn [length].
    rewrite Nat2Z.inj_succ. fold (zlen (frames k m false (frag_bit n len c) (u8 (sq + 1)) (f + 1) len type (drop (Z.to_nat n) rest))).
    assert (1 <= n) by (unfold n, overhead in *; destruct head; lia). lia.
Qed.

Lemma cut_prefix sem k ps : exists rest, ps = fst (cut sem k ps) ++ rest /\ (snd (cut sem k ps) = true -> rest = []).
Proof.
  revert k. induction ps as [|p ps IH]; intros k; cbn [cut]; [by exists []|].
  destruct (sem k); [|by exists ps]. destruct (IH (S k)) as (rest & E & Hr). exists rest.
  destruct (cut sem (S k) ps) as [qs ok]. cbn [fst snd] in *. split; [by rewrite E at 1|done].
Qed.

Lemma cut_all sem ps : (forall i, sem i = true) -> forall k, cut sem k ps = (ps, true).
Proof. intros H. induction ps as [|p ps IH]; intros k; cbn [cut]; [done|]. by rewrite H, IH. Qed.

(** C37: sending terminates.  For a message of at most 255 bytes and an MTU between 19
    and 255, whatever the allocator and the semaphore do, [__protocol_send] comes back
    without touching memory outside its buffers; it has handed out at most one packet
    per byte (one for an empty message), none longer than the MTU: all the packets of
    the message, or those up to the first whose acknowledge did not arrive in time,
    reported as a timeout. *)
Theorem ble_send_terminates {App} malloc sem_take (pfu_bytes_send : list Z -> App -> App) fuel sq ack type data len
  (w : world App) :
  (256 <= fuel)%nat -> 19 <= mtu (dev w) <= 255 -> 0 <= len <= 255 -> len <= zlen data ->
  (forall b, malloc (calls w) (mtu (dev w)) = Some b -> zlen b = mtu (dev w)) ->
  exists ret qs w', __protocol_send malloc sem_take pfu_bytes_send fuel sq ack type data len w = Done (ret, w') /\
    appst w' = foldl (fun a p => pfu_bytes_send p a) (appst w) qs /\
    Forall (fun p => zlen p <= mtu (dev w)) qs /\ zlen qs <= Z.max 1 len /\
    match malloc (calls w) (mtu (dev w)) with
    | None => ret = - PRO_NO_MEM /\ qs = []
    | Some _ => exists ok, cut sem_take (S (calls w)) (packets (mtu (dev w)) sq ack type (take (Z.to_nat len) data)) = (qs, ok)
                  /\ if ok then 0 <= ret <= len else ret = - PRO_TIMEOUT
    end.
Proof.
  intros Hf Hm Hl Hd Hb. pose proof (protocol_send_spec malloc sem_take pfu_bytes_send fuel sq ack type data len w Hf Hm Hl Hd) as H.
  destruct (malloc (calls w) (mtu (dev w))) as [b|].
  2: { exists (- PRO_NO_MEM), [], (tick w). split_and!; try done. unfold zlen. cbn. lia. }
  specialize (H (Hb b eq_refl)).
  destruct (frames_fit (S (length (take (Z.to_nat len) data))) (mtu (dev w)) true (base_ctrl ack) sq 0
    (zlen (take (Z.to_nat len) data)) type (take (Z.to_nat len) data) (proj1 Hm)) as [F1 F2].
  fold (packets (mtu (dev w)) sq ack type (take (Z.to_nat len) data)) in F1, F2. rewrite take_zlen in F2 by lia.
  destruct (cut_prefix sem_take (S (calls w)) (packets (mtu (dev w)) sq ack type (take (Z.to_nat len) data)))
    as (rest & Ep & _).
  destruct (cut _ _ _) as [qs ok]. cbn [fst] in Ep. destruct H as (ret & E & Hr).
  destruct (sent_all_spec pfu_bytes_send qs (tick w)) as (e & t & Es). rewrite Es in E.
  exists ret, qs. eexists. split; [exact E|]. split; [done|]. rewrite Ep in F1, F2.
  split; [by apply Forall_app in F1 as [? _]|]. split; [|by exists ok].
  unfold zlen in *. rewrite length_app in F2. lia.
Qed.

(** applications that keep what was sent and what was received *)
Definition log_send (p : list Z) (a : list (list Z)) : list (list Z) := a ++ [p].
Abbreviation peer := (world (list (list Z) * list pro_event)).
Definition peer_send (p : list Z) (a : list (list Z) * list pro_event) : list (list Z) * list pro_event :=
  (fst a ++ [p], snd a).
Definition peer_recv (ev : pro_event) (w : peer) : outcome (Z * peer) :=
  Done (PRO_OK, with_app (fun a => (fst a, snd a ++ [ev])) w).

Lemma log_send_all qs a : foldl (fun a p => log_send p a) a qs = a ++ qs.
Proof.
  revert a. induction qs as [|q qs IH]; intros a; cbn [foldl]; [by rewrite app_nil_r|].
  rewrite IH. unfold log_send. by rewrite <- app_assoc.
Qed.
Lemma peer_send_all qs a : snd (outgoing peer_send qs a) = snd a.
Proof. unfold outgoing. revert a. induction qs as [|q qs IH]; intros a; cbn [foldl]; [done|]. by rewrite IH. Qed.

(** packets given to the peer as they are *)
Definition peer_read malloc sem ticks (m : Z) (p : list Z) (w : peer) : outcome (Z * peer) :=
  pro_trans_read malloc sem ticks peer_send (Some peer_recv) 256 (Some p) (zlen p) m w.
Definition peer_same : relation (list (list Z) * list pro_event) := fun a b => snd a = snd b.
#[local] Instance peer_same_pre : PreOrder peer_same.
Proof. split; [done|]. intros a b c H1 H2. unfold peer_same in *. by rewrite H1. Qed.
Lemma peer_send_same p a : True -> True /\ peer_same a (peer_send p a).
Proof. done. Qed.
#[export] Instance peer_uplink : Uplink peer_send :=
  {| up_inv := fun _ => True; up_rel := peer_same; up_pre := peer_same_pre; up_send := peer_send_same |}.
#[export] Instance peer_downlink malloc sem ticks m :
  Downlink peer_send (pro_trans_read malloc sem ticks peer_send (Some peer_recv) 256) (peer_read malloc sem ticks m) m.
Proof. intros p w _ _. exists [], (appst w). split; [done|]. split; [done|]. rewrite app_nil_r. by destruct w. Qed.

Lemma holds_all ob msg : holds ob (zlen msg) msg -> default [] ob = msg.
Proof.
  destruct ob as [b|]; cbn; [|by intros ->]. intros [Hb Ht]. unfold zlen in *.
  rewrite Nat2Z.id, firstn_all in Ht. rewrite <- Ht. symmetry. apply take_ge. lia.
Qed.

(** C16: a message survives the wire.  For every message of at most 255 bytes, whatever
    the MTUs of the two sides (19 to 255), the packets that [__protocol_send] hands out
    and [pro_trans_read] of the other side takes in turn are put together to exactly one
    event, with the type and identifier that were sent and the bytes of the message;
    every packet is accepted, acknowledged or not, and the receiver is ready for the
    next message. *)
Theorem ble_message_roundtrip malloc1 sem1 malloc2 sem2 ticks sq ack type msg m2 (w1 : world (list (list Z))) (w2 : peer) :
  19 <= mtu (dev w1) <= 255 -> 19 <= m2 <= 255 -> zlen msg <= 255 -> (forall i, sem1 i = true) ->
  Allocates malloc1 -> Allocates malloc2 -> rx_at msg 0 (dev w2) ->
  exists ret ps w1' rs w2' ev,
    __protocol_send malloc1 sem1 log_send 256 sq ack type msg (zlen msg) w1 = Done (ret, w1') /\
    appst w1' = appst w1 ++ ps /\
    feed_all (peer_read malloc2 sem2 ticks m2) ps w2 = Done (rs, w2') /\
    Forall (fun r => r = PRO_OK) rs /\ snd (appst w2') = snd (appst w2) ++ [ev] /\
    ev_type ev = PRO_TYPE_DATA /\ event_id ev = type /\ default [] (p_buf ev) = msg /\ ev_length ev = zlen msg /\
    forall msg', rx_at msg' 0 (dev w2').
Proof.
  intros Hm1 Hm2 Hl Hsem Hmal1 Hmal2 Hrx. assert (H0 : 0 <= zlen msg) by (unfold zlen; lia).
  pose proof (protocol_send_spec malloc1 sem1 log_send 256 sq ack type msg (zlen msg) w1 (le_n _) Hm1 ltac:(lia) ltac:(lia)) as Hs.
  destruct (allocates (malloc := malloc1) (calls w1) (mtu (dev w1))) as (b & Eb & Hb); [lia|]. rewrite Eb in Hs. specialize (Hs Hb).
  rewrite cut_all in Hs by done. destruct Hs as (ret & Es & _). rewrite take_ge in Es by (unfold zlen; lia).
  set (ps := packets _ _ _ _ _) in Es. destruct (sent_all_spec log_send ps (tick w1)) as (e & t & Et). rewrite Et in Es.
  destruct (feed_frames malloc2 sem2 ticks peer_send (Some peer_recv) 256 (le_n _) (peer_read malloc2 sem2 ticks m2) m2 Hm2 msg type (mtu (dev w1)) Hm1 Hl
    (S (length msg)) 0 (base_ctrl ack) sq 0 w2) as (ob & e2 & k & a & j & hl & Hob & _ & HR & Er); try done; try (unfold zlen; lia).
  { unfold zlen in *. lia. } { unfold base_ctrl. apply (bool_decide_unpack _). by destruct (ack =? 0). }
  change (frames _ _ _ _ _ _ _ _ _) with ps in Er. cbv zeta in Er.
  destruct (deliver_spec malloc2 (Some peer_recv) peer_recv PRO_TYPE_DATA type ob (zlen msg)
    (set_enc e2 PYLD_TYPE_DATA (set_mtu m2 (dev w2))) k a eq_refl) as (ab & Hab & Ed).
  rewrite Ed in Er. cbn [peer_recv mbind outcome_bind] in Er.
  match type of Er with context [pack_reply _ _ _ _ _ _ ?v] =>
    destruct (reply_spec malloc2 sem2 peer_send 256 (le_n _) hl PRO_OK v) as (e3 & t3 & k3 & Ep) end.
  { done. } { destruct Hrx as (Hal & _). change (zlen ab = PRO_CONFIG_BUF_SIZE /\ 0 <= ack_len (dev w2) <= 256). by rewrite Hal. }
  rewrite Ep in Er. cbn [mbind outcome_bind] in Er.
  exists ret, ps. eexists. eexists. eexists.
  exists {| ev_type := PRO_TYPE_DATA; event_id := type; p_buf := ob; ev_length := zlen msg |}.
  split; [exact Es|]. split; [apply log_send_all|]. split; [exact Er|]. split.
  { apply Forall_app. split; [by apply Forall_replicate|by apply Forall_singleton]. }
  split. { cbn [appst]. rewrite peer_send_all. cbn. by rewrite <- HR. }
  split_and!; try done. by apply holds_all.
Qed.

(** ** Witnesses and limits *)

Definition fresh (k : nat) (n : Z) : option (list Z) := Some (replicate (Z.to_nat n) 0).
Definition with_mtu (m : Z) : pro_dev := set_mtu m pro_trans_init.
Definition sender (m : Z) : world (list (list Z)) := {| dev := with_mtu m; calls := 0; appst := [] |}.
Definition receiver : peer := {| dev := pro_trans_init; calls := 0; appst := ([], []) |}.
Definition sample_msg : list Z := [77; 121; 72; 111; 109; 101; 78; 101; 116; 45; 50; 71].

#[export] Instance fresh_ok : Allocates fresh.
Proof. intros k n H. eexists. split; [reflexivity|]. unfold zlen. rewrite length_replicate. lia. Qed.

Lemma ble_send_terminates_witness :
  exists ret qs w', __protocol_send fresh (fun _ => false) log_send 256 3 1 2 sample_msg 12 (sender 20) = Done (ret, w')
    /\ appst w' = foldl (fun a p => log_send p a) [] qs /\ Forall (fun p => zlen p <= 20) qs /\ zlen qs <= 12.
Proof.
  destruct (ble_send_terminates fresh (fun _ => false) log_send 256 3 1 2 sample_msg 12 (sender 20)) as
    (ret & qs & w' & H1 & H2 & H3 & H4 & _); [lia|cbn; lia|lia|done| |].
  - intros b [= <-]. done.
  - exists ret, qs, w'. by split_and!.
Defined.

Lemma ble_message_roundtrip_witness :
  exists ps rs w2' ev, feed_all (peer_read fresh (fun _ => true) (fun _ => 0) 40) ps receiver = Done (rs, w2')
    /\ snd (appst w2') = [ev] /\ event_id ev = 2 /\ default [] (p_buf ev) = sample_msg.
Proof.
  destruct (ble_message_roundtrip fresh (fun _ => true) fresh (fun _ => true) (fun _ => 0) 3 0 2 sample_msg 40 (sender 20) receiver)
    as (ret & ps & w1' & rs & w2' & ev & _ & _ & H1 & _ & H2 & _ & H3 & H4 & _);
    try apply fresh_ok; try done; try (cbn; lia).
  by exists ps, rs, w2', ev.
Defined.

(** A new message whose predecessor was not finished is written through a null
    pointer: [__clear_dev] forgets the length just read, so nothing is allocated. *)
Lemma ble_restart_faults :
  feed_all (peer_read fresh (fun _ => true) (fun _ => 0) 60)
    (take 1 (packets 20 0 1 2 sample_msg) ++ packets 60 0 1 2 sample_msg) receiver = Fault.
Proof. vm_compute. reflexivity. Qed.

(** The bytes of a packet are not checked against the length announced. *)
Lemma ble_overlong_faults :
  feed_all (peer_read fresh (fun _ => true) (fun _ => 0) 60) [frame true 24 0 32768 2 2 [1; 2; 3]] receiver = Fault.
Proof. vm_compute. reflexivity. Qed.

(** The remaining length goes through an eight-bit parameter: with 256 bytes
    left the loop sends empty packets for ever. *)
Lemma ble_send_256_stuck :
  __protocol_send fresh (fun _ => true) log_send 500 0 0 2 (replicate 256 7) 256 (sender 60) = NoFuel.
Proof. vm_compute. reflexivity. Qed.

(** With an MTU of 17 the payload size becomes 255 and the copy leaves the buffer. *)
Lemma ble_send_small_mtu_faults :
  __protocol_send fresh (fun _ => true) log_send 256 0 0 2 sample_msg 12 (sender 17) = Fault.
Proof. vm_compute. reflexivity. Qed.
