(* ===== verification/BleSync.v ===== *)
(** * BLE provisioning of WiFi

    [stage/blsync_ble/src/blsync_ble.c]: the GATT service through which a phone
    gives the device the name and key of its network, asks for a scan or the
    connection state, and starts the connection.  Its task takes the packets
    from a queue and runs the protocol of [BleTransfer]; the events of the
    protocol come back to [__recv_event] here. *)
From S2P Require Import Prelude Bytes BleTransfer BleTransferProofs.

Definition BLE_PROV_BUF_SIZE := 256.
Definition WIFI_SCAN_ITEMS_MAX := 50.
Definition BLE_PROV_QUEUE_NUMS := 2.
Definition DATA_STA_WIFI_BSSID := 1.
Definition DATA_STA_WIFI_SSID := 2.
Definition DATA_STA_WIFI_PASSWORD := 3.
Definition CMD_CONNECT_WIFI := 3.
Definition CMD_DISCONNECT_WIFI := 4.
Definition CMD_GET_VERSION := 7.
Definition CMD_WIFI_SCAN := 9.
Definition CMD_WIFI_DATA_GET := 11.
Definition CMD_PROV_STOP := 12.
Definition CMD_WIFI_STATE_GET := 13.
Definition PROTOCOL_EVENT_CMD := 0.
Definition PROTOCOL_EVENT_DATA := 1.
(** the string with its end *)
Definition BLSYNC_BLE_VERSION : list Z := [118; 49; 46; 49; 46; 48; 0].
Definition BT_ATT_ERR_INVALID_PDU := 4.

Record blesync_wifi_item := {
  i_ssid : list Z; i_ssid_len : Z; i_bssid : list Z; i_channel : Z; i_auth : Z; i_rssi : Z }.
Record wifi_state := { ip : list Z; gw : list Z; mask : list Z; st_ssid : list Z; st_bssid : list Z; st_state : Z }.
Record wifi_conn := { c_ssid : list Z; c_pask : list Z }.

(** the functions of [struct blesync_wifi_func] and the completion callback that are not NULL *)
Record blesync_wifi_func := {
  local_connect_remote_ap : bool; local_disconnect_remote_ap : bool; local_wifi_scan : bool;
  local_wifi_state_get : bool; complete_cb : bool }.

(** the calls of those functions *)
Inductive call :=
| K_connect (c : wifi_conn)
| K_disconnect
| K_scan
| K_state_get
| K_complete.

(** [struct bl_ble_sync] (the protocol's [pro_dev] is the [dev] of the world),
    with the variable [protocol_mtu] of its task and the calls made so far *)
Record bl_ble_sync := {
  conn_info : wifi_conn; ap_item : list blesync_wifi_item; w_ap_item : Z; r_ap_item : Z; scaning : Z;
  p_cur_conn : Z; attr_read_buf : list Z; rbuf_len : Z; send_buf : list Z; xQueue1 : list (list Z * Z);
  state : wifi_state; protocol_mtu : Z; trace : list call }.

Definition set_conn (c : wifi_conn) (b : bl_ble_sync) : bl_ble_sync :=
  {| conn_info := c; ap_item := ap_item b; w_ap_item := w_ap_item b; r_ap_item := r_ap_item b; scaning := scaning b;
     p_cur_conn := p_cur_conn b; attr_read_buf := attr_read_buf b; rbuf_len := rbuf_len b; send_buf := send_buf b;
     xQueue1 := xQueue1 b; state := state b; protocol_mtu := protocol_mtu b; trace := trace b |}.
Definition set_scan (l : list blesync_wifi_item) (wr r s : Z) (b : bl_ble_sync) : bl_ble_sync :=
  {| conn_info := conn_info b; ap_item := l; w_ap_item := wr; r_ap_item := r; scaning := s;
     p_cur_conn := p_cur_conn b; attr_read_buf := attr_read_buf b; rbuf_len := rbuf_len b; send_buf := send_buf b;
     xQueue1 := xQueue1 b; state := state b; protocol_mtu := protocol_mtu b; trace := trace b |}.
Definition set_out (a : list Z) (n : Z) (b : bl_ble_sync) : bl_ble_sync :=
  {| conn_info := conn_info b; ap_item := ap_item b; w_ap_item := w_ap_item b; r_ap_item := r_ap_item b;
     scaning := scaning b; p_cur_conn := p_cur_conn b; attr_read_buf := a; rbuf_len := n; send_buf := send_buf b;
     xQueue1 := xQueue1 b; state := state b; protocol_mtu := protocol_mtu b; trace := trace b |}.
Definition set_in (conn : Z) (s : list Z) (q : list (list Z * Z)) (m : Z) (b : bl_ble_sync) : bl_ble_sync :=
  {| conn_info := conn_info b; ap_item := ap_item b; w_ap_item := w_ap_item b; r_ap_item := r_ap_item b;
     scaning := scaning b; p_cur_conn := conn; attr_read_buf := attr_read_buf b; rbuf_len := rbuf_len b; send_buf := s;
     xQueue1 := q; state := state b; protocol_mtu := m; trace := trace b |}.
Definition set_state (s : wifi_state) (b : bl_ble_sync) : bl_ble_sync :=
  {| conn_info := conn_info b; ap_item := ap_item b; w_ap_item := w_ap_item b; r_ap_item := r_ap_item b;
     scaning := scaning b; p_cur_conn := p_cur_conn b; attr_read_buf := attr_read_buf b; rbuf_len := rbuf_len b;
     send_buf := send_buf b; xQueue1 := xQueue1 b; state := s; protocol_mtu := protocol_mtu b; trace := trace b |}.
Definition log_call (k : call) (b : bl_ble_sync) : bl_ble_sync :=
  {| conn_info := conn_info b; ap_item := ap_item b; w_ap_item := w_ap_item b; r_ap_item := r_ap_item b;
     scaning := scaning b; p_cur_conn := p_cur_conn b; attr_read_buf := attr_read_buf b; rbuf_len := rbuf_len b;
     send_buf := send_buf b; xQueue1 := xQueue1 b; state := state b; protocol_mtu := protocol_mtu b;
     trace := trace b ++ [k] |}.

(** ** Callbacks of the WiFi side *)

(** a result of the scan; the table keeps the first fifty *)
Definition scan_complete_cb (item : blesync_wifi_item) (b : bl_ble_sync) : outcome bl_ble_sync :=
  let b := set_scan (ap_item b) (w_ap_item b) (r_ap_item b) 0 b in
  if WIFI_SCAN_ITEMS_MAX <=? w_ap_item b then Done b
  else
    l ← aset (ap_item b) (w_ap_item b) item;
    Done (set_scan l (u8 (w_ap_item b + 1)) (r_ap_item b) (scaning b) b).

Definition wifi_state_get_cb (s : wifi_state) (b : bl_ble_sync) : bl_ble_sync := set_state s b.

(** ** The GATT attributes *)

(** [gatt_read] is [bt_gatt_attr_read] of the BLE stack: it is given the bytes to
    expose and returns the number it copied *)
Definition read_data (gatt_read : list Z -> Z -> Z -> Z) (len offset : Z) (b : bl_ble_sync) : outcome (Z * bl_ble_sync) :=
  if rbuf_len b =? 0 then Done (- BT_ATT_ERR_INVALID_PDU, b)
  else
    bytes ← memcpy (replicate (Z.to_nat (rbuf_len b)) 0) 0 (attr_read_buf b) 0 (rbuf_len b);
    Done (gatt_read bytes len offset, set_out (attr_read_buf b) 0 b).

(** the packet goes to the task; a full queue drops it *)
Definition write_data (conn : Z) (buf : list Z) (len : Z) (b : bl_ble_sync) : outcome (Z * bl_ble_sync) :=
  s ← memcpy (send_buf b) 0 buf 0 len;
  let q := if Z.of_nat (length (xQueue1 b)) <? BLE_PROV_QUEUE_NUMS then xQueue1 b ++ [(s, len)] else xQueue1 b in
  Done (len, set_in conn s q (protocol_mtu b) b).

(** the protocol's packets wait here to be read; the result is not looked at *)
Definition __ble_bytes_send (p : list Z) (b : bl_ble_sync) : bl_ble_sync :=
  if p_cur_conn b =? NULL then b
  else if BLE_PROV_BUF_SIZE <=? zlen p then b
  else match memcpy (attr_read_buf b) 0 p 0 (zlen p) with
       | Done a => set_out a (zlen p) b
       | _ => b
       end.

Section Sync.
Context (malloc : nat -> Z -> option (list Z)) (sem_take : nat -> bool) (xTaskGetTickCount : nat -> Z) (fuel : nat).
Context (func : blesync_wifi_func).
(** the text cJSON prints for an access point and for the state *)
Context (json_item : blesync_wifi_item -> list Z) (json_state : wifi_state -> list Z).
(** the state the WiFi side reports before the timeout, if any *)
Context (state_answer : nat -> option wifi_state).
Context (bt_gatt_get_mtu : Z -> Z).
Abbreviation W := (world bl_ble_sync).

(** the answer [s], given with its length, behind [pro_trans_layer_ack_read] *)
Definition answer_with (s : list Z) (len : Z) (w : W) : outcome W :=
  '(_, w) ← pro_trans_layer_ack_read (Some s) len w;
  Done w.

Definition __recv_event (ev : pro_event) (w : W) : outcome (Z * W) :=
  let b := appst w in
  if ev_type ev =? PROTOCOL_EVENT_DATA then
    if event_id ev =? DATA_STA_WIFI_BSSID then Done (PRO_OK, w)
    else if event_id ev =? DATA_STA_WIFI_SSID then
      s ← memcpy (replicate 32 0) 0 (default [] (p_buf ev)) 0 (ev_length ev);
      Done (PRO_OK, with_app (set_conn {| c_ssid := s; c_pask := c_pask (conn_info b) |}) w)
    else if event_id ev =? DATA_STA_WIFI_PASSWORD then
      s ← memcpy (replicate 64 0) 0 (default [] (p_buf ev)) 0 (ev_length ev);
      Done (PRO_OK, with_app (set_conn {| c_ssid := c_ssid (conn_info b); c_pask := s |}) w)
    else Done (PRO_ERROR, w)
  else if ev_type ev =? PROTOCOL_EVENT_CMD then
    if event_id ev =? CMD_CONNECT_WIFI then
      Done (PRO_OK, if local_connect_remote_ap func then with_app (log_call (K_connect (conn_info b))) w else w)
    else if event_id ev =? CMD_DISCONNECT_WIFI then
      Done (PRO_OK, if local_disconnect_remote_ap func then with_app (log_call K_disconnect) w else w)
    else if event_id ev =? CMD_WIFI_SCAN then
      Done (PRO_OK, if local_wifi_scan func then with_app (fun b => log_call K_scan (set_scan (ap_item b) 0 0 1 b)) w else w)
    else if event_id ev =? CMD_WIFI_DATA_GET then
      if w_ap_item b =? 0 then Done (PRO_NOT_READY, w)
      else if r_ap_item b =? w_ap_item b then Done (PRO_OK, with_app (set_scan (ap_item b) 0 0 (scaning b)) w)
      else
        item ← aget (ap_item b) (r_ap_item b);
        let w := with_app (set_scan (ap_item b) (w_ap_item b) (u8 (r_ap_item b + 1)) (scaning b)) w in
        w ← answer_with (json_item item ++ [0]) (zlen (json_item item)) w;
        Done (PRO_OK, w)
    else if event_id ev =? CMD_PROV_STOP then
      Done (PRO_OK, if complete_cb func then with_app (log_call K_complete) w else w)
    else if event_id ev =? CMD_WIFI_STATE_GET then
      if local_wifi_state_get func then
        let w := with_app (log_call K_state_get) w in
        let s := state_answer (calls w) in
        let w := tick w in
        match s with
        | None => Done (PRO_ERROR, w)
        | Some s =>
          let w := with_app (wifi_state_get_cb s) w in
          w ← answer_with (json_state (state (appst w)) ++ [0]) (zlen (json_state (state (appst w)))) w;
          Done (PRO_OK, w)
        end
      else Done (PRO_OK, w)
    else if event_id ev =? CMD_GET_VERSION then
      w ← answer_with BLSYNC_BLE_VERSION (zlen BLSYNC_BLE_VERSION) w;
      Done (PRO_OK, w)
    else Done (PRO_ERROR, w)
  else Done (PRO_OK, w).

(** one turn of the loop of [__bl_ble_sync_task]: the next packet, or a reset
    when none came in time; the result of the protocol is only logged *)
Definition __bl_ble_sync_task (w : W) : outcome (Z * W) :=
  match xQueue1 (appst w) with
  | [] => Done (PRO_OK, pro_trans_reset w)
  | (buf, len) :: q =>
    let m := if negb (p_cur_conn (appst w) =? NULL) then u16 (bt_gatt_get_mtu (p_cur_conn (appst w)) - 3)
             else protocol_mtu (appst w) in
    let w := with_app (fun b => set_in (p_cur_conn b) (send_buf b) q m b) w in
    pro_trans_read malloc sem_take xTaskGetTickCount __ble_bytes_send (Some __recv_event) fuel (Some buf) len m w
  end.

End Sync.

(** [bl_ble_sync_start]: everything zero, no connection, an empty queue *)
Definition no_item : blesync_wifi_item :=
  {| i_ssid := replicate 32 0; i_ssid_len := 0; i_bssid := replicate 6 0; i_channel := 0; i_auth := 0; i_rssi := 0 |}.
Definition no_state : wifi_state :=
  {| ip := replicate 16 0; gw := replicate 16 0; mask := replicate 16 0; st_ssid := replicate 32 0;
     st_bssid := replicate 6 0; st_state := 0 |}.
Definition bl_ble_sync_start : world bl_ble_sync :=
  {| dev := pro_trans_init; calls := 0;
     appst := {| conn_info := {| c_ssid := replicate 32 0; c_pask := replicate 64 0 |};
                 ap_item := replicate 50 no_item; w_ap_item := 0; r_ap_item := 0; scaning := 0; p_cur_conn := NULL;
                 attr_read_buf := replicate 256 0; rbuf_len := 0; send_buf := replicate 256 0; xQueue1 := [];
                 state := no_state; protocol_mtu := 0; trace := [] |} |}.

(** ** The phone's side of the exchange *)

(** the name and key of a message, filled up with zeros *)
Definition padded (n : nat) (s : list Z) : list Z := s ++ replicate (n - length s) 0.

Lemma memcpy_padded n s : (length s <= n)%nat -> memcpy (replicate n 0) 0 s 0 (zlen s) = Done (padded n s).
Proof.
  intros H. unfold zlen. rewrite memcpy_done by (rewrite ?length_replicate; lia).
  rewrite Z2Nat.inj_0, drop_0, take_0, Z.add_0_l, Nat2Z.id, firstn_all. cbn [app]. unfold padded.
  by rewrite drop_replicate.
Qed.

(** nothing queued, the buffers of their sizes *)
Definition sync_ok (b : bl_ble_sync) : Prop :=
  xQueue1 b = [] /\ zlen (send_buf b) = BLE_PROV_BUF_SIZE /\ zlen (attr_read_buf b) = BLE_PROV_BUF_SIZE.

(** what packets and answers leave alone *)
Definition same_info : relation bl_ble_sync := fun a b =>
  conn_info a = conn_info b /\ trace a = trace b /\ ap_item a = ap_item b /\ w_ap_item a = w_ap_item b /\
  r_ap_item a = r_ap_item b /\ scaning a = scaning b.
#[export] Instance same_info_pre : PreOrder same_info.
Proof. split; [by intros a|]. unfold same_info. intros a b c (->&->&->&->&->&->) (->&->&->&->&->&->). done. Qed.

Lemma bytes_send_ok p b : sync_ok b -> sync_ok (__ble_bytes_send p b) /\ same_info b (__ble_bytes_send p b).
Proof.
  intros (Hq & Hs & Ha). unfold __ble_bytes_send. destruct (_ =? NULL); [by split|]. destruct (_ <=? _); [by split|].
  destruct (memcpy _ _ _ _ _) as [a| |] eqn:E; [|by split..]. apply memcpy_length in E.
  split; [|done]. unfold sync_ok, zlen in *. cbn. rewrite E. done.
Qed.

#[export] Instance sync_uplink : Uplink __ble_bytes_send :=
  {| up_inv := sync_ok; up_rel := same_info; up_pre := same_info_pre; up_send := bytes_send_ok |}.

Section Phone.
Context (malloc : nat -> Z -> option (list Z)) (sem_take : nat -> bool) (xTaskGetTickCount : nat -> Z).
Context (func : blesync_wifi_func).
Context (json_item : blesync_wifi_item -> list Z) (json_state : wifi_state -> list Z).
Context (state_answer : nat -> option wifi_state) (bt_gatt_get_mtu : Z -> Z) (conn : Z).
Abbreviation W := (world bl_ble_sync).
Abbreviation recv := (__recv_event func json_item json_state state_answer).
Abbreviation task := (__bl_ble_sync_task malloc sem_take xTaskGetTickCount 256 func json_item json_state state_answer bt_gatt_get_mtu).

(** the phone writes a packet and the task runs *)
Definition phone_write (p : list Z) (w : W) : outcome (Z * W) :=
  '(_, b) ← write_data conn p (zlen p) (appst w);
  task (with_app (fun _ => b) w).

Definition m : Z := u16 (bt_gatt_get_mtu conn - 3).

Context `{!Allocates malloc}.
Context (Hconn : conn <> NULL) (Hm : 19 <= m <= 255).

Abbreviation read := (pro_trans_read malloc sem_take xTaskGetTickCount __ble_bytes_send (Some recv) 256).

#[local] Instance phone_downlink : Downlink __ble_bytes_send read phone_write m.
Proof.
  intros p w Hp (Hq & Hs & Ha). unfold phone_write, write_data.
  assert (E : memcpy (send_buf (appst w)) 0 p 0 (zlen p) = Done (p ++ drop (length p) (send_buf (appst w)))).
  { unfold zlen, BLE_PROV_BUF_SIZE in *. rewrite memcpy_done by lia.
    by rewrite Z2Nat.inj_0, drop_0, take_0, Z.add_0_l, Nat2Z.id, firstn_all. }
  exists (drop (length p) (send_buf (appst w))),
    (set_in conn (p ++ drop (length p) (send_buf (appst w))) [] m (appst w)).
  assert (El := memcpy_length _ _ _ _ _ _ E).
  split; [|split; [done|]]. { cbn [up_inv sync_uplink]. unfold sync_ok, zlen in *. cbn [set_in xQueue1 send_buf attr_read_buf]. by rewrite El. }
  rewrite E, Hq. cbn [mbind outcome_bind length]. change (Z.of_nat 0 <? BLE_PROV_QUEUE_NUMS) with true. cbv iota.
  unfold __bl_ble_sync_task. cbn [app appst with_app set_in xQueue1 p_cur_conn].
  rewrite (proj2 (Z.eqb_neq conn NULL)) by done. reflexivity.
Qed.

(** the device between two messages *)
Definition ready (w : W) : Prop := sync_ok (appst w) /\ forall msg, rx_at msg 0 (dev w).

Abbreviation deliver := (pack_deliver malloc (Some recv)).
Abbreviation reply := (pack_reply malloc sem_take __ble_bytes_send 256).

(** an event that leaves the protocol alone is answered and the device is ready again *)
Lemma event_done pt id ob len d k a hl b' :
  ack_len d = 0 -> mtu d = m -> sync_ok b' ->
  (forall w, appst w = a -> recv {| ev_type := pt; event_id := id; p_buf := ob; ev_length := len |} w =
               Done (PRO_OK, with_app (fun _ => b') w)) ->
  exists w', ('(ret, w2) ← deliver pt id PRO_OK {| dev := set_rx ob len len d; calls := k; appst := a |}; reply hl ret w2)
    = Done (PRO_OK, w') /\ ready w' /\ same_info b' (appst w').
Proof.
  intros Hal Hmt Hb' Hrecv. destruct (deliver_spec malloc (Some recv) recv pt id ob len d k a eq_refl) as (ab & Hab & E).
  rewrite E, Hrecv by done. cbn [mbind outcome_bind].
  match goal with |- context [pack_reply _ _ _ _ _ _ ?v] =>
    destruct (reply_spec malloc sem_take __ble_bytes_send 256 (le_n _) hl PRO_OK v) as (e & t & k2 & ->) end.
  { cbn [dev with_dev __clear_dev set_rx set_ack mtu with_app]. by rewrite Hmt. }
  { unfold ack_ok. cbn [dev with_dev __clear_dev set_rx set_ack ack_buf ack_len with_app]. rewrite Hal.
    unfold PRO_CONFIG_BUF_SIZE in *. by split. }
  eexists. split; [reflexivity|]. cbn [appst with_dev with_app].
  match goal with |- context [outgoing _ ?qs _] =>
    destruct (outgoing_R __ble_bytes_send (U := sync_uplink) qs b' Hb') as [H1 H2] end.
  split; [split; [done|]|done]. intros msg. unfold rx_at. by cbn.
Qed.

(** what a data message does to the connection information *)
Definition stored (id : Z) (msg : list Z) (c : wifi_conn) : wifi_conn :=
  if id =? DATA_STA_WIFI_SSID then {| c_ssid := padded 32 msg; c_pask := c_pask c |}
  else {| c_ssid := c_ssid c; c_pask := padded 64 msg |}.
Definition fits (id : Z) (msg : list Z) : Prop :=
  id = DATA_STA_WIFI_SSID /\ zlen msg <= 32 \/ id = DATA_STA_WIFI_PASSWORD /\ zlen msg <= 64.

Lemma data_event id msg ob (w : W) : fits id msg -> default [] ob = msg ->
  recv {| ev_type := PRO_TYPE_DATA; event_id := id; p_buf := ob; ev_length := zlen msg |} w =
    Done (PRO_OK, with_app (fun _ => set_conn (stored id msg (conn_info (appst w))) (appst w)) w).
Proof.
  intros Hf Ho. unfold __recv_event. cbn [ev_type event_id p_buf ev_length]. rewrite Ho.
  change (PRO_TYPE_DATA =? PROTOCOL_EVENT_DATA) with true. cbv iota.
  destruct Hf as [[-> Hl]|[-> Hl]]; cbn [Z.eqb DATA_STA_WIFI_SSID DATA_STA_WIFI_PASSWORD DATA_STA_WIFI_BSSID Pos.eqb];
    rewrite memcpy_padded by (unfold zlen in Hl; lia); done.
Qed.

Abbreviation write_all := (feed_all phone_write).

Lemma data_message id msg ms sq (w : W) : fits id msg -> 19 <= ms <= 255 -> ready w ->
  exists rs w', write_all (packets ms sq 0 id msg) w = Done (rs, w') /\ Forall (fun r => r = PRO_OK) rs /\ ready w' /\
    conn_info (appst w') = stored id msg (conn_info (appst w)) /\ trace (appst w') = trace (appst w).
Proof.
  intros Hf Hms [HI Hrx].
  assert (Hl : 0 <= zlen msg <= 64) by (unfold fits, zlen in *; destruct Hf as [[_ ?]|[_ ?]]; lia).
  destruct (feed_frames malloc sem_take xTaskGetTickCount __ble_bytes_send (Some recv) 256 (le_n _)
    phone_write m Hm msg id ms Hms ltac:(lia) (S (length msg)) 0 (base_ctrl 0) sq 0 w)
    as (ob & e & k & a & j & hl & Hob & HIa & HR & E); try done; try (unfold zlen in *; lia).
  { apply (bool_decide_unpack _). done. }
  destruct (event_done PRO_TYPE_DATA id ob (zlen msg) (set_enc e PYLD_TYPE_DATA (set_mtu m (dev w))) k a hl
    (set_conn (stored id msg (conn_info a)) a)) as (w' & E2 & Hr & Hs); [by destruct (Hrx [])|done|done| |].
  { intros w0 <-. apply data_event; [done|by apply holds_all]. }
  change (frames _ _ _ _ _ _ _ _ _) with (packets ms sq 0 id msg) in E. cbv zeta in E.
  exists (replicate j PRO_OK ++ [PRO_OK]), w'. split.
  { rewrite E. destruct (deliver _ _ _ _) as [[r w2]| |]; cbn [mbind outcome_bind] in *; try done. by rewrite E2. }
  split; [apply Forall_app; split; [by apply Forall_replicate|by apply Forall_singleton]|]. split; [done|].
  destruct HR as (-> & -> & _). destruct Hs as (<- & <- & _). done.
Qed.

Lemma connect_command sq x0 x1 x2 x3 (w : W) : local_connect_remote_ap func = true -> ready w ->
  exists w', phone_write (cmd_packet sq CMD_CONNECT_WIFI x0 x1 x2 x3) w = Done (PRO_OK, w') /\ ready w' /\
    trace (appst w') = trace (appst w) ++ [K_connect (conn_info (appst w))].
Proof.
  intros Hfn [HI Hrx]. destruct (phone_downlink (cmd_packet sq CMD_CONNECT_WIFI x0 x1 x2 x3) w) as (junk & a & HIa & HR & E); [done|done|].
  rewrite E. change (zlen (cmd_packet _ _ _ _ _ _)) with 21. rewrite read_cmd by (done || apply Hrx).
  destruct (event_done PRO_TYPE_CMD CMD_CONNECT_WIFI (Some [x0; x1; x2; x3]) 4 (set_enc 1 PYLD_TYPE_CMD (set_mtu m (dev w)))
    (S (calls w)) a {| ctrl := 0; seq := sq; frag_ctrl := 0 |} (log_call (K_connect (conn_info a)) a)) as (w' & E2 & Hr & Hs);
    [by destruct (Hrx [])|done|done| |].
  { intros w0 <-. unfold __recv_event. cbn [ev_type event_id].
    change (PRO_TYPE_CMD =? PROTOCOL_EVENT_DATA) with false. change (PRO_TYPE_CMD =? PROTOCOL_EVENT_CMD) with true.
    change (CMD_CONNECT_WIFI =? CMD_CONNECT_WIFI) with true. cbv iota. by rewrite Hfn. }
  exists w'. split; [exact E2|]. split; [done|]. destruct HR as (-> & -> & _). by destruct Hs as (_ & <- & _).
Qed.

(** C17: provisioning, end to end.  When the phone writes a network name of at most 32
    bytes, a key of at most 64 bytes and the connect command, cut into packets by any
    MTU, to a device that is between two messages, every packet is accepted and the
    WiFi side is called exactly once, with exactly that name and key (filled up with
    zeros); afterwards the device is ready again. *)
Theorem ble_provision_connects ssid pask ms sq1 sq2 sq3 x0 x1 x2 x3 (w : W) :
  zlen ssid <= 32 -> zlen pask <= 64 -> 19 <= ms <= 255 -> local_connect_remote_ap func = true -> ready w ->
  exists rs w', write_all (packets ms sq1 0 DATA_STA_WIFI_SSID ssid ++ packets ms sq2 0 DATA_STA_WIFI_PASSWORD pask
      ++ [cmd_packet sq3 CMD_CONNECT_WIFI x0 x1 x2 x3]) w = Done (rs, w') /\
    Forall (fun r => r = PRO_OK) rs /\ ready w' /\
    trace (appst w') = trace (appst w) ++ [K_connect {| c_ssid := padded 32 ssid; c_pask := padded 64 pask |}].
Proof.
  intros Hs Hp Hms Hfn Hr.
  destruct (data_message DATA_STA_WIFI_SSID ssid ms sq1 w) as (r1 & w1 & E1 & F1 & R1 & C1 & T1); [by left|done|done|].
  destruct (data_message DATA_STA_WIFI_PASSWORD pask ms sq2 w1) as (r2 & w2 & E2 & F2 & R2 & C2 & T2); [by right|done|done|].
  destruct (connect_command sq3 x0 x1 x2 x3 w2 Hfn R2) as (w3 & E3 & R3 & T3).
  exists (r1 ++ r2 ++ [PRO_OK]), w3. split.
  { rewrite feed_all_app, E1. cbn [mbind outcome_bind]. rewrite feed_all_app, E2. cbn [mbind outcome_bind feed_all].
    by rewrite E3. }
  split; [rewrite !Forall_app, Forall_singleton; done|]. split; [done|].
  rewrite T3, T2, T1, C2, C1. done.
Qed.

(** the results of a scan, one call each *)
Fixpoint scan_results (l : list blesync_wifi_item) (b : bl_ble_sync) : outcome bl_ble_sync :=
  match l with
  | [] => Done b
  | x :: l => b ← scan_complete_cb x b; scan_results l b
  end.

(** one request for the next access point: the result and the answer, in the
    buffer the protocol provides *)
Definition data_get (w : W) : outcome (Z * list Z * W) :=
  '(r, w) ← recv {| ev_type := PROTOCOL_EVENT_CMD; event_id := CMD_WIFI_DATA_GET; p_buf := Some [0; 0; 0; 0]; ev_length := 4 |}
              (with_dev (set_ack 0 (Some (replicate 256 0))) w);
  Done (r, take (Z.to_nat (ack_len (dev w))) (default [] (ack_buf (dev w))), w).
Fixpoint data_gets (k : nat) (w : W) : outcome (list (Z * list Z) * W) :=
  match k with
  | O => Done ([], w)
  | S k => '(r, s, w) ← data_get w; '(rs, w) ← data_gets k w; Done ((r, s) :: rs, w)
  end.

(** the table holds [l], of which [i] have been read *)
Definition listed (l : list blesync_wifi_item) (i : Z) (b : bl_ble_sync) : Prop :=
  zlen (ap_item b) = WIFI_SCAN_ITEMS_MAX /\ w_ap_item b = zlen l /\ r_ap_item b = i /\
  take (length l) (ap_item b) = l.

Lemma scan_results_spec l : forall pre b, zlen pre <= WIFI_SCAN_ITEMS_MAX -> listed pre 0 b ->
  exists b', scan_results l b = Done b' /\ listed (take 50 (pre ++ l)) 0 b'.
Proof.
  induction l as [|x l IH]; intros pre b Hp (Hz & Hw & Hr & Ht); cbn [scan_results].
  { exists b. split; [done|]. rewrite app_nil_r, take_ge by (unfold zlen, WIFI_SCAN_ITEMS_MAX in Hp; lia). done. }
  unfold scan_complete_cb. cbn [set_scan w_ap_item ap_item r_ap_item scaning]. unfold WIFI_SCAN_ITEMS_MAX, zlen in *.
  destruct (Z.leb_spec 50 (w_ap_item b)) as [Hf|Hf]; cbn [mbind outcome_bind].
  - destruct (IH pre (set_scan (ap_item b) (w_ap_item b) (r_ap_item b) 0 b)) as (b' & E & H); [lia|done|].
    exists b'. split; [done|]. rewrite take_app_le in * by lia. done.
  - rewrite aset_done by lia. cbn [mbind outcome_bind]. rewrite Hw, Nat2Z.id.
    destruct (IH (pre ++ [x]) (set_scan (<[length pre := x]> (ap_item b)) (u8 (Z.of_nat (length pre) + 1)) (r_ap_item b) 0 b))
      as (b' & E & H).
    + rewrite length_app. cbn [length]. lia.
    + unfold listed, zlen. cbn [set_scan w_ap_item ap_item r_ap_item]. rewrite length_insert, length_app. cbn [length].
      split_and!; [done| |done|]. { rewrite u8_small by lia. lia. }
      rewrite Nat.add_comm. cbn [Nat.add]. erewrite take_S_r by (apply list_lookup_insert_eq; lia).
      by rewrite take_insert_ge, Ht by lia.
    + exists b'. split; [exact E|]. by rewrite <- app_assoc in H.
Qed.

Lemma data_get_item l i x (w : W) : listed l i (appst w) -> 0 <= i -> l !! Z.to_nat i = Some x -> zlen l <= WIFI_SCAN_ITEMS_MAX ->
  zlen (json_item x) <= 256 ->
  exists w', data_get w = Done (PRO_OK, json_item x, w') /\ listed l (i + 1) (appst w').
Proof.
  intros (Hz & Hw & Hr & Ht) Hi Hx Hl Hj. assert (Hlt := lookup_lt_Some _ _ _ Hx). unfold WIFI_SCAN_ITEMS_MAX, zlen in *.
  unfold data_get, __recv_event. cbn [ev_type event_id appst with_dev].
  change (PROTOCOL_EVENT_CMD =? PROTOCOL_EVENT_DATA) with false. change (PROTOCOL_EVENT_CMD =? PROTOCOL_EVENT_CMD) with true.
  cbn [Z.eqb Pos.eqb CMD_WIFI_DATA_GET CMD_CONNECT_WIFI CMD_DISCONNECT_WIFI CMD_WIFI_SCAN].
  rewrite (proj2 (Z.eqb_neq (w_ap_item (appst w)) 0)) by lia.
  rewrite (proj2 (Z.eqb_neq (r_ap_item (appst w)) (w_ap_item (appst w)))) by lia. rewrite Hr.
  rewrite (aget_done _ i x); [|done|by rewrite <- Ht in Hx; apply lookup_take_Some in Hx as [? _]].
  cbn [mbind outcome_bind]. unfold answer_with, pro_trans_layer_ack_read, zlen.
  rewrite (proj2 (Z.ltb_ge PRO_CONFIG_BUF_SIZE _)) by (unfold PRO_CONFIG_BUF_SIZE; lia).
  cbn [dev with_app with_dev set_ack ack_buf].
  rewrite memcpy_done by (rewrite ?length_replicate, ?length_app; cbn [length]; lia). cbn [mbind outcome_bind].
  eexists. split.
  - cbn [dev with_dev set_ack ack_len ack_buf default]. rewrite u16_small by lia.
    rewrite Nat2Z.id, Z2Nat.inj_0, drop_0, take_0, take_app_length. cbn [app]. cbn [from_option id].
    by rewrite take_app_length.
  - unfold listed, zlen. cbn [appst with_dev with_app set_scan ap_item w_ap_item r_ap_item]. rewrite u8_small by lia. done.
Qed.

Lemma data_gets_spec l k : forall i (w : W), listed l i (appst w) -> 0 <= i -> zlen l = i + Z.of_nat k ->
  zlen l <= WIFI_SCAN_ITEMS_MAX -> Forall (fun x => zlen (json_item x) <= 256) l ->
  exists w', data_gets k w = Done ((fun x => (PRO_OK, json_item x)) <$> drop (Z.to_nat i) l, w') /\
    listed l (zlen l) (appst w').
Proof.
  induction k as [|k IH]; intros i w Hw Hi Hk Hl Hj; cbn [data_gets].
  { exists w. rewrite drop_ge by (unfold zlen in Hk; lia). split; [done|]. by replace (zlen l) with i by lia. }
  destruct (lookup_lt_is_Some_2 l (Z.to_nat i)) as [x Hx]; [unfold zlen in Hk; lia|].
  destruct (data_get_item l i x w) as (w1 & E1 & H1); try done. { rewrite Forall_lookup in Hj. by eapply Hj. }
  rewrite E1. cbn [mbind outcome_bind]. destruct (IH (i + 1) w1) as (w2 & E2 & H2); try done; [lia|lia|].
  exists w2. split; [|done]. rewrite E2. cbn [mbind outcome_bind]. rewrite (drop_S l x (Z.to_nat i)) by done.
  replace (Z.to_nat (i + 1)) with (S (Z.to_nat i)) by lia. done.
Qed.

(** The list of access points.  After a scan has begun, whatever number of results
    it brings, the table is never overrun and keeps the first fifty; the requests of the
    phone are answered with them one by one and in order, the request after the last
    with an empty answer that empties the list, and those after it with "not ready". *)
Theorem ble_scan_list (l : list blesync_wifi_item) (w : W) :
  let first := take 50 l in
  listed [] 0 (appst w) -> l <> [] -> Forall (fun x => zlen (json_item x) <= 256) first ->
  exists b' w2 w3 w4, scan_results l (appst w) = Done b' /\
    data_gets (length first) (with_app (fun _ => b') w) = Done ((fun x => (PRO_OK, json_item x)) <$> first, w2) /\
    data_get w2 = Done (PRO_OK, [], w3) /\ listed [] 0 (appst w3) /\ data_get w3 = Done (PRO_NOT_READY, [], w4).
Proof.
  intros first Hw Hne Hj. assert (Hf : 1 <= zlen first <= 50).
  { unfold zlen, first. rewrite length_take. destruct l; [done|]. cbn [length]. lia. }
  destruct (scan_results_spec l [] (appst w)) as (b' & Eb & Hb); [done|done|]. cbn [app] in Hb. fold first in Hb.
  destruct (data_gets_spec first (length first) 0 (with_app (fun _ => b') w)) as (w2 & E2 & H2 & Hw2 & Hr2 & _);
    try done; [unfold WIFI_SCAN_ITEMS_MAX; lia|]. rewrite Z2Nat.inj_0, drop_0 in E2.
  exists b', w2. unfold data_get, __recv_event. cbn [ev_type event_id appst with_dev].
  change (PROTOCOL_EVENT_CMD =? PROTOCOL_EVENT_DATA) with false. change (PROTOCOL_EVENT_CMD =? PROTOCOL_EVENT_CMD) with true.
  cbn [Z.eqb Pos.eqb CMD_WIFI_DATA_GET CMD_CONNECT_WIFI CMD_DISCONNECT_WIFI CMD_WIFI_SCAN].
  rewrite (proj2 (Z.eqb_neq (w_ap_item (appst w2)) 0)) by lia. rewrite Hr2, Hw2, Z.eqb_refl.
  eexists. eexists. split; [done|]. split; [done|]. split; [reflexivity|]. split; [|reflexivity]. done.
Qed.

End Phone.

(** ** Witnesses and limits *)

Definition all_funcs : blesync_wifi_func :=
  {| local_connect_remote_ap := true; local_disconnect_remote_ap := true; local_wifi_scan := true;
     local_wifi_state_get := true; complete_cb := true |}.
Definition sample_json (x : blesync_wifi_item) : list Z := i_ssid x ++ [44; i_channel x].
Definition ap (n : Z) : blesync_wifi_item :=
  {| i_ssid := [65; n]; i_ssid_len := 2; i_bssid := replicate 6 n; i_channel := n; i_auth := 2; i_rssi := -40 |}.

Lemma ready_start : ready bl_ble_sync_start.
Proof. split; [done|]. intros msg. done. Qed.

Lemma ble_provision_connects_witness :
  exists rs w', feed_all (phone_write fresh (fun _ => true) (fun _ => 0) all_funcs sample_json (fun _ => []) (fun _ => None)
      (fun _ => 103) 7)
      (packets 20 0 0 DATA_STA_WIFI_SSID sample_msg ++ packets 20 0 0 DATA_STA_WIFI_PASSWORD [49; 50; 51]
         ++ [cmd_packet 9 CMD_CONNECT_WIFI 0 0 0 0]) bl_ble_sync_start = Done (rs, w')
    /\ trace (appst w') = [K_connect {| c_ssid := padded 32 sample_msg; c_pask := padded 64 [49; 50; 51] |}].
Proof.
  destruct (ble_provision_connects fresh (fun _ => true) (fun _ => 0) all_funcs sample_json (fun _ => []) (fun _ => None)
    (fun _ => 103) 7 ltac:(done) ltac:(done) sample_msg [49; 50; 51] 20 0 0 9 0 0 0 0 bl_ble_sync_start
    ltac:(done) ltac:(done) ltac:(done) eq_refl ready_start) as (rs & w' & H1 & _ & _ & H2).
  exists rs, w'. split; [exact H1|exact H2].
Defined.

Lemma ble_scan_list_witness :
  exists b' w2, scan_results [ap 1; ap 6] (appst bl_ble_sync_start) = Done b' /\
    data_gets all_funcs sample_json (fun _ => []) (fun _ => None) 2 (with_app (fun _ => b') bl_ble_sync_start) =
      Done ([(PRO_OK, [65; 1; 44; 1]); (PRO_OK, [65; 6; 44; 6])], w2).
Proof.
  destruct (ble_scan_list all_funcs sample_json (fun _ => []) (fun _ => None) [ap 1; ap 6] bl_ble_sync_start)
    as (b' & w2 & w3 & w4 & H1 & H2 & _); [done|done|by repeat constructor|].
  exists b', w2. split; [exact H1|exact H2].
Defined.

(** A name of more than 32 bytes is copied over the end of its field. *)
Lemma ble_long_ssid_faults :
  feed_all (phone_write fresh (fun _ => true) (fun _ => 0) all_funcs sample_json (fun _ => []) (fun _ => None) (fun _ => 103) 7)
    (packets 100 0 0 DATA_STA_WIFI_SSID (replicate 33 65)) bl_ble_sync_start = Fault.
Proof. vm_compute. reflexivity. Qed.
