(* ===== verification/Romfs.v ===== *)
(** * The read-only file system

    [fs/romfs/src/bl_romfs.c]: files in a ROM image (the format of genromfs) as
    the VFS of the SDK sees them.  [img] is the image, byte by byte; a pointer
    into it is its distance from [romfs_root], so the root itself is 0; a read
    outside the image is a fault.  Paths and names are lists of characters
    without the final zero.  [memcmp] and [strncmp] stop at the first
    difference. *)
From S2P Require Import Prelude Bytes.

(** ** Definitions *)

Definition ROMFS_MAX_NAME_LEN := 64.
Definition ROMFH_HRD := 0.
Definition ROMFH_DIR := 1.
Definition ROMFH_REG := 2.
Definition ROMFH_UNKNOW := 3.
Definition HEAD_MAGIC_LEN := 16.
Definition slash : Z := 47.
Definition dot : Z := 46.
(** "/romfs" *)
Definition ROMFS_MOUNTPOINT : list Z := [47; 114; 111; 109; 102; 115].
(** "-rom1fs-" *)
Definition ROMFS_MAGIC : list Z := [45; 114; 111; 109; 49; 102; 115; 45].

Definition ALIGNUP16 (x : Z) : Z := Z.land (x + 15) (Z.lnot 15).
Definition U32HTONL (x : Z) : Z :=
  Z.lor (Z.lor (Z.lor (u32 (Z.shiftl (Z.land x 0xff) 24)) (u32 (Z.shiftl (Z.land x 0xff00) 8)))
               (Z.shiftr (Z.land x 0xff0000) 8))
        (Z.shiftr (Z.land x 0xff000000) 24).

Definition is_path_ch (ch : Z) : bool :=
  ((97 <=? ch) && (ch <=? 122)) || ((65 <=? ch) && (ch <=? 90)) || ((48 <=? ch) && (ch <=? 57)) ||
  (ch =? slash) || (ch =? dot) || (ch =? 95) || (ch =? 45).

(** a little-endian load of a [uint32_t] *)
Definition rd32 (img : list Z) (a : Z) : outcome Z :=
  b0 ← aget img a; b1 ← aget img (a + 1); b2 ← aget img (a + 2); b3 ← aget img (a + 3);
  Done (Z.lor (Z.lor (Z.lor b0 (Z.shiftl b1 8)) (Z.shiftl b2 16)) (Z.shiftl b3 24)).

(** [strlen] of the string at [a]; the image bounds the search *)
Fixpoint strlen_loop (fuel : nat) (img : list Z) (a n : Z) : outcome Z :=
  match fuel with
  | O => Fault
  | S fuel =>
    c ← aget img (a + n);
    if c =? 0 then Done n else strlen_loop fuel img a (n + 1)
  end.
Definition strlen_at (img : list Z) (a : Z) : outcome Z := strlen_loop (S (length img)) img a 0.

(** [0 == memcmp(s, a, strlen(s))] *)
Fixpoint memeq (s img : list Z) (a : Z) : outcome bool :=
  match s with
  | [] => Done true
  | c :: s => d ← aget img a; if c =? d then memeq s img (a + 1) else Done false
  end.

(** the path starts with the mount point (compared with the string's end) *)
Definition starts_with (s path : list Z) : bool := bool_decide (take (length s) path = s).

(** the loop of [filter_format]; [i_old] is not set before the first slash *)
Fixpoint filter_loop (path : list Z) (i i_old : Z) : Z :=
  match path with
  | [] => 0
  | ch :: path =>
    if negb (is_path_ch ch) then -2
    else if negb (ch =? slash) then filter_loop path (i + 1) i_old
    else if negb (i =? 0) then
      if i =? i_old then -3 else filter_loop path (i + 1) i
    else filter_loop path (i + 1) i
  end.
Definition filter_format (path : list Z) : Z :=
  if negb (starts_with ROMFS_MOUNTPOINT path) then -1 else filter_loop path 0 0.

(** the mount: the partition's address in flash, where it has one (0 is none),
    and the magic of the image there *)
Definition romfs_mount (mtd_open : Z) (xip_addr : Z) (img : list Z) : outcome Z :=
  if negb (mtd_open =? 0) then Done (-1)
  else if xip_addr =? 0 then Done (-1)
  else m ← memeq ROMFS_MAGIC img 0; Done (if (m : bool) then 0 else -1).

Definition dirent_type (img : list Z) (a : Z) : outcome Z :=
  x ← rd32 img a;
  let t := Z.land (U32HTONL x) 7 in
  Done (if t =? 0 then ROMFH_HRD else if t =? 2 then ROMFH_REG else if t =? 1 then ROMFH_DIR else ROMFH_UNKNOW).
Definition romfs_endaddr (img : list Z) : outcome Z := x ← rd32 img 8; Done (U32HTONL x).
Definition dirent_hardfh (img : list Z) (a : Z) : outcome Z :=
  x ← rd32 img a; Done (Z.land (U32HTONL x) 0xFFFFFFF0).
Definition dirent_childaddr (img : list Z) (a : Z) : outcome Z :=
  x ← rd32 img (a + 4); Done (Z.land (U32HTONL x) 0xFFFFFFF0).
Definition dirent_size (img : list Z) (a : Z) : outcome Z :=
  x ← rd32 img (a + 8); Done (U32HTONL x).

(** the first entry behind the name of the volume *)
Definition first_entry (img : list Z) : outcome Z :=
  n ← strlen_at img HEAD_MAGIC_LEN; Done (ALIGNUP16 (n + 1) + HEAD_MAGIC_LEN).

(** the name of the entry at [a] is [path] *)
Definition name_is (img path : list Z) (a : Z) : outcome bool :=
  e ← memeq path img (a + 16);
  if (e : bool) then z ← aget img (a + 16 + zlen path); Done (z =? 0) else Done false.

(** the loop of [file_info] over the entries of a directory; the chain of an
    image that links backwards need not end *)
Fixpoint file_info_loop (fuel : nat) (img path : list Z) (s e : Z) : outcome (Z * Z * Z) :=
  match fuel with
  | O => NoFuel
  | S fuel =>
    t ← dirent_type img s;
    m ← (if (t =? ROMFH_DIR) || (t =? ROMFH_REG) then name_is img path s else Done false);
    if (m : bool) then
      h ← dirent_hardfh img s;
      Done (0, s, if (t =? ROMFH_DIR) && (h =? 0) then e else h)
    else if t =? ROMFH_UNKNOW then Done (-1, s, e)
    else
      h ← dirent_hardfh img s;
      if e <=? h then Done (-1, h, e) else file_info_loop fuel img path h e
  end.

(** the pointers are written back only on success *)
Definition file_info (img path : list Z) (s e : Z) : outcome (option (Z * Z)) :=
  if ROMFS_MAX_NAME_LEN <? zlen path then Done None
  else
    s ← (if s =? 0 then first_entry img else Done s);
    '(r, s, e) ← file_info_loop (S (length img)) img path s e;
    Done (if r =? 0 then Some (s, e) else None).

(** the name up to the next slash and what is behind it *)
Fixpoint strchr_slash (p : list Z) : option (list Z * list Z) :=
  match p with
  | [] => None
  | c :: p => if c =? slash then Some ([], p)
              else match strchr_slash p with Some (a, b) => Some (c :: a, b) | None => None end
  end.

(** the loop of [dirent_file] over the names of the path *)
Fixpoint dirent_loop (fuel : nat) (img p_name : list Z) (need_enter_child : bool) (s e : Z)
  : outcome (Z + Z * Z) :=
  match fuel with
  | O => NoFuel
  | S fuel =>
    match p_name with
    | [] => Done (inr (s, e))
    | _ =>
      let p_ret := strchr_slash p_name in
      o ← (if need_enter_child then
             c ← dirent_childaddr img s;
             Done (if s =? c then None else Some c)
           else Done (Some s));
      match o with
      | None => Done (inl (-2))
      | Some s =>
        match p_ret with
        | None =>
          if ROMFS_MAX_NAME_LEN <? zlen p_name then Done (inl (-1))
          else r ← file_info img p_name s e;
               Done (match r with Some (s, e) => inr (s, e) | None => inl (-1) end)
        | Some (name, rest) =>
          (* copied to an array of 65 bytes without a check, then read up to its zero *)
          if ROMFS_MAX_NAME_LEN <? zlen name then Fault
          else
            r ← file_info img name s e;
            match r with
            | None => Done (inl (-1))
            | Some (s, e) => dirent_loop fuel img rest true s e
            end
        end
      end
    end
  end.

Definition dirent_file (img path : list Z) : outcome (Z + Z * Z) :=
  if zlen path <? zlen ROMFS_MOUNTPOINT then Done (inl (-1))
  else if negb (starts_with ROMFS_MOUNTPOINT path) then Done (inl (-1))
  else
    let p_name := drop (length ROMFS_MOUNTPOINT) path in
    match p_name with
    | c :: rest =>
      if negb (c =? slash) then Done (inl (-1))
      else e ← romfs_endaddr img; dirent_loop (S (length rest)) img rest false 0 e
    | [] => e ← romfs_endaddr img; dirent_loop 1 img [] false 0 e
    end.

(** *** Files *)

Record file_t := { f_arg : Z; offset : Z }.

Definition romfs_open (mounted : bool) (img path : list Z) : outcome (Z + file_t) :=
  if negb mounted then Done (inl (-1))
  else if negb (filter_format path =? 0) then Done (inl (-1))
  else
    r ← dirent_file img path;
    Done (match r with inl _ => inl (-2) | inr (s, _) => inr {| f_arg := s; offset := 0 |} end).

(** the payload behind header and name *)
Definition payload_at (img : list Z) (a : Z) : outcome Z :=
  n ← strlen_at img (a + 16); Done (a + ALIGNUP16 (n + 1) + 16).

(** the length read, the bytes copied to [buf] and the file *)
Definition romfs_read (img : list Z) (fp : file_t) (len : Z) : outcome (Z * list Z * file_t) :=
  payload_buf ← payload_at img (f_arg fp);
  payload_size ← dirent_size img (f_arg fp);
  if payload_size <=? offset fp then Done (0, [], fp)
  else
    let '(n, off) := if u32 (offset fp + len) <? payload_size then (len, u32 (offset fp + len))
                     else (payload_size - offset fp, payload_size) in
    b ← memcpy (replicate (Z.to_nat n) 0) 0 img (payload_buf + offset fp) n;
    Done (s32 n, b, {| f_arg := f_arg fp; offset := off |}).

Definition SEEK_SET := 0.
Definition SEEK_CUR := 1.
Definition SEEK_END := 2.

(** [off] and the result are an [off_t]; the position is a [size_t] *)
Definition romfs_lseek (img : list Z) (fp : file_t) (off whence : Z) : outcome (Z * file_t) :=
  payload_size ← dirent_size img (f_arg fp);
  let r := if whence =? SEEK_SET then (if off <? 0 then inl (-2) else inr off)
           else if whence =? SEEK_END then (if 0 <? off then inl (-3) else inr (s32 (u32 (off + payload_size))))
           else if whence =? SEEK_CUR then inr (s32 (u32 (off + offset fp)))
           else inl (-4) in
  Done (match r with
        | inl e => (e, fp)
        | inr tmp => if (tmp <? 0) || (payload_size <? tmp) then (-5, fp)
                     else (tmp, {| f_arg := f_arg fp; offset := tmp |})
        end).

Definition romfs_close (fp : file_t) : Z * file_t := (-1, {| f_arg := NULL; offset := 0 |}).

Definition IOCTL_ROMFS_GET_FILEBUF := 0.
(** the address and size of the file's bytes *)
Definition romfs_ioctl (img : list Z) (fp : file_t) (get_filebuf : bool) : outcome (Z + Z * Z) :=
  if get_filebuf then
    b ← payload_at img (f_arg fp);
    n ← dirent_size img (f_arg fp);
    Done (inr (b, n))
  else Done (inl (-3)).

Variant st_mode := S_NONE | S_IFDIR | S_IFREG.
Definition romfs_stat (img path : list Z) : outcome (Z + Z * st_mode) :=
  r ← dirent_file img path;
  match r with
  | inl _ => Done (inl (-1))
  | inr (s, _) =>
    if s =? 0 then Done (inr (0, S_NONE))
    else
      t ← dirent_type img s;
      if t =? ROMFH_DIR then Done (inr (0, S_IFDIR))
      else if t =? ROMFH_REG then n ← dirent_size img s; Done (inr (n, S_IFREG))
      else Done (inl (-2))
  end.

(** *** Directories *)

Record romfs_dir_t := { dir_start_addr : Z; dir_end_addr : Z; dir_cur_addr : option Z }.

(** [malloc_ok]: [aos_malloc] has memory for the handle *)
Definition romfs_opendir (mounted malloc_ok : bool) (img path : list Z) : outcome (option romfs_dir_t) :=
  if negb mounted then Done None
  else if negb malloc_ok then Done None
  else
    r ← dirent_file img path;
    match r with
    | inl _ => Done None
    | inr (s, e) =>
      o ← (if s =? 0 then f ← first_entry img; Done (Some f)
           else c ← dirent_childaddr img s; Done (if c =? 0 then None else Some c));
      Done (match o with
            | None => None
            | Some d => Some {| dir_start_addr := d; dir_end_addr := e; dir_cur_addr := None |}
            end)
    end.

(** the inner loop of [romfs_readdir]: the next entry that is a file, a
    directory or the last, or none *)
Fixpoint skip_links (fuel : nat) (img : list Z) (d_start d_end cur : Z) : outcome (bool * Z) :=
  match fuel with
  | O => NoFuel
  | S fuel =>
    if (d_end <=? cur) || (cur <? d_start) then Done (false, cur)
    else
      h ← dirent_hardfh img cur;
      if h =? 0 then Done (true, cur)
      else
        t ← dirent_type img cur;
        if (t =? ROMFH_DIR) || (t =? ROMFH_REG) then Done (true, cur)
        else skip_links fuel img d_start d_end h
  end.

(** [strncpy] of the name, cut at 64 characters *)
Fixpoint name_at (k : nat) (img : list Z) (a : Z) : outcome (list Z) :=
  match k with
  | O => Done []
  | S k => c ← aget img a; if c =? 0 then Done [] else s ← name_at k img (a + 1); Done (c :: s)
  end.

Definition is_dots (n : list Z) : bool := bool_decide (n = [dot]) || bool_decide (n = [dot; dot]).

(** the name of the next entry that is not [.] or [..] *)
Fixpoint romfs_readdir (fuel : nat) (img : list Z) (dp : romfs_dir_t) : outcome (option (list Z) * romfs_dir_t) :=
  match fuel with
  | O => NoFuel
  | S fuel =>
    '(found, cur) ← match dir_cur_addr dp with
        | None => Done (true, dir_start_addr dp)
        | Some cur => if dir_end_addr dp <=? cur then Done (false, cur)
                      else skip_links (S (length img)) img (dir_start_addr dp) (dir_end_addr dp) cur
        end;
    let at_ c := {| dir_start_addr := dir_start_addr dp; dir_end_addr := dir_end_addr dp; dir_cur_addr := Some c |} in
    if negb found then Done (None, at_ cur)
    else
      n ← name_at (Z.to_nat ROMFS_MAX_NAME_LEN) img (cur + 16);
      h ← dirent_hardfh img cur;
      let dp := at_ (if h =? 0 then dir_end_addr dp else h) in
      if is_dots n then romfs_readdir fuel img dp else Done (Some n, dp)
  end.

Definition romfs_closedir (dp : option romfs_dir_t) : Z := match dp with None => -1 | Some _ => 0 end.
