(* ===== verification/RomfsProofs.v ===== *)
(** * Proofs about the read-only file system *)
From S2P Require Import Prelude Bytes Romfs.

(** ** Images

    A ROM image seen as a tree.  [rep img off hi ts]: the entries of a directory
    are [ts], the first of them at [off], all below [hi].  The second word of a
    regular file is 0, as the format demands.  [TSelf] is a directory
    whose children start with itself: genromfs writes the [.] of the root so, every
    other [.] and [..] is a hard link. *)
Inductive tree :=
| TReg (name data : list Z)
| TDir (name : list Z) (children : list tree)
| TSelf (name : list Z)
| THrd (name : list Z).

Definition tname (t : tree) : list Z := match t with TReg n _ | TDir n _ | TSelf n | THrd n => n end.
Definition tcode (t : tree) : Z := match t with TReg _ _ => 2 | TDir _ _ | TSelf _ => 1 | THrd _ => 0 end.

(** a big-endian word of the image *)
Definition be32 (img : list Z) (a v : Z) : Prop :=
  0 <= a /\ exists b0 b1 b2 b3, take 4 (drop (Z.to_nat a) img) = [b0; b1; b2; b3] /\
  v = b0 * 2 ^ 24 + b1 * 2 ^ 16 + b2 * 2 ^ 8 + b3.
Definition cstr (img : list Z) (a : Z) (s : list Z) : Prop :=
  0 <= a /\ take (S (length s)) (drop (Z.to_nat a) img) = s ++ [0] /\ Forall (fun c => c <> 0) s.
Definition pad16 (x : Z) : Z := (x + 15) / 16 * 16.

(** the header and name of an entry; the low bits of the first word are its type *)
Definition header (img : list Z) (off hi nx : Z) (t : tree) : Prop :=
  0 < off < hi /\ (nx = 0 \/ off < nx < hi) /\
  (exists w, be32 img off w /\ Z.land w 0xFFFFFFF0 = nx /\ Z.land w 7 = tcode t) /\ cstr img (off + 16) (tname t).
Definition bound (nx hi : Z) : Z := if nx =? 0 then hi else nx.

Inductive entry (img : list Z) : Z -> Z -> Z -> tree -> Prop :=
| entry_reg off hi nx n data : header img off hi nx (TReg n data) -> be32 img (off + 4) 0 ->
    be32 img (off + 8) (zlen data) ->
    take (length data) (drop (Z.to_nat (off + 16 + pad16 (zlen n + 1))) img) = data -> entry img off hi nx (TReg n data)
| entry_dir off hi nx n ch c w : header img off hi nx (TDir n ch) -> be32 img (off + 4) w ->
    Z.land w 0xFFFFFFF0 = c -> 0 < c -> c <> off -> rep img c (bound nx hi) ch -> entry img off hi nx (TDir n ch)
| entry_self off hi nx n w : header img off hi nx (TSelf n) -> be32 img (off + 4) w ->
    Z.land w 0xFFFFFFF0 = off -> entry img off hi nx (TSelf n)
| entry_hrd off hi nx n : header img off hi nx (THrd n) -> entry img off hi nx (THrd n)
with rep (img : list Z) : Z -> Z -> list tree -> Prop :=
| rep_nil hi : rep img 0 hi []
| rep_cons off hi nx t ts : entry img off hi nx t -> rep img nx hi ts -> rep img off hi (t :: ts).

(** an image with the root directory [ts] *)
Definition romfs_image (img : list Z) (ts : list tree) : Prop :=
  Forall byte_ok img /\ zlen img < 2 ^ 31 /\ take 8 img = ROMFS_MAGIC /\
  exists hi vol, be32 img 8 hi /\ hi <= zlen img /\ cstr img 16 vol /\ rep img (pad16 (zlen vol + 1) + 16) hi ts.

(** ** Reading words and strings *)

Lemma ALIGNUP16_pad x : ALIGNUP16 x = pad16 x.
Proof.
  unfold ALIGNUP16, pad16. rewrite <- Z.ldiff_land. change 15 with (Z.ones 4) at 2.
  rewrite Z.ldiff_ones_r by lia. rewrite Z.shiftl_mul_pow2, Z.shiftr_div_pow2 by lia. done.
Qed.

Lemma lor_shift a b k : 0 <= k -> 0 <= a < 2 ^ k -> Z.lor a (Z.shiftl b k) = b * 2 ^ k + a.
Proof.
  intros Hk Ha. rewrite <- Z.shiftl_mul_pow2 by done.
  assert (E : Z.land a (Z.shiftl b k) = 0).
  { zbits n. destruct (decide (n < k)); [|by rewrite (testbit_high k) by lia].
    by rewrite (Z.testbit_neg_r b) by lia; rewrite andb_false_r. }
  rewrite <- Z.lxor_lor, <- Z.add_nocarry_lxor by done. lia.
Qed.

Lemma land_mask x k : 0 <= k -> Z.land x (Z.shiftl 0xff k) = Z.shiftl ((x / 2 ^ k) mod 256) k.
Proof.
  intros Hk. change 256 with (2 ^ 8). rewrite <- Z.land_ones, <- Z.shiftr_div_pow2 by lia. change (Z.ones 8) with 0xff.
  zbits n. destruct (decide (n < k)); [by rewrite (Z.testbit_neg_r 255), andb_false_r, Z.testbit_neg_r by lia|].
  autorewrite with zbits. do 2 f_equal; lia.
Qed.

Lemma htonl_bytes b0 b1 b2 b3 : byte_ok b0 -> byte_ok b1 -> byte_ok b2 -> byte_ok b3 ->
  U32HTONL (Z.lor (Z.lor (Z.lor b0 (Z.shiftl b1 8)) (Z.shiftl b2 16)) (Z.shiftl b3 24)) =
    b0 * 2 ^ 24 + b1 * 2 ^ 16 + b2 * 2 ^ 8 + b3.
Proof.
  unfold byte_ok. intros H0 H1 H2 H3. rewrite (lor_shift b0 b1 8) by lia.
  rewrite (lor_shift _ b2 16) by lia. rewrite (lor_shift _ b3 24) by lia.
  set (x := b3 * 2 ^ 24 + (b2 * 2 ^ 16 + (b1 * 2 ^ 8 + b0))).
  assert (Ex : x = b0 + 256 * (b1 + 256 * (b2 + 256 * b3))) by (unfold x; lia).
  unfold U32HTONL. change 0xff00 with (Z.shiftl 0xff 8). change 0xff0000 with (Z.shiftl 0xff 16).
  change 0xff000000 with (Z.shiftl 0xff 24). rewrite !land_mask by lia. change (Z.land x 255) with (Z.land x (Z.shiftl 255 0)).
  rewrite land_mask by lia. rewrite !Z.shiftl_0_r, Z.div_1_r.
  assert (E0 : x mod 256 = b0) by (rewrite Ex; Z.div_mod_to_equations; lia).
  assert (E1 : x / 2 ^ 8 mod 256 = b1) by (rewrite Ex; Z.div_mod_to_equations; lia).
  assert (E2 : x / 2 ^ 16 mod 256 = b2) by (rewrite Ex; Z.div_mod_to_equations; lia).
  assert (E3 : x / 2 ^ 24 mod 256 = b3) by (rewrite Ex; Z.div_mod_to_equations; lia).
  rewrite E0, E1, E2, E3. clearbody x. rewrite Z.shiftl_shiftl by lia. rewrite !Z.shiftr_shiftl_l by lia.
  rewrite Z.shiftl_0_r. unfold u32, wrap.
  rewrite !Z.mod_small by (rewrite Z.shiftl_mul_pow2; lia).
  change (16 - 8) with 8. change (8 + 8) with 16.
  rewrite (Z.lor_comm _ b3), (Z.lor_comm _ (Z.shiftl b2 8)), (Z.lor_comm (Z.shiftl b0 24)), !Z.lor_assoc.
  rewrite (lor_shift b3 b2 8) by lia. rewrite (lor_shift _ b1 16) by lia. rewrite (lor_shift _ b0 24) by lia. lia.
Qed.

Lemma take_lookup (l r : list Z) a i : take (length r) (drop a l) = r -> (i < length r)%nat -> l !! (a + i)%nat = r !! i.
Proof. intros H Hi. rewrite <- H, lookup_take_lt, lookup_drop by done. done. Qed.

Lemma take_aget (l r : list Z) a i x : take (length r) (drop (Z.to_nat a) l) = r -> 0 <= a -> 0 <= i ->
  r !! Z.to_nat i = Some x -> aget l (a + i) = Done x.
Proof.
  intros H Ha Hi Hx. apply aget_done; [lia|]. rewrite Z2Nat.inj_add by done.
  rewrite (take_lookup l r) by (done || by eapply lookup_lt_Some). done.
Qed.

Lemma rd32_be img a v : Forall byte_ok img -> be32 img a v -> exists x, rd32 img a = Done x /\ U32HTONL x = v.
Proof.
  intros Hi (Ha & b0 & b1 & b2 & b3 & E & ->).
  assert (Hb : Forall byte_ok [b0; b1; b2; b3]) by (rewrite <- E; by apply Forall_take, Forall_drop).
  rewrite !Forall_cons in Hb. destruct Hb as (H0 & H1 & H2 & H3 & _).
  exists (Z.lor (Z.lor (Z.lor b0 (Z.shiftl b1 8)) (Z.shiftl b2 16)) (Z.shiftl b3 24)). split; [|by apply htonl_bytes].
  unfold rd32. rewrite <- (Z.add_0_r a) at 1.
  rewrite (take_aget img [b0; b1; b2; b3] a 0 b0), (take_aget img [b0; b1; b2; b3] a 1 b1),
    (take_aget img [b0; b1; b2; b3] a 2 b2), (take_aget img [b0; b1; b2; b3] a 3 b3) by (done || lia). done.
Qed.

Lemma cstr_get img a s i : cstr img a s -> 0 <= i <= zlen s -> aget img (a + i) = Done (nth (Z.to_nat i) s 0).
Proof.
  intros (Ha & E & _) Hi. unfold zlen in Hi. apply (take_aget img (s ++ [0])); [|done|lia|].
  - rewrite length_app. cbn [length]. by rewrite Nat.add_1_r.
  - destruct (decide (Z.to_nat i < length s)%nat).
    + rewrite lookup_app_l by done. rewrite nth_lookup. destruct (lookup_lt_is_Some_2 s (Z.to_nat i)) as [c ->]; done.
    + rewrite lookup_app_r, nth_overflow by lia. by replace (Z.to_nat i - length s)%nat with 0%nat by lia.
Qed.

Lemma strlen_spec img a s : cstr img a s -> strlen_at img a = Done (zlen s).
Proof.
  intros Hs. assert (Hl : zlen s < zlen img).
  { destruct Hs as (_ & E & _). apply (f_equal length) in E. rewrite length_take, length_drop, length_app in E.
    unfold zlen. cbn [length] in E. lia. }
  unfold strlen_at. assert (G : forall fuel n, 0 <= n <= zlen s -> zlen s - n < Z.of_nat fuel ->
    strlen_loop fuel img a n = Done (zlen s)).
  { induction fuel as [|fuel IH]; intros n Hn Hf; [lia|]. cbn [strlen_loop]. rewrite (cstr_get img a s n Hs Hn).
    cbn [mbind outcome_bind]. destruct (Z.eqb_spec (nth (Z.to_nat n) s 0) 0) as [E|E].
    - f_equal. destruct (decide (n < zlen s)) as [Hlt|]; [|lia]. exfalso. destruct Hs as (_ & _ & Hnz).
      rewrite Forall_lookup in Hnz. unfold zlen in Hlt.
      destruct (lookup_lt_is_Some_2 s (Z.to_nat n)) as [c Hc]; [lia|]. apply (Hnz _ c Hc).
      rewrite nth_lookup, Hc in E. done.
    - apply IH; [|lia]. destruct (decide (n = zlen s)) as [->|]; [|lia]. exfalso. apply E.
      apply nth_overflow. unfold zlen. lia. }
  apply G; unfold zlen in *; lia.
Qed.

Lemma cstr_tail img a c s : cstr img a (c :: s) -> cstr img (a + 1) s.
Proof.
  intros (Ha & E & Hn). apply Forall_cons in Hn as [_ Hn]. split; [lia|]. split; [|done].
  rewrite Z2Nat.inj_add by lia. change (Z.to_nat 1) with 1%nat. rewrite <- drop_drop.
  destruct (drop (Z.to_nat a) img) as [|d l]; cbn in *; [done|]. by injection E as _ ?.
Qed.

(** comparing a name: equality of strings *)
Lemma name_cmp img path : forall a s, cstr img a s -> Forall (fun c => c <> 0) path ->
  (e ← memeq path img a; if (e : bool) then z ← aget img (a + zlen path); Done (z =? 0) else Done false)
    = Done (bool_decide (path = s)).
Proof.
  induction path as [|c path IH]; intros a s Hs Hp; cbn [memeq mbind outcome_bind].
  - change (zlen []) with 0. rewrite (cstr_get img a s 0 Hs) by (unfold zlen; lia). cbn [mbind outcome_bind]. f_equal.
    destruct s as [|d s]; [done|]. change (nth (Z.to_nat 0) (d :: s) 0) with d. destruct Hs as (_ & _ & Hn). apply Forall_cons in Hn as [Hd _].
    by rewrite (proj2 (Z.eqb_neq d 0)).
  - apply Forall_cons in Hp as [Hc Hp]. pose proof (cstr_get img a s 0 Hs) as Hg. rewrite Z.add_0_r in Hg.
    rewrite Hg by (unfold zlen; lia). cbn [mbind outcome_bind].
    destruct s as [|d s].
    + change (nth (Z.to_nat 0) [] 0) with 0. rewrite (proj2 (Z.eqb_neq c 0)) by done. done.
    + change (nth (Z.to_nat 0) (d :: s) 0) with d. destruct (Z.eqb_spec c d) as [->|Hd].
      * specialize (IH (a + 1) s (cstr_tail _ _ _ _ Hs) Hp).
        replace (a + zlen (d :: path)) with (a + 1 + zlen path) by (unfold zlen; cbn [length]; lia).
        rewrite IH. f_equal. apply bool_decide_ext. naive_solver.
      * cbn [mbind outcome_bind]. by rewrite bool_decide_false by naive_solver.
Qed.

Lemma name_is_spec img path a s : cstr img (a + 16) s -> Forall (fun c => c <> 0) path ->
  name_is img path a = Done (bool_decide (path = s)).
Proof. apply name_cmp. Qed.

(** ** Looking up a name in a directory *)

Definition is_link (t : tree) : bool := match t with THrd _ => true | _ => false end.
Definition fs_find (name : list Z) (ts : list tree) : option tree :=
  head (filter (fun t => is_link t = false /\ name = tname t) ts).

Section Image.
Context (img : list Z) (Hbytes : Forall byte_ok img) (Hmagic : take 8 img = ROMFS_MAGIC).

Lemma header_type off hi nx t : header img off hi nx t ->
  dirent_type img off = Done (match t with TReg _ _ => ROMFH_REG | TDir _ _ | TSelf _ => ROMFH_DIR | THrd _ => ROMFH_HRD end) /\
  dirent_hardfh img off = Done nx.
Proof.
  intros (_ & _ & (w & Hw & Hn & Ht) & _). destruct (rd32_be img off w Hbytes Hw) as (x & Hx & Hv).
  unfold dirent_type, dirent_hardfh. rewrite Hx. cbn [mbind outcome_bind]. rewrite Hv, Ht, Hn. by destruct t.
Qed.

Lemma root_unknown : dirent_type img 0 = Done ROMFH_UNKNOW.
Proof.
  assert (Hw : be32 img 0 0x2d726f6d).
  { split; [done|]. exists 45, 114, 111, 109. split; [|done]. rewrite Z2Nat.inj_0, drop_0.
    apply (f_equal (take 4)) in Hmagic. by rewrite take_take in Hmagic. }
  destruct (rd32_be img 0 _ Hbytes Hw) as (x & Hx & Hv). unfold dirent_type. rewrite Hx. cbn [mbind outcome_bind].
  by rewrite Hv.
Qed.

Lemma entry_header off hi nx t : entry img off hi nx t -> header img off hi nx t.
Proof. by destruct 1. Qed.

Definition found_end (t : tree) (nx hi : Z) : Z := match t with TDir _ _ | TSelf _ => bound nx hi | _ => nx end.

Lemma file_info_loop_spec name hi : Forall (fun c => c <> 0) name -> 0 < hi ->
  forall ts off fuel, rep img off hi ts -> ts <> [] -> (length ts < fuel)%nat ->
  match fs_find name ts with
  | Some t => exists o nx, entry img o hi nx t /\ file_info_loop fuel img name off hi = Done (0, o, found_end t nx hi)
  | None => exists o e, file_info_loop fuel img name off hi = Done (-1, o, e)
  end.
Proof.
  intros Hnz Hhi. induction ts as [|t ts IH]; intros off fuel Hr Hne Hf; [done|]. clear Hne.
  destruct fuel as [|fuel]; [lia|]. inversion Hr as [|? ? nx ? ? He Hr']; subst. cbn [file_info_loop].
  destruct (header_type off hi nx t (entry_header _ _ _ _ He)) as [-> Hh]. cbn [mbind outcome_bind].
  destruct (entry_header _ _ _ _ He) as (Ho & Hnx & _ & Hname). rewrite Hh.
  pose proof (name_is_spec img name off (tname t) Hname Hnz) as Hcmp.
  assert (Hnext : match fs_find name ts with
    | Some t => exists o nx', entry img o hi nx' t /\
        (if hi <=? nx then Done (-1, nx, hi) else file_info_loop fuel img name nx hi) = Done (0, o, found_end t nx' hi)
    | None => exists o e, (if hi <=? nx then Done (-1, nx, hi) else file_info_loop fuel img name nx hi) = Done (-1, o, e)
    end).
  { destruct ts as [|t' ts].
    - inversion Hr'; subst. rewrite (proj2 (Z.leb_gt hi 0)) by lia. cbn. destruct fuel; [cbn in Hf; lia|].
      exists 0, hi. cbn [file_info_loop]. by rewrite root_unknown.
    - assert (Hlt : nx < hi). { inversion Hr' as [|? ? ? ? ? He' _]; subst. by destruct (entry_header _ _ _ _ He') as [[_ ?] _]. }
      rewrite (proj2 (Z.leb_gt hi nx)) by lia. apply IH; [done|done|cbn in *; lia]. }
  unfold fs_find in *. rewrite filter_cons.
  destruct t as [n data|n ch|n|n]; cbn [is_link tname] in *;
    cbn [Z.eqb Pos.eqb orb andb ROMFH_DIR ROMFH_REG ROMFH_HRD ROMFH_UNKNOW mbind outcome_bind].
  - rewrite Hcmp. cbn [mbind outcome_bind]. case_decide as Hd.
    + rewrite bool_decide_true by apply Hd. exists off, nx. by split.
    + rewrite bool_decide_false by naive_solver. done.
  - rewrite Hcmp. cbn [mbind outcome_bind]. case_decide as Hd.
    + rewrite bool_decide_true by apply Hd. exists off, nx. split; [done|].
      unfold found_end, bound. by destruct (nx =? 0).
    + rewrite bool_decide_false by naive_solver. done.
  - rewrite Hcmp. cbn [mbind outcome_bind]. case_decide as Hd.
    + rewrite bool_decide_true by apply Hd. exists off, nx. split; [done|].
      unfold found_end, bound. by destruct (nx =? 0).
    + rewrite bool_decide_false by naive_solver. done.
  - rewrite decide_False by naive_solver. done.
Qed.

Lemma rep_length hi ts : forall off, rep img off hi ts -> ts <> [] -> Z.of_nat (length ts) <= hi - off.
Proof.
  induction ts as [|t ts IH]; intros off Hr Hne; [done|]. inversion Hr as [|? ? nx ? ? He Hr']; subst.
  destruct (entry_header _ _ _ _ He) as (Ho & Hnx & _). cbn [length]. destruct ts as [|t' ts]; [cbn; lia|].
  specialize (IH nx Hr' ltac:(done)). inversion Hr' as [|? ? ? ? ? He' _]; subst.
  destruct (entry_header _ _ _ _ He') as (Ho' & _). cbn [length] in *. lia.
Qed.

(** ** Resolving a path *)

(** a name that can stand in a path, and one that fits the array it is copied to *)
Definition path_part (n : list Z) : Prop := n <> [] /\ Forall (fun c => c <> 0 /\ c <> slash) n.
Definition good_name (n : list Z) : Prop :=
  n <> [] /\ zlen n <= ROMFS_MAX_NAME_LEN /\ Forall (fun c => c <> 0 /\ c <> slash) n.

(** the directory in which the next name is looked up: the root, or the
    children of the directory at [s] *)
Definition located (enter : bool) (s e : Z) (ts : list tree) : Prop :=
  e <= zlen img /\ ts <> [] /\
  if enter then exists c, dirent_childaddr img s = Done c /\ s <> c /\ 0 < c /\ rep img c e ts
  else s = 0 /\ exists c, first_entry img = Done c /\ rep img c e ts.

Lemma good_part n : good_name n -> path_part n.
Proof. by intros (? & _ & ?). Qed.

Lemma file_info_spec name s e ts : good_name name ->
  e <= zlen img -> ts <> [] ->
  (exists c, (if s =? 0 then first_entry img else Done s) = Done c /\ rep img c e ts) ->
  match fs_find name ts with
  | Some t => exists o nx, entry img o e nx t /\ file_info img name s e = Done (Some (o, found_end t nx e))
  | None => file_info img name s e = Done None
  end.
Proof.
  intros (_ & Hl & Hch) He Hne (c & Hs & Hr). unfold file_info. rewrite (proj2 (Z.ltb_ge _ _)) by done. rewrite Hs.
  cbn [mbind outcome_bind]. pose proof (rep_length e ts c Hr Hne) as Hlen.
  assert (Hc : 0 < c < e). { inversion Hr as [|? ? ? ? ? He' _]; subst; [done|]. by destruct (entry_header _ _ _ _ He'). }
  pose proof (file_info_loop_spec name e (Forall_impl _ _ _ Hch (fun c H => proj1 H)) ltac:(lia) ts c (S (length img)) Hr Hne) as H.
  unfold zlen in He. specialize (H ltac:(lia)).
  destruct (fs_find name ts) as [t|].
  - destruct H as (o & nx & Ho & ->). by exists o, nx.
  - destruct H as (o & e' & ->). done.
Qed.

(** what a path means in the tree: an entry, nothing (with the code of the search), a
    directory name too long for the array it is copied to, or a path that goes on
    behind a regular file *)
Inductive lookup_result := Found (t : tree) | Missing (err : Z) | Overrun | ThroughFile.
Fixpoint resolve (trailing : bool) (ts : list tree) (names : list (list Z)) : lookup_result :=
  match names with
  | [] => Missing (-1)
  | n :: names =>
    if ROMFS_MAX_NAME_LEN <? zlen n then match names, trailing with [], false => Missing (-1) | _, _ => Overrun end
    else match fs_find n ts with
    | None => Missing (-1)
    | Some t =>
      match names, t with
      | [], _ => Found t
      | _, TDir _ ch => resolve trailing ch names
      | _, TSelf _ => Missing (-2)
      | _, _ => ThroughFile
      end
    end
  end.

(** an entry of the tree, at any depth *)
Inductive occurs : list tree -> tree -> Prop :=
| occurs_here ts t : t ∈ ts -> occurs ts t
| occurs_below ts n ch t : TDir n ch ∈ ts -> occurs ch t -> occurs ts t.

Lemma occurs_trans ts n ch t : occurs ts (TDir n ch) -> t ∈ ch -> occurs ts t.
Proof.
  intros H Ht. remember (TDir n ch) as d eqn:E. induction H as [ts d Hd|ts n' ch' d Hd H IH]; subst.
  - eapply occurs_below; [done|by apply occurs_here].
  - eapply occurs_below; [done|by apply IH].
Qed.

(** what the search can come to once it has gone on behind a file: it ends, refuses the
    path or gives some entry with the last name, or it meets a name that is too long *)
Definition stray (root : list tree) (names : list (list Z)) (r : outcome (Z + Z * Z)) : Prop :=
  (exists err, r = Done (inl err)) \/
  (exists o e hi nx t, r = Done (inr (o, e)) /\ entry img o hi nx t /\ occurs root t /\ is_link t = false /\
     last names = Some (tname t)) \/
  (Exists (fun n => ROMFS_MAX_NAME_LEN < zlen n) names /\ r = Fault).

(** the names with slashes between them, and one behind them or not *)
Fixpoint join (names : list (list Z)) (trailing : bool) : list Z :=
  match names with
  | [] => []
  | [n] => n ++ (if trailing then [slash] else [])
  | n :: names => n ++ slash :: join names trailing
  end.

Lemma strchr_none n : Forall (fun c => c <> 0 /\ c <> slash) n -> strchr_slash n = None.
Proof.
  induction 1 as [|c n [_ Hc] _ IH]; [done|]. cbn [strchr_slash]. by rewrite (proj2 (Z.eqb_neq c slash)), IH.
Qed.
Lemma strchr_some n r : Forall (fun c => c <> 0 /\ c <> slash) n -> strchr_slash (n ++ slash :: r) = Some (n, r).
Proof.
  induction 1 as [|c n [_ Hc] _ IH]; cbn [app strchr_slash]; [by rewrite Z.eqb_refl|].
  by rewrite (proj2 (Z.eqb_neq c slash)), IH.
Qed.

Lemma entry_child o hi nx n ch : entry img o hi nx (TDir n ch) -> hi <= zlen img -> located true o (bound nx hi) ch.
Proof.
  intros He Hhi. inversion He as [|? ? ? ? ? c w Hh Hw Hc Hpos Hne Hr| |]; subst.
  destruct Hh as (Ho & Hnx & _). split; [|split].
  - unfold bound. destruct (Z.eqb_spec nx 0); lia.
  - intros ->. inversion Hr. lia.
  - eexists. split; [|split; [|split]]; [|done|done|exact Hr].
    destruct (rd32_be img (o + 4) w Hbytes Hw) as (x & Hx & Hv). unfold dirent_childaddr. rewrite Hx.
    cbn [mbind outcome_bind]. by rewrite Hv.
Qed.

Lemma enter_pos enter s e ts : located enter s e ts ->
  exists s', (if enter then c ← dirent_childaddr img s; Done (if s =? c then None else Some c) else Done (Some s)) = Done (Some s')
    /\ exists c, (if s' =? 0 then first_entry img else Done s') = Done c /\ rep img c e ts.
Proof.
  intros (He & Hne & Hloc). destruct enter.
  - destruct Hloc as (c & -> & Hsc & Hc & Hr). cbn [mbind outcome_bind]. rewrite (proj2 (Z.eqb_neq s c)) by done.
    exists c. split; [done|]. exists c. by rewrite (proj2 (Z.eqb_neq c 0)) by lia.
  - destruct Hloc as (-> & c & Hc & Hr). exists 0. split; [done|]. by exists c.
Qed.

(** one name of a path: enter the directory if need be, and look it up *)
Lemma enter_find enter s e ts name : located enter s e ts -> good_name name ->
  exists s', (if enter then c ← dirent_childaddr img s; Done (if s =? c then None else Some c) else Done (Some s)) = Done (Some s')
    /\ match fs_find name ts with
       | Some t => exists o nx, entry img o e nx t /\ file_info img name s' e = Done (Some (o, found_end t nx e))
       | None => file_info img name s' e = Done None
       end.
Proof.
  intros Hloc Hn. destruct (enter_pos enter s e ts Hloc) as (s' & Hs & Hc). destruct Hloc as (He & Hne & _).
  exists s'. split; [done|]. by apply file_info_spec.
Qed.

(** a name behind a directory that is its own first child *)
Lemma self_refused o hi nx n p e fuel : entry img o hi nx (TSelf n) -> p <> [] -> (length p < fuel)%nat ->
  dirent_loop fuel img p true o e = Done (inl (-2)).
Proof.
  intros He Hp Hf. destruct fuel as [|fuel]; [lia|].
  assert (exists w, be32 img (o + 4) w /\ Z.land w 0xFFFFFFF0 = o) as (w & Hw & Hc)
    by (inversion He as [| |? ? ? ? w _ Hw Hc|]; by exists w).
  destruct (rd32_be img (o + 4) w Hbytes Hw) as (x & Hx & Hv). cbn [dirent_loop]. destruct p as [|c p]; [done|].
  unfold dirent_childaddr. rewrite Hx. cbn [mbind outcome_bind]. by rewrite Hv, Hc, Z.eqb_refl.
Qed.

Lemma dirent_step fuel enter s e n names trailing : path_part n ->
  dirent_loop (S fuel) img (join (n :: names) trailing) enter s e =
  o ← (if enter then c ← dirent_childaddr img s; Done (if s =? c then None else Some c) else Done (Some s));
  match o with
  | None => Done (inl (-2))
  | Some s =>
    if ROMFS_MAX_NAME_LEN <? zlen n then match names, trailing with [], false => Done (inl (-1)) | _, _ => Fault end
    else
      r ← file_info img n s e;
      match r with
      | None => Done (inl (-1))
      | Some (s, e) => match names, trailing with [], false => Done (inr (s, e))
                       | _, _ => dirent_loop fuel img (join names trailing) true s e end
      end
  end.
Proof.
  intros [Hne Hch].
  assert (E : join (n :: names) trailing = match names, trailing with [], false => n | _, _ => n ++ slash :: join names trailing end).
  { destruct names, trailing; cbn [join]; by rewrite ?app_nil_r. }
  assert (Hj : join (n :: names) trailing <> []) by (rewrite E; by destruct n, names, trailing).
  cbn [dirent_loop]. destruct (join (n :: names) trailing) as [|c0 p0] eqn:Ep; [done|]. rewrite E. clear Hj Ep E c0 p0.
  destruct (if enter then _ else _) as [[s'|]| |]; try done. cbn [mbind outcome_bind].
  destruct names as [|n' names], trailing; rewrite ?strchr_some, ?strchr_none by done; try done.
  destruct (_ <? _); [done|]. by destruct (file_info img n s' e) as [[[? ?]|]| |].
Qed.

(** *** Behind a regular file

    The child word of a file is 0, so that the search goes on in the root, and with the
    end address of the file: it sees some of the entries of the root. *)
Section Stray.
Context (root : list tree) (c0 hi0 : Z) (Hroot : root <> []) (Hhi0 : hi0 <= zlen img)
  (Hfirst : first_entry img = Done c0) (Hrep : rep img c0 hi0 root).

(** a search with any end address *)
Lemma loose_info_loop name hi e : Forall (fun c => c <> 0) name ->
  forall ts off fuel, rep img off hi ts -> ts <> [] -> (length ts < fuel)%nat ->
  exists r o e', file_info_loop fuel img name off e = Done (r, o, e') /\
    (r = -1 \/ r = 0 /\ exists nx t, entry img o hi nx t /\ t ∈ ts /\ is_link t = false /\ tname t = name).
Proof.
  intros Hnz. induction ts as [|t ts IH]; intros off fuel Hr Hne Hf; [done|]. clear Hne.
  destruct fuel as [|fuel]; [lia|]. inversion Hr as [|? ? nx ? ? He Hr']; subst. cbn [file_info_loop].
  destruct (header_type off hi nx t (entry_header _ _ _ _ He)) as [-> Hh]. cbn [mbind outcome_bind].
  destruct (entry_header _ _ _ _ He) as (Ho & Hnx & _ & Hname). rewrite Hh.
  assert (Hnext : exists r o e', (if e <=? nx then Done (-1, nx, e) else file_info_loop fuel img name nx e) = Done (r, o, e') /\
    (r = -1 \/ r = 0 /\ exists nx t', entry img o hi nx t' /\ t' ∈ t :: ts /\ is_link t' = false /\ tname t' = name)).
  { destruct (e <=? nx); [by exists (-1), nx, e; split; [|left]|]. destruct ts as [|t' ts].
    - inversion Hr'; subst. destruct fuel; [cbn in Hf; lia|]. cbn [file_info_loop]. rewrite root_unknown.
      by exists (-1), 0, e; split; [|left].
    - destruct (IH nx fuel Hr') as (r & o & e' & -> & H); [done|cbn in *; lia|]. exists r, o, e'. split; [done|].
      destruct H as [H|(H & nx' & t1 & H1 & H2 & H3)]; [by left|right]. split; [done|]. exists nx', t1. split; [done|].
      split; [by right|done]. }
  assert (Hhit : is_link t = false -> exists r o e', (m ← name_is img name off; if (m : bool) then
      h ← Done nx; Done (0, off, if (tcode t =? 1) && (h =? 0) then e else h)
      else if e <=? nx then Done (-1, nx, e) else file_info_loop fuel img name nx e) = Done (r, o, e') /\
    (r = -1 \/ r = 0 /\ exists nx t', entry img o hi nx t' /\ t' ∈ t :: ts /\ is_link t' = false /\ tname t' = name)).
  { intros Hl. rewrite (name_is_spec img name off (tname t) Hname Hnz). cbn [mbind outcome_bind].
    case_bool_decide as Hd; [|exact Hnext]. eexists _, _, _. split; [done|]. right. split; [done|].
    exists nx, t. split_and!; [done|by left|done|done]. }
  destruct t as [n data|n ch|n|n]; [exact (Hhit eq_refl)..|exact Hnext].
Qed.

Lemma loose_info name s e c hi ts : path_part name -> (if s =? 0 then first_entry img else Done s) = Done c ->
  rep img c hi ts -> ts <> [] -> hi <= zlen img ->
  file_info img name s e = Done None \/
  exists o e' nx t, file_info img name s e = Done (Some (o, e')) /\ entry img o hi nx t /\ t ∈ ts /\
    is_link t = false /\ tname t = name.
Proof.
  intros [_ Hch] Hs Hr Hne He. unfold file_info. destruct (_ <? _); [by left|]. rewrite Hs. cbn [mbind outcome_bind].
  pose proof (rep_length hi ts c Hr Hne) as Hlen.
  assert (Hc : 0 < c < hi). { inversion Hr as [|? ? ? ? ? He' _]; subst; [done|]. by destruct (entry_header _ _ _ _ He'). }
  destruct (loose_info_loop name hi e (Forall_impl _ _ _ Hch (fun c H => proj1 H)) ts c (S (length img)) Hr Hne)
    as (r & o & e' & -> & H); [unfold zlen in *; lia|]. cbn [mbind outcome_bind].
  destruct H as [->|(-> & nx & t & H)]; [by left|right]. by exists o, e', nx, t.
Qed.

(** the search stands on an entry of the tree *)
Definition wander (s : Z) : Prop :=
  exists hi nx t, entry img s hi nx t /\ hi <= zlen img /\ is_link t = false /\ occurs root t.

Lemma wander_enter s : wander s ->
  let next := c ← dirent_childaddr img s; Done (if s =? c then None else Some c) in
  next = Done None \/
  exists s' c hi ts, next = Done (Some s') /\ (if s' =? 0 then first_entry img else Done s') = Done c /\
    rep img c hi ts /\ ts <> [] /\ hi <= zlen img /\ forall t, t ∈ ts -> occurs root t.
Proof.
  intros (hi & nx & t & He & Hhi & Hl & Ho) next. destruct t as [n data|n ch|n|n]; [right| |left|done].
  - inversion He as [? ? ? ? ? Hh Hw _ _| | |]; subst. destruct Hh as (Hs & _).
    exists 0, c0, hi0, root. split; [|split_and!; try done; intros; by apply occurs_here].
    unfold next, dirent_childaddr. destruct (rd32_be img (s + 4) 0 Hbytes Hw) as (x & -> & Hv).
    cbn [mbind outcome_bind]. rewrite Hv, Z.land_0_l. by rewrite (proj2 (Z.eqb_neq s 0)) by lia.
  - right. destruct (entry_child s hi nx n ch He Hhi) as (Hb & Hne & c & Hc & Hsc & Hpos & Hr).
    exists c, c, (bound nx hi), ch. unfold next. rewrite Hc. cbn [mbind outcome_bind].
    rewrite (proj2 (Z.eqb_neq s c)), (proj2 (Z.eqb_neq c 0)) by (done || lia). split_and!; try done.
    intros t Ht. by eapply occurs_trans.
  - assert (exists w, be32 img (s + 4) w /\ Z.land w 0xFFFFFFF0 = s) as (w & Hw & Hc)
      by (inversion He as [| |? ? ? ? w _ Hw Hc|]; by exists w).
    unfold next, dirent_childaddr. destruct (rd32_be img (s + 4) w Hbytes Hw) as (x & -> & Hv). cbn [mbind outcome_bind]. by rewrite Hv, Hc, Z.eqb_refl.
Qed.

Lemma stray_cons n names r : names <> [] -> stray root names r -> stray root (n :: names) r.
Proof.
  intros Hne [H|[(o & e & hi & nx & t & H1 & H2 & H3 & H4 & H5)|[H1 H2]]]; [by left|right; left|right; right].
  - exists o, e, hi, nx, t. split_and!; try done. by destruct names.
  - split; [by right|done].
Qed.

Lemma wander_loop trailing names : forall s e fuel, wander s -> Forall path_part names ->
  names <> [] -> (length (join names trailing) < fuel)%nat ->
  stray root names (dirent_loop fuel img (join names trailing) true s e).
Proof.
  induction names as [|n names IH]; intros s e fuel Hw Hg Hne Hf; [done|]. clear Hne.
  apply Forall_cons in Hg as [Hn Hg]. destruct fuel as [|fuel]; [lia|]. rewrite dirent_step by done.
  destruct (wander_enter s Hw) as [-> |(s' & c & hi & ts & -> & Hs & Hr & Hne & Hhi & Hin)];
    cbn [mbind outcome_bind]; [left; by eexists|].
  destruct (Z.ltb_spec ROMFS_MAX_NAME_LEN (zlen n)) as [Hlong|_].
  { assert (Exists (fun n => ROMFS_MAX_NAME_LEN < zlen n) (n :: names)) by (by left).
    destruct names, trailing; try (right; right; by split). left; by eexists. }
  destruct (loose_info n s' e c hi ts Hn Hs Hr Hne Hhi) as [-> |(o & e' & nx & t & -> & He & Ht & Hl & Hnm)];
    cbn [mbind outcome_bind]; [left; by eexists|]. specialize (Hin t Ht).
  destruct names as [|n' names].
  - right; left. exists o, e', hi, nx, t. rewrite Hnm. split_and!; try done.
    destruct trailing; [|done]. cbn [join] in *. destruct fuel; [|done]. rewrite length_app in Hf. destruct n; [by destruct Hn|cbn in Hf; lia].
  - apply stray_cons; [done|]. apply IH; [by exists hi, nx, t|done|done|].
    change (join (n :: n' :: names) trailing) with (n ++ slash :: join (n' :: names) trailing) in Hf.
    rewrite length_app in Hf. cbn [length] in Hf. lia.
Qed.

(** the whole search, by what the path means in the directory it starts in *)
Lemma dirent_loop_spec trailing names : forall enter s e ts fuel, located enter s e ts ->
  (forall t, t ∈ ts -> occurs root t) -> Forall path_part names ->
  names <> [] -> (length (join names trailing) < fuel)%nat ->
  match resolve trailing ts names with
  | Found t => is_link t = false /\ exists o hi nx, entry img o hi nx t /\ hi <= zlen img /\
      dirent_loop fuel img (join names trailing) enter s e = Done (inr (o, found_end t nx hi))
  | Missing err => dirent_loop fuel img (join names trailing) enter s e = Done (inl err)
  | Overrun => dirent_loop fuel img (join names trailing) enter s e = Fault
  | ThroughFile => stray root names (dirent_loop fuel img (join names trailing) enter s e)
  end.
Proof.
  induction names as [|n names IH]; intros enter s e ts fuel Hloc Hin Hg Hne Hf; [done|]. clear Hne.
  apply Forall_cons in Hg as [Hn Hg]. destruct fuel as [|fuel]; [lia|]. rewrite dirent_step by done. cbn [resolve].
  destruct (Z.ltb_spec ROMFS_MAX_NAME_LEN (zlen n)) as [Hlong|Hshort].
  { destruct (enter_pos enter s e ts Hloc) as (s' & -> & _). cbn [mbind outcome_bind]. by destruct names, trailing. }
  destruct (enter_find enter s e ts n Hloc) as (s' & -> & Hfi); [by destruct Hn|].
  cbn [mbind outcome_bind]. destruct Hloc as (He & _).
  destruct (fs_find n ts) as [t|] eqn:Ef; [|by rewrite Hfi]. destruct Hfi as (o & nx & Ho & ->). cbn [mbind outcome_bind].
  assert (Ht : t ∈ ts /\ is_link t = false /\ n = tname t).
  { apply head_Some_elem_of, list_elem_of_filter in Ef. naive_solver. }
  destruct Ht as (Ht & Hl & Hnm). destruct names as [|n' names].
  - split; [done|]. exists o, e, nx. split_and!; try done.
    destruct trailing; [|done]. cbn [join] in *. destruct fuel; [|done]. rewrite length_app in Hf. destruct n; [by destruct Hn|cbn in Hf; lia].
  - assert (Hf' : (length (join (n' :: names) trailing) < fuel)%nat).
    { change (join (n :: n' :: names) trailing) with (n ++ slash :: join (n' :: names) trailing) in Hf.
      rewrite length_app in Hf. cbn [length] in Hf. lia. }
    destruct t as [m d|m ch|m|m]; [| | |done].
    + apply stray_cons; [done|]. apply wander_loop; try done. exists e, nx, (TReg m d). split_and!; try done. by apply Hin.
    + assert (Hin' : forall t', t' ∈ ch -> occurs root t') by (intros t' Ht'; eapply occurs_trans; [by apply Hin|done]).
      specialize (IH true o (bound nx e) ch fuel (entry_child o e nx m ch Ho He) Hin' Hg ltac:(done) Hf').
      destruct (resolve trailing ch (n' :: names)); try exact IH. by apply stray_cons.
    + apply (self_refused o e nx m); [done| |done]. apply Forall_cons in Hg as [(? & _) _]. by destruct n', names.
Qed.
End Stray.

(** ** The bytes of a file *)

(** the bytes from [off] on, at most [len] of them *)
Definition slice (off len : Z) (data : list Z) : list Z := take (Z.to_nat len) (drop (Z.to_nat off) data).

Lemma entry_payload o hi nx n data : entry img o hi nx (TReg n data) ->
  exists p, payload_at img o = Done p /\ dirent_size img o = Done (zlen data) /\ 0 <= p /\
    take (length data) (drop (Z.to_nat p) img) = data.
Proof.
  intros He. inversion He as [? ? ? ? ? Hh _ Hsz Hd| | |]; subst. destruct Hh as (Ho & _ & _ & Hn).
  exists (o + pad16 (zlen n + 1) + 16). unfold payload_at. rewrite (strlen_spec img (o + 16) n Hn). cbn [mbind outcome_bind].
  rewrite ALIGNUP16_pad. split; [done|]. split.
  - destruct (rd32_be img (o + 8) _ Hbytes Hsz) as (x & Hx & Hv). unfold dirent_size. rewrite Hx. cbn [mbind outcome_bind].
    by rewrite Hv.
  - split; [|by replace (o + pad16 (zlen n + 1) + 16) with (o + 16 + pad16 (zlen n + 1)) by lia].
    unfold pad16. pose proof (Z.div_pos (zlen n + 1 + 15) 16). unfold zlen in *. lia.
Qed.

Lemma read_spec o hi nx n data off len : zlen img < 2 ^ 31 -> entry img o hi nx (TReg n data) ->
  0 <= off <= zlen data -> 0 <= len < 2 ^ 31 ->
  let b := slice off len data in
  romfs_read img {| f_arg := o; offset := off |} len = Done (zlen b, b, {| f_arg := o; offset := off + zlen b |}).
Proof.
  intros Him He Ho Hlen b. destruct (entry_payload _ _ _ _ _ He) as (p & Hp & Hs & Hp0 & Hd).
  assert (Hdl : p + zlen data <= zlen img \/ data = []).
  { apply (f_equal length) in Hd. rewrite length_take, length_drop in Hd. unfold zlen. destruct data; [by right|left].
    cbn [length] in *. lia. }
  assert (Hb : zlen b = Z.min len (zlen data - off)).
  { unfold b, slice, zlen in *. rewrite length_take, length_drop. lia. }
  unfold romfs_read. cbn [f_arg offset]. rewrite Hp, Hs. cbn [mbind outcome_bind].
  destruct (Z.leb_spec (zlen data) off) as [Hge|Hlt].
  { assert (Eb : b = []) by (apply nil_length_inv; unfold zlen in *; lia).
    rewrite Eb. change (zlen []) with 0. by rewrite Z.add_0_r. }
  assert (Hdl' : p + zlen data <= zlen img) by (destruct Hdl as [|E]; [done|rewrite E in Hlt; unfold zlen in *; cbn in *; lia]).
  assert (Hu : u32 (off + len) = off + len) by (unfold u32, wrap; apply Z.mod_small; lia). rewrite Hu.
  assert (Epair : (if off + len <? zlen data then (len, off + len) else (zlen data - off, zlen data)) = (zlen b, off + zlen b)).
  { rewrite Hb. destruct (Z.ltb_spec (off + len) (zlen data)); f_equal; lia. }
  rewrite Epair. rewrite memcpy_done by (rewrite ?length_replicate; unfold zlen in *; lia). cbn [mbind outcome_bind].
  rewrite Z2Nat.inj_0, take_0, Z.add_0_l. rewrite (drop_ge (replicate _ _)) by (rewrite length_replicate; lia).
  rewrite app_nil_r. cbn [app].
  unfold s32. rewrite Z.mod_small by (unfold zlen in *; lia). replace (zlen b + 2 ^ 31 - 2 ^ 31) with (zlen b) by lia.
  do 3 f_equal. rewrite Z2Nat.inj_add, <- drop_drop by lia. unfold zlen at 1. rewrite Nat2Z.id.
  replace (drop (Z.to_nat off) (drop (Z.to_nat p) img)) with
    (drop (Z.to_nat off) data ++ drop (length data) (drop (Z.to_nat p) img)).
  - rewrite take_app_le by (unfold b, slice; rewrite length_take; lia).
    unfold b at 1, slice. rewrite length_take. unfold b, slice.
    destruct (decide (Z.to_nat len <= length (drop (Z.to_nat off) data))%nat).
    + by rewrite Nat.min_l by lia.
    + by rewrite Nat.min_r, !take_ge by lia.
  - rewrite <- Hd at 1. rewrite <- drop_app_le, take_drop by (rewrite Hd; unfold zlen in *; lia). done.
Qed.

(** a sequence of reads *)
Fixpoint read_seq (fp : file_t) (ns : list Z) : outcome (list (list Z) * file_t) :=
  match ns with
  | [] => Done ([], fp)
  | n :: ns => '(_, b, fp) ← romfs_read img fp n; '(bs, fp) ← read_seq fp ns; Done (b :: bs, fp)
  end.
Definition total (ns : list Z) : Z := foldr Z.add 0 ns.

Lemma read_seq_spec o hi nx n data ns : zlen img < 2 ^ 31 -> entry img o hi nx (TReg n data) ->
  Forall (fun l => 0 <= l < 2 ^ 31) ns -> forall off, 0 <= off <= zlen data ->
  exists bs off', read_seq {| f_arg := o; offset := off |} ns = Done (bs, {| f_arg := o; offset := off' |}) /\
    0 <= off' <= zlen data /\ concat bs = slice off (total ns) data.
Proof.
  intros Him He. induction 1 as [|l ns Hl Hns IH]; intros off Ho; cbn [read_seq].
  { exists [], off. done. }
  rewrite (read_spec o hi nx n data off l) by done. cbn [mbind outcome_bind].
  set (b := slice off l data).
  assert (Hb : zlen b = Z.min l (zlen data - off)).
  { unfold b, slice, zlen in *. rewrite length_take, length_drop. lia. }
  destruct (IH (off + zlen b)) as (bs & off' & -> & Ho' & Hc); [lia|]. cbn [mbind outcome_bind].
  exists (b :: bs), off'. split; [done|]. split; [done|]. cbn [concat total foldr]. fold (total ns). rewrite Hc.
  assert (Hp : 0 <= total ns) by (clear -Hns; induction Hns; cbn; [done|fold (total l); lia]).
  unfold slice at 2. rewrite (Z2Nat.inj_add l (total ns)), take_add by lia. fold (slice off l data). fold b. f_equal.
  unfold slice.
  rewrite drop_drop. destruct (decide (l <= zlen data - off)).
  - do 2 f_equal. unfold zlen in *. lia.
  - rewrite !(drop_ge data) by (unfold zlen in *; lia). done.
Qed.

(** ** Listing a directory *)

Definition visible (ts : list tree) : list tree := filter (fun t => is_dots (tname t) = false) ts.
(** names a directory entry can hold, and no hard links but [.] and [..] *)
Definition plain (t : tree) : Prop :=
  zlen (tname t) <= ROMFS_MAX_NAME_LEN /\ (is_link t = true -> is_dots (tname t) = true).

Lemma name_at_spec k : forall a s, cstr img a s -> (length s <= k)%nat -> name_at k img a = Done s.
Proof.
  induction k as [|k IH]; intros a s Hs Hk; [by destruct s; [|cbn in Hk; lia]|]. cbn [name_at].
  pose proof (cstr_get img a s 0 Hs ltac:(unfold zlen; lia)) as Hg. rewrite Z.add_0_r in Hg. rewrite Hg.
  cbn [mbind outcome_bind]. destruct s as [|c s]; [done|]. change (nth (Z.to_nat 0) (c :: s) 0) with c.
  assert (Hc : c <> 0) by (destruct Hs as (_ & _ & Hn); by inversion Hn).
  rewrite (proj2 (Z.eqb_neq c 0)) by done. rewrite (IH (a + 1) s); [done| |cbn in Hk; lia].
  by apply cstr_tail in Hs.
Qed.

Context (s0 e : Z).
Definition dir_at (c : Z) : romfs_dir_t := {| dir_start_addr := s0; dir_end_addr := e; dir_cur_addr := Some c |}.

(** the entries still to come: the cursor is at the first of them, or at the end *)
Definition rest (c : Z) (ts : list tree) : Prop :=
  match ts with [] => c = e | _ => s0 <= c /\ rep img c e ts end.

Lemma rest_next off nx t ts : s0 <= off -> entry img off e nx t -> rep img nx e ts -> rest (if nx =? 0 then e else nx) ts.
Proof.
  intros Ho He Hr. destruct (entry_header _ _ _ _ He) as (_ & Hnx & _). destruct ts as [|t' ts].
  - inversion Hr; subst. done.
  - inversion Hr as [|? ? ? ? ? He' _]; subst. destruct (entry_header _ _ _ _ He') as ((? & _) & _).
    rewrite (proj2 (Z.eqb_neq nx 0)) by lia. split; [lia|done].
Qed.

Lemma skip_links_spec : forall ts c fuel, rest c ts -> ts <> [] -> Forall plain ts -> (length ts <= fuel)%nat ->
  exists c' nx t ts', skip_links fuel img s0 e c = Done (true, c') /\ s0 <= c' /\ entry img c' e nx t /\ rep img nx e ts' /\
    plain t /\ Forall plain ts' /\ visible ts = visible (t :: ts') /\ (length ts' < length ts)%nat.
Proof.
  induction ts as [|t ts IH]; intros c fuel Hrs Hne Hp Hf; [done|]. clear Hne. destruct Hrs as [Hc Hr].
  destruct fuel as [|fuel]; [cbn in Hf; lia|]. apply Forall_cons in Hp as [Hp Hps].
  inversion Hr as [|? ? nx ? ? He Hr']; subst. destruct (entry_header _ _ _ _ He) as ((? & ?) & Hnx & _).
  cbn [skip_links]. rewrite (proj2 (Z.leb_gt e c)), (proj2 (Z.ltb_ge c s0)) by lia. cbn [orb].
  destruct (header_type _ _ _ _ (entry_header _ _ _ _ He)) as [-> ->]. cbn [mbind outcome_bind].
  assert (Hhere : exists c' nx' t' ts', Done (true, c) = Done (true, c') /\ s0 <= c' /\ entry img c' e nx' t' /\ rep img nx' e ts' /\
    plain t' /\ Forall plain ts' /\ visible (t :: ts) = visible (t' :: ts') /\ (length ts' < length (t :: ts))%nat).
  { exists c, nx, t, ts. split_and!; try done. cbn [length]. lia. }
  destruct (Z.eqb_spec nx 0) as [Ez|Ez]; [done|]. destruct t as [? ?|? ?|?|n]; [done|done|done|]. clear Hhere.
  cbn [Z.eqb Pos.eqb orb ROMFH_DIR ROMFH_REG ROMFH_HRD].
  pose proof (rest_next c nx _ ts Hc He Hr') as Hrest. rewrite (proj2 (Z.eqb_neq nx 0)) in Hrest by done.
  destruct (IH nx fuel Hrest) as (c' & nx' & t' & ts' & Hs & H1 & H2 & H3 & H4 & H5 & H6 & H7);
    [intros ->; inversion Hr'; lia|done|cbn in Hf; lia|].
  exists c', nx', t', ts'. split_and!; try done; [|cbn [length]; lia].
  rewrite <- H6. unfold visible. rewrite filter_cons. cbn [tname]. rewrite decide_False; [done|].
  destruct Hp as [_ Hl]. cbn in Hl. by rewrite Hl.
Qed.

(** from an entry found on, [romfs_readdir] gives its name or goes on behind it *)
Lemma readdir_found fuel dp c nx t ts : dir_start_addr dp = s0 -> dir_end_addr dp = e ->
  (match dir_cur_addr dp with
   | None => Done (true, dir_start_addr dp)
   | Some cur => if dir_end_addr dp <=? cur then Done (false, cur)
                 else skip_links (S (length img)) img (dir_start_addr dp) (dir_end_addr dp) cur
   end) = Done (true, c) -> s0 <= c -> entry img c e nx t -> rep img nx e ts -> plain t ->
  exists c', rest c' ts /\
    romfs_readdir (S fuel) img dp =
      (if is_dots (tname t) then romfs_readdir fuel img (dir_at c') else Done (Some (tname t), dir_at c')).
Proof.
  intros Hs He Hc Hsc Hen Hr (Hl & _). exists (if nx =? 0 then e else nx). split; [by eapply rest_next|].
  cbn [romfs_readdir]. rewrite Hc. cbn [mbind outcome_bind negb].
  destruct (entry_header _ _ _ _ Hen) as (_ & _ & _ & Hn). rewrite (name_at_spec _ _ _ Hn) by (unfold zlen, ROMFS_MAX_NAME_LEN in *; lia).
  cbn [mbind outcome_bind]. destruct (header_type _ _ _ _ (entry_header _ _ _ _ Hen)) as [_ ->]. cbn [mbind outcome_bind].
  rewrite Hs, He. done.
Qed.

Lemma readdir_spec : forall ts c fuel, rest c ts -> Forall plain ts -> (length ts < fuel)%nat -> (length ts <= length img)%nat ->
  match visible ts with
  | [] => exists dp, romfs_readdir fuel img (dir_at c) = Done (None, dp)
  | t :: _ => exists ts' c', romfs_readdir fuel img (dir_at c) = Done (Some (tname t), dir_at c') /\ rest c' ts' /\
      Forall plain ts' /\ visible ts = t :: visible ts' /\ (length ts' < length ts)%nat
  end.
Proof.
  induction ts as [ts IH] using (induction_ltof1 _ (@length tree)). unfold ltof in IH.
  intros c fuel Hr Hp Hf Hi. destruct fuel as [|fuel]; [lia|]. destruct ts as [|t0 ts0].
  { cbn in Hr. subst c. exists (dir_at e). cbn [romfs_readdir dir_at dir_cur_addr dir_end_addr]. by rewrite Z.leb_refl. }
  assert (Hce : c < e). { destruct Hr as [_ Hr]. inversion Hr as [|? ? ? ? ? He _]; subst. apply (entry_header _ _ _ _ He). }
  destruct (skip_links_spec (t0 :: ts0) c (S (length img)) Hr ltac:(done) Hp ltac:(lia))
    as (c1 & nx & t & ts & Hs & Hs0 & He & Hr1 & Hpt & Hpts & Hv & Hlen).
  destruct (readdir_found fuel (dir_at c) c1 nx t ts) as (c' & Hr' & ->); try done.
  { cbn [dir_at dir_cur_addr dir_end_addr dir_start_addr]. by rewrite (proj2 (Z.leb_gt e c)) by lia. }
  rewrite Hv. unfold visible at 1. rewrite filter_cons. destruct (is_dots (tname t)) eqn:Ed.
  - rewrite decide_False by done. fold (visible ts).
    assert (Hv' : visible (t :: ts) = visible ts) by (unfold visible; rewrite filter_cons, decide_False; [done|by rewrite Ed]).
    specialize (IH ts Hlen c' fuel Hr' Hpts ltac:(lia) ltac:(lia)). rewrite Hv'.
    destruct (visible ts) as [|t1 l] eqn:E1; [done|]. destruct IH as (ts' & c2 & H1 & H2 & H3 & H4 & H5).
    exists ts', c2. split_and!; try done. lia.
  - rewrite decide_True by done. exists ts, c'. split_and!; try done.
    unfold visible. rewrite filter_cons, decide_True by done. done.
Qed.

(** the client's loop: read until there is no entry *)
Fixpoint list_dir (k : nat) (dp : romfs_dir_t) : outcome (list (list Z)) :=
  match k with
  | O => NoFuel
  | S k =>
    '(o, dp) ← romfs_readdir (S (length img)) img dp;
    match o with None => Done [] | Some n => l ← list_dir k dp; Done (n :: l) end
  end.

Lemma list_step : forall k ts c fuel, rest c ts -> Forall plain ts -> (length ts <= k)%nat -> (length ts < fuel)%nat ->
  (length ts <= length img)%nat ->
  ('(o, dp) ← romfs_readdir fuel img (dir_at c);
   match o with None => Done [] | Some n => l ← list_dir k dp; Done (n :: l) end) = Done (map tname (visible ts)).
Proof.
  induction k as [|k IH]; intros ts c fuel Hr Hp Hk Hf Hi; pose proof (readdir_spec ts c fuel Hr Hp Hf Hi) as H;
    (destruct (visible ts) as [|t l] eqn:Ev; [by destruct H as (dp & ->)|]);
    destruct H as (ts' & c' & -> & Hr' & Hp' & El & Hlen); [lia|]. cbn [mbind outcome_bind list_dir].
  rewrite (IH ts' c' (S (length img)) Hr' Hp') by lia. cbn [mbind outcome_bind]. by injection El as ->.
Qed.

Lemma list_dir_spec ts k : rep img s0 e ts -> ts <> [] -> e <= zlen img -> Forall plain ts -> (length img < k)%nat ->
  list_dir k {| dir_start_addr := s0; dir_end_addr := e; dir_cur_addr := None |} = Done (map tname (visible ts)).
Proof.
  intros Hr Hne He Hp Hk. pose proof (rep_length e ts s0 Hr Hne) as Hlen.
  destruct ts as [|t ts]; [done|]. apply Forall_cons in Hp as [Hpt Hp]. inversion Hr as [|? ? nx ? ? Hen Hr']; subst.
  destruct (entry_header _ _ _ _ Hen) as ((? & ?) & _).
  assert (Hl : (length (t :: ts) <= length img)%nat) by (unfold zlen in He; lia). cbn [length] in Hl.
  destruct k as [|k]; [lia|]. cbn [list_dir].
  destruct (readdir_found (length img) {| dir_start_addr := s0; dir_end_addr := e; dir_cur_addr := None |} s0 nx t ts)
    as (c' & Hrest & ->); try done.
  unfold visible. rewrite filter_cons. destruct (is_dots (tname t)) eqn:Ed.
  - rewrite decide_False by done. fold (visible ts).
    apply list_step; try done; lia.
  - rewrite decide_True by done. cbn [mbind outcome_bind map]. destruct k as [|k]; [lia|]. cbn [list_dir].
    by rewrite (list_step k ts c' (S (length img)) Hrest Hp) by lia.
Qed.

End Image.

(** ** Theorems *)

(** the path of a list of names *)
Definition path_of (names : list (list Z)) (trailing : bool) : list Z :=
  ROMFS_MOUNTPOINT ++ match names with [] => if trailing then [slash] else [] | _ => slash :: join names trailing end.

Lemma image_root img ts : romfs_image img ts -> ts <> [] -> Forall byte_ok img /\ take 8 img = ROMFS_MAGIC /\
  exists hi, romfs_endaddr img = Done hi /\ located img false 0 hi ts.
Proof.
  intros (Hb & _ & Hm & hi & vol & Hw & Hhi & Hv & Hr) Hne. split; [done|]. split; [done|]. exists hi. split.
  - destruct (rd32_be img 8 hi Hb Hw) as (x & Hx & Hv'). unfold romfs_endaddr. rewrite Hx. cbn [mbind outcome_bind]. by rewrite Hv'.
  - split; [done|]. split; [done|]. split; [done|]. eexists. split; [|exact Hr].
    unfold first_entry, HEAD_MAGIC_LEN. rewrite (strlen_spec img 16 vol Hv). cbn [mbind outcome_bind]. by rewrite ALIGNUP16_pad.
Qed.

Lemma dirent_file_spec img ts names trailing : romfs_image img ts -> ts <> [] -> Forall path_part names ->
  match names with
  | [] => exists hi, dirent_file img (path_of names trailing) = Done (inr (0, hi))
  | _ =>
    match resolve trailing ts names with
    | Found t => is_link t = false /\ exists o hi nx, entry img o hi nx t /\ hi <= zlen img /\
        dirent_file img (path_of names trailing) = Done (inr (o, found_end t nx hi))
    | Missing err => dirent_file img (path_of names trailing) = Done (inl err)
    | Overrun => dirent_file img (path_of names trailing) = Fault
    | ThroughFile => stray img ts names (dirent_file img (path_of names trailing))
    end
  end.
Proof.
  intros Hi Hne Hg. destruct (image_root img ts Hi Hne) as (Hb & Hm & hi & He & Hloc).
  assert (Hd : forall r, dirent_file img (ROMFS_MOUNTPOINT ++ slash :: r) = dirent_loop (S (length r)) img r false 0 hi).
  { intros r. unfold dirent_file. rewrite (proj2 (Z.ltb_ge _ _)) by (unfold zlen; rewrite length_app; lia).
    unfold starts_with. rewrite take_app_length, bool_decide_true by done. cbn [negb].
    rewrite drop_app_length, Z.eqb_refl. cbn [negb]. by rewrite He. }
  destruct names as [|n names].
  - exists hi. unfold path_of. destruct trailing; [by rewrite Hd|]. rewrite app_nil_r. unfold dirent_file.
    change (zlen ROMFS_MOUNTPOINT <? zlen ROMFS_MOUNTPOINT) with false.
    change (starts_with ROMFS_MOUNTPOINT ROMFS_MOUNTPOINT) with true.
    change (drop (length ROMFS_MOUNTPOINT) ROMFS_MOUNTPOINT) with (@nil Z). cbn [negb]. by rewrite He.
  - unfold path_of. rewrite Hd. destruct Hloc as (Hhi & _ & _ & c & Hc & Hr).
    apply (dirent_loop_spec img Hb Hm ts c hi Hne Hhi Hc Hr); try done; [|by intros; apply occurs_here|lia].
    split_and!; [done..|]. by exists c.
Qed.

(** what [romfs_stat] tells of an entry *)
Definition stat_of (t : tree) : Z * st_mode := match t with TReg _ data => (zlen data, S_IFREG) | _ => (0, S_IFDIR) end.

Lemma stat_entry img o hi nx t : Forall byte_ok img -> entry img o hi nx t -> is_link t = false ->
  (if o =? 0 then Done (inr (0, S_NONE))
   else
     t ← dirent_type img o;
     if t =? ROMFH_DIR then Done (inr (0, S_IFDIR))
     else if t =? ROMFH_REG then n ← dirent_size img o; Done (inr (n, S_IFREG))
     else Done (inl (-2)) : outcome (Z + Z * st_mode)) = Done (inr (stat_of t)).
Proof.
  intros Hb He Hl. pose proof (entry_header img _ _ _ _ He) as Hh. destruct (header_type img Hb o hi nx t Hh) as [Ht _].
  destruct Hh as ((Ho & _) & _). rewrite (proj2 (Z.eqb_neq o 0)) by lia. rewrite Ht. cbn [mbind outcome_bind].
  destruct t as [nm data|nm ch|nm|nm]; [|done..].
  destruct (entry_payload img Hb o hi nx nm data He) as (p & _ & Hs & _). by rewrite Hs.
Qed.

(** C22: path resolution.  In an image that holds a directory tree, asking for any path
    of names below the mount point, with or without a slash behind it, comes to an end
    and answers what the tree holds there ([resolve]): the mount point itself gives the
    root; a path whose directories exist gives kind and size of the entry of its last
    name; a path that leads nowhere is refused, and so is a last name of more than 64
    characters.  The two cases the code gets wrong are stated as they are: a directory
    name of more than 64 characters, once the search comes to it, overruns its array;
    and behind a regular file the search goes on in the root, from where it is refused
    or answers for some file or directory of the image with the last name (or comes to
    a name that is too long). *)
Theorem romfs_lookup_correct img ts names trailing :
  romfs_image img ts -> ts <> [] -> Forall path_part names ->
  let answer := romfs_stat img (path_of names trailing) in
  match names with
  | [] => answer = Done (inr (0, S_NONE))
  | _ =>
    match resolve trailing ts names with
    | Found t => is_link t = false /\ answer = Done (inr (stat_of t))
    | Missing _ => answer = Done (inl (-1))
    | Overrun => answer = Fault
    | ThroughFile =>
      answer = Done (inl (-1)) \/
      (exists t, occurs ts t /\ is_link t = false /\ last names = Some (tname t) /\ answer = Done (inr (stat_of t))) \/
      (Exists (fun n => 64 < zlen n) names /\ answer = Fault)
    end
  end.
Proof.
  intros Hi Hne Hg answer. pose proof (dirent_file_spec img ts names trailing Hi Hne Hg) as H. unfold answer, romfs_stat.
  destruct (image_root img ts Hi Hne) as (Hb & _).
  destruct names as [|n names]; [by destruct H as (hi & ->)|].
  destruct (resolve trailing ts (n :: names)) as [t| | |] eqn:Er; [|by rewrite H..|].
  - destruct H as (Hl & o & hi & nx & He & _ & ->). split; [done|]. cbn [mbind outcome_bind]. by eapply stat_entry.
  - destruct H as [(err & ->)|[(o & e & hi & nx & t & -> & He & Ho & Hl & Hn)|[Hx ->]]]; [by left|right; left|right; right; by split].
    exists t. split_and!; try done. cbn [mbind outcome_bind]. by eapply stat_entry.
Qed.

(** the characters [filter_format] lets through; its test for two slashes in a
    row compares a position with an earlier one and never holds *)
Lemma filter_loop_ok path : Forall (fun c => is_path_ch c = true) path ->
  forall i i_old, 0 < i -> i_old < i -> filter_loop path i i_old = 0.
Proof.
  induction 1 as [|c path Hc _ IH]; intros i i_old Hi Ho; [done|]. cbn [filter_loop]. rewrite Hc. cbn [negb].
  destruct (Z.eqb_spec c slash); cbn [negb]; [|apply IH; lia].
  rewrite (proj2 (Z.eqb_neq i 0)), (proj2 (Z.eqb_neq i i_old)) by lia. apply IH; lia.
Qed.

Definition path_name (n : list Z) : Prop := good_name n /\ Forall (fun c => is_path_ch c = true) n.

Lemma filter_path names : Forall path_name names -> names <> [] -> filter_format (path_of names false) = 0.
Proof.
  intros Hn Hne. unfold filter_format, path_of, starts_with. rewrite take_app_length, bool_decide_true by done. cbn [negb].
  change (filter_loop (drop 1 ROMFS_MOUNTPOINT ++ match names with [] => [] | _ => slash :: join names false end) 1 0 = 0).
  apply filter_loop_ok; [|lia|lia]. apply Forall_app. split; [by repeat constructor|]. destruct names as [|n names]; [done|].
  constructor; [done|]. clear Hne. revert n Hn.
  induction names as [|n' names IH]; intros n Hn; apply Forall_cons in Hn as [[_ Hn] Hns]; cbn [join]; [by rewrite app_nil_r|].
  apply Forall_app. split; [done|]. constructor; [done|]. by apply IH.
Qed.

(** the calls on a regular file of the image *)
Lemma file_calls img ts names n data : romfs_image img ts -> Forall path_name names -> resolve false ts names = Found (TReg n data) ->
  exists o, romfs_open true img (path_of names false) = Done (inr {| f_arg := o; offset := 0 |}) /\
    (forall pos, 0 <= pos <= zlen data -> romfs_lseek img {| f_arg := o; offset := 0 |} pos SEEK_SET = Done (pos, {| f_arg := o; offset := pos |})) /\
    (forall pos ns, 0 <= pos <= zlen data -> Forall (fun l => 0 <= l < 2 ^ 31) ns ->
      exists bs fp, read_seq img {| f_arg := o; offset := pos |} ns = Done (bs, fp) /\ concat bs = slice pos (total ns) data) /\ zlen data < 2 ^ 31.
Proof.
  intros Hi Hp Hr. assert (Hne : ts <> []).
  { intros ->. destruct names as [|n0 l]; [done|]. cbn in Hr. by destruct (_ <? _), l. }
  assert (Hnn : names <> []) by (by intros ->).
  destruct (image_root img ts Hi Hne) as (Hb & _). assert (Him : zlen img < 2 ^ 31) by apply Hi.
  pose proof (dirent_file_spec img ts names false Hi Hne (Forall_impl _ _ _ Hp (fun n H => good_part n (proj1 H)))) as H.
  destruct names as [|n0 names]; [done|]. rewrite Hr in H. destruct H as (_ & o & hi & nx & He & _ & Hd).
  destruct (entry_payload img Hb o hi nx n data He) as (p & _ & Hsz & Hpl). exists o.
  split_and?.
  - unfold romfs_open. rewrite filter_path by done. cbn [negb Z.eqb]. by rewrite Hd.
  - intros pos Hpos. unfold romfs_lseek. cbn [f_arg]. rewrite Hsz.
    cbn [mbind outcome_bind]. change (SEEK_SET =? SEEK_SET) with true. cbn beta iota zeta.
    rewrite (proj2 (Z.ltb_ge pos 0)) by lia. by rewrite (proj2 (Z.ltb_ge pos 0)), (proj2 (Z.ltb_ge _ pos)) by lia.
  - intros pos ns Hpos Hns. destruct (read_seq_spec img Hb o hi nx n data ns Him He Hns pos Hpos) as (bs & off & Hs & _ & Hc). by eexists bs, _.
  - destruct Hpl as [_ Hd']. rewrite <- Hd'. unfold zlen in *. rewrite length_take, length_drop. lia.
Qed.

(** Files.  Opening the path of a regular file of the image succeeds; seeking to
    any position of it and reading there in pieces of any sizes gives, put together,
    the bytes of the file from that position on, as many as were asked for or as the
    file still has, and the calls end. *)
Theorem romfs_read_file img ts names n data pos ns :
  romfs_image img ts -> Forall path_name names -> resolve false ts names = Found (TReg n data) ->
  0 <= pos <= zlen data -> Forall (fun l => 0 <= l < 2 ^ 31) ns ->
  exists fp fp1 bs fp2, romfs_open true img (path_of names false) = Done (inr fp) /\
    romfs_lseek img fp pos SEEK_SET = Done (pos, fp1) /\ read_seq img fp1 ns = Done (bs, fp2) /\
    concat bs = slice pos (total ns) data.
Proof.
  intros Hi Hp Hr Hpos Hns. destruct (file_calls img ts names n data Hi Hp Hr) as (o & Ho & Hs & Hq & _).
  destruct (Hq pos ns Hpos Hns) as (bs & fp & Hb & Hc). exists {| f_arg := o; offset := 0 |}, {| f_arg := o; offset := pos |}, bs, fp. split_and?; [done|by apply Hs|done|done].
Qed.

(** Directories.  Opening a directory of the image, or the mount point, and reading
    entries until there is none gives the names of the directory in its order,
    without [.] and [..], each once; the listing ends.  (The names are at most 64
    characters long and [.] and [..] are the only hard links.) *)
Theorem romfs_listing img ts names trailing ch :
  romfs_image img ts -> ts <> [] -> Forall good_name names ->
  match names with [] => ch = ts | _ => exists n, resolve trailing ts names = Found (TDir n ch) end -> Forall plain ch ->
  exists dp, romfs_opendir true true img (path_of names trailing) = Done (Some dp) /\
    list_dir img (S (length img)) dp = Done (map tname (visible ch)).
Proof.
  intros Hi Hne Hg Hch Hp. destruct (image_root img ts Hi Hne) as (Hb & Hm & hi0 & Hen & Hloc).
  pose proof (dirent_file_spec img ts names trailing Hi Hne (Forall_impl _ _ _ Hg good_part)) as H. unfold romfs_opendir. cbn [negb].
  destruct names as [|n0 names].
  - destruct H as (hi & Hd). subst ch. destruct Hloc as (Hhi & _ & _ & c & Hc & Hr). rewrite Hd. cbn [mbind outcome_bind Z.eqb].
    assert (Ehi : hi = hi0). { revert Hd. unfold path_of. destruct trailing; cbn [app ROMFS_MOUNTPOINT]; unfold dirent_file; cbn; rewrite Hen; cbn; by intros [= ->]. }
    subst hi. rewrite Hc. cbn [mbind outcome_bind]. eexists. split; [done|]. by apply (list_dir_spec img Hb c hi0 ts); try lia.
  - destruct Hch as (n & Hr). rewrite Hr in H. destruct H as (_ & o & hi & nx & He & Hhi & Hd).
    destruct (entry_child img Hb o hi nx n ch He Hhi) as (Hbd & Hne' & c & Hc & _ & Hpos & Hrep).
    destruct (entry_header img _ _ _ _ He) as ((Ho & _) & _). rewrite Hd. cbn [mbind outcome_bind found_end].
    rewrite (proj2 (Z.eqb_neq o 0)) by lia. rewrite Hc. cbn [mbind outcome_bind]. rewrite (proj2 (Z.eqb_neq c 0)) by lia.
    cbn [mbind outcome_bind]. eexists. split; [done|]. by apply (list_dir_spec img Hb c (bound nx hi) ch); try lia.
Qed.

(** ** Witnesses *)

Module Witness.
Definition be (n : Z) : list Z := [n / 2 ^ 24; n / 2 ^ 16 mod 256; n / 2 ^ 8 mod 256; n mod 256].
Definition pad (s : list Z) : list Z := s ++ replicate (Z.to_nat (pad16 (zlen s) - zlen s)) 0.
Definition file (next spec size : Z) (name data : list Z) : list Z :=
  be next ++ be spec ++ be size ++ be 0 ++ pad (name ++ [0]) ++ pad data.
(** the root with [.], [..], a directory [d] and a file [b]; [d] holds [.] and a file [a] *)
Definition img : list Z :=
  ROMFS_MAGIC ++ be 256 ++ be 0 ++ pad [118; 0] ++ file (64 + 9) 32 0 [dot] [] ++ file 96 32 0 [dot; dot] [] ++
  file (208 + 9) 128 0 [100] [] ++ file 160 96 0 [dot] [] ++ file 2 0 3 [97] [120; 121; 122] ++ file 2 0 2 [98] [1; 2].
Definition child : list tree := [THrd [dot]; TReg [97] [120; 121; 122]].
Definition root : list tree := [TSelf [dot]; THrd [dot; dot]; TDir [100] child; TReg [98] [1; 2]].

Ltac word := split; [lia|do 4 eexists; split; reflexivity].
Ltac name := split; [lia|split; [reflexivity|repeat constructor; discriminate]].
Ltac head w := split; [lia|split; [lia|split; [exists w; split; [word|split; reflexivity]|name]]].

Lemma img_child : rep img 128 208 child.
Proof.
  apply (rep_cons _ 128 208 160); [apply entry_hrd; head 160|].
  apply (rep_cons _ 160 208 0); [apply entry_reg; [head 2|word|word|reflexivity]|apply rep_nil].
Defined.

Lemma img_ok : romfs_image img root.
Proof.
  split; [by apply (bool_decide_unpack _); vm_compute|]. split; [by vm_compute|]. split; [reflexivity|].
  exists 256, [118]. split; [word|]. split; [by vm_compute|]. split; [name|]. change (pad16 (zlen [118] + 1) + 16) with 32.
  apply (rep_cons _ 32 256 64); [apply (entry_self _ _ _ _ _ 32); [head 73|word|reflexivity]|].
  apply (rep_cons _ 64 256 96); [apply entry_hrd; head 96|].
  apply (rep_cons _ 96 256 208); [apply (entry_dir _ _ _ _ _ _ 128 128); [head 217|word|reflexivity|lia|lia|exact img_child]|].
  apply (rep_cons _ 208 256 0); [apply entry_reg; [head 2|word|word|reflexivity]|apply rep_nil].
Defined.

(** a root with [.], and two files [b] and [c] *)
Definition img2 : list Z :=
  ROMFS_MAGIC ++ be 160 ++ be 0 ++ pad [118; 0] ++ file (64 + 9) 32 0 [dot] [] ++
  file (112 + 2) 0 2 [98] [1; 2] ++ file 2 0 3 [99] [3; 4; 5].

Lemma lookup_correct_witness :
  romfs_stat img (path_of [[100]; [97]] true) = Done (inr (3, S_IFREG)) /\
  romfs_stat img (path_of [[100]; replicate 65 97] false) = Done (inl (-1)).
Proof.
  split.
  - exact (proj2 (romfs_lookup_correct img root [[100]; [97]] true img_ok ltac:(discriminate)
      ltac:(repeat constructor; discriminate))).
  - exact (romfs_lookup_correct img root [[100]; replicate 65 97] false img_ok ltac:(discriminate)
      ltac:(repeat constructor; discriminate)).
Defined.

Lemma read_file_witness : exists fp fp1 bs fp2, romfs_open true img (path_of [[100]; [97]] false) = Done (inr fp) /\
  romfs_lseek img fp 1 SEEK_SET = Done (1, fp1) /\ read_seq img fp1 [1; 5; 2] = Done (bs, fp2) /\ concat bs = [121; 122].
Proof.
  apply (romfs_read_file img root [[100]; [97]] [97] [120; 121; 122] 1 [1; 5; 2] img_ok).
  - repeat constructor; discriminate.
  - reflexivity.
  - by vm_compute.
  - repeat constructor; discriminate.
Defined.

Lemma listing_witness : exists dp, romfs_opendir true true img (path_of [[100]] false) = Done (Some dp) /\
  list_dir img (S (length img)) dp = Done [[97]].
Proof.
  apply (romfs_listing img root [[100]] false child img_ok).
  - discriminate.
  - repeat constructor; discriminate.
  - exists [100]. reflexivity.
  - repeat constructor; discriminate.
Defined.
End Witness.

(** A path that goes on behind a regular file starts again at the root: a file has
    no children, its word for them is 0, which stands for the root.  [/romfs/b/b] is
    the file [/romfs/b]. *)
Lemma romfs_through_file : romfs_stat Witness.img2 (path_of [[98]; [98]] false) = Done (inr (2, S_IFREG)).
Proof. by vm_compute. Qed.

(** A directory name of more than 64 characters in a path is copied behind the end of
    the array [name]. *)
Lemma romfs_long_name_faults : romfs_stat Witness.img (path_of [replicate 65 97; [97]] false) = Fault.
Proof. by vm_compute. Qed.

(** Two slashes in a row pass [filter_format], which means to refuse them. *)
Lemma romfs_double_slash : filter_format (path_of [[100]; []; [97]] false) = 0.
Proof. by vm_compute. Qed.

(** Closing a file is an error whatever the file. *)
Lemma romfs_close_fails fp : fst (romfs_close fp) = -1.
Proof. done. Qed.
