(* ===== verification/Rbtree.v ===== *)
(** * Red-black trees: src/utils/src/utils_rbtree.c

    Nodes are records at addresses; the memory of a tree's nodes is a finite map,
    and an access to an address without a node is a fault.  The values are
    pointers of the client, compared by its callback [cmp].  The false root of the
    insertion and the removal, a local variable of the C functions, has the
    address [HEAD].  Loops take fuel.  Where a function allocates, the address the
    allocator answers is an argument, [NULL] when there is no memory. *)
From S2P Require Import Prelude.

(** ** Definitions *)

Record rb_node := mk_node { red : bool; link0 : Z; link1 : Z; value : Z }.
Abbreviation nodes := (gmap Z rb_node).
Record rb_tree := { mem : nodes; root : Z; tsize : Z }.

Definition HEAD : Z := -1.
Definition RB_ITER_MAX_HEIGHT : Z := 64.

Definition link (n : rb_node) (d : bool) : Z := if d then link1 n else link0 n.
Definition with_link (n : rb_node) (d : bool) (p : Z) : rb_node :=
  if d then mk_node (red n) (link0 n) p (value n) else mk_node (red n) p (link1 n) (value n).

Definition node_at (m : nodes) (p : Z) : outcome rb_node :=
  match m !! p with Some n => Done n | None => Fault end.
Definition get_link (m : nodes) (p : Z) (d : bool) : outcome Z := n ← node_at m p; Done (link n d).
Definition set_link (m : nodes) (p : Z) (d : bool) (q : Z) : outcome nodes :=
  n ← node_at m p; Done (<[p := with_link n d q]> m).
Definition set_red (m : nodes) (p : Z) (c : bool) : outcome nodes :=
  n ← node_at m p; Done (<[p := mk_node c (link0 n) (link1 n) (value n)]> m).
Definition get_value (m : nodes) (p : Z) : outcome Z := n ← node_at m p; Done (value n).
Definition set_value (m : nodes) (p v : Z) : outcome nodes :=
  n ← node_at m p; Done (<[p := mk_node (red n) (link0 n) (link1 n) v]> m).

Definition rb_node_init (v : Z) : rb_node := mk_node true NULL NULL v.

Definition rb_node_is_red (m : nodes) (p : Z) : outcome bool :=
  if p =? NULL then Done false else n ← node_at m p; Done (red n).

Definition rb_node_rotate (m : nodes) (self : Z) (dir : bool) : outcome (nodes * Z) :=
  if self =? NULL then Done (m, NULL)
  else
    result ← get_link m self (negb dir);
    x ← get_link m result dir;
    m ← set_link m self (negb dir) x;
    m ← set_link m result dir self;
    m ← set_red m self true;
    m ← set_red m result false;
    Done (m, result).

Definition rb_node_rotate2 (m : nodes) (self : Z) (dir : bool) : outcome (nodes * Z) :=
  if self =? NULL then Done (m, NULL)
  else
    s ← get_link m self (negb dir);
    '(m, s) ← rb_node_rotate m s (negb dir);
    m ← set_link m self (negb dir) s;
    rb_node_rotate m self dir.

Definition rb_tree_init : rb_tree := {| mem := ∅; root := NULL; tsize := 0 |}.

Definition rb_tree_node_cmp_ptr_cb (a b : Z) : Z := Z.b2z (b <? a) - Z.b2z (a <? b).

Section Compare.
Context (cmp : Z -> Z -> Z).

(** *** Searching *)

Fixpoint find_loop (fuel : nat) (m : nodes) (it key : Z) : outcome Z :=
  match fuel with
  | O => NoFuel
  | S fuel =>
    if it =? NULL then Done NULL
    else
      v ← get_value m it;
      if cmp v key =? 0 then Done v
      else it ← get_link m it (cmp v key <? 0); find_loop fuel m it key
  end.
Definition rb_tree_find (T : rb_tree) (key : Z) : outcome Z := find_loop (S (size (mem T))) (mem T) (root T) key.

(** *** Insertion *)

(** put the new node at the null link, or flip the colours of a node with two red children *)
Definition insert_here (m : nodes) (node p q : Z) (dir : bool) : outcome (nodes * Z) :=
  if q =? NULL then m ← set_link m p dir node; Done (m, node)
  else
    l ← get_link m q false; r ← get_link m q true;
    rl ← rb_node_is_red m l; rr ← rb_node_is_red m r;
    if (rl : bool) && rr then
      m ← set_red m q true; m ← set_red m l false; m ← set_red m r false; Done (m, q)
    else Done (m, q).

(** repair a red node below a red node *)
Definition insert_fix (m : nodes) (t g p q : Z) (last : bool) : outcome nodes :=
  rq ← rb_node_is_red m q; rp ← rb_node_is_red m p;
  if (rq : bool) && rp then
    t1 ← get_link m t true; pl ← get_link m p last;
    '(m, r) ← (if q =? pl then rb_node_rotate m g (negb last) else rb_node_rotate2 m g (negb last));
    set_link m t (t1 =? g) r
  else Done m.

Fixpoint insert_loop (fuel : nat) (m : nodes) (node t g p q : Z) (dir last : bool) : outcome nodes :=
  match fuel with
  | O => NoFuel
  | S fuel =>
    '(m, q) ← insert_here m node p q dir;
    m ← insert_fix m t g p q last;
    vq ← get_value m q; vn ← get_value m node;
    if cmp vq vn =? 0 then Done m
    else
      let dir' := cmp vq vn <? 0 in
      q' ← get_link m q dir';
      insert_loop fuel m node (if g =? NULL then t else g) p q q' dir' dir
  end.

Definition insert_fuel (m : nodes) : nat := 2 * size m + 2.

(** the result is 1 on success; [node] has been allocated and initialised *)
Definition rb_tree_insert_node (T : rb_tree) (node : Z) : outcome (Z * rb_tree) :=
  if node =? NULL then Done (0, T)
  else
    '(m, r) ← (if root T =? NULL then Done (mem T, node)
               else
                 m ← insert_loop (insert_fuel (mem T)) (<[HEAD := mk_node false NULL (root T) NULL]> (mem T))
                       node HEAD NULL NULL (root T) false false;
                 r ← get_link m HEAD true; Done (delete HEAD m, r));
    m ← set_red m r false;
    Done (1, {| mem := m; root := r; tsize := u32 (tsize T + 1) |}).

(** [node] is the address of the new node, or [NULL] *)
Definition rb_tree_insert (T : rb_tree) (node v : Z) : outcome (Z * rb_tree) :=
  if node =? NULL then Done (0, T)
  else rb_tree_insert_node {| mem := <[node := rb_node_init v]> (mem T); root := root T; tsize := tsize T |} node.

(** *** Removal *)

(** push a red node down: the memory and the parent of [q] afterwards *)
Definition remove_push (m : nodes) (g p q : Z) (last dir : bool) : outcome (nodes * Z) :=
  rq ← rb_node_is_red m q; c ← get_link m q dir; rc ← rb_node_is_red m c;
  if negb rq && negb rc then
    o ← get_link m q (negb dir); ro ← rb_node_is_red m o;
    if (ro : bool) then
      '(m, r) ← rb_node_rotate m q dir; m ← set_link m p last r; Done (m, r)
    else
      s ← get_link m p (negb last);
      if s =? NULL then Done (m, p)
      else
        a ← get_link m s (negb last); ra ← rb_node_is_red m a;
        b ← get_link m s last; rb ← rb_node_is_red m b;
        if negb ra && negb rb then
          m ← set_red m p false; m ← set_red m s true; m ← set_red m q true; Done (m, p)
        else if g =? NULL then Done (m, p)
        else
          g1 ← get_link m g true;
          let dir2 := g1 =? p in
          m ← (if (rb : bool) then '(m, r) ← rb_node_rotate2 m p last; set_link m g dir2 r
               else if (ra : bool) then '(m, r) ← rb_node_rotate m p last; set_link m g dir2 r
               else Done m);
          t ← get_link m g dir2;
          m ← set_red m t true; m ← set_red m q true;
          t0 ← get_link m t false; m ← set_red m t0 false;
          t1 ← get_link m t true; m ← set_red m t1 false;
          Done (m, p)
  else Done (m, p).

(** the memory, the last node, its parent and the node with the value, or [NULL] *)
Fixpoint remove_loop (fuel : nat) (m : nodes) (key p q f : Z) (dir : bool) : outcome (nodes * Z * Z * Z) :=
  match fuel with
  | O => NoFuel
  | S fuel =>
    n ← get_link m q dir;
    if n =? NULL then Done (m, q, p, f)
    else
      v ← get_value m n;
      let dir' := cmp v key <? 0 in
      let f := if cmp v key =? 0 then n else f in
      '(m, p') ← remove_push m p q n dir dir';
      remove_loop fuel m key p' n f dir'
  end.

(** replace the value found by that of the last node, and unlink that *)
Definition remove_found (m : nodes) (q p f : Z) : outcome nodes :=
  if f =? NULL then Done m
  else
    tmp ← get_value m f; vq ← get_value m q;
    m ← set_value m f vq; m ← set_value m q tmp;
    p1 ← get_link m p true; q0 ← get_link m q false;
    x ← get_link m q (q0 =? NULL);
    m ← set_link m p (p1 =? q) x;
    Done (delete q m).

Definition rb_tree_remove (T : rb_tree) (key : Z) : outcome (Z * rb_tree) :=
  if root T =? NULL then Done (1, T)
  else
    '(m, q, p, f) ← remove_loop (S (S (size (mem T)))) (<[HEAD := mk_node false NULL (root T) NULL]> (mem T))
                      key NULL HEAD NULL true;
    m ← remove_found m q p f;
    r ← get_link m HEAD true;
    let m := delete HEAD m in
    m ← (if r =? NULL then Done m else set_red m r false);
    Done (1, {| mem := m; root := r; tsize := u32 (tsize T - 1) |}).

(** *** The self test: the black height, 0 for a broken tree *)

Fixpoint rb_tree_test (fuel : nat) (m : nodes) (p : Z) : outcome Z :=
  match fuel with
  | O => NoFuel
  | S fuel =>
    if p =? NULL then Done 1
    else
      ln ← get_link m p false; rn ← get_link m p true;
      c ← rb_node_is_red m p; cl ← rb_node_is_red m ln; cr ← rb_node_is_red m rn;
      if (c : bool) && ((cl : bool) || cr) then Done 0
      else
        lh ← rb_tree_test fuel m ln; rh ← rb_tree_test fuel m rn;
        v ← get_value m p;
        bl ← (if ln =? NULL then Done false else w ← get_value m ln; Done (0 <=? cmp w v));
        br ← (if rn =? NULL then Done false else w ← get_value m rn; Done (cmp w v <=? 0));
        if (bl : bool) || br then Done 0
        else if negb (lh =? 0) && negb (rh =? 0) && negb (lh =? rh) then Done 0
        else if negb (lh =? 0) && negb (rh =? 0) then Done (if (c : bool) then lh else lh + 1)
        else Done 0
  end.

End Compare.

Definition rb_tree_size (T : rb_tree) : Z := tsize T.

(** *** Freeing a tree

    The left links are rotated away; [node_cb] frees the node. *)
Fixpoint dealloc_loop (fuel : nat) (m : nodes) (node : Z) : outcome nodes :=
  match fuel with
  | O => NoFuel
  | S fuel =>
    if node =? NULL then Done m
    else
      l ← get_link m node false;
      if l =? NULL then
        save ← get_link m node true; dealloc_loop fuel (delete node m) save
      else
        x ← get_link m l true;
        m ← set_link m node false x;
        m ← set_link m l true node;
        dealloc_loop fuel m l
  end.
Definition rb_tree_dealloc (T : rb_tree) : outcome nodes := dealloc_loop (2 * size (mem T) + 1) (mem T) (root T).

(** *** Iterators: the current node and the path above it, the nearest first *)

Record rb_iter := { inode : Z; path : list Z }.

(** [path[top++] = node]: the array has [RB_ITER_MAX_HEIGHT] entries *)
Definition push_path (l : list Z) (p : Z) : outcome (list Z) :=
  if Z.of_nat (length l) <? RB_ITER_MAX_HEIGHT then Done (p :: l) else Fault.

(** follow the links in one direction *)
Fixpoint iter_down (fuel : nat) (m : nodes) (p : Z) (l : list Z) (d : bool) : outcome (Z * list Z) :=
  match fuel with
  | O => NoFuel
  | S fuel =>
    n ← get_link m p d;
    if n =? NULL then Done (p, l) else l ← push_path l p; iter_down fuel m n l d
  end.

Definition iter_value (m : nodes) (p : Z) : outcome Z := if p =? NULL then Done NULL else get_value m p.

Definition rb_iter_start (T : rb_tree) (dir : bool) : outcome (Z * rb_iter) :=
  '(p, l) ← (if root T =? NULL then Done (NULL, []) else iter_down (S (size (mem T))) (mem T) (root T) [] dir);
  v ← iter_value (mem T) p;
  Done (v, {| inode := p; path := l |}).

(** climb while the node is the child in direction [dir] *)
Fixpoint iter_up (m : nodes) (node : Z) (l : list Z) (dir : bool) : outcome (Z * list Z) :=
  match l with
  | [] => Done (NULL, [])
  | p :: l => n ← get_link m p dir; if node =? n then iter_up m p l dir else Done (p, l)
  end.

Definition rb_iter_move (T : rb_tree) (self : rb_iter) (dir : bool) : outcome (Z * rb_iter) :=
  n ← get_link (mem T) (inode self) dir;
  '(p, l) ← (if n =? NULL then iter_up (mem T) (inode self) (path self) dir
             else
               l ← push_path (path self) (inode self);
               iter_down (S (size (mem T))) (mem T) n l (negb dir));
  v ← iter_value (mem T) p;
  Done (v, {| inode := p; path := l |}).

Definition rb_iter_first (T : rb_tree) : outcome (Z * rb_iter) := rb_iter_start T false.
Definition rb_iter_last (T : rb_tree) : outcome (Z * rb_iter) := rb_iter_start T true.
Definition rb_iter_next (T : rb_tree) (self : rb_iter) : outcome (Z * rb_iter) := rb_iter_move T self true.
Definition rb_iter_prev (T : rb_tree) (self : rb_iter) : outcome (Z * rb_iter) := rb_iter_move T self false.
