(* ===== verification/RbtreeTree.v ===== *)
(** * Trees in memory

    The nodes of a red-black tree ([Rbtree]) as an inductive tree with addresses,
    a position in a tree as the path of frames above it, and what the rotations
    do to both.  [nd d] builds a node from its child in direction [d] and the
    other, so that each fact is stated once for both directions. *)
From S2P Require Import Prelude Rbtree.

(** ** Trees *)

Inductive tree := L | N (a : Z) (c : bool) (l : tree) (v : Z) (r : tree).

#[export] Instance tree_eq_dec : EqDecision tree.
Proof. solve_decision. Defined.

Definition ptr (t : tree) : Z := match t with L => NULL | N a _ _ _ _ => a end.
Definition is_red (t : tree) : bool := match t with L => false | N _ c _ _ _ => c end.
Fixpoint addrs (t : tree) : list Z := match t with L => [] | N a _ l _ r => a :: addrs l ++ addrs r end.
Fixpoint inorder (t : tree) : list Z := match t with L => [] | N _ _ l v r => inorder l ++ v :: inorder r end.
Fixpoint tsz (t : tree) : nat := match t with L => 0 | N _ _ l _ r => S (tsz l + tsz r) end.
Definition paint (c : bool) (t : tree) : tree := match t with L => L | N a _ l v r => N a c l v r end.

Definition nd (d : bool) (a : Z) (c : bool) (x : tree) (v : Z) (y : tree) : tree :=
  if d then N a c y v x else N a c x v y.
Definition mk (d c : bool) (x y v : Z) : rb_node := if d then mk_node c y x v else mk_node c x y v.

Lemma node_nd d a c l v r : exists x y, N a c l v r = nd d a c x v y /\ (if d then x = r else x = l).
Proof. destruct d; eauto. Qed.
Lemma link_mk d c x y v : link (mk d c x y v) d = x.
Proof. by destruct d. Qed.
Lemma link_mk_other d c x y v : link (mk d c x y v) (negb d) = y.
Proof. by destruct d. Qed.
Lemma with_link_mk d c x y v z : with_link (mk d c x y v) d z = mk d c z y v.
Proof. by destruct d. Qed.
Lemma with_link_mk_other d c x y v z : with_link (mk d c x y v) (negb d) z = mk d c x z v.
Proof. by destruct d. Qed.
Lemma red_mk d c x y v : red (mk d c x y v) = c.
Proof. by destruct d. Qed.
Lemma value_mk d c x y v : value (mk d c x y v) = v.
Proof. by destruct d. Qed.
Lemma recolor_mk d c c' x y v : mk_node c' (link0 (mk d c x y v)) (link1 (mk d c x y v)) (value (mk d c x y v)) = mk d c' x y v.
Proof. by destruct d. Qed.
Lemma revalue_mk d c x y v v' :
  mk_node (red (mk d c x y v)) (link0 (mk d c x y v)) (link1 (mk d c x y v)) v' = mk d c x y v'.
Proof. by destruct d. Qed.
Lemma mk_negb d c x y v : mk (negb d) c x y v = mk d c y x v.
Proof. by destruct d. Qed.
Lemma nd_negb d a c x v y : nd (negb d) a c x v y = nd d a c y v x.
Proof. by destruct d. Qed.

Create Rewrite HintDb mk.
#[export] Hint Rewrite link_mk link_mk_other with_link_mk with_link_mk_other red_mk value_mk recolor_mk revalue_mk
  mk_negb nd_negb negb_involutive : mk.

(** ** Trees in memory *)

Fixpoint rep (m : nodes) (t : tree) : Prop :=
  match t with
  | L => True
  | N a c l v r => m !! a = Some (mk_node c (ptr l) (ptr r) v) /\ rep m l /\ rep m r
  end.

Lemma rep_nd m d a c x v y : rep m (nd d a c x v y) <-> m !! a = Some (mk d c (ptr x) (ptr y) v) /\ rep m x /\ rep m y.
Proof. destruct d; cbn; tauto. Qed.
Lemma addrs_nd d a c x v y : addrs (nd d a c x v y) ≡ₚ a :: addrs x ++ addrs y.
Proof. destruct d; cbn; [by rewrite Permutation_app_comm|done]. Qed.
Lemma ptr_nd d a c x v y : ptr (nd d a c x v y) = a.
Proof. by destruct d. Qed.
Lemma is_red_nd d a c x v y : is_red (nd d a c x v y) = c.
Proof. by destruct d. Qed.
Lemma tsz_nd d a c x v y : tsz (nd d a c x v y) = S (tsz x + tsz y).
Proof. destruct d; cbn; lia. Qed.
#[export] Hint Rewrite ptr_nd is_red_nd : mk.

(** two memories that agree outside a list of addresses *)
Definition frame (m m' : nodes) (l : list Z) : Prop := forall x, x ∉ l -> m' !! x = m !! x.

Lemma frame_refl m l : frame m m l.
Proof. done. Qed.
Lemma frame_trans m1 m2 m3 l : frame m1 m2 l -> frame m2 m3 l -> frame m1 m3 l.
Proof. intros H1 H2 x Hx. by rewrite H2, H1. Qed.
Lemma frame_weaken m m' l l' : frame m m' l -> l ⊆ l' -> frame m m' l'.
Proof. intros H Hs x Hx. apply H. set_solver. Qed.
Lemma frame_insert m a n l : a ∈ l -> frame m (<[a := n]> m) l.
Proof. intros Ha x Hx. rewrite lookup_insert_ne; [done|]. intros ->. done. Qed.

Lemma rep_frame m m' l t : frame m m' l -> (forall x, x ∈ addrs t -> x ∉ l) -> rep m t -> rep m' t.
Proof.
  intros Hf. induction t as [|a c l' IHl v r IHr]; [done|]. cbn [addrs rep]. intros Hd (Ha & Hl & Hr). split; [|split].
  - rewrite Hf; [done|]. apply Hd. set_solver.
  - apply IHl; [|done]. set_solver.
  - apply IHr; [|done]. set_solver.
Qed.
Lemma rep_insert m a n t : a ∉ addrs t -> rep m t -> rep (<[a := n]> m) t.
Proof.
  intros Ha. apply (rep_frame _ _ [a]); [apply frame_insert; set_solver|]. intros x Hx Hxa. apply list_elem_of_singleton in Hxa. by subst.
Qed.
Lemma rep_mapped m t : rep m t -> forall x, x ∈ addrs t -> is_Some (m !! x).
Proof.
  induction t as [|a c l IHl v r IHr]; cbn; [set_solver|]. intros (Ha & Hl & Hr) x Hx.
  rewrite elem_of_cons, elem_of_app in Hx. destruct Hx as [->|[Hx|Hx]]; eauto.
Qed.

Lemma red_ptr m t : rep m t -> 0 ∉ addrs t -> rb_node_is_red m (ptr t) = Done (is_red t).
Proof.
  destruct t as [|a c l v r]; [done|]. cbn. intros (Ha & _) H0. unfold rb_node_is_red, node_at.
  rewrite (proj2 (Z.eqb_neq a NULL)) by (unfold NULL; set_solver). by rewrite Ha.
Qed.

(** the functions that access one node *)
Lemma get_link_at m p n d : m !! p = Some n -> get_link m p d = Done (link n d).
Proof. intros H. unfold get_link, node_at. by rewrite H. Qed.
Lemma get_value_at m p n : m !! p = Some n -> get_value m p = Done (value n).
Proof. intros H. unfold get_value, node_at. by rewrite H. Qed.
Lemma set_link_at m p n d q : m !! p = Some n -> set_link m p d q = Done (<[p := with_link n d q]> m).
Proof. intros H. unfold set_link, node_at. by rewrite H. Qed.
Lemma set_red_at m p n c : m !! p = Some n -> set_red m p c = Done (<[p := mk_node c (link0 n) (link1 n) (value n)]> m).
Proof. intros H. unfold set_red, node_at. by rewrite H. Qed.
Lemma set_value_at m p n v : m !! p = Some n -> set_value m p v = Done (<[p := mk_node (red n) (link0 n) (link1 n) v]> m).
Proof. intros H. unfold set_value, node_at. by rewrite H. Qed.

(** look up the node written last, or one that differs from it *)
Ltac lk := repeat first [rewrite lookup_insert_eq | rewrite lookup_insert_ne by congruence]; try eassumption; try reflexivity.
Ltac mstep :=
  first [ erewrite get_link_at by lk | erewrite set_link_at by lk | erewrite set_red_at by lk
        | erewrite get_value_at by lk | erewrite set_value_at by lk ];
  cbn [mbind outcome_bind]; autorewrite with mk.

(** the well-formed addresses of a tree *)
Definition okaddrs (l : list Z) : Prop := NoDup l /\ 0 ∉ l /\ HEAD ∉ l.

(** ** Rotations *)

Lemma rotate_spec m d a ca z va b cb x vb y :
  let t := nd d a ca z va (nd d b cb x vb y) in
  rep m t -> okaddrs (addrs t) ->
  exists m', rb_node_rotate m a d = Done (m', b) /\ rep m' (nd d b false (nd d a true z va x) vb y) /\ frame m m' (addrs t).
Proof.
  intros t Hr (Hn & H0 & _). unfold t in *. clear t. rewrite !addrs_nd in Hn, H0.
  apply rep_nd in Hr as (Ha & Hz & Hr). apply rep_nd in Hr as (Hb & Hx & Hy). rewrite ptr_nd in Ha.
  assert (Hab : a <> b) by (apply NoDup_cons in Hn; set_solver).
  assert (Ha' : a ∉ addrs x /\ a ∉ addrs y /\ a ∉ addrs z) by (apply NoDup_cons in Hn; set_solver).
  assert (Hb' : b ∉ addrs x /\ b ∉ addrs y /\ b ∉ addrs z).
  { apply NoDup_cons in Hn as [_ Hn]. apply NoDup_app in Hn as (_ & Hd & Hn). apply NoDup_cons in Hn as [Hn _]. set_solver. }
  unfold rb_node_rotate. rewrite (proj2 (Z.eqb_neq a NULL)) by (unfold NULL; set_solver).
  do 6 mstep. eexists. split; [reflexivity|]. split.
  - apply rep_nd. rewrite ptr_nd. split; [lk|]. split; [apply rep_nd; split; [lk|]|];
      [split|]; do 4 (apply rep_insert; [tauto|]); done.
  - intros k Hk. rewrite !addrs_nd in Hk. rewrite !lookup_insert_ne by set_solver. done.
Qed.

Lemma okaddrs_sub (l l' : list Z) : okaddrs l -> (exists k, l ≡ₚ l' ++ k) -> okaddrs l'.
Proof. intros (Hn & H0 & Hh) [k Hk]. rewrite Hk in Hn, H0, Hh. apply NoDup_app in Hn. split_and!; set_solver. Qed.
Lemma okaddrs_perm (l l' : list Z) : okaddrs l -> l ≡ₚ l' -> okaddrs l'.
Proof. intros H Hp. apply (okaddrs_sub l); [done|]. exists []. by rewrite app_nil_r. Qed.

(** a node and the trees below it have different addresses *)
Lemma okaddrs_nd d a c x v y : okaddrs (addrs (nd d a c x v y)) ->
  okaddrs (addrs x) /\ okaddrs (addrs y) /\ a ∉ addrs x /\ a ∉ addrs y /\ (forall k, k ∈ addrs x -> k ∉ addrs y) /\ a <> 0 /\ a <> HEAD.
Proof.
  intros H. assert (H' : okaddrs (a :: addrs x ++ addrs y)) by (apply (okaddrs_perm _ _ H), addrs_nd).
  destruct H' as (Hn & H0 & Hh). apply NoDup_cons in Hn as [Ha Hn]. apply NoDup_app in Hn as (Hx & Hd & Hy).
  unfold okaddrs. split_and!; try done; set_solver.
Qed.

Lemma rotate2_spec m d a ca z va b cb e ce x ve y vb w :
  let t := nd d a ca z va (nd d b cb (nd d e ce x ve y) vb w) in
  rep m t -> okaddrs (addrs t) ->
  exists m', rb_node_rotate2 m a d = Done (m', e) /\
    rep m' (nd d e false (nd d a true z va x) ve (nd d b true y vb w)) /\ frame m m' (addrs t).
Proof.
  intros t Hr Hok. unfold t in *. clear t. destruct (okaddrs_nd _ _ _ _ _ _ Hok) as (_ & Hokr & Haz & Har & Hd & Ha0 & _).
  apply rep_nd in Hr as (Ha & Hz & Hr). rewrite ptr_nd in Ha.
  assert (Er : nd d b cb (nd d e ce x ve y) vb w = nd (negb d) b cb w vb (nd (negb d) e ce y ve x)) by (by rewrite !nd_negb).
  rewrite Er in Hr, Hokr. destruct (rotate_spec m (negb d) b cb w vb e ce y ve x Hr Hokr) as (m1 & E1 & Hr1 & Hf1).
  rewrite !nd_negb in Hr1, Hf1.
  unfold rb_node_rotate2. rewrite (proj2 (Z.eqb_neq a NULL)) by done. mstep. rewrite E1. cbn [mbind outcome_bind].
  assert (Ha1 : m1 !! a = Some (mk d ca (ptr z) b va)) by (by rewrite Hf1).
  mstep. set (m2 := <[a := _]> m1).
  assert (Hp : addrs (nd d e false x ve (nd d b true y vb w)) ≡ₚ addrs (nd d b cb (nd d e ce x ve y) vb w)).
  { rewrite !addrs_nd. solve_Permutation. }
  destruct (rotate_spec m2 d a ca z va e false x ve (nd d b true y vb w)) as (m3 & E3 & Hr3 & Hf3).
  - apply rep_nd. unfold m2. rewrite ptr_nd. split; [lk|]. split.
    + apply rep_insert; [done|]. apply (rep_frame _ _ _ _ Hf1); [|done]. exact Hd.
    + apply rep_insert; [|done]. intros Hx. rewrite Hp in Hx. done.
  - apply (okaddrs_perm _ _ Hok). rewrite !addrs_nd. rewrite !addrs_nd in Hp. solve_Permutation.
  - exists m3. split; [done|]. split; [done|].
    assert (Hw : addrs (nd d e false x ve (nd d b true y vb w)) ⊆ addrs (nd d a ca z va (nd d b cb (nd d e ce x ve y) vb w))).
    { intros k Hk. rewrite Hp in Hk. rewrite (addrs_nd d a). set_solver. }
    apply (frame_trans m m1); [|apply (frame_trans m1 m2)].
    + apply (frame_weaken _ _ _ _ Hf1). intros k Hk. rewrite (addrs_nd d a). set_solver.
    + apply frame_insert. rewrite (addrs_nd d a). set_solver.
    + apply (frame_weaken _ _ _ _ Hf3). intros k Hk. rewrite (addrs_nd d a) in Hk. rewrite (addrs_nd d a).
      rewrite elem_of_cons, elem_of_app in Hk. rewrite elem_of_cons, elem_of_app. rewrite Hp in Hk. tauto.
Qed.

(** ** Positions in a tree

    The frames above a position, the nearest first: the node's address, the
    direction it is left in, its colour and value, and its other child.  Above the
    last frame is the false root. *)

Record fr := { fa : Z; fd : bool; fc : bool; fv : Z; fs : tree }.
Abbreviation ctx := (list fr).

Definition top (C : ctx) : Z := match C with [] => HEAD | f :: _ => fa f end.
Definition topdir (C : ctx) : bool := match C with [] => true | f :: _ => fd f end.
Definition topred (C : ctx) : bool := match C with [] => false | f :: _ => fc f end.
Definition fill (f : fr) (t : tree) : tree := nd (fd f) (fa f) (fc f) t (fv f) (fs f).
Fixpoint plug (C : ctx) (t : tree) : tree := match C with [] => t | f :: C => plug C (fill f t) end.
Fixpoint caddrs (C : ctx) : list Z := match C with [] => [] | f :: C => fa f :: addrs (fs f) ++ caddrs C end.

Fixpoint repC (m : nodes) (C : ctx) (h : Z) : Prop :=
  match C with
  | [] => m !! HEAD = Some (mk_node false NULL h NULL)
  | f :: C => m !! fa f = Some (mk (fd f) (fc f) h (ptr (fs f)) (fv f)) /\ rep m (fs f) /\ repC m C (fa f)
  end.

(** the memory holds the tree [t] at the position [C] *)
Definition holds (m : nodes) (C : ctx) (t : tree) : Prop :=
  repC m C (ptr t) /\ rep m t /\ okaddrs (caddrs C ++ addrs t).

Lemma repC_frame m m' l C h : frame m m' l -> (forall x, x ∈ caddrs C -> x ∉ l) -> HEAD ∉ l -> repC m C h -> repC m' C h.
Proof.
  intros Hf. revert h. induction C as [|f C IH]; intros h Hd Hh; cbn [repC caddrs] in *; [by rewrite Hf|].
  intros (Ha & Hs & Hc). split_and!; [rewrite Hf; [done|]; apply Hd; set_solver| |apply IH; try done; set_solver].
  apply (rep_frame _ _ _ _ Hf); [|done]. set_solver.
Qed.
Lemma repC_insert m a n C h : a ∉ caddrs C -> a <> HEAD -> repC m C h -> repC (<[a := n]> m) C h.
Proof. intros Ha Hh. apply (repC_frame _ _ [a]); [apply frame_insert|..]; set_solver. Qed.

Lemma addrs_fill f t : addrs (fill f t) ≡ₚ fa f :: addrs t ++ addrs (fs f).
Proof. apply addrs_nd. Qed.
Lemma holds_down m C f t : holds m C (fill f t) <-> holds m (f :: C) t.
Proof.
  unfold holds. cbn [repC caddrs]. unfold fill at 1. rewrite ptr_nd. unfold fill at 1. rewrite rep_nd.
  assert (E : caddrs C ++ addrs (fill f t) ≡ₚ (fa f :: addrs (fs f) ++ caddrs C) ++ addrs t) by (rewrite addrs_fill; solve_Permutation).
  split; intros (H1 & H2 & H3); split_and!; try tauto.
  - by apply (okaddrs_perm _ _ H3).
  - apply (okaddrs_perm _ _ H3). by rewrite E.
Qed.
Lemma holds_plug m C t : holds m C t <-> holds m [] (plug C t).
Proof. revert t. induction C as [|f C IH]; intros t; [done|]. cbn [plug]. by rewrite <- holds_down, IH. Qed.

Lemma okaddrs_app (l l' : list Z) : okaddrs (l ++ l') ->
  okaddrs l /\ okaddrs l' /\ (forall x, x ∈ l -> x ∉ l') /\ HEAD ∉ l /\ HEAD ∉ l'.
Proof. intros (Hn & H0 & Hh). apply NoDup_app in Hn as (H1 & H2 & H3). unfold okaddrs. set_solver. Qed.

Lemma top_in C : top C ∈ HEAD :: caddrs C.
Proof. destruct C; cbn; set_solver. Qed.

(** the node above the position *)
Lemma holds_top m C t : holds m C t -> exists c y v, m !! top C = Some (mk (topdir C) c (ptr t) y v) /\
  (forall h, y = h -> h ∈ addrs t -> False) /\ c = topred C.
Proof.
  intros (Hc & _ & Hok). destruct C as [|f C]; cbn [repC top topdir topred] in *.
  - exists false, NULL, NULL. split; [done|]. split; [|done]. intros h <- Hh. destruct Hok as (_ & H0 & _).
    unfold NULL in Hh. set_solver.
  - destruct Hc as (Ha & _). exists (fc f), (ptr (fs f)), (fv f). split; [done|]. split; [|done]. intros h <- Hh.
    destruct (okaddrs_app _ _ Hok) as (H1 & (_ & H0 & _) & Hd & _). apply (Hd (ptr (fs f))); [|done]. cbn [caddrs].
    destruct (fs f); cbn in *; [done|set_solver].
Qed.

(** write the link to the position *)
Lemma repC_set m C h h' : repC m C h -> okaddrs (caddrs C) -> exists n, m !! top C = Some n /\
  set_link m (top C) (topdir C) h' = Done (<[top C := with_link n (topdir C) h']> m) /\
  repC (<[top C := with_link n (topdir C) h']> m) C h'.
Proof.
  intros Hc (Hn & _ & Hh). destruct C as [|f C]; cbn [repC top topdir caddrs] in *.
  - eexists. split; [exact Hc|]. split; [by erewrite set_link_at by exact Hc|]. by rewrite lookup_insert_eq.
  - destruct Hc as (Ha & Hs & Hc). apply NoDup_cons in Hn as [Hn _]. eexists. split; [exact Ha|].
    split; [by erewrite set_link_at by exact Ha|]. rewrite lookup_insert_eq, with_link_mk.
    split_and!; [done|apply rep_insert; [set_solver|done]|apply repC_insert; [set_solver|set_solver|done]].
Qed.

(** replace the tree at a position *)
Lemma holds_set m m' l C t t' : holds m C t -> frame m m' l -> (forall x, x ∈ l -> x ∉ HEAD :: caddrs C) ->
  rep m' t' -> okaddrs (caddrs C ++ addrs t') ->
  exists m'', set_link m' (top C) (topdir C) (ptr t') = Done m'' /\ holds m'' C t' /\ frame m m'' (HEAD :: caddrs C ++ l).
Proof.
  intros (Hc & _ & _) Hf Hd Hr Hok. destruct (okaddrs_app _ _ Hok) as (Hok1 & _ & Hd' & _ & Hh').
  assert (Hc' : repC m' C (ptr t)) by (apply (repC_frame _ _ _ _ _ Hf); [set_solver|set_solver|done]).
  destruct (repC_set m' C _ (ptr t') Hc' Hok1) as (n & Hn & E & Hc''). rewrite E. eexists. split; [reflexivity|].
  assert (Htop : top C ∉ addrs t') by (pose proof (top_in C) as Hin; apply elem_of_cons in Hin as [->|Hin]; [done|by apply Hd']).
  split; [split_and!; [done|by apply rep_insert|done]|].
  apply (frame_trans _ m'); [apply (frame_weaken _ _ _ _ Hf); set_solver|]. apply frame_insert. pose proof (top_in C). set_solver.
Qed.
Lemma holds_replace m m' C t t' : holds m C t -> rep m' t' -> frame m m' (addrs t) -> addrs t' ≡ₚ addrs t ->
  exists m'', set_link m' (top C) (topdir C) (ptr t') = Done m'' /\ holds m'' C t' /\ frame m m'' (HEAD :: caddrs C ++ addrs t).
Proof.
  intros H Hr Hf Hp. pose proof H as (_ & _ & Hok). destruct (okaddrs_app _ _ Hok) as (_ & _ & Hd & _ & Hh).
  apply (holds_set m m' (addrs t) C t t' H Hf); [set_solver|done|]. apply (okaddrs_perm _ _ Hok). by rewrite Hp.
Qed.

(** change the tree at a position, its root staying where it is *)
Lemma holds_inplace m m' C t t' : holds m C t -> rep m' t' -> frame m m' (addrs t) -> addrs t' ≡ₚ addrs t -> ptr t' = ptr t ->
  holds m' C t'.
Proof.
  intros (Hc & _ & Hok) Hr Hf Hp He. destruct (okaddrs_app _ _ Hok) as (Hok1 & Hok2 & Hd & Hh1 & Hh2). split_and!.
  - rewrite He. by apply (repC_frame _ _ _ _ _ Hf).
  - done.
  - apply (okaddrs_perm _ _ Hok). by rewrite Hp.
Qed.

(** ** Colours

    [rb t n]: no red node has a red child and every path has [n] black nodes;
    [rbC C n]: the same of the tree around a position whose tree has [n]. *)

Fixpoint rb (t : tree) (n : nat) : Prop :=
  match t with
  | L => n = O
  | N _ true l _ r => is_red l = false /\ is_red r = false /\ rb l n /\ rb r n
  | N _ false l _ r => match n with O => False | S k => rb l k /\ rb r k end
  end.
Fixpoint rbC (C : ctx) (n : nat) : Prop :=
  match C with
  | [] => True
  | f :: C => if fc f then topred C = false /\ is_red (fs f) = false /\ rb (fs f) n /\ rbC C n
              else rb (fs f) n /\ rbC C (S n)
  end.
Definition good (C : ctx) (t : tree) : Prop := exists n, rb t n /\ rbC C n /\ (topred C = true -> is_red t = false).

Lemma rb_nd_red d a x v y n :
  rb (nd d a true x v y) n <-> is_red x = false /\ is_red y = false /\ rb x n /\ rb y n.
Proof. destruct d; cbn; tauto. Qed.
Lemma rb_nd_black d a x v y n : rb (nd d a false x v y) n <-> exists k, n = S k /\ rb x k /\ rb y k.
Proof. destruct d, n; cbn; naive_solver. Qed.

Lemma good_down C f t : good C (fill f t) <-> good (f :: C) t.
Proof.
  unfold good, fill. cbn [rbC topred]. destruct (fc f).
  - setoid_rewrite rb_nd_red. rewrite is_red_nd. split.
    + intros (n & (Hx & Hy & Hrx & Hry) & HC & Ht). exists n. split_and!; try done. destruct (topred C); [|done]. by specialize (Ht eq_refl).
    + intros (n & Hx & (Ht & Hy & Hry & HC) & Hxr). exists n. specialize (Hxr eq_refl). split_and!; try done. by rewrite Ht.
  - setoid_rewrite rb_nd_black. rewrite is_red_nd. split.
    + intros (n & (k & -> & Hx & Hy) & HC & _). exists k. by split_and!.
    + intros (n & Hx & (Hy & HC) & _). exists (S n). split_and!; eauto.
Qed.
Lemma good_plug C t : good C t <-> good [] (plug C t).
Proof. revert t. induction C as [|f C IH]; intros t; [done|]. cbn [plug]. by rewrite <- good_down, IH. Qed.

(** ** The values in order *)

Fixpoint ctxl (C : ctx) : list Z :=
  match C with [] => [] | f :: C => ctxl C ++ (if fd f then inorder (fs f) ++ [fv f] else []) end.
Fixpoint ctxr (C : ctx) : list Z :=
  match C with [] => [] | f :: C => (if fd f then [] else fv f :: inorder (fs f)) ++ ctxr C end.

Lemma inorder_nd d a c x v y : inorder (nd d a c x v y) = if d then inorder y ++ v :: inorder x else inorder x ++ v :: inorder y.
Proof. by destruct d. Qed.
Lemma inorder_plug C t : inorder (plug C t) = ctxl C ++ inorder t ++ ctxr C.
Proof.
  revert t. induction C as [|f C IH]; intros t; cbn [plug ctxl ctxr]; [by rewrite app_nil_r|].
  rewrite IH. unfold fill. rewrite inorder_nd. destruct (fd f); rewrite ?app_nil_r, <- ?app_assoc; cbn; rewrite <- ?app_assoc; done.
Qed.
Lemma addrs_plug C t : addrs (plug C t) ≡ₚ caddrs C ++ addrs t.
Proof.
  revert t. induction C as [|f C IH]; intros t; cbn [plug caddrs]; [done|]. rewrite IH, addrs_fill. solve_Permutation.
Qed.
Lemma length_inorder t : length (inorder t) = tsz t.
Proof. induction t as [|a c l IHl v r IHr]; cbn; [done|]. rewrite length_app. cbn. lia. Qed.
Lemma length_addrs t : length (addrs t) = tsz t.
Proof. induction t as [|a c l IHl v r IHr]; cbn; [done|]. rewrite length_app. lia. Qed.
Lemma rep_size m t : rep m t -> NoDup (addrs t) -> (tsz t <= size m)%nat.
Proof.
  intros Hr Hn. rewrite <- length_addrs, <- (size_list_to_set (C := gset Z) _ Hn), <- (size_dom m).
  apply subseteq_size. intros x Hx. rewrite elem_of_list_to_set in Hx. apply elem_of_dom. by apply (rep_mapped m t).
Qed.

Lemma inorder_paint c t : inorder (paint c t) = inorder t.
Proof. by destruct t. Qed.
Lemma addrs_paint c t : addrs (paint c t) = addrs t.
Proof. by destruct t. Qed.
Lemma tsz_paint c t : tsz (paint c t) = tsz t.
Proof. by destruct t. Qed.

(** *** Routing: the values to the left of the key, the key's own, and those to the right of it *)
Section Route.
Context (cmp : Z -> Z -> Z) (key : Z).

Definition mono (l : list Z) : Prop := StronglySorted (fun a b => Z.sgn (cmp a key) <= Z.sgn (cmp b key)) l.
Definition neg (a : Z) : Prop := cmp a key < 0.
Definition pos (a : Z) : Prop := 0 < cmp a key.

Lemma mono_split l1 a l2 : mono (l1 ++ a :: l2) ->
  (cmp a key < 0 -> Forall neg l1) /\ (0 < cmp a key -> Forall pos l2) /\
  (cmp a key = 0 -> Forall (fun x => cmp x key <= 0) l1 /\ Forall (fun x => 0 <= cmp x key) l2).
Proof.
  unfold mono, neg, pos. intros H.
  assert (H1 : Forall (fun x => Z.sgn (cmp x key) <= Z.sgn (cmp a key)) l1).
  { induction l1 as [|b l1 IH]; [done|]. cbn in H. apply StronglySorted_inv in H as [H Hb]. constructor; [|by apply IH].
    rewrite Forall_forall in Hb. apply Hb. set_solver. }
  assert (H2 : Forall (fun x => Z.sgn (cmp a key) <= Z.sgn (cmp x key)) l2).
  { clear H1. induction l1 as [|b l1 IH]; cbn in H; apply StronglySorted_inv in H as [H Hb]; [done|by apply IH]. }
  split_and!; intros Ha.
  - apply (Forall_impl _ _ _ H1). intros x Hx. cbn in Hx. lia.
  - apply (Forall_impl _ _ _ H2). intros x Hx. cbn in Hx. lia.
  - split; [apply (Forall_impl _ _ _ H1)|apply (Forall_impl _ _ _ H2)]; intros x Hx; cbn in Hx; lia.
Qed.

Definition routed (C : ctx) : Prop := Forall neg (ctxl C) /\ Forall pos (ctxr C).

Lemma routed_down C d a c x v y : mono (inorder (plug C (nd d a c x v y))) -> routed C ->
  d = (cmp v key <? 0) -> cmp v key <> 0 -> routed ({| fa := a; fd := d; fc := c; fv := v; fs := y |} :: C).
Proof.
  intros Hm (Hl & Hr) Hd Hne. rewrite inorder_plug, inorder_nd in Hm. unfold routed. cbn [ctxl ctxr fd fs fv]. destruct d.
  - rewrite <- !app_assoc in Hm. cbn in Hm. rewrite app_assoc in Hm. apply mono_split in Hm as (Hm & _).
    symmetry in Hd. apply Z.ltb_lt in Hd. specialize (Hm Hd). apply Forall_app in Hm as [_ Hm].
    split; [|done]. rewrite !Forall_app. split_and!; [done|done|by constructor].
  - rewrite <- !app_assoc in Hm. cbn in Hm. rewrite app_assoc in Hm. apply mono_split in Hm as (_ & Hm & _).
    symmetry in Hd. apply Z.ltb_ge in Hd. assert (Hp : 0 < cmp v key) by lia. specialize (Hm Hp). apply Forall_app in Hm as [Hm _].
    split; [by rewrite app_nil_r|]. rewrite Forall_app. split; [by constructor|done].
Qed.
End Route.
