(* ===== verification/RbtreeInsert.v ===== *)
(** * Insertion into a red-black tree

    The top-down loop of [rb_tree_insert_node] keeps the parent, grandparent and
    great-grandparent of the current node in [p], [g] and [t].  After a rotation
    [t], and after a double rotation also [g], are wrong for one or two turns; in
    these turns they are not used, because the node below is black with black
    children ([quiet]). *)
From S2P Require Import Prelude Rbtree RbtreeTree.

Section Insert.
Context (cmp : Z -> Z -> Z) (node key : Z) (Hrefl : cmp key key = 0).
Context (m0 : nodes) (l0 A0 : list Z) (Hnode : m0 !! node = Some (rb_node_init key))
  (Hfresh : node ∉ A0) (Hn0 : node <> 0) (HnH : node <> HEAD) (Hmono : mono cmp key l0).

Definition newt : tree := N node true L key L.
Definition quiet (t : tree) : Prop := exists a l v r, t = N a false l v r /\ is_red l = false /\ is_red r = false.

(** the state of the loop: the tree at the position has the values and nodes of the
    start, and the key belongs below it *)
Definition Inv (m : nodes) (C : ctx) (q : tree) : Prop :=
  holds m C q /\ good C q /\ routed cmp key C /\ inorder (plug C q) = l0 /\ caddrs C ++ addrs q ≡ₚ A0 /\ frame m0 m (HEAD :: A0).

(** the result: the key is in its place, or was there *)
Definition Res (m' : nodes) : Prop :=
  exists t, holds m' [] t /\ good [] t /\ frame m0 m' (HEAD :: node :: A0) /\
    ((exists l1 l2, l0 = l1 ++ l2 /\ Forall (neg cmp key) l1 /\ Forall (pos cmp key) l2 /\
        inorder t = l1 ++ key :: l2 /\ addrs t ≡ₚ node :: A0) \/
     (exists z, z ∈ l0 /\ cmp z key = 0 /\ inorder t = l0 /\ addrs t ≡ₚ A0 /\
        m' !! node = Some (rb_node_init key))).

Lemma node_kept m : frame m0 m (HEAD :: A0) -> m !! node = Some (rb_node_init key).
Proof. intros Hf. rewrite Hf; [done|]. set_solver. Qed.

(** *** One turn of the loop *)

Lemma loop_next fuel m m1 m2 t g p q q' dir last d c x y v :
  insert_here m node p q dir = Done (m1, q') -> insert_fix m1 t g p q' last = Done m2 ->
  m2 !! q' = Some (mk d c x y v) -> get_value m2 node = Done key ->
  insert_loop cmp (S fuel) m node t g p q dir last =
    if cmp v key =? 0 then Done m2
    else if Bool.eqb d (cmp v key <? 0) then insert_loop cmp fuel m2 node (if g =? NULL then t else g) p q' x d dir
    else insert_loop cmp fuel m2 node (if g =? NULL then t else g) p q' y (negb d) dir.
Proof.
  intros H1 H2 Hq Hn. cbn [insert_loop]. rewrite H1. cbn [mbind outcome_bind]. rewrite H2. cbn [mbind outcome_bind].
  rewrite (get_value_at _ _ _ Hq), Hn. cbn [mbind outcome_bind]. autorewrite with mk.
  destruct (cmp v key =? 0); [done|]. rewrite (get_link_at _ _ _ _ Hq). cbn [mbind outcome_bind].
  destruct (Bool.eqb d (cmp v key <? 0)) eqn:E.
  - apply eqb_prop in E. rewrite <- E. by autorewrite with mk.
  - assert (cmp v key <? 0 = negb d) as -> by (by destruct d, (cmp v key <? 0)). by autorewrite with mk.
Qed.

(** a node whose children are not both red stays *)
Lemma here_stays m p q dir C : holds m C q -> q <> L -> (forall a c l v r, q = N a c l v r -> is_red l && is_red r = false) ->
  insert_here m node p (ptr q) dir = Done (m, ptr q).
Proof.
  intros (_ & Hr & Hok) Hne Hq. apply okaddrs_app in Hok as (_ & (_ & H0 & _) & _). destruct q as [|a c l v r]; [done|].
  specialize (Hq a c l v r eq_refl). cbn in Hr, H0. destruct Hr as (Ha & Hl & Hrr). unfold insert_here. cbn [ptr].
  rewrite (proj2 (Z.eqb_neq a NULL)) by (unfold NULL; set_solver).
  rewrite !(get_link_at _ _ _ _ Ha). cbn [mbind outcome_bind link link0 link1].
  rewrite (red_ptr m l), (red_ptr m r) by (done || set_solver). cbn [mbind outcome_bind]. by rewrite Hq.
Qed.

(** two red children: the colours are flipped *)
Lemma here_flip m C p dir a c l v r : Inv m C (N a c l v r) -> is_red l = true -> is_red r = true ->
  exists m', insert_here m node p a dir = Done (m', a) /\ holds m' C (N a true (paint false l) v (paint false r)) /\
    frame m0 m' (HEAD :: A0).
Proof.
  intros (Hh & _ & _ & _ & HA & Hf) Hl Hr. destruct Hh as (HC & Hrep & Hok).
  destruct l as [|b cb ll vl lr]; [done|]. destruct r as [|e ce rl vr rr]; [done|]. cbn in Hl, Hr. subst cb ce.
  pose proof Hok as Hok'. apply okaddrs_app in Hok' as (_ & Hokq & _).
  change (N a c (N b true ll vl lr) v (N e true rl vr rr)) with (nd false a c (N b true ll vl lr) v (N e true rl vr rr)) in Hokq.
  destruct (okaddrs_nd _ _ _ _ _ _ Hokq) as (Hokl & Hokr & Hal & Har & Hd & Ha0 & _).
  change (N b true ll vl lr) with (nd false b true ll vl lr) in Hokl. change (N e true rl vr rr) with (nd false e true rl vr rr) in Hokr.
  destruct (okaddrs_nd _ _ _ _ _ _ Hokl) as (_ & _ & Hbl & Hbr & _ & Hb0 & _).
  destruct (okaddrs_nd _ _ _ _ _ _ Hokr) as (_ & _ & Hel & Her & _ & He0 & _).
  assert (Hbe : b <> e) by (intros ->; apply (Hd e); cbn; set_solver).
  assert (Hab : a <> b /\ a <> e) by (cbn in Hal, Har; set_solver).
  cbn in Hrep. destruct Hrep as (Ha & (Hb & Hll & Hlr) & (He & Hrl & Hrr)).
  unfold insert_here. rewrite (proj2 (Z.eqb_neq a NULL)) by done. rewrite !(get_link_at _ _ _ _ Ha). cbn [mbind outcome_bind link link0 link1 ptr].
  unfold rb_node_is_red, node_at. rewrite (proj2 (Z.eqb_neq b NULL)), (proj2 (Z.eqb_neq e NULL)), Hb, He by done. cbn [mbind outcome_bind red andb].
  erewrite (set_red_at m a) by lk. cbn [mbind outcome_bind]. erewrite set_red_at by (destruct Hab; lk). cbn [mbind outcome_bind].
  erewrite set_red_at by (destruct Hab; lk). cbn [mbind outcome_bind link0 link1 value].
  eexists. split; [reflexivity|]. split.
  - apply (holds_inplace m _ _ (N a c (N b true ll vl lr) v (N e true rl vr rr))); [done| | |done|done].
    + destruct Hab. cbn in Hal, Har, Hd. cbn [rep paint ptr]. split_and!; try lk; do 3 (apply rep_insert; [set_solver|]); done.
    + apply (frame_trans _ (<[a := mk_node true b e v]> m)); [apply frame_insert; cbn; set_solver|].
      eapply frame_trans; apply frame_insert; cbn; set_solver.
  - intros x Hx. assert (Hx' : x ∉ HEAD :: a :: b :: e :: []).
    { intros Hin. apply Hx. rewrite elem_of_cons in Hin |- *. destruct Hin as [->|Hin]; [by left|right].
      rewrite <- HA. cbn. set_solver. }
    rewrite !lookup_insert_ne by set_solver. by apply Hf.
Qed.

(** the new node at the null link *)
Lemma here_null m C : Inv m C L -> C <> [] ->
  exists m', insert_here m node (top C) NULL (topdir C) = Done (m', node) /\ holds m' C newt /\ frame m0 m' (HEAD :: A0).
Proof.
  intros (Hh & _ & _ & _ & HA & Hf) HC. pose proof (node_kept m Hf) as Hnd. pose proof Hh as (_ & _ & Hok).
  cbn [addrs] in HA, Hok. rewrite app_nil_r in HA, Hok. assert (Hnc : node ∉ caddrs C) by (by rewrite HA).
  assert (Hok' : okaddrs (caddrs C ++ addrs newt)).
  { unfold newt. cbn [addrs app]. destruct Hok as (H1 & H2 & H3).
    split_and!; [apply NoDup_app; split_and!; [done|set_solver|repeat constructor; set_solver]| |]; set_solver. }
  destruct (holds_set m m [] C L newt Hh) as (m' & E & Hh' & Hf'); [done|set_solver|done|done|].
  unfold insert_here. rewrite Z.eqb_refl. cbn [newt ptr] in E. rewrite E. exists m'. split; [done|]. split; [done|].
  apply (frame_trans _ _ _ _ Hf). apply (frame_weaken _ _ _ _ Hf'). rewrite <- HA. set_solver.
Qed.

Lemma fix_none m t g p q last (rq rp : bool) : rb_node_is_red m q = Done rq -> rb_node_is_red m p = Done rp ->
  rq && rp = false -> insert_fix m t g p q last = Done m.
Proof. intros H1 H2 H. unfold insert_fix. rewrite H1, H2. cbn [mbind outcome_bind]. by rewrite H. Qed.

(** the colour of the parent *)
Definition pp (C : ctx) : Z := match C with [] => NULL | f :: _ => fa f end.

Lemma red_top m C t : holds m C t -> rb_node_is_red m (pp C) = Done (topred C).
Proof.
  intros (Hc & _ & Hok). destruct C as [|f C]; [done|]. cbn [repC pp topred] in *. destruct Hc as (Ha & _).
  unfold rb_node_is_red, node_at. rewrite (proj2 (Z.eqb_neq (fa f) NULL)).
  - rewrite Ha. cbn [mbind outcome_bind]. by autorewrite with mk.
  - destruct Hok as (_ & H0 & _). cbn [caddrs] in H0. unfold NULL. set_solver.
Qed.
Lemma red_hole m C t : holds m C t -> rb_node_is_red m (ptr t) = Done (is_red t).
Proof. intros (_ & Hr & Hok). apply okaddrs_app in Hok as (_ & (_ & H0 & _) & _). by apply red_ptr. Qed.

(** the two rotations below the great-grandparent *)
Section Fix.
Context (m : nodes) (fp fg : fr) (C : ctx) (q : tree) (Hq : is_red q = true) (Hp : fc fp = true)
  (Hh : holds m (fp :: fg :: C) q).

Lemma fix_start last : insert_fix m (top C) (fa fg) (fa fp) (ptr q) last =
  (pl ← get_link m (fa fp) last;
   '(m, r) ← (if ptr q =? pl then rb_node_rotate m (fa fg) (negb last) else rb_node_rotate2 m (fa fg) (negb last));
   set_link m (top C) (topdir C) r).
Proof.
  pose proof (red_hole _ _ _ Hh) as H1. pose proof (red_top _ _ _ Hh) as H2. cbn [pp topred] in H2.
  unfold insert_fix. rewrite H1, H2, Hq, Hp. cbn [mbind outcome_bind andb].
  apply holds_down, holds_down in Hh. destruct (holds_top _ _ _ Hh) as (c & y & v & Ht & Hy & _).
  rewrite (get_link_at _ _ _ _ Ht). cbn [mbind outcome_bind].
  assert ((link (mk (topdir C) c (ptr (fill fg (fill fp q))) y v) true =? fa fg) = topdir C) as ->; [|done].
  unfold fill at 1. rewrite ptr_nd. destruct (topdir C); cbn.
  - apply Z.eqb_refl.
  - apply Z.eqb_neq. intros E. apply (Hy (fa fg)); [done|]. unfold fill at 1. rewrite addrs_nd. set_solver.
Qed.

Lemma fix_single : fd fp = fd fg ->
  let t' := nd (fd fg) (fa fp) false q (fv fp) (nd (negb (fd fg)) (fa fg) true (fs fg) (fv fg) (fs fp)) in
  exists m', insert_fix m (top C) (fa fg) (fa fp) (ptr q) (fd fg) = Done m' /\ holds m' C t' /\
    frame m m' (HEAD :: caddrs (fp :: fg :: C) ++ addrs q).
Proof.
  intros Hd t'. rewrite fix_start. pose proof Hh as ((Ha & _) & _). rewrite (get_link_at _ _ _ _ Ha). cbn [mbind outcome_bind].
  rewrite <- Hd, link_mk, Z.eqb_refl. pose proof Hh as HG. apply holds_down, holds_down in HG. unfold fill in HG. rewrite Hd in HG |- *.
  set (d := fd fg) in *. rewrite <- (nd_negb d (fa fg)), <- (nd_negb d (fa fp)) in HG.
  pose proof HG as (_ & Hrep & Hok). apply okaddrs_app in Hok as (_ & Hok & _).
  destruct (rotate_spec m (negb d) _ _ _ _ _ _ _ _ _ Hrep Hok) as (m1 & -> & Hr1 & Hf1). cbn [mbind outcome_bind].
  destruct (holds_replace m m1 C _ t' HG) as (m2 & E2 & Hh2 & Hf2).
  - unfold t'. by rewrite <- (nd_negb d (fa fp)).
  - exact Hf1.
  - unfold t'. rewrite !addrs_nd. solve_Permutation.
  - unfold t' in E2. rewrite ptr_nd in E2. rewrite E2. exists m2. split; [done|]. split; [done|].
    apply (frame_weaken _ _ _ _ Hf2). intros x Hx. rewrite !addrs_nd in Hx. cbn [caddrs]. set_solver.
Qed.

Lemma fix_double e x v y : fd fp = negb (fd fg) -> q = nd (fd fp) e true x v y ->
  let t' := nd (fd fp) e false (nd (fd fp) (fa fg) true (fs fg) (fv fg) x) v (nd (fd fp) (fa fp) true y (fv fp) (fs fp)) in
  exists m', insert_fix m (top C) (fa fg) (fa fp) (ptr q) (fd fg) = Done m' /\ holds m' C t' /\
    frame m m' (HEAD :: caddrs (fp :: fg :: C) ++ addrs q).
Proof.
  intros Hd Eq t'. rewrite fix_start. pose proof Hh as ((Ha & _) & _ & Hok0). rewrite (get_link_at _ _ _ _ Ha). cbn [mbind outcome_bind].
  assert (Edg : fd fg = negb (fd fp)) by (by rewrite Hd, negb_involutive). rewrite Edg, link_mk_other.
  rewrite (proj2 (Z.eqb_neq (ptr q) (ptr (fs fp)))).
  2:{ intros E. apply okaddrs_app in Hok0 as ((_ & H0 & _) & (_ & H0' & _) & Hdj & _). subst q. rewrite ptr_nd in E.
      apply (Hdj e); [|rewrite addrs_nd; set_solver]. cbn [caddrs]. rewrite addrs_nd in H0'. destruct (fs fp); cbn in *; subst; set_solver. }
  rewrite negb_involutive.
  pose proof Hh as HG. apply holds_down, holds_down in HG. unfold fill in HG. rewrite Edg in HG. rewrite Eq in HG.
  set (d := fd fp) in *. rewrite (nd_negb d (fa fg)) in HG.
  pose proof HG as (_ & Hrep & Hok). apply okaddrs_app in Hok as (_ & Hok & _).
  destruct (rotate2_spec m d _ _ _ _ _ _ _ _ _ _ _ _ _ Hrep Hok) as (m1 & -> & Hr1 & Hf1). cbn [mbind outcome_bind].
  destruct (holds_replace m m1 C _ t' HG) as (m2 & E2 & Hh2 & Hf2).
  - exact Hr1.
  - exact Hf1.
  - unfold t'. rewrite !addrs_nd. solve_Permutation.
  - unfold t' in E2. rewrite ptr_nd in E2. rewrite E2. exists m2. split; [done|]. split; [done|].
    apply (frame_weaken _ _ _ _ Hf2). intros k Hk. rewrite !addrs_nd in Hk. rewrite Eq. cbn [caddrs]. rewrite addrs_nd. set_solver.
Qed.
End Fix.

(** *** The invariant along the loop *)

Lemma Res_found m C q z : Inv m C q -> z ∈ l0 -> cmp z key = 0 -> Res m.
Proof.
  intros (Hh & Hg & _ & Hl & HA & Hf) Hz Hc. exists (plug C q). split_and?.
  - by apply (holds_plug m C q).
  - by apply (good_plug C q).
  - apply (frame_weaken _ _ _ _ Hf). set_solver.
  - right. exists z. split_and!; [done|done|done|by rewrite addrs_plug|by apply node_kept].
Qed.

Lemma Inv_value m C d a c x v y : Inv m C (nd d a c x v y) -> v ∈ l0 /\ m !! a = Some (mk d c (ptr x) (ptr y) v).
Proof.
  intros ((_ & Hr & _) & _ & _ & Hl & _). split; [|by apply rep_nd in Hr as [? _]].
  rewrite <- Hl, inorder_plug, inorder_nd. destruct d; set_solver.
Qed.

Lemma Inv_down m C d a c x v y : Inv m C (nd d a c x v y) -> d = (cmp v key <? 0) -> cmp v key <> 0 ->
  Inv m ({| fa := a; fd := d; fc := c; fv := v; fs := y |} :: C) x.
Proof.
  intros (Hh & Hg & Hr & Hl & HA & Hf) Hd Hne. pose proof Hmono as Hm. rewrite <- Hl in Hm. unfold Inv. split_and?.
  - by apply holds_down.
  - by apply good_down.
  - by apply (routed_down cmp key C d a c x v y).
  - exact Hl.
  - rewrite <- HA. cbn [caddrs fa fs]. rewrite addrs_nd. solve_Permutation.
  - done.
Qed.

Lemma routed_sign f C : routed cmp key (f :: C) -> (cmp (fv f) key <? 0) = fd f /\ cmp (fv f) key <> 0 /\ routed cmp key C.
Proof.
  unfold routed, neg, pos. cbn [ctxl ctxr]. intros (Hl & Hr). apply Forall_app in Hl as [Hl1 Hl]. apply Forall_app in Hr as [Hr Hr2].
  destruct (fd f).
  - apply Forall_app in Hl as [_ Hl]. inversion Hl; subst. split; [by apply Z.ltb_lt|]. split; [lia|done].
  - inversion Hr; subst. split; [apply Z.ltb_ge; lia|]. split; [lia|done].
Qed.

(** the colours around a red node below a red node *)
Lemma violation_colours fp fg C q n : rb q n -> rbC (fp :: fg :: C) n -> fc fp = true ->
  fc fg = false /\ is_red (fs fp) = false /\ rb (fs fp) n /\ rb (fs fg) n /\ rbC C (S n).
Proof. intros Hq HC Hp. cbn [rbC topred] in HC. rewrite Hp in HC. destruct HC as (Hg & H1 & H2 & HC). rewrite Hg in HC. tauto. Qed.

(** the tree below the great-grandparent after the repair *)
Definition single (fp fg : fr) (q : tree) : tree :=
  nd (fd fg) (fa fp) false q (fv fp) (nd (negb (fd fg)) (fa fg) true (fs fg) (fv fg) (fs fp)).
Definition double (fp fg : fr) (e : Z) (x : tree) (v : Z) (y : tree) : tree :=
  nd (fd fp) e false (nd (fd fp) (fa fg) true (fs fg) (fv fg) x) v (nd (fd fp) (fa fp) true y (fv fp) (fs fp)).

Lemma fix_good m fp fg C d e x v y n : let q := nd d e true x v y in
  holds m (fp :: fg :: C) q -> rb q n -> rbC (fp :: fg :: C) n -> fc fp = true -> is_red (fs fg) = false -> d = fd fp ->
  let G := if Bool.eqb (fd fp) (fd fg) then single fp fg q else double fp fg e x v y in
  exists m', insert_fix m (top C) (fa fg) (fa fp) e (fd fg) = Done m' /\ holds m' C G /\ good C G /\
    inorder G = inorder (fill fg (fill fp q)) /\ addrs G ≡ₚ addrs (fill fg (fill fp q)) /\
    frame m m' (HEAD :: caddrs (fp :: fg :: C) ++ addrs q).
Proof.
  intros q Hh Hrb HrC Hp Hu -> G. destruct (violation_colours fp fg C q n Hrb HrC Hp) as (Hg & Hs & Hrs & Hru & HC).
  assert (Hq : is_red q = true) by apply is_red_nd. assert (Hqe : ptr q = e) by apply ptr_nd.
  pose proof Hrb as Hrb'. unfold q in Hrb'. apply rb_nd_red in Hrb' as (Hx & Hy & Hrx & Hry).
  destruct (Bool.eqb (fd fp) (fd fg)) eqn:Ed.
  - apply eqb_prop in Ed. destruct (fix_single m fp fg C q Hq Hp Hh Ed) as (m' & E & Hh' & Hf'). rewrite Hqe in E.
    exists m'. split_and?; [exact E|exact Hh'| | | |exact Hf'].
    + exists (S n). split; [|split; [done|intros _; apply is_red_nd]]. apply rb_nd_black. exists n. split; [done|]. split; [done|].
      apply rb_nd_red. by split_and?.
    + unfold G, single, fill. rewrite !inorder_nd, Ed. destruct (fd fg); cbn; rewrite <- ?app_assoc; cbn; rewrite <- ?app_assoc; done.
    + unfold G, single, fill. rewrite !addrs_nd. solve_Permutation.
  - assert (Hd : fd fp = negb (fd fg)) by (by destruct (fd fp), (fd fg)).
    destruct (fix_double m fp fg C q Hq Hp Hh e x v y Hd eq_refl) as (m' & E & Hh' & Hf'). rewrite Hqe in E.
    exists m'. split_and?; [exact E|exact Hh'| | | |exact Hf'].
    + exists (S n). split; [|split; [done|intros _; apply is_red_nd]]. apply rb_nd_black. exists n. split; [done|].
      split; apply rb_nd_red; by split_and?.
    + unfold G, double, fill, q. rewrite !inorder_nd, Hd. destruct (fd fg); cbn; rewrite <- ?app_assoc; cbn; rewrite <- ?app_assoc; done.
    + unfold G, double, fill, q. rewrite !addrs_nd. solve_Permutation.
Qed.

(** *** The loop ends with the result *)

Definition ends (fuel : nat) (m : nodes) (q : tree) (t g p : Z) (dir last : bool) : Prop :=
  exists m', insert_loop cmp fuel m node t g p (ptr q) dir last = Done m' /\ Res m'.

(** [t], [g] and [p] are the nodes above the position *)
Definition regs (C : ctx) (t g p : Z) (dir last : bool) : Prop :=
  p = pp C /\ g = pp (tail C) /\ t = top (drop 2 C) /\ (C <> [] -> dir = topdir C) /\ (tail C <> [] -> last = topdir (tail C)).

Definition clean (m : nodes) (C : ctx) (q : tree) : Prop :=
  Inv m C q /\ (C = [] -> q <> L /\ is_red q = false) /\
  (topred C = true -> quiet q \/ exists fp fg C', C = fp :: fg :: C' /\ is_red (fs fg) = false) /\
  (is_red q = true -> match C with f :: _ => is_red (fs f) = false | [] => True end).

Definition clean_ends (n : nat) : Prop := forall m C q fuel t g p dir last, clean m C q -> regs C t g p dir last ->
  (tsz q <= n)%nat -> (2 * tsz q + 1 <= fuel)%nat -> ends fuel m q t g p dir last.

Lemma Inv_node m C q : Inv m C q -> get_value m node = Done key.
Proof. intros (_ & _ & _ & _ & _ & Hf). by rewrite (get_value_at _ _ _ (node_kept m Hf)). Qed.

Lemma Inv_pp m C q : Inv m C q -> C <> [] -> (pp C =? NULL) = false /\ pp C = top C.
Proof.
  intros ((_ & _ & (_ & H0 & _)) & _) HC. destruct C as [|f C]; [done|]. split; [|done]. apply Z.eqb_neq. cbn in *.
  unfold NULL. set_solver.
Qed.

(** when the current node stays as it is: stop at the key or go down *)
Lemma turn fuel m m1 m2 C p q t g a c l v r dir last :
  insert_here m node p q dir = Done (m1, a) -> insert_fix m1 t g p a last = Done m2 -> Inv m2 C (N a c l v r) ->
  (forall d x y, N a c l v r = nd d a c x v y -> d = (cmp v key <? 0) -> cmp v key <> 0 ->
     Inv m2 ({| fa := a; fd := d; fc := c; fv := v; fs := y |} :: C) x -> (x = l \/ x = r) -> (y = l \/ y = r) -> (tsz x <= tsz l + tsz r)%nat ->
     ends fuel m2 x (if g =? NULL then t else g) p a d dir) ->
  exists m', insert_loop cmp (S fuel) m node t g p q dir last = Done m' /\ Res m'.
Proof.
  intros H1 H2 HI Hgo. set (d := cmp v key <? 0). destruct (node_nd d a c l v r) as (x & y & E & Hx). rewrite E in HI, Hgo.
  destruct (Inv_value _ _ _ _ _ _ _ _ HI) as (Hv & Ha).
  rewrite (loop_next fuel m m1 m2 t g p q a dir last d c (ptr x) (ptr y) v H1 H2 Ha (Inv_node _ _ _ HI)).
  destruct (Z.eqb_spec (cmp v key) 0) as [Ez|Ez].
  - exists m2. split; [done|]. by apply (Res_found _ _ _ _ HI Hv).
  - fold d. rewrite eqb_reflx.
    assert (Hxy : (x = l \/ x = r) /\ (y = l \/ y = r)) by (clear -E; clearbody d; destruct d; injection E as -> ->; tauto).
    destruct Hxy as [Hx' Hy']. apply (Hgo d x y); try done; [by apply Inv_down|]. destruct Hx' as [->| ->]; lia.
Qed.

(** after a rotation: the node is black with black children *)
Lemma quiet_ends n m C q fuel t dir last : clean_ends n -> Inv m C q -> quiet q -> tail C <> [] -> dir = topdir C ->
  (tsz q <= S n)%nat -> (2 * tsz q + 1 <= fuel)%nat -> ends fuel m q t (pp (tail C)) (pp C) dir last.
Proof.
  intros IH HI (a & l & v & r & -> & Hl & Hr) HC Hdir Hn Hf. destruct fuel as [|fuel]; [lia|]. cbn [tsz] in *.
  assert (HC' : C <> []) by (by destruct C). pose proof HI as (Hh & _).
  apply (turn fuel m m m C _ _ _ _ a false l v r).
  - apply (here_stays m _ (N a false l v r) dir C Hh); [done|]. intros ? ? ? ? ? [= <- <- <- <- <-]. by rewrite Hl.
  - by apply (fix_none _ _ _ _ _ _ false _ (red_hole _ _ _ Hh) (red_top _ _ _ Hh)).
  - exact HI.
  - intros d x y E Hd Hne HI' Hx Hy Hs. eapply (IH m (_ :: C) x); [| |lia|lia].
    + split; [exact HI'|]. split; [done|]. split; [done|]. intros _. cbn [fs]. by destruct Hy as [->| ->].
    + unfold regs. cbn [pp tail topdir fd drop]. split_and?; try done.
      destruct C as [|f1 C1]; [done|]. cbn [tail] in *. destruct C1 as [|f2 C1]; [done|]. cbn [pp drop top].
      destruct HI as ((_ & _ & (_ & H0 & _)) & _). cbn in H0. rewrite (proj2 (Z.eqb_neq (fa f2) NULL)); [done|]. unfold NULL. set_solver.
Qed.

(** after a double rotation: a red node, and below it, towards the key, a quiet one *)
Lemma red_quiet_ends n m C d a x v y fuel t g dir last : clean_ends n -> Inv m C (nd d a true x v y) -> quiet x ->
  is_red y = false -> topred C = false -> C <> [] -> d = (cmp v key <? 0) ->
  (tsz x <= S n)%nat -> (2 * tsz x + 2 <= fuel)%nat -> ends fuel m (nd d a true x v y) t g (pp C) dir last.
Proof.
  intros IH HI Hx Hy Htop HC Hd Hn Hf. destruct fuel as [|fuel]; [lia|]. pose proof HI as (Hh & _).
  assert (Exy : exists l r, nd d a true x v y = N a true l v r /\ is_red l = false /\ is_red r = false /\ (if d then r = x else l = x)).
  { destruct Hx as (? & ? & ? & ? & -> & _). destruct d; by eexists _, _. }
  destruct Exy as (l & r & E & Hl & Hr & Hlr). rewrite E in *. unfold ends.
  apply (turn fuel m m m C _ _ _ _ a true l v r).
  - apply (here_stays m _ (N a true l v r) dir C Hh); [done|]. intros ? ? ? ? ? [= <- <- <- <- <-]. by rewrite Hl.
  - apply (fix_none _ _ _ _ _ _ true false); [exact (red_hole _ _ _ Hh)| |done]. rewrite (red_top _ _ _ Hh). by rewrite Htop.
  - exact HI.
  - intros d' x' y' E' Hd' Hne HI' _ _ Hs. rewrite <- Hd in Hd'. subst d'.
    assert (x' = x) as ->. { revert E' Hlr. clear. destruct d; intros [= -> ->]; done. }
    destruct (Inv_pp _ _ _ HI HC) as [Hpp Hpt].
    replace (pp C) with (pp (tail ({| fa := a; fd := d; fc := true; fv := v; fs := y' |} :: C))) by done.
    change a with (pp ({| fa := a; fd := d; fc := true; fv := v; fs := y' |} :: C)) at 2.
    apply (quiet_ends n); try done; lia.
Qed.

(** the new node hangs at its null link *)
Lemma null_ends m C fuel t g p dir last : clean m C L -> regs C t g p dir last -> ends (S fuel) m L t g p dir last.
Proof.
  intros (HI & HC & Hu & _) (-> & -> & -> & Hdir & Hlast). assert (HCn : C <> []) by (intros ->; by apply HC).
  specialize (Hdir HCn). subst dir. destruct (Inv_pp _ _ _ HI HCn) as [_ Hpt].
  destruct (here_null m C HI HCn) as (m1 & E1 & Hh1 & Hf1). pose proof HI as (_ & (n & Hrb & HrC & _) & (Hro1 & Hro2) & Hl & HA & _).
  cbn in Hrb. subst n. rewrite inorder_plug in Hl. cbn [inorder app addrs] in Hl, HA. rewrite app_nil_r in HA.
  assert (Hfin : forall m2 D G, insert_fix m1 (top (drop 2 C)) (pp (tail C)) (top C) node last = Done m2 -> holds m2 D G -> good D G ->
    inorder (plug D G) = ctxl C ++ key :: ctxr C -> caddrs D ++ addrs G ≡ₚ node :: A0 -> frame m1 m2 (HEAD :: caddrs C ++ addrs newt) ->
    get_value m2 node = Done key -> ends (S fuel) m L (top (drop 2 C)) (pp (tail C)) (pp C) (topdir C) last).
  { intros m2 D G E2 Hh2 Hg2 Hi Ha Hf2 Hv. exists m2. split.
    - cbn [insert_loop ptr]. rewrite Hpt, E1. cbn [mbind outcome_bind]. rewrite E2. cbn [mbind outcome_bind].
      rewrite Hv. cbn [mbind outcome_bind]. by rewrite Hrefl.
    - exists (plug D G). split_and?; [by apply (holds_plug m2 D G)|by apply (good_plug D G)| |].
      + apply (frame_trans _ m1); [apply (frame_weaken _ _ _ _ Hf1); set_solver|]. apply (frame_weaken _ _ _ _ Hf2).
        unfold newt. cbn [addrs app]. rewrite <- HA. set_solver.
      + left. exists (ctxl C), (ctxr C). split_and?; try done. by rewrite addrs_plug. }
  assert (Hnt : forall d, newt = nd d node true L key L) by (by destruct d).
  assert (Hi : inorder (plug C newt) = ctxl C ++ key :: ctxr C) by (by rewrite inorder_plug).
  destruct (topred C) eqn:Htop.
  - destruct (Hu eq_refl) as [(? & ? & ? & ? & [=] & _)|(fp & fg & C' & -> & Hs)]. cbn [topred] in Htop.
    destruct (fix_good m1 fp fg C' (fd fp) node L key L 0) as (m2 & E2 & Hh2 & Hg2 & Hi2 & Ha2 & Hf2); rewrite <- ?Hnt in *; try done.
    specialize (Hlast ltac:(done)). cbn [tail topdir] in Hlast. subst last. eapply (Hfin m2 C'); [exact E2|exact Hh2|exact Hg2| | |exact Hf2|].
    + rewrite inorder_plug, Hi2, <- inorder_plug. exact Hi.
    + rewrite Ha2, !addrs_fill, <- HA. cbn [caddrs newt addrs app]. solve_Permutation.
    + destruct Hh2 as (_ & Hr2 & _). destruct (Bool.eqb (fd fp) (fd fg)); unfold single, double in Hr2; apply rep_nd in Hr2 as (Ha & Hr2 & _).
      * unfold newt in Hr2. cbn in Hr2. by rewrite (get_value_at _ _ _ (proj1 Hr2)).
      * rewrite (get_value_at _ _ _ Ha). by autorewrite with mk.
  - apply (Hfin m1 C newt).
    + by apply (fix_none _ _ _ _ _ _ true false); [exact (red_hole _ _ _ Hh1)|rewrite <- Hpt, (red_top _ _ _ Hh1), Htop|].
    + exact Hh1.
    + exists O. split_and?; try done. by rewrite Htop.
    + exact Hi.
    + rewrite HA || idtac. unfold newt. cbn [addrs app]. rewrite <- HA. solve_Permutation.
    + apply frame_refl.
    + destruct Hh1 as (_ & (Ha & _) & _). by rewrite (get_value_at _ _ _ Ha).
Qed.

Lemma regs_down m C q f t g p dir last : Inv m C q -> regs C t g p dir last ->
  regs (f :: C) (if g =? NULL then t else g) p (fa f) (fd f) dir.
Proof.
  intros ((_ & _ & (_ & H0 & _)) & _) (-> & -> & -> & Hdir & _). split_and?; try done. cbn [drop].
  destruct C as [|f1 [|f2 C]]; [done|done|]. cbn [tail pp top drop]. cbn in H0.
  rewrite (proj2 (Z.eqb_neq (fa f2) NULL)); [done|]. unfold NULL. set_solver.
Qed.

Lemma nd_inj d d' a c x v y x' y' : nd d a c x v y = nd d' a c x' v y' ->
  if Bool.eqb d d' then x' = x /\ y' = y else x' = y /\ y' = x.
Proof. destruct d, d'; cbn; intros [= -> ->]; done. Qed.
Lemma nd_node d a c x v y : nd d a c x v y = N a c (if d then y else x) v (if d then x else y).
Proof. by destruct d. Qed.

Lemma paint_black t n : is_red t = true -> rb t n -> rb (paint false t) (S n) /\ quiet (paint false t).
Proof.
  destruct t as [|a c l v r]; [done|]. cbn. intros -> (Hl & Hr & Hrl & Hrr). split; [done|]. by exists a, l, v, r.
Qed.

(** a node with two red children whose parent is black *)
Lemma stays_ends k m C a c l v r fuel t g p dir last : clean_ends k -> clean m C (N a c l v r) -> regs C t g p dir last ->
  is_red l && is_red r = false -> (tsz (N a c l v r) <= S k)%nat -> (2 * tsz (N a c l v r) + 1 <= S fuel)%nat ->
  ends (S fuel) m (N a c l v r) t g p dir last.
Proof.
  intros IH (HI & HC & Hu & Hs) Hreg Hlr Hn Hf. cbn [tsz] in *. pose proof HI as (Hh & (n & _ & _ & Hg) & _).
  apply (turn fuel m m m C _ _ _ _ a c l v r).
  - apply (here_stays m _ (N a c l v r) dir C Hh); [done|]. by intros ? ? ? ? ? [= <- <- <- <- <-].
  - apply (fix_none _ _ _ _ _ _ c (topred C)); [exact (red_hole _ _ _ Hh)| |].
    + rewrite (proj1 Hreg). exact (red_top _ _ _ Hh).
    + cbn in Hg. destruct (topred C); [by rewrite (Hg eq_refl)|by rewrite andb_false_r].
  - exact HI.
  - intros d x y E Hd Hne HI' Hx Hy Hsz. eapply (IH m (_ :: C) x);
      [split; [exact HI'|split; [done|split]]|exact (regs_down m C _ _ t g p dir last HI Hreg)|lia|lia].
    + cbn [topred fc]. intros ->. right. destruct C as [|f1 C1]; [by destruct HC|]. specialize (Hs eq_refl).
      eexists _, f1, C1. done.
    + cbn [fs]. intros Hxr. clear -E Hlr Hxr. destruct d; injection E as -> ->; rewrite Hxr in Hlr; [by rewrite andb_true_r in Hlr|done].
Qed.

Lemma ctx_single (fp fg : fr) (C : ctx) : fd fp = fd fg ->
  let f := {| fa := fa fp; fd := fd fg; fc := false; fv := fv fp;
              fs := nd (negb (fd fg)) (fa fg) true (fs fg) (fv fg) (fs fp) |} in
  ctxl (f :: C) = ctxl (fp :: fg :: C) /\ ctxr (f :: C) = ctxr (fp :: fg :: C).
Proof.
  intros Hd f. cbn [ctxl ctxr f fa fd fv fs]. rewrite Hd. split;
    destruct (fd fg); cbn; rewrite ?app_nil_r, <- ?app_assoc; cbn; rewrite <- ?app_assoc; done.
Qed.

(** a turn that repaired: what follows are the turns with stale helpers *)
Lemma rotated_ends k m m1 m2 fp fg C a c l v r fuel dir x y : clean_ends k ->
  insert_here m node (fa fp) a dir = Done (m1, a) ->
  insert_fix m1 (top C) (fa fg) (fa fp) a (fd fg) = Done m2 ->
  Inv m2 C (if Bool.eqb (fd fp) (fd fg) then single fp fg (nd (fd fp) a true x v y) else double fp fg a x v y) ->
  routed cmp key (fp :: fg :: C) -> quiet x -> quiet y -> is_red (fs fg) = false -> is_red (fs fp) = false ->
  (tsz x <= k)%nat -> (tsz y <= k)%nat -> (2 * tsz x + 2 <= fuel)%nat -> (2 * tsz y + 2 <= fuel)%nat ->
  ends (S fuel) m (N a c l v r) (top C) (fa fg) (fa fp) dir (fd fg).
Proof.
  intros IH E1 E2 HI2 Hro Hqx Hqy Hug Hup Hsx Hsy Hfx Hfy.
  destruct (routed_sign fp _ Hro) as (Hsp & _ & Hro'). destruct (routed_sign fg _ Hro') as (Hsg & _ & _).
  destruct (Bool.eqb (fd fp) (fd fg)) eqn:Ed.
  - set (f := {| fa := fa fp; fd := fd fg; fc := false; fv := fv fp;
                 fs := nd (negb (fd fg)) (fa fg) true (fs fg) (fv fg) (fs fp) |}).
    assert (HI3 : Inv m2 (f :: C) (nd (fd fp) a true x v y)).
    { destruct HI2 as (H1 & H2 & H3 & H4 & H5 & H6). unfold Inv. split_and?; [by apply (holds_down m2 C f)|by apply (good_down C f)| |done| |done].
      - destruct (ctx_single fp fg C (eqb_prop _ _ Ed)) as (Hcl & Hcr). fold f in Hcl, Hcr. unfold routed. by rewrite Hcl, Hcr.
      - rewrite <- H5. change (single fp fg (nd (fd fp) a true x v y)) with (fill f (nd (fd fp) a true x v y)).
        rewrite addrs_fill. cbn [caddrs]. solve_Permutation. }
    rewrite nd_node in HI3. apply (turn fuel m m1 m2 (f :: C) _ _ _ _ a true _ v _ _ _ E1 E2 HI3).
    intros d x' y' E Hd Hne HI' Hx _ _. rewrite <- nd_node in E. pose proof (nd_inj _ _ _ _ _ _ _ _ _ E) as Hinj.
    assert (Hx' : x' = x \/ x' = y) by (destruct (Bool.eqb (fd fp) d); tauto).
    change (fa fp) with (pp (tail ({| fa := a; fd := d; fc := true; fv := v; fs := y' |} :: f :: C))).
    change a with (pp ({| fa := a; fd := d; fc := true; fv := v; fs := y' |} :: f :: C)) at 2.
    apply (quiet_ends k); try done; destruct Hx' as [->| ->]; (done || lia).
  - assert (Hdd : fd fg = negb (fd fp)) by (by destruct (fd fp), (fd fg)). unfold double in HI2. rewrite nd_node in HI2.
    apply (turn fuel m m1 m2 C _ _ _ _ a false _ v _ _ _ E1 E2 HI2).
    intros d x' y' E Hd Hne HI' _ _ _. rewrite <- nd_node in E. pose proof (nd_inj _ _ _ _ _ _ _ _ _ E) as Hinj.
    change a with (pp ({| fa := a; fd := d; fc := false; fv := v; fs := y' |} :: C)) at 1.
    destruct (Bool.eqb (fd fp) d).
    + destruct Hinj as [-> _]. rewrite <- (nd_negb (fd fp) (fa fg)) in HI' |- *.
      apply (red_quiet_ends k); try done; [by rewrite Hsg|lia].
    + destruct Hinj as [-> _]. apply (red_quiet_ends k); try done; lia.
Qed.

Lemma flip_ends k m C a c l v r fuel t g p dir last : clean_ends k -> clean m C (N a c l v r) -> regs C t g p dir last ->
  is_red l = true -> is_red r = true -> (tsz (N a c l v r) <= S k)%nat -> (2 * tsz (N a c l v r) + 1 <= S fuel)%nat ->
  ends (S fuel) m (N a c l v r) t g p dir last.
Proof.
  intros IH (HI & HC & Hu & Hs) Hreg Hl Hr Hn Hf. cbn [tsz] in *.
  destruct (here_flip m C p dir a c l v r HI Hl Hr) as (m1 & E1 & Hh1 & Hf1).
  destruct HI as (Hh & (n & Hrb & HrC & _) & Hro & Hi & HA & _).
  destruct c; [cbn in Hrb; by rewrite Hl in Hrb; destruct Hrb|]. destruct n as [|n]; [done|]. cbn in Hrb. destruct Hrb as (Hrl & Hrr).
  destruct (paint_black l n Hl Hrl) as [Hrl' Hql]. destruct (paint_black r n Hr Hrr) as [Hrr' Hqr].
  assert (Hpl : is_red (paint false l) = false) by (by destruct l). assert (Hpr : is_red (paint false r) = false) by (by destruct r).
  set (q1 := N a true (paint false l) v (paint false r)) in *.
  assert (Hrb1 : rb q1 (S n)) by (cbn; tauto).
  assert (Hi1 : inorder (plug C q1) = l0) by (rewrite <- Hi, !inorder_plug; cbn; by rewrite !inorder_paint).
  assert (HA1 : caddrs C ++ addrs q1 ≡ₚ A0) by (rewrite <- HA; cbn; by rewrite !addrs_paint).
  destruct (topred C) eqn:Htop.
  - destruct (Hu eq_refl) as [(? & ? & ? & ? & [= <- <- <- <-] & Hc & _)|(fp & fg & C' & -> & Hs')]; [by rewrite Hl in Hc|].
    destruct Hreg as (-> & -> & -> & _ & Hlast). specialize (Hlast ltac:(done)). cbn [topred] in Htop. cbn [tail pp drop topdir] in *. subst last.
    set (d := fd fp). set (x := if d then paint false r else paint false l). set (y := if d then paint false l else paint false r).
    assert (Eq : q1 = nd d a true x v y) by (unfold x, y; by destruct d).
    assert (Hxy : quiet x /\ quiet y /\ (tsz x <= tsz l + tsz r)%nat /\ (tsz y <= tsz l + tsz r)%nat).
    { unfold x, y. destruct d; rewrite !tsz_paint; split_and?; (done || lia). }
    destruct Hxy as (Hqx & Hqy & Hsx & Hsy). rewrite Eq in Hh1, Hrb1, HA1.
    destruct (fix_good m1 fp fg C' d a x v y (S n) Hh1 Hrb1 HrC Htop Hs' eq_refl) as (m2 & E2 & Hh2 & Hg2 & Hi2 & Ha2 & Hf2).
    assert (HI2 : Inv m2 C' (if Bool.eqb (fd fp) (fd fg) then single fp fg (nd d a true x v y) else double fp fg a x v y)).
    { split_and?; unfold Inv; split_and?; try done.
      - by apply routed_sign, proj2, proj2, routed_sign, proj2, proj2 in Hro.
      - rewrite inorder_plug, Hi2, <- inorder_plug, <- Eq. exact Hi1.
      - rewrite Ha2, !addrs_fill, <- HA1. cbn [caddrs]. solve_Permutation.
      - apply (frame_trans _ _ _ _ Hf1). apply (frame_weaken _ _ _ _ Hf2). intros z Hz. rewrite <- HA1. set_solver. }
    clear Hi2 Ha2 Hg2 Hh2. apply (rotated_ends k m m1 m2 fp fg C' a false l v r fuel dir x y IH E1 E2 HI2 Hro Hqx Hqy); try done; [|lia|lia|lia|lia].
    by destruct (violation_colours fp fg C' _ _ Hrb1 HrC Htop) as (_ & ? & _).
  - assert (HI1 : Inv m1 C q1).
    { unfold Inv. split_and?; try done. exists (S n). split; [done|]. split; [done|]. by rewrite Htop. }
    apply (turn fuel m m1 m1 C _ _ _ _ a true (paint false l) v (paint false r)); [exact E1| |exact HI1|].
    + apply (fix_none _ _ _ _ _ _ true false); [exact (red_hole _ _ _ Hh1)| |done].
      rewrite (proj1 Hreg), (red_top _ _ _ Hh1). by rewrite Htop.
    + intros d x y E Hd Hne HI' Hx Hy Hsz. rewrite !tsz_paint in Hsz.
      eapply (IH m1 (_ :: C) x);
        [split; [exact HI'|split; [done|split; [intros _; left; by destruct Hx as [->| ->]|]]]
        |exact (regs_down m1 C _ _ t g p dir last HI1 Hreg)|lia|lia].
      intros Hxr. exfalso. by destruct Hx as [-> | ->]; rewrite ?Hpl, ?Hpr in Hxr.
Qed.

Lemma insert_loop_ends n : clean_ends n.
Proof.
  induction n as [|n IH]; intros m C q fuel t g p dir last Hcl Hreg Hn Hf; (destruct fuel as [|fuel]; [lia|]);
    (destruct q as [|a c l v r]; [by apply null_ends with (C := C)|]); [cbn in Hn; lia|].
  destruct (is_red l && is_red r) eqn:Hlr.
  - apply andb_prop in Hlr as [Hl Hr]. by apply (flip_ends n m C a c l v r fuel).
  - by apply (stays_ends n m C a c l v r fuel).
Qed.

End Insert.
