(* ===== verification/RbtreeProofs.v ===== *)
(** * Red-black trees: finding and inserting

    [is_tree T t]: the tree structure [T] of the program is the red-black tree [t],
    and its memory holds the nodes of [t] and nothing else. *)
From S2P Require Import Prelude Rbtree RbtreeTree RbtreeInsert.

Definition is_tree (T : rb_tree) (t : tree) : Prop :=
  root T = ptr t /\ rep (mem T) t /\ okaddrs (addrs t) /\ (exists n, rb t n) /\ is_red t = false /\
  dom (mem T) = list_to_set (C := gset Z) (addrs t) /\ tsize T = Z.of_nat (tsz t).

Lemma is_tree_init : is_tree rb_tree_init L.
Proof. unfold is_tree, okaddrs. cbn. split_and?; try done; [apply NoDup_nil_2|set_solver|set_solver|by exists O]. Qed.

Lemma is_tree_fresh T t p : is_tree T t -> mem T !! p = None <-> p ∉ addrs t.
Proof. intros (_ & _ & _ & _ & _ & Hd & _). rewrite <- not_elem_of_dom, Hd. by rewrite elem_of_list_to_set. Qed.

(** ** Finding *)
Section Find.
Context (cmp : Z -> Z -> Z) (key : Z).

Lemma mono_app l1 l2 : mono cmp key (l1 ++ l2) -> mono cmp key l1 /\ mono cmp key l2.
Proof.
  unfold mono. intros H. split.
  - induction l1 as [|a l1 IH]; [constructor|]. cbn in H. apply StronglySorted_inv in H as [H Ha]. constructor; [by apply IH|].
    by apply Forall_app in Ha as [Ha _].
  - induction l1 as [|a l1 IH]; [done|]. apply IH. by apply StronglySorted_inv in H as [H _].
Qed.

Lemma find_loop_spec m t : rep m t -> 0 ∉ addrs t -> mono cmp key (inorder t) -> forall fuel, (tsz t < fuel)%nat ->
  exists r, find_loop cmp fuel m (ptr t) key = Done r /\
    ((r ∈ inorder t /\ cmp r key = 0) \/ (r = NULL /\ Forall (fun z => cmp z key <> 0) (inorder t))).
Proof.
  induction t as [|a c l IHl v r IHr]; intros Hr H0 Hm fuel Hf; (destruct fuel as [|fuel]; [lia|]); cbn [find_loop ptr].
  { exists NULL. split; [done|]. right. split; [done|]. constructor. }
  cbn [rep addrs inorder tsz] in *. destruct Hr as (Ha & Hl & Hr).
  rewrite (proj2 (Z.eqb_neq a NULL)) by (unfold NULL; set_solver). rewrite (get_value_at _ _ _ Ha). cbn [mbind outcome_bind value].
  destruct (Z.eqb_spec (cmp v key) 0) as [Ez|Ez]; [exists v; split; [done|]; left; split; [set_solver|done]|].
  rewrite (get_link_at _ _ _ _ Ha).
  pose proof (mono_split cmp key _ _ _ Hm) as (Hneg & Hpos & _). apply mono_app in Hm as [Hml Hmr].
  apply (mono_app [v]) in Hmr as [_ Hmr]. destruct (Z.ltb_spec (cmp v key) 0) as [Hlt|Hge];
    cbn [mbind outcome_bind link link0 link1].
  - destruct (IHr Hr ltac:(set_solver) Hmr fuel ltac:(lia)) as (x & -> & [[Hin Hx]|[-> Hall]]).
    + exists x. split; [done|]. left. split; [set_solver|done].
    + exists NULL. split; [done|]. right. split; [done|]. apply Forall_app. split; [|by constructor].
      apply (Forall_impl _ _ _ (Hneg Hlt)). unfold neg. lia.
  - destruct (IHl Hl ltac:(set_solver) Hml fuel ltac:(lia)) as (x & -> & [[Hin Hx]|[-> Hall]]).
    + exists x. split; [done|]. left. split; [set_solver|done].
    + exists NULL. split; [done|]. right. split; [done|]. apply Forall_app. split; [done|]. constructor; [done|].
      apply (Forall_impl _ _ _ (Hpos ltac:(lia))). unfold pos. lia.
Qed.

(** [rb_tree_find] gives a value the callback calls equal, or [NULL] when there is none *)
Lemma rb_find_spec T t : is_tree T t -> mono cmp key (inorder t) ->
  exists r, rb_tree_find cmp T key = Done r /\
    ((r ∈ inorder t /\ cmp r key = 0) \/ (r = NULL /\ Forall (fun z => cmp z key <> 0) (inorder t))).
Proof.
  intros (Hroot & Hr & (Hn & H0 & _) & _) Hm. unfold rb_tree_find. rewrite Hroot. apply find_loop_spec; try done.
  pose proof (rep_size _ _ Hr Hn). lia.
Qed.
End Find.

(** ** Inserting *)

Lemma paint_red m t c : rep m t -> NoDup (addrs t) -> t <> L ->
  exists m', set_red m (ptr t) c = Done m' /\ rep m' (paint c t) /\ dom m' = dom m.
Proof.
  destruct t as [|a c' l v r]; [done|]. cbn. intros (Ha & Hl & Hr) Hn _. apply NoDup_cons in Hn as [Hn _].
  rewrite (set_red_at _ _ _ _ Ha). eexists. split; [reflexivity|]. split; [|apply dom_insert_lookup_L; eauto].
  split; [by rewrite lookup_insert_eq|]. split; apply rep_insert; (done || set_solver).
Qed.
Lemma rb_paint t n : rb t n -> exists k, rb (paint false t) k.
Proof.
  destruct t as [|a [] l v r]; cbn; [by exists O| |by exists n]. intros (_ & _ & Hl & Hr). by exists (S n).
Qed.

(** the memory with the false root, and without it again *)
Lemma holds_start m t : rep m t -> okaddrs (addrs t) -> holds (<[HEAD := mk_node false NULL (ptr t) NULL]> m) [] t.
Proof.
  intros Hr Hok. split; [|split; [|done]]; cbn [repC]; [by rewrite lookup_insert_eq|].
  apply rep_insert; [|done]. by destruct Hok as (_ & _ & ?).
Qed.
Lemma holds_end m t : holds m [] t -> get_link m HEAD true = Done (ptr t) /\ rep (delete HEAD m) t /\ okaddrs (addrs t).
Proof.
  intros (Hh & Hr & Hok). cbn in Hh, Hok. split; [by rewrite (get_link_at _ _ _ _ Hh)|]. split; [|done].
  apply (rep_frame m _ [HEAD]); [|destruct Hok; set_solver|done]. intros x Hx. rewrite lookup_delete_ne by set_solver. done.
Qed.

(** the nodes of the memory at the end, from the frame *)
Lemma dom_end (m0 m' : nodes) (l k : list Z) :
  frame m0 m' (HEAD :: l) -> dom m0 = {[HEAD]} ∪ list_to_set (C := gset Z) l -> (forall x, x ∈ l -> x ∈ k <-> is_Some (m' !! x)) ->
  k ⊆ l -> HEAD ∉ l -> dom (delete HEAD m') = list_to_set (C := gset Z) k.
Proof.
  intros Hf Hd Hl Hk Hh. apply set_eq. intros x. rewrite dom_delete_L, elem_of_difference, elem_of_list_to_set, elem_of_dom, elem_of_singleton.
  split.
  - intros [Hx Hxh]. destruct (decide (x ∈ l)) as [Hin|Hin]; [by apply Hl|]. exfalso.
    rewrite Hf in Hx by set_solver. apply elem_of_dom in Hx. rewrite Hd in Hx. set_solver.
  - intros Hx. assert (x ∈ l) by set_solver. split; [by apply Hl|]. set_solver.
Qed.

Section Insert.
Context (cmp : Z -> Z -> Z) (node key : Z) (T : rb_tree) (t : tree).

Definition neg_all (l : list Z) : Prop := Forall (neg cmp key) l.
Definition pos_all (l : list Z) : Prop := Forall (pos cmp key) l.

(** the loop, from the false root to the false root *)
Lemma insert_run : is_tree T t -> t <> L -> cmp key key = 0 -> mono cmp key (inorder t) ->
  mem T !! node = None -> node <> 0 -> node <> HEAD ->
  let m0 := <[HEAD := mk_node false NULL (ptr t) NULL]> (<[node := rb_node_init key]> (mem T)) in
  exists m', insert_loop cmp (insert_fuel (<[node := rb_node_init key]> (mem T))) m0 node HEAD NULL NULL (ptr t) false false = Done m' /\
    Res cmp node key m0 (inorder t) (addrs t) m'.
Proof.
  intros HT Hne Hrefl Hm Hfr Hn0 HnH m0. pose proof HT as (Hroot & Hr & Hok & (n & Hrb) & Hred & Hdom & _).
  assert (Hfr' : node ∉ addrs t) by (by apply (is_tree_fresh T t)).
  set (m1 := <[node := rb_node_init key]> (mem T)) in *.
  assert (Hr1 : rep m1 t) by (by apply rep_insert).
  apply (insert_loop_ends cmp node key Hrefl m0 (inorder t) (addrs t)) with (n := tsz t) (C := []); try done.
  - unfold m0. rewrite lookup_insert_ne by done. apply lookup_insert_eq.
  - split; [|done]. unfold Inv. split_and?; try done; [by apply holds_start|by exists n].
  - unfold insert_fuel. pose proof (rep_size m1 t Hr1 (proj1 Hok)). lia.
Qed.

(** what the insertion leaves: the key between the smaller and the larger values; or,
    when a value compares equal, the old values, with the count raised all the same
    and the new node left unlinked *)
Definition inserted (T' : rb_tree) : Prop :=
  exists t' l1 l2, is_tree T' t' /\ inorder t = l1 ++ l2 /\ neg_all l1 /\ pos_all l2 /\ inorder t' = l1 ++ key :: l2 /\
    addrs t' ≡ₚ node :: addrs t.
Definition insert_refused (T' : rb_tree) : Prop :=
  exists t', root T' = ptr t' /\ rep (mem T') t' /\ inorder t' = inorder t /\
    dom (mem T') = list_to_set (C := gset Z) (node :: addrs t') /\ node ∉ addrs t' /\ tsize T' = u32 (Z.of_nat (tsz t') + 1).

Lemma rb_insert_spec : is_tree T t -> tsize T < 2 ^ 32 - 1 -> cmp key key = 0 -> mono cmp key (inorder t) ->
  mem T !! node = None -> node <> 0 -> node <> HEAD ->
  exists T', rb_tree_insert cmp T node key = Done (1, T') /\
    (inserted T' \/ ((exists z, z ∈ inorder t /\ cmp z key = 0) /\ insert_refused T')).
Proof.
  intros HT Hsz Hrefl Hm Hfr Hn0 HnH. pose proof HT as (Hroot & Hr & Hok & _ & _ & Hdom & Hsize).
  unfold rb_tree_insert, rb_tree_insert_node. rewrite !(proj2 (Z.eqb_neq node NULL)) by done. cbn [root mem tsize]. rewrite Hroot.
  assert (Hfr' : node ∉ addrs t) by (by apply (is_tree_fresh T t)).
  set (m1 := <[node := rb_node_init key]> (mem T)).
  assert (Hd1 : dom m1 = {[node]} ∪ list_to_set (C := gset Z) (addrs t)) by (unfold m1; by rewrite dom_insert_L, Hdom).
  destruct (decide (t = L)) as [->|Hne].
  - cbn [ptr]. rewrite Z.eqb_refl. cbn [mbind outcome_bind].
    destruct (paint_red m1 (newt node key) false) as (m2 & E2 & Hr2 & Hd2);
      [split; [apply lookup_insert_eq|done]|repeat constructor; set_solver|done|]. cbn [newt ptr paint] in E2, Hr2. rewrite E2.
    cbn [mbind outcome_bind]. eexists. split; [reflexivity|]. left. exists (N node false L key L), [], [].
    split; [|rewrite e; split_and?; (done || constructor)]. unfold is_tree, okaddrs. cbn [root mem tsize ptr addrs is_red tsz inorder app].
    split_and?; try done; [repeat constructor; set_solver|set_solver|set_solver|by exists 1%nat| |].
    + rewrite Hd2, Hd1. cbn. set_solver.
    + rewrite Hsize. done.
  - assert (Hp : (ptr t =? NULL) = false).
    { apply Z.eqb_neq. destruct t as [|a c l v r]; [done|]. destruct Hok as (_ & H0 & _). cbn in *. unfold NULL. set_solver. }
    rewrite Hp. destruct (insert_run HT Hne Hrefl Hm Hfr Hn0 HnH) as (m2 & E2 & (t2 & Hh2 & (n & Hrb2 & _) & Hf2 & Hres)).
    unfold m1. rewrite E2. cbn [mbind outcome_bind]. destruct (holds_end _ _ Hh2) as (E3 & Hr3 & Hok2). rewrite E3. cbn [mbind outcome_bind].
    assert (Hne2 : t2 <> L).
    { intros ->. destruct Hres as [(l1 & l2 & _ & _ & _ & Hi & _)|(z & Hz & _ & Hi & _)]; cbn in Hi; [by destruct l1|by rewrite <- Hi in Hz; apply not_elem_of_nil in Hz]. }
    destruct (paint_red _ _ false Hr3 (proj1 Hok2) Hne2) as (m4 & E4 & Hr4 & Hd4). rewrite E4. cbn [mbind outcome_bind].
    assert (Hdom2 : forall k, k ⊆ node :: addrs t -> (forall x, x ∈ node :: addrs t -> x ∈ k <-> is_Some (m2 !! x)) ->
      dom m4 = list_to_set (C := gset Z) k).
    { intros k Hk Hx. rewrite Hd4. apply (dom_end _ _ (node :: addrs t) k Hf2).
      - rewrite dom_insert_L. fold m1. rewrite Hd1. cbn. set_solver.
      - exact Hx.
      - exact Hk.
      - destruct Hok as (_ & _ & ?). set_solver. }
    pose proof Hh2 as (_ & Hr2 & _).
    eexists. split; [reflexivity|]. destruct Hres as [(l1 & l2 & Hl & Hl1 & Hl2 & Hi & Ha)|(z & Hz & Hc & Hi & Ha & Hnode)].
    + left. exists (paint false t2), l1, l2. split; [|by rewrite inorder_paint, addrs_paint].
      unfold is_tree. cbn [root mem tsize]. rewrite addrs_paint, tsz_paint. split_and?.
      * by destruct t2.
      * done.
      * done.
      * by apply (rb_paint t2 n).
      * by destruct t2.
      * apply Hdom2; [by rewrite Ha|]. intros x Hx. split; [intros Hx'; by apply (rep_mapped _ _ Hr2)|by rewrite Ha].
      * rewrite Hsize, <- (length_inorder t2), Hi, <- (length_inorder t), Hl, !length_app. cbn [length]. unfold u32, wrap.
        rewrite Hsize, <- (length_inorder t), Hl, length_app in Hsz. rewrite Z.mod_small; lia.
    + right. split; [by exists z|]. exists (paint false t2). cbn [root mem tsize]. rewrite addrs_paint, inorder_paint, tsz_paint. split_and?.
      * by destruct t2.
      * done.
      * done.
      * apply Hdom2; [by rewrite Ha|]. intros x Hx. split; [|intros _; by rewrite Ha]. intros _. apply elem_of_cons in Hx as [->|Hx].
        -- by rewrite Hnode.
        -- apply (rep_mapped _ _ Hr2). by rewrite Ha.
      * by rewrite Ha.
      * by rewrite Hsize, <- !length_inorder, Hi.
Qed.
End Insert.
