(* ===== verification/RbtreeRemove.v ===== *)
(** * Removal from a red-black tree

    The loop of [rb_tree_remove_with_cb] goes down towards the value, and on to its
    predecessor, and makes every node it stands on red or the parent of a red node,
    so that the last node can be unlinked without changing a black height. *)
From S2P Require Import Prelude Rbtree RbtreeTree RbtreeInsert RbtreeProofs.

(** ** Addresses and values in order *)

Fixpoint pairs (t : tree) : list (Z * Z) := match t with L => [] | N a _ l v r => pairs l ++ (a, v) :: pairs r end.
Fixpoint pl (C : ctx) : list (Z * Z) :=
  match C with [] => [] | f :: C => pl C ++ (if fd f then pairs (fs f) ++ [(fa f, fv f)] else []) end.
Fixpoint pr (C : ctx) : list (Z * Z) :=
  match C with [] => [] | f :: C => (if fd f then [] else (fa f, fv f) :: pairs (fs f)) ++ pr C end.

Lemma pairs_nd d a c x v y : pairs (nd d a c x v y) = if d then pairs y ++ (a, v) :: pairs x else pairs x ++ (a, v) :: pairs y.
Proof. by destruct d. Qed.
Lemma pairs_paint c t : pairs (paint c t) = pairs t.
Proof. by destruct t. Qed.
Lemma pairs_plug C t : pairs (plug C t) = pl C ++ pairs t ++ pr C.
Proof.
  revert t. induction C as [|f C IH]; intros t; cbn [plug pl pr]; [by rewrite app_nil_r|].
  rewrite IH. unfold fill. rewrite pairs_nd. destruct (fd f); rewrite ?app_nil_r, <- ?app_assoc; cbn; rewrite <- ?app_assoc; done.
Qed.
Lemma inorder_pairs t : inorder t = (pairs t).*2.
Proof. induction t as [|a c l IHl v r IHr]; cbn; [done|]. by rewrite fmap_app, IHl, IHr. Qed.
Lemma pairs_addr t a v : (a, v) ∈ pairs t -> a ∈ addrs t.
Proof. induction t as [|b c l IHl w r IHr]; cbn; [set_solver|]. rewrite elem_of_app, elem_of_cons. set_solver. Qed.

Ltac lists := repeat (progress (cbn; rewrite <- ?app_assoc, ?app_nil_r)); try done.

(** ** Recolouring at a position *)

Lemma set_red_pos m C t c : holds m C t -> t <> L ->
  exists m', set_red m (ptr t) c = Done m' /\ holds m' C (paint c t) /\ frame m m' (addrs t).
Proof.
  intros H Hne. pose proof H as (_ & Hr & Hok). destruct (okaddrs_app _ _ Hok) as (_ & Hokt & _).
  destruct t as [|a c' l v r]; [done|]. cbn [rep ptr] in *. destruct Hr as (Ha & Hl & Hr).
  rewrite (set_red_at _ _ _ _ Ha). eexists. split; [reflexivity|].
  assert (Hf : frame m (<[a := mk_node c (ptr l) (ptr r) v]> m) (addrs (N a c' l v r))) by (apply frame_insert; cbn; set_solver).
  split; [|exact Hf]. apply (holds_inplace m _ _ (N a c' l v r)); [done| |exact Hf|done|done].
  destruct Hokt as (Hn & _). cbn in Hn. apply NoDup_cons in Hn as [Hn _]. cbn [rep paint].
  split; [by rewrite lookup_insert_eq|]. split; apply rep_insert; (done || set_solver).
Qed.

(** the same below a node: the memory of the child [x] is recoloured *)
Lemma set_red_below m C d a c x v y c' : holds m C (nd d a c x v y) -> x <> L ->
  exists m', set_red m (ptr x) c' = Done m' /\ holds m' C (nd d a c (paint c' x) v y) /\ frame m m' (addrs (nd d a c x v y)).
Proof.
  intros H Hne. set (f := {| fa := a; fd := d; fc := c; fv := v; fs := y |}).
  assert (Hd : holds m (f :: C) x) by (by apply holds_down).
  destruct (set_red_pos m (f :: C) x c' Hd Hne) as (m' & E & Hh & Hf). exists m'. split; [done|].
  split; [by apply (holds_down m' C f)|]. apply (frame_weaken _ _ _ _ Hf). rewrite addrs_nd. set_solver.
Qed.

Lemma paint_nd c d a c' x v y : paint c (nd d a c' x v y) = nd d a c x v y.
Proof. by destruct d. Qed.
Lemma paint_ptr c t : ptr (paint c t) = ptr t.
Proof. by destruct t. Qed.

(** both children of a node become black *)
Lemma blacken_children (A : Type) (k : nodes -> outcome A) m C d e c x v y : holds m C (nd d e c x v y) -> x <> L -> y <> L ->
  exists m', (t0 ← get_link m e false; m ← set_red m t0 false; t1 ← get_link m e true; m ← set_red m t1 false; k m) = k m' /\
    holds m' C (nd d e c (paint false x) v (paint false y)) /\ frame m m' (addrs (nd d e c x v y)).
Proof.
  intros H Hx Hy. assert (Hp : forall u u', addrs (nd d e c (paint false u) v u') ≡ₚ addrs (nd d e c u v u') /\
      addrs (nd d e c u v (paint false u')) ≡ₚ addrs (nd d e c u v u')) by (intros u u'; rewrite !addrs_nd, !addrs_paint; done).
  assert (Hl : forall m' x' y', holds m' C (nd d e c x' v y') -> m' !! e = Some (mk d c (ptr x') (ptr y') v)).
  { intros m' x' y' (_ & Hr & _). by apply rep_nd in Hr as [? _]. }
  destruct d.
  - assert (H' : holds m C (nd false e c y v x)) by done.
    destruct (set_red_below _ _ _ _ _ _ _ _ false H' Hy) as (m1 & E1 & H1 & F1). change (holds m1 C (nd true e c x v (paint false y))) in H1.
    destruct (set_red_below _ _ _ _ _ _ _ _ false H1 Hx) as (m2 & E2 & H2 & F2).
    exists m2. split; [|split; [exact H2|]].
    + rewrite (get_link_at _ _ _ _ (Hl _ _ _ H)). cbn [mbind outcome_bind mk link link0 link1]. rewrite E1. cbn [mbind outcome_bind].
      rewrite (get_link_at _ _ _ _ (Hl _ _ _ H1)). cbn [mbind outcome_bind mk link link0 link1]. by rewrite E2.
    + apply (frame_trans _ m1); [exact F1|]. apply (frame_weaken _ _ _ _ F2). intros z. by rewrite (proj2 (Hp x y)).
  - destruct (set_red_below _ _ _ _ _ _ _ _ false H Hx) as (m1 & E1 & H1 & F1).
    assert (H' : holds m1 C (nd true e c y v (paint false x))) by done.
    destruct (set_red_below _ _ _ _ _ _ _ _ false H' Hy) as (m2 & E2 & H2 & F2).
    exists m2. split; [|split; [exact H2|]].
    + rewrite (get_link_at _ _ _ _ (Hl _ _ _ H)). cbn [mbind outcome_bind mk link link0 link1]. rewrite E1. cbn [mbind outcome_bind].
      rewrite (get_link_at _ _ _ _ (Hl _ _ _ H1)). cbn [mbind outcome_bind mk link link0 link1]. by rewrite E2.
    + apply (frame_trans _ m1); [exact F1|]. apply (frame_weaken _ _ _ _ F2). intros z.
      change (nd true e c y v (paint false x)) with (nd false e c (paint false x) v y). by rewrite (proj1 (Hp x y)).
Qed.

(** ** Pushing red down

    At a position the tree below is red, or the node above may be taken for red;
    the root may always be. *)

Definition redf (f : fr) : fr := {| fa := fa f; fd := fd f; fc := true; fv := fv f; fs := fs f |}.
Definition rinv (C : ctx) (h : tree) : Prop :=
  (is_red h = true /\ good C h) \/
  (is_red h = false /\ match C with [] => good [] h | f :: C1 => good (redf f :: C1) h /\ (fc f = true \/ C1 = []) end).

Lemma redf_red f : fc f = true -> redf f = f.
Proof. destruct f; cbn. by intros ->. Qed.
Lemma rinv_good C h : rinv C h -> good C h.
Proof.
  intros [[_ H]|[Hh H]]; [done|]. destruct C as [|f C]; [done|]. destruct H as [H [Hf| ->]]; [by rewrite (redf_red f) in H|].
  destruct H as (n & Hr & HC & _). exists n. split; [done|]. split; [|done]. cbn [rbC redf fc fs topred] in *. destruct (fc f); tauto.
Qed.

Definition above (C : ctx) : Z := match C with [] => NULL | _ :: C1 => top C1 end.

(** what a push does at the position [C] with the node [a] below it and [x] next *)
Definition pushed (m : nodes) (C : ctx) (d : bool) (a : Z) (c : bool) (x : tree) (v : Z) (y : tree) (r : outcome (nodes * Z)) : Prop :=
  exists m' C' c' y', r = Done (m', top C') /\
    let F := {| fa := a; fd := d; fc := c'; fv := v; fs := y' |} in
    let F0 := {| fa := a; fd := d; fc := c; fv := v; fs := y |} in
    holds m' (F :: C') x /\ rinv (F :: C') x /\ pl (F :: C') = pl (F0 :: C) /\ pr (F :: C') = pr (F0 :: C) /\
    caddrs (F :: C') ≡ₚ caddrs (F0 :: C) /\ frame m m' (HEAD :: caddrs (F0 :: C) ++ addrs x).

Section Push.
Context (m : nodes) (C : ctx) (d : bool) (a : Z) (c : bool) (x : tree) (v : Z) (y : tree).
Context (Hh : holds m C (nd d a c x v y)).
#[local] Abbreviation F0 := {| fa := a; fd := d; fc := c; fv := v; fs := y |}.

Lemma at_node : m !! a = Some (mk d c (ptr x) (ptr y) v) /\ rb_node_is_red m a = Done c /\
  rb_node_is_red m (ptr x) = Done (is_red x) /\ rb_node_is_red m (ptr y) = Done (is_red y).
Proof.
  pose proof (red_hole _ _ _ Hh) as Hc. rewrite ptr_nd, is_red_nd in Hc. destruct Hh as (_ & Hr & Hok).
  destruct (okaddrs_app _ _ Hok) as (_ & Hok' & _). destruct (okaddrs_nd _ _ _ _ _ _ Hok') as ((_ & Hx0 & _) & (_ & Hy0 & _) & _).
  apply rep_nd in Hr as (Ha & Hx & Hy). split_and?; try done; by apply red_ptr.
Qed.

Lemma down : holds m (F0 :: C) x.
Proof. by apply holds_down. Qed.

(** the node or the next one is red: nothing to do *)
Lemma push_none g p last : rinv C (nd d a c x v y) -> c || is_red x = true -> p = top C -> pushed m C d a c x v y (remove_push m g p a last d).
Proof.
  intros Hri Hcx ->. destruct at_node as (Ha & Hca & Hcx' & _). exists m, C, c, y. split.
  - unfold remove_push. rewrite Hca. cbn [mbind outcome_bind]. rewrite (get_link_at _ _ _ d Ha), link_mk. cbn [mbind outcome_bind].
    rewrite Hcx'. cbn [mbind outcome_bind]. destruct c, (is_red x); done.
  - intros F F0. split; [exact down|]. split; [|done].
    pose proof (rinv_good _ _ Hri) as Hg. change (good C (fill F x)) in Hg. apply good_down in Hg.
    destruct (is_red x) eqn:Hx; [by left|]. right. split; [done|]. rewrite orb_false_r in Hcx. rewrite redf_red by done. by split; [|left].
Qed.

(** the other child is red: rotate it up *)
Lemma push_child g p last : rinv C (nd d a c x v y) -> c = false -> is_red x = false -> is_red y = true ->
  p = top C -> last = topdir C -> pushed m C d a c x v y (remove_push m g p a last d).
Proof.
  intros Hri Hc Hx Hy -> ->. destruct at_node as (Ha & Hca & Hcx & Hcy). pose proof (rinv_good _ _ Hri) as (n & Hrb & HrC & _).
  rewrite Hc in Hrb. apply rb_nd_black in Hrb as (k & -> & Hrx & Hry).
  assert (exists e z w u, y = nd d e true z w u) as (e & z & w & u & ->).
  { destruct y as [|e ? l w r]; [done|]. cbn in Hy. subst. destruct d; by eexists _, _, _, _. }
  apply rb_nd_red in Hry as (Hz & Hu & Hrz & Hru). pose proof Hh as (_ & Hr & Hok). destruct (okaddrs_app _ _ Hok) as (_ & Hok' & _).
  destruct (rotate_spec m d _ _ _ _ _ _ _ _ _ Hr Hok') as (m1 & E1 & Hr1 & Hf1).
  destruct (holds_replace m m1 C _ _ Hh Hr1 Hf1) as (m2 & E2 & Hh2 & Hf2); [rewrite !addrs_nd; solve_Permutation|]. rewrite ptr_nd in E2.
  set (E := {| fa := e; fd := d; fc := false; fv := w; fs := u |}).
  exists m2, (E :: C), true, z. split.
  - unfold remove_push. rewrite Hca. cbn [mbind outcome_bind]. rewrite !(get_link_at _ _ _ _ Ha), link_mk, link_mk_other. cbn [mbind outcome_bind].
    rewrite Hcx, Hx, Hc. cbn [mbind outcome_bind negb andb]. rewrite Hcy, Hy. cbn [mbind outcome_bind]. rewrite E1. cbn [mbind outcome_bind].
    rewrite E2. done.
  - intros F F1. split_and?.
    + apply (holds_down m2 (E :: C) F x). by apply (holds_down m2 C E).
    + right. split; [done|]. split; [|by left]. rewrite redf_red by done. exists k. split; [done|]. split; [|by intros _].
      cbn [rbC F E fc fs topred]. by split_and?.
    + cbn [pl F E F1 fd fs fa fv]. destruct d; lists.
    + cbn [pr F E F1 fd fs fa fv]. destruct d; lists.
    + cbn [caddrs F E F1 fs fa]. rewrite addrs_nd. solve_Permutation.
    + apply (frame_weaken _ _ _ _ Hf2). rewrite addrs_nd. cbn [caddrs F1 fa fs]. set_solver.
Qed.

(** the root has no sibling *)
Lemma push_root g p last : rinv C (nd d a c x v y) -> c = false -> is_red x = false -> is_red y = false ->
  C = [] -> p = HEAD -> last = true -> pushed m C d a c x v y (remove_push m g p a last d).
Proof.
  destruct at_node as (Ha & Hca & Hcx & Hcy). pose proof down as Hdn.
  intros Hri Hc Hx Hy -> -> ->. pose proof (rinv_good _ _ Hri) as (n & Hrb & _).
  pose proof Hh as (Hhead & _). cbn in Hhead. exists m, [], c, y. split.
  - unfold remove_push. rewrite Hca. cbn [mbind outcome_bind]. rewrite !(get_link_at _ _ _ _ Ha), link_mk, link_mk_other. cbn [mbind outcome_bind].
    rewrite Hcx, Hx, Hc. cbn [mbind outcome_bind negb andb]. rewrite Hcy, Hy. cbn [mbind outcome_bind].
    rewrite (get_link_at _ _ _ _ Hhead). done.
  - intros F F1. split; [exact Hdn|]. split; [|done]. right. split; [done|]. split; [|by right].
    rewrite Hc in Hrb. apply rb_nd_black in Hrb as (k & -> & Hrx & Hry). exists k. split; [done|]. split; [|done]. cbn. by split_and?.
Qed.
End Push.

(** with a sibling: its colours decide *)
Section Sibling.
Context (m : nodes) (f : fr) (C : ctx) (d : bool) (a : Z) (x : tree) (v : Z) (y : tree).
Context (b : Z) (near : tree) (sv : Z) (far : tree) (k : nat).
Context (Hh : holds m (f :: C) (nd d a false x v y)) (Hs : fs f = nd (fd f) b false near sv far).
Context (Hx : is_red x = false) (Hy : is_red y = false) (Hrx : rb x k) (Hry : rb y k) (Hrn : rb near k) (Hrf : rb far k)
  (HC : rbC C (S k)) (Ht : topred C = false).
#[local] Abbreviation h := (nd d a false x v y).
#[local] Abbreviation F0 := {| fa := a; fd := d; fc := false; fv := v; fs := y |}.

Lemma holds_parent : holds m C (nd (fd f) (fa f) (fc f) h (fv f) (nd (fd f) b false near sv far)).
Proof. rewrite <- Hs. by apply (holds_down m C f). Qed.

Lemma push_sibling g : remove_push m g (fa f) a (fd f) d =
  if negb (is_red far) && negb (is_red near) then
    m ← set_red m (fa f) false; m ← set_red m b true; m ← set_red m a true; Done (m, fa f)
  else if g =? NULL then Done (m, fa f)
  else
    g1 ← get_link m g true;
    m ← (if is_red near then '(m, r) ← rb_node_rotate2 m (fa f) (fd f); set_link m g (g1 =? fa f) r
         else if is_red far then '(m, r) ← rb_node_rotate m (fa f) (fd f); set_link m g (g1 =? fa f) r
         else Done m);
    t ← get_link m g (g1 =? fa f);
    m ← set_red m t true; m ← set_red m a true;
    t0 ← get_link m t false; m ← set_red m t0 false;
    t1 ← get_link m t true; m ← set_red m t1 false;
    Done (m, fa f).
Proof.
  destruct (at_node _ _ _ _ _ _ _ _ Hh) as (Ha & Hca & Hcx & Hcy). destruct holds_parent as (_ & Hr & Hok).
  destruct (okaddrs_app _ _ Hok) as (_ & Hok' & _). destruct (okaddrs_nd _ _ _ _ _ _ Hok') as (_ & Hoks & _).
  destruct (okaddrs_nd _ _ _ _ _ _ Hoks) as ((_ & Hn0 & _) & (_ & Hf0 & _) & _ & _ & _ & Hb0 & _).
  apply rep_nd in Hr as (Hp & _ & Hr). rewrite !ptr_nd in Hp. apply rep_nd in Hr as (Hb & Hn & Hf).
  unfold remove_push. rewrite Hca. cbn [mbind outcome_bind]. rewrite !(get_link_at _ _ _ _ Ha), link_mk, link_mk_other. cbn [mbind outcome_bind].
  rewrite Hcx, Hx. cbn [mbind outcome_bind negb andb]. rewrite Hcy, Hy. cbn [mbind outcome_bind].
  rewrite (get_link_at _ _ _ (negb (fd f)) Hp), link_mk_other. cbn [mbind outcome_bind]. rewrite (proj2 (Z.eqb_neq b NULL)) by done.
  rewrite !(get_link_at _ _ _ _ Hb), link_mk, link_mk_other. cbn [mbind outcome_bind].
  rewrite (red_ptr _ _ Hf), (red_ptr _ _ Hn) by done. reflexivity.
Qed.

Lemma push_flip g : is_red near = false -> is_red far = false -> pushed m (f :: C) d a false x v y (remove_push m g (fa f) a (fd f) d).
Proof.
  intros Hn Hf. rewrite push_sibling, Hn, Hf. cbn [negb andb]. pose proof holds_parent as Hp.
  destruct (set_red_pos _ _ _ false Hp) as (m1 & E1 & H1 & F1); [by destruct (fd f)|]. rewrite ptr_nd in E1. rewrite E1. cbn [mbind outcome_bind].
  rewrite paint_nd, <- (nd_negb (fd f) (fa f)) in H1.
  destruct (set_red_below _ _ _ _ _ _ _ _ true H1) as (m2 & E2 & H2 & F2); [by destruct (fd f)|]. rewrite ptr_nd in E2. rewrite E2. cbn [mbind outcome_bind].
  rewrite nd_negb in H2. destruct (set_red_below _ _ _ _ _ _ _ _ true H2) as (m3 & E3 & H3 & F3); [by destruct d|].
  rewrite ptr_nd in E3. rewrite E3. cbn [mbind outcome_bind]. rewrite !paint_nd in H3.
  set (P := {| fa := fa f; fd := fd f; fc := false; fv := fv f; fs := nd (fd f) b true near sv far |}).
  exists m3, (P :: C), true, y. split; [done|]. intros F F0'. split_and?.
  - apply (holds_down m3 (P :: C) F x). by apply (holds_down m3 C P).
  - right. split; [done|]. split; [|by left]. rewrite redf_red by done. exists k. split; [done|]. split; [|by intros _].
    cbn [rbC F P fc fs topred]. split_and?; try done. apply rb_nd_red. by split_and?.
  - cbn [pl F P F0' fd fs fa fv]. rewrite Hs, !pairs_nd. done.
  - cbn [pr F P F0' fd fs fa fv]. rewrite Hs, !pairs_nd. done.
  - cbn [caddrs F P F0' fs fa]. rewrite Hs, !addrs_nd. done.
  - assert (Hsub : forall l, l ≡ₚ addrs (nd (fd f) (fa f) (fc f) h (fv f) (nd (fd f) b false near sv far)) ->
      l ⊆ HEAD :: caddrs (F0' :: f :: C) ++ addrs x).
    { intros l E z. rewrite E, !addrs_nd. cbn [caddrs F0' fa fs]. rewrite Hs, addrs_nd. set_solver. }
    apply (frame_trans _ m1); [|apply (frame_trans _ m2)]; (eapply frame_weaken; [eassumption|]); apply Hsub;
      rewrite ?nd_negb, ?addrs_nd, ?addrs_paint, ?addrs_nd; solve_Permutation.
Qed.

(** the parent after a rotation, before the colours are set *)
Lemma push_recolor m1 e z w B : holds m1 C (nd (fd f) e false (nd (fd f) (fa f) true h (fv f) z) w B) -> B <> L ->
  exists m2, (t ← get_link m1 (top C) (topdir C); m ← set_red m1 t true; m ← set_red m a true;
     t0 ← get_link m t false; m ← set_red m t0 false; t1 ← get_link m t true; m ← set_red m t1 false; Done (m, fa f)) = Done (m2, fa f) /\
    holds m2 C (nd (fd f) e true (nd (fd f) (fa f) false (nd d a true x v y) (fv f) z) w (paint false B)) /\
    frame m1 m2 (addrs (nd (fd f) e false (nd (fd f) (fa f) true h (fv f) z) w B)).
Proof.
  intros H1 HB. destruct (holds_top _ _ _ H1) as (c & u & tv & Htop & _ & _). rewrite ptr_nd in Htop.
  rewrite (get_link_at _ _ _ _ Htop), link_mk. cbn [mbind outcome_bind].
  destruct (set_red_pos _ _ _ true H1) as (m2 & E2 & H2 & F2); [by destruct (fd f)|]. rewrite ptr_nd in E2. rewrite E2. cbn [mbind outcome_bind].
  rewrite paint_nd in H2. set (E := {| fa := e; fd := fd f; fc := true; fv := w; fs := B |}).
  apply (holds_down m2 C E) in H2. destruct (set_red_below _ _ _ _ _ _ _ _ true H2) as (m3 & E3 & H3 & F3); [by destruct d|].
  rewrite ptr_nd in E3. rewrite E3. cbn [mbind outcome_bind]. rewrite paint_nd in H3. apply (holds_down m3 C E) in H3.
  destruct (blacken_children _ (fun m => Done (m, fa f)) m3 C _ _ _ _ _ _ H3) as (m4 & E4 & H4 & F4); [by destruct (fd f)|done|].
  cbn [fa fd fc fv fs] in E4. exists m4. split; [exact E4|]. rewrite paint_nd in H4. split; [exact H4|].
  apply (frame_trans _ m2); [exact F2|]. apply (frame_trans _ m3).
  - apply (frame_weaken _ _ _ _ F3). intros t. rewrite !addrs_nd. set_solver.
  - apply (frame_weaken _ _ _ _ F4). intros t. unfold E. cbn [fa fd fc fv fs]. rewrite !addrs_nd. set_solver.
Qed.

Lemma grand_link : exists c u tv, m !! top C = Some (mk (topdir C) c (fa f) u tv) /\
  (link (mk (topdir C) c (fa f) u tv) true =? fa f) = topdir C /\ (top C =? NULL) = false.
Proof.
  pose proof holds_parent as Hp. destruct (holds_top _ _ _ Hp) as (c & u & tv & Htop & Hu & _). rewrite ptr_nd in Htop.
  exists c, u, tv. split; [done|]. split.
  - destruct (topdir C); cbn; [apply Z.eqb_refl|]. apply Z.eqb_neq. intros E. apply (Hu (fa f)); [done|]. rewrite addrs_nd. set_solver.
  - apply Z.eqb_neq. unfold NULL. destruct Hp as (_ & _ & (_ & H0 & _)). destruct C as [|f1 C1]; [done|]. cbn in *. set_solver.
Qed.

Lemma push_far : is_red near = false -> is_red far = true -> pushed m (f :: C) d a false x v y (remove_push m (top C) (fa f) a (fd f) d).
Proof.
  intros Hn Hf. rewrite push_sibling, Hn, Hf. cbn [negb andb]. destruct grand_link as (c & u & tv & Htop & Hdir & Hnull). rewrite Hnull.
  rewrite (get_link_at _ _ _ true Htop). cbn [mbind outcome_bind]. rewrite Hdir.
  pose proof holds_parent as Hp. pose proof Hp as (_ & Hr & Hok). destruct (okaddrs_app _ _ Hok) as (_ & Hok' & _).
  destruct (rotate_spec m (fd f) _ _ _ _ _ _ _ _ _ Hr Hok') as (m1 & E1 & Hr1 & Hf1). rewrite E1. cbn [mbind outcome_bind].
  destruct (holds_replace m m1 C _ _ Hp Hr1 Hf1) as (m2 & E2 & Hh2 & Hf2); [rewrite !addrs_nd; solve_Permutation|]. rewrite ptr_nd in E2. rewrite E2.
  cbn [mbind outcome_bind]. destruct (push_recolor m2 b near sv far Hh2) as (m3 & E3 & H3 & F3); [by destruct far|]. rewrite E3.
  set (E := {| fa := b; fd := fd f; fc := true; fv := sv; fs := paint false far |}).
  set (P := {| fa := fa f; fd := fd f; fc := false; fv := fv f; fs := near |}).
  exists m3, (P :: E :: C), true, y. split; [done|]. intros F F0'. split_and?.
  - apply (holds_down m3 (P :: E :: C) F x). apply (holds_down m3 (E :: C) P). by apply (holds_down m3 C E).
  - right. split; [done|]. split; [|by left]. rewrite redf_red by done. exists k. split; [done|]. split; [|by intros _].
    cbn [rbC F P E fc fs topred]. destruct (paint_black far k Hf Hrf) as [Hrf' _]. split_and?; try done; by destruct far.
  - cbn [pl F P E F0' fd fs fa fv]. rewrite Hs, !pairs_nd, !pairs_paint. destruct (fd f); lists.
  - cbn [pr F P E F0' fd fs fa fv]. rewrite Hs, !pairs_nd, !pairs_paint. destruct (fd f), d; lists.
  - cbn [caddrs F P E F0' fs fa]. rewrite Hs, !addrs_nd, !addrs_paint. solve_Permutation.
  - apply (frame_trans _ m2); [apply (frame_weaken _ _ _ _ Hf2)|apply (frame_weaken _ _ _ _ F3)]; intros t;
      rewrite !addrs_nd; cbn [caddrs F0' fa fs]; rewrite Hs, !addrs_nd; set_solver.
Qed.

Lemma push_near : is_red near = true -> pushed m (f :: C) d a false x v y (remove_push m (top C) (fa f) a (fd f) d).
Proof.
  intros Hn. rewrite push_sibling, Hn, andb_false_r. destruct grand_link as (c & u & tv & Htop & Hdir & Hnull). rewrite Hnull.
  rewrite (get_link_at _ _ _ true Htop). cbn [mbind outcome_bind]. rewrite Hdir.
  assert (exists e z w r, near = nd (fd f) e true z w r) as (e & z & w & r & En).
  { destruct near as [|e ? l w r]; [done|]. cbn in Hn. subst. destruct (fd f); by eexists _, _, _, _. }
  pose proof Hrn as Hrn'. rewrite En in Hrn'. apply rb_nd_red in Hrn' as (Hz & Hr' & Hrz & Hrr).
  pose proof holds_parent as Hp. rewrite En in Hp. pose proof Hp as (_ & Hr & Hok). destruct (okaddrs_app _ _ Hok) as (_ & Hok' & _).
  destruct (rotate2_spec m (fd f) _ _ _ _ _ _ _ _ _ _ _ _ _ Hr Hok') as (m1 & E1 & Hr1 & Hf1). rewrite E1. cbn [mbind outcome_bind].
  destruct (holds_replace m m1 C _ _ Hp Hr1 Hf1) as (m2 & E2 & Hh2 & Hf2); [rewrite !addrs_nd; solve_Permutation|]. rewrite ptr_nd in E2. rewrite E2.
  cbn [mbind outcome_bind]. destruct (push_recolor m2 e z w _ Hh2) as (m3 & E3 & H3 & F3); [by destruct (fd f)|]. rewrite E3.
  rewrite paint_nd in H3.
  set (E := {| fa := e; fd := fd f; fc := true; fv := w; fs := nd (fd f) b false r sv far |}).
  set (P := {| fa := fa f; fd := fd f; fc := false; fv := fv f; fs := z |}).
  exists m3, (P :: E :: C), true, y. split; [done|]. intros F F0'. split_and?.
  - apply (holds_down m3 (P :: E :: C) F x). apply (holds_down m3 (E :: C) P). by apply (holds_down m3 C E).
  - right. split; [done|]. split; [|by left]. rewrite redf_red by done. exists k. split; [done|]. split; [|by intros _].
    cbn [rbC F P E fc fs topred]. split_and?; try done; [apply is_red_nd|]. apply rb_nd_black. by exists k.
  - cbn [pl F P E F0' fd fs fa fv]. rewrite Hs, En, !pairs_nd. destruct (fd f); lists.
  - cbn [pr F P E F0' fd fs fa fv]. rewrite Hs, En, !pairs_nd. destruct (fd f), d; lists.
  - cbn [caddrs F P E F0' fs fa]. rewrite Hs, En, !addrs_nd. solve_Permutation.
  - apply (frame_trans _ m2); [apply (frame_weaken _ _ _ _ Hf2)|apply (frame_weaken _ _ _ _ F3)]; intros t;
      rewrite !addrs_nd; cbn [caddrs F0' fa fs]; rewrite Hs, En, !addrs_nd; set_solver.
Qed.
End Sibling.

Lemma rb_push_spec m C d a c x v y : holds m C (nd d a c x v y) -> rinv C (nd d a c x v y) ->
  pushed m C d a c x v y (remove_push m (above C) (top C) a (topdir C) d).
Proof.
  intros Hh Hri. destruct (c || is_red x) eqn:Hcx; [by apply push_none|]. apply orb_false_iff in Hcx as [-> Hx].
  destruct (is_red y) eqn:Hy; [by apply push_child|]. destruct C as [|f C]; [by apply push_root|].
  destruct Hri as [[Hr _]|(_ & (n & Hrb & HrC & _) & _)]; [by rewrite is_red_nd in Hr|].
  apply rb_nd_black in Hrb as (k & -> & Hrx & Hry). cbn [rbC redf fc fs topred] in HrC. destruct HrC as (Ht & Hsr & Hrs & HC).
  assert (exists b near sv far, fs f = nd (fd f) b false near sv far /\ rb near k /\ rb far k) as (b & near & sv & far & Hs & Hrn & Hrf).
  { destruct (fs f) as [|b cb l w r]; [done|]. cbn in Hsr. subst cb. cbn in Hrs. destruct (fd f); eexists _, _, _, _; (split; [reflexivity|tauto]). }
  cbn [above top topdir]. destruct (is_red near) eqn:Hn; [by eapply push_near|].
  destruct (is_red far) eqn:Hf; [by eapply push_far|]. by eapply push_flip.
Qed.

(** ** Unlinking the last node *)

Lemma set_value_pos m C d a c x v y w : holds m C (nd d a c x v y) ->
  exists m', set_value m a w = Done m' /\ holds m' C (nd d a c x w y) /\ frame m m' (addrs (nd d a c x v y)).
Proof.
  intros H. pose proof H as (_ & Hr & Hok). destruct (okaddrs_app _ _ Hok) as (_ & Hok' & _).
  destruct (okaddrs_nd _ _ _ _ _ _ Hok') as (_ & _ & Hax & Hay & _). apply rep_nd in Hr as (Ha & Hx & Hy).
  rewrite (set_value_at _ _ _ _ Ha), revalue_mk. eexists. split; [reflexivity|].
  assert (Hf : frame m (<[a := mk d c (ptr x) (ptr y) w]> m) (addrs (nd d a c x v y))) by (apply frame_insert; rewrite addrs_nd; set_solver).
  split; [|exact Hf]. apply (holds_inplace m _ _ _ _ H); [|exact Hf|by rewrite !addrs_nd|by rewrite !ptr_nd].
  apply rep_nd. split; [by rewrite lookup_insert_eq|]. split; by apply rep_insert.
Qed.

Lemma unlink_spec m F C : holds m (F :: C) L -> fs F = L ->
  exists m', (p1 ← get_link m (top C) true; q0 ← get_link m (fa F) false; x ← get_link m (fa F) (q0 =? NULL);
     m ← set_link m (top C) (p1 =? fa F) x; Done (delete (fa F) m)) = Done m' /\
    holds m' C L /\ m' !! fa F = None /\ frame m m' (HEAD :: fa F :: caddrs C).
Proof.
  intros H Hs. pose proof H as ((Ha & _ & Hc) & _ & Hok). rewrite Hs in Ha. cbn [ptr] in Ha.
  assert (H' : holds m C (fill F L)) by (by apply holds_down). destruct (holds_top _ _ _ H') as (c & u & tv & Htop & Hu & _).
  unfold fill in Htop. rewrite ptr_nd in Htop. rewrite (get_link_at _ _ _ _ Htop). cbn [mbind outcome_bind].
  assert ((link (mk (topdir C) c (fa F) u tv) true =? fa F) = topdir C) as ->.
  { destruct (topdir C); cbn; [apply Z.eqb_refl|]. apply Z.eqb_neq. intros E. apply (Hu (fa F)); [done|]. unfold fill. rewrite addrs_nd. set_solver. }
  rewrite (get_link_at _ _ _ false Ha). cbn [mbind outcome_bind].
  assert (link (mk (fd F) (fc F) NULL NULL (fv F)) false = NULL) as -> by (by destruct (fd F)). rewrite Z.eqb_refl.
  rewrite (get_link_at _ _ _ true Ha). cbn [mbind outcome_bind].
  assert (link (mk (fd F) (fc F) NULL NULL (fv F)) true = NULL) as -> by (by destruct (fd F)).
  cbn [caddrs addrs app] in Hok. rewrite Hs in Hok. cbn [addrs app] in Hok. destruct Hok as (Hn & H0 & HH).
  apply NoDup_cons in Hn as [HnF Hn]. rewrite app_nil_r in HnF, Hn, H0, HH. assert (Hok1 : okaddrs (caddrs C ++ addrs L)).
  { cbn [addrs]. rewrite app_nil_r. unfold okaddrs. set_solver. }
  destruct (holds_set m m [] C (fill F L) L H') as (m1 & E1 & H1 & F1); [done|set_solver|done|done|]. cbn [ptr] in E1. rewrite E1.
  cbn [mbind outcome_bind]. eexists. split; [reflexivity|].
  assert (Hfd : frame m1 (delete (fa F) m1) [fa F]) by (intros z Hz; by rewrite lookup_delete_ne by set_solver).
  split; [|split; [by rewrite lookup_delete_eq|]].
  - destruct H1 as (Hc1 & _ & Hok2). split_and!; [|done|done]. apply (repC_frame _ _ _ _ _ Hfd); [set_solver|set_solver|done].
  - apply (frame_trans _ m1); [apply (frame_weaken _ _ _ _ F1)|apply (frame_weaken _ _ _ _ Hfd)]; set_solver.
Qed.

(** the frame of the node that comes next behind the position *)
Lemma pr_head C f z rest : pr C = (f, z) :: rest -> exists C0 fr C2, C = C0 ++ fr :: C2 /\ Forall (fun g => fd g = true) C0 /\
  fd fr = false /\ fa fr = f /\ fv fr = z /\ rest = pairs (fs fr) ++ pr C2.
Proof.
  induction C as [|g C IH]; [done|]. cbn [pr]. destruct (fd g) eqn:Hd.
  - intros E. destruct (IH E) as (C0 & fr & C2 & -> & H & Hrest). exists (g :: C0), fr, C2. split; [done|]. split; [by constructor|done].
  - intros [= <- <- <-]. by exists [], g, C.
Qed.
Definition revalue (f : fr) (w : Z) : fr := {| fa := fa f; fd := fd f; fc := fc f; fv := w; fs := fs f |}.

Section Revalue.
Context (C0 : ctx) (fr : fr) (C2 : ctx) (w : Z) (Hfr : fd fr = false).
Lemma pr_revalue : Forall (fun g => fd g = true) C0 -> pr (C0 ++ revalue fr w :: C2) = (fa fr, w) :: pairs (fs fr) ++ pr C2.
Proof. induction 1 as [|g C Hg _ IH]; cbn [app pr]; [cbn; by rewrite Hfr|]. by rewrite Hg. Qed.
Lemma pl_revalue : pl (C0 ++ revalue fr w :: C2) = pl (C0 ++ fr :: C2).
Proof. induction C0 as [|g C IH]; cbn [app pl]; [cbn; by rewrite Hfr|]. by rewrite IH. Qed.
Lemma caddrs_revalue : caddrs (C0 ++ revalue fr w :: C2) = caddrs (C0 ++ fr :: C2).
Proof. induction C0 as [|g C IH]; cbn [app caddrs]; [done|]. by rewrite IH. Qed.
Lemma rbC_revalue n : rbC (C0 ++ revalue fr w :: C2) n <-> rbC (C0 ++ fr :: C2) n.
Proof.
  revert n. induction C0 as [|g C IH]; intros n; cbn [app rbC]; [done|].
  replace (topred (C ++ revalue fr w :: C2)) with (topred (C ++ fr :: C2)) by (by destruct C). destruct (fc g); by rewrite IH.
Qed.
End Revalue.

Lemma holds_app m C0 C2 t : holds m (C0 ++ C2) t <-> holds m C2 (plug C0 t).
Proof. revert t. induction C0 as [|g C IH]; intros t; [done|]. cbn [app plug]. by rewrite <- holds_down, IH. Qed.

(** a leaf position at the end of the loop: the node above has no child at all *)
Lemma rinv_leaf f C : rinv (f :: C) L -> fs f = L /\ rbC C O.
Proof.
  intros [[? _]|(_ & (n & Hrb & HrC & _) & _)]; [done|]. cbn in Hrb. subst n. cbn [rbC redf fc fs] in HrC.
  destruct HrC as (_ & Hr & Hs & HC). split; [|done]. by destruct (fs f) as [|? [] ? ? ?].
Qed.

(** ** The loop *)
Section Remove.
Context (cmp : Z -> Z -> Z) (key : Z) (m0 : nodes) (P0 : list (Z * Z)) (A0 : list Z).
Context (Hmono : mono cmp key P0.*2)
  (Huniq : forall l1 z l2, P0.*2 = l1 ++ z :: l2 -> cmp z key = 0 -> Forall (pos cmp key) l2).

(** the node found is the next one in order behind the position *)
Definition found (C : ctx) (f : Z) : Prop :=
  (f = NULL /\ Forall (pos cmp key) (pr C).*2) \/
  (f <> NULL /\ exists z rest, pr C = (f, z) :: rest /\ cmp z key = 0 /\ Forall (pos cmp key) rest.*2).
Definition rstate (m : nodes) (C : ctx) (h : tree) (f : Z) : Prop :=
  holds m C h /\ rinv C h /\ pairs (plug C h) = P0 /\ caddrs C ++ addrs h ≡ₚ A0 /\ frame m0 m (HEAD :: A0) /\
  Forall (neg cmp key) (pl C).*2 /\ found C f.

Lemma found_down C d a c v y x f : pairs (plug C (nd d a c x v y)) = P0 -> Forall (neg cmp key) (pl C).*2 -> found C f ->
  d = (cmp v key <? 0) -> a <> NULL ->
  let F := {| fa := a; fd := d; fc := c; fv := v; fs := y |} in
  Forall (neg cmp key) (pl (F :: C)).*2 /\ found (F :: C) (if cmp v key =? 0 then a else f).
Proof.
  intros HP Hl Hfd Hd Ha F. rewrite pairs_plug, pairs_nd in HP. assert (HP2 := f_equal (fmap snd) HP). cbn [pl pr F fd fa fv fs].
  destruct d.
  - symmetry in Hd. apply Z.ltb_lt in Hd. rewrite (proj2 (Z.eqb_neq _ _)) by lia. split; [|exact Hfd].
    rewrite <- !app_assoc in HP2. cbn in HP2. rewrite app_assoc, fmap_app in HP2. cbn in HP2. pose proof Hmono as Hm. rewrite <- HP2 in Hm.
    apply mono_split in Hm as (Hm & _). specialize (Hm Hd). rewrite fmap_app in Hm. apply Forall_app in Hm as [_ Hm].
    rewrite !fmap_app, !Forall_app. split_and?; [done|done|]. by constructor.
  - symmetry in Hd. apply Z.ltb_ge in Hd. rewrite app_nil_r. split; [exact Hl|].
    rewrite <- !app_assoc in HP2. cbn in HP2. rewrite app_assoc, fmap_app in HP2. cbn in HP2.
    pose proof Hmono as Hm. rewrite <- HP2 in Hm. apply mono_split in Hm as (_ & Hm & _). destruct (Z.eqb_spec (cmp v key) 0) as [Ez|Ez].
    + right. split; [done|]. exists v, (pairs y ++ pr C). split; [done|]. split; [done|]. eapply Huniq; [by rewrite <- HP2|done].
    + specialize (Hm ltac:(lia)). left. rewrite fmap_app in Hm. assert (Hp : Forall (pos cmp key) ((a, v) :: pairs y ++ pr C).*2).
      { cbn. constructor; [unfold pos; lia|]. by rewrite fmap_app. }
      destruct Hfd as [[-> _]|(_ & z & rest & E & Hz & _)]; [done|]. rewrite E in Hm. apply Forall_app in Hm as [_ Hm]. cbn in Hm.
      inversion Hm. unfold pos in *. lia.
Qed.

Lemma remove_loop_spec n : forall m C h f fuel, rstate m C h f -> (C = [] -> h <> L) -> (tsz h <= n)%nat -> (tsz h < fuel)%nat ->
  exists m' C' f', remove_loop cmp fuel m key (above C) (top C) f (topdir C) = Done (m', top C', above C', f') /\
    rstate m' C' L f' /\ C' <> [].
Proof.
  induction n as [|n IH]; intros m C h f fuel Hst Hne Hn Hf; (destruct fuel as [|fuel]; [lia|]); cbn [remove_loop];
    pose proof Hst as (Hh & Hri & HP & HA & Hfr & Hl & Hfd); destruct (holds_top _ _ _ Hh) as (c0 & y0 & v0 & Ht & _ & _);
    rewrite (get_link_at _ _ _ _ Ht), link_mk; cbn [mbind outcome_bind];
    (destruct h as [|a c l v r]; [exists m, C, f; rewrite Z.eqb_refl; split; [done|]; split; [done|]; intros ->; by apply Hne|]);
    [cbn in Hn; lia|]. cbn [ptr].
  set (d := cmp v key <? 0). destruct (node_nd d a c l v r) as (x & y & E & Hx). rewrite E in Hh, Hri, HP, HA.
  assert (Ha : a <> NULL /\ m !! a = Some (mk d c (ptr x) (ptr y) v)).
  { destruct Hh as (_ & Hr & Hok). destruct (okaddrs_app _ _ Hok) as (_ & Hok' & _). destruct (okaddrs_nd _ _ _ _ _ _ Hok') as (_ & _ & _ & _ & _ & ? & _).
    by apply rep_nd in Hr as [? _]. }
  destruct Ha as [Ha Hma]. rewrite (proj2 (Z.eqb_neq a NULL)) by done. rewrite (get_value_at _ _ _ Hma), value_mk. cbn [mbind outcome_bind].
  fold d. destruct (rb_push_spec m C d a c x v y Hh Hri) as (m1 & C1 & c1 & y1 & E1 & Hh1 & Hri1 & Hpl & Hpr & Hca & Hf1).
  rewrite E1. cbn [mbind outcome_bind]. destruct (found_down C d a c v y x f HP Hl Hfd eq_refl Ha) as [Hl1 Hfd1].
  set (F := {| fa := a; fd := d; fc := c1; fv := v; fs := y1 |}) in *. set (F0 := {| fa := a; fd := d; fc := c; fv := v; fs := y |}) in *.
  assert (Hxs : (tsz x <= tsz l + tsz r)%nat) by (destruct d; subst x; lia). cbn [tsz] in Hn, Hf.
  apply (IH m1 (F :: C1) x); [|done|lia|lia]. unfold rstate. split_and?; [done|done| | | |by rewrite Hpl|].
  - rewrite pairs_plug, Hpl, Hpr, <- pairs_plug. exact HP.
  - rewrite Hca, <- HA. cbn [caddrs F0 fa fs]. rewrite addrs_nd. solve_Permutation.
  - apply (frame_trans _ _ _ _ Hfr). apply (frame_weaken _ _ _ _ Hf1). intros z Hz. rewrite <- HA, addrs_nd.
    cbn [caddrs F0 fa fs] in Hz. set_solver.
  - unfold found in Hfd1 |- *. rewrite Hpr. exact Hfd1.
Qed.

Lemma remove_found_none m C f : rstate m C L f -> f = NULL -> C <> [] ->
  remove_found m (top C) (above C) f = Done m /\ holds m [] (plug C L) /\ good [] (plug C L) /\
    Forall (fun z => cmp z key <> 0) P0.*2.
Proof.
  intros (Hh & Hri & HP & _ & _ & Hl & Hfd) -> HC. split; [done|]. split; [by apply (holds_plug m C L)|].
  split; [apply (good_plug C L), rinv_good, Hri|]. rewrite <- HP, pairs_plug. cbn [pairs app]. rewrite fmap_app, Forall_app. split.
  - apply (Forall_impl _ _ _ Hl). unfold neg. lia.
  - destruct Hfd as [[_ Hp]|[? _]]; [|done]. apply (Forall_impl _ _ _ Hp). unfold pos. lia.
Qed.

(** the value found is replaced by its predecessor's, whose node goes *)
Lemma remove_found_some m C f : rstate m C L f -> f <> NULL -> C <> [] ->
  exists m' t' l1 z l2, remove_found m (top C) (above C) f = Done m' /\ holds m' [] t' /\ good [] t' /\
    P0.*2 = l1 ++ z :: l2 /\ Forall (neg cmp key) l1 /\ cmp z key = 0 /\ Forall (pos cmp key) l2 /\ inorder t' = l1 ++ l2 /\
    top C :: addrs t' ≡ₚ A0 /\ m' !! top C = None /\ frame m0 m' (HEAD :: A0).
Proof.
  intros (Hh & Hri & HP & HA & Hfr & Hl & Hfd) Hf HC. destruct C as [|F C]; [done|]. clear HC.
  destruct (rinv_leaf F C Hri) as [Hs HrC]. destruct Hfd as [[? _]|(_ & z & rest & Hpr & Hz & Hpos)]; [done|].
  assert (Hv : m !! fa F = Some (mk (fd F) (fc F) NULL NULL (fv F))) by (destruct Hh as ((Ha & _) & _); by rewrite Hs in Ha).
  assert (Hgoal : forall m1 F' C', holds m1 (F' :: C') L -> fs F' = L -> fa F' = fa F -> top C' = top C -> rbC C' O ->
    (forall k, set_value m f (fv F) = Done k -> exists k', set_value k (fa F) z = Done k' /\ k' = m1) ->
    (exists k, set_value m f (fv F) = Done k) -> get_value m f = Done z ->
    (pl C').*2 ++ (pr C').*2 = (pl (F :: C)).*2 ++ rest.*2 -> caddrs C' = caddrs C -> frame m m1 (HEAD :: A0) ->
    exists m' t' l1 z l2, remove_found m (top (F :: C)) (above (F :: C)) f = Done m' /\ holds m' [] t' /\ good [] t' /\
    P0.*2 = l1 ++ z :: l2 /\ Forall (neg cmp key) l1 /\ cmp z key = 0 /\ Forall (pos cmp key) l2 /\ inorder t' = l1 ++ l2 /\
    top (F :: C) :: addrs t' ≡ₚ A0 /\ m' !! top (F :: C) = None /\ frame m0 m' (HEAD :: A0)).
  { intros m1 F' C' H1 HsF HaF Htop HrC' Hk2 [k Hk] Hgv Hord Hca Hf1. destruct (unlink_spec m1 F' C' H1 HsF) as (m2 & E2 & H2 & Hnone & Hf2).
    destruct (Hk2 k Hk) as (k' & Hk' & ->). exists m2, (plug C' L), (pl (F :: C)).*2, z, rest.*2.
    rewrite HaF, Htop in E2. rewrite HaF in Hnone, Hf2. split_and?; try done.
    - unfold remove_found. cbn [top above]. rewrite (proj2 (Z.eqb_neq f NULL)) by done. rewrite Hgv. cbn [mbind outcome_bind].
      rewrite (get_value_at _ _ _ Hv), value_mk. cbn [mbind outcome_bind]. rewrite Hk. cbn [mbind outcome_bind]. rewrite Hk'. exact E2.
    - by apply (holds_plug m2 C' L).
    - apply (good_plug C' L). exists O. split; [done|]. by split.
    - rewrite <- HP, pairs_plug, Hpr. cbn [pairs app]. by rewrite fmap_app.
    - rewrite inorder_pairs, pairs_plug. cbn [pairs app]. by rewrite fmap_app.
    - rewrite addrs_plug, <- HA, Hca. cbn [caddrs top addrs]. rewrite Hs. cbn [addrs app]. done.
    - apply (frame_trans _ _ _ _ Hfr). apply (frame_trans _ _ _ _ Hf1). apply (frame_weaken _ _ _ _ Hf2). rewrite <- HA, Hca. cbn [caddrs]. set_solver. }
  destruct (fd F) eqn:HdF; cbn [pr pl] in Hpr, Hl; rewrite HdF in Hpr; cbn [app] in Hpr.
  - destruct (pr_head _ _ _ _ Hpr) as (C0 & fr & C2 & -> & HC0 & Hdr & <- & <- & ->).
    assert (HG : holds m C2 (nd (fd fr) (fa fr) (fc fr) (plug (F :: C0) L) (fv fr) (fs fr)))
      by (rewrite app_comm_cons, holds_app in Hh; by apply (holds_down m C2 fr)).
    destruct (set_value_pos _ _ _ _ _ _ _ _ (fv F) HG) as (m1 & E1 & H1 & F1).
    assert (H1' : holds m1 (C0 ++ revalue fr (fv F) :: C2) (nd (fd F) (fa F) (fc F) L (fv F) (fs F))).
    { apply holds_app, (holds_down m1 C2 (revalue fr (fv F))). exact H1. }
    destruct (set_value_pos _ _ _ _ _ _ _ _ (fv fr) H1') as (m2 & E2 & H2 & F2).
    apply (Hgoal m2 (revalue F (fv fr)) (C0 ++ revalue fr (fv F) :: C2)); try done.
    + by apply (holds_down m2 _ (revalue F (fv fr))).
    + by destruct C0.
    + by apply rbC_revalue.
    + intros k Hk. rewrite E1 in Hk. injection Hk as <-. by exists m2.
    + by exists m1.
    + destruct HG as (_ & Hr & _). apply rep_nd in Hr as [Hr _]. by rewrite (get_value_at _ _ _ Hr), value_mk.
    + rewrite pl_revalue, pr_revalue by done. cbn [pl]. rewrite HdF, Hs. cbn [pairs app]. rewrite fmap_app. lists.
    + by apply caddrs_revalue.
    + apply (frame_trans _ m1); [apply (frame_weaken _ _ _ _ F1)|apply (frame_weaken _ _ _ _ F2)]; intros t; rewrite <- HA, addrs_nd; cbn [caddrs addrs].
      * intros Ht. rewrite addrs_plug in Ht. assert (Hca : forall D, caddrs (D ++ fr :: C2) ≡ₚ caddrs D ++ caddrs (fr :: C2)).
        { induction D as [|g D IH]; cbn [app caddrs]; [done|]. rewrite IH. solve_Permutation. }
        rewrite Hca. cbn [caddrs addrs] in *. set_solver.
      * set_solver.
  - rewrite Hs in Hpr. cbn [pairs app] in Hpr. injection Hpr as <- <- <-.
    assert (H1 : holds m C (nd (fd F) (fa F) (fc F) L (fv F) (fs F))) by (by apply (holds_down m C F)).
    destruct (set_value_pos _ _ _ _ _ _ _ _ (fv F) H1) as (m1 & E1 & H1' & F1).
    destruct (set_value_pos _ _ _ _ _ _ _ _ (fv F) H1') as (m2 & E2 & H2 & F2).
    apply (Hgoal m2 F C); try done.
    + by apply (holds_down m2 C F).
    + intros k Hk. rewrite E1 in Hk. injection Hk as <-. by exists m2.
    + by exists m1.
    + by rewrite (get_value_at _ _ _ Hv), value_mk.
    + cbn [pl]. rewrite HdF. by rewrite app_nil_r.
    + apply (frame_trans _ m1); [apply (frame_weaken _ _ _ _ F1)|apply (frame_weaken _ _ _ _ F2)]; intros t; rewrite <- HA, addrs_nd; cbn [caddrs addrs]; set_solver.
Qed.
End Remove.

(** ** The removal *)

(** the root in black, and the count *)
Lemma remove_end T m t : holds m [] t -> good [] t -> (forall x, x ∈ dom (delete HEAD m) <-> x ∈ addrs t) ->
  exists m', (r ← get_link m HEAD true; m ← (if r =? NULL then Done (delete HEAD m) else set_red (delete HEAD m) r false);
     Done (1, {| mem := m; root := r; tsize := u32 (tsize T - 1) |})) =
    Done (1, {| mem := m'; root := ptr (paint false t); tsize := u32 (tsize T - 1) |}) /\
    rep m' (paint false t) /\ okaddrs (addrs t) /\ (exists n, rb (paint false t) n) /\ dom m' = list_to_set (C := gset Z) (addrs t).
Proof.
  intros Hh (n & Hrb & _) Hd. destruct (holds_end _ _ Hh) as (E & Hr & Hok). rewrite E. cbn [mbind outcome_bind]. rewrite paint_ptr.
  assert (Hd' : dom (delete HEAD m) = list_to_set (C := gset Z) (addrs t)) by (apply set_eq; intros x; by rewrite Hd, elem_of_list_to_set).
  destruct (decide (t = L)) as [->|Hne].
  - exists (delete HEAD m). rewrite Z.eqb_refl. cbn [mbind outcome_bind]. split_and?; try done. by exists O.
  - assert ((ptr t =? NULL) = false) as ->.
    { apply Z.eqb_neq. destruct t as [|a c l v r]; [done|]. destruct Hok as (_ & H0 & _). cbn in *. unfold NULL. set_solver. }
    destruct (paint_red _ _ false Hr (proj1 Hok) Hne) as (m' & E' & Hr' & Hdm). rewrite E'. exists m'. cbn [mbind outcome_bind].
    split_and?; try done; [by apply (rb_paint t n)|by rewrite Hdm].
Qed.

Section Spec.
Context (cmp : Z -> Z -> Z) (key : Z) (T : rb_tree) (t : tree).

(** the value that compares equal is gone, and its order is kept; or there was none,
    and only the count is wrong *)
Definition removed (T' : rb_tree) : Prop :=
  exists t' l1 z l2, is_tree T' t' /\ inorder t = l1 ++ z :: l2 /\ cmp z key = 0 /\ inorder t' = l1 ++ l2 /\
    addrs t' ⊆ addrs t.
Definition remove_missed (T' : rb_tree) : Prop :=
  exists t', root T' = ptr t' /\ rep (mem T') t' /\ inorder t' = inorder t /\ addrs t' ≡ₚ addrs t /\
    tsize T' = u32 (Z.of_nat (tsz t') - 1).

Lemma rb_remove_spec : is_tree T t -> t <> L -> tsize T < 2 ^ 32 -> mono cmp key (inorder t) ->
  (forall l1 z l2, inorder t = l1 ++ z :: l2 -> cmp z key = 0 -> Forall (pos cmp key) l2) ->
  exists T', rb_tree_remove cmp T key = Done (1, T') /\
    ((Exists (fun z => cmp z key = 0) (inorder t) /\ removed T') \/
     (Forall (fun z => cmp z key <> 0) (inorder t) /\ remove_missed T')).
Proof.
  intros HT Hne Hsz Hm Hu. pose proof HT as (Hroot & Hr & Hok & (n & Hrb) & Hred & Hdom & Hsize). rewrite inorder_pairs in Hm, Hu.
  unfold rb_tree_remove. rewrite Hroot. assert ((ptr t =? NULL) = false) as ->.
  { apply Z.eqb_neq. destruct t as [|a c l v r]; [done|]. destruct Hok as (_ & H0 & _). cbn in *. unfold NULL. set_solver. }
  set (m0 := <[HEAD := mk_node false NULL (ptr t) NULL]> (mem T)).
  pose proof (holds_start (mem T) t Hr Hok) as Hh0. fold m0 in Hh0.
  assert (Hst : rstate cmp key m0 (pairs t) (addrs t) m0 [] t NULL).
  { unfold rstate. split; [exact Hh0|]. split; [right; split; [done|]; by exists n|]. cbn. split_and?; try done.
    by left. }
  destruct (remove_loop_spec cmp key m0 (pairs t) (addrs t) Hm Hu (tsz t) m0 [] t NULL (S (S (size (mem T)))) Hst)
    as (m1 & C1 & f1 & E1 & Hst1 & HC1); [done|done| |].
  { pose proof (rep_size _ _ Hr (proj1 Hok)). lia. }
  cbn [above top topdir] in E1. rewrite E1. cbn [mbind outcome_bind].
  assert (Hd0 : dom m0 = {[HEAD]} ∪ list_to_set (C := gset Z) (addrs t)) by (unfold m0; by rewrite dom_insert_L, Hdom).
  assert (Hdf : forall m k, frame m0 m (HEAD :: addrs t) -> k ⊆ addrs t -> (forall x, x ∈ addrs t -> x ∈ k <-> is_Some (m !! x)) ->
      forall x, x ∈ dom (delete HEAD m) <-> x ∈ k).
  { intros m k Hf Hk Hx x. rewrite (dom_end m0 m (addrs t) k Hf Hd0 Hx Hk), elem_of_list_to_set; [done|]. by destruct Hok as (_ & _ & ?). }
  destruct (decide (f1 = NULL)) as [Ef|Ef].
  - destruct (remove_found_none cmp key m0 (pairs t) (addrs t) m1 C1 f1 Hst1 Ef HC1) as (E2 & Hh2 & Hg2 & Hall). rewrite E2. cbn [mbind outcome_bind].
    assert (Ha2 : addrs (plug C1 L) ≡ₚ addrs t) by (rewrite addrs_plug; apply Hst1).
    destruct (remove_end T _ _ Hh2 Hg2) as (m3 & E3 & Hr3 & Hok3 & Hrb3 & Hd3).
    { apply Hdf; [apply Hst1|by rewrite Ha2|]. intros x Hx. split; [|by rewrite Ha2]. intros _. destruct Hh2 as (_ & Hr2 & _).
      apply (rep_mapped _ _ Hr2). by rewrite Ha2. }
    rewrite E3. eexists. split; [reflexivity|]. right. rewrite inorder_pairs. split; [done|].
    assert (Hi : inorder (plug C1 L) = inorder t) by (rewrite !inorder_pairs; f_equal; apply Hst1).
    exists (paint false (plug C1 L)). cbn [root mem tsize]. rewrite inorder_paint, addrs_paint, tsz_paint. split_and?; try done.
    by rewrite Hsize, <- !length_inorder, Hi.
  - destruct (remove_found_some cmp key m0 (pairs t) (addrs t) Hm Hu m1 C1 f1 Hst1 Ef HC1) as (m2 & t2 & l1 & z & l2 & E2 & Hh2 & Hg2 & Hl & _ & Hz & _ & Hi & Ha & Hnone & Hf2).
    rewrite E2. cbn [mbind outcome_bind].
    destruct (remove_end T _ _ Hh2 Hg2) as (m3 & E3 & Hr3 & Hok3 & Hrb3 & Hd3).
    { apply Hdf; [done|rewrite <- Ha; set_solver|]. intros x Hx. split; [intros Hx'; destruct Hh2 as (_ & Hr2 & _); by apply (rep_mapped _ _ Hr2)|].
      intros [y Hy]. rewrite <- Ha in Hx. apply elem_of_cons in Hx as [->|Hx]; [by rewrite Hnone in Hy|done]. }
    rewrite E3. eexists. split; [reflexivity|]. left. rewrite <- inorder_pairs in Hl. split.
    { rewrite Hl. apply Exists_app. right. by constructor. }
    exists (paint false t2), l1, z, l2. rewrite inorder_paint.
    assert (Hsub : addrs (paint false t2) ⊆ addrs t) by (rewrite addrs_paint, <- Ha; set_solver). split_and?; try done. unfold is_tree. cbn [root mem tsize].
    rewrite addrs_paint, tsz_paint. split_and?; try done; [by destruct t2|].
    rewrite Hsize, <- (length_inorder t2), Hi, <- (length_inorder t), Hl, !length_app. cbn [length]. unfold u32, wrap.
    rewrite Hsize, <- (length_inorder t), Hl, length_app in Hsz. cbn [length] in Hsz. rewrite Z.mod_small; lia.
Qed.
End Spec.
