(* ===== verification/RbtreeIter.v ===== *)
(** * Red-black trees: iterators, the self test, freeing

    The iterator keeps the path above its node in an array of 64 entries; the
    balance of the tree bounds the path, so the array is never overrun. *)
From S2P Require Import Prelude Rbtree RbtreeTree RbtreeInsert RbtreeProofs.

(** ** The height *)

Fixpoint height (t : tree) : nat := match t with L => O | N _ _ l _ r => S (Nat.max (height l) (height r)) end.

Lemma rb_height t n : rb t n -> (height t <= 2 * n + (if is_red t then 1 else 0))%nat.
Proof.
  revert n. induction t as [|a [] l IHl v r IHr]; intros n; cbn [rb height is_red].
  - lia.
  - intros (Hl & Hr & Hrl & Hrr). specialize (IHl n Hrl). specialize (IHr n Hrr). rewrite Hl in IHl. rewrite Hr in IHr. lia.
  - destruct n as [|n]; [done|]. intros [Hrl Hrr]. specialize (IHl n Hrl). specialize (IHr n Hrr).
    destruct (is_red l), (is_red r); lia.
Qed.
Lemma rb_tsz t n : rb t n -> 2 ^ Z.of_nat n <= Z.of_nat (tsz t) + 1.
Proof.
  revert n. induction t as [|a [] l IHl v r IHr]; intros n; cbn [rb tsz].
  - intros ->. done.
  - intros (_ & _ & Hl & Hr). specialize (IHl n Hl). lia.
  - destruct n as [|n]; [done|]. intros [Hl Hr]. specialize (IHl n Hl). specialize (IHr n Hr).
    rewrite Nat2Z.inj_succ, Z.pow_succ_r by lia. lia.
Qed.
Lemma rb_height_64 t n : rb t n -> is_red t = false -> Z.of_nat (tsz t) < 2 ^ 32 -> Z.of_nat (height t) <= RB_ITER_MAX_HEIGHT.
Proof.
  intros Hrb Hr Hs. pose proof (rb_height t n Hrb) as Hh. rewrite Hr in Hh. pose proof (rb_tsz t n Hrb) as Ht.
  assert (Z.of_nat n <= 32). { apply (Z.pow_le_mono_r_iff 2); lia. } unfold RB_ITER_MAX_HEIGHT. lia.
Qed.

Lemma height_plug C t : (length C + height t <= height (plug C t))%nat.
Proof.
  revert t. induction C as [|f C IH]; intros t; cbn [plug length]; [lia|]. specialize (IH (fill f t)).
  assert (S (height t) <= height (fill f t))%nat by (unfold fill, nd; destruct (fd f); cbn; lia). lia.
Qed.

(** ** Iterating, in the direction [d] from the first value in that direction *)

Definition ord (d : bool) (t : tree) : list Z := if d then rev (inorder t) else inorder t.
(** the values still to come behind a position *)
Fixpoint aft (d : bool) (C : ctx) : list Z :=
  match C with
  | [] => []
  | f :: C => (if Bool.eqb (fd f) d then fv f :: ord d (fs f) else []) ++ aft d C
  end.

Lemma ord_nd d a c x v y : ord d (nd d a c x v y) = ord d x ++ v :: ord d y.
Proof. destruct d; cbn; [|done]. rewrite rev_app_distr. cbn. by rewrite <- app_assoc. Qed.

Section Iter.
Context (T : rb_tree) (t : tree) (HT : is_tree T t) (Hsz : Z.of_nat (tsz t) < 2 ^ 32) (d : bool).

(** the iterator stands on the root of the tree at a position *)
Definition stands (it : rb_iter) (C : ctx) (u : tree) : Prop :=
  plug C u = t /\ u <> L /\ inode it = ptr u /\ path it = map fa C.

Lemma plug_rep C u : plug C u = t -> rep (mem T) u /\ okaddrs (caddrs C ++ addrs u) /\ (length C + height u <= 64)%nat.
Proof.
  intros E. destruct HT as (_ & Hr & Hok & (n & Hrb) & Hred & _). split.
  - revert u E. induction C as [|f C IH]; intros u E; [by subst|]. cbn [plug] in E. apply IH in E. unfold fill in E.
    by apply rep_nd in E as (_ & ? & _).
  - split; [apply (okaddrs_perm _ _ Hok); by rewrite <- E, addrs_plug|]. pose proof (rb_height_64 t n Hrb Hred Hsz) as H64.
    pose proof (height_plug C u) as Hh. rewrite E in Hh. unfold RB_ITER_MAX_HEIGHT in H64. lia.
Qed.

Lemma push_path_ok C u p : plug C u = t -> u <> L -> push_path (map fa C) p = Done (p :: map fa C).
Proof.
  intros E Hu. destruct (plug_rep C u E) as (_ & _ & Hl). unfold push_path. rewrite length_map.
  assert (1 <= height u)%nat by (destruct u; [done|cbn; lia]). rewrite (proj2 (Z.ltb_lt _ _)); [done|]. unfold RB_ITER_MAX_HEIGHT. lia.
Qed.

(** down to the first value of a tree *)
Lemma iter_down_spec u : forall C fuel, plug C u = t -> u <> L -> (tsz u <= fuel)%nat ->
  exists C' a c v y, iter_down fuel (mem T) (ptr u) (map fa C) d = Done (a, map fa C') /\
    plug C' (nd d a c L v y) = t /\ v :: ord d y ++ aft d C' = ord d u ++ aft d C.
Proof.
  induction u as [|a c l IHl v r IHr]; intros C fuel E Hu Hf; [done|]. clear Hu. destruct fuel as [|fuel]; [cbn in Hf; lia|].
  destruct (plug_rep C _ E) as (Hr & Hok & _). destruct (node_nd d a c l v r) as (x & y & En & Hx). rewrite En in E, Hr, Hok |- *.
  assert (IHx : forall C fuel, plug C x = t -> x <> L -> (tsz x <= fuel)%nat ->
    exists C' a c v y, iter_down fuel (mem T) (ptr x) (map fa C) d = Done (a, map fa C') /\
      plug C' (nd d a c L v y) = t /\ v :: ord d y ++ aft d C' = ord d x ++ aft d C) by (destruct d; by subst x).
  assert (Hsx : (tsz x <= fuel)%nat) by (cbn [tsz] in Hf; destruct d; subst x; lia).
  pose proof Hr as Hr'. apply rep_nd in Hr' as (Ha & _). rewrite ptr_nd. cbn [iter_down].
  rewrite (get_link_at _ _ _ _ Ha), link_mk. cbn [mbind outcome_bind]. destruct (decide (x = L)) as [->|Hx'].
  - cbn [ptr]. rewrite Z.eqb_refl. exists C, a, c, v, y. split; [done|]. split; [done|]. rewrite ord_nd. cbn [ord inorder]. by destruct d.
  - assert ((ptr x =? NULL) = false) as ->.
    { apply Z.eqb_neq. destruct x as [|b ? ? ? ?]; [done|]. destruct (okaddrs_app _ _ Hok) as (_ & (_ & H0 & _) & _).
      rewrite addrs_nd in H0. cbn in *. unfold NULL. set_solver. }
    rewrite (push_path_ok C _ a E) by (by destruct d). cbn [mbind outcome_bind].
    set (f := {| fa := a; fd := d; fc := c; fv := v; fs := y |}).
    destruct (IHx (f :: C) fuel) as (C' & a' & c' & v' & y' & E' & Hp & Hv); [done|done|lia|].
    exists C', a', c', v', y'. split; [exact E'|]. split; [done|]. rewrite Hv, ord_nd. cbn [aft f fd fv fs].
    by rewrite eqb_reflx, <- app_assoc.
Qed.

(** up to the next value *)
Lemma iter_up_spec C : forall u, plug C u = t -> u <> L ->
  (iter_up (mem T) (ptr u) (map fa C) (negb d) = Done (NULL, []) /\ aft d C = []) \/
  exists f C' u', iter_up (mem T) (ptr u) (map fa C) (negb d) = Done (fa f, map fa C') /\ fd f = d /\ plug C' (fill f u') = t /\
    aft d C = fv f :: ord d (fs f) ++ aft d C'.
Proof.
  induction C as [|f C IH]; intros u E Hu; cbn [map iter_up aft]; [by left|]. cbn [plug] in E.
  destruct (plug_rep C _ E) as (Hr & Hok & _). unfold fill in Hr, Hok. pose proof Hr as Hr'. apply rep_nd in Hr' as (Ha & _).
  destruct (Bool.eqb (fd f) d) eqn:Hd.
  - apply eqb_prop in Hd. rewrite (get_link_at _ _ _ _ Ha), Hd, link_mk_other. cbn [mbind outcome_bind].
    rewrite (proj2 (Z.eqb_neq _ _)); [right; by exists f, C, u|]. intros Eq. destruct (okaddrs_app _ _ Hok) as (_ & Hok' & _).
    destruct (okaddrs_nd _ _ _ _ _ _ Hok') as ((_ & H0 & _) & _ & _ & _ & Hdj & _). destruct u as [|b ? ? ? ?]; [done|]. cbn [ptr] in Eq.
    destruct (fs f) as [|b' ? ? ? ?]; cbn in *; subst; [unfold NULL in H0; set_solver|]. apply (Hdj b'); set_solver.
  - assert (fd f = negb d) as Hd' by (by destruct (fd f), d). rewrite (get_link_at _ _ _ _ Ha), Hd', link_mk. cbn [mbind outcome_bind app].
    rewrite Z.eqb_refl. replace (fa f) with (ptr (fill f u)) by (unfold fill; apply ptr_nd).
    apply IH; [done|]. unfold fill. by destruct (fd f).
Qed.

Definition at_pos (it : rb_iter) (rest : list Z) : Prop :=
  exists C a c x v y, inode it = a /\ path it = map fa C /\ plug C (nd d a c x v y) = t /\ rest = ord d y ++ aft d C.

Lemma node_value C a c x v y : plug C (nd d a c x v y) = t -> iter_value (mem T) a = Done v /\ mem T !! a = Some (mk d c (ptr x) (ptr y) v).
Proof.
  intros E. destruct (plug_rep C _ E) as (Hr & Hok & _). apply rep_nd in Hr as (Ha & _). split; [|done].
  destruct (okaddrs_app _ _ Hok) as (_ & Hok' & _). destruct (okaddrs_nd _ _ _ _ _ _ Hok') as (_ & _ & _ & _ & _ & Ha0 & _).
  unfold iter_value. rewrite (proj2 (Z.eqb_neq a NULL)) by done. by rewrite (get_value_at _ _ _ Ha), value_mk.
Qed.

Lemma start_spec : t <> L -> exists v it rest, rb_iter_start T d = Done (v, it) /\ at_pos it rest /\ ord d t = v :: rest.
Proof.
  intros Hne. pose proof HT as (Hroot & Hr & Hok & _). unfold rb_iter_start. rewrite Hroot.
  assert ((ptr t =? NULL) = false) as ->.
  { apply Z.eqb_neq. destruct t as [|a c l v r]; [done|]. destruct Hok as (_ & H0 & _). cbn in *. unfold NULL. set_solver. }
  destruct (iter_down_spec t [] (S (size (mem T)))) as (C & a & c & v & y & E & Hp & Hv); [done|done|pose proof (rep_size _ _ Hr (proj1 Hok)); lia|].
  cbn [map] in E. rewrite E. cbn [mbind outcome_bind]. destruct (node_value _ _ _ _ _ _ Hp) as [-> _]. cbn [mbind outcome_bind].
  exists v, {| inode := a; path := map fa C |}, (ord d y ++ aft d C). split; [done|]. split; [by exists C, a, c, L, v, y|].
  cbn [aft] in Hv. by rewrite app_nil_r in Hv.
Qed.

Lemma move_spec it rest : at_pos it rest ->
  match rest with
  | [] => exists it', rb_iter_move T it (negb d) = Done (NULL, it')
  | v :: rest' => exists it', rb_iter_move T it (negb d) = Done (v, it') /\ at_pos it' rest'
  end.
Proof.
  intros (C & a & c & x & v & y & Ha & Hpath & Hp & ->). destruct (node_value _ _ _ _ _ _ Hp) as [_ Hma].
  unfold rb_iter_move. rewrite Ha, Hpath, (get_link_at _ _ _ _ Hma), link_mk_other. cbn [mbind outcome_bind].
  destruct (decide (y = L)) as [->|Hy].
  - cbn [ptr]. rewrite Z.eqb_refl. assert (ord d L = []) as -> by (by destruct d). cbn [app].
    assert (Hne : nd d a c x v L <> L) by (by destruct d). pose proof (iter_up_spec C _ Hp Hne) as H. rewrite ptr_nd in H.
    destruct H as [[-> ->]|(f & C' & u' & -> & Hd & Hp' & ->)]; cbn [mbind outcome_bind].
    + unfold iter_value. rewrite Z.eqb_refl. by eexists.
    + unfold fill in Hp'. rewrite Hd in Hp'. destruct (node_value _ _ _ _ _ _ Hp') as [-> _]. cbn [mbind outcome_bind].
      eexists. split; [reflexivity|]. by eexists C', (fa f), (fc f), u', (fv f), (fs f).
  - destruct (plug_rep C _ Hp) as (Hr & Hok & _).
    assert ((ptr y =? NULL) = false) as ->.
    { apply Z.eqb_neq. destruct y as [|b ? ? ? ?]; [done|]. destruct (okaddrs_app _ _ Hok) as (_ & (_ & H0 & _) & _).
      rewrite addrs_nd in H0. cbn in *. unfold NULL. set_solver. }
    rewrite (push_path_ok C _ a Hp) by (by destruct d). cbn [mbind outcome_bind]. rewrite negb_involutive.
    set (f := {| fa := a; fd := negb d; fc := c; fv := v; fs := x |}).
    assert (Hp1 : plug (f :: C) y = t) by (cbn [plug]; unfold fill, f; cbn [fa fd fc fv fs]; by rewrite nd_negb).
    apply rep_nd in Hr as (_ & _ & Hry). destruct (okaddrs_app _ _ Hok) as (_ & Hok' & _). destruct (okaddrs_nd _ _ _ _ _ _ Hok') as (_ & (Hny & _) & _).
    destruct (iter_down_spec y (f :: C) (S (size (mem T)))) as (C' & a' & c' & v' & y' & E & Hp' & Hv);
      [done|done|pose proof (rep_size _ _ Hry Hny); lia|].
    change (map fa (f :: C)) with (a :: map fa C) in E. rewrite E. cbn [mbind outcome_bind].
    destruct (node_value _ _ _ _ _ _ Hp') as [-> _]. cbn [mbind outcome_bind].
    cbn [aft f fd] in Hv. assert (Bool.eqb (negb d) d = false) as Hb by (by destruct d). rewrite Hb in Hv. cbn [app] in Hv. rewrite <- Hv.
    eexists. split; [reflexivity|]. by eexists C', a', c', L, v', y'.
Qed.

(** a client's loop over the values *)
Fixpoint iter_rest (k : nat) (it : rb_iter) : outcome (list Z) :=
  match k with
  | O => NoFuel
  | S k => '(v, it) ← rb_iter_move T it (negb d); if v =? NULL then Done [] else l ← iter_rest k it; Done (v :: l)
  end.
Definition iter_list : outcome (list Z) :=
  '(v, it) ← rb_iter_start T d; if v =? NULL then Done [] else l ← iter_rest (S (size (mem T))) it; Done (v :: l).

Lemma iter_rest_spec k : forall it rest, at_pos it rest -> NULL ∉ rest -> (length rest < k)%nat -> iter_rest k it = Done rest.
Proof.
  induction k as [|k IH]; intros it rest Hp Hn Hk; [lia|]. cbn [iter_rest]. pose proof (move_spec it rest Hp) as H. destruct rest as [|v rest].
  - destruct H as (it' & ->). cbn [mbind outcome_bind]. by rewrite Z.eqb_refl.
  - destruct H as (it' & -> & Hp'). cbn [mbind outcome_bind]. rewrite (proj2 (Z.eqb_neq v NULL)) by set_solver.
    rewrite (IH it' rest Hp'); [done|set_solver|cbn in Hk; lia].
Qed.

Lemma iter_list_spec : NULL ∉ inorder t -> iter_list = Done (ord d t).
Proof.
  intros Hn. pose proof HT as (Hroot & Hr & Hok & _). unfold iter_list. destruct (decide (t = L)) as [E|Hne].
  - unfold rb_iter_start. rewrite Hroot, E. cbn. by destruct d.
  - destruct (start_spec Hne) as (v & it & rest & -> & Hp & Ho). cbn [mbind outcome_bind].
    assert (Hn' : NULL ∉ v :: rest) by (rewrite <- Ho; unfold ord; destruct d; [by rewrite list_elem_of_In, <- in_rev, <- list_elem_of_In|done]).
    rewrite (proj2 (Z.eqb_neq v NULL)) by set_solver. rewrite (iter_rest_spec _ it rest Hp); [by rewrite Ho|set_solver|].
    assert (Hl : length (ord d t) = tsz t) by (unfold ord; destruct d; rewrite ?length_rev; apply length_inorder).
    rewrite Ho in Hl. cbn in Hl. pose proof (rep_size _ _ Hr (proj1 Hok)). lia.
Qed.
End Iter.

(** ** The self test *)

Fixpoint ordered (cmp : Z -> Z -> Z) (t : tree) : Prop :=
  match t with
  | L => True
  | N _ _ l v r => ordered cmp l /\ ordered cmp r /\
      match l with N _ _ _ w _ => cmp w v < 0 | L => True end /\ match r with N _ _ _ w _ => 0 < cmp w v | L => True end
  end.

Lemma test_spec cmp m t : rep m t -> 0 ∉ addrs t -> forall fuel, (height t < fuel)%nat ->
  exists r, rb_tree_test cmp fuel m (ptr t) = Done r /\
    ((exists n, r = Z.of_nat n + 1 /\ rb t n /\ ordered cmp t) \/ (r = 0 /\ ~ ((exists n, rb t n) /\ ordered cmp t))).
Proof.
  induction t as [|a c l IHl v r IHr]; intros Hrep H0 fuel Hf; (destruct fuel as [|fuel]; [lia|]); cbn [rb_tree_test ptr].
  { exists 1. split; [done|]. left. by exists O. }
  cbn [rep addrs height] in *. destruct Hrep as (Ha & Hl & Hr).
  rewrite (proj2 (Z.eqb_neq a NULL)) by (unfold NULL; set_solver).
  rewrite (get_link_at _ _ _ false Ha), (get_link_at _ _ _ true Ha). cbn [mbind outcome_bind link link0 link1].
  assert (Hca : rb_node_is_red m a = Done c) by (apply (red_ptr m (N a c l v r)); done).
  rewrite Hca, (red_ptr m l), (red_ptr m r) by (done || set_solver). cbn [mbind outcome_bind].
  destruct (c && (is_red l || is_red r)) eqn:Hc.
  { exists 0. split; [done|]. right. split; [done|]. intros [(n & Hn) _]. destruct c; [|done]. cbn in Hn. destruct Hn as (H1 & H2 & _). by rewrite H1, H2 in Hc. }
  destruct (IHl Hl ltac:(set_solver) fuel ltac:(lia)) as (lh & -> & Hlh).
  destruct (IHr Hr ltac:(set_solver) fuel ltac:(lia)) as (rh & -> & Hrh). cbn [mbind outcome_bind].
  rewrite (get_value_at _ _ _ Ha). cbn [mbind outcome_bind value].
  assert (Hbl : (if ptr l =? NULL then Done false else w ← get_value m (ptr l); Done (0 <=? cmp w v)) =
    Done (match l with N _ _ _ w _ => 0 <=? cmp w v | L => false end)).
  { destruct l as [|b ? ? w ?]; [done|]. cbn in *. rewrite (proj2 (Z.eqb_neq b NULL)) by (unfold NULL; set_solver).
    by rewrite (get_value_at _ _ _ (proj1 Hl)). }
  assert (Hbr : (if ptr r =? NULL then Done false else w ← get_value m (ptr r); Done (cmp w v <=? 0)) =
    Done (match r with N _ _ _ w _ => cmp w v <=? 0 | L => false end)).
  { destruct r as [|b ? ? w ?]; [done|]. cbn in *. rewrite (proj2 (Z.eqb_neq b NULL)) by (unfold NULL; set_solver).
    by rewrite (get_value_at _ _ _ (proj1 Hr)). }
  rewrite Hbl. cbn [mbind outcome_bind]. rewrite Hbr. cbn [mbind outcome_bind]. clear Hbl Hbr.
  set (bl := match l with N _ _ _ w _ => 0 <=? cmp w v | L => false end). set (br := match r with N _ _ _ w _ => cmp w v <=? 0 | L => false end).
  assert (Hloc : bl || br = false <-> match l with N _ _ _ w _ => cmp w v < 0 | L => True end /\ match r with N _ _ _ w _ => 0 < cmp w v | L => True end).
  { rewrite orb_false_iff. unfold bl, br. destruct l, r; rewrite ?Z.leb_gt; tauto. }
  destruct (bl || br) eqn:Hb.
  { exists 0. split; [done|]. right. split; [done|]. intros [_ Ho]. cbn [ordered] in Ho. assert (true = false) by (apply Hloc; tauto). done. }
  destruct Hlh as [(nl & -> & Hnl & Hol)|[-> Hl0]].
  2:{ exists 0. cbn. split; [done|]. right. split; [done|]. intros [(n & Hn) Ho]. apply Hl0. cbn [rb ordered] in Hn, Ho.
      destruct c; [|destruct n as [|n]; [done|]]; (split; [|tauto]); [exists n|exists n]; tauto. }
  rewrite (proj2 (Z.eqb_neq (Z.of_nat nl + 1) 0)) by lia. cbn [negb andb].
  destruct Hrh as [(nr & -> & Hnr & Hor)|[-> Hr0]].
  2:{ exists 0. cbn. split; [done|]. right. split; [done|]. intros [(n & Hn) Ho]. apply Hr0. cbn [rb ordered] in Hn, Ho.
      destruct c; [|destruct n as [|n]; [done|]]; (split; [|tauto]); [exists n|exists n]; tauto. }
  rewrite (proj2 (Z.eqb_neq (Z.of_nat nr + 1) 0)) by lia. cbn [negb andb].
  assert (Hdet : forall u k k', rb u k -> rb u k' -> k = k').
  { clear. induction u as [|a [] l IHl v r IHr]; intros k k'; cbn [rb]; [by intros -> ->|naive_solver|].
    destruct k, k'; try done. intros [H1 _] [H2 _]. by rewrite (IHl _ _ H1 H2). }
  destruct (Z.eqb_spec (Z.of_nat nl + 1) (Z.of_nat nr + 1)) as [E|E]; cbn [negb].
  - assert (nr = nl) as -> by lia. eexists. split; [reflexivity|]. left. destruct c.
    + exists nl. split; [done|]. cbn [rb ordered]. cbn [andb] in Hc. apply orb_false_iff in Hc as [? ?].
      destruct Hloc as [Hloc _]. specialize (Hloc eq_refl). tauto.
    + exists (S nl). split; [lia|]. cbn [rb ordered]. destruct Hloc as [Hloc _]. specialize (Hloc eq_refl). tauto.
  - exists 0. split; [done|]. right. split; [done|]. intros [(n & Hn) _]. apply E. cbn [rb] in Hn. destruct c; [|destruct n as [|n]; [done|]].
    + destruct Hn as (_ & _ & H1 & H2). by rewrite (Hdet _ _ _ H1 Hnl), (Hdet _ _ _ H2 Hnr) in *; lia.
    + destruct Hn as (H1 & H2). rewrite <- (Hdet _ _ _ H1 Hnl), <- (Hdet _ _ _ H2 Hnr). done.
Qed.

(** ** Freeing *)

(** [k] steps are enough for a tree of which the right spine is [k] short of twice its size *)
Fixpoint spine (t : tree) : nat := match t with L => O | N _ _ _ _ r => S (spine r) end.
Lemma spine_tsz t : (spine t <= tsz t)%nat.
Proof. induction t; cbn; lia. Qed.

Lemma dealloc_loop_spec : forall fuel m t, rep m t -> NoDup (addrs t) -> 0 ∉ addrs t ->
  (2 * tsz t - spine t < fuel)%nat ->
  exists m', dealloc_loop fuel m (ptr t) = Done m' /\ (forall x, x ∈ addrs t -> m' !! x = None) /\ frame m m' (addrs t).
Proof.
  induction fuel as [|fuel IH]; intros m t Hr Hn H0 Hf; [lia|]. cbn [dealloc_loop].
  destruct t as [|a c l v r]; [exists m; split; [done|]; split; [set_solver|done]|]. cbn [ptr].
  cbn [rep] in Hr. destruct Hr as (Ha & Hl & Hr). cbn [addrs tsz spine] in *.
  rewrite (proj2 (Z.eqb_neq a NULL)) by (unfold NULL; set_solver). rewrite (get_link_at _ _ _ false Ha). cbn [mbind outcome_bind link link0].
  apply NoDup_cons in Hn as [Han Hn]. pose proof (spine_tsz r) as Hsp. destruct l as [|b cb lb vb rb'].
  - cbn [ptr]. rewrite Z.eqb_refl, (get_link_at _ _ _ true Ha). cbn [mbind outcome_bind link link1]. cbn [addrs app] in *.
    destruct (IH (delete a m) r) as (m' & E & Hd & Hfr); [|done|set_solver|cbn in Hf; lia|].
    + apply (rep_frame m _ [a]); [|set_solver|done]. intros x Hx. by rewrite lookup_delete_ne by set_solver.
    + exists m'. split; [done|]. split.
      * intros x Hx. destruct (decide (x ∈ addrs r)) as [Hin|Hin]; [by apply Hd|]. rewrite Hfr by done.
        assert (x = a) as -> by set_solver. by rewrite lookup_delete_eq.
      * intros x Hx. rewrite Hfr by set_solver. by rewrite lookup_delete_ne by set_solver.
  - cbn [ptr rep addrs tsz app] in *. destruct Hl as (Hb & Hlb & Hrb). apply NoDup_cons in Hn as [Hbn Hn].
    rewrite (proj2 (Z.eqb_neq b NULL)) by (unfold NULL; set_solver). rewrite (get_link_at _ _ _ true Hb). cbn [mbind outcome_bind link link1].
    rewrite (set_link_at _ _ _ _ _ Ha). cbn [mbind outcome_bind with_link red link1 value].
    assert (Hab : a <> b) by set_solver. erewrite set_link_at by (rewrite lookup_insert_ne by done; exact Hb). cbn [mbind outcome_bind with_link red link0 value].
    set (m1 := <[b := _]> _). pose proof Hn as Hn'. apply NoDup_app in Hn' as (_ & Hdj & _).
    assert (Hp : addrs (N b cb lb vb (N a c rb' v r)) ≡ₚ a :: b :: (addrs lb ++ addrs rb') ++ addrs r) by (cbn; solve_Permutation).
    destruct (IH m1 (N b cb lb vb (N a c rb' v r))) as (m' & E & Hd & Hfr).
    + cbn [rep ptr]. unfold m1. split_and?; [lk|apply rep_insert; [set_solver|]; apply rep_insert; [set_solver|done]| | |].
      * rewrite lookup_insert_ne by done. lk.
      * apply rep_insert; [set_solver|]; apply rep_insert; [set_solver|done].
      * apply rep_insert; [set_solver|]; apply rep_insert; [set_solver|done].
    + rewrite Hp. apply NoDup_cons. split; [set_solver|]. apply NoDup_cons. split; [set_solver|done].
    + rewrite Hp. set_solver.
    + cbn [tsz spine]. lia.
    + cbn [ptr] in E. exists m'. split; [done|]. split.
      * intros x Hx. apply Hd. rewrite Hp. exact Hx.
      * intros x Hx. rewrite Hfr by (rewrite Hp; exact Hx). unfold m1. rewrite !lookup_insert_ne by set_solver. done.
Qed.

(** all nodes of a tree are freed, once each *)
Lemma dealloc_spec T t : is_tree T t -> rb_tree_dealloc T = Done ∅.
Proof.
  intros (Hroot & Hr & Hok & _ & _ & Hd & _). unfold rb_tree_dealloc. rewrite Hroot.
  destruct (dealloc_loop_spec (2 * size (mem T) + 1) (mem T) t Hr) as (m' & -> & Hnone & Hf);
    [apply Hok|apply Hok|pose proof (rep_size _ _ Hr (proj1 Hok)); lia|].
  f_equal. apply map_eq. intros x. rewrite lookup_empty. destruct (decide (x ∈ addrs t)) as [Hx|Hx]; [by apply Hnone|].
  rewrite Hf by done. apply not_elem_of_dom. rewrite Hd. by rewrite elem_of_list_to_set.
Qed.
