(* ===== verification/RbtreeTable.v ===== *)
(** * Red-black trees as ordered tables

    What the red-black tree promises to its clients, as the interface [Table] with
    its laws [TableLaws], the tree's instances, and the refinement of a sorted
    list. *)
From S2P Require Import Prelude Rbtree RbtreeTree RbtreeInsert RbtreeProofs RbtreeRemove RbtreeIter.

(** ** The interface *)

Class Table (T I : Type) := {
  tb_empty : T;
  tb_find : (Z -> Z -> Z) -> T -> Z -> outcome Z;
  tb_insert : (Z -> Z -> Z) -> T -> Z -> Z -> outcome (Z * T);
  tb_remove : (Z -> Z -> Z) -> T -> Z -> outcome (Z * T);
  tb_size : T -> Z;
  tb_first : T -> outcome (Z * I);
  tb_next : T -> I -> outcome (Z * I);
}.

(** [tb_holds T l]: the table holds the values [l] in this order; [tb_fresh T p]: a new
    node may be put at [p]; [tb_at T it l]: the iterator has still to visit [l] *)
Class TableLaws (T I : Type) `{!Table T I} := {
  tb_holds : T -> list Z -> Prop;
  tb_fresh : T -> Z -> Prop;
  tb_at : T -> I -> list Z -> Prop;
  tb_empty_holds : tb_holds tb_empty [];
  tb_size_holds t l : tb_holds t l -> tb_size t = Z.of_nat (length l);
  tb_find_holds cmp t l key : tb_holds t l -> mono cmp key l -> exists r, tb_find cmp t key = Done r /\
    ((r ∈ l /\ cmp r key = 0) \/ (r = NULL /\ Forall (fun z => cmp z key <> 0) l));
  tb_insert_holds cmp t l node key : tb_holds t l -> Z.of_nat (length l) < 2 ^ 32 - 1 -> tb_fresh t node ->
    cmp key key = 0 -> mono cmp key l -> Forall (fun z => cmp z key <> 0) l ->
    exists t' l1 l2, tb_insert cmp t node key = Done (1, t') /\ l = l1 ++ l2 /\ Forall (neg cmp key) l1 /\ Forall (pos cmp key) l2 /\
      tb_holds t' (l1 ++ key :: l2) /\ (forall p, tb_fresh t p -> p <> node -> tb_fresh t' p);
  tb_remove_holds cmp t l1 z l2 key : tb_holds t (l1 ++ z :: l2) -> Z.of_nat (length (l1 ++ z :: l2)) < 2 ^ 32 ->
    Forall (neg cmp key) l1 -> cmp z key = 0 -> Forall (pos cmp key) l2 ->
    exists t', tb_remove cmp t key = Done (1, t') /\ tb_holds t' (l1 ++ l2) /\ (forall p, tb_fresh t p -> tb_fresh t' p);
  tb_first_holds t l : tb_holds t l -> Z.of_nat (length l) < 2 ^ 32 ->
    match l with
    | [] => exists it, tb_first t = Done (NULL, it)
    | v :: rest => exists it, tb_first t = Done (v, it) /\ tb_at t it rest
    end;
  tb_next_holds t l it rest : tb_holds t l -> Z.of_nat (length l) < 2 ^ 32 -> tb_at t it rest ->
    match rest with
    | [] => exists it', tb_next t it = Done (NULL, it')
    | v :: rest' => exists it', tb_next t it = Done (v, it') /\ tb_at t it' rest'
    end;
}.

(** ** The red-black tree is a table *)

#[export] Instance rb_table : Table rb_tree rb_iter := {
  tb_empty := rb_tree_init;
  tb_find := rb_tree_find;
  tb_insert := rb_tree_insert;
  tb_remove := rb_tree_remove;
  tb_size := rb_tree_size;
  tb_first := rb_iter_first;
  tb_next := rb_iter_next;
}.

Definition rb_holds (T : rb_tree) (l : list Z) : Prop := exists t, is_tree T t /\ inorder t = l.
Definition rb_fresh (T : rb_tree) (p : Z) : Prop := mem T !! p = None /\ p <> 0 /\ p <> HEAD.
Definition rb_at (T : rb_tree) (it : rb_iter) (rest : list Z) : Prop := exists t, is_tree T t /\ at_pos t false it rest.

Lemma split_unique cmp key l1 z l2 m1 y m2 : l1 ++ z :: l2 = m1 ++ y :: m2 ->
  Forall (neg cmp key) l1 -> Forall (pos cmp key) l2 -> cmp y key = 0 -> m1 = l1 /\ y = z /\ m2 = l2.
Proof.
  revert m1. induction l1 as [|a l1 IH]; intros m1 E H1 H2 Hy.
  - destruct m1 as [|b m1]; [by injection E as -> ->|]. injection E as -> ->. apply Forall_app in H2 as [_ H2].
    inversion H2; subst. unfold pos in *. lia.
  - apply Forall_cons in H1 as [Ha H1]. destruct m1 as [|b m1]; [injection E as -> _; unfold neg in Ha; lia|].
    injection E as -> E. by destruct (IH m1 E H1 H2 Hy) as (-> & -> & ->).
Qed.

Lemma mono_of_split cmp key l1 z l2 : Forall (neg cmp key) l1 -> cmp z key = 0 -> Forall (pos cmp key) l2 -> mono cmp key (l1 ++ z :: l2).
Proof.
  intros H1 Hz H2. assert (Hr : mono cmp key (z :: l2)).
  { constructor; [|apply (Forall_impl _ _ _ H2); unfold pos; intros x Hx; cbn; lia].
    induction H2 as [|a l2 Ha H2 IH]; [constructor|]. constructor; [exact IH|]. apply (Forall_impl _ _ _ H2). unfold pos in *. intros x Hx. cbn. lia. }
  induction H1 as [|a l1 Ha H1 IH]; [done|]. cbn. constructor; [exact IH|]. unfold neg in Ha. apply Forall_app. split.
  - apply (Forall_impl _ _ _ H1). unfold neg. intros x Hx. cbn. lia.
  - constructor; [cbn; lia|]. apply (Forall_impl _ _ _ H2). unfold pos. intros x Hx. cbn. lia.
Qed.

#[export] Instance rb_table_laws : TableLaws rb_tree rb_iter.
Proof.
  refine {| tb_holds := rb_holds; tb_fresh := rb_fresh; tb_at := rb_at |}.
  - exists L. by split; [apply is_tree_init|].
  - intros T l (t & HT & <-). rewrite length_inorder. by destruct HT as (_ & _ & _ & _ & _ & _ & ?).
  - intros cmp T l key (t & HT & <-) Hm. by apply rb_find_spec.
  - intros cmp T l node key (t & HT & <-) Hs (Hf & Hn0 & HnH) Hr Hm Hall.
    assert (Hs' : tsize T < 2 ^ 32 - 1) by (destruct HT as (_ & _ & _ & _ & _ & _ & ->); by rewrite <- length_inorder).
    destruct (rb_insert_spec cmp node key T t HT Hs' Hr Hm Hf Hn0 HnH) as (T' & E & [(t' & l1 & l2 & HT' & Hl & H1 & H2 & Hi & Ha)|[(z & Hz & Hc) _]]).
    + exists T', l1, l2. split_and?; try done; [by exists t'|]. intros p (Hp & Hp0 & HpH) Hne. unfold rb_fresh. split_and?; try done.
      apply (is_tree_fresh T' t' p HT'). apply (is_tree_fresh T t p HT) in Hp. rewrite Ha. set_solver.
    + exfalso. rewrite Forall_forall in Hall. by apply (Hall z Hz).
  - intros cmp T l1 z l2 key (t & HT & Hi) Hs H1 Hz H2.
    assert (Hs' : tsize T < 2 ^ 32) by (destruct HT as (_ & _ & _ & _ & _ & _ & ->); by rewrite <- length_inorder, Hi).
    assert (Hm : mono cmp key (inorder t)) by (rewrite Hi; by apply mono_of_split).
    assert (Hne : t <> L) by (intros ->; by destruct l1).
    destruct (rb_remove_spec cmp key T t HT Hne Hs' Hm) as (T' & E & [[_ (t' & m1 & y & m2 & HT' & Hm' & Hy & Hi' & Ha)]|[Hall _]]).
    + intros m1 y m2 Em Hy. rewrite Hi in Em. by destruct (split_unique cmp key _ _ _ _ _ _ Em H1 H2 Hy) as (_ & _ & ->).
    + exists T'. split; [done|]. rewrite Hi in Hm'. destruct (split_unique cmp key _ _ _ _ _ _ Hm' H1 H2 Hy) as (-> & _ & ->). split; [by exists t'|].
      intros p (Hp & Hp0 & HpH). unfold rb_fresh. split_and?; try done. apply (is_tree_fresh T' t' p HT'). apply (is_tree_fresh T t p HT) in Hp. set_solver.
    + exfalso. rewrite Hi in Hall. apply Forall_app in Hall as [_ Hall]. by inversion Hall.
  - intros T l (t & HT & <-) Hs. cbn. unfold rb_iter_first. rewrite length_inorder in Hs.
    destruct (decide (t = L)) as [->|Hne].
    + destruct HT as (Hroot & _). unfold rb_iter_start. rewrite Hroot. cbn. by eexists.
    + destruct (start_spec T t HT Hs false Hne) as (v & it & rest & E & Hp & Ho). cbn in Ho. rewrite Ho. exists it. split; [done|]. by exists t.
  - intros T l it rest (t & HT & <-) Hs (t' & HT' & Hp). assert (Hs' : Z.of_nat (tsz t') < 2 ^ 32).
    { destruct HT as (_ & _ & _ & _ & _ & _ & E). destruct HT' as (_ & _ & _ & _ & _ & _ & E'). rewrite length_inorder in Hs. lia. }
    pose proof (move_spec T t' HT' Hs' false it rest Hp) as H. destruct rest as [|v rest]; [done|]. destruct H as (it' & E & Hp').
    exists it'. split; [done|]. by exists t'.
Defined.

(** ** A table under a total order is a sorted list *)

(** the comparison callback orders the values; values it calls equal are one key *)
Class ValueOrder (cmp : Z -> Z -> Z) : Prop := {
  vo_refl a : cmp a a = 0;
  vo_anti a b : cmp a b < 0 <-> 0 < cmp b a;
  vo_trans_l a b c : cmp a b < 0 -> cmp b c <= 0 -> cmp a c < 0;
  vo_trans_r a b c : cmp a b <= 0 -> cmp b c < 0 -> cmp a c < 0;
}.

Definition sorted (cmp : Z -> Z -> Z) (l : list Z) : Prop := StronglySorted (fun a b => cmp a b < 0) l.

Inductive table_op := Find (key : Z) | Insert (node key : Z) | Remove (key : Z).

Definition spec_step (cmp : Z -> Z -> Z) (l : list Z) (o : table_op) : Z * list Z :=
  match o with
  | Find key => (match filter (fun z => cmp z key = 0) l with z :: _ => z | [] => NULL end, l)
  | Insert _ key => (1, filter (fun z => cmp z key < 0) l ++ key :: filter (fun z => 0 < cmp z key) l)
  | Remove key => (1, filter (fun z => cmp z key <> 0) l)
  end.

Section Order.
Context {T I : Type} `{!Table T I, !TableLaws T I} (cmp : Z -> Z -> Z) `{!ValueOrder cmp}.

Definition table_step (t : T) (o : table_op) : outcome (Z * T) :=
  match o with
  | Find key => r ← tb_find cmp t key; Done (r, t)
  | Insert node key => tb_insert cmp t node key
  | Remove key => tb_remove cmp t key
  end.

(** a client inserts keys that are not there, in fresh nodes, and removes keys that are *)
Definition op_legal (t : T) (l : list Z) (o : table_op) : Prop :=
  match o with
  | Find _ => True
  | Insert node key => tb_fresh t node /\ Forall (fun z => cmp z key <> 0) l
  | Remove key => Exists (fun z => cmp z key = 0) l
  end.

Lemma sorted_app l1 l2 : sorted cmp (l1 ++ l2) <-> sorted cmp l1 /\ sorted cmp l2 /\ Forall (fun a => Forall (fun b => cmp a b < 0) l2) l1.
Proof.
  unfold sorted. induction l1 as [|a l1 IH]; cbn.
  - split; [intros H; split_and?; [constructor|done|constructor]|tauto].
  - split.
    + intros H. apply StronglySorted_inv in H as [H Ha]. apply IH in H as (H1 & H2 & H3). apply Forall_app in Ha as [Ha1 Ha2].
      split_and?; [by constructor|done|by constructor].
    + intros (H1 & H2 & H3). apply StronglySorted_inv in H1 as [H1 Ha]. apply Forall_cons in H3 as [H3 H4].
      constructor; [apply IH; tauto|]. by apply Forall_app.
Qed.

Lemma sorted_mono l key : sorted cmp l -> mono cmp key l.
Proof.
  unfold sorted, mono. induction 1 as [|a l Hl IH Ha]; constructor; [exact IH|]. apply (Forall_impl _ _ _ Ha). intros b Hab.
  destruct (Z.lt_trichotomy (cmp b key) 0) as [Hb|[Hb|Hb]].
  - pose proof (vo_trans_l a b key Hab ltac:(lia)). lia.
  - pose proof (vo_trans_l a b key Hab ltac:(lia)). lia.
  - lia.
Qed.

Lemma sorted_cut l1 z l2 key : sorted cmp (l1 ++ z :: l2) -> cmp z key = 0 -> Forall (neg cmp key) l1 /\ Forall (pos cmp key) l2.
Proof.
  intros Hs Hz. apply sorted_app in Hs as (_ & H2 & H3). apply StronglySorted_inv in H2 as [_ H2]. unfold neg, pos. split.
  - apply (Forall_impl _ _ _ H3). intros a Ha. apply Forall_cons in Ha as [Ha _]. apply (vo_trans_l a z key); lia.
  - apply (Forall_impl _ _ _ H2). intros b Hb. destruct (Z.le_gt_cases (cmp b key) 0) as [Hle|]; [|lia]. exfalso.
    pose proof (vo_trans_l z b key Hb Hle). lia.
Qed.

Lemma filter_cut (P : Z -> Prop) `{!forall x, Decision (P x)} l1 l2 :
  Forall P l1 -> Forall (fun x => ~ P x) l2 -> filter P (l1 ++ l2) = l1 /\ filter P (l2 ++ l1) = l1.
Proof.
  intros H1 H2. rewrite !filter_app. assert (filter P l1 = l1) as ->.
  { clear H2. induction H1 as [|a l Ha _ IH]; [done|]. by rewrite filter_cons, decide_True, IH by done. }
  assert (filter P l2 = []) as ->.
  { clear H1. induction H2 as [|a l Ha _ IH]; [done|]. by rewrite filter_cons, decide_False by done. }
  by rewrite app_nil_r.
Qed.

Lemma step_refines t l o : tb_holds t l -> sorted cmp l -> Z.of_nat (length l) < 2 ^ 32 - 1 -> op_legal t l o ->
  exists t', table_step t o = Done ((spec_step cmp l o).1, t') /\ tb_holds t' (spec_step cmp l o).2 /\ sorted cmp (spec_step cmp l o).2.
Proof.
  intros Ht Hs Hlen Ho. destruct o as [key|node key|key]; cbn [table_step spec_step op_legal fst snd] in *.
  - destruct (tb_find_holds cmp t l key Ht (sorted_mono l key Hs)) as (r & -> & Hr). cbn [mbind outcome_bind]. exists t. split; [|done].
    do 2 f_equal. destruct Hr as [[Hin Hr]|[-> Hall]].
    + apply list_elem_of_split in Hin as (l1 & l2 & ->). destruct (sorted_cut l1 r l2 key Hs Hr) as [H1 H2].
      rewrite filter_app, filter_cons, decide_True by done.
      assert (filter (fun z => cmp z key = 0) l1 = []) as ->; [|done].
      clear -H1. induction H1 as [|a l1 Ha H1 IH]; [done|]. unfold neg in Ha. by rewrite filter_cons, decide_False by lia.
    + assert (filter (fun z => cmp z key = 0) l = []) as ->; [|done]. clear -Hall. induction Hall as [|a l Ha _ IH]; [done|].
      by rewrite filter_cons, decide_False by done.
  - destruct Ho as [Hf Hall].
    destruct (tb_insert_holds cmp t l node key Ht Hlen Hf (vo_refl key) (sorted_mono l key Hs) Hall) as (t' & l1 & l2 & -> & -> & H1 & H2 & Ht' & _).
    exists t'. split; [done|]. unfold neg, pos in H1, H2.
    destruct (filter_cut (fun z => cmp z key < 0) l1 l2 H1) as [-> _]; [apply (Forall_impl _ _ _ H2); cbn; lia|].
    destruct (filter_cut (fun z => 0 < cmp z key) l2 l1 H2) as [_ ->]; [apply (Forall_impl _ _ _ H1); cbn; lia|].
    split; [done|]. apply sorted_app in Hs as (Hs1 & Hs2 & H3). apply sorted_app. split; [done|]. split.
    + constructor; [done|]. apply (Forall_impl _ _ _ H2). intros b Hb. by apply vo_anti.
    + rewrite Forall_forall in H1, H3 |- *. intros a Ha. constructor; [by apply H1|by apply H3].
  - apply Exists_exists in Ho as (z & Hin & Hz). apply list_elem_of_split in Hin as (l1 & l2 & ->).
    destruct (sorted_cut l1 z l2 key Hs Hz) as [H1 H2].
    destruct (tb_remove_holds cmp t l1 z l2 key Ht ltac:(lia) H1 Hz H2) as (t' & -> & Ht' & _). exists t'. split; [done|].
    assert (filter (fun z => cmp z key <> 0) (l1 ++ z :: l2) = l1 ++ l2) as ->.
    { rewrite filter_app, filter_cons, decide_False by lia. unfold neg, pos in *.
      destruct (filter_cut (fun z => cmp z key <> 0) l1 []) as [E _]; [apply (Forall_impl _ _ _ H1); cbn; lia|constructor|]. rewrite app_nil_r in E. rewrite E.
      destruct (filter_cut (fun z => cmp z key <> 0) l2 []) as [E' _]; [apply (Forall_impl _ _ _ H2); cbn; lia|constructor|]. rewrite app_nil_r in E'. by rewrite E'. }
    split; [done|]. apply sorted_app in Hs as (Hs1 & Hs2 & H3). apply StronglySorted_inv in Hs2 as [Hs2 _]. apply sorted_app. split_and?; try done.
    apply (Forall_impl _ _ _ H3). intros a Ha. by apply Forall_cons in Ha as [_ Ha].
Qed.
End Order.

Lemma sorted_ordered cmp `{!ValueOrder cmp} t : sorted cmp (inorder t) -> ordered cmp t.
Proof.
  induction t as [|a c l IHl v r IHr]; [done|]. cbn [inorder ordered]. intros Hs. apply (sorted_app cmp) in Hs as (H1 & H2 & H3).
  pose proof (StronglySorted_inv H2) as [H2' Hv]. split_and?; [by apply IHl|by apply IHr| |].
  - destruct l as [|b ? ? w ?]; [done|]. cbn in H3. rewrite Forall_forall in H3. specialize (H3 w ltac:(set_solver)).
    by apply Forall_cons in H3 as [? _].
  - destruct r as [|b ? ? w ?]; [done|]. cbn in Hv. rewrite Forall_forall in Hv. apply vo_anti, Hv. set_solver.
Qed.

(** C18: the tree as an ordered table.  With a callback that orders the values, finding a
    value, inserting one that is not there and removing one that is give the results
    of the same operations on a sorted list; every operation ends without a bad memory
    access, no node is lost, and the tree stays a balanced search tree: its self test
    passes. *)
Theorem rb_tree_refines_sorted_list (cmp : Z -> Z -> Z) (Hcmp : ValueOrder cmp) (T : rb_tree) (l : list Z) (o : table_op) :
  rb_holds T l -> sorted cmp l -> Z.of_nat (length l) < 2 ^ 32 - 1 -> op_legal cmp T l o ->
  exists T', table_step cmp T o = Done ((spec_step cmp l o).1, T') /\ rb_holds T' (spec_step cmp l o).2 /\
    sorted cmp (spec_step cmp l o).2 /\
    exists n, rb_tree_test cmp (S (size (mem T'))) (mem T') (root T') = Done (Z.of_nat n + 1).
Proof.
  intros HT Hs Hlen Ho. change (tb_holds T l) in HT. destruct (step_refines (T := rb_tree) (I := rb_iter) cmp T l o HT Hs Hlen Ho) as (T' & E & HT' & Hs'). exists T'. change (rb_holds T' (spec_step cmp l o).2) in HT'. split_and?; try done.
  destruct HT' as (t' & HT' & Hi). rewrite <- Hi in Hs'. pose proof HT' as (Hroot & Hr & Hok & (n & Hrb) & _). rewrite Hroot.
  assert (Hh : (height t' <= tsz t')%nat) by (clear; induction t' as [|a c l IHl v r IHr]; cbn; lia).
  pose proof (rep_size _ _ Hr (proj1 Hok)) as Hsize.
  destruct (test_spec cmp (mem T') t' Hr (proj1 (proj2 Hok)) (S (size (mem T'))) ltac:(lia)) as (r & E' & [(k & -> & _)|[_ Hno]]).
  - by exists k.
  - exfalso. apply Hno. split; [by exists n|]. by apply sorted_ordered.
Qed.

(** Iterating.  From either end of a tree of less than 2^32 values the iterator gives
    all of them, in order, and then ends; the array for its path is never overrun. *)
Theorem rb_iter_visits_all (T : rb_tree) (l : list Z) (d : bool) :
  rb_holds T l -> Z.of_nat (length l) < 2 ^ 32 -> NULL ∉ l -> iter_list T d = Done (if d then rev l else l).
Proof.
  intros (t & HT & <-) Hs Hn. rewrite length_inorder in Hs. by rewrite (iter_list_spec T t HT Hs d Hn).
Qed.

(** A second insertion of a key reports success, counts it, and loses the new node. *)
Lemma rb_insert_duplicate_leaks : exists T T', rb_tree_insert (fun a b => a - b) rb_tree_init 100 7 = Done (1, T) /\
  rb_tree_insert (fun a b => a - b) T 200 7 = Done (1, T') /\ rb_tree_size T' = 2 /\ root T' = 100 /\
  mem T' !! 100 = Some (mk_node false NULL NULL 7) /\ is_Some (mem T' !! 200).
Proof. eexists _, _. split; [by vm_compute|]. split; [by vm_compute|]. split_and?; try by vm_compute. by eexists; vm_compute. Qed.

(** Removing a value that is not there reports success and counts it. *)
Lemma rb_remove_absent_miscounts : exists T T', rb_tree_insert (fun a b => a - b) rb_tree_init 100 7 = Done (1, T) /\
  rb_tree_remove (fun a b => a - b) T 8 = Done (1, T') /\ rb_tree_size T' = 0 /\ root T' = 100.
Proof. eexists _, _. split; [by vm_compute|]. split; [by vm_compute|]. by split. Qed.

(** ** Witnesses *)

Module Witness.
Definition cmp (a b : Z) : Z := a - b.
Lemma cmp_order : ValueOrder cmp.
Proof. split; intros; unfold cmp in *; lia. Defined.

Fixpoint run (T : rb_tree) (ops : list table_op) : outcome rb_tree :=
  match ops with [] => Done T | o :: ops => '(_, T) ← table_step cmp T o; run T ops end.
Lemma rb_refines_witness : exists T T', run rb_tree_init [Insert 101 2; Insert 102 4; Insert 103 6; Insert 104 8] = Done T /\
  table_step cmp T (Remove 4) = Done (1, T') /\ rb_holds T' [2; 6; 8].
Proof.
  eexists. assert (HT : is_tree {| mem := <[101 := mk_node false 0 0 2]> (<[102 := mk_node false 101 103 4]> (<[103 := mk_node false 0 104 6]> (<[104 := mk_node true 0 0 8]> ∅)));
     root := 102; tsize := 4 |} (N 102 false (N 101 false L 2 L) 4 (N 103 false L 6 (N 104 true L 8 L)))).
  { unfold is_tree, okaddrs. split_and?; try (by vm_compute); try by (apply (bool_decide_unpack _); vm_compute). by exists 2%nat. }
  destruct (rb_tree_refines_sorted_list cmp cmp_order _ [2; 4; 6; 8] (Remove 4) (ex_intro _ _ (conj HT eq_refl)))
    as (T' & E & HT' & _).
  - repeat constructor.
  - reflexivity.
  - apply Exists_cons_tl, Exists_cons_hd. reflexivity.
  - exists T'. split; [|split; [exact E|exact HT']]. by vm_compute.
Defined.
Lemma rb_iter_witness : iter_list {| mem := <[102 := mk_node false 0 104 6]> (<[104 := mk_node true 0 0 8]> ∅); root := 102; tsize := 2 |} true = Done [8; 6].
Proof.
  apply (rb_iter_visits_all _ [6; 8] true).
  - exists (N 102 false L 6 (N 104 true L 8 L)). split; [|reflexivity]. unfold is_tree, okaddrs.
    split_and?; try (by vm_compute); try by (apply (bool_decide_unpack _); vm_compute). by exists 1%nat.
  - reflexivity.
  - apply (bool_decide_unpack _). by vm_compute.
Defined.
End Witness.
