(* ===== verification/Vfs.v ===== *)
(** * The virtual file system: src/fs/vfs/src

    Drivers and file systems are registered under path names ([vfs_register.c]) as
    inodes in one ordered table ([vfs_inode.c]); open files are in another
    ([vfs_file.c]); the calls of [vfs.c] look a path or a descriptor up and hand
    over to the operations of the driver or file system.  The tables are any
    [Table]; the SDK's is the red-black tree.

    [D] is the state of the drivers and file systems, [i_fops] and [i_dops] the
    operations at an operations pointer; an operation gets the inode of the file,
    the file itself, and the state.  Inodes and files live at addresses; [alloc n]
    is the address of the [n]-th allocation, or [NULL].  A failed [VFS_ASSERT] stops
    the system: [Fault].  Taking the mutex while it is held waits for ever:
    [NoFuel]; taking it before it is created is a fault.  Error numbers are
    newlib's. *)
From S2P Require Import Prelude RbtreeTable.

(** ** Definitions *)

Definition EINVAL := 22.
Definition ENOENT := 2.
Definition ENODEV := 19.
Definition EBUSY := 16.
Definition ENOMEM := 12.
Definition ENFILE := 23.
Definition ENAMETOOLONG := 91.
Definition ENOSYS := 88.
Definition VFS_SUCCESS := 0.
Definition PATH_MAX := 256.
Definition AOS_CONFIG_VFS_DEV_NODES := 30.
Definition AOS_CONFIG_VFS_FD_OFFSET := 2.
Definition MAX_FILE_NUM := AOS_CONFIG_VFS_DEV_NODES * 2.
Definition FILE_BITMAP_NUM := (MAX_FILE_NUM + 31) / 32.
Definition VFS_TYPE_NOT_INIT := 0.
Definition VFS_TYPE_CHAR_DEV := 1.
Definition VFS_TYPE_BLOCK_DEV := 2.
Definition VFS_TYPE_FS_DEV := 3.
Definition slash : Z := 47.
(** the local variable a search compares with *)
Definition KEY : Z := -2.

Record inode_t := { ops : Z; i_arg : Z; i_name : list Z; i_flags : Z; type : Z; refs : Z }.
Record file_t := { node : Z; f_arg : Z; offset : Z; fd : Z }.
Record stat := { st_size : Z; st_mode : Z }.

Definition INODE_IS_TYPE (i : inode_t) (t : Z) : bool := type i =? t.
Definition INODE_IS_FS (i : inode_t) : bool := INODE_IS_TYPE i VFS_TYPE_FS_DEV.
Definition with_refs (i : inode_t) (r : Z) : inode_t :=
  {| ops := ops i; i_arg := i_arg i; i_name := i_name i; i_flags := i_flags i; type := type i; refs := r |}.
Definition with_flags (i : inode_t) (fl : Z) : inode_t :=
  {| ops := ops i; i_arg := i_arg i; i_name := i_name i; i_flags := fl; type := type i; refs := refs i |}.

(** *** Comparing names *)

Fixpoint strcmp (a b : list Z) : Z :=
  match a, b with
  | [], [] => 0
  | [], d :: _ => - d
  | c :: _, [] => c
  | c :: a, d :: b => if c =? d then strcmp a b else c - d
  end.
Definition strncmp (a b : list Z) (n : nat) : Z := strcmp (take n a) (take n b).

Definition inode_cmp (a b : inode_t) : Z :=
  if xorb (INODE_IS_FS a) (INODE_IS_FS b) then
    let ret := strncmp (i_name a) (i_name b) (length (if INODE_IS_FS a then i_name a else i_name b)) in
    if (ret =? 0) && negb (Nat.eqb (length (i_name a)) (length (i_name b))) then
      if INODE_IS_FS a then strncmp (drop (length (i_name a)) (i_name b)) [slash] 1
      else strncmp (drop (length (i_name b)) (i_name a)) [slash] 1
    else ret
  else strcmp (i_name a) (i_name b).
(** the callback reads the inodes at the two pointers, which the table holds *)
Definition inode_cmp_cb (s : gmap Z inode_t) (a b : Z) : Z :=
  match s !! a, s !! b with Some x, Some y => inode_cmp x y | _, _ => 0 end.
Definition file_cmp_cb (s : gmap Z file_t) (a b : Z) : Z :=
  match s !! a, s !! b with
  | Some x, Some y => Z.b2z (fd y <? fd x) - Z.b2z (fd x <? fd y)
  | _, _ => 0
  end.

(** *** Operations of drivers and file systems; [None] is a null pointer *)
Record fs_ops (D : Type) := {
  fs_open : option (inode_t -> file_t -> list Z -> Z -> D -> outcome (Z * file_t * D));
  fs_close : option (inode_t -> file_t -> D -> outcome (Z * file_t * D));
  fs_read : option (inode_t -> file_t -> Z -> D -> outcome (Z * list Z * file_t * D));
  fs_write : option (inode_t -> file_t -> list Z -> D -> outcome (Z * file_t * D));
  fs_lseek : option (inode_t -> file_t -> Z -> Z -> D -> outcome (Z * file_t * D));
  fs_sync : option (inode_t -> file_t -> D -> outcome (Z * file_t * D));
  fs_stat : option (inode_t -> file_t -> list Z -> stat -> D -> outcome (Z * stat * D));
  fs_unlink : option (inode_t -> file_t -> list Z -> D -> outcome (Z * D));
  fs_rename : option (inode_t -> file_t -> list Z -> list Z -> D -> outcome (Z * D));
  fs_opendir : option (inode_t -> file_t -> list Z -> D -> outcome (Z * D));
  fs_readdir : option (inode_t -> file_t -> Z -> D -> outcome (option (list Z) * D));
  fs_closedir : option (inode_t -> file_t -> Z -> D -> outcome (Z * D));
  fs_mkdir : option (inode_t -> file_t -> list Z -> D -> outcome (Z * D));
  fs_rmdir : option (inode_t -> file_t -> list Z -> D -> outcome (Z * D));
  fs_rewinddir : option (inode_t -> file_t -> Z -> D -> outcome D);
  fs_telldir : option (inode_t -> file_t -> Z -> D -> outcome (Z * D));
  fs_seekdir : option (inode_t -> file_t -> Z -> Z -> D -> outcome D);
  fs_ioctl : option (inode_t -> file_t -> Z -> Z -> D -> outcome (Z * file_t * D));
  fs_statfs : option (inode_t -> file_t -> list Z -> D -> outcome (Z * D));
  fs_access : option (inode_t -> file_t -> list Z -> Z -> D -> outcome (Z * D));
}.
Record file_ops (D : Type) := {
  d_open : option (inode_t -> file_t -> D -> outcome (Z * file_t * D));
  d_close : option (inode_t -> file_t -> D -> outcome (Z * file_t * D));
  d_read : option (inode_t -> file_t -> Z -> D -> outcome (Z * list Z * file_t * D));
  d_write : option (inode_t -> file_t -> list Z -> D -> outcome (Z * file_t * D));
  d_ioctl : option (inode_t -> file_t -> Z -> Z -> D -> outcome (Z * file_t * D));
  d_sync : option (inode_t -> file_t -> D -> outcome (Z * file_t * D));
}.
Arguments fs_open {D}. Arguments fs_close {D}. Arguments fs_read {D}. Arguments fs_write {D}. Arguments fs_lseek {D}.
Arguments fs_sync {D}. Arguments fs_stat {D}. Arguments fs_unlink {D}. Arguments fs_rename {D}. Arguments fs_opendir {D}.
Arguments fs_readdir {D}. Arguments fs_closedir {D}. Arguments fs_mkdir {D}. Arguments fs_rmdir {D}. Arguments fs_rewinddir {D}.
Arguments fs_telldir {D}. Arguments fs_seekdir {D}. Arguments fs_ioctl {D}. Arguments fs_statfs {D}. Arguments fs_access {D}.
Arguments d_open {D}. Arguments d_close {D}. Arguments d_read {D}. Arguments d_write {D}. Arguments d_ioctl {D}. Arguments d_sync {D}.

(** *** The state: the mutex and whether it is held, the tables and what they point
    to, the bitmap of descriptors, the descriptors kept in directory handles, the
    number of allocations, and the drivers *)
Record vfs (T D : Type) := mk_vfs {
  g_vfs_mutex : option bool;
  inode_rb_tree : option T;
  file_rb_tree : option T;
  fd_bitmap : list Z;
  inodes : gmap Z inode_t;
  files : gmap Z file_t;
  dirs : gmap Z Z;
  nalloc : nat;
  dev : D;
}.
Arguments mk_vfs {T D}. Arguments g_vfs_mutex {T D}. Arguments inode_rb_tree {T D}. Arguments file_rb_tree {T D}.
Arguments fd_bitmap {T D}. Arguments inodes {T D}. Arguments files {T D}. Arguments dirs {T D}. Arguments nalloc {T D}. Arguments dev {T D}.

Section Vfs.
Context {T I D : Type} `{!Table T I}.
Context (alloc : nat -> Z) (i_fops : Z -> fs_ops D) (i_dops : Z -> file_ops D).
#[local] Abbreviation W := (vfs T D).

Definition set_mutex (w : W) x : W := mk_vfs x (inode_rb_tree w) (file_rb_tree w) (fd_bitmap w) (inodes w) (files w) (dirs w) (nalloc w) (dev w).
Definition set_itree (w : W) x : W := mk_vfs (g_vfs_mutex w) x (file_rb_tree w) (fd_bitmap w) (inodes w) (files w) (dirs w) (nalloc w) (dev w).
Definition set_ftree (w : W) x b : W := mk_vfs (g_vfs_mutex w) (inode_rb_tree w) x b (inodes w) (files w) (dirs w) (nalloc w) (dev w).
Definition set_inodes (w : W) x : W := mk_vfs (g_vfs_mutex w) (inode_rb_tree w) (file_rb_tree w) (fd_bitmap w) x (files w) (dirs w) (nalloc w) (dev w).
Definition set_files (w : W) x : W := mk_vfs (g_vfs_mutex w) (inode_rb_tree w) (file_rb_tree w) (fd_bitmap w) (inodes w) x (dirs w) (nalloc w) (dev w).
Definition set_dirs (w : W) x : W := mk_vfs (g_vfs_mutex w) (inode_rb_tree w) (file_rb_tree w) (fd_bitmap w) (inodes w) (files w) x (nalloc w) (dev w).
Definition set_dev (w : W) x : W := mk_vfs (g_vfs_mutex w) (inode_rb_tree w) (file_rb_tree w) (fd_bitmap w) (inodes w) (files w) (dirs w) (nalloc w) x.

Definition pvPortMalloc (w : W) : Z * W :=
  (alloc (nalloc w), mk_vfs (g_vfs_mutex w) (inode_rb_tree w) (file_rb_tree w) (fd_bitmap w) (inodes w) (files w) (dirs w) (S (nalloc w)) (dev w)).
Definition xSemaphoreTake (w : W) : outcome W :=
  match g_vfs_mutex w with
  | None => Fault
  | Some true => NoFuel
  | Some false => Done (set_mutex w (Some true))
  end.
Definition xSemaphoreGive (w : W) : W := set_mutex w (Some false).

Definition inode_at (w : W) (p : Z) : outcome inode_t := match inodes w !! p with Some i => Done i | None => Fault end.
Definition file_at (w : W) (p : Z) : outcome file_t := match files w !! p with Some f => Done f | None => Fault end.
Definition put_inode (w : W) (p : Z) (i : inode_t) : W := set_inodes w (<[p := i]> (inodes w)).
Definition put_file (w : W) (p : Z) (f : file_t) : W := set_files w (<[p := f]> (files w)).

(** *** vfs_inode.c; the red-black tree functions check their tree for [NULL] *)

Definition rb_tree_size (t : option T) : Z := match t with Some t => tb_size t | None => 0 end.

(** [mem]: there is memory for the tree *)
Definition inode_init (mem : bool) (w : W) : Z * W :=
  match inode_rb_tree w with
  | Some _ => (0, w)
  | None => if mem then (0, set_itree w (Some tb_empty)) else (-1, w)
  end.

Definition inode_alloc (w : W) : outcome (Z * W) :=
  let '(p, w) := pvPortMalloc w in
  if p =? NULL then Fault
  else Done (p, put_inode w p {| ops := NULL; i_arg := NULL; i_name := []; i_flags := 0; type := 0; refs := 0 |}).

Definition inode_del (p : Z) (w : W) : outcome (Z * W) :=
  i ← inode_at w p;
  if 0 <? refs i then Done (- EBUSY, w)
  else
    w ← match inode_rb_tree w with
        | Some t => '(_, t) ← tb_remove (inode_cmp_cb (inodes w)) t p; Done (set_itree w (Some t))
        | None => Done w
        end;
    Done (VFS_SUCCESS, set_inodes w (delete p (inodes w))).

Definition inode_open (path : list Z) (w : W) : outcome Z :=
  match inode_rb_tree w with
  | None => Done NULL
  | Some t =>
    let key := {| ops := NULL; i_arg := NULL; i_name := path; i_flags := 0; type := 0; refs := 0 |} in
    tb_find (inode_cmp_cb (<[KEY := key]> (inodes w))) t KEY
  end.

Definition inode_ref (p : Z) (w : W) : outcome W := i ← inode_at w p; Done (put_inode w p (with_refs i (u8 (refs i + 1)))).
Definition inode_unref (p : Z) (w : W) : outcome W :=
  i ← inode_at w p; Done (if 0 <? refs i then put_inode w p (with_refs i (u8 (refs i - 1))) else w).
Definition inode_busy (p : Z) (w : W) : outcome bool := i ← inode_at w p; Done (0 <? refs i).
Definition inode_avail_count (w : W) : Z := AOS_CONFIG_VFS_DEV_NODES - rb_tree_size (inode_rb_tree w).

(** call [cb] for the inodes in order until it answers true; [n] more at most *)
Fixpoint foreach_loop {A} (n : nat) (cb : A -> inode_t -> bool * A) (t : T) (it : I) (p : Z) (a : A) (w : W) : outcome A :=
  match n with
  | O => Done a
  | S n =>
    i ← inode_at w p;
    let '(stop, a) := cb a i in
    if (stop : bool) then Done a
    else
      '(q, it) ← tb_next t it;
      if q =? NULL then Done a else foreach_loop n cb t it q a w
  end.
(** [mem]: there is memory for the iterator; the name of an inode is never a null pointer *)
Definition inode_forearch_name {A} (mem : bool) (cb : A -> inode_t -> bool * A) (a : A) (w : W) : outcome (Z * A) :=
  let node_num := rb_tree_size (inode_rb_tree w) in
  if node_num =? 0 then Done (0, a)
  else if negb mem then Done (0, a)
  else
    match inode_rb_tree w with
    | None => Fault
    | Some t =>
      '(p, it) ← tb_first t;
      if p =? NULL then Done (0, a)
      else a ← foreach_loop (Z.to_nat node_num) cb t it p a w; Done (node_num, a)
    end.

Definition inode_set_name (path : list Z) (p : Z) (w : W) : outcome W :=
  let '(s, w) := pvPortMalloc w in
  if s =? NULL then Fault
  else
    i ← inode_at w p;
    Done (put_inode w p {| ops := ops i; i_arg := i_arg i; i_name := path; i_flags := i_flags i; type := type i; refs := refs i |}).

(** the result and the new inode *)
Definition inode_reserve (path : option (list Z)) (w : W) : outcome (Z * Z * W) :=
  match path with
  | Some ((c :: _) as path) =>
    if negb (c =? slash) then Done (- EINVAL, NULL, w)
    else
      match inode_rb_tree w with
      | None => Done (- EINVAL, NULL, w)
      | Some t =>
        if AOS_CONFIG_VFS_DEV_NODES <=? tb_size t then Done (- EINVAL, NULL, w)
        else
          '(p, w) ← inode_alloc w;
          w ← inode_set_name path p w;
          let '(n, w) := pvPortMalloc w in
          '(ok, t) ← tb_insert (inode_cmp_cb (inodes w)) t n p;
          let w := set_itree w (Some t) in
          if ok =? 0 then Done (- ENOMEM, NULL, set_inodes w (delete p (inodes w)))
          else Done (VFS_SUCCESS, p, w)
      end
  | _ => Done (- EINVAL, NULL, w)
  end.

Definition inode_release (path : option (list Z)) (w : W) : outcome (Z * W) :=
  match path with
  | None => Done (- EINVAL, w)
  | Some path =>
    p ← inode_open path w;
    if p =? NULL then Done (- ENODEV, w) else inode_del p w
  end.

(** *** vfs_register.c *)

Definition register (ty : Z) (path : option (list Z)) (o arg : Z) (w : W) : outcome (Z * W) :=
  w ← xSemaphoreTake w;
  '(ret, p, w) ← inode_reserve path w;
  w ← (if ret =? VFS_SUCCESS then
         i ← inode_at w p;
         Done (put_inode w p {| ops := o; i_arg := arg; i_name := i_name i; i_flags := i_flags i; type := ty; refs := refs i |})
       else Done w);
  Done (ret, xSemaphoreGive w).
Definition aos_register_driver := register VFS_TYPE_CHAR_DEV.
Definition aos_register_fs := register VFS_TYPE_FS_DEV.

Definition unregister (path : option (list Z)) (w : W) : outcome (Z * W) :=
  w ← xSemaphoreTake w;
  '(ret, w) ← inode_release path w;
  Done (ret, xSemaphoreGive w).
Definition aos_unregister_driver := unregister.
Definition aos_unregister_fs := unregister.

(** *** vfs_file.c *)

Definition file_init (mem tree_mem : bool) (w : W) : Z * W :=
  match file_rb_tree w with
  | Some _ => (0, w)
  | None => if mem && tree_mem then (0, set_ftree w (Some tb_empty) (replicate (Z.to_nat FILE_BITMAP_NUM) 0)) else (-1, w)
  end.

Definition bit_test (bm : list Z) (i : Z) : outcome bool :=
  x ← aget bm (i / 32); Done (negb (Z.land x (u32 (Z.shiftl 1 (i mod 32))) =? 0)).
Definition bit_set (bm : list Z) (i : Z) : outcome (list Z) :=
  x ← aget bm (i / 32); aset bm (i / 32) (Z.lor x (u32 (Z.shiftl 1 (i mod 32)))).
Definition bit_clear (bm : list Z) (i : Z) : outcome (list Z) :=
  x ← aget bm (i / 32); aset bm (i / 32) (Z.land x (u32 (Z.lnot (u32 (Z.shiftl 1 (i mod 32)))))).

(** the first free descriptor from [i] on, or [-1] *)
Fixpoint find_fd (k : nat) (bm : list Z) (i : Z) : outcome Z :=
  match k with
  | O => Done (-1)
  | S k => b ← bit_test bm i; if (b : bool) then find_fd k bm (i + 1) else Done i
  end.

Definition new_file (p : Z) (w : W) : outcome (Z * W) :=
  match file_rb_tree w with
  | None => Done (NULL, w)
  | Some t =>
    if MAX_FILE_NUM <=? tb_size t then Done (NULL, w)
    else
      i ← find_fd (Z.to_nat MAX_FILE_NUM) (fd_bitmap w) 0;
      if i <? 0 then Done (NULL, w)
      else
        bm ← bit_set (fd_bitmap w) i;
        let '(f, w) := pvPortMalloc w in
        if f =? NULL then Fault
        else
          let w := put_file w f {| node := p; f_arg := NULL; offset := 0; fd := i + AOS_CONFIG_VFS_FD_OFFSET |} in
          let '(n, w) := pvPortMalloc w in
          '(ok, t) ← tb_insert (file_cmp_cb (files w)) t n f;
          if ok =? 0 then
            bm ← bit_clear bm i;
            Done (NULL, set_files (set_ftree w (Some t) bm) (delete f (files w)))
          else w ← inode_ref p (set_ftree w (Some t) bm); Done (f, w)
  end.

Definition del_file (f : Z) (w : W) : outcome W :=
  x ← file_at w f;
  w ← inode_unref (node x) w;
  match file_rb_tree w with
  | None => Fault
  | Some t =>
    bm ← bit_clear (fd_bitmap w) (fd x - AOS_CONFIG_VFS_FD_OFFSET);
    '(_, t) ← tb_remove (file_cmp_cb (files w)) t f;
    let w := set_ftree w (Some t) bm in
    Done (set_files w (delete f (files w)))
  end.

Definition get_fd (f : Z) (w : W) : outcome Z := x ← file_at w f; Done (fd x).

Definition get_file (n : Z) (w : W) : outcome Z :=
  if n <? 0 then Done NULL
  else
    match file_rb_tree w with
    | None => Fault
    | Some t => tb_find (file_cmp_cb (<[KEY := {| node := NULL; f_arg := NULL; offset := 0; fd := n |}]> (files w))) t KEY
    end.

Fixpoint get_all_loop (k : nat) (t : T) (it : I) : outcome (list Z) :=
  match k with
  | O => Done []
  | S k => '(f, it) ← tb_next t it; if f =? NULL then Done [] else l ← get_all_loop k t it; Done (f :: l)
  end.
(** the files in the order of their descriptors; [file] has room for [size] of them *)
Definition get_all_file (mem : bool) (size : Z) (w : W) : outcome (list Z) :=
  match file_rb_tree w with
  | None => Fault
  | Some t =>
    let file_num := tb_size t in
    if file_num =? 0 then Done []
    else
      let file_num := if file_num <? size then file_num else size in
      if negb mem then Done []
      else
        '(f, it) ← tb_first t;
        if f =? NULL then Done []
        else l ← get_all_loop (Z.to_nat (file_num - 1)) t it; Done (f :: l)
  end.

(** *** vfs.c *)

Definition vfs_init (mutex_mem itree_mem files_mem ftree_mem : bool) (w : W) : Z * W :=
  match g_vfs_mutex w with
  | Some _ => (VFS_SUCCESS, w)
  | None =>
    if negb mutex_mem then (-1, w)
    else
      let '(r1, w) := inode_init itree_mem (set_mutex w (Some false)) in
      let '(r2, w) := if r1 =? 0 then file_init files_mem ftree_mem w else (0, w) in
      if negb (r1 =? 0) || negb (r2 =? 0) then (-1, set_mutex w None) else (VFS_SUCCESS, w)
  end.

Definition aos_open (path : option (list Z)) (flags : Z) (w : W) : outcome (Z * W) :=
  match path with
  | None => Done (- EINVAL, w)
  | Some path =>
    if PATH_MAX <? Z.of_nat (length path) then Done (- ENAMETOOLONG, w)
    else
      w ← xSemaphoreTake w;
      p ← inode_open path w;
      if p =? NULL then Done (- ENOENT, xSemaphoreGive w)
      else
        i ← inode_at w p;
        '(f, w) ← new_file p (put_inode w p (with_flags i flags));
        let w := xSemaphoreGive w in
        if f =? NULL then Done (- ENFILE, w)
        else
          i ← inode_at w p; x ← file_at w f;
          '(ret, w) ← (if INODE_IS_FS i then
                         match fs_open (i_fops (ops i)) with
                         | Some op => '(r, x, d) ← op i x path flags (dev w); Done (r, put_file (set_dev w d) f x)
                         | None => Done (VFS_SUCCESS, w)
                         end
                       else
                         match d_open (i_dops (ops i)) with
                         | Some op => '(r, x, d) ← op i x (dev w); Done (r, put_file (set_dev w d) f x)
                         | None => Done (VFS_SUCCESS, w)
                         end);
          if negb (ret =? VFS_SUCCESS) then w ← del_file f w; Done (ret, w)
          else n ← get_fd f w; Done (n, w)
  end.

Definition aos_close (n : Z) (w : W) : outcome (Z * W) :=
  f ← get_file n w;
  if f =? NULL then Done (- ENOENT, w)
  else
    x ← file_at w f; i ← inode_at w (node x);
    '(ret, w) ← match (if INODE_IS_FS i then fs_close (i_fops (ops i)) else d_close (i_dops (ops i))) with
                | Some op => '(r, x, d) ← op i x (dev w); Done (r, put_file (set_dev w d) f x)
                | None => Done (VFS_SUCCESS, w)
                end;
    w ← xSemaphoreTake w;
    w ← del_file f w;
    Done (ret, xSemaphoreGive w).

(** the bytes read come back with the length *)
Definition aos_read (n nbytes : Z) (w : W) : outcome (Z * list Z * W) :=
  f ← get_file n w;
  if f =? NULL then Done (- ENOENT, [], w)
  else
    x ← file_at w f; i ← inode_at w (node x);
    match (if INODE_IS_FS i then fs_read (i_fops (ops i)) else d_read (i_dops (ops i))) with
    | Some op => '(r, b, x, d) ← op i x nbytes (dev w); Done (r, b, put_file (set_dev w d) f x)
    | None => Done (-1, [], w)
    end.

Definition aos_write (n : Z) (buf : list Z) (w : W) : outcome (Z * W) :=
  f ← get_file n w;
  if f =? NULL then Done (- ENOENT, w)
  else
    x ← file_at w f; i ← inode_at w (node x);
    match (if INODE_IS_FS i then fs_write (i_fops (ops i)) else d_write (i_dops (ops i))) with
    | Some op => '(r, x, d) ← op i x buf (dev w); Done (r, put_file (set_dev w d) f x)
    | None => Done (-1, w)
    end.

Definition aos_ioctl (n cmd arg : Z) (w : W) : outcome (Z * W) :=
  if n <? 0 then Done (- EINVAL, w)
  else
    f ← get_file n w;
    if f =? NULL then Done (- ENOENT, w)
    else
      x ← file_at w f; i ← inode_at w (node x);
      match (if INODE_IS_FS i then fs_ioctl (i_fops (ops i)) else d_ioctl (i_dops (ops i))) with
      | Some op => '(r, x, d) ← op i x cmd arg (dev w); Done (r, put_file (set_dev w d) f x)
      | None => Done (- ENOSYS, w)
      end.

(** the result of [lseek] goes through an [int] *)
Definition aos_lseek (n off whence : Z) (w : W) : outcome (Z * W) :=
  f ← get_file n w;
  if f =? NULL then Done (- ENOENT, w)
  else
    x ← file_at w f; i ← inode_at w (node x);
    match (if INODE_IS_FS i then fs_lseek (i_fops (ops i)) else None) with
    | Some op => '(r, x, d) ← op i x off whence (dev w); Done (s32 r, put_file (set_dev w d) f x)
    | None => Done (- ENOSYS, w)
    end.

Definition aos_sync (n : Z) (w : W) : outcome (Z * W) :=
  f ← get_file n w;
  if f =? NULL then Done (- ENOENT, w)
  else
    x ← file_at w f; i ← inode_at w (node x);
    match (if INODE_IS_FS i then fs_sync (i_fops (ops i)) else d_sync (i_dops (ops i))) with
    | Some op => '(r, x, d) ← op i x (dev w); Done (r, put_file (set_dev w d) f x)
    | None => Done (- ENOSYS, w)
    end.

(** the functions that open a file for one call on a path: [call] is the operation
    of a file system, or none *)
Definition path_call {A} (dflt : A) (call : fs_ops D -> option (inode_t -> file_t -> D -> outcome (Z * A * D)))
    (path : option (list Z)) (w : W) : outcome (Z * A * W) :=
  match path with
  | None => Done (- EINVAL, dflt, w)
  | Some path =>
    w ← xSemaphoreTake w;
    p ← inode_open path w;
    if p =? NULL then Done (- ENODEV, dflt, xSemaphoreGive w)
    else
      '(f, w) ← new_file p w;
      let w := xSemaphoreGive w in
      if f =? NULL then Done (- ENOENT, dflt, w)
      else
        i ← inode_at w p; x ← file_at w f;
        '(ret, a, w) ← match (if INODE_IS_FS i then call (i_fops (ops i)) else None) with
                       | Some op => '(r, a, d) ← op i x (dev w); Done (r, a, set_dev w d)
                       | None => Done (- ENOSYS, dflt, w)
                       end;
        w ← xSemaphoreTake w;
        w ← del_file f w;
        Done (ret, a, xSemaphoreGive w)
  end.
(** without a further result *)
Definition path_call_unit (call : fs_ops D -> option (inode_t -> file_t -> D -> outcome (Z * D))) (path : option (list Z)) (w : W) : outcome (Z * W) :=
  '(r, _, w) ← path_call tt (fun o => match call o with
                                       | Some op => Some (fun i x d => '(r, d) ← op i x d; Done (r, tt, d))
                                       | None => None
                                       end) path w;
  Done (r, w).

Definition aos_stat (path : option (list Z)) (st : stat) (w : W) : outcome (Z * stat * W) :=
  path_call st (fun o => match fs_stat o, path with Some op, Some path => Some (fun i x => op i x path st) | _, _ => None end) path w.
Definition aos_unlink (path : option (list Z)) (w : W) : outcome (Z * W) :=
  path_call_unit (fun o => match fs_unlink o, path with Some op, Some path => Some (fun i x => op i x path) | _, _ => None end) path w.
Definition aos_rename (oldpath newpath : option (list Z)) (w : W) : outcome (Z * W) :=
  match newpath with
  | None => Done (- EINVAL, w)
  | Some newpath =>
    path_call_unit (fun o => match fs_rename o, oldpath with Some op, Some oldpath => Some (fun i x => op i x oldpath newpath) | _, _ => None end) oldpath w
  end.
Definition aos_mkdir (path : option (list Z)) (w : W) : outcome (Z * W) :=
  path_call_unit (fun o => match fs_mkdir o, path with Some op, Some path => Some (fun i x => op i x path) | _, _ => None end) path w.
Definition aos_rmdir (path : option (list Z)) (w : W) : outcome (Z * W) :=
  path_call_unit (fun o => match fs_rmdir o, path with Some op, Some path => Some (fun i x => op i x path) | _, _ => None end) path w.
Definition aos_access (path : option (list Z)) (amode : Z) (w : W) : outcome (Z * W) :=
  path_call_unit (fun o => match fs_access o, path with Some op, Some path => Some (fun i x => op i x path amode) | _, _ => None end) path w.

(** [xSemaphoreTake] answers [pdTRUE] when it has the mutex; this function compares with 0 *)
Definition pdTRUE := 1.
Definition aos_statfs (path : option (list Z)) (w : W) : outcome (Z * W) :=
  match path with
  | None => Done (- EINVAL, w)
  | Some path =>
    w ← xSemaphoreTake w;
    let err := pdTRUE in
    if negb (err =? 0) then Done (err, w)
    else
      p ← inode_open path w;
      if p =? NULL then Done (- ENODEV, xSemaphoreGive w)
      else
        '(f, w) ← new_file p w;
        let w := xSemaphoreGive w in
        if f =? NULL then Done (- ENOENT, w)
        else
          i ← inode_at w p; x ← file_at w f;
          '(ret, w) ← match (if INODE_IS_FS i then fs_statfs (i_fops (ops i)) else None) with
                      | Some op => '(r, d) ← op i x path (dev w); Done (r, set_dev w d)
                      | None => Done (- ENOSYS, w)
                      end;
          w ← xSemaphoreTake w;
          if negb (err =? 0) then Done (err, w)
          else w ← del_file f w; Done (ret, xSemaphoreGive w)
  end.

Definition aos_opendir (path : option (list Z)) (w : W) : outcome (Z * W) :=
  match path with
  | None => Done (NULL, w)
  | Some path =>
    w ← xSemaphoreTake w;
    p ← inode_open path w;
    if p =? NULL then Done (NULL, xSemaphoreGive w)
    else
      '(f, w) ← new_file p w;
      let w := xSemaphoreGive w in
      if f =? NULL then Done (NULL, w)
      else
        i ← inode_at w p; x ← file_at w f;
        '(dp, w) ← match (if INODE_IS_FS i then fs_opendir (i_fops (ops i)) else None) with
                   | Some op => '(dp, d) ← op i x path (dev w); Done (dp, set_dev w d)
                   | None => Done (NULL, w)
                   end;
        if dp =? NULL then
          w ← xSemaphoreTake w;
          w ← del_file f w;
          Done (NULL, xSemaphoreGive w)
        else n ← get_fd f w; Done (dp, set_dirs w (<[dp := n]> (dirs w)))
  end.

(** the file of a directory handle *)
Definition dir_file (dp : Z) (w : W) : outcome Z :=
  match dirs w !! dp with Some n => get_file n w | None => Fault end.

Definition aos_closedir (dp : Z) (w : W) : outcome (Z * W) :=
  if dp =? NULL then Done (- EINVAL, w)
  else
    f ← dir_file dp w;
    if f =? NULL then Done (- ENOENT, w)
    else
      x ← file_at w f; i ← inode_at w (node x);
      '(ret, w) ← match (if INODE_IS_FS i then fs_closedir (i_fops (ops i)) else None) with
                  | Some op => '(r, d) ← op i x dp (dev w); Done (r, set_dirs (set_dev w d) (delete dp (dirs w)))
                  | None => Done (- ENOSYS, w)
                  end;
      w ← xSemaphoreTake w;
      w ← del_file f w;
      Done (ret, xSemaphoreGive w).

Definition aos_readdir (dp : Z) (w : W) : outcome (option (list Z) * W) :=
  if dp =? NULL then Done (None, w)
  else
    f ← dir_file dp w;
    if f =? NULL then Done (None, w)
    else
      x ← file_at w f; i ← inode_at w (node x);
      match (if INODE_IS_FS i then fs_readdir (i_fops (ops i)) else None) with
      | Some op => '(r, d) ← op i x dp (dev w); Done (r, set_dev w d)
      | None => Done (None, w)
      end.

Definition aos_rewinddir (dp : Z) (w : W) : outcome W :=
  if dp =? NULL then Done w
  else
    f ← dir_file dp w;
    if f =? NULL then Done w
    else
      x ← file_at w f; i ← inode_at w (node x);
      match (if INODE_IS_FS i then fs_rewinddir (i_fops (ops i)) else None) with
      | Some op => d ← op i x dp (dev w); Done (set_dev w d)
      | None => Done w
      end.

Definition aos_telldir (dp : Z) (w : W) : outcome (Z * W) :=
  if dp =? NULL then Done (- EINVAL, w)
  else
    f ← dir_file dp w;
    if f =? NULL then Done (- ENOENT, w)
    else
      x ← file_at w f; i ← inode_at w (node x);
      match (if INODE_IS_FS i then fs_telldir (i_fops (ops i)) else None) with
      | Some op => '(r, d) ← op i x dp (dev w); Done (r, set_dev w d)
      | None => Done (0, w)
      end.

Definition aos_seekdir (dp loc : Z) (w : W) : outcome W :=
  if dp =? NULL then Done w
  else
    f ← dir_file dp w;
    if f =? NULL then Done w
    else
      x ← file_at w f; i ← inode_at w (node x);
      match (if INODE_IS_FS i then fs_seekdir (i_fops (ops i)) else None) with
      | Some op => d ← op i x dp loc (dev w); Done (set_dev w d)
      | None => Done w
      end.
End Vfs.
