(* ===== verification/VfsNames.v ===== *)
(** * The inodes' order: how a path is routed

    [inode_cmp] is not an order on names: a file system compares equal to every path
    below it.  As long as no file system's name is a prefix of another registered
    name, the table of inodes, sorted by name, is still searched correctly, and the
    inode found is the only one the path belongs to. *)
From S2P Require Import Prelude RbtreeTree Vfs.

(** ** Definitions *)

(** a C string has no zero inside *)
Definition cstr (s : list Z) : Prop := Forall (fun c => 0 < c) s.

Definition key_inode (path : list Z) : inode_t :=
  {| ops := NULL; i_arg := NULL; i_name := path; i_flags := 0; type := 0; refs := 0 |}.

(** the inode is the one for this path: the same name, or a file system above it *)
Definition matches (i : inode_t) (path : list Z) : bool :=
  bool_decide (i_name i = path) || INODE_IS_FS i && bool_decide (i_name i ++ [slash] `prefix_of` path).

(** two registered inodes the order can tell apart for every path *)
Definition apart (i j : inode_t) : Prop := INODE_IS_FS i = true -> ~ i_name i `prefix_of` i_name j.
Definition name_lt (i j : inode_t) : Prop := strcmp (i_name i) (i_name j) < 0.

(** ** strcmp *)

Lemma strcmp_refl a : strcmp a a = 0.
Proof. induction a as [|c a IH]; [done|]. cbn. by rewrite Z.eqb_refl. Qed.

Lemma strcmp_anti a b : strcmp a b = - strcmp b a.
Proof.
  revert b. induction a as [|c a IH]; intros [|d b]; cbn; try lia. rewrite (Z.eqb_sym d c). destruct (c =? d); [apply IH|lia].
Qed.

Lemma strcmp_app k a b : strcmp (k ++ a) (k ++ b) = strcmp a b.
Proof. induction k as [|c k IH]; [done|]. cbn. by rewrite Z.eqb_refl. Qed.

Lemma strcmp_zero a b : cstr a -> cstr b -> strcmp a b = 0 -> a = b.
Proof.
  intros Ha. revert b. induction Ha as [|c a Hc Ha IH]; intros b Hb; destruct Hb as [|d b Hd Hb]; cbn; try lia; [done|].
  destruct (Z.eqb_spec c d) as [->|]; [|lia]. intros E. by rewrite (IH b Hb E).
Qed.

Lemma strcmp_trans a b c : cstr a -> cstr b -> cstr c -> strcmp a b <= 0 -> strcmp b c < 0 -> strcmp a c < 0.
Proof.
  intros Ha. revert b c. induction Ha as [|x a Hx Ha IH]; intros b c Hb Hc; destruct Hb as [|y b Hy Hb], Hc as [|z c Hz Hc]; cbn; try lia.
  destruct (Z.eqb_spec x y), (Z.eqb_spec y z), (Z.eqb_spec x z); try lia. by apply IH.
Qed.

(** a smaller string is a prefix or differs first in a smaller character *)
Lemma strcmp_lt a b : cstr a -> cstr b -> strcmp a b < 0 ->
  a `prefix_of` b \/ exists k c s d u, a = k ++ c :: s /\ b = k ++ d :: u /\ c < d.
Proof.
  intros Ha. revert b. induction Ha as [|c a Hc Ha IH]; intros b Hb; destruct Hb as [|d b Hd Hb]; cbn; try lia.
  - intros _. left. apply prefix_nil.
  - destruct (Z.eqb_spec c d) as [->|Hne]; intros Hlt.
    + destruct (IH b Hb Hlt) as [Hp|(k & x & s & y & u & -> & -> & Hxy)]; [left; by apply prefix_cons|]. right. by exists (d :: k), x, s, y, u.
    + right. exists [], c, a, d, b. by split_and?; [| |lia].
Qed.

Lemma strcmp_prefix a b : cstr b -> a `prefix_of` b -> a <> b -> strcmp a b < 0.
Proof.
  intros Hb [s ->] Hne. rewrite <- (app_nil_r a) at 1. rewrite strcmp_app. destruct s as [|c s]; [by rewrite app_nil_r in Hne|]. cbn.
  apply Forall_app in Hb as [_ Hb]. apply Forall_cons in Hb as [Hb _]. cbn in Hb. lia.
Qed.

Lemma strncmp_own a x : strncmp a x (length a) = if decide (a `prefix_of` x) then 0 else strcmp a x.
Proof.
  unfold strncmp. rewrite take_ge by done. revert x. induction a as [|c a IH]; intros x.
  - cbn. rewrite decide_True by apply prefix_nil. done.
  - destruct x as [|d x]; cbn [length take strcmp].
    + rewrite decide_False; [done|]. intros H. by apply prefix_nil_inv in H.
    + destruct (Z.eqb_spec c d) as [->|Hne].
      * rewrite IH. destruct (decide (a `prefix_of` x)) as [H|H]; [by rewrite decide_True by (by apply prefix_cons)|].
        rewrite decide_False; [done|]. by intros Hp%prefix_cons_inv_2.
      * rewrite decide_False; [done|]. by intros Hp%prefix_cons_inv_1.
Qed.

Lemma strncmp_other a x : strncmp x a (length a) = if decide (a `prefix_of` x) then 0 else strcmp x a.
Proof.
  unfold strncmp. rewrite strcmp_anti. pose proof (strncmp_own a x) as H. unfold strncmp in H. rewrite H.
  destruct (decide _); [done|]. by rewrite (strcmp_anti x a).
Qed.

(** ** What the comparison says *)

(** an inode compared with a path, and with another inode *)
Section Compare.
Context (i : inode_t) (path : list Z) (Hi : cstr (i_name i)) (Hp : cstr path).

Lemma cmp_below s : INODE_IS_FS i = true -> path = i_name i ++ s ->
  inode_cmp i (key_inode path) = match s with [] => 0 | c :: _ => c - slash end.
Proof using Hp.
  intros HF E. unfold inode_cmp. change (INODE_IS_FS (key_inode path)) with false. change (i_name (key_inode path)) with path.
  rewrite HF. cbn [xorb]. rewrite strncmp_own, decide_True by (by exists s). cbn [Z.eqb andb]. subst path. rewrite length_app.
  destruct s as [|c s]; cbn [length]; [by rewrite Nat.add_0_r, Nat.eqb_refl|].
  destruct (Nat.eqb_spec (length (i_name i)) (length (i_name i) + S (length s))) as [E|_]; [lia|]. cbn [negb].
  rewrite drop_app_length. unfold strncmp, slash. cbn. rewrite firstn_O. cbn. destruct (Z.eqb_spec c 47); lia.
Qed.

Lemma cmp_aside : (INODE_IS_FS i = true -> ~ i_name i `prefix_of` path) -> inode_cmp i (key_inode path) = strcmp (i_name i) path.
Proof using Hi Hp.
  intros HF. unfold inode_cmp. change (INODE_IS_FS (key_inode path)) with false. change (i_name (key_inode path)) with path.
  destruct (INODE_IS_FS i); cbn [xorb]; [|done]. rewrite strncmp_own, decide_False by auto.
  destruct (Z.eqb_spec (strcmp (i_name i) path) 0) as [E|E]; [|done]. exfalso. apply HF; [done|]. by rewrite (strcmp_zero _ _ Hi Hp E).
Qed.

Lemma cmp_matches : inode_cmp i (key_inode path) = 0 <-> matches i path = true.
Proof using Hi Hp.
  unfold matches. rewrite orb_true_iff, andb_true_iff, !bool_decide_eq_true.
  destruct (INODE_IS_FS i) eqn:HF; [destruct (decide (i_name i `prefix_of` path)) as [[s E]|Hn]|].
  - rewrite (cmp_below s HF E), E. destruct s as [|c s]; [rewrite app_nil_r; tauto|]. split.
    + intros Hc. right. split; [done|]. exists s. replace c with slash by lia. by rewrite <- app_assoc.
    + intros [E'|[_ [u E']]].
      * exfalso. rewrite <- (app_nil_r (i_name i)) in E' at 1. by apply app_inv_head in E'.
      * rewrite <- app_assoc in E'. apply app_inv_head in E'. injection E' as -> _. lia.
  - rewrite cmp_aside by auto. split.
    + intros E. left. by apply strcmp_zero.
    + intros [E|[_ Hp']]; [rewrite E; apply strcmp_refl|]. exfalso. apply Hn. etransitivity; [|exact Hp']. by apply prefix_app_r.
  - rewrite cmp_aside by (by rewrite HF). split.
    + intros E. left. by apply strcmp_zero.
    + intros [E|[? _]]; [rewrite E; apply strcmp_refl|done].
Qed.
End Compare.

Lemma cmp_registered i j : cstr (i_name i) -> cstr (i_name j) -> apart i j -> apart j i -> inode_cmp i j = strcmp (i_name i) (i_name j).
Proof.
  intros Hi Hj Hij Hji. unfold inode_cmp, apart in *. destruct (INODE_IS_FS i), (INODE_IS_FS j); cbn [xorb]; try done.
  - rewrite strncmp_own, decide_False by auto. destruct (Z.eqb_spec (strcmp (i_name i) (i_name j)) 0) as [E|E]; [|done].
    exfalso. apply Hij; [done|]. by rewrite (strcmp_zero _ _ Hi Hj E).
  - rewrite strncmp_other, decide_False by auto. destruct (Z.eqb_spec (strcmp (i_name i) (i_name j)) 0) as [E|E]; [|done].
    exfalso. apply Hji; [done|]. by rewrite (strcmp_zero _ _ Hi Hj E).
Qed.

(** ** Routing *)

Section Route.
Context (path : list Z) (Hp : cstr path).

Lemma cmp_step i j : cstr (i_name i) -> cstr (i_name j) -> name_lt i j -> apart i j ->
  Z.sgn (inode_cmp i (key_inode path)) <= Z.sgn (inode_cmp j (key_inode path)).
Proof using Hp.
  intros Hi Hj Hlt Ha. unfold name_lt in Hlt. destruct (decide (INODE_IS_FS i = true /\ i_name i `prefix_of` path)) as [[HF [s E]]|Hn].
  - destruct (strcmp_lt _ _ Hi Hj Hlt) as [Hpre|(k & c & u & d & v & Ei & Ej & Hcd)]; [by destruct (Ha HF)|].
    assert (Hpos : strcmp (i_name j) path = d - c).
    { rewrite E, Ei, Ej, <- app_assoc, strcmp_app. cbn. destruct (Z.eqb_spec d c); [lia|done]. }
    rewrite (cmp_aside j path Hj Hp), Hpos; [lia|]. intros _ [w E']. rewrite E, Ei, Ej, <- !app_assoc in E'. apply app_inv_head in E'. injection E'. lia.
  - rewrite (cmp_aside i path Hi Hp) by tauto. destruct (Z.lt_ge_cases (strcmp (i_name i) path) 0) as [H|H]; [lia|].
    assert (Hj' : strcmp path (i_name j) < 0) by (apply (strcmp_trans path (i_name i)); [done..| |done]; rewrite strcmp_anti; lia).
    rewrite (cmp_aside j path Hj Hp); [rewrite (strcmp_anti (i_name j)); lia|]. intros _ Hpre.
    destruct (decide (i_name j = path)) as [E|Hne]; [rewrite E, strcmp_refl in Hj'; lia|].
    pose proof (strcmp_prefix _ _ Hp Hpre Hne). rewrite strcmp_anti in Hj'. lia.
Qed.

Lemma matches_prefix i : matches i path = true -> i_name i `prefix_of` path.
Proof using.
  clear Hp. unfold matches. rewrite orb_true_iff, andb_true_iff, !bool_decide_eq_true. intros [->|[_ H]]; [done|]. etransitivity; [|exact H]. by apply prefix_app_r.
Qed.

(** at most one inode is for the path *)
Lemma matches_unique i j : name_lt i j -> apart i j -> apart j i -> matches i path = true -> matches j path = true -> False.
Proof using.
  clear Hp. intros Hlt Hij Hji Hi Hj. unfold name_lt in Hlt. pose proof (matches_prefix i Hi) as Pi. pose proof (matches_prefix j Hj) as Pj.
  unfold matches in Hi, Hj. rewrite orb_true_iff, andb_true_iff, !bool_decide_eq_true in Hi, Hj.
  destruct Hi as [Ei|[Fi Hi]].
  - destruct Hj as [Ej|[Fj Hj]]; [rewrite Ei, Ej, strcmp_refl in Hlt; lia|]. apply (Hji Fj). by rewrite Ei.
  - destruct (prefix_weak_total _ _ _ Pi Pj) as [H|H]; [by apply (Hij Fi)|]. destruct Hj as [Ej|[Fj Hj]]; [|by apply (Hji Fj)].
    apply (Hij Fi). by rewrite Ej.
Qed.
End Route.
