(* ===== verification/VfsSpec.v ===== *)
(** * What the virtual file system promises

    A registry of inodes, a table from descriptors to open files, the descriptors in
    directory handles, and the drivers' state.  A path goes to the one inode that is
    for it; a new file gets the least free descriptor; an inode counts the files open
    on it; the rest is the driver's operation.  [VfsProofs] shows that the code does
    this. *)
From S2P Require Import Prelude RbtreeTable Vfs VfsNames.

(** ** Definitions *)

(** the calls, their arguments as in [vfs.c] and [vfs_register.c] *)
Inductive call :=
| Register (ty : Z) (path : option (list Z)) (o arg : Z)
| Unregister (path : option (list Z))
| Open (path : option (list Z)) (flags : Z)
| Close (n : Z)
| Read (n nbytes : Z)
| Write (n : Z) (buf : list Z)
| Ioctl (n cmd arg : Z)
| Lseek (n off whence : Z)
| Sync (n : Z)
| Stat (path : option (list Z)) (st : stat)
| Unlink (path : option (list Z))
| Rename (oldpath newpath : option (list Z))
| Mkdir (path : option (list Z))
| Rmdir (path : option (list Z))
| Access (path : option (list Z)) (amode : Z)
| Opendir (path : option (list Z))
| Readdir (dp : Z)
| Closedir (dp : Z)
| Rewinddir (dp : Z)
| Telldir (dp : Z)
| Seekdir (dp loc : Z).

Inductive result :=
| RInt (r : Z)
| RBytes (r : Z) (b : list Z)
| RStat (r : Z) (s : stat)
| REntry (e : option (list Z))
| RNone.

Record avfs (D : Type) := mk_avfs { reg : gmap Z inode_t; fds : gmap Z file_t; handles : gmap Z Z; drv : D }.
Arguments mk_avfs {D}. Arguments reg {D}. Arguments fds {D}. Arguments handles {D}. Arguments drv {D}.

Section Spec.
Context {D : Type} (i_fops : Z -> fs_ops D) (i_dops : Z -> file_ops D).

Definition with_reg (a : avfs D) r : avfs D := mk_avfs r (fds a) (handles a) (drv a).
Definition with_fds (a : avfs D) m : avfs D := mk_avfs (reg a) m (handles a) (drv a).
Definition with_handles (a : avfs D) h : avfs D := mk_avfs (reg a) (fds a) h (drv a).
Definition with_drv (a : avfs D) d : avfs D := mk_avfs (reg a) (fds a) (handles a) d.

(** the number of files open on an inode, and the inode with it *)
Definition open_count (m : gmap Z file_t) (p : Z) : Z := Z.of_nat (size (filter (fun nx : Z * file_t => node nx.2 = p) m)).
Definition inode_view (a : avfs D) (p : Z) : option inode_t := (fun i => with_refs i (open_count (fds a) p)) <$> reg a !! p.
Definition view_at (a : avfs D) (p : Z) : outcome inode_t := match inode_view a p with Some i => Done i | None => Fault end.

Definition route (a : avfs D) (path : list Z) : Z :=
  match filter (fun pi : Z * inode_t => matches pi.2 path = true) (map_to_list (reg a)) with (p, _) :: _ => p | [] => NULL end.
Definition next_fd (a : avfs D) : option Z :=
  head (filter (fun n => fds a !! n = None) (seqZ AOS_CONFIG_VFS_FD_OFFSET MAX_FILE_NUM)).

(** [new]: the address of the inode *)
Definition a_register (new ty : Z) (path : option (list Z)) (o arg : Z) (a : avfs D) : Z * avfs D :=
  match path with
  | Some ((c :: _) as path) =>
    if (c =? slash) && (Z.of_nat (size (reg a)) <? AOS_CONFIG_VFS_DEV_NODES) then
      (VFS_SUCCESS, with_reg a (<[new := {| ops := o; i_arg := arg; i_name := path; i_flags := 0; type := ty; refs := 0 |}]> (reg a)))
    else (- EINVAL, a)
  | _ => (- EINVAL, a)
  end.
Definition a_unregister (path : option (list Z)) (a : avfs D) : Z * avfs D :=
  match path with
  | None => (- EINVAL, a)
  | Some path =>
    let p := route a path in
    if p =? NULL then (- ENODEV, a)
    else if 0 <? open_count (fds a) p then (- EBUSY, a)
    else (VFS_SUCCESS, with_reg a (delete p (reg a)))
  end.

Definition new_entry (p n : Z) : file_t := {| node := p; f_arg := NULL; offset := 0; fd := n |}.
Definition add_fd (a : avfs D) (n : Z) (x : file_t) : avfs D := with_fds a (<[n := x]> (fds a)).
Definition del_fd (a : avfs D) (n : Z) : avfs D := with_fds a (delete n (fds a)).

Definition open_op (i : inode_t) (path : list Z) (flags : Z) : option (inode_t -> file_t -> D -> outcome (Z * file_t * D)) :=
  if INODE_IS_FS i then match fs_open (i_fops (ops i)) with Some op => Some (fun i x => op i x path flags) | None => None end
  else d_open (i_dops (ops i)).

Definition a_open (path : option (list Z)) (flags : Z) (a : avfs D) : outcome (Z * avfs D) :=
  match path with
  | None => Done (- EINVAL, a)
  | Some path =>
    if PATH_MAX <? Z.of_nat (length path) then Done (- ENAMETOOLONG, a)
    else
      let p := route a path in
      if p =? NULL then Done (- ENOENT, a)
      else
        let a := with_reg a (alter (fun i => with_flags i flags) p (reg a)) in
        match next_fd a with
        | None => Done (- ENFILE, a)
        | Some n =>
          let a1 := add_fd a n (new_entry p n) in
          i ← view_at a1 p;
          match open_op i path flags with
          | None => Done (n, a1)
          | Some op =>
            '(r, x, d) ← op i (new_entry p n) (drv a);
            if r =? VFS_SUCCESS then Done (n, with_drv (add_fd a n x) d) else Done (r, with_drv a d)
          end
        end
  end.

(** a call on a descriptor: [sel] is the operation of the inode *)
Definition a_fd {A} (bad dflt : A) (sel : inode_t -> option (inode_t -> file_t -> D -> outcome (A * file_t * D)))
    (n : Z) (a : avfs D) : outcome (A * avfs D) :=
  match fds a !! n with
  | None => Done (bad, a)
  | Some x =>
    i ← view_at a (node x);
    match sel i with
    | None => Done (dflt, a)
    | Some op => '(r, x, d) ← op i x (drv a); Done (r, with_drv (add_fd a n x) d)
    end
  end.

(** the operations of file systems and drivers as [sel]s *)
Definition both {A} (f : fs_ops D -> option A) (g : file_ops D -> option A) (i : inode_t) : option A :=
  if INODE_IS_FS i then f (i_fops (ops i)) else g (i_dops (ops i)).
Definition close_sel := both fs_close d_close.
Definition sync_sel := both fs_sync d_sync.
Definition write_sel (buf : list Z) (i : inode_t) : option (inode_t -> file_t -> D -> outcome (Z * file_t * D)) :=
  match both fs_write d_write i with Some op => Some (fun i x => op i x buf) | None => None end.
Definition read_sel (k : Z) (i : inode_t) : option (inode_t -> file_t -> D -> outcome (Z * list Z * file_t * D)) :=
  match both fs_read d_read i with Some op => Some (fun i x => op i x k) | None => None end.
Definition ioctl_sel (cmd arg : Z) (i : inode_t) : option (inode_t -> file_t -> D -> outcome (Z * file_t * D)) :=
  match both fs_ioctl d_ioctl i with Some op => Some (fun i x => op i x cmd arg) | None => None end.
Definition lseek_sel (off whence : Z) (i : inode_t) : option (inode_t -> file_t -> D -> outcome (Z * file_t * D)) :=
  match both fs_lseek (fun _ => None) i with Some op => Some (fun i x d => '(r, x, d) ← op i x off whence d; Done (s32 r, x, d)) | None => None end.

Definition a_close (n : Z) (a : avfs D) : outcome (Z * avfs D) :=
  '(r, a) ← a_fd (- ENOENT) VFS_SUCCESS close_sel n a; Done (r, del_fd a n).

(** a call on a path: a descriptor is taken for its time *)
Definition a_path {A} (dflt : A) (sel : fs_ops D -> list Z -> option (inode_t -> file_t -> D -> outcome (Z * A * D)))
    (path : option (list Z)) (a : avfs D) : outcome (Z * A * avfs D) :=
  match path with
  | None => Done (- EINVAL, dflt, a)
  | Some path =>
    let p := route a path in
    if p =? NULL then Done (- ENODEV, dflt, a)
    else
      match next_fd a with
      | None => Done (- ENOENT, dflt, a)
      | Some n =>
        i ← view_at (add_fd a n (new_entry p n)) p;
        match (if INODE_IS_FS i then sel (i_fops (ops i)) path else None) with
        | None => Done (- ENOSYS, dflt, a)
        | Some op => '(r, v, d) ← op i (new_entry p n) (drv a); Done (r, v, with_drv a d)
        end
      end
  end.
Definition plain_sel (f : fs_ops D -> option (inode_t -> file_t -> list Z -> D -> outcome (Z * D)))
    (o : fs_ops D) (path : list Z) : option (inode_t -> file_t -> D -> outcome (Z * unit * D)) :=
  match f o with Some op => Some (fun i x d => '(r, d) ← op i x path d; Done (r, tt, d)) | None => None end.
Definition rint {A B} (r : Z * A * B) : result * B := (RInt r.1.1, r.2).

Definition a_opendir (path : option (list Z)) (a : avfs D) : outcome (Z * avfs D) :=
  match path with
  | None => Done (NULL, a)
  | Some path =>
    let p := route a path in
    if p =? NULL then Done (NULL, a)
    else
      match next_fd a with
      | None => Done (NULL, a)
      | Some n =>
        let a1 := add_fd a n (new_entry p n) in
        i ← view_at a1 p;
        match (if INODE_IS_FS i then fs_opendir (i_fops (ops i)) else None) with
        | None => Done (NULL, a)
        | Some op =>
          '(dp, d) ← op i (new_entry p n) path (drv a);
          if dp =? NULL then Done (NULL, with_drv a d)
          else Done (dp, with_drv (with_handles a1 (<[dp := n]> (handles a1))) d)
        end
      end
  end.

(** a call on a directory handle; a handle nobody gave out is a wild pointer *)
Definition a_dir {A} (null bad dflt : A) (sel : fs_ops D -> option (inode_t -> file_t -> Z -> D -> outcome (A * D)))
    (dp : Z) (a : avfs D) : outcome (A * avfs D) :=
  if dp =? NULL then Done (null, a)
  else
    match handles a !! dp with
    | None => Fault
    | Some n =>
      match fds a !! n with
      | None => Done (bad, a)
      | Some x =>
        i ← view_at a (node x);
        match (if INODE_IS_FS i then sel (i_fops (ops i)) else None) with
        | None => Done (dflt, a)
        | Some op => '(r, d) ← op i x dp (drv a); Done (r, with_drv a d)
        end
      end
    end.

Definition a_closedir (dp : Z) (a : avfs D) : outcome (Z * avfs D) :=
  if dp =? NULL then Done (- EINVAL, a)
  else
    match handles a !! dp with
    | None => Fault
    | Some n =>
      match fds a !! n with
      | None => Done (- ENOENT, a)
      | Some x =>
        i ← view_at a (node x);
        match (if INODE_IS_FS i then fs_closedir (i_fops (ops i)) else None) with
        | None => Done (- ENOSYS, del_fd a n)
        | Some op => '(r, d) ← op i x dp (drv a); Done (r, with_drv (with_handles (del_fd a n) (delete dp (handles a))) d)
        end
      end
    end.

Definition unit_op (op : option (inode_t -> file_t -> Z -> D -> outcome D)) : option (inode_t -> file_t -> Z -> D -> outcome (unit * D)) :=
  match op with Some op => Some (fun i x dp d => d ← op i x dp d; Done (tt, d)) | None => None end.

Definition seek_sel (loc : Z) (o : fs_ops D) : option (inode_t -> file_t -> Z -> D -> outcome D) :=
  match fs_seekdir o with Some op => Some (fun i x dp => op i x dp loc) | None => None end.

Definition a_call (new : Z) (c : call) (a : avfs D) : outcome (result * avfs D) :=
  match c with
  | Register ty path o arg => let '(r, a) := a_register new ty path o arg a in Done (RInt r, a)
  | Unregister path => let '(r, a) := a_unregister path a in Done (RInt r, a)
  | Open path flags => '(r, a) ← a_open path flags a; Done (RInt r, a)
  | Close n => '(r, a) ← a_close n a; Done (RInt r, a)
  | Read n k => '(r, a) ← a_fd (- ENOENT, []) (-1, []) (read_sel k) n a; Done (RBytes r.1 r.2, a)
  | Write n buf => '(r, a) ← a_fd (- ENOENT) (-1) (write_sel buf) n a; Done (RInt r, a)
  | Ioctl n cmd arg => if n <? 0 then Done (RInt (- EINVAL), a) else '(r, a) ← a_fd (- ENOENT) (- ENOSYS) (ioctl_sel cmd arg) n a; Done (RInt r, a)
  | Lseek n off whence => '(r, a) ← a_fd (- ENOENT) (- ENOSYS) (lseek_sel off whence) n a; Done (RInt r, a)
  | Sync n => '(r, a) ← a_fd (- ENOENT) (- ENOSYS) sync_sel n a; Done (RInt r, a)
  | Stat path st =>
    '(r, v, a) ← a_path st (fun o path => match fs_stat o with Some op => Some (fun i x => op i x path st) | None => None end) path a;
    Done (RStat r v, a)
  | Unlink path => r ← a_path tt (plain_sel fs_unlink) path a; Done (rint r)
  | Rename oldpath newpath =>
    match oldpath, newpath with
    | Some _, Some newpath =>
      r ← a_path tt (plain_sel (fun o => match fs_rename o with Some op => Some (fun i x path => op i x path newpath) | None => None end)) oldpath a;
      Done (rint r)
    | _, _ => Done (RInt (- EINVAL), a)
    end
  | Mkdir path => r ← a_path tt (plain_sel fs_mkdir) path a; Done (rint r)
  | Rmdir path => r ← a_path tt (plain_sel fs_rmdir) path a; Done (rint r)
  | Access path amode =>
    r ← a_path tt (plain_sel (fun o => match fs_access o with Some op => Some (fun i x path => op i x path amode) | None => None end)) path a;
    Done (rint r)
  | Opendir path => '(r, a) ← a_opendir path a; Done (RInt r, a)
  | Readdir dp => '(r, a) ← a_dir None None None fs_readdir dp a; Done (REntry r, a)
  | Closedir dp => '(r, a) ← a_closedir dp a; Done (RInt r, a)
  | Rewinddir dp => '(_, a) ← a_dir tt tt tt (fun o => unit_op (fs_rewinddir o)) dp a; Done (RNone, a)
  | Telldir dp => '(r, a) ← a_dir (- EINVAL) (- ENOENT) 0 fs_telldir dp a; Done (RInt r, a)
  | Seekdir dp loc =>
    '(_, a) ← a_dir tt tt tt (fun o => unit_op (seek_sel loc o)) dp a;
    Done (RNone, a)
  end.
End Spec.
