(* ===== verification/VfsProofs.v ===== *)
(** * The virtual file system refines its specification *)
From S2P Require Import Prelude RbtreeTree RbtreeTable Vfs VfsNames VfsSpec.

(** ** The bitmap of descriptors *)

Definition bm_has (bm : list Z) (i : Z) : bool :=
  match bm !! Z.to_nat (i / 32) with Some x => Z.testbit x (i mod 32) | None => false end.
Definition bm_ok (bm : list Z) (m : gmap Z file_t) : Prop :=
  length bm = 2%nat /\ forall i, 0 <= i < 60 -> bm_has bm i = bool_decide (is_Some (m !! (i + 2))).

Lemma u32_shiftl1 k : 0 <= k < 32 -> u32 (Z.shiftl 1 k) = 2 ^ k.
Proof. intros Hk. rewrite Z.shiftl_1_l. unfold u32, wrap. apply Z.mod_small. split; [lia|]. apply Z.pow_lt_mono_r; lia. Qed.

Lemma land_pow2 x k : 0 <= k -> negb (Z.land x (2 ^ k) =? 0) = Z.testbit x k.
Proof.
  intros Hk. destruct (Z.eqb_spec (Z.land x (2 ^ k)) 0) as [E|E]; cbn.
  - apply (f_equal (fun z => Z.testbit z k)) in E. rewrite Z.land_spec, Z.pow2_bits_true, andb_true_r, Z.bits_0 in E by done. by rewrite E.
  - destruct (Z.testbit x k) eqn:Hb; [done|]. exfalso. apply E. apply Z.bits_inj'. intros j Hj. rewrite Z.land_spec, Z.bits_0.
    destruct (Z.eq_dec k j) as [->|Hne]; [by rewrite Hb|]. rewrite Z.pow2_bits_false by done. apply andb_false_r.
Qed.

Section Bitmap.
Context (bm : list Z) (i : Z) (Hlen : length bm = 2%nat) (Hi : 0 <= i < 60).

Lemma bm_word : exists x, bm !! Z.to_nat (i / 32) = Some x.
Proof using Hlen Hi. apply lookup_lt_is_Some. rewrite Hlen. assert (i / 32 < 2) by (apply Z.div_lt_upper_bound; lia). pose proof (Z.div_pos i 32). lia. Qed.

Lemma bm_get : exists x, aget bm (i / 32) = Done x /\ bm !! Z.to_nat (i / 32) = Some x /\ 0 <= i mod 32 < 32 /\ 0 <= i / 32 < 2.
Proof using Hlen Hi.
  destruct bm_word as [x Hx]. exists x. assert (i / 32 < 2) by (apply Z.div_lt_upper_bound; lia). pose proof (Z.div_pos i 32).
  split_and?; try lia; [|done| |]; [by apply aget_done; [lia|]|apply Z.mod_pos_bound; lia..].
Qed.

Lemma bit_test_has : bit_test bm i = Done (bm_has bm i).
Proof using Hlen Hi.
  unfold bit_test, bm_has. destruct bm_get as (x & -> & -> & Hm & _). cbn [mbind outcome_bind]. by rewrite u32_shiftl1, land_pow2 by lia.
Qed.

Lemma bm_update (g : Z -> Z) (b : bool) :
  (forall x j, 0 <= j < 32 -> Z.testbit (g x) j = if decide (j = i mod 32) then b else Z.testbit x j) ->
  exists bm', (x ← aget bm (i / 32); aset bm (i / 32) (g x)) = Done bm' /\ length bm' = 2%nat /\
    forall j, 0 <= j < 60 -> bm_has bm' j = if decide (j = i) then b else bm_has bm j.
Proof using Hlen Hi.
  intros Hg. destruct bm_get as (x & -> & Hx & Hm & Hd). cbn [mbind outcome_bind]. eexists. split; [apply aset_done; rewrite Hlen; lia|].
  split; [by rewrite length_insert|]. intros j Hj. unfold bm_has.
  assert (Hm' : 0 <= j mod 32 < 32) by (apply Z.mod_pos_bound; lia). pose proof (Z.div_mod j 32 ltac:(lia)). pose proof (Z.div_mod i 32 ltac:(lia)).
  pose proof (Z.div_pos j 32).
  destruct (decide (i / 32 = j / 32)) as [E|E].
  - rewrite E, list_lookup_insert_eq by (rewrite <- E, Hlen; lia). rewrite Hg by done. rewrite <- E, Hx.
    destruct (decide (j mod 32 = i mod 32)), (decide (j = i)); try lia; done.
  - rewrite list_lookup_insert_ne by lia. destruct (decide (j = i)) as [->|]; done.
Qed.

Lemma bit_set_has : exists bm', bit_set bm i = Done bm' /\ length bm' = 2%nat /\
  forall j, 0 <= j < 60 -> bm_has bm' j = if decide (j = i) then true else bm_has bm j.
Proof using Hlen Hi.
  unfold bit_set. apply (bm_update (fun x => Z.lor x (u32 (Z.shiftl 1 (i mod 32)))) true). intros x j Hj.
  rewrite u32_shiftl1, Z.lor_spec, Z.pow2_bits_eqb by (apply Z.mod_pos_bound; lia).
  destruct (decide (j = i mod 32)) as [->|Hne]; [by rewrite Z.eqb_refl, orb_true_r|]. destruct (Z.eqb_spec (i mod 32) j); [lia|]. apply orb_false_r.
Qed.

Lemma bit_clear_has : exists bm', bit_clear bm i = Done bm' /\ length bm' = 2%nat /\
  forall j, 0 <= j < 60 -> bm_has bm' j = if decide (j = i) then false else bm_has bm j.
Proof using Hlen Hi.
  unfold bit_clear. apply (bm_update (fun x => Z.land x (u32 (Z.lnot (u32 (Z.shiftl 1 (i mod 32)))))) false). intros x j Hj.
  rewrite u32_shiftl1, Z.land_spec by (apply Z.mod_pos_bound; lia). unfold u32, wrap.
  rewrite Z.mod_pow2_bits_low, Z.lnot_spec, Z.pow2_bits_eqb by (lia || apply Z.mod_pos_bound; lia).
  destruct (decide (j = i mod 32)) as [->|Hne]; [by rewrite Z.eqb_refl, andb_false_r|]. destruct (Z.eqb_spec (i mod 32) j); [lia|]. apply andb_true_r.
Qed.
End Bitmap.

(** the search finds the least free descriptor *)
Lemma find_fd_spec k bm m i : bm_ok bm m -> 0 <= i -> i + Z.of_nat k <= 60 -> exists r, find_fd k bm i = Done r /\
  match head (filter (fun n => m !! n = None) (seqZ (i + 2) (Z.of_nat k))) with
  | None => r = -1
  | Some n => n = r + 2 /\ i <= r < i + Z.of_nat k /\ m !! n = None
  end.
Proof.
  intros [Hl Hb]. revert i. induction k as [|k IH]; intros i Hi Hk; [by exists (-1)|].
  cbn [find_fd]. rewrite bit_test_has by (done || lia). cbn [mbind outcome_bind]. rewrite Hb by lia.
  rewrite seqZ_cons by lia. rewrite filter_cons. replace (Z.pred (Z.of_nat (S k))) with (Z.of_nat k) by lia. replace (Z.succ (i + 2)) with (i + 1 + 2) by lia.
  destruct (m !! (i + 2)) as [x|] eqn:E.
  - rewrite bool_decide_eq_true_2 by done. rewrite decide_False by done. destruct (IH (i + 1)) as (r & -> & Hr); [lia..|]. exists r. split; [done|].
    destruct (head _); [|done]. destruct Hr as (? & ? & ?). split_and?; try done; lia.
  - rewrite bool_decide_eq_false_2 by (intros [? ?]; done). rewrite decide_True by done. exists i. split; [done|]. cbn. split_and?; try done; lia.
Qed.

(** ** Counting the files of an inode *)

Lemma open_count_insert m n x p : m !! n = None -> open_count (<[n := x]> m) p = open_count m p + (if decide (node x = p) then 1 else 0).
Proof.
  intros Hn. unfold open_count. destruct (decide (node x = p)) as [E|E].
  - rewrite map_filter_insert_True by done. rewrite map_size_insert_None; [lia|]. rewrite map_lookup_filter_None. by left.
  - rewrite map_filter_insert_False by done. rewrite delete_id by done. lia.
Qed.

Lemma open_count_delete m n x p : m !! n = Some x -> open_count (delete n m) p = open_count m p - (if decide (node x = p) then 1 else 0).
Proof.
  intros Hn. rewrite <- (insert_delete_id m n x Hn) at 2. rewrite open_count_insert by apply lookup_delete_eq. lia.
Qed.

Lemma open_count_update m n x y p : m !! n = Some x -> node y = node x -> open_count (<[n := y]> m) p = open_count m p.
Proof.
  intros Hn E. rewrite <- insert_delete_eq, open_count_insert by apply lookup_delete_eq. rewrite (open_count_delete m n x p Hn), E. lia.
Qed.

Lemma open_count_nonneg m p : 0 <= open_count m p.
Proof. unfold open_count. lia. Qed.

Lemma open_count_pos m n x : m !! n = Some x -> 0 < open_count m (node x).
Proof. intros Hn. pose proof (open_count_delete m n x (node x) Hn) as H. rewrite decide_True in H by done. pose proof (open_count_nonneg (delete n m) (node x)). lia. Qed.

Lemma open_count_zero m p : open_count m p <= 0 -> forall n x, m !! n = Some x -> node x <> p.
Proof. intros H n x Hn <-. pose proof (open_count_pos m n x Hn). lia. Qed.

(** no more files than descriptors *)
Lemma size_fds (m : gmap Z file_t) k : (forall n, is_Some (m !! n) -> 2 <= n < 2 + Z.of_nat k) -> (size m <= k)%nat.
Proof.
  intros H. rewrite <- size_dom. transitivity (size (list_to_set (seqZ 2 (Z.of_nat k)) : gset Z)).
  - apply subseteq_size. intros n Hn. apply elem_of_dom in Hn. apply H in Hn. apply elem_of_list_to_set, elem_of_seqZ. lia.
  - rewrite size_list_to_set by apply NoDup_seqZ. by rewrite length_seqZ, Nat2Z.id.
Qed.

Lemma open_count_le m p : (forall n, is_Some (m !! n) -> 2 <= n < 62) -> open_count m p <= 60.
Proof.
  intros H. unfold open_count. assert (size (filter (fun nx : Z * file_t => node nx.2 = p) m) <= 60)%nat; [|lia].
  apply size_fds. intros n [x Hx]. apply H. apply map_lookup_filter_Some in Hx as [Hx _]. by exists x.
Qed.

(** ** The representation *)

Definition inode_lt (m : gmap Z inode_t) (p q : Z) : Prop :=
  match m !! p, m !! q with Some i, Some j => name_lt i j | _, _ => False end.
Definition fd_lt (m : gmap Z file_t) (f g : Z) : Prop :=
  match m !! f, m !! g with Some x, Some y => fd x < fd y | _, _ => False end.

Lemma inode_cmp_names i j i' j' : i_name i = i_name i' -> type i = type i' -> i_name j = i_name j' -> type j = type j' -> inode_cmp i j = inode_cmp i' j'.
Proof. unfold inode_cmp, INODE_IS_FS, INODE_IS_TYPE. by intros -> -> -> ->. Qed.

(** the elements of a strictly ordered list are different *)
Lemma ordered_nodup {A} (R : A -> A -> Prop) l : (forall x, ~ R x x) -> StronglySorted R l -> NoDup l.
Proof.
  intros HR. induction 1 as [|x l Hl IH Hx]; constructor; [|done]. intros Hin. rewrite Forall_forall in Hx. by apply (HR x), Hx.
Qed.

(** a list ordered for [R] is ordered for what [R] says of its elements *)
Lemma ordered_impl {A} (R S : A -> A -> Prop) l : (forall x y, x ∈ l -> y ∈ l -> R x y -> S x y) -> StronglySorted R l -> StronglySorted S l.
Proof.
  intros H Hs. induction Hs as [|x l Hl IH Hx]; constructor.
  - apply IH. intros a b Ha Hb. apply H; by constructor.
  - rewrite Forall_forall in *. intros y Hy. apply H; [by constructor|by constructor|by apply Hx].
Qed.

Lemma sorted_at {A} (R : A -> A -> Prop) l1 x l2 : StronglySorted R (l1 ++ x :: l2) <->
  StronglySorted R (l1 ++ l2) /\ Forall (fun a => R a x) l1 /\ Forall (R x) l2.
Proof.
  induction l1 as [|a l1 IH]; cbn.
  - split; [intros H; apply StronglySorted_inv in H as [? ?]; by split_and?|]. intros (? & _ & ?). by constructor.
  - split.
    + intros H. apply StronglySorted_inv in H as [H Ha]. apply IH in H as (H1 & H2 & H3). apply Forall_app in Ha as [Ha Hb]. apply Forall_cons in Hb as [Hx Hb].
      split_and?; [constructor; [done|by apply Forall_app]|by constructor|done].
    + intros (H1 & H2 & H3). apply StronglySorted_inv in H1 as [H1 Ha]. apply Forall_cons in H2 as [Hx H2]. apply Forall_app in Ha as [Ha Hb].
      constructor; [by apply IH|]. apply Forall_app. split; [done|]. by constructor.
Qed.

Section Proofs.
Context {T I D : Type} `{!Table T I, !TableLaws T I}.
#[local] Abbreviation W := (vfs T D).

(** the tables and what they point to represent the abstract state *)
Record rep (it ft : option T) (bm : list Z) (ins : gmap Z inode_t) (fls : gmap Z file_t) (a : avfs D) : Prop := {
  rep_it : exists t il, it = Some t /\ tb_holds t il /\ StronglySorted (inode_lt (reg a)) il /\ (forall p, p ∈ il <-> is_Some (reg a !! p));
  rep_nreg : (size (reg a) <= 30)%nat;
  rep_inodes : forall p, ins !! p = inode_view a p;
  rep_reg : forall p i, reg a !! p = Some i -> cstr (i_name i) /\ p <> NULL /\ p <> KEY;
  rep_apart : forall p q i j, p <> q -> reg a !! p = Some i -> reg a !! q = Some j -> apart i j;
  rep_ft : exists t fl, ft = Some t /\ tb_holds t fl /\ StronglySorted (fd_lt fls) fl /\ (forall f, f ∈ fl <-> is_Some (fls !! f));
  rep_files : forall f x, fls !! f = Some x -> fds a !! fd x = Some x /\ f <> NULL /\ f <> KEY;
  rep_fds : forall n x, fds a !! n = Some x -> fd x = n /\ 2 <= n < 62 /\ is_Some (reg a !! node x) /\ exists f, fls !! f = Some x;
  rep_bm : bm_ok bm (fds a);
}.

Definition Inv (w : W) (a : avfs D) : Prop :=
  rep (inode_rb_tree w) (file_rb_tree w) (fd_bitmap w) (inodes w) (files w) a /\ dirs w = handles a /\ dev w = drv a.

(** ** Finding an inode *)

Lemma route_some (a : avfs D) path p : route a path = p -> p <> NULL -> exists i, reg a !! p = Some i /\ matches i path = true.
Proof.
  unfold route. intros E Hp. destruct (filter _ _) as [|[q i] l] eqn:F; [by subst|]. subst q.
  assert (Hin : (p, i) ∈ filter (fun pi : Z * inode_t => matches pi.2 path = true) (map_to_list (reg a))) by (rewrite F; by constructor).
  apply list_elem_of_filter in Hin as [Hm Hin]. apply elem_of_map_to_list in Hin. by exists i.
Qed.

Lemma route_none (a : avfs D) path p i : (forall q j, reg a !! q = Some j -> q <> NULL) -> route a path = NULL -> reg a !! p = Some i -> matches i path = false.
Proof.
  intros Hn. unfold route. intros E Hp. destruct (matches i path) eqn:Hm; [|done]. exfalso.
  assert (Hin : (p, i) ∈ filter (fun pi : Z * inode_t => matches pi.2 path = true) (map_to_list (reg a))).
  { apply list_elem_of_filter. split; [done|]. by apply elem_of_map_to_list. }
  destruct (filter _ _) as [|[q j] l] eqn:F; [by apply elem_of_nil in Hin|]. subst q.
  assert (Hq : (NULL, j) ∈ filter (fun pi : Z * inode_t => matches pi.2 path = true) (map_to_list (reg a))) by (rewrite F; by constructor).
  apply list_elem_of_filter in Hq as [_ Hq]. apply elem_of_map_to_list in Hq. by apply Hn in Hq.
Qed.

Section Rep.
Context {it ft : option T} {bm : list Z} {ins : gmap Z inode_t} {fls : gmap Z file_t} {a : avfs D} (H : rep it ft bm ins fls a).

Lemma inode_lt_inv p q : inode_lt (reg a) p q -> exists i j, reg a !! p = Some i /\ reg a !! q = Some j /\ name_lt i j /\ apart i j /\ apart j i.
Proof using H.
  unfold inode_lt. destruct (reg a !! p) as [i|] eqn:Hp, (reg a !! q) as [j|] eqn:Hq; try done. intros Hlt.
  assert (Hne : p <> q) by (intros ->; rewrite Hp in Hq; injection Hq as ->; unfold name_lt in Hlt; rewrite strcmp_refl in Hlt; lia).
  exists i, j. split_and?; try done; [by apply (rep_apart _ _ _ _ _ _ H p q)|by apply (rep_apart _ _ _ _ _ _ H q p)].
Qed.

Lemma ins_some p i : reg a !! p = Some i -> ins !! p = Some (with_refs i (open_count (fds a) p)).
Proof using H. intros E. rewrite (rep_inodes _ _ _ _ _ _ H). unfold inode_view. by rewrite E. Qed.

Lemma cmp_cb_key path p i : reg a !! p = Some i -> inode_cmp_cb (<[KEY := key_inode path]> ins) p KEY = inode_cmp i (key_inode path).
Proof using H.
  intros E. unfold inode_cmp_cb. destruct (rep_reg _ _ _ _ _ _ H p i E) as (_ & _ & Hk). rewrite lookup_insert_ne by done.
  rewrite (ins_some p i E), lookup_insert_eq. by apply inode_cmp_names.
Qed.

(** any inode compared as the path's key leaves the table in order *)
Lemma inodes_mono path cmp k il : cstr path -> StronglySorted (inode_lt (reg a)) il ->
  (forall p i, reg a !! p = Some i -> cmp p k = inode_cmp i (key_inode path)) -> mono cmp k il.
Proof using H.
  intros Hp Hs Hc. apply (ordered_impl _ _ _) with (2 := Hs). intros p q _ _ Hlt.
  destruct (inode_lt_inv p q Hlt) as (i & j & Ei & Ej & Hn & Ha & _). rewrite (Hc p i Ei), (Hc q j Ej).
  apply cmp_step; try done; by eapply (rep_reg _ _ _ _ _ _ H).
Qed.

Lemma nodup_il il : StronglySorted (inode_lt (reg a)) il -> NoDup il.
Proof using H.
  apply ordered_nodup. intros x Hx. destruct (inode_lt_inv x x Hx) as (i & j & Ei & Ej & Hn & _). rewrite Ei in Ej. injection Ej as <-.
  unfold name_lt in Hn. rewrite strcmp_refl in Hn. lia.
Qed.

Lemma length_il il : StronglySorted (inode_lt (reg a)) il -> (forall p, p ∈ il <-> is_Some (reg a !! p)) -> length il = size (reg a).
Proof using H.
  intros Hs Hd. rewrite <- size_dom. rewrite <- (size_list_to_set (C := gset Z)) by (by apply nodup_il). f_equal. apply set_eq. intros p.
  by rewrite elem_of_list_to_set, Hd, elem_of_dom.
Qed.
End Rep.

Lemma Inv_fields (w : W) a : Inv w a -> rep (inode_rb_tree w) (file_rb_tree w) (fd_bitmap w) (inodes w) (files w) a.
Proof. by intros [? _]. Qed.

(** two inodes are in the order, one way or the other *)
Lemma registered_lt {it ft bm ins fls a} (H : rep it ft bm ins fls a) p q i j : p <> q -> reg a !! p = Some i -> reg a !! q = Some j -> name_lt i j \/ name_lt j i.
Proof.
  intros Hne Ei Ej. destruct (rep_it _ _ _ _ _ _ H) as (t & il & _ & _ & Hs & Hd).
  assert (Hp : p ∈ il) by (apply Hd; by exists i). assert (Hq : q ∈ il) by (apply Hd; by exists j).
  apply list_elem_of_split in Hp as (l1 & l2 & ->). apply sorted_at in Hs as (_ & H1 & H2). rewrite Forall_forall in H1, H2.
  apply elem_of_app in Hq as [Hq|Hq]; [apply H1 in Hq|apply elem_of_cons in Hq as [Hq|Hq]; [done|apply H2 in Hq]];
    unfold inode_lt in Hq; rewrite Ei, Ej in Hq; tauto.
Qed.

(** the inode a path is for is the one it is routed to *)
Lemma route_is {it ft bm ins fls a} (H : rep it ft bm ins fls a) path p i : reg a !! p = Some i -> matches i path = true -> route a path = p.
Proof.
  intros Ei Hm. destruct (decide (route a path = NULL)) as [E|E].
  - rewrite (route_none a path p i) in Hm; [done| |done|done]. intros q j Eq. by apply (rep_reg _ _ _ _ _ _ H q j Eq).
  - destruct (route_some a path _ eq_refl E) as (j & Ej & Hj). destruct (decide (p = route a path)) as [|Hne]; [done|]. exfalso.
    assert (A1 : apart i j) by (by apply (rep_apart _ _ _ _ _ _ H p (route a path))).
    assert (A2 : apart j i) by (by apply (rep_apart _ _ _ _ _ _ H (route a path) p)).
    destruct (registered_lt H _ _ i j Hne Ei Ej); [by apply (matches_unique path i j)|by apply (matches_unique path j i)].
Qed.

Lemma inode_open_spec w a path : Inv w a -> cstr path -> inode_open path w = Done (route a path).
Proof.
  intros [H _] Hp. unfold inode_open. destruct (rep_it _ _ _ _ _ _ H) as (t & il & -> & Ht & Hs & Hd).
  change {| ops := NULL; i_arg := NULL; i_name := path; i_flags := 0; type := 0; refs := 0 |} with (key_inode path).
  destruct (tb_find_holds (inode_cmp_cb (<[KEY := key_inode path]> (inodes w))) t il KEY Ht) as (r & -> & Hr).
  { apply (inodes_mono H path); [done|done|]. intros p i Ei. by apply (cmp_cb_key H). }
  f_equal. destruct Hr as [[Hin Hc]|[-> Hall]].
  - apply Hd in Hin as [i Ei]. rewrite (cmp_cb_key H path r i Ei) in Hc.
    apply cmp_matches in Hc; [|by apply (rep_reg _ _ _ _ _ _ H r i Ei)|done]. symmetry. by apply (route_is H path r i).
  - destruct (decide (route a path = NULL)) as [E|E]; [done|]. exfalso. destruct (route_some a path _ eq_refl E) as (j & Ej & Hj).
    rewrite Forall_forall in Hall. apply (Hall (route a path)); [apply Hd; by exists j|]. rewrite (cmp_cb_key H path _ j Ej).
    apply cmp_matches; try done. by apply (rep_reg _ _ _ _ _ _ H (route a path) j Ej).
Qed.

(** ** Finding a file *)

Lemma get_file_spec w a n : Inv w a -> exists f, get_file n w = Done f /\
  match fds a !! n with None => f = NULL | Some x => f <> NULL /\ files w !! f = Some x end.
Proof.
  intros [H _]. unfold get_file. destruct (Z.ltb_spec n 0) as [Hn|Hn].
  - exists NULL. split; [done|]. destruct (fds a !! n) as [x|] eqn:E; [|done]. destruct (rep_fds _ _ _ _ _ _ H n x E) as (_ & ? & _). lia.
  - destruct (rep_ft _ _ _ _ _ _ H) as (t & fl & -> & Ht & Hs & Hd). set (k := {| node := NULL; f_arg := NULL; offset := 0; fd := n |}).
    assert (Hc : forall f x, files w !! f = Some x -> file_cmp_cb (<[KEY := k]> (files w)) f KEY = Z.b2z (n <? fd x) - Z.b2z (fd x <? n)).
    { intros f x E. unfold file_cmp_cb. rewrite lookup_insert_ne by (intros <-; by apply (rep_files _ _ _ _ _ _ H KEY x E)). by rewrite E, lookup_insert_eq. }
    destruct (tb_find_holds (file_cmp_cb (<[KEY := k]> (files w))) t fl KEY Ht) as (r & -> & Hr).
    { apply (ordered_impl _ _ _) with (2 := Hs). intros f g _ _ Hlt. unfold fd_lt in Hlt.
      destruct (files w !! f) as [x|] eqn:Ef, (files w !! g) as [y|] eqn:Eg; try done. rewrite (Hc f x Ef), (Hc g y Eg).
      destruct (Z.ltb_spec n (fd x)), (Z.ltb_spec (fd x) n), (Z.ltb_spec n (fd y)), (Z.ltb_spec (fd y) n); cbn; lia. }
    exists r. split; [done|]. destruct Hr as [[Hin Hr]|[-> Hall]].
    + apply Hd in Hin as [x Ex]. rewrite (Hc r x Ex) in Hr. destruct (rep_files _ _ _ _ _ _ H r x Ex) as (Hx & Hr0 & _).
      assert (fd x = n) as E by (destruct (Z.ltb_spec n (fd x)), (Z.ltb_spec (fd x) n); cbn in Hr; lia). rewrite E in Hx. by rewrite Hx.
    + destruct (fds a !! n) as [x|] eqn:E; [|done]. exfalso. destruct (rep_fds _ _ _ _ _ _ H n x E) as (En & _ & _ & f & Ef).
      rewrite Forall_forall in Hall. apply (Hall f); [apply Hd; by exists x|]. rewrite (Hc f x Ef), En, Z.ltb_irrefl. done.
Qed.

(** ** Changing the files *)

Section Files.
Context {it ft : option T} {bm : list Z} {ins : gmap Z inode_t} {fls : gmap Z file_t} {a : avfs D} (H : rep it ft bm ins fls a).

(** descriptors are of one file *)
Lemma fd_inj f g x y : fls !! f = Some x -> fls !! g = Some y -> fd x = fd y -> f = g.
Proof using H.
  intros Ef Eg E. destruct (decide (f = g)) as [|Hne]; [done|]. exfalso.
  destruct (rep_ft _ _ _ _ _ _ H) as (t & fl & _ & _ & Hs & Hd).
  assert (Hf : f ∈ fl) by (apply Hd; by exists x). assert (Hg : g ∈ fl) by (apply Hd; by exists y).
  apply list_elem_of_split in Hf as (l1 & l2 & ->). apply sorted_at in Hs as (_ & H1 & H2). rewrite Forall_forall in H1, H2.
  apply elem_of_app in Hg as [Hg|Hg]; [apply H1 in Hg|apply elem_of_cons in Hg as [Hg|Hg]; [done|apply H2 in Hg]];
    unfold fd_lt in Hg; rewrite Ef, Eg in Hg; lia.
Qed.

Lemma fds_bound n : is_Some (fds a !! n) -> 2 <= n < 62.
Proof using H. intros [x E]. by destruct (rep_fds _ _ _ _ _ _ H n x E) as (_ & ? & _). Qed.

Lemma length_fl fl : StronglySorted (fd_lt fls) fl -> (forall f, f ∈ fl -> is_Some (fls !! f)) ->
  (length fl <= size (fds a))%nat.
Proof using H.
  intros Hs Hd. set (g := fun f => default 0 (fd <$> fls !! f)).
  assert (Hnd : NoDup (g <$> fl)).
  { apply (ordered_nodup Z.lt); [lia|]. clear Hd. induction Hs as [|f fl Hs IH Hf]; cbn; constructor; [done|]. apply Forall_fmap, (Forall_impl _ _ _ Hf).
    intros h. unfold fd_lt, g. cbn. destruct (fls !! f), (fls !! h); cbn; tauto || lia. }
  rewrite <- (length_fmap g fl), <- size_dom. rewrite <- (size_list_to_set (C := gset Z)) by done. apply subseteq_size.
  intros n Hn. apply elem_of_list_to_set, list_elem_of_fmap in Hn as (f & -> & Hf). apply Hd in Hf as [x Ex]. unfold g. rewrite Ex. cbn.
  apply elem_of_dom. exists x. by apply (rep_files _ _ _ _ _ _ H f x Ex).
Qed.

(** what an operation of the driver may do to its file *)
Lemma rep_update f x y d : fls !! f = Some x -> node y = node x -> fd y = fd x ->
  rep it ft bm ins (<[f := y]> fls) (with_drv (add_fd a (fd x) y) d).
Proof using H.
  intros Ef En Efd. pose proof H as [Hit Hn Hi Hr Ha (t & fl & Eft & Ht & Hs & Hd) Hf Hfd Hb].
  destruct (Hf f x Ef) as (Ex & _). split; cbn [reg fds with_drv add_fd with_fds]; try done.
  - intros p. rewrite Hi. unfold inode_view. cbn. by rewrite (open_count_update _ _ x).
  - exists t, fl. split_and?; try done.
    + apply (ordered_impl _ _ _) with (2 := Hs). intros g h _ _. unfold fd_lt. rewrite !lookup_insert.
      destruct (decide (f = g)), (decide (f = h)); subst; rewrite ?Ef, ?Efd; done.
    + intros g. rewrite Hd, lookup_insert_is_Some'. split; [by right|]. intros [<-|?]; [by exists x|done].
  - intros g z. rewrite lookup_insert_Some. intros [[<- <-]|[Hne Hg]].
    + rewrite Efd, lookup_insert_eq. split_and?; [done|by apply (Hf f x)..].
    + destruct (Hf g z Hg) as (Hz & ? & ?). split_and?; try done. rewrite lookup_insert_ne; [done|]. intros E. apply Hne. by apply (fd_inj f g x z).
  - intros n z. rewrite lookup_insert_Some. intros [[<- <-]|[Hne Hg]].
    + rewrite En, Efd. destruct (Hfd _ _ Ex) as (? & ? & ? & _). split_and?; try done; try lia. exists f. by rewrite lookup_insert_eq.
    + destruct (Hfd n z Hg) as (En' & ? & ? & g & Eg). split_and?; try done; try lia. exists g. rewrite lookup_insert_ne; [done|]. intros <-.
      rewrite Ef in Eg. injection Eg as <-. done.
  - destruct Hb as [Hl Hb]. split; [done|]. intros i Hi'. rewrite (Hb i Hi'). apply bool_decide_ext. rewrite lookup_insert_is_Some'.
    split; [by right|]. intros [<-|?]; [by exists x|done].
Qed.
End Files.

(** the comparison of files *)
Lemma file_cmp_at m f g x y : m !! f = Some x -> m !! g = Some y -> file_cmp_cb m f g = Z.b2z (fd y <? fd x) - Z.b2z (fd x <? fd y).
Proof. unfold file_cmp_cb. by intros -> ->. Qed.

Lemma file_cmp_neg x y : Z.b2z (fd y <? fd x) - Z.b2z (fd x <? fd y) < 0 <-> fd x < fd y.
Proof. destruct (Z.ltb_spec (fd y) (fd x)), (Z.ltb_spec (fd x) (fd y)); cbn; lia. Qed.
Lemma file_cmp_pos x y : 0 < Z.b2z (fd y <? fd x) - Z.b2z (fd x <? fd y) <-> fd y < fd x.
Proof. destruct (Z.ltb_spec (fd y) (fd x)), (Z.ltb_spec (fd x) (fd y)); cbn; lia. Qed.

Lemma fd_mono m k y l : m !! k = Some y -> StronglySorted (fd_lt m) l -> mono (file_cmp_cb m) k l.
Proof.
  intros Hk. apply ordered_impl. intros f g _ _. unfold fd_lt. destruct (m !! f) as [x|] eqn:Ef, (m !! g) as [z|] eqn:Eg; try done.
  rewrite (file_cmp_at m f k x y), (file_cmp_at m g k z y) by done. pose proof (file_cmp_neg x y). pose proof (file_cmp_neg z y). pose proof (file_cmp_pos x y). pose proof (file_cmp_pos z y). lia.
Qed.

Lemma fd_lt_map m m' l : (forall f, f ∈ l -> fd <$> m !! f = fd <$> m' !! f) -> StronglySorted (fd_lt m) l -> StronglySorted (fd_lt m') l.
Proof.
  intros E. apply ordered_impl. intros f g Hf Hg. unfold fd_lt. pose proof (E f Hf). pose proof (E g Hg).
  destruct (m !! f), (m' !! f), (m !! g), (m' !! g); cbn in *; try done. intros. simplify_eq. congruence.
Qed.

Section Change.
Context {it ft : option T} {bm : list Z} {ins : gmap Z inode_t} {fls : gmap Z file_t} {a : avfs D} (H : rep it ft bm ins fls a).

(** a new file [f] with descriptor [n] on the inode [p] *)
Lemma rep_add f n p i t' bm' l1 l2 : fds a !! n = None -> 2 <= n < 62 -> reg a !! p = Some i -> fls !! f = None -> f <> NULL -> f <> KEY ->
  tb_holds t' (l1 ++ f :: l2) -> StronglySorted (fd_lt (<[f := new_entry p n]> fls)) (l1 ++ f :: l2) -> (forall g, g ∈ l1 ++ l2 <-> is_Some (fls !! g)) ->
  length bm' = 2%nat -> (forall j, 0 <= j < 60 -> bm_has bm' j = if decide (j = n - 2) then true else bm_has bm j) ->
  rep it (Some t') bm' (<[p := with_refs i (open_count (fds a) p + 1)]> ins) (<[f := new_entry p n]> fls) (add_fd a n (new_entry p n)).
Proof using H.
  intros Hn Hn2 Ep Ef Hf0 HfK Ht Hs Hd Hl Hbm. pose proof H as [Hit Hnr Hi Hr Ha _ Hf Hfd Hb].
  split; cbn [reg fds with_drv add_fd with_fds]; try done.
  - intros q. unfold inode_view. cbn. rewrite open_count_insert by done. cbn. destruct (decide (p = q)) as [<-|Hne].
    + by rewrite lookup_insert_eq, Ep.
    + rewrite lookup_insert_ne by done. rewrite Hi. unfold inode_view. by rewrite Z.add_0_r.
  - exists t', (l1 ++ f :: l2). split_and?; try done. intros g. rewrite lookup_insert_is_Some', <- Hd, !elem_of_app, elem_of_cons. split.
    + intros [?|[->|?]]; tauto.
    + intros [->|[?|?]]; tauto.
  - intros g z. rewrite lookup_insert_Some. intros [[<- <-]|[Hne Hg]].
    + cbn. by rewrite lookup_insert_eq.
    + destruct (Hf g z Hg) as (Hz & ? & ?). split_and?; try done. rewrite lookup_insert_ne; [done|]. intros E. rewrite E in Hn. by rewrite Hn in Hz.
  - intros m z. rewrite lookup_insert_Some. intros [[<- <-]|[Hne Hg]].
    + cbn. split_and?; try done; try lia. exists f. by rewrite lookup_insert_eq.
    + destruct (Hfd m z Hg) as (En' & ? & ? & g & Eg). split_and?; try done; try lia. exists g. rewrite lookup_insert_ne; [done|]. intros <-. by rewrite Ef in Eg.
  - split; [done|]. intros j Hj. destruct Hb as [_ Hb]. rewrite (Hbm j Hj), (Hb j Hj). destruct (decide (j = n - 2)) as [->|Hne].
    + symmetry. apply bool_decide_eq_true_2. replace (n - 2 + 2) with n by lia. by rewrite lookup_insert_eq.
    + by rewrite lookup_insert_ne by lia.
Qed.

(** the file [f] goes *)
Lemma rep_del f x i t' bm' l1 l2 : fls !! f = Some x -> reg a !! node x = Some i ->
  tb_holds t' (l1 ++ l2) -> StronglySorted (fd_lt fls) (l1 ++ f :: l2) -> (forall g, g ∈ l1 ++ f :: l2 <-> is_Some (fls !! g)) ->
  length bm' = 2%nat -> (forall j, 0 <= j < 60 -> bm_has bm' j = if decide (j = fd x - 2) then false else bm_has bm j) ->
  rep it (Some t') bm' (<[node x := with_refs i (open_count (fds a) (node x) - 1)]> ins) (delete f fls) (del_fd a (fd x)).
Proof using H.
  intros Ef Ep Ht Hs Hd Hl Hbm. pose proof H as [Hit Hnr Hi Hr Ha _ Hf Hfd Hb]. destruct (Hf f x Ef) as (Ex & _).
  pose proof (proj1 (sorted_at _ _ _ _) Hs) as (Hs' & H1 & H2).
  assert (Hnf : f ∉ l1 ++ l2).
  { assert (Hirr : forall y, y = f -> ~ fd_lt fls y f) by (intros y -> Hlt; unfold fd_lt in Hlt; rewrite Ef in Hlt; lia). rewrite Forall_forall in H1, H2.
    intros [Hin|Hin]%elem_of_app; [by apply (Hirr f eq_refl), H1|by apply (Hirr f eq_refl), H2]. }
  split; cbn [reg fds with_drv del_fd with_fds]; try done.
  - intros q. unfold inode_view. cbn. rewrite (open_count_delete _ _ x) by done. destruct (decide (node x = q)) as [<-|Hne].
    + by rewrite lookup_insert_eq, Ep.
    + rewrite lookup_insert_ne by done. rewrite Hi. unfold inode_view. by rewrite Z.sub_0_r.
  - exists t', (l1 ++ l2). split_and?; try done.
    + apply (fd_lt_map fls); [|done]. intros g Hg. rewrite lookup_delete_ne; [done|]. by intros <-.
    + intros g. rewrite lookup_delete_is_Some, <- Hd, !elem_of_app, elem_of_cons. rewrite elem_of_app in Hnf. split.
      * intros Hg. split; [by intros <-|]. tauto.
      * intros [Hne [?|[->|?]]]; tauto.
  - intros g z. rewrite lookup_delete_Some. intros [Hne Hg]. destruct (Hf g z Hg) as (Hz & ? & ?). split_and?; try done.
    rewrite lookup_delete_ne; [done|]. intros E. apply Hne. by apply (fd_inj H f g x z).
  - intros m z. rewrite lookup_delete_Some. intros [Hne Hg]. destruct (Hfd m z Hg) as (En' & ? & ? & g & Eg). split_and?; try done; try lia.
    exists g. rewrite lookup_delete_ne; [done|]. intros <-. rewrite Ef in Eg. by injection Eg as <-.
  - split; [done|]. intros j Hj. destruct Hb as [_ Hb]. rewrite (Hbm j Hj), (Hb j Hj). destruct (decide (j = fd x - 2)) as [->|Hne].
    + symmetry. apply bool_decide_eq_false_2. replace (fd x - 2 + 2) with (fd x) by lia. rewrite lookup_delete_eq. by intros [? ?].
    + by rewrite lookup_delete_ne by lia.
Qed.
End Change.

(** ** Taking and giving back a descriptor *)

Section Alloc.
Context (alloc : nat -> Z).

(** the next three allocations give memory that is not in use *)
Definition usable (w : W) (p : Z) : Prop :=
  p <> NULL /\ p <> KEY /\ inodes w !! p = None /\ files w !! p = None /\
  (forall t, inode_rb_tree w = Some t -> tb_fresh t p) /\ (forall t, file_rb_tree w = Some t -> tb_fresh t p).
Definition fresh_mem (w : W) : Prop := forall k, (k < 3)%nat -> usable w (alloc (nalloc w + k)).

Lemma next_fd_some (a : avfs D) n : next_fd a = Some n -> fds a !! n = None /\ 2 <= n < 62.
Proof.
  unfold next_fd. intros E. destruct (filter _ _) as [|m l] eqn:F; [done|]. injection E as ->.
  assert (Hin : n ∈ filter (fun n => fds a !! n = None) (seqZ AOS_CONFIG_VFS_FD_OFFSET MAX_FILE_NUM)) by (rewrite F; by constructor).
  apply list_elem_of_filter in Hin as [? Hin]. apply elem_of_seqZ in Hin. unfold AOS_CONFIG_VFS_FD_OFFSET, MAX_FILE_NUM, AOS_CONFIG_VFS_DEV_NODES in *. split; [done|lia].
Qed.

(** a full table has no free descriptor *)
Lemma next_fd_full (m : gmap Z file_t) n : (forall k, is_Some (m !! k) -> 2 <= k < 62) -> m !! n = None -> 2 <= n < 62 -> (size m < 60)%nat.
Proof.
  intros Hb Hn Hn2. assert (Hs : (size (<[n := new_entry 0 n]> m) <= 60)%nat).
  { apply size_fds. intros k. rewrite lookup_insert_is_Some'. intros [<-|Hk]; [lia|]. apply Hb in Hk. lia. }
  rewrite map_size_insert_None in Hs by done. lia.
Qed.

Lemma new_file_none w a p : Inv w a -> next_fd a = None -> new_file alloc p w = Done (NULL, w).
Proof.
  intros [H _] Hn. unfold new_file. destruct (rep_ft _ _ _ _ _ _ H) as (t & fl & -> & Ht & Hs & Hd). destruct (MAX_FILE_NUM <=? tb_size t); [done|].
  destruct (find_fd_spec (Z.to_nat MAX_FILE_NUM) (fd_bitmap w) (fds a) 0 (rep_bm _ _ _ _ _ _ H)) as (r & -> & Hr); [lia|by vm_compute|]. cbn [mbind outcome_bind].
  unfold next_fd in Hn. change (0 + 2) with AOS_CONFIG_VFS_FD_OFFSET in Hr. change (Z.of_nat (Z.to_nat MAX_FILE_NUM)) with MAX_FILE_NUM in Hr. rewrite Hn in Hr. by subst.
Qed.

Lemma new_file_some w a p i n : Inv w a -> reg a !! p = Some i -> next_fd a = Some n -> fresh_mem w ->
  exists f w', new_file alloc p w = Done (f, w') /\ f <> NULL /\ files w' !! f = Some (new_entry p n) /\
    Inv w' (add_fd a n (new_entry p n)) /\ g_vfs_mutex w' = g_vfs_mutex w.
Proof.
  intros [H [Hdirs Hdev]] Ep Hn Hfr. unfold new_file. destruct (next_fd_some a n Hn) as [En Hn2].
  destruct (rep_ft _ _ _ _ _ _ H) as (t & fl & Eft & Ht & Hs & Hd). rewrite Eft.
  assert (Hlen : (length fl < 60)%nat).
  { pose proof (length_fl H fl Hs ltac:(intros f; apply Hd)). pose proof (next_fd_full (fds a) n (fds_bound H) En Hn2). lia. }
  rewrite (tb_size_holds t fl Ht). destruct (Z.leb_spec MAX_FILE_NUM (Z.of_nat (length fl))) as [Hx|_]; [unfold MAX_FILE_NUM, AOS_CONFIG_VFS_DEV_NODES in Hx; lia|].
  destruct (find_fd_spec (Z.to_nat MAX_FILE_NUM) (fd_bitmap w) (fds a) 0 (rep_bm _ _ _ _ _ _ H)) as (r & -> & Hr); [lia|by vm_compute|]. cbn [mbind outcome_bind].
  unfold next_fd in Hn. change (0 + 2) with AOS_CONFIG_VFS_FD_OFFSET in Hr. change (Z.of_nat (Z.to_nat MAX_FILE_NUM)) with MAX_FILE_NUM in Hr. rewrite Hn in Hr.
  destruct Hr as (-> & Hr & _). destruct (Z.ltb_spec r 0) as [|_]; [lia|]. unfold AOS_CONFIG_VFS_FD_OFFSET in *. 
  destruct (bit_set_has (fd_bitmap w) r (proj1 (rep_bm _ _ _ _ _ _ H)) ltac:(lia)) as (bm' & -> & Hl & Hbm). cbn [mbind outcome_bind].
  cbn [pvPortMalloc]. destruct (Hfr 0%nat ltac:(lia)) as (Hf0 & HfK & Hfi & Hff & Hft1 & Hft2). destruct (Hfr 1%nat ltac:(lia)) as (Hg0 & HgK & _ & _ & _ & Hgt).
  rewrite Nat.add_0_r in *. set (f := alloc (nalloc w)) in *. destruct (Z.eqb_spec f NULL) as [|_]; [done|].
  cbn [put_file set_files files pvPortMalloc nalloc fd_bitmap g_vfs_mutex inode_rb_tree file_rb_tree inodes dirs dev].
  change {| node := p; f_arg := NULL; offset := 0; fd := r + 2 |} with (new_entry p (r + 2)). set (m := <[f := new_entry p (r + 2)]> (files w)).
  replace (nalloc w + 1)%nat with (S (nalloc w)) in * by lia.
  assert (Hmf : m !! f = Some (new_entry p (r + 2))) by (by unfold m; rewrite lookup_insert_eq).
  assert (Hnf : f ∉ fl) by (rewrite Hd, Hff; by intros [? ?]).
  assert (Hs' : StronglySorted (fd_lt m) fl).
  { apply (fd_lt_map (files w)); [|done]. intros g Hg. unfold m. rewrite lookup_insert_ne; [done|]. by intros <-. }
  destruct (tb_insert_holds (file_cmp_cb m) t fl (alloc (S (nalloc w))) f Ht) as (t' & l1 & l2 & -> & -> & H1 & H2 & Ht' & _); cbn [mbind outcome_bind].
  { lia. } { by apply Hgt. } { rewrite (file_cmp_at m f f _ _ Hmf Hmf). by rewrite Z.ltb_irrefl. } { by apply (fd_mono m f _ _ Hmf). }
  { apply Forall_forall. intros g Hg. destruct (proj1 (Hd g) Hg) as [x Ex]. assert (Ex' : m !! g = Some x) by (unfold m; rewrite lookup_insert_ne; [done|]; by intros <-).
    rewrite (file_cmp_at m g f _ _ Ex' Hmf). pose proof (file_cmp_neg x (new_entry p (r + 2))). pose proof (file_cmp_pos x (new_entry p (r + 2))). cbn in *. intros E0.
    destruct (rep_files _ _ _ _ _ _ H g x Ex) as (Ex2 & _). assert (fd x = r + 2) as E by lia. rewrite E in Ex2. by rewrite En in Ex2. }
  unfold inode_ref, inode_at. cbn [inodes set_ftree]. rewrite (ins_some H p i Ep). cbn [mbind outcome_bind refs with_refs].
  eexists f, _. split; [reflexivity|]. split; [done|]. split; [exact Hmf|]. split; [|done]. split; [|done].
  cbn [put_inode set_inodes set_ftree inode_rb_tree file_rb_tree fd_bitmap inodes files].
  unfold with_refs. cbn [ops i_arg i_name i_flags type]. fold (with_refs i (u8 (open_count (fds a) p + 1))).
  replace (u8 (open_count (fds a) p + 1)) with (open_count (fds a) p + 1).
  2:{ pose proof (open_count_nonneg (fds a) p). pose proof (open_count_le (fds a) p (fds_bound H)). unfold u8, wrap. rewrite Z.mod_small by lia. done. }
  apply (rep_add H f (r + 2) p i t' bm' l1 l2); try done; [|by rewrite <- (Z.add_simpl_r r 2) in Hbm].
  fold m. apply sorted_at. split; [done|].
  assert (Hfd : forall g, g ∈ l1 ++ l2 -> exists x, m !! g = Some x).
  { intros g Hg. destruct (proj1 (Hd g) Hg) as [x Ex]. exists x. unfold m. rewrite lookup_insert_ne; [done|]. by intros <-. }
  rewrite !Forall_forall in *. unfold neg, pos in *. split; intros g Hg.
  - destruct (Hfd g ltac:(set_solver)) as [x Ex]. pose proof (H1 g Hg) as Hc. rewrite (file_cmp_at m g f _ _ Ex Hmf) in Hc.
    unfold fd_lt. rewrite Ex, Hmf. by apply file_cmp_neg in Hc.
  - destruct (Hfd g ltac:(set_solver)) as [x Ex]. pose proof (H2 g Hg) as Hc. rewrite (file_cmp_at m g f _ _ Ex Hmf) in Hc.
    unfold fd_lt. rewrite Ex, Hmf. by apply file_cmp_pos in Hc.
Qed.
End Alloc.

Lemma del_file_spec w a f x : Inv w a -> files w !! f = Some x ->
  exists w', del_file f w = Done w' /\ Inv w' (del_fd a (fd x)) /\ g_vfs_mutex w' = g_vfs_mutex w.
Proof.
  intros [H [Hdirs Hdev]] Ef. unfold del_file, file_at. rewrite Ef. cbn [mbind outcome_bind].
  destruct (rep_files _ _ _ _ _ _ H f x Ef) as (Ex & _). destruct (rep_fds _ _ _ _ _ _ H _ x Ex) as (_ & Hn2 & [i Ei] & _).
  unfold inode_unref, inode_at. rewrite (ins_some H _ i Ei). cbn [mbind outcome_bind refs with_refs].
  pose proof (open_count_pos (fds a) _ x Ex) as Hpos. destruct (Z.ltb_spec 0 (open_count (fds a) (node x))) as [_|]; [|lia].
  cbn [put_inode set_inodes file_rb_tree fd_bitmap files]. destruct (rep_ft _ _ _ _ _ _ H) as (t & fl & -> & Ht & Hs & Hd).
  unfold AOS_CONFIG_VFS_FD_OFFSET.
  destruct (bit_clear_has (fd_bitmap w) (fd x - 2) (proj1 (rep_bm _ _ _ _ _ _ H)) ltac:(lia)) as (bm' & -> & Hl & Hbm). cbn [mbind outcome_bind].
  assert (Hin : f ∈ fl) by (apply Hd; by exists x). apply list_elem_of_split in Hin as (l1 & l2 & ->).
  pose proof (proj1 (sorted_at _ _ _ _) Hs) as (_ & H1 & H2).
  assert (Hlen : Z.of_nat (length (l1 ++ f :: l2)) < 2 ^ 32).
  { pose proof (length_fl H _ Hs ltac:(intros g; apply Hd)). pose proof (size_fds (fds a) 60 ltac:(intros n Hn; apply (fds_bound H) in Hn; lia)). lia. }
  destruct (tb_remove_holds (file_cmp_cb (files w)) t l1 f l2 f Ht Hlen) as (t' & -> & Ht' & _); cbn [mbind outcome_bind].
  { apply (Forall_impl _ _ _ H1). intros g Hg. unfold fd_lt in Hg. rewrite Ef in Hg. destruct (files w !! g) as [z|] eqn:Eg; [|done].
    unfold neg. rewrite (file_cmp_at _ _ _ _ _ Eg Ef). by apply file_cmp_neg. }
  { rewrite (file_cmp_at _ _ _ _ _ Ef Ef). by rewrite Z.ltb_irrefl. }
  { apply (Forall_impl _ _ _ H2). intros g Hg. unfold fd_lt in Hg. rewrite Ef in Hg. destruct (files w !! g) as [z|] eqn:Eg; [|done].
    unfold pos. rewrite (file_cmp_at _ _ _ _ _ Eg Ef). by apply file_cmp_pos. }
  eexists. split; [reflexivity|]. split; [|done]. split; [|done]. cbn [set_files set_ftree inode_rb_tree file_rb_tree fd_bitmap inodes files].
  unfold with_refs. cbn [ops i_arg i_name i_flags type]. fold (with_refs i (u8 (open_count (fds a) (node x) - 1))).
  replace (u8 (open_count (fds a) (node x) - 1)) with (open_count (fds a) (node x) - 1).
  2:{ pose proof (open_count_le (fds a) (node x) (fds_bound H)). unfold u8, wrap. rewrite Z.mod_small by lia. done. }
  by apply (rep_del H f x i t' bm' l1 l2).
Qed.
End Proofs.
