(* ===== verification/VfsCalls.v ===== *)
(** * Every call of the virtual file system refines its specification *)
From S2P Require Import Prelude RbtreeTree RbtreeTable Vfs VfsNames VfsSpec VfsProofs.

(** what a driver must not change in the file it is given *)
Definition keeps {A D} (op : inode_t -> file_t -> D -> outcome (A * file_t * D)) : Prop :=
  forall i x d r x' d', op i x d = Done (r, x', d') -> node x' = node x /\ fd x' = fd x.
Definition keeps_opt {A D} (op : option (inode_t -> file_t -> D -> outcome (A * file_t * D))) : Prop :=
  match op with Some op => keeps op | None => True end.

(** the drivers' contract: an operation leaves the inode and the descriptor of its file *)
Class Drivers {D} (i_fops : Z -> fs_ops D) (i_dops : Z -> file_ops D) : Prop := {
  open_keeps i path flags : keeps_opt (open_op i_fops i_dops i path flags);
  close_keeps i : keeps_opt (close_sel i_fops i_dops i);
  read_keeps k i : keeps_opt (read_sel i_fops i_dops k i);
  write_keeps b i : keeps_opt (write_sel i_fops i_dops b i);
  ioctl_keeps c g i : keeps_opt (ioctl_sel i_fops i_dops c g i);
  lseek_keeps o w i : keeps_opt (lseek_sel i_fops i_dops o w i);
  sync_keeps i : keeps_opt (sync_sel i_fops i_dops i);
}.

(** compute the fields of states *)
Ltac fields := cbn [pvPortMalloc put_inode put_file set_mutex set_itree set_ftree set_inodes set_files set_dirs set_dev xSemaphoreGive
  g_vfs_mutex inode_rb_tree file_rb_tree fd_bitmap inodes files dirs nalloc dev mbind outcome_bind fst snd].

Section Calls.
Context {T I D : Type} `{!Table T I, !TableLaws T I}.
#[local] Abbreviation W := (vfs T D).

(** ** Registering *)

(** the name is new, no file system's name begins it, and a new file system's name begins
    no registered name *)
Definition can_register (a : avfs D) (ty : Z) (path : list Z) : Prop :=
  cstr path /\ forall p i, reg a !! p = Some i ->
    i_name i <> path /\ (INODE_IS_FS i = true -> ~ i_name i `prefix_of` path) /\ (ty = VFS_TYPE_FS_DEV -> ~ path `prefix_of` i_name i).

Section Registry.
Context {it ft : option T} {bm : list Z} {ins : gmap Z inode_t} {fls : gmap Z file_t} {a : avfs D} (H : rep it ft bm ins fls a).

Lemma nobody_counts p : reg a !! p = None -> open_count (fds a) p = 0.
Proof using H.
  intros Hp. pose proof (open_count_nonneg (fds a) p). destruct (Z.eq_dec (open_count (fds a) p) 0) as [|Hne]; [done|]. exfalso.
  unfold open_count in *. destruct (decide (size (filter (fun nx : Z * file_t => node nx.2 = p) (fds a)) = 0%nat)) as [E|E]; [lia|].
  apply map_size_non_empty_iff in E. apply map_choose in E as (n & x & E). apply map_lookup_filter_Some in E as [E En]. cbn in En.
  destruct (rep_fds _ _ _ _ _ _ H n x E) as (_ & _ & [i Ei] & _). rewrite En in Ei. by rewrite Hp in Ei.
Qed.

Lemma rep_register p i t' l1 l2 : reg a !! p = None -> p <> NULL -> p <> KEY -> cstr (i_name i) -> refs i = 0 -> (size (reg a) < 30)%nat ->
  (forall q j, reg a !! q = Some j -> apart i j /\ apart j i) ->
  tb_holds t' (l1 ++ p :: l2) -> StronglySorted (inode_lt (reg a)) (l1 ++ l2) -> (forall q, q ∈ l1 ++ l2 <-> is_Some (reg a !! q)) ->
  (forall q j, q ∈ l1 -> reg a !! q = Some j -> name_lt j i) -> (forall q j, q ∈ l2 -> reg a !! q = Some j -> name_lt i j) ->
  rep (Some t') ft bm (<[p := i]> ins) fls (with_reg a (<[p := i]> (reg a))).
Proof using H.
  intros Hp Hp0 HpK Hc Hrf Hsz Hap Ht Hs Hd H1 H2. pose proof (nobody_counts p Hp) as Hcnt. pose proof H as [Hit Hnr Hi Hr Ha Hft Hf Hfd Hb].
  assert (Hin : forall q, q ∈ l1 ++ l2 -> exists j, reg a !! q = Some j /\ <[p := i]> (reg a) !! q = Some j).
  { intros q Hq. apply Hd in Hq as [j Ej]. exists j. split; [done|]. rewrite lookup_insert_ne; [done|]. intros <-. by rewrite Hp in Ej. }
  split; cbn [reg fds with_reg]; try done.
  - exists t', (l1 ++ p :: l2). split_and?; try done.
    + apply sorted_at. split_and?.
      * apply (ordered_impl _ _ _) with (2 := Hs). intros q r Hq Hr'. destruct (Hin q Hq) as (j & E1 & E2), (Hin r Hr') as (k & E3 & E4).
        unfold inode_lt. by rewrite E1, E2, E3, E4.
      * apply Forall_forall. intros q Hq. destruct (Hin q ltac:(set_solver)) as (j & E1 & E2). unfold inode_lt. rewrite E2, lookup_insert_eq. by apply (H1 q).
      * apply Forall_forall. intros q Hq. destruct (Hin q ltac:(set_solver)) as (j & E1 & E2). unfold inode_lt. rewrite E2, lookup_insert_eq. by apply (H2 q).
    + intros q. rewrite lookup_insert_is_Some', <- Hd, !elem_of_app, elem_of_cons. split; [intros [?|[->|?]]; tauto|intros [->|[?|?]]; tauto].
  - rewrite map_size_insert_None by done. lia.
  - intros q. unfold inode_view. cbn. rewrite !lookup_insert. destruct (decide (p = q)) as [<-|Hne]; cbn.
    + rewrite Hcnt, <- Hrf. by destruct i.
    + rewrite Hi. done.
  - intros q j. rewrite lookup_insert_Some. intros [[<- <-]|[_ Hq]]; [done|by apply Hr].
  - intros q r j k Hne. rewrite !lookup_insert_Some. intros [[<- <-]|[_ Hq]] [[<- <-]|[_ Hq']]; [done|by apply (Hap r)|by apply (Hap q)|by apply (Ha q r)].
  - intros n x E. destruct (Hfd n x E) as (? & ? & ? & ?). split_and?; try done; try lia. rewrite lookup_insert_is_Some'. by right.
Qed.

Lemma rep_unregister p t' l1 l2 : open_count (fds a) p <= 0 -> tb_holds t' (l1 ++ l2) -> StronglySorted (inode_lt (reg a)) (l1 ++ p :: l2) ->
  (forall q, q ∈ l1 ++ p :: l2 <-> is_Some (reg a !! q)) ->
  rep (Some t') ft bm (delete p ins) fls (with_reg a (delete p (reg a))).
Proof using H.
  intros Hcnt Ht Hs Hd. pose proof (nodup_il H _ Hs) as Hnd. pose proof H as [Hit Hnr Hi Hr Ha Hft Hf Hfd Hb].
  assert (Hnp : p ∉ l1 ++ l2) by (rewrite <- Permutation_middle in Hnd; by apply NoDup_cons in Hnd as [? _]).
  apply sorted_at in Hs as (Hs & _ & _).
  split; cbn [reg fds with_reg]; try done.
  - exists t', (l1 ++ l2). split_and?; try done.
    + apply (ordered_impl _ _ _) with (2 := Hs). intros q r Hq Hr'. unfold inode_lt. by rewrite !lookup_delete_ne by (by intros <-).
    + intros q. rewrite lookup_delete_is_Some, <- Hd, !elem_of_app, elem_of_cons. rewrite elem_of_app in Hnp. split.
      * intros Hq. split; [by intros <-|]. tauto.
      * intros [Hne [?|[->|?]]]; tauto.
  - etransitivity; [|exact Hnr]. apply map_size_mono || (rewrite <- !size_dom; apply subseteq_size; rewrite dom_delete; set_solver).
  - intros q. unfold inode_view. cbn. rewrite !lookup_delete. destruct (decide (p = q)); [done|]. apply Hi.
  - intros q j. rewrite lookup_delete_Some. intros [_ Hq]. by apply Hr.
  - intros q r j k Hne. rewrite !lookup_delete_Some. intros [_ Hq] [_ Hq']. by apply (Ha q r).
  - intros n x E. destruct (Hfd n x E) as (? & ? & ? & ?). split_and?; try done; try lia. apply lookup_delete_is_Some. split; [|done].
    intros E'. by apply (open_count_zero (fds a) p Hcnt n x E).
Qed.
End Registry.

Definition ready (w : W) : Prop := g_vfs_mutex w = Some false.

Lemma take_ready w : ready w -> xSemaphoreTake w = Done (set_mutex w (Some true)).
Proof. unfold ready, xSemaphoreTake. by intros ->. Qed.

Lemma vfs_register_spec alloc w a ty path o arg : Inv w a -> ready w -> fresh_mem alloc w ->
  (forall path', path = Some path' -> can_register a ty path') ->
  exists w', register alloc ty path o arg w = Done ((a_register (alloc (nalloc w)) ty path o arg a).1, w') /\
    Inv w' (a_register (alloc (nalloc w)) ty path o arg a).2 /\ ready w'.
Proof.
  intros HI Hw Hfr Hcan. pose proof HI as [H [Hdirs Hdev]]. unfold register. rewrite take_ready by done. cbn [mbind outcome_bind].
  unfold inode_reserve, a_register. destruct path as [[|c path]|]; try by (eexists; split; [reflexivity|]).
  destruct (Hcan _ eq_refl) as (Hc & Hreg). clear Hcan. destruct (Z.eqb_spec c slash) as [->|Hne]; cbn [negb andb]; [|by (eexists; split; [reflexivity|])].
  cbn [set_mutex inode_rb_tree]. destruct (rep_it _ _ _ _ _ _ H) as (t & il & Eit & Ht & Hs & Hd). rewrite Eit.
  rewrite (tb_size_holds t il Ht), (length_il H il Hs Hd). destruct (Z.leb_spec AOS_CONFIG_VFS_DEV_NODES (Z.of_nat (size (reg a)))) as [Hx|Hsz].
  { destruct (Z.ltb_spec (Z.of_nat (size (reg a))) AOS_CONFIG_VFS_DEV_NODES); [lia|]. by (eexists; split; [reflexivity|]). }
  destruct (Z.ltb_spec (Z.of_nat (size (reg a))) AOS_CONFIG_VFS_DEV_NODES) as [_|]; [|lia]. unfold AOS_CONFIG_VFS_DEV_NODES in Hsz.
  unfold inode_alloc, inode_set_name, inode_at. fields.
  destruct (Hfr 0%nat ltac:(lia)) as (Hp0 & HpK & Hpi & _). destruct (Hfr 1%nat ltac:(lia)) as (Hs0 & _). destruct (Hfr 2%nat ltac:(lia)) as (Hn0 & _ & _ & _ & Hnt & _).
  rewrite Nat.add_0_r in *. replace (nalloc w + 1)%nat with (S (nalloc w)) in * by lia. replace (nalloc w + 2)%nat with (S (S (nalloc w))) in * by lia.
  set (p := alloc (nalloc w)) in *. destruct (Z.eqb_spec p NULL) as [|_]; [done|]. fields.
  destruct (Z.eqb_spec (alloc (S (nalloc w))) NULL) as [|_]; [done|]. fields. rewrite lookup_insert_eq. fields. cbn [ops i_arg i_flags type refs].
  rewrite insert_insert_eq. set (path' := slash :: path) in *.
  change {| ops := NULL; i_arg := NULL; i_name := path'; i_flags := 0; type := 0; refs := 0 |} with (key_inode path'). set (m := <[p := key_inode path']> (inodes w)).
  assert (Hpr : reg a !! p = None). { destruct (reg a !! p) as [i|] eqn:E; [|done]. by rewrite (ins_some H p i E) in Hpi. }
  assert (Hcmp : forall q i, reg a !! q = Some i -> inode_cmp_cb m q p = inode_cmp i (key_inode path')).
  { intros q i E. unfold inode_cmp_cb, m. rewrite lookup_insert_eq, lookup_insert_ne by (intros <-; by rewrite Hpr in E). rewrite (ins_some H q i E). by apply inode_cmp_names. }
  assert (Hci : forall q i, reg a !! q = Some i -> cstr (i_name i)) by (intros q i Ei; by apply (rep_reg _ _ _ _ _ _ H q i Ei)).
  assert (Hcmp' : forall q i, reg a !! q = Some i -> inode_cmp_cb m q p = strcmp (i_name i) path').
  { intros q i E. rewrite (Hcmp q i E). destruct (Hreg q i E) as (_ & ? & _). by apply cmp_aside; [by apply (Hci q)|..]. }
  destruct (tb_insert_holds (inode_cmp_cb m) t il (alloc (S (S (nalloc w)))) p Ht) as (t' & l1 & l2 & -> & -> & H1 & H2 & Ht' & _); cbn [mbind outcome_bind].
  { rewrite (length_il H il Hs Hd). lia. } { by apply Hnt. } { unfold inode_cmp_cb, m. rewrite lookup_insert_eq. apply strcmp_refl. }
  { by apply (inodes_mono H path'). }
  { apply Forall_forall. intros q Hq. apply Hd in Hq as [i Ei]. rewrite (Hcmp' q i Ei). intros E0. destruct (Hreg q i Ei) as [Hne _]. apply Hne, strcmp_zero; [by apply (Hci q)|done..]. }
  cbn [Z.eqb]. fields. rewrite Z.eqb_refl. assert (Hmp : m !! p = Some (key_inode path')) by (unfold m; by rewrite lookup_insert_eq). fields. rewrite Hmp. fields. cbn [key_inode i_name i_flags refs].
  eexists. split; [reflexivity|]. cbn [fst snd]. split; [|done]. split; [|done].
  fields. unfold m. rewrite insert_insert_eq.
  unfold neg, pos in H1, H2. rewrite Forall_forall in H1, H2.
  apply (rep_register H p _ t' l1 l2); cbn [i_name refs]; try done.
  - lia.
  - intros q j Ej. destruct (Hreg q j Ej) as (_ & Hj & Hi). split; [|exact Hj]. unfold apart, INODE_IS_FS, INODE_IS_TYPE. cbn. intros ->%Z.eqb_eq. by apply Hi.
  - intros q j Hq Ej. unfold name_lt. cbn [i_name]. rewrite <- (Hcmp' q j Ej). by apply H1.
  - intros q j Hq Ej. unfold name_lt. cbn [i_name]. rewrite strcmp_anti, <- (Hcmp' q j Ej). apply H2 in Hq. lia.
Qed.

Lemma unregister_spec w a path : Inv w a -> ready w -> (forall path', path = Some path' -> cstr path') ->
  exists w', unregister path w = Done ((a_unregister path a).1, w') /\ Inv w' (a_unregister path a).2 /\ ready w'.
Proof.
  intros HI Hw Hc. pose proof HI as [H [Hdirs Hdev]]. unfold unregister. rewrite take_ready by done. fields.
  unfold inode_release, a_unregister. destruct path as [path|]; [|by (eexists; split; [reflexivity|])]. specialize (Hc _ eq_refl).
  rewrite (inode_open_spec (set_mutex w (Some true)) a path HI Hc). fields. set (p := route a path).
  destruct (Z.eqb_spec p NULL) as [E|Hp]; [by (eexists; split; [reflexivity|])|].
  destruct (route_some a path p eq_refl Hp) as (i & Ei & _). unfold inode_del, inode_at. fields. rewrite (ins_some H p i Ei). fields. cbn [with_refs refs].
  destruct (Z.ltb_spec 0 (open_count (fds a) p)) as [|Hcnt]; [by (eexists; split; [reflexivity|])|].
  destruct (rep_it _ _ _ _ _ _ H) as (t & il & Eit & Ht & Hs & Hd). rewrite Eit. assert (Hin : p ∈ il) by (apply Hd; by exists i).
  apply list_elem_of_split in Hin as (l1 & l2 & ->). pose proof (proj1 (sorted_at _ _ _ _) Hs) as (_ & H1 & H2).
  assert (Hcmp : forall q r, inode_lt (reg a) q r -> inode_cmp_cb (inodes w) q r < 0 /\ 0 < inode_cmp_cb (inodes w) r q).
  { intros q r Hlt. destruct (inode_lt_inv H q r Hlt) as (j & k & Ej & Ek & Hn & A1 & A2). unfold inode_cmp_cb. rewrite (ins_some H q j Ej), (ins_some H r k Ek).
    rewrite (inode_cmp_names (with_refs j _) (with_refs k _) j k), (inode_cmp_names (with_refs k _) (with_refs j _) k j) by done.
    rewrite !cmp_registered by (done || by apply (rep_reg _ _ _ _ _ _ H q j Ej) || by apply (rep_reg _ _ _ _ _ _ H r k Ek)).
    unfold name_lt in Hn. rewrite (strcmp_anti (i_name k)). lia. }
  destruct (tb_remove_holds (inode_cmp_cb (inodes w)) t l1 p l2 p Ht) as (t' & -> & Ht' & _).
  { rewrite (length_il H _ Hs Hd). pose proof (rep_nreg _ _ _ _ _ _ H). lia. }
  { apply (Forall_impl _ _ _ H1). intros q Hq. by apply Hcmp. }
  { unfold inode_cmp_cb. rewrite (ins_some H p i Ei). unfold inode_cmp. rewrite xorb_nilpotent. apply strcmp_refl. }
  { apply (Forall_impl _ _ _ H2). intros q Hq. by apply Hcmp. }
  fields. eexists. split; [reflexivity|]. split; [|done]. split; [|done]. by apply (rep_unregister H p t' l1 l2).
Qed.

(** ** Simulation *)

(** where the specification has a result, the code has the same, and stays in step *)
Definition sim {A} (m : outcome (A * W)) (s : outcome (A * avfs D)) : Prop :=
  forall r a', s = Done (r, a') -> exists w', m = Done (r, w') /\ Inv w' a' /\ ready w'.

Lemma sim_done {A} (r : A) w a : Inv w a -> ready w -> sim (Done (r, w)) (Done (r, a)).
Proof. intros HI Hw r' a' [= <- <-]. by exists w. Qed.

Lemma sim_bind {A B} m s (k : A -> W -> outcome (B * W)) k' : sim m s ->
  (forall r w a, Inv w a -> ready w -> sim (k r w) (k' r a)) -> sim ('(r, w) ← m; k r w) ('(r, a) ← s; k' r a).
Proof.
  intros Hm Hk r a' E. destruct s as [[r1 a1]| |]; try done. destruct (Hm r1 a1 eq_refl) as (w1 & -> & H1 & Hw1). by apply (Hk r1 w1 a1).
Qed.

Lemma sim_fmap {A B} (g : A -> B) m s : sim m s -> sim ('(r, w) ← m; Done (g r, w)) ('(r, a) ← s; Done (g r, a)).
Proof. intros H. apply (sim_bind m s (fun r w => Done (g r, w)) (fun r a => Done (g r, a)) H). intros. by apply sim_done. Qed.

Lemma sim_fmap2 {A B C} (g : A -> B -> C) m s : sim m s -> sim ('(r, v, w) ← m; Done (g r v, w)) ('(r, v, a) ← s; Done (g r v, a)).
Proof. intros H r a' E. destruct s as [[[r1 v] a1]| |]; try done. injection E as <- <-. destruct (H (r1, v) a1 eq_refl) as (w' & -> & HI & Hw). by exists w'. Qed.

(** *** The driver's operation on an open file *)

Definition run_op {A} (dflt : A) (sel : inode_t -> option (inode_t -> file_t -> D -> outcome (A * file_t * D))) (f : Z) (x : file_t) (w : W) : outcome (A * W) :=
  i ← inode_at w (node x);
  match sel i with
  | Some op => '(r, x, d) ← op i x (dev w); Done (r, put_file (set_dev w d) f x)
  | None => Done (dflt, w)
  end.
Definition a_run {A} (dflt : A) (sel : inode_t -> option (inode_t -> file_t -> D -> outcome (A * file_t * D))) (x : file_t) (a : avfs D) : outcome (A * avfs D) :=
  i ← view_at a (node x);
  match sel i with
  | None => Done (dflt, a)
  | Some op => '(r, y, d) ← op i x (drv a); Done (r, with_drv (add_fd a (fd x) y) d)
  end.

Lemma inode_at_view (w : W) a p : Inv w a -> inode_at w p = view_at a p.
Proof. intros [H _]. unfold inode_at, view_at. by rewrite (rep_inodes _ _ _ _ _ _ H). Qed.

Lemma run_op_sim {A} (dflt : A) sel (w : W) a f x r a' : (forall i, keeps_opt (sel i)) -> Inv w a -> ready w -> files w !! f = Some x ->
  a_run dflt sel x a = Done (r, a') ->
  exists w' y, run_op dflt sel f x w = Done (r, w') /\ Inv w' a' /\ ready w' /\ files w' !! f = Some y /\ fd y = fd x.
Proof.
  intros Hk HI Hw Ef. unfold run_op, a_run. rewrite (inode_at_view w a) by done. destruct (view_at a (node x)) as [i| |]; try done. cbn [mbind outcome_bind].
  specialize (Hk i). destruct HI as [H [Hdirs Hdev]]. destruct (sel i) as [op|].
  - rewrite Hdev. destruct (op i x (drv a)) as [[[r1 y] d]| |] eqn:E; cbn [mbind outcome_bind]; try done. intros [= <- <-].
    destruct (Hk _ _ _ _ _ _ E) as [En Efd]. eexists _, y. split; [reflexivity|]. split.
    { split; [|done]. fields. by apply (rep_update H). }
    split; [done|]. fields. split; [by rewrite lookup_insert_eq|done].
  - intros [= <- <-]. exists w, x. done.
Qed.

Lemma fd_of (w : W) a x n : Inv w a -> fds a !! n = Some x -> fd x = n.
Proof. intros [H _] E. by apply (rep_fds _ _ _ _ _ _ H n x E). Qed.

(** *** The calls on descriptors *)

Definition fd_call {A} (bad dflt : A) sel (n : Z) (w : W) : outcome (A * W) :=
  f ← get_file n w;
  if f =? NULL then Done (bad, w) else x ← file_at w f; run_op dflt sel f x w.

Lemma a_fd_run {A} (bad dflt : A) sel n (a : avfs D) x : fds a !! n = Some x -> fd x = n -> a_fd bad dflt sel n a = a_run dflt sel x a.
Proof. unfold a_fd, a_run. by intros -> ->. Qed.

Lemma fd_call_sim {A} (bad dflt : A) sel n (w : W) a : (forall i, keeps_opt (sel i)) -> Inv w a -> ready w ->
  sim (fd_call bad dflt sel n w) (a_fd bad dflt sel n a).
Proof.
  intros Hk HI Hw r a' E. unfold fd_call. destruct (get_file_spec w a n HI) as (f & -> & Hf). cbn [mbind outcome_bind].
  destruct (fds a !! n) as [x|] eqn:Ex.
  - rewrite (a_fd_run _ _ _ _ _ x Ex (fd_of w a x n HI Ex)) in E. destruct Hf as [Hf0 Ef]. destruct (Z.eqb_spec f NULL); [done|].
    unfold file_at. rewrite Ef. cbn [mbind outcome_bind]. destruct (run_op_sim dflt sel w a f x r a' Hk HI Hw Ef E) as (w' & y & -> & ? & ? & _). by exists w'.
  - subst f. cbn. unfold a_fd in E. rewrite Ex in E. injection E as <- <-. by exists w.
Qed.

Lemma rep_ext it ft bm ins fls (a b : avfs D) : rep it ft bm ins fls a -> reg a = reg b -> fds a = fds b -> rep it ft bm ins fls b.
Proof.
  intros [? ? Hi ? ? ? ? ? ?] E E'. split; rewrite <- ?E, <- ?E'; try done. intros p. rewrite Hi. unfold inode_view. by rewrite E, E'.
Qed.

Lemma Inv_drv (w : W) a d : Inv w a -> Inv (set_dev w d) (with_drv a d).
Proof. intros [H [Hd _]]. split; [|done]. by apply (rep_ext _ _ _ _ _ a). Qed.

Lemma del_add (a : avfs D) n x : fds a !! n = None -> del_fd (add_fd a n x) n = a.
Proof. intros Hn. destruct a. unfold del_fd, add_fd, with_fds. cbn in *. by rewrite delete_insert_id. Qed.

Lemma del_none (a : avfs D) n : fds a !! n = None -> del_fd a n = a.
Proof. intros Hn. destruct a. unfold del_fd, with_fds. cbn in *. by rewrite delete_id. Qed.

(** setting the flags of an inode *)
Lemma Inv_flags (w : W) a p i fl : Inv w a -> reg a !! p = Some i ->
  Inv (put_inode w p (with_flags (with_refs i (open_count (fds a) p)) fl)) (with_reg a (alter (fun i => with_flags i fl) p (reg a))).
Proof.
  intros [H [Hdirs Hdev]] Ep. split; [|done]. fields. pose proof H as [(t & il & Eit & Ht & Hs & Hd) Hn Hi Hr Ha Hft Hf Hfd Hb].
  assert (Hal : forall q j, alter (fun i => with_flags i fl) p (reg a) !! q = Some j -> exists j', reg a !! q = Some j' /\ i_name j = i_name j' /\ type j = type j').
  { intros q j. rewrite lookup_alter. destruct (decide (p = q)) as [<-|].
    - rewrite Ep. intros [= <-]. by exists i.
    - intros E. by exists j. }
  split; cbn [reg fds with_reg]; try done.
  - exists t, il. split_and?; try done.
    + apply (ordered_impl _ _ _) with (2 := Hs). intros q r _ _ Hlt. unfold inode_lt in *. rewrite !lookup_alter.
      destruct (decide (p = q)), (decide (p = r)); subst; repeat match goal with |- context [reg a !! ?x] => destruct (reg a !! x) end; done.
    + intros q. by rewrite Hd, lookup_alter_is_Some.
  - by rewrite <- size_dom, dom_alter_L, size_dom.
  - intros q. unfold inode_view. cbn. rewrite lookup_insert, lookup_alter. destruct (decide (p = q)) as [<-|]; [by rewrite Ep|]. apply Hi.
  - intros q j E. destruct (Hal q j E) as (j' & E' & -> & _). by apply (Hr q).
  - intros q r j k Hne E1 E2. destruct (Hal q j E1) as (j' & E1' & N1 & T1), (Hal r k E2) as (k' & E2' & N2 & T2). unfold apart, INODE_IS_FS, INODE_IS_TYPE.
    rewrite N1, N2, T1. by apply (Ha q r).
  - intros n x E. destruct (Hfd n x E) as (? & ? & ? & ?). split_and?; try done; try lia. by apply lookup_alter_is_Some.
Qed.

(** *** The other calls *)

Section Ops.
Context (alloc : nat -> Z) (i_fops : Z -> fs_ops D) (i_dops : Z -> file_ops D) `{!Drivers i_fops i_dops}.

Lemma aos_close_run n (w : W) : aos_close i_fops i_dops n w =
  f ← get_file n w;
  if f =? NULL then Done (- ENOENT, w)
  else
    x ← file_at w f;
    '(ret, w) ← run_op VFS_SUCCESS (close_sel i_fops i_dops) f x w;
    w ← xSemaphoreTake w; w ← del_file f w; Done (ret, xSemaphoreGive w).
Proof.
  unfold aos_close, run_op. destruct (get_file n w) as [f| |]; try done. cbn [mbind outcome_bind]. destruct (f =? NULL); [done|].
  destruct (file_at w f) as [x| |]; try done. cbn [mbind outcome_bind]. by destruct (inode_at w (node x)).
Qed.

(** [del_file] under the mutex *)
Lemma give_back {A} (r : A) (w : W) a f x n : Inv w a -> ready w -> files w !! f = Some x -> fd x = n -> forall b, del_fd a n = b ->
  exists w', (w ← xSemaphoreTake w; w ← del_file f w; Done (r, xSemaphoreGive w)) = Done (r, w') /\ Inv w' b /\ ready w'.
Proof.
  intros HI Hw Ef <- b <-. rewrite take_ready by done. cbn [mbind outcome_bind].
  destruct (del_file_spec (set_mutex w (Some true)) a f x HI Ef) as (w' & -> & HI' & _). cbn [mbind outcome_bind]. by exists (xSemaphoreGive w').
Qed.

Lemma aos_close_sim n (w : W) a : Inv w a -> ready w -> sim (aos_close i_fops i_dops n w) (a_close i_fops i_dops n a).
Proof using Drivers0.
  intros HI Hw r a' E. rewrite aos_close_run. unfold a_close in E. destruct (get_file_spec w a n HI) as (f & -> & Hf). cbn [mbind outcome_bind].
  destruct (fds a !! n) as [x|] eqn:Ex.
  - pose proof (fd_of w a x n HI Ex) as En. rewrite (a_fd_run _ _ _ _ _ x Ex En) in E. destruct Hf as [Hf0 Ef]. destruct (Z.eqb_spec f NULL); [done|].
    unfold file_at. rewrite Ef. cbn [mbind outcome_bind]. destruct (a_run _ _ x a) as [[r1 a1]| |] eqn:Er; try done. injection E as <- <-.
    destruct (run_op_sim VFS_SUCCESS _ w a f x r1 a1 close_keeps HI Hw Ef Er) as (w' & y & -> & HI' & Hw' & Ey & Efd). cbn [mbind outcome_bind].
    apply (give_back r1 w' a1 f y n); try done. by rewrite Efd.
  - subst f. cbn. unfold a_fd in E. rewrite Ex in E. injection E as <- <-. exists w. by rewrite del_none.
Qed.

Lemma aos_open_run path flags (w : W) : aos_open alloc i_fops i_dops path flags w =
  match path with
  | None => Done (- EINVAL, w)
  | Some path =>
    if PATH_MAX <? Z.of_nat (length path) then Done (- ENAMETOOLONG, w)
    else
      w ← xSemaphoreTake w;
      p ← inode_open path w;
      if p =? NULL then Done (- ENOENT, xSemaphoreGive w)
      else
        i ← inode_at w p;
        '(f, w) ← new_file alloc p (put_inode w p (with_flags i flags));
        let w := xSemaphoreGive w in
        if f =? NULL then Done (- ENFILE, w)
        else
          i ← inode_at w p; x ← file_at w f;
          '(ret, w) ← match open_op i_fops i_dops i path flags with
                      | Some op => '(r, x, d) ← op i x (dev w); Done (r, put_file (set_dev w d) f x)
                      | None => Done (VFS_SUCCESS, w)
                      end;
          if negb (ret =? VFS_SUCCESS) then w ← del_file f w; Done (ret, w)
          else n ← get_fd f w; Done (n, w)
  end.
Proof.
  unfold aos_open, open_op. destruct path as [path|]; [|done]. destruct (_ <? _); [done|]. destruct (xSemaphoreTake w) as [w0| |]; try done. cbn [mbind outcome_bind].
  destruct (inode_open path w0) as [p| |]; try done. cbn [mbind outcome_bind]. destruct (p =? NULL); [done|].
  destruct (inode_at w0 p) as [i| |]; try done. cbn [mbind outcome_bind]. destruct (new_file alloc p _) as [[f w1]| |]; try done. cbn [mbind outcome_bind].
  destruct (f =? NULL); [done|]. destruct (inode_at (xSemaphoreGive w1) p) as [j| |]; try done. cbn [mbind outcome_bind].
  destruct (file_at (xSemaphoreGive w1) f) as [x| |]; try done. cbn [mbind outcome_bind]. destruct (INODE_IS_FS j); [|done]. by destruct (fs_open _).
Qed.

Lemma aos_open_sim path flags (w : W) a : Inv w a -> ready w -> fresh_mem alloc w -> (forall path', path = Some path' -> cstr path') ->
  sim (aos_open alloc i_fops i_dops path flags w) (a_open i_fops i_dops path flags a).
Proof using Drivers0.
  intros HI Hw Hfr Hc r a' E. rewrite aos_open_run. unfold a_open in E. destruct path as [path|]; [|by apply (sim_done _ w a HI Hw r a')].
  destruct (PATH_MAX <? _); [by apply (sim_done _ w a HI Hw r a')|]. specialize (Hc _ eq_refl). rewrite take_ready by done. cbn [mbind outcome_bind].
  set (wt := set_mutex w (Some true)). assert (HIt : Inv wt a) by exact HI.
  rewrite (inode_open_spec wt a path HIt Hc). cbn [mbind outcome_bind]. set (p := route a path) in *.
  destruct (Z.eqb_spec p NULL) as [Ep|Hp]; [by apply (sim_done _ (xSemaphoreGive wt) a HIt eq_refl r a')|].
  destruct (route_some a path p eq_refl Hp) as (i & Ei & _). rewrite (inode_at_view wt a p HIt). unfold view_at at 1, inode_view at 1. rewrite Ei. cbn [fmap option_fmap option_map mbind outcome_bind].
  pose proof (Inv_flags wt a p i flags HIt Ei) as HI1. set (w1 := put_inode wt p _) in *. set (a1 := with_reg a _) in *.
  assert (Ei1 : reg a1 !! p = Some (with_flags i flags)) by (cbn; by rewrite lookup_alter_eq, Ei).
  destruct (next_fd a1) as [n|] eqn:En.
  2:{ rewrite (new_file_none alloc w1 a1 p HI1 En). cbn [mbind outcome_bind]. by apply (sim_done _ (xSemaphoreGive w1) a1 HI1 eq_refl r a'). }
  destruct (next_fd_some a1 n En) as [En1 _].
  destruct (new_file_some alloc w1 a1 p _ n HI1 Ei1 En) as (f & w2 & -> & Hf0 & Ef & HI2 & _).
  { intros k Hk. destruct (Hfr k Hk) as (? & ? & Hnone & ? & ? & ?). unfold usable, w1, wt. fields. split_and?; try done. rewrite lookup_insert_ne; [done|]. intros E'. rewrite <- E' in Hnone.
    destruct HI as [Hrep _]. by rewrite (ins_some Hrep p i Ei) in Hnone. }
  cbn [mbind outcome_bind]. destruct (Z.eqb_spec f NULL); [done|]. set (w3 := xSemaphoreGive w2). set (x := new_entry p n) in *. set (a2 := add_fd a1 n x) in *.
  assert (HI3 : Inv w3 a2) by exact HI2. assert (Hw3 : ready w3) by done. assert (Ef3 : files w3 !! f = Some x) by done.
  rewrite (inode_at_view w3 a2 p HI3). unfold file_at. rewrite Ef3. destruct (view_at a2 p) as [j| |] eqn:Ej; try done. cbn [mbind outcome_bind] in *.
  assert (Hd3 : dev w3 = drv a) by apply HI3. rewrite Hd3. change (drv a1) with (drv a) in E. pose proof (open_keeps j path flags) as Hk. destruct (open_op i_fops i_dops j path flags) as [op|].
  - destruct (op j x (drv a)) as [[[r1 y] d]| |] eqn:Eop; try done. cbn [mbind outcome_bind] in *. destruct (Hk _ _ _ _ _ _ Eop) as [Eny Efy].
    assert (HI4 : Inv (put_file (set_dev w3 d) f y) (with_drv (add_fd a2 (fd x) y) d)).
    { destruct HI3 as [H [Hdirs _]]. split; [|done]. fields. by apply (rep_update H). }
    assert (Ef4 : files (put_file (set_dev w3 d) f y) !! f = Some y) by (apply lookup_insert_eq).
    set (w4 := put_file (set_dev w3 d) f y) in *. destruct (Z.eqb_spec r1 VFS_SUCCESS) as [->|Hr]; cbn [negb].
    + injection E as <- <-. unfold get_fd, file_at. rewrite Ef4. cbn [mbind outcome_bind]. rewrite Efy. exists w4. split; [done|]. split; [|done].
      replace (add_fd a1 n y) with (add_fd a2 (fd x) y); [done|]. unfold a2, add_fd, with_fds. cbn. by rewrite insert_insert_eq.
    + injection E as <- <-. destruct (del_file_spec w4 _ f y HI4 Ef4) as (w5 & -> & HI5 & Hm5). cbn [mbind outcome_bind]. exists w5. split; [done|].
      split; [|unfold ready in *; by rewrite Hm5]. rewrite Efy in HI5.
      replace (with_drv a1 d) with (del_fd (with_drv (add_fd a2 (fd x) y) d) (fd x)); [done|]. unfold a2, add_fd, del_fd, with_fds, with_drv. cbn in *.
      by rewrite insert_insert_eq, delete_insert_id.
  - injection E as <- <-. cbn [mbind outcome_bind Z.eqb VFS_SUCCESS negb]. unfold get_fd, file_at. rewrite Ef3. by exists w3.
Qed.

(** the flags of the inode are left when the path is opened for one call *)
Lemma path_call_sim {A} (dflt : A) call sel path (w : W) a : Inv w a -> ready w -> fresh_mem alloc w -> (forall path', path = Some path' -> cstr path') ->
  (forall path', path = Some path' -> forall o, call o = sel o path') ->
  sim (path_call alloc i_fops dflt call path w) (a_path i_fops dflt sel path a).
Proof.
  intros HI Hw Hfr Hc Hcs r a' E. unfold path_call. unfold a_path in E. destruct path as [path|]; [|by apply (sim_done _ w a HI Hw r a')].
  specialize (Hc _ eq_refl). specialize (Hcs _ eq_refl). rewrite take_ready by done. cbn [mbind outcome_bind].
  set (wt := set_mutex w (Some true)). assert (HIt : Inv wt a) by exact HI.
  rewrite (inode_open_spec wt a path HIt Hc). cbn [mbind outcome_bind]. set (p := route a path) in *.
  destruct (Z.eqb_spec p NULL) as [Ep|Hp]; [by apply (sim_done _ (xSemaphoreGive wt) a HIt eq_refl r a')|].
  destruct (route_some a path p eq_refl Hp) as (i & Ei & _).
  destruct (next_fd a) as [n|] eqn:En.
  2:{ rewrite (new_file_none alloc wt a p HIt En). cbn [mbind outcome_bind]. by apply (sim_done _ (xSemaphoreGive wt) a HIt eq_refl r a'). }
  destruct (next_fd_some a n En) as [En1 _].
  destruct (new_file_some alloc wt a p _ n HIt Ei En Hfr) as (f & w2 & -> & Hf0 & Ef & HI2 & _).
  cbn [mbind outcome_bind]. destruct (Z.eqb_spec f NULL); [done|]. set (w3 := xSemaphoreGive w2). set (x := new_entry p n) in *. set (a2 := add_fd a n x) in *.
  assert (HI3 : Inv w3 a2) by exact HI2. assert (Hw3 : ready w3) by done. assert (Ef3 : files w3 !! f = Some x) by done.
  rewrite (inode_at_view w3 a2 p HI3). unfold file_at. rewrite Ef3. destruct (view_at a2 p) as [j| |] eqn:Ej; try done. cbn [mbind outcome_bind] in *.
  assert (Hd3 : dev w3 = drv a) by apply HI3. rewrite Hd3, (Hcs (i_fops (ops j))).
  destruct (if INODE_IS_FS j then sel (i_fops (ops j)) path else None) as [op|].
  - destruct (op j x (drv a)) as [[[r1 v] d]| |]; try done. cbn [mbind outcome_bind] in *. injection E as <- <-.
    apply (give_back (r1, v) (set_dev w3 d) (with_drv a2 d) f x n); try done; [by apply Inv_drv|].
    unfold a2, del_fd, add_fd, with_fds, with_drv. cbn. by rewrite delete_insert_id.
  - cbn [mbind outcome_bind] in *. injection E as <- <-. apply (give_back (- ENOSYS, dflt) w3 a2 f x n); try done. by apply del_add.
Qed.

(** the calls of one operation *)
Lemma path_call_unit_sim call f path (w : W) a : Inv w a -> ready w -> fresh_mem alloc w -> (forall path', path = Some path' -> cstr path') ->
  (forall path', path = Some path' -> forall o, call o = match f o with Some op => Some (fun i x => op i x path') | None => None end) ->
  sim ('(r, w) ← path_call_unit alloc i_fops call path w; Done (RInt r, w)) (r ← a_path i_fops tt (plain_sel f) path a; Done (rint r)).
Proof.
  intros HI Hw Hfr Hc Hcs r a' E. unfold path_call_unit.
  destruct (a_path i_fops tt (plain_sel f) path a) as [[[r1 u] a1]| |] eqn:E1; try done. injection E as <- <-.
  destruct (path_call_sim tt (fun o => match call o with
     | Some op => Some (fun i x d => '(r, d) ← op i x d; Done (r, tt, d)) | None => None end) (plain_sel f) path w a HI Hw Hfr Hc) with (r := (r1, u)) (a' := a1)
    as (w' & -> & HI' & Hw'); [|done|by exists w'].
  intros path' Ep o. unfold plain_sel. rewrite (Hcs path' Ep). by destruct (f o).
Qed.

Lemma aos_opendir_sim path (w : W) a : Inv w a -> ready w -> fresh_mem alloc w -> (forall path', path = Some path' -> cstr path') ->
  sim (aos_opendir alloc i_fops path w) (a_opendir i_fops path a).
Proof.
  intros HI Hw Hfr Hc r a' E. unfold aos_opendir. unfold a_opendir in E. destruct path as [path|]; [|by apply (sim_done _ w a HI Hw r a')].
  specialize (Hc _ eq_refl). rewrite take_ready by done. cbn [mbind outcome_bind].
  set (wt := set_mutex w (Some true)). assert (HIt : Inv wt a) by exact HI.
  rewrite (inode_open_spec wt a path HIt Hc). cbn [mbind outcome_bind]. set (p := route a path) in *.
  destruct (Z.eqb_spec p NULL) as [Ep|Hp]; [by apply (sim_done _ (xSemaphoreGive wt) a HIt eq_refl r a')|].
  destruct (route_some a path p eq_refl Hp) as (i & Ei & _).
  destruct (next_fd a) as [n|] eqn:En.
  2:{ rewrite (new_file_none alloc wt a p HIt En). cbn [mbind outcome_bind]. by apply (sim_done _ (xSemaphoreGive wt) a HIt eq_refl r a'). }
  destruct (next_fd_some a n En) as [En1 _].
  destruct (new_file_some alloc wt a p _ n HIt Ei En Hfr) as (f & w2 & -> & Hf0 & Ef & HI2 & _).
  cbn [mbind outcome_bind]. destruct (Z.eqb_spec f NULL); [done|]. set (w3 := xSemaphoreGive w2). set (x := new_entry p n) in *. set (a2 := add_fd a n x) in *.
  assert (HI3 : Inv w3 a2) by exact HI2. assert (Hw3 : ready w3) by done. assert (Ef3 : files w3 !! f = Some x) by done.
  rewrite (inode_at_view w3 a2 p HI3). unfold file_at. rewrite Ef3. destruct (view_at a2 p) as [j| |] eqn:Ej; try done. cbn [mbind outcome_bind] in *.
  assert (Hd3 : dev w3 = drv a) by apply HI3. rewrite Hd3.
  destruct (if INODE_IS_FS j then fs_opendir (i_fops (ops j)) else None) as [op|].
  - destruct (op j x path (drv a)) as [[dp d]| |]; try done. cbn [mbind outcome_bind] in *. destruct (Z.eqb_spec dp NULL) as [|Hdp].
    + injection E as <- <-. apply (give_back NULL (set_dev w3 d) (with_drv a2 d) f x n); try done; [by apply Inv_drv|].
      unfold a2, del_fd, add_fd, with_fds, with_drv. cbn. by rewrite delete_insert_id.
    + injection E as <- <-. unfold get_fd, file_at. fields. rewrite Ef3. cbn [mbind outcome_bind]. eexists. split; [reflexivity|]. split; [|done].
      destruct HI3 as [H [Hdirs _]]. split; [by apply (rep_ext _ _ _ _ _ a2)|]. fields. cbn. split; [|done]. by f_equal.
  - cbn [mbind outcome_bind Z.eqb NULL] in *. injection E as <- <-. apply (give_back NULL w3 a2 f x n); try done. by apply del_add.
Qed.

(** the file behind a directory handle *)
Lemma dir_file_spec (w : W) a dp n : Inv w a -> handles a !! dp = Some n -> dir_file dp w = get_file n w.
Proof. intros [_ [Hd _]] E. unfold dir_file. by rewrite Hd, E. Qed.

Definition dir_call {A} (null bad dflt : A) (sel : fs_ops D -> option (inode_t -> file_t -> Z -> D -> outcome (A * D))) (dp : Z) (w : W) : outcome (A * W) :=
  if dp =? NULL then Done (null, w)
  else
    f ← dir_file dp w;
    if f =? NULL then Done (bad, w)
    else
      x ← file_at w f; i ← inode_at w (node x);
      match (if INODE_IS_FS i then sel (i_fops (ops i)) else None) with
      | Some op => '(r, d) ← op i x dp (dev w); Done (r, set_dev w d)
      | None => Done (dflt, w)
      end.

Lemma dir_call_sim {A} (null bad dflt : A) sel dp (w : W) a : Inv w a -> ready w ->
  sim (dir_call null bad dflt sel dp w) (a_dir i_fops null bad dflt sel dp a).
Proof.
  intros HI Hw r a' E. unfold dir_call. unfold a_dir in E. destruct (dp =? NULL); [by apply (sim_done _ w a HI Hw r a')|].
  destruct (handles a !! dp) as [n|] eqn:En; [|done]. rewrite (dir_file_spec w a dp n HI En).
  destruct (get_file_spec w a n HI) as (f & -> & Hf). cbn [mbind outcome_bind]. destruct (fds a !! n) as [x|]; [|by subst f; apply (sim_done _ w a HI Hw r a')].
  destruct Hf as [Hf Ef]. destruct (Z.eqb_spec f NULL); [done|]. unfold file_at. rewrite Ef. cbn [mbind outcome_bind]. rewrite (inode_at_view w a _ HI).
  destruct (view_at a (node x)) as [i| |]; try done. cbn [mbind outcome_bind] in *. assert (dev w = drv a) as -> by apply HI.
  destruct (if INODE_IS_FS i then sel (i_fops (ops i)) else None) as [op|]; [|by apply (sim_done _ w a HI Hw r a')].
  destruct (op i x dp (drv a)) as [[r1 d]| |]; try done. cbn [mbind outcome_bind] in *. by apply (sim_done _ (set_dev w d) (with_drv a d) (Inv_drv w a d HI)).
Qed.

Lemma aos_closedir_sim dp (w : W) a : Inv w a -> ready w -> sim (aos_closedir i_fops dp w) (a_closedir i_fops dp a).
Proof.
  intros HI Hw r a' E. unfold aos_closedir. unfold a_closedir in E. destruct (dp =? NULL); [by apply (sim_done _ w a HI Hw r a')|].
  destruct (handles a !! dp) as [n|] eqn:En; [|done]. rewrite (dir_file_spec w a dp n HI En).
  destruct (get_file_spec w a n HI) as (f & -> & Hf). cbn [mbind outcome_bind]. destruct (fds a !! n) as [x|] eqn:Ex; [|by subst f; apply (sim_done _ w a HI Hw r a')].
  destruct Hf as [Hf Ef]. destruct (Z.eqb_spec f NULL); [done|]. unfold file_at. rewrite Ef. cbn [mbind outcome_bind]. rewrite (inode_at_view w a _ HI).
  destruct (view_at a (node x)) as [i| |]; try done. cbn [mbind outcome_bind] in *. assert (dev w = drv a) as Hdev by apply HI. rewrite Hdev.
  pose proof (fd_of w a x n HI Ex) as Efd.
  destruct (if INODE_IS_FS i then fs_closedir (i_fops (ops i)) else None) as [op|].
  - destruct (op i x dp (drv a)) as [[r1 d]| |]; try done. cbn [mbind outcome_bind] in *. injection E as <- <-.
    apply (give_back r1 (set_dirs (set_dev w d) (delete dp (dirs w))) (with_drv (with_handles a (delete dp (handles a))) d) f x n); try done.
    destruct HI as [H [Hd _]]. split; [by apply (rep_ext _ _ _ _ _ a)|]. fields. cbn. by rewrite Hd.
  - injection E as <- <-. cbn [mbind outcome_bind]. by apply (give_back (- ENOSYS) w a f x n).
Qed.

(** *** All of them *)

Definition call_paths (c : call) : list (list Z) :=
  match c with
  | Register _ path _ _ | Unregister path | Open path _ | Stat path _ | Unlink path | Rename path _
  | Mkdir path | Rmdir path | Access path _ | Opendir path => match path with Some path => [path] | None => [] end
  | _ => []
  end.
(** paths are C strings, and only names that fit the registry are registered *)
Definition call_legal (a : avfs D) (c : call) : Prop :=
  Forall cstr (call_paths c) /\ match c with Register ty (Some path) _ _ => can_register a ty path | _ => True end.

(** both sides of an equation of the handlers make the same choices *)
Ltac same := cbn [mbind outcome_bind fst snd]; try reflexivity;
  match goal with
  | |- context [if ?b then _ else _] => destruct b
  | |- context [match ?o with Some _ => _ | None => _ end] => destruct o
  | |- context [let (_, _) := ?x in _] => destruct x
  | |- context [mbind _ ?m] => lazymatch m with mbind _ _ => fail | _ => destruct m as [?| |] end
  end.

(** the handlers on directories; two of them have no result *)
Lemma dir_calls_run dp (w : W) :
  aos_rewinddir i_fops dp w = ('(_, w) ← dir_call tt tt tt (fun o => unit_op (fs_rewinddir o)) dp w; Done w) /\
  (forall loc, aos_seekdir i_fops dp loc w = '(_, w) ← dir_call tt tt tt (fun o => unit_op (seek_sel loc o)) dp w; Done w).
Proof. unfold aos_rewinddir, aos_seekdir, dir_call, unit_op, seek_sel. split; intros; repeat same. Qed.

Lemma fd_calls_run (w : W) :
  (forall n k, aos_read i_fops i_dops n k w = '(r, w) ← fd_call (- ENOENT, []) (-1, []) (read_sel i_fops i_dops k) n w; Done (r.1, r.2, w)) /\
  (forall n b, aos_write i_fops i_dops n b w = fd_call (- ENOENT) (-1) (write_sel i_fops i_dops b) n w) /\
  (forall n c g, aos_ioctl i_fops i_dops n c g w = if n <? 0 then Done (- EINVAL, w) else fd_call (- ENOENT) (- ENOSYS) (ioctl_sel i_fops i_dops c g) n w) /\
  (forall n o h, aos_lseek i_fops n o h w = fd_call (- ENOENT) (- ENOSYS) (lseek_sel i_fops i_dops o h) n w) /\
  (forall n, aos_sync i_fops i_dops n w = fd_call (- ENOENT) (- ENOSYS) (sync_sel i_fops i_dops) n w).
Proof.
  unfold aos_read, aos_write, aos_ioctl, aos_lseek, aos_sync, fd_call, run_op, read_sel, write_sel, ioctl_sel, lseek_sel, sync_sel, both.
  split_and!; intros; repeat same.
Qed.

End Ops.
End Calls.
