(* ===== verification/VfsRefine.v ===== *)
(** * The virtual file system keeps its promises

    The refinement of [VfsSpec] by the code, over any table; what follows for every
    reachable state; and where the code departs from what it means to do. *)
From S2P Require Import Prelude Rbtree RbtreeTree RbtreeTable Vfs VfsNames VfsSpec VfsProofs VfsCalls.

(** ** Definitions *)

(** the code's calls *)
Section Exec.
Context {T I D : Type} `{!Table T I}.
Context (alloc : nat -> Z) (i_fops : Z -> fs_ops D) (i_dops : Z -> file_ops D).

Definition exec (c : call) (w : vfs T D) : outcome (result * vfs T D) :=
  match c with
  | Register ty path o arg => '(r, w) ← register alloc ty path o arg w; Done (RInt r, w)
  | Unregister path => '(r, w) ← unregister path w; Done (RInt r, w)
  | Open path flags => '(r, w) ← aos_open alloc i_fops i_dops path flags w; Done (RInt r, w)
  | Close n => '(r, w) ← aos_close i_fops i_dops n w; Done (RInt r, w)
  | Read n k => '(r, b, w) ← aos_read i_fops i_dops n k w; Done (RBytes r b, w)
  | Write n buf => '(r, w) ← aos_write i_fops i_dops n buf w; Done (RInt r, w)
  | Ioctl n cmd arg => '(r, w) ← aos_ioctl i_fops i_dops n cmd arg w; Done (RInt r, w)
  | Lseek n off whence => '(r, w) ← aos_lseek i_fops n off whence w; Done (RInt r, w)
  | Sync n => '(r, w) ← aos_sync i_fops i_dops n w; Done (RInt r, w)
  | Stat path st => '(r, v, w) ← aos_stat alloc i_fops path st w; Done (RStat r v, w)
  | Unlink path => '(r, w) ← aos_unlink alloc i_fops path w; Done (RInt r, w)
  | Rename oldpath newpath => '(r, w) ← aos_rename alloc i_fops oldpath newpath w; Done (RInt r, w)
  | Mkdir path => '(r, w) ← aos_mkdir alloc i_fops path w; Done (RInt r, w)
  | Rmdir path => '(r, w) ← aos_rmdir alloc i_fops path w; Done (RInt r, w)
  | Access path amode => '(r, w) ← aos_access alloc i_fops path amode w; Done (RInt r, w)
  | Opendir path => '(r, w) ← aos_opendir alloc i_fops path w; Done (RInt r, w)
  | Readdir dp => '(r, w) ← aos_readdir i_fops dp w; Done (REntry r, w)
  | Closedir dp => '(r, w) ← aos_closedir i_fops dp w; Done (RInt r, w)
  | Rewinddir dp => w ← aos_rewinddir i_fops dp w; Done (RNone, w)
  | Telldir dp => '(r, w) ← aos_telldir i_fops dp w; Done (RInt r, w)
  | Seekdir dp loc => w ← aos_seekdir i_fops dp loc w; Done (RNone, w)
  end.
End Exec.

(** *** Operations that come back

    [driver_returns a c]: the operation of the driver or file system that the call [c]
    asks for in state [a] comes back, on the file it is asked for: the one open under the
    descriptor, or the one just made for the call.  Nothing is asked of other operations,
    files or states. *)
Section Returns.
Context {D : Type} (i_fops : Z -> fs_ops D) (i_dops : Z -> file_ops D).

Definition comes_back {X} (m : outcome X) : Prop := exists r, m = Done r.

(** the file open as [n], with its inode *)
Definition on_fd (a : avfs D) (n : Z) (i : inode_t) (x : file_t) (d : D) : Prop :=
  fds a !! n = Some x /\ view_at a (node x) = Done i /\ d = drv a.
(** a new file on a registered inode; count and flags of the inode are those of the call *)
Definition on_new (a : avfs D) (i : inode_t) (x : file_t) (d : D) : Prop :=
  exists p n j r fl, x = new_entry p n /\ reg a !! p = Some j /\ i = with_refs (with_flags j fl) r /\ d = drv a.

Section Ret.
Context {A B X : Type} (dom : inode_t -> file_t -> D -> Prop).
Definition ret0 (sel : inode_t -> option (inode_t -> file_t -> D -> outcome X)) : Prop :=
  forall i x d op, dom i x d -> sel i = Some op -> comes_back (op i x d).
Definition ret1 (sel : inode_t -> option (inode_t -> file_t -> A -> D -> outcome X)) (y : A) : Prop :=
  forall i x d op, dom i x d -> sel i = Some op -> comes_back (op i x y d).
Definition ret2 (sel : inode_t -> option (inode_t -> file_t -> A -> B -> D -> outcome X)) (y : A) (z : B) : Prop :=
  forall i x d op, dom i x d -> sel i = Some op -> comes_back (op i x y z d).
End Ret.

(** the operation of a file system only *)
Definition fs_only {X} (f : fs_ops D -> option X) (i : inode_t) : option X := if INODE_IS_FS i then f (i_fops (ops i)) else None.

Definition driver_returns (a : avfs D) (c : call) : Prop :=
  match c with
  | Register _ _ _ _ | Unregister _ => True
  | Open path flags => forall p, path = Some p -> ret0 (on_new a) (fun i => open_op i_fops i_dops i p flags)
  | Close n => ret0 (on_fd a n) (both i_fops i_dops fs_close d_close)
  | Read n k => ret1 (on_fd a n) (both i_fops i_dops fs_read d_read) k
  | Write n buf => ret1 (on_fd a n) (both i_fops i_dops fs_write d_write) buf
  | Ioctl n cmd arg => ret2 (on_fd a n) (both i_fops i_dops fs_ioctl d_ioctl) cmd arg
  | Lseek n off whence => ret2 (on_fd a n) (fs_only fs_lseek) off whence
  | Sync n => ret0 (on_fd a n) (both i_fops i_dops fs_sync d_sync)
  | Stat path st => forall p, path = Some p -> ret2 (on_new a) (fs_only fs_stat) p st
  | Unlink path => forall p, path = Some p -> ret1 (on_new a) (fs_only fs_unlink) p
  | Rename oldpath newpath => forall p q, oldpath = Some p -> newpath = Some q -> ret2 (on_new a) (fs_only fs_rename) p q
  | Mkdir path => forall p, path = Some p -> ret1 (on_new a) (fs_only fs_mkdir) p
  | Rmdir path => forall p, path = Some p -> ret1 (on_new a) (fs_only fs_rmdir) p
  | Access path amode => forall p, path = Some p -> ret2 (on_new a) (fs_only fs_access) p amode
  | Opendir path => forall p, path = Some p -> ret1 (on_new a) (fs_only fs_opendir) p
  | Readdir dp => forall n, handles a !! dp = Some n -> ret1 (on_fd a n) (fs_only fs_readdir) dp
  | Closedir dp => forall n, handles a !! dp = Some n -> ret1 (on_fd a n) (fs_only fs_closedir) dp
  | Rewinddir dp => forall n, handles a !! dp = Some n -> ret1 (on_fd a n) (fs_only fs_rewinddir) dp
  | Telldir dp => forall n, handles a !! dp = Some n -> ret1 (on_fd a n) (fs_only fs_telldir) dp
  | Seekdir dp loc => forall n, handles a !! dp = Some n -> ret2 (on_fd a n) (fs_only fs_seekdir) dp loc
  end.
End Returns.

(** a directory handle is null or was given out *)
Definition handle_ok {D} (a : avfs D) (c : call) : Prop :=
  match c with
  | Readdir dp | Closedir dp | Rewinddir dp | Telldir dp | Seekdir dp _ => dp = NULL \/ is_Some (handles a !! dp)
  | _ => True
  end.

(** the state before [vfs_init] *)
Definition boot {T D} (d : D) : vfs T D := mk_vfs None None None [] ∅ ∅ ∅ 0%nat d.

Section Refine.
Context {T I D : Type} `{!Table T I, !TableLaws T I}.
Context (alloc : nat -> Z) (i_fops : Z -> fs_ops D) (i_dops : Z -> file_ops D) `{!Drivers i_fops i_dops}.
#[local] Abbreviation W := (vfs T D).

Lemma exec_sim c (w : W) a : Inv w a -> ready w -> fresh_mem alloc w -> call_legal a c ->
  sim (exec alloc i_fops i_dops c w) (a_call i_fops i_dops (alloc (nalloc w)) c a).
Proof using Drivers0 TableLaws0.
  intros HI Hw Hfr [Hc Hreg]. destruct (fd_calls_run i_fops i_dops w) as (Eread & Ewrite & Eioctl & Elseek & Esync).
  assert (Hp : forall path, call_paths c = match path with Some path => [path] | None => [] end -> forall path', path = Some path' -> cstr path').
  { intros path E path' ->. rewrite E in Hc. by apply Forall_cons in Hc as [Hc _]. }
  destruct c; cbn [exec a_call call_paths] in *.
  - destruct (vfs_register_spec alloc w a ty path o arg HI Hw Hfr) as (w' & -> & HI' & Hw'); [by intros path' ->|].
    destruct (a_register _ _ _ _ _ _) as [r a']. by apply sim_done.
  - destruct (unregister_spec w a path HI Hw (Hp path eq_refl)) as (w' & -> & HI' & Hw'). destruct (a_unregister _ _) as [r a']. by apply sim_done.
  - by apply sim_fmap, aos_open_sim; [..|apply (Hp path)].
  - by apply sim_fmap, aos_close_sim.
  - rewrite Eread. intros r a' E. destruct (a_fd _ _ _ n a) as [[[r1 b] a1]| |] eqn:E1; try done. injection E as <- <-.
    destruct (fd_call_sim _ _ _ n w a (read_keeps nbytes) HI Hw _ _ E1) as (w' & -> & ? & ?). by exists w'.
  - rewrite Ewrite. apply sim_fmap, fd_call_sim; [apply write_keeps|done..].
  - rewrite Eioctl. destruct (n <? 0); [by apply (sim_done (RInt _))|]. apply sim_fmap, fd_call_sim; [apply ioctl_keeps|done..].
  - rewrite Elseek. apply sim_fmap, fd_call_sim; [apply lseek_keeps|done..].
  - rewrite Esync. apply sim_fmap, fd_call_sim; [apply sync_keeps|done..].
  - apply sim_fmap2, path_call_sim; try done; [by apply (Hp path)|].
    intros path' -> o. by destruct (fs_stat o).
  - apply path_call_unit_sim; try done; [by apply (Hp path)|]. intros path' -> o. by destruct (fs_unlink o).
  - unfold aos_rename. destruct newpath as [newpath|]; [|destruct oldpath; by apply (sim_done (RInt _))].
    destruct oldpath as [oldpath|]; [|by apply (sim_done (RInt _))]. apply path_call_unit_sim; try done; [by apply (Hp (Some oldpath))|].
    intros path' [= <-] o. by destruct (fs_rename o).
  - apply path_call_unit_sim; try done; [by apply (Hp path)|]. intros path' -> o. by destruct (fs_mkdir o).
  - apply path_call_unit_sim; try done; [by apply (Hp path)|]. intros path' -> o. by destruct (fs_rmdir o).
  - apply path_call_unit_sim; try done; [by apply (Hp path)|]. intros path' -> o. by destruct (fs_access o).
  - by apply sim_fmap, aos_opendir_sim; [..|apply (Hp path)].
  - apply sim_fmap. exact (dir_call_sim i_fops None None None fs_readdir dp w a HI Hw).
  - by apply sim_fmap, aos_closedir_sim.
  - intros r a' E. rewrite (proj1 (dir_calls_run i_fops dp w)).
    destruct (a_dir _ _ _ _ _ dp a) as [[[] a1]| |] eqn:E1; try done. injection E as <- <-.
    destruct (dir_call_sim i_fops _ _ _ _ dp w a HI Hw _ _ E1) as (w' & -> & ? & ?). by exists w'.
  - apply sim_fmap. exact (dir_call_sim i_fops (- EINVAL) (- ENOENT) 0 fs_telldir dp w a HI Hw).
  - intros r a' E. rewrite (proj2 (dir_calls_run i_fops dp w)).
    destruct (a_dir _ _ _ _ _ dp a) as [[[] a1]| |] eqn:E1; try done. injection E as <- <-.
    destruct (dir_call_sim i_fops _ _ _ _ dp w a HI Hw _ _ E1) as (w' & -> & ? & ?). by exists w'.
Qed.

(** ** The specification always answers *)

Lemma view_some (w : W) a n x : Inv w a -> fds a !! n = Some x -> exists i, view_at a (node x) = Done i.
Proof. intros [H _] E. destruct (rep_fds _ _ _ _ _ _ H n x E) as (_ & _ & [i Ei] & _). unfold view_at, inode_view. rewrite Ei. by eexists. Qed.

Lemma a_fd_total {A} (bad dflt : A) sel n (w : W) a : Inv w a -> ret0 (on_fd a n) sel -> exists r a', a_fd bad dflt sel n a = Done (r, a').
Proof.
  intros HI Hs. unfold a_fd. destruct (fds a !! n) as [x|] eqn:E; [|by eexists _, _]. destruct (view_some w a n x HI E) as [i Ei]. rewrite Ei.
  cbn [mbind outcome_bind]. destruct (sel i) as [op|] eqn:Eo; [|by eexists _, _].
  destruct (Hs i x (drv a) op) as [[[r y] d] ->]; [by split_and!|done|]. by eexists _, _.
Qed.

Lemma view_new (w : W) a path n : Inv w a -> route a path <> NULL ->
  exists i, view_at (add_fd a n (new_entry (route a path) n)) (route a path) = Done i /\ on_new a i (new_entry (route a path) n) (drv a).
Proof.
  intros HI Hp. destruct (route_some a path _ eq_refl Hp) as (i & Ei & _). unfold view_at, inode_view. cbn. rewrite Ei. eexists. split; [done|].
  eexists (route a path), n, i, _, (i_flags i). by destruct i.
Qed.

Lemma a_path_total {A} (dflt : A) sel path (w : W) a : Inv w a ->
  (forall p, path = Some p -> ret0 (on_new a) (fun i => if INODE_IS_FS i then sel (i_fops (ops i)) p else None)) ->
  exists r a', a_path i_fops dflt sel path a = Done (r, a').
Proof.
  intros HI Hs. unfold a_path. destruct path as [path|]; [|by eexists _, _]. destruct (Z.eqb_spec (route a path) NULL) as [|Hp]; [by eexists _, _|].
  destruct (next_fd a) as [n|]; [|by eexists _, _]. destruct (view_new w a path n HI Hp) as (i & -> & Hi). cbn [mbind outcome_bind].
  destruct (if INODE_IS_FS i then _ else None) as [op|] eqn:Eo; [|by eexists _, _].
  destruct (Hs path eq_refl i _ _ op Hi Eo) as [[[r v] d] ->]. by eexists _, _.
Qed.

Lemma a_dir_total {A} (null bad dflt : A) sel dp (w : W) a : Inv w a -> dp = NULL \/ is_Some (handles a !! dp) ->
  (forall n, handles a !! dp = Some n -> ret1 (on_fd a n) (fs_only i_fops sel) dp) ->
  exists r a', a_dir i_fops null bad dflt sel dp a = Done (r, a').
Proof.
  intros HI Hdp Hs. unfold a_dir. destruct (Z.eqb_spec dp NULL) as [|Hne]; [by eexists _, _|]. destruct Hdp as [|[n En]]; [done|]. rewrite En.
  destruct (fds a !! n) as [x|] eqn:E; [|by eexists _, _]. destruct (view_some w a n x HI E) as [i Ei]. rewrite Ei. cbn [mbind outcome_bind].
  fold (fs_only i_fops sel i). destruct (fs_only i_fops sel i) as [op|] eqn:Eo; [|by eexists _, _].
  destruct (Hs n En i x (drv a) op) as [[r d] ->]; [by split_and!|done|]. by eexists _, _.
Qed.

Lemma plain_ret f path a : ret1 (on_new a) (fs_only i_fops f) path ->
  ret0 (on_new a) (fun i => if INODE_IS_FS i then plain_sel f (i_fops (ops i)) path else None).
Proof.
  intros H i x d op Hd. specialize (H i x d). unfold fs_only, plain_sel in *. destruct (INODE_IS_FS i); [|done].
  destruct (f (i_fops (ops i))) as [g|]; [|done]. intros [= <-]. destruct (H g Hd eq_refl) as [[r d'] ->]. by eexists.
Qed.
Lemma unit_ret (f : fs_ops D -> option (inode_t -> file_t -> Z -> D -> outcome D)) dp a n : ret1 (on_fd a n) (fs_only i_fops f) dp -> ret1 (on_fd a n) (fs_only i_fops (fun o => unit_op (f o))) dp.
Proof.
  intros H i x d op Hd. specialize (H i x d). unfold fs_only, unit_op in *. destruct (INODE_IS_FS i); [|done].
  destruct (f (i_fops (ops i))) as [g|]; [|done]. intros [= <-]. destruct (H g Hd eq_refl) as [d' ->]. by eexists.
Qed.

Lemma a_open_total path flags (w : W) a : Inv w a -> driver_returns i_fops i_dops a (Open path flags) ->
  exists r a', a_open i_fops i_dops path flags a = Done (r, a').
Proof.
  intros HI Hs. unfold a_open. destruct path as [path|]; [|by eexists _, _]. destruct (PATH_MAX <? _); [by eexists _, _|].
  destruct (Z.eqb_spec (route a path) NULL) as [|Hp]; [by eexists _, _|]. destruct (next_fd _) as [n|]; [|by eexists _, _].
  destruct (route_some a path _ eq_refl Hp) as (i & Ei & _). unfold view_at, inode_view. cbn [reg with_reg add_fd with_fds]. rewrite lookup_alter_eq, Ei.
  cbn [fmap option_fmap option_map mbind outcome_bind]. set (j := with_refs _ _).
  destruct (open_op i_fops i_dops j path flags) as [op|] eqn:Eo; [|by eexists _, _]. cbn [drv with_reg].
  destruct (Hs path eq_refl j (new_entry (route a path) n) (drv a) op) as [[[r y] d] E]; [|done|].
  { by eexists _, _, i, _, flags. }
  rewrite E. cbn [mbind outcome_bind]. destruct (r =? VFS_SUCCESS); by eexists _, _.
Qed.

Lemma a_opendir_total path (w : W) a : Inv w a -> driver_returns i_fops i_dops a (Opendir path) -> exists r a', a_opendir i_fops path a = Done (r, a').
Proof.
  intros HI Hs. unfold a_opendir. destruct path as [path|]; [|by eexists _, _].
  destruct (Z.eqb_spec (route a path) NULL) as [|Hp]; [by eexists _, _|]. destruct (next_fd _) as [n|]; [|by eexists _, _].
  destruct (view_new w a path n HI Hp) as (i & -> & Hi). cbn [mbind outcome_bind].
  fold (fs_only i_fops fs_opendir i). destruct (fs_only i_fops fs_opendir i) as [op|] eqn:Eo; [|by eexists _, _].
  destruct (Hs path eq_refl i _ _ op Hi Eo) as [[dp d] ->]. cbn [mbind outcome_bind]. destruct (dp =? NULL); by eexists _, _.
Qed.

Lemma a_closedir_total dp (w : W) a : Inv w a -> dp = NULL \/ is_Some (handles a !! dp) -> driver_returns i_fops i_dops a (Closedir dp) ->
  exists r a', a_closedir i_fops dp a = Done (r, a').
Proof.
  intros HI Hdp Hs. unfold a_closedir. destruct (Z.eqb_spec dp NULL) as [|Hne]; [by eexists _, _|]. destruct Hdp as [|[n En]]; [done|]. rewrite En.
  destruct (fds a !! n) as [x|] eqn:E; [|by eexists _, _]. destruct (view_some w a n x HI E) as [i Ei]. rewrite Ei. cbn [mbind outcome_bind].
  fold (fs_only i_fops fs_closedir i). destruct (fs_only i_fops fs_closedir i) as [op|] eqn:Eo; [|by eexists _, _].
  destruct (Hs n En i x (drv a) op) as [[r d] ->]; [by split_and!|done|]. by eexists _, _.
Qed.

Lemma done_map {A B} (m : outcome (A * avfs D)) (g : A -> B) : (exists r a', m = Done (r, a')) -> exists r a', ('(r, a) ← m; Done (g r, a)) = Done (r, a').
Proof. intros (r & a' & ->). by eexists _, _. Qed.
Lemma done_map2 {A B C} (m : outcome (A * B * avfs D)) (g : A -> B -> C) : (exists r a', m = Done (r, a')) -> exists r a', ('(r, v, a) ← m; Done (g r v, a)) = Done (r, a').
Proof. intros ([r v] & a' & ->). by eexists _, _. Qed.
Lemma done_rint {A} (m : outcome (Z * A * avfs D)) : (exists r a', m = Done (r, a')) -> exists r a', (r ← m; Done (rint r)) = Done (r, a').
Proof. intros ([r v] & a' & ->). by eexists _, _. Qed.

(** an operation with its arguments put in *)
Lemma sel_app {A X} dom (f : inode_t -> option (inode_t -> file_t -> A -> D -> outcome X)) y :
  ret1 dom f y -> ret0 dom (fun i => match f i with Some op => Some (fun i x => op i x y) | None => None end).
Proof. intros H i x d op Hd. specialize (H i x d). destruct (f i); [|done]. intros [= <-]. by eapply H. Qed.
Lemma sel_app2 {A B X} dom (f : inode_t -> option (inode_t -> file_t -> A -> B -> D -> outcome X)) y z :
  ret2 dom f y z -> ret0 dom (fun i => match f i with Some op => Some (fun i x => op i x y z) | None => None end).
Proof. intros H i x d op Hd. specialize (H i x d). destruct (f i); [|done]. intros [= <-]. by eapply H. Qed.
(** the second argument put in *)
Lemma fs_arg2 {A B X} dom (f : fs_ops D -> option (inode_t -> file_t -> A -> B -> D -> outcome X)) y z :
  ret2 dom (fs_only i_fops f) y z ->
  ret1 dom (fs_only i_fops (fun o => match f o with Some op => Some (fun i x p => op i x p z) | None => None end)) y.
Proof.
  intros H i x d op Hd. specialize (H i x d). unfold fs_only in *. destruct (INODE_IS_FS i); [|done].
  destruct (f (i_fops (ops i))); [|done]. intros [= <-]. by eapply H.
Qed.

Lemma a_call_total new c (w : W) a : Inv w a -> handle_ok a c -> driver_returns i_fops i_dops a c ->
  exists r a', a_call i_fops i_dops new c a = Done (r, a').
Proof.
  intros HI Hok Hs.
  assert (Hfd : forall A (bad dflt : A) sel n, ret0 (on_fd a n) sel -> exists r a', a_fd bad dflt sel n a = Done (r, a')) by (intros; by apply (a_fd_total _ _ _ _ w)).
  assert (Hpath : forall f path, (forall p, path = Some p -> ret1 (on_new a) (fs_only i_fops f) p) ->
    exists r a', (r ← a_path i_fops tt (plain_sel f) path a; Done (rint r)) = Done (r, a')).
  { intros f path Hf. apply done_rint, (a_path_total _ _ _ w); [done|]. intros p Ep. by apply plain_ret, Hf. }
  assert (Hdir : forall A (null bad dflt : A) sel dp, dp = NULL \/ is_Some (handles a !! dp) ->
    (forall n, handles a !! dp = Some n -> ret1 (on_fd a n) (fs_only i_fops sel) dp) ->
    exists r a', a_dir i_fops null bad dflt sel dp a = Done (r, a')) by (intros; by apply (a_dir_total _ _ _ _ _ w)).
  destruct c; cbn [a_call handle_ok] in *.
  - destruct (a_register _ _ _ _ _ _). by eexists _, _.
  - destruct (a_unregister _ _). by eexists _, _.
  - by apply done_map, (a_open_total _ _ w).
  - apply done_map. unfold a_close. destruct (Hfd _ (- ENOENT) VFS_SUCCESS (close_sel i_fops i_dops) n Hs) as (r & a' & ->). by eexists _, _.
  - destruct (Hfd _ (- ENOENT, []) (-1, []) (read_sel i_fops i_dops nbytes) n (sel_app _ _ _ Hs)) as (r & a' & ->). by eexists _, _.
  - apply done_map, Hfd. by apply sel_app.
  - destruct (n <? 0); [by eexists _, _|]. apply done_map, Hfd. by apply sel_app2.
  - apply done_map, Hfd. intros i x d op Hd. specialize (Hs i x d). unfold lseek_sel, both. unfold fs_only in Hs.
    destruct (INODE_IS_FS i); [|done]. destruct (fs_lseek (i_fops (ops i))) as [g|]; [|done]. intros [= <-].
    destruct (Hs g Hd eq_refl) as [[[r y] d'] ->]. by eexists.
  - by apply done_map, Hfd.
  - apply done_map2, (a_path_total _ _ _ w); [done|]. intros p Ep. specialize (Hs p Ep). intros i x d op Hd. specialize (Hs i x d).
    unfold fs_only in Hs. destruct (INODE_IS_FS i); [|done]. destruct (fs_stat (i_fops (ops i))); [|done]. intros [= <-]. by eapply Hs.
  - by apply Hpath.
  - destruct oldpath, newpath; try by eexists _, _. apply Hpath. intros p Ep. by apply fs_arg2, Hs.
  - by apply Hpath.
  - by apply Hpath.
  - apply Hpath. intros p Ep. by apply fs_arg2, Hs.
  - by apply done_map, (a_opendir_total _ w).
  - by apply done_map, Hdir.
  - by apply done_map, (a_closedir_total _ w).
  - destruct (Hdir _ tt tt tt (fun o => unit_op (fs_rewinddir o)) dp Hok) as (r & a' & ->); [|by eexists _, _]. intros n En. by apply unit_ret, Hs.
  - by apply done_map, Hdir.
  - destruct (Hdir _ tt tt tt (fun o => unit_op (seek_sel loc o)) dp Hok) as (r & a' & ->); [|by eexists _, _].
    intros n En. apply unit_ret. by apply (fs_arg2 _ fs_seekdir dp loc), Hs.
Qed.

End Refine.

(** ** The start *)

Section Start.
Context {T I D : Type} `{!Table T I, !TableLaws T I}.

Lemma init_Inv (d : D) : exists w : vfs T D, vfs_init true true true true (boot d) = (VFS_SUCCESS, w) /\ Inv w (mk_avfs ∅ ∅ ∅ d) /\ ready w.
Proof.
  eexists. split; [reflexivity|]. split; [|done]. split; [|done]. split; cbn.
  - exists tb_empty, []. split_and?; [done|apply tb_empty_holds|constructor|]. intros p. rewrite lookup_empty. split; [by intros ?%elem_of_nil|by intros [? ?]].
  - rewrite map_size_empty. lia.
  - intros p. by rewrite lookup_empty.
  - intros p i. by rewrite lookup_empty.
  - intros p q i j _. by rewrite lookup_empty.
  - exists tb_empty, []. split_and?; [done|apply tb_empty_holds|constructor|]. intros p. rewrite lookup_empty. split; [by intros ?%elem_of_nil|by intros [? ?]].
  - intros f x. by rewrite lookup_empty.
  - intros n x. by rewrite lookup_empty.
  - split; [done|]. intros i Hi. rewrite lookup_empty, bool_decide_eq_false_2 by (by intros [? ?]). unfold bm_has.
    assert (i / 32 = 0 \/ i / 32 = 1) as [-> | ->] by (pose proof (Z.div_pos i 32); assert (i / 32 < 2) by (apply Z.div_lt_upper_bound; lia); lia); apply Z.testbit_0_l.
Qed.

Context (alloc : nat -> Z) (i_fops : Z -> fs_ops D) (i_dops : Z -> file_ops D).

(** what the system and its specification come to, from the start, in any sequence of
    legal calls that return *)
Inductive reach : vfs T D -> avfs D -> Prop :=
| reach_init d w : vfs_init true true true true (boot d) = (VFS_SUCCESS, w) -> reach w (mk_avfs ∅ ∅ ∅ d)
| reach_call w a c r r' w' a' : reach w a -> fresh_mem alloc w -> call_legal a c ->
    exec alloc i_fops i_dops c w = Done (r, w') -> a_call i_fops i_dops (alloc (nalloc w)) c a = Done (r', a') -> reach w' a'.

Lemma reach_Inv `{!Drivers i_fops i_dops} w a : reach w a -> Inv w a /\ ready w.
Proof.
  induction 1 as [d w E|w a c r r' w' a' Hr [HI Hw] Hf Hl E E'].
  - destruct (init_Inv d) as (w0 & E0 & ?). rewrite E in E0. by injection E0 as <-.
  - destruct (exec_sim alloc i_fops i_dops c w a HI Hw Hf Hl r' a' E') as (w1 & E1 & ? & ?). rewrite E in E1. by injection E1 as _ <-.
Qed.

(** C19: refinement.  Whatever the order of calls, a legal call to which the specification
    has an answer returns, with that answer, and leaves the tables, the reference
    counts and the bitmap of descriptors as the specification's state says, and the mutex
    free. *)
Theorem vfs_refines (Hdrv : Drivers i_fops i_dops) c (w : vfs T D) a r a' :
  Inv w a -> ready w -> fresh_mem alloc w -> call_legal a c ->
  a_call i_fops i_dops (alloc (nalloc w)) c a = Done (r, a') ->
  exists w', exec alloc i_fops i_dops c w = Done (r, w') /\ Inv w' a' /\ ready w'.
Proof. intros HI Hw Hf Hl E. by apply (exec_sim alloc i_fops i_dops c w a HI Hw Hf Hl r a' E). Qed.

(** C21: no call hangs or faults.  In every state that legal calls lead to ([reach]),
    every legal call of [call], when there is memory for what it allocates (a failed
    [pvPortMalloc] stops the system at an assert) and the driver's operation it asks for
    comes back on the file it is asked for ([driver_returns]; a directory handle was given
    out by [aos_opendir]), returns: the mutex is free when it is taken, no assert fails, no
    pointer is dangling, and the mutex is given back.  [call] is every call but
    [aos_statfs], which keeps the mutex ([vfs_statfs_keeps_mutex]). *)
Theorem vfs_calls_return (Hdrv : Drivers i_fops i_dops) c (w : vfs T D) a :
  reach w a -> fresh_mem alloc w -> call_legal a c -> handle_ok a c -> driver_returns i_fops i_dops a c ->
  exists r w' a', exec alloc i_fops i_dops c w = Done (r, w') /\ reach w' a' /\ g_vfs_mutex w' = Some false.
Proof.
  intros Hr Hf Hl Hok Hret. destruct (reach_Inv w a Hr) as [HI Hw].
  destruct (a_call_total i_fops i_dops (alloc (nalloc w)) c w a HI Hok Hret) as (r & a' & E).
  destruct (exec_sim alloc i_fops i_dops c w a HI Hw Hf Hl r a' E) as (w' & E' & _ & Hw'). exists r, w', a'. split; [done|]. split; [|done].
  by apply (reach_call w a c r r w' a').
Qed.

(** C20: the tables are consistent.  In every state that legal calls lead to, as long as
    allocations succeed ([reach]; a registration is legal when its name is new, and no name
    of a file system begins it or is begun by it: the code accepts a name twice, and loses
    the second inode, [vfs_register_twice], and misroutes with a name that goes on behind
    a file system's, [vfs_prefix_misroutes]): every registered name leads to its own inode; the count of an inode is positive exactly when a file is open
    on it; every open file is on a registered inode, so a driver never gets a freed one;
    its descriptor is in range, marked in the bitmap and leads to the file, so
    no two files share one; and no bit is set without a file. *)
Theorem vfs_reachable_consistent (Hdrv : Drivers i_fops i_dops) (w : vfs T D) a : reach w a ->
  (forall p i, inodes w !! p = Some i -> inode_open (i_name i) w = Done p /\
    (0 < refs i <-> exists f x, files w !! f = Some x /\ node x = p)) /\
  (forall f x, files w !! f = Some x -> is_Some (inodes w !! node x) /\ 2 <= fd x < 62 /\ get_file (fd x) w = Done f) /\
  (forall n, 2 <= n < 62 -> bit_test (fd_bitmap w) (n - 2) = Done true <-> exists f x, files w !! f = Some x /\ fd x = n).
Proof.
  intros Hr. destruct (reach_Inv w a Hr) as [HI _]. pose proof HI as [H _]. split_and?.
  - intros p i Ei. rewrite (rep_inodes _ _ _ _ _ _ H) in Ei. unfold inode_view in Ei. destruct (reg a !! p) as [j|] eqn:Ej; [|done]. injection Ei as <-. split.
    + cbn [with_refs i_name]. rewrite (inode_open_spec w a (i_name j) HI) by (by apply (rep_reg _ _ _ _ _ _ H p j Ej)). f_equal.
      apply (route_is H _ p j Ej). unfold matches. by rewrite bool_decide_eq_true_2.
    + cbn [with_refs refs]. split.
      * intros Hc. unfold open_count in Hc. destruct (decide (filter (fun nx : Z * file_t => node nx.2 = p) (fds a) = ∅)) as [E|E]; [rewrite E, map_size_empty in Hc; lia|].
        apply map_choose in E as (n & x & E). apply map_lookup_filter_Some in E as [E En]. destruct (rep_fds _ _ _ _ _ _ H n x E) as (_ & _ & _ & f & Ef). by exists f, x.
      * intros (f & x & Ef & <-). destruct (rep_files _ _ _ _ _ _ H f x Ef) as (Ex & _). by apply (open_count_pos (fds a) (fd x) x).
  - intros f x Ef. destruct (rep_files _ _ _ _ _ _ H f x Ef) as (Ex & _). destruct (rep_fds _ _ _ _ _ _ H _ x Ex) as (_ & Hb & [i Ei] & _). split_and?; try lia.
    + rewrite (ins_some H _ i Ei). by eexists.
    + destruct (get_file_spec w a (fd x) HI) as (g & -> & Hg). rewrite Ex in Hg. destruct Hg as [_ Hg]. f_equal. by apply (fd_inj H g f x x).
  - intros n Hn. destruct (rep_bm _ _ _ _ _ _ H) as [Hl Hb]. rewrite bit_test_has by (done || lia). rewrite Hb by lia. replace (n - 2 + 2) with n by lia. split.
    + intros [= E]. apply bool_decide_eq_true in E as [x Ex]. destruct (rep_fds _ _ _ _ _ _ H n x Ex) as (? & _ & _ & f & Ef). by exists f, x.
    + intros (f & x & Ef & <-). destruct (rep_files _ _ _ _ _ _ H f x Ef) as (Ex & _). f_equal. apply bool_decide_eq_true. by exists x.
Qed.

(** C39: descriptors that are not open.  Every call on one gives [-ENOENT], or for a
    negative one in [aos_ioctl] [-EINVAL], reads nothing and changes nothing at all. *)
Theorem vfs_bad_descriptor (w : vfs T D) a n buf k cmd arg off whence : Inv w a -> fds a !! n = None ->
  exec alloc i_fops i_dops (Close n) w = Done (RInt (- ENOENT), w) /\ exec alloc i_fops i_dops (Read n k) w = Done (RBytes (- ENOENT) [], w) /\
  exec alloc i_fops i_dops (Write n buf) w = Done (RInt (- ENOENT), w) /\ exec alloc i_fops i_dops (Lseek n off whence) w = Done (RInt (- ENOENT), w) /\
  exec alloc i_fops i_dops (Sync n) w = Done (RInt (- ENOENT), w) /\
  exec alloc i_fops i_dops (Ioctl n cmd arg) w = Done (RInt (if n <? 0 then - EINVAL else - ENOENT), w).
Proof.
  intros HI Hn. destruct (get_file_spec w a n HI) as (f & E & Hf). rewrite Hn in Hf. subst f.
  cbn [exec]. unfold aos_close, aos_read, aos_write, aos_lseek, aos_sync, aos_ioctl. rewrite E. cbn [mbind outcome_bind Z.eqb NULL]. split_and?; try done.
  by destruct (n <? 0).
Qed.

(** [aos_statfs] takes the 1 by which [xSemaphoreTake] reports success for an error: on
    any path it returns 1 without asking the file system, and keeps the mutex.  After
    that every open, every call on a path and every registration waits for ever. *)
Theorem vfs_statfs_keeps_mutex (w : vfs T D) path : ready w ->
  exists w', aos_statfs alloc i_fops (Some path) w = Done (1, w') /\ files w' = files w /\
    forall c path', Z.of_nat (length path') <= PATH_MAX ->
      match c with
      | Register _ p _ _ | Unregister p | Open p _ | Stat p _ | Unlink p | Mkdir p | Rmdir p | Access p _ | Opendir p => p = Some path'
      | Rename p q => p = Some path' /\ is_Some q
      | _ => False
      end -> exec alloc i_fops i_dops c w' = NoFuel.
Proof.
  intros Hw. unfold aos_statfs. rewrite take_ready by done. eexists. split; [reflexivity|]. split; [done|]. intros c path' Hlen Hc.
  destruct c; try done; match type of Hc with _ /\ _ => destruct Hc as [-> [q ->]] | _ => subst end; try reflexivity. cbn [exec]. unfold aos_open.
  destruct (Z.ltb_spec PATH_MAX (Z.of_nat (length path'))); [lia|done].
Qed.
End Start.

(** ** Where the order of the inodes fails *)

Module Bugs.
(** the names [/m], [/m-] and [/m/a] *)
Definition MNT : list Z := [47; 109].
Definition DEV : list Z := [47; 109; 45].
Definition FILE : list Z := [47; 109; 47; 97].
Definition no_fs : fs_ops unit :=
  {| fs_open := None; fs_close := None; fs_read := None; fs_write := None; fs_lseek := None; fs_sync := None; fs_stat := None; fs_unlink := None;
     fs_rename := None; fs_opendir := None; fs_readdir := None; fs_closedir := None; fs_mkdir := None; fs_rmdir := None; fs_rewinddir := None;
     fs_telldir := None; fs_seekdir := None; fs_ioctl := None; fs_statfs := None; fs_access := None |}.
Definition no_dev : file_ops unit :=
  {| d_open := None; d_close := None; d_read := None; d_write := None; d_ioctl := None; d_sync := None |}.
Definition mem_at (n : nat) : Z := 1000 + Z.of_nat n.

Fixpoint exec_all (cs : list call) (w : vfs rb_tree unit) : outcome (list result * vfs rb_tree unit) :=
  match cs with
  | [] => Done ([], w)
  | c :: cs => '(r, w) ← exec mem_at (fun _ => no_fs) (fun _ => no_dev) c w; '(rs, w) ← exec_all cs w; Done (r :: rs, w)
  end.
Definition started : vfs rb_tree unit := (vfs_init true true true true (boot tt)).2.
Definition results (cs : list call) : outcome (list result) := '(rs, _) ← exec_all cs started; Done rs.

(** Registering a name twice succeeds, but the second inode is not in the table: the path
    stays with the first, and after it is unregistered there is none. *)
Lemma vfs_register_twice : results [Register VFS_TYPE_CHAR_DEV (Some DEV) 1 0; Register VFS_TYPE_CHAR_DEV (Some DEV) 2 0;
  Unregister (Some DEV); Open (Some DEV) 0] = Done [RInt 0; RInt 0; RInt 0; RInt (- ENOENT)].
Proof. by vm_compute. Qed.

(** A name that goes on behind a mount point with a character below the slash disturbs the
    order: with the device [/m-] registered before the file system [/m], no file of the
    file system is found any more; in the other order of registration it is. *)
Lemma vfs_prefix_misroutes : results [Register VFS_TYPE_CHAR_DEV (Some DEV) 1 0; Register VFS_TYPE_FS_DEV (Some MNT) 2 0; Open (Some FILE) 0] =
    Done [RInt 0; RInt 0; RInt (- ENOENT)] /\
  results [Register VFS_TYPE_FS_DEV (Some MNT) 2 0; Register VFS_TYPE_CHAR_DEV (Some DEV) 1 0; Open (Some FILE) 0] = Done [RInt 0; RInt 0; RInt 2].
Proof. by vm_compute. Qed.
End Bugs.

(** ** Witnesses *)

Module Witness.
(** a device with one byte to read and write *)
Definition cell : file_ops Z :=
  {| d_open := None; d_close := None; d_read := Some (fun _ x _ d => Done (1, [d], x, d)); d_write := Some (fun _ x b d => Done (1, x, default d (head b)));
     d_ioctl := None; d_sync := None |}.
Definition none : fs_ops Z :=
  {| fs_open := None; fs_close := None; fs_read := None; fs_write := None; fs_lseek := None; fs_sync := None; fs_stat := None; fs_unlink := None;
     fs_rename := None; fs_opendir := None; fs_readdir := None; fs_closedir := None; fs_mkdir := None; fs_rmdir := None; fs_rewinddir := None;
     fs_telldir := None; fs_seekdir := None; fs_ioctl := None; fs_statfs := None; fs_access := None |}.
Definition fops (_ : Z) := none.
Definition dops (_ : Z) := cell.
Definition addr (n : nat) : Z := 1000 + Z.of_nat n.
Definition NAME : list Z := [47; 100].

Lemma drivers : Drivers fops dops.
Proof.
  split; intros; unfold open_op, close_sel, read_sel, write_sel, ioctl_sel, lseek_sel, sync_sel, both, fops, dops; destruct (INODE_IS_FS i); cbn; try done;
    intros j x d r x' d' [= <- <- <-]; done.
Qed.

Definition w0 : vfs rb_tree Z := (vfs_init true true true true (boot 7)).2.
Definition a0 : avfs Z := mk_avfs ∅ ∅ ∅ 7.
Definition reg_d : call := Register VFS_TYPE_CHAR_DEV (Some NAME) 5 0.
Definition w1 : vfs rb_tree Z := match exec addr fops dops reg_d w0 with Done (_, w) => w | _ => w0 end.
Definition a1 : avfs Z := match a_call fops dops (addr 0) reg_d a0 with Done (_, a) => a | _ => a0 end.

Lemma fresh0 : fresh_mem addr w0.
Proof.
  intros k Hk. unfold usable. assert (Ha : addr (nalloc w0 + k) = 1000 + Z.of_nat k) by done. rewrite Ha. split_and?; try done; try lia; try (unfold NULL, KEY; lia).
  - intros t [= <-]. split; [done|]. unfold HEAD. lia.
  - intros t [= <-]. split; [done|]. unfold HEAD. lia.
Qed.
Lemma reach0 : reach addr fops dops w0 a0.
Proof. by apply reach_init. Qed.
Lemma legal_d : call_legal a0 reg_d.
Proof. split; [repeat constructor|]. split; [repeat constructor|]. intros p i E. cbn in E. by rewrite lookup_empty in E. Qed.
Lemma reach1 : reach addr fops dops w1 a1.
Proof. apply (reach_call addr fops dops w0 a0 reg_d (RInt 0) (RInt 0) w1 a1 reach0 fresh0 legal_d); by vm_compute. Qed.
Lemma fresh1 : fresh_mem addr w1.
Proof.
  intros k Hk. unfold usable. assert (Ha : addr (nalloc w1 + k) = 1003 + Z.of_nat k) by (unfold addr; change (nalloc w1) with 3%nat; lia). rewrite Ha.
  destruct k as [|[|[|k]]]; [| | |lia]; (split_and?; [by vm_compute..| |]); intros t [= <-]; by vm_compute.
Qed.
Lemma inv1 : Inv w1 a1 /\ ready w1.
Proof. exact (@reach_Inv rb_tree rb_iter Z _ _ addr fops dops drivers w1 a1 reach1). Qed.

Lemma vfs_refines_witness : exists w', exec addr fops dops (Open (Some NAME) 0) w1 = Done (RInt 2, w') /\ ready w'.
Proof.
  destruct (vfs_refines addr fops dops drivers (Open (Some NAME) 0) w1 a1 (RInt 2)
    (match a_call fops dops 0 (Open (Some NAME) 0) a1 with Done (_, a) => a | _ => a1 end) (proj1 inv1) (proj2 inv1) fresh1) as (w' & E & _ & Hw').
  - split; [by repeat constructor|done].
  - by vm_compute.
  - exists w'. by split.
Defined.
(** the device open as 2 *)
Definition open_d : call := Open (Some NAME) 0.
Definition w2 : vfs rb_tree Z := match exec addr fops dops open_d w1 with Done (_, w) => w | _ => w1 end.
Definition a2 : avfs Z := match a_call fops dops (addr 3) open_d a1 with Done (_, a) => a | _ => a1 end.

Lemma reach2 : reach addr fops dops w2 a2.
Proof.
  apply (reach_call addr fops dops w1 a1 open_d (RInt 2) (RInt 2) w2 a2 reach1 fresh1); [split; [by repeat constructor|done]|..]; by vm_compute.
Qed.
Lemma fresh2 : fresh_mem addr w2.
Proof.
  intros k Hk. unfold usable. assert (Ha : addr (nalloc w2 + k) = 1005 + Z.of_nat k) by (unfold addr; change (nalloc w2) with 5%nat; lia). rewrite Ha.
  destruct k as [|[|[|k]]]; [| | |lia]; (split_and?; [by vm_compute..| |]); intros t [= <-]; by vm_compute.
Qed.

Lemma vfs_calls_return_witness : exists r w' a', exec addr fops dops (Read 2 1) w2 = Done (r, w') /\ reach addr fops dops w' a' /\ g_vfs_mutex w' = Some false.
Proof.
  apply (vfs_calls_return addr fops dops drivers (Read 2 1) w2 a2 reach2 fresh2); [by split|done|].
  intros i x d op _. unfold both, fops, dops. destruct (INODE_IS_FS i); [done|]. cbn. intros [= <-]. by eexists.
Defined.
Lemma vfs_reachable_consistent_witness : inode_open NAME w1 = Done 1000 /\ bit_test (fd_bitmap w1) 3 <> Done true.
Proof.
  destruct (vfs_reachable_consistent addr fops dops drivers w1 a1 reach1) as (Hi & Hf & Hb). split.
  - apply (Hi 1000 {| ops := 5; i_arg := 0; i_name := NAME; i_flags := 0; type := VFS_TYPE_CHAR_DEV; refs := 0 |}). by vm_compute.
  - intros E. apply (Hb 5) in E as (f & x & E & _); [|lia]. change (files w1) with (∅ : gmap Z file_t) in E. by rewrite lookup_empty in E.
Defined.
Lemma vfs_bad_descriptor_witness : exec addr fops dops (Close 9) w1 = Done (RInt (-2), w1).
Proof. apply (vfs_bad_descriptor addr fops dops w1 a1 9 [] 0 0 0 0 0 (proj1 inv1)). by vm_compute. Defined.
Lemma vfs_statfs_keeps_mutex_witness : exists w', aos_statfs addr fops (Some NAME) w1 = Done (1, w') /\ exec addr fops dops (Open (Some NAME) 0) w' = NoFuel.
Proof.
  destruct (vfs_statfs_keeps_mutex addr fops dops w1 NAME (proj2 inv1)) as (w' & E & _ & H). exists w'. split; [exact E|].
  apply (H _ NAME); [by vm_compute|done].
Defined.
End Witness.
