(* ===== verification/VfsRomfs.v ===== *)
(** * The read-only file system under the virtual file system

    [romfs_ops] of [bl_romfs.c] as a table of operations, its registration, and files
    of the image read through [aos_open], [aos_lseek], [aos_read] and [aos_close]. *)
From S2P Require Import Prelude Romfs RomfsProofs RbtreeTree RbtreeTable Vfs VfsNames VfsSpec VfsProofs VfsCalls VfsRefine.

(** ** Definitions *)

(** the state behind the operations: whether [romfs_root] is set, the handles of open
    directories by their addresses, the allocations made, and the [romfs_filebuf_t]s written *)
Record romfs_dev := { mounted : bool; rdirs : gmap Z romfs_dir_t; rallocs : nat; filebufs : gmap Z (Z * Z) }.

Definition S_IFDIR_BITS := 16384.
Definition S_IFREG_BITS := 32768.
(** the address of the table [romfs_ops] *)
Definition ROMFS_OPS := 1.

Section RomfsOps.
Context (img : list Z) (aos_malloc : nat -> Z).

Definition rom_file (x : Vfs.file_t) : Romfs.file_t := Romfs.Build_file_t (Vfs.f_arg x) (Vfs.offset x).
Definition with_rom (x : Vfs.file_t) (y : Romfs.file_t) : Vfs.file_t :=
  {| Vfs.node := node x; Vfs.f_arg := Romfs.f_arg y; Vfs.offset := Romfs.offset y; Vfs.fd := fd x |}.
Definition with_rdirs (d : romfs_dev) m := {| mounted := mounted d; rdirs := m; rallocs := rallocs d; filebufs := filebufs d |}.

Definition op_open (_ : inode_t) (x : Vfs.file_t) (path : list Z) (_ : Z) (d : romfs_dev) : outcome (Z * Vfs.file_t * romfs_dev) :=
  r ← romfs_open (mounted d) img path; Done (match r with inl e => (e, x, d) | inr y => (0, with_rom x y, d) end).
Definition op_close (_ : inode_t) (x : Vfs.file_t) (d : romfs_dev) : outcome (Z * Vfs.file_t * romfs_dev) :=
  let '(r, y) := romfs_close (rom_file x) in Done (r, with_rom x y, d).
Definition op_read (_ : inode_t) (x : Vfs.file_t) (len : Z) (d : romfs_dev) : outcome (Z * list Z * Vfs.file_t * romfs_dev) :=
  '(r, b, y) ← romfs_read img (rom_file x) len; Done (r, b, with_rom x y, d).
Definition op_lseek (_ : inode_t) (x : Vfs.file_t) (off whence : Z) (d : romfs_dev) : outcome (Z * Vfs.file_t * romfs_dev) :=
  '(r, y) ← romfs_lseek img (rom_file x) off whence; Done (r, with_rom x y, d).
(** [arg] is where the address and the size are written *)
Definition op_ioctl (_ : inode_t) (x : Vfs.file_t) (cmd arg : Z) (d : romfs_dev) : outcome (Z * Vfs.file_t * romfs_dev) :=
  if arg =? NULL then Done (-2, x, d)
  else
    r ← romfs_ioctl img (rom_file x) (cmd =? IOCTL_ROMFS_GET_FILEBUF);
    Done (match r with
          | inl e => (e, x, d)
          | inr bn => (0, x, {| mounted := mounted d; rdirs := rdirs d; rallocs := rallocs d; filebufs := <[arg := bn]> (filebufs d) |})
          end).
(** only the fields that [romfs_stat] sets change *)
Definition op_stat (_ : inode_t) (_ : Vfs.file_t) (path : list Z) (st : stat) (d : romfs_dev) : outcome (Z * stat * romfs_dev) :=
  r ← romfs_stat img path;
  Done (match r with
        | inl e => (e, st, d)
        | inr (n, m) => (0, {| st_size := n; st_mode := match m with S_NONE => st_mode st | S_IFDIR => S_IFDIR_BITS | S_IFREG => S_IFREG_BITS end |}, d)
        end).
Definition op_opendir (_ : inode_t) (_ : Vfs.file_t) (path : list Z) (d : romfs_dev) : outcome (Z * romfs_dev) :=
  let dp := aos_malloc (rallocs d) in
  r ← romfs_opendir (mounted d) (negb (dp =? NULL)) img path;
  let d := {| mounted := mounted d; rdirs := rdirs d; rallocs := if mounted d then S (rallocs d) else rallocs d; filebufs := filebufs d |} in
  Done (match r with None => (NULL, d) | Some h => (dp, with_rdirs d (<[dp := h]> (rdirs d))) end).
Definition op_readdir (_ : inode_t) (_ : Vfs.file_t) (dp : Z) (d : romfs_dev) : outcome (option (list Z) * romfs_dev) :=
  match rdirs d !! dp with
  | None => Fault
  | Some h => '(n, h) ← romfs_readdir (S (length img)) img h; Done (n, with_rdirs d (<[dp := h]> (rdirs d)))
  end.
Definition op_closedir (_ : inode_t) (_ : Vfs.file_t) (dp : Z) (d : romfs_dev) : outcome (Z * romfs_dev) :=
  Done (romfs_closedir (rdirs d !! dp), with_rdirs d (delete dp (rdirs d))).

Definition romfs_ops : fs_ops romfs_dev :=
  {| fs_open := Some op_open; fs_close := Some op_close; fs_read := Some op_read; fs_write := None; fs_lseek := Some op_lseek;
     fs_sync := None; fs_stat := Some op_stat; fs_unlink := None; fs_rename := None; fs_opendir := Some op_opendir; fs_readdir := Some op_readdir;
     fs_closedir := Some op_closedir; fs_mkdir := None; fs_rmdir := None; fs_rewinddir := None; fs_telldir := None; fs_seekdir := None;
     fs_ioctl := Some op_ioctl; fs_statfs := None; fs_access := None |}.
End RomfsOps.

Section RomfsRegister.
Context {T I : Type} `{!Table T I} (alloc : nat -> Z) (img : list Z).

Definition romfs_register (mtd_open xip_addr : Z) (w : vfs T romfs_dev) : outcome (Z * vfs T romfs_dev) :=
  r ← romfs_mount mtd_open xip_addr img;
  if negb (r =? 0) then Done (-1, w)
  else
    let d := dev w in
    aos_register_fs alloc (Some ROMFS_MOUNTPOINT) ROMFS_OPS NULL
      (set_dev w {| mounted := true; rdirs := rdirs d; rallocs := rallocs d; filebufs := filebufs d |}).
End RomfsRegister.

(** ** The operations keep to the contract *)

Lemma romfs_ops_keep img malloc (i_fops : Z -> fs_ops romfs_dev) (i_dops : Z -> file_ops romfs_dev) :
  (forall o, i_fops o = romfs_ops img malloc) -> (forall o, i_dops o = {| d_open := None; d_close := None; d_read := None; d_write := None; d_ioctl := None; d_sync := None |}) ->
  Drivers i_fops i_dops.
Proof.
  intros Hf Hd. split; intros; unfold open_op, close_sel, read_sel, write_sel, ioctl_sel, lseek_sel, sync_sel, both; rewrite ?Hf, ?Hd;
    destruct (INODE_IS_FS i); cbn; try done; intros j x d r x' d'.
  - unfold op_open. destruct (romfs_open _ _ _) as [[|]| |]; cbn; try done; by intros [= <- <- <-].
  - unfold op_close. by intros [= <- <- <-].
  - unfold op_read. destruct (romfs_read _ _ _) as [[[? ?] ?]| |]; cbn; try done; by intros [= <- <- <-].
  - unfold op_ioctl. destruct (g =? NULL); [by intros [= <- <- <-]|]. destruct (romfs_ioctl _ _ _) as [[|]| |]; cbn; try done; by intros [= <- <- <-].
  - unfold op_lseek. destruct (romfs_lseek _ _ _ _) as [[? ?]| |]; cbn; try done; by intros [= <- <- <-].
Qed.

(** ** Files of the image *)

Section Files.
Context {T I : Type} `{!Table T I, !TableLaws T I}.
Context (alloc malloc : nat -> Z) (img : list Z) (i_fops : Z -> fs_ops romfs_dev) (i_dops : Z -> file_ops romfs_dev).
Context `{!Drivers i_fops i_dops} (Hops : i_fops ROMFS_OPS = romfs_ops img malloc).
#[local] Abbreviation W := (vfs T romfs_dev).

(** the inode of the mounted file system *)
Definition is_romfs (i : inode_t) : Prop := i_name i = ROMFS_MOUNTPOINT /\ type i = VFS_TYPE_FS_DEV /\ ops i = ROMFS_OPS.

(** a sequence of reads from one descriptor *)
Fixpoint aos_read_seq (n : Z) (ns : list Z) (w : W) : outcome (list (list Z) * W) :=
  match ns with
  | [] => Done ([], w)
  | k :: ns => '(_, b, w) ← aos_read i_fops i_dops n k w; '(bs, w) ← aos_read_seq n ns w; Done (b :: bs, w)
  end.

(** file [y] of the image is open as [n] *)
Definition rom_open (a : avfs romfs_dev) (p n : Z) (y : Romfs.file_t) : Prop :=
  (exists i, reg a !! p = Some i /\ is_romfs i) /\ fds a !! n = Some (with_rom (new_entry p n) y).

(** all of the specification's state but the open files *)
Definition rest (a : avfs romfs_dev) := (reg a, handles a, drv a).

Lemma rest_eq (a b : avfs romfs_dev) : rest a = rest b -> fds a = fds b -> a = b.
Proof. destruct a, b. unfold rest. cbn. congruence. Qed.

Lemma view_romfs (a : avfs romfs_dev) p i : reg a !! p = Some i -> is_romfs i -> exists j, view_at a p = Done j /\ INODE_IS_FS j = true /\ i_fops (ops j) = romfs_ops img malloc.
Proof using Hops.
  intros Ei (_ & Ht & Ho). unfold view_at, inode_view. rewrite Ei. eexists. split; [reflexivity|]. cbn [with_refs ops]. rewrite Ho. split; [|done].
  unfold INODE_IS_FS, INODE_IS_TYPE. cbn. by rewrite Ht.
Qed.

(** one call on the open file, in the specification *)
Lemma rom_fd_call {A} (bad dflt : A) sel p n y r y' (op : inode_t -> Vfs.file_t -> romfs_dev -> outcome (A * Vfs.file_t * romfs_dev)) a : rom_open a p n y ->
  (forall j, INODE_IS_FS j = true -> i_fops (ops j) = romfs_ops img malloc -> sel j = Some op) ->
  (forall j x d, rom_file x = y -> op j x d = Done (r, with_rom x y', d)) ->
  exists a', a_fd bad dflt sel n a = Done (r, a') /\ rom_open a' p n y' /\ rest a' = rest a /\ delete n (fds a') = delete n (fds a).
Proof using Hops.
  intros [(i & Ei & Hi) Ex] Hsel Hop. unfold a_fd. rewrite Ex. cbn [with_rom node new_entry]. destruct (view_romfs a p i Ei Hi) as (j & -> & HF & Hj). cbn [mbind outcome_bind].
  rewrite (Hsel j HF Hj), Hop by (by destruct y). cbn [mbind outcome_bind]. eexists. split; [reflexivity|]. cbn. split_and?; [|done|by rewrite delete_insert_eq].
  split; [by exists i|]. cbn. by rewrite lookup_insert_eq.
Qed.

Lemma rom_read_seq p n ns : forall y bs y' (w : W) a, Inv w a -> ready w -> rom_open a p n y -> read_seq img y ns = Done (bs, y') ->
  exists w' a', aos_read_seq n ns w = Done (bs, w') /\ Inv w' a' /\ ready w' /\ rom_open a' p n y' /\ rest a' = rest a /\ delete n (fds a') = delete n (fds a).
Proof using Hops Drivers0 TableLaws0.
  induction ns as [|k ns IH]; intros y bs y' w a HI Hw Ho; cbn [read_seq aos_read_seq].
  - intros [= <- <-]. by exists w, a.
  - destruct (romfs_read img y k) as [[[r b] y1]| |] eqn:Er; try done. cbn [mbind outcome_bind].
    destruct (read_seq img y1 ns) as [[bs1 y2]| |] eqn:Es; try done. cbn [mbind outcome_bind]. intros [= <- <-].
    destruct (rom_fd_call (- ENOENT, []) (-1, []) (read_sel i_fops i_dops k) p n y (r, b) y1 (fun i x => op_read img i x k) a Ho) as (a1 & E1 & Ho1 & Hr1 & Hd1).
    { intros j HF Hj. unfold read_sel, both. by rewrite HF, Hj. }
    { intros j x d Hx. unfold op_read. rewrite Hx, Er. done. }
    destruct (fd_calls_run i_fops i_dops w) as (Eread & _). rewrite Eread.
    destruct (fd_call_sim _ _ _ n w a (read_keeps k) HI Hw _ _ E1) as (w1 & -> & HI1 & Hw1). cbn [mbind outcome_bind fst snd].
    destruct (IH y1 bs1 y2 w1 a1 HI1 Hw1 Ho1 Es) as (w' & a' & -> & ? & ? & ? & Hr' & Hd'). cbn [mbind outcome_bind].
    exists w', a'. split_and?; try done; congruence.
Qed.

Lemma path_cstr names : Forall path_name names -> VfsNames.cstr (path_of names false).
Proof.
  intros Hn. unfold path_of, VfsNames.cstr. apply Forall_app. split; [by repeat constructor|].
  assert (Hc : forall c, is_path_ch c = true -> 0 < c).
  { intros c. unfold is_path_ch. rewrite !orb_true_iff, !andb_true_iff, !Z.leb_le, !Z.eqb_eq. unfold Romfs.slash, dot. lia. }
  destruct names as [|n names]; [constructor|]. constructor; [done|]. revert n Hn.
  induction names as [|m names IH]; intros n Hn; apply Forall_cons in Hn as [[_ Hn] Hns].
  - cbn [join]. rewrite app_nil_r. by apply (Forall_impl _ _ _ Hn).
  - change (join (n :: m :: names) false) with (n ++ Romfs.slash :: join (m :: names) false).
    apply Forall_app. split; [by apply (Forall_impl _ _ _ Hn)|]. constructor; [done|]. by apply IH.
Qed.

Lemma path_matches i names : is_romfs i -> names <> [] -> matches i (path_of names false) = true.
Proof.
  intros (Hn & Ht & _) Hne. unfold matches, INODE_IS_FS, INODE_IS_TYPE. rewrite Hn, Ht, orb_true_iff, andb_true_iff, Z.eqb_refl. right. split; [done|]. apply bool_decide_eq_true_2.
  unfold path_of. destruct names as [|n names]; [done|]. eexists. by rewrite <- app_assoc.
Qed.

(** opening, in the specification *)
Lemma rom_a_open (w : W) a p i n o flags names : Inv w a -> reg a !! p = Some i -> is_romfs i -> mounted (drv a) = true -> next_fd a = Some n ->
  names <> [] -> Z.of_nat (length (path_of names false)) <= PATH_MAX -> romfs_open true img (path_of names false) = Done (inr (Romfs.Build_file_t o 0)) ->
  exists a', a_open i_fops i_dops (Some (path_of names false)) flags a = Done (n, a') /\ rom_open a' p n (Romfs.Build_file_t o 0) /\
    rest a' = rest (with_reg a (alter (fun i => with_flags i flags) p (reg a))) /\ delete n (fds a') = fds a.
Proof using Hops.
  intros HI Ei Hi Hm Hn Hne Hlen Ho. unfold a_open. destruct (Z.ltb_spec PATH_MAX (Z.of_nat (length (path_of names false)))); [lia|].
  rewrite (route_is (Inv_fields w a HI) _ p i Ei (path_matches i names Hi Hne)).
  destruct (rep_reg _ _ _ _ _ _ (Inv_fields w a HI) p i Ei) as (_ & Hp & _). destruct (Z.eqb_spec p NULL); [done|].
  change (next_fd (with_reg a (alter (fun i => with_flags i flags) p (reg a)))) with (next_fd a). rewrite Hn.
  destruct (next_fd_some a n Hn) as [Hfree _].
  set (a1 := add_fd (with_reg a _) n (new_entry p n)). assert (Ei1 : reg a1 !! p = Some (with_flags i flags)) by (cbn; by rewrite lookup_alter_eq, Ei).
  assert (Hi1 : is_romfs (with_flags i flags)) by done.
  destruct (view_romfs a1 p _ Ei1 Hi1) as (j & -> & HF & Hj). cbn [mbind outcome_bind]. unfold open_op. rewrite HF, Hj. cbn [fs_open romfs_ops drv with_reg].
  unfold op_open. rewrite Hm, Ho. cbn [mbind outcome_bind Z.eqb VFS_SUCCESS]. eexists. split; [reflexivity|]. split.
  - split; [by exists (with_flags i flags)|]. cbn. by rewrite lookup_insert_eq.
  - split; [done|]. cbn. by rewrite delete_insert_id.
Qed.

(** C23: a file of a ROM image, through all layers.  With the image mounted, a descriptor
    free and memory for the open file, opening the path of a regular file of the image
    gives the least free descriptor; seeking on it and reading in pieces of any sizes
    gives the file's bytes from there on; closing it frees the descriptor.  Afterwards
    registry, open files, directory handles and the file system's state are as they were,
    but for the flags of the mount's inode, which [aos_open] leaves at those of this
    call.  The close answers -1, the file system's answer, although it succeeded. *)
Theorem vfs_romfs_read (w : W) a p i n flags ts names name data pos ns :
  Inv w a -> ready w -> fresh_mem alloc w -> reg a !! p = Some i -> is_romfs i -> mounted (drv a) = true -> next_fd a = Some n ->
  romfs_image img ts -> Forall path_name names -> resolve false ts names = Found (TReg name data) ->
  Z.of_nat (length (path_of names false)) <= PATH_MAX -> 0 <= pos <= Bytes.zlen data -> Forall (fun l => 0 <= l < 2 ^ 31) ns ->
  exists w1 w2 w3 w4 bs,
    aos_open alloc i_fops i_dops (Some (path_of names false)) flags w = Done (n, w1) /\
    aos_lseek i_fops n pos SEEK_SET w1 = Done (pos, w2) /\
    aos_read_seq n ns w2 = Done (bs, w3) /\ concat bs = slice pos (total ns) data /\
    aos_close i_fops i_dops n w3 = Done (-1, w4) /\
    Inv w4 (with_reg a (alter (fun i => with_flags i flags) p (reg a))) /\ ready w4.
Proof using Hops Drivers0 TableLaws0.
  intros HI Hw Hfr Ei Hi Hm Hn Himg Hnames Hres Hlen Hpos Hns.
  destruct (file_calls img ts names name data Himg Hnames Hres) as (o & Hopen & Hseek & Hread & Hsz).
  assert (Hne : names <> []) by (by intros ->).
  destruct (rom_a_open w a p i n o flags names HI Ei Hi Hm Hn Hne Hlen Hopen) as (a1 & E1 & Ho1 & Hr1 & Hd1).
  destruct (aos_open_sim alloc i_fops i_dops (Some (path_of names false)) flags w a HI Hw Hfr) with (r := n) (a' := a1) as (w1 & Ew1 & HI1 & Hw1);
    [by intros path' [= <-]; apply path_cstr|done|].
  destruct (rom_fd_call (- ENOENT) (- ENOSYS) (lseek_sel i_fops i_dops pos SEEK_SET) p n _ pos (Romfs.Build_file_t o pos)
    (fun i x d => '(r, x, d) ← op_lseek img i x pos SEEK_SET d; Done (s32 r, x, d)) a1 Ho1) as (a2 & E2 & Ho2 & Hr2 & Hd2).
  { intros j HF Hj. unfold lseek_sel, both. by rewrite HF, Hj. }
  { intros j x d Hx. unfold op_lseek. rewrite Hx, (Hseek pos Hpos). cbn [mbind outcome_bind]. unfold s32. rewrite Z.mod_small by lia. do 3 f_equal. lia. }
  destruct (fd_calls_run i_fops i_dops w1) as (_ & _ & _ & Elseek & _).
  destruct (fd_call_sim _ _ _ n w1 a1 (lseek_keeps pos SEEK_SET) HI1 Hw1 _ _ E2) as (w2 & Ew2 & HI2 & Hw2). rewrite <- Elseek in Ew2.
  destruct (Hread pos ns Hpos Hns) as (bs & y & Hbs & Hc).
  destruct (rom_read_seq p n ns _ bs y w2 a2 HI2 Hw2 Ho2 Hbs) as (w3 & a3 & Ew3 & HI3 & Hw3 & Ho3 & Hr3 & Hd3).
  destruct (rom_fd_call (- ENOENT) VFS_SUCCESS (close_sel i_fops i_dops) p n y (-1) (Romfs.Build_file_t NULL 0) op_close a3 Ho3) as (a4 & E4 & _ & Hr4 & Hd4).
  { intros j HF Hj. unfold close_sel, both. by rewrite HF, Hj. }
  { intros j x d Hx. unfold op_close. by rewrite Hx. }
  destruct (aos_close_sim i_fops i_dops n w3 a3 HI3 Hw3) with (r := -1) (a' := del_fd a4 n) as (w4 & Ew4 & HI4 & Hw4); [unfold a_close; by rewrite E4|].
  assert (del_fd a4 n = with_reg a (alter (fun i => with_flags i flags) p (reg a))) as Ea.
  { apply rest_eq; [|cbn; congruence]. change (rest (del_fd a4 n)) with (rest a4). congruence. }
  exists w1, w2, w3, w4, bs. rewrite <- Ea. by split_and?.
Qed.
End Files.

(** mounting puts the inode of the file system into the registry *)
Section Mount.
Context {T I : Type} `{!Table T I, !TableLaws T I} (alloc : nat -> Z) (img : list Z).

Definition mounted_dev (d : romfs_dev) : romfs_dev := {| mounted := true; rdirs := rdirs d; rallocs := rallocs d; filebufs := filebufs d |}.
Definition romfs_inode : inode_t :=
  {| ops := ROMFS_OPS; i_arg := NULL; i_name := ROMFS_MOUNTPOINT; i_flags := 0; type := VFS_TYPE_FS_DEV; refs := 0 |}.
Definition mounted_state (p : Z) (a : avfs romfs_dev) : avfs romfs_dev := mk_avfs (<[p := romfs_inode]> (reg a)) (fds a) (handles a) (mounted_dev (drv a)).

Lemma romfs_register_spec (w : vfs T romfs_dev) a mtd_open xip_addr : Inv w a -> ready w -> fresh_mem alloc w ->
  can_register a VFS_TYPE_FS_DEV ROMFS_MOUNTPOINT -> (size (reg a) < 30)%nat -> romfs_mount mtd_open xip_addr img = Done 0 ->
  exists w', romfs_register alloc img mtd_open xip_addr w = Done (0, w') /\ Inv w' (mounted_state (alloc (nalloc w)) a) /\ ready w'.
Proof.
  intros HI Hw Hfr Hc Hs Hm. unfold romfs_register. rewrite Hm. cbn [mbind outcome_bind Z.eqb negb].
  assert (Hd : dev w = drv a) by apply HI. rewrite Hd. fold (mounted_dev (drv a)).
  destruct (vfs_register_spec alloc (set_dev w (mounted_dev (drv a))) (with_drv a (mounted_dev (drv a))) VFS_TYPE_FS_DEV (Some ROMFS_MOUNTPOINT) ROMFS_OPS NULL) as (w' & E & HI' & Hw').
  - by apply Inv_drv.
  - done.
  - exact Hfr.
  - by intros path' [= <-].
  - exists w'. unfold aos_register_fs. rewrite E. unfold a_register in *. cbn [ROMFS_MOUNTPOINT reg with_drv] in *.
    destruct (Z.ltb_spec (Z.of_nat (size (reg a))) AOS_CONFIG_VFS_DEV_NODES) as [_|Hx]; [|unfold AOS_CONFIG_VFS_DEV_NODES in Hx; lia]. by split_and?.
Qed.
End Mount.

(** ** Witness *)

Module Witness.
Import RomfsProofs.Witness.
Definition addr (n : nat) : Z := 1000 + Z.of_nat n.
Definition fops (_ : Z) : fs_ops romfs_dev := romfs_ops img addr.
Definition dops (_ : Z) : file_ops romfs_dev := {| d_open := None; d_close := None; d_read := None; d_write := None; d_ioctl := None; d_sync := None |}.
Definition d0 : romfs_dev := {| mounted := false; rdirs := ∅; rallocs := 0; filebufs := ∅ |}.
Definition w0 : vfs Rbtree.rb_tree romfs_dev := (vfs_init true true true true (boot d0)).2.
Definition a0 : avfs romfs_dev := mk_avfs ∅ ∅ ∅ d0.
Definition w1 : vfs Rbtree.rb_tree romfs_dev := match romfs_register addr img 0 64 w0 with Done (_, w) => w | _ => w0 end.

Lemma rom_drivers : Drivers fops dops.
Proof. by apply (romfs_ops_keep img addr). Qed.
Lemma rom_fresh0 : fresh_mem addr w0.
Proof.
  intros k Hk. unfold usable. assert (Ha : addr (nalloc w0 + k) = 1000 + Z.of_nat k) by done. rewrite Ha. split_and?; try done; try lia; try (unfold NULL, KEY; lia).
  - intros t [= <-]. split; [done|]. unfold Rbtree.HEAD. lia.
  - intros t [= <-]. split; [done|]. unfold Rbtree.HEAD. lia.
Qed.
Lemma rom_inv1 : Inv w1 (mounted_state 1000 a0) /\ ready w1.
Proof.
  destruct (init_Inv (T := Rbtree.rb_tree) (I := Rbtree.rb_iter) d0) as (w & E & HI & Hw). assert (w = w0) as -> by (unfold w0; by rewrite E).
  destruct (romfs_register_spec addr img w0 a0 0 64 HI Hw rom_fresh0) as (w' & E' & HI' & Hw'); [|cbn; rewrite map_size_empty; lia|by vm_compute|].
  - split; [by repeat constructor|]. intros p i Ei. cbn in Ei. by rewrite lookup_empty in Ei.
  - unfold w1. rewrite E'. by split.
Qed.
Lemma rom_fresh1 : fresh_mem addr w1.
Proof.
  intros k Hk. unfold usable. assert (Ha : addr (nalloc w1 + k) = 1003 + Z.of_nat k) by (unfold addr; change (nalloc w1) with 3%nat; lia). rewrite Ha.
  destruct k as [|[|[|k]]]; [| | |lia]; (split_and?; [by vm_compute..| |]); intros t [= <-]; by vm_compute.
Qed.

(** two bytes of [/romfs/d/a], one after the other *)
Lemma vfs_romfs_read_witness : exists w2 w3 w4 w5 bs, aos_open addr fops dops (Some (path_of [[100]; [97]] false)) 0 w1 = Done (2, w2) /\
  aos_lseek fops 2 1 SEEK_SET w2 = Done (1, w3) /\ aos_read_seq fops dops 2 [1; 5] w3 = Done (bs, w4) /\ concat bs = [121; 122] /\
  aos_close fops dops 2 w4 = Done (-1, w5).
Proof.
  destruct (vfs_romfs_read addr addr img fops dops (Drivers0 := rom_drivers) eq_refl w1 (mounted_state 1000 a0) 1000 romfs_inode 2 0 root [[100]; [97]] [97] [120; 121; 122] 1 [1; 5]
    (proj1 rom_inv1) (proj2 rom_inv1) rom_fresh1) as (w2 & w3 & w4 & w5 & bs & E1 & E2 & E3 & E4 & E5 & _).
  - reflexivity.
  - by split.
  - reflexivity.
  - by vm_compute.
  - exact img_ok.
  - repeat constructor; discriminate.
  - reflexivity.
  - by vm_compute.
  - by vm_compute.
  - repeat constructor; discriminate.
  - exists w2, w3, w4, w5, bs. by split_and?.
Defined.
End Witness.
