(* ===== verification/BlTx.v ===== *)
(** * The WiFi transmit path: bl_tx.c with the descriptor lists of ipc_host.c

    A packet of the IP stack is given to a station's queue by [bl_output], which
    writes a control header into the packet's headroom.  The WiFi task moves
    queued packets into free descriptors ([bl_tx_try_flush]); the firmware sends
    them and returns the descriptors with a status, and the task either queues a
    packet again or releases it and tells its sender ([ipc_host_tx_cfm_handler],
    [bl_tx_cfm]).  The build is the one for BL602 ([CFG_TXDESC] is 2, five clients,
    no netbus); packets and control headers are found by address. *)
From S2P Require Import Prelude.

(** ** Data *)

Definition CFG_TXDESC : Z := 2.
Definition NX_VIRT_DEV_MAX : Z := 2.
Definition NX_REMOTE_STA_STORE_MAX : Z := 7.
Definition BL_VIF_STA : Z := 0.
Definition BL_VIF_AP : Z := NX_VIRT_DEV_MAX - 1.

Definition RETRY_LIMIT_REACHED_BIT : Z := Z.shiftl 1 16.
Definition FRAME_REPUSHABLE_PS_BIT : Z := Z.shiftl 1 19.
Definition FRAME_REPUSHABLE_CHAN_BIT : Z := Z.shiftl 1 20.
Definition FRAME_SUCCESSFUL_TX_BIT : Z := Z.shiftl 1 23.
Definition DESC_DONE_TX_BIT : Z := Z.shiftl 1 31.

Definition IS_BC_MC (byte : Z) : bool := negb (Z.land byte 1 =? 0).
Definition BIT_STA (idx : Z) : Z := Z.shiftl 1 idx.
(** [value & mask] as a condition *)
Definition any (value mask : Z) : bool := negb (Z.land value mask =? 0).

Definition PBUF_LINK_ENCAPSULATION_HLEN : Z := 48.
Definition SIZEOF_STRUCT_PBUF : Z := 16.
Definition sizeof_bl_txhdr : Z := 24.
Definition sizeof_ethhdr : Z := 14.
(** where [status] is in [struct bl_txhdr] *)
Definition offsetof_status : Z := 12.
Definition RWNX_HWTXHDR_ALIGN_PADS (x : Z) : Z := Z.land (4 - Z.land x 3) 3.

Definition ERR_OK : Z := 0.
Definition ERR_MEM : Z := -1.
Definition ERR_BUF : Z := -2.
Definition ERR_CONN : Z := -11.
Definition ERR_IF : Z := -12.
Definition ERR_ARG : Z := -16.

(** the head of a packet: its block of [size] bytes behind the structure (when the
    payload is contiguous with it), and the payloads and lengths of the chained
    pbufs; the ethernet header is the one the packet carries *)
Record pbuf := {
  next : list (Z * Z); payload : Z; tot_len : Z; len : Z; contiguous : bool; ref : Z; size : Z;
  h_dest : list Z; h_source : list Z; h_proto : Z }.

Record bl_txhdr := {
  custom_cfm : Z * Z;              (* cb and cb_arg *)
  status : Z; hdr_p : Z; hdr_len : Z; vif_type : Z; sta_id : Z; repush : Z }.

Record bl_sta := {
  waiting_list : list Z; pending_list : list Z; sta_addr : list Z; is_used : Z; sta_idx : Z; vif_idx : Z;
  fc_ps : Z; qos : Z; rssi : Z; data_rate : Z; tsflo : Z; tsfhi : Z }.

Record bl_vif := {
  dev : Z; up : Z; vif_fw_idx : Z; links_num : Z; fixed_sta_idx : Z; fc_chan : Z; sta_ps : Z }.

(** the fields the driver leaves zero ([pn], [sn], [timestamp], ...) are left out *)
Record hostdesc := {
  pbuf_addr : Z; packet_addr : Z; packet_len : Z; status_addr : Z; eth_dest_addr : list Z; eth_src_addr : list Z;
  ethertype : Z; tid : Z; host_vif_idx : Z; host_vif_type : Z; staid : Z; flags : Z;
  pbuf_chained_ptr : list Z; pbuf_chained_len : list Z }.

Record txdesc_host := { host_id : Z; ready : Z; host : hostdesc }.

(** descriptors are named by their index in [txdesc0] *)
Record ipc_shared := {
  txdesc0 : list txdesc_host; list_free : list Z; list_ongoing : list Z; list_cfm : list Z }.

(** calls to the parts around the driver *)
Inductive tx_event :=
| IrqHandler                       (* bl_irq_handler: the WiFi task is woken *)
| TxdescTrigger                    (* ipc_app2emb_trigger_setf: the firmware is told of a descriptor *)
| LinkUp (dev : Z) | LinkDown (dev : Z) | SetAddrAny (dev : Z)
| PostEvent (code idx : Z)
| ConnectInd (status : Z) | DisconnectInd (status : Z).

(** what happened to packets: a packet is named by its station, control header,
    pbuf and callback *)
Record packet := { pk_sta : Z; pk_hdr : Z; pk_buf : Z; pk_cb : Z * Z }.
Record history := {
  outs : list packet;              (* queued by bl_output *)
  pushes : list (packet * Z);      (* given to the firmware, with the repush counter *)
  dones : list (packet * bool);    (* released, with the result *)
  calls : list (Z * Z * bool);     (* calls of callbacks *)
  events : list tx_event }.

(** [wifi_hw], the two trigger words, the shared memory, the pbufs and the control
    headers in them *)
Record wifi := {
  vif_table : list bl_vif; sta_table : list bl_sta;
  tx_cntrl_sta_trigger : Z; tx_cntrl_sta_trigger_pending : Z;
  ipc : ipc_shared; pbufs : gmap Z pbuf; txhdrs : gmap Z bl_txhdr; hist : history }.

Record ke_tx_fc := {
  vif_bits : Z; ap_fc_chan : Z; ap_fc_ps_sta_bits : Z; sta_fc_chan : Z; sta_fc_ps : Z }.

(** ** Updates *)

Definition with_vifs (v : list bl_vif) (w : wifi) : wifi :=
  {| vif_table := v; sta_table := sta_table w; tx_cntrl_sta_trigger := tx_cntrl_sta_trigger w;
     tx_cntrl_sta_trigger_pending := tx_cntrl_sta_trigger_pending w; ipc := ipc w; pbufs := pbufs w;
     txhdrs := txhdrs w; hist := hist w |}.
Definition with_stas (s : list bl_sta) (w : wifi) : wifi :=
  {| vif_table := vif_table w; sta_table := s; tx_cntrl_sta_trigger := tx_cntrl_sta_trigger w;
     tx_cntrl_sta_trigger_pending := tx_cntrl_sta_trigger_pending w; ipc := ipc w; pbufs := pbufs w;
     txhdrs := txhdrs w; hist := hist w |}.
Definition with_trigger (t : Z) (w : wifi) : wifi :=
  {| vif_table := vif_table w; sta_table := sta_table w; tx_cntrl_sta_trigger := t;
     tx_cntrl_sta_trigger_pending := tx_cntrl_sta_trigger_pending w; ipc := ipc w; pbufs := pbufs w;
     txhdrs := txhdrs w; hist := hist w |}.
Definition with_trigger_pending (t : Z) (w : wifi) : wifi :=
  {| vif_table := vif_table w; sta_table := sta_table w; tx_cntrl_sta_trigger := tx_cntrl_sta_trigger w;
     tx_cntrl_sta_trigger_pending := t; ipc := ipc w; pbufs := pbufs w; txhdrs := txhdrs w; hist := hist w |}.
Definition with_ipc (i : ipc_shared) (w : wifi) : wifi :=
  {| vif_table := vif_table w; sta_table := sta_table w; tx_cntrl_sta_trigger := tx_cntrl_sta_trigger w;
     tx_cntrl_sta_trigger_pending := tx_cntrl_sta_trigger_pending w; ipc := i; pbufs := pbufs w;
     txhdrs := txhdrs w; hist := hist w |}.
Definition with_mem (p : gmap Z pbuf) (x : gmap Z bl_txhdr) (w : wifi) : wifi :=
  {| vif_table := vif_table w; sta_table := sta_table w; tx_cntrl_sta_trigger := tx_cntrl_sta_trigger w;
     tx_cntrl_sta_trigger_pending := tx_cntrl_sta_trigger_pending w; ipc := ipc w; pbufs := p; txhdrs := x;
     hist := hist w |}.
Definition with_hist (h : history) (w : wifi) : wifi :=
  {| vif_table := vif_table w; sta_table := sta_table w; tx_cntrl_sta_trigger := tx_cntrl_sta_trigger w;
     tx_cntrl_sta_trigger_pending := tx_cntrl_sta_trigger_pending w; ipc := ipc w; pbufs := pbufs w;
     txhdrs := txhdrs w; hist := h |}.

Definition log_event (e : tx_event) (w : wifi) : wifi :=
  let h := hist w in
  with_hist {| outs := outs h; pushes := pushes h; dones := dones h; calls := calls h; events := events h ++ [e] |} w.
Definition log_out (k : packet) (w : wifi) : wifi :=
  let h := hist w in
  with_hist {| outs := outs h ++ [k]; pushes := pushes h; dones := dones h; calls := calls h; events := events h |} w.
Definition log_push (k : packet) (n : Z) (w : wifi) : wifi :=
  let h := hist w in
  with_hist {| outs := outs h; pushes := pushes h ++ [(k, n)]; dones := dones h; calls := calls h;
               events := events h |} w.
Definition log_done (k : packet) (ok : bool) (w : wifi) : wifi :=
  let h := hist w in
  with_hist {| outs := outs h; pushes := pushes h; dones := dones h ++ [(k, ok)]; calls := calls h;
               events := events h |} w.
Definition log_callback (cb arg : Z) (ok : bool) (w : wifi) : wifi :=
  let h := hist w in
  with_hist {| outs := outs h; pushes := pushes h; dones := dones h; calls := calls h ++ [(cb, arg, ok)];
               events := events h |} w.

Definition set_waiting (l : list Z) (s : bl_sta) : bl_sta :=
  {| waiting_list := l; pending_list := pending_list s; sta_addr := sta_addr s; is_used := is_used s;
     sta_idx := sta_idx s; vif_idx := vif_idx s; fc_ps := fc_ps s; qos := qos s; rssi := rssi s;
     data_rate := data_rate s; tsflo := tsflo s; tsfhi := tsfhi s |}.
Definition set_pending (l : list Z) (s : bl_sta) : bl_sta :=
  {| waiting_list := waiting_list s; pending_list := l; sta_addr := sta_addr s; is_used := is_used s;
     sta_idx := sta_idx s; vif_idx := vif_idx s; fc_ps := fc_ps s; qos := qos s; rssi := rssi s;
     data_rate := data_rate s; tsflo := tsflo s; tsfhi := tsfhi s |}.
Definition set_fc_ps (z : Z) (s : bl_sta) : bl_sta :=
  {| waiting_list := waiting_list s; pending_list := pending_list s; sta_addr := sta_addr s; is_used := is_used s;
     sta_idx := sta_idx s; vif_idx := vif_idx s; fc_ps := z; qos := qos s; rssi := rssi s;
     data_rate := data_rate s; tsflo := tsflo s; tsfhi := tsfhi s |}.
Definition set_fc_chan (z : Z) (v : bl_vif) : bl_vif :=
  {| dev := dev v; up := up v; vif_fw_idx := vif_fw_idx v; links_num := links_num v;
     fixed_sta_idx := fixed_sta_idx v; fc_chan := z; sta_ps := sta_ps v |}.
Definition set_repush (z : Z) (x : bl_txhdr) : bl_txhdr :=
  {| custom_cfm := custom_cfm x; status := status x; hdr_p := hdr_p x; hdr_len := hdr_len x;
     vif_type := vif_type x; sta_id := sta_id x; repush := z |}.

Definition get_sta (w : wifi) (i : Z) : outcome bl_sta := aget (sta_table w) i.
Definition get_vif (w : wifi) (i : Z) : outcome bl_vif := aget (vif_table w) i.
Definition upd_sta (i : Z) (f : bl_sta -> bl_sta) (w : wifi) : outcome wifi :=
  s ← get_sta w i; l ← aset (sta_table w) i (f s); Done (with_stas l w).
Definition upd_vif (i : Z) (f : bl_vif -> bl_vif) (w : wifi) : outcome wifi :=
  v ← get_vif w i; l ← aset (vif_table w) i (f v); Done (with_vifs l w).
Definition get_pbuf (w : wifi) (p : Z) : outcome pbuf :=
  match pbufs w !! p with Some b => Done b | None => Fault end.
Definition get_txhdr (w : wifi) (h : Z) : outcome bl_txhdr :=
  match txhdrs w !! h with Some x => Done x | None => Fault end.
Definition put_txhdr (h : Z) (x : bl_txhdr) (w : wifi) : wifi := with_mem (pbufs w) (<[h := x]> (txhdrs w)) w.

(** the address of the control header in a packet whose payload begins with the
    reserved room *)
Definition txhdr_of (b : pbuf) : Z := payload b + RWNX_HWTXHDR_ALIGN_PADS (payload b).
Definition packet_of (h : Z) (x : bl_txhdr) : packet :=
  {| pk_sta := sta_id x; pk_hdr := h; pk_buf := hdr_p x; pk_cb := custom_cfm x |}.

(** ** Packets of the IP stack: lwIP's pbuf.c *)

Definition set_ref (z : Z) (b : pbuf) : pbuf :=
  {| next := next b; payload := payload b; tot_len := tot_len b; len := len b; contiguous := contiguous b; ref := z;
     size := size b; h_dest := h_dest b; h_source := h_source b; h_proto := h_proto b |}.
(** the payload moved by [d] bytes to the front *)
Definition move_payload (d : Z) (b : pbuf) : pbuf :=
  {| next := next b; payload := payload b - d; tot_len := u16 (tot_len b + d); len := u16 (len b + d);
     contiguous := contiguous b; ref := ref b; size := size b; h_dest := h_dest b; h_source := h_source b;
     h_proto := h_proto b |}.

(** with a positive increment ([pbuf_add_header_impl], [force] being 0) *)
Definition pbuf_add_header (p d : Z) (b : pbuf) : option pbuf :=
  if d =? 0 then Some b
  else if u16 (d + tot_len b) <? d then None
  else if contiguous b then
    if payload b - d <? p + SIZEOF_STRUCT_PBUF then None else Some (move_payload d b)
  else None.
Definition pbuf_remove_header (d : Z) (b : pbuf) : option pbuf :=
  if d =? 0 then Some b else if d <=? len b then Some (move_payload (- d) b) else None.
(** [None] is the result 1, the packet being left as it is *)
Definition pbuf_header (p d : Z) (b : pbuf) : option pbuf :=
  if d <? 0 then pbuf_remove_header (- d) b else pbuf_add_header p d b.

Definition put_pbuf (p : Z) (b : pbuf) (w : wifi) : wifi := with_mem (<[p := b]> (pbufs w)) (txhdrs w) w.
(** the assert is the one against an overflow of the counter *)
Definition pbuf_ref (p : Z) (w : wifi) : outcome wifi :=
  b ← get_pbuf w p;
  let r := u8 (ref b + 1) in
  if r =? 0 then Fault else Done (put_pbuf p (set_ref r b) w).
(** the last reference frees the packet, and the control header with it where the
    payload is in the same block *)
Definition pbuf_free (p : Z) (w : wifi) : outcome wifi :=
  b ← get_pbuf w p;
  if 0 <? ref b then
    if ref b - 1 =? 0 then
      Done (with_mem (delete p (pbufs w)) (if contiguous b then delete (txhdr_of b) (txhdrs w) else txhdrs w) w)
    else Done (put_pbuf p (set_ref (ref b - 1) b) w)
  else Fault.

Definition LWIP_MEM_ALIGN_SIZE (z : Z) : Z := Z.land (z + 3) (Z.lnot 3).

(** [pbuf_alloc(PBUF_RAW, length, PBUF_RAM)], the heap's answer to a request being
    [mem_malloc]; the new payload has no contents *)
Definition pbuf_alloc (mem_malloc : gmap Z pbuf -> Z -> Z) (length : Z) (w : wifi) : option (Z * wifi) :=
  let length := u16 length in
  let payload_len := u16 (LWIP_MEM_ALIGN_SIZE length) in
  let alloc_len := u16 (LWIP_MEM_ALIGN_SIZE SIZEOF_STRUCT_PBUF + payload_len) in
  if (payload_len <? LWIP_MEM_ALIGN_SIZE length) || (alloc_len <? LWIP_MEM_ALIGN_SIZE length) then None
  else
    let p := mem_malloc (pbufs w) alloc_len in
    if p =? NULL then None
    else Some (p, put_pbuf p {| next := []; payload := p + SIZEOF_STRUCT_PBUF; tot_len := length; len := length;
                                contiguous := true; ref := 1; size := payload_len; h_dest := []; h_source := [];
                                h_proto := 0 |} w).

(** the frame [p] is copied to [q] where it fits *)
Definition pbuf_copy (q p : Z) (w : wifi) : outcome (Z * wifi) :=
  b ← get_pbuf w q; a ← get_pbuf w p;
  if tot_len a <=? tot_len b then
    Done (ERR_OK, put_pbuf q {| next := next b; payload := payload b; tot_len := tot_len b; len := len b;
                                contiguous := contiguous b; ref := ref b; size := size b; h_dest := h_dest a;
                                h_source := h_source a; h_proto := h_proto a |} w)
  else Done (ERR_ARG, w).

(** ** Descriptors: ipc_host.c *)

Definition with_lists (free ongoing cfm : list Z) (w : wifi) : wifi :=
  with_ipc {| txdesc0 := txdesc0 (ipc w); list_free := free; list_ongoing := ongoing; list_cfm := cfm |} w.
Definition empty_host : hostdesc :=
  {| pbuf_addr := 0; packet_addr := 0; packet_len := 0; status_addr := 0; eth_dest_addr := repeat 0 6;
     eth_src_addr := repeat 0 6; ethertype := 0; tid := 0; host_vif_idx := 0; host_vif_type := 0; staid := 0;
     flags := 0; pbuf_chained_ptr := repeat 0 4; pbuf_chained_len := repeat 0 4 |}.
Definition empty_txdesc : txdesc_host := {| host_id := NULL; ready := 0; host := empty_host |}.

(** the descriptors are cleared and all free *)
Definition ipc_host_init (w : wifi) : wifi :=
  with_ipc {| txdesc0 := repeat empty_txdesc (Z.to_nat CFG_TXDESC); list_free := seqZ 0 CFG_TXDESC; list_ongoing := [];
              list_cfm := [] |} w.

Definition ipc_host_txdesc_get (w : wifi) : option Z := head (list_free (ipc w)).

Definition upd_txdesc (d : Z) (f : txdesc_host -> txdesc_host) (w : wifi) : outcome wifi :=
  t ← aget (txdesc0 (ipc w)) d; l ← aset (txdesc0 (ipc w)) d (f t);
  let i := ipc w in
  Done (with_ipc {| txdesc0 := l; list_free := list_free i; list_ongoing := list_ongoing i; list_cfm := list_cfm i |} w).

Definition ipc_host_txdesc_push (id : Z) (w : wifi) : outcome wifi :=
  match list_free (ipc w) with
  | [] => Fault
  | d :: free =>
    let w := with_lists free (list_ongoing (ipc w)) (list_cfm (ipc w)) w in
    w ← upd_txdesc d (fun t => {| host_id := id; ready := 0xFFFFFFFF; host := host t |}) w;
    Done (log_event TxdescTrigger (with_lists (list_free (ipc w)) (list_ongoing (ipc w) ++ [d]) (list_cfm (ipc w)) w))
  end.

(** [txdesc_used_idx] and [txdesc_free_idx] keep the 0 of [ipc_host_init]: their
    uses are in code left out by [#if 0] *)
Definition ipc_host_txdesc_left (used_idx free_idx : Z) : Z := u32 (CFG_TXDESC - (free_idx - used_idx)).
Definition bl_main_tx_still_free : Z := ipc_host_txdesc_left 0 0.

(** ** The transmit functions: bl_tx.c *)

Definition bl_tx_cntrl_purge_check (sta : bl_sta) (only_check : bool) (w : wifi) : wifi :=
  if negb (bool_decide (pending_list sta = [])) || negb (bool_decide (waiting_list sta = [])) then
    if only_check then w
    else with_trigger (Z.lor (tx_cntrl_sta_trigger w) (BIT_STA (sta_idx sta))) (log_event IrqHandler w)
  else w.
Definition bl_tx_cntrl_link_up (sta : bl_sta) (w : wifi) : wifi := bl_tx_cntrl_purge_check sta true w.
Definition bl_tx_cntrl_link_down (sta : bl_sta) (w : wifi) : wifi := bl_tx_cntrl_purge_check sta false w.

Definition bl_tx_cntrl_check_fc (sta : bl_sta) (w : wifi) : outcome bool :=
  if fc_ps sta =? 0 then v ← get_vif w (vif_idx sta); Done (fc_chan v =? 0) else Done false.

(** [sta_trigger] with the bits of the interfaces named in [vif_bits] *)
Definition bl_tx_cntrl_update_fc (fc : ke_tx_fc) (w : wifi) : outcome (Z * wifi) :=
  '(sta_trigger, w) ←
    (if any (vif_bits fc) (Z.shiftl 1 0) then
       v ← get_vif w BL_VIF_STA;
       w ← (if sta_fc_chan fc =? 0 then Done w else upd_vif BL_VIF_STA (set_fc_chan 0) w);
       w ← (if sta_fc_ps fc =? 0 then Done w else upd_sta (fixed_sta_idx v) (set_fc_ps 0) w);
       Done (BIT_STA (fixed_sta_idx v), w)
     else Done (0, w));
  if any (vif_bits fc) (Z.shiftl 1 1) then
    v ← get_vif w BL_VIF_AP;
    '(sta_trigger, w) ←
      (if ap_fc_chan fc =? 0 then Done (sta_trigger, w)
       else w ← upd_vif BL_VIF_AP (set_fc_chan 0) w; Done (Z.lor sta_trigger (BIT_STA (fixed_sta_idx v)), w));
    Done (Z.lor sta_trigger (ap_fc_ps_sta_bits fc), w)
  else Done (sta_trigger, w).

(** the loops over the stations: the first used one that [f] accepts *)
Fixpoint find_sta (f : bl_sta -> bool) (idxs : list Z) (w : wifi) : outcome Z :=
  match idxs with
  | [] => Done (-1)
  | i :: idxs => s ← get_sta w i; if negb (is_used s =? 0) && f s then Done i else find_sta f idxs w
  end.
Definition all_stas : list Z := seqZ 0 NX_REMOTE_STA_STORE_MAX.

(** in the last loop [ap_idx] and [bcmc_sta_idx] are still -1: nothing is skipped *)
Definition bl_tx_cntrl_get_sta_id (is_sta is_broadcast : bool) (addr : list Z) (w : wifi) : outcome Z :=
  if is_sta then
    v ← get_vif w BL_VIF_STA;
    s ← get_sta w (fixed_sta_idx v);
    Done (if negb (links_num v =? 0) && negb (is_used s =? 0) then sta_idx s else -1)
  else
    v ← get_vif w BL_VIF_AP;
    if links_num v =? 0 then Done (-1)
    else if is_broadcast then
      s ← get_sta w (fixed_sta_idx v);
      Done (if negb (is_used s =? 0) then sta_idx s else -1)
    else find_sta (fun s => bool_decide (sta_addr s = addr)) all_stas w.

Definition bl_tx_check_ret (is_sta : Z) (is_groupcast : bool) (value : Z) : Z :=
  if negb (is_sta =? 0) then if any value FRAME_SUCCESSFUL_TX_BIT then 1 else 0
  else if (negb is_groupcast && any value FRAME_SUCCESSFUL_TX_BIT) || (is_groupcast && any value DESC_DONE_TX_BIT)
  then 1 else 0.

(** the loop over the chain of a packet: [loop] counts the pbufs *)
Fixpoint fill_chain (q : list (Z * Z)) (loop : Z) (ptrs lens : list Z) : outcome (list Z * list Z) :=
  match q with
  | [] => Done (ptrs, lens)
  | (a, n) :: q =>
    ptrs ← aset ptrs loop a; lens ← aset lens loop n;
    fill_chain q (u16 (loop + 1)) ptrs lens
  end.

(** the descriptor [d] is the one [ipc_host_txdesc_get] gave, the first free one *)
Definition bl_tx_push (sta : bl_sta) (d h : Z) (w : wifi) : outcome wifi :=
  x ← get_txhdr w h;
  let p := hdr_p x in
  b ← get_pbuf w p;
  v ← get_vif w (vif_idx sta);
  let link_offset_len := sizeof_ethhdr + PBUF_LINK_ENCAPSULATION_HLEN in
  '(ptrs, lens) ← fill_chain ((u32 (payload b + link_offset_len), u32 (len b - link_offset_len)) :: next b) 0
                             (repeat 0 4) (repeat 0 4);
  w ← upd_txdesc d (fun t =>
    {| host_id := host_id t; ready := ready t;
       host := {| pbuf_addr := p; packet_addr := 0x11111111; packet_len := u16 (hdr_len x - link_offset_len);
                  status_addr := u32 (h + offsetof_status); eth_dest_addr := h_dest b; eth_src_addr := h_source b;
                  ethertype := h_proto b; tid := if qos sta =? 0 then 0xFF else 0; host_vif_idx := vif_fw_idx v;
                  host_vif_type := vif_type x; staid := sta_idx sta; flags := 0;
                  pbuf_chained_ptr := ptrs; pbuf_chained_len := lens |} |}) w;
  ipc_host_txdesc_push p (log_push (packet_of h x) (repush x) w).

(** the tail of [bl_tx_cfm]: the packet is released and its sender told *)
Definition bl_tx_release (p h : Z) (x : bl_txhdr) (sta : bl_sta) (ret : Z) (w : wifi) : outcome (Z * wifi) :=
  w ← pbuf_free p (log_done (packet_of h x) (0 <? ret) w);
  let w := with_trigger_pending (Z.lor (tx_cntrl_sta_trigger_pending w) (BIT_STA (sta_idx sta))) w in
  let '(cb, cb_arg) := custom_cfm x in
  Done (ret, if cb =? NULL then w else log_callback cb cb_arg (0 <? ret) w).

Definition bl_tx_cfm (p : Z) (w : wifi) : outcome (Z * wifi) :=
  b ← get_pbuf w p;
  let h := txhdr_of b in
  x ← get_txhdr w h;
  dest0 ← aget (h_dest b) 0;
  let value := status x in
  let ret := bl_tx_check_ret (vif_type x) (IS_BC_MC dest0) value in
  sta ← get_sta w (sta_id x);
  vif ← get_vif w (vif_idx sta);
  if negb (ret =? 0) || (3 <=? repush x) || (links_num vif =? 0) || (is_used sta =? 0) then
    bl_tx_release p h x sta ret w
  else
    let queue_again w :=
      w ← upd_sta (sta_id x) (fun s => set_pending (pending_list s ++ [h]) s)
                  (put_txhdr h (set_repush (u8 (repush x + 1)) x) w);
      Done (0, w) in
    if any value RETRY_LIMIT_REACHED_BIT then
      queue_again (with_trigger_pending (Z.lor (tx_cntrl_sta_trigger_pending w) (BIT_STA (sta_idx sta))) w)
    else if any value FRAME_REPUSHABLE_CHAN_BIT then
      w ← upd_vif (vif_idx sta) (set_fc_chan 1) w; queue_again w
    else if any value FRAME_REPUSHABLE_PS_BIT then
      w ← upd_sta (sta_id x) (set_fc_ps 1) w; queue_again w
    else bl_tx_release p h x sta ret w.

(** [ipc_host_tx_cfm_handler]: one turn of its loop, [None] when no descriptor is
    confirmed, and the loop *)
Definition tx_cfm_turn (w : wifi) : outcome (option wifi) :=
  match list_cfm (ipc w) with
  | [] => Done None
  | d :: cfm =>
    let w := with_lists (list_free (ipc w)) (list_ongoing (ipc w)) cfm w in
    t ← aget (txdesc0 (ipc w)) d;
    '(_, w) ← bl_tx_cfm (host_id t) w;
    w ← upd_txdesc d (fun t => {| host_id := NULL; ready := ready t; host := host t |}) w;
    Done (Some (with_lists (list_free (ipc w) ++ [d]) (list_ongoing (ipc w)) (list_cfm (ipc w)) w))
  end.
Fixpoint tx_cfm_loop (fuel : nat) (w : wifi) : outcome wifi :=
  match fuel with
  | O => NoFuel
  | S fuel => r ← tx_cfm_turn w; match r with None => Done w | Some w => tx_cfm_loop fuel w end
  end.
Definition ipc_host_tx_cfm_handler (w : wifi) : outcome wifi := tx_cfm_loop (S (length (list_cfm (ipc w)))) w.

(** *** [bl_tx_try_flush]

    [inl] is the break out of a loop.  The trigger flags are read and cleared
    ([flush_begin]); for each station the pending list is emptied into descriptors,
    then the waiting list. *)
Definition retrigger (i : Z) (w : wifi) : wifi :=
  with_trigger_pending (Z.lor (tx_cntrl_sta_trigger_pending w) (BIT_STA i)) w.

Definition pending_turn (i : Z) (w : wifi) : outcome (wifi + wifi) :=
  match ipc_host_txdesc_get w with
  | None => Done (inl (retrigger i w))
  | Some d =>
    s ← get_sta w i;
    match pending_list s with
    | [] => Done (inl (retrigger i w))
    | h :: q => w ← upd_sta i (set_pending q) w; w ← bl_tx_push s d h w; Done (inr w)
    end
  end.
Definition waiting_turn (i : Z) (w : wifi) : outcome (wifi + wifi) :=
  match ipc_host_txdesc_get w with
  | None => Done (inl (retrigger i w))
  | Some d =>
    s ← get_sta w i;
    match waiting_list s with
    | [] => Done (inl w)
    | h :: q => w ← upd_sta i (set_waiting q) w; w ← bl_tx_push s d h w; Done (inr w)
    end
  end.
Fixpoint turns (turn : wifi -> outcome (wifi + wifi)) (fuel : nat) (w : wifi) : outcome wifi :=
  match fuel with
  | O => NoFuel
  | S fuel => r ← turn w; match r with inl w => Done w | inr w => turns turn fuel w end
  end.
(** every turn but the last takes a descriptor *)
Definition turn_fuel (w : wifi) : nat := S (length (list_free (ipc w))).

Definition flush_begin (param : Z) (fc : option ke_tx_fc) (w : wifi) : outcome (Z * wifi) :=
  '(sta_trigger, w) ← (match fc with
                       | Some fc => if param =? 0 then Done (0, w) else bl_tx_cntrl_update_fc fc w
                       | None => Done (0, w)
                       end);
  let sta_trigger := Z.lor sta_trigger (tx_cntrl_sta_trigger_pending w) in
  let w := with_trigger_pending 0 w in
  let sta_trigger := Z.lor sta_trigger (tx_cntrl_sta_trigger w) in
  Done (sta_trigger, with_trigger 0 w).

(** the station's bit is set and its flow control open *)
Definition can_tx (i sta_trigger : Z) (w : wifi) : outcome bool :=
  s ← get_sta w i;
  if any sta_trigger (BIT_STA i) then bl_tx_cntrl_check_fc s w else Done false.

Definition flush_sta (i sta_trigger : Z) (w : wifi) : outcome wifi :=
  ok ← can_tx i sta_trigger w;
  if negb ok then Done w
  else
    s ← get_sta w i;
    w ← (if bool_decide (pending_list s = []) then Done w else turns (pending_turn i) (turn_fuel w) w);
    s ← get_sta w i;
    if bool_decide (waiting_list s = []) then Done w else turns (waiting_turn i) (turn_fuel w) w.
Fixpoint flush_stas (idxs : list Z) (sta_trigger : Z) (w : wifi) : outcome wifi :=
  match idxs with
  | [] => Done w
  | i :: idxs => if sta_trigger =? 0 then Done w else w ← flush_sta i sta_trigger w; flush_stas idxs sta_trigger w
  end.
Definition bl_tx_try_flush (param : Z) (fc : option ke_tx_fc) (w : wifi) : outcome wifi :=
  '(sta_trigger, w) ← flush_begin param fc w; flush_stas all_stas sta_trigger w.

(** the same function cut into the pieces between which other tasks run: where the
    task is, and one piece *)
Inductive flush_pc :=
| Idle | AtSta (i sta_trigger : Z) | InPending (i sta_trigger : Z) | AtWaiting (i sta_trigger : Z)
| InWaiting (i sta_trigger : Z).

Definition flush_piece (c : flush_pc) (w : wifi) : outcome (flush_pc * wifi) :=
  match c with
  | Idle => Done (Idle, w)
  | AtSta i t =>
    if (NX_REMOTE_STA_STORE_MAX <=? i) || (t =? 0) then Done (Idle, w)
    else
      ok ← can_tx i t w;
      s ← get_sta w i;
      Done (if negb ok then AtSta (i + 1) t
            else if bool_decide (pending_list s = []) then AtWaiting i t else InPending i t, w)
  | InPending i t =>
    r ← pending_turn i w;
    Done (match r with inl w => (AtWaiting i t, w) | inr w => (InPending i t, w) end)
  | AtWaiting i t =>
    s ← get_sta w i;
    Done (if bool_decide (waiting_list s = []) then AtSta (i + 1) t else InWaiting i t, w)
  | InWaiting i t =>
    r ← waiting_turn i w;
    Done (match r with inl w => (AtSta (i + 1) t, w) | inr w => (InWaiting i t, w) end)
  end.

(** ** [bl_output]

    The packet is prepared outside of the critical section and queued inside; [inl]
    is an early return. *)
Definition bl_output_prepare (is_sta : bool) (p : Z) (cfm : option (Z * Z)) (w : wifi)
  : outcome (Z * wifi + Z * Z * wifi) :=
  if p =? NULL then Done (inl (ERR_CONN, w))
  else
    b ← get_pbuf w p;
    dest0 ← aget (h_dest b) 0;
    sta_id ← bl_tx_cntrl_get_sta_id is_sta (IS_BC_MC dest0) (h_dest b) w;
    if sta_id <? 0 then Done (inl (ERR_IF, w))
    else
      _ ← get_sta w sta_id;
      match pbuf_header p PBUF_LINK_ENCAPSULATION_HLEN b with
      | None => Done (inl (ERR_IF, w))
      | Some b =>
        let w := put_pbuf p b w in
        let align_offset := RWNX_HWTXHDR_ALIGN_PADS (payload b) in
        let link_desc_len := u16 (align_offset + sizeof_bl_txhdr + 16) in
        if PBUF_LINK_ENCAPSULATION_HLEN <? link_desc_len then Done (inl (ERR_BUF, w))
        else
          let h := payload b + align_offset in
          let x := {| custom_cfm := match cfm with Some c => c | None => (NULL, NULL) end; status := 0; hdr_p := p;
                      hdr_len := tot_len b; vif_type := if is_sta then 1 else 0; sta_id := wrap 4 sta_id;
                      repush := 0 |} in
          w ← pbuf_ref p (put_txhdr h x w);
          Done (inr (sta_id, h, w))
      end.

Definition bl_output_enqueue (i h : Z) (w : wifi) : outcome wifi :=
  x ← get_txhdr w h;
  w ← upd_sta i (fun s => set_waiting (waiting_list s ++ [h]) s) (log_out (packet_of h x) w);
  let w := with_trigger (Z.lor (tx_cntrl_sta_trigger w) (BIT_STA i)) w in
  s ← get_sta w i;
  open ← bl_tx_cntrl_check_fc s w;
  Done (if (open : bool) then log_event IrqHandler w else w).

Definition bl_output (is_sta : bool) (p : Z) (cfm : option (Z * Z)) (w : wifi) : outcome (Z * wifi) :=
  r ← bl_output_prepare is_sta p cfm w;
  match r with
  | inl (err, w) => Done (err, w)
  | inr (i, h, w) => w ← bl_output_enqueue i h w; Done (ERR_OK, w)
  end.

(** ** Forwarding between clients *)

Definition bl_tx_find_sta_by_mac (vif : Z) (mac : list Z) (w : wifi) : outcome Z :=
  find_sta (fun s => (vif_idx s =? vif) && bool_decide (sta_addr s = mac)) all_stas w.

(** a copy of [p] with room for the header is sent; its other reference is dropped *)
Definition send_copy (mem_malloc : gmap Z pbuf -> Z -> Z) (p : Z) (w : wifi) : outcome (Z * wifi) :=
  b ← get_pbuf w p;
  match pbuf_alloc mem_malloc (PBUF_LINK_ENCAPSULATION_HLEN + tot_len b) w with
  | None => Done (ERR_MEM, w)
  | Some (q, w) =>
    c ← get_pbuf w q;
    let w := match pbuf_header q (- PBUF_LINK_ENCAPSULATION_HLEN) c with Some c => put_pbuf q c w | None => w end in
    '(_, w) ← pbuf_copy q p w;
    '(ret, w) ← bl_output false q None w;
    w ← pbuf_free q w;
    Done (ret, w)
  end.

Definition bl_tx_intra_bss_forward (mem_malloc : gmap Z pbuf -> Z -> Z) (p dst_sta_idx : Z) (w : wifi)
  : outcome (Z * wifi) :=
  if (dst_sta_idx <? 0) || (NX_REMOTE_STA_STORE_MAX <=? dst_sta_idx) then Done (ERR_ARG, w)
  else
    s ← get_sta w dst_sta_idx;
    if is_used s =? 0 then Done (ERR_CONN, w) else send_copy mem_malloc p w.

Fixpoint broadcast_loop (mem_malloc : gmap Z pbuf -> Z -> Z) (p src vif : Z) (idxs : list Z) (w : wifi) : outcome wifi :=
  match idxs with
  | [] => Done w
  | i :: idxs =>
    s ← get_sta w i;
    w ← (if negb (i =? src) && negb (is_used s =? 0) && (vif_idx s =? vif)
            && negb (bool_decide (sta_addr s = repeat 0 6))
         then '(_, w) ← send_copy mem_malloc p w; Done w else Done w);
    broadcast_loop mem_malloc p src vif idxs w
  end.
Definition bl_tx_intra_bss_broadcast (mem_malloc : gmap Z pbuf -> Z -> Z) (p src_sta_idx : Z) (w : wifi)
  : outcome (Z * wifi) :=
  s ← get_sta w src_sta_idx;
  w ← broadcast_loop mem_malloc p src_sta_idx (vif_idx s) all_stas w;
  Done (ERR_OK, w).
