(* ===== verification/BlSta.v ===== *)
(** * Stations and interfaces of the WiFi driver

    The firmware tells the driver of stations that come and go; the handlers of
    these messages in [bl_rx.c] and the calls of [bl_main.c] keep the tables
    [vif_table] and [sta_table] the transmit path works from.  The answers of the
    firmware to requests ([bl_send_...]) are arguments. *)
From S2P Require Import Prelude BlTx.

(** ** Definitions *)

Definition PS_MODE_OFF : Z := 0.
Definition STA_QOS_CAPA : Z := Z.shiftl 1 0.
Definition CODE_WIFI_ON_AP_STA_ADD : Z := 21.
Definition CODE_WIFI_ON_AP_STA_DEL : Z := 22.
Definition EIO : Z := 5.

Record apm_sta_add_ind := {
  add_flags : Z; add_addr : list Z; add_sta_idx : Z; add_rssi : Z; add_tsflo : Z; add_tsfhi : Z; add_data_rate : Z }.

Definition set_used (z : Z) (s : bl_sta) : bl_sta :=
  {| waiting_list := waiting_list s; pending_list := pending_list s; sta_addr := sta_addr s; is_used := z;
     sta_idx := sta_idx s; vif_idx := vif_idx s; fc_ps := fc_ps s; qos := qos s; rssi := rssi s;
     data_rate := data_rate s; tsflo := tsflo s; tsfhi := tsfhi s |}.
Definition set_links (z : Z) (v : bl_vif) : bl_vif :=
  {| dev := dev v; up := up v; vif_fw_idx := vif_fw_idx v; links_num := u8 z; fixed_sta_idx := fixed_sta_idx v;
     fc_chan := fc_chan v; sta_ps := sta_ps v |}.
Definition set_sta_ps (z : Z) (v : bl_vif) : bl_vif :=
  {| dev := dev v; up := up v; vif_fw_idx := vif_fw_idx v; links_num := links_num v;
     fixed_sta_idx := fixed_sta_idx v; fc_chan := fc_chan v; sta_ps := z |}.
Definition set_fixed (z : Z) (v : bl_vif) : bl_vif :=
  {| dev := dev v; up := up v; vif_fw_idx := vif_fw_idx v; links_num := links_num v; fixed_sta_idx := z;
     fc_chan := fc_chan v; sta_ps := sta_ps v |}.

(** the station interface loses its link *)
Definition sta_link_lost (v : bl_vif) : bl_vif := set_sta_ps PS_MODE_OFF (set_fc_chan 0 (set_links (links_num v - 1) v)).

Definition unless_null (dev : Z) (e : tx_event) (w : wifi) : wifi := if dev =? NULL then w else log_event e w.

(** the callbacks of the WiFi manager are events; [registered] says whether there
    is one *)
Definition bl_rx_sm_connect_ind (registered : bool) (status_code : Z) (w : wifi) : outcome (Z * wifi) :=
  let w := if registered then log_event (ConnectInd status_code) w else w in
  v ← get_vif w BL_VIF_STA;
  if negb (status_code =? 0) then
    if negb (links_num v =? 0) then
      w ← upd_vif BL_VIF_STA sta_link_lost w;
      w ← upd_sta (fixed_sta_idx v) (set_used 0) w;
      s ← get_sta w (fixed_sta_idx v);
      let w := bl_tx_cntrl_link_down s w in
      Done (0, unless_null (dev v) (LinkDown (dev v)) w)
    else Done (0, w)
  else Done (0, unless_null (dev v) (LinkUp (dev v)) w).

Definition bl_rx_sm_disconnect_ind (registered : bool) (status_code : Z) (w : wifi) : outcome (Z * wifi) :=
  v ← get_vif w BL_VIF_STA;
  if links_num v =? 0 then Done (-1, w)
  else
    s ← get_sta w (fixed_sta_idx v);
    w ← (if negb (is_used s =? 0) then
           w ← upd_vif BL_VIF_STA sta_link_lost w;
           w ← upd_sta (fixed_sta_idx v) (set_used 0) w;
           s ← get_sta w (fixed_sta_idx v);
           Done (bl_tx_cntrl_link_down s w)
         else Done w);
    let w := if registered then log_event (DisconnectInd status_code) w else w in
    Done (0, unless_null (dev v) (SetAddrAny (dev v)) (unless_null (dev v) (LinkDown (dev v)) w)).

Definition bl_rx_sm_sta_add_ind (ap_idx qos : Z) (w : wifi) : outcome (Z * wifi) :=
  v ← get_vif w BL_VIF_STA;
  if 0 <? links_num v then Done (-1, w)
  else
    w ← upd_vif BL_VIF_STA (fun v => set_fixed ap_idx (set_fc_chan 0 (set_links (links_num v + 1) v))) w;
    w ← upd_sta ap_idx (fun s =>
      {| waiting_list := waiting_list s; pending_list := pending_list s; sta_addr := sta_addr s; is_used := 1;
         sta_idx := ap_idx; vif_idx := BL_VIF_STA; fc_ps := 0; qos := qos; rssi := rssi s; data_rate := data_rate s;
         tsflo := tsflo s; tsfhi := tsfhi s |}) w;
    s ← get_sta w ap_idx;
    Done (0, bl_tx_cntrl_link_up s w).

Definition bl_rx_apm_sta_add_ind (ind : apm_sta_add_ind) (w : wifi) : outcome (Z * wifi) :=
  if NX_REMOTE_STA_STORE_MAX <=? add_sta_idx ind then Done (-1, w)
  else
    w ← upd_sta (add_sta_idx ind) (fun s =>
      {| waiting_list := waiting_list s; pending_list := pending_list s; sta_addr := add_addr ind; is_used := 1;
         sta_idx := add_sta_idx ind; vif_idx := BL_VIF_AP; fc_ps := 0;
         qos := if any (add_flags ind) STA_QOS_CAPA then 1 else 0; rssi := add_rssi ind;
         data_rate := add_data_rate ind; tsflo := add_tsflo ind; tsfhi := add_tsfhi ind |}) w;
    s ← get_sta w (add_sta_idx ind);
    let w := bl_tx_cntrl_link_up s w in
    v ← get_vif w BL_VIF_AP;
    w ← (if links_num v =? 0 then
           w ← upd_vif BL_VIF_AP (set_fc_chan 0) w;
           w ← upd_sta (fixed_sta_idx v) (fun s =>
             {| waiting_list := waiting_list s; pending_list := pending_list s; sta_addr := sta_addr s; is_used := 1;
                sta_idx := sta_idx s; vif_idx := vif_idx s; fc_ps := 0;
                qos := if any (add_flags ind) STA_QOS_CAPA then qos s else 0; rssi := rssi s;
                data_rate := data_rate s; tsflo := tsflo s; tsfhi := tsfhi s |}) w;
           s ← get_sta w (fixed_sta_idx v);
           let w := bl_tx_cntrl_link_up s w in
           w ← upd_vif BL_VIF_AP (fun v => set_links (links_num v + 1) v) w;
           Done (unless_null (dev v) (LinkUp (dev v)) w)
         else upd_vif BL_VIF_AP (fun v => set_links (links_num v + 1) v) w);
    Done (0, log_event (PostEvent CODE_WIFI_ON_AP_STA_ADD (add_sta_idx ind)) w).

Definition bl_rx_apm_sta_del_ind (idx : Z) (w : wifi) : outcome (Z * wifi) :=
  v ← get_vif w BL_VIF_AP;
  if (NX_REMOTE_STA_STORE_MAX <=? idx) || (links_num v =? 0) then Done (-1, w)
  else
    w ← upd_sta idx (set_used 0) w;
    s ← get_sta w idx;
    let w := bl_tx_cntrl_link_down s w in
    w ← upd_vif BL_VIF_AP (fun v => set_links (links_num v - 1) v) w;
    v ← get_vif w BL_VIF_AP;
    w ← (if links_num v =? 0 then
           w ← upd_vif BL_VIF_AP (set_fc_chan 0) w;
           w ← upd_sta (fixed_sta_idx v) (set_used 0) w;
           s ← get_sta w (fixed_sta_idx v);
           let w := bl_tx_cntrl_link_down s w in
           Done (unless_null (dev v) (LinkDown (dev v)) w)
         else Done w);
    Done (0, log_event (PostEvent CODE_WIFI_ON_AP_STA_DEL idx) w).

(** *** bl_main.c *)

(** [error] and [bcmc_idx] are what the firmware answers; without an answer
    [bcmc_idx] is the 0 of the cleared structure *)
Definition bl_main_apm_start (error bcmc_idx : Z) (w : wifi) : outcome (Z * wifi) :=
  w ← upd_vif BL_VIF_AP (set_fixed bcmc_idx) w;
  w ← upd_sta bcmc_idx (fun s =>
    {| waiting_list := waiting_list s; pending_list := pending_list s; sta_addr := sta_addr s; is_used := is_used s;
       sta_idx := bcmc_idx; vif_idx := BL_VIF_AP; fc_ps := fc_ps s; qos := 1; rssi := rssi s;
       data_rate := data_rate s; tsflo := tsflo s; tsfhi := tsfhi s |}) w;
  Done (error, w).

Definition bl_main_if_add (is_sta : bool) (netif error status inst_nbr : Z) (w : wifi) : outcome (Z * Z * wifi) :=
  if negb (error =? 0) then Done (error, NULL, w)
  else if negb (status =? 0) then Done (- EIO, NULL, w)
  else
    let vif_id := if is_sta then BL_VIF_STA else BL_VIF_AP in
    w ← upd_vif vif_id (fun v =>
      {| dev := netif; up := 1; vif_fw_idx := inst_nbr; links_num := 0; fixed_sta_idx := fixed_sta_idx v;
         fc_chan := fc_chan v; sta_ps := sta_ps v |}) w;
    Done (error, vif_id, w).

Definition empty_vif : bl_vif :=
  {| dev := NULL; up := 0; vif_fw_idx := 0; links_num := 0; fixed_sta_idx := 0; fc_chan := 0; sta_ps := 0 |}.
Definition bl_main_if_remove (vif_index : Z) (w : wifi) : outcome (Z * wifi) :=
  w ← upd_vif vif_index (fun _ => empty_vif) w; Done (0, w).

Definition empty_sta : bl_sta :=
  {| waiting_list := []; pending_list := []; sta_addr := repeat 0 6; is_used := 0; sta_idx := 0; vif_idx := 0;
     fc_ps := 0; qos := 0; rssi := 0; data_rate := 0; tsflo := 0; tsfhi := 0 |}.
(** [status] is the firmware's answer, 0 also when there is none *)
Definition bl_main_apm_sta_delete (idx status : Z) (w : wifi) : outcome (Z * wifi) :=
  s ← get_sta w idx;
  _ ← get_vif w (vif_idx s);
  if negb (status =? 0) then Done (-1, w)
  else w ← upd_sta idx (fun _ => empty_sta) w; Done (0, w).
Fixpoint remove_all_loop (status : Z -> Z) (idxs : list Z) (w : wifi) : outcome wifi :=
  match idxs with
  | [] => Done w
  | i :: idxs =>
    s ← get_sta w i;
    w ← (if is_used s =? 1 then '(_, w) ← bl_main_apm_sta_delete i (status i) w; Done w else Done w);
    remove_all_loop status idxs w
  end.
Definition bl_main_apm_remove_all_sta (status : Z -> Z) (w : wifi) : outcome (Z * wifi) :=
  w ← remove_all_loop status all_stas w; Done (0, w).

(** the count of used stations is only printed; the result is the table's size *)
Definition bl_main_apm_sta_cnt_get (w : wifi) : Z * Z := (0, u8 (Z.of_nat (length (sta_table w)))).
Definition used_cnt (w : wifi) : Z := Z.of_nat (length (filter (fun s => is_used s <> 0) (sta_table w))).

(** [None]: the caller's structure is left as it is *)
Definition bl_main_apm_sta_info_get (idx : Z) (w : wifi)
  : outcome (Z * option (Z * Z * Z * Z * Z * Z * list Z)) :=
  s ← get_sta w idx;
  Done (0, if is_used s =? 0 then None
           else Some (sta_idx s, is_used s, rssi s, tsflo s, tsfhi s, data_rate s, sta_addr s)).

Definition bl_main_powersaving (ret mode : Z) (w : wifi) : outcome (Z * wifi) :=
  if negb (ret =? 0) then Done (ret, w) else w ← upd_vif BL_VIF_STA (set_sta_ps mode) w; Done (ret, w).
Definition bl_main_powersaving_get (w : wifi) : outcome Z := v ← get_vif w BL_VIF_STA; Done (sta_ps v).
Definition bl_main_sta_is_connected (w : wifi) : outcome bool := v ← get_vif w BL_VIF_STA; Done (0 <? links_num v).

(** bl_utils.c *)
Definition bl_utils_idx_lookup (mac : list Z) (w : wifi) : outcome Z :=
  find_sta (fun s => bool_decide (sta_addr s = mac)) all_stas w.
Definition bl_rx_get_vif (idx : Z) (w : wifi) : outcome (option Z) :=
  if NX_REMOTE_STA_STORE_MAX <=? idx then Done None
  else
    s ← get_sta w idx; v ← get_vif w (vif_idx s);
    Done (if up v =? 0 then None else Some (vif_idx s)).

(** the state after the driver's start *)
Definition wifi_init : wifi :=
  ipc_host_init
    {| vif_table := repeat empty_vif (Z.to_nat NX_VIRT_DEV_MAX);
       sta_table := repeat empty_sta (Z.to_nat NX_REMOTE_STA_STORE_MAX);
       tx_cntrl_sta_trigger := 0; tx_cntrl_sta_trigger_pending := 0;
       ipc := {| txdesc0 := []; list_free := []; list_ongoing := []; list_cfm := [] |};
       pbufs := ∅; txhdrs := ∅;
       hist := {| outs := []; pushes := []; dones := []; calls := []; events := [] |} |}.

(** the driver's part of the WiFi task's turn, behind the interrupts' handling *)
Definition bl_main_event_handle (txcfm : bool) (param : Z) (fc : option ke_tx_fc) (w : wifi) : outcome wifi :=
  w ← (if (param =? 0) && txcfm then ipc_host_tx_cfm_handler w else Done w);
  bl_tx_try_flush param fc w.
