(* ===== verification/BlTxProofs.v ===== *)
(** * What holds in every state of the WiFi transmit path (BlTx.v, BlSta.v)

    The invariant [wf] says where every packet is, who holds references to it, and
    what the history of the path records; each piece of the driver preserves it. *)
From S2P Require Import Prelude BlTx BlSta.

(** ** Counting

    Permutations, duplicates and membership are equations and bounds on the number
    of occurrences, which [lia] decides. *)
Section Counting.
Context {A : Type} {dec : EqDecision A}.

Definition cnt (x : A) (l : list A) : Z := Z.of_nat (count_occ dec l x).

Lemma cnt_nil x : cnt x [] = 0.
Proof. reflexivity. Qed.
Lemma cnt_cons x y l : cnt x (y :: l) = (if decide (y = x) then 1 else 0) + cnt x l.
Proof. unfold cnt. cbn [count_occ]. destruct (dec y x), (decide (y = x)); try done; lia. Qed.
Lemma cnt_app x l1 l2 : cnt x (l1 ++ l2) = cnt x l1 + cnt x l2.
Proof. unfold cnt. rewrite count_occ_app. lia. Qed.
Lemma cnt_pos x l : 0 <= cnt x l.
Proof. unfold cnt. lia. Qed.
Lemma cnt_perm l1 l2 : l1 ≡ₚ l2 <-> forall x, cnt x l1 = cnt x l2.
Proof.
  rewrite (Permutation_count_occ dec). unfold cnt. split; intros H x; specialize (H x); lia.
Qed.
Lemma cnt_nodup l : NoDup l <-> forall x, cnt x l <= 1.
Proof.
  rewrite NoDup_ListNoDup, (NoDup_count_occ dec). unfold cnt. split; intros H x; specialize (H x); lia.
Qed.
Lemma cnt_elem x l : x ∈ l <-> 0 < cnt x l.
Proof. rewrite list_elem_of_In, (count_occ_In dec). unfold cnt. lia. Qed.
Lemma cnt_not_elem x l : x ∉ l <-> cnt x l = 0.
Proof. rewrite cnt_elem. pose proof (cnt_pos x l). lia. Qed.
End Counting.

#[export] Instance packet_eq_dec : EqDecision packet.
Proof. solve_decision. Defined.

Create Rewrite HintDb counts.
#[export] Hint Rewrite @cnt_nil @cnt_cons @cnt_app : counts.
(** bring a goal about permutations, duplicates or membership to numbers *)
Ltac count := autorewrite with counts in *; repeat case_decide; try lia; try congruence.

(** replacing an entry of a table changes the joined lists by that entry's *)
Lemma cnt_join {A B} `{EqDecision B} (f : A -> list B) (l : list A) n a a' x :
  l !! n = Some a ->
  cnt x (concat (f <$> <[n := a']> l)) = cnt x (concat (f <$> l)) - cnt x (f a) + cnt x (f a').
Proof.
  intros Hn. rewrite <- (take_drop_middle l n a Hn) at 2. rewrite insert_take_drop by (by eapply lookup_lt_Some).
  rewrite !fmap_app, !fmap_cons, !concat_app. cbn [concat]. rewrite !cnt_app. lia.
Qed.
Lemma elem_of_join {A B} (f : A -> list B) (l : list A) x :
  x ∈ concat (f <$> l) <-> exists n a, l !! n = Some a /\ x ∈ f a.
Proof.
  rewrite list_elem_of_In, in_concat. setoid_rewrite <- list_elem_of_In. split.
  - intros (y & Hy & Hx). apply list_elem_of_fmap in Hy as (a & -> & Ha).
    apply list_elem_of_lookup in Ha as [n Hn]. eauto.
  - intros (n & a & Hn & Hx). exists (f a). split; [|done]. apply list_elem_of_fmap. exists a.
    split; [done|]. by eapply list_elem_of_lookup_2.
Qed.

Lemma alter_as_insert {A} (f : A -> A) n (l : list A) a : l !! n = Some a -> alter f n l = <[n := f a]> l.
Proof. revert n. induction l as [|y l IH]; intros [|n] H; simplify_eq/=; [done|]. f_equal. by apply IH. Qed.

(** ** Views of the state *)

Definition no_packet : packet := {| pk_sta := -1; pk_hdr := 0; pk_buf := 0; pk_cb := (0, 0) |}.
(** the packet whose control header is at [h] *)
Definition pk (w : wifi) (h : Z) : packet :=
  match txhdrs w !! h with Some x => packet_of h x | None => no_packet end.
Lemma pk_at w h x : txhdrs w !! h = Some x -> pk w h = packet_of h x.
Proof. intros H. unfold pk. by rewrite H. Qed.
Definition sta_queue (s : bl_sta) : list Z := pending_list s ++ waiting_list s.
Definition queued (w : wifi) : list Z := concat (sta_queue <$> sta_table w).
Definition txdesc_hdr (t : txdesc_host) : Z := status_addr (host t) - offsetof_status.
Definition desc_hdr (w : wifi) (d : Z) : Z :=
  match txdesc0 (ipc w) !! Z.to_nat d with Some t => txdesc_hdr t | None => 0 end.
Definition busy (w : wifi) : list Z := list_ongoing (ipc w) ++ list_cfm (ipc w).
Definition in_desc (w : wifi) : list Z := desc_hdr w <$> busy w.
(** all packets the driver has: being prepared, queued, with the firmware or back
    from it *)
Definition live (prep : list (Z * Z)) (w : wifi) : list Z := (snd <$> prep) ++ queued w ++ in_desc w.

Definition callbacks (ds : list (packet * bool)) : list (Z * Z * bool) :=
  (fun kd => (pk_cb kd.1, kd.2)) <$> filter (fun kd : packet * bool => (pk_cb kd.1).1 <> NULL) ds.

(** the packets of station [i] given to the firmware for the first time *)
Definition first_pushes (i : Z) (ps : list (packet * Z)) : list packet :=
  fst <$> filter (fun kn : packet * Z => pk_sta kn.1 = i /\ kn.2 = 0) ps.

(** ** The memory of the packets *)

Definition pbuf_end (p : Z) (b : pbuf) : Z := p + SIZEOF_STRUCT_PBUF + size b.
(** what lwIP keeps: blocks do not overlap, a contiguous payload is in its block *)
Record pbuf_ok (p : Z) (b : pbuf) : Prop := {
  po_addr : 0 < p;
  po_size : 0 <= size b;
  po_end : pbuf_end p b < 2 ^ 32;
  po_len : 0 <= len b <= tot_len b;
  po_tot : tot_len b < 2 ^ 16;
  po_payload : contiguous b = true -> p + SIZEOF_STRUCT_PBUF <= payload b /\ payload b + len b <= pbuf_end p b }.
Definition mem_ok (m : gmap Z pbuf) : Prop :=
  (forall p b, m !! p = Some b -> pbuf_ok p b) /\
  (forall p q b c, m !! p = Some b -> m !! q = Some c -> p <> q -> pbuf_end p b <= q \/ pbuf_end q c <= p).

(** the header [x] at [h] is the one of the packet [b] *)
Record hdr_ok (h : Z) (x : bl_txhdr) (b : pbuf) : Prop := {
  ho_addr : h = txhdr_of b;
  ho_contig : contiguous b = true;
  ho_room : PBUF_LINK_ENCAPSULATION_HLEN <= len b;
  ho_chain : (length (next b) <= 3)%nat;
  ho_dest : exists d0, h_dest b !! 0%nat = Some d0;
  ho_sta : 0 <= sta_id x < NX_REMOTE_STA_STORE_MAX;
  ho_repush : 0 <= repush x <= 3 }.

Lemma align_pads_bound z : 0 <= RWNX_HWTXHDR_ALIGN_PADS z < 4.
Proof. unfold RWNX_HWTXHDR_ALIGN_PADS. exact (land_ones_bound 2 (4 - Z.land z 3) ltac:(lia)). Qed.

Lemma hdr_in_block p h x b : pbuf_ok p b -> hdr_ok h x b -> p + SIZEOF_STRUCT_PBUF <= h /\ h + 24 < pbuf_end p b.
Proof.
  intros Hp Hh. destruct (po_payload _ _ Hp (ho_contig _ _ _ Hh)) as [H1 H2]. rewrite (ho_addr _ _ _ Hh). unfold txhdr_of.
  pose proof (align_pads_bound (payload b)). pose proof (ho_room _ _ _ Hh). unfold PBUF_LINK_ENCAPSULATION_HLEN in *. lia.
Qed.

(** a packet that is somewhere else has another header *)
Lemma hdr_differs m p q b c h x :
  mem_ok m -> m !! p = Some b -> m !! q = Some c -> p <> q -> contiguous b = true -> hdr_ok h x c -> txhdr_of b <> h.
Proof.
  intros [Ho Hd] Hp Hq Hne Hb Hh. destruct (po_payload _ _ (Ho _ _ Hp) Hb) as [H1 H2].
  destruct (hdr_in_block _ _ _ _ (Ho _ _ Hq) Hh) as [H3 H4]. unfold txhdr_of.
  pose proof (align_pads_bound (payload b)). pose proof (po_len _ _ (Ho _ _ Hp)).
  pose proof (Hd _ _ _ _ Hp Hq Hne). pose proof (po_size _ _ (Ho _ _ Hq)). pose proof (po_size _ _ (Ho _ _ Hp)).
  unfold pbuf_end, SIZEOF_STRUCT_PBUF in *. lia.
Qed.

(** ** The invariant

    [prep] are the packets in calls of [bl_output] that are not queued yet, with
    their stations; [callers] counts the references held outside of the driver. *)
Record wf (prep : list (Z * Z)) (callers : Z -> Z) (w : wifi) : Prop := {
  wf_stas : length (sta_table w) = 7%nat;
  wf_vifs : length (vif_table w) = 2%nat;
  wf_sta_vif : forall n s, sta_table w !! n = Some s -> 0 <= vif_idx s < 2 /\ 0 <= sta_idx s < 7;
  wf_fixed : forall n v, vif_table w !! n = Some v -> 0 <= fixed_sta_idx v < 7;
  wf_descs : length (txdesc0 (ipc w)) = Z.to_nat CFG_TXDESC;
  wf_lists : list_free (ipc w) ++ busy w ≡ₚ seqZ 0 CFG_TXDESC;
  wf_mem : mem_ok (pbufs w);
  wf_nodup : NoDup (live prep w);
  wf_live : forall h, h ∈ live prep w ->
    exists x b, txhdrs w !! h = Some x /\ pbufs w !! hdr_p x = Some b /\ hdr_ok h x b;
  wf_prep : forall i h, (i, h) ∈ prep -> exists x, txhdrs w !! h = Some x /\ sta_id x = i /\ repush x = 0;
  wf_waiting : forall n s h, sta_table w !! n = Some s -> h ∈ waiting_list s ->
    exists x, txhdrs w !! h = Some x /\ sta_id x = Z.of_nat n /\ repush x = 0;
  wf_pending : forall n s h, sta_table w !! n = Some s -> h ∈ pending_list s ->
    exists x, txhdrs w !! h = Some x /\ sta_id x = Z.of_nat n /\ 1 <= repush x;
  wf_busy : forall d t, d ∈ busy w -> txdesc0 (ipc w) !! Z.to_nat d = Some t ->
    exists x, txhdrs w !! txdesc_hdr t = Some x /\ host_id t = hdr_p x;
  wf_refs : forall p b, pbufs w !! p = Some b ->
    ref b = callers p + cnt p (pk_buf ∘ pk w <$> live prep w) /\ 0 < ref b < 256;
  wf_conserved : outs (hist w) ≡ₚ (fst <$> dones (hist w)) ++ (pk w <$> queued w ++ in_desc w);
  wf_calls : calls (hist w) = callbacks (dones (hist w));
  wf_fifo : forall n s, sta_table w !! n = Some s ->
    filter (fun k => pk_sta k = Z.of_nat n) (outs (hist w))
    = first_pushes (Z.of_nat n) (pushes (hist w)) ++ (pk w <$> waiting_list s) }.

Lemma live_queued prep w n s h : sta_table w !! n = Some s -> h ∈ sta_queue s -> h ∈ live prep w.
Proof.
  intros Hn Hh. unfold live, queued. rewrite !elem_of_app, elem_of_join. right. left. eauto.
Qed.
Lemma live_busy prep w d : d ∈ busy w -> desc_hdr w d ∈ live prep w.
Proof. intros H. unfold live, in_desc. rewrite !elem_of_app. right. right. by apply list_elem_of_fmap_2. Qed.
Lemma live_prep prep w i h : (i, h) ∈ prep -> h ∈ live prep w.
Proof. intros H. unfold live. rewrite elem_of_app. left. apply list_elem_of_fmap. by exists (i, h). Qed.

(** the views depend on the headers only where they look *)
Lemma pk_map_ext w w' (l : list Z) :
  (forall h, h ∈ l -> pk w' h = pk w h) -> (pk w' <$> l) = (pk w <$> l).
Proof. intros H. apply list_fmap_ext. intros i h Hi. apply H. by eapply list_elem_of_lookup_2. Qed.
Lemma buf_map_ext w w' (l : list Z) :
  (forall h, h ∈ l -> pk w' h = pk w h) -> (pk_buf ∘ pk w' <$> l) = (pk_buf ∘ pk w <$> l).
Proof. intros H. rewrite !list_fmap_compose. by rewrite (pk_map_ext _ _ _ H). Qed.

(** *** Running the primitive operations *)
Lemma get_sta_done w i s : 0 <= i -> sta_table w !! Z.to_nat i = Some s -> get_sta w i = Done s.
Proof. apply aget_done. Qed.
Lemma get_vif_done w i v : 0 <= i -> vif_table w !! Z.to_nat i = Some v -> get_vif w i = Done v.
Proof. apply aget_done. Qed.
Lemma get_txhdr_done w h x : txhdrs w !! h = Some x -> get_txhdr w h = Done x.
Proof. intros H. unfold get_txhdr. by rewrite H. Qed.
Lemma get_pbuf_done w p b : pbufs w !! p = Some b -> get_pbuf w p = Done b.
Proof. intros H. unfold get_pbuf. by rewrite H. Qed.
Lemma upd_sta_done w i s f : 0 <= i -> sta_table w !! Z.to_nat i = Some s ->
  upd_sta i f w = Done (with_stas (<[Z.to_nat i := f s]> (sta_table w)) w).
Proof.
  intros Hi Hs. unfold upd_sta. rewrite (get_sta_done _ _ _ Hi Hs). cbn [mbind outcome_bind].
  rewrite aset_done; [done|]. apply lookup_lt_Some in Hs. lia.
Qed.
Lemma upd_vif_done w i v f : 0 <= i -> vif_table w !! Z.to_nat i = Some v ->
  upd_vif i f w = Done (with_vifs (<[Z.to_nat i := f v]> (vif_table w)) w).
Proof.
  intros Hi Hs. unfold upd_vif. rewrite (get_vif_done _ _ _ Hi Hs). cbn [mbind outcome_bind].
  rewrite aset_done; [done|]. apply lookup_lt_Some in Hs. lia.
Qed.
Lemma upd_txdesc_done w d t f : 0 <= d -> txdesc0 (ipc w) !! Z.to_nat d = Some t ->
  upd_txdesc d f w = Done (with_ipc {| txdesc0 := <[Z.to_nat d := f t]> (txdesc0 (ipc w)); list_free := list_free (ipc w);
    list_ongoing := list_ongoing (ipc w); list_cfm := list_cfm (ipc w) |} w).
Proof.
  intros Hi Hs. unfold upd_txdesc. rewrite (aget_done _ _ _ Hi Hs). cbn [mbind outcome_bind].
  rewrite aset_done; [done|]. apply lookup_lt_Some in Hs. lia.
Qed.

Lemma sta_at prep callers w i : wf prep callers w -> 0 <= i < 7 -> exists s, sta_table w !! Z.to_nat i = Some s.
Proof. intros H Hi. apply lookup_lt_is_Some. rewrite (wf_stas _ _ _ H). lia. Qed.
Lemma vif_at prep callers w i : wf prep callers w -> 0 <= i < 2 -> exists v, vif_table w !! Z.to_nat i = Some v.
Proof. intros H Hi. apply lookup_lt_is_Some. rewrite (wf_vifs _ _ _ H). lia. Qed.
Lemma desc_at prep callers w d : wf prep callers w -> d ∈ list_free (ipc w) ++ busy w ->
  0 <= d /\ exists t, txdesc0 (ipc w) !! Z.to_nat d = Some t.
Proof.
  intros H Hd. rewrite (wf_lists _ _ _ H), elem_of_seqZ in Hd. split; [lia|]. apply lookup_lt_is_Some.
  rewrite (wf_descs _ _ _ H). unfold CFG_TXDESC in *. lia.
Qed.

(** *** Changes of the tables only *)

(** the queues of the stations, the packets and their history stay *)
Record same_packets (w w' : wifi) : Prop := {
  sp_queues : Forall2 (fun s s' => waiting_list s = waiting_list s' /\ pending_list s = pending_list s')
                      (sta_table w) (sta_table w');
  sp_ipc : ipc w' = ipc w;
  sp_pbufs : pbufs w' = pbufs w;
  sp_txhdrs : txhdrs w' = txhdrs w;
  sp_outs : outs (hist w') = outs (hist w);
  sp_pushes : pushes (hist w') = pushes (hist w);
  sp_dones : dones (hist w') = dones (hist w);
  sp_calls : calls (hist w') = calls (hist w) }.
Record tables_ok (w : wifi) : Prop := {
  tk_stas : length (sta_table w) = 7%nat;
  tk_vifs : length (vif_table w) = 2%nat;
  tk_sta : forall n s, sta_table w !! n = Some s -> 0 <= vif_idx s < 2 /\ 0 <= sta_idx s < 7;
  tk_vif : forall n v, vif_table w !! n = Some v -> 0 <= fixed_sta_idx v < 7 }.

Lemma wf_tables prep callers w : wf prep callers w -> tables_ok w.
Proof. intros []. by split. Qed.

Lemma same_packets_queued w w' : same_packets w w' -> queued w' = queued w.
Proof.
  intros H. unfold queued. f_equal. symmetry. pose proof (sp_queues _ _ H) as Hq. induction Hq as [|s s' l l' [H1 H2] _ IH]; [done|].
  rewrite !fmap_cons. f_equal; [|done]. unfold sta_queue. by rewrite H1, H2.
Qed.
Lemma same_packets_sta w w' n s' : same_packets w w' -> sta_table w' !! n = Some s' ->
  exists s, sta_table w !! n = Some s /\ waiting_list s = waiting_list s' /\ pending_list s = pending_list s'.
Proof. intros H Hs. destruct (Forall2_lookup_r _ _ _ _ _ (sp_queues _ _ H) Hs) as (s & Hn & ? & ?). eauto. Qed.

Lemma wf_same prep callers w w' : same_packets w w' -> tables_ok w' -> wf prep callers w -> wf prep callers w'.
Proof.
  intros Hs Ht H. assert (Hpk : pk w' = pk w) by (unfold pk; by rewrite (sp_txhdrs _ _ Hs)).
  assert (Hd : in_desc w' = in_desc w) by (unfold in_desc, desc_hdr, busy; by rewrite (sp_ipc _ _ Hs)).
  assert (Hb : busy w' = busy w) by (unfold busy; by rewrite (sp_ipc _ _ Hs)).
  assert (Hl : live prep w' = live prep w) by (unfold live; by rewrite Hd, (same_packets_queued _ _ Hs)).
  split; try by apply Ht.
  - rewrite (sp_ipc _ _ Hs). apply (wf_descs _ _ _ H).
  - rewrite Hb, (sp_ipc _ _ Hs). apply (wf_lists _ _ _ H).
  - rewrite (sp_pbufs _ _ Hs). apply (wf_mem _ _ _ H).
  - rewrite Hl. apply (wf_nodup _ _ _ H).
  - rewrite Hl, (sp_pbufs _ _ Hs), (sp_txhdrs _ _ Hs). apply (wf_live _ _ _ H).
  - rewrite (sp_txhdrs _ _ Hs). apply (wf_prep _ _ _ H).
  - intros n s' h Hn Hh. destruct (same_packets_sta _ _ _ _ Hs Hn) as (s & Hn' & Hw & _). rewrite (sp_txhdrs _ _ Hs).
    apply (wf_waiting _ _ _ H n s); [done|by rewrite Hw].
  - intros n s' h Hn Hh. destruct (same_packets_sta _ _ _ _ Hs Hn) as (s & Hn' & _ & Hp). rewrite (sp_txhdrs _ _ Hs).
    apply (wf_pending _ _ _ H n s); [done|by rewrite Hp].
  - rewrite Hb, (sp_ipc _ _ Hs), (sp_txhdrs _ _ Hs). apply (wf_busy _ _ _ H).
  - rewrite Hl, Hpk, (sp_pbufs _ _ Hs). apply (wf_refs _ _ _ H).
  - rewrite (sp_outs _ _ Hs), (sp_dones _ _ Hs), (same_packets_queued _ _ Hs), Hd, Hpk. apply (wf_conserved _ _ _ H).
  - rewrite (sp_calls _ _ Hs), (sp_dones _ _ Hs). apply (wf_calls _ _ _ H).
  - intros n s' Hn. destruct (same_packets_sta _ _ _ _ Hs Hn) as (s & Hn' & Hw & _).
    rewrite (sp_outs _ _ Hs), (sp_pushes _ _ Hs), Hpk, <- Hw. by apply (wf_fifo _ _ _ H).
Qed.

(** ** Giving a packet to the firmware *)

(** the chain a descriptor describes: the frame behind the ethernet header and the
    chained pbufs, in four entries *)
Definition chain_of (b : pbuf) : list (Z * Z) :=
  (u32 (payload b + 62), u32 (len b - 62)) :: next b.
Definition pad4 (l : list Z) : list Z := l ++ repeat 0 (4 - length l).
(** the descriptor of the packet [h] for the station [s] of the interface [v] *)
Definition host_for (s : bl_sta) (v : bl_vif) (h : Z) (x : bl_txhdr) (b : pbuf) : hostdesc :=
  {| pbuf_addr := hdr_p x; packet_addr := 0x11111111; packet_len := u16 (hdr_len x - 62);
     status_addr := u32 (h + offsetof_status); eth_dest_addr := h_dest b; eth_src_addr := h_source b;
     ethertype := h_proto b; tid := if qos s =? 0 then 0xFF else 0; host_vif_idx := vif_fw_idx v;
     host_vif_type := vif_type x; staid := sta_idx s; flags := 0;
     pbuf_chained_ptr := pad4 (fst <$> chain_of b); pbuf_chained_len := pad4 (snd <$> chain_of b) |}.
Definition txdesc_for (s : bl_sta) (v : bl_vif) (h : Z) (x : bl_txhdr) (b : pbuf) : txdesc_host :=
  {| host_id := hdr_p x; ready := 0xFFFFFFFF; host := host_for s v h x b |}.

Definition after_push (d : Z) (t : txdesc_host) (k : packet) (n : Z) (w : wifi) : wifi :=
  log_event TxdescTrigger
    (with_ipc {| txdesc0 := <[Z.to_nat d := t]> (txdesc0 (ipc w)); list_free := tail (list_free (ipc w));
                 list_ongoing := list_ongoing (ipc w) ++ [d]; list_cfm := list_cfm (ipc w) |} (log_push k n w)).

Lemma fill_chain_done b : (length (next b) <= 3)%nat ->
  fill_chain (chain_of b) 0 (repeat 0 4) (repeat 0 4) = Done (pad4 (fst <$> chain_of b), pad4 (snd <$> chain_of b)).
Proof.
  unfold chain_of. intros H. destruct (next b) as [|[] [|[] [|[] [|]]]]; cbn in H; try lia; reflexivity.
Qed.

Lemma push_done s d h w x b v t free :
  txhdrs w !! h = Some x -> pbufs w !! hdr_p x = Some b -> (length (next b) <= 3)%nat ->
  0 <= vif_idx s -> vif_table w !! Z.to_nat (vif_idx s) = Some v ->
  list_free (ipc w) = d :: free -> 0 <= d -> txdesc0 (ipc w) !! Z.to_nat d = Some t ->
  bl_tx_push s d h w = Done (after_push d (txdesc_for s v h x b) (packet_of h x) (repush x) w).
Proof.
  intros Hx Hb Hc Hi Hv Hf Hd Ht. unfold bl_tx_push. step_with (get_txhdr_done _ _ _ Hx). step_with (get_pbuf_done _ _ _ Hb).
  step_with (get_vif_done _ _ _ Hi Hv). pose proof (fill_chain_done b Hc) as Hfill. unfold chain_of in Hfill at 1.
  unfold sizeof_ethhdr, PBUF_LINK_ENCAPSULATION_HLEN. change (14 + 48) with 62. step_with Hfill.
  rewrite (upd_txdesc_done _ _ _ _ Hd Ht). cbn [mbind outcome_bind].
  unfold ipc_host_txdesc_push, log_push at 1. cbn [ipc with_hist with_ipc list_free txdesc0 list_ongoing list_cfm]. rewrite Hf.
  assert (Hl : (Z.to_nat d < length (txdesc0 (ipc w)))%nat) by (by eapply lookup_lt_Some).
  erewrite upd_txdesc_done; [|done|cbn; by apply list_lookup_insert_eq].
  cbn [mbind outcome_bind]. unfold after_push, log_event, log_push, with_lists, with_ipc, with_hist. cbn. rewrite Hf.
  rewrite list_insert_insert_eq. reflexivity.
Qed.

(** *** The parts of the invariant that only depend on which packets are live *)
Record mem_wf (prep : list (Z * Z)) (callers : Z -> Z) (w : wifi) : Prop := {
  mw_mem : mem_ok (pbufs w);
  mw_nodup : NoDup (live prep w);
  mw_live : forall h, h ∈ live prep w ->
    exists x b, txhdrs w !! h = Some x /\ pbufs w !! hdr_p x = Some b /\ hdr_ok h x b;
  mw_refs : forall p b, pbufs w !! p = Some b ->
    ref b = callers p + cnt p (pk_buf ∘ pk w <$> live prep w) /\ 0 < ref b < 256 }.

Lemma wf_mem_wf prep callers w : wf prep callers w -> mem_wf prep callers w.
Proof. intros []. by split. Qed.

Lemma mem_wf_perm prep prep' callers w w' :
  txhdrs w' = txhdrs w -> pbufs w' = pbufs w -> live prep' w' ≡ₚ live prep w ->
  mem_wf prep callers w -> mem_wf prep' callers w'.
Proof.
  intros Hx Hb Hl [Hm Hn Hv Hr]. assert (Hpk : pk w' = pk w) by (unfold pk; by rewrite Hx). split.
  - by rewrite Hb.
  - by rewrite Hl.
  - intros h. rewrite Hl, Hx, Hb. apply Hv.
  - intros p b. rewrite Hb, Hpk. intros Hp. destruct (Hr p b Hp) as [H1 H2]. split; [|done]. rewrite H1. f_equal.
    apply cnt_perm. by rewrite Hl.
Qed.

Lemma live_nodup_sta prep w n s h : NoDup (live prep w) -> sta_table w !! n = Some s -> cnt h (sta_queue s) <= 1.
Proof.
  rewrite cnt_nodup. intros H Hn. specialize (H h). unfold live in H. rewrite !cnt_app in H.
  pose proof (cnt_join sta_queue (sta_table w) n s empty_sta h Hn) as Hj. fold (queued w) in Hj.
  pose proof (cnt_pos h (snd <$> prep)). pose proof (cnt_pos h (in_desc w)).
  pose proof (cnt_pos h (concat (sta_queue <$> <[n:=empty_sta]> (sta_table w)))). cbn in Hj. rewrite cnt_nil in Hj. lia.
Qed.

Lemma txdesc_hdr_for s v h x b p : pbuf_ok p b -> hdr_ok h x b -> txdesc_hdr (txdesc_for s v h x b) = h.
Proof.
  intros Hp Hh. destruct (hdr_in_block _ _ _ _ Hp Hh) as [H1 H2]. pose proof (po_end _ _ Hp). pose proof (po_addr _ _ Hp).
  unfold txdesc_hdr, u32, wrap, offsetof_status, SIZEOF_STRUCT_PBUF in *. cbn [txdesc_for host host_for status_addr].
  unfold u32, wrap, offsetof_status. rewrite Z.mod_small; lia.
Qed.

(** the station [n] gives up the first packet of one of its lists *)
Definition takes (s : bl_sta) (h : Z) (s' : bl_sta) : Prop :=
  (exists q, pending_list s = h :: q /\ s' = set_pending q s) \/ (exists q, waiting_list s = h :: q /\ s' = set_waiting q s).

Lemma takes_cnt s h s' z : takes s h s' -> cnt z (sta_queue s) = (if decide (h = z) then 1 else 0) + cnt z (sta_queue s').
Proof. intros [(q & Hq & ->)|(q & Hq & ->)]; unfold sta_queue; cbn; rewrite Hq, ?cnt_app, ?cnt_cons; lia. Qed.

Section Send.
Context (prep : list (Z * Z)) (callers : Z -> Z) (w : wifi) (n : nat) (s s' : bl_sta) (h d : Z) (free : list Z).
Hypotheses (Hwf : wf prep callers w) (Hs : sta_table w !! n = Some s) (Ht : takes s h s')
  (Hfree : list_free (ipc w) = d :: free).

Let w1 := with_stas (<[n := s']> (sta_table w)) w.

Lemma send_h_queued : h ∈ sta_queue s.
Proof using Ht.
  rewrite cnt_elem, (takes_cnt _ _ _ _ Ht), decide_True by done. pose proof (cnt_pos h (sta_queue s')). lia.
Qed.

Lemma send_owner : exists x b, txhdrs w !! h = Some x /\ pbufs w !! hdr_p x = Some b /\ hdr_ok h x b /\ sta_id x = Z.of_nat n
  /\ (repush x = 0 <-> exists q, waiting_list s = h :: q /\ s' = set_waiting q s).
Proof using Hs Ht Hwf.
  destruct (wf_live _ _ _ Hwf h (live_queued _ _ _ _ _ Hs send_h_queued)) as (x & b & Hx & Hb & Hk).
  exists x, b. do 3 (split; [done|]). destruct Ht as [(q & Hq & E)|(q & Hq & E)].
  - destruct (wf_pending _ _ _ Hwf n s h Hs) as (x' & Hx' & Hi & Hp); [rewrite Hq; left|]. simplify_eq. split; [done|].
    split; [lia|]. intros (q' & Hq' & E). exfalso. apply (f_equal (fun s => length (waiting_list s))) in E.
    cbn in E. rewrite Hq' in E. cbn in E. lia.
  - destruct (wf_waiting _ _ _ Hwf n s h Hs) as (x' & Hx' & Hi & Hp); [rewrite Hq; left|]. simplify_eq. split; [done|].
    split; [|done]. intros _. eauto.
Qed.

Lemma send_desc : 0 <= d /\ (exists t, txdesc0 (ipc w) !! Z.to_nat d = Some t) /\ d ∉ busy w.
Proof using Hfree Hwf.
  destruct (desc_at _ _ _ d Hwf) as [H1 H2]; [rewrite Hfree; left|]. split; [done|]. split; [done|].
  pose proof (NoDup_seqZ 0 CFG_TXDESC) as Hn. rewrite <- (wf_lists _ _ _ Hwf), Hfree in Hn.
  rewrite <- app_comm_cons, NoDup_cons, elem_of_app in Hn. tauto.
Qed.

Lemma send_done : exists x b v, txhdrs w !! h = Some x /\ pbufs w !! hdr_p x = Some b /\ hdr_ok h x b /\ sta_id x = Z.of_nat n
  /\ bl_tx_push s d h w1 = Done (after_push d (txdesc_for s v h x b) (packet_of h x) (repush x) w1).
Proof using Hfree Hs Ht Hwf.
  destruct send_owner as (x & b & Hx & Hb & Hk & Hi & _). destruct send_desc as (Hd & [t Htd] & _).
  destruct (wf_sta_vif _ _ _ Hwf n s Hs) as [Hv _]. destruct (vif_at _ _ _ _ Hwf Hv) as [v Hvif].
  exists x, b, v. do 4 (split; [done|]).
  exact (push_done s d h w1 x b v t free Hx Hb (ho_chain _ _ _ Hk) (proj1 Hv) Hvif Hfree Hd Htd).
Qed.
End Send.

Lemma first_pushes_app i ps qs : first_pushes i (ps ++ qs) = first_pushes i ps ++ first_pushes i qs.
Proof. unfold first_pushes. by rewrite filter_app, fmap_app. Qed.
Lemma first_pushes_one i k m : first_pushes i [(k, m)] = if decide (pk_sta k = i /\ m = 0) then [k] else [].
Proof. unfold first_pushes. rewrite filter_cons, filter_nil. cbn. by destruct (decide _). Qed.

(** descriptors other than [d] describe the packets they described *)
Lemma desc_hdr_insert w w' d e t : 0 <= d -> 0 <= e -> e <> d ->
  txdesc0 (ipc w') = <[Z.to_nat d := t]> (txdesc0 (ipc w)) -> desc_hdr w' e = desc_hdr w e.
Proof. intros Hd He Hne E. unfold desc_hdr. rewrite E, list_lookup_insert_ne by lia. done. Qed.
Lemma busy_nonneg prep callers w e : wf prep callers w -> e ∈ busy w -> 0 <= e.
Proof. intros H He. apply (desc_at _ _ _ e H). rewrite elem_of_app. by right. Qed.

Section SendWf.
Context (prep : list (Z * Z)) (callers : Z -> Z) (w : wifi) (n : nat) (s s' : bl_sta) (h d : Z) (free : list Z)
  (x : bl_txhdr) (b : pbuf) (t : txdesc_host).
Hypotheses (Hwf : wf prep callers w) (Hs : sta_table w !! n = Some s) (Ht : takes s h s')
  (Hfree : list_free (ipc w) = d :: free) (Hx : txhdrs w !! h = Some x) (Hi : sta_id x = Z.of_nat n)
  (Hhdr : txdesc_hdr t = h) (Hid : host_id t = hdr_p x).

Let w' := after_push d t (packet_of h x) (repush x) (with_stas (<[n := s']> (sta_table w)) w).

Lemma send_in_desc : in_desc w' ≡ₚ h :: in_desc w.
Proof using All.
  destruct (send_desc _ _ _ _ _ Hwf Hfree) as (Hd & [t0 Htd] & Hnb). unfold in_desc at 1, busy. cbn.
  assert (Hsame : forall l, l ⊆ busy w -> (desc_hdr w' <$> l) = (desc_hdr w <$> l)).
  { intros l Hl. apply list_fmap_ext. intros i e He%list_elem_of_lookup_2. pose proof (busy_nonneg _ _ _ e Hwf (Hl _ He)).
    apply (desc_hdr_insert w w' d e t); [done|done|set_solver|done]. }
  assert (Hdd : desc_hdr w' d = h).
  { unfold desc_hdr. cbn. rewrite list_lookup_insert_eq by (by eapply lookup_lt_Some). done. }
  rewrite !fmap_app, (Hsame (list_ongoing (ipc w))), (Hsame (list_cfm (ipc w))) by (unfold busy; set_solver).
  unfold in_desc, busy. rewrite fmap_app. cbn. rewrite Hdd. apply cnt_perm. intros z. rewrite !cnt_app, !cnt_cons, !cnt_app, cnt_nil. lia.
Qed.

Lemma send_queued z : cnt z (queued w') = cnt z (queued w) - (if decide (h = z) then 1 else 0).
Proof using All.
  unfold queued at 1. cbn. rewrite (cnt_join _ _ _ _ _ _ Hs), (takes_cnt _ _ _ z Ht). unfold queued. lia.
Qed.

Lemma send_live : live prep w' ≡ₚ live prep w.
Proof using All.
  apply cnt_perm. intros z. unfold live. rewrite !cnt_app, send_queued.
  rewrite (proj1 (cnt_perm _ _) send_in_desc z), cnt_cons. lia.
Qed.

Lemma send_sta m r : sta_table w' !! m = Some r -> exists r0, sta_table w !! m = Some r0 /\ vif_idx r = vif_idx r0 /\
  sta_idx r = sta_idx r0 /\ (forall z, z ∈ pending_list r -> z ∈ pending_list r0) /\ (forall z, z ∈ waiting_list r -> z ∈ waiting_list r0)
  /\ (m <> n -> waiting_list r = waiting_list r0).
Proof using All.
  cbn. intros Hm. apply list_lookup_insert_Some in Hm as [(-> & <- & _)|(Hne & Hm)]; [|eauto 10].
  exists s. split; [done|]. destruct Ht as [(q & Hq & ->)|(q & Hq & ->)]; cbn; rewrite Hq; set_solver.
Qed.

Lemma send_fifo m r : repush x = 0 <-> (exists q, waiting_list s = h :: q /\ s' = set_waiting q s) -> sta_table w' !! m = Some r ->
  filter (fun k => pk_sta k = Z.of_nat m) (outs (hist w'))
  = first_pushes (Z.of_nat m) (pushes (hist w')) ++ (pk w' <$> waiting_list r).
Proof using All.
  intros Hr Hm. cbn -[first_pushes filter]. change (pk w') with (pk w).
  rewrite first_pushes_app, first_pushes_one. cbn [pk_sta packet_of]. rewrite Hi.
  apply list_lookup_insert_Some in Hm as [(-> & <- & _)|(Hne & Hm)].
  - rewrite (wf_fifo _ _ _ Hwf m s Hs), <- app_assoc. f_equal. case_decide as Hd.
    + destruct (proj1 Hr (proj2 Hd)) as (q & Hq & ->). rewrite Hq. cbn. unfold pk at 1. by rewrite Hx.
    + destruct Ht as [(q & Hq & ->)|(q & Hq & ->)]; [done|]. destruct Hd. split; [done|]. apply Hr. eauto.
  - rewrite (wf_fifo _ _ _ Hwf m r Hm), decide_False by lia. by rewrite app_nil_r.
Qed.

Lemma wf_send : repush x = 0 <-> (exists q, waiting_list s = h :: q /\ s' = set_waiting q s) -> wf prep callers w'.
Proof using All.
  intros Hr. destruct (mem_wf_perm prep prep callers w w' eq_refl eq_refl send_live (wf_mem_wf _ _ _ Hwf)) as [M1 M2 M3 M4].
  destruct (send_desc _ _ _ _ _ Hwf Hfree) as (Hd & [t0 Htd] & Hnb).
  split; try done.
  - cbn. rewrite length_insert. apply (wf_stas _ _ _ Hwf).
  - apply (wf_vifs _ _ _ Hwf).
  - intros m r Hm. destruct (send_sta m r Hm) as (r0 & Hr0 & -> & -> & _). by apply (wf_sta_vif _ _ _ Hwf m).
  - apply (wf_fixed _ _ _ Hwf).
  - cbn. rewrite length_insert. apply (wf_descs _ _ _ Hwf).
  - rewrite <- (wf_lists _ _ _ Hwf). unfold busy. cbn. rewrite Hfree. apply cnt_perm. intros z. cbn.
    rewrite !cnt_app, !cnt_cons, !cnt_app, cnt_nil. lia.
  - apply (wf_prep _ _ _ Hwf).
  - intros m r z Hm Hz. destruct (send_sta m r Hm) as (r0 & Hr0 & _ & _ & _ & Hw & _). eapply (wf_waiting _ _ _ Hwf); eauto.
  - intros m r z Hm Hz. destruct (send_sta m r Hm) as (r0 & Hr0 & _ & _ & Hw & _). eapply (wf_pending _ _ _ Hwf); eauto.
  - intros e t' He. unfold busy in He. cbn in He |- *. destruct (decide (e = d)) as [->|Hne].
    + rewrite list_lookup_insert_eq by (by eapply lookup_lt_Some). intros [= <-]. exists x. by rewrite Hhdr.
    + assert (Hb : e ∈ busy w) by (unfold busy; set_solver). pose proof (busy_nonneg _ _ _ e Hwf Hb).
      rewrite list_lookup_insert_ne by lia. by apply (wf_busy _ _ _ Hwf).
  - cbn -[fmap]. rewrite (wf_conserved _ _ _ Hwf). change (pk w') with (pk w). apply Permutation_app_head.
    apply (fmap_Permutation (pk w)). apply cnt_perm. intros z. rewrite !cnt_app, send_queued.
    rewrite (proj1 (cnt_perm _ _) send_in_desc z), cnt_cons. lia.
  - apply (wf_calls _ _ _ Hwf).
  - intros m r Hm. by apply send_fifo.
Qed.
End SendWf.

(** ** Memory changes *)

Lemma mem_ok_update m p b b' :
  mem_ok m -> m !! p = Some b -> pbuf_ok p b' -> size b' = size b -> mem_ok (<[p := b']> m).
Proof.
  intros [Ho Hd] Hp Hb' Hs. split.
  - intros q c. rewrite lookup_insert_Some. intros [[<- <-]|[_ Hq]]; [done|by apply Ho].
  - intros q1 q2 c1 c2. rewrite !lookup_insert_Some. unfold pbuf_end.
    intros [[<- <-]|[N1 H1]] [[<- <-]|[N2 H2]] Hne; try done; rewrite ?Hs.
    + exact (Hd p q2 b c2 Hp H2 Hne).
    + exact (Hd q1 p c1 b H1 Hp Hne).
    + exact (Hd q1 q2 c1 c2 H1 H2 Hne).
Qed.
Lemma mem_ok_delete m p : mem_ok m -> mem_ok (delete p m).
Proof.
  intros [Ho Hd]. split.
  - intros q c. rewrite lookup_delete_Some. intros [_ H]. by apply Ho.
  - intros q1 q2 c1 c2. rewrite !lookup_delete_Some. intros [_ H1] [_ H2]. by apply Hd.
Qed.
Lemma pbuf_ok_ref p b r : pbuf_ok p b -> pbuf_ok p (set_ref r b).
Proof. intros []. by split. Qed.
Lemma hdr_ok_ref h x b r : hdr_ok h x b -> hdr_ok h x (set_ref r b).
Proof. intros []. by split. Qed.

Lemma pk_insert_same w h x y : txhdrs w !! h = Some x -> packet_of h y = packet_of h x ->
  forall g, (match <[h := y]> (txhdrs w) !! g with Some z => packet_of g z | None => no_packet end) = pk w g.
Proof.
  intros Hx E g. unfold pk. destruct (decide (g = h)) as [->|Hne].
  - by rewrite lookup_insert_eq, Hx.
  - by rewrite lookup_insert_ne by done.
Qed.

(** ** Confirmations *)

(** the descriptor [d] has been taken from the confirmed ones and is free again *)
Definition free_desc (d : Z) (w : wifi) : ipc_shared :=
  {| txdesc0 := alter (fun t => {| host_id := NULL; ready := ready t; host := host t |}) (Z.to_nat d) (txdesc0 (ipc w));
     list_free := list_free (ipc w) ++ [d]; list_ongoing := list_ongoing (ipc w); list_cfm := tail (list_cfm (ipc w)) |}.

(** the packet [h] of station [n] goes to its pending list *)
Definition after_repush (d h : Z) (x : bl_txhdr) (n : nat) (w : wifi) : wifi :=
  with_ipc (free_desc d w)
    (put_txhdr h (set_repush (repush x + 1) x)
       (with_stas (alter (fun s => set_pending (pending_list s ++ [h]) s) n (sta_table w)) w)).

(** the memory when one reference to [p] is dropped *)
Definition drop_ref (p : Z) (b : pbuf) (w : wifi) : wifi :=
  if ref b - 1 =? 0 then with_mem (delete p (pbufs w)) (if contiguous b then delete (txhdr_of b) (txhdrs w) else txhdrs w) w
  else put_pbuf p (set_ref (ref b - 1) b) w.

Definition after_release (d p h : Z) (x : bl_txhdr) (b : pbuf) (ok : bool) (w : wifi) : wifi :=
  let w := drop_ref p b (with_ipc (free_desc d w) (log_done (packet_of h x) ok w)) in
  if (custom_cfm x).1 =? NULL then w else log_callback (custom_cfm x).1 (custom_cfm x).2 ok w.

Section Confirm.
Context (prep : list (Z * Z)) (callers : Z -> Z) (w : wifi) (d : Z) (cfm : list Z).
Hypotheses (Hwf : wf prep callers w) (Hcfm : list_cfm (ipc w) = d :: cfm).

Lemma cfm_desc : exists t x b, 0 <= d /\ txdesc0 (ipc w) !! Z.to_nat d = Some t /\ txhdrs w !! txdesc_hdr t = Some x
  /\ host_id t = hdr_p x /\ pbufs w !! hdr_p x = Some b /\ hdr_ok (txdesc_hdr t) x b /\ desc_hdr w d = txdesc_hdr t.
Proof using All.
  assert (Hd : d ∈ busy w) by (unfold busy; rewrite Hcfm, elem_of_app; right; left).
  destruct (desc_at _ _ _ d Hwf) as [H0 [t Ht]]; [rewrite elem_of_app; by right|].
  assert (E : desc_hdr w d = txdesc_hdr t) by (unfold desc_hdr; by rewrite Ht).
  destruct (wf_busy _ _ _ Hwf d t Hd Ht) as (x & Hx & Hid).
  destruct (wf_live _ _ _ Hwf (txdesc_hdr t)) as (x' & b & Hx' & Hb & Hk); [rewrite <- E; by apply live_busy|].
  simplify_eq. eauto 10.
Qed.

Lemma cfm_nodup : d ∉ list_ongoing (ipc w) ++ cfm /\ NoDup (list_ongoing (ipc w) ++ cfm).
Proof using All.
  pose proof (NoDup_seqZ 0 CFG_TXDESC) as Hn. rewrite <- (wf_lists _ _ _ Hwf) in Hn. apply NoDup_app in Hn as (_ & _ & Hn).
  unfold busy in Hn. rewrite Hcfm in Hn. rewrite cnt_not_elem, cnt_nodup in *. pose proof (Hn d) as H1.
  split; [|intros z; specialize (Hn z)]; rewrite cnt_app, cnt_cons in *.
  - rewrite decide_True in H1 by done. pose proof (cnt_pos d (list_ongoing (ipc w))). pose proof (cnt_pos d cfm). lia.
  - destruct (decide (d = z)); lia.
Qed.

(** without the confirmed descriptor *)
Lemma cfm_in_desc w' : ipc w' = free_desc d w -> in_desc w ≡ₚ desc_hdr w d :: in_desc w'.
Proof using All.
  intros E. assert (Hb : busy w' = list_ongoing (ipc w) ++ cfm) by (unfold busy; rewrite E; cbn; by rewrite Hcfm).
  unfold in_desc. rewrite Hb. unfold busy. rewrite Hcfm.
  assert (Hsame : (desc_hdr w' <$> list_ongoing (ipc w) ++ cfm) = (desc_hdr w <$> list_ongoing (ipc w) ++ cfm)).
  { apply list_fmap_ext. intros i e He%list_elem_of_lookup_2.
    destruct cfm_nodup as [Hnd _]. assert (Hbe : e ∈ busy w) by (unfold busy; rewrite Hcfm; set_solver).
    pose proof (busy_nonneg _ _ _ e Hwf Hbe). assert (Hbd : d ∈ busy w) by (unfold busy; rewrite Hcfm; set_solver).
    pose proof (busy_nonneg _ _ _ d Hwf Hbd).
    unfold desc_hdr. rewrite E. cbn. rewrite list_lookup_alter_ne; [done|]. intros ?. assert (e = d) by lia. congruence. }
  rewrite Hsame, !fmap_app, fmap_cons. by rewrite Permutation_middle.
Qed.

Lemma cfm_lists w' : ipc w' = free_desc d w ->
  list_free (ipc w') ++ busy w' ≡ₚ seqZ 0 CFG_TXDESC /\ length (txdesc0 (ipc w')) = Z.to_nat CFG_TXDESC.
Proof using All.
  intros E. rewrite <- (wf_lists _ _ _ Hwf). unfold busy. rewrite E. cbn [free_desc list_free list_ongoing list_cfm txdesc0].
  rewrite length_alter, Hcfm. split; [|apply (wf_descs _ _ _ Hwf)]. apply cnt_perm. intros z. cbn [tail].
  rewrite !cnt_app, !cnt_cons, cnt_nil. lia.
Qed.

Lemma cfm_busy w' e t : ipc w' = free_desc d w -> e ∈ busy w' -> txdesc0 (ipc w') !! Z.to_nat e = Some t ->
  e ∈ busy w /\ txdesc0 (ipc w) !! Z.to_nat e = Some t /\ e <> d.
Proof using All.
  intros E He Ht. unfold busy in He. rewrite E in He, Ht. cbn in He, Ht. rewrite Hcfm in He. cbn in He.
  destruct cfm_nodup as [Hnd _]. assert (Hne : e <> d) by congruence.
  assert (Hbe : e ∈ busy w) by (unfold busy; rewrite Hcfm; set_solver). split; [done|].
  pose proof (busy_nonneg _ _ _ e Hwf Hbe). assert (Hbd : d ∈ busy w) by (unfold busy; rewrite Hcfm; set_solver).
  pose proof (busy_nonneg _ _ _ d Hwf Hbd). rewrite list_lookup_alter_ne in Ht; [done|lia].
Qed.
End Confirm.

Section Repush.
Context (prep : list (Z * Z)) (callers : Z -> Z) (w : wifi) (d : Z) (cfm : list Z) (h : Z) (x : bl_txhdr) (n : nat)
  (s : bl_sta).
Hypotheses (Hwf : wf prep callers w) (Hcfm : list_cfm (ipc w) = d :: cfm) (Hh : desc_hdr w d = h)
  (Hx : txhdrs w !! h = Some x) (Hn : sta_id x = Z.of_nat n) (Hs : sta_table w !! n = Some s) (Hr : repush x < 3).

Let w' := after_repush d h x n w.

Lemma repush_pk g : pk w' g = pk w g.
Proof using All. exact (pk_insert_same w h x (set_repush (repush x + 1) x) Hx eq_refl g). Qed.

Lemma repush_queued z : cnt z (queued w') = cnt z (queued w) + (if decide (h = z) then 1 else 0).
Proof using All.
  unfold queued at 1. cbn. rewrite (alter_as_insert _ _ _ _ Hs), (cnt_join _ _ _ _ _ _ Hs). fold (queued w).
  unfold sta_queue. cbn. rewrite !cnt_app, cnt_cons, cnt_nil. lia.
Qed.

Lemma repush_live : live prep w' ≡ₚ live prep w.
Proof using All.
  apply cnt_perm. intros z. unfold live. rewrite !cnt_app, repush_queued.
  rewrite (proj1 (cnt_perm _ _) (cfm_in_desc _ _ _ _ _ Hwf Hcfm w' eq_refl) z), cnt_cons, Hh. lia.
Qed.

Lemma repush_not_queued : (h ∉ snd <$> prep) /\ (h ∉ queued w).
Proof using All.
  pose proof (wf_nodup _ _ _ Hwf) as Hnd. rewrite cnt_nodup in Hnd. specialize (Hnd h). unfold live in Hnd.
  rewrite !cnt_app, (proj1 (cnt_perm _ _) (cfm_in_desc _ _ _ _ _ Hwf Hcfm w' eq_refl) h), cnt_cons, decide_True in Hnd by done.
  rewrite !cnt_not_elem. pose proof (cnt_pos h (snd <$> prep)). pose proof (cnt_pos h (queued w)). pose proof (cnt_pos h (in_desc w')).
  lia.
Qed.

Lemma repush_hdr g y : g <> h -> txhdrs w !! g = Some y -> txhdrs w' !! g = Some y.
Proof using. intros Hne Hy. cbn. by rewrite lookup_insert_ne. Qed.

Lemma repush_sta m r : sta_table w' !! m = Some r -> exists r0, sta_table w !! m = Some r0 /\ vif_idx r = vif_idx r0 /\
  sta_idx r = sta_idx r0 /\ waiting_list r = waiting_list r0
  /\ pending_list r = pending_list r0 ++ (if decide (m = n) then [h] else []).
Proof using All.
  cbn. rewrite (alter_as_insert _ _ _ _ Hs). intros Hm.
  apply list_lookup_insert_Some in Hm as [(-> & <- & _)|(Hne & Hm)].
  - exists s. by rewrite decide_True.
  - exists r. rewrite decide_False by done. by rewrite app_nil_r.
Qed.

Lemma wf_repush : wf prep callers w'.
Proof using All.
  destruct repush_not_queued as [Hp Hq]. pose proof repush_live as Hl.
  assert (Hpk : forall l : list Z, (pk w' <$> l) = (pk w <$> l)) by (intros l; apply pk_map_ext; intros; apply repush_pk).
  destruct (cfm_lists _ _ _ _ _ Hwf Hcfm w' eq_refl) as [Hlists Hlen].
  split; try done.
  - cbn. rewrite length_alter. apply (wf_stas _ _ _ Hwf).
  - apply (wf_vifs _ _ _ Hwf).
  - intros m r Hm. destruct (repush_sta m r Hm) as (r0 & Hr0 & -> & -> & _). by apply (wf_sta_vif _ _ _ Hwf m).
  - apply (wf_fixed _ _ _ Hwf).
  - apply (wf_mem _ _ _ Hwf).
  - rewrite Hl. apply (wf_nodup _ _ _ Hwf).
  - intros g. rewrite Hl. intros Hg. destruct (wf_live _ _ _ Hwf g Hg) as (y & b & Hy & Hb & Hk).
    destruct (decide (g = h)) as [->|Hne]; [|by exists y, b; split; [apply repush_hdr|]].
    simplify_eq. exists (set_repush (repush x + 1) x), b. cbn. rewrite lookup_insert_eq. split; [done|]. split; [done|].
    destruct Hk. split; try done. cbn. lia.
  - intros i g Hg. destruct (wf_prep _ _ _ Hwf i g Hg) as (y & Hy & ?). exists y. split; [|done]. apply repush_hdr; [|done].
    intros ->. apply Hp. apply list_elem_of_fmap. by exists (i, h).
  - intros m r g Hm Hg. destruct (repush_sta m r Hm) as (r0 & Hr0 & _ & _ & Hw & _). rewrite Hw in Hg.
    destruct (wf_waiting _ _ _ Hwf m r0 g Hr0 Hg) as (y & Hy & ?). exists y. split; [|done]. apply repush_hdr; [|done].
    intros ->. apply Hq, elem_of_join. exists m, r0. split; [done|]. unfold sta_queue. rewrite elem_of_app. by right.
  - intros m r g Hm Hg. destruct (repush_sta m r Hm) as (r0 & Hr0 & _ & _ & _ & Hpd). rewrite Hpd, elem_of_app in Hg.
    destruct Hg as [Hg|Hg].
    + destruct (wf_pending _ _ _ Hwf m r0 g Hr0 Hg) as (y & Hy & ?). exists y. split; [|done]. apply repush_hdr; [|done].
      intros ->. apply Hq, elem_of_join. exists m, r0. split; [done|]. unfold sta_queue. rewrite elem_of_app. by left.
    + case_decide as Hmn; [|by apply elem_of_nil in Hg]. apply list_elem_of_singleton in Hg as ->. subst m.
      exists (set_repush (repush x + 1) x). cbn. rewrite lookup_insert_eq. split; [done|]. split; [done|].
      destruct (wf_live _ _ _ Hwf h) as (y & b & Hy & _ & Hk);
        [rewrite <- Hh; apply live_busy; unfold busy; rewrite Hcfm, elem_of_app; right; left|].
      simplify_eq. pose proof (ho_repush _ _ _ Hk). lia.
  - intros e t He Ht. destruct (cfm_busy _ _ _ _ _ Hwf Hcfm w' e t eq_refl He Ht) as (He' & Ht' & Hne).
    destruct (wf_busy _ _ _ Hwf e t He' Ht') as (y & Hy & Hid).
    destruct (decide (txdesc_hdr t = h)) as [E|E]; [|exists y; split; [by apply repush_hdr|done]].
    exists (set_repush (repush x + 1) x). cbn. rewrite E, lookup_insert_eq. split; [done|]. cbn. congruence.
  - intros p b Hb. destruct (wf_refs _ _ _ Hwf p b Hb) as [H1 H2]. split; [|done]. rewrite H1. f_equal.
    rewrite (buf_map_ext w w') by (intros; apply repush_pk). apply cnt_perm. by rewrite Hl.
  - cbn [after_repush with_ipc put_txhdr with_mem with_stas hist w']. rewrite (wf_conserved _ _ _ Hwf), Hpk.
    apply Permutation_app_head, fmap_Permutation, cnt_perm. intros z. rewrite !cnt_app, repush_queued.
    rewrite (proj1 (cnt_perm _ _) (cfm_in_desc _ _ _ _ _ Hwf Hcfm w' eq_refl) z), cnt_cons, Hh. lia.
  - apply (wf_calls _ _ _ Hwf).
  - intros m r Hm. destruct (repush_sta m r Hm) as (r0 & Hr0 & _ & _ & Hw & _).
    cbn -[first_pushes filter fmap]. fold w'. rewrite Hw, Hpk. by apply (wf_fifo _ _ _ Hwf).
Qed.
End Repush.

Section Release.
Context (prep : list (Z * Z)) (callers : Z -> Z) (w : wifi) (d : Z) (cfm : list Z) (h : Z) (x : bl_txhdr) (b : pbuf)
  (ok : bool).
Hypotheses (Hwf : wf prep callers w) (Hcfm : list_cfm (ipc w) = d :: cfm) (Hh : desc_hdr w d = h)
  (Hx : txhdrs w !! h = Some x) (Hb : pbufs w !! hdr_p x = Some b) (Hk : hdr_ok h x b).

Let w' := after_release d (hdr_p x) h x b ok w.

Lemma release_tables : sta_table w' = sta_table w /\ vif_table w' = vif_table w /\ ipc w' = free_desc d w
  /\ outs (hist w') = outs (hist w) /\ pushes (hist w') = pushes (hist w)
  /\ dones (hist w') = dones (hist w) ++ [(packet_of h x, ok)]
  /\ calls (hist w') = calls (hist w) ++ callbacks [(packet_of h x, ok)].
Proof using.
  assert (Hc : callbacks [(packet_of h x, ok)] = if (custom_cfm x).1 =? NULL then [] else [(custom_cfm x, ok)]).
  { unfold callbacks. rewrite filter_cons, filter_nil. cbn. by case_decide; destruct (Z.eqb_spec (custom_cfm x).1 NULL). }
  rewrite Hc. unfold w', after_release, drop_ref. destruct (custom_cfm x) as [cb arg]. cbn [fst snd].
  destruct (cb =? NULL), (ref b - 1 =? 0); cbn; by rewrite ?app_nil_r.
Qed.

Lemma release_mem : txhdrs w' = (if ref b - 1 =? 0 then delete h (txhdrs w) else txhdrs w)
  /\ pbufs w' = (if ref b - 1 =? 0 then delete (hdr_p x) (pbufs w) else <[hdr_p x := set_ref (ref b - 1) b]> (pbufs w)).
Proof using Hk.
  unfold w', after_release, drop_ref. rewrite (ho_contig _ _ _ Hk), <- (ho_addr _ _ _ Hk).
  destruct (ref b - 1 =? 0), ((custom_cfm x).1 =? NULL); done.
Qed.

Lemma release_live : live prep w ≡ₚ h :: live prep w'.
Proof using All.
  destruct release_tables as (Hst & _ & Hi & _). unfold live. unfold queued. rewrite Hst. fold (queued w).
  rewrite (cfm_in_desc _ _ _ _ _ Hwf Hcfm w' Hi), Hh. apply cnt_perm. intros z. rewrite !cnt_app, !cnt_cons, !cnt_app. lia.
Qed.

Lemma release_other : (h ∉ live prep w') /\ NoDup (live prep w') /\ (forall g, g ∈ live prep w' -> g ∈ live prep w /\ g <> h).
Proof using All.
  pose proof (wf_nodup _ _ _ Hwf) as Hn. rewrite release_live, NoDup_cons in Hn. destruct Hn as [H1 H2].
  split; [done|]. split; [done|]. intros g Hg. split; [rewrite release_live; by right|congruence].
Qed.

Lemma release_hdr g y : g <> h -> txhdrs w !! g = Some y -> txhdrs w' !! g = Some y.
Proof using Hk. intros Hne Hy. rewrite (proj1 release_mem). destruct (_ =? _); [by rewrite lookup_delete_ne|done]. Qed.
Lemma release_pk g : g <> h -> pk w' g = pk w g.
Proof using Hk.
  intros Hne. unfold pk. rewrite (proj1 release_mem). destruct (_ =? _); [by rewrite lookup_delete_ne|done].
Qed.
Lemma release_pk_map (l : list Z) : (forall g, g ∈ l -> g ∈ live prep w') -> (pk w' <$> l) = (pk w <$> l).
Proof using All. intros Hl. apply pk_map_ext. intros g Hg. apply release_pk. by apply release_other, Hl. Qed.

(** the packets that stay live are those of other buffers *)
Lemma release_buf g y : g ∈ live prep w' -> txhdrs w !! g = Some y -> hdr_p y <> hdr_p x.
Proof using All.
  intros Hg Hy E. destruct release_other as (_ & _ & Ho). destruct (Ho g Hg) as [Hg' Hne].
  destruct (wf_live _ _ _ Hwf g Hg') as (y' & b' & Hy' & Hb' & Hk'). simplify_eq. rewrite E in Hb'. simplify_eq.
  destruct Hk, Hk'. congruence.
Qed.

Lemma release_pbuf p c : p <> hdr_p x -> pbufs w !! p = Some c -> pbufs w' !! p = Some c.
Proof using Hk.
  intros Hne Hc. rewrite (proj2 release_mem). destruct (_ =? _); [by rewrite lookup_delete_ne|by rewrite lookup_insert_ne].
Qed.

Lemma release_refs p c : pbufs w' !! p = Some c ->
  ref c = callers p + cnt p (pk_buf ∘ pk w' <$> live prep w') /\ 0 < ref c < 256.
Proof using All.
  intros Hc. rewrite list_fmap_compose, (release_pk_map (live prep w')) by done. rewrite <- list_fmap_compose.
  assert (Hcnt : forall q, cnt q (pk_buf ∘ pk w <$> live prep w)
                 = (if decide (hdr_p x = q) then 1 else 0) + cnt q (pk_buf ∘ pk w <$> live prep w')).
  { intros q. rewrite (proj1 (cnt_perm _ _) (fmap_Permutation (pk_buf ∘ pk w) _ _ release_live) q), fmap_cons.
    replace ((pk_buf ∘ pk w) h) with (hdr_p x) by (unfold compose; by rewrite (pk_at _ _ _ Hx)). apply cnt_cons. }
  rewrite (proj2 release_mem) in Hc. destruct (Z.eqb_spec (ref b - 1) 0) as [E|E].
  - apply lookup_delete_Some in Hc as [Hne Hc]. destruct (wf_refs _ _ _ Hwf p c Hc) as [H1 H2].
    rewrite Hcnt, decide_False in H1 by done. lia.
  - apply lookup_insert_Some in Hc as [[<- <-]|[Hne Hc]].
    + destruct (wf_refs _ _ _ Hwf (hdr_p x) b Hb) as [H1 H2]. rewrite Hcnt, decide_True in H1 by done. cbn. lia.
    + destruct (wf_refs _ _ _ Hwf p c Hc) as [H1 H2]. rewrite Hcnt, decide_False in H1 by done. lia.
Qed.

Lemma callbacks_app ds es : callbacks (ds ++ es) = callbacks ds ++ callbacks es.
Proof using. unfold callbacks. by rewrite filter_app, fmap_app. Qed.

Lemma wf_release : wf prep callers w'.
Proof using All.
  destruct release_tables as (Hst & Hvt & Hi & Ho & Hp & Hd & Hc). destruct release_other as (Hnh & Hnd & Hoth).
  destruct (cfm_lists _ _ _ _ _ Hwf Hcfm w' Hi) as [Hlists Hlen].
  split; rewrite ?Hst, ?Hvt, ?Ho, ?Hp, ?Hd, ?Hc; try apply Hwf; try done.
  - destruct (wf_mem _ _ _ Hwf) as [M1 M2]. rewrite (proj2 release_mem). destruct (_ =? _); [by apply mem_ok_delete|].
    apply (mem_ok_update _ _ b); [done|done|by apply pbuf_ok_ref, M1|done].
  - intros g Hg. destruct (Hoth g Hg) as [Hg' Hne]. destruct (wf_live _ _ _ Hwf g Hg') as (y & c & Hy & Hcc & Hkk).
    exists y, c. split; [by apply release_hdr|]. split; [|done]. apply release_pbuf; [by eapply release_buf|done].
  - intros i g Hg. destruct (wf_prep _ _ _ Hwf i g Hg) as (y & Hy & ?). exists y. split; [|done]. apply release_hdr; [|done].
    apply Hoth. by apply (live_prep prep _ i).
  - intros m r g Hm Hg. destruct (wf_waiting _ _ _ Hwf m r g Hm Hg) as (y & Hy & ?). exists y. split; [|done].
    apply release_hdr; [|done]. apply Hoth, (live_queued _ _ m r); [by rewrite Hst|]. unfold sta_queue. rewrite elem_of_app. by right.
  - intros m r g Hm Hg. destruct (wf_pending _ _ _ Hwf m r g Hm Hg) as (y & Hy & ?). exists y. split; [|done].
    apply release_hdr; [|done]. apply Hoth, (live_queued _ _ m r); [by rewrite Hst|]. unfold sta_queue. rewrite elem_of_app. by left.
  - intros e t He Ht. destruct (cfm_busy _ _ _ _ _ Hwf Hcfm w' e t Hi He Ht) as (He' & Ht' & Hne).
    destruct (wf_busy _ _ _ Hwf e t He' Ht') as (y & Hy & Hid). exists y. split; [|done]. apply release_hdr; [|done].
    apply Hoth. replace (txdesc_hdr t) with (desc_hdr w' e); [by apply live_busy|]. unfold desc_hdr. by rewrite Ht.
  - apply release_refs.
  - rewrite (wf_conserved _ _ _ Hwf), (fmap_app fst), <- (app_assoc (fst <$> _)). apply Permutation_app_head. cbn.
    rewrite release_pk_map by (intros g Hg; unfold live; rewrite elem_of_app; by right).
    transitivity (pk w <$> h :: queued w' ++ in_desc w'); [|cbn; unfold pk at 1; by rewrite Hx].
    apply fmap_Permutation. unfold queued at 2. rewrite Hst. fold (queued w).
    rewrite (cfm_in_desc _ _ _ _ _ Hwf Hcfm w' Hi), Hh. by rewrite Permutation_middle.
  - rewrite callbacks_app, (wf_calls _ _ _ Hwf). done.
  - intros m r Hm. rewrite release_pk_map; [by apply (wf_fifo _ _ _ Hwf)|]. intros g Hg.
    apply (live_queued _ _ m r); [by rewrite Hst|]. unfold sta_queue. rewrite elem_of_app. by right.
Qed.
End Release.

(** *** What a turn of the confirmation handler does *)

(** the bit of the firmware's status that says sent: a group packet of the access
    point is sent when its descriptor is done (bit 31), a packet to one receiver when
    that one acknowledged it (bit 23), and so is every packet of the station interface *)
Definition sent_bit (x : bl_txhdr) (b : pbuf) : Z :=
  if (vif_type x =? 0) && Z.odd (default 0 (head (h_dest b))) then 31 else 23.
Definition tx_ok (x : bl_txhdr) (b : pbuf) : bool := Z.testbit (status x) (sent_bit x b).
(** retries used up (bit 16), channel left (bit 20), receiver asleep (bit 19) *)
Definition repushable (value : Z) : bool := Z.testbit value 16 || Z.testbit value 20 || Z.testbit value 19.
(** the packet is tried again: it failed in a way that can pass, its station is still
    linked and it had fewer than three repetitions *)
Definition tried_again (x : bl_txhdr) (b : pbuf) (s : bl_sta) (v : bl_vif) : bool :=
  negb (tx_ok x b) && (repush x <? 3) && negb (links_num v =? 0) && negb (is_used s =? 0) && repushable (status x).
(** the station is triggered, its interface or the station is blocked *)
Definition note_failure (value : Z) (n : nat) (s : bl_sta) (w : wifi) : wifi :=
  if Z.testbit value 16 then retrigger (sta_idx s) w
  else if Z.testbit value 20 then with_vifs (alter (set_fc_chan 1) (Z.to_nat (vif_idx s)) (vif_table w)) w
  else with_stas (alter (set_fc_ps 1) n (sta_table w)) w.
Definition after_cfm (d h : Z) (x : bl_txhdr) (b : pbuf) (s : bl_sta) (v : bl_vif) (w : wifi) : wifi :=
  let n := Z.to_nat (sta_id x) in
  if tried_again x b s v then after_repush d h x n (note_failure (status x) n s w)
  else after_release d (hdr_p x) h x b (tx_ok x b) (retrigger (sta_idx s) w).

Lemma any_bit v n : 0 <= n -> any v (Z.shiftl 1 n) = Z.testbit v n.
Proof.
  intros Hn. unfold any. rewrite Z.shiftl_1_l. destruct (Z.testbit v n) eqn:E.
  - apply negb_true_iff, Z.eqb_neq. intros H. assert (Hb : Z.testbit (Z.land v (2 ^ n)) n = true) by (by rewrite Z.land_spec, E, Z.pow2_bits_true).
    by rewrite H, Z.bits_0 in Hb.
  - apply negb_false_iff, Z.eqb_eq, Z.bits_inj'. intros m Hm. rewrite Z.land_spec, Z.bits_0, Z.pow2_bits_eqb by done.
    destruct (Z.eqb_spec n m) as [<-|]; [by rewrite E|by rewrite andb_false_r].
Qed.
Lemma check_ret_sent x b d0 : head (h_dest b) = Some d0 ->
  bl_tx_check_ret (vif_type x) (IS_BC_MC d0) (status x) = if tx_ok x b then 1 else 0.
Proof.
  intros E. unfold bl_tx_check_ret, tx_ok, sent_bit, FRAME_SUCCESSFUL_TX_BIT, DESC_DONE_TX_BIT. rewrite E, !any_bit by done. cbn [default from_option id].
  assert (Eg : IS_BC_MC d0 = Z.odd d0) by (rewrite <- Z.bit0_odd; exact (any_bit d0 0 (Z.le_refl 0))).
  rewrite Eg. destruct (vif_type x =? 0), (Z.odd d0); cbn [negb andb orb]; rewrite ?orb_false_r; by destruct (Z.testbit _ _).
Qed.

Lemma release_done p h x b s ret w : pbufs w !! p = Some b -> 0 < ref b ->
  bl_tx_release p h x s ret w
  = Done (ret, let w := drop_ref p b (log_done (packet_of h x) (0 <? ret) w) in
               let w := retrigger (sta_idx s) w in
               if (custom_cfm x).1 =? NULL then w else log_callback (custom_cfm x).1 (custom_cfm x).2 (0 <? ret) w).
Proof.
  intros Hb Hr. unfold bl_tx_release, pbuf_free. rewrite get_pbuf_done with (b := b) by done. cbn [mbind outcome_bind].
  rewrite (proj2 (Z.ltb_lt _ _) Hr). unfold drop_ref. destruct (custom_cfm x) as [cb arg]. by destruct (ref b - 1 =? 0).
Qed.

(** the end of a turn *)
Definition give_back (d : Z) (w : wifi) : outcome (option wifi) :=
  w ← upd_txdesc d (fun t => {| host_id := NULL; ready := ready t; host := host t |}) w;
  Done (Some (with_lists (list_free (ipc w) ++ [d]) (list_ongoing (ipc w)) (list_cfm (ipc w)) w)).

Section Turn.
Context (w : wifi) (d : Z) (cfm : list Z) (t : txdesc_host) (h : Z) (x : bl_txhdr).
Hypotheses (Hd : 0 <= d) (Ht : txdesc0 (ipc w) !! Z.to_nat d = Some t) (Hc : list_cfm (ipc w) = d :: cfm).

Let taken (w : wifi) := with_lists (list_free (ipc w)) (list_ongoing (ipc w)) cfm w.

Lemma give_back_done w' : ipc w' = ipc (taken w) -> give_back d w' = Done (Some (with_ipc (free_desc d w) w')).
Proof using Hd Ht Hc.
  intros E. unfold give_back. rewrite (upd_txdesc_done _ _ t _ Hd) by (by rewrite E). cbn [mbind outcome_bind].
  rewrite E. unfold with_lists, with_ipc, free_desc. cbn. rewrite Hc, (alter_as_insert _ _ _ _ Ht). reflexivity.
Qed.

Lemma release_turn s b ret : pbufs w !! hdr_p x = Some b -> 0 < ref b ->
  bl_tx_release (hdr_p x) h x s ret (taken w) ≫= (fun '(_, w) => give_back d w)
  = Done (Some (after_release d (hdr_p x) h x b (0 <? ret) (retrigger (sta_idx s) w))).
Proof using Hd Ht Hc.
  intros Hb Hr. rewrite (release_done _ _ _ b) by done. cbn [mbind outcome_bind].
  unfold after_release, drop_ref, retrigger. destruct (custom_cfm x) as [cb arg]. cbn [fst snd].
  rewrite give_back_done; destruct (ref b - 1 =? 0), (cb =? NULL); reflexivity.
Qed.

Lemma repush_turn wa i s : ipc wa = ipc w -> 0 <= i -> sta_table wa !! Z.to_nat i = Some s -> 0 <= repush x < 3 ->
  (w ← upd_sta i (fun s => set_pending (pending_list s ++ [h]) s)
         (put_txhdr h (set_repush (u8 (repush x + 1)) x) (taken wa)); Done (0, w)) ≫= (fun '(_, w) => give_back d w)
  = Done (Some (after_repush d h x (Z.to_nat i) wa)).
Proof using Hd Ht Hc.
  intros E Hi Hs Hr. rewrite (upd_sta_done _ _ s _ Hi) by done. cbn [mbind outcome_bind].
  rewrite give_back_done by (cbn; by rewrite E). unfold after_repush. rewrite (alter_as_insert _ _ _ _ Hs).
  replace (u8 (repush x + 1)) with (repush x + 1) by (unfold u8, wrap; rewrite Z.mod_small; lia).
  unfold free_desc. rewrite E. reflexivity.
Qed.
End Turn.

Lemma cfm_turn_eq prep callers w d cfm : wf prep callers w -> list_cfm (ipc w) = d :: cfm ->
  exists h x b s v, desc_hdr w d = h /\ txhdrs w !! h = Some x /\ pbufs w !! hdr_p x = Some b /\ hdr_ok h x b
    /\ sta_table w !! Z.to_nat (sta_id x) = Some s /\ vif_table w !! Z.to_nat (vif_idx s) = Some v
    /\ tx_cfm_turn w = Done (Some (after_cfm d h x b s v w)).
Proof.
  intros Hwf Hc. destruct (cfm_desc _ _ _ _ _ Hwf Hc) as (t & x & b & Hd & Ht & Hx & Hid & Hb & Hk & Hdh).
  destruct (sta_at _ _ _ _ Hwf (ho_sta _ _ _ Hk)) as [s Hs].
  destruct (wf_sta_vif _ _ _ Hwf _ _ Hs) as [Hv _]. destruct (vif_at _ _ _ _ Hwf Hv) as [v Hvv].
  exists (txdesc_hdr t), x, b, s, v. do 6 (split; [done|]).
  assert (Hsid : 0 <= sta_id x) by apply Hk. destruct (ho_dest _ _ _ Hk) as [d0 Hd0].
  destruct (wf_refs _ _ _ Hwf _ _ Hb) as [_ Href].
  assert (Hdl : (Z.to_nat d < length (txdesc0 (ipc w)))%nat) by (by eapply lookup_lt_Some).
  unfold tx_cfm_turn. rewrite Hc. cbn [ipc with_lists with_ipc txdesc0]. step_with (aget_done _ _ _ Hd Ht).
  unfold bl_tx_cfm. rewrite Hid. step_with (get_pbuf_done (with_lists (list_free (ipc w)) (list_ongoing (ipc w)) cfm w) _ _ Hb).
  rewrite <- (ho_addr _ _ _ Hk). step_with (get_txhdr_done (with_lists (list_free (ipc w)) (list_ongoing (ipc w)) cfm w) _ _ Hx).
  step_with (aget_done _ 0 d0 ltac:(lia) Hd0).
  step_with (get_sta_done (with_lists (list_free (ipc w)) (list_ongoing (ipc w)) cfm w) _ _ Hsid Hs).
  step_with (get_vif_done (with_lists (list_free (ipc w)) (list_ongoing (ipc w)) cfm w) _ _ (proj1 Hv) Hvv).
  assert (E0 : head (h_dest b) = Some d0) by (by rewrite head_lookup). rewrite (check_ret_sent x b d0 E0).
  unfold after_cfm, tried_again, repushable, note_failure, RETRY_LIMIT_REACHED_BIT, FRAME_REPUSHABLE_CHAN_BIT, FRAME_REPUSHABLE_PS_BIT.
  rewrite !any_bit by done. rewrite (Z.ltb_antisym 3 (repush x)). destruct (tx_ok x b); cbn [Z.eqb negb orb andb].
  { exact (release_turn w d cfm t _ x Hd Ht Hc s b 1 Hb (proj1 Href)). }
  pose proof (release_turn w d cfm t (txdesc_hdr t) x Hd Ht Hc s b 0 Hb (proj1 Href)) as Hrel.
  destruct (3 <=? repush x) eqn:E3; cbn [orb andb negb]; [exact Hrel|]. apply Z.leb_gt in E3.
  assert (Hrp : 0 <= repush x < 3) by (pose proof (ho_repush _ _ _ Hk); lia).
  destruct (links_num v =? 0), (is_used s =? 0); cbn [orb andb negb]; try exact Hrel.
  pose proof (repush_turn w d cfm t (txdesc_hdr t) x Hd Ht Hc) as Hrep.
  destruct (Z.testbit (status x) 16); [exact (Hrep (retrigger (sta_idx s) w) _ s eq_refl Hsid Hs Hrp)|].
  destruct (Z.testbit (status x) 20); cbn [orb].
  { rewrite (upd_vif_done _ _ v _ (proj1 Hv)) by done. rewrite (alter_as_insert _ _ _ _ Hvv).
    exact (Hrep (with_vifs _ w) _ s eq_refl Hsid Hs Hrp). }
  destruct (Z.testbit (status x) 19); [|exact Hrel].
  rewrite (upd_sta_done _ _ s _ Hsid) by done. rewrite (alter_as_insert _ _ _ _ Hs).
  apply (Hrep (with_stas _ w) _ (set_fc_ps 1 s) eq_refl Hsid); [|done].
  cbn. apply list_lookup_insert_eq. by eapply lookup_lt_Some.
Qed.

(** *** Changes that keep all packets *)
Definition keeps_queue (f : bl_sta -> bl_sta) : Prop :=
  forall s, waiting_list (f s) = waiting_list s /\ pending_list (f s) = pending_list s.

Lemma same_refl l : Forall2 (fun s s' => waiting_list s = waiting_list s' /\ pending_list s = pending_list s') l l.
Proof. induction l; constructor; done. Qed.
Lemma same_packets_refl w : same_packets w w.
Proof. split; [apply same_refl|done..]. Qed.
Lemma same_packets_trans w1 w2 w3 : same_packets w1 w2 -> same_packets w2 w3 -> same_packets w1 w3.
Proof.
  intros [] []. split; try congruence. apply Forall2_same_length_lookup_2.
  - rewrite (Forall2_length _ _ _ sp_queues0). by apply (Forall2_length _ _ _ sp_queues1).
  - intros n s s' Hs Hs'. destruct (Forall2_lookup_l _ _ _ _ _ sp_queues0 Hs) as (r & Hr & E1 & E2).
    destruct (Forall2_lookup_lr _ _ _ _ _ _ sp_queues1 Hr Hs') as [E3 E4]. split; congruence.
Qed.
Lemma same_packets_vifs l w : same_packets w (with_vifs l w).
Proof. split; [apply same_refl|done..]. Qed.
Lemma same_packets_stas n f w : keeps_queue f -> same_packets w (with_stas (alter f n (sta_table w)) w).
Proof.
  intros Hf. split; try done. cbn. apply Forall2_same_length_lookup_2; [by rewrite length_alter|].
  intros m s s' Hs. rewrite list_lookup_alter. case_decide as E; [subst m; rewrite Hs|]; intros H.
  - injection H as <-. by destruct (Hf s) as [-> ->].
  - split; congruence.
Qed.
Lemma same_packets_trigger t w : same_packets w (with_trigger t w).
Proof. split; [apply same_refl|done..]. Qed.
Lemma same_packets_pending t w : same_packets w (with_trigger_pending t w).
Proof. split; [apply same_refl|done..]. Qed.
Lemma same_packets_event e w : same_packets w (log_event e w).
Proof. split; [apply same_refl|done..]. Qed.
Create HintDb packets.
#[export] Hint Resolve same_packets_refl same_packets_vifs same_packets_stas same_packets_trigger same_packets_pending
  same_packets_event : packets.

Lemma tables_stas n f w : tables_ok w ->
  (forall s, sta_table w !! n = Some s -> 0 <= vif_idx (f s) < 2 /\ 0 <= sta_idx (f s) < 7) ->
  tables_ok (with_stas (alter f n (sta_table w)) w).
Proof.
  intros [] Hf. split; cbn; try done; [by rewrite length_alter|]. intros m s. rewrite list_lookup_alter.
  case_decide as E; [|by apply tk_sta0]. intros (r & Hr & ->)%fmap_Some. subst. by apply Hf.
Qed.
Lemma tables_vifs n f w : tables_ok w ->
  (forall v, vif_table w !! n = Some v -> 0 <= fixed_sta_idx (f v) < 7) -> tables_ok (with_vifs (alter f n (vif_table w)) w).
Proof.
  intros [] Hf. split; cbn; try done; [by rewrite length_alter|]. intros m s. rewrite list_lookup_alter.
  case_decide as E; [|by apply tk_vif0]. intros (r & Hr & ->)%fmap_Some. subst. by apply Hf.
Qed.
Lemma tables_same w w' : tables_ok w -> sta_table w' = sta_table w -> vif_table w' = vif_table w -> tables_ok w'.
Proof. intros [] Hs Hv. split; by rewrite ?Hs, ?Hv. Qed.

Lemma note_failure_same v n s w : same_packets w (note_failure v n s w).
Proof.
  unfold note_failure, retrigger. destruct (Z.testbit v _); [|destruct (Z.testbit v _)]; auto with packets.
  apply same_packets_stas. by split.
Qed.
Lemma note_failure_tables v n s w : tables_ok w -> tables_ok (note_failure v n s w).
Proof.
  intros H. unfold note_failure, retrigger. destruct (Z.testbit v _); [by eapply tables_same|destruct (Z.testbit v _)].
  - apply tables_vifs; [done|]. intros v' Hv. cbn. by eapply (tk_vif _ H).
  - apply tables_stas; [done|]. intros s' Hs. cbn. by eapply (tk_sta _ H).
Qed.
Lemma note_failure_sta v n s w : sta_table w !! n = Some s -> exists s', sta_table (note_failure v n s w) !! n = Some s'.
Proof.
  intros H. unfold note_failure, retrigger. destruct (Z.testbit v _); [by exists s|destruct (Z.testbit v _); [by exists s|]].
  cbn. rewrite list_lookup_alter_eq, H. cbn. eauto.
Qed.

Lemma wf_cfm_turn prep callers w d cfm : wf prep callers w -> list_cfm (ipc w) = d :: cfm ->
  exists w', tx_cfm_turn w = Done (Some w') /\ wf prep callers w' /\ list_cfm (ipc w') = cfm.
Proof.
  intros Hwf Hc. destruct (cfm_turn_eq _ _ _ _ _ Hwf Hc) as (h & x & b & s & v & Hh & Hx & Hb & Hk & Hs & Hv & ->).
  eexists. split; [done|]. unfold after_cfm. destruct (tried_again x b s v) eqn:Et.
  - split; [|cbn; by rewrite (sp_ipc _ _ (note_failure_same _ _ _ _)), Hc].
    destruct (note_failure_sta (status x) _ _ _ Hs) as [s' Hs']. pose proof (note_failure_same (status x) (Z.to_nat (sta_id x)) s w) as Hsp.
    unfold tried_again in Et. rewrite !andb_true_iff, Z.ltb_lt in Et.
    apply (wf_repush prep callers _ d cfm h x _ s').
    + apply (wf_same _ _ w); [done| |done]. apply note_failure_tables. by eapply wf_tables.
    + by rewrite (sp_ipc _ _ Hsp).
    + unfold desc_hdr. by rewrite (sp_ipc _ _ Hsp).
    + by rewrite (sp_txhdrs _ _ Hsp).
    + pose proof (ho_sta _ _ _ Hk). lia.
    + done.
    + tauto.
  - split; [|unfold after_release, drop_ref; destruct (ref b - 1 =? 0), ((custom_cfm x).1 =? NULL); cbn; by rewrite Hc].
    apply (wf_release prep callers (retrigger (sta_idx s) w) d cfm); try done.
    apply (wf_same _ _ w); [apply same_packets_pending| |done]. by eapply tables_same; [eapply wf_tables| |].
Qed.

(** ** Queueing a packet *)

Section Enqueue.
Context (l1 l2 : list (Z * Z)) (callers : Z -> Z) (w : wifi) (i h : Z).
Hypothesis (Hwf : wf (l1 ++ (i, h) :: l2) callers w).

Definition after_enqueue (i h : Z) (w : wifi) : wifi :=
  with_trigger (Z.lor (tx_cntrl_sta_trigger w) (BIT_STA i))
    (with_stas (alter (fun s => set_waiting (waiting_list s ++ [h]) s) (Z.to_nat i) (sta_table w)) (log_out (pk w h) w)).
Let w' := after_enqueue i h w.

Lemma enqueue_at : exists x s, txhdrs w !! h = Some x /\ sta_id x = i /\ repush x = 0 /\ 0 <= i < 7
  /\ sta_table w !! Z.to_nat i = Some s.
Proof using All.
  assert (Hin : (i, h) ∈ l1 ++ (i, h) :: l2) by (rewrite elem_of_app; right; left).
  destruct (wf_prep _ _ _ Hwf i h Hin) as (x & Hx & Hi & Hr).
  destruct (wf_live _ _ _ Hwf h (live_prep _ _ _ _ Hin)) as (x' & b & Hx' & _ & Hk). simplify_eq.
  destruct (sta_at _ _ _ _ Hwf (ho_sta _ _ _ Hk)) as [s Hs]. exists x, s. by pose proof (ho_sta _ _ _ Hk).
Qed.

Lemma enqueue_done : exists e, (e = [] \/ e = [IrqHandler]) /\
  bl_output_enqueue i h w = Done (match e with [] => w' | _ => log_event IrqHandler w' end).
Proof using All.
  destruct enqueue_at as (x & s & Hx & Hi & _ & Hb & Hs). unfold bl_output_enqueue. step_with (get_txhdr_done _ _ _ Hx).
  rewrite (upd_sta_done (log_out (packet_of h x) w) i s _ ltac:(lia) Hs). cbn [mbind outcome_bind].
  change (sta_table (log_out (packet_of h x) w)) with (sta_table w).
  rewrite <- (pk_at _ _ _ Hx), <- (alter_as_insert (fun s => set_waiting (waiting_list s ++ [h]) s) _ _ _ Hs).
  match goal with |- context [get_sta ?W i] => change W with w' end.
  assert (Hs' : sta_table w' !! Z.to_nat i = Some (set_waiting (waiting_list s ++ [h]) s)).
  { cbn. by rewrite list_lookup_alter_eq, Hs. }
  step_with (get_sta_done w' i _ ltac:(lia) Hs'). unfold bl_tx_cntrl_check_fc. cbn [fc_ps set_waiting vif_idx].
  destruct (fc_ps s =? 0); [|by exists []; split; [left|]].
  destruct (wf_sta_vif _ _ _ Hwf _ _ Hs) as [Hv _]. destruct (vif_at _ _ _ _ Hwf Hv) as [v Hvv].
  step_with (get_vif_done w' (vif_idx s) v (proj1 Hv) Hvv). destruct (fc_chan v =? 0).
  - exists [IrqHandler]. split; [by right|done].
  - exists []. split; [by left|done].
Qed.

Lemma enqueue_queued z : cnt z (queued w') = cnt z (queued w) + (if decide (h = z) then 1 else 0).
Proof using All.
  destruct enqueue_at as (x & s & Hx & Hi & _ & Hb & Hs). unfold queued at 1. cbn.
  rewrite (alter_as_insert _ _ _ _ Hs), (cnt_join _ _ _ _ _ _ Hs). fold (queued w).
  unfold sta_queue. cbn. rewrite !cnt_app, cnt_cons, cnt_nil. lia.
Qed.

Lemma enqueue_live : live (l1 ++ l2) w' ≡ₚ live (l1 ++ (i, h) :: l2) w.
Proof using All.
  apply cnt_perm. intros z. unfold live. change (in_desc w') with (in_desc w).
  rewrite !fmap_app, fmap_cons, !cnt_app, cnt_cons, enqueue_queued. cbn [snd]. lia.
Qed.

Lemma enqueue_sta m r : sta_table w' !! m = Some r -> exists r0, sta_table w !! m = Some r0 /\ vif_idx r = vif_idx r0 /\
  sta_idx r = sta_idx r0 /\ pending_list r = pending_list r0
  /\ waiting_list r = waiting_list r0 ++ (if decide (Z.of_nat m = i) then [h] else []).
Proof using All.
  destruct enqueue_at as (x & s & Hx & Hi & _ & Hb & Hs). cbn. rewrite list_lookup_alter. case_decide as E; intros Hm.
  - apply fmap_Some in Hm as (r0 & Hr0 & ->). exists r0. subst m. rewrite decide_True by lia. done.
  - exists r. rewrite decide_False by lia. by rewrite app_nil_r.
Qed.

Lemma wf_enqueue : wf (l1 ++ l2) callers w'.
Proof using All.
  destruct enqueue_at as (x & s & Hx & Hi & Hr & Hb & Hs).
  destruct (mem_wf_perm _ (l1 ++ l2) callers w w' eq_refl eq_refl enqueue_live (wf_mem_wf _ _ _ Hwf)) as [M1 M2 M3 M4].
  split; try done; try apply Hwf.
  - cbn. rewrite length_alter. apply (wf_stas _ _ _ Hwf).
  - intros m r Hm. destruct (enqueue_sta m r Hm) as (r0 & Hr0 & -> & -> & _). by apply (wf_sta_vif _ _ _ Hwf m).
  - intros j g Hg. apply (wf_prep _ _ _ Hwf). set_solver.
  - intros m r g Hm Hg. destruct (enqueue_sta m r Hm) as (r0 & Hr0 & _ & _ & _ & Hw). rewrite Hw, elem_of_app in Hg.
    destruct Hg as [Hg|Hg]; [by apply (wf_waiting _ _ _ Hwf m r0)|]. case_decide; [|by apply elem_of_nil in Hg].
    apply list_elem_of_singleton in Hg as ->. exists x. split; [done|]. split; [congruence|done].
  - intros m r g Hm Hg. destruct (enqueue_sta m r Hm) as (r0 & Hr0 & _ & _ & Hp & _). rewrite Hp in Hg.
    by apply (wf_pending _ _ _ Hwf m r0).
  - change (outs (hist w')) with (outs (hist w) ++ [pk w h]). change (dones (hist w')) with (dones (hist w)).
    change (pk w') with (pk w). change (in_desc w') with (in_desc w). rewrite (wf_conserved _ _ _ Hwf), <- app_assoc.
    apply Permutation_app_head. change [pk w h] with (pk w <$> [h]). rewrite <- fmap_app. apply fmap_Permutation, cnt_perm.
    intros z. rewrite !cnt_app, enqueue_queued, cnt_cons, cnt_nil. lia.
  - intros m r Hm. destruct (enqueue_sta m r Hm) as (r0 & Hr0 & _ & _ & _ & Hw).
    change (outs (hist w')) with (outs (hist w) ++ [pk w h]). change (pushes (hist w')) with (pushes (hist w)).
    change (pk w') with (pk w). rewrite Hw, fmap_app, filter_app, (wf_fifo _ _ _ Hwf m r0 Hr0), <- app_assoc. do 2 f_equal.
    rewrite filter_cons, filter_nil, (pk_at _ _ _ Hx). cbn. rewrite Hi.
    destruct (decide (i = Z.of_nat m)), (decide (Z.of_nat m = i)); try lia; [|done]. cbn. by rewrite (pk_at _ _ _ Hx).
Qed.
End Enqueue.
