(* ===== verification/BlTxReach.v ===== *)
(** * What the IP stack, the firmware and the station handlers do to the transmit path

    Each keeps the invariant [wf] of [BlTxProofs]: preparing a packet, changes of
    memory by its owners and by the firmware, and all handlers of [BlSta]. *)
From S2P Require Import Prelude BlTx BlSta BlTxProofs.

(** ** Looking up stations *)

Lemma find_sta_range prep callers w f idxs : wf prep callers w -> (forall i, i ∈ idxs -> 0 <= i < 7) ->
  exists r, find_sta f idxs w = Done r /\ (r = -1 \/ 0 <= r < 7).
Proof.
  intros Hwf. induction idxs as [|i idxs IH]; intros Hi; cbn; [by exists (-1); split; [|left]|].
  assert (Hb : 0 <= i < 7) by (apply Hi; left). destruct (sta_at _ _ _ _ Hwf Hb) as [s Hs].
  step_with (get_sta_done _ _ _ (proj1 Hb) Hs). destruct (negb (is_used s =? 0) && f s).
  - exists i. split; [done|by right].
  - apply IH. intros j Hj. apply Hi. by right.
Qed.
Lemma all_stas_range i : i ∈ all_stas -> 0 <= i < 7.
Proof. unfold all_stas, NX_REMOTE_STA_STORE_MAX. rewrite elem_of_seqZ. lia. Qed.

Lemma get_sta_id_range prep callers w is_sta bc addr : wf prep callers w ->
  exists r, bl_tx_cntrl_get_sta_id is_sta bc addr w = Done r /\ (r = -1 \/ 0 <= r < 7).
Proof.
  intros Hwf. unfold bl_tx_cntrl_get_sta_id.
  assert (Hfix : forall i, 0 <= i < 2 -> exists v s, get_vif w i = Done v /\ get_sta w (fixed_sta_idx v) = Done s /\ 0 <= sta_idx s < 7).
  { intros i Hi. destruct (vif_at _ _ _ _ Hwf Hi) as [v Hv]. pose proof (wf_fixed _ _ _ Hwf _ _ Hv) as Hf.
    destruct (sta_at _ _ _ _ Hwf Hf) as [s Hs]. exists v, s. destruct (wf_sta_vif _ _ _ Hwf _ _ Hs) as [_ H].
    split; [by apply get_vif_done; [lia|]|]. split; [|done]. by apply get_sta_done; [lia|]. }
  destruct is_sta.
  - destruct (Hfix 0) as (v & s & Hv & Hs & Hb); [lia|]. unfold BL_VIF_STA. step_with Hv. step_with Hs.
    eexists. split; [done|]. destruct (_ && _); lia.
  - destruct (Hfix 1) as (v & s & Hv & Hs & Hb); [lia|]. unfold BL_VIF_AP, NX_VIRT_DEV_MAX. change (2 - 1) with 1. step_with Hv.
    destruct (links_num v =? 0); [by exists (-1); split; [|left]|]. destruct bc.
    + step_with Hs. eexists. split; [done|]. destruct (negb _); lia.
    + apply (find_sta_range prep callers); [done|]. apply all_stas_range.
Qed.

(** ** Preparing a packet *)

(** what [bl_output] needs of its caller: the packet exists and is not with the driver
    already, its header is there, it has at most four pbufs and its counter has room *)
Record outputable (prep : list (Z * Z)) (w : wifi) (p : Z) (b : pbuf) : Prop := {
  oa_pbuf : pbufs w !! p = Some b;
  oa_free : p ∉ (pk_buf ∘ pk w <$> live prep w);
  oa_dest : exists d0, h_dest b !! 0%nat = Some d0;
  oa_chain : (length (next b) <= 3)%nat;
  oa_ref : ref b < 255 }.

Definition new_txhdr (is_sta : bool) (p : Z) (cfm : option (Z * Z)) (i : Z) (b : pbuf) : bl_txhdr :=
  {| custom_cfm := match cfm with Some c => c | None => (NULL, NULL) end; status := 0; hdr_p := p; hdr_len := tot_len b;
     vif_type := if is_sta then 1 else 0; sta_id := wrap 4 i; repush := 0 |}.
Definition after_prepare (is_sta : bool) (p : Z) (cfm : option (Z * Z)) (i : Z) (b : pbuf) (w : wifi) : wifi :=
  let b' := move_payload 48 b in
  with_mem (<[p := set_ref (ref b + 1) b']> (pbufs w)) (<[txhdr_of b' := new_txhdr is_sta p cfm i b']> (txhdrs w)) w.

Section Prepare.
Context (prep : list (Z * Z)) (callers : Z -> Z) (w : wifi) (p : Z) (b : pbuf) (is_sta : bool) (cfm : option (Z * Z)).
Hypotheses (Hwf : wf prep callers w) (Ho : outputable prep w p b).

(** the room for the header is always enough, [ERR_BUF] is not reached *)
Lemma prepare_cases :
  (exists e, bl_output_prepare is_sta p cfm w = Done (inl (e, w)) /\ e = ERR_IF)
  \/ (exists i, 0 <= i < 7 /\ pbuf_header p 48 b = Some (move_payload 48 b)
        /\ bl_output_prepare is_sta p cfm w = Done (inr (i, txhdr_of (move_payload 48 b), after_prepare is_sta p cfm i b w))).
Proof using All.
  destruct Ho as [Hb Hf [d0 Hd0] Hch Hr]. destruct (wf_mem _ _ _ Hwf) as [Hok _].
  pose proof (po_addr _ _ (Hok _ _ Hb)). unfold bl_output_prepare.
  destruct (Z.eqb_spec p NULL) as [E|E]; [unfold NULL in E; lia|].
  step_with (get_pbuf_done _ _ _ Hb). step_with (aget_done _ 0 d0 ltac:(lia) Hd0).
  destruct (get_sta_id_range _ _ _ is_sta (IS_BC_MC d0) (h_dest b) Hwf) as (i & Hi & Hir). step_with Hi.
  destruct Hir as [->|Hir]; [left; by exists ERR_IF|]. rewrite (proj2 (Z.ltb_ge i 0)) by lia.
  destruct (sta_at _ _ _ _ Hwf Hir) as [s Hs]. step_with (get_sta_done _ _ _ (proj1 Hir) Hs).
  unfold PBUF_LINK_ENCAPSULATION_HLEN. destruct (pbuf_header p 48 b) as [b'|] eqn:Eh; [|left; by exists ERR_IF].
  assert (b' = move_payload 48 b) as ->.
  { unfold pbuf_header, pbuf_add_header in Eh. cbn in Eh. repeat case_match; congruence. }
  pose proof (align_pads_bound (payload (move_payload 48 b))) as Ha. unfold sizeof_bl_txhdr.
  replace (u16 (RWNX_HWTXHDR_ALIGN_PADS (payload (move_payload 48 b)) + 24 + 16))
    with (RWNX_HWTXHDR_ALIGN_PADS (payload (move_payload 48 b)) + 40) by (unfold u16, wrap; rewrite Z.mod_small; lia).
  rewrite (proj2 (Z.ltb_ge 48 _)) by lia. right. exists i. split; [done|]. split; [done|].
  unfold pbuf_ref, get_pbuf. cbn [put_txhdr put_pbuf with_mem pbufs txhdrs]. rewrite lookup_insert_eq. cbn [mbind outcome_bind].
  destruct (wf_refs _ _ _ Hwf _ _ Hb) as [_ Href]. cbn [ref move_payload].
  replace (u8 (ref b + 1)) with (ref b + 1) by (unfold u8, wrap; rewrite Z.mod_small; lia).
  rewrite (proj2 (Z.eqb_neq (ref b + 1) 0)) by lia. cbn. unfold after_prepare, put_pbuf, put_txhdr. cbn.
  rewrite insert_insert_eq. reflexivity.
Qed.

Context (i : Z).
Hypotheses (Hi : 0 <= i < 7) (Hhd : pbuf_header p 48 b = Some (move_payload 48 b)).

Let b' := set_ref (ref b + 1) (move_payload 48 b).
Let h := txhdr_of b'.
Let x := new_txhdr is_sta p cfm i b'.
Let w' := after_prepare is_sta p cfm i b w.

Lemma prepare_pbuf_ok : pbuf_ok p b' /\ hdr_ok h x b'.
Proof using All.
  destruct Ho as [Hb Hf Hd0 Hch Hr]. destruct (wf_mem _ _ _ Hwf) as [Hok _]. destruct (Hok _ _ Hb) as [P1 P2 P3 P4 P5 P6].
  unfold pbuf_header, pbuf_add_header in Hhd. cbn in Hhd.
  destruct (Z.ltb_spec (u16 (48 + tot_len b)) 48) as [|H1]; [done|]. destruct (contiguous b) eqn:Ec; [|done].
  destruct (Z.ltb_spec (payload b - 48) (p + SIZEOF_STRUCT_PBUF)) as [|H2]; [done|].
  assert (H3 : tot_len b + 48 < 2 ^ 16).
  { destruct (Z.lt_ge_cases (tot_len b + 48) (2 ^ 16)) as [|Hge]; [done|]. exfalso. unfold u16, wrap in H1.
    rewrite <- (Z.mod_unique (48 + tot_len b) (2 ^ 16) 1 (48 + tot_len b - 2 ^ 16)) in H1; lia. }
  destruct (P6 eq_refl) as [Q1 Q2].
  assert (E1 : u16 (tot_len b + 48) = tot_len b + 48) by (unfold u16, wrap; rewrite Z.mod_small; lia).
  assert (E2 : u16 (len b + 48) = len b + 48) by (unfold u16, wrap; rewrite Z.mod_small; lia).
  unfold b', set_ref, move_payload. rewrite E1, E2. split; split; cbn; try done; try lia.
  - intros _. unfold pbuf_end in *. cbn. lia.
  - unfold PBUF_LINK_ENCAPSULATION_HLEN. lia.
  - unfold wrap. rewrite Z.mod_small by lia. unfold NX_REMOTE_STA_STORE_MAX. lia.
Qed.

Lemma prepare_fresh g : g ∈ live prep w -> g <> h /\ exists y c, txhdrs w !! g = Some y /\ pbufs w !! hdr_p y = Some c
  /\ hdr_ok g y c /\ hdr_p y <> p.
Proof using All.
  intros Hg. destruct (wf_live _ _ _ Hwf g Hg) as (y & c & Hy & Hc & Hk).
  assert (Hne : hdr_p y <> p).
  { intros E. apply (oa_free _ _ _ _ Ho). apply list_elem_of_fmap. exists g. split; [|done].
    unfold compose. by rewrite (pk_at _ _ _ Hy). }
  split; [|by exists y, c]. destruct prepare_pbuf_ok as [Hp Hh].
  assert (Hm : mem_ok (<[p := b']> (pbufs w))).
  { apply (mem_ok_update _ _ b); [apply (wf_mem _ _ _ Hwf)|apply Ho|done|done]. }
  apply not_eq_sym. eapply (hdr_differs _ p (hdr_p y) b' c g y Hm); [|by rewrite lookup_insert_ne|done|apply Hh|done].
  by rewrite lookup_insert_eq.
Qed.

Lemma prepare_pk g : g <> h -> pk w' g = pk w g.
Proof using. intros Hne. unfold pk, w', after_prepare. cbn. by rewrite lookup_insert_ne. Qed.
Lemma prepare_pk_map (l : list Z) : (forall g, g ∈ l -> g ∈ live prep w) -> (pk w' <$> l) = (pk w <$> l).
Proof using All. intros Hl. apply pk_map_ext. intros g Hg. apply prepare_pk. by apply prepare_fresh, Hl. Qed.
Lemma prepare_hdr g y : g ∈ live prep w -> txhdrs w !! g = Some y -> txhdrs w' !! g = Some y.
Proof using All.
  intros Hg Hy. destruct (prepare_fresh g Hg) as [Hne _]. cbn. by rewrite lookup_insert_ne.
Qed.
Lemma prepare_live : live (prep ++ [(i, h)]) w' ≡ₚ h :: live prep w.
Proof using.
  unfold live. change (queued w') with (queued w). change (in_desc w') with (in_desc w). rewrite fmap_app. cbn [fmap list_fmap snd].
  apply cnt_perm. intros z. rewrite !cnt_app, !cnt_cons, !cnt_app, cnt_nil. lia.
Qed.

Lemma wf_prepare : wf (prep ++ [(i, h)]) callers w'.
Proof using All.
  destruct prepare_pbuf_ok as [Hp Hh]. pose proof prepare_live as Hl.
  assert (Hxh : txhdrs w' !! h = Some x) by (cbn; by rewrite lookup_insert_eq).
  split; try apply Hwf.
  - apply (mem_ok_update _ _ b); [apply (wf_mem _ _ _ Hwf)|apply Ho|done|done].
  - rewrite Hl. apply NoDup_cons. split; [|apply (wf_nodup _ _ _ Hwf)]. intros Hg. by destruct (prepare_fresh h Hg).
  - intros g. rewrite Hl, elem_of_cons. intros [->|Hg].
    + exists x, b'. split; [done|]. split; [cbn; by rewrite lookup_insert_eq|done].
    + destruct (prepare_fresh g Hg) as (Hne & y & c & Hy & Hc & Hk & Hnp). exists y, c.
      split; [by apply prepare_hdr|]. split; [|done]. cbn. by rewrite lookup_insert_ne.
  - intros j g. rewrite elem_of_app. intros [Hg|Hg].
    + destruct (wf_prep _ _ _ Hwf j g Hg) as (y & Hy & ?). exists y. split; [|done]. apply prepare_hdr; [|done].
      by apply (live_prep prep w j).
    + apply list_elem_of_singleton in Hg as [= -> ->]. exists x. split; [done|]. split; [|done]. cbn. unfold wrap. by rewrite Z.mod_small by lia.
  - intros m r g Hm Hg. destruct (wf_waiting _ _ _ Hwf m r g Hm Hg) as (y & Hy & ?). exists y. split; [|done].
    apply prepare_hdr; [|done]. apply (live_queued _ _ m r _ Hm). unfold sta_queue. rewrite elem_of_app. by right.
  - intros m r g Hm Hg. destruct (wf_pending _ _ _ Hwf m r g Hm Hg) as (y & Hy & ?). exists y. split; [|done].
    apply prepare_hdr; [|done]. apply (live_queued _ _ m r _ Hm). unfold sta_queue. rewrite elem_of_app. by left.
  - intros e t He Ht. destruct (wf_busy _ _ _ Hwf e t He Ht) as (y & Hy & Hid). exists y. split; [|done].
    apply prepare_hdr; [|done]. replace (txdesc_hdr t) with (desc_hdr w e); [by apply live_busy|]. unfold desc_hdr. cbn in Ht. by rewrite Ht.
  - intros q c Hq. assert (Hcnt : cnt q (pk_buf ∘ pk w' <$> live (prep ++ [(i, h)]) w')
      = (if decide (p = q) then 1 else 0) + cnt q (pk_buf ∘ pk w <$> live prep w)).
    { rewrite (proj1 (cnt_perm _ _) (fmap_Permutation (pk_buf ∘ pk w') _ _ Hl) q), fmap_cons.
      replace ((pk_buf ∘ pk w') h) with p by (unfold compose; by rewrite (pk_at _ _ _ Hxh)).
      rewrite cnt_cons, (list_fmap_compose (pk w')), (prepare_pk_map (live prep w)) by done. by rewrite <- list_fmap_compose. }
    rewrite Hcnt. cbn in Hq. apply lookup_insert_Some in Hq as [[<- <-]|[Hne Hq]].
    + destruct (wf_refs _ _ _ Hwf _ _ (oa_pbuf _ _ _ _ Ho)) as [H1 H2]. pose proof (oa_ref _ _ _ _ Ho).
      rewrite decide_True by done. cbn. lia.
    + destruct (wf_refs _ _ _ Hwf _ _ Hq) as [H1 H2]. rewrite decide_False by done. lia.
  - change (outs (hist w')) with (outs (hist w)). change (dones (hist w')) with (dones (hist w)).
    change (queued w' ++ in_desc w') with (queued w ++ in_desc w).
    rewrite prepare_pk_map; [apply (wf_conserved _ _ _ Hwf)|]. intros g Hg. unfold live. rewrite elem_of_app. by right.
  - intros m r Hm. rewrite prepare_pk_map; [by apply (wf_fifo _ _ _ Hwf)|]. intros g Hg. apply (live_queued _ _ m r _ Hm).
    unfold sta_queue. rewrite elem_of_app. by right.
Qed.
End Prepare.

(** ** The memory changed by others *)

(** the firmware and the owners of packets may change memory as long as the headers
    of live packets keep what the driver wrote *)
Lemma wf_mem_change prep callers callers' w m x :
  wf prep callers w -> mem_ok m ->
  (forall g y b, g ∈ live prep w -> txhdrs w !! g = Some y -> pbufs w !! hdr_p y = Some b -> hdr_ok g y b ->
    exists y' b', x !! g = Some y' /\ packet_of g y' = packet_of g y /\ repush y' = repush y /\ m !! hdr_p y = Some b'
      /\ hdr_ok g y' b') ->
  (forall p b, m !! p = Some b -> ref b = callers' p + cnt p (pk_buf ∘ pk w <$> live prep w) /\ 0 < ref b < 256) ->
  wf prep callers' (with_mem m x w).
Proof.
  intros Hwf Hm Hx Hr. set (w' := with_mem m x w).
  assert (Hh : forall g y, g ∈ live prep w -> txhdrs w !! g = Some y ->
    exists y', x !! g = Some y' /\ packet_of g y' = packet_of g y /\ repush y' = repush y).
  { intros g y Hg Hy. destruct (wf_live _ _ _ Hwf g Hg) as (z & b & Hz & Hb & Hk). simplify_eq.
    destruct (Hx g y b Hg Hy Hb Hk) as (y' & b' & ? & ? & ? & _). eauto. }
  assert (Hpk : forall g, g ∈ live prep w -> pk w' g = pk w g).
  { intros g Hg. destruct (wf_live _ _ _ Hwf g Hg) as (y & b & Hy & _). destruct (Hh g y Hg Hy) as (y' & Hy' & E & _).
    rewrite (pk_at w _ _ Hy), (pk_at w' _ y'); done. }
  assert (Hpm : forall l : list Z, (forall g, g ∈ l -> g ∈ live prep w) -> (pk w' <$> l) = (pk w <$> l)).
  { intros l Hl. apply pk_map_ext. intros g Hg. apply Hpk. by apply Hl. }
  split; try apply Hwf; try done.
  - intros g Hg. destruct (wf_live _ _ _ Hwf g Hg) as (y & b & Hy & Hb & Hk).
    destruct (Hx g y b Hg Hy Hb Hk) as (y' & b' & Hy' & E & _ & Hb' & Hk'). exists y', b'. split; [done|]. split; [|done].
    apply (f_equal pk_buf) in E. cbn in E |- *. by rewrite E.
  - intros i g Hg. destruct (wf_prep _ _ _ Hwf i g Hg) as (y & Hy & Hi & H0).
    destruct (Hh g y (live_prep _ _ _ _ Hg) Hy) as (y' & Hy' & E & E2). exists y'. apply (f_equal pk_sta) in E. cbn in E.
    split; [done|]. split; congruence.
  - intros n s g Hn Hg. destruct (wf_waiting _ _ _ Hwf n s g Hn Hg) as (y & Hy & Hi & H0).
    assert (Hl : g ∈ live prep w) by (apply (live_queued _ _ n s _ Hn); unfold sta_queue; rewrite elem_of_app; by right).
    destruct (Hh g y Hl Hy) as (y' & Hy' & E & E2). exists y'. apply (f_equal pk_sta) in E. cbn in E.
    split; [done|]. split; congruence.
  - intros n s g Hn Hg. destruct (wf_pending _ _ _ Hwf n s g Hn Hg) as (y & Hy & Hi & H0).
    assert (Hl : g ∈ live prep w) by (apply (live_queued _ _ n s _ Hn); unfold sta_queue; rewrite elem_of_app; by left).
    destruct (Hh g y Hl Hy) as (y' & Hy' & E & E2). exists y'. apply (f_equal pk_sta) in E. cbn in E.
    split; [done|]. split; [congruence|lia].
  - intros d t Hd Ht. destruct (wf_busy _ _ _ Hwf d t Hd Ht) as (y & Hy & Hi).
    assert (Hl : txdesc_hdr t ∈ live prep w).
    { replace (txdesc_hdr t) with (desc_hdr w d); [by apply live_busy|]. unfold desc_hdr. cbn in Ht. by rewrite Ht. }
    destruct (Hh _ y Hl Hy) as (y' & Hy' & E & _). exists y'. apply (f_equal pk_buf) in E. cbn in E. split; [done|congruence].
  - intros p b Hb. destruct (Hr p b Hb) as [H1 H2]. split; [|done]. rewrite H1. f_equal. change (live prep w') with (live prep w).
    by rewrite !list_fmap_compose, (Hpm (live prep w)).
  - change (outs (hist w')) with (outs (hist w)). change (dones (hist w')) with (dones (hist w)).
    change (queued w' ++ in_desc w') with (queued w ++ in_desc w).
    rewrite Hpm; [apply (wf_conserved _ _ _ Hwf)|]. intros g Hg. unfold live. rewrite elem_of_app. by right.
  - intros n s Hn. rewrite Hpm; [by apply (wf_fifo _ _ _ Hwf)|]. intros g Hg. apply (live_queued _ _ n s _ Hn).
    unfold sta_queue. rewrite elem_of_app. by right.
Qed.

(** the lists of busy descriptors are reordered *)
Lemma wf_busy_perm prep callers w o c : o ++ c ≡ₚ busy w -> wf prep callers w ->
  wf prep callers (with_lists (list_free (ipc w)) o c w).
Proof.
  intros Hp Hwf. set (w' := with_lists _ o c w). assert (Hb : busy w' = o ++ c) by done.
  assert (Hd : in_desc w' ≡ₚ in_desc w) by (unfold in_desc; rewrite Hb; by apply (fmap_Permutation (desc_hdr w))).
  assert (Hl : live prep w' ≡ₚ live prep w) by (unfold live; change (queued w') with (queued w); by rewrite Hd).
  destruct (mem_wf_perm prep prep callers w w' eq_refl eq_refl Hl (wf_mem_wf _ _ _ Hwf)) as [M1 M2 M3 M4].
  split; try done; try apply Hwf.
  - change (list_free (ipc w')) with (list_free (ipc w)). rewrite Hb, Hp. apply (wf_lists _ _ _ Hwf).
  - intros d t. rewrite Hb, Hp. apply (wf_busy _ _ _ Hwf).
  - change (queued w') with (queued w). rewrite Hd. apply (wf_conserved _ _ _ Hwf).
Qed.

(** *** The firmware has dealt with a descriptor and reports a status *)
Definition set_status (v : Z) (x : bl_txhdr) : bl_txhdr :=
  {| custom_cfm := custom_cfm x; status := v; hdr_p := hdr_p x; hdr_len := hdr_len x; vif_type := vif_type x;
     sta_id := sta_id x; repush := repush x |}.
(** the status is written where the descriptor says *)
Definition fw_done (d v : Z) (l1 l2 : list Z) (w : wifi) : wifi :=
  with_lists (list_free (ipc w)) (l1 ++ l2) (list_cfm (ipc w) ++ [d])
    (with_mem (pbufs w) (alter (set_status v) (desc_hdr w d) (txhdrs w)) w).

Lemma wf_fw_done prep callers w d v l1 l2 : wf prep callers w -> list_ongoing (ipc w) = l1 ++ d :: l2 ->
  wf prep callers (fw_done d v l1 l2 w).
Proof.
  intros Hwf Ho.
  apply (wf_busy_perm _ _ (with_mem (pbufs w) (alter (set_status v) (desc_hdr w d) (txhdrs w)) w) (l1 ++ l2) (list_cfm (ipc w) ++ [d])).
  { unfold busy. cbn. rewrite Ho. apply cnt_perm. intros z. rewrite !cnt_app, !cnt_cons, cnt_nil. lia. }
  apply (wf_mem_change _ callers); [done|apply (wf_mem _ _ _ Hwf)| |apply (wf_refs _ _ _ Hwf)].
  intros g y b Hg Hy Hb Hk. destruct (decide (g = desc_hdr w d)) as [->|Hne].
  - exists (set_status v y), b. rewrite lookup_alter_eq, Hy. split; [done|]. do 3 (split; [done|]). destruct Hk. by split.
  - exists y, b. by rewrite lookup_alter_ne by congruence.
Qed.

(** *** The owners of packets *)
Definition add_caller (p n : Z) (callers : Z -> Z) (q : Z) : Z := if decide (q = p) then callers p + n else callers q.

Lemma not_live_buf prep callers w p : wf prep callers w -> pbufs w !! p = None -> cnt p (pk_buf ∘ pk w <$> live prep w) = 0.
Proof.
  intros Hwf Hp. apply cnt_not_elem. intros (g & -> & Hg)%list_elem_of_fmap.
  destruct (wf_live _ _ _ Hwf g Hg) as (y & b & Hy & Hb & _). unfold compose in Hp. rewrite (pk_at _ _ _ Hy) in Hp. cbn in Hp. congruence.
Qed.

(** a new packet, held by the caller; its block is new *)
Lemma wf_env_alloc prep callers w p b : wf prep callers w -> pbufs w !! p = None -> callers p = 0 -> ref b = 1 ->
  mem_ok (<[p := b]> (pbufs w)) -> wf prep (add_caller p 1 callers) (put_pbuf p b w).
Proof.
  intros Hwf Hp Hc Hr Hm. apply (wf_mem_change _ callers); [done|done| |].
  - intros g y c Hg Hy Hcc Hk. exists y, c. do 3 (split; [done|]). rewrite lookup_insert_ne by congruence. done.
  - intros q c. unfold add_caller. rewrite lookup_insert_Some. intros [[<- <-]|[Hne Hq]].
    + rewrite decide_True by done. rewrite (not_live_buf _ _ _ _ Hwf Hp). lia.
    + rewrite decide_False by congruence. by apply (wf_refs _ _ _ Hwf).
Qed.

(** a packet the driver does not have is changed *)
Lemma wf_env_edit prep callers w p b b' : wf prep callers w -> pbufs w !! p = Some b ->
  p ∉ (pk_buf ∘ pk w <$> live prep w) -> ref b' = ref b -> size b' = size b -> pbuf_ok p b' ->
  wf prep callers (put_pbuf p b' w).
Proof.
  intros Hwf Hp Hnl Hr Hs Hok. apply (wf_mem_change _ callers); [done|by apply (mem_ok_update _ _ b); [apply (wf_mem _ _ _ Hwf)|..]| |].
  - intros g y c Hg Hy Hcc Hk. exists y, c. do 3 (split; [done|]). rewrite lookup_insert_ne; [done|]. intros E. apply Hnl.
    apply list_elem_of_fmap. exists g. split; [|done]. unfold compose. by rewrite (pk_at _ _ _ Hy).
  - intros q c. rewrite lookup_insert_Some. intros [[<- <-]|[Hne Hq]]; [|by apply (wf_refs _ _ _ Hwf)].
    rewrite Hr. by apply (wf_refs _ _ _ Hwf).
Qed.

(** a caller's further reference, and a caller's reference dropped *)
Lemma wf_env_ref prep callers w p b : wf prep callers w -> pbufs w !! p = Some b -> ref b < 255 ->
  exists w', pbuf_ref p w = Done w' /\ wf prep (add_caller p 1 callers) w'.
Proof.
  intros Hwf Hp Hr. destruct (wf_refs _ _ _ Hwf _ _ Hp) as [H1 H2]. unfold pbuf_ref. step_with (get_pbuf_done _ _ _ Hp).
  replace (u8 (ref b + 1)) with (ref b + 1) by (unfold u8, wrap; rewrite Z.mod_small; lia).
  rewrite (proj2 (Z.eqb_neq (ref b + 1) 0)) by lia. eexists. split; [done|].
  apply (wf_mem_change _ callers); [done| | |].
  - apply (mem_ok_update _ _ b); [apply (wf_mem _ _ _ Hwf)|done| |done]. by apply pbuf_ok_ref, (wf_mem _ _ _ Hwf).
  - intros g y c Hg Hy Hcc Hk. destruct (decide (hdr_p y = p)) as [<-|Hne].
    + simplify_eq. exists y, (set_ref (ref b + 1) b). do 3 (split; [done|]). rewrite lookup_insert_eq. split; [done|]. by apply hdr_ok_ref.
    + exists y, c. by rewrite lookup_insert_ne.
  - intros q c. unfold add_caller. rewrite lookup_insert_Some. intros [[<- <-]|[Hne Hq]].
    + rewrite decide_True by done. cbn. lia.
    + rewrite decide_False by congruence. by apply (wf_refs _ _ _ Hwf).
Qed.

Lemma wf_env_free prep callers w p b : wf prep callers w -> pbufs w !! p = Some b -> 0 < callers p ->
  exists w', pbuf_free p w = Done w' /\ wf prep (add_caller p (-1) callers) w'.
Proof.
  intros Hwf Hp Hc. destruct (wf_refs _ _ _ Hwf _ _ Hp) as [H1 H2]. unfold pbuf_free. step_with (get_pbuf_done _ _ _ Hp).
  rewrite (proj2 (Z.ltb_lt 0 (ref b))) by lia. pose proof (cnt_pos p (pk_buf ∘ pk w <$> live prep w)).
  destruct (Z.eqb_spec (ref b - 1) 0) as [E|E]; eexists; (split; [done|]); apply (wf_mem_change _ callers); try done.
  - apply mem_ok_delete, (wf_mem _ _ _ Hwf).
  - intros g y c Hg Hy Hcc Hk. assert (Hne : hdr_p y <> p).
    { intros <-. assert (H0 : cnt (hdr_p y) (pk_buf ∘ pk w <$> live prep w) = 0) by lia. apply cnt_not_elem in H0. apply H0.
      apply list_elem_of_fmap. exists g. split; [|done]. unfold compose. by rewrite (pk_at _ _ _ Hy). }
    exists y, c. rewrite lookup_delete_ne by done. split; [|by do 3 (split; [done|])]. destruct (contiguous b) eqn:Eb; [|done].
    rewrite lookup_delete_ne; [done|]. apply not_eq_sym in Hne.
    exact (hdr_differs _ _ _ _ _ _ _ (wf_mem _ _ _ Hwf) Hp Hcc Hne Eb Hk).
  - intros q c. unfold add_caller. rewrite lookup_delete_Some. intros [Hne Hq]. rewrite decide_False by congruence.
    by apply (wf_refs _ _ _ Hwf).
  - apply (mem_ok_update _ _ b); [apply (wf_mem _ _ _ Hwf)|done| |done]. by apply pbuf_ok_ref, (wf_mem _ _ _ Hwf).
  - intros g y c Hg Hy Hcc Hk. destruct (decide (hdr_p y = p)) as [<-|Hne].
    + simplify_eq. exists y, (set_ref (ref b - 1) b). do 3 (split; [done|]). rewrite lookup_insert_eq. split; [done|]. by apply hdr_ok_ref.
    + exists y, c. by rewrite lookup_insert_ne.
  - intros q c. unfold add_caller. rewrite lookup_insert_Some. intros [[<- <-]|[Hne Hq]].
    + rewrite decide_True by done. cbn. lia.
    + rewrite decide_False by congruence. by apply (wf_refs _ _ _ Hwf).
Qed.

(** ** The tables of stations and interfaces

    What the handlers of [BlSta] do to the tables touches no packet.  [fin w0 m] says
    that [m] ends in a state with the packets of [w0] and tables in order; one rule
    per primitive proves it. *)
Record from_state (w0 w : wifi) : Prop := { fs_same : same_packets w0 w; fs_tables : tables_ok w }.
Definition fin {A} (w0 : wifi) (m : outcome (A * wifi)) : Prop := exists a w, m = Done (a, w) /\ from_state w0 w.

Definition sta_range (s : bl_sta) : Prop := 0 <= vif_idx s < 2 /\ 0 <= sta_idx s < 7.
Definition vif_range (v : bl_vif) : Prop := 0 <= fixed_sta_idx v < 7.

Lemma fin_done {A} w0 (a : A) w : from_state w0 w -> fin w0 (Done (a, w)).
Proof. intros H. by exists a, w. Qed.
Lemma from_same w0 w w' : from_state w0 w -> same_packets w w' -> sta_table w' = sta_table w -> vif_table w' = vif_table w ->
  from_state w0 w'.
Proof. intros [H1 H2] Hs E1 E2. split; [by eapply same_packets_trans|by eapply tables_same]. Qed.
Lemma from_event w0 w e : from_state w0 w -> from_state w0 (log_event e w).
Proof. intros H. apply (from_same _ w); [done|apply same_packets_event|done..]. Qed.
Lemma from_unless w0 w d e : from_state w0 w -> from_state w0 (unless_null d e w).
Proof. intros H. unfold unless_null. destruct (d =? NULL); [done|]. by apply from_event. Qed.
Lemma from_trigger w0 w t : from_state w0 w -> from_state w0 (with_trigger t w).
Proof. intros H. apply (from_same _ w); [done|apply same_packets_trigger|done..]. Qed.
Lemma from_pending w0 w t : from_state w0 w -> from_state w0 (with_trigger_pending t w).
Proof. intros H. apply (from_same _ w); [done|apply same_packets_pending|done..]. Qed.
Lemma from_purge w0 w s c : from_state w0 w -> from_state w0 (bl_tx_cntrl_purge_check s c w).
Proof.
  intros H. unfold bl_tx_cntrl_purge_check. destruct (_ || _); [|done]. destruct c; [done|]. by apply from_trigger, from_event.
Qed.

Lemma run_get_vif {A} w0 w i (k : bl_vif -> outcome (A * wifi)) : from_state w0 w -> 0 <= i < 2 ->
  (forall v, vif_table w !! Z.to_nat i = Some v -> vif_range v -> fin w0 (k v)) -> fin w0 (get_vif w i ≫= k).
Proof.
  intros [_ Ht] Hi Hk. destruct (lookup_lt_is_Some_2 (vif_table w) (Z.to_nat i)) as [v Hv]; [rewrite (tk_vifs _ Ht); lia|].
  step_with (get_vif_done _ _ _ (proj1 Hi) Hv). apply Hk; [done|]. by eapply (tk_vif _ Ht).
Qed.
Lemma run_get_sta {A} w0 w i (k : bl_sta -> outcome (A * wifi)) : from_state w0 w -> 0 <= i < 7 ->
  (forall s, sta_table w !! Z.to_nat i = Some s -> sta_range s -> fin w0 (k s)) -> fin w0 (get_sta w i ≫= k).
Proof.
  intros [_ Ht] Hi Hk. destruct (lookup_lt_is_Some_2 (sta_table w) (Z.to_nat i)) as [s Hs]; [rewrite (tk_stas _ Ht); lia|].
  step_with (get_sta_done _ _ _ (proj1 Hi) Hs). apply Hk; [done|]. by eapply (tk_sta _ Ht).
Qed.
Lemma run_upd_vif {A} w0 w i f (k : wifi -> outcome (A * wifi)) : from_state w0 w -> 0 <= i < 2 ->
  (forall v, vif_range v -> vif_range (f v)) -> (forall w', from_state w0 w' -> fin w0 (k w')) -> fin w0 (upd_vif i f w ≫= k).
Proof.
  intros [Hs Ht] Hi Hf Hk. destruct (lookup_lt_is_Some_2 (vif_table w) (Z.to_nat i)) as [v Hv]; [rewrite (tk_vifs _ Ht); lia|].
  rewrite (upd_vif_done _ _ _ _ (proj1 Hi) Hv). cbn [mbind outcome_bind]. apply Hk.
  rewrite <- (alter_as_insert _ _ _ _ Hv). split; [eapply same_packets_trans; [done|auto with packets]|].
  apply tables_vifs; [done|]. intros v' Hv'. apply Hf. by eapply (tk_vif _ Ht).
Qed.
Lemma run_upd_sta {A} w0 w i f (k : wifi -> outcome (A * wifi)) : from_state w0 w -> 0 <= i < 7 -> keeps_queue f ->
  (forall s, sta_range s -> sta_range (f s)) -> (forall w', from_state w0 w' -> fin w0 (k w')) -> fin w0 (upd_sta i f w ≫= k).
Proof.
  intros [Hs Ht] Hi Hq Hf Hk. destruct (lookup_lt_is_Some_2 (sta_table w) (Z.to_nat i)) as [s Hv]; [rewrite (tk_stas _ Ht); lia|].
  rewrite (upd_sta_done _ _ _ _ (proj1 Hi) Hv). cbn [mbind outcome_bind]. apply Hk.
  rewrite <- (alter_as_insert _ _ _ _ Hv). split; [eapply same_packets_trans; [done|auto with packets]|].
  apply tables_stas; [done|]. intros s' Hs'. apply Hf. by eapply (tk_sta _ Ht).
Qed.

Lemma outcome_bind_assoc {A B C} (m : outcome A) (f : A -> outcome B) (g : B -> outcome C) :
  (m ≫= f) ≫= g = m ≫= (fun x => f x ≫= g).
Proof. by destruct m. Qed.

(** one step of such a proof *)
Ltac table_step :=
  lazymatch goal with
  | |- fin _ ((_ ≫= _) ≫= _) => rewrite outcome_bind_assoc
  | |- fin _ (Done _ ≫= _) => cbn [mbind outcome_bind]
  | |- fin _ (get_vif _ _ ≫= _) => eapply run_get_vif; [|unfold BL_VIF_AP, BL_VIF_STA, NX_VIRT_DEV_MAX; lia|intros ? _ ?]
  | |- fin _ (get_sta _ _ ≫= _) => eapply run_get_sta; [| |intros ? _ ?]
  | |- fin _ (upd_vif _ _ _ ≫= _) =>
      eapply run_upd_vif; [|unfold BL_VIF_AP, BL_VIF_STA, NX_VIRT_DEV_MAX; lia|unfold vif_range in *; cbn; lia|intros ? ?]
  | |- fin _ (upd_sta _ _ _ ≫= _) =>
      eapply run_upd_sta; [| |by split|unfold sta_range in *; cbn; unfold BL_VIF_AP, BL_VIF_STA, NX_VIRT_DEV_MAX; lia|intros ? ?]
  | |- fin _ ((if ?c then _ else _) ≫= _) => destruct c eqn:?
  | |- fin _ (if ?c then _ else _) => destruct c eqn:?
  | |- fin _ (match ?c with Some _ => _ | None => _ end ≫= _) => destruct c
  | |- fin _ (Done _) => apply fin_done
  | |- from_state _ (unless_null _ _ _) => apply from_unless
  | |- from_state _ (log_event _ _) => apply from_event
  | |- from_state _ (bl_tx_cntrl_link_down _ _) => apply from_purge
  | |- from_state _ (bl_tx_cntrl_link_up _ _) => apply from_purge
  | |- from_state _ (with_trigger _ _) => apply from_trigger
  | |- from_state _ (with_trigger_pending _ _) => apply from_pending
  | |- from_state _ (if ?c then _ else _) => destruct c
  | |- 0 <= fixed_sta_idx _ < 7 => assumption
  | |- _ => assumption
  end.

Lemma from_refl w : tables_ok w -> from_state w w.
Proof. intros H. split; [apply same_packets_refl|done]. Qed.

Section Tables.
Context (w : wifi) (Hw : tables_ok w).
Let Hrefl : from_state w w := from_refl w Hw.

Lemma update_fc_fin fc : fin w (bl_tx_cntrl_update_fc fc w).
Proof using All. unfold bl_tx_cntrl_update_fc. repeat table_step. Qed.
Lemma flush_begin_fin param fc : fin w (flush_begin param fc w).
Proof using All.
  unfold flush_begin. destruct fc as [fc|]; [destruct (param =? 0)|]; try by repeat table_step.
  destruct (update_fc_fin fc) as (t & w1 & -> & H1). cbn [mbind outcome_bind]. repeat table_step.
Qed.
Lemma sm_connect_ind_fin reg c : fin w (bl_rx_sm_connect_ind reg c w).
Proof using All. unfold bl_rx_sm_connect_ind. repeat table_step. Qed.
Lemma sm_disconnect_ind_fin reg c : fin w (bl_rx_sm_disconnect_ind reg c w).
Proof using All. unfold bl_rx_sm_disconnect_ind. repeat table_step. Qed.
Lemma sm_sta_add_ind_fin idx q : 0 <= idx < 7 -> fin w (bl_rx_sm_sta_add_ind idx q w).
Proof using All. intros Hi. unfold bl_rx_sm_sta_add_ind. repeat table_step. Qed.
Lemma apm_sta_add_ind_fin ind : 0 <= add_sta_idx ind -> fin w (bl_rx_apm_sta_add_ind ind w).
Proof using All.
  intros Hi. unfold bl_rx_apm_sta_add_ind. destruct (Z.leb_spec NX_REMOTE_STA_STORE_MAX (add_sta_idx ind)) as [|Hlt]; [by repeat table_step|].
  assert (0 <= add_sta_idx ind < 7) by (unfold NX_REMOTE_STA_STORE_MAX in Hlt; lia). repeat table_step.
Qed.
Lemma apm_sta_del_ind_fin idx : 0 <= idx -> fin w (bl_rx_apm_sta_del_ind idx w).
Proof using All.
  intros Hi. unfold bl_rx_apm_sta_del_ind. table_step; [done|].
  destruct (Z.leb_spec NX_REMOTE_STA_STORE_MAX idx) as [|Hlt]; cbn [orb]; [by repeat table_step|].
  assert (0 <= idx < 7) by (unfold NX_REMOTE_STA_STORE_MAX in Hlt; lia). repeat table_step.
Qed.
Lemma apm_start_fin err idx : 0 <= idx < 7 -> fin w (bl_main_apm_start err idx w).
Proof using All. intros Hi. unfold bl_main_apm_start. repeat table_step. Qed.
Lemma if_add_fin is_sta netif err st inst : fin w (bl_main_if_add is_sta netif err st inst w).
Proof using All.
  unfold bl_main_if_add. do 2 (table_step; [by repeat table_step|]).
  eapply run_upd_vif; [done|destruct is_sta; unfold BL_VIF_AP, BL_VIF_STA, NX_VIRT_DEV_MAX; lia|unfold vif_range; cbn; lia|].
  intros. by repeat table_step.
Qed.
Lemma if_remove_fin idx : 0 <= idx < 2 -> fin w (bl_main_if_remove idx w).
Proof using All.
  intros Hi. unfold bl_main_if_remove. eapply run_upd_vif; [done|done|unfold vif_range; cbn; lia|]. intros. by repeat table_step.
Qed.
Lemma powersaving_fin ret mode : fin w (bl_main_powersaving ret mode w).
Proof using All. unfold bl_main_powersaving. repeat table_step. Qed.
End Tables.
