(* ===== verification/BlTxFlush.v ===== *)
(** * What a flush sends (bl_tx_try_flush of bl_tx.c)

    The loops of the flush against a plan: the stations in order of their index,
    each with as many packets of its pending and then its waiting list as there are
    descriptors left. *)
From S2P Require Import Prelude BlTx BlSta BlTxProofs BlTxReach.

(** ** The packets a station gives up *)

(** the first [k] packets of the pending and then the waiting list are gone *)
Definition drop_queue (k : nat) (s : bl_sta) : bl_sta :=
  set_waiting (drop (k - length (pending_list s)) (waiting_list s)) (set_pending (drop k (pending_list s)) s).

Lemma drop_queue_0 s : drop_queue 0 s = s.
Proof. unfold drop_queue. rewrite !drop_0. by destruct s. Qed.
Lemma drop_queue_add a b s : drop_queue b (drop_queue a s) = drop_queue (a + b) s.
Proof.
  unfold drop_queue, set_waiting, set_pending. cbn. rewrite !drop_drop, length_drop. do 2 f_equal. lia.
Qed.
Lemma drop_queue_queue k s : sta_queue (drop_queue k s) = drop k (sta_queue s).
Proof. unfold sta_queue, drop_queue. cbn. by rewrite drop_app. Qed.

Lemma alter_twice {A} (f g : A -> A) n (l : list A) : alter g n (alter f n l) = alter (fun x => g (f x)) n l.
Proof. revert n. induction l as [|x l IH]; intros [|n]; cbn; try done. f_equal. apply IH. Qed.

(** [w'] is [w] after station [n] gave its first packets [l] to the firmware; [m] are
    the bits added to the pending trigger *)
Definition push_entry (w : wifi) (h : Z) : packet * Z :=
  (pk w h, match txhdrs w !! h with Some x => repush x | None => 0 end).
Record sent (n : nat) (l : list Z) (m : Z) (w w' : wifi) : Prop := {
  se_stas : sta_table w' = alter (drop_queue (length l)) n (sta_table w);
  se_queue : forall s, sta_table w !! n = Some s -> l = take (length l) (sta_queue s);
  se_vifs : vif_table w' = vif_table w;
  se_trigger : tx_cntrl_sta_trigger w' = tx_cntrl_sta_trigger w;
  se_pending : tx_cntrl_sta_trigger_pending w' = Z.lor (tx_cntrl_sta_trigger_pending w) m;
  se_descs : list_free (ipc w') = drop (length l) (list_free (ipc w))
    /\ list_ongoing (ipc w') = list_ongoing (ipc w) ++ take (length l) (list_free (ipc w))
    /\ list_cfm (ipc w') = list_cfm (ipc w) /\ (length l <= length (list_free (ipc w)))%nat;
  se_mem : pbufs w' = pbufs w /\ txhdrs w' = txhdrs w;
  se_pushes : pushes (hist w') = pushes (hist w) ++ (push_entry w <$> l);
  se_hist : outs (hist w') = outs (hist w) /\ dones (hist w') = dones (hist w) /\ calls (hist w') = calls (hist w) }.

Lemma sent_nil n m w w' : w' = with_trigger_pending (Z.lor (tx_cntrl_sta_trigger_pending w) m) w -> sent n [] m w w'.
Proof.
  intros ->. split; cbn [with_trigger_pending sta_table vif_table tx_cntrl_sta_trigger tx_cntrl_sta_trigger_pending ipc pbufs
    txhdrs hist length fmap list_fmap take drop]; try done.
  - symmetry. apply list_alter_id. intros. apply drop_queue_0.
  - rewrite app_nil_r. split; [done|]. split; [done|]. split; [done|]. lia.
  - by rewrite app_nil_r.
Qed.

Lemma sent_trans n l1 l2 m1 m2 w1 w2 w3 : sent n l1 m1 w1 w2 -> sent n l2 m2 w2 w3 -> sent n (l1 ++ l2) (Z.lor m1 m2) w1 w3.
Proof.
  intros [] []. split; rewrite ?length_app.
  - rewrite se_stas1, se_stas0, alter_twice. apply list_alter_ext; [|done]. intros s Hs. apply drop_queue_add.
  - intros s Hs. rewrite (se_queue0 s Hs) at 1. rewrite (se_queue1 (drop_queue (length l1) s)) at 1.
    + rewrite drop_queue_queue, take_take_drop. done.
    + by rewrite se_stas0, list_lookup_alter_eq, Hs.
  - congruence.
  - congruence.
  - rewrite se_pending1, se_pending0. by rewrite Z.lor_assoc.
  - destruct se_descs0 as (F1 & O1 & C1 & L1), se_descs1 as (F2 & O2 & C2 & L2).
    rewrite F1, length_drop in L2. rewrite F2, O2, C2, F1, O1, C1, drop_drop, <- app_assoc, take_take_drop.
    split; [done|]. split; [done|]. split; [done|]. lia.
  - destruct se_mem0, se_mem1. split; congruence.
  - rewrite se_pushes1, se_pushes0, fmap_app, <- app_assoc. do 2 f_equal. destruct se_mem0 as [_ Hx].
    apply list_fmap_ext. intros i h _. unfold push_entry, pk. by rewrite Hx.
  - destruct se_hist0 as (? & ? & ?), se_hist1 as (? & ? & ?). split; [congruence|]. split; congruence.
Qed.

(** *** One turn *)
Lemma turn_send prep callers w n s s' h d free : wf prep callers w -> sta_table w !! n = Some s -> takes s h s' ->
  s' = drop_queue 1 s -> [h] = take 1 (sta_queue s) -> list_free (ipc w) = d :: free ->
  exists w', bl_tx_push s d h (with_stas (<[n := s']> (sta_table w)) w) = Done w' /\ sent n [h] 0 w w' /\ wf prep callers w'.
Proof.
  intros Hwf Hs Ht Es Eq Hf. destruct (send_done _ _ _ _ _ _ _ _ _ Hwf Hs Ht Hf) as (x & b & v & Hx & Hb & Hk & Hi & ->).
  destruct (send_owner _ _ _ _ _ _ _ Hwf Hs Ht) as (x' & b' & Hx' & _ & _ & _ & Hr). simplify_eq.
  eexists. split; [done|]. assert (Hok : pbuf_ok (hdr_p x) b) by (by apply (wf_mem _ _ _ Hwf)). split.
  - split; cbn [after_push log_event log_push with_hist with_ipc with_stas sta_table vif_table tx_cntrl_sta_trigger
      tx_cntrl_sta_trigger_pending ipc pbufs txhdrs hist list_free list_ongoing list_cfm pushes outs dones calls length]; try done.
    + by rewrite (alter_as_insert _ _ _ _ Hs).
    + intros s0 Hs0. simplify_eq. done.
    + by rewrite Z.lor_0_r.
    + rewrite Hf. cbn. split; [done|]. split; [done|]. split; [done|]. lia.
    + cbn [fmap list_fmap]. unfold push_entry. by rewrite (pk_at _ _ _ Hx), Hx.
  - exact (wf_send prep callers w n s _ h d free x b (txdesc_for s v h x b) Hwf Hs Ht Hf Hx Hi
      (txdesc_hdr_for _ _ _ _ _ _ Hok Hk) eq_refl Hr).
Qed.

Section Loops.
Context (prep : list (Z * Z)) (callers : Z -> Z) (n : nat).
Let i := Z.of_nat n.

Lemma pending_turn_cases w s : wf prep callers w -> sta_table w !! n = Some s ->
  match list_free (ipc w), pending_list s with
  | _ :: _, h :: _ => exists w', pending_turn i w = Done (inr w') /\ sent n [h] 0 w w' /\ wf prep callers w'
  | _, _ => pending_turn i w = Done (inl (retrigger i w))
  end.
Proof using.
  intros Hwf Hs. assert (Hn : sta_table w !! Z.to_nat i = Some s) by (unfold i; by rewrite Nat2Z.id).
  unfold pending_turn, ipc_host_txdesc_get. destruct (list_free (ipc w)) as [|d free] eqn:Ef; cbn [head]; [done|].
  step_with (get_sta_done w i s (Nat2Z.is_nonneg n) Hn). destruct (pending_list s) as [|h q] eqn:Eq; [done|].
  rewrite (upd_sta_done w i s (set_pending q) (Nat2Z.is_nonneg n) Hn). cbn [mbind outcome_bind]. unfold i. rewrite Nat2Z.id.
  destruct (turn_send prep callers w n s (set_pending q s) h d free) as (w' & E & H1 & H2); try done.
  - left. eauto.
  - unfold drop_queue. rewrite Eq. cbn. rewrite drop_0. by destruct s.
  - unfold sta_queue. by rewrite Eq.
  - rewrite E. cbn. eauto.
Qed.

Lemma waiting_turn_cases w s : wf prep callers w -> sta_table w !! n = Some s ->
  list_free (ipc w) = [] \/ pending_list s = [] ->
  match list_free (ipc w), waiting_list s with
  | _ :: _, h :: _ => exists w', waiting_turn i w = Done (inr w') /\ sent n [h] 0 w w' /\ wf prep callers w'
  | [], _ => waiting_turn i w = Done (inl (retrigger i w))
  | _, [] => waiting_turn i w = Done (inl w)
  end.
Proof using.
  intros Hwf Hs Hp. assert (Hn : sta_table w !! Z.to_nat i = Some s) by (unfold i; by rewrite Nat2Z.id).
  unfold waiting_turn, ipc_host_txdesc_get. destruct (list_free (ipc w)) as [|d free] eqn:Ef; cbn [head]; [done|].
  step_with (get_sta_done w i s (Nat2Z.is_nonneg n) Hn). destruct (waiting_list s) as [|h q] eqn:Eq; [done|].
  rewrite (upd_sta_done w i s (set_waiting q) (Nat2Z.is_nonneg n) Hn). cbn [mbind outcome_bind]. unfold i. rewrite Nat2Z.id.
  destruct (turn_send prep callers w n s (set_waiting q s) h d free) as (w' & E & H1 & H2); try done.
  - right. eauto.
  - destruct Hp as [|Hp]; [congruence|]. unfold drop_queue. rewrite Eq, Hp. cbn. unfold set_waiting, set_pending. cbn. by rewrite Hp.
  - destruct Hp as [|Hp]; [congruence|]. unfold sta_queue. by rewrite Eq, Hp.
  - rewrite E. cbn. eauto.
Qed.

Lemma sent_sta l m w w' s : sent n l m w w' -> sta_table w !! n = Some s -> sta_table w' !! n = Some (drop_queue (length l) s).
Proof using. intros [] Hs. by rewrite se_stas0, list_lookup_alter_eq, Hs. Qed.

Lemma pending_loop fuel w s : wf prep callers w -> sta_table w !! n = Some s -> (length (list_free (ipc w)) < fuel)%nat ->
  exists w', turns (pending_turn i) fuel w = Done w' /\ wf prep callers w'
    /\ sent n (take (length (list_free (ipc w))) (pending_list s)) (BIT_STA i) w w'.
Proof using.
  revert w s. induction fuel as [|fuel IH]; intros w s Hwf Hs Hf; [lia|]. cbn [turns].
  pose proof (pending_turn_cases w s Hwf Hs) as Hc.
  destruct (list_free (ipc w)) as [|d free] eqn:Ef; [|destruct (pending_list s) as [|h q] eqn:Eq].
  1-2: rewrite Hc; eexists; split; [done|]; split; [|rewrite ?take_nil; by apply sent_nil].
  1-2: apply (wf_same _ _ w); [apply same_packets_pending| |done]; by eapply tables_same; [eapply wf_tables| |].
  destruct Hc as (w1 & -> & Hsent & Hwf1). cbn [mbind outcome_bind].
  pose proof (sent_sta _ _ _ _ _ Hsent Hs) as Hs1. destruct (se_descs _ _ _ _ _ Hsent) as (Hf1 & _). rewrite Ef in Hf1. cbn in Hf1.
  rewrite drop_0 in Hf1. cbn [length] in Hf |- *.
  destruct (IH w1 _ Hwf1 Hs1) as (w' & E & Hwf' & Hsent'); [rewrite Hf1; lia|]. exists w'. split; [done|]. split; [done|].
  rewrite Hf1 in Hsent'. cbn [drop_queue pending_list set_waiting set_pending length] in Hsent'. rewrite Eq in Hsent'. cbn in Hsent'.
  rewrite drop_0 in Hsent'. cbn [take]. exact (sent_trans _ [h] _ 0 _ _ _ _ Hsent Hsent').
Qed.

Lemma waiting_loop fuel w s : wf prep callers w -> sta_table w !! n = Some s ->
  list_free (ipc w) = [] \/ pending_list s = [] -> (length (list_free (ipc w)) < fuel)%nat ->
  exists w', turns (waiting_turn i) fuel w = Done w' /\ wf prep callers w'
    /\ sent n (take (length (list_free (ipc w))) (waiting_list s))
         (if (length (list_free (ipc w)) <=? length (waiting_list s))%nat then BIT_STA i else 0) w w'.
Proof using.
  revert w s. induction fuel as [|fuel IH]; intros w s Hwf Hs Hp Hf; [lia|]. cbn [turns].
  pose proof (waiting_turn_cases w s Hwf Hs Hp) as Hc.
  destruct (list_free (ipc w)) as [|d free] eqn:Ef; [|destruct (waiting_list s) as [|h q] eqn:Eq].
  - rewrite Hc. eexists. split; [done|]. split; [|cbn; by apply sent_nil].
    apply (wf_same _ _ w); [apply same_packets_pending| |done]. by eapply tables_same; [eapply wf_tables| |].
  - rewrite Hc. eexists. split; [done|]. split; [done|]. cbn [take length Nat.leb]. apply sent_nil. rewrite Z.lor_0_r. by destruct w.
  - destruct Hc as (w1 & -> & Hsent & Hwf1). cbn [mbind outcome_bind].
    pose proof (sent_sta _ _ _ _ _ Hsent Hs) as Hs1. destruct (se_descs _ _ _ _ _ Hsent) as (Hf1 & _). rewrite Ef in Hf1. cbn in Hf1.
    rewrite drop_0 in Hf1. cbn [length] in Hf |- *. destruct Hp as [|Hp]; [congruence|].
    destruct (IH w1 _ Hwf1 Hs1) as (w' & E & Hwf' & Hsent'); [right; cbn; by rewrite Hp|rewrite Hf1; lia|].
    exists w'. split; [done|]. split; [done|].
    rewrite Hf1 in Hsent'. cbn [drop_queue waiting_list set_waiting set_pending length] in Hsent'. rewrite Eq, Hp in Hsent'.
    cbn in Hsent'. rewrite drop_0 in Hsent'. cbn [take Nat.leb]. exact (sent_trans _ [h] _ 0 _ _ _ _ Hsent Hsent').
Qed.
End Loops.

(** ** One station, and all *)

(** flow control lets the station send *)
Definition tx_open (w : wifi) (s : bl_sta) : bool :=
  (fc_ps s =? 0) && match vif_table w !! Z.to_nat (vif_idx s) with Some v => fc_chan v =? 0 | None => false end.
(** the station is triggered and open *)
Definition served (t : Z) (w : wifi) (n : nat) (s : bl_sta) : bool := any t (BIT_STA (Z.of_nat n)) && tx_open w s.
(** what station [n] gives when [f] descriptors are left *)
Definition share (t : Z) (w : wifi) (n f : nat) : list Z :=
  match sta_table w !! n with Some s => if served t w n s then take f (sta_queue s) else [] | None => [] end.
(** and whether it asks to be triggered again *)
Definition share_bit (t : Z) (w : wifi) (n f : nat) : Z :=
  match sta_table w !! n with
  | Some s => if served t w n s && (negb (bool_decide (pending_list s = []))
                 || (negb (bool_decide (waiting_list s = [])) && (f <=? length (sta_queue s))%nat))
              then BIT_STA (Z.of_nat n) else 0
  | None => 0
  end.

Lemma can_tx_done prep callers w n s t : wf prep callers w -> sta_table w !! n = Some s ->
  can_tx (Z.of_nat n) t w = Done (served t w n s).
Proof.
  intros Hwf Hs. assert (Hn : sta_table w !! Z.to_nat (Z.of_nat n) = Some s) by (by rewrite Nat2Z.id).
  unfold can_tx, served, tx_open. step_with (get_sta_done w _ s (Nat2Z.is_nonneg n) Hn).
  destruct (any t _); cbn [andb]; [|done]. unfold bl_tx_cntrl_check_fc. destruct (fc_ps s =? 0); cbn [andb]; [|done].
  destruct (wf_sta_vif _ _ _ Hwf _ _ Hs) as [Hv _]. destruct (vif_at _ _ _ _ Hwf Hv) as [v Hvv].
  step_with (get_vif_done w _ v (proj1 Hv) Hvv). by rewrite Hvv.
Qed.

Lemma flush_sta_spec prep callers w n s t : wf prep callers w -> sta_table w !! n = Some s ->
  exists w', flush_sta (Z.of_nat n) t w = Done w' /\ wf prep callers w'
    /\ sent n (share t w n (length (list_free (ipc w)))) (share_bit t w n (length (list_free (ipc w)))) w w'.
Proof.
  intros Hwf Hs. assert (Hn : forall w s, sta_table w !! n = Some s -> get_sta w (Z.of_nat n) = Done s).
  { intros w1 s1 H1. apply get_sta_done; [lia|by rewrite Nat2Z.id]. }
  unfold flush_sta, share, share_bit. step_with (can_tx_done _ _ _ _ _ t Hwf Hs). rewrite Hs.
  assert (Hnil : forall w, sent n [] 0 w w) by (intros w0; apply sent_nil; rewrite Z.lor_0_r; by destruct w0).
  destruct (served t w n s); cbn [negb andb]; [|by exists w].
  step_with (Hn w s Hs). set (f := length (list_free (ipc w))).
  assert (H1 : exists w1 m1, (if bool_decide (pending_list s = []) then Done w else turns (pending_turn (Z.of_nat n)) (turn_fuel w) w)
      = Done w1 /\ wf prep callers w1 /\ sent n (take f (pending_list s)) m1 w w1
      /\ m1 = (if bool_decide (pending_list s = []) then 0 else BIT_STA (Z.of_nat n))).
  { case_bool_decide as E; [exists w, 0; rewrite E, take_nil; done|].
    destruct (pending_loop prep callers n (turn_fuel w) w s Hwf Hs) as (w1 & ? & ? & ?); [unfold turn_fuel; lia|]. eauto 10. }
  destruct H1 as (w1 & m1 & -> & Hwf1 & Hs1 & Hm1). cbn [mbind outcome_bind].
  pose proof (sent_sta _ _ _ _ _ _ Hs1 Hs) as Hst1. step_with (Hn w1 _ Hst1).
  set (s1 := drop_queue _ s) in *. assert (Hlen : length (take f (pending_list s)) = Nat.min f (length (pending_list s))) by apply length_take.
  assert (Hw1 : waiting_list s1 = waiting_list s).
  { unfold s1. cbn. rewrite Hlen. replace (_ - _)%nat with 0%nat by lia. apply drop_0. }
  assert (Hf1 : length (list_free (ipc w1)) = (f - length (pending_list s))%nat).
  { destruct (se_descs _ _ _ _ _ Hs1) as (-> & _). rewrite length_drop, Hlen. fold f. lia. }
  assert (Hl : take f (sta_queue s) = take f (pending_list s) ++ take (f - length (pending_list s)) (waiting_list s)).
  { unfold sta_queue. by rewrite take_app. }
  rewrite Hl, Hw1. destruct (decide (waiting_list s = [])) as [Ew|Ew];
    [rewrite !(bool_decide_eq_true_2 _ Ew)|rewrite !(bool_decide_eq_false_2 _ Ew)].
  - exists w1. split; [done|]. split; [done|]. cbn [negb andb]. rewrite orb_false_r, Ew, take_nil, app_nil_r.
    rewrite Hm1 in Hs1. destruct (bool_decide (pending_list s = [])); exact Hs1.
  - destruct (waiting_loop prep callers n (turn_fuel w1) w1 s1 Hwf1 Hst1) as (w2 & E2 & Hwf2 & Hs2); [|unfold turn_fuel; lia|].
    { destruct (Nat.le_gt_cases f (length (pending_list s))).
      - left. apply nil_length_inv. lia.
      - right. unfold s1. cbn. rewrite Hlen. apply drop_ge. lia. }
    exists w2. split; [done|]. split; [done|]. rewrite Hf1, Hw1 in Hs2. pose proof (sent_trans _ _ _ _ _ _ _ _ Hs1 Hs2) as Hs3.
    rewrite Hm1 in Hs3. cbn [negb andb]. unfold sta_queue. rewrite length_app. case_bool_decide as Ep; cbn [negb orb].
    + rewrite Ep in *. cbn [length] in *. rewrite Nat.sub_0_r in *. exact Hs3.
    + destruct (_ <=? _)%nat in Hs3; [by rewrite Z.lor_diag in Hs3|by rewrite Z.lor_0_r in Hs3].
Qed.

Fixpoint plan (t : Z) (w : wifi) (ns : list nat) (f : nat) : list (nat * list Z) :=
  match ns with
  | [] => []
  | n :: ns => let l := share t w n f in (n, l) :: plan t w ns (f - length l)
  end.
Fixpoint plan_bits (t : Z) (w : wifi) (ns : list nat) (f : nat) : Z :=
  match ns with
  | [] => 0
  | n :: ns => Z.lor (share_bit t w n f) (plan_bits t w ns (f - length (share t w n f)))
  end.
(** the packets sent, in order, and how many of them are station [n]'s *)
Definition plan_packets (ps : list (nat * list Z)) : list Z := concat (snd <$> ps).
Definition plan_count (ps : list (nat * list Z)) (n : nat) : nat := length (concat (snd <$> filter (fun p : nat * list Z => p.1 = n) ps)).

(** [w'] is [w] after the packets of the plan were sent *)
Record flushed (ps : list (nat * list Z)) (m : Z) (w w' : wifi) : Prop := {
  fl_stas : forall n s, sta_table w !! n = Some s -> sta_table w' !! n = Some (drop_queue (plan_count ps n) s);
  fl_vifs : vif_table w' = vif_table w;
  fl_trigger : tx_cntrl_sta_trigger w' = tx_cntrl_sta_trigger w;
  fl_pending : tx_cntrl_sta_trigger_pending w' = Z.lor (tx_cntrl_sta_trigger_pending w) m;
  fl_free : list_free (ipc w') = drop (length (plan_packets ps)) (list_free (ipc w));
  fl_ongoing : list_ongoing (ipc w') = list_ongoing (ipc w) ++ take (length (plan_packets ps)) (list_free (ipc w));
  fl_cfm : list_cfm (ipc w') = list_cfm (ipc w);
  fl_enough : (length (plan_packets ps) <= length (list_free (ipc w)))%nat;
  fl_mem : pbufs w' = pbufs w /\ txhdrs w' = txhdrs w;
  fl_pushes : pushes (hist w') = pushes (hist w) ++ (push_entry w <$> plan_packets ps);
  fl_hist : outs (hist w') = outs (hist w) /\ dones (hist w') = dones (hist w) /\ calls (hist w') = calls (hist w) }.

Lemma flushed_nil w : flushed [] 0 w w.
Proof.
  split; try done.
  - intros n s Hs. unfold plan_count. cbn. by rewrite drop_queue_0.
  - by rewrite Z.lor_0_r.
  - cbn. by rewrite app_nil_r.
  - cbn. lia.
  - cbn. by rewrite app_nil_r.
Qed.

Lemma flushed_cons n l m ps m' w w1 w2 : sent n l m w w1 -> flushed ps m' w1 w2 -> flushed ((n, l) :: ps) (Z.lor m m') w w2.
Proof.
  intros [] []. destruct se_descs0 as (F1 & O1 & C1 & L1), se_mem0 as [M1 M2], se_hist0 as (H1 & H2 & H3).
  destruct fl_mem0 as [M3 M4], fl_hist0 as (H4 & H5 & H6). rewrite F1, length_drop in fl_enough0.
  split; try congruence; unfold plan_packets in *; cbn [fmap list_fmap snd concat] in *; rewrite ?length_app.
  - intros k s Hs. unfold plan_count. rewrite filter_cons. cbn [fst]. case_decide as E.
    + subst k. cbn [fmap list_fmap snd concat]. rewrite length_app, <- drop_queue_add. apply fl_stas0.
      by rewrite se_stas0, list_lookup_alter_eq, Hs.
    + apply fl_stas0. by rewrite se_stas0, list_lookup_alter_ne.
  - by rewrite fl_pending0, se_pending0, Z.lor_assoc.
  - by rewrite fl_free0, F1, drop_drop.
  - by rewrite fl_ongoing0, O1, F1, <- app_assoc, take_take_drop.
  - lia.
  - split; congruence.
  - rewrite fl_pushes0, se_pushes0, fmap_app, <- app_assoc. do 2 f_equal.
    apply list_fmap_ext. intros i h _. unfold push_entry, pk. by rewrite M2.
  - split; [congruence|]. split; congruence.
Qed.

Lemma share_ext t w w' n f : sta_table w' !! n = sta_table w !! n -> vif_table w' = vif_table w -> share t w' n f = share t w n f.
Proof. intros E1 E2. unfold share, served, tx_open. by rewrite E1, E2. Qed.
Lemma share_bit_ext t w w' n f : sta_table w' !! n = sta_table w !! n -> vif_table w' = vif_table w -> share_bit t w' n f = share_bit t w n f.
Proof. intros E1 E2. unfold share_bit, served, tx_open. by rewrite E1, E2. Qed.
Lemma plan_ext t w w' ns f : (forall n, n ∈ ns -> sta_table w' !! n = sta_table w !! n) -> vif_table w' = vif_table w ->
  plan t w' ns f = plan t w ns f /\ plan_bits t w' ns f = plan_bits t w ns f.
Proof.
  intros Hs Hv. revert f. induction ns as [|n ns IH]; intros f; cbn; [done|].
  assert (Hn : sta_table w' !! n = sta_table w !! n) by (apply Hs; left).
  rewrite (share_ext _ w w') by done. rewrite (share_bit_ext _ w w') by done.
  destruct (IH ltac:(intros; apply Hs; by right) (f - length (share t w n f))%nat) as [-> ->]. done.
Qed.

Lemma flush_stas_spec prep callers ns t w : wf prep callers w -> (forall n, n ∈ ns -> (n < 7)%nat) -> NoDup ns -> t <> 0 ->
  exists w', flush_stas (Z.of_nat <$> ns) t w = Done w' /\ wf prep callers w' /\
    flushed (plan t w ns (length (list_free (ipc w)))) (plan_bits t w ns (length (list_free (ipc w)))) w w'.
Proof.
  intros Hwf Hn Hnd Ht. revert w Hwf. induction ns as [|n ns IH]; intros w Hwf; cbn.
  { exists w. split; [done|]. split; [done|]. apply flushed_nil. }
  apply NoDup_cons in Hnd as [Hni Hnd]. rewrite (proj2 (Z.eqb_neq t 0) Ht).
  destruct (lookup_lt_is_Some_2 (sta_table w) n) as [s Hs]; [rewrite (wf_stas _ _ _ Hwf); apply Hn; left|].
  destruct (flush_sta_spec _ _ _ _ _ t Hwf Hs) as (w1 & E1 & Hwf1 & Hs1). step_with E1.
  destruct (IH ltac:(intros; apply Hn; by right) Hnd w1 Hwf1) as (w2 & E2 & Hwf2 & Hf2).
  exists w2. split; [done|]. split; [done|]. destruct (plan_ext t w w1 ns (length (list_free (ipc w1)))) as [P1 P2].
  - intros m Hm. rewrite (se_stas _ _ _ _ _ Hs1), list_lookup_alter_ne; [done|congruence].
  - apply Hs1.
  - rewrite P1, P2 in Hf2. destruct (se_descs _ _ _ _ _ Hs1) as (F1 & _). rewrite F1, length_drop in Hf2.
    exact (flushed_cons _ _ _ _ _ _ _ _ Hs1 Hf2).
Qed.

Definition sta_indexes : list nat := seq 0 7.
Lemma all_stas_indexes : all_stas = Z.of_nat <$> sta_indexes.
Proof. reflexivity. Qed.

Lemma plan_none w ns f : plan_packets (plan 0 w ns f) = [] /\ plan_bits 0 w ns f = 0 /\ forall n, plan_count (plan 0 w ns f) n = 0%nat.
Proof.
  assert (Hsv : forall n s, served 0 w n s = false) by (intros n s; unfold served, any; by rewrite Z.land_0_l).
  assert (Hsh : forall n f, share 0 w n f = []) by (intros n g; unfold share; destruct (_ !! _); [by rewrite Hsv|done]).
  assert (Hsb : forall n f, share_bit 0 w n f = 0) by (intros n g; unfold share_bit; destruct (_ !! _); [by rewrite Hsv|done]).
  revert f. induction ns as [|n ns IH]; intros f; [done|]. cbn [plan plan_bits]. rewrite Hsh, Hsb. cbn [length]. rewrite Nat.sub_0_r.
  destruct (IH f) as (I1 & I2 & I3). rewrite I2. split; [exact I1|]. split; [done|]. intros m. unfold plan_count in *.
  rewrite filter_cons. cbn [fst]. case_decide; cbn; apply I3.
Qed.

Lemma flushed_none ps m w : plan_packets ps = [] -> m = 0 -> (forall n, plan_count ps n = 0%nat) -> flushed ps m w w.
Proof.
  intros Hp -> Hc. split; rewrite ?Hp; try done.
  - intros n s Hs. by rewrite Hc, drop_queue_0.
  - by rewrite Z.lor_0_r.
  - cbn. by rewrite app_nil_r.
  - cbn. lia.
  - cbn. by rewrite app_nil_r.
Qed.

(** with the triggers [t] taken in the state [w1], the flush sends the plan *)
Lemma try_flush_spec prep callers param fc w : wf prep callers w ->
  exists t w1 w', flush_begin param fc w = Done (t, w1) /\ wf prep callers w1 /\ bl_tx_try_flush param fc w = Done w'
    /\ wf prep callers w' /\ flushed (plan t w1 sta_indexes (length (list_free (ipc w1))))
                                     (plan_bits t w1 sta_indexes (length (list_free (ipc w1)))) w1 w'.
Proof.
  intros Hwf. destruct (flush_begin_fin w (wf_tables _ _ _ Hwf) param fc) as (t & w1 & E & Hs & Ht).
  assert (Hwf1 : wf prep callers w1) by (by apply (wf_same _ _ w)). exists t, w1. unfold bl_tx_try_flush. rewrite E. cbn [mbind outcome_bind].
  rewrite all_stas_indexes. destruct (Z.eqb_spec t 0) as [->|Hne].
  - exists w1. destruct (plan_none w1 sta_indexes (length (list_free (ipc w1)))) as (P1 & P2 & P3).
    split; [done|]. split; [done|]. split; [done|]. split; [done|]. by apply flushed_none.
  - destruct (flush_stas_spec _ _ sta_indexes t w1 Hwf1) as (w' & Ew & Hwf' & Hf); [|apply NoDup_seq|done|].
    + intros n Hn. apply elem_of_seq in Hn. lia.
    + by exists w'.
Qed.
