(* ===== verification/BlTxSystem.v ===== *)
(** * The WiFi transmit path as a system of tasks

    The IP stack's calls, the WiFi task's confirmation handler and flush, the
    firmware and the messages about stations are steps of one system ([step]).  In
    each reachable state no packet is lost or doubled, each station gets its packets
    in order, and no step of the driver faults. *)
From S2P Require Import Prelude BlTx BlSta BlTxProofs BlTxReach BlTxFlush.

(** ** The system *)

(** calls of [bl_output] behind their preparation, where the flush is, and the
    references of the packets' owners *)
Record sys := { sw : wifi; sprep : list (Z * Z); spc : flush_pc; scallers : Z -> Z }.
Definition with_sw (w : wifi) (s : sys) : sys := {| sw := w; sprep := sprep s; spc := spc s; scallers := scallers s |}.

(** the calls that change the tables, with what they need of the firmware: indexes
    inside the tables, and a station that is deleted without queued packets *)
Inductive table_call : wifi -> outcome (Z * wifi) -> Prop :=
| tc_connect w registered code : table_call w (bl_rx_sm_connect_ind registered code w)
| tc_disconnect w registered code : table_call w (bl_rx_sm_disconnect_ind registered code w)
| tc_sm_add w idx q : 0 <= idx < 7 -> table_call w (bl_rx_sm_sta_add_ind idx q w)
| tc_apm_add w ind : 0 <= add_sta_idx ind -> table_call w (bl_rx_apm_sta_add_ind ind w)
| tc_apm_del w idx : 0 <= idx -> table_call w (bl_rx_apm_sta_del_ind idx w)
| tc_apm_start w err idx : 0 <= idx < 7 -> table_call w (bl_main_apm_start err idx w)
| tc_sta_delete w idx status : 0 <= idx < 7 ->
    (forall s, sta_table w !! Z.to_nat idx = Some s -> sta_queue s = []) -> table_call w (bl_main_apm_sta_delete idx status w)
| tc_if_remove w idx : 0 <= idx < 2 -> table_call w (bl_main_if_remove idx w)
| tc_powersaving w ret mode : table_call w (bl_main_powersaving ret mode w).

(** [pbuf_alloc] and other sources of packets: a new block with one reference *)
Record fresh_pbuf (s : sys) (p : Z) (b : pbuf) : Prop := {
  fp_none : pbufs (sw s) !! p = None;
  fp_callers : scallers s p = 0;
  fp_ref : ref b = 1;
  fp_mem : mem_ok (<[p := b]> (pbufs (sw s))) }.

Inductive step : sys -> sys -> Prop :=
| st_refused s p b is_sta cfm e w' :
    outputable (sprep s) (sw s) p b -> bl_output_prepare is_sta p cfm (sw s) = Done (inl (e, w')) -> step s (with_sw w' s)
| st_prepare s p b is_sta cfm i h w' :
    outputable (sprep s) (sw s) p b -> bl_output_prepare is_sta p cfm (sw s) = Done (inr (i, h, w')) ->
    step s {| sw := w'; sprep := sprep s ++ [(i, h)]; spc := spc s; scallers := scallers s |}
| st_enqueue s l1 i h l2 w' :
    sprep s = l1 ++ (i, h) :: l2 -> bl_output_enqueue i h (sw s) = Done w' ->
    step s {| sw := w'; sprep := l1 ++ l2; spc := spc s; scallers := scallers s |}
| st_firmware s d v l1 l2 :
    list_ongoing (ipc (sw s)) = l1 ++ d :: l2 -> step s (with_sw (fw_done d v l1 l2 (sw s)) s)
| st_confirm s w' : spc s = Idle -> tx_cfm_turn (sw s) = Done (Some w') -> step s (with_sw w' s)
| st_flush s param fc t w' : spc s = Idle -> flush_begin param fc (sw s) = Done (t, w') ->
    step s {| sw := w'; sprep := sprep s; spc := AtSta 0 t; scallers := scallers s |}
| st_piece s c w' : flush_piece (spc s) (sw s) = Done (c, w') ->
    step s {| sw := w'; sprep := sprep s; spc := c; scallers := scallers s |}
| st_tables s m r w' : table_call (sw s) m -> m = Done (r, w') -> step s (with_sw w' s)
| st_if_add s is_sta netif err status inst r idx w' :
    bl_main_if_add is_sta netif err status inst (sw s) = Done (r, idx, w') -> step s (with_sw w' s)
| st_alloc s p b : fresh_pbuf s p b ->
    step s {| sw := put_pbuf p b (sw s); sprep := sprep s; spc := spc s; scallers := add_caller p 1 (scallers s) |}
| st_edit s p b b' : pbufs (sw s) !! p = Some b -> p ∉ (pk_buf ∘ pk (sw s) <$> live (sprep s) (sw s)) ->
    ref b' = ref b -> size b' = size b -> pbuf_ok p b' -> step s (with_sw (put_pbuf p b' (sw s)) s)
| st_ref s p b w' : pbufs (sw s) !! p = Some b -> ref b < 255 -> pbuf_ref p (sw s) = Done w' ->
    step s {| sw := w'; sprep := sprep s; spc := spc s; scallers := add_caller p 1 (scallers s) |}
| st_free s p b w' : pbufs (sw s) !! p = Some b -> 0 < scallers s p -> pbuf_free p (sw s) = Done w' ->
    step s {| sw := w'; sprep := sprep s; spc := spc s; scallers := add_caller p (-1) (scallers s) |}.

Definition sys_init : sys := {| sw := wifi_init; sprep := []; spc := Idle; scallers := fun _ => 0 |}.
Inductive reach : sys -> Prop :=
| reach_init : reach sys_init
| reach_step s s' : reach s -> step s s' -> reach s'.

(** ** Each step keeps the invariant *)

Definition pc_ok (c : flush_pc) : Prop :=
  match c with Idle => True | AtSta i _ => 0 <= i <= 7 | InPending i _ | AtWaiting i _ | InWaiting i _ => 0 <= i < 7 end.
Record sys_ok (s : sys) : Prop := { so_wf : wf (sprep s) (scallers s) (sw s); so_pc : pc_ok (spc s) }.

Lemma sta_delete_keeps prep callers w idx status : wf prep callers w -> 0 <= idx < 7 ->
  (forall s, sta_table w !! Z.to_nat idx = Some s -> sta_queue s = []) ->
  exists r w', bl_main_apm_sta_delete idx status w = Done (r, w') /\ wf prep callers w'.
Proof.
  intros Hwf Hi Hq. destruct (sta_at _ _ _ _ Hwf Hi) as [s Hs]. unfold bl_main_apm_sta_delete.
  step_with (get_sta_done _ _ _ (proj1 Hi) Hs). destruct (wf_sta_vif _ _ _ Hwf _ _ Hs) as [Hv _].
  destruct (vif_at _ _ _ _ Hwf Hv) as [v Hvv]. step_with (get_vif_done _ _ _ (proj1 Hv) Hvv).
  destruct (negb (status =? 0)); [by exists (-1), w|]. rewrite (upd_sta_done _ _ _ _ (proj1 Hi) Hs). cbn [mbind outcome_bind].
  eexists 0, _. split; [done|]. specialize (Hq s Hs). unfold sta_queue in Hq. apply app_eq_nil in Hq as [Hp Hw].
  apply (wf_same _ _ w); [| |done].
  - split; try done. cbn. apply Forall2_same_length_lookup_2; [by rewrite length_insert|].
    intros m r r' Hr Hr'. apply list_lookup_insert_Some in Hr' as [(Em & Er & _)|(Hne & Hr')]; [|by simplify_eq].
    rewrite <- Em in Hr. subst r'. simplify_eq. by rewrite Hp, Hw.
  - pose proof (alter_as_insert (fun _ => empty_sta) _ _ _ Hs) as E. cbn beta in E. rewrite <- E. apply tables_stas; [by eapply wf_tables|]. intros. cbn. lia.
Qed.

Lemma table_call_keeps prep callers w m : wf prep callers w -> table_call w m ->
  exists r w', m = Done (r, w') /\ wf prep callers w'.
Proof.
  intros Hwf H. pose proof (wf_tables _ _ _ Hwf) as Ht.
  assert (Hfin : fin w m -> exists r w', m = Done (r, w') /\ wf prep callers w').
  { intros (r & w' & E & Hs & Ht'). exists r, w'. split; [done|]. by apply (wf_same _ _ w). }
  destruct H; try (apply Hfin; by auto using sm_connect_ind_fin, sm_disconnect_ind_fin, sm_sta_add_ind_fin,
    apm_sta_add_ind_fin, apm_sta_del_ind_fin, apm_start_fin, if_remove_fin, powersaving_fin).
  by apply sta_delete_keeps.
Qed.

(** a turn of the loops of the flush, whatever came before it *)
Definition turn_wf (prep : list (Z * Z)) (callers : Z -> Z) (r : outcome (wifi + wifi)) : Prop :=
  exists r', r = Done r' /\ match r' with inl w | inr w => wf prep callers w end.

Lemma push_wf prep callers w n s s' h d free : wf prep callers w -> sta_table w !! n = Some s -> takes s h s' ->
  list_free (ipc w) = d :: free ->
  exists w', bl_tx_push s d h (with_stas (<[n := s']> (sta_table w)) w) = Done w' /\ wf prep callers w'.
Proof.
  intros Hwf Hs Ht Hf. destruct (send_done _ _ _ _ _ _ _ _ _ Hwf Hs Ht Hf) as (x & b & v & Hx & Hb & Hk & Hi & ->).
  destruct (send_owner _ _ _ _ _ _ _ Hwf Hs Ht) as (x' & b' & Hx' & _ & _ & _ & Hr). simplify_eq.
  eexists. split; [done|]. assert (Hok : pbuf_ok (hdr_p x) b) by (by apply (wf_mem _ _ _ Hwf)).
  exact (wf_send prep callers w n s _ h d free x b (txdesc_for s v h x b) Hwf Hs Ht Hf Hx Hi
      (txdesc_hdr_for _ _ _ _ _ _ Hok Hk) eq_refl Hr).
Qed.
Lemma retrigger_wf prep callers w i : wf prep callers w -> wf prep callers (retrigger i w).
Proof.
  intros H. apply (wf_same _ _ w); [apply same_packets_pending| |done]. by eapply tables_same; [eapply wf_tables| |].
Qed.

Lemma pending_turn_wf prep callers w i : wf prep callers w -> 0 <= i < 7 -> turn_wf prep callers (pending_turn i w).
Proof.
  intros Hwf Hi. destruct (sta_at _ _ _ _ Hwf Hi) as [s Hs]. unfold pending_turn, ipc_host_txdesc_get.
  destruct (list_free (ipc w)) as [|d free] eqn:Ef; cbn [head]; [eexists; split; [done|by apply retrigger_wf]|].
  step_with (get_sta_done _ _ _ (proj1 Hi) Hs). destruct (pending_list s) as [|h q] eqn:Eq; [eexists; split; [done|by apply retrigger_wf]|].
  rewrite (upd_sta_done _ _ _ _ (proj1 Hi) Hs). cbn [mbind outcome_bind].
  destruct (push_wf _ _ _ _ _ (set_pending q s) h _ _ Hwf Hs ltac:(left; eauto) Ef) as (w' & E & Hw').
  rewrite E. by eexists.
Qed.
Lemma waiting_turn_wf prep callers w i : wf prep callers w -> 0 <= i < 7 -> turn_wf prep callers (waiting_turn i w).
Proof.
  intros Hwf Hi. destruct (sta_at _ _ _ _ Hwf Hi) as [s Hs]. unfold waiting_turn, ipc_host_txdesc_get.
  destruct (list_free (ipc w)) as [|d free] eqn:Ef; cbn [head]; [eexists; split; [done|by apply retrigger_wf]|].
  step_with (get_sta_done _ _ _ (proj1 Hi) Hs). destruct (waiting_list s) as [|h q] eqn:Eq; [by eexists|].
  rewrite (upd_sta_done _ _ _ _ (proj1 Hi) Hs). cbn [mbind outcome_bind].
  destruct (push_wf _ _ _ _ _ (set_waiting q s) h _ _ Hwf Hs ltac:(right; eauto) Ef) as (w' & E & Hw').
  rewrite E. by eexists.
Qed.

Lemma flush_piece_wf prep callers w c : wf prep callers w -> pc_ok c ->
  exists c' w', flush_piece c w = Done (c', w') /\ wf prep callers w' /\ pc_ok c'.
Proof.
  intros Hwf Hc. destruct c as [|i t|i t|i t|i t]; cbn [flush_piece pc_ok] in *.
  - by exists Idle, w.
  - destruct (Z.leb_spec NX_REMOTE_STA_STORE_MAX i) as [|Hlt]; cbn [orb]; [by exists Idle, w|].
    destruct (t =? 0); [by exists Idle, w|]. unfold NX_REMOTE_STA_STORE_MAX in Hlt.
    destruct (sta_at _ _ _ i Hwf ltac:(lia)) as [s Hs].
    pose proof (can_tx_done _ _ _ _ _ t Hwf Hs) as Hcan. rewrite Z2Nat.id in Hcan by lia. step_with Hcan.
    step_with (get_sta_done _ _ _ (proj1 Hc) Hs). eexists _, w. split; [done|]. split; [done|].
    destruct (negb _); [cbn; lia|]. destruct (bool_decide _); cbn; lia.
  - destruct (pending_turn_wf _ _ _ i Hwf Hc) as ([w'|w'] & -> & Hw'); cbn [mbind outcome_bind]; eauto 10.
  - destruct (sta_at _ _ _ i Hwf Hc) as [s Hs]. step_with (get_sta_done _ _ _ (proj1 Hc) Hs). eexists _, w.
    split; [done|]. split; [done|]. destruct (bool_decide _); cbn; lia.
  - destruct (waiting_turn_wf _ _ _ i Hwf Hc) as ([w'|w'] & -> & Hw'); cbn [mbind outcome_bind].
    + eexists _, _. split; [done|]. split; [done|]. cbn. lia.
    + eauto 10.
Qed.

Lemma wf_init : wf [] (fun _ => 0) wifi_init.
Proof.
  assert (Hst : forall n s, sta_table wifi_init !! n = Some s -> s = empty_sta).
  { intros n s Hs. unfold wifi_init, ipc_host_init in Hs. cbn [sta_table with_ipc] in Hs.
    apply list_elem_of_lookup_2, list_elem_of_In, repeat_spec in Hs. done. }
  assert (Hvt : forall n v, vif_table wifi_init !! n = Some v -> v = empty_vif).
  { intros n v Hv. apply list_elem_of_lookup_2, list_elem_of_In, repeat_spec in Hv. done. }
  assert (Hlive : live [] wifi_init = []) by reflexivity.
  split; try done; rewrite ?Hlive.
  - intros n s Hs. rewrite (Hst n s Hs). cbn. lia.
  - intros n v Hv. rewrite (Hvt n v Hv). cbn. lia.
  - apply NoDup_nil_2.
  - intros h Hh. by apply elem_of_nil in Hh.
  - intros i h Hh. by apply elem_of_nil in Hh.
  - intros n s h Hs Hh. rewrite (Hst n s Hs) in Hh. by apply elem_of_nil in Hh.
  - intros n s h Hs Hh. rewrite (Hst n s Hs) in Hh. by apply elem_of_nil in Hh.
  - intros d t Hd. by apply elem_of_nil in Hd.
  - intros n s Hs. by rewrite (Hst n s Hs).
Qed.

Lemma step_ok s s' : sys_ok s -> step s s' -> sys_ok s'.
Proof.
  intros [Hwf Hpc] H. destruct H.
  - destruct (prepare_cases _ _ _ _ _ is_sta cfm Hwf H) as [(e' & E & _)|(i & _ & _ & E)]; rewrite E in H0; simplify_eq. by split.
  - destruct (prepare_cases _ _ _ _ _ is_sta cfm Hwf H) as [(e' & E & _)|(j & Hj & Hh & E)]; rewrite E in H0; simplify_eq.
    split; [|done]. exact (wf_prepare _ _ _ _ _ is_sta cfm Hwf H i Hj Hh).
  - cbn in Hwf. rewrite H in Hwf. destruct (enqueue_done _ _ _ _ _ _ Hwf) as (e & _ & E). rewrite E in H0. simplify_eq.
    split; [|done]. cbn. pose proof (wf_enqueue _ _ _ _ _ _ Hwf) as Hw. destruct e; [done|].
    eapply wf_same; [apply same_packets_event| |exact Hw]. by eapply tables_same; [eapply wf_tables| |].
  - split; [|done]. by apply wf_fw_done.
  - destruct (list_cfm (ipc (sw s))) as [|d cfm] eqn:Ec; [unfold tx_cfm_turn in H0; by rewrite Ec in H0|].
    destruct (wf_cfm_turn _ _ _ _ _ Hwf Ec) as (w1 & E & Hw & _). rewrite E in H0. simplify_eq. by split.
  - destruct (flush_begin_fin (sw s) (wf_tables _ _ _ Hwf) param fc) as (t' & w1 & E & Hs & Ht). rewrite E in H0. simplify_eq.
    split; [by apply (wf_same _ _ (sw s))|cbn; lia].
  - destruct (flush_piece_wf _ _ _ _ Hwf Hpc) as (c' & w1 & E & Hw & Hc). rewrite E in H. simplify_eq. by split.
  - destruct (table_call_keeps _ _ _ _ Hwf H) as (r' & w1 & E & Hw). simplify_eq. by split.
  - destruct (if_add_fin (sw s) (wf_tables _ _ _ Hwf) is_sta netif err status inst) as (r' & w1 & E & Hs & Ht).
    rewrite E in H. simplify_eq. split; [|done]. by apply (wf_same _ _ (sw s)).
  - split; [|done]. destruct H. by apply wf_env_alloc.
  - split; [|done]. by apply (wf_env_edit _ _ _ _ b).
  - destruct (wf_env_ref _ _ _ _ _ Hwf H H0) as (w1 & E & Hw). rewrite E in H1. simplify_eq. by split.
  - destruct (wf_env_free _ _ _ _ _ Hwf H H0) as (w1 & E & Hw). rewrite E in H1. simplify_eq. by split.
Qed.

Lemma reach_ok s : reach s -> sys_ok s.
Proof. induction 1 as [|s s' _ IH Hst]; [split; [apply wf_init|done]|by eapply step_ok]. Qed.

(** ** What holds in every reachable state *)

(** C3: No packet is lost or doubled.  In every state that any interleaving of the IP
    stack, the WiFi task, the firmware and the station messages can reach, the packets
    [bl_output] queued are those released and those still queued or in a descriptor;
    the packets the driver has are distinct, each is a buffer that is not freed and on
    which the driver holds exactly one reference besides those of its owners (none
    when it has been released); and exactly the callbacks of the released packets
    have been called, once each, with their results. *)
Theorem tx_packets_conserved s : reach s ->
  outs (hist (sw s)) ≡ₚ (fst <$> dones (hist (sw s))) ++ (pk (sw s) <$> queued (sw s) ++ in_desc (sw s))
  /\ NoDup (live (sprep s) (sw s))
  /\ (forall h, h ∈ live (sprep s) (sw s) -> exists b, pbufs (sw s) !! pk_buf (pk (sw s) h) = Some b /\ h = txhdr_of b
        /\ ref b = scallers s (pk_buf (pk (sw s) h)) + 1)
  /\ (forall p b, pbufs (sw s) !! p = Some b -> p ∉ (pk_buf ∘ pk (sw s) <$> live (sprep s) (sw s)) -> ref b = scallers s p)
  /\ calls (hist (sw s)) = callbacks (dones (hist (sw s))).
Proof.
  intros H. destruct (reach_ok s H) as [Hwf _]. split; [apply (wf_conserved _ _ _ Hwf)|].
  split; [apply (wf_nodup _ _ _ Hwf)|]. split; [|split; [|apply (wf_calls _ _ _ Hwf)]].
  - intros h Hh. destruct (wf_live _ _ _ Hwf h Hh) as (x & b & Hx & Hb & Hk). rewrite (pk_at _ _ _ Hx). exists b.
    split; [done|]. split; [apply Hk|]. destruct (wf_refs _ _ _ Hwf _ _ Hb) as [E _]. cbn. rewrite E. f_equal.
    assert (Hnd : NoDup (pk_buf ∘ pk (sw s) <$> live (sprep s) (sw s))).
    { apply NoDup_fmap_2_strong; [|apply (wf_nodup _ _ _ Hwf)]. intros g1 g2 H1 H2 Eg. unfold compose in Eg.
      destruct (wf_live _ _ _ Hwf g1 H1) as (x1 & b1 & Hx1 & Hb1 & Hk1), (wf_live _ _ _ Hwf g2 H2) as (x2 & b2 & Hx2 & Hb2 & Hk2).
      rewrite (pk_at _ _ _ Hx1), (pk_at _ _ _ Hx2) in Eg. cbn in Eg. rewrite Eg in Hb1. simplify_eq. destruct Hk1, Hk2. congruence. }
    rewrite cnt_nodup in Hnd. specialize (Hnd (hdr_p x)). apply Z.le_antisymm; [done|].
    assert (0 < cnt (hdr_p x) (pk_buf ∘ pk (sw s) <$> live (sprep s) (sw s))); [|lia]. apply cnt_elem, list_elem_of_fmap.
    exists h. split; [|done]. unfold compose. by rewrite (pk_at _ _ _ Hx).
  - intros p b Hb Hn. destruct (wf_refs _ _ _ Hwf p b Hb) as [E _]. apply cnt_not_elem in Hn. lia.
Qed.

(** C13: Each station gets its packets in order.  In every reachable state, the packets
    queued for a station, in the order of [bl_output], are those given to the firmware
    for the first time, in the order they were given, followed by those in its waiting
    list; the packets of its pending list are repetitions. *)
Theorem tx_station_order s n sta : reach s -> sta_table (sw s) !! n = Some sta ->
  filter (fun k => pk_sta k = Z.of_nat n) (outs (hist (sw s)))
  = first_pushes (Z.of_nat n) (pushes (hist (sw s))) ++ (pk (sw s) <$> waiting_list sta)
  /\ (forall h, h ∈ pending_list sta -> exists x, txhdrs (sw s) !! h = Some x /\ sta_id x = Z.of_nat n /\ 1 <= repush x <= 3).
Proof.
  intros H Hn. destruct (reach_ok s H) as [Hwf _]. split; [by apply (wf_fifo _ _ _ Hwf)|].
  intros h Hh. destruct (wf_pending _ _ _ Hwf n sta h Hn Hh) as (x & Hx & Hi & Hr). exists x. split; [done|]. split; [done|].
  destruct (wf_live _ _ _ Hwf h) as (y & b & Hy & _ & Hk); [|simplify_eq; pose proof (ho_repush _ _ _ Hk); lia].
  apply (live_queued _ _ n sta _ Hn). unfold sta_queue. rewrite elem_of_app. by left.
Qed.

(** the handler of confirmations to its end *)
Lemma cfm_handler_spec prep callers w fuel : wf prep callers w -> (length (list_cfm (ipc w)) < fuel)%nat ->
  exists w', tx_cfm_loop fuel w = Done w' /\ wf prep callers w' /\ list_cfm (ipc w') = [].
Proof.
  revert w. induction fuel as [|fuel IH]; intros w Hwf Hf; [lia|]. cbn [tx_cfm_loop].
  destruct (list_cfm (ipc w)) as [|d cfm] eqn:Ec.
  - unfold tx_cfm_turn. rewrite Ec. cbn. by exists w.
  - destruct (wf_cfm_turn _ _ _ _ _ Hwf Ec) as (w1 & -> & Hw1 & Hc1). cbn [mbind outcome_bind]. apply IH; [done|].
    rewrite Hc1. cbn in Hf. lia.
Qed.

(** C15: The transmit path never faults and its loops end.  In every reachable state: a
    packet the caller may give ([outputable]) is accepted or refused with [ERR_IF],
    never with [ERR_BUF]; a prepared packet is queued; the confirmation handler and
    the flush run to their end from where they are; the messages about stations are
    handled; and the tables, descriptors and queues stay well formed: seven stations
    with interface and station indexes inside the tables, each descriptor in exactly
    one of the three lists, each queued packet at the station its header names. *)
Theorem tx_state_well_formed s : reach s ->
  (forall p b is_sta cfm, outputable (sprep s) (sw s) p b ->
     bl_output_prepare is_sta p cfm (sw s) = Done (inl (ERR_IF, sw s))
     \/ exists i h w', bl_output_prepare is_sta p cfm (sw s) = Done (inr (i, h, w')) /\ 0 <= i < 7)
  /\ (forall i h, (i, h) ∈ sprep s -> exists w', bl_output_enqueue i h (sw s) = Done w')
  /\ (exists w', ipc_host_tx_cfm_handler (sw s) = Done w' /\ list_cfm (ipc w') = [])
  /\ (forall param fc, exists w', bl_tx_try_flush param fc (sw s) = Done w')
  /\ (exists c w', flush_piece (spc s) (sw s) = Done (c, w'))
  /\ (forall m, table_call (sw s) m -> exists r w', m = Done (r, w'))
  /\ tables_ok (sw s)
  /\ list_free (ipc (sw s)) ++ busy (sw s) ≡ₚ seqZ 0 CFG_TXDESC
  /\ (forall n sta h, sta_table (sw s) !! n = Some sta -> h ∈ sta_queue sta -> pk_sta (pk (sw s) h) = Z.of_nat n).
Proof.
  intros H. destruct (reach_ok s H) as [Hwf Hpc].
  split; [|split; [|split; [|split; [|split; [|split; [|split; [|split]]]]]]].
  - intros p b is_sta cfm Ho. destruct (prepare_cases _ _ _ _ _ is_sta cfm Hwf Ho) as [(e & E & ->)|(i & Hi & _ & E)]; [by left|].
    right. eauto 10.
  - intros i h Hin. apply list_elem_of_split in Hin as (l1 & l2 & E). rewrite E in Hwf.
    destruct (enqueue_done _ _ _ _ _ _ Hwf) as (e & _ & Ee). eauto.
  - unfold ipc_host_tx_cfm_handler. destruct (cfm_handler_spec _ _ _ (S (length (list_cfm (ipc (sw s))))) Hwf) as (w' & ? & _ & ?); [lia|]. eauto.
  - intros param fc. destruct (try_flush_spec _ _ param fc _ Hwf) as (t & w1 & w' & _ & _ & E & _). eauto.
  - destruct (flush_piece_wf _ _ _ _ Hwf Hpc) as (c & w' & E & _). eauto.
  - intros m Hm. destruct (table_call_keeps _ _ _ _ Hwf Hm) as (r & w' & E & _). eauto.
  - by eapply wf_tables.
  - apply (wf_lists _ _ _ Hwf).
  - intros n sta h Hn Hh. unfold sta_queue in Hh. apply elem_of_app in Hh as [Hh|Hh].
    + destruct (wf_pending _ _ _ Hwf n sta h Hn Hh) as (x & Hx & Hi & _). by rewrite (pk_at _ _ _ Hx).
    + destruct (wf_waiting _ _ _ Hwf n sta h Hn Hh) as (x & Hx & Hi & _). by rewrite (pk_at _ _ _ Hx).
Qed.

(** C5: What a confirmation does, on every branch.  The first confirmed descriptor names
    its packet; when the firmware's status says sent ([tx_ok]: bit 31 for a group
    packet of the access point, bit 23 for the others), the packet was repeated three
    times, its interface has no link, its station is gone, or the status is none of the
    three temporary failures, the packet is released, its sender told the result and
    the station triggered; otherwise it joins the end of the
    station's pending list with its counter one higher, and the station is triggered
    or the interface or the station blocked as the status says.  The descriptor is
    free again in both cases. *)
Theorem tx_cfm_correct s d cfm : reach s -> list_cfm (ipc (sw s)) = d :: cfm ->
  exists h x b sta v, desc_hdr (sw s) d = h /\ txhdrs (sw s) !! h = Some x /\ pbufs (sw s) !! hdr_p x = Some b
    /\ sta_table (sw s) !! Z.to_nat (sta_id x) = Some sta /\ vif_table (sw s) !! Z.to_nat (vif_idx sta) = Some v
    /\ tx_cfm_turn (sw s) = Done (Some (after_cfm d h x b sta v (sw s))).
Proof.
  intros H Hc. destruct (reach_ok s H) as [Hwf _].
  destruct (cfm_turn_eq _ _ _ _ _ Hwf Hc) as (h & x & b & sta & v & H1 & H2 & H3 & _ & H4 & H5 & H6). exists h, x, b, sta, v. done.
Qed.

(** C4: What a flush sends.  With the triggers [t] it takes (flow control messages, the
    trigger words), [bl_tx_try_flush] serves the stations in the order of their index:
    a station that is triggered and not blocked gives the first packets of its pending
    and then its waiting list, as many as there are free descriptors left, and asks to
    be triggered again when it may have more; no other station gives any.  The packets
    go to the firmware in this order, in the descriptors in the order they became
    free, and nothing else changes. *)
Theorem tx_flush_correct s param fc : reach s ->
  exists t w1 w', flush_begin param fc (sw s) = Done (t, w1) /\ bl_tx_try_flush param fc (sw s) = Done w'
    /\ flushed (plan t w1 sta_indexes (length (list_free (ipc w1)))) (plan_bits t w1 sta_indexes (length (list_free (ipc w1)))) w1 w'.
Proof.
  intros H. destruct (reach_ok s H) as [Hwf _].
  destruct (try_flush_spec _ _ param fc _ Hwf) as (t & w1 & w' & H1 & _ & H2 & _ & H3). by exists t, w1, w'.
Qed.
