(* ===== verification/BlTxDrain.v ===== *)
(** * The WiFi transmit path empties (BlTx.v)

    When flow control is open and the firmware answers, every packet is released
    after a bounded number of turns of the WiFi task: each answer uses up one of the
    four attempts of a packet, and a flush leaves no packet behind while a descriptor
    is free. *)
From S2P Require Import Prelude BlTx BlSta BlTxProofs BlTxReach BlTxFlush BlTxSystem.

(** ** Bits *)

Lemma bit_sta_spec n m : 0 <= n -> Z.testbit (BIT_STA n) m = true <-> m = n.
Proof.
  intros Hn. unfold BIT_STA. rewrite Z.shiftl_1_l. rewrite Z.pow2_bits_eqb by done. rewrite Z.eqb_eq. split; congruence.
Qed.

(** ** Open states and answers *)

Definition triggered (w : wifi) (n : nat) : Prop :=
  Z.testbit (Z.lor (tx_cntrl_sta_trigger_pending w) (tx_cntrl_sta_trigger w)) (Z.of_nat n) = true.
(** flow control is open, used stations carry their own index, and stations with
    packets are triggered *)
Record quiet (w : wifi) : Prop := {
  qt_vifs : forall n v, vif_table w !! n = Some v -> fc_chan v = 0;
  qt_fc : forall n s, sta_table w !! n = Some s -> fc_ps s = 0;
  qt_idx : forall n s, sta_table w !! n = Some s -> is_used s <> 0 -> sta_idx s = Z.of_nat n;
  qt_trigger : forall n s, sta_table w !! n = Some s -> sta_queue s <> [] -> triggered w n }.

(** a status that does not block the interface or the station *)
Definition passing (v : Z) : Prop := any v FRAME_REPUSHABLE_CHAN_BIT = false /\ any v FRAME_REPUSHABLE_PS_BIT = false.
Definition answered (w : wifi) : Prop :=
  forall h, h ∈ in_desc w -> exists x, txhdrs w !! h = Some x /\ passing (status x).

(** the attempts the driver's packets have left *)
Definition budget (w : wifi) (h : Z) : nat :=
  match txhdrs w !! h with Some x => Z.to_nat (4 - repush x) | None => 0 end.
Definition attempts (w : wifi) : nat := sum_list_with (budget w) (live [] w).

Lemma budget_bounds callers w h : wf [] callers w -> h ∈ live [] w -> (1 <= budget w h <= 4)%nat.
Proof.
  intros Hwf Hh. destruct (wf_live _ _ _ Hwf h Hh) as (x & b & Hx & _ & Hk). unfold budget. rewrite Hx.
  pose proof (ho_repush _ _ _ Hk). lia.
Qed.
Lemma sum_bounds (f : Z -> nat) (l : list Z) : (forall h, h ∈ l -> (1 <= f h <= 4)%nat) ->
  (length l <= sum_list_with f l <= 4 * length l)%nat.
Proof.
  induction l as [|h l IH]; intros H; cbn; [lia|]. pose proof (H h ltac:(left)).
  specialize (IH ltac:(intros; apply H; by right)). lia.
Qed.
Lemma attempts_bounds callers w : wf [] callers w -> (length (live [] w) <= attempts w <= 4 * length (live [] w))%nat.
Proof. intros Hwf. apply sum_bounds. intros h. by apply (budget_bounds callers). Qed.
Lemma sum_ext (f g : Z -> nat) (l : list Z) : (forall h, h ∈ l -> f h = g h) -> sum_list_with f l = sum_list_with g l.
Proof. induction l as [|h l IH]; intros H; cbn; [done|]. rewrite (H h), IH; [done| |left]. intros. apply H. by right. Qed.

(** ** A confirmation uses up an attempt *)
Section ConfirmTurn.
Context (callers : Z -> Z) (w : wifi) (d : Z) (cfm : list Z) (h : Z) (x : bl_txhdr) (b : pbuf) (s : bl_sta) (v : bl_vif).
Hypotheses (Hwf : wf [] callers w) (Hcfm : list_cfm (ipc w) = d :: cfm) (Hh : desc_hdr w d = h)
  (Hx : txhdrs w !! h = Some x) (Hb : pbufs w !! hdr_p x = Some b) (Hk : hdr_ok h x b)
  (Hs : sta_table w !! Z.to_nat (sta_id x) = Some s) (Hq : quiet w) (Ha : passing (status x)).
Let n := Z.to_nat (sta_id x).

Lemma turn_repush_quiet : tried_again x b s v = true ->
  let w' := after_repush d h x n (retrigger (sta_idx s) w) in
  quiet w' /\ (attempts w' < attempts w)%nat /\ in_desc w ≡ₚ h :: in_desc w' /\ h ∉ in_desc w'.
Proof using All.
  intros Ht w'. unfold tried_again in Ht. rewrite !andb_true_iff, Z.ltb_lt, !negb_true_iff, !Z.eqb_neq in Ht.
  set (wa := retrigger (sta_idx s) w).
  assert (Hwa : wf [] callers wa) by (by apply retrigger_wf).
  assert (Hidx : sta_idx s = Z.of_nat n) by (apply (qt_idx _ Hq n s); tauto).
  assert (Hn : sta_id x = Z.of_nat n) by (unfold n; pose proof (ho_sta _ _ _ Hk); lia).
  assert (Hlive : live [] w' ≡ₚ live [] w).
  { exact (repush_live [] callers wa d cfm h x n s Hwa Hcfm Hh Hx Hn Hs ltac:(tauto)). }
  assert (Hin : in_desc w ≡ₚ h :: in_desc w') by (rewrite <- Hh; exact (cfm_in_desc [] callers wa d cfm Hwa Hcfm w' eq_refl)).
  assert (Hnd : h ∉ in_desc w').
  { pose proof (wf_nodup _ _ _ Hwf) as H. unfold live in H. apply NoDup_app in H as (_ & _ & H).
    apply NoDup_app in H as (_ & _ & H). rewrite Hin in H. by apply NoDup_cons in H as [H _]. }
  split; [|split; [|done]].
  - assert (Htb : forall m, triggered w m \/ m = n -> triggered w' m).
    { intros m Hm. unfold triggered in *. cbn. rewrite !Z.lor_spec in *. rewrite Hidx.
      destruct Hm as [Hm| ->]; [|rewrite (proj2 (bit_sta_spec _ _ (Nat2Z.is_nonneg n))) by done; by rewrite orb_true_r].
      destruct (Z.testbit (tx_cntrl_sta_trigger_pending w) _); [done|]. cbn in Hm. rewrite Hm. by rewrite !orb_true_r. }
    assert (Hst : forall m r, sta_table w' !! m = Some r -> exists r0, sta_table w !! m = Some r0 /\ fc_ps r = fc_ps r0
      /\ is_used r = is_used r0 /\ sta_idx r = sta_idx r0 /\ (m <> n -> sta_queue r = sta_queue r0)).
    { intros m r. cbn. rewrite list_lookup_alter. case_decide; [|by eauto 10]. intros (r0 & Hr0 & ->)%fmap_Some. subst m. exists r0.
      by do 4 (split; [done|]). }
    split.
    + apply (qt_vifs _ Hq).
    + intros m r Hm. destruct (Hst m r Hm) as (r0 & Hr0 & -> & _). by apply (qt_fc _ Hq m).
    + intros m r Hm. destruct (Hst m r Hm) as (r0 & Hr0 & _ & -> & -> & _). by apply (qt_idx _ Hq m).
    + intros m r Hm Hne. apply Htb. destruct (decide (m = n)) as [|Hmn]; [by right|]. left.
      destruct (Hst m r Hm) as (r0 & Hr0 & _ & _ & _ & E). apply (qt_trigger _ Hq m r0); [done|]. by rewrite <- E.
  - assert (Hhl : h ∈ live [] w) by (rewrite <- Hh; apply live_busy; unfold busy; rewrite Hcfm, elem_of_app; right; left).
    apply elem_of_Permutation in Hhl as [rest Hrest]. unfold attempts. rewrite Hlive, Hrest. cbn.
    pose proof (wf_nodup _ _ _ Hwf) as H. rewrite Hrest in H. apply NoDup_cons in H as [Hr _].
    rewrite (sum_ext (budget w') (budget w) rest).
    + unfold budget. rewrite Hx. cbn. rewrite lookup_insert_eq. cbn. destruct (ho_repush _ _ _ Hk). lia.
    + intros g Hg. unfold budget. cbn. rewrite lookup_insert_ne; [done|congruence].
Qed.

Lemma turn_release_quiet ok :
  let w' := after_release d (hdr_p x) h x b ok (retrigger (sta_idx s) w) in
  quiet w' /\ (attempts w' < attempts w)%nat /\ in_desc w ≡ₚ h :: in_desc w' /\ h ∉ in_desc w'.
Proof using All.
  intros w'. set (wa := retrigger (sta_idx s) w). assert (Hwa : wf [] callers wa) by (by apply retrigger_wf).
  destruct (release_tables wa d h x b ok) as (Hst & Hvt & Hi & _). change (after_release d (hdr_p x) h x b ok wa) with w' in *.
  assert (Hlive : live [] w ≡ₚ h :: live [] w') by (exact (release_live [] callers wa d cfm h x b ok Hwa Hcfm Hh Hx Hb Hk)).
  destruct (release_other [] callers wa d cfm h x b ok Hwa Hcfm Hh Hx Hb Hk) as (Hnl & _ & Hoth). change (after_release d (hdr_p x) h x b ok wa) with w' in *.
  split; [|split; [|split]].
  - assert (Htr : tx_cntrl_sta_trigger_pending w' = Z.lor (tx_cntrl_sta_trigger_pending w) (BIT_STA (sta_idx s))
                  /\ tx_cntrl_sta_trigger w' = tx_cntrl_sta_trigger w).
    { unfold w', after_release, drop_ref. by destruct (ref b - 1 =? 0), ((custom_cfm x).1 =? NULL). }
    destruct Htr as [T1 T2]. split; rewrite ?Hst, ?Hvt;
      [apply (qt_vifs _ Hq)|apply (qt_fc _ Hq)|apply (qt_idx _ Hq)|]. intros m r Hm Hne.
    pose proof (qt_trigger _ Hq m r Hm Hne) as Ht. unfold triggered in *. rewrite T1, T2, !Z.lor_spec in *.
    destruct (Z.testbit (tx_cntrl_sta_trigger_pending w) _); [done|]. cbn in Ht. rewrite Ht. by rewrite !orb_true_r.
  - unfold attempts. rewrite Hlive. cbn [sum_list_with]. rewrite (sum_ext (budget w') (budget w) (live [] w')).
    + assert (Hhl : h ∈ live [] w) by (rewrite Hlive; left). pose proof (budget_bounds _ _ _ Hwf Hhl). lia.
    + intros g Hg. destruct (Hoth g Hg) as [_ Hne]. unfold budget.
      change (txhdrs w') with (txhdrs (after_release d (hdr_p x) h x b ok wa)).
      rewrite (proj1 (release_mem wa d h x b ok Hk)). destruct (_ =? _); [by rewrite lookup_delete_ne|done].
  - rewrite <- Hh. exact (cfm_in_desc [] callers wa d cfm Hwa Hcfm w' Hi).
  - intros Hin. apply Hnl. unfold live. rewrite !elem_of_app. by right; right.
Qed.
End ConfirmTurn.

Lemma cfm_turn_quiet callers w d cfm : wf [] callers w -> quiet w -> answered w -> list_cfm (ipc w) = d :: cfm ->
  exists w', tx_cfm_turn w = Done (Some w') /\ wf [] callers w' /\ quiet w' /\ answered w' /\ list_cfm (ipc w') = cfm
    /\ list_ongoing (ipc w') = list_ongoing (ipc w) /\ (attempts w' < attempts w)%nat.
Proof.
  intros Hwf Hq Ha Hc. destruct (cfm_turn_eq _ _ _ _ _ Hwf Hc) as (h & x & b & s & v & Hh & Hx & Hb & Hk & Hs & _ & E).
  destruct (wf_cfm_turn _ _ _ _ _ Hwf Hc) as (w' & E' & Hwf' & Hc'). rewrite E in E'. injection E' as <-.
  eexists. split; [exact E|]. split; [done|].
  assert (Hin : h ∈ in_desc w).
  { rewrite <- Hh. unfold in_desc. apply list_elem_of_fmap_2. unfold busy. rewrite Hc, elem_of_app. right. left. }
  destruct (Ha h Hin) as (x' & Hx' & Hp). assert (x' = x) as -> by congruence.
  assert (Hres : forall w', quiet w' /\ (attempts w' < attempts w)%nat /\ in_desc w ≡ₚ h :: in_desc w' /\ h ∉ in_desc w' ->
    (forall g, g <> h -> g ∈ in_desc w -> txhdrs w' !! g = txhdrs w !! g) -> list_cfm (ipc w') = cfm ->
    list_ongoing (ipc w') = list_ongoing (ipc w) -> quiet w' /\ answered w' /\ list_cfm (ipc w') = cfm
    /\ list_ongoing (ipc w') = list_ongoing (ipc w) /\ (attempts w' < attempts w)%nat).
  { intros w' (H1 & H2 & H3 & H4) Hg Hcc Ho. split; [done|]. split; [|done]. intros g Hgi.
    assert (Hgw : g ∈ in_desc w) by (rewrite H3; by right). destruct (Ha g Hgw) as (y & Hy & Hpy). exists y. split; [|done].
    rewrite Hg; [done|congruence|done]. }
  unfold after_cfm in *. destruct (tried_again x b s v) eqn:Et.
  - assert (En : note_failure (status x) (Z.to_nat (sta_id x)) s w = retrigger (sta_idx s) w).
    { destruct Hp as [Hp1 Hp2]. unfold FRAME_REPUSHABLE_CHAN_BIT, FRAME_REPUSHABLE_PS_BIT in Hp1, Hp2. rewrite any_bit in Hp1, Hp2 by done.
      unfold note_failure. unfold tried_again, repushable in Et. rewrite Hp1, Hp2, !orb_false_r in Et.
      by destruct (Z.testbit (status x) 16); [|rewrite andb_false_r in Et]. }
    rewrite En in *. apply Hres; [by apply (turn_repush_quiet callers w d cfm _ x b s v)| |done|done].
    intros g Hne _. cbn. by rewrite lookup_insert_ne.
  - apply Hres; [by apply (turn_release_quiet callers w d cfm _ x b s)| |done|].
    + intros g Hne _. rewrite (proj1 (release_mem (retrigger (sta_idx s) w) d _ x b _ Hk)).
      destruct (_ =? _); [by rewrite lookup_delete_ne|done].
    + unfold after_release, drop_ref. by destruct (ref b - 1 =? 0), ((custom_cfm x).1 =? NULL).
Qed.

Lemma cfm_loop_quiet callers fuel w : wf [] callers w -> quiet w -> answered w -> (length (list_cfm (ipc w)) < fuel)%nat ->
  exists w', tx_cfm_loop fuel w = Done w' /\ wf [] callers w' /\ quiet w' /\ list_cfm (ipc w') = []
    /\ list_ongoing (ipc w') = list_ongoing (ipc w) /\ (attempts w' + length (list_cfm (ipc w)) <= attempts w)%nat.
Proof.
  revert w. induction fuel as [|fuel IH]; intros w Hwf Hq Ha Hf; [lia|]. cbn [tx_cfm_loop].
  destruct (list_cfm (ipc w)) as [|d cfm] eqn:Ec.
  - unfold tx_cfm_turn. rewrite Ec. cbn. exists w. do 5 (split; [done|]). lia.
  - destruct (cfm_turn_quiet _ _ _ _ Hwf Hq Ha Ec) as (w1 & -> & H1 & H2 & H3 & H4 & H5 & H6). cbn [mbind outcome_bind].
    cbn [length] in Hf. destruct (IH w1 H1 H2 H3) as (w' & E & ? & ? & ? & ? & ?); [rewrite H4; lia|]. exists w'. split; [done|].
    split; [done|]. split; [done|]. split; [done|]. split; [congruence|]. rewrite H4 in *. cbn [length]. lia.
Qed.

(** ** The firmware answers everything *)
Fixpoint fw_all (f : Z -> Z) (ds : list Z) (w : wifi) : wifi :=
  match ds with [] => w | d :: ds => fw_all f ds (fw_done d (f d) [] ds w) end.

Lemma fw_all_spec callers f ds w : (forall d, passing (f d)) -> wf [] callers w -> quiet w -> list_ongoing (ipc w) = ds ->
  (forall d, d ∈ list_cfm (ipc w) -> exists x, txhdrs w !! desc_hdr w d = Some x /\ passing (status x)) ->
  let w' := fw_all f ds w in
  wf [] callers w' /\ quiet w' /\ answered w' /\ list_ongoing (ipc w') = [] /\ list_cfm (ipc w') = list_cfm (ipc w) ++ ds
  /\ attempts w' = attempts w.
Proof.
  intros Hf. revert w. induction ds as [|d ds IH]; intros w Hwf Hq Ho Hc; cbn.
  - split; [done|]. split; [done|]. split; [|by rewrite app_nil_r]. intros h Hh. unfold in_desc, busy in Hh. rewrite Ho in Hh.
    apply list_elem_of_fmap in Hh as (d & -> & Hd). by apply Hc.
  - set (w1 := fw_done d (f d) [] ds w). assert (Hwf1 : wf [] callers w1) by (by apply wf_fw_done).
    assert (Hd : forall e, desc_hdr w1 e = desc_hdr w e) by done.
    assert (Hx1 : forall e y, txhdrs w !! e = Some y -> exists y', txhdrs w1 !! e = Some y' /\ repush y' = repush y
                  /\ (passing (status y) \/ e = desc_hdr w d -> passing (status y'))).
    { intros e y Hy. cbn. destruct (decide (e = desc_hdr w d)) as [->|Hne].
      - rewrite lookup_alter_eq, Hy. cbn. eexists. split; [done|]. split; [done|]. intros _. apply Hf.
      - rewrite lookup_alter_ne by congruence. exists y. split; [done|]. split; [done|]. intros [|]; [done|congruence]. }
    assert (Hbusy : busy w1 ≡ₚ busy w).
    { unfold busy. cbn. rewrite Ho. apply cnt_perm. intros z. rewrite !cnt_app, !cnt_cons, cnt_nil. lia. }
    assert (Hlive : live [] w1 ≡ₚ live [] w).
    { unfold live. change (queued w1) with (queued w). apply Permutation_app_head, Permutation_app_head.
      unfold in_desc. rewrite Hbusy. done. }
    assert (Hatt : attempts w1 = attempts w).
    { unfold attempts. rewrite Hlive. apply sum_ext. intros g Hg. destruct (wf_live _ _ _ Hwf g Hg) as (y & b & Hy & _).
      destruct (Hx1 g y Hy) as (y' & Hy' & E & _). unfold budget. by rewrite Hy, Hy', E. }
    destruct (IH w1 Hwf1) as (I1 & I2 & I3 & I4 & I5 & I6); [destruct Hq; by split|done| |].
    + intros e He. cbn in He. rewrite elem_of_app, list_elem_of_singleton in He. rewrite Hd. destruct He as [He| ->].
      * destruct (Hc e He) as (y & Hy & Hp). destruct (Hx1 _ y Hy) as (y' & Hy' & _ & Hp'). eauto.
      * destruct (wf_live _ _ _ Hwf (desc_hdr w d)) as (y & b & Hy & _);
          [apply live_busy; unfold busy; rewrite Ho; left|]. destruct (Hx1 _ y Hy) as (y' & Hy' & _ & Hp'). eauto.
    + split; [done|]. split; [done|]. split; [done|]. split; [done|]. split; [|by etransitivity; [exact I6|]].
      etransitivity; [exact I5|]. cbn. by rewrite <- app_assoc.
Qed.

(** ** The flush of an open state *)

Lemma plan_count_cons t w n ns f m :
  plan_count (plan t w (n :: ns) f) m
  = ((if decide (n = m) then length (share t w n f) else 0) + plan_count (plan t w ns (f - length (share t w n f))) m)%nat.
Proof. unfold plan_count. cbn [plan]. rewrite filter_cons. cbn [fst]. case_decide; cbn; [by rewrite length_app|done]. Qed.
Lemma plan_count_absent t w ns f m : m ∉ ns -> plan_count (plan t w ns f) m = 0%nat.
Proof.
  revert f. induction ns as [|n ns IH]; intros f H; [done|]. rewrite plan_count_cons, decide_False by set_solver. apply IH. set_solver.
Qed.
(** a station of the plan gives its share of some rest of the descriptors *)
Lemma plan_station t w ns f m : NoDup ns -> m ∈ ns ->
  exists g, plan_count (plan t w ns f) m = length (share t w m g)
    /\ (Z.testbit (share_bit t w m g) (Z.of_nat m) = true -> Z.testbit (plan_bits t w ns f) (Z.of_nat m) = true).
Proof.
  revert f. induction ns as [|n ns IH]; intros f Hnd Hm; [by apply elem_of_nil in Hm|].
  apply NoDup_cons in Hnd as [Hn Hnd]. rewrite plan_count_cons. cbn [plan_bits]. destruct (decide (n = m)) as [E|E].
  - subst n. exists f. rewrite plan_count_absent by done. split; [lia|]. intros H. by rewrite Z.lor_spec, H.
  - destruct (IH (f - length (share t w n f))%nat Hnd) as (g & E1 & E2); [set_solver|]. exists g. split; [done|].
    intros H. by rewrite Z.lor_spec, E2, orb_true_r.
Qed.
Lemma plan_empty t w ns f : plan_packets (plan t w ns f) = [] -> forall n, n ∈ ns -> share t w n f = [].
Proof.
  revert f. induction ns as [|n ns IH]; intros f Hp m Hm; [by apply elem_of_nil in Hm|].
  unfold plan_packets in Hp. cbn in Hp. apply app_eq_nil in Hp as [H1 H2]. rewrite H1 in H2. cbn in H2. rewrite Nat.sub_0_r in H2.
  apply elem_of_cons in Hm as [->|Hm]; [done|]. by apply (IH f H2).
Qed.

(** in an open state all stations with packets are served *)
Lemma quiet_served prep callers w t n s : wf prep callers w -> quiet w -> Z.testbit t (Z.of_nat n) = true ->
  sta_table w !! n = Some s -> served t w n s = true.
Proof.
  intros Hwf Hq Ht Hs. unfold served, tx_open, BIT_STA. rewrite any_bit, Ht by lia. rewrite (qt_fc _ Hq _ _ Hs). cbn.
  destruct (wf_sta_vif _ _ _ Hwf _ _ Hs) as [Hv _]. destruct (vif_at _ _ _ _ Hwf Hv) as [v Hvv].
  by rewrite Hvv, (qt_vifs _ Hq _ _ Hvv).
Qed.

Lemma flush_quiet callers w : wf [] callers w -> quiet w -> busy w = [] ->
  exists w', bl_tx_try_flush 0 None w = Done w' /\ wf [] callers w' /\ quiet w' /\ list_cfm (ipc w') = []
    /\ attempts w' = attempts w /\ (list_ongoing (ipc w') = [] -> live [] w' = []).
Proof.
  intros Hwf Hq Hb. destruct (try_flush_spec [] callers 0 None w Hwf) as (t & w1 & w' & Eb & Hwf1 & E & Hwf' & Hf).
  injection Eb as <- <-. set (t := Z.lor _ _) in *. set (w1 := with_trigger 0 _) in *.
  exists w'. split; [done|]. split; [done|]. destruct Hf. unfold busy in Hb. apply app_eq_nil in Hb as [Ho Hc].
  assert (Ht : forall n s, sta_table w !! n = Some s -> sta_queue s <> [] -> Z.testbit t (Z.of_nat n) = true).
  { intros n s Hs Hne. exact (qt_trigger _ Hq n s Hs Hne). }
  assert (Hsv : forall n s, sta_table w !! n = Some s -> sta_queue s <> [] -> served t w1 n s = true).
  { intros n s Hs Hne. assert (H : served t w n s = true) by (by apply (quiet_served [] callers w t n s Hwf Hq (Ht n s Hs Hne))).
    exact H. }
  assert (Hix : forall n s, sta_table w !! n = Some s -> n ∈ sta_indexes).
  { intros n s Hs. apply lookup_lt_Some in Hs. rewrite (wf_stas _ _ _ Hwf) in Hs. unfold sta_indexes. apply elem_of_seq. lia. }
  assert (Hback : forall n s', sta_table w' !! n = Some s' -> exists s, sta_table w !! n = Some s
    /\ s' = drop_queue (plan_count (plan t w1 sta_indexes (length (list_free (ipc w1)))) n) s).
  { intros n s' Hs'. destruct (lookup_lt_is_Some_2 (sta_table w) n) as [s Hs].
    - apply lookup_lt_Some in Hs'. rewrite (wf_stas _ _ _ Hwf') in Hs'. by rewrite (wf_stas _ _ _ Hwf).
    - exists s. split; [done|]. pose proof (fl_stas n s Hs). congruence. }
  split; [|split; [|split]].
  - split; [by rewrite fl_vifs; apply (qt_vifs _ Hq)| | |].
    + intros n s' Hs'. destruct (Hback n s' Hs') as (s & Hs & ->). exact (qt_fc _ Hq n s Hs).
    + intros n s' Hs'. destruct (Hback n s' Hs') as (s & Hs & ->). exact (qt_idx _ Hq n s Hs).
    + intros n s' Hs' Hne. destruct (Hback n s' Hs') as (s & Hs & ->). rewrite drop_queue_queue in Hne.
      destruct (plan_station t w1 sta_indexes (length (list_free (ipc w1))) n (NoDup_seq 0 7) (Hix n s Hs)) as (g & Eg & Hbit).
      rewrite Eg in Hne. assert (Hq0 : sta_queue s <> []) by (intros E0; rewrite E0, drop_nil in Hne; done).
      assert (Hsh : share t w1 n g = take g (sta_queue s)).
      { unfold share. change (sta_table w1) with (sta_table w). by rewrite Hs, (Hsv n s Hs Hq0). }
      assert (Hlt : (g < length (sta_queue s))%nat).
      { destruct (Nat.lt_ge_cases g (length (sta_queue s))); [done|]. rewrite Hsh, length_take in Hne.
        rewrite drop_ge in Hne by lia. done. }
      unfold triggered. rewrite fl_pending, !Z.lor_spec. rewrite Hbit; [by rewrite orb_true_r|].
      unfold share_bit. change (sta_table w1) with (sta_table w). rewrite Hs, (Hsv n s Hs Hq0). cbn [andb].
      rewrite (proj2 (Nat.leb_le g (length (sta_queue s)))) by lia. rewrite andb_true_r.
      destruct (decide (pending_list s = [])) as [Ep|Ep]; [|rewrite (bool_decide_eq_false_2 _ Ep); by apply bit_sta_spec; [lia|]].
      rewrite (bool_decide_eq_false_2 (waiting_list s = [])); [rewrite orb_true_r; by apply bit_sta_spec; [lia|]|].
      intros Ew. unfold sta_queue in Hq0. by rewrite Ep, Ew in Hq0.
  - by rewrite fl_cfm.
  - assert (Hl : live [] w' ≡ₚ live [] w).
    { pose proof (wf_conserved _ _ _ Hwf') as C'. pose proof (wf_conserved _ _ _ Hwf) as C. destruct fl_hist as (H1 & H2 & _).
      destruct fl_mem as [_ Hx]. rewrite H1, H2 in C'. change (outs (hist w1)) with (outs (hist w)) in C'.
      change (dones (hist w1)) with (dones (hist w)) in C'. rewrite C in C'. apply Permutation_app_inv_l in C'.
      assert (Hpk : pk w' = pk w) by (unfold pk; by rewrite Hx). rewrite Hpk in C'.
      assert (Hid : forall v, wf [] callers v -> pk v = pk w -> (pk_hdr <$> (pk w <$> queued v ++ in_desc v)) = live [] v).
      { intros v Hv Ev. rewrite <- Ev, <- list_fmap_compose. transitivity (id <$> (queued v ++ in_desc v)).
        - apply list_fmap_ext. intros i h Hi. apply list_elem_of_lookup_2 in Hi.
          destruct (wf_live _ _ _ Hv h Hi) as (x & b & Hx' & _). unfold compose. by rewrite (pk_at _ _ _ Hx').
        - by rewrite list_fmap_id. }
      rewrite <- (Hid w' Hwf' Hpk), <- (Hid w Hwf eq_refl). symmetry. by apply fmap_Permutation. }
    unfold attempts. rewrite Hl. apply sum_ext. intros h _. unfold budget. destruct fl_mem as [_ Hx]. by rewrite Hx.
  - intros Hno. rewrite fl_ongoing in Hno. apply app_eq_nil in Hno as [_ Htk].
    assert (Hp : plan_packets (plan t w1 sta_indexes (length (list_free (ipc w1)))) = []).
    { apply nil_length_inv. apply (f_equal length) in Htk. rewrite length_take, length_nil in Htk. lia. }
    assert (Hfree : length (list_free (ipc w1)) = 2%nat).
    { pose proof (wf_lists _ _ _ Hwf) as H. unfold busy in H. rewrite Ho, Hc, app_nil_r in H. apply Permutation_length in H. exact H. }
    assert (Hqs : forall n s, sta_table w !! n = Some s -> sta_queue s = []).
    { intros n s Hs. destruct (decide (sta_queue s = [])) as [|Hne]; [done|]. exfalso.
      pose proof (plan_empty _ _ _ _ Hp n (Hix n s Hs)) as He. unfold share in He. change (sta_table w1) with (sta_table w) in He.
      rewrite Hs, (Hsv n s Hs Hne), Hfree in He. destruct (sta_queue s); [done|]. done. }
    assert (Hbw : busy w' = []).
    { unfold busy. rewrite fl_ongoing, fl_cfm, Hp. change (list_ongoing (ipc w1)) with (list_ongoing (ipc w)).
      change (list_cfm (ipc w1)) with (list_cfm (ipc w)). by rewrite Ho, Hc. }
    assert (Hqw : queued w' = []).
    { destruct (queued w') as [|h q] eqn:Eq; [done|]. assert (Hin : h ∈ queued w') by (rewrite Eq; left).
      apply elem_of_join in Hin as (n & s' & Hs' & Hh). destruct (Hback n s' Hs') as (s & Hs & ->).
      rewrite drop_queue_queue, (Hqs n s Hs), drop_nil in Hh. by apply elem_of_nil in Hh. }
    unfold live, in_desc. by rewrite Hqw, Hbw.
Qed.

(** ** Rounds *)

(** the firmware answers all descriptors it has, and the WiFi task takes its turn *)
Definition round (f : Z -> Z) (w : wifi) : outcome wifi :=
  bl_main_event_handle true 0 None (fw_all f (list_ongoing (ipc w)) w).
Fixpoint rounds (fs : list (Z -> Z)) (w : wifi) : outcome wifi :=
  match fs with [] => Done w | f :: fs => w ← round f w; rounds fs w end.

Lemma round_spec callers w f : wf [] callers w -> quiet w -> list_cfm (ipc w) = [] -> (forall d, passing (f d)) ->
  exists w', round f w = Done w' /\ wf [] callers w' /\ quiet w' /\ list_cfm (ipc w') = []
    /\ (attempts w' + length (list_ongoing (ipc w)) <= attempts w)%nat /\ (list_ongoing (ipc w') = [] -> live [] w' = []).
Proof.
  intros Hwf Hq Hc Hf. unfold round, bl_main_event_handle. cbn [Z.eqb andb].
  destruct (fw_all_spec callers f _ w Hf Hwf Hq eq_refl) as (W1 & Q1 & A1 & O1 & C1 & T1); [rewrite Hc; by intros d Hd%elem_of_nil|].
  set (w1 := fw_all _ _ _) in *. unfold ipc_host_tx_cfm_handler.
  destruct (cfm_loop_quiet callers (S (length (list_cfm (ipc w1)))) w1 W1 Q1 A1) as (w2 & E2 & W2 & Q2 & C2 & O2 & T2); [lia|].
  rewrite E2. cbn [mbind outcome_bind].
  destruct (flush_quiet callers w2 W2 Q2) as (w3 & E3 & W3 & Q3 & C3 & T3 & L3); [unfold busy; by rewrite O2, O1, C2|].
  exists w3. split; [done|]. do 3 (split; [done|]). split; [|done]. rewrite T3. rewrite C1, Hc, T1 in T2. exact T2.
Qed.

Lemma rounds_drain callers fs w : wf [] callers w -> quiet w -> list_cfm (ipc w) = [] -> (forall f, f ∈ fs -> forall d, passing (f d)) ->
  (list_ongoing (ipc w) = [] -> live [] w = []) -> (attempts w <= length fs)%nat ->
  exists w', rounds fs w = Done w' /\ wf [] callers w' /\ live [] w' = [].
Proof.
  revert w. induction fs as [|f fs IH]; intros w Hwf Hq Hc Hf Hl Ht; cbn [rounds].
  - exists w. split; [done|]. split; [done|]. apply nil_length_inv. pose proof (attempts_bounds _ _ Hwf). cbn [length] in Ht. lia.
  - destruct (round_spec callers w f Hwf Hq Hc) as (w1 & E & W1 & Q1 & C1 & T1 & L1); [apply Hf; left|]. step_with E.
    apply IH; try done; [intros; by apply Hf; right|].
    destruct (list_ongoing (ipc w)) as [|d ds] eqn:Eo; cbn [length] in T1, Ht; [|lia].
    pose proof (attempts_bounds _ _ Hwf). rewrite (Hl eq_refl) in *. cbn [length] in *. lia.
Qed.

(** C14: Every packet is released.  From a reachable state between two turns of the WiFi
    task with flow control open, used stations under their own index and stations with
    packets triggered ([quiet]), when the firmware answers every descriptor with any
    status but the two that block, [4 * n + 1] turns release the [n] packets the driver
    has: each packet is sent at most four times, and no packet is left while a
    descriptor is free. *)
Theorem tx_drains s fs : reach s -> sprep s = [] -> quiet (sw s) -> list_cfm (ipc (sw s)) = [] ->
  (forall f, f ∈ fs -> forall d, passing (f d)) -> (4 * length (live [] (sw s)) < length fs)%nat ->
  exists w', rounds fs (sw s) = Done w' /\ live [] w' = [] /\ outs (hist w') ≡ₚ fst <$> dones (hist w').
Proof.
  intros H Hp Hq Hc Hf Hlen. destruct (reach_ok s H) as [Hwf _]. rewrite Hp in Hwf. destruct fs as [|f fs]; [cbn [length] in Hlen; lia|].
  destruct (round_spec _ _ f Hwf Hq Hc) as (w1 & E & W1 & Q1 & C1 & T1 & L1); [apply Hf; left|]. cbn [rounds]. step_with E.
  pose proof (attempts_bounds _ _ Hwf). cbn [length] in Hlen.
  destruct (rounds_drain _ fs w1 W1 Q1 C1 ltac:(intros; apply Hf; by right) L1) as (w' & E' & W' & L'); [lia|].
  exists w'. split; [done|]. split; [done|]. pose proof (wf_conserved _ _ _ W') as C.
  unfold live in L'. cbn in L'. rewrite L' in C. cbn in C. by rewrite app_nil_r in C.
Qed.
