(* ===== verification/BlTxWitness.v ===== *)
(** * A run of the WiFi transmit path

    A concrete run of the system of BlTxSystem.v: a station connects, a packet is
    queued, flushed to the firmware, answered and confirmed; the theorems about the
    transmit path are applied along it. *)
From S2P Require Import Prelude BlTx BlSta BlTxProofs BlTxReach BlTxFlush BlTxSystem BlTxDrain.

Module TxWitness.

Definition result {A} (d : A) (m : outcome A) : A := match m with Done x => x | _ => d end.
Fixpoint pieces (n : nat) (s : sys) : sys :=
  match n with
  | O => s
  | S n =>
    let '(c, w) := result (spc s, sw s) (flush_piece (spc s) (sw s)) in
    pieces n {| sw := w; sprep := sprep s; spc := c; scallers := scallers s |}
  end.
Lemma pieces_reach n s : reach s -> sys_ok s -> reach (pieces n s).
Proof.
  revert s. induction n as [|n IH]; intros s H Hok; [done|]. cbn [pieces].
  destruct (flush_piece_wf _ _ _ _ (so_wf _ Hok) (so_pc _ Hok)) as (c & w & E & H1 & H2). rewrite E. cbn [result].
  apply IH; [|by split]. eapply reach_step; [exact H|]. by apply st_piece.
Qed.

Definition the_pbuf : pbuf :=
  {| next := []; payload := 4176; tot_len := 100; len := 100; contiguous := true; ref := 1; size := 200;
     h_dest := [2; 0; 0; 0; 0; 1]; h_source := [2; 0; 0; 0; 0; 2]; h_proto := 2048 |}.
Definition connected : sys := with_sw (result (0, wifi_init) (bl_rx_sm_sta_add_ind 3 1 wifi_init)).2 sys_init.
Definition allocated : sys :=
  {| sw := put_pbuf 4096 the_pbuf (sw connected); sprep := []; spc := Idle; scallers := add_caller 4096 1 (fun _ => 0) |}.
Definition prepared : sys :=
  match bl_output_prepare true 4096 (Some (7, 8)) (sw allocated) with
  | Done (inr (i, h, w)) => {| sw := w; sprep := [(i, h)]; spc := Idle; scallers := scallers allocated |}
  | _ => allocated
  end.
Definition enqueued : sys :=
  {| sw := result (sw prepared) (bl_output_enqueue 3 4128 (sw prepared)); sprep := []; spc := Idle;
     scallers := scallers prepared |}.
Definition flushing : sys :=
  let '(t, w) := result (0, wifi_init) (flush_begin 0 None (sw enqueued)) in
  {| sw := w; sprep := []; spc := AtSta 0 t; scallers := scallers enqueued |}.
Definition flushed_out : sys := pieces 12 flushing.
(** the answer of the firmware: the limit of its own retries *)
Definition answered_retry : sys := with_sw (fw_done 0 RETRY_LIMIT_REACHED_BIT [] [] (sw flushed_out)) flushed_out.
Definition confirmed : sys :=
  with_sw (match tx_cfm_turn (sw answered_retry) with Done (Some w) => w | _ => sw answered_retry end) answered_retry.

Lemma connected_reach : reach connected.
Proof.
  eapply reach_step; [apply reach_init|]. eapply (st_tables sys_init _ 0); [by apply tc_sm_add with (idx := 3) (q := 1)|].
  vm_compute. reflexivity.
Qed.
Lemma allocated_reach : reach allocated.
Proof.
  eapply reach_step; [apply connected_reach|]. apply (st_alloc connected 4096 the_pbuf). split; [done..|].
  change (pbufs (sw connected)) with (∅ : gmap Z pbuf). split.
  - intros p b [[<- <-]|[_ H]]%lookup_insert_Some; [|by rewrite lookup_empty in H]. by split; cbn.
  - intros p q b c [[<- <-]|[_ H]]%lookup_insert_Some [[<- <-]|[_ H']]%lookup_insert_Some; try done;
      by rewrite lookup_empty in *.
Qed.
Lemma outputable_allocated : outputable [] (sw allocated) 4096 the_pbuf.
Proof. split; [done|intros H; by apply elem_of_nil in H|by exists 2|cbn; lia|done]. Qed.
Lemma prepared_reach : reach prepared.
Proof.
  eapply reach_step; [apply allocated_reach|]. destruct (bl_output_prepare true 4096 (Some (7, 8)) (sw allocated)) as [[[e w]|[[i h] w]]| |] eqn:E;
    try by vm_compute in E.
  unfold prepared. rewrite E. exact (st_prepare allocated _ _ _ _ i h w outputable_allocated E).
Qed.
Lemma enqueued_reach : reach enqueued.
Proof.
  eapply reach_step; [apply prepared_reach|].
  apply (st_enqueue prepared [] 3 4128 []); [by vm_compute|by vm_compute].
Qed.
Lemma flushing_reach : reach flushing.
Proof.
  eapply reach_step; [apply enqueued_reach|]. apply (st_flush enqueued 0 None); by vm_compute.
Qed.
Lemma flushed_reach : reach flushed_out.
Proof. apply pieces_reach; [apply flushing_reach|]. apply reach_ok, flushing_reach. Qed.
Lemma answered_reach : reach answered_retry.
Proof. eapply reach_step; [apply flushed_reach|]. apply st_firmware. by vm_compute. Qed.
Lemma confirmed_reach : reach confirmed.
Proof. eapply reach_step; [apply answered_reach|]. apply st_confirm; by vm_compute. Qed.

Definition the_packet : packet := {| pk_sta := 3; pk_hdr := 4128; pk_buf := 4096; pk_cb := (7, 8) |}.

Lemma tx_packets_conserved_witness :
  outs (hist (sw confirmed)) = [the_packet] /\ queued (sw confirmed) = [4128]
  /\ outs (hist (sw confirmed)) ≡ₚ (fst <$> dones (hist (sw confirmed))) ++ (pk (sw confirmed) <$> queued (sw confirmed) ++ in_desc (sw confirmed)).
Proof.
  split; [by vm_compute|]. split; [by vm_compute|]. exact (proj1 (tx_packets_conserved confirmed confirmed_reach)).
Defined.

Lemma tx_station_order_witness : exists sta, sta_table (sw confirmed) !! 3%nat = Some sta /\ pending_list sta = [4128]
  /\ filter (fun k => pk_sta k = Z.of_nat 3) (outs (hist (sw confirmed)))
     = first_pushes (Z.of_nat 3) (pushes (hist (sw confirmed))) ++ (pk (sw confirmed) <$> waiting_list sta).
Proof.
  destruct (sta_table (sw confirmed) !! 3%nat) as [sta|] eqn:E; [|by vm_compute in E].
  pose proof (proj1 (tx_station_order confirmed 3 sta confirmed_reach E)) as H. exists sta. split; [done|]. split; [|exact H].
  by vm_compute in E; injection E as <-.
Defined.

Lemma tx_state_well_formed_witness :
  (exists w', ipc_host_tx_cfm_handler (sw answered_retry) = Done w' /\ list_cfm (ipc w') = []) /\ list_cfm (ipc (sw answered_retry)) = [0].
Proof.
  split; [|by vm_compute].
  destruct (tx_state_well_formed answered_retry answered_reach) as (_ & _ & H & _). exact H.
Defined.

Lemma tx_cfm_correct_witness : exists h x b sta v,
  tx_cfm_turn (sw answered_retry) = Done (Some (after_cfm 0 h x b sta v (sw answered_retry))) /\ h = 4128 /\ hdr_p x = 4096.
Proof.
  destruct (tx_cfm_correct answered_retry 0 [] answered_reach ltac:(by vm_compute)) as (h & x & b & sta & v & H1 & H2 & _ & _ & _ & H).
  exists h, x, b, sta, v. split; [exact H|]. assert (E : h = 4128) by (rewrite <- H1; by vm_compute). split; [exact E|].
  rewrite E in H2. vm_compute in H2. by injection H2 as <-.
Defined.

Lemma tx_flush_correct_witness : exists t w1 w',
  flush_begin 0 None (sw confirmed) = Done (t, w1) /\ t = BIT_STA 3 /\ bl_tx_try_flush 0 None (sw confirmed) = Done w'
  /\ plan t w1 sta_indexes (length (list_free (ipc w1))) = [(0%nat, []); (1%nat, []); (2%nat, []); (3%nat, [4128]); (4%nat, []); (5%nat, []); (6%nat, [])]
  /\ flushed (plan t w1 sta_indexes (length (list_free (ipc w1)))) (plan_bits t w1 sta_indexes (length (list_free (ipc w1)))) w1 w'.
Proof.
  destruct (tx_flush_correct confirmed 0 None confirmed_reach) as (t & w1 & w' & H1 & H2 & H3). exists t, w1, w'.
  split; [exact H1|]. vm_compute in H1. injection H1 as <- <-. split; [by vm_compute|]. split; [exact H2|]. split; [by vm_compute|exact H3].
Defined.

(** five turns are more than one packet's four attempts need *)
Lemma tx_drains_witness : exists w', rounds (repeat (fun _ => RETRY_LIMIT_REACHED_BIT) 5) (sw enqueued) = Done w'
  /\ live [] w' = [] /\ outs (hist w') ≡ₚ fst <$> dones (hist w') /\ live [] (sw enqueued) = [4128].
Proof.
  destruct (tx_drains enqueued (repeat (fun _ => RETRY_LIMIT_REACHED_BIT) 5) enqueued_reach eq_refl) as (w' & H1 & H2 & H3).
  - split.
    + intros n v Hn. do 2 (destruct n as [|n]; [vm_compute in Hn; by injection Hn as <-|]). by vm_compute in Hn.
    + intros n s Hn. do 7 (destruct n as [|n]; [vm_compute in Hn; by injection Hn as <-|]). by vm_compute in Hn.
    + intros n s Hn. do 7 (destruct n as [|n]; [vm_compute in Hn; by injection Hn as <-|]). by vm_compute in Hn.
    + intros n s Hn. do 7 (destruct n as [|n]; [vm_compute in Hn; by injection Hn as <-|]). by vm_compute in Hn.
  - by vm_compute.
  - intros f Hf. apply list_elem_of_In, repeat_spec in Hf. subst f. intros _. by vm_compute.
  - vm_compute. lia.
  - exists w'. split; [exact H1|]. split; [exact H2|]. split; [exact H3|]. by vm_compute.
Defined.

End TxWitness.
