(* ===== verification/BlTxFindings.v ===== *)
(** * Behaviours of the WiFi transmit path that its comments do not promise

    Lemmas about BlTx.v and BlSta.v behind the findings of the development: where a
    packet or a station is left behind, and a write past an array. *)
From S2P Require Import Prelude BlTx BlSta BlTxProofs BlTxReach BlTxFlush BlTxSystem BlTxDrain BlTxWitness.
Import TxWitness.

Module TxFindings.

(** ** Flow control of clients *)

Lemma upd_sta_other i f w w' n : 0 <= i -> i <> Z.of_nat n -> upd_sta i f w = Done w' ->
  sta_table w' !! n = sta_table w !! n /\ vif_table w' = vif_table w.
Proof.
  intros Hi Hne E. unfold upd_sta in E. destruct (get_sta w i) as [s| |]; try discriminate E. cbn [mbind outcome_bind] in E.
  unfold aset in E. case_decide; [|discriminate E]. injection E as <-. cbn. split; [|done]. by rewrite list_lookup_insert_ne by lia.
Qed.
Lemma upd_vif_stas i f w w' : upd_vif i f w = Done w' -> sta_table w' = sta_table w.
Proof.
  intros E. unfold upd_vif in E. destruct (get_vif w i) as [v| |]; try discriminate E. cbn [mbind outcome_bind] in E.
  unfold aset in E. case_decide; [|discriminate E]. by injection E as <-.
Qed.
Lemma maybe_upd_vif (c : bool) i f w w' : (if c then Done w else upd_vif i f w) = Done w' -> sta_table w' = sta_table w.
Proof. destruct c; [by intros [= <-]|apply upd_vif_stas]. Qed.

(** the firmware's message that clients are awake triggers them, but their [fc_ps]
    stays: only that of the station interface's own station is ever reset *)
Lemma update_fc_leaves_clients fc w t w' n s v : bl_tx_cntrl_update_fc fc w = Done (t, w') ->
  sta_table w !! n = Some s -> vif_table w !! 0%nat = Some v -> 0 <= fixed_sta_idx v -> fixed_sta_idx v <> Z.of_nat n ->
  sta_table w' !! n = Some s.
Proof.
  intros E Hs Hv H0 Hne. unfold bl_tx_cntrl_update_fc in E. apply bind_done in E as ([t0 w0] & Ea & E).
  assert (H1 : sta_table w0 !! n = Some s).
  { destruct (any (vif_bits fc) (Z.shiftl 1 0)); [|by injection Ea as <- <-]. apply bind_done in Ea as (v1 & Ev & Ea).
    assert (v1 = v) as -> by (rewrite (get_vif_done w BL_VIF_STA v) in Ev by done; by injection Ev).
    apply bind_done in Ea as (w1 & E1 & Ea). apply maybe_upd_vif in E1. apply bind_done in Ea as (w2 & E2 & Ea).
    injection Ea as <- <-. destruct (sta_fc_ps fc =? 0); [injection E2 as <-; congruence|].
    apply (upd_sta_other _ _ _ _ n) in E2 as [E2 _]; congruence. }
  destruct (any (vif_bits fc) (Z.shiftl 1 1)); [|by injection E as <- <-]. apply bind_done in E as (va & _ & E).
  apply bind_done in E as ([t1 w1] & E1 & E). injection E as <- <-. destruct (ap_fc_chan fc =? 0); [by injection E1 as <- <-|].
  apply bind_done in E1 as (w2 & E2 & E1). injection E1 as <- <-. apply upd_vif_stas in E2. congruence.
Qed.

(** ** Packets left behind *)

(** a client that is deleted loses its queue: no packet is released *)
Lemma sta_delete_drops_queue idx w s v : 0 <= idx -> sta_table w !! Z.to_nat idx = Some s ->
  0 <= vif_idx s -> vif_table w !! Z.to_nat (vif_idx s) = Some v ->
  exists w', bl_main_apm_sta_delete idx 0 w = Done (0, w')
    /\ (exists s', sta_table w' !! Z.to_nat idx = Some s' /\ sta_queue s' = []) /\ hist w' = hist w /\ pbufs w' = pbufs w.
Proof.
  intros Hi Hs Hv0 Hv. unfold bl_main_apm_sta_delete. step_with (get_sta_done _ _ _ Hi Hs).
  step_with (get_vif_done _ _ _ Hv0 Hv). cbn [Z.eqb negb]. rewrite (upd_sta_done _ _ _ _ Hi Hs). cbn [mbind outcome_bind].
  eexists. split; [done|]. cbn. split; [|done]. exists empty_sta. split; [|done].
  apply list_lookup_insert_eq. by apply lookup_lt_Some in Hs.
Qed.

(** a packet whose access point slept, and the connection is lost: the flush that is
    to purge the queue passes by, and the packet goes out on the next connection as
    soon as the station is triggered *)
Definition slept : sys := with_sw (fw_done 0 FRAME_REPUSHABLE_PS_BIT [] [] (sw flushed_out)) flushed_out.
Definition turn (w : wifi) : wifi := result w (bl_main_event_handle true 0 None w).
Definition lost : wifi := turn (result (0, wifi_init) (bl_rx_sm_disconnect_ind false 1 (turn (sw slept)))).2.
Definition back : wifi := turn (result (0, wifi_init) (bl_rx_sm_sta_add_ind 3 1 lost)).2.
Lemma purge_passes_blocked_station :
  queued lost = [4128] /\ in_desc lost = [] /\ dones (hist lost) = []
  /\ tx_cntrl_sta_trigger lost = 0 /\ tx_cntrl_sta_trigger_pending lost = 0 /\ (links_num <$> vif_table lost) = [0; 0]
  /\ (links_num <$> vif_table back) = [1; 0] /\ in_desc (turn (with_trigger (BIT_STA 3) back)) = [4128].
Proof. by vm_compute. Qed.

(** ** Descriptors *)

(** a chain of five pbufs is written past the four entries of the descriptor; the
    warning about the length comes behind the loop *)
Lemma long_chain_faults q ptrs lens : length ptrs = 4%nat -> length lens = 4%nat -> (4 < length q)%nat ->
  fill_chain q 0 ptrs lens = Fault.
Proof.
  intros Hp Hl Hq. do 5 (destruct q as [|[? ?] q]; [cbn in Hq; lia|]). do 5 (destruct ptrs as [|? ptrs]; try discriminate Hp).
  do 5 (destruct lens as [|? lens]; try discriminate Hl). reflexivity.
Qed.

(** ** Access point *)

(** a start the firmware refuses, with the index 0 of the cleared answer, turns
    station 0 into the broadcast station *)
Lemma apm_start_failure_takes_station e w s v : sta_table w !! 0%nat = Some s -> vif_table w !! 1%nat = Some v -> e <> 0 ->
  exists w' s', bl_main_apm_start e 0 w = Done (e, w') /\ sta_table w' !! 0%nat = Some s' /\ vif_idx s' = BL_VIF_AP
    /\ sta_idx s' = 0 /\ is_used s' = is_used s.
Proof.
  intros Hs Hv He. unfold bl_main_apm_start, BL_VIF_AP, NX_VIRT_DEV_MAX. rewrite (upd_vif_done w (2 - 1) v) by done. cbn [mbind outcome_bind].
  rewrite (upd_sta_done _ 0 s) by done. cbn [mbind outcome_bind]. eexists _, _. split; [done|].
  split; [by apply list_lookup_insert_eq; apply lookup_lt_Some in Hs|]. done.
Qed.

(** the count of clients is the size of the table *)
Lemma sta_cnt_is_table_size w : length (sta_table w) = 7%nat -> bl_main_apm_sta_cnt_get w = (0, 7).
Proof. unfold bl_main_apm_sta_cnt_get. by intros ->. Qed.
Lemma sta_cnt_no_client : used_cnt wifi_init = 0 /\ bl_main_apm_sta_cnt_get wifi_init = (0, 7).
Proof. by vm_compute. Qed.

(** ** Broadcast between clients *)

(** an access point with three clients, the broadcast station being 6 *)
Definition ap_calls : list (wifi -> outcome (Z * wifi)) :=
  let client i := bl_rx_apm_sta_add_ind {| add_flags := 1; add_addr := [2; 0; 0; 0; 0; i + 1]; add_sta_idx := i; add_rssi := 0;
                                            add_tsflo := 0; add_tsfhi := 0; add_data_rate := 0 |} in
  [bl_main_apm_start 0 6; client 0; client 1; client 2].
Definition ap_clients : wifi := foldl (fun w f => (result (0, w) (f w)).2) wifi_init ap_calls.
Definition a_broadcast : pbuf :=
  {| next := []; payload := 4112; tot_len := 100; len := 100; contiguous := true; ref := 1; size := 200;
     h_dest := repeat 255 6; h_source := [2; 0; 0; 0; 0; 1]; h_proto := 2054 |}.
Definition a_heap (m : gmap Z pbuf) (n : Z) : Z := 8192 + 2048 * Z.of_nat (map_size m).
(** the broadcast of client 0: for each of the two other clients a copy is queued,
    both of them for the broadcast station, which each client receives *)
Lemma broadcast_is_doubled :
  (fun k => pk_sta k) <$> outs (hist (result (0, ap_clients)
     (bl_tx_intra_bss_broadcast a_heap 4096 0 (put_pbuf 4096 a_broadcast ap_clients))).2) = [6; 6].
Proof. by vm_compute. Qed.

End TxFindings.
