(* ===== verification/Dhcpd.v ===== *)
(** * The DHCP server: dhcp_server_raw.c

    The server of an access point: it offers addresses of a range to clients, found
    again by their hardware address, and answers their requests with the address
    they have.  A message is handled in a buffer of 1500 bytes, whose part behind the
    datagram is whatever the heap held; addresses are 32-bit words as the processor
    reads them from network order.  The network stack's answers ([pbuf_alloc],
    [mem_malloc], [udp_new], the addresses of an interface) are arguments. *)
From S2P Require Import Prelude Bytes.

(** ** Data *)

Definition DHCPD_MAX_DNS_SERVER_NUM : Z := 2.
Definition DHCP_MAX_HLEN : Z := 6.
Definition DHCP_DEFAULT_LIVE_TIME : Z := 0x80510100.
Definition DHCP_MIN_REQUEST_LEN : Z := 44.
Definition DHCP_BUFFER_LEN : Z := 1500.

Definition DHCP_BOOTREQUEST : Z := 1.
Definition DHCP_BOOTREPLY : Z := 2.
Definition DHCP_DISCOVER : Z := 1.
Definition DHCP_OFFER : Z := 2.
Definition DHCP_REQUEST : Z := 3.
Definition DHCP_ACK : Z := 5.
Definition DHCP_NAK : Z := 6.
Definition DHCP_RELEASE : Z := 7.
Definition DHCP_MAGIC_COOKIE : Z := 0x63825363.

Definition DHCP_OPTION_SUBNET_MASK : Z := 1.
Definition DHCP_OPTION_ROUTER : Z := 3.
Definition DHCP_OPTION_DNS_SERVER : Z := 6.
Definition DHCP_OPTION_REQUESTED_IP : Z := 50.
Definition DHCP_OPTION_LEASE_TIME : Z := 51.
Definition DHCP_OPTION_MESSAGE_TYPE : Z := 53.
Definition DHCP_OPTION_SERVER_ID : Z := 54.
Definition DHCP_OPTION_END : Z := 255.

(** where the fields of [struct dhcp_msg] are *)
Definition OFS_OP : Z := 0.
Definition OFS_HLEN : Z := 2.
Definition OFS_HOPS : Z := 3.
Definition OFS_SECS : Z := 8.
Definition OFS_YIADDR : Z := 16.
Definition OFS_SIADDR : Z := 20.
Definition OFS_CHADDR : Z := 28.
Definition OFS_SNAME : Z := 44.
Definition OFS_FILE : Z := 108.
Definition OFS_COOKIE : Z := 236.
Definition DHCP_OPTIONS_OFS : Z := 240.

Definition ERR_OK : Z := 0.
Definition ERR_MEM : Z := -1.
Definition ERR_VAL : Z := -6.

Record dhcp_client_node := { chaddr : list Z; ipaddr : Z; lease_end : Z }.
(** the list of the clients is only reached through its server *)
Record dhcp_server := {
  srv_next : Z; srv_netif : Z; pcb : Z; node_list : list dhcp_client_node;
  range_start : Z; range_end : Z; current : Z; dnsserver : list Z }.

(** the servers by address, the head of their list, and the server each UDP control
    block hands its datagrams to *)
Record dhcpd := { lw_dhcp_server : Z; servers : gmap Z dhcp_server; receivers : gmap Z Z }.

Definition set_nodes (l : list dhcp_client_node) (s : dhcp_server) : dhcp_server :=
  {| srv_next := srv_next s; srv_netif := srv_netif s; pcb := pcb s; node_list := l; range_start := range_start s;
     range_end := range_end s; current := current s; dnsserver := dnsserver s |}.
Definition set_current (c : Z) (s : dhcp_server) : dhcp_server :=
  {| srv_next := srv_next s; srv_netif := srv_netif s; pcb := pcb s; node_list := node_list s; range_start := range_start s;
     range_end := range_end s; current := c; dnsserver := dnsserver s |}.
Definition set_range (a b : Z) (s : dhcp_server) : dhcp_server :=
  {| srv_next := srv_next s; srv_netif := srv_netif s; pcb := pcb s; node_list := node_list s; range_start := a;
     range_end := b; current := a; dnsserver := dnsserver s |}.
Definition set_dns (l : list Z) (s : dhcp_server) : dhcp_server :=
  {| srv_next := srv_next s; srv_netif := srv_netif s; pcb := pcb s; node_list := node_list s; range_start := range_start s;
     range_end := range_end s; current := current s; dnsserver := l |}.
Definition set_pcb (p : Z) (s : dhcp_server) : dhcp_server :=
  {| srv_next := srv_next s; srv_netif := srv_netif s; pcb := p; node_list := node_list s; range_start := range_start s;
     range_end := range_end s; current := current s; dnsserver := dnsserver s |}.

(** ** Words in memory *)

(** the bytes of a 32-bit word, and the word of four bytes *)
Definition bytes32 (x : Z) : list Z := [u8 x; u8 (Z.shiftr x 8); u8 (Z.shiftr x 16); u8 (Z.shiftr x 24)].
Definition word32 (a b c d : Z) : Z := a + b * 2 ^ 8 + c * 2 ^ 16 + d * 2 ^ 24.
Definition load32 (buf : list Z) (pos : Z) : outcome Z :=
  a ← aget buf pos; b ← aget buf (pos + 1); c ← aget buf (pos + 2); d ← aget buf (pos + 3); Done (word32 a b c d).
Definition htonl (x : Z) : Z := word32 (u8 (Z.shiftr x 24)) (u8 (Z.shiftr x 16)) (u8 (Z.shiftr x 8)) (u8 x).
Definition ntohl (x : Z) : Z := htonl x.

(** [memcmp(a, b, n) == 0] *)
Definition same_bytes (a b : list Z) (n : Z) : bool := bool_decide (take (Z.to_nat n) a = take (Z.to_nat n) b).

(** ** Options and clients *)

(** positions are those of the message; one turn of the loop moves on by at least two *)
Fixpoint option_find_loop (fuel : nat) (buf : list Z) (pos fin code : Z) : outcome (option Z) :=
  match fuel with
  | O => NoFuel
  | S fuel =>
    if pos <? fin then
      x ← aget buf pos;
      if x =? DHCP_OPTION_END then Done None
      else if x =? code then Done (Some pos)
      else n ← aget buf (pos + 1); option_find_loop fuel buf (pos + n + 2) fin code
    else Done None
  end.
Definition dhcp_server_option_find (buf : list Z) (opt_buf len code : Z) : outcome (option Z) :=
  option_find_loop (S (Z.to_nat len)) buf opt_buf (opt_buf + len) code.

(** a client is named by its place in the list *)
Fixpoint find_node (f : dhcp_client_node -> bool) (l : list dhcp_client_node) : option nat :=
  match l with [] => None | n :: l => if f n then Some 0%nat else S <$> find_node f l end.
Definition dhcp_client_find_by_mac (s : dhcp_server) (mac : list Z) (hlen : Z) : option nat :=
  find_node (fun n => same_bytes (chaddr n) mac hlen) (node_list s).
Definition dhcp_client_find_by_ip (s : dhcp_server) (ip : Z) : option nat :=
  find_node (fun n => ipaddr n =? ip) (node_list s).

(** the client with the requested address, when it has the same hardware address *)
Definition find_requested (s : dhcp_server) (buf mac : list Z) (hlen opt_buf len : Z) : outcome (option nat) :=
  opt ← dhcp_server_option_find buf opt_buf len DHCP_OPTION_REQUESTED_IP;
  match opt with
  | None => Done None
  | Some o =>
    ip ← load32 buf (o + 2);
    match dhcp_client_find_by_ip s ip with
    | None => Done None
    | Some i =>
      match node_list s !! i with
      | Some n => Done (if same_bytes (chaddr n) mac hlen then Some i else None)
      | None => Fault
      end
    end
  end.

Definition dhcp_client_find (s : dhcp_server) (buf mac : list Z) (hlen opt_buf len : Z) : outcome (option nat) :=
  match dhcp_client_find_by_mac s mac hlen with
  | Some i => Done (Some i)
  | None => find_requested s buf mac hlen opt_buf len
  end.

(** [dhcp_alloc_again]: [current] moves to the next address that is not leased *)
Definition next_address (s : dhcp_server) : Z :=
  let ip := u32 (ntohl (current s) + 1) in
  htonl (if ntohl (range_end s) <? ip then ntohl (range_start s) else ip).
Fixpoint alloc_loop (fuel : nat) (s : dhcp_server) : outcome dhcp_server :=
  match fuel with
  | O => NoFuel
  | S fuel =>
    match dhcp_client_find_by_ip s (current s) with
    | Some _ => alloc_loop fuel (set_current (next_address s) s)
    | None => Done s
    end
  end.

(** [malloc] is the new node's memory with the bytes of [chaddr] it happens to hold;
    the result is the client, if there is one *)
Definition dhcp_client_alloc (fuel : nat) (malloc : option (list Z)) (s : dhcp_server) (buf mac : list Z)
    (hlen opt_buf len : Z) : outcome (option nat * dhcp_server) :=
  match dhcp_client_find_by_mac s mac hlen with
  | Some i => Done (Some i, s)
  | None =>
    r ← find_requested s buf mac hlen opt_buf len;
    match r with
    | Some i => Done (Some i, s)
    | None =>
      s ← alloc_loop fuel s;
      match malloc with
      | None => Done (None, s)
      | Some stale =>
        c ← memcpy stale 0 mac 0 hlen;
        Done (Some 0%nat, set_nodes ({| chaddr := c; ipaddr := current s; lease_end := 0 |} :: node_list s) s)
      end
    end
  end.

(** ** Replies *)

Definition address_option (code x : Z) : list Z := [code; 4] ++ bytes32 x.
(** the servers that are set, and the interface's own address when there is none *)
Definition dns_option (ip : Z) (dns : list Z) : list Z :=
  let l := filter (fun d => d <> 0) dns in
  let l := if bool_decide (l = []) then [ip] else l in
  [DHCP_OPTION_DNS_SERVER; 4 * zlen l] ++ concat (bytes32 <$> l).
(** the options of an offer or acknowledge, and of a refusal *)
Definition lease_options (msg_type ip mask : Z) (dns : list Z) : list Z :=
  [DHCP_OPTION_MESSAGE_TYPE; 1; msg_type] ++ address_option DHCP_OPTION_SERVER_ID ip
  ++ address_option DHCP_OPTION_LEASE_TIME (htonl DHCP_DEFAULT_LIVE_TIME) ++ address_option DHCP_OPTION_SUBNET_MASK mask
  ++ dns_option ip dns ++ address_option DHCP_OPTION_ROUTER ip ++ [DHCP_OPTION_END].
Definition nak_options (ip : Z) : list Z :=
  [DHCP_OPTION_MESSAGE_TYPE; 1; DHCP_NAK] ++ address_option DHCP_OPTION_SERVER_ID ip ++ [DHCP_OPTION_END].

(** the request is turned into the reply in place; what is sent ends behind the
    options *)
Definition dhcp_reply (buf : list Z) (ip yiaddr : Z) (options : list Z) : outcome (list Z) :=
  b ← aset buf OFS_OP DHCP_BOOTREPLY;
  b ← aset b OFS_HOPS 0;
  b ← memcpy b OFS_SECS [0; 0] 0 2;
  b ← memcpy b OFS_SIADDR (bytes32 ip) 0 4;
  b ← aset b OFS_SNAME 0;
  b ← aset b OFS_FILE 0;
  b ← memcpy b OFS_COOKIE (bytes32 (htonl DHCP_MAGIC_COOKIE)) 0 4;
  b ← memcpy b OFS_YIADDR (bytes32 yiaddr) 0 4;
  b ← memcpy b DHCP_OPTIONS_OFS options 0 (zlen options);
  let length := DHCP_OPTIONS_OFS + zlen options in
  Done (if length <? zlen b then take (Z.to_nat length) b else b).

(** ** Messages *)

(** the loop of [DHCP_RELEASE] over the nodes behind those of [before] (in their
    order): both its body and its head move on, so that it compares every other node,
    and [node_prev] is two nodes back *)
Fixpoint release_loop (before : list dhcp_client_node) (mac : list Z) (hlen : Z) (l : list dhcp_client_node)
  : outcome (list dhcp_client_node) :=
  match l with
  | [] => Done before
  | n :: l =>
    if same_bytes (chaddr n) mac hlen then
      Done (match before with [] => l | _ => removelast before ++ l end)
    else
      match l with
      | [] => Fault
      | n' :: l => release_loop (before ++ [n; n']) mac hlen l
      end
  end.

Definition set_lease (i : nat) (s : dhcp_server) : dhcp_server :=
  set_nodes (alter (fun n => {| chaddr := chaddr n; ipaddr := ipaddr n; lease_end := DHCP_DEFAULT_LIVE_TIME |}) i
                   (node_list s)) s.
Definition leased_ip (i : nat) (s : dhcp_server) : outcome Z :=
  match node_list s !! i with Some n => Done (ipaddr n) | None => Fault end.

Record recv_result := { rr_server : dhcp_server; rr_sent : option (list Z); rr_pbufs : Z }.

(** what a message does, behind the checks of its header *)
Definition dhcp_message (fuel : nat) (malloc : option (list Z)) (ip mask : Z) (s : dhcp_server) (buf : list Z)
  : outcome (dhcp_server * option (list Z)) :=
  hlen ← aget buf OFS_HLEN;
  let mac := drop (Z.to_nat OFS_CHADDR) buf in
  let length := u16 (zlen buf - DHCP_OPTIONS_OFS) in
  opt ← dhcp_server_option_find buf DHCP_OPTIONS_OFS length DHCP_OPTION_MESSAGE_TYPE;
  match opt with
  | None => Done (s, None)
  | Some o =>
    msg_type ← aget buf (o + 2);
    if msg_type =? DHCP_DISCOVER then
      '(r, s) ← dhcp_client_alloc fuel malloc s buf mac hlen DHCP_OPTIONS_OFS length;
      match r with
      | None => Done (s, None)
      | Some i =>
        yi ← leased_ip i s;
        b ← dhcp_reply buf ip yi (lease_options DHCP_OFFER ip mask (dnsserver s));
        Done (set_lease i s, Some b)
      end
    else if msg_type =? DHCP_REQUEST then
      r ← dhcp_client_find s buf mac hlen DHCP_OPTIONS_OFS length;
      match r with
      | Some i =>
        yi ← leased_ip i s;
        b ← dhcp_reply buf ip yi (lease_options DHCP_ACK ip mask (dnsserver s));
        Done (set_lease i s, Some b)
      | None => b ← dhcp_reply buf ip 0 (nak_options ip); Done (s, Some b)
      end
    else if msg_type =? DHCP_RELEASE then
      l ← release_loop [] mac hlen (node_list s); Done (set_nodes l s, None)
    else Done (s, None)
  end.

(** [data] is the datagram, [plen] the length of its first pbuf; [heap] is the
    memory [pbuf_alloc] gives for the copy.  [rr_pbufs] counts the packets the call
    leaves allocated *)
Definition dhcp_server_recv (fuel : nat) (malloc heap : option (list Z)) (ip mask : Z) (s : dhcp_server) (plen : Z)
    (data : list Z) : outcome recv_result :=
  let dropped := {| rr_server := s; rr_sent := None; rr_pbufs := 0 |} in
  if plen <? DHCP_MIN_REQUEST_LEN then Done dropped
  else
    match heap with
    | None => Done dropped
    | Some q =>
      if zlen q <? zlen data then Done {| rr_server := s; rr_sent := None; rr_pbufs := 1 |}
      else
        let buf := data ++ drop (length data) q in
        op ← aget buf OFS_OP;
        cookie ← load32 buf OFS_COOKIE;
        hlen ← aget buf OFS_HLEN;
        if negb (op =? DHCP_BOOTREQUEST) then Done dropped
        else if negb (cookie =? htonl DHCP_MAGIC_COOKIE) then Done dropped
        else if DHCP_MAX_HLEN <? hlen then Done dropped
        else
          '(s, b) ← dhcp_message fuel malloc ip mask s buf;
          Done {| rr_server := s; rr_sent := b; rr_pbufs := 0 |}
    end.

(** ** Servers *)

Definition get_server (d : dhcpd) (p : Z) : outcome dhcp_server :=
  match servers d !! p with Some s => Done s | None => Fault end.
Definition put_server (p : Z) (s : dhcp_server) (d : dhcpd) : dhcpd :=
  {| lw_dhcp_server := lw_dhcp_server d; servers := <[p := s]> (servers d); receivers := receivers d |}.

(** the loops over the list of servers: the first of the interface, NULL without one *)
Fixpoint find_server (fuel : nat) (d : dhcpd) (p netif : Z) : outcome Z :=
  match fuel with
  | O => NoFuel
  | S fuel =>
    if p =? NULL then Done NULL
    else s ← get_server d p; if srv_netif s =? netif then Done p else find_server fuel d (srv_next s) netif
  end.
Definition server_of (d : dhcpd) (netif : Z) : outcome Z :=
  find_server (S (size (servers d))) d (lw_dhcp_server d) netif.

(** run by the task of the IP stack; the addresses of the allocator and of [udp_new]
    are arguments, NULL when they fail *)
Definition dhcp_server_start (mem udp netif start fin : Z) (d : dhcpd) : outcome (Z * dhcpd) :=
  p ← server_of d netif;
  if negb (p =? NULL) then s ← get_server d p; Done (ERR_OK, put_server p (set_range start fin s) d)
  else if mem =? NULL then Done (ERR_MEM, d)
  else
    let s := {| srv_next := lw_dhcp_server d; srv_netif := netif; pcb := udp; node_list := []; range_start := start;
                range_end := fin; current := start; dnsserver := repeat 0 2 |} in
    let d := {| lw_dhcp_server := mem; servers := <[mem := s]> (servers d); receivers := receivers d |} in
    if udp =? NULL then Done (ERR_MEM, d)
    else Done (ERR_OK, {| lw_dhcp_server := mem; servers := servers d; receivers := <[udp := mem]> (receivers d) |}).

(** the list is cleared, whatever else is in it *)
Definition dhcp_server_stop (netif : Z) (d : dhcpd) : outcome (Z * dhcpd) :=
  p ← server_of d netif;
  if p =? NULL then Done (ERR_VAL, d)
  else
    s ← get_server d p;
    Done (ERR_OK, {| lw_dhcp_server := NULL; servers := delete p (servers d);
                     receivers := if pcb s =? NULL then receivers d else delete (pcb s) (receivers d) |}).

(** the places in [dnsserver] of the address and of a free entry; 0 also stands for
    none *)
Definition dns_scan (x : Z) (l : list Z) : Z * Z :=
  foldl (fun '(found, free) '(i, d) =>
           (if d =? x then i else found, if (free =? 0) && (d =? 0) then i else free)) (0, 0) (zip (seqZ 0 2) l).
Definition dhcp_server_op_dns_server (netif : Z) (dns : option Z) (reset : bool) (d : dhcpd) : outcome (Z * dhcpd) :=
  match dns with
  | None => Done (ERR_VAL, d)
  | Some x =>
    if netif =? NULL then Done (ERR_VAL, d)
    else
      p ← server_of d netif;
      if p =? NULL then Done (ERR_VAL, d)
      else
        s ← get_server d p;
        let '(found, free) := dns_scan x (dnsserver s) in
        l ← (if negb reset && negb (free =? 0) then aset (dnsserver s) free x
             else if reset && negb (found =? 0) then aset (dnsserver s) found 0
             else Done (dnsserver s));
        Done (ERR_OK, put_server p (set_dns l s) d)
  end.
Definition dhcpd_add_dns_server (netif : Z) (dns : option Z) (d : dhcpd) : outcome (Z * dhcpd) :=
  dhcp_server_op_dns_server netif dns false d.
Definition dhcpd_remove_dns_server (netif : Z) (dns : option Z) (d : dhcpd) : outcome (Z * dhcpd) :=
  dhcp_server_op_dns_server netif dns true d.

(** [dhcpd_clear_dns_server] and [dhcp_server_clear_dns_server]: all servers of the
    list for which [f] holds *)
Fixpoint clear_dns_loop (f : dhcp_server -> bool) (fuel : nat) (p : Z) (d : dhcpd) : outcome dhcpd :=
  match fuel with
  | O => NoFuel
  | S fuel =>
    if p =? NULL then Done d
    else
      s ← get_server d p;
      clear_dns_loop f fuel (srv_next s) (if f s then put_server p (set_dns (repeat 0 2) s) d else d)
  end.
Definition dhcpd_clear_dns_server (netif : Z) (d : dhcpd) : outcome dhcpd :=
  clear_dns_loop (fun s => srv_netif s =? netif) (S (size (servers d))) (lw_dhcp_server d) d.
Definition dhcp_server_clear_dns_server (d : dhcpd) : outcome dhcpd :=
  clear_dns_loop (fun _ => true) (S (size (servers d))) (lw_dhcp_server d) d.

(** a network interface is named by address and name, in the order of [netif_list] *)
Fixpoint find_netif (name : list Z) (l : list (Z * list Z)) : Z :=
  match l with [] => NULL | (p, n) :: l => if same_bytes name n 2 then p else find_netif name l end.
Definition dhcpd_stop (netif_list : list (Z * list Z)) (name : list Z) (d : dhcpd) : outcome dhcpd :=
  if 2 <? zlen name then Done d
  else
    let netif := find_netif name netif_list in
    if netif =? NULL then Done d
    else d ← dhcp_server_clear_dns_server d; '(_, d) ← dhcp_server_stop netif d; Done d.

(** [dhcpd_start]: the numbers of the range; [None] when they are refused *)
Definition dhcpd_range (start limit : Z) (unset : bool) : option (Z * Z) :=
  let '(a, b) := if (start =? -1) || (limit =? -1) || unset then (2, 254) else (start, s32 (start + limit - 1)) in
  if (254 <? a) || (a <? 2) || (254 <? b) || (b <? 2) || (b <=? a) then None else Some (a, b).

(** text is a list of characters without the final zero *)
Definition DHCPD_SERVER_IP : list Z := [49; 57; 50; 46; 49; 54; 56; 46; 49; 54; 57; 46; 49].
Definition IP4ADDR_STRLEN_MAX : Z := 16.
(** [%d] of a number of at most three digits *)
Definition decimal (n : Z) : list Z :=
  if n <? 10 then [48 + n] else if n <? 100 then [48 + n / 10; 48 + n mod 10]
  else [48 + n / 100; 48 + n / 10 mod 10; 48 + n mod 10].
(** the text up to the [k]-th dot, which [strchr] looks for *)
Fixpoint through_dots (k : nat) (text : list Z) : option (list Z) :=
  match k with
  | O => Some []
  | S k' =>
    (fix strchr (l : list Z) : option (list Z) :=
       match l with [] => None | c :: l => cons c <$> (if c =? 46 then through_dots k' l else strchr l) end) text
  end.
(** the text in [str_tmp] behind the last dot replaced; the array has 16 characters *)
Definition with_last (p : list Z) (n : Z) : outcome (list Z) :=
  let t := p ++ decimal n in if zlen t <? IP4ADDR_STRLEN_MAX then Done t else Fault.

(** [dhcpd_start]: the address of the interface afterwards, and the range handed to
    [dhcp_server_start]; [aton] and [ntoa] are the network stack's conversions *)
Definition dhcpd_start (aton : list Z -> Z) (ntoa : Z -> list Z) (addr start limit : Z) : outcome (Z * option (Z * Z)) :=
  let unset := (start =? -1) || (limit =? -1) || (addr =? 0) in
  let addr' := if unset then aton DHCPD_SERVER_IP else addr in
  let text := if unset then DHCPD_SERVER_IP else ntoa addr in
  match dhcpd_range start limit (addr =? 0) with
  | None => Done (addr', None)
  | Some (a, b) =>
    match through_dots 3 text with
    | None => Done (addr', None)
    | Some p => t ← with_last p a; u ← with_last p b; Done (addr', Some (aton t, aton u))
    end
  end.
