(* ===== verification/DhcpdProofs.v ===== *)
(** * Proofs about the DHCP server (Dhcpd.v)

    Words in memory, the search for options in a well-formed message, the search for
    a free address, and the replies. *)
From S2P Require Import Prelude Bytes Dhcpd.

(** ** Words *)

Lemma byte_of_shift x k : 0 <= k -> u8 (Z.shiftr x k) = (x / 2 ^ k) mod 256.
Proof. intros Hk. unfold u8, wrap. by rewrite Z.shiftr_div_pow2. Qed.
Lemma word32_of_bytes x : 0 <= x < 2 ^ 32 ->
  word32 (u8 x) (u8 (Z.shiftr x 8)) (u8 (Z.shiftr x 16)) (u8 (Z.shiftr x 24)) = x.
Proof.
  intros Hx. rewrite !byte_of_shift by lia. unfold word32, u8, wrap. change (2 ^ 8) with 256 in *. change (2 ^ 16) with 65536.
  change (2 ^ 24) with 16777216. change (2 ^ 32) with 4294967296 in Hx.
  Z.div_mod_to_equations. lia.
Qed.
Lemma word32_range a b c d : byte_ok a -> byte_ok b -> byte_ok c -> byte_ok d -> 0 <= word32 a b c d < 2 ^ 32.
Proof. unfold byte_ok, word32. lia. Qed.
Lemma word32_bytes a b c d : byte_ok a -> byte_ok b -> byte_ok c -> byte_ok d -> bytes32 (word32 a b c d) = [a; b; c; d].
Proof.
  unfold byte_ok. intros Ha Hb Hc Hd. unfold bytes32. rewrite !byte_of_shift by lia. unfold word32, u8, wrap.
  change (2 ^ 8) with 256. change (2 ^ 16) with 65536. change (2 ^ 24) with 16777216.
  repeat f_equal; Z.div_mod_to_equations; lia.
Qed.
Lemma u8_byte x : byte_ok (u8 x).
Proof. apply Z.mod_pos_bound. lia. Qed.
#[export] Hint Resolve u8_byte : core.
Lemma htonl_range x : 0 <= htonl x < 2 ^ 32.
Proof. apply word32_range; auto. Qed.
Lemma ntohl_htonl x : 0 <= x < 2 ^ 32 -> ntohl (htonl x) = x.
Proof.
  intros Hx. unfold ntohl, htonl at 1. pose proof (word32_bytes (u8 (Z.shiftr x 24)) (u8 (Z.shiftr x 16)) (u8 (Z.shiftr x 8)) (u8 x)) as H.
  unfold bytes32 in H. specialize (H ltac:(auto) ltac:(auto) ltac:(auto) ltac:(auto)). change (word32 _ _ _ _) with (htonl x) in H.
  injection H as -> -> -> ->. by apply word32_of_bytes.
Qed.
Lemma htonl_inj x y : 0 <= x < 2 ^ 32 -> 0 <= y < 2 ^ 32 -> htonl x = htonl y -> x = y.
Proof. intros Hx Hy E. rewrite <- (ntohl_htonl x), <- (ntohl_htonl y) by done. by rewrite E. Qed.

Lemma aget_app_r (l1 l2 : list Z) i : zlen l1 <= i -> aget (l1 ++ l2) i = aget l2 (i - zlen l1).
Proof.
  intros Hi. unfold zlen in *. unfold aget. rewrite !decide_True by lia. rewrite lookup_app_r by lia.
  by replace (Z.to_nat i - length l1)%nat with (Z.to_nat (i - Z.of_nat (length l1))) by lia.
Qed.
(** the bytes from a position on *)
Lemma aget_from (buf l : list Z) pos k : 0 <= pos -> 0 <= k < zlen l -> take (length l) (drop (Z.to_nat pos) buf) = l ->
  aget buf (pos + k) = match l !! Z.to_nat k with Some x => Done x | None => Fault end.
Proof.
  intros Hp Hk E. unfold zlen in Hk. unfold aget. rewrite decide_True by lia. rewrite <- E.
  rewrite lookup_take_lt, lookup_drop by lia. by replace (Z.to_nat pos + Z.to_nat k)%nat with (Z.to_nat (pos + k)) by lia.
Qed.
Lemma load32_word buf pos x : 0 <= pos -> 0 <= x < 2 ^ 32 -> take 4 (drop (Z.to_nat pos) buf) = bytes32 x -> load32 buf pos = Done x.
Proof.
  intros Hp Hx E. unfold load32. rewrite <- (Z.add_0_r pos) at 1.
  pose proof (fun k Hk => aget_from buf (bytes32 x) pos k Hp Hk E) as H.
  rewrite (H 0), (H 1), (H 2), (H 3) by (unfold zlen; cbn; lia).
  change (Done (word32 (u8 x) (u8 (Z.shiftr x 8)) (u8 (Z.shiftr x 16)) (u8 (Z.shiftr x 24))) = Done x). by rewrite word32_of_bytes.
Qed.

(** ** Options

    An option is a code other than the end mark and the bytes of its value. *)
Definition dhcp_option : Type := Z * list Z.
Definition option_ok (o : dhcp_option) : Prop := o.1 <> DHCP_OPTION_END.
Definition encode_option (o : dhcp_option) : list Z := [o.1; zlen o.2] ++ o.2.
Definition encode_options (os : list dhcp_option) : list Z := concat (encode_option <$> os) ++ [DHCP_OPTION_END].

(** the message's options are [os], whatever follows the end mark *)
Definition options_at (buf : list Z) (pos : Z) (os : list dhcp_option) : Prop :=
  exists rest, drop (Z.to_nat pos) buf = encode_options os ++ rest.
Definition get_option (code : Z) (os : list dhcp_option) : option (list Z) := (fun p => p.2.2) <$> list_find (fun o : dhcp_option => o.1 = code) os.

Lemma encode_options_cons o os : encode_options (o :: os) = o.1 :: zlen o.2 :: o.2 ++ encode_options os.
Proof. unfold encode_options. rewrite fmap_cons. cbn [concat]. unfold encode_option at 1. by rewrite <- !app_assoc. Qed.
Lemma get_option_cons code o os : get_option code (o :: os) = if decide (o.1 = code) then Some o.2 else get_option code os.
Proof. unfold get_option. cbn. case_decide; [done|]. by destruct (list_find _ os) as [[? ?]|]. Qed.

Lemma options_at_bound buf pos os : 0 <= pos -> options_at buf pos os -> pos + zlen (encode_options os) <= zlen buf.
Proof.
  intros Hp [rest E]. apply (f_equal length) in E. rewrite length_drop, length_app in E. unfold zlen.
  assert (0 < length (encode_options os))%nat; [unfold encode_options; rewrite length_app; cbn; lia|]. lia.
Qed.
Lemma options_at_first (buf : list Z) pos x l rest : 0 <= pos -> drop (Z.to_nat pos) buf = x :: l ++ rest ->
  aget buf pos = Done x /\ drop (Z.to_nat (pos + 1)) buf = l ++ rest.
Proof.
  intros Hp E. split.
  - apply aget_done; [done|]. rewrite <- (Nat.add_0_r (Z.to_nat pos)), <- lookup_drop, E. done.
  - replace (Z.to_nat (pos + 1)) with (Z.to_nat pos + 1)%nat by lia. by rewrite <- drop_drop, E.
Qed.
Lemma options_at_cons buf pos o os : 0 <= pos -> options_at buf pos (o :: os) ->
  aget buf pos = Done o.1 /\ aget buf (pos + 1) = Done (zlen o.2) /\ options_at buf (pos + zlen o.2 + 2) os
  /\ take (length o.2) (drop (Z.to_nat (pos + 2)) buf) = o.2.
Proof.
  intros Hp [rest E]. rewrite encode_options_cons in E.
  change (o.1 :: zlen o.2 :: o.2 ++ encode_options os) with (o.1 :: (zlen o.2 :: o.2 ++ encode_options os)) in E.
  apply (options_at_first buf pos _ (zlen o.2 :: o.2 ++ encode_options os)) in E as [H1 E]; [|done].
  apply (options_at_first buf (pos + 1) _ (o.2 ++ encode_options os)) in E as [H2 E]; [|lia].
  replace (pos + 1 + 1) with (pos + 2) in E by lia. split; [done|]. split; [done|]. rewrite <- app_assoc in E. split.
  - exists rest. unfold zlen. replace (Z.to_nat (pos + Z.of_nat (length o.2) + 2)) with (Z.to_nat (pos + 2) + length o.2)%nat by lia.
    by rewrite <- drop_drop, E, drop_app_length.
  - by rewrite E, take_app_length.
Qed.
Lemma options_at_nil buf pos : 0 <= pos -> options_at buf pos [] -> aget buf pos = Done DHCP_OPTION_END.
Proof. intros Hp [rest E]. by apply (options_at_first buf pos _ []) in E as [? _]. Qed.

(** the search finds the first option with the code, and its value *)
Lemma option_find_loop_spec buf os : Forall option_ok os -> forall fuel pos fin code, 0 <= pos -> options_at buf pos os ->
  pos + zlen (encode_options os) <= fin -> fin - pos < Z.of_nat fuel -> code <> DHCP_OPTION_END ->
  match get_option code os with
  | Some v => exists o, option_find_loop fuel buf pos fin code = Done (Some o) /\ 0 <= o
      /\ take (length v) (drop (Z.to_nat (o + 2)) buf) = v /\ o + 2 + zlen v <= fin
  | None => option_find_loop fuel buf pos fin code = Done None
  end.
Proof.
  induction 1 as [|o os Ho Hos IH]; intros fuel pos fin code Hp Hat Hfin Hf Hcode.
  - change (zlen (encode_options [])) with 1 in Hfin. destruct fuel as [|fuel]; [lia|]. cbn [get_option list_find fmap option_fmap option_map].
    cbn [option_find_loop]. rewrite (proj2 (Z.ltb_lt pos fin)) by lia. step_with (options_at_nil _ _ Hp Hat). by rewrite Z.eqb_refl.
  - rewrite encode_options_cons in Hfin. unfold zlen in Hfin at 1. rewrite length_cons, length_cons, length_app in Hfin.
    destruct fuel as [|fuel]; [lia|]. rewrite get_option_cons. destruct (options_at_cons _ _ _ _ Hp Hat) as (H1 & H2 & H3 & H4).
    cbn [option_find_loop]. rewrite (proj2 (Z.ltb_lt pos fin)) by lia. step_with H1.
    rewrite (proj2 (Z.eqb_neq o.1 DHCP_OPTION_END)) by exact Ho. case_decide as Hc.
    + rewrite (proj2 (Z.eqb_eq o.1 code)) by done. exists pos. split; [done|]. split; [done|]. split; [done|]. unfold zlen. lia.
    + rewrite (proj2 (Z.eqb_neq o.1 code)) by done. step_with H2. unfold zlen in *.
      apply (IH fuel (pos + Z.of_nat (length o.2) + 2) fin code); [lia|done|lia|lia|done].
Qed.
Lemma option_find_spec buf pos len code os : Forall option_ok os -> 0 <= pos -> options_at buf pos os ->
  zlen (encode_options os) <= len -> code <> DHCP_OPTION_END ->
  match get_option code os with
  | Some v => exists o, dhcp_server_option_find buf pos len code = Done (Some o) /\ 0 <= o
      /\ take (length v) (drop (Z.to_nat (o + 2)) buf) = v /\ o + 2 + zlen v <= pos + len
  | None => dhcp_server_option_find buf pos len code = Done None
  end.
Proof. intros Hos Hp Hat Hl Hc. unfold dhcp_server_option_find. apply (option_find_loop_spec buf os); try done; lia. Qed.

(** where a found value stands *)
Lemma value_byte (buf v : list Z) o : 0 <= o -> take (length v) (drop (Z.to_nat (o + 2)) buf) = v -> forall k x, v !! k = Some x ->
  aget buf (o + 2 + Z.of_nat k) = Done x.
Proof.
  intros Ho E k x Hk. pose proof (lookup_lt_Some _ _ _ Hk). rewrite (aget_from buf v (o + 2)); [|lia|unfold zlen; lia|done].
  by rewrite Nat2Z.id, Hk.
Qed.

(** ** The search for a free address *)

Definition ips (s : dhcp_server) : list Z := ipaddr <$> node_list s.
Definition range_ok (s : dhcp_server) : Prop :=
  0 <= current s < 2 ^ 32 /\ ntohl (range_start s) <= ntohl (current s) <= ntohl (range_end s) /\ ntohl (range_end s) < 2 ^ 32 - 1.
(** the addresses of the range, as numbers, from [current] on and around *)
Definition cycle (s : dhcp_server) : list Z :=
  seqZ (ntohl (current s)) (ntohl (range_end s) - ntohl (current s) + 1)
  ++ seqZ (ntohl (range_start s)) (ntohl (current s) - ntohl (range_start s)).
Definition first_free (s : dhcp_server) : option Z := head (filter (fun a => htonl a ∉ ips s) (cycle s)).

Lemma find_node_none f l : find_node f l = None <-> forall n, n ∈ l -> f n = false.
Proof.
  induction l as [|n l IH]; cbn; [split; [intros _ m Hm; by apply elem_of_nil in Hm|done]|]. destruct (f n) eqn:E.
  - split; [done|]. intros H. rewrite H in E; [done|left].
  - rewrite fmap_None, IH. split; intros H m; [rewrite elem_of_cons; intros [->|Hm]; auto|intros Hm; apply H; by right].
Qed.
Lemma find_node_some f l i : find_node f l = Some i -> exists n, l !! i = Some n /\ f n = true
  /\ (forall j m, (j < i)%nat -> l !! j = Some m -> f m = false).
Proof.
  revert i. induction l as [|n l IH]; intros i H; [done|]. cbn in H. destruct (f n) eqn:E.
  - injection H as <-. exists n. split; [done|]. split; [done|]. lia.
  - apply fmap_Some in H as (k & Hk & ->). destruct (IH k Hk) as (m & H1 & H2 & H3). exists m. split; [done|]. split; [done|].
    intros [|j] m' Hj Hm'; cbn in Hm'; [congruence|]. apply (H3 j); [lia|done].
Qed.
Lemma find_by_ip_none s ip : dhcp_client_find_by_ip s ip = None <-> ip ∉ ips s.
Proof.
  unfold dhcp_client_find_by_ip, ips. rewrite find_node_none, list_elem_of_fmap. split.
  - intros H (n & E & Hn). apply H in Hn. apply Z.eqb_neq in Hn. congruence.
  - intros H n Hn. apply Z.eqb_neq. intros E. apply H. eauto.
Qed.

Lemma cycle_first s : range_ok s -> exists rest, cycle s = ntohl (current s) :: rest.
Proof. intros (_ & H & _). unfold cycle. rewrite seqZ_cons by lia. eexists. reflexivity. Qed.

Lemma cycle_next s a rest : range_ok s -> cycle s = a :: rest ->
  let s' := set_current (next_address s) s in range_ok s' /\ cycle s' = rest ++ [a].
Proof.
  intros Hok E. destruct (cycle_first s Hok) as [r Er]. rewrite Er in E. injection E as <- <-.
  destruct Hok as (Hc & Hr & He). pose proof (htonl_range (range_start s)). change (htonl (range_start s)) with (ntohl (range_start s)) in *.
  unfold cycle in *. unfold next_address, range_ok. cbn [set_current current range_start range_end].
  replace (u32 (ntohl (current s) + 1)) with (ntohl (current s) + 1) by (symmetry; apply Z.mod_small; lia).
  set (c := ntohl (current s)) in *. set (lo := ntohl (range_start s)) in *. set (hi := ntohl (range_end s)) in *. clearbody c lo hi.
  destruct (Z.ltb_spec hi (c + 1)).
  - rewrite ntohl_htonl by lia. split; [split; [apply htonl_range|lia]|].
    replace (lo - lo) with 0 by lia. rewrite (seqZ_nil lo 0) by lia. rewrite app_nil_r.
    assert (c = hi) by lia. replace (hi - c + 1) with 1 in Er by lia. rewrite (seqZ_cons c 1), (seqZ_nil _ (Z.pred 1)) in Er by lia.
    cbn [app] in Er. apply (f_equal tail) in Er. cbn [tail] in Er. subst r. replace (hi - lo + 1) with ((c - lo) + 1) by lia. rewrite seqZ_app by lia.
    f_equal. rewrite (seqZ_cons _ 1), (seqZ_nil _ (Z.pred 1)) by lia. f_equal. lia.
  - rewrite ntohl_htonl by lia. split; [split; [apply htonl_range|lia]|].
    rewrite (seqZ_cons c) in Er by lia. cbn [app] in Er. apply (f_equal tail) in Er. cbn [tail] in Er. subst r. rewrite <- app_assoc.
    replace (Z.succ c) with (c + 1) by lia. replace (Z.pred (hi - c + 1)) with (hi - (c + 1) + 1) by lia. f_equal.
    replace (c + 1 - lo) with ((c - lo) + 1) by lia. rewrite (seqZ_app lo (c - lo) 1) by lia. f_equal.
    rewrite (seqZ_cons _ 1), (seqZ_nil _ (Z.pred 1)) by lia. f_equal. lia.
Qed.

Lemma alloc_prefix pre : forall fuel s a rest, range_ok s -> cycle s = pre ++ a :: rest ->
  Forall (fun b => htonl b ∈ ips s) pre -> htonl a ∉ ips s -> (length pre < fuel)%nat ->
  alloc_loop fuel s = Done (set_current (htonl a) s).
Proof.
  induction pre as [|b pre IH]; intros fuel s a rest Hok E Hpre Ha Hf; (destruct fuel as [|fuel]; [cbn in Hf; lia|]).
  - cbn [alloc_loop]. destruct (cycle_first s Hok) as [r Er]. rewrite E in Er. injection Er as -> _. destruct Hok as [Hc _].
    assert (Ec : htonl (ntohl (current s)) = current s) by (exact (ntohl_htonl _ Hc)).
    rewrite Ec in *. apply find_by_ip_none in Ha. rewrite Ha. by destruct s.
  - cbn [alloc_loop]. destruct (cycle_first s Hok) as [r Er]. pose proof E as E'. rewrite E in Er. injection Er as -> _.
    apply Forall_cons in Hpre as [Hb Hpre]. assert (Ec : htonl (ntohl (current s)) = current s) by (exact (ntohl_htonl _ (proj1 Hok))).
    rewrite Ec in Hb. destruct (dhcp_client_find_by_ip s (current s)) eqn:Ef; [|by apply find_by_ip_none in Ef].
    destruct (cycle_next s _ _ Hok E') as [Hok' Ecyc].
    rewrite (IH fuel _ a (rest ++ [ntohl (current s)])); [done|done| |done|done|cbn in Hf; lia].
    rewrite Ecyc, <- app_assoc. done.
Qed.
(** without a free address the search does not end *)
Lemma alloc_full fuel : forall s, range_ok s -> Forall (fun b => htonl b ∈ ips s) (cycle s) -> alloc_loop fuel s = NoFuel.
Proof.
  induction fuel as [|fuel IH]; intros s Hok Hall; [done|]. cbn [alloc_loop]. destruct (cycle_first s Hok) as [r Er].
  destruct (cycle_next s _ _ Hok Er) as [Hok' Ecyc]. pose proof Hall as Hall'. rewrite Er in Hall. apply Forall_cons in Hall as [Hc Hr].
  assert (Ec : htonl (ntohl (current s)) = current s) by (exact (ntohl_htonl _ (proj1 Hok))). rewrite Ec in Hc.
  destruct (dhcp_client_find_by_ip s (current s)) eqn:Ef; [|by apply find_by_ip_none in Ef]. apply IH; [done|].
  rewrite Ecyc. apply Forall_app. split; [exact Hr|]. apply Forall_singleton. by rewrite Ec.
Qed.

Lemma cycle_range s a : range_ok s -> a ∈ cycle s <-> ntohl (range_start s) <= a <= ntohl (range_end s).
Proof. intros (_ & H & _). unfold cycle. rewrite elem_of_app, !elem_of_seqZ. lia. Qed.
Lemma cycle_nodup s : range_ok s -> NoDup (cycle s).
Proof.
  intros (_ & H & _). unfold cycle. apply NoDup_app. split; [apply NoDup_seqZ|]. split; [|apply NoDup_seqZ].
  intros a. rewrite !elem_of_seqZ. lia.
Qed.
Lemma cycle_u32 s a : range_ok s -> a ∈ cycle s -> 0 <= a < 2 ^ 32.
Proof.
  intros Hok Ha. apply cycle_range in Ha; [|done]. pose proof (htonl_range (range_start s)). pose proof (htonl_range (range_end s)).
  unfold ntohl in *. lia.
Qed.

Lemma filter_head_split {A} (P : A -> Prop) `{!forall x, Decision (P x)} (l : list A) :
  match head (filter P l) with
  | Some a => exists pre rest, l = pre ++ a :: rest /\ Forall (fun b => ~ P b) pre /\ P a
  | None => Forall (fun b => ~ P b) l
  end.
Proof.
  induction l as [|x l IH]; [by apply Forall_nil|]. rewrite filter_cons. case_decide as Hx; cbn [head].
  - exists [], l. by split.
  - destruct (head (filter P l)) as [a|].
    + destruct IH as (pre & rest & -> & Hp & Ha). exists (x :: pre), rest. split; [done|]. split; [by constructor|done].
    + by constructor.
Qed.

(** the search finds the first free address of the cycle within as many turns as
    there are clients, or never ends *)
Lemma alloc_loop_spec s : range_ok s ->
  match first_free s with
  | Some a => a ∈ cycle s /\ htonl a ∉ ips s
      /\ forall fuel, (length (node_list s) < fuel)%nat -> alloc_loop fuel s = Done (set_current (htonl a) s)
  | None => (forall a, a ∈ cycle s -> htonl a ∈ ips s) /\ forall fuel, alloc_loop fuel s = NoFuel
  end.
Proof.
  intros Hok. unfold first_free. pose proof (filter_head_split (fun a => htonl a ∉ ips s) (cycle s)) as H.
  destruct (head _) as [a|].
  - destruct H as (pre & rest & E & Hpre & Ha). split; [rewrite E, elem_of_app; right; left|]. split; [done|].
    intros fuel Hf. apply (alloc_prefix pre _ _ _ rest); [done|done| |done|].
    + eapply Forall_impl; [exact Hpre|]. intros b Hb. cbn in Hb. destruct (decide (htonl b ∈ ips s)); [done|tauto].
    + assert (length pre <= length (ips s))%nat; [|unfold ips in *; rewrite length_fmap in *; lia].
      rewrite <- (length_fmap htonl pre). apply submseteq_length, NoDup_submseteq.
      * apply NoDup_fmap_2_strong.
        -- intros x y Hx Hy. apply htonl_inj; apply (cycle_u32 s); try done; rewrite E, elem_of_app; by left.
        -- pose proof (cycle_nodup s Hok) as Hn. rewrite E in Hn. by apply NoDup_app in Hn as [Hn _].
      * intros x Hx. apply list_elem_of_fmap in Hx as (y & -> & Hy). rewrite Forall_forall in Hpre. specialize (Hpre y Hy).
        cbn in Hpre. destruct (decide (htonl y ∈ ips s)); [done|tauto].
  - assert (Hall : Forall (fun b => htonl b ∈ ips s) (cycle s)).
    { eapply Forall_impl; [exact H|]. intros b Hb. cbn in Hb. destruct (decide (htonl b ∈ ips s)); [done|tauto]. }
    split; [by apply Forall_forall|]. intros fuel. by apply alloc_full.
Qed.

(** ** Releases *)

Lemma release_loop_spec mac hlen l : forall before, Nat.even (length before) = true ->
  (exists k n, l !! (2 * k)%nat = Some n /\ same_bytes (chaddr n) mac hlen = true
     /\ (forall j m, (j < k)%nat -> l !! (2 * j)%nat = Some m -> same_bytes (chaddr m) mac hlen = false)
     /\ release_loop before mac hlen l = Done (take (length before + 2 * k - 1) (before ++ l) ++ drop (S (2 * k)) l))
  \/ ((forall j m, l !! (2 * j)%nat = Some m -> same_bytes (chaddr m) mac hlen = false)
     /\ release_loop before mac hlen l = if Nat.even (length l) then Done (before ++ l) else Fault).
Proof.
  induction l as [l IH] using (induction_ltof1 _ length). intros before Hb. destruct l as [|n l].
  - right. split; [done|]. cbn. by rewrite app_nil_r.
  - cbn [release_loop]. destruct (same_bytes (chaddr n) mac hlen) eqn:En.
    + left. exists 0%nat, n. split; [done|]. split; [done|]. split; [lia|]. f_equal. cbn [Nat.mul drop]. rewrite Nat.add_0_r.
      rewrite take_app_le by lia. f_equal. destruct before as [|b before] using rev_ind; [done|].
      rewrite length_app. cbn [length]. rewrite removelast_last, take_app_le by lia. rewrite take_ge by lia.
      by destruct before.
    + destruct l as [|n' l].
      * right. split; [|done]. intros [|j] m Hm; cbn in Hm; [congruence|]. destruct j; done.
      * destruct (IH l) with (before := before ++ [n; n']) as [(k & m & H1 & H2 & H3 & H4)|(H1 & H2)].
        -- unfold ltof. cbn. lia.
        -- rewrite length_app. cbn [length]. rewrite Nat.even_add. by rewrite Hb.
        -- left. exists (S k), m. replace (2 * S k)%nat with (S (S (2 * k))) by lia. split; [done|]. split; [done|]. split.
           ++ intros [|j] m' Hj Hm'; [cbn in Hm'; congruence|]. replace (2 * S j)%nat with (S (S (2 * j))) in Hm' by lia.
              apply (H3 j m'); [lia|done].
           ++ rewrite H4, <- app_assoc, length_app. cbn [length app drop]. do 2 f_equal. f_equal. lia.
        -- right. split.
           ++ intros [|j] m' Hm'; [cbn in Hm'; congruence|]. replace (2 * S j)%nat with (S (S (2 * j))) in Hm' by lia. by apply (H1 j).
           ++ rewrite H2, <- app_assoc. done.
Qed.
Lemma take_drop_sublist {A} (l : list A) i j : (i <= j)%nat -> (take i l ++ drop j l) `sublist_of` l.
Proof.
  intros H. rewrite <- (take_drop i l) at 3. apply sublist_app; [done|].
  replace j with (i + (j - i))%nat by lia. rewrite <- drop_drop. apply sublist_drop.
Qed.
Lemma release_sublist mac hlen l l' : release_loop [] mac hlen l = Done l' -> l' `sublist_of` l.
Proof.
  intros E. destruct (release_loop_spec mac hlen l [] eq_refl) as [(k & n & _ & _ & _ & H)|(_ & H)]; rewrite H in E.
  - injection E as <-. apply take_drop_sublist. cbn [length]. lia.
  - destruct (Nat.even (length l)); [|done]. by injection E as <-.
Qed.

(** ** Replies *)

Lemma memcpy_lookup dst off src n d i : memcpy dst off src 0 n = Done d ->
  d !! i = if decide (off <= Z.of_nat i < off + n) then src !! (i - Z.to_nat off)%nat else dst !! i.
Proof.
  unfold memcpy. case_decide as H; [|done]. intros [= <-]. change (Z.to_nat 0) with 0%nat. rewrite drop_0. case_decide as Hi.
  - rewrite lookup_app_r by (rewrite length_take; lia). rewrite length_take, Nat.min_l by lia.
    rewrite lookup_app_l by (rewrite length_take; lia). by rewrite lookup_take_lt by lia.
  - destruct (decide (Z.of_nat i < off)).
    + rewrite lookup_app_l by (rewrite length_take; lia). by rewrite lookup_take_lt by lia.
    + rewrite lookup_app_r by (rewrite length_take; lia). rewrite lookup_app_r by (rewrite !length_take; lia).
      rewrite lookup_drop, !length_take. f_equal. lia.
Qed.
Lemma aset_lookup (l : list Z) i x l' j : aset l i x = Done l' ->
  l' !! j = if decide (Z.of_nat j = i) then Some x else l !! j.
Proof.
  unfold aset. case_decide as H; [|done]. intros [= <-]. case_decide as Hj.
  - replace (Z.to_nat i) with j by lia. apply list_lookup_insert_eq. lia.
  - apply list_lookup_insert_ne. lia.
Qed.
Lemma aset_length (l : list Z) i x l' : aset l i x = Done l' -> length l' = length l.
Proof. unfold aset. case_decide; [|done]. intros [= <-]. by rewrite length_insert. Qed.
Lemma aset_some (l : list Z) i x : 0 <= i < zlen l -> exists l', aset l i x = Done l'.
Proof. intros H. unfold zlen in H. rewrite aset_done by done. eauto. Qed.
Lemma memcpy_some dst off src n : 0 <= off -> 0 <= n -> off + n <= zlen dst -> n <= zlen src -> exists d, memcpy dst off src 0 n = Done d.
Proof. unfold zlen. intros. rewrite memcpy_done by lia. eauto. Qed.

(** the bytes of the fixed part of a reply: the addresses are set, transaction and
    hardware address kept *)
Record reply_head (buf b : list Z) (ip yiaddr : Z) : Prop := {
  rh_op : b !! 0%nat = Some DHCP_BOOTREPLY;
  rh_xid : take 4 (drop 4 b) = take 4 (drop 4 buf);
  rh_yiaddr : take 4 (drop 16 b) = bytes32 yiaddr;
  rh_siaddr : take 4 (drop 20 b) = bytes32 ip;
  rh_chaddr : take 16 (drop 28 b) = take 16 (drop 28 buf);
  rh_cookie : take 4 (drop 236 b) = bytes32 (htonl DHCP_MAGIC_COOKIE) }.

(** equal from a position on, entry by entry *)
Lemma slice_eq (n k : nat) (b l : list Z) : (k + n <= length b)%nat -> length l = n ->
  (forall i, (i < n)%nat -> b !! (k + i)%nat = l !! i) -> take n (drop k b) = l.
Proof.
  intros Hb Hl H. apply list_eq. intros i. destruct (decide (i < n)%nat) as [Hi|Hi].
  - by rewrite lookup_take_lt, lookup_drop, H.
  - rewrite lookup_take_ge by lia. symmetry. apply lookup_ge_None. lia.
Qed.

Lemma length_bytes32 x : length (bytes32 x) = 4%nat.
Proof. done. Qed.

(** the reply is built without a fault, and ends behind its options *)
Lemma dhcp_reply_spec buf ip yiaddr opts : DHCP_OPTIONS_OFS + zlen opts < zlen buf ->
  exists b, dhcp_reply buf ip yiaddr opts = Done b /\ reply_head buf b ip yiaddr /\ drop 240 b = opts /\ length (take 240 b) = 240%nat.
Proof.
  unfold DHCP_OPTIONS_OFS. intros Hl. assert (0 <= zlen opts) by (unfold zlen; lia). unfold dhcp_reply.
  destruct (aset_some buf OFS_OP DHCP_BOOTREPLY) as [b1 E1]; [unfold OFS_OP; lia|]. step_with E1.
  pose proof (aset_length _ _ _ _ E1) as L1.
  destruct (aset_some b1 OFS_HOPS 0) as [b2 E2]; [unfold OFS_HOPS, zlen in *; lia|]. step_with E2. pose proof (aset_length _ _ _ _ E2) as L2.
  destruct (memcpy_some b2 OFS_SECS [0; 0] 2) as [b3 E3]; [unfold OFS_SECS, zlen in *; cbn; lia..|]. step_with E3.
  pose proof (memcpy_length _ _ _ _ _ _ E3) as L3.
  destruct (memcpy_some b3 OFS_SIADDR (bytes32 ip) 4) as [b4 E4]; [unfold OFS_SIADDR, zlen in *; rewrite ?length_bytes32; lia..|].
  step_with E4. pose proof (memcpy_length _ _ _ _ _ _ E4) as L4.
  destruct (aset_some b4 OFS_SNAME 0) as [b5 E5]; [unfold OFS_SNAME, zlen in *; lia|]. step_with E5. pose proof (aset_length _ _ _ _ E5) as L5.
  destruct (aset_some b5 OFS_FILE 0) as [b6 E6]; [unfold OFS_FILE, zlen in *; lia|]. step_with E6. pose proof (aset_length _ _ _ _ E6) as L6.
  destruct (memcpy_some b6 OFS_COOKIE (bytes32 (htonl DHCP_MAGIC_COOKIE)) 4) as [b7 E7];
    [unfold OFS_COOKIE, zlen in *; rewrite ?length_bytes32; lia..|]. step_with E7. pose proof (memcpy_length _ _ _ _ _ _ E7) as L7.
  destruct (memcpy_some b7 OFS_YIADDR (bytes32 yiaddr) 4) as [b8 E8]; [unfold OFS_YIADDR, zlen in *; rewrite ?length_bytes32; lia..|].
  step_with E8. pose proof (memcpy_length _ _ _ _ _ _ E8) as L8.
  destruct (memcpy_some b8 DHCP_OPTIONS_OFS opts (zlen opts)) as [b9 E9]; [unfold DHCP_OPTIONS_OFS, zlen in *; lia..|].
  step_with E9. pose proof (memcpy_length _ _ _ _ _ _ E9) as L9.
  assert (Hlen : zlen b9 = zlen buf) by (unfold zlen; congruence).
  rewrite (proj2 (Z.ltb_lt (DHCP_OPTIONS_OFS + zlen opts) (zlen b9))) by (unfold DHCP_OPTIONS_OFS; lia).
  set (n := Z.to_nat (DHCP_OPTIONS_OFS + zlen opts)). assert (Hn : n = (240 + length opts)%nat) by (unfold n, DHCP_OPTIONS_OFS, zlen; lia).
  exists (take n b9). split; [done|]. unfold zlen in *.
  assert (Hb : forall i, (i < n)%nat -> take n b9 !! i =
    if decide (240 <= Z.of_nat i) then opts !! (i - 240)%nat else
    if decide (16 <= Z.of_nat i < 20) then bytes32 yiaddr !! (i - 16)%nat else
    if decide (236 <= Z.of_nat i) then bytes32 (htonl DHCP_MAGIC_COOKIE) !! (i - 236)%nat else
    if decide (Z.of_nat i = 108) then Some 0 else if decide (Z.of_nat i = 44) then Some 0 else
    if decide (20 <= Z.of_nat i < 24) then bytes32 ip !! (i - 20)%nat else
    if decide (8 <= Z.of_nat i < 10) then [0; 0] !! (i - 8)%nat else
    if decide (Z.of_nat i = 3) then Some 0 else if decide (Z.of_nat i = 0) then Some DHCP_BOOTREPLY else buf !! i).
  { intros i Hi. rewrite lookup_take_lt by done.
    rewrite (memcpy_lookup _ _ _ _ _ _ E9), (memcpy_lookup _ _ _ _ _ _ E8), (memcpy_lookup _ _ _ _ _ _ E7), (aset_lookup _ _ _ _ _ E6),
      (aset_lookup _ _ _ _ _ E5), (memcpy_lookup _ _ _ _ _ _ E4), (memcpy_lookup _ _ _ _ _ _ E3), (aset_lookup _ _ _ _ _ E2), (aset_lookup _ _ _ _ _ E1).
    unfold DHCP_OPTIONS_OFS, OFS_YIADDR, OFS_COOKIE, OFS_FILE, OFS_SNAME, OFS_SIADDR, OFS_SECS, OFS_HOPS, OFS_OP.
    repeat case_decide; try lia; done. }
  clear E1 E2 E3 E4 E5 E6 E7 E8 E9. assert (Htl : length (take n b9) = n) by (rewrite length_take; lia).
  assert (Hslice : forall k m l, (k + m <= 240)%nat -> length l = m ->
    (forall i, (i < m)%nat -> take n b9 !! (k + i)%nat = l !! i) -> take m (drop k (take n b9)) = l).
  { intros k m l Hk Hm H1. apply slice_eq; [lia|done|done]. }
  split; [|split].
  - split.
    + rewrite Hb by lia. done.
    + apply Hslice; [lia|rewrite length_take, length_drop; lia|]. intros i Hi. rewrite Hb by lia. repeat case_decide; try lia.
      by rewrite lookup_take_lt, lookup_drop.
    + apply Hslice; [lia|done|]. intros i Hi. rewrite Hb by lia. repeat case_decide; try lia. f_equal. lia.
    + apply Hslice; [lia|done|]. intros i Hi. rewrite Hb by lia. repeat case_decide; try lia. f_equal. lia.
    + apply Hslice; [lia|rewrite length_take, length_drop; lia|]. intros i Hi. rewrite Hb by lia. repeat case_decide; try lia.
      by rewrite lookup_take_lt, lookup_drop.
    + apply Hslice; [lia|done|]. intros i Hi. rewrite Hb by lia. repeat case_decide; try lia. f_equal. lia.
  - apply list_eq. intros i. rewrite lookup_drop. destruct (decide (i < length opts)%nat).
    + rewrite Hb by lia. rewrite decide_True by lia. f_equal. lia.
    + rewrite (lookup_ge_None_2 opts) by lia. apply lookup_ge_None_2. lia.
  - rewrite length_take. lia.
Qed.

(** *** Its options *)
Definition dns_values (ip : Z) (dns : list Z) : list Z :=
  let l := filter (fun d => d <> 0) dns in if bool_decide (l = []) then [ip] else l.
Definition lease_option_list (msg_type ip mask : Z) (dns : list Z) : list dhcp_option :=
  [(DHCP_OPTION_MESSAGE_TYPE, [msg_type]); (DHCP_OPTION_SERVER_ID, bytes32 ip);
   (DHCP_OPTION_LEASE_TIME, bytes32 (htonl DHCP_DEFAULT_LIVE_TIME)); (DHCP_OPTION_SUBNET_MASK, bytes32 mask);
   (DHCP_OPTION_DNS_SERVER, concat (bytes32 <$> dns_values ip dns)); (DHCP_OPTION_ROUTER, bytes32 ip)].
Definition nak_option_list (ip : Z) : list dhcp_option :=
  [(DHCP_OPTION_MESSAGE_TYPE, [DHCP_NAK]); (DHCP_OPTION_SERVER_ID, bytes32 ip)].

Lemma length_words (l : list Z) : length (concat (bytes32 <$> l)) = (4 * length l)%nat.
Proof. induction l as [|x l IH]; [done|]. cbn [fmap list_fmap concat]. rewrite length_app, IH, length_bytes32. cbn [length]. lia. Qed.
Lemma lease_options_encoded t ip mask dns : lease_options t ip mask dns = encode_options (lease_option_list t ip mask dns).
Proof.
  unfold lease_options, lease_option_list. rewrite !encode_options_cons. cbn [fst snd].
  unfold dns_option, address_option. fold (dns_values ip dns). unfold zlen. rewrite length_words, !length_bytes32.
  rewrite Nat2Z.inj_mul. cbn [app]. unfold encode_options. cbn [fmap list_fmap concat app]. cbn. repeat f_equal.
  all: by rewrite <- !app_assoc.
Qed.
Lemma nak_options_encoded ip : nak_options ip = encode_options (nak_option_list ip).
Proof. reflexivity. Qed.
Lemma dns_values_length ip dns : (length (dns_values ip dns) <= S (length dns))%nat.
Proof. unfold dns_values. case_bool_decide; cbn; [lia|]. pose proof (length_filter (fun d => d <> 0) dns). lia. Qed.
Lemma lease_options_length t ip mask dns : zlen (lease_options t ip mask dns) <= 40 + 4 * zlen dns.
Proof.
  rewrite lease_options_encoded. unfold lease_option_list. rewrite !encode_options_cons. cbn [fst snd].
  unfold zlen. pose proof (dns_values_length ip dns) as H.
  repeat (rewrite ?length_cons, ?length_app, ?length_words, ?length_bytes32). cbn [length encode_options fmap list_fmap concat app]. lia.
Qed.

(** ** Results *)

(** C25: The search for an address ends exactly when one is free.  With current inside the
    range, when some address of the range is not leased, as many turns as there are
    leases lead to the first such address from the current one on, around the end of
    the range; when all are leased, no number of turns is enough. *)
Theorem dhcp_alloc_ends s : range_ok s ->
  ((exists a, ntohl (range_start s) <= a <= ntohl (range_end s) /\ htonl a ∉ ips s) ->
   exists a, first_free s = Some a /\ ntohl (range_start s) <= a <= ntohl (range_end s) /\ htonl a ∉ ips s
     /\ forall fuel, (length (node_list s) < fuel)%nat -> alloc_loop fuel s = Done (set_current (htonl a) s))
  /\ ((forall a, ntohl (range_start s) <= a <= ntohl (range_end s) -> htonl a ∈ ips s) -> forall fuel, alloc_loop fuel s = NoFuel).
Proof.
  intros Hok. pose proof (alloc_loop_spec s Hok) as H. split.
  - intros (a & Ha & Hf). destruct (first_free s) as [b|].
    + exists b. destruct H as (H1 & H2 & H3). split; [done|]. split; [by apply cycle_range in H1|]. done.
    + destruct H as [H _]. exfalso. apply Hf, H. by apply cycle_range.
  - intros Hall fuel. apply alloc_full; [done|]. apply Forall_forall. intros a Ha. apply Hall. by apply cycle_range in Ha.
Qed.

(** C24: A client reads from a reply what the server meant.  The offer or acknowledge
    that is built in any buffer of 1500 bytes, read with the server's own search for
    options, has the address, the message type, the server's address, the lease time,
    the mask, the router and the DNS servers (the interface's own address when none is
    set), and keeps the transaction and the hardware address of the request. *)
Theorem dhcp_reply_roundtrip buf t ip mask yiaddr dns : zlen buf = DHCP_BUFFER_LEN -> length dns = 2%nat ->
  0 <= ip < 2 ^ 32 -> 0 <= mask < 2 ^ 32 -> 0 <= yiaddr < 2 ^ 32 ->
  exists b, dhcp_reply buf ip yiaddr (lease_options t ip mask dns) = Done b
    /\ load32 b OFS_YIADDR = Done yiaddr
    /\ take 4 (drop 4 b) = take 4 (drop 4 buf) /\ take 16 (drop 28 b) = take 16 (drop 28 buf)
    /\ (exists o, dhcp_server_option_find b DHCP_OPTIONS_OFS (zlen b - DHCP_OPTIONS_OFS) DHCP_OPTION_MESSAGE_TYPE = Done (Some o)
          /\ aget b (o + 2) = Done t)
    /\ (forall code x, (code, x) ∈ [(DHCP_OPTION_SERVER_ID, ip); (DHCP_OPTION_LEASE_TIME, htonl DHCP_DEFAULT_LIVE_TIME);
                                    (DHCP_OPTION_SUBNET_MASK, mask); (DHCP_OPTION_ROUTER, ip)] ->
          exists o, dhcp_server_option_find b DHCP_OPTIONS_OFS (zlen b - DHCP_OPTIONS_OFS) code = Done (Some o) /\ load32 b (o + 2) = Done x)
    /\ (exists o, dhcp_server_option_find b DHCP_OPTIONS_OFS (zlen b - DHCP_OPTIONS_OFS) DHCP_OPTION_DNS_SERVER = Done (Some o)
          /\ take (4 * length (dns_values ip dns)) (drop (Z.to_nat (o + 2)) b) = concat (bytes32 <$> dns_values ip dns)).
Proof.
  intros Hl Hd Hip Hmask Hyi. pose proof (lease_options_length t ip mask dns) as H. unfold zlen in H at 2. rewrite Hd in H.
  destruct (dhcp_reply_spec buf ip yiaddr (lease_options t ip mask dns)) as (b & E & [] & Ho & Hlen).
  { rewrite Hl. unfold DHCP_OPTIONS_OFS, DHCP_BUFFER_LEN. lia. }
  rewrite lease_options_encoded in Ho. set (os := lease_option_list t ip mask dns) in *.
  assert (Hat : options_at b DHCP_OPTIONS_OFS os) by (exists []; rewrite app_nil_r; exact Ho).
  assert (Hfit : zlen (encode_options os) <= zlen b - DHCP_OPTIONS_OFS) by (apply options_at_bound in Hat; [lia|done]).
  assert (Hoks : Forall option_ok os) by (repeat constructor; done).
  assert (Hfind : forall code v, code <> DHCP_OPTION_END -> get_option code os = Some v ->
    exists o, dhcp_server_option_find b DHCP_OPTIONS_OFS (zlen b - DHCP_OPTIONS_OFS) code = Done (Some o)
      /\ 0 <= o /\ take (length v) (drop (Z.to_nat (o + 2)) b) = v).
  { intros code v Hc Hv. pose proof (option_find_spec b DHCP_OPTIONS_OFS (zlen b - DHCP_OPTIONS_OFS) code os Hoks ltac:(done) Hat Hfit Hc) as Hs.
    rewrite Hv in Hs. destruct Hs as (o & ? & ? & ? & _). eauto. }
  exists b. split; [done|]. split; [by apply load32_word|]. split; [done|]. split; [done|]. split; [|split].
  - destruct (Hfind DHCP_OPTION_MESSAGE_TYPE [t]) as (o & Eo & H0 & Hv); [done|done|]. exists o. split; [done|].
    replace (o + 2) with (o + 2 + Z.of_nat 0) by lia. by apply (value_byte b [t] o H0 Hv).
  - intros code x Hin. assert (Hg : code <> DHCP_OPTION_END /\ get_option code os = Some (bytes32 x) /\ 0 <= x < 2 ^ 32).
    { pose proof (htonl_range DHCP_DEFAULT_LIVE_TIME). repeat (apply elem_of_cons in Hin as [[= -> ->]|Hin]; [done|]). by apply elem_of_nil in Hin. }
    destruct Hg as (H1 & H2 & H3). destruct (Hfind code (bytes32 x) H1 H2) as (o & Eo & H0 & Hv). exists o. split; [done|].
    apply load32_word; [lia|done|exact Hv].
  - destruct (Hfind DHCP_OPTION_DNS_SERVER (concat (bytes32 <$> dns_values ip dns))) as (o & Eo & H0 & Hv); [done|done|]. exists o. split; [done|].
    rewrite length_words in Hv. exact Hv.
Qed.
