(* ===== verification/DhcpdServer.v ===== *)
(** * What the DHCP server does with a message, and its leases

    The handler of datagrams against the rules of the protocol ([served]), the
    invariant of a server ([srv_ok]), and the system of servers with their start, stop
    and DNS entries. *)
From S2P Require Import Prelude Bytes Dhcpd DhcpdProofs.

(** ** The invariant of a server *)

(** the range holds [current], and no two leases have an address or a hardware
    address in common *)
Record srv_ok (s : dhcp_server) : Prop := {
  sk_range : range_ok s;
  sk_ips : NoDup (ips s);
  sk_u32 : Forall (fun n => 0 <= ipaddr n < 2 ^ 32) (node_list s);
  sk_macs : NoDup (chaddr <$> node_list s);
  sk_len : Forall (fun n => length (chaddr n) = 6%nat) (node_list s);
  sk_dns : length (dnsserver s) = 2%nat }.

(** the part of a server a message cannot change *)
Definition same_server (s s' : dhcp_server) : Prop :=
  srv_next s' = srv_next s /\ srv_netif s' = srv_netif s /\ pcb s' = pcb s /\ range_start s' = range_start s
  /\ range_end s' = range_end s /\ dnsserver s' = dnsserver s.

Lemma alloc_loop_done fuel : forall s s', range_ok s -> alloc_loop fuel s = Done s' ->
  range_ok s' /\ exists c, s' = set_current c s /\ c ∉ ips s.
Proof.
  induction fuel as [|fuel IH]; intros s s' Hok E; [done|]. cbn [alloc_loop] in E.
  destruct (dhcp_client_find_by_ip s (current s)) eqn:Ef.
  - destruct (cycle_first s Hok) as [r Er]. destruct (cycle_next s _ _ Hok Er) as [Hok' _].
    destruct (IH _ _ Hok' E) as (H1 & c & -> & H2). split; [done|]. by exists c.
  - injection E as <-. split; [done|]. exists (current s). split; [by destruct s|]. by apply find_by_ip_none.
Qed.

Lemma sub_ok s l : srv_ok s -> l `sublist_of` node_list s -> srv_ok (set_nodes l s).
Proof.
  intros [] Hl. assert (Hf : forall P : dhcp_client_node -> Prop, Forall P (node_list s) -> Forall P l).
  { intros P HP. rewrite !Forall_forall in *. intros n Hn. apply HP. by apply (elem_of_sublist l). }
  split; cbn; auto.
  - unfold ips. cbn. eapply sublist_NoDup; [exact sk_ips0|]. unfold ips. by rewrite Hl.
  - eapply sublist_NoDup; [exact sk_macs0|]. by rewrite Hl.
Qed.
Lemma set_lease_ok i s : srv_ok s -> srv_ok (set_lease i s).
Proof.
  intros []. unfold set_lease. set (f := fun n => _).
  assert (Hi : forall (g : dhcp_client_node -> Z), (forall n, g (f n) = g n) -> g <$> alter f i (node_list s) = g <$> node_list s).
  { intros g Hg. apply list_eq. intros j. rewrite !list_lookup_fmap, list_lookup_alter. case_decide; [|done].
    subst j. destruct (node_list s !! i); cbn; [by rewrite Hg|done]. }
  assert (Hc : chaddr <$> alter f i (node_list s) = chaddr <$> node_list s).
  { apply list_eq. intros j. rewrite !list_lookup_fmap, list_lookup_alter. case_decide; [|done]. subst j. by destruct (node_list s !! i). }
  assert (Hf : forall P : dhcp_client_node -> Prop, (forall n, P n -> P (f n)) -> Forall P (node_list s) -> Forall P (alter f i (node_list s))).
  { intros P HP H. rewrite Forall_lookup in *. intros j n Hn. rewrite list_lookup_alter in Hn. case_decide; [|by apply (H j)].
    apply fmap_Some in Hn as (m & Hm & ->). apply HP. by apply (H _ _ Hm). }
  split; cbn; auto.
  - unfold ips. cbn. rewrite Hi; done.
  - by rewrite Hc.
Qed.

Lemma same_bytes_spec a b n : same_bytes a b n = true <-> take (Z.to_nat n) a = take (Z.to_nat n) b.
Proof. apply bool_decide_eq_true. Qed.

(** a new client: its hardware address differs from those of the others in the bytes
    it gave *)
Lemma new_client_ok s mac hlen stale c a : srv_ok s -> range_ok (set_current a s) -> 0 <= a < 2 ^ 32 -> a ∉ ips s ->
  dhcp_client_find_by_mac s mac hlen = None -> length stale = 6%nat -> memcpy stale 0 mac 0 hlen = Done c ->
  srv_ok (set_nodes ({| chaddr := c; ipaddr := a; lease_end := 0 |} :: node_list s) (set_current a s)).
Proof.
  intros [] Hr Ha Hfree Hmac Hl Hc. unfold dhcp_client_find_by_mac in Hmac. rewrite find_node_none in Hmac.
  pose proof (memcpy_length _ _ _ _ _ _ Hc) as Hlen. split; cbn; auto.
  - unfold ips. cbn. by apply NoDup_cons.
  - apply NoDup_cons. split; [|done]. intros (n & E & Hn)%list_elem_of_fmap. apply Hmac in Hn.
    enough (same_bytes (chaddr n) mac hlen = true) by congruence. apply same_bytes_spec. rewrite <- E.
    unfold memcpy in Hc. case_decide as H; [|done]. injection Hc as <-. change (Z.to_nat 0) with 0%nat. rewrite drop_0.
    rewrite take_app_le by (rewrite length_take; lia). by rewrite take_ge by (rewrite length_take; lia).
  - constructor; [cbn; congruence|done].
Qed.

Lemma set_current_ok s c : srv_ok s -> range_ok (set_current c s) -> srv_ok (set_current c s).
Proof. intros [] H. by split. Qed.

Lemma message_keeps fuel malloc ip mask s buf s' r : srv_ok s -> (forall st, malloc = Some st -> length st = 6%nat) ->
  dhcp_message fuel malloc ip mask s buf = Done (s', r) -> srv_ok s' /\ same_server s s'.
Proof.
  intros Hok Hm E. unfold dhcp_message in E.
  destruct (aget buf OFS_HLEN) as [hlen| |]; try discriminate E. cbn [mbind outcome_bind] in E.
  destruct (dhcp_server_option_find _ _ _ _) as [[o|]| |]; try discriminate E; cbn [mbind outcome_bind] in E;
    [|by injection E as <- <-].
  destruct (aget buf (o + 2)) as [t| |]; try discriminate E. cbn [mbind outcome_bind] in E.
  assert (Hend : forall i s1 t1 , srv_ok s1 -> same_server s s1 ->
    (yi ← leased_ip i s1; b ← dhcp_reply buf ip yi (lease_options t1 ip mask (dnsserver s1)); Done (set_lease i s1, Some b)) = Done (s', r) ->
    srv_ok s' /\ same_server s s').
  { intros i s1 t1 H1 H2 E1. apply bind_done in E1 as (yi & _ & E1).
    apply bind_done in E1 as (b & _ & E1). injection E1 as <- <-. split; [by apply set_lease_ok|done]. }
  destruct (t =? DHCP_DISCOVER); [|destruct (t =? DHCP_REQUEST); [|destruct (t =? DHCP_RELEASE)]].
  - destruct (dhcp_client_alloc _ _ _ _ _ _ _ _) as [[c s1]| |] eqn:Ea; try discriminate E. cbn [mbind outcome_bind] in E.
    assert (H1 : srv_ok s1 /\ same_server s s1).
    { unfold dhcp_client_alloc in Ea. destruct (dhcp_client_find_by_mac _ _ _) eqn:Ef; [by injection Ea as <- <-|].
      destruct (find_requested _ _ _ _ _ _) as [[?|]| |]; try discriminate Ea; cbn [mbind outcome_bind] in Ea; [by injection Ea as <- <-|].
      destruct (alloc_loop fuel s) as [s2| |] eqn:El; try discriminate Ea. cbn [mbind outcome_bind] in Ea.
      destruct (alloc_loop_done _ _ _ (sk_range _ Hok) El) as (Hr & a & -> & Hfree).
      destruct malloc as [stale|]; [|injection Ea as <- <-; split; [by apply set_current_ok|done]].
      destruct (memcpy stale _ _ _ _) as [ch| |] eqn:Ec; try discriminate Ea. cbn [mbind outcome_bind] in Ea. injection Ea as <- <-. split; [|done].
      apply (new_client_ok s _ _ _ _ a Hok Hr (proj1 Hr) Hfree Ef (Hm _ eq_refl) Ec). }
    destruct c as [i|]; [|by injection E as <- <-]. apply (Hend i s1 DHCP_OFFER); tauto.
  - destruct (dhcp_client_find _ _ _ _ _ _) as [[i|]| |]; try discriminate E; cbn [mbind outcome_bind] in E.
    + by apply (Hend i s DHCP_ACK).
    + apply bind_done in E as (b & _ & E). by injection E as <- <-.
  - destruct (release_loop _ _ _ _) as [l| |] eqn:Er; try discriminate E. cbn [mbind outcome_bind] in E. injection E as <- <-. split; [|done].
    apply sub_ok; [done|]. by apply release_sublist in Er.
  - by injection E as <- <-.
Qed.

(** ** A well-formed request *)

(** a message of type [t] in the buffer: the header is valid, and [os] are its
    options, ended within the buffer *)
Record request (buf : list Z) (t hlen : Z) (os : list dhcp_option) : Prop := {
  rq_len : zlen buf = DHCP_BUFFER_LEN;
  rq_op : aget buf OFS_OP = Done DHCP_BOOTREQUEST;
  rq_cookie : load32 buf OFS_COOKIE = Done (htonl DHCP_MAGIC_COOKIE);
  rq_hlen : aget buf OFS_HLEN = Done hlen /\ 0 <= hlen <= DHCP_MAX_HLEN;
  rq_opts : options_at buf DHCP_OPTIONS_OFS os /\ Forall option_ok os;
  rq_type : exists v, get_option DHCP_OPTION_MESSAGE_TYPE os = Some (t :: v);
  rq_ip : forall v, get_option DHCP_OPTION_REQUESTED_IP os = Some v -> (4 <= length v)%nat }.

(** the client of a message, by the bytes of the hardware address the message has *)
Definition known (s : dhcp_server) (buf : list Z) (hlen : Z) : option nat :=
  dhcp_client_find_by_mac s (drop (Z.to_nat OFS_CHADDR) buf) hlen.

Lemma request_length buf t hlen os : request buf t hlen os -> u16 (zlen buf - DHCP_OPTIONS_OFS) = 1260
  /\ zlen (encode_options os) <= 1260.
Proof.
  intros []. rewrite rq_len0. split; [done|]. destruct rq_opts0 as [H _]. apply options_at_bound in H; [|done].
  rewrite rq_len0 in H. unfold DHCP_OPTIONS_OFS, DHCP_BUFFER_LEN in H. lia.
Qed.
(** the requested address only helps a client that is known without it *)
Lemma find_requested_none s buf t hlen os : request buf t hlen os -> known s buf hlen = None ->
  find_requested s buf (drop (Z.to_nat OFS_CHADDR) buf) hlen DHCP_OPTIONS_OFS 1260 = Done None.
Proof.
  intros Hr Hk. destruct (request_length _ _ _ _ Hr) as [_ Hfit]. destruct Hr. destruct rq_opts0 as [Hat Hos].
  unfold find_requested. pose proof (option_find_spec buf DHCP_OPTIONS_OFS 1260 DHCP_OPTION_REQUESTED_IP os Hos ltac:(done) Hat Hfit ltac:(done)) as H.
  destruct (get_option DHCP_OPTION_REQUESTED_IP os) as [v|] eqn:Ev; [|by rewrite H]. destruct H as (o & -> & Ho & Hv & Hfin). cbn [mbind outcome_bind].
  specialize (rq_ip0 v eq_refl). destruct v as [|v0 [|v1 [|v2 [|v3 v]]]]; try (cbn in rq_ip0; lia).
  unfold load32. pose proof (value_byte buf _ o Ho Hv) as Hb. pose proof (Hb 0%nat v0 eq_refl) as B0. pose proof (Hb 1%nat v1 eq_refl) as B1.
  pose proof (Hb 2%nat v2 eq_refl) as B2. pose proof (Hb 3%nat v3 eq_refl) as B3.
  replace (o + 2 + Z.of_nat 0) with (o + 2) in B0 by lia. replace (o + 2 + Z.of_nat 1) with (o + 2 + 1) in B1 by lia.
  replace (o + 2 + Z.of_nat 2) with (o + 2 + 2) in B2 by lia. replace (o + 2 + Z.of_nat 3) with (o + 2 + 3) in B3 by lia.
  rewrite B0, B1, B2, B3. cbn [mbind outcome_bind]. set (ip := word32 _ _ _ _).
  destruct (dhcp_client_find_by_ip s ip) as [i|] eqn:Ei; [|done]. apply find_node_some in Ei as (n & Hn & _). rewrite Hn.
  unfold known, dhcp_client_find_by_mac in Hk. rewrite find_node_none in Hk. apply list_elem_of_lookup_2 in Hn. by rewrite (Hk n Hn).
Qed.

(** ** The rules of the server *)

(** the reply keeps the request's transaction and hardware address, and ends behind
    its options *)
Record reply (buf b : list Z) (t ip yiaddr : Z) (os : list dhcp_option) : Prop := {
  rp_head : reply_head buf b ip yiaddr;
  rp_opts : drop 240 b = encode_options os;
  rp_type : get_option DHCP_OPTION_MESSAGE_TYPE os = Some [t] }.
Definition lease_reply (buf b : list Z) (t ip mask yiaddr : Z) (s : dhcp_server) : Prop :=
  reply buf b t ip yiaddr (lease_option_list t ip mask (dnsserver s)).

Inductive served (malloc : option (list Z)) (ip mask : Z) (s : dhcp_server) (buf : list Z) (hlen : Z)
  : Z -> dhcp_server -> option (list Z) -> Prop :=
| sv_offer_again i n b : known s buf hlen = Some i -> node_list s !! i = Some n ->
    lease_reply buf b DHCP_OFFER ip mask (ipaddr n) s -> served malloc ip mask s buf hlen DHCP_DISCOVER (set_lease i s) (Some b)
| sv_offer_new a stale c b : known s buf hlen = None -> first_free s = Some a -> malloc = Some stale ->
    c = take (Z.to_nat hlen) (drop 28 buf) ++ drop (Z.to_nat hlen) stale ->
    lease_reply buf b DHCP_OFFER ip mask (htonl a) s ->
    served malloc ip mask s buf hlen DHCP_DISCOVER
      (set_nodes ({| chaddr := c; ipaddr := htonl a; lease_end := DHCP_DEFAULT_LIVE_TIME |} :: node_list s) (set_current (htonl a) s)) (Some b)
| sv_no_memory a : known s buf hlen = None -> first_free s = Some a -> malloc = None ->
    served malloc ip mask s buf hlen DHCP_DISCOVER (set_current (htonl a) s) None
| sv_ack i n b : known s buf hlen = Some i -> node_list s !! i = Some n ->
    lease_reply buf b DHCP_ACK ip mask (ipaddr n) s -> served malloc ip mask s buf hlen DHCP_REQUEST (set_lease i s) (Some b)
| sv_nak b : known s buf hlen = None -> reply buf b DHCP_NAK ip 0 (nak_option_list ip) ->
    served malloc ip mask s buf hlen DHCP_REQUEST s (Some b)
| sv_release k n : node_list s !! (2 * k)%nat = Some n -> same_bytes (chaddr n) (drop 28 buf) hlen = true ->
    (forall j m, (j < k)%nat -> node_list s !! (2 * j)%nat = Some m -> same_bytes (chaddr m) (drop 28 buf) hlen = false) ->
    served malloc ip mask s buf hlen DHCP_RELEASE
      (set_nodes (take (2 * k - 1) (node_list s) ++ drop (S (2 * k)) (node_list s)) s) None
| sv_release_none : (forall j m, node_list s !! (2 * j)%nat = Some m -> same_bytes (chaddr m) (drop 28 buf) hlen = false) ->
    Nat.even (length (node_list s)) = true -> served malloc ip mask s buf hlen DHCP_RELEASE s None
| sv_other t : t <> DHCP_DISCOVER -> t <> DHCP_REQUEST -> t <> DHCP_RELEASE -> served malloc ip mask s buf hlen t s None.

(** a release that no entry at an even place answers to, in a list of odd length *)
Definition release_runs_off (s : dhcp_server) (buf : list Z) (hlen : Z) : Prop :=
  (forall j m, node_list s !! (2 * j)%nat = Some m -> same_bytes (chaddr m) (drop 28 buf) hlen = false)
  /\ Nat.even (length (node_list s)) = false.

Lemma lease_reply_done buf ip mask s t yiaddr : zlen buf = DHCP_BUFFER_LEN -> length (dnsserver s) = 2%nat ->
  exists b, dhcp_reply buf ip yiaddr (lease_options t ip mask (dnsserver s)) = Done b /\ lease_reply buf b t ip mask yiaddr s.
Proof.
  intros Hl Hd. pose proof (lease_options_length t ip mask (dnsserver s)) as H. unfold zlen in H at 2. rewrite Hd in H.
  destruct (dhcp_reply_spec buf ip yiaddr (lease_options t ip mask (dnsserver s))) as (b & E & Hh & Ho & _).
  { rewrite Hl. unfold DHCP_OPTIONS_OFS, DHCP_BUFFER_LEN. lia. }
  exists b. split; [done|]. split; [done| |done]. by rewrite Ho, lease_options_encoded.
Qed.

Section Message.
Context (malloc : option (list Z)) (ip mask : Z) (s : dhcp_server) (buf : list Z) (t hlen : Z) (os : list dhcp_option).
Hypotheses (Hok : srv_ok s) (Hr : request buf t hlen os) (Hm : forall st, malloc = Some st -> length st = 6%nat).

Lemma request_type fuel : dhcp_message fuel malloc ip mask s buf =
  let mac := drop (Z.to_nat OFS_CHADDR) buf in
  if t =? DHCP_DISCOVER then
      '(r, s) ← dhcp_client_alloc fuel malloc s buf mac hlen DHCP_OPTIONS_OFS 1260;
      match r with
      | None => Done (s, None)
      | Some i =>
        yi ← leased_ip i s;
        b ← dhcp_reply buf ip yi (lease_options DHCP_OFFER ip mask (dnsserver s));
        Done (set_lease i s, Some b)
      end
    else if t =? DHCP_REQUEST then
      r ← dhcp_client_find s buf mac hlen DHCP_OPTIONS_OFS 1260;
      match r with
      | Some i =>
        yi ← leased_ip i s;
        b ← dhcp_reply buf ip yi (lease_options DHCP_ACK ip mask (dnsserver s));
        Done (set_lease i s, Some b)
      | None => b ← dhcp_reply buf ip 0 (nak_options ip); Done (s, Some b)
      end
    else if t =? DHCP_RELEASE then
      l ← release_loop [] mac hlen (node_list s); Done (set_nodes l s, None)
    else Done (s, None).
Proof using Hr.
  destruct (request_length _ _ _ _ Hr) as [Hl Hfit]. destruct Hr. unfold dhcp_message. step_with (proj1 rq_hlen0). rewrite Hl.
  destruct rq_opts0 as [Hat Hos], rq_type0 as [v Hv].
  pose proof (option_find_spec buf DHCP_OPTIONS_OFS 1260 DHCP_OPTION_MESSAGE_TYPE os Hos ltac:(done) Hat Hfit ltac:(done)) as H.
  rewrite Hv in H. destruct H as (o & -> & Ho & Hval & _). cbn [mbind outcome_bind].
  pose proof (value_byte buf _ o Ho Hval 0%nat t eq_refl) as Hb. replace (o + 2 + Z.of_nat 0) with (o + 2) in Hb by lia. by rewrite Hb.
Qed.

Lemma leased_ip_at i : known s buf hlen = Some i -> exists n, node_list s !! i = Some n /\ leased_ip i s = Done (ipaddr n).
Proof using.
  intros H. apply find_node_some in H as (n & Hn & _). exists n. split; [done|]. unfold leased_ip. by rewrite Hn.
Qed.

Lemma message_discover : t = DHCP_DISCOVER ->
  (known s buf hlen = None /\ first_free s = None /\ forall fuel, dhcp_message fuel malloc ip mask s buf = NoFuel)
  \/ exists s' r, served malloc ip mask s buf hlen t s' r
     /\ forall fuel, (length (node_list s) < fuel)%nat -> dhcp_message fuel malloc ip mask s buf = Done (s', r).
Proof using Hok Hr Hm.
  intros Ht. rewrite Ht. destruct (known s buf hlen) as [i|] eqn:Ek.
  - right. destruct (leased_ip_at i Ek) as (n & Hn & Hy).
    destruct (lease_reply_done buf ip mask s DHCP_OFFER (ipaddr n) (rq_len _ _ _ _ Hr) (sk_dns _ Hok)) as (b & Eb & Hb).
    exists (set_lease i s), (Some b). split; [by eapply sv_offer_again|]. intros fuel _. rewrite request_type, Ht. cbv zeta. rewrite Z.eqb_refl.
    unfold dhcp_client_alloc. unfold known in Ek. rewrite Ek. cbn [mbind outcome_bind]. step_with Hy. by step_with Eb.
  - pose proof (find_requested_none _ _ _ _ _ Hr Ek) as Hn. pose proof (alloc_loop_spec s (sk_range _ Hok)) as Ha.
    assert (E : forall fuel, dhcp_message fuel malloc ip mask s buf = '(r, s) ← dhcp_client_alloc fuel malloc s buf (drop (Z.to_nat OFS_CHADDR) buf) hlen DHCP_OPTIONS_OFS 1260;
      match r with
      | None => Done (s, None)
      | Some i =>
        yi ← leased_ip i s;
        b ← dhcp_reply buf ip yi (lease_options DHCP_OFFER ip mask (dnsserver s));
        Done (set_lease i s, Some b)
      end) by (intros f; rewrite request_type, Ht; by rewrite Z.eqb_refl).
    unfold dhcp_client_alloc in E. unfold known in Ek. rewrite Ek in E. setoid_rewrite Hn in E. cbn [mbind outcome_bind] in E.
    destruct (first_free s) as [a|] eqn:Ea.
    + right. destruct Ha as (_ & _ & Ha). destruct malloc as [stale|] eqn:Em; [|eexists _, _; split;
        [by eapply sv_no_memory|]; intros fuel Hf; rewrite E; by step_with (Ha fuel Hf)].
      pose proof (Hm stale eq_refl) as Hst. pose proof Hr as Hr'. destruct Hr'. unfold DHCP_BUFFER_LEN, zlen, DHCP_MAX_HLEN in *.
      assert (Ec : memcpy stale 0 (drop (Z.to_nat OFS_CHADDR) buf) 0 hlen
        = Done (take (Z.to_nat hlen) (drop 28 buf) ++ drop (Z.to_nat hlen) stale)).
      { rewrite memcpy_done; [|lia|lia|lia|lia|rewrite length_drop; unfold OFS_CHADDR; lia]. done. }
      destruct (lease_reply_done buf ip mask s DHCP_OFFER (htonl a) rq_len0 (sk_dns _ Hok)) as (b & Eb & Hb).
      eexists _, _. split; [exact (sv_offer_new (Some stale) ip mask s buf hlen a stale _ b Ek Ea eq_refl eq_refl Hb)|].
      intros fuel Hf. rewrite E. step_with (Ha fuel Hf). step_with Ec. change (leased_ip _ _) with (Done (htonl a)). cbn [mbind outcome_bind].
      cbn [set_nodes set_current dnsserver]. by step_with Eb.
    + left. split; [done|]. split; [done|]. intros f. rewrite E. destruct Ha as [_ Ha]. by rewrite Ha.
Qed.

Lemma message_request fuel : t = DHCP_REQUEST ->
  exists s' r, dhcp_message fuel malloc ip mask s buf = Done (s', r) /\ served malloc ip mask s buf hlen t s' r.
Proof using Hok Hr.
  intros Ht. rewrite request_type, Ht. change (DHCP_REQUEST =? DHCP_DISCOVER) with false. rewrite Z.eqb_refl. cbv zeta beta.
  unfold dhcp_client_find. destruct (known s buf hlen) as [i|] eqn:Ek; pose proof Ek as Ek'; unfold known in Ek; rewrite Ek.
  - destruct (leased_ip_at i Ek') as (n & Hn & Hy).
    destruct (lease_reply_done buf ip mask s DHCP_ACK (ipaddr n) (rq_len _ _ _ _ Hr) (sk_dns _ Hok)) as (b & Eb & Hb).
    exists (set_lease i s), (Some b). split; [|by eapply sv_ack]. cbn [mbind outcome_bind]. step_with Hy. by step_with Eb.
  - rewrite (find_requested_none _ _ _ _ _ Hr Ek'). cbn [mbind outcome_bind].
    destruct (dhcp_reply_spec buf ip 0 (nak_options ip)) as (b & Eb & Hh & Ho & _).
    { rewrite (rq_len _ _ _ _ Hr), nak_options_encoded. done. }
    exists s, (Some b). split; [by step_with Eb|]. apply sv_nak; [done|]. split; [done|by rewrite Ho, nak_options_encoded|done].
Qed.

Lemma message_release fuel : t = DHCP_RELEASE ->
  (release_runs_off s buf hlen /\ dhcp_message fuel malloc ip mask s buf = Fault)
  \/ exists s' r, dhcp_message fuel malloc ip mask s buf = Done (s', r) /\ served malloc ip mask s buf hlen t s' r.
Proof using Hok Hr.
  intros Ht. rewrite request_type, Ht. change (DHCP_RELEASE =? DHCP_DISCOVER) with false. change (DHCP_RELEASE =? DHCP_REQUEST) with false.
  rewrite Z.eqb_refl. cbv zeta beta. change (Z.to_nat OFS_CHADDR) with 28%nat.
  destruct (release_loop_spec (drop 28 buf) hlen (node_list s) [] eq_refl) as [(k & n & H1 & H2 & H3 & ->)|[H1 ->]].
  - right. cbn [mbind outcome_bind app length Nat.add]. eexists _, _. split; [done|]. by eapply sv_release.
  - destruct (Nat.even (length (node_list s))) eqn:Ee; [right|by left]. cbn [mbind outcome_bind app]. eexists _, _.
    split; [done|]. replace (set_nodes (node_list s) s) with s by (by destruct s). by apply sv_release_none.
Qed.
End Message.

(** ** Datagrams *)

Lemma recv_message fuel malloc q ip mask s plen data t hlen os : DHCP_MIN_REQUEST_LEN <= plen -> zlen data <= zlen q ->
  request (data ++ drop (length data) q) t hlen os ->
  dhcp_server_recv fuel malloc (Some q) ip mask s plen data
  = ('(s, b) ← dhcp_message fuel malloc ip mask s (data ++ drop (length data) q);
     Done {| rr_server := s; rr_sent := b; rr_pbufs := 0 |}).
Proof.
  intros Hp Hl []. unfold dhcp_server_recv. rewrite (proj2 (Z.ltb_ge plen _)) by done. rewrite (proj2 (Z.ltb_ge _ (zlen data))) by done.
  step_with rq_op0. step_with rq_cookie0. step_with (proj1 rq_hlen0). rewrite !Z.eqb_refl. cbn [negb].
  by rewrite (proj2 (Z.ltb_ge _ hlen)) by (destruct rq_hlen0; lia).
Qed.

(** C11: What a datagram does.  For a well-formed message of any type, in a server with
    distinct leases, with as much fuel as there are clients: a DISCOVER of a known
    client offers its address again, one of a new client leases and offers the first
    free address from the current one on, around the range; a REQUEST is acknowledged
    with the client's address or refused; a RELEASE removes what [served] says; the
    reply keeps the transaction and the hardware address; and no packet buffer is
    left.  The only other outcomes are a search that never ends, when the client is new
    and the range full, and a step off the end of the list in a release. *)
Theorem dhcp_recv_correct malloc q ip mask s plen data t hlen os : srv_ok s -> (forall st, malloc = Some st -> length st = 6%nat) ->
  DHCP_MIN_REQUEST_LEN <= plen -> zlen data <= zlen q -> request (data ++ drop (length data) q) t hlen os ->
  let buf := data ++ drop (length data) q in
  let run fuel := dhcp_server_recv fuel malloc (Some q) ip mask s plen data in
  (t = DHCP_DISCOVER /\ known s buf hlen = None /\ first_free s = None /\ forall fuel, run fuel = NoFuel)
  \/ (t = DHCP_RELEASE /\ release_runs_off s buf hlen /\ forall fuel, run fuel = Fault)
  \/ (exists s' r, served malloc ip mask s buf hlen t s' r
       /\ forall fuel, (length (node_list s) < fuel)%nat -> run fuel = Done {| rr_server := s'; rr_sent := r; rr_pbufs := 0 |}).
Proof.
  intros Hok Hm Hp Hl Hr buf run.
  assert (Hrun : forall fuel, run fuel = '(s, b) ← dhcp_message fuel malloc ip mask s buf; Done {| rr_server := s; rr_sent := b; rr_pbufs := 0 |})
    by (intros f; by apply recv_message with (t := t) (hlen := hlen) (os := os)).
  assert (Hsame : forall f1 f2, t <> DHCP_DISCOVER -> dhcp_message f1 malloc ip mask s buf = dhcp_message f2 malloc ip mask s buf).
  { intros f1 f2 Ht. rewrite !(request_type malloc ip mask s buf t hlen os Hr). by rewrite (proj2 (Z.eqb_neq t DHCP_DISCOVER) Ht). }
  assert (Hdone : forall s' r, served malloc ip mask s buf hlen t s' r ->
    (forall fuel, (length (node_list s) < fuel)%nat -> dhcp_message fuel malloc ip mask s buf = Done (s', r)) ->
    (exists s' r, served malloc ip mask s buf hlen t s' r
       /\ forall fuel, (length (node_list s) < fuel)%nat -> run fuel = Done {| rr_server := s'; rr_sent := r; rr_pbufs := 0 |})).
  { intros s' r Hs E. exists s', r. split; [done|]. intros fuel Hf. by rewrite Hrun, (E fuel Hf). }
  destruct (decide (t = DHCP_DISCOVER)) as [Hd|Hd]; [|destruct (decide (t = DHCP_REQUEST)) as [Hq|Hq]; [|destruct (decide (t = DHCP_RELEASE)) as [He|He]]].
  - destruct (message_discover malloc ip mask s buf t hlen os Hok Hr Hm Hd) as [(H1 & H2 & H3)|(s' & r & H & E)].
    + left. split; [done|]. split; [done|]. split; [done|]. intros fuel. by rewrite Hrun, H3.
    + right. right. exact (Hdone s' r H E).
  - right. right. destruct (message_request malloc ip mask s buf t hlen os Hok Hr 0%nat Hq) as (s' & r & E & H).
    apply (Hdone s' r H). intros fuel _. by rewrite (Hsame fuel 0%nat Hd).
  - right. destruct (message_release malloc ip mask s buf t hlen os Hok Hr 0%nat He) as [[H1 E]|(s' & r & E & H)].
    + left. split; [done|]. split; [done|]. intros fuel. by rewrite Hrun, (Hsame fuel 0%nat Hd), E.
    + right. apply (Hdone s' r H). intros fuel _. by rewrite (Hsame fuel 0%nat Hd).
  - right. right. apply (Hdone s None); [by apply sv_other|]. intros fuel _. rewrite (request_type malloc ip mask s buf t hlen os Hr).
    rewrite (proj2 (Z.eqb_neq t DHCP_DISCOVER) Hd), (proj2 (Z.eqb_neq t DHCP_REQUEST) Hq), (proj2 (Z.eqb_neq t DHCP_RELEASE) He). done.
Qed.
