(* ===== verification/DhcpdReach.v ===== *)
(** * The DHCP servers as a system

    Datagrams with any contents, starts and stops, and the DNS entries are the steps;
    in each reachable state the list of servers is sound, the network stack's callbacks
    reach live servers, and no address is leased twice. *)
From S2P Require Import Prelude Bytes Dhcpd DhcpdProofs DhcpdServer.

(** ** The list of servers *)

Fixpoint linked (m : gmap Z dhcp_server) (p : Z) (ps : list Z) : Prop :=
  match ps with
  | [] => p = NULL
  | q :: ps => p = q /\ q <> NULL /\ exists s, m !! q = Some s /\ linked m (srv_next s) ps
  end.

Record dhcpd_ok (d : dhcpd) : Prop := {
  dk_list : exists ps, linked (servers d) (lw_dhcp_server d) ps /\ NoDup ps;
  dk_servers : forall p s, servers d !! p = Some s -> p <> NULL /\ srv_ok s;
  dk_receivers : forall u p, receivers d !! u = Some p -> u <> NULL /\ exists s, servers d !! p = Some s /\ pcb s = u }.

Lemma linked_lookup m p ps q : linked m p ps -> q ∈ ps -> is_Some (m !! q).
Proof.
  revert p. induction ps as [|x ps IH]; intros p H Hq; [by apply elem_of_nil in Hq|].
  destruct H as (_ & _ & s & Hs & H). apply elem_of_cons in Hq as [->|Hq]; [by eexists|by apply (IH _ H)].
Qed.
Lemma linked_length m p ps : linked m p ps -> NoDup ps -> (length ps <= size m)%nat.
Proof.
  intros H Hn. rewrite <- (size_list_to_set (C := gset Z) ps Hn), <- (size_dom m). apply subseteq_size. intros q Hq.
  rewrite elem_of_list_to_set in Hq. apply elem_of_dom. by apply (linked_lookup m p ps).
Qed.
(** a server changes without its link *)
Lemma linked_put m p ps q s s' : linked m p ps -> m !! q = Some s -> srv_next s' = srv_next s -> linked (<[q := s']> m) p ps.
Proof.
  intros H Hq Hn. revert p H. induction ps as [|x ps IH]; intros p H; [done|]. destruct H as (-> & Hx & r & Hr & H).
  split; [done|]. split; [done|]. destruct (decide (x = q)) as [->|Hne].
  - exists s'. split; [by rewrite lookup_insert_eq|]. simplify_eq. rewrite Hn. by apply IH.
  - exists r. split; [by rewrite lookup_insert_ne|by apply IH].
Qed.
Lemma linked_new m p ps q s : linked m p ps -> m !! q = None -> linked (<[q := s]> m) p ps.
Proof.
  intros H Hq. revert p H. induction ps as [|x ps IH]; intros p H; [done|]. destruct H as (-> & Hx & r & Hr & H).
  split; [done|]. split; [done|]. exists r. split; [|by apply IH]. rewrite lookup_insert_ne; [done|congruence].
Qed.

Lemma find_server_spec d ps : forall fuel p netif, linked (servers d) p ps -> (length ps < fuel)%nat ->
  exists q, find_server fuel d p netif = Done q
    /\ (q = NULL /\ (forall x s, x ∈ ps -> servers d !! x = Some s -> srv_netif s <> netif)
        \/ q <> NULL /\ q ∈ ps /\ exists s, servers d !! q = Some s /\ srv_netif s = netif).
Proof.
  induction ps as [|x ps IH]; intros fuel p netif H Hf; (destruct fuel as [|fuel]; [cbn in Hf; lia|]); cbn [find_server].
  - cbn in H. rewrite H. exists NULL. split; [done|]. left. split; [done|]. intros y s Hy. by apply elem_of_nil in Hy.
  - destruct H as (-> & Hx & s & Hs & H). rewrite (proj2 (Z.eqb_neq x NULL)) by done. unfold get_server. rewrite Hs. cbn [mbind outcome_bind].
    destruct (Z.eqb_spec (srv_netif s) netif) as [E|E].
    + exists x. split; [done|]. right. split; [done|]. split; [left|]. by exists s.
    + destruct (IH fuel (srv_next s) netif H) as (q & E1 & Hq); [cbn in Hf; lia|]. exists q. split; [done|]. destruct Hq as [(-> & Hq)|(Hq & Hin & Hr)].
      * left. split; [done|]. intros y r Hy Hr. apply elem_of_cons in Hy as [->|Hy]; [simplify_eq; done|by apply (Hq y)].
      * right. split; [done|]. split; [by right|done].
Qed.
Lemma server_of_spec d netif : dhcpd_ok d ->
  exists q, server_of d netif = Done q /\ (q = NULL \/ q <> NULL /\ exists s, servers d !! q = Some s /\ srv_netif s = netif).
Proof.
  intros []. destruct dk_list0 as (ps & Hl & Hn). pose proof (linked_length _ _ _ Hl Hn).
  destruct (find_server_spec d ps (S (size (servers d))) _ netif Hl ltac:(lia)) as (q & E & Hq). exists q. split; [done|].
  destruct Hq as [(? & _)|(? & _ & ?)]; [by left|by right].
Qed.

(** ** Operations keep it *)

Lemma put_ok d p s s' : dhcpd_ok d -> servers d !! p = Some s -> srv_ok s' -> srv_next s' = srv_next s -> pcb s' = pcb s ->
  dhcpd_ok (put_server p s' d).
Proof.
  intros [(ps & Hl & Hn) Hs Hr] Hp Hok Hnext Hpcb. split; cbn.
  - exists ps. split; [by apply (linked_put _ _ _ _ s)|done].
  - intros q r. rewrite lookup_insert_Some. intros [[<- <-]|[_ Hq]]; [split; [by apply (Hs p s)|done]|by apply Hs].
  - intros u q Hu. destruct (Hr u q Hu) as (H0 & r & Hq & E). split; [done|]. destruct (decide (p = q)) as [->|Hne].
    + exists s'. rewrite lookup_insert_eq. split; [done|]. simplify_eq. done.
    + exists r. by rewrite lookup_insert_ne.
Qed.

(** the addresses of a range: valid words, in order, not at the end of the space *)
Definition valid_range (start fin : Z) : Prop :=
  0 <= start < 2 ^ 32 /\ ntohl start <= ntohl fin /\ ntohl fin < 2 ^ 32 - 1.

Lemma start_ok d mem udp netif start fin : dhcpd_ok d -> valid_range start fin -> (mem <> NULL -> servers d !! mem = None) ->
  (udp <> NULL -> receivers d !! udp = None) ->
  exists e d', dhcp_server_start mem udp netif start fin d = Done (e, d') /\ dhcpd_ok d'.
Proof.
  intros Hd (H1 & H2 & H3) Hmem Hudp. unfold dhcp_server_start. destruct (server_of_spec d netif Hd) as (p & Ep & Hp). step_with Ep.
  assert (Hrange : forall s, range_start s = start -> range_end s = fin -> current s = start -> range_ok s).
  { intros s E1 E2 E3. unfold range_ok. rewrite E1, E2, E3. lia. }
  destruct Hp as [->|(Hp & s & Hs & _)].
  - cbn [Z.eqb NULL negb]. destruct (Z.eqb_spec mem NULL) as [E|E]; [by exists ERR_MEM, d|]. specialize (Hmem E).
    set (s := Build_dhcp_server _ _ _ _ _ _ _ _). assert (Hs : srv_ok s).
    { split; [by apply Hrange|apply NoDup_nil_2|apply Forall_nil_2|apply NoDup_nil_2|apply Forall_nil_2|done]. }
    destruct Hd as [(ps & Hl & Hn) Hsv Hr].
    assert (Hlist : exists qs, linked (<[mem := s]> (servers d)) mem qs /\ NoDup qs).
    { exists (mem :: ps). split.
      - split; [done|]. split; [done|]. exists s. split; [by rewrite lookup_insert_eq|]. by apply linked_new.
      - apply NoDup_cons. split; [|done]. intros Hin. apply (linked_lookup _ _ _ _ Hl) in Hin as [? ?]. congruence. }
    assert (Hsrv : forall p r, <[mem := s]> (servers d) !! p = Some r -> p <> NULL /\ srv_ok r).
    { intros p r. rewrite lookup_insert_Some. intros [[<- <-]|[_ Hq]]; [done|by apply Hsv]. }
    assert (Hrec : forall u p, receivers d !! u = Some p -> u <> NULL /\ exists r, <[mem := s]> (servers d) !! p = Some r /\ pcb r = u).
    { intros u p Hu. destruct (Hr u p Hu) as (H0 & r & Hq & Eu). split; [done|]. exists r. split; [|done].
      rewrite lookup_insert_ne; [done|congruence]. }
    destruct (Z.eqb_spec udp NULL) as [Eu|Eu]; (eexists _, _; split; [reflexivity|]; split; cbn; try done).
    intros u p. rewrite lookup_insert_Some. intros [[<- <-]|[_ Hu]]; [|by apply Hrec]. split; [done|]. exists s.
    by rewrite lookup_insert_eq.
  - rewrite (proj2 (Z.eqb_neq p NULL)) by done. cbn [negb]. unfold get_server. rewrite Hs. cbn [mbind outcome_bind].
    eexists _, _. split; [done|]. apply (put_ok d p s); try done. destruct (dk_servers _ Hd p s Hs) as [_ []]. split; [by apply Hrange|done..].
Qed.

Lemma stop_ok d netif : dhcpd_ok d -> exists e d', dhcp_server_stop netif d = Done (e, d') /\ dhcpd_ok d'.
Proof.
  intros Hd. unfold dhcp_server_stop. destruct (server_of_spec d netif Hd) as (p & Ep & Hp). step_with Ep.
  destruct Hp as [->|(Hp & s & Hs & _)]; [by exists ERR_VAL, d|]. rewrite (proj2 (Z.eqb_neq p NULL)) by done.
  unfold get_server. rewrite Hs. cbn [mbind outcome_bind]. eexists _, _. split; [done|]. destruct Hd as [_ Hsv Hr]. split; cbn.
  - exists []. split; [done|apply NoDup_nil_2].
  - intros q r. rewrite lookup_delete_Some. intros [_ Hq]. by apply Hsv.
  - intros u q Hu. assert (Hu' : receivers d !! u = Some q /\ (pcb s <> NULL -> u <> pcb s)).
    { destruct (Z.eqb_spec (pcb s) NULL); [done|]. apply lookup_delete_Some in Hu as [Hne Hu]. split; [done|]. congruence. }
    destruct Hu' as [Hu1 Hne]. destruct (Hr u q Hu1) as (H0 & r & Hq & E). split; [done|]. exists r. split; [|done].
    rewrite lookup_delete_ne; [done|]. intros <-. simplify_eq. by apply Hne.
Qed.

Lemma dns_scan_range x l : length l = 2%nat -> 0 <= (dns_scan x l).1 <= 1 /\ 0 <= (dns_scan x l).2 <= 1.
Proof.
  destruct l as [|a [|b [|c l]]]; try done. intros _. unfold dns_scan. change (seqZ 0 2) with [0; 1]. cbn [zip zip_with foldl fst snd].
  destruct (a =? x), (b =? x), (a =? 0), (b =? 0); cbn; lia.
Qed.
Lemma set_dns_ok s l : srv_ok s -> length l = 2%nat -> srv_ok (set_dns l s).
Proof. intros [] H. by split. Qed.
Lemma dns_ok d netif dns reset : dhcpd_ok d -> exists e d', dhcp_server_op_dns_server netif dns reset d = Done (e, d') /\ dhcpd_ok d'.
Proof.
  intros Hd. unfold dhcp_server_op_dns_server. destruct dns as [x|]; [|by exists ERR_VAL, d].
  destruct (netif =? NULL); [by exists ERR_VAL, d|]. destruct (server_of_spec d netif Hd) as (p & Ep & Hp). step_with Ep.
  destruct Hp as [->|(Hp & s & Hs & _)]; [by exists ERR_VAL, d|]. rewrite (proj2 (Z.eqb_neq p NULL)) by done.
  unfold get_server. rewrite Hs. cbn [mbind outcome_bind]. destruct (dk_servers _ Hd p s Hs) as [_ Hok]. pose proof (sk_dns _ Hok) as Hl.
  pose proof (dns_scan_range x (dnsserver s) Hl) as [H1 H2]. destruct (dns_scan x (dnsserver s)) as [found free]. cbn [fst snd] in *.
  assert (Hset : exists l, (if negb reset && negb (free =? 0) then aset (dnsserver s) free x
             else if reset && negb (found =? 0) then aset (dnsserver s) found 0 else Done (dnsserver s)) = Done l /\ length l = 2%nat).
  { assert (Hone : forall i y, 0 <= i <= 1 -> exists l, aset (dnsserver s) i y = Done l /\ length l = 2%nat).
    { intros i y Hi. destruct (aset_some (dnsserver s) i y) as [l E]; [unfold zlen; lia|]. exists l. split; [done|].
      apply aset_length in E. congruence. }
    destruct (negb reset && _); [by apply Hone|]. destruct (reset && _); [by apply Hone|]. by eexists. }
  destruct Hset as (l & -> & Hlen). cbn [mbind outcome_bind]. eexists _, _. split; [done|].
  apply (put_ok d p s); try done. by apply set_dns_ok.
Qed.

Lemma clear_loop_ok f ps : forall fuel p d, dhcpd_ok d -> linked (servers d) p ps -> (length ps < fuel)%nat ->
  exists d', clear_dns_loop f fuel p d = Done d' /\ dhcpd_ok d'.
Proof.
  induction ps as [|x ps IH]; intros fuel p d Hd H Hf; (destruct fuel as [|fuel]; [cbn in Hf; lia|]); cbn [clear_dns_loop].
  - cbn in H. rewrite H. by exists d.
  - destruct H as (-> & Hx & s & Hs & H). rewrite (proj2 (Z.eqb_neq x NULL)) by done. unfold get_server. rewrite Hs. cbn [mbind outcome_bind].
    destruct (dk_servers _ Hd x s Hs) as [_ Hok].
    apply IH; [|destruct (f s); [by apply (linked_put _ _ _ _ s)|done]|cbn in Hf; lia].
    destruct (f s); [|done]. apply (put_ok d x s); try done. by apply set_dns_ok.
Qed.
Lemma clear_ok f d : dhcpd_ok d -> exists d', clear_dns_loop f (S (size (servers d))) (lw_dhcp_server d) d = Done d' /\ dhcpd_ok d'.
Proof.
  intros Hd. destruct (dk_list _ Hd) as (ps & Hl & Hn). pose proof (linked_length _ _ _ Hl Hn). apply (clear_loop_ok f ps); [done|done|lia].
Qed.
Lemma dhcpd_stop_ok l name d : dhcpd_ok d -> exists d', dhcpd_stop l name d = Done d' /\ dhcpd_ok d'.
Proof.
  intros Hd. unfold dhcpd_stop. destruct (2 <? zlen name); [by exists d|]. destruct (find_netif name l =? NULL); [by exists d|].
  destruct (clear_ok (fun _ => true) d Hd) as (d1 & E1 & H1). unfold dhcp_server_clear_dns_server. step_with E1.
  destruct (stop_ok d1 (find_netif name l) H1) as (e & d2 & E2 & H2). step_with E2. by exists d2.
Qed.

(** ** The system *)

Inductive dstep : dhcpd -> dhcpd -> Prop :=
| ds_recv d u p s fuel malloc heap ip mask plen data r :
    receivers d !! u = Some p -> servers d !! p = Some s -> (forall st, malloc = Some st -> length st = 6%nat) ->
    dhcp_server_recv fuel malloc heap ip mask s plen data = Done r -> dstep d (put_server p (rr_server r) d)
| ds_start d mem udp netif start fin e d' : valid_range start fin -> (mem <> NULL -> servers d !! mem = None) ->
    (udp <> NULL -> receivers d !! udp = None) -> dhcp_server_start mem udp netif start fin d = Done (e, d') -> dstep d d'
| ds_server_stop d netif e d' : dhcp_server_stop netif d = Done (e, d') -> dstep d d'
| ds_stop d l name d' : dhcpd_stop l name d = Done d' -> dstep d d'
| ds_add_dns d netif dns e d' : dhcpd_add_dns_server netif dns d = Done (e, d') -> dstep d d'
| ds_remove_dns d netif dns e d' : dhcpd_remove_dns_server netif dns d = Done (e, d') -> dstep d d'
| ds_clear_dns d netif d' : dhcpd_clear_dns_server netif d = Done d' -> dstep d d'.

Definition dhcpd_init : dhcpd := {| lw_dhcp_server := NULL; servers := ∅; receivers := ∅ |}.
Inductive dreach : dhcpd -> Prop :=
| dreach_init : dreach dhcpd_init
| dreach_step d d' : dreach d -> dstep d d' -> dreach d'.

Lemma recv_ok fuel malloc heap ip mask s plen data r : srv_ok s -> (forall st, malloc = Some st -> length st = 6%nat) ->
  dhcp_server_recv fuel malloc heap ip mask s plen data = Done r -> srv_ok (rr_server r) /\ same_server s (rr_server r).
Proof.
  intros Hok Hm E. unfold dhcp_server_recv in E. destruct (plen <? DHCP_MIN_REQUEST_LEN); [by injection E as <-|].
  destruct heap as [q|]; [|by injection E as <-]. destruct (zlen q <? zlen data); [by injection E as <-|].
  apply bind_done in E as (op & _ & E). apply bind_done in E as (ck & _ & E). apply bind_done in E as (hl & _ & E).
  destruct (negb (op =? _)); [by injection E as <-|]. destruct (negb (ck =? _)); [by injection E as <-|].
  destruct (DHCP_MAX_HLEN <? hl); [by injection E as <-|]. apply bind_done in E as ([s' b] & Em & E). injection E as <-.
  by apply message_keeps in Em.
Qed.

Lemma dstep_ok d d' : dhcpd_ok d -> dstep d d' -> dhcpd_ok d'.
Proof.
  intros Hd H. destruct H.
  - destruct (dk_servers _ Hd _ _ H0) as [_ Hok]. destruct (recv_ok _ _ _ _ _ _ _ _ _ Hok H1 H2) as [H3 (H4 & _ & H5 & _)].
    by apply (put_ok d p s).
  - destruct (start_ok d mem udp netif start fin Hd H H0 H1) as (e' & d1 & E & Hd1). rewrite E in H2. by injection H2 as <- <-.
  - destruct (stop_ok d netif Hd) as (e' & d1 & E & Hd1). rewrite E in H. by injection H as <- <-.
  - destruct (dhcpd_stop_ok l name d Hd) as (d1 & E & Hd1). rewrite E in H. by injection H as <-.
  - destruct (dns_ok d netif dns false Hd) as (e' & d1 & E & Hd1). unfold dhcpd_add_dns_server in H. rewrite E in H. by injection H as <- <-.
  - destruct (dns_ok d netif dns true Hd) as (e' & d1 & E & Hd1). unfold dhcpd_remove_dns_server in H. rewrite E in H. by injection H as <- <-.
  - unfold dhcpd_clear_dns_server in H. destruct (clear_ok (fun s => srv_netif s =? netif) d Hd) as (d1 & E & Hd1). rewrite E in H. by injection H as <-.
Qed.
Lemma dreach_ok d : dreach d -> dhcpd_ok d.
Proof.
  induction 1 as [|d d' _ IH Hs]; [|by eapply dstep_ok]. split; cbn.
  - exists []. split; [done|apply NoDup_nil_2].
  - intros p s H. by rewrite lookup_empty in H.
  - intros u p H. by rewrite lookup_empty in H.
Qed.

(** ** What holds in every reachable state *)

(** C10: No address is leased twice.  After any sequence of starts, stops, DNS changes and
    datagrams with any contents, every server has leases with distinct addresses and
    distinct hardware addresses and its current address inside its range; each UDP
    callback refers to a server that exists; and starting, stopping and changing DNS
    servers return without a fault, whatever the allocators answer. *)
Theorem dhcp_leases_unique d : dreach d ->
  (forall p s, servers d !! p = Some s -> NoDup (ipaddr <$> node_list s) /\ NoDup (chaddr <$> node_list s)
     /\ ntohl (range_start s) <= ntohl (current s) <= ntohl (range_end s))
  /\ (forall u p, receivers d !! u = Some p -> exists s, servers d !! p = Some s /\ pcb s = u)
  /\ (forall mem udp netif start fin, valid_range start fin -> (mem <> NULL -> servers d !! mem = None) ->
        (udp <> NULL -> receivers d !! udp = None) -> exists e d', dhcp_server_start mem udp netif start fin d = Done (e, d'))
  /\ (forall l name, exists d', dhcpd_stop l name d = Done d')
  /\ (forall netif dns reset, exists e d', dhcp_server_op_dns_server netif dns reset d = Done (e, d')).
Proof.
  intros H. pose proof (dreach_ok d H) as Hd. split; [|split; [|split; [|split]]].
  - intros p s Hs. destruct (dk_servers _ Hd p s Hs) as [_ Hok]. split; [apply (sk_ips _ Hok)|]. split; [apply (sk_macs _ Hok)|]. apply (sk_range _ Hok).
  - intros u p Hu. by destruct (dk_receivers _ Hd u p Hu) as [_ ?].
  - intros mem udp netif start fin H1 H2 H3. destruct (start_ok d mem udp netif start fin Hd H1 H2 H3) as (e & d' & E & _). eauto.
  - intros l name. destruct (dhcpd_stop_ok l name d Hd) as (d' & E & _). eauto.
  - intros netif dns reset. destruct (dns_ok d netif dns reset Hd) as (e & d' & E & _). eauto.
Qed.

(** ** The range [dhcpd_start] asks for *)

Definition dotted (a b c d : Z) : list Z := decimal a ++ [46] ++ decimal b ++ [46] ++ decimal c ++ [46] ++ decimal d.
(** what the conversions of the network stack do with dotted decimal numbers *)
Record converts (aton : list Z -> Z) (ntoa : Z -> list Z) : Prop := {
  cv_aton : forall a b c d, byte_ok a -> byte_ok b -> byte_ok c -> byte_ok d -> aton (dotted a b c d) = word32 a b c d;
  cv_ntoa : forall a b c d, byte_ok a -> byte_ok b -> byte_ok c -> byte_ok d -> ntoa (word32 a b c d) = dotted a b c d }.

Lemma decimal_no_dot n c : 0 <= n < 1000 -> c ∈ decimal n -> c <> 46.
Proof.
  intros Hn. unfold decimal. destruct (n <? 10), (n <? 100); rewrite ?elem_of_cons, elem_of_nil; intros Hc.
  all: pose proof (Z.mod_pos_bound n 10); pose proof (Z.mod_pos_bound (n / 10) 10); pose proof (Z.div_pos n 10); pose proof (Z.div_pos n 100); lia.
Qed.
Lemma decimal_length n : (length (decimal n) <= 3)%nat.
Proof. unfold decimal. destruct (n <? 10), (n <? 100); cbn; lia. Qed.
Lemma through_dot k l r : (forall c, c ∈ l -> c <> 46) -> through_dots (S k) (l ++ [46] ++ r) = (fun p => l ++ [46] ++ p) <$> through_dots k r.
Proof.
  induction l as [|c l IH]; intros H.
  - cbn. by destruct (through_dots k r).
  - change (through_dots (S k) ((c :: l) ++ [46] ++ r)) with (cons c <$> (if c =? 46 then through_dots k (l ++ [46] ++ r) else through_dots (S k) (l ++ [46] ++ r))).
    rewrite (proj2 (Z.eqb_neq c 46)) by (apply H; left). rewrite IH by (intros; apply H; by right). by destruct (through_dots k r).
Qed.
Lemma through_dotted a b c d : byte_ok a -> byte_ok b -> byte_ok c ->
  through_dots 3 (dotted a b c d) = Some (decimal a ++ [46] ++ decimal b ++ [46] ++ decimal c ++ [46]).
Proof.
  unfold byte_ok. intros Ha Hb Hc. unfold dotted.
  rewrite !through_dot by (intros x Hx; eapply decimal_no_dot; [|exact Hx]; lia). cbn [through_dots fmap option_fmap option_map].
  by rewrite app_nil_r.
Qed.
Lemma with_last_dotted a b c n : with_last (decimal a ++ [46] ++ decimal b ++ [46] ++ decimal c ++ [46]) n = Done (dotted a b c n).
Proof.
  unfold with_last. replace ((decimal a ++ [46] ++ decimal b ++ [46] ++ decimal c ++ [46]) ++ decimal n) with (dotted a b c n)
    by (unfold dotted; by rewrite <- !app_assoc).
  rewrite (proj2 (Z.ltb_lt (zlen (dotted a b c n)) _)); [done|]. unfold zlen, dotted, IP4ADDR_STRLEN_MAX. rewrite !length_app. cbn [length].
  pose proof (decimal_length a). pose proof (decimal_length b). pose proof (decimal_length c). pose proof (decimal_length n). lia.
Qed.

Lemma ntohl_word a b c d : byte_ok a -> byte_ok b -> byte_ok c -> byte_ok d -> ntohl (word32 a b c d) = d + c * 2 ^ 8 + b * 2 ^ 16 + a * 2 ^ 24.
Proof.
  intros Ha Hb Hc Hd. unfold ntohl, htonl. pose proof (word32_bytes a b c d Ha Hb Hc Hd) as H. unfold bytes32 in H. injection H as -> -> -> ->. done.
Qed.

(** the range is a valid one in the network of the interface, and the text fits *)
Lemma dhcpd_start_range aton ntoa a b c d start limit : converts aton ntoa ->
  byte_ok a -> byte_ok b -> byte_ok c -> byte_ok d ->
  exists addr r, dhcpd_start aton ntoa (word32 a b c d) start limit = Done (addr, r)
    /\ (forall x y, r = Some (x, y) -> valid_range x y /\ exists a' b' c' d' m n, addr = word32 a' b' c' d'
          /\ x = word32 a' b' c' m /\ y = word32 a' b' c' n /\ 2 <= m /\ m < n <= 254).
Proof.
  intros [Hat Hnt] Ha Hb Hc Hd. unfold dhcpd_start. set (unset := _ || _ || _).
  assert (Hnet : exists a' b' c' d', byte_ok a' /\ byte_ok b' /\ byte_ok c' /\ byte_ok d'
    /\ (if unset then aton DHCPD_SERVER_IP else word32 a b c d) = word32 a' b' c' d'
    /\ (if unset then DHCPD_SERVER_IP else ntoa (word32 a b c d)) = dotted a' b' c' d').
  { destruct unset; [|exists a, b, c, d; auto 10]. exists 192, 168, 169, 1. change DHCPD_SERVER_IP with (dotted 192 168 169 1).
    do 4 (split; [unfold byte_ok; lia|]). split; [|done]. by apply Hat. }
  destruct Hnet as (a' & b' & c' & d' & Ha' & Hb' & Hc' & Hd' & -> & ->).
  destruct (dhcpd_range start limit (word32 a b c d =? 0)) as [[m n]|] eqn:Er; [|by eexists _, None].
  rewrite through_dotted by done. rewrite !with_last_dotted. cbn [mbind outcome_bind].
  eexists _, _. split; [done|]. intros x y [= <- <-].
  assert (Hmn : 2 <= m < n /\ n <= 254).
  { unfold dhcpd_range in Er. destruct (if (start =? -1) || (limit =? -1) || (word32 a b c d =? 0) then _ else _) as [m' n'].
    destruct ((254 <? m') || _ || _ || _ || _) eqn:Eg; [done|]. injection Er as <- <-. rewrite !orb_false_iff, !Z.ltb_ge, Z.leb_gt in Eg. lia. }
  assert (Hm : byte_ok m) by (unfold byte_ok; lia). assert (Hn : byte_ok n) by (unfold byte_ok; lia).
  rewrite !Hat by done. split.
  - split; [by apply word32_range|]. rewrite !ntohl_word by done. unfold byte_ok in *. lia.
  - exists a', b', c', d', m, n. do 3 (split; [done|]). lia.
Qed.
