(* ===== verification/DhcpdWitness.v ===== *)
(** * The DHCP server on concrete messages

    The theorems of DhcpdServer.v and DhcpdReach.v along a concrete exchange, and
    lemmas behind the findings: releases that remove another client or leave the list,
    the lease time on the wire, an empty hardware address, the DNS entries, the list of
    servers. *)
From S2P Require Import Prelude Bytes Dhcpd DhcpdProofs DhcpdServer DhcpdReach.

Module DhcpdRun.

Definition ip4 (a b c d : Z) : Z := word32 a b c d.
Definition mac (i : Z) : list Z := [2; 0; 0; 0; 0; i].
Definition message (t : Z) (m : list Z) (os : list dhcp_option) : list Z :=
  [1; 1; zlen m; 0; 17; 18; 19; 20] ++ repeat 0 20 ++ m ++ repeat 0 (208 - length m) ++ [0x63; 0x82; 0x53; 0x63]
  ++ encode_options ((DHCP_OPTION_MESSAGE_TYPE, [t]) :: os).
Definition heap : list Z := repeat 0 1500.
Definition server_ip : Z := ip4 192 168 169 1.
Definition server_mask : Z := ip4 255 255 255 0.
Definition recv (fuel : nat) (s : dhcp_server) (data : list Z) : outcome recv_result :=
  dhcp_server_recv fuel (Some (repeat 0 6)) (Some heap) server_ip server_mask s (zlen data) data.
Definition the_server : dhcp_server :=
  {| srv_next := NULL; srv_netif := 100; pcb := 200; node_list := []; range_start := ip4 192 168 169 2;
     range_end := ip4 192 168 169 254; current := ip4 192 168 169 2; dnsserver := [0; 0] |}.
Definition discover : list Z := message DHCP_DISCOVER (mac 1) [].
Definition after_discover : dhcp_server :=
  match recv 1 the_server discover with Done r => rr_server r | _ => the_server end.

Definition started : dhcpd := {| lw_dhcp_server := 300; servers := {[300 := the_server]}; receivers := {[200 := 300]} |}.
Definition leased : dhcpd := put_server 300 after_discover started.
Lemma started_reach : dreach started.
Proof.
  eapply dreach_step; [apply dreach_init|].
  apply (ds_start dhcpd_init 300 200 100 (ip4 192 168 169 2) (ip4 192 168 169 254) ERR_OK); [by vm_compute|done|done|by vm_compute].
Qed.
Lemma leased_reach : dreach leased.
Proof.
  eapply dreach_step; [apply started_reach|].
  destruct (recv 1 the_server discover) as [r| |] eqn:E; try by vm_compute in E.
  replace leased with (put_server 300 (rr_server r) started) by (unfold leased, after_discover; by rewrite E).
  eapply (ds_recv started 200 300 the_server); [done|done| |exact E]. by intros st [= <-].
Qed.

Lemma server_ok : srv_ok the_server.
Proof. split; [by vm_compute|apply NoDup_nil_2|apply Forall_nil_2|apply NoDup_nil_2|apply Forall_nil_2|done]. Qed.
Lemma discover_request : request (discover ++ drop (length discover) heap) DHCP_DISCOVER 6 [(DHCP_OPTION_MESSAGE_TYPE, [DHCP_DISCOVER])].
Proof.
  split; [by vm_compute..| | | |].
  - by vm_compute.
  - split; [by exists (repeat 0 1256)|by repeat constructor].
  - by exists [].
  - done.
Qed.

Lemma dhcp_leases_unique_witness : exists s, servers leased !! 300 = Some s /\ (ipaddr <$> node_list s) = [ip4 192 168 169 2]
  /\ NoDup (ipaddr <$> node_list s).
Proof.
  exists after_discover. split; [done|]. split; [by vm_compute|].
  exact (proj1 (proj1 (dhcp_leases_unique leased leased_reach) 300 after_discover eq_refl)).
Defined.

Lemma dhcp_recv_correct_witness : exists s' r,
  served (Some (repeat 0 6)) server_ip server_mask the_server (discover ++ drop (length discover) heap) 6 DHCP_DISCOVER s' r
  /\ recv 1 the_server discover = Done {| rr_server := s'; rr_sent := r; rr_pbufs := 0 |} /\ (ipaddr <$> node_list s') = [ip4 192 168 169 2].
Proof.
  destruct (dhcp_recv_correct (Some (repeat 0 6)) heap server_ip server_mask the_server (zlen discover) discover DHCP_DISCOVER 6
    [(DHCP_OPTION_MESSAGE_TYPE, [DHCP_DISCOVER])] server_ok) as [(_ & _ & H & _)|[(H & _)|(s' & r & H1 & H2)]].
  - by intros st [= <-].
  - by vm_compute.
  - by vm_compute.
  - apply discover_request.
  - by vm_compute in H.
  - by vm_compute in H.
  - specialize (H2 1%nat ltac:(cbn; lia)). exists s', r. split; [exact H1|]. split; [exact H2|].
    assert (E : rr_server {| rr_server := s'; rr_sent := r; rr_pbufs := 0 |} = after_discover) by (unfold after_discover, recv; by rewrite H2).
    cbn in E. rewrite E. by vm_compute.
Defined.

(** three addresses, the first two of which are leased; the current one is the second *)
Definition small_server : dhcp_server :=
  {| srv_next := NULL; srv_netif := 100; pcb := 200;
     node_list := [{| chaddr := mac 1; ipaddr := ip4 192 168 169 3; lease_end := 0 |};
                   {| chaddr := mac 2; ipaddr := ip4 192 168 169 4; lease_end := 0 |}];
     range_start := ip4 192 168 169 2; range_end := ip4 192 168 169 4; current := ip4 192 168 169 3; dnsserver := [0; 0] |}.
Lemma dhcp_alloc_ends_witness : alloc_loop 3 small_server = Done (set_current (ip4 192 168 169 2) small_server).
Proof.
  assert (Hok : range_ok small_server) by (by vm_compute).
  destruct (proj1 (dhcp_alloc_ends small_server Hok)) as (a & Ha & _ & _ & H).
  - exists 3232278786. split; [by vm_compute|]. intros Hin. vm_compute in Hin.
    apply list_elem_of_In in Hin. cbn in Hin. lia.
  - rewrite (H 3%nat) by (cbn; lia). vm_compute in Ha. injection Ha as <-. by vm_compute.
Defined.

Lemma dhcp_reply_roundtrip_witness : exists b, dhcp_reply heap server_ip (ip4 192 168 169 2) (lease_options DHCP_OFFER server_ip server_mask [0; 0]) = Done b
  /\ load32 b OFS_YIADDR = Done (ip4 192 168 169 2).
Proof.
  destruct (dhcp_reply_roundtrip heap DHCP_OFFER server_ip server_mask (ip4 192 168 169 2) [0; 0]) as (b & H1 & H2 & _);
    [by vm_compute|done|by vm_compute|by vm_compute|by vm_compute|]. by exists b.
Defined.
End DhcpdRun.

Module DhcpdFindings.
Import DhcpdRun.

Definition client (i ip : Z) : dhcp_client_node := {| chaddr := mac i; ipaddr := ip4 192 168 169 ip; lease_end := DHCP_DEFAULT_LIVE_TIME |}.
Definition with_clients (l : list dhcp_client_node) : dhcp_server := set_nodes l the_server.
Definition nodes_after (s : dhcp_server) (data : list Z) : outcome (list dhcp_client_node) :=
  r ← recv 10 s data; Done (node_list (rr_server r)).

(** the third client's release also ends the second one's lease *)
Lemma release_removes_another :
  nodes_after (with_clients [client 1 2; client 2 3; client 3 4]) (message DHCP_RELEASE (mac 3) []) = Done [client 1 2].
Proof. by vm_compute. Qed.
(** the second client's release has no effect, and with three clients runs off the end *)
Lemma release_misses_second :
  nodes_after (with_clients [client 1 2; client 2 3]) (message DHCP_RELEASE (mac 2) []) = Done [client 1 2; client 2 3]
  /\ nodes_after (with_clients [client 1 2; client 2 3; client 3 4]) (message DHCP_RELEASE (mac 2) []) = Fault.
Proof. by vm_compute. Qed.
(** a release of a client that has no lease, with one client *)
Lemma release_of_stranger_faults : nodes_after (with_clients [client 1 2]) (message DHCP_RELEASE (mac 9) []) = Fault.
Proof. by vm_compute. Qed.

(** the lease time on the wire is 0x80510100 seconds: the constant already has the
    bytes of 86400 in network order, and is swapped again *)
Lemma lease_time_swapped_twice :
  (exists pre post, lease_options DHCP_OFFER server_ip server_mask [0; 0] = pre ++ [DHCP_OPTION_LEASE_TIME; 4; 0x80; 0x51; 0x01; 0x00] ++ post)
  /\ htonl DHCP_DEFAULT_LIVE_TIME = 86400.
Proof. split; [|by vm_compute]. by exists [53; 1; 2; 54; 4; 192; 168; 169; 1], (drop 15 (lease_options DHCP_OFFER server_ip server_mask [0; 0])). Qed.

(** a message whose hardware address has no bytes is taken for the first client *)
Lemma empty_address_is_first_client s buf n l : node_list s = n :: l -> known s buf 0 = Some 0%nat.
Proof. intros E. unfold known, dhcp_client_find_by_mac. rewrite E. by cbn. Qed.

(** with all addresses leased, the message of a new client is handled for ever *)
Lemma full_range_hangs fuel : recv fuel (set_range (ip4 192 168 169 2) (ip4 192 168 169 3) (with_clients [client 1 2; client 2 3]))
  (message DHCP_DISCOVER (mac 3) []) = NoFuel.
Proof.
  set (s := set_range _ _ _). set (data := message _ _ _). assert (Hr : request (data ++ drop (length data) heap) DHCP_DISCOVER 6
    [(DHCP_OPTION_MESSAGE_TYPE, [DHCP_DISCOVER])]).
  { split; [by vm_compute..| | | |]; [by vm_compute| |by exists []|done]. split; [by exists (repeat 0 1256)|by repeat constructor]. }
  unfold recv. rewrite (recv_message fuel (Some (repeat 0 6)) heap server_ip server_mask s (zlen data) data _ _ _ ltac:(by vm_compute) ltac:(by vm_compute) Hr).
  rewrite (request_type _ _ _ _ _ _ _ _ Hr). cbv zeta. rewrite Z.eqb_refl. unfold dhcp_client_alloc.
  change (dhcp_client_find_by_mac s (drop (Z.to_nat OFS_CHADDR) (data ++ drop (length data) heap)) 6) with (@None nat).
  assert (Hk : known s (data ++ drop (length data) heap) 6 = None) by (by vm_compute).
  rewrite (find_requested_none _ _ _ _ _ Hr Hk). cbn [mbind outcome_bind].
  rewrite (alloc_full fuel s); [done|by vm_compute|]. by repeat (constructor; [apply list_elem_of_In; vm_compute; tauto|]).
Qed.

(** a DNS server is only ever put in the second place, and a second one is dropped *)
Lemma dns_first_place_unused x y : x <> 0 -> y <> 0 ->
  exists d1 d2, dhcpd_add_dns_server 100 (Some x) started = Done (ERR_OK, d1) /\ dnsserver <$> servers d1 !! 300 = Some [0; x]
    /\ dhcpd_add_dns_server 100 (Some y) d1 = Done (ERR_OK, d2) /\ dnsserver <$> servers d2 !! 300 = Some [0; x].
Proof.
  intros Hx Hy. exists (put_server 300 (set_dns [0; x] the_server) started), (put_server 300 (set_dns [0; x] the_server) started).
  assert (Hsc : forall z l, z <> 0 -> dns_scan z [0; l] = (if l =? z then 1 else 0, if l =? 0 then 1 else 0)).
  { intros z l Hz. unfold dns_scan. change (seqZ 0 2) with [0; 1]. cbn [zip zip_with foldl].
    rewrite (proj2 (Z.eqb_neq 0 z)) by lia. rewrite !Z.eqb_refl. cbn [andb]. done. }
  split; [|split; [by vm_compute|split; [|by vm_compute]]].
  - unfold dhcpd_add_dns_server, dhcp_server_op_dns_server. change (server_of started 100) with (Done 300). cbn [mbind outcome_bind].
    change (get_server started 300) with (Done the_server). cbn [mbind outcome_bind]. change (dnsserver the_server) with [0; 0].
    rewrite Hsc by done. done.
  - unfold dhcpd_add_dns_server, dhcp_server_op_dns_server. set (d := put_server _ _ _). change (server_of d 100) with (Done 300). cbn [mbind outcome_bind].
    change (get_server d 300) with (Done (set_dns [0; x] the_server)). cbn [mbind outcome_bind].
    change (dnsserver (set_dns [0; x] the_server)) with [0; x]. rewrite Hsc by done. rewrite (proj2 (Z.eqb_neq x 0)) by done.
    cbn [negb andb Z.eqb mbind outcome_bind]. done.
Qed.

(** stopping one of two servers takes the other one off the list too, while it goes on
    answering; starting it again makes a second server for the interface *)
Definition two_servers : outcome dhcpd :=
  '(_, d) ← dhcp_server_start 400 201 101 (ip4 10 0 0 2) (ip4 10 0 0 9) started; '(_, d) ← dhcp_server_stop 100 d; Done d.
Lemma stop_forgets_others : exists d, two_servers = Done d /\ lw_dhcp_server d = NULL /\ receivers d !! 201 = Some 400
  /\ srv_netif <$> servers d !! 400 = Some 101 /\ server_of d 101 = Done NULL.
Proof. by eexists. Qed.

(** without a control block the server stays in the list: the next start reports
    success, and no datagram reaches it *)
Lemma start_without_socket : exists d, dhcp_server_start 300 NULL 100 (ip4 10 0 0 2) (ip4 10 0 0 9) dhcpd_init = Done (ERR_MEM, d)
  /\ exists d', dhcp_server_start 500 200 100 (ip4 10 0 0 2) (ip4 10 0 0 9) d = Done (ERR_OK, d') /\ receivers d' = ∅.
Proof. eexists. split; [reflexivity|]. eexists. split; [vm_compute; reflexivity|done]. Qed.

(** a datagram above 1500 bytes leaves the copy allocated *)
Lemma long_datagram_leaks fuel m ip mask s data : 1500 < zlen data ->
  dhcp_server_recv fuel m (Some heap) ip mask s (zlen data) data = Done {| rr_server := s; rr_sent := None; rr_pbufs := 1 |}.
Proof.
  intros H. unfold dhcp_server_recv. rewrite (proj2 (Z.ltb_ge (zlen data) _)) by (unfold DHCP_MIN_REQUEST_LEN; lia).
  change (zlen heap) with 1500. by rewrite (proj2 (Z.ltb_lt 1500 (zlen data))).
Qed.

(** the padding option has no length byte, but the search skips one: here it passes
    over the message type *)
Lemma padding_hides_options : dhcp_server_option_find [0; 53; 1; 1; 255] 0 5 DHCP_OPTION_MESSAGE_TYPE = Done None.
Proof. by vm_compute. Qed.
End DhcpdFindings.
