(* ===== verification/Ringblk.v ===== *)
(** * The ring of blocks: utils_ringblk.c

    A buffer is cut into blocks that are used in turn: a block is allocated behind the
    last one, or at the start of the buffer when the end has no room; it is filled,
    put, taken by the reader and freed.  The blocks in use are linked with
    [utils_slist]; a block is named by its place in [blk_set], and its list node by its
    address. *)
From S2P Require Import Prelude UtilsList Slist.

(** ** Definitions *)

Definition RBB_BLK_UNUSED : Z := 0.
Definition RBB_BLK_INITED : Z := 1.
Definition RBB_BLK_PUT : Z := 2.
Definition RBB_BLK_GET : Z := 3.

(** [struct utils_rbb_blk] has 12 bytes, its list node the last four *)
Definition sizeof_blk : Z := 12.
Definition offsetof_list : Z := 8.

Record utils_rbb_blk := { status : Z; size : Z; buf : Z }.
Record utils_rbb := {
  rbuf : Z; buf_size : Z; blk_set : Z; blk_max_num : Z; blk_list : Z;
  blks : list utils_rbb_blk;       (* the array at [blk_set] *)
  links : heap }.                  (* the links of the nodes and of the head *)
(** [blocks] is a place in [blk_set] *)
Record utils_rbb_blk_queue := { blocks : Z; blk_num : Z }.

Definition node_of (r : utils_rbb) (i : Z) : Z := blk_set r + sizeof_blk * i + offsetof_list.
(** [utils_slist_entry] *)
Definition entry_of (r : utils_rbb) (node : Z) : Z := (node - offsetof_list - blk_set r) / sizeof_blk.

Definition with_blks (l : list utils_rbb_blk) (r : utils_rbb) : utils_rbb :=
  {| rbuf := rbuf r; buf_size := buf_size r; blk_set := blk_set r; blk_max_num := blk_max_num r; blk_list := blk_list r;
     blks := l; links := links r |}.
Definition with_links (m : heap) (r : utils_rbb) : utils_rbb :=
  {| rbuf := rbuf r; buf_size := buf_size r; blk_set := blk_set r; blk_max_num := blk_max_num r; blk_list := blk_list r;
     blks := blks r; links := m |}.
Definition set_status (s : Z) (b : utils_rbb_blk) : utils_rbb_blk := {| status := s; size := size b; buf := buf b |}.

Definition get_blk (r : utils_rbb) (i : Z) : outcome utils_rbb_blk := aget (blks r) i.
Definition put_blk (i : Z) (b : utils_rbb_blk) (r : utils_rbb) : outcome utils_rbb :=
  l ← aset (blks r) i b; Done (with_blks l r).
Definition upd_status (i s : Z) (r : utils_rbb) : outcome utils_rbb := b ← get_blk r i; put_blk i (set_status s b) r.

(** [utils_rbb_init] of an object whose fields are set: the memory of [blk_set] has
    entries and links already *)
Definition utils_rbb_init (r : utils_rbb) : outcome utils_rbb :=
  m ← utils_slist_init (blk_list r) (links r); Done (with_blks (set_status RBB_BLK_UNUSED <$> blks r) (with_links m r)).

(** the first block [f] holds for *)
Fixpoint find_blk (f : utils_rbb_blk -> bool) (idxs : list Z) (r : utils_rbb) : outcome (option Z) :=
  match idxs with
  | [] => Done None
  | i :: idxs => b ← get_blk r i; if f b then Done (Some i) else find_blk f idxs r
  end.
Definition utils_rbb_find_used_blk (r : utils_rbb) : outcome (option Z) :=
  find_blk (fun b => negb (status b =? RBB_BLK_UNUSED)) (seqZ 0 (blk_max_num r)) r.
Definition utils_rbb_find_empty_blk (r : utils_rbb) : outcome (option Z) :=
  find_blk (fun b => status b =? RBB_BLK_UNUSED) (seqZ 0 (blk_max_num r)) r.

(** the new block at the end of the list *)
Definition place (i addr n : Z) (r : utils_rbb) : outcome (option Z * utils_rbb) :=
  m ← utils_slist_append (blk_list r) (node_of r i) (links r);
  r ← put_blk i {| status := RBB_BLK_INITED; size := n; buf := addr |} (with_links m r);
  Done (Some i, r).

Definition utils_rbb_blk_alloc (blk_size : Z) (r : utils_rbb) : outcome (option Z * utils_rbb) :=
  if negb (blk_size <? Z.shiftl 1 24) then Fault
  else
    new ← utils_rbb_find_empty_blk r;
    list_num ← utils_slist_entry_number (blk_list r) (links r);
    match new with
    | Some i =>
      if list_num <? blk_max_num r then
        if 0 <? list_num then
          h ← utils_slist_first (blk_list r) (links r);
          t ← utils_slist_tail (blk_list r) (links r);
          head ← get_blk r (entry_of r h);
          tail ← get_blk r (entry_of r t);
          if buf head <=? buf tail then
            let empty1 := u32 (rbuf r + buf_size r - (buf tail + size tail)) in
            let empty2 := u32 (buf head - rbuf r) in
            if blk_size <=? empty1 then place i (buf tail + size tail) blk_size r
            else if blk_size <=? empty2 then place i (rbuf r) blk_size r
            else Done (None, r)
          else
            let empty1 := u32 (buf head - (buf tail + size tail)) in
            if blk_size <=? empty1 then place i (buf tail + size tail) blk_size r else Done (None, r)
        else place i (rbuf r) blk_size r
      else Done (None, r)
    | None => Done (None, r)
    end.

Definition utils_rbb_blk_put (i : Z) (r : utils_rbb) : outcome utils_rbb :=
  b ← get_blk r i; if status b =? RBB_BLK_INITED then put_blk i (set_status RBB_BLK_PUT b) r else Fault.

Fixpoint blk_get_loop (fuel : nat) (node : Z) (r : utils_rbb) : outcome (option Z * utils_rbb) :=
  match fuel with
  | O => NoFuel
  | S fuel =>
    if node =? NULL then Done (None, r)
    else
      b ← get_blk r (entry_of r node);
      if status b =? RBB_BLK_PUT then
        r' ← put_blk (entry_of r node) (set_status RBB_BLK_GET b) r; Done (Some (entry_of r node), r')
      else n ← utils_slist_next node (links r); blk_get_loop fuel n r
  end.
Definition utils_rbb_blk_get (r : utils_rbb) : outcome (option Z * utils_rbb) :=
  e ← utils_slist_empty (blk_list r) (links r);
  if (e : bool) then Done (None, r)
  else n ← utils_slist_first (blk_list r) (links r); blk_get_loop (loop_fuel (links r)) n r.

Definition utils_rbb_blk_size (i : Z) (r : utils_rbb) : outcome Z := b ← get_blk r i; Done (size b).
Definition utils_rbb_blk_buf (i : Z) (r : utils_rbb) : outcome Z := b ← get_blk r i; Done (buf b).

Definition utils_rbb_blk_free (i : Z) (r : utils_rbb) : outcome utils_rbb :=
  b ← get_blk r i;
  if status b =? RBB_BLK_UNUSED then Fault
  else m ← utils_slist_del (node_of r i) (blk_list r) (links r); upd_status i RBB_BLK_UNUSED (with_links m r).

(** the loop of [utils_rbb_blk_queue_get]: [last] is the block before, if the queue
    has begun *)
Fixpoint queue_get_loop (fuel : nat) (node : Z) (last : option utils_rbb_blk) (limit total : Z) (q : utils_rbb_blk_queue)
    (r : utils_rbb) : outcome (Z * utils_rbb_blk_queue * utils_rbb) :=
  match fuel with
  | O => NoFuel
  | S fuel =>
    if node =? NULL then Done (total, q, r)
    else
      let i := entry_of r node in
      b ← get_blk r i;
      let take q :=
        m ← utils_slist_del node (blk_list r) (links r);
        r ← upd_status i RBB_BLK_GET (with_links m r);
        n ← utils_slist_next node (links r);
        queue_get_loop fuel n (Some b) limit (u32 (total + size b)) {| blocks := blocks q; blk_num := u32 (blk_num q + 1) |} r in
      match last with
      | None =>
        if status b =? RBB_BLK_PUT then take {| blocks := i; blk_num := 0 |}
        else n ← utils_slist_next node (links r); queue_get_loop fuel n None limit total q r
      | Some l =>
        if negb (status b =? RBB_BLK_PUT) || (buf b <? buf l) || (limit <? u32 (total + size b)) then Done (total, q, r)
        else take q
      end
  end.
Definition utils_rbb_blk_queue_get (limit : Z) (q : utils_rbb_blk_queue) (r : utils_rbb)
  : outcome (Z * utils_rbb_blk_queue * utils_rbb) :=
  e ← utils_slist_empty (blk_list r) (links r);
  if (e : bool) then Done (0, q, r)
  else n ← utils_slist_first (blk_list r) (links r); queue_get_loop (loop_fuel (links r)) n None limit 0 q r.

(** the blocks of a queue are taken to be neighbours in [blk_set] *)
Fixpoint queue_len_loop (idxs : list Z) (q : utils_rbb_blk_queue) (total : Z) (r : utils_rbb) : outcome Z :=
  match idxs with
  | [] => Done total
  | k :: idxs => b ← get_blk r (blocks q + k); queue_len_loop idxs q (u32 (total + size b)) r
  end.
Definition utils_rbb_blk_queue_len (q : utils_rbb_blk_queue) (r : utils_rbb) : outcome Z :=
  queue_len_loop (seqZ 0 (blk_num q)) q 0 r.
Definition utils_rbb_blk_queue_buf (q : utils_rbb_blk_queue) (r : utils_rbb) : outcome Z := utils_rbb_blk_buf (blocks q) r.
Fixpoint queue_free_loop (idxs : list Z) (q : utils_rbb_blk_queue) (r : utils_rbb) : outcome utils_rbb :=
  match idxs with
  | [] => Done r
  | k :: idxs => r ← utils_rbb_blk_free (blocks q + k) r; queue_free_loop idxs q r
  end.
Definition utils_rbb_blk_queue_free (q : utils_rbb_blk_queue) (r : utils_rbb) : outcome utils_rbb :=
  queue_free_loop (seqZ 0 (blk_num q)) q r.

Fixpoint next_queue_len_loop (fuel : nat) (node : Z) (last : option utils_rbb_blk) (len : Z) (r : utils_rbb) : outcome Z :=
  match fuel with
  | O => NoFuel
  | S fuel =>
    if node =? NULL then Done len
    else
      b ← get_blk r (entry_of r node);
      n ← utils_slist_next node (links r);
      match last with
      | None =>
        if status b =? RBB_BLK_PUT then next_queue_len_loop fuel n (Some b) (u32 (len + size b)) r
        else next_queue_len_loop fuel n None len r
      | Some l =>
        if negb (status b =? RBB_BLK_PUT) || (buf b <? buf l) then Done len
        else next_queue_len_loop fuel n (Some b) (u32 (len + size b)) r
      end
  end.
Definition utils_rbb_next_blk_queue_len (r : utils_rbb) : outcome Z :=
  e ← utils_slist_empty (blk_list r) (links r);
  if (e : bool) then Done 0
  else n ← utils_slist_first (blk_list r) (links r); next_queue_len_loop (loop_fuel (links r)) n None 0 r.
Definition utils_rbb_get_buf_size (r : utils_rbb) : Z := buf_size r.
