(* ===== verification/RingblkProofs.v ===== *)
(** * The blocks of a ring do not overlap (Ringblk.v)

    The blocks in use are a sequence that goes up through the buffer, and then perhaps
    a second time up to the first block; each operation acts on this sequence. *)
From S2P Require Import Prelude UtilsList Slist Ringblk.

(** ** Places in the buffer *)

(** spans, an address and a size each, one behind the other between two addresses *)
Fixpoint rising (lo : Z) (l : list (Z * Z)) (hi : Z) : Prop :=
  match l with [] => lo <= hi | (a, n) :: l => lo <= a /\ 0 < n /\ rising (a + n) l hi end.
(** the sequence of a ring: a rising part, and one below the first span *)
Definition arranged (lo : Z) (l : list (Z * Z)) (hi : Z) : Prop :=
  exists A B, l = A ++ B /\ rising lo A hi /\ (B = [] \/ exists a n A', A = (a, n) :: A' /\ rising lo B a).

Lemma rising_bounds lo l hi : rising lo l hi -> lo <= hi.
Proof. revert lo. induction l as [|[a n] l IH]; cbn; [done|]. intros lo (H1 & H2 & H3). apply IH in H3. lia. Qed.
Lemma rising_weaken lo lo' l hi : lo' <= lo -> rising lo l hi -> rising lo' l hi.
Proof. destruct l as [|[a n] l]; cbn; [lia|]. intros H (H1 & H2 & H3). split; [lia|done]. Qed.
Lemma rising_app lo l1 l2 hi : rising lo (l1 ++ l2) hi <-> exists m, rising lo l1 m /\ rising m l2 hi.
Proof.
  revert lo. induction l1 as [|[a n] l1 IH]; intros lo; cbn.
  - split; [intros H; exists lo; split; [lia|done]|]. intros (m & H1 & H2). by apply (rising_weaken m).
  - rewrite IH. split; [intros (H1 & H2 & m & H3 & H4); eauto|intros (m & (H1 & H2 & H3) & H4); eauto].
Qed.
Lemma rising_widen lo l hi hi' : hi <= hi' -> rising lo l hi -> rising lo l hi'.
Proof. revert lo. induction l as [|[a n] l IH]; intros lo H; cbn; [lia|]. intros (H1 & H2 & H3). eauto. Qed.
Lemma rising_member lo l hi a n : rising lo l hi -> (a, n) ∈ l -> lo <= a /\ 0 < n /\ a + n <= hi.
Proof.
  revert lo. induction l as [|[b m] l IH]; intros lo; cbn; [by intros _ H%elem_of_nil|]. intros (H1 & H2 & H3) Hin.
  apply elem_of_cons in Hin as [[= -> ->]|Hin]; [apply rising_bounds in H3; lia|]. destruct (IH _ H3 Hin). lia.
Qed.
Lemma rising_last lo l a n hi : rising lo (l ++ [(a, n)]) hi -> lo <= a /\ 0 < n /\ a + n <= hi.
Proof. intros H. apply (rising_member lo (l ++ [(a, n)])); [done|]. rewrite elem_of_app. right. left. Qed.
Lemma rising_snoc lo l a n m hi : rising lo (l ++ [(a, n)]) hi -> 0 < m -> a + n + m <= hi -> rising lo ((l ++ [(a, n)]) ++ [(a + n, m)]) hi.
Proof.
  rewrite rising_app. intros (k & H1 & H2 & H3 & H4) Hm Hh. rewrite <- app_assoc, rising_app. exists k. split; [done|]. cbn in *. lia.
Qed.
(** leaving out a span *)
Lemma rising_delete lo l1 x l2 hi : rising lo (l1 ++ x :: l2) hi -> rising lo (l1 ++ l2) hi.
Proof.
  rewrite !rising_app. intros (m & H1 & H2). exists m. split; [done|]. destruct x as [a n]. destruct H2 as (H2 & H3 & H4).
  apply (rising_weaken (a + n)); [lia|done].
Qed.
Lemma arranged_delete lo l1 x l2 hi : arranged lo (l1 ++ x :: l2) hi -> arranged lo (l1 ++ l2) hi.
Proof.
  intros (A & B & E & HA & HB). symmetry in E. apply app_eq_inv in E as [(k & E1 & E2)|(k & E1 & E2)].
  - destruct k as [|y k].
    + cbn in E2. subst B A. rewrite app_nil_r in *. exists l1, l2. split; [done|].
      split; [done|]. destruct HB as [?|(a & n & A' & -> & HB)]; [done|]. right. exists a, n, A'. split; [done|].
      by apply (rising_delete lo [] x l2).
    + cbn in E2. injection E2 as <- ->. subst A. destruct HB as [->|(a & n & A' & EA & HB)].
      * exists (l1 ++ k), []. rewrite !app_nil_r. split; [done|]. split; [by apply (rising_delete _ _ x)|by left].
      * destruct l1 as [|y l1]; cbn in *.
        -- injection EA as -> ->. destruct HA as (H1 & H2 & H3). destruct A' as [|[b m] A'].
           ++ exists B, []. split; [by rewrite app_nil_r|]. split; [|by left]. apply (rising_widen _ _ a); [|done]. apply rising_bounds in H3. lia.
           ++ exists ((b, m) :: A'), B. split; [done|]. split; [by apply (rising_weaken (a + n)); [lia|]|]. right. exists b, m, A'.
              split; [done|]. apply (rising_widen _ _ a); [|done]. cbn in H3. lia.
        -- injection EA as -> <-. exists ((a, n) :: l1 ++ k), B. split; [cbn; by rewrite app_assoc|]. split.
           ++ destruct HA as (H1 & H2 & H3). split; [done|]. split; [done|]. by apply (rising_delete _ _ x).
           ++ right. by exists a, n, (l1 ++ k).
  - subst l1 B. exists A, (k ++ l2). split; [by rewrite app_assoc|]. split; [done|]. destruct HB as [HB|(a & n & A' & EA & HB)].
    + by destruct k.
    + right. exists a, n, A'. split; [done|]. by apply (rising_delete _ _ x).
Qed.

(** in an arranged sequence the spans are in the buffer and do not meet *)
Lemma rising_apart lo l hi p q a n b m : rising lo l hi -> (p < q)%nat -> l !! p = Some (a, n) -> l !! q = Some (b, m) -> a + n <= b.
Proof.
  revert lo p q. induction l as [|[c k] l IH]; intros lo p q H Hpq Hp Hq; [done|]. destruct H as (H1 & H2 & H3).
  destruct q as [|q]; [lia|]. destruct p as [|p]; cbn in *.
  - injection Hp as -> ->. apply list_elem_of_lookup_2 in Hq. destruct (rising_member _ _ _ _ _ H3 Hq). lia.
  - apply (IH _ p q H3); [lia|done|done].
Qed.
Lemma arranged_inside lo l hi a n : arranged lo l hi -> (a, n) ∈ l -> lo <= a /\ 0 < n /\ a + n <= hi.
Proof.
  intros (A & B & -> & HA & HB) Hin. apply elem_of_app in Hin as [Hin|Hin]; [by apply (rising_member _ _ _ _ _ HA)|].
  destruct HB as [->|(c & k & A' & -> & HB)]; [by apply elem_of_nil in Hin|]. destruct (rising_member _ _ _ _ _ HB Hin) as (? & ? & ?).
  destruct HA as (? & ? & HA). apply rising_bounds in HA. lia.
Qed.
Lemma arranged_apart lo l hi p q a n b m : arranged lo l hi -> (p < q)%nat -> l !! p = Some (a, n) -> l !! q = Some (b, m) ->
  a + n <= b \/ b + m <= a.
Proof.
  intros (A & B & -> & HA & HB) Hpq Hp Hq. apply lookup_app_Some in Hp as [Hp|[Hp1 Hp]]; apply lookup_app_Some in Hq as [Hq|[Hq1 Hq]].
  - left. by apply (rising_apart _ _ _ _ _ _ _ _ _ HA Hpq Hp Hq).
  - destruct HB as [->|(c & k & A' & EA & HB)]; [done|]. right. apply list_elem_of_lookup_2 in Hq, Hp.
    destruct (rising_member _ _ _ _ _ HB Hq) as (? & ? & ?). subst A. destruct HA as (? & ? & HA).
    apply elem_of_cons in Hp as [[= -> ->]|Hp]; [lia|]. destruct (rising_member _ _ _ _ _ HA Hp). lia.
  - apply lookup_lt_Some in Hq. lia.
  - destruct HB as [->|(c & k & A' & EA & HB)]; [done|]. left. eapply (rising_apart _ _ _ (p - length A) (q - length A)); [exact HB|lia|exact Hp|exact Hq].
Qed.

(** *** Where a new span goes *)
Definition where_to (lo hi : Z) (l : list (Z * Z)) (n : Z) : option Z :=
  match head l, last l with
  | Some (a, _), Some (b, m) =>
    if a <=? b then if n <=? hi - (b + m) then Some (b + m) else if n <=? a - lo then Some lo else None
    else if n <=? a - (b + m) then Some (b + m) else None
  | _, _ => Some lo
  end.
Lemma where_to_arranged lo hi l n x : arranged lo l hi -> 0 < n -> (l = [] -> n <= hi - lo) ->
  where_to lo hi l n = Some x -> arranged lo (l ++ [(x, n)]) hi.
Proof.
  intros (A & B & -> & HA & HB) Hn He Hx. unfold where_to in Hx. destruct HB as [->|(a & k & A' & -> & HB)].
  - rewrite app_nil_r in *. destruct A as [|[a k] A] using rev_ind; [|clear IHA].
    + injection Hx as <-. specialize (He eq_refl). exists [(lo, n)], []. split; [done|]. split; [cbn; lia|by left].
    + rewrite last_snoc in Hx. destruct (head (A ++ [(a, k)])) as [[a0 k0]|] eqn:Eh; [|by destruct A].
      assert (E : exists A', A ++ [(a, k)] = (a0, k0) :: A') by (destruct A as [|y A]; cbn in Eh; simplify_eq; eexists; reflexivity).
      destruct E as [A' E]. destruct (Z.leb_spec a0 a).
      * destruct (Z.leb_spec n (hi - (a + k))).
        -- injection Hx as <-. exists ((A ++ [(a, k)]) ++ [(a + k, n)]), []. split; [by rewrite app_nil_r|]. split; [|by left].
           apply rising_snoc; [done|done|lia].
        -- destruct (Z.leb_spec n (a0 - lo)); [|done]. injection Hx as <-. exists (A ++ [(a, k)]), [(lo, n)]. split; [done|].
           split; [done|]. right. exists a0, k0, A'. split; [done|]. cbn. lia.
      * exfalso. rewrite E in HA. destruct HA as (H1 & H2 & H3). destruct A as [|y A]; cbn in E; [injection E as ? ? ?; lia|].
        injection E as -> <-. apply rising_last in H3. lia.
  - destruct B as [|[b m] B] using rev_ind; [|clear IHB].
    + rewrite app_nil_r in *. destruct (last ((a, k) :: A')) as [[b m]|] eqn:El; [|by apply last_None in El].
      apply last_Some in El as [A0 E0]. cbn [head] in Hx. rewrite E0 in HA. destruct (rising_last _ _ _ _ _ HA) as (H1 & H2 & H3).
      destruct (Z.leb_spec a b) as [Hab|Hab].
      * destruct (Z.leb_spec n (hi - (b + m))).
        -- injection Hx as <-. exists ((A0 ++ [(b, m)]) ++ [(b + m, n)]), []. rewrite E0. split; [by rewrite app_nil_r|]. split; [|by left].
           apply rising_snoc; [done|done|lia].
        -- destruct (Z.leb_spec n (a - lo)); [|done]. injection Hx as <-. exists ((a, k) :: A'), [(lo, n)]. split; [done|].
           split; [by rewrite E0|]. right. exists a, k, A'. split; [done|]. cbn. lia.
      * exfalso. rewrite <- E0 in HA. destruct HA as (Q1 & Q2 & Q3). destruct A0 as [|y A0]; cbn in E0; [injection E0 as ? ? ?; lia|].
        injection E0 as <- E0. rewrite E0 in Q3. apply rising_last in Q3. lia.
    + rewrite app_assoc, last_snoc in Hx. cbn [app head] in Hx. destruct (rising_last _ _ _ _ _ HB) as (H1 & H2 & H3).
      rewrite (proj2 (Z.leb_gt a b)) in Hx by lia. destruct (Z.leb_spec n (a - (b + m))); [|done]. injection Hx as <-.
      exists ((a, k) :: A'), ((B ++ [(b, m)]) ++ [(b + m, n)]). split; [by rewrite <- !app_assoc|]. split; [done|]. right. exists a, k, A'.
      split; [done|]. apply rising_snoc; [done|done|lia].
Qed.

(** ** The state of a ring *)

(** the span of a block *)
Definition span (r : utils_rbb) (i : Z) : Z * Z :=
  match blks r !! Z.to_nat i with Some b => (buf b, size b) | None => (0, 0) end.
Definition status_of (r : utils_rbb) (i : Z) : Z :=
  match blks r !! Z.to_nat i with Some b => status b | None => RBB_BLK_UNUSED end.
Definition in_set (r : utils_rbb) (i : Z) : Prop := 0 <= i < blk_max_num r.

(** the list holds the blocks [bs] in this order; the other blocks are unused or were
    taken off by a queue, and the blocks of the list are arranged in the buffer *)
Record ring (r : utils_rbb) (bs : list Z) : Prop := {
  rg_size : Z.of_nat (length (blks r)) = blk_max_num r;
  rg_list : is_slist (links r) (blk_list r) (node_of r <$> bs);
  rg_nodes : forall i, in_set r i -> node_of r i <> NULL /\ node_of r i <> blk_list r /\ is_Some (links r !! node_of r i);
  rg_in : forall i, i ∈ bs -> in_set r i /\ status_of r i <> RBB_BLK_UNUSED;
  rg_out : forall i, in_set r i -> i ∉ bs -> status_of r i = RBB_BLK_UNUSED \/ status_of r i = RBB_BLK_GET;
  rg_space : 0 <= rbuf r /\ 0 <= buf_size r /\ rbuf r + buf_size r < 2 ^ 32;
  rg_spans : arranged (rbuf r) (span r <$> bs) (rbuf r + buf_size r) }.

Lemma node_inj r i j : node_of r i = node_of r j -> i = j.
Proof. unfold node_of, sizeof_blk. lia. Qed.
Lemma entry_node r i : entry_of r (node_of r i) = i.
Proof.
  unfold entry_of, node_of, sizeof_blk, offsetof_list. replace (blk_set r + 12 * i + 8 - 8 - blk_set r) with (i * 12) by lia.
  by apply Z.div_mul.
Qed.
Lemma ring_nodup r bs : ring r bs -> NoDup bs.
Proof. intros []. destruct rg_list0 as [_ H]. apply NoDup_cons in H as [_ H]. by apply NoDup_fmap_1 in H. Qed.
Lemma blk_at r bs i : ring r bs -> in_set r i -> exists b, blks r !! Z.to_nat i = Some b /\ get_blk r i = Done b
  /\ span r i = (buf b, size b) /\ status_of r i = status b.
Proof.
  intros [] Hi. unfold in_set in Hi. destruct (lookup_lt_is_Some_2 (blks r) (Z.to_nat i)) as [b Hb]; [lia|]. exists b. split; [done|].
  split; [unfold get_blk; apply aget_done; [lia|done]|]. unfold span, status_of. by rewrite Hb.
Qed.
Lemma put_blk_done r bs i b : ring r bs -> in_set r i -> put_blk i b r = Done (with_blks (<[Z.to_nat i := b]> (blks r)) r).
Proof. intros [] Hi. unfold in_set in Hi. unfold put_blk. by rewrite aset_done by lia. Qed.

Lemma blk_insert_lookup r i b m j : in_set r i -> in_set r j -> Z.of_nat (length (blks r)) = blk_max_num r ->
  blks (with_blks (<[Z.to_nat i := b]> (blks r)) m) !! Z.to_nat j = if decide (j = i) then Some b else blks r !! Z.to_nat j.
Proof.
  unfold in_set. intros Hi Hj Hl. cbn. case_decide as H; [subst j; apply list_lookup_insert_eq; lia|]. apply list_lookup_insert_ne. lia.
Qed.

(** the block's status changes, its place stays *)
Lemma ring_status r bs i b s : ring r bs -> in_set r i -> blks r !! Z.to_nat i = Some b ->
  (i ∈ bs -> s <> RBB_BLK_UNUSED) -> (i ∉ bs -> s = RBB_BLK_UNUSED \/ s = RBB_BLK_GET) ->
  ring (with_blks (<[Z.to_nat i := set_status s b]> (blks r)) r) bs.
Proof.
  intros Hr Hi Hb H1 H2. set (r' := with_blks _ _). pose proof (rg_size _ _ Hr) as Hl.
  assert (Hlk : forall j, in_set r j -> blks r' !! Z.to_nat j = if decide (j = i) then Some (set_status s b) else blks r !! Z.to_nat j)
    by (intros j Hj; by apply (blk_insert_lookup r i _ r j)).
  assert (Hsp : forall j, in_set r j -> span r' j = span r j).
  { intros j Hj. unfold span. rewrite Hlk by done. case_decide; [|done]. subst j. by rewrite Hb. }
  destruct Hr. split; try done.
  - cbn. by rewrite length_insert.
  - intros j Hj. destruct (rg_in0 j Hj) as [Hs Hu]. split; [done|]. unfold status_of. rewrite Hlk by done. case_decide as E; [subst j; cbn; auto|exact Hu].
  - intros j Hs Hj. specialize (rg_out0 j Hs Hj). unfold status_of. rewrite Hlk by done. case_decide as E; [subst j; cbn; auto|exact rg_out0].
  - replace (span r' <$> bs) with (span r <$> bs); [done|]. apply list_fmap_ext. intros k j Hj. symmetry. apply Hsp, rg_in0.
    by apply list_elem_of_lookup_2 in Hj.
Qed.

Lemma nodes_remove r i bs : remove_node (node_of r i) (node_of r <$> bs) = node_of r <$> remove_node i bs.
Proof.
  induction bs as [|j bs IH]; [done|]. unfold remove_node in *. rewrite fmap_cons, !filter_cons, IH.
  destruct (decide (j = i)) as [->|Hne].
  - rewrite !decide_False; [done|tauto|tauto].
  - rewrite !decide_True; [done|done|]. intros H. by apply node_inj in H.
Qed.

(** taking a block off the list *)
Lemma ring_remove r bs i b s : ring r bs -> in_set r i -> blks r !! Z.to_nat i = Some b -> s = RBB_BLK_UNUSED \/ s = RBB_BLK_GET ->
  exists m, utils_slist_del (node_of r i) (blk_list r) (links r) = Done m
    /\ ring (with_blks (<[Z.to_nat i := set_status s b]> (blks r)) (with_links m r)) (remove_node i bs)
    /\ only_changes (links r) m (blk_list r :: (node_of r <$> bs)).
Proof.
  intros Hr Hi Hb Hs. pose proof (ring_nodup _ _ Hr) as Hnd. destruct (rg_nodes _ _ Hr i Hi) as (Hn1 & Hn2 & _).
  destruct (slist_del_spec _ _ _ (node_of r i) (rg_list _ _ Hr) Hn1 Hn2) as (m & E & Hm & Hch). exists m. split; [done|]. split; [|done].
  rewrite nodes_remove in Hm. set (r1 := with_links m r).
  set (r' := with_blks _ _). pose proof (rg_size _ _ Hr) as Hl.
  assert (Hlk : forall j, in_set r j -> blks r' !! Z.to_nat j = if decide (j = i) then Some (set_status s b) else blks r !! Z.to_nat j)
    by (intros j Hj; by apply (blk_insert_lookup r i _ r1 j)).
  assert (Hsp : forall j, in_set r j -> span r' j = span r j).
  { intros j Hj. unfold span. rewrite Hlk by done. case_decide; [|done]. subst j. by rewrite Hb. }
  assert (Hmem : forall j, j ∈ remove_node i bs <-> j <> i /\ j ∈ bs) by (intros j; unfold remove_node; by rewrite list_elem_of_filter).
  destruct Hr. split; try done.
  - cbn. by rewrite length_insert.
  - intros j Hj. destruct (rg_nodes0 j Hj) as (? & ? & [x Hx]). split; [done|]. split; [done|]. apply elem_of_dom.
    destruct Hch as [Hd _]. cbn. rewrite Hd. by apply elem_of_dom.
  - intros j Hj. apply Hmem in Hj as [Hne Hj]. destruct (rg_in0 j Hj) as [Hjs Hu]. split; [done|]. unfold status_of. rewrite Hlk by done.
    by rewrite decide_False.
  - intros j Hjs Hj. unfold status_of. rewrite Hlk by done. case_decide as E2; [done|]. apply (rg_out0 j Hjs). intros Hin. apply Hj, Hmem. done.
  - replace (span r' <$> remove_node i bs) with (span r <$> remove_node i bs).
    + destruct (decide (i ∈ bs)) as [Hin|Hin]; [|by rewrite remove_node_notin].
      apply list_elem_of_split in Hin as (l1 & l2 & ->). apply NoDup_app in Hnd as (_ & Hd & Hnd). apply NoDup_cons in Hnd as [Hi2 _].
      rewrite remove_node_split; [|intros Hx; apply (Hd i Hx); left|done]. rewrite fmap_app in *. by apply (arranged_delete _ _ (span r i)).
    + apply list_fmap_ext. intros k j Hj. symmetry. apply Hsp. apply list_elem_of_lookup_2, Hmem in Hj as [_ Hj]. by apply rg_in0.
Qed.

(** ** Searching [blk_set] *)

Lemma find_blk_spec (f : utils_rbb_blk -> bool) r bs : ring r bs -> exists res, find_blk f (seqZ 0 (blk_max_num r)) r = Done res
  /\ match res with
     | Some i => in_set r i /\ exists b, blks r !! Z.to_nat i = Some b /\ f b = true
     | None => forall i b, in_set r i -> blks r !! Z.to_nat i = Some b -> f b = false
     end.
Proof.
  intros Hr. assert (Hall : forall i, in_set r i <-> i ∈ seqZ 0 (blk_max_num r)) by (intros i; unfold in_set; rewrite elem_of_seqZ; lia).
  assert (G : forall l, (forall i, i ∈ l -> in_set r i) -> exists res, find_blk f l r = Done res /\ match res with
     | Some i => in_set r i /\ exists b, blks r !! Z.to_nat i = Some b /\ f b = true
     | None => forall i b, i ∈ l -> blks r !! Z.to_nat i = Some b -> f b = false end).
  { induction l as [|i l IH]; intros Hl; [exists None; split; [done|]; by intros i b H%elem_of_nil|].
    destruct (blk_at r bs i Hr) as (b & Hb & Hg & _); [apply Hl; left|]. cbn [find_blk]. rewrite Hg. cbn [mbind outcome_bind].
    destruct (f b) eqn:Ef; [exists (Some i); split; [done|]; split; [apply Hl; left|eauto]|].
    destruct IH as (res & -> & H); [intros j Hj; apply Hl; by right|]. exists res. split; [done|]. destruct res; [done|].
    intros j c Hj Hc. apply elem_of_cons in Hj as [->|Hj]; [congruence|eauto]. }
  destruct (G (seqZ 0 (blk_max_num r))) as (res & E & H); [intros i; by rewrite Hall|]. exists res. split; [done|].
  destruct res; [done|]. intros i b Hi. apply H. by apply Hall.
Qed.

(** an unused block is not on the list, and there is room for it *)
Lemma unused_fresh r bs i : ring r bs -> in_set r i -> status_of r i = RBB_BLK_UNUSED ->
  i ∉ bs /\ fresh_node (links r) (blk_list r :: (node_of r <$> bs)) (node_of r i) /\ Z.of_nat (length bs) < blk_max_num r.
Proof.
  intros Hr Hi Hs. pose proof (ring_nodup _ _ Hr) as Hnd. assert (Hni : i ∉ bs) by (intros H; by apply (rg_in _ _ Hr) in H as [_ H]).
  destruct (rg_nodes _ _ Hr i Hi) as (H1 & H2 & H3). split; [done|]. split.
  - split; [done|]. split; [done|]. intros H. apply elem_of_cons in H as [?|H]; [done|]. apply list_elem_of_fmap in H as (j & E & Hj).
    apply node_inj in E as ->. done.
  - assert (Hsub : i :: bs ⊆ seqZ 0 (blk_max_num r)).
    { intros j Hj. rewrite elem_of_seqZ. assert (in_set r j); [|unfold in_set in *; lia].
      apply elem_of_cons in Hj as [->|Hj]; [done|]. by apply (rg_in _ _ Hr). }
    apply NoDup_submseteq, submseteq_length in Hsub; [|by apply NoDup_cons]. rewrite length_seqZ in Hsub. cbn in Hsub.
    unfold in_set in Hi. lia.
Qed.

(** the block [i] becomes the last one, at [addr] *)
Lemma place_spec r bs i addr n : ring r bs -> in_set r i -> status_of r i = RBB_BLK_UNUSED ->
  arranged (rbuf r) ((span r <$> bs) ++ [(addr, n)]) (rbuf r + buf_size r) ->
  exists m, let r' := with_blks (<[Z.to_nat i := {| status := RBB_BLK_INITED; size := n; buf := addr |}]> (blks r)) (with_links m r) in
    place i addr n r = Done (Some i, r') /\ ring r' (bs ++ [i]).
Proof.
  intros Hr Hi Hs Ha. destruct (unused_fresh _ _ _ Hr Hi Hs) as (Hni & Hf & _). pose proof (rg_size _ _ Hr) as Hl.
  destruct (slist_append_spec _ _ _ _ (rg_list _ _ Hr) Hf) as (m & E & Hm & Hch). exists m. intros r'. unfold place. rewrite E.
  cbn [mbind outcome_bind]. set (b := {| status := _ |}). unfold put_blk. rewrite aset_done by (unfold in_set in Hi; cbn; lia).
  split; [done|].
  assert (Hlk : forall j, in_set r j -> blks r' !! Z.to_nat j = if decide (j = i) then Some b else blks r !! Z.to_nat j)
    by (intros j Hj; by apply (blk_insert_lookup r i b (with_links m r) j)).
  assert (Hold : forall j, j ∈ bs -> span r' j = span r j /\ status_of r' j = status_of r j).
  { intros j Hj. assert (j <> i) by (by intros ->). unfold span, status_of. rewrite Hlk by (by apply (rg_in _ _ Hr)). by rewrite decide_False. }
  assert (Hnew : span r' i = (addr, n) /\ status_of r' i = RBB_BLK_INITED).
  { unfold span, status_of. rewrite Hlk by done. by rewrite decide_True. }
  destruct Hr. split; try done.
  - cbn. by rewrite length_insert.
  - rewrite fmap_app. exact Hm.
  - intros j Hj. destruct (rg_nodes0 j Hj) as (? & ? & [x Hx]). split; [done|]. split; [done|]. apply elem_of_dom.
    destruct Hch as [Hd _]. cbn. rewrite Hd. by apply elem_of_dom.
  - intros j Hj. apply elem_of_app in Hj as [Hj|Hj].
    + destruct (rg_in0 j Hj). split; [done|]. by rewrite (proj2 (Hold j Hj)).
    + apply list_elem_of_singleton in Hj as ->. split; [done|]. by rewrite (proj2 Hnew).
  - intros j Hjs Hj. unfold status_of. rewrite Hlk by done. rewrite decide_False by set_solver. apply rg_out0; [done|set_solver].
  - replace (span r' <$> bs ++ [i]) with ((span r <$> bs) ++ [(addr, n)]); [done|]. rewrite fmap_app. cbn. rewrite (proj1 Hnew). f_equal.
    apply list_fmap_ext. intros k j Hj. symmetry. apply Hold. by apply list_elem_of_lookup_2 in Hj.
Qed.

(** ** Allocating *)

Lemma u32_fits x : 0 <= x < 2 ^ 32 -> u32 x = x.
Proof. apply Z.mod_small. Qed.

(** what [utils_rbb_blk_alloc] answers: an unused block where there is room *)
Definition alloc_result (r : utils_rbb) (bs : list Z) (n : Z) (res : option Z) (r' : utils_rbb) : Prop :=
  match res with
  | Some i => in_set r i /\ status_of r i = RBB_BLK_UNUSED
    /\ (exists x m, where_to (rbuf r) (rbuf r + buf_size r) (span r <$> bs) n = Some x
         /\ r' = with_blks (<[Z.to_nat i := {| status := RBB_BLK_INITED; size := n; buf := x |}]> (blks r)) (with_links m r))
    /\ ring r' (bs ++ [i])
  | None => r' = r /\ ((forall i, in_set r i -> status_of r i <> RBB_BLK_UNUSED)
      \/ where_to (rbuf r) (rbuf r + buf_size r) (span r <$> bs) n = None)
  end.

Lemma place_result r bs i x n : ring r bs -> in_set r i -> status_of r i = RBB_BLK_UNUSED -> 0 < n -> (bs = [] -> n <= buf_size r) ->
  where_to (rbuf r) (rbuf r + buf_size r) (span r <$> bs) n = Some x ->
  exists r', place i x n r = Done (Some i, r') /\ alloc_result r bs n (Some i) r'.
Proof.
  intros Hr Hi Hs Hn He Hx. assert (Ha : arranged (rbuf r) ((span r <$> bs) ++ [(x, n)]) (rbuf r + buf_size r)).
  { apply where_to_arranged; [exact (rg_spans _ _ Hr)|done| |done]. intros E%fmap_nil_inv. specialize (He E). lia. }
  destruct (place_spec r bs i x n Hr Hi Hs Ha) as (m & E & Hr'). eexists. split; [exact E|]. split; [done|]. split; [done|].
  split; [|exact Hr']. by exists x, m.
Qed.

Lemma ends_spec r bs i j : ring r bs -> head bs = Some i -> last bs = Some j ->
  utils_slist_first (blk_list r) (links r) = Done (node_of r i) /\ utils_slist_tail (blk_list r) (links r) = Done (node_of r j).
Proof.
  intros Hr Hi Hj. split.
  - rewrite (slist_first_spec _ _ _ (rg_list _ _ Hr)). by destruct bs; cbn in *; simplify_eq.
  - destruct (slist_tail_spec _ _ _ (rg_list _ _ Hr)) as (l1 & t & E & ->). f_equal. apply (f_equal last) in E. rewrite last_snoc in E.
    apply last_Some in Hj as [l ->]. rewrite fmap_app, app_comm_cons in E. change (node_of r <$> [j]) with [node_of r j] in E.
    rewrite last_snoc in E. by injection E.
Qed.

Lemma span_bounds r bs i b : ring r bs -> i ∈ bs -> blks r !! Z.to_nat i = Some b ->
  rbuf r <= buf b /\ 0 < size b /\ buf b + size b <= rbuf r + buf_size r.
Proof.
  intros Hr Hi Hb. apply (arranged_inside _ _ _ _ _ (rg_spans _ _ Hr)). apply list_elem_of_fmap. exists i. split; [|done].
  unfold span. by rewrite Hb.
Qed.

(** a last block below the first one ends before it *)
Lemma ends_apart r bs h t hd tl : ring r bs -> head bs = Some h -> last bs = Some t -> blks r !! Z.to_nat h = Some hd ->
  blks r !! Z.to_nat t = Some tl -> buf tl < buf hd -> buf tl + size tl <= buf hd.
Proof.
  intros Hr Hh Ht Hhd Htl Hlt. destruct bs as [|h' bs]; [done|]. injection Hh as ->.
  destruct (span_bounds r (h :: bs) h hd Hr) as (_ & Hpos & _); [left|done|].
  destruct (snoc_cases bs) as [->|(l & t' & ->)]; [cbn in Ht; injection Ht as ->; rewrite Hhd in Htl; injection Htl as ->; lia|]. rewrite app_comm_cons, last_snoc in Ht. injection Ht as ->.
  pose proof (rg_spans _ _ Hr) as Ha. rewrite fmap_cons, fmap_app in Ha.
  destruct (arranged_apart _ _ _ 0 (S (length l)) (buf hd) (size hd) (buf tl) (size tl) Ha); [lia| | |lia|done].
  - cbn. unfold span. by rewrite Hhd.
  - rewrite <- fmap_app. cbn [fmap list_fmap app]. change ((span r <$> (l ++ [t])) !! length l = Some (buf tl, size tl)).
    rewrite list_lookup_fmap, list_lookup_middle by done. cbn. unfold span. by rewrite Htl.
Qed.

Lemma alloc_spec r bs n : ring r bs -> 0 < n < 2 ^ 24 -> (bs = [] -> n <= buf_size r) ->
  exists res r', utils_rbb_blk_alloc n r = Done (res, r') /\ alloc_result r bs n res r'.
Proof.
  intros Hr Hn He. unfold utils_rbb_blk_alloc. rewrite (proj2 (Z.ltb_lt n (Z.shiftl 1 24))) by (change (Z.shiftl 1 24) with (2 ^ 24); lia).
  cbn [negb]. unfold utils_rbb_find_empty_blk. destruct (find_blk_spec (fun b => status b =? RBB_BLK_UNUSED) r bs Hr) as (new & -> & Hnew).
  cbn [mbind outcome_bind]. rewrite (entry_number_spec _ _ _ (rg_list _ _ Hr)), length_fmap. cbn [mbind outcome_bind].
  destruct new as [i|].
  2: { exists None, r. split; [done|]. split; [done|]. left. intros i Hi. destruct (blk_at r bs i Hr Hi) as (b & Hb & _ & _ & ->).
    specialize (Hnew i b Hi Hb). by apply Z.eqb_neq in Hnew. }
  destruct Hnew as (Hi & b & Hb & Hu). apply Z.eqb_eq in Hu. assert (Hs : status_of r i = RBB_BLK_UNUSED) by (unfold status_of; by rewrite Hb).
  destruct (unused_fresh _ _ _ Hr Hi Hs) as (_ & _ & Hlen). rewrite (proj2 (Z.ltb_lt _ _) Hlen).
  pose proof (fun x => place_result r bs i x n Hr Hi Hs (proj1 Hn) He) as Hp.
  assert (Hnone : where_to (rbuf r) (rbuf r + buf_size r) (span r <$> bs) n = None -> alloc_result r bs n None r) by (intros H; split; [done|by right]).
  destruct (Z.ltb_spec 0 (Z.of_nat (length bs))) as [Hpos|Hz].
  2: { destruct bs; [|cbn in Hz; lia]. destruct (Hp (rbuf r) eq_refl) as (r' & -> & H). by exists (Some i), r'. }
  destruct (head bs) as [h|] eqn:Eh; [|by destruct bs]. destruct (last bs) as [t|] eqn:Et; [|by destruct bs; [|apply last_None in Et]].
  destruct (ends_spec r bs h t Hr Eh Et) as [-> ->]. cbn [mbind outcome_bind]. rewrite !entry_node.
  assert (Hh : h ∈ bs) by (destruct bs; cbn in Eh; simplify_eq; left).
  assert (Ht : t ∈ bs) by (apply last_Some in Et as [l ->]; rewrite elem_of_app; right; left).
  destruct (blk_at r bs h Hr) as (hd & Hhd & -> & Hsh & _); [by apply (rg_in _ _ Hr)|].
  destruct (blk_at r bs t Hr) as (tl & Htl & -> & Hst & _); [by apply (rg_in _ _ Hr)|]. cbn [mbind outcome_bind].
  destruct (span_bounds r bs h hd Hr Hh Hhd) as (? & ? & ?). destruct (span_bounds r bs t tl Hr Ht Htl) as (? & ? & ?).
  pose proof (rg_space _ _ Hr) as (? & ? & ?).
  assert (Hw : where_to (rbuf r) (rbuf r + buf_size r) (span r <$> bs) n =
    if buf hd <=? buf tl then if n <=? rbuf r + buf_size r - (buf tl + size tl) then Some (buf tl + size tl)
      else if n <=? buf hd - rbuf r then Some (rbuf r) else None
    else if n <=? buf hd - (buf tl + size tl) then Some (buf tl + size tl) else None).
  { unfold where_to. rewrite fmap_last, Et. destruct bs as [|h' bs]; [done|]. injection Eh as ->. cbn. by rewrite Hsh, Hst. }
  rewrite Hw in Hp, Hnone. clear Hw.
  assert (Hput : forall x, (if buf hd <=? buf tl then if n <=? rbuf r + buf_size r - (buf tl + size tl) then Some (buf tl + size tl)
      else if n <=? buf hd - rbuf r then Some (rbuf r) else None
    else if n <=? buf hd - (buf tl + size tl) then Some (buf tl + size tl) else None) = Some x ->
    exists res r', place i x n r = Done (res, r') /\ alloc_result r bs n res r').
  { intros x Hx. destruct (Hp x Hx) as (r' & ? & ?). by exists (Some i), r'. }
  destruct (Z.leb_spec (buf hd) (buf tl)).
  - rewrite !u32_fits by lia. destruct (Z.leb_spec n (rbuf r + buf_size r - (buf tl + size tl))); [by apply Hput|].
    destruct (Z.leb_spec n (buf hd - rbuf r)); [by apply Hput|]. exists None, r. auto.
  - assert (buf tl + size tl <= buf hd) by (by apply (ends_apart r bs h t hd tl)).
    rewrite u32_fits by lia. destruct (Z.leb_spec n (buf hd - (buf tl + size tl))); [by apply Hput|]. exists None, r. auto.
Qed.
