(* ===== verification/RingblkQueue.v ===== *)
(** * Using the blocks of a ring, and queues of blocks (Ringblk.v)

    What put, get, free and the queue operations do to the sequence of the blocks, and
    the states a ring can reach. *)
From S2P Require Import Prelude UtilsList Slist Ringblk RingblkProofs.

(** ** Definitions *)

Definition blk_of (r : utils_rbb) (i : Z) : utils_rbb_blk :=
  default {| status := RBB_BLK_UNUSED; size := 0; buf := 0 |} (blks r !! Z.to_nat i).
(** the first block that waits for the reader *)
Fixpoint first_put (r : utils_rbb) (bs : list Z) : option Z :=
  match bs with [] => None | i :: bs => if status (blk_of r i) =? RBB_BLK_PUT then Some i else first_put r bs end.
Fixpoint from_put (r : utils_rbb) (bs : list Z) : list Z :=
  match bs with [] => [] | i :: bs' => if status (blk_of r i) =? RBB_BLK_PUT then bs else from_put r bs' end.
Definition fits (limit : option Z) (n : Z) : bool := match limit with Some l => n <=? l | None => true end.
(** the blocks that follow a block at [lo] in the buffer and wait, up to the limit *)
Fixpoint run_of (r : utils_rbb) (limit : option Z) (lo total : Z) (bs : list Z) : list Z :=
  match bs with
  | [] => []
  | i :: bs =>
    let b := blk_of r i in
    if (status b =? RBB_BLK_PUT) && (lo <=? buf b) && fits limit (total + size b) then i :: run_of r limit (buf b) (total + size b) bs else []
  end.
(** the queue a ring offers *)
Definition queue_of (r : utils_rbb) (limit : option Z) (bs : list Z) : list Z :=
  match from_put r bs with [] => [] | i :: rest => i :: run_of r limit (buf (blk_of r i)) (size (blk_of r i)) rest end.
Definition total_size (r : utils_rbb) (bs : list Z) : Z := foldr (fun i a => size (blk_of r i) + a) 0 bs.

(** ** The blocks and their order *)

Lemma blk_of_at r bs i : ring r bs -> in_set r i -> blks r !! Z.to_nat i = Some (blk_of r i) /\ get_blk r i = Done (blk_of r i)
  /\ span r i = (buf (blk_of r i), size (blk_of r i)) /\ status_of r i = status (blk_of r i).
Proof. intros Hr Hi. destruct (blk_at r bs i Hr Hi) as (b & Hb & ?). unfold blk_of. by rewrite Hb. Qed.
Lemma blk_of_member r bs i : ring r bs -> i ∈ bs -> in_set r i /\ 0 < size (blk_of r i).
Proof.
  intros Hr Hi. destruct (rg_in _ _ Hr i Hi) as [Hs _]. split; [done|]. destruct (blk_of_at r bs i Hr Hs) as (Hb & _).
  by destruct (span_bounds r bs i _ Hr Hi Hb) as (_ & ? & _).
Qed.

(** the state after the statuses of some blocks were set *)
Definition changed (s : Z) (taken : list Z) (r r' : utils_rbb) : Prop :=
  rbuf r' = rbuf r /\ buf_size r' = buf_size r /\ blk_set r' = blk_set r /\ blk_max_num r' = blk_max_num r /\ blk_list r' = blk_list r
  /\ forall j, in_set r j -> blk_of r' j = if decide (j ∈ taken) then set_status s (blk_of r j) else blk_of r j.
Lemma changed_none s r : changed s [] r r.
Proof. repeat split. Qed.
Lemma changed_trans s t1 t2 r1 r2 r3 : changed s t1 r1 r2 -> changed s t2 r2 r3 -> changed s (t1 ++ t2) r1 r3.
Proof.
  intros (E1 & E2 & E3 & E4 & E5 & H1) (F1 & F2 & F3 & F4 & F5 & H2). repeat split; try congruence. intros j Hj.
  rewrite H2 by (unfold in_set in *; by rewrite E4). rewrite H1 by done.
  destruct (decide (j ∈ t1)), (decide (j ∈ t2)); rewrite ?decide_True by set_solver; rewrite ?decide_False by set_solver; done.
Qed.
Lemma changed_one s i b r r1 : in_set r i -> Z.of_nat (length (blks r)) = blk_max_num r -> blks r !! Z.to_nat i = Some b ->
  (rbuf r1, buf_size r1, blk_set r1, blk_max_num r1, blk_list r1) = (rbuf r, buf_size r, blk_set r, blk_max_num r, blk_list r) ->
  changed s [i] r (with_blks (<[Z.to_nat i := set_status s b]> (blks r)) r1).
Proof.
  intros Hi Hl Hb [= E1 E2 E3 E4 E5]. repeat split; try done. intros j Hj. unfold blk_of.
  rewrite (blk_insert_lookup r i _ r1 j Hi Hj Hl). destruct (decide (j = i)) as [->|Hne].
  - rewrite decide_True by (apply list_elem_of_singleton; done). by rewrite Hb.
  - rewrite decide_False by (by rewrite list_elem_of_singleton). done.
Qed.
Lemma changed_other s i r r' j : changed s [i] r r' -> in_set r j -> j <> i -> blk_of r' j = blk_of r j.
Proof. intros (_ & _ & _ & _ & _ & H) Hj Hne. rewrite H by done. by rewrite decide_False by (by rewrite list_elem_of_singleton). Qed.

(** put, and the status of a block on the list *)
Lemma put_spec r bs i : ring r bs -> in_set r i -> status (blk_of r i) = RBB_BLK_INITED ->
  exists r', utils_rbb_blk_put i r = Done r' /\ ring r' bs /\ changed RBB_BLK_PUT [i] r r'.
Proof.
  intros Hr Hi Hs. destruct (blk_of_at r bs i Hr Hi) as (Hb & Hg & _ & Hst). unfold utils_rbb_blk_put. rewrite Hg. cbn [mbind outcome_bind].
  rewrite Hs, Z.eqb_refl, (put_blk_done _ _ _ _ Hr Hi). eexists. split; [done|]. split.
  - apply ring_status; try done. intros Hni. destruct (rg_out _ _ Hr i Hi Hni) as [E|E]; rewrite Hst, Hs in E; done.
  - apply changed_one; [done|exact (rg_size _ _ Hr)|done|done].
Qed.

Lemma free_spec r bs i : ring r bs -> in_set r i -> status (blk_of r i) <> RBB_BLK_UNUSED ->
  exists r', utils_rbb_blk_free i r = Done r' /\ ring r' (remove_node i bs) /\ changed RBB_BLK_UNUSED [i] r r'.
Proof.
  intros Hr Hi Hs. destruct (blk_of_at r bs i Hr Hi) as (Hb & Hg & _). unfold utils_rbb_blk_free. rewrite Hg. cbn [mbind outcome_bind].
  rewrite (proj2 (Z.eqb_neq _ _)) by done. destruct (ring_remove r bs i _ RBB_BLK_UNUSED Hr Hi Hb) as (m & E & Hr' & _); [by left|].
  rewrite E. cbn [mbind outcome_bind]. unfold upd_status. change (get_blk (with_links m r) i) with (get_blk r i). rewrite Hg.
  cbn [mbind outcome_bind]. unfold put_blk. rewrite aset_done by (pose proof (rg_size _ _ Hr); unfold in_set in Hi; cbn; lia).
  eexists. split; [done|]. split; [exact Hr'|]. apply (changed_one _ _ (blk_of r i) r (with_links m r)); [done|exact (rg_size _ _ Hr)|done|done].
Qed.

(** ** Walking the list *)

Definition nodes_head (r : utils_rbb) (bs : list Z) : Z := default NULL (head (node_of r <$> bs)).
Lemma nodes_next r pre i rest : ring r (pre ++ i :: rest) -> links r !! node_of r i = Some (nodes_head r rest).
Proof.
  intros Hr. destruct (rg_list _ _ Hr) as [Hs _]. rewrite fmap_app, app_comm_cons in Hs. apply lseg_split_at in Hs as (n & _ & Hn & _ & Hs).
  rewrite Hn. f_equal. destruct rest as [|j rest]; [exact Hs|]. by destruct Hs as (-> & _).
Qed.
Lemma nodes_first r bs : ring r bs -> utils_slist_first (blk_list r) (links r) = Done (nodes_head r bs).
Proof. intros Hr. apply slist_first_spec, (rg_list _ _ Hr). Qed.
Lemma nodes_head_cons r bs i rest : ring r bs -> i ∈ bs -> (nodes_head r (i :: rest) =? NULL) = false.
Proof. intros Hr Hi. apply Z.eqb_neq. by apply (rg_nodes _ _ Hr i), (rg_in _ _ Hr). Qed.
Lemma ring_fuel r bs : ring r bs -> (length bs < loop_fuel (links r))%nat.
Proof.
  intros Hr. pose proof (is_slist_fuel _ _ _ (rg_list _ _ Hr)) as H. rewrite length_fmap in H. unfold loop_fuel. lia.
Qed.
Lemma ring_empty r bs : ring r bs -> utils_slist_empty (blk_list r) (links r) = Done (bool_decide (bs = [])).
Proof.
  intros Hr. rewrite (slist_empty_spec _ _ _ (rg_list _ _ Hr)). f_equal. apply bool_decide_ext. split; [apply fmap_nil_inv|by intros ->].
Qed.

Lemma get_loop_spec r pre rest fuel : ring r (pre ++ rest) -> (length rest < fuel)%nat ->
  blk_get_loop fuel (nodes_head r rest) r =
    match first_put r rest with
    | Some i => r' ← put_blk i (set_status RBB_BLK_GET (blk_of r i)) r; Done (Some i, r')
    | None => Done (None, r)
    end.
Proof.
  revert pre fuel. induction rest as [|i rest IH]; intros pre [|fuel] Hr Hf; cbn in Hf; try lia; [done|].
  assert (Hi : i ∈ pre ++ i :: rest) by (rewrite elem_of_app; right; left). cbn [blk_get_loop].
  rewrite (nodes_head_cons _ _ _ _ Hr Hi). change (nodes_head r (i :: rest)) with (node_of r i). rewrite entry_node.
  destruct (blk_of_at r _ i Hr (proj1 (rg_in _ _ Hr i Hi))) as (Hb & -> & _). cbn [mbind outcome_bind first_put].
  destruct (_ =? _); [done|]. unfold utils_slist_next. rewrite (load_done _ _ _ (nodes_next _ _ _ _ Hr)). cbn [mbind outcome_bind].
  apply (IH (pre ++ [i])); [by rewrite <- app_assoc|lia].
Qed.

Lemma first_put_in r bs i : first_put r bs = Some i -> i ∈ bs /\ status (blk_of r i) = RBB_BLK_PUT.
Proof.
  induction bs as [|j bs IH]; [done|]. cbn. destruct (Z.eqb_spec (status (blk_of r j)) RBB_BLK_PUT) as [E|E].
  - intros [= ->]. split; [left|done].
  - intros H. destruct (IH H). split; [by right|done].
Qed.

Lemma get_spec r bs : ring r bs -> exists r', utils_rbb_blk_get r = Done (first_put r bs, r') /\ ring r' bs
  /\ changed RBB_BLK_GET (match first_put r bs with Some i => [i] | None => [] end) r r'.
Proof.
  intros Hr. unfold utils_rbb_blk_get. rewrite (ring_empty _ _ Hr). cbn [mbind outcome_bind].
  destruct (bool_decide (bs = [])) eqn:E.
  { apply bool_decide_eq_true in E as ->. exists r. split; [done|]. split; [done|apply changed_none]. }
  rewrite (nodes_first _ _ Hr). cbn [mbind outcome_bind]. rewrite (get_loop_spec r [] bs); [|done|by apply ring_fuel].
  destruct (first_put r bs) as [i|] eqn:Ef; [|exists r; split; [done|]; split; [done|apply changed_none]].
  destruct (first_put_in _ _ _ Ef) as [Hin Hp]. destruct (blk_of_member r bs i Hr Hin) as [Hi _].
  destruct (blk_of_at r bs i Hr Hi) as (Hb & _). rewrite (put_blk_done _ _ _ _ Hr Hi). cbn [mbind outcome_bind]. eexists. split; [done|].
  split; [by apply ring_status; auto|]. apply changed_one; [done|exact (rg_size _ _ Hr)|done|done].
Qed.

(** ** Queues *)

(** taking a node off leaves its own link *)
Lemma del_loop_keeps fuel x h m m' : h <> x -> utils_slist_del_loop fuel x h m = Done m' -> m' !! x = m !! x.
Proof.
  revert h. induction fuel as [|fuel IH]; intros h Hne; [done|]. cbn [utils_slist_del_loop]. intros (n & _ & H)%bind_done.
  destruct (n =? NULL); cbn [negb] in H; [by injection H as <-|]. destruct (Z.eqb_spec n x) as [_|Hnx]; [|by apply (IH n)].
  apply bind_done in H as (k & _ & H). unfold store in H. destruct (m !! h); [|done]. injection H as <-. by apply lookup_insert_ne.
Qed.

(** what the loop does with the node it takes *)
Lemma take_spec r pre i rest : ring r (pre ++ i :: rest) -> exists m r',
  utils_slist_del (node_of r i) (blk_list r) (links r) = Done m /\ upd_status i RBB_BLK_GET (with_links m r) = Done r'
  /\ utils_slist_next (node_of r i) (links r') = Done (nodes_head r' rest)
  /\ ring r' (pre ++ rest) /\ changed RBB_BLK_GET [i] r r'.
Proof.
  intros Hr. pose proof (ring_nodup _ _ Hr) as Hnd. assert (Hin : i ∈ pre ++ i :: rest) by (rewrite elem_of_app; right; left).
  destruct (blk_of_member _ _ _ Hr Hin) as [Hi _]. destruct (blk_of_at r _ i Hr Hi) as (Hb & Hg & _).
  destruct (ring_remove r _ i _ RBB_BLK_GET Hr Hi Hb) as (m & E & Hr' & _); [by right|]. exists m.
  apply NoDup_app in Hnd as (_ & Hd & Hnd). apply NoDup_cons in Hnd as [Hi2 _].
  rewrite remove_node_split in Hr'; [|intros Hx; apply (Hd i Hx); left|done]. eexists. split; [done|]. split.
  - unfold upd_status. change (get_blk (with_links m r) i) with (get_blk r i). rewrite Hg. cbn [mbind outcome_bind]. unfold put_blk.
    rewrite aset_done by (pose proof (rg_size _ _ Hr); unfold in_set in Hi; cbn; lia). reflexivity.
  - split; [|split; [exact Hr'|apply (changed_one _ _ (blk_of r i) r (with_links m r)); [done|exact (rg_size _ _ Hr)|done|done]]].
    unfold utils_slist_next. apply load_done. cbn [links with_blks with_links]. rewrite (del_loop_keeps _ _ _ _ _ (not_eq_sym (proj1 (proj2 (rg_nodes _ _ Hr i Hi)))) E).
    exact (nodes_next _ _ _ _ Hr).
Qed.

Lemma run_of_ext r r' limit lo total bs : (forall j, j ∈ bs -> blk_of r' j = blk_of r j) -> run_of r' limit lo total bs = run_of r limit lo total bs.
Proof.
  revert lo total. induction bs as [|i bs IH]; intros lo total H; [done|]. cbn. rewrite (H i) by left. rewrite IH; [done|].
  intros j Hj. apply H. by right.
Qed.
Lemma total_size_ext r r' bs : (forall j, j ∈ bs -> size (blk_of r' j) = size (blk_of r j)) -> total_size r' bs = total_size r bs.
Proof. induction bs as [|i bs IH]; intros H; [done|]. cbn. rewrite (H i) by left. f_equal. apply IH. intros j Hj. apply H. by right. Qed.
Lemma run_prefix r limit lo total bs : exists rest, bs = run_of r limit lo total bs ++ rest.
Proof.
  revert lo total. induction bs as [|i bs IH]; intros lo total; [by exists []|]. cbn. destruct (_ && _); [|by eexists].
  destruct (IH (buf (blk_of r i)) (total + size (blk_of r i))) as [rest H]. exists rest. cbn. by f_equal.
Qed.

(** the sum of the sizes is at most the size of the buffer *)
Definition spans_size (l : list (Z * Z)) : Z := foldr (fun p a => p.2 + a) 0 l.
Lemma spans_size_app l1 l2 : spans_size (l1 ++ l2) = spans_size l1 + spans_size l2.
Proof. induction l1 as [|p l1 IH]; [done|]. change (p.2 + spans_size (l1 ++ l2) = p.2 + spans_size l1 + spans_size l2). lia. Qed.
Lemma rising_size lo l hi : rising lo l hi -> spans_size l <= hi - lo.
Proof. revert lo. induction l as [|[a n] l IH]; intros lo; cbn; [lia|]. intros (H1 & H2 & H3%IH). unfold spans_size in H3. lia. Qed.
Lemma arranged_size lo l hi : arranged lo l hi -> spans_size l <= hi - lo.
Proof.
  intros (A & B & -> & HA & HB). rewrite spans_size_app. destruct HB as [->|(a & n & A' & -> & HB)]; [apply rising_size in HA; cbn; lia|].
  apply rising_size in HB. destruct HA as (H1 & H2 & H3). assert (H : rising a ((a, n) :: A') hi) by (split; [lia|done]).
  apply rising_size in H. lia.
Qed.
Lemma ring_total r bs : ring r bs -> total_size r bs <= buf_size r.
Proof.
  intros Hr. pose proof (arranged_size _ _ _ (rg_spans _ _ Hr)) as H. replace (total_size r bs) with (spans_size (span r <$> bs)); [lia|].
  clear H. assert (G : forall j, j ∈ bs -> span r j = (buf (blk_of r j), size (blk_of r j))) by (intros j Hj; by apply (blk_of_at r bs), (rg_in _ _ Hr)).
  clear Hr. induction bs as [|i bs IH]; [done|]. rewrite fmap_cons. cbn. rewrite (G i) by left. cbn. f_equal. apply IH.
  intros j Hj. apply G. by right.
Qed.
Lemma total_size_app r l1 l2 : total_size r (l1 ++ l2) = total_size r l1 + total_size r l2.
Proof.
  induction l1 as [|i l1 IH]; [done|].
  change (size (blk_of r i) + total_size r (l1 ++ l2) = size (blk_of r i) + total_size r l1 + total_size r l2). lia.
Qed.
(** the sums the queues compute do not overflow *)
Lemma sizes_nonneg r bs l : ring r bs -> (forall i, i ∈ l -> i ∈ bs) -> Z.of_nat (length l) <= total_size r l.
Proof.
  intros Hr. induction l as [|i l IH]; intros H; [done|]. destruct (blk_of_member r bs i Hr) as [_ Hi]; [apply H; left|].
  specialize (IH (fun j Hj => H j (list_elem_of_further _ _ _ Hj))). cbn [total_size foldr length]. unfold total_size in IH. lia.
Qed.
Lemma part_total r l1 l2 l3 : ring r (l1 ++ l2 ++ l3) -> 0 <= total_size r l2 < 2 ^ 32.
Proof.
  intros Hr. pose proof (ring_total _ _ Hr) as H. rewrite !total_size_app in H. pose proof (rg_space _ _ Hr).
  pose proof (fun l => sizes_nonneg r _ l Hr) as G.
  pose proof (G l1 ltac:(set_solver)). pose proof (G l2 ltac:(set_solver)). pose proof (G l3 ltac:(set_solver)). lia.
Qed.
Lemma rest_total r pre rest : ring r (pre ++ rest) -> 0 <= Z.of_nat (length rest) <= total_size r rest /\ total_size r rest < 2 ^ 32.
Proof.
  intros Hr. pose proof (sizes_nonneg r _ rest Hr ltac:(set_solver)). rewrite <- (app_nil_r rest) in Hr. pose proof (part_total _ _ _ _ Hr). lia.
Qed.

(** the rest of a ring in the state after a block before it was taken *)
Lemma rest_keeps r r' pre i rest s : ring r (pre ++ i :: rest) -> changed s [i] r r' -> forall j, j ∈ rest -> blk_of r' j = blk_of r j.
Proof.
  intros Hr Hch j Hj. pose proof (ring_nodup _ _ Hr) as Hnd. apply NoDup_app in Hnd as (_ & _ & Hnd). apply NoDup_cons in Hnd as [Hi2 _].
  apply (changed_other s i r r' j Hch); [|by intros ->]. apply (rg_in _ _ Hr). rewrite elem_of_app. right. by right.
Qed.

Lemma run_stops p lo b limit t : negb p || (b <? lo) || (limit <? t) = negb (p && (lo <=? b) && (t <=? limit)).
Proof. rewrite !negb_andb, !Z.leb_antisym, !negb_involutive. done. Qed.

Lemma run_spec limit q0 rest : forall fuel r pre l total n,
  ring r (pre ++ rest) -> (length rest < fuel)%nat -> 0 <= n <= total -> total + total_size r rest < 2 ^ 32 ->
  let run := run_of r (Some limit) (buf l) total rest in
  exists r', queue_get_loop fuel (nodes_head r rest) (Some l) limit total {| blocks := q0; blk_num := n |} r
      = Done (total + total_size r run, {| blocks := q0; blk_num := n + Z.of_nat (length run) |}, r')
    /\ ring r' (pre ++ drop (length run) rest) /\ changed RBB_BLK_GET run r r'.
Proof.
  induction rest as [|i rest IH]; intros [|fuel] r pre l total n Hr Hf Hn Ht run; cbn in Hf; try lia.
  { exists r. cbn. rewrite !Z.add_0_r. split; [done|]. split; [done|apply changed_none]. }
  assert (Hi : i ∈ pre ++ i :: rest) by (rewrite elem_of_app; right; left). destruct (blk_of_member _ _ _ Hr Hi) as [His Hsz].
  destruct (blk_of_at r _ i Hr His) as (_ & Hg & _). cbn [queue_get_loop]. rewrite (nodes_head_cons _ _ _ _ Hr Hi).
  change (nodes_head r (i :: rest)) with (node_of r i). rewrite entry_node, Hg. cbn [mbind outcome_bind].
  assert (Hr' : ring r ((pre ++ [i]) ++ rest)) by by rewrite <- app_assoc. destruct (rest_total _ _ _ Hr') as [Hpos _].
  cbn [total_size foldr] in Ht. fold (total_size r rest) in Ht. rewrite (u32_fits (total + _)) by lia.
  subst run. cbn [run_of fits]. rewrite run_stops. destruct (_ && _ && _); cbn [negb].
  2: { exists r. cbn. rewrite !Z.add_0_r. split; [done|]. split; [done|apply changed_none]. }
  destruct (take_spec r pre i rest Hr) as (m & r1 & -> & E1 & E2 & Hr1 & Hch). cbn [mbind outcome_bind]. rewrite E1. cbn [mbind outcome_bind].
  rewrite E2. cbn [mbind outcome_bind blocks blk_num]. rewrite u32_fits by lia.
  pose proof (rest_keeps _ _ _ _ _ _ Hr Hch) as Hk.
  destruct (IH fuel r1 pre (blk_of r i) (total + size (blk_of r i)) (n + 1) Hr1) as (r2 & E3 & Hr2 & Hch2); [lia|lia| |].
  { rewrite (total_size_ext r r1) by (intros j Hj; by rewrite Hk). lia. }
  rewrite (run_of_ext r r1) in * by done. exists r2. rewrite E3. cbn [length drop total_size foldr].
  destruct (run_prefix r (Some limit) (buf (blk_of r i)) (total + size (blk_of r i)) rest) as [k Hk2].
  split; [|split; [exact Hr2|by apply (changed_trans _ [i] _ r r1)]]. do 3 f_equal.
  - rewrite (total_size_ext r r1); [unfold total_size; lia|]. intros j Hj. rewrite Hk; [done|]. rewrite Hk2, elem_of_app. by left.
  - f_equal. lia.
Qed.

(** what [utils_rbb_blk_queue_get] leaves: the queue is off the list *)
Definition queue_result (r : utils_rbb) (limit : option Z) (q : utils_rbb_blk_queue) (pre rest : list Z)
    (res : outcome (Z * utils_rbb_blk_queue * utils_rbb)) : Prop :=
  let run := queue_of r limit rest in
  exists r' skip tail, rest = skip ++ run ++ tail /\ (forall j, j ∈ skip -> status (blk_of r j) <> RBB_BLK_PUT)
    /\ res = Done (total_size r run, match run with [] => q | i :: _ => {| blocks := i; blk_num := Z.of_nat (length run) |} end, r')
    /\ ring r' (pre ++ skip ++ tail) /\ changed RBB_BLK_GET run r r'.

Lemma queue_loop_spec limit q rest : forall fuel r pre, ring r (pre ++ rest) -> (length rest < fuel)%nat ->
  queue_result r (Some limit) q pre rest (queue_get_loop fuel (nodes_head r rest) None limit 0 q r).
Proof.
  induction rest as [|i rest IH]; intros [|fuel] r pre Hr Hf; cbn in Hf; try lia.
  { exists r, [], []. split; [done|]. split; [by intros j H%elem_of_nil|]. split; [done|]. split; [done|apply changed_none]. }
  assert (Hi : i ∈ pre ++ i :: rest) by (rewrite elem_of_app; right; left). destruct (blk_of_member _ _ _ Hr Hi) as [His Hsz].
  destruct (blk_of_at r _ i Hr His) as (_ & Hg & _). cbn [queue_get_loop]. rewrite (nodes_head_cons _ _ _ _ Hr Hi).
  change (nodes_head r (i :: rest)) with (node_of r i). rewrite entry_node, Hg. cbn [mbind outcome_bind].
  unfold queue_result, queue_of. cbn [from_put]. destruct (Z.eqb_spec (status (blk_of r i)) RBB_BLK_PUT) as [Hp|Hp].
  - destruct (take_spec r pre i rest Hr) as (m & r1 & -> & E1 & E2 & Hr1 & Hch). cbn [mbind outcome_bind]. rewrite E1.
    cbn [mbind outcome_bind]. rewrite E2. cbn [mbind outcome_bind blocks blk_num]. pose proof (rest_keeps _ _ _ _ _ _ Hr Hch) as Hk.
    destruct (rest_total _ _ _ Hr) as [_ Ht]. destruct (rest_total _ _ _ Hr1) as [Ht1 _].
    assert (Hsum : total_size r1 rest = total_size r rest) by (apply total_size_ext; intros j Hj; by rewrite Hk).
    cbn [total_size foldr] in Ht. fold (total_size r rest) in Ht. rewrite !u32_fits by lia.
    destruct (run_spec limit i rest fuel r1 pre (blk_of r i) (0 + size (blk_of r i)) (0 + 1) Hr1) as (r2 & -> & Hr2 & Hch2); [lia|lia|lia|].
    rewrite (run_of_ext r r1), Z.add_0_l in * by done. destruct (run_prefix r (Some limit) (buf (blk_of r i)) (size (blk_of r i)) rest) as [k Hk2].
    set (run := run_of _ _ _ _ _) in *. clearbody run. subst rest. rewrite drop_app_length in Hr2. exists r2, [], k. split; [done|].
    split; [by intros j H%elem_of_nil|]. split; [|split; [exact Hr2|by apply (changed_trans _ [i] _ r r1)]]. do 3 f_equal.
    + cbn [total_size foldr]. fold (total_size r run). f_equal. apply total_size_ext. intros j Hj. rewrite Hk; [done|]. rewrite elem_of_app. by left.
    + f_equal. cbn [length]. lia.
  - unfold utils_slist_next. rewrite (load_done _ _ _ (nodes_next _ _ _ _ Hr)). cbn [mbind outcome_bind].
    destruct (IH fuel r (pre ++ [i])) as (r' & skip & tail & E & Hsk & H1 & H2 & H3); [by rewrite <- app_assoc|lia|].
    exists r', (i :: skip), tail. split; [cbn; by f_equal|]. split; [intros j Hj; apply elem_of_cons in Hj as [->|Hj]; auto|].
    split; [exact H1|]. split; [by rewrite <- app_assoc in H2|exact H3].
Qed.

Lemma queue_get_spec r bs limit q : ring r bs -> queue_result r (Some limit) q [] bs (utils_rbb_blk_queue_get limit q r).
Proof.
  intros Hr. unfold utils_rbb_blk_queue_get. rewrite (ring_empty _ _ Hr). cbn [mbind outcome_bind].
  destruct (bool_decide (bs = [])) eqn:E.
  { apply bool_decide_eq_true in E as ->. exists r, [], []. split; [done|]. split; [by intros j H%elem_of_nil|]. split; [done|].
    split; [done|apply changed_none]. }
  rewrite (nodes_first _ _ Hr). cbn [mbind outcome_bind]. apply queue_loop_spec; [done|by apply ring_fuel].
Qed.

(** the length of the next queue, without taking it *)
Lemma run_ends p lo b : negb p || (b <? lo) = negb (p && (lo <=? b) && true).
Proof. by rewrite !negb_andb, Z.leb_antisym, negb_involutive, orb_false_r. Qed.
Lemma next_run_spec rest : forall fuel r pre l total, ring r (pre ++ rest) -> (length rest < fuel)%nat -> 0 <= total ->
  total + total_size r rest < 2 ^ 32 ->
  next_queue_len_loop fuel (nodes_head r rest) (Some l) total r = Done (total + total_size r (run_of r None (buf l) total rest)).
Proof.
  induction rest as [|i rest IH]; intros [|fuel] r pre l total Hr Hf Hn Ht; cbn in Hf; try lia; [cbn; f_equal; lia|].
  assert (Hi : i ∈ pre ++ i :: rest) by (rewrite elem_of_app; right; left). destruct (blk_of_member _ _ _ Hr Hi) as [His Hsz].
  destruct (blk_of_at r _ i Hr His) as (_ & Hg & _). cbn [next_queue_len_loop]. rewrite (nodes_head_cons _ _ _ _ Hr Hi).
  change (nodes_head r (i :: rest)) with (node_of r i). rewrite entry_node, Hg. cbn [mbind outcome_bind].
  unfold utils_slist_next. rewrite (load_done _ _ _ (nodes_next _ _ _ _ Hr)). cbn [mbind outcome_bind].
  assert (Hr' : ring r ((pre ++ [i]) ++ rest)) by by rewrite <- app_assoc. destruct (rest_total _ _ _ Hr') as [Hpos _].
  cbn [total_size foldr] in Ht. fold (total_size r rest) in Ht. rewrite u32_fits by lia. cbn [run_of fits].
  rewrite run_ends. destruct (_ && _ && true); cbn [negb]; [|cbn; f_equal; lia]. rewrite (IH fuel r (pre ++ [i])); [|done|lia|lia|lia].
  f_equal. unfold total_size. cbn [foldr]. lia.
Qed.
Lemma next_loop_spec rest : forall fuel r pre, ring r (pre ++ rest) -> (length rest < fuel)%nat ->
  next_queue_len_loop fuel (nodes_head r rest) None 0 r = Done (total_size r (queue_of r None rest)).
Proof.
  induction rest as [|i rest IH]; intros [|fuel] r pre Hr Hf; cbn in Hf; try lia; [done|].
  assert (Hi : i ∈ pre ++ i :: rest) by (rewrite elem_of_app; right; left). destruct (blk_of_member _ _ _ Hr Hi) as [His Hsz].
  destruct (blk_of_at r _ i Hr His) as (_ & Hg & _). cbn [next_queue_len_loop]. rewrite (nodes_head_cons _ _ _ _ Hr Hi).
  change (nodes_head r (i :: rest)) with (node_of r i). rewrite entry_node, Hg. cbn [mbind outcome_bind].
  unfold utils_slist_next. rewrite (load_done _ _ _ (nodes_next _ _ _ _ Hr)). cbn [mbind outcome_bind].
  assert (Hr' : ring r ((pre ++ [i]) ++ rest)) by by rewrite <- app_assoc. destruct (rest_total _ _ _ Hr') as [Hpos _].
  destruct (rest_total _ _ _ Hr) as [_ Ht]. cbn [total_size foldr] in Ht. fold (total_size r rest) in Ht.
  unfold queue_of. cbn [from_put]. destruct (_ =? RBB_BLK_PUT); [|apply (IH fuel r (pre ++ [i])); [done|lia]].
  rewrite u32_fits, (next_run_spec rest fuel r (pre ++ [i])); [done|done|lia|lia|lia|lia].
Qed.
Lemma next_len_spec r bs : ring r bs -> utils_rbb_next_blk_queue_len r = Done (total_size r (queue_of r None bs)).
Proof.
  intros Hr. unfold utils_rbb_next_blk_queue_len. rewrite (ring_empty _ _ Hr). cbn [mbind outcome_bind].
  destruct (bool_decide (bs = [])) eqn:E; [by apply bool_decide_eq_true in E as ->|].
  rewrite (nodes_first _ _ Hr). cbn [mbind outcome_bind]. apply (next_loop_spec bs _ r []); [done|by apply ring_fuel].
Qed.
