(* ===== verification/RingblkReach.v ===== *)
(** * A ring of blocks in use (Ringblk.v, RingblkProofs.v, RingblkQueue.v)

    The states a ring reaches from [utils_rbb_init] by its operations in any order,
    and what holds in each of them; and what goes wrong when a queue is used in a way
    the code allows. *)
From S2P Require Import Prelude UtilsList Slist Ringblk RingblkProofs RingblkQueue.

(** ** Definitions *)

(** the memory a ring is given: [blk_max_num] blocks, and addresses that do not wrap *)
Definition memory_ok (r : utils_rbb) : Prop :=
  Z.of_nat (length (blks r)) = blk_max_num r /\ blk_list r <> NULL /\ is_Some (links r !! blk_list r)
  /\ (forall i, in_set r i -> node_of r i <> NULL /\ node_of r i <> blk_list r /\ is_Some (links r !! node_of r i))
  /\ 0 <= rbuf r /\ 0 <= buf_size r /\ rbuf r + buf_size r < 2 ^ 32.

(** the list of the ring links these blocks in this order *)
Definition holds (r : utils_rbb) (bs : list Z) : Prop := is_slist (links r) (blk_list r) (node_of r <$> bs).

(** one call that comes back.  A block is asked for with at least one byte, and with no
    more than the buffer has when no block is on the list: the code compares the size
    with what lies between the blocks, and does not compare it when there are none.
    [utils_rbb_blk_queue_free] is a sequence of [utils_rbb_blk_free]. *)
Inductive rbb_step (r r' : utils_rbb) : Prop :=
| step_alloc n res : 0 < n -> (holds r [] -> n <= buf_size r) -> utils_rbb_blk_alloc n r = Done (res, r') -> rbb_step r r'
| step_put i : in_set r i -> utils_rbb_blk_put i r = Done r' -> rbb_step r r'
| step_get res : utils_rbb_blk_get r = Done (res, r') -> rbb_step r r'
| step_free i : in_set r i -> utils_rbb_blk_free i r = Done r' -> rbb_step r r'
| step_queue_get limit q n q' : utils_rbb_blk_queue_get limit q r = Done (n, q', r') -> rbb_step r r'.
(** the calls since [utils_rbb_init] *)
Inductive rbb_reach : utils_rbb -> Prop :=
| reach_init r0 r : memory_ok r0 -> utils_rbb_init r0 = Done r -> rbb_reach r
| reach_step r r' : rbb_reach r -> rbb_step r r' -> rbb_reach r'.

(** ** Every state a ring reaches is a ring *)

Lemma init_ring r0 r : memory_ok r0 -> utils_rbb_init r0 = Done r -> ring r [].
Proof.
  intros (Hl & Hh & Hhm & Hn & Hsp) E. unfold utils_rbb_init in E. destruct (slist_init_spec _ _ Hh Hhm) as [E1 Hs]. rewrite E1 in E.
  injection E as <-. split; try done.
  - cbn. by rewrite length_fmap.
  - intros i Hi. destruct (Hn i Hi) as (H1 & H2 & H3). split; [done|]. split; [done|]. cbn. rewrite lookup_insert_ne; [exact H3|exact (not_eq_sym H2)].
  - by intros i H%elem_of_nil.
  - intros i Hi _. left. unfold status_of. cbn. rewrite list_lookup_fmap. by destruct (blks r0 !! _).
  - exists [], []. split; [done|]. split; [cbn; lia|by left].
Qed.

Lemma put_inv r bs i r' : ring r bs -> in_set r i -> utils_rbb_blk_put i r = Done r' -> status (blk_of r i) = RBB_BLK_INITED.
Proof.
  intros Hr Hi E. unfold utils_rbb_blk_put in E. destruct (blk_of_at r bs i Hr Hi) as (_ & Hg & _). rewrite Hg in E. cbn in E.
  by destruct (Z.eqb_spec (status (blk_of r i)) RBB_BLK_INITED).
Qed.
Lemma free_inv r bs i r' : ring r bs -> in_set r i -> utils_rbb_blk_free i r = Done r' -> status (blk_of r i) <> RBB_BLK_UNUSED.
Proof.
  intros Hr Hi E. unfold utils_rbb_blk_free in E. destruct (blk_of_at r bs i Hr Hi) as (_ & Hg & _). rewrite Hg in E. cbn in E.
  by destruct (Z.eqb_spec (status (blk_of r i)) RBB_BLK_UNUSED).
Qed.
Lemma alloc_ring r bs n res r' : alloc_result r bs n res r' -> ring r bs -> exists bs', ring r' bs'.
Proof. destruct res; [intros (_ & _ & _ & H) _; eauto|intros [-> _] H; eauto]. Qed.
Lemma queue_ring r limit q bs n q' r' : queue_result r limit q [] bs (Done (n, q', r')) -> exists bs', ring r' bs'.
Proof. intros (r1 & skip & tail & _ & _ & [= _ _ ->] & H & _). eauto. Qed.

Lemma alloc_below r n res : utils_rbb_blk_alloc n r = Done res -> n < 2 ^ 24.
Proof. unfold utils_rbb_blk_alloc. change (Z.shiftl 1 24) with (2 ^ 24). by destruct (Z.ltb_spec n (2 ^ 24)). Qed.

Lemma step_ring r r' bs : ring r bs -> rbb_step r r' -> exists bs', ring r' bs'.
Proof.
  intros Hr [n res Hn Hb E|i Hi E|res E|i Hi E|limit q n q' E].
  - assert (Hn' : 0 < n < 2 ^ 24) by (split; [done|by eapply alloc_below]).
    destruct (alloc_spec r bs n Hr Hn') as (res' & r1 & E1 & H); [intros ->; apply Hb, Hr|]. rewrite E1 in E. injection E as -> ->. by eapply alloc_ring.
  - destruct (put_spec r bs i Hr Hi (put_inv _ _ _ _ Hr Hi E)) as (r1 & E1 & H & _). rewrite E1 in E. injection E as ->. eauto.
  - destruct (get_spec r bs Hr) as (r1 & E1 & H & _). rewrite E1 in E. injection E as _ ->. eauto.
  - destruct (free_spec r bs i Hr Hi (free_inv _ _ _ _ Hr Hi E)) as (r1 & E1 & H & _). rewrite E1 in E. injection E as ->. eauto.
  - pose proof (queue_get_spec r bs limit q Hr) as H. rewrite E in H. by eapply queue_ring.
Qed.
Lemma reach_ring r : rbb_reach r -> exists bs, ring r bs.
Proof. induction 1 as [r0 r Hm E|r r' _ [bs Hr] Hs]; [exists []; by eapply init_ring|by eapply step_ring]. Qed.

(** the place a new block may have, if it has one, is found *)
Lemma where_to_complete lo hi l n x : l <> [] -> 0 < n -> arranged lo (l ++ [(x, n)]) hi -> where_to lo hi l n <> None.
Proof.
  intros Hl Hn (A & B & E & HA & HB) Hw. destruct (snoc_cases l) as [->|(l0 & [b m] & ->)]; [done|].
  unfold where_to in Hw. rewrite last_snoc in Hw. destruct (head (l0 ++ [(b, m)])) as [[a k]|] eqn:Eh; [|by destruct l0].
  destruct (snoc_cases B) as [->|(B0 & y & ->)].
  - rewrite app_nil_r in E. subst A. rewrite rising_app in HA. destruct HA as (h & HA & H1 & _ & H2).
    destruct (rising_last _ _ _ _ _ HA) as (_ & _ & H3).
    assert (a <= b). { destruct l0 as [|y l0]; cbn in Eh; simplify_eq; [lia|]. destruct HA as (_ & H4 & HA%rising_last). lia. }
    rewrite (proj2 (Z.leb_le a b)), (proj2 (Z.leb_le n _)) in Hw; [done|cbn in H2; lia|done].
  - rewrite app_assoc in E. apply app_inj_tail in E as [E <-]. destruct HB as [HB|(a' & k' & A' & -> & HB)]; [by destruct B0|].
    assert (a' = a /\ k' = k) as [-> ->] by (rewrite E in Eh; by injection Eh). destruct (snoc_cases B0) as [->|(B1 & z & ->)].
    + cbn in HB. rewrite app_nil_r in E. assert (a <= b).
      { rewrite <- E in HA. destruct l0 as [|y l0]; cbn in E; [injection E as -> -> _; lia|]. injection E as -> E. destruct HA as (_ & H4 & HA%rising_last). lia. }
      rewrite (proj2 (Z.leb_le a b)) in Hw by done. destruct (n <=? hi - (b + m)); [done|]. rewrite (proj2 (Z.leb_le n _)) in Hw; [done|lia].
    + rewrite app_assoc in E. apply app_inj_tail in E as [_ <-]. rewrite rising_app in HB. destruct HB as (h & HB & H1 & _ & H2).
      destruct (rising_last _ _ _ _ _ HB) as (_ & H4 & H3). rewrite (proj2 (Z.leb_gt a b)) in Hw by (cbn in H2; lia).
      rewrite (proj2 (Z.leb_le n _)) in Hw; [done|cbn in H2; lia].
Qed.

(** ** Queues whose blocks are neighbours *)

Definition run_places (i : Z) (n : Z) : list Z := (fun k => i + k) <$> seqZ 0 n.

Lemma queue_len_spec q r : (forall k, k ∈ seqZ 0 (blk_num q) -> get_blk r (blocks q + k) = Done (blk_of r (blocks q + k))) ->
  (forall l1 l2, seqZ 0 (blk_num q) = l1 ++ l2 -> 0 <= total_size r ((fun k => blocks q + k) <$> l1) < 2 ^ 32) ->
  utils_rbb_blk_queue_len q r = Done (total_size r (run_places (blocks q) (blk_num q))).
Proof.
  intros Hg Hb. unfold utils_rbb_blk_queue_len, run_places. set (l := seqZ 0 (blk_num q)) in *. clearbody l.
  assert (G : forall done todo, l = done ++ todo -> queue_len_loop todo q (total_size r ((fun k => blocks q + k) <$> done)) r
    = Done (total_size r ((fun k => blocks q + k) <$> l))); [|by apply (G [] l)].
  intros dn todo. revert dn. induction todo as [|k todo IH]; intros dn E; [rewrite app_nil_r in E; by subst dn|]. cbn [queue_len_loop].
  rewrite Hg by (rewrite E, elem_of_app; right; left). cbn [mbind outcome_bind].
  specialize (IH (dn ++ [k])). rewrite <- app_assoc in IH. specialize (IH E). specialize (Hb (dn ++ [k]) todo). rewrite <- app_assoc in Hb.
  specialize (Hb E). rewrite fmap_app, total_size_app in *. cbn [fmap list_fmap] in *.
  change (total_size r [blocks q + k]) with (size (blk_of r (blocks q + k)) + 0) in *. rewrite Z.add_0_r in *. by rewrite u32_fits.
Qed.

Lemma queue_free_spec q l : forall r bs, ring r bs -> NoDup l ->
  (forall k, k ∈ l -> in_set r (blocks q + k) /\ blocks q + k ∉ bs /\ status (blk_of r (blocks q + k)) <> RBB_BLK_UNUSED) ->
  exists r', queue_free_loop l q r = Done r' /\ ring r' bs /\ changed RBB_BLK_UNUSED ((fun k => blocks q + k) <$> l) r r'.
Proof.
  induction l as [|k l IH]; intros r bs Hr Hnd H; [exists r; split; [done|]; split; [done|apply changed_none]|].
  apply NoDup_cons in Hnd as [Hk Hnd]. destruct (H k) as (Hi & Hni & Hu); [left|].
  destruct (free_spec r bs _ Hr Hi Hu) as (r1 & E & Hr1 & Hch). rewrite remove_node_notin in Hr1 by done.
  assert (Hset : forall j, in_set r1 j <-> in_set r j) by (intros j; unfold in_set; destruct Hch as (_ & _ & _ & -> & _); done).
  destruct (IH r1 bs Hr1 Hnd) as (r2 & E2 & Hr2 & Hch2).
  - intros j Hj. destruct (H j) as (Hji & Hjn & Hju); [by right|]. rewrite Hset. split; [done|]. split; [done|].
    rewrite (changed_other _ _ _ _ _ Hch Hji); [done|]. intros E3. assert (j = k) by lia. by subst j.
  - exists r2. cbn [queue_free_loop]. rewrite E. cbn [mbind outcome_bind]. rewrite E2. split; [done|]. split; [done|].
    rewrite fmap_cons. by apply (changed_trans _ [blocks q + k] _ r r1).
Qed.

(** *** The blocks of a queue *)
Lemma run_of_put r limit lo total bs : let run := run_of r limit lo total bs in
  (forall i, i ∈ run -> status (blk_of r i) = RBB_BLK_PUT) /\ Sorted Z.le (lo :: (buf ∘ blk_of r <$> run)).
Proof.
  revert lo total. induction bs as [|i bs IH]; intros lo total run; subst run; cbn.
  - split; [by intros i H%elem_of_nil|]. by repeat constructor.
  - destruct (_ && _) eqn:E; [|split; [by intros j H%elem_of_nil|by repeat constructor]].
    apply andb_prop in E as [[E1%Z.eqb_eq E2%Z.leb_le]%andb_prop _]. destruct (IH (buf (blk_of r i)) (total + size (blk_of r i))) as [H1 H2].
    split; [intros j Hj; apply elem_of_cons in Hj as [->|Hj]; auto|]. constructor; [done|by constructor].
Qed.
Lemma queue_of_put r limit bs : let run := queue_of r limit bs in
  (forall i, i ∈ run -> status (blk_of r i) = RBB_BLK_PUT) /\ Sorted Z.le (buf ∘ blk_of r <$> run).
Proof.
  unfold queue_of. destruct (from_put r bs) as [|i rest] eqn:E; [split; [by intros i H%elem_of_nil|by constructor]|].
  destruct (run_of_put r limit (buf (blk_of r i)) (size (blk_of r i)) rest) as [H1 H2]. split; [|exact H2].
  intros j Hj. apply elem_of_cons in Hj as [->|Hj]; [|by apply H1]. clear -E. induction bs as [|k bs IH]; [done|]. cbn in E.
  destruct (Z.eqb_spec (status (blk_of r k)) RBB_BLK_PUT); [by injection E as -> _|by apply IH].
Qed.

Lemma run_of_fits r limit lo total bs : let run := run_of r (Some limit) lo total bs in run = [] \/ total + total_size r run <= limit.
Proof.
  revert lo total. induction bs as [|i bs IH]; intros lo total; cbn; [by left|]. destruct (_ && _) eqn:E; [|by left]. right.
  apply andb_prop in E as [_ E%Z.leb_le]. specialize (IH (buf (blk_of r i)) (total + size (blk_of r i))).
  cbn [total_size foldr]. fold (total_size r (run_of r (Some limit) (buf (blk_of r i)) (total + size (blk_of r i)) bs)).
  destruct IH as [IH|IH]; [rewrite IH; cbn; lia|lia].
Qed.
Lemma queue_of_fits r limit bs : let run := queue_of r (Some limit) bs in (length run <= 1)%nat \/ total_size r run <= limit.
Proof.
  unfold queue_of. destruct (from_put r bs) as [|i rest]; [left; cbn; lia|].
  destruct (run_of_fits r limit (buf (blk_of r i)) (size (blk_of r i)) rest) as [->|H]; [left; cbn; lia|by right].
Qed.

(** a queue of neighbours: its length, and giving it back *)
Lemma neighbours_spec r r' bs run skip tail i : ring r bs -> bs = skip ++ run ++ tail -> ring r' (skip ++ tail) ->
  changed RBB_BLK_GET run r r' -> run = run_places i (Z.of_nat (length run)) ->
  let q := {| blocks := i; blk_num := Z.of_nat (length run) |} in
  utils_rbb_blk_queue_len q r' = Done (total_size r run)
  /\ exists r2, utils_rbb_blk_queue_free q r' = Done r2 /\ ring r2 (skip ++ tail) /\ changed RBB_BLK_UNUSED run r' r2.
Proof.
  intros Hr Hbs Hr' Hch Hrun q. pose proof (ring_nodup _ _ Hr) as Hnd. rewrite Hbs in Hnd. destruct Hch as (_ & _ & _ & En & _ & Hch).
  assert (Hset : forall j, in_set r' j <-> in_set r j) by (intros j; unfold in_set; by rewrite En).
  assert (Hin : forall j, j ∈ run -> in_set r j) by (intros j Hj; apply (rg_in _ _ Hr); rewrite Hbs, !elem_of_app; auto).
  assert (Hblk : forall j, j ∈ run -> blk_of r' j = set_status RBB_BLK_GET (blk_of r j)) by (intros j Hj; rewrite Hch by auto; by rewrite decide_True).
  assert (Hmem : forall k, k ∈ seqZ 0 (blk_num q) -> i + k ∈ run).
  { intros k Hk. rewrite Hrun. apply list_elem_of_fmap. by exists k. }
  assert (Hsize : forall l, (forall j, j ∈ l -> j ∈ run) -> total_size r' l = total_size r l).
  { intros l Hl. apply total_size_ext. intros j Hj. by rewrite Hblk by auto. }
  split.
  - rewrite queue_len_spec.
    + unfold q. cbn [blocks blk_num]. rewrite <- Hrun. f_equal. by apply Hsize.
    + intros k Hk. by apply (blk_of_at r' _ _ Hr'), Hset, Hin, Hmem.
    + intros l1 l2 E. assert (Esub : run = ((fun k => blocks q + k) <$> l1) ++ ((fun k => blocks q + k) <$> l2)).
      { rewrite Hrun. unfold run_places. rewrite <- fmap_app. f_equal. exact E. }
      rewrite Hsize by (intros j Hj; rewrite Esub, elem_of_app; by left). apply (part_total r skip _ (((fun k => blocks q + k) <$> l2) ++ tail)).
      by rewrite (app_assoc _ _ tail), <- Esub, <- Hbs.
  - destruct (queue_free_spec q (seqZ 0 (blk_num q)) r' (skip ++ tail) Hr') as (r2 & E & Hr2 & Hc2).
    + apply NoDup_seqZ.
    + intros k Hk. apply Hmem in Hk. change (blocks q) with i. split; [apply Hset; auto|]. split; [|by rewrite Hblk].
      intros H. apply NoDup_app in Hnd as (_ & Hd1 & Hnd). apply NoDup_app in Hnd as (_ & Hd2 & _).
      apply elem_of_app in H as [H|H]; [apply (Hd1 _ H); rewrite elem_of_app; by left|by apply (Hd2 _ Hk)].
    + exists r2. split; [exact E|]. split; [done|]. change ((fun k => blocks q + k) <$> seqZ 0 (blk_num q)) with (run_places i (Z.of_nat (length run))) in Hc2.
      by rewrite <- Hrun in Hc2.
Qed.

Definition apart (r : utils_rbb) (i j : Z) : Prop :=
  buf (blk_of r i) + size (blk_of r i) <= buf (blk_of r j) \/ buf (blk_of r j) + size (blk_of r j) <= buf (blk_of r i).

Lemma spans_blk r bs (l : list Z) : ring r bs -> (forall i, i ∈ l -> in_set r i) -> (fun i => (buf (blk_of r i), size (blk_of r i))) <$> l = span r <$> l.
Proof. intros Hr H. apply list_fmap_ext. intros k i Hi. symmetry. apply (blk_of_at r bs i Hr), H. by apply list_elem_of_lookup_2 in Hi. Qed.
Lemma ring_apart r bs i j : ring r bs -> i ∈ bs -> j ∈ bs -> i <> j -> apart r i j.
Proof.
  intros Hr Hi Hj Hne. assert (Hsp : forall k p, bs !! p = Some k -> (span r <$> bs) !! p = Some (buf (blk_of r k), size (blk_of r k))).
  { intros k p Hk. rewrite list_lookup_fmap, Hk. cbn. f_equal. apply (blk_of_at r bs k Hr), (rg_in _ _ Hr). by apply list_elem_of_lookup_2 in Hk. }
  apply list_elem_of_lookup in Hi as [p Hp]. apply list_elem_of_lookup in Hj as [q Hq]. unfold apart.
  destruct (Nat.lt_trichotomy p q) as [H|[->|H]]; [|congruence|].
  - exact (arranged_apart _ _ _ p q _ _ _ _ (rg_spans _ _ Hr) H (Hsp _ _ Hp) (Hsp _ _ Hq)).
  - destruct (arranged_apart _ _ _ q p _ _ _ _ (rg_spans _ _ Hr) H (Hsp _ _ Hq) (Hsp _ _ Hp)); auto.
Qed.

(** ** Theorems *)

(** C28: after any calls since [utils_rbb_init] that ask for at least one byte, and while no
    block is on the list for no more than the buffer has ([rbb_step]; for more the code
    gives a block that does not fit, [rbb_alloc_beyond_buffer]), the blocks on the list
    lie inside the buffer and do not overlap: each is one of [blk_set], in use, and any
    two of them occupy different bytes.  (Blocks in a queue are in use, but off the list.) *)
Theorem rbb_blocks_apart (r : utils_rbb) (Hr : rbb_reach r) :
  exists bs, holds r bs /\ NoDup bs
    /\ (forall i, i ∈ bs -> in_set r i /\ status (blk_of r i) <> RBB_BLK_UNUSED
          /\ rbuf r <= buf (blk_of r i) /\ 0 < size (blk_of r i) /\ buf (blk_of r i) + size (blk_of r i) <= rbuf r + buf_size r)
    /\ forall i j, i ∈ bs -> j ∈ bs -> i <> j -> apart r i j.
Proof.
  destruct (reach_ring r Hr) as [bs H]. exists bs. split; [apply (rg_list _ _ H)|]. split; [by apply ring_nodup in H|]. split.
  - intros i Hi. destruct (rg_in _ _ H i Hi) as [Hs Hu]. destruct (blk_of_at r bs i H Hs) as (Hb & _ & _ & Hst). split; [done|].
    split; [by rewrite <- Hst|]. exact (span_bounds r bs i _ H Hi Hb).
  - intros i j Hi Hj Hne. by apply (ring_apart r bs).
Qed.

(** C26: [utils_rbb_blk_alloc] in any reachable state, for a size above 0 and below 2^24
    (for a larger one an assert stops the system) that is within the buffer when no block
    is on the list: it returns; a block it gives was unused, is put at the end of the list
    with the size asked for, and its place keeps the order of the ring, so that it meets
    no other block on the list (it may meet a block taken off the list with a queue and
    still in use, [rbb_queue_memory_reused]); the other blocks are as before.  It refuses, and changes nothing, only when no block is unused or when no place in
    the buffer keeps that order. *)
Theorem rbb_alloc_correct (r : utils_rbb) (n : Z) (Hr : rbb_reach r) (Hn : 0 < n < 2 ^ 24) (Hb : holds r [] -> n <= buf_size r) :
  let order r bs := arranged (rbuf r) ((fun i => (buf (blk_of r i), size (blk_of r i))) <$> bs) (rbuf r + buf_size r) in
  exists bs res r', holds r bs /\ utils_rbb_blk_alloc n r = Done (res, r')
    /\ match res with
       | Some i => in_set r i /\ status (blk_of r i) = RBB_BLK_UNUSED /\ holds r' (bs ++ [i]) /\ order r' (bs ++ [i])
           /\ status (blk_of r' i) = RBB_BLK_INITED /\ size (blk_of r' i) = n
           /\ (forall j, j ∈ bs -> apart r' i j) /\ forall j, in_set r j -> j <> i -> blk_of r' j = blk_of r j
       | None => r' = r /\ ((forall i, in_set r i -> status (blk_of r i) <> RBB_BLK_UNUSED)
           \/ forall x, ~ arranged (rbuf r) (((fun i => (buf (blk_of r i), size (blk_of r i))) <$> bs) ++ [(x, n)]) (rbuf r + buf_size r))
       end.
Proof.
  intros order. destruct (reach_ring r Hr) as [bs H]. destruct (alloc_spec r bs n H Hn) as (res & r' & E & Ha); [intros ->; apply Hb, H|].
  exists bs, res, r'. split; [apply (rg_list _ _ H)|]. split; [done|]. destruct res as [i|].
  - destruct Ha as (Hi & Hu & (x & m & _ & E2) & Hr'). destruct (blk_of_at r bs i H Hi) as (Hbi & _ & _ & Hst). split; [done|].
    split; [by rewrite <- Hst|]. split; [apply (rg_list _ _ Hr')|]. unfold order.
    rewrite (spans_blk r' _ _ Hr') by (intros j Hj; by apply (rg_in _ _ Hr')). split; [apply (rg_spans _ _ Hr')|].
    assert (Hlk : forall j, in_set r j -> blk_of r' j = if decide (j = i) then {| status := RBB_BLK_INITED; size := n; buf := x |} else blk_of r j).
    { intros j Hj. unfold blk_of. subst r'. rewrite (blk_insert_lookup r i _ _ j Hi Hj (rg_size _ _ H)). by case_decide. }
    rewrite (Hlk i), decide_True by done. split; [done|]. split; [done|]. split; [|intros j Hj Hne; by rewrite Hlk, decide_False].
    intros j Hj. pose proof (ring_nodup _ _ Hr') as Hnd. apply NoDup_app in Hnd as (_ & Hd & _).
    apply (ring_apart r' (bs ++ [i])); [done|rewrite elem_of_app; right; left|rewrite elem_of_app; by left|]. intros ->. apply (Hd j Hj). left.
  - destruct Ha as [-> Ha]. split; [done|]. destruct Ha as [Ha|Ha]; [left|right].
    + intros i Hi. destruct (blk_of_at r bs i H Hi) as (_ & _ & _ & <-). by apply Ha.
    + rewrite (spans_blk r bs bs H) by (intros j Hj; by apply (rg_in _ _ H)). intros x Hx.
      apply (where_to_complete _ _ _ _ _ (fun E0 => ltac:(unfold where_to in Ha; rewrite E0 in Ha; discriminate)) (proj1 Hn) Hx Ha).
Qed.

(** C27: [utils_rbb_blk_queue_get] in any reachable state: it returns; the queue is a run
    of put blocks that follow one another on the list and go up in the buffer, behind
    blocks that were not put; it is taken off the list and marked, and nothing else
    changes; the sum of its sizes is returned, which passes the limit only for a single
    block.  [utils_rbb_next_blk_queue_len] tells this sum beforehand for no limit.  If
    the blocks are neighbours in [blk_set], [utils_rbb_blk_queue_len] gives the sum
    again and [utils_rbb_blk_queue_free] frees exactly these blocks. *)
Theorem rbb_queue_correct (r : utils_rbb) (limit : Z) (q : utils_rbb_blk_queue) (Hr : rbb_reach r) :
  exists bs skip tail r', let run := queue_of r (Some limit) bs in
    let q' := match run with [] => q | i :: _ => {| blocks := i; blk_num := Z.of_nat (length run) |} end in
    holds r bs /\ bs = skip ++ run ++ tail /\ utils_rbb_blk_queue_get limit q r = Done (total_size r run, q', r')
    /\ holds r' (skip ++ tail) /\ changed RBB_BLK_GET run r r'
    /\ (forall i, i ∈ skip -> status (blk_of r i) <> RBB_BLK_PUT) /\ (forall i, i ∈ run -> status (blk_of r i) = RBB_BLK_PUT)
    /\ Sorted Z.le (buf ∘ blk_of r <$> run) /\ ((length run <= 1)%nat \/ total_size r run <= limit)
    /\ utils_rbb_next_blk_queue_len r = Done (total_size r (queue_of r None bs))
    /\ (run <> [] -> run = run_places (blocks q') (blk_num q') ->
        utils_rbb_blk_queue_len q' r' = Done (total_size r run)
        /\ exists r2, utils_rbb_blk_queue_free q' r' = Done r2 /\ holds r2 (skip ++ tail) /\ changed RBB_BLK_UNUSED run r' r2).
Proof.
  destruct (reach_ring r Hr) as [bs H]. destruct (queue_get_spec r bs limit q H) as (r' & skip & tail & E & Hsk & Eq & Hr' & Hch).
  destruct (queue_of_put r (Some limit) bs) as [Hput Hup]. exists bs, skip, tail, r'. intros run q'. split; [apply (rg_list _ _ H)|].
  split; [exact E|]. split; [exact Eq|]. split; [apply (rg_list _ _ Hr')|]. split; [exact Hch|]. split; [exact Hsk|]. split; [exact Hput|].
  split; [exact Hup|]. split; [apply queue_of_fits|]. split; [by apply next_len_spec|]. intros Hne Hrun. subst q'.
  fold run in E, Hch. clearbody run. destruct run as [|i l] eqn:El; [done|]. rewrite <- El in *.
  destruct (neighbours_spec r r' bs run skip tail i H E Hr' Hch) as (H1 & r2 & H2 & Hr2 & H3); [exact Hrun|]. split; [exact H1|].
  exists r2. split; [exact H2|]. split; [apply (rg_list _ _ Hr2)|exact H3].
Qed.

(** ** A ring of four blocks *)

Definition ex_memory : utils_rbb :=
  {| rbuf := 5000; buf_size := 100; blk_set := 1000; blk_max_num := 4; blk_list := 500;
     blks := replicate 4 {| status := 7; size := 0; buf := 0 |};
     links := list_to_map ((fun p => (p, 77)) <$> [500; 1008; 1020; 1032; 1044]) |}.
Definition run_or {A} (d : A) (o : outcome A) : A := match o with Done a => a | _ => d end.
Definition ex0 : utils_rbb := run_or ex_memory (utils_rbb_init ex_memory).
(** a block of [n] bytes is allocated and put *)
Definition fill (n : Z) (r : utils_rbb) : outcome utils_rbb :=
  '(i, r) ← utils_rbb_blk_alloc n r; match i with Some i => utils_rbb_blk_put i r | None => Fault end.
Definition ex3 : utils_rbb := run_or ex0 (r ← fill 10 ex0; r ← fill 20 r; fill 30 r).

Lemma ex_memory_ok : memory_ok ex_memory.
Proof.
  split; [done|]. split; [done|]. split; [by eexists|]. split; [|done]. intros i Hi. unfold in_set in Hi. cbn in Hi.
  assert (i = 0 \/ i = 1 \/ i = 2 \/ i = 3) as [-> | [-> | [-> | ->]]] by lia; (split; [done|split; [done|by eexists]]).
Qed.
Lemma fill_reach n r r' : rbb_reach r -> 0 < n < 2 ^ 24 -> n <= buf_size r -> fill n r = Done r' -> rbb_reach r'.
Proof.
  intros Hr Hn Hb E. destruct (reach_ring r Hr) as [bs Hg]. unfold fill in E. destruct (alloc_spec r bs n Hg Hn) as (res & r1 & E1 & H1); [done|]. rewrite E1 in E.
  cbn [mbind outcome_bind] in E. destruct res as [i|]; [|done]. assert (Hr1 : rbb_reach r1).
  { eapply reach_step; [exact Hr|]. eapply (step_alloc r r1 n); [lia|by intros _|exact E1]. }
  apply (reach_step r1); [done|]. apply (step_put r1 r' i); [|done]. destruct H1 as (H1 & _ & _ & Hr'). apply (rg_in _ _ Hr').
  rewrite elem_of_app. right. left.
Qed.

Lemma ex3_reach : rbb_reach ex3.
Proof.
  assert (H0 : rbb_reach ex0) by (apply (reach_init ex_memory); [apply ex_memory_ok|by vm_compute]).
  apply (fill_reach 30 (run_or ex0 (r ← fill 10 ex0; fill 20 r))); [|done|by vm_compute|by vm_compute].
  apply (fill_reach 20 (run_or ex0 (fill 10 ex0))); [|done|by vm_compute|by vm_compute].
  by apply (fill_reach 10 ex0); [|done|vm_compute|vm_compute].
Qed.

Lemma rbb_blocks_apart_witness : exists bs, holds ex3 bs /\ NoDup bs
  /\ (forall i, i ∈ bs -> in_set ex3 i /\ status (blk_of ex3 i) <> RBB_BLK_UNUSED
        /\ rbuf ex3 <= buf (blk_of ex3 i) /\ 0 < size (blk_of ex3 i) /\ buf (blk_of ex3 i) + size (blk_of ex3 i) <= rbuf ex3 + buf_size ex3)
  /\ forall i j, i ∈ bs -> j ∈ bs -> i <> j -> apart ex3 i j.
Proof. exact (rbb_blocks_apart ex3 ex3_reach). Defined.


(** the list of a ring is one list *)
Lemma lseg_unique m p xs ys : lseg m p xs NULL -> lseg m p ys NULL -> xs = ys.
Proof.
  revert p ys. induction xs as [|x xs IH]; intros p [|y ys]; [done| | |].
  - intros Hp (-> & Hy & _). done.
  - intros (-> & Hx & _) Hp. done.
  - intros (-> & _ & n & Hn & Hs) (<- & _ & n' & Hn' & Hs'). f_equal. assert (n' = n) as -> by congruence. by apply (IH n).
Qed.
Lemma holds_unique r bs bs' : holds r bs -> holds r bs' -> bs = bs'.
Proof.
  intros [H _] [H' _]. pose proof (lseg_unique _ _ _ _ H H') as E. apply (f_equal tail) in E. cbn [tail] in E. clear H H'. revert bs' E. induction bs as [|i bs IH]; intros [|j bs']; try done.
  rewrite !fmap_cons. intros E. injection E as E1 E2. apply node_inj in E1 as ->. f_equal. by apply IH.
Qed.
Lemma ex3_holds : holds ex3 [0; 1; 2].
Proof. split; [|vm_compute; repeat constructor; set_solver]. repeat (split; [by vm_compute|]; split; [by vm_compute|]; eexists; split; [by vm_compute|]). done. Qed.

Lemma answer_inj {A B} (a a' : A) (b b' : B) : Done (a, b) = Done (a', b') -> a = a' /\ b = b'.
Proof. by intros [= -> ->]. Qed.

(** here there is room for 40 bytes at the end and for no more *)
Lemma rbb_alloc_correct_witness :
  (exists r', utils_rbb_blk_alloc 40 ex3 = Done (Some 3, r') /\ status (blk_of r' 3) = RBB_BLK_INITED)
  /\ forall x, ~ arranged 5000 [(5000, 10); (5010, 20); (5030, 30); (x, 41)] 5100.
Proof.
  split.
  - destruct (rbb_alloc_correct ex3 40 ex3_reach) as (bs & res & r' & _ & E & H); [lia|intros _; by vm_compute|]. exists r'.
    assert (E2 : utils_rbb_blk_alloc 40 ex3 = Done (Some 3, run_or ex3 ('(_, r) ← utils_rbb_blk_alloc 40 ex3; Done r))) by by vm_compute.
    rewrite E2 in E. apply answer_inj in E as [<- <-]. split; [exact E2|]. by destruct H as (_ & _ & _ & _ & H & _).
  - destruct (rbb_alloc_correct ex3 41 ex3_reach) as (bs & res & r' & Hbs & E & H); [lia|intros _; by vm_compute|].
    assert (E2 : utils_rbb_blk_alloc 41 ex3 = Done (None, ex3)) by by vm_compute. rewrite E2 in E. apply answer_inj in E as [<- <-].
    destruct H as [_ [H|H]]; [exfalso; apply (H 3); [vm_compute; split; [discriminate|reflexivity]|by vm_compute]|].
    assert (Eb : bs = [0; 1; 2]); [|subst bs; exact H].
    by apply (holds_unique ex3), ex3_holds.
Defined.

(** 35 bytes at most: the blocks of 10 and 20, of the 60 bytes that wait *)
Lemma rbb_queue_correct_witness : exists r',
  utils_rbb_blk_queue_get 35 {| blocks := 9; blk_num := 9 |} ex3 = Done (30, {| blocks := 0; blk_num := 2 |}, r')
  /\ utils_rbb_blk_queue_len {| blocks := 0; blk_num := 2 |} r' = Done 30
  /\ (exists r2, utils_rbb_blk_queue_free {| blocks := 0; blk_num := 2 |} r' = Done r2)
  /\ utils_rbb_next_blk_queue_len ex3 = Done 60.
Proof.
  destruct (rbb_queue_correct ex3 35 {| blocks := 9; blk_num := 9 |} ex3_reach) as (bs & skip & tail & r' & Hbs & _ & E & _ & _ & _ & _ & _ & _ & Hn & Hq).
  assert (Eb : bs = [0; 1; 2]) by (by apply (holds_unique ex3), ex3_holds). subst bs. clear Hbs.
  assert (Er : queue_of ex3 (Some 35) [0; 1; 2] = [0; 1]) by by vm_compute.
  assert (Et : total_size ex3 [0; 1] = 30) by by vm_compute. rewrite Er, Et in E. exists r'. rewrite Er, Et in Hq. clear Er Et.
  split; [exact E|]. destruct Hq as [Hlen (r2 & Hfree & _)]; [done|by vm_compute|]. split; [exact Hlen|]. split; [by exists r2|].
  rewrite Hn. by vm_compute.
Defined.

(** ** What a user has to know *)

(** the queue's blocks are found by counting in [blk_set], but the list may link them
    in another order: here the queue is the blocks 1, 2 and 0 with 75 bytes, its length
    comes out as 50, and giving it back fails on block 3, which is not in use *)
Example rbb_queue_not_neighbours :
  (r ← fill 10 ex0; r ← fill 20 r; r ← fill 30 r; '(_, r) ← utils_rbb_blk_get r; r ← utils_rbb_blk_free 0 r; r ← fill 25 r;
   '(n, q, r) ← utils_rbb_blk_queue_get 100 {| blocks := 9; blk_num := 9 |} r; len ← utils_rbb_blk_queue_len q r;
   Done (n, q, len, utils_rbb_blk_queue_free q r)) = Done (75, {| blocks := 1; blk_num := 3 |}, 50, Fault).
Proof. by vm_compute. Qed.

(** blocks in a queue are off the list, so their bytes are given away again while the
    queue is still in use: blocks 0 and 1 overlap *)
Example rbb_queue_memory_reused :
  ('(n, q, r) ← (r ← fill 10 ex0; utils_rbb_blk_queue_get 100 {| blocks := 9; blk_num := 9 |} r); r ← fill 20 r;
   Done (q, take 2 (blks r)))
  = Done ({| blocks := 0; blk_num := 1 |},
      [{| status := RBB_BLK_GET; size := 10; buf := 5000 |}; {| status := RBB_BLK_PUT; size := 20; buf := 5000 |}]).
Proof. by vm_compute. Qed.

(** with an empty list the size of the buffer is not looked at *)
Example rbb_alloc_beyond_buffer :
  ('(i, r) ← utils_rbb_blk_alloc 1000 ex0; Done (i, take 1 (blks r)))
  = Done (Some 0, [{| status := RBB_BLK_INITED; size := 1000; buf := 5000 |}]).
Proof. by vm_compute. Qed.

(** the first block of a queue is taken whatever the limit is *)
Example rbb_queue_beyond_limit :
  ('(n, q, r) ← utils_rbb_blk_queue_get 5 {| blocks := 9; blk_num := 9 |} ex3; Done (n, q)) = Done (10, {| blocks := 0; blk_num := 1 |}).
Proof. by vm_compute. Qed.
