(* ===== verification/Rftlv.v ===== *)
(** * The records of RF parameters: network/rfparam_adapter_tmp/rftlv/phy_rftlv.c

    A partition starts with 16 magic bytes; records with a type, a length (two bytes
    each) and a value follow, up to a record of type 0 or the end of the partition. *)
From S2P Require Import Prelude Bytes.

(** ** Definitions *)

Definition RFTLV_SIZE_HEAD1 : Z := 8.
Definition RFTLV_SIZE_HEAD : Z := 16.
Definition RFTLV_SIZE_TYPE : Z := 2.
Definition RFTLV_SIZE_LENGTH : Z := 2.
Definition RFTLV_SIZE_TL : Z := RFTLV_SIZE_TYPE + RFTLV_SIZE_LENGTH.
Definition RFTLV_SIZE_PARTION : Z := 2048.
Definition RFTLF_TYPE_MAGIC_FW_HEAD1 : Z := 0x4152415046524C42.
Definition RFTLF_TYPE_MAGIC_FW_HEAD2 : Z := 0x6B3162586B44364F.
Definition RFTLV_TYPE_INVALID : Z := 0.

(** an unsigned number of [n] bytes in memory, the lowest byte first; [mem] is the
    memory from the address of the partition on *)
Fixpoint read_le (n : nat) (mem : list Z) (o : Z) : outcome Z :=
  match n with
  | O => Done 0
  | S n => b ← aget mem o; x ← read_le n mem (o + 1); Done (b + 256 * x)
  end.

Definition rftlv_valid (mem : list Z) : outcome Z :=
  h1 ← read_le 8 mem 0;
  if RFTLF_TYPE_MAGIC_FW_HEAD1 =? h1 then
    h2 ← read_le 8 mem RFTLV_SIZE_HEAD1; if RFTLF_TYPE_MAGIC_FW_HEAD2 =? h2 then Done 1 else Done 0
  else Done 0.

(** the loop of [rftlv_get]; [o] is [addr_tmp - tlv_addr] *)
Fixpoint rftlv_get_loop (fuel : nat) (mem : list Z) (type value_len : Z) (value : list Z) (o : Z) : outcome (Z * list Z) :=
  match fuel with
  | O => NoFuel
  | S fuel =>
    if RFTLV_SIZE_PARTION - RFTLV_SIZE_TL <=? o then Done (-1, value)
    else
      type_tmp ← read_le 2 mem o;
      length_tmp ← read_le 2 mem (o + RFTLV_SIZE_TYPE);
      if type_tmp =? RFTLV_TYPE_INVALID then Done (-1, value)
      else if negb (type_tmp =? type) then rftlv_get_loop fuel mem type value_len value (u32 (o + (RFTLV_SIZE_TL + length_tmp)))
      else if value_len <? length_tmp then Done (0, value)
      else value ← memcpy value 0 mem (o + RFTLV_SIZE_TL) length_tmp; Done (1, value)
  end.
(** each turn passes four bytes at least *)
Definition get_fuel : nat := Z.to_nat RFTLV_SIZE_PARTION.
Definition rftlv_get (mem : list Z) (type value_len : Z) (value : option (list Z)) : outcome (Z * option (list Z)) :=
  match value with
  | Some v =>
    if RFTLV_TYPE_INVALID =? type then Done (-1, value)
    else '(r, v) ← rftlv_get_loop get_fuel mem type value_len v RFTLV_SIZE_HEAD; Done (r, Some v)
  | None => Done (-1, value)
  end.

(** ** A partition with records *)

Definition le16 (x : Z) : list Z := [x mod 256; x / 256].
Definition encode_record (r : Z * list Z) : list Z := le16 r.1 ++ le16 (zlen r.2) ++ r.2.
Definition encode (recs : list (Z * list Z)) : list Z := concat (encode_record <$> recs).
Definition record_ok (r : Z * list Z) : Prop := 0 < r.1 < 65536 /\ zlen r.2 < 65536.

Lemma read_le16 mem o x : 0 <= x < 65536 -> 0 <= o -> take 2 (drop (Z.to_nat o) mem) = le16 x -> read_le 2 mem o = Done x.
Proof.
  intros Hx Ho H. assert (H0 : mem !! Z.to_nat o = Some (x mod 256)).
  { rewrite <- (Nat.add_0_r (Z.to_nat o)), <- lookup_drop, <- (lookup_take_lt _ 2), H by lia. done. }
  assert (H1 : mem !! Z.to_nat (o + 1) = Some (x / 256)).
  { replace (Z.to_nat (o + 1)) with (Z.to_nat o + 1)%nat by lia. rewrite <- lookup_drop, <- (lookup_take_lt _ 2), H by lia. done. }
  cbn [read_le]. rewrite (aget_done _ _ _ Ho H0). cbn [mbind outcome_bind]. rewrite (aget_done mem (o + 1) _ ltac:(lia) H1).
  cbn [mbind outcome_bind]. f_equal. rewrite (Z.div_mod x 256) at 3 by lia. lia.
Qed.

Lemma drop_at {A} (pre l : list A) o : o = zlen pre -> drop (Z.to_nat o) (pre ++ l) = l.
Proof. intros ->. unfold zlen. rewrite Nat2Z.id. apply drop_app_length. Qed.

Lemma read_any n mem o : 0 <= o /\ o + Z.of_nat n <= Z.of_nat (length mem) -> exists x, read_le n mem o = Done x.
Proof.
  revert o. induction n as [|n IH]; intros o H; [by eexists|]. destruct (lookup_lt_is_Some_2 mem (Z.to_nat o)) as [b Hb]; [lia|].
  destruct (IH (o + 1)) as [x Hx]; [lia|]. exists (b + 256 * x). cbn [read_le]. rewrite (aget_done _ _ _ (proj1 H) Hb). cbn [mbind outcome_bind].
  by rewrite Hx.
Qed.
Ltac sizes := unfold RFTLV_SIZE_PARTION, RFTLV_SIZE_TL, RFTLV_SIZE_TYPE, RFTLV_SIZE_LENGTH, zlen in *; lia.

(** one turn of the search at a record *)
Lemma get_turn fuel pre r rest type value_len value o : record_ok r -> o = zlen pre -> o < RFTLV_SIZE_PARTION - RFTLV_SIZE_TL ->
  zlen r.2 <= zlen value \/ value_len < zlen r.2 \/ r.1 <> type ->
  rftlv_get_loop (S fuel) (pre ++ encode_record r ++ rest) type value_len value o =
    if r.1 =? type then if value_len <? zlen r.2 then Done (0, value) else Done (1, r.2 ++ drop (length r.2) value)
    else rftlv_get_loop fuel (pre ++ encode_record r ++ rest) type value_len value (o + zlen (encode_record r)).
Proof.
  intros [Ht Hl] -> Hlt Hv. destruct r as [t v]. cbn [fst snd] in *. cbn [rftlv_get_loop]. rewrite (proj2 (Z.leb_gt _ _)) by done.
  assert (Hz : forall {A} (l : list A), 0 <= zlen l) by (intros; unfold zlen; lia). pose proof (Hz _ pre). pose proof (Hz _ v).
  rewrite (read_le16 _ (zlen pre) t) by (lia || by rewrite drop_at). cbn [mbind outcome_bind].
  assert (Hd : forall k, 0 <= k -> drop (Z.to_nat (zlen pre + k)) (pre ++ encode_record (t, v) ++ rest) = drop (Z.to_nat k) (encode_record (t, v) ++ rest)).
  { intros k Hk. rewrite Z2Nat.inj_add, <- drop_drop by lia. by rewrite drop_at. }
  rewrite (read_le16 _ _ (zlen v)) by (lia || (unfold RFTLV_SIZE_TYPE; lia) || (rewrite Hd by done; reflexivity)). cbn [mbind outcome_bind].
  rewrite (proj2 (Z.eqb_neq t RFTLV_TYPE_INVALID)) by (unfold RFTLV_TYPE_INVALID; lia).
  assert (He : zlen (encode_record (t, v)) = 4 + zlen v) by (unfold zlen; cbn; rewrite ?length_app; cbn; lia).
  destruct (Z.eqb_spec t type) as [->|Hne]; cbn [negb].
  - destruct (Z.ltb_spec value_len (zlen v)); [done|]. unfold zlen in *. rewrite memcpy_done.
    + cbn [mbind outcome_bind]. rewrite (Hd RFTLV_SIZE_TL) by done. change (drop (Z.to_nat RFTLV_SIZE_TL) (encode_record (type, v) ++ rest)) with (v ++ rest).
      rewrite Z.add_0_l, Nat2Z.id, take_app_length. done.
    + done.
    + sizes.
    + lia.
    + lia.
    + rewrite !length_app. sizes.
  - rewrite He. f_equal. unfold u32, wrap. apply Z.mod_small. unfold RFTLV_SIZE_PARTION, RFTLV_SIZE_TL, RFTLV_SIZE_TYPE, RFTLV_SIZE_LENGTH in *. lia.
Qed.

(** ** Theorems *)

(** what [rftlv_get] answers for a list of records *)
Definition get_spec (recs : list (Z * list Z)) (type value_len : Z) (value : list Z) : outcome (Z * list Z) :=
  match list_find (fun r => r.1 = type) recs with
  | Some (_, r) => if value_len <? zlen r.2 then Done (0, value) else Done (1, r.2 ++ drop (length r.2) value)
  | None => Done (-1, value)
  end.

(** [rftlv_get] on a partition with records and an end mark: the value of the first
    record of the type, if it fits; the rest of the caller's buffer is kept. *)
Theorem rftlv_get_correct (hd : list Z) (recs : list (Z * list Z)) (rest : list Z) (type value_len : Z) (value : list Z)
  (Hhd : zlen hd = RFTLV_SIZE_HEAD) (Hrecs : Forall record_ok recs) (Hrest : 2 <= zlen rest)
  (Hfit : zlen hd + zlen (encode recs) <= RFTLV_SIZE_PARTION - RFTLV_SIZE_TL)
  (Htype : 0 < type) (Hlen : value_len <= zlen value) :
  rftlv_get (hd ++ encode recs ++ [0; 0] ++ rest) type value_len (Some value)
  = ('(r, v) ← get_spec recs type value_len value; Done (r, Some v)).
Proof.
  unfold rftlv_get. rewrite (proj2 (Z.eqb_neq RFTLV_TYPE_INVALID type)) by (unfold RFTLV_TYPE_INVALID; lia). f_equal. rewrite <- Hhd. clear Hhd.
  assert (Hf : RFTLV_SIZE_PARTION - zlen hd <= Z.of_nat get_fuel) by (change (Z.of_nat get_fuel) with RFTLV_SIZE_PARTION; unfold zlen; lia).
  revert hd Hfit Hf. generalize get_fuel. induction Hrecs as [|r recs Hr _ IH]; intros fuel hd Hfit Hf.
  - destruct fuel as [|fuel]; [exfalso; sizes|].
    change (encode [] ++ [0; 0] ++ rest) with ([0; 0] ++ rest). cbn [rftlv_get_loop]. destruct (_ <=? _); [done|].
    rewrite (read_le16 _ (zlen hd) 0) by (unfold zlen; (lia || by rewrite drop_at)). cbn [mbind outcome_bind].
    destruct (read_any 2 (hd ++ [0; 0] ++ rest) (zlen hd + RFTLV_SIZE_TYPE)) as [x ->]; [|done].
    rewrite !length_app. unfold zlen, RFTLV_SIZE_TYPE in *. cbn. lia.
  - destruct fuel as [|fuel]; [exfalso; sizes|]. change (encode (r :: recs)) with (encode_record r ++ encode recs) in *. rewrite <- app_assoc.
    assert (He : zlen (encode_record r ++ encode recs) = 4 + zlen r.2 + zlen (encode recs)) by (unfold zlen; rewrite length_app; cbn; lia).
    assert (He2 : zlen (hd ++ encode_record r) = zlen hd + (4 + zlen r.2)) by (unfold zlen; rewrite length_app; cbn; lia).
    rewrite get_turn; [|done|done|sizes|sizes]. unfold get_spec. cbn [list_find]. destruct (Z.eqb_spec r.1 type) as [->|Hne].
    + by rewrite decide_True.
    + rewrite decide_False by done. replace (zlen hd + zlen (encode_record r)) with (zlen (hd ++ encode_record r)) by (unfold zlen; rewrite length_app; lia).
      rewrite app_assoc, IH by (rewrite He2; sizes). unfold get_spec. by destruct (list_find _ recs) as [[? ?]|].
Qed.


Lemma read_range n mem o x : Forall byte_ok mem -> read_le n mem o = Done x -> 0 <= x < 256 ^ Z.of_nat n.
Proof.
  intros Hm. revert o x. induction n as [|n IH]; intros o x; [intros [= <-]; lia|]. cbn [read_le].
  intros (b & Hb & (y & Hy & [= <-])%bind_done)%bind_done. apply IH in Hy. unfold aget in Hb. case_decide; [|done].
  destruct (mem !! _) as [b'|] eqn:E; [|done]. injection Hb as ->. rewrite Forall_forall in Hm. apply list_elem_of_lookup_2, Hm in E.
  unfold byte_ok in E. rewrite Nat2Z.inj_succ, Z.pow_succ_r by lia. nia.
Qed.

(** whatever the bytes are, the search ends, within the partition and one value of it,
    and the caller's buffer keeps its length *)
Theorem rftlv_get_returns (mem : list Z) (type value_len : Z) (value : list Z) (Hbytes : Forall byte_ok mem)
  (Hmem : RFTLV_SIZE_PARTION + 65536 <= zlen mem) (Hlen : value_len <= zlen value) :
  exists r v, rftlv_get mem type value_len (Some value) = Done (r, Some v) /\ length v = length value /\ (r = 1 \/ (r = 0 \/ r = -1) /\ v = value).
Proof.
  unfold rftlv_get. destruct (_ =? type); [exists (-1), value; auto 10|].
  assert (G : forall fuel o, 0 <= o < 2 ^ 31 -> RFTLV_SIZE_PARTION - o <= Z.of_nat fuel -> (fuel <> 0)%nat -> exists r v,
    rftlv_get_loop fuel mem type value_len value o = Done (r, v) /\ length v = length value /\ (r = 1 \/ (r = 0 \/ r = -1) /\ v = value)).
  2: { destruct (G get_fuel RFTLV_SIZE_HEAD) as (r & v & -> & H); [done|done|done|]. by exists r, v. }
  induction fuel as [|fuel IH]; intros o Ho Hf Hf0; [done|]. clear Hf0. cbn [rftlv_get_loop].
  destruct (Z.leb_spec (RFTLV_SIZE_PARTION - RFTLV_SIZE_TL) o) as [_|Hlt]; [exists (-1), value; auto 10|].
  destruct (read_any 2 mem o) as [t Ht]; [sizes|]. rewrite Ht. cbn [mbind outcome_bind].
  destruct (read_any 2 mem (o + RFTLV_SIZE_TYPE)) as [l Hl]; [sizes|]. rewrite Hl. cbn [mbind outcome_bind].
  apply read_range in Hl; [|done]. change (256 ^ Z.of_nat 2) with 65536 in Hl. destruct (t =? _); [exists (-1), value; auto 10|].
  destruct (t =? type); cbn [negb].
  - destruct (Z.ltb_spec value_len l); [exists 0, value; auto 10|]. destruct (memcpy value 0 mem (o + RFTLV_SIZE_TL) l) as [v| |] eqn:E.
    + exists 1, v. split; [done|]. split; [by apply memcpy_length in E|by left].
    + rewrite memcpy_done in E by sizes. done.
    + rewrite memcpy_done in E by sizes. done.
  - assert (E : u32 (o + (RFTLV_SIZE_TL + l)) = o + 4 + l) by (unfold u32, wrap; rewrite Z.mod_small by sizes; sizes). rewrite E.
    apply IH; [sizes|sizes|]. intros ->. sizes.
Qed.

(** the start of the buffer of [rftlv_test] *)
Definition ex_partition : list Z :=
  [0x42; 0x4C; 0x52; 0x46; 0x50; 0x41; 0x52; 0x41; 0x4F; 0x36; 0x44; 0x6B; 0x58; 0x62; 0x31; 0x6B;
   0x01; 0x00; 0x02; 0x00; 0x11; 0x11; 0x02; 0x00; 0x05; 0x00; 0x22; 0x22; 0x22; 0x22; 0x22; 0x00; 0x00; 0x00; 0x00].
Example rftlv_finds : rftlv_get ex_partition 2 7 (Some [9; 9; 9; 9; 9; 9; 9]) = Done (1, Some [0x22; 0x22; 0x22; 0x22; 0x22; 9; 9]).
Proof. by vm_compute. Qed.
(** the magic number is that of [g_rftlv_buf] with the second half turned around *)
Example rftlv_magic : rftlv_valid ex_partition = Done 1.
Proof. by vm_compute. Qed.
(** so the buffer of the test, with the second half as it stands there, is not valid *)
Example rftlv_test_buffer_invalid :
  rftlv_valid [0x42; 0x4C; 0x52; 0x46; 0x50; 0x41; 0x52; 0x41; 0x6B; 0x31; 0x62; 0x58; 0x6B; 0x44; 0x36; 0x4F] = Done 0.
Proof. by vm_compute. Qed.
